(* ===== verification/_CoqProject ===== *)
-Q . S2P
Prelude.v
Utils.v
SdfErrno.v
SdfBuff.v
SdfDlist.v
SdfContainers.v
CmData.v
DtapEnv.v
DliLayer.v
DliCmd.v
DliData.v
DtapFrame.v
DtapFragment.v
DtapTrans.v
DtapQuota.v
DtapScheduler.v
DtapSchedStore.v
DtapSchedRun.v
DtapSchedLoop.v
DtapSchedDown.v
DtapSchedEvents.v
DtapSchedProps.v
DtapReliable.v
DtapReliableTx.v
DtapReliableRx.v
DtapReliableOrder.v
DtapReliableProps.v
DtapReliableEnd.v
DtapReliableSched.v
DtapBasic.v
DtapStream.v
DtapStreamProps.v
DtapStreamRun.v
DtapChannel.v
Dtap.v
DtapInv.v
DtapProps.v
DtapEvents.v
DtapMachine.v
DtapSafe.v
DevdSearch.v
DevdReport.v
DevdFilter.v
DevdSpec.v
DevdParse.v
DevdCache.v
DevdMatch.v
CmState.v
CmTcid.v
CmChannel.v
CmSignal.v
CmCache.v
CmDynTrans.v
CmCap.v
CmRecv.v
CmAccess.v
CmPackets.v
CmInv.v
CmQuiet.v
CmOps.v
CmNodes.v
CmActivate.v
CmHandlers.v
CmEntry.v
CmLinks.v
CmConnect.v
CmMachine.v
CmDtap.v
CmDemo.v
CmSafe.v
DevdSafe.v
