(* ===== verification/Prelude.v ===== *)
(** * The NearLink stack, verified: data plane, connection manager, device discovery

    ** What is modelled

    The NearLink service is a stack of C code ([services/stack/src]) under a C++
    service layer.  This development models the path a packet takes through the stack,
    from the upper layers to the controller and back; the part of the connection manager
    that sets up the channels this path runs over; what device discovery makes of the
    reports of a scan; and the data structures they rest on:

      - SDF, the foundation library: error numbers ([SdfErrno]), packet buffers
        ([SdfBuff]), intrusive doubly linked lists at the level of their pointers
        ([SdfDlist]), vectors and maps ([SdfContainers]); the checksum and the byte
        codecs ([Utils]);
      - DLI, the interface to the controller: its state ([DliLayer]), the queue of
        commands with its flow control and time-outs ([DliCmd], [dli_layer.c] and
        [dli_event.c]), the splitting of packets into fragments and their reassembly
        ([DliData]);
      - DTAP, the transport of data ([dp/dtap]): frames ([DtapFrame]), segmentation
        and aggregation ([DtapFragment]), what the transmission modes share
        ([DtapTrans]), reliable transmission with its two windows and three timers
        ([DtapReliable], with the proofs in [DtapReliableTx], [DtapReliableRx],
        [DtapReliableOrder], [DtapReliableProps] and, for both ends together,
        [DtapReliableEnd]), stream transmission with its reordering ([DtapStream],
        [DtapStreamProps], [DtapStreamRun]), basic and transparent transmission
        ([DtapBasic]), and the packet scheduler: quotas ([DtapQuota]), its state and
        operations ([DtapScheduler]), and the proofs in [DtapSchedStore] (queues and
        channels), [DtapSchedRun] (steps), [DtapSchedLoop] (the run), [DtapSchedDown]
        (removal), [DtapSchedEvents] (entry points), [DtapSchedProps] (theorems);
      - DTAP as a whole: the channels of all links and how they come and go
        ([DtapChannel], [dtap_channel.c]), the entry points ([Dtap], [dtap.c]), with the
        invariant ([DtapInv]), the operations on channels ([DtapProps]), data and
        timers ([DtapEvents]), all events together ([DtapMachine]) and the theorems
        ([DtapSafe]);
      - CM, the connection manager ([cp/bsl/sle/cm]), as far as transport channels go:
        its data ([CmData], [CmState]), the identifiers of channels ([CmTcid]), the list
        of channels ([CmChannel]), signaling packets ([CmSignal]) and the cache of
        requests that wait for a response ([CmCache]), the establishment, release and
        parameter handshakes ([CmDynTrans]), the exchange of capabilities ([CmCap]), the
        dispatch of received packets ([CmRecv]) and the links ([CmAccess]).  The proofs:
        packets ([CmPackets]), the invariant ([CmInv], [CmQuiet]), the operations on
        lists and nodes ([CmOps], [CmNodes]), activation ([CmActivate]), handlers
        ([CmHandlers]), entry points ([CmEntry]), links ([CmLinks], [CmConnect]); all
        events together ([CmMachine]), over the data plane ([CmDtap]), with examples
        ([CmDemo]) and the theorems ([CmSafe]);
      - device discovery ([cp/bsl/sle/devd]): the search for a pattern ([DevdSearch],
        [devd_scan_util.c]), the cache that joins an advertisement with its scan response
        and the parser of both formats ([DevdReport], [devd_report_parse.c]), and the scan
        filters, with their checks and copies ([DevdFilter], [devd_scan_filter.c] and
        [devd_scan_util.c]).  What a report means is written down independently of the
        code in [DevdSpec]; the proofs are in [DevdParse] (parser), [DevdCache] (cache),
        [DevdMatch] (filters) and [DevdSafe] (theorems).

    Definitions have the names of the C functions, types and fields they model.  A
    definition without a C name is a part of a function, mostly a loop, and stands
    before the function that uses it.

    ** How C is modelled

    A C integer is a [Z] with its conversions and wrap-around written out ([u8],
    [u16], [u32], [u64]).  A memory block is a list of bytes, a pointer into it an
    offset; a load or store outside the block is undefined behaviour.  Code over a
    mutable state is a computation of the monad [ST], which answers [None] for
    undefined behaviour: an access out of bounds, a null or dangling pointer, a loop
    that has not ended when its fuel is used up.  [wp m s Q] says that [m] runs from
    [s] to its end, without undefined behaviour, and that [Q] holds then; so every
    theorem stated with it includes safety and termination, and that the fuel given
    in the definition is enough.  One read of which C leaves the result open is not
    [None] but a value that the world picks: that of the last node of an empty list in
    stream mode ([DtapStream.last_txSeq]), which stays inside the channel's structure.

    What the code asks of the rest of the system (memory, timers, tasks, callbacks of
    the upper layers, the driver) is a [call] to a [World] ([DtapEnv]), which may
    answer anything.  The theorems hold for all worlds, hence for every pattern of
    failures, and speak of the trace of calls and answers.  Each component has its own
    state, over the state of the components below: a mode over the scheduler, the
    scheduler over the DLI layer, the connection manager over the data plane, and all
    over the world.

    ** Interfaces

    [DtapEnv.World] is the interface to the surroundings, and
    [DtapTrans.Scheduler] the one between a transmission mode and the scheduler: the
    theorems on the modes are proved against it, [DtapSchedProps] discharges it for the
    real scheduler, [DtapReliableSched] puts it under one reliable channel, and
    [DtapInv.FrameScheduler] under the channels of the module.  [CmState.Below] is what
    the connection manager uses of the data plane and [CmInv.BelowOk] what it relies on;
    [CmDtap] discharges both with the DTAP module.

    ** What the theorems show

      - Safety: no sequence of events, and no input of the peer, leads the DTAP module,
        one of its channels, the scheduler, the command queue, the connection manager or
        the handling of reports to undefined behaviour, and their invariants hold in every
        reachable state, within the assumptions below; an event about one channel leaves
        the others' links and modes alone.
      - Agreement: while memory suffices, the data plane has the channels that the
        connection manager has activated, and no others.
      - Delivery: the fragments of a stream arrive in the upper layer in order, once
        each and whole, however the network reorders and repeats them; a packet sent on a
        reliable channel is what the peer's upper layer gets; packets split by the DLI
        layer come out whole at the other end; frames and requests parse to what they
        were built from.
      - Scheduling: within the buffers of the controller and the quota of the link;
        nothing that could be sent waits; the quotas divide the buffers exactly; and
        while nothing fails the fragments of a link are sent in order without
        interleaving.
      - Handshakes: what a response or its absence does to the channel that waits for it,
        to its identifier and to the request.
      - Refinement: vectors, maps and lists implement lists and finite maps; the
        reassembler of the DLI layer implements a map from links to partial packets; the
        stream receiver a reorder buffer; the reports of device discovery are joined and
        understood as their specification says, and filtered accordingly.
      - Defects: where the code does not do what it means to, a lemma shows it
        ([DtapFragment.aggregate_retry_loses], [DtapFragment.fragment_retry_truncates],
        [DtapStreamRun.stream_loss_stalls], [DtapSafe.freed_channels_dangle],
        [DtapSafe.resume_drops_data], [DliCmd.erase_leaves_tail],
        [DliCmd.credit_race_wraps], [SdfDlist.dlist_move_empty_loses_node],
        [CmSafe.wrong_response_strands], [DevdSafe.stale_name_undefined]).

    ** Assumptions

      - The data plane is claimed safe as long as no report activates a channel that
        exists, a transparent channel is released by its own identifier, timers belong to
        live channels and a stop of the module stops the scheduler
        ([DtapMachine.dtap_event_ok], [DtapMachine.stops_cleanly]); what happens otherwise
        is [DtapSafe.freed_channels_dangle].
      - The theorems on the connection manager over the data plane take a step while the
        two agree on the channels ([CmInv.in_step]), as they do when memory suffices;
        the data plane stays initialised, callbacks change only while no channel depends
        on them, and no transparent channel is asked for ([CmMachine.event_ok]).
      - A callback does not call back into the stack before it returns.  Signaling that
        the receive callback of DTAP hands to the connection manager is an event of its
        own, after the one that received the packet, and so is the release that the
        manager of the quality of service asks for from its callback.
      - A task whose blocked post timed out may run later, as an event of its own
        ([DtapSchedProps.EvInitTask]).
      - The handles of links have twelve bits.

    ** Not modelled

    Logging and tracing; the freeing of memory, which has no effect on the states
    modelled; threads, whose interleavings appear as the order of the events and, in
    [DliCmd], as stores of the other thread between two steps.  Of the parts of the
    repository: the other modules of the control plane (quality of service, security,
    service management and discovery, ranging, advertising and the state machine of
    scanning, isochronous and concurrent connections), whose calls into the parts modelled
    appear as events; the configuration database, the workers, timers and threads of SDF
    and the encoders of DLI commands, which are pure plumbing around calls of the system;
    the audio profiles and the C++ service layer with its IPC. *)
From stdpp Require Export base list numbers option gmap.
From Stdlib Require Export ZArith Lia Bool.

#[global] Open Scope Z_scope.
#[global] Set Default Proof Using "Type".

(** ** Fixed-width C integers

    A C value of an unsigned type of width [w] is a [Z] in [0, 2^w); conversions
    and the arithmetic the code performs at that width wrap explicitly. *)
Definition u8 (z : Z) : Z := z mod 256.
Definition u16 (z : Z) : Z := z mod 65536.
Definition u32 (z : Z) : Z := z mod 4294967296.
Definition u64 (z : Z) : Z := z mod 18446744073709551616.

Definition is_u8 (z : Z) : Prop := 0 <= z < 256.
Definition is_u16 (z : Z) : Prop := 0 <= z < 65536.
Definition is_u32 (z : Z) : Prop := 0 <= z < 4294967296.
Definition is_u64 (z : Z) : Prop := 0 <= z < 18446744073709551616.

(** A byte string of the program: every element is a [uint8_t]. *)
Notation bytes := (list Z).
Definition bytes_ok (l : bytes) : Prop := Forall is_u8 l.

Notation zlen l := (Z.of_nat (length l)).

(** ** Field update

    [r <| f := v |>] is the record [r] with field [f] replaced.  A record type
    opts in with an [Eta] instance that rebuilds it from its projections; the
    setter of a projection is then computed from it. *)
Class Eta (R : Type) := eta : R -> R.
Class Setter {R T : Type} (proj : R -> T) := modify : (T -> T) -> R -> R.

Ltac build_setter proj :=
  match type of proj with
  | ?R -> ?T =>
      let inst := constr:(_ : Eta R) in
      let e := eval hnf in inst in
      exact (fun (setter_fn : T -> T) (setter_rec : R) =>
        ltac:(let body := eval cbv beta in (e setter_rec) in
              let pat := eval pattern (proj setter_rec) in body in
              match pat with
              | ?h _ => let out := eval cbv beta in (h (setter_fn (proj setter_rec))) in exact out
              end))
  end.

#[export] Hint Extern 1 (Setter ?proj) => build_setter proj : typeclass_instances.

Declare Scope record_scope.
#[global] Open Scope record_scope.
Notation "r <| f := v |>" := (modify (proj := f) (fun _ => v) r)
  (at level 12, f at level 10, v at level 200, left associativity,
   format "r  <|  f  :=  v  |>") : record_scope.
Notation "r <| f ::= g |>" := (modify (proj := f) g r)
  (at level 12, f at level 10, g at level 200, left associativity,
   format "r  <|  f  ::=  g  |>") : record_scope.

(** ** Memory blocks

    A C array is a list of bytes; a pointer into it is its offset.  [rd] is a
    one-byte load and is [None] outside the block, which is undefined behaviour
    in C; [mem_read] and [mem_write] are the bulk copies. *)
Definition rd (m : bytes) (off : Z) : option Z :=
  if decide (0 <= off) then m !! Z.to_nat off else None.

Definition mem_read (m : bytes) (off n : Z) : bytes :=
  take (Z.to_nat n) (drop (Z.to_nat off) m).

Definition mem_write (m : bytes) (off : Z) (d : bytes) : bytes :=
  take (Z.to_nat off) m ++ d ++ drop (Z.to_nat off + length d) m.

(** A bulk store, undefined when it leaves the block; [ld16] and [st16] are the
    16-bit accesses through a packed (unaligned) little-endian field. *)
Definition wr (m : bytes) (off : Z) (d : bytes) : option bytes :=
  if decide (0 <= off /\ off + zlen d <= zlen m) then Some (mem_write m off d) else None.

(** A bulk load, undefined when it leaves the block. *)
Definition rds (m : bytes) (off n : Z) : option bytes :=
  if decide (0 <= off /\ 0 <= n /\ off + n <= zlen m) then Some (mem_read m off n) else None.

Definition ld16 (m : bytes) (p : Z) : option Z :=
  b0 ← rd m p; b1 ← rd m (p + 1); Some (b0 + 256 * b1).
Definition st16 (m : bytes) (p v : Z) : option bytes := wr m p [u8 v; u8 (v / 256)].

(** Bit-fields of a C struct: [w] bits from bit [lo] of the storage unit [v]. *)
Definition bf_get (v lo w : Z) : Z := Z.land (Z.shiftr v lo) (Z.ones w).
Definition bf_set (v lo w x : Z) : Z :=
  Z.lor (Z.ldiff v (Z.shiftl (Z.ones w) lo)) (Z.shiftl (Z.land x (Z.ones w)) lo).
Definition set_bits8 (m : bytes) (p lo w x : Z) : option bytes :=
  v ← rd m p; wr m p [bf_set v lo w x].
Definition set_bits16 (m : bytes) (p lo w x : Z) : option bytes :=
  v ← ld16 m p; st16 m p (bf_set v lo w x).

(** ** State monad with undefined behaviour

    [ST S A] is C code over the mutable state [S]: it returns a value and the
    new state, or [None] when the code has undefined behaviour (a load or a
    store outside a block, a dereferenced null pointer) or does not finish
    within the fuel of a loop. *)
Definition ST (S A : Type) : Type := S -> option (A * S).

Definition st_ret {S A} (a : A) : ST S A := fun s => Some (a, s).
Definition st_bind {S A B} (m : ST S A) (k : A -> ST S B) : ST S B :=
  fun s => match m s with Some (a, s') => k a s' | None => None end.
Definition st_get {S} : ST S S := fun s => Some (s, s).
Definition st_gets {S A} (f : S -> A) : ST S A := fun s => Some (f s, s).
Definition st_modify {S} (f : S -> S) : ST S unit := fun s => Some (tt, f s).
Definition st_ub {S A} : ST S A := fun _ => None.
(** A pure computation with undefined behaviour, run in the monad. *)
Definition st_opt {S A} (o : option A) : ST S A :=
  fun s => match o with Some a => Some (a, s) | None => None end.

Declare Scope st_scope.
Delimit Scope st_scope with st.
#[global] Open Scope st_scope.
Notation "'let!' x := m 'in' k" := (st_bind m (fun x => k))
  (at level 10, x pattern, m at level 100, k at level 200,
   format "'[v' 'let!'  x  :=  m  'in' '/' k ']'") : st_scope.
Notation "m ;;! k" := (st_bind m (fun _ => k))
  (at level 199, right associativity, format "'[v' m  ;;! '/' k ']'") : st_scope.

(** Total correctness: [wp m s Q] says that [m] started in [s] has no undefined
    behaviour, terminates, and ends in a result and state satisfying [Q]. *)
Definition wp {S A} (m : ST S A) (s : S) (Q : A -> S -> Prop) : Prop :=
  match m s with Some (a, s') => Q a s' | None => False end.

(** Iterating a loop body at most [n] times; the body answers whether to go on. *)
Fixpoint st_while {S} (n : nat) (body : ST S bool) : ST S unit :=
  match n with
  | O => st_ub
  | Datatypes.S n' =>
      let! go := body in
      if (go : bool) then st_while n' body else st_ret tt
  end.

(** [for x in l] with a body that cannot break. *)
Fixpoint st_for {S A} (l : list A) (body : A -> ST S unit) : ST S unit :=
  match l with
  | [] => st_ret tt
  | x :: l' => body x ;;! st_for l' body
  end.

(** The first element satisfying a test, as the list search loops return it. *)
Fixpoint find_first {A} (p : A -> bool) (l : list A) : option A :=
  match l with
  | [] => None
  | x :: l' => if p x then Some x else find_first p l'
  end.

(** Removal of the first element satisfying a test. *)
Fixpoint remove_first {A} (p : A -> bool) (l : list A) : list A :=
  match l with
  | [] => []
  | x :: l' => if p x then l' else x :: remove_first p l'
  end.

(** Replacement of the first element satisfying a test. *)
Fixpoint update_first {A} (p : A -> bool) (f : A -> A) (l : list A) : list A :=
  match l with
  | [] => []
  | x :: l' => if p x then f x :: l' else x :: update_first p f l'
  end.

(** The sum of a measure over a list. *)
Definition zsum {A} (f : A -> Z) (l : list A) : Z := foldr (fun x s => f x + s) 0 l.
#[global] Arguments zsum : simpl never.

(** ** Lemmas: integers *)
Create HintDb cint.

Lemma u8_range z : is_u8 (u8 z).
Proof. apply Z.mod_pos_bound; lia. Qed.
Lemma u16_range z : is_u16 (u16 z).
Proof. apply Z.mod_pos_bound; lia. Qed.
Lemma u32_range z : is_u32 (u32 z).
Proof. apply Z.mod_pos_bound; lia. Qed.
Lemma u64_range z : is_u64 (u64 z).
Proof. apply Z.mod_pos_bound; lia. Qed.
Lemma u8_small z : is_u8 z -> u8 z = z.
Proof. apply Z.mod_small. Qed.
Lemma u16_small z : is_u16 z -> u16 z = z.
Proof. apply Z.mod_small. Qed.
Lemma u32_small z : is_u32 z -> u32 z = z.
Proof. apply Z.mod_small. Qed.
Lemma u64_small z : is_u64 z -> u64 z = z.
Proof. apply Z.mod_small. Qed.
#[export] Hint Resolve u8_range u16_range u32_range u64_range : cint.
#[export] Hint Rewrite u8_small u16_small u32_small u64_small
  using (unfold is_u8, is_u16, is_u32, is_u64 in *; lia) : cint.

(** Discharges a side condition on the range of a C integer. *)
Ltac cint := unfold is_u8, is_u16, is_u32, is_u64 in *; lia.

Lemma land_ones_mod z n : 0 <= n -> Z.land z (2 ^ n - 1) = z mod 2 ^ n.
Proof. intros. rewrite <- Z.land_ones by done. f_equal. rewrite Z.ones_equiv. lia. Qed.

(** Bit fields that do not overlap add up. *)
Lemma land_low_shiftl lo hi n :
  0 <= n -> 0 <= lo < 2 ^ n -> Z.land lo (Z.shiftl hi n) = 0.
Proof.
  intros Hn Hlo. apply Z.bits_inj'. intros i Hi. rewrite Z.land_spec, Z.bits_0.
  destruct (decide (i < n)).
  - rewrite Z.shiftl_spec_low by lia. by rewrite andb_false_r.
  - rewrite <- (Z.mod_small lo (2 ^ n)) by lia.
    rewrite Z.mod_pow2_bits_high by lia. done.
Qed.

Lemma lor_shiftl_add lo hi n :
  0 <= n -> 0 <= lo < 2 ^ n -> Z.lor lo (Z.shiftl hi n) = lo + hi * 2 ^ n.
Proof.
  intros Hn Hlo. rewrite <- Z.shiftl_mul_pow2 by done.
  rewrite <- Z.lxor_lor, Z.add_nocarry_lxor by (by apply land_low_shiftl). done.
Qed.

(** ** Lemmas: memory *)
Create HintDb mem.

Lemma rd_lookup m off : 0 <= off -> rd m off = m !! Z.to_nat off.
Proof. intros. unfold rd. by rewrite decide_True. Qed.

Lemma rd_is_Some m off : 0 <= off < zlen m -> exists b, rd m off = Some b.
Proof. intros. rewrite rd_lookup by lia. apply lookup_lt_is_Some. lia. Qed.

Lemma rd_byte m off b : bytes_ok m -> rd m off = Some b -> is_u8 b.
Proof.
  unfold rd. intros Hm. case_decide; [|done]. intros Hb.
  eapply Forall_lookup_1; eauto.
Qed.

Lemma length_mem_read m off n :
  0 <= off -> 0 <= n -> off + n <= zlen m -> zlen (mem_read m off n) = n.
Proof. intros. unfold mem_read. rewrite length_take, length_drop. lia. Qed.

Lemma length_mem_write m off d :
  0 <= off -> off + zlen d <= zlen m -> length (mem_write m off d) = length m.
Proof.
  intros. unfold mem_write. rewrite !length_app, length_take, length_drop. lia.
Qed.

Lemma mem_read_write_same m off d :
  0 <= off -> off + zlen d <= zlen m -> mem_read (mem_write m off d) off (zlen d) = d.
Proof.
  intros. unfold mem_read, mem_write.
  rewrite drop_app_ge by (rewrite length_take; lia).
  rewrite length_take, Nat.min_l by lia. rewrite Nat.sub_diag, drop_0, Nat2Z.id.
  by rewrite take_app_length.
Qed.

Lemma mem_read_app m off a b :
  0 <= off -> 0 <= a -> 0 <= b ->
  mem_read m off (a + b) = mem_read m off a ++ mem_read m (off + a) b.
Proof.
  intros. unfold mem_read. rewrite !Z2Nat.inj_add by lia.
  rewrite <- (drop_drop m (Z.to_nat a) (Z.to_nat off)).
  by rewrite take_take_drop.
Qed.

(** A write does not change what lies before it or after it. *)
Lemma mem_read_write_before m off d a n :
  0 <= a -> 0 <= n -> a + n <= off -> off <= zlen m ->
  mem_read (mem_write m off d) a n = mem_read m a n.
Proof.
  intros. unfold mem_read, mem_write.
  rewrite drop_app_le by (rewrite length_take; lia).
  rewrite take_app_le by (rewrite length_drop, length_take; lia).
  rewrite skipn_firstn_comm, take_take. f_equal. lia.
Qed.

Lemma mem_read_write_after m off d a n :
  0 <= off -> off + zlen d <= a -> off + zlen d <= zlen m ->
  mem_read (mem_write m off d) a n = mem_read m a n.
Proof.
  intros. unfold mem_read, mem_write. f_equal.
  rewrite drop_app_ge by (rewrite length_take; lia).
  rewrite length_take, Nat.min_l by lia.
  rewrite drop_app_ge by lia. rewrite drop_drop. f_equal. lia.
Qed.

Lemma bytes_ok_mem_read m off n : bytes_ok m -> bytes_ok (mem_read m off n).
Proof. intros. by apply Forall_take, Forall_drop. Qed.

Lemma bytes_ok_mem_write m off d :
  bytes_ok m -> bytes_ok d -> bytes_ok (mem_write m off d).
Proof.
  intros. apply Forall_app; split; [by apply Forall_take|].
  apply Forall_app; split; [done|by apply Forall_drop].
Qed.
#[export] Hint Resolve bytes_ok_mem_read bytes_ok_mem_write : mem.

(** Reading a byte of a slice. *)
Lemma rd_mem_read m off n i :
  0 <= off -> 0 <= i < n -> rd (mem_read m off n) i = rd m (off + i).
Proof.
  intros. rewrite !rd_lookup by lia. unfold mem_read.
  rewrite lookup_take_lt by lia. rewrite lookup_drop. f_equal. lia.
Qed.

Lemma rd_window m off L i :
  0 <= off -> off + zlen L <= zlen m -> 0 <= i < zlen L ->
  rd (mem_write m off L) (off + i) = rd L i.
Proof.
  intros. rewrite !rd_lookup by lia. unfold mem_write.
  rewrite lookup_app_r by (rewrite length_take; lia).
  rewrite length_take, lookup_app_l by lia. f_equal. lia.
Qed.

(** A store inside a written window is a store into the window's contents. *)
Lemma wr_window m off L i d :
  0 <= off -> off + zlen L <= zlen m -> 0 <= i -> i + zlen d <= zlen L ->
  wr (mem_write m off L) (off + i) d = Some (mem_write m off (mem_write L i d)).
Proof.
  intros. unfold wr. rewrite length_mem_write by lia. rewrite decide_True by lia. f_equal.
  pose proof (length_mem_write L i d ltac:(lia) ltac:(lia)) as Hl.
  assert (length (take (Z.to_nat off) m) = Z.to_nat off) as Ht by (rewrite length_take; lia).
  unfold mem_write at 1 2 3. rewrite Hl, Z2Nat.inj_add by lia.
  rewrite take_app_ge, drop_app_ge, Ht by lia.
  replace (Z.to_nat off + Z.to_nat i - Z.to_nat off)%nat with (Z.to_nat i) by lia.
  replace (Z.to_nat off + Z.to_nat i + length d - Z.to_nat off)%nat
    with (Z.to_nat i + length d)%nat by lia.
  rewrite take_app_le, drop_app_le by lia. unfold mem_write. by rewrite <- !app_assoc.
Qed.

Lemma mem_write_read m off n :
  0 <= off -> 0 <= n -> off + n <= zlen m -> mem_write m off (mem_read m off n) = m.
Proof.
  intros. unfold mem_write, mem_read. rewrite length_take, length_drop.
  rewrite Nat.min_l, <- drop_drop by lia. by rewrite !take_drop.
Qed.

(** The end and the start of a slice. *)
Lemma mem_read_drop m off n k :
  0 <= off -> 0 <= k <= n -> drop (Z.to_nat k) (mem_read m off n) = mem_read m (off + k) (n - k).
Proof.
  intros. unfold mem_read. rewrite skipn_firstn_comm, drop_drop. f_equal; [lia|f_equal; lia].
Qed.

Lemma mem_read_take m off n k :
  0 <= k <= n -> take (Z.to_nat k) (mem_read m off n) = mem_read m off k.
Proof. intros. unfold mem_read. rewrite take_take. f_equal. lia. Qed.

(** Bit-fields read back what was stored, and leave the others alone. *)
Lemma bf_set_testbit v lo w x i :
  0 <= lo -> 0 <= w -> 0 <= i ->
  Z.testbit (bf_set v lo w x) i =
    if decide (lo <= i < lo + w) then Z.testbit x (i - lo) else Z.testbit v i.
Proof.
  intros. unfold bf_set. rewrite Z.lor_spec, Z.ldiff_spec, !Z.shiftl_spec by lia.
  destruct (decide (i < lo)).
  - rewrite decide_False by lia. rewrite !(Z.testbit_neg_r _ (i - lo)) by lia.
    simpl. by rewrite andb_true_r, orb_false_r.
  - rewrite Z.land_spec, Z.testbit_ones by lia. case_decide.
    + replace (0 <=? i - lo) with true by (symmetry; apply Z.leb_le; lia).
      replace (i - lo <? w) with true by (symmetry; apply Z.ltb_lt; lia). simpl.
      by rewrite andb_false_r, andb_true_r.
    + replace (i - lo <? w) with false by (symmetry; apply Z.ltb_ge; lia).
      by rewrite andb_false_r, andb_true_r, andb_false_r, orb_false_r.
Qed.

Lemma bf_get_testbit v lo w i :
  0 <= lo -> 0 <= w -> 0 <= i ->
  Z.testbit (bf_get v lo w) i = (bool_decide (i < w) && Z.testbit v (lo + i))%bool.
Proof.
  intros. unfold bf_get. rewrite Z.land_spec, Z.shiftr_spec, Z.testbit_ones by lia.
  replace (0 <=? i) with true by (symmetry; apply Z.leb_le; lia). simpl.
  rewrite andb_comm, (Z.add_comm i). f_equal.
  case_bool_decide; [by apply Z.ltb_lt|by apply Z.ltb_ge, Z.nlt_ge].
Qed.

Lemma bf_get_range v lo w : 0 <= w -> 0 <= bf_get v lo w < 2 ^ w.
Proof.
  intros. unfold bf_get. rewrite Z.land_ones by done. apply Z.mod_pos_bound.
  by apply Z.pow_pos_nonneg.
Qed.

Lemma bf_get_set_same v lo w x :
  0 <= lo -> 0 <= w -> bf_get (bf_set v lo w x) lo w = Z.land x (Z.ones w).
Proof.
  intros. apply Z.bits_inj'. intros i Hi.
  rewrite bf_get_testbit, bf_set_testbit, Z.land_spec, Z.testbit_ones by lia.
  replace (0 <=? i) with true by (symmetry; apply Z.leb_le; lia). simpl.
  case_bool_decide.
  - rewrite decide_True by lia. replace (i <? w) with true by (symmetry; by apply Z.ltb_lt).
    rewrite andb_true_r. simpl. f_equal. lia.
  - replace (i <? w) with false by (symmetry; apply Z.ltb_ge; lia). by rewrite andb_false_r.
Qed.

Lemma bf_get_set_other v lo w x lo' w' :
  0 <= lo -> 0 <= w -> 0 <= lo' -> 0 <= w' -> (lo' + w' <= lo \/ lo + w <= lo') ->
  bf_get (bf_set v lo w x) lo' w' = bf_get v lo' w'.
Proof.
  intros. apply Z.bits_inj'. intros i Hi.
  rewrite !bf_get_testbit, bf_set_testbit by lia. case_bool_decide; [|done].
  by rewrite decide_False by lia.
Qed.

Lemma bf_set_range v lo w x n :
  0 <= lo -> 0 <= w -> lo + w <= n -> 0 <= v < 2 ^ n -> 0 <= bf_set v lo w x < 2 ^ n.
Proof.
  intros. assert (bf_set v lo w x = Z.land (bf_set v lo w x) (Z.ones n)) as ->.
  - apply Z.bits_inj'. intros i Hi. rewrite Z.land_spec, bf_set_testbit, Z.testbit_ones by lia.
    replace (0 <=? i) with true by (symmetry; apply Z.leb_le; lia). simpl.
    destruct (Z.ltb_spec i n); [by rewrite andb_true_r|].
    rewrite decide_False by lia. rewrite andb_false_r.
    rewrite <- (Z.mod_small v (2 ^ n)) by lia. by rewrite Z.mod_pow2_bits_high by lia.
  - rewrite Z.land_ones by lia. apply Z.mod_pos_bound. apply Z.pow_pos_nonneg; lia.
Qed.

(** Their arithmetic reading. *)
Lemma bf_get_arith v lo w : 0 <= lo -> 0 <= w -> bf_get v lo w = (v / 2 ^ lo) mod 2 ^ w.
Proof. intros. unfold bf_get. by rewrite Z.land_ones, Z.shiftr_div_pow2 by lia. Qed.

Lemma bf_set_arith v lo w x :
  0 <= lo -> 0 <= w -> bf_set v lo w x = v + (x mod 2 ^ w - bf_get v lo w) * 2 ^ lo.
Proof.
  intros Hlo Hw. pose proof (Z.pow_pos_nonneg 2 lo ltac:(lia) Hlo).
  pose proof (Z.pow_pos_nonneg 2 w ltac:(lia) Hw).
  pose proof (Z.mod_pos_bound v (2 ^ lo) ltac:(lia)).
  pose proof (Z.mod_pos_bound x (2 ^ w) ltac:(lia)).
  assert (v + (x mod 2 ^ w - bf_get v lo w) * 2 ^ lo
          = Z.lor (v mod 2 ^ lo)
              (Z.shiftl (Z.lor (x mod 2 ^ w) (Z.shiftl (v / 2 ^ (lo + w)) w)) lo)) as ->.
  { rewrite !lor_shiftl_add by lia. rewrite bf_get_arith, Z.pow_add_r, <- Z.div_div by lia.
    pose proof (Z.div_mod v (2 ^ lo) ltac:(lia)).
    pose proof (Z.div_mod (v / 2 ^ lo) (2 ^ w) ltac:(lia)). nia. }
  apply Z.bits_inj'. intros i Hi. rewrite bf_set_testbit by lia.
  rewrite !Z.lor_spec, Z.shiftl_spec, Z.lor_spec by lia.
  destruct (decide (i < lo)).
  - rewrite decide_False, Z.mod_pow2_bits_low by lia.
    rewrite !(Z.testbit_neg_r _ (i - lo)) by lia. by rewrite !orb_false_r.
  - rewrite (Z.mod_pow2_bits_high v) by lia. simpl. case_decide.
    + rewrite Z.mod_pow2_bits_low, Z.shiftl_spec_low by lia. by rewrite orb_false_r.
    + rewrite Z.mod_pow2_bits_high, Z.shiftl_spec, Z.div_pow2_bits by lia. simpl. f_equal. lia.
Qed.

Lemma ones_land_small x w : 0 <= w -> 0 <= x < 2 ^ w -> Z.land x (Z.ones w) = x.
Proof. intros. rewrite Z.land_ones by done. by apply Z.mod_small. Qed.

(** ** Lemmas: weakest preconditions *)
Create HintDb wp.

Section wp_rules.
Context {S : Type}.
Implicit Types s : S.

Lemma wp_ret {A} (a : A) s (Q : A -> S -> Prop) : Q a s -> wp (st_ret a) s Q.
Proof. done. Qed.

Lemma wp_bind {A B} (m : ST S A) (k : A -> ST S B) s Q :
  wp m s (fun a s' => wp (k a) s' Q) -> wp (st_bind m k) s Q.
Proof. unfold wp, st_bind. by destruct (m s) as [[a s']|]. Qed.

Lemma wp_gets {A} (f : S -> A) s (Q : A -> S -> Prop) : Q (f s) s -> wp (st_gets f) s Q.
Proof. done. Qed.

Lemma wp_get s (Q : S -> S -> Prop) : Q s s -> wp st_get s Q.
Proof. done. Qed.

Lemma wp_modify (f : S -> S) s (Q : unit -> S -> Prop) : Q tt (f s) -> wp (st_modify f) s Q.
Proof. done. Qed.

Lemma wp_opt {A} (o : option A) a s (Q : A -> S -> Prop) :
  o = Some a -> Q a s -> wp (st_opt o) s Q.
Proof. intros -> HQ. exact HQ. Qed.

Lemma wp_mono {A} (m : ST S A) s (Q R : A -> S -> Prop) :
  wp m s Q -> (forall a s', Q a s' -> R a s') -> wp m s R.
Proof. unfold wp. destruct (m s) as [[a s']|]; naive_solver. Qed.

Lemma wp_conj {A} (m : ST S A) s (Q R : A -> S -> Prop) :
  wp m s Q -> wp m s R -> wp m s (fun a s' => Q a s' /\ R a s').
Proof. unfold wp. destruct (m s) as [[a s']|]; naive_solver. Qed.

(** [wp] is what a run produces. *)
Lemma wp_run {A} (m : ST S A) s Q :
  wp m s Q <-> exists a s', m s = Some (a, s') /\ Q a s'.
Proof.
  unfold wp. destruct (m s) as [[a s']|]; split; [eauto| |done|].
  - intros (?&?&[=<- <-]&?). done.
  - by intros (?&?&?&?).
Qed.

(** Loop rule for [st_for]: an invariant indexed by the elements left. *)
Lemma wp_for {A} (I : list A -> S -> Prop) (l : list A) body s (Q : unit -> S -> Prop) :
  I l s ->
  (forall x l' s', I (x :: l') s' -> wp (body x) s' (fun _ s'' => I l' s'')) ->
  (forall s', I [] s' -> Q tt s') ->
  wp (st_for l body) s Q.
Proof.
  intros HI Hstep Hend. revert s HI. induction l as [|x l IH]; intros s HI; simpl.
  - by apply wp_ret, Hend.
  - apply wp_bind. eapply wp_mono; [by apply Hstep|]. intros [] s1 H1. by apply IH.
Qed.
End wp_rules.

(** One step of symbolic execution of a monadic program. *)
Ltac wp_step :=
  match goal with
  | |- wp (st_bind _ _) _ _ => apply wp_bind
  | |- wp (st_ret _) _ _ => apply wp_ret
  | |- wp (st_gets _) _ _ => apply wp_gets
  | |- wp st_get _ _ => apply wp_get
  | |- wp (st_modify _) _ _ => apply wp_modify
  | |- wp (let '(_, _) := ?x in _) _ _ => destruct x eqn:?
  | |- wp (if decide ?P then _ else _) _ _ => destruct (decide P)
  | |- wp (if ?b then _ else _) _ _ => destruct b eqn:?
  end.
Ltac wp_steps := repeat (wp_step; cbv beta).

(** ** Lemmas: list searches *)
Section searches.
Context {A : Type}.
Implicit Types (p : A -> bool) (l : list A).

Lemma find_first_Some p l x :
  find_first p l = Some x -> x ∈ l /\ p x = true.
Proof.
  induction l as [|y l IH]; simpl; [done|]. destruct (p y) eqn:E.
  - intros [=->]. split; [constructor|done].
  - intros H. destruct (IH H). split; [by constructor|done].
Qed.

Lemma find_first_None p l :
  find_first p l = None <-> Forall (fun x => p x = false) l.
Proof.
  induction l as [|y l IH]; simpl; [by split|]. destruct (p y) eqn:E.
  - split; [done|]. rewrite Forall_cons. intros [? ?]. congruence.
  - rewrite Forall_cons, <- IH. naive_solver.
Qed.

(** The first hit splits the list. *)
Lemma find_first_split p l x :
  find_first p l = Some x ->
  exists l1 l2, l = l1 ++ x :: l2 /\ Forall (fun y => p y = false) l1 /\ p x = true.
Proof.
  induction l as [|y l IH]; simpl; [done|]. destruct (p y) eqn:E.
  - intros [=->]. exists [], l. naive_solver.
  - intros (l1&l2&->&H1&H2)%IH. exists (y :: l1), l2. naive_solver.
Qed.

Lemma remove_first_split p l1 x l2 :
  Forall (fun y => p y = false) l1 -> p x = true ->
  remove_first p (l1 ++ x :: l2) = l1 ++ l2.
Proof.
  induction 1 as [|y l1 Hy H IH]; simpl; intros Hx; [by rewrite Hx|].
  rewrite Hy. f_equal. by apply IH.
Qed.

Lemma update_first_split p f l1 x l2 :
  Forall (fun y => p y = false) l1 -> p x = true ->
  update_first p f (l1 ++ x :: l2) = l1 ++ f x :: l2.
Proof.
  induction 1 as [|y l1 Hy H IH]; simpl; intros Hx; [by rewrite Hx|].
  rewrite Hy. f_equal. by apply IH.
Qed.

Lemma remove_first_none p l :
  Forall (fun y => p y = false) l -> remove_first p l = l.
Proof. induction 1 as [|y l Hy H IH]; simpl; [done|]. by rewrite Hy, IH. Qed.

Lemma update_first_none p f l :
  Forall (fun y => p y = false) l -> update_first p f l = l.
Proof. induction 1 as [|y l Hy H IH]; simpl; [done|]. by rewrite Hy, IH. Qed.

Lemma length_update_first p f l : length (update_first p f l) = length l.
Proof. induction l as [|y l IH]; simpl; [done|]. destruct (p y); simpl; by rewrite ?IH. Qed.

Lemma remove_first_sub p l : remove_first p l `sublist_of` l.
Proof. induction l as [|n l IH]; simpl; [constructor|]. destruct (p n); by constructor. Qed.

Lemma Forall_sub (P : A -> Prop) l l' : l' `sublist_of` l -> Forall P l -> Forall P l'.
Proof. induction 1; rewrite ?Forall_cons; naive_solver. Qed.

Lemma map_sub {B} (f : A -> B) l l' : l' `sublist_of` l -> map f l' `sublist_of` map f l.
Proof. induction 1; simpl; by constructor. Qed.
End searches.

(** ** Lemmas: sums *)
Section sums.
Context {A : Type}.
Implicit Types (f g : A -> Z) (l : list A).

Lemma zsum_nil f : zsum f [] = 0.
Proof. done. Qed.
Lemma zsum_cons f x l : zsum f (x :: l) = f x + zsum f l.
Proof. done. Qed.
Lemma zsum_app f l1 l2 : zsum f (l1 ++ l2) = zsum f l1 + zsum f l2.
Proof. unfold zsum. induction l1 as [|x l1 IH]; simpl; [done|]. rewrite IH. lia. Qed.
Lemma zsum_ext f g l : (forall x, x ∈ l -> f x = g x) -> zsum f l = zsum g l.
Proof.
  induction l as [|x l IH]; intros Hfg; [done|]. rewrite !zsum_cons, IH, Hfg; [done|constructor|].
  intros y Hy. apply Hfg. by constructor.
Qed.
Lemma zsum_le f g l : (forall x, x ∈ l -> f x <= g x) -> zsum f l <= zsum g l.
Proof.
  induction l as [|x l IH]; intros Hfg; [done|]. rewrite !zsum_cons.
  pose proof (Hfg x ltac:(by constructor)). pose proof (IH ltac:(intros y Hy; apply Hfg; by constructor)). lia.
Qed.
Lemma zsum_add f g l : zsum (fun x => f x + g x) l = zsum f l + zsum g l.
Proof. induction l as [|x l IH]; [done|]. rewrite !zsum_cons, IH. lia. Qed.
Lemma zsum_scale c f l : zsum (fun x => c * f x) l = c * zsum f l.
Proof. induction l as [|x l IH]; [rewrite !zsum_nil; lia|]. rewrite !zsum_cons, IH. lia. Qed.
Lemma zsum_const c l : zsum (fun _ => c) l = c * zlen l.
Proof. induction l as [|x l IH]; simpl length; [rewrite zsum_nil; lia|]. rewrite zsum_cons, IH. lia. Qed.
Lemma zsum_nonneg f l : (forall x, x ∈ l -> 0 <= f x) -> 0 <= zsum f l.
Proof. intros Hf. pose proof (zsum_le (fun _ => 0) f l Hf) as H. by rewrite zsum_const in H. Qed.
Lemma zsum_elem f l x : (forall y, y ∈ l -> 0 <= f y) -> x ∈ l -> f x <= zsum f l.
Proof.
  intros Hf (l1&l2&->)%list_elem_of_split. rewrite zsum_app, zsum_cons.
  assert (0 <= zsum f l1 /\ 0 <= zsum f l2) as [??]; [|lia].
  split; apply zsum_nonneg; intros y Hy; apply Hf, elem_of_app; [by left|right; by constructor].
Qed.
Lemma zsum_perm f l1 l2 : l1 ≡ₚ l2 -> zsum f l1 = zsum f l2.
Proof.
  induction 1 as [|x k1 k2 _ IH|x y k|k1 k2 k3 _ IH1 _ IH2]; [done|..].
  - by rewrite !zsum_cons, IH.
  - rewrite !zsum_cons. lia.
  - by rewrite IH1.
Qed.
Lemma zsum_alter f (h : A -> A) l i x :
  l !! i = Some x -> zsum f (alter h i l) = zsum f l - f x + f (h x).
Proof.
  revert i. induction l as [|y l IH]; intros [|i] Hi; try done.
  - injection Hi as ->. change (alter h 0%nat (x :: l)) with (h x :: l). rewrite !zsum_cons. lia.
  - change (alter h (S i) (y :: l)) with (y :: alter h i l). rewrite !zsum_cons, IH by done. lia.
Qed.
Lemma zsum_update_first f p (h : A -> A) l x :
  find_first p l = Some x -> zsum f (update_first p h l) = zsum f l - f x + f (h x).
Proof.
  intros (l1&l2&->&Hl1&Hx)%find_first_split. rewrite update_first_split by done.
  rewrite !zsum_app, !zsum_cons. lia.
Qed.
Lemma zsum_remove_first f p l x :
  find_first p l = Some x -> zsum f (remove_first p l) = zsum f l - f x.
Proof.
  intros (l1&l2&->&Hl1&Hx)%find_first_split. rewrite remove_first_split by done.
  rewrite !zsum_app, !zsum_cons. lia.
Qed.
Lemma zsum_map {B} (h : B -> A) f (l : list B) : zsum f (map h l) = zsum (fun x => f (h x)) l.
Proof. induction l as [|x l IH]; [done|]. cbn [map]. by rewrite !zsum_cons, IH. Qed.
Lemma zsum_Forall2 {B} f (g : B -> Z) l (l' : list B) :
  Forall2 (fun a b => f a = g b) l l' -> zsum f l = zsum g l'.
Proof. induction 1 as [|a b k k' Hab _ IH]; [done|]. by rewrite !zsum_cons, Hab, IH. Qed.
End sums.

(** Closes a fact about closed values by computing it. *)
Ltac closed_fact :=
  vm_compute; repeat match goal with |- _ /\ _ => split | |- Forall _ _ => constructor end;
  first [reflexivity | discriminate | done].
