(* ===== verification/Utils.v ===== *)
(** * Stack utilities: byte codec and CRC-16

    [services/stack/src/utils]: the little-endian codec macros of
    [include/byte_codec.h] and the table-driven CRC of [src/crc16.c], with the
    bit-serial CRC it implements as the reference. *)
From S2P Require Import Prelude.

Module ByteCodec.
(** [DECODE2BYTE_LITTLE] on a pointer [p] into the block [m]. *)
Definition DECODE2BYTE_LITTLE (m : bytes) (p : Z) : option Z :=
  b0 ← rd m p; b1 ← rd m (p + 1);
  Some (u16 (Z.lor b0 (Z.shiftl b1 8))).

(** [ENCODE2BYTE_LITTLE]: the two bytes the macro stores at its pointer. *)
Definition ENCODE2BYTE_LITTLE (data : Z) : bytes :=
  [u8 data; u8 (Z.shiftr (u16 data) 8)].

Lemma length_encode2 d : length (ENCODE2BYTE_LITTLE d) = 2%nat.
Proof. done. Qed.

Lemma encode2_bytes_ok d : bytes_ok (ENCODE2BYTE_LITTLE d).
Proof. repeat constructor; apply u8_range. Qed.
#[export] Hint Resolve encode2_bytes_ok : mem.

(** The codec inverts itself on every 16-bit value. *)
Lemma decode_encode2 d :
  Z.lor (u8 d) (Z.shiftl (u8 (Z.shiftr (u16 d) 8)) 8) = u16 d.
Proof.
  pose proof (u8_range d). rewrite lor_shiftl_add by (unfold is_u8 in *; lia).
  rewrite Z.shiftr_div_pow2 by lia. unfold u8, u16.
  change (2 ^ 8) with 256. Z.div_mod_to_equations; lia.
Qed.

Lemma decode2_of_bytes b0 b1 :
  is_u8 b0 -> is_u8 b1 -> u16 (Z.lor b0 (Z.shiftl b1 8)) = b0 + 256 * b1.
Proof.
  intros. rewrite lor_shiftl_add by cint. change (2 ^ 8) with 256.
  rewrite u16_small by cint. lia.
Qed.
End ByteCodec.
Export ByteCodec.

Module Crc16.
(** The table of [crc16.c]. *)
Definition CRC16_TABLE : list Z :=
  [0x0000; 0xC0C1; 0xC181; 0x0140; 0xC301; 0x03C0; 0x0280; 0xC241;
   0xC601; 0x06C0; 0x0780; 0xC741; 0x0500; 0xC5C1; 0xC481; 0x0440;
   0xCC01; 0x0CC0; 0x0D80; 0xCD41; 0x0F00; 0xCFC1; 0xCE81; 0x0E40;
   0x0A00; 0xCAC1; 0xCB81; 0x0B40; 0xC901; 0x09C0; 0x0880; 0xC841;
   0xD801; 0x18C0; 0x1980; 0xD941; 0x1B00; 0xDBC1; 0xDA81; 0x1A40;
   0x1E00; 0xDEC1; 0xDF81; 0x1F40; 0xDD01; 0x1DC0; 0x1C80; 0xDC41;
   0x1400; 0xD4C1; 0xD581; 0x1540; 0xD701; 0x17C0; 0x1680; 0xD641;
   0xD201; 0x12C0; 0x1380; 0xD341; 0x1100; 0xD1C1; 0xD081; 0x1040;
   0xF001; 0x30C0; 0x3180; 0xF141; 0x3300; 0xF3C1; 0xF281; 0x3240;
   0x3600; 0xF6C1; 0xF781; 0x3740; 0xF501; 0x35C0; 0x3480; 0xF441;
   0x3C00; 0xFCC1; 0xFD81; 0x3D40; 0xFF01; 0x3FC0; 0x3E80; 0xFE41;
   0xFA01; 0x3AC0; 0x3B80; 0xFB41; 0x3900; 0xF9C1; 0xF881; 0x3840;
   0x2800; 0xE8C1; 0xE981; 0x2940; 0xEB01; 0x2BC0; 0x2A80; 0xEA41;
   0xEE01; 0x2EC0; 0x2F80; 0xEF41; 0x2D00; 0xEDC1; 0xEC81; 0x2C40;
   0xE401; 0x24C0; 0x2580; 0xE541; 0x2700; 0xE7C1; 0xE681; 0x2640;
   0x2200; 0xE2C1; 0xE381; 0x2340; 0xE101; 0x21C0; 0x2080; 0xE041;
   0xA001; 0x60C0; 0x6180; 0xA141; 0x6300; 0xA3C1; 0xA281; 0x6240;
   0x6600; 0xA6C1; 0xA781; 0x6740; 0xA501; 0x65C0; 0x6480; 0xA441;
   0x6C00; 0xACC1; 0xAD81; 0x6D40; 0xAF01; 0x6FC0; 0x6E80; 0xAE41;
   0xAA01; 0x6AC0; 0x6B80; 0xAB41; 0x6900; 0xA9C1; 0xA881; 0x6840;
   0x7800; 0xB8C1; 0xB981; 0x7940; 0xBB01; 0x7BC0; 0x7A80; 0xBA41;
   0xBE01; 0x7EC0; 0x7F80; 0xBF41; 0x7D00; 0xBDC1; 0xBC81; 0x7C40;
   0xB401; 0x74C0; 0x7580; 0xB541; 0x7700; 0xB7C1; 0xB681; 0x7640;
   0x7200; 0xB2C1; 0xB381; 0x7340; 0xB101; 0x71C0; 0x7080; 0xB041;
   0x5000; 0x90C1; 0x9181; 0x5140; 0x9301; 0x53C0; 0x5280; 0x9241;
   0x9601; 0x56C0; 0x5780; 0x9741; 0x5500; 0x95C1; 0x9481; 0x5440;
   0x9C01; 0x5CC0; 0x5D80; 0x9D41; 0x5F00; 0x9FC1; 0x9E81; 0x5E40;
   0x5A00; 0x9AC1; 0x9B81; 0x5B40; 0x9901; 0x59C0; 0x5880; 0x9841;
   0x8801; 0x48C0; 0x4980; 0x8941; 0x4B00; 0x8BC1; 0x8A81; 0x4A40;
   0x4E00; 0x8EC1; 0x8F81; 0x4F40; 0x8D01; 0x4DC0; 0x4C80; 0x8C41;
   0x4400; 0x84C1; 0x8581; 0x4540; 0x8701; 0x47C0; 0x4680; 0x8641;
   0x8201; 0x42C0; 0x4380; 0x8341; 0x4100; 0x81C1; 0x8081; 0x4040].

(** [CRC16_TABLE[i]] *)
Definition table_at (i : Z) : Z := nth (Z.to_nat i) CRC16_TABLE 0.

Definition CRC16Byte (crc data : Z) : Z :=
  Z.lxor (Z.shiftr crc 8) (table_at (Z.land (Z.lxor crc data) 255)).

Fixpoint CRC16 (crc : Z) (buffer : bytes) : Z :=
  match buffer with
  | [] => crc
  | b :: rest => CRC16 (CRC16Byte crc b) rest
  end.

(** The reference: one step of the reflected bit-serial CRC with the polynomial
    x^16 + x^15 + x^2 + 1 (0x8005, reflected 0xA001). *)
Definition bit_step (c : Z) : Z :=
  if Z.odd c then Z.lxor (Z.shiftr c 1) 0xA001 else Z.shiftr c 1.

Definition byte_step (crc data : Z) : Z :=
  Nat.iter 8 bit_step (Z.lxor crc data).

Definition crc_serial (crc : Z) (buffer : bytes) : Z := fold_left byte_step buffer crc.

(** ** Linearity of the bit-serial step *)
Lemma bit_step_lxor a b :
  bit_step (Z.lxor a b) = Z.lxor (bit_step a) (bit_step b).
Proof.
  unfold bit_step. rewrite <- !Z.bit0_odd, Z.lxor_spec, !Z.bit0_odd, Z.shiftr_lxor.
  destruct (Z.odd a), (Z.odd b); simpl;
    apply Z.bits_inj'; intros i Hi; rewrite !Z.lxor_spec;
    destruct (Z.testbit (Z.shiftr a 1) i), (Z.testbit (Z.shiftr b 1) i),
      (Z.testbit 0xA001 i); done.
Qed.

Lemma iter_bit_step_lxor n a b :
  Nat.iter n bit_step (Z.lxor a b) = Z.lxor (Nat.iter n bit_step a) (Nat.iter n bit_step b).
Proof. induction n as [|n IH]; simpl; [done|]. by rewrite IH, bit_step_lxor. Qed.

Lemma bit_step_shiftl h : bit_step (Z.shiftl h 1) = h.
Proof.
  unfold bit_step. rewrite <- Z.bit0_odd, Z.shiftl_spec_low by lia.
  by rewrite Z.shiftr_shiftl_l, Z.shiftl_0_r by lia.
Qed.

Lemma iter_bit_step_shiftl n h :
  Nat.iter n bit_step (Z.shiftl h (Z.of_nat n)) = h.
Proof.
  revert h. induction n as [|n IH]; intros h; [apply Z.shiftl_0_r|].
  rewrite Nat.iter_succ. 
  replace (Z.shiftl h (Z.of_nat (S n))) with (Z.shiftl (Z.shiftl h 1) (Z.of_nat n)).
  - rewrite IH. apply bit_step_shiftl.
  - rewrite Z.shiftl_shiftl by lia. f_equal. lia.
Qed.

(** Every index of the table, checked by computation. *)
Definition byte_values : list Z := seqZ 0 256.

Lemma byte_values_in i : is_u8 i -> i ∈ byte_values.
Proof. intros. apply elem_of_seqZ. cint. Qed.

Lemma forallb_bytes (f : Z -> bool) :
  forallb f byte_values = true -> forall i, is_u8 i -> f i = true.
Proof.
  intros H i Hi. rewrite forallb_forall in H. apply H.
  apply list_elem_of_In, byte_values_in, Hi.
Qed.

Lemma table_serial i : is_u8 i -> table_at i = Nat.iter 8 bit_step i.
Proof.
  intros Hi. apply Z.eqb_eq.
  apply (forallb_bytes (fun i => table_at i =? Nat.iter 8 bit_step i)); [|done].
  vm_compute. reflexivity.
Qed.

Lemma table_range i : is_u8 i -> is_u16 (table_at i).
Proof.
  intros Hi.
  assert (((0 <=? table_at i) && (table_at i <? 65536))%bool = true) as H.
  { apply (forallb_bytes (fun i => (0 <=? table_at i) && (table_at i <? 65536))%bool);
      [vm_compute; reflexivity|done]. }
  apply andb_prop in H as [H1%Z.leb_le H2%Z.ltb_lt]. cint.
Qed.

Lemma index_range c b : is_u8 (Z.land (Z.lxor c b) 255).
Proof. change 255 with (2 ^ 8 - 1). rewrite land_ones_mod by lia. apply u8_range. Qed.

(** A word is its low byte and the rest. *)
Lemma split_byte x : 0 <= x -> x = Z.lxor (Z.land x 255) (Z.shiftl (Z.shiftr x 8) 8).
Proof.
  intros. change 255 with (2 ^ 8 - 1). rewrite land_ones_mod by lia.
  assert (0 <= x mod 2 ^ 8 < 2 ^ 8) by (apply Z.mod_pos_bound; lia).
  rewrite Z.lxor_lor, lor_shiftl_add by (try apply land_low_shiftl; lia).
  rewrite Z.shiftr_div_pow2 by lia. change (2 ^ 8) with 256. Z.div_mod_to_equations; lia.
Qed.

Lemma CRC16Byte_serial crc b :
  0 <= crc -> is_u8 b -> CRC16Byte crc b = byte_step crc b.
Proof.
  intros Hc Hb. unfold CRC16Byte, byte_step.
  assert (0 <= Z.lxor crc b) as Hx by (apply Z.lxor_nonneg; cint).
  rewrite (split_byte (Z.lxor crc b) Hx) at 2.
  rewrite iter_bit_step_lxor, (iter_bit_step_shiftl 8), <- table_serial by apply index_range.
  rewrite Z.shiftr_lxor. rewrite Z.lxor_comm. f_equal.
  rewrite (Z.shiftr_div_pow2 b) by lia. rewrite Z.div_small by cint. by rewrite Z.lxor_0_r.
Qed.

Lemma CRC16Byte_range crc b : is_u16 crc -> is_u8 b -> is_u16 (CRC16Byte crc b).
Proof.
  intros Hc Hb. unfold CRC16Byte.
  pose proof (table_range _ (index_range crc b)) as Ht.
  assert (is_u16 (Z.shiftr crc 8)) as Hs.
  { rewrite Z.shiftr_div_pow2 by lia. unfold is_u16 in *. change (2 ^ 8) with 256.
    Z.div_mod_to_equations; lia. }
  assert (0 <= Z.lxor (Z.shiftr crc 8) (table_at (Z.land (Z.lxor crc b) 255)))
    by (apply Z.lxor_nonneg; cint).
  split; [done|].
  destruct (decide (Z.lxor (Z.shiftr crc 8) (table_at (Z.land (Z.lxor crc b) 255)) = 0)); [lia|].
  apply (Z.log2_lt_pow2 _ 16); [lia|].
  eapply Z.le_lt_trans; [apply Z.log2_lxor; cint|].
  apply Z.max_lub_lt.
  - destruct (decide (Z.shiftr crc 8 = 0)) as [->|]; [done|]. apply Z.log2_lt_pow2; cint.
  - destruct (decide (table_at (Z.land (Z.lxor crc b) 255) = 0)) as [->|]; [done|].
    apply Z.log2_lt_pow2; cint.
Qed.

Lemma CRC16_range crc l : is_u16 crc -> bytes_ok l -> is_u16 (CRC16 crc l).
Proof.
  intros Hc Hl. revert crc Hc. induction Hl as [|b l Hb Hl IH]; intros crc Hc; simpl; [done|].
  by apply IH, CRC16Byte_range.
Qed.

Lemma CRC16_app crc l1 l2 : CRC16 crc (l1 ++ l2) = CRC16 (CRC16 crc l1) l2.
Proof. revert crc. induction l1 as [|b l1 IH]; intros crc; simpl; [done|]. apply IH. Qed.

(** C38. The table-driven CRC computes the bit-serial CRC of polynomial 0x8005 on
    every message and from every initial value. *)
Theorem crc16_table_is_bit_serial crc l :
  is_u16 crc -> bytes_ok l -> CRC16 crc l = crc_serial crc l.
Proof.
  intros Hc Hl. unfold crc_serial. revert crc Hc.
  induction Hl as [|b l Hb Hl IH]; intros crc Hc; simpl; [done|].
  rewrite IH by (by apply CRC16Byte_range).
  f_equal. apply CRC16Byte_serial; cint.
Qed.

(** ** Residue and error detection *)
Lemma land_self_byte c b : is_u8 b -> Z.land c 255 = b -> Z.land (Z.lxor c b) 255 = 0.
Proof.
  intros Hb Hc. apply Z.bits_inj'. intros i Hi.
  rewrite Z.land_spec, Z.lxor_spec, Z.bits_0.
  rewrite <- Hc, Z.land_spec. by destruct (Z.testbit c i), (Z.testbit 255 i).
Qed.

Lemma u8_land z : u8 z = Z.land z 255.
Proof. change 255 with (2 ^ 8 - 1). by rewrite land_ones_mod. Qed.

(** Appending the little-endian CRC gives a zero remainder. *)
Lemma crc16_residue crc l :
  is_u16 crc -> bytes_ok l ->
  CRC16 crc (l ++ ENCODE2BYTE_LITTLE (CRC16 crc l)) = 0.
Proof.
  intros Hc Hl. rewrite CRC16_app. pose proof (CRC16_range _ _ Hc Hl) as Hr.
  set (c := CRC16 crc l) in *. simpl. unfold CRC16Byte at 2.
  rewrite land_self_byte by (try apply u8_range; by rewrite u8_land).
  change (table_at 0) with 0. rewrite Z.lxor_0_r, u16_small by done.
  assert (is_u8 (Z.shiftr c 8)) as Hh.
  { rewrite Z.shiftr_div_pow2 by lia. unfold is_u8, is_u16 in *. change (2 ^ 8) with 256.
    Z.div_mod_to_equations; lia. }
  rewrite u8_small by done. unfold CRC16Byte.
  rewrite Z.lxor_nilpotent. change (table_at (Z.land 0 255)) with 0.
  rewrite Z.lxor_0_r, Z.shiftr_shiftr, Z.shiftr_div_pow2 by lia.
  apply Z.div_small. change (2 ^ (8 + 8)) with 65536. cint.
Qed.

(** The high byte of a table entry determines its index. *)
Lemma table_high_inj i j :
  is_u8 i -> is_u8 j -> Z.shiftr (table_at i) 8 = Z.shiftr (table_at j) 8 -> i = j.
Proof.
  intros Hi Hj He.
  assert (forallb (fun i => forallb (fun j =>
    (i =? j) || negb (Z.shiftr (table_at i) 8 =? Z.shiftr (table_at j) 8)) byte_values)
    byte_values = true)%bool as H by (vm_compute; reflexivity).
  pose proof (forallb_bytes _ (forallb_bytes _ H i Hi) j Hj) as Hij. simpl in Hij.
  apply orb_prop in Hij as [Hij%Z.eqb_eq|Hij]; [done|].
  by rewrite He, Z.eqb_refl in Hij.
Qed.

Lemma lxor_cancel_l a b c : Z.lxor a b = Z.lxor a c -> b = c.
Proof.
  intros H. apply (f_equal (Z.lxor a)) in H.
  by rewrite <- !Z.lxor_assoc, !Z.lxor_nilpotent, !Z.lxor_0_l in H.
Qed.

Lemma u8_lxor c b : u8 (Z.lxor c b) = Z.lxor (u8 c) (u8 b).
Proof.
  rewrite !u8_land. apply Z.bits_inj'. intros i Hi.
  rewrite !Z.land_spec, !Z.lxor_spec, !Z.land_spec.
  by destruct (Z.testbit c i), (Z.testbit b i), (Z.testbit 255 i).
Qed.

Lemma shiftr8_range c : is_u16 c -> is_u8 (Z.shiftr c 8).
Proof.
  intros. rewrite Z.shiftr_div_pow2 by lia. unfold is_u8, is_u16 in *.
  change (2 ^ 8) with 256. Z.div_mod_to_equations; lia.
Qed.

(** The high byte of the register after a step comes from the table alone. *)
Lemma CRC16Byte_high c b :
  is_u16 c -> Z.shiftr (CRC16Byte c b) 8 = Z.shiftr (table_at (Z.land (Z.lxor c b) 255)) 8.
Proof.
  intros Hc. unfold CRC16Byte. rewrite Z.shiftr_lxor.
  replace (Z.shiftr (Z.shiftr c 8) 8) with 0; [by rewrite Z.lxor_0_l|].
  symmetry. rewrite (Z.shiftr_div_pow2 _ 8) by lia.
  apply Z.div_small. change (2 ^ 8) with 256. apply shiftr8_range, Hc.
Qed.

(** One step loses nothing: equal outputs come from equal registers when the bytes
    agree, and from equal bytes when the registers agree. *)
Lemma CRC16Byte_index c c' b b' :
  is_u16 c -> is_u16 c' -> CRC16Byte c b = CRC16Byte c' b' ->
  u8 (Z.lxor c b) = u8 (Z.lxor c' b') /\ Z.shiftr c 8 = Z.shiftr c' 8.
Proof.
  intros Hc Hc' He.
  assert (Z.land (Z.lxor c b) 255 = Z.land (Z.lxor c' b') 255) as Hi.
  { apply table_high_inj; [apply index_range..|].
    rewrite <- !CRC16Byte_high by done. by rewrite He. }
  split; [by rewrite !u8_land|].
  unfold CRC16Byte in He. rewrite Hi in He.
  rewrite !(Z.lxor_comm (Z.shiftr _ 8)) in He. by apply lxor_cancel_l in He.
Qed.

Lemma u16_bytes_eq c c' :
  is_u16 c -> is_u16 c' -> u8 c = u8 c' -> Z.shiftr c 8 = Z.shiftr c' 8 -> c = c'.
Proof.
  intros Hc Hc'. rewrite !Z.shiftr_div_pow2 by lia. unfold u8, is_u16 in *.
  change (2 ^ 8) with 256. Z.div_mod_to_equations; lia.
Qed.

Lemma CRC16Byte_inj_crc c c' b :
  is_u16 c -> is_u16 c' -> CRC16Byte c b = CRC16Byte c' b -> c = c'.
Proof.
  intros Hc Hc' He. apply CRC16Byte_index in He as [Hl Hh]; [|done..].
  rewrite !u8_lxor, !(Z.lxor_comm _ (u8 b)) in Hl. apply lxor_cancel_l in Hl.
  by apply u16_bytes_eq.
Qed.

Lemma CRC16_inj_crc c c' l :
  is_u16 c -> is_u16 c' -> bytes_ok l -> CRC16 c l = CRC16 c' l -> c = c'.
Proof.
  intros Hc Hc' Hl. revert c c' Hc Hc'.
  induction Hl as [|b l Hb Hl IH]; intros c c' Hc Hc' He; simpl in He; [done|].
  apply IH in He; [|by apply CRC16Byte_range..]. by apply CRC16Byte_inj_crc in He.
Qed.

(** Any corruption confined to two adjacent bytes of a message (hence every
    error burst of at most 9 bits, and every single-byte error) changes the CRC. *)
Theorem crc16_detects_two_byte_error crc pre a b a' b' post :
  is_u16 crc -> bytes_ok pre -> bytes_ok [a; b] -> bytes_ok [a'; b'] -> bytes_ok post ->
  (a, b) <> (a', b') ->
  CRC16 crc (pre ++ [a; b] ++ post) <> CRC16 crc (pre ++ [a'; b'] ++ post).
Proof.
  intros Hc Hpre (Ha & [Hb _]%Forall_cons)%Forall_cons (Ha' & [Hb' _]%Forall_cons)%Forall_cons
    Hpost Hne He.
  rewrite !CRC16_app in He. pose proof (CRC16_range _ _ Hc Hpre) as Hr.
  set (c := CRC16 crc pre) in *. simpl in He.
  apply CRC16_inj_crc in He; [|by repeat apply CRC16Byte_range..|done].
  apply CRC16Byte_index in He as [Hl Hh]; [|by apply CRC16Byte_range..].
  rewrite !CRC16Byte_high in Hh by done. apply table_high_inj in Hh; [|apply index_range..].
  rewrite <- !u8_land, !u8_lxor in Hh. apply lxor_cancel_l in Hh.
  rewrite !u8_small in Hh by done. subst a'.
  rewrite !u8_lxor in Hl. apply lxor_cancel_l in Hl. rewrite !u8_small in Hl by done.
  by subst b'.
Qed.

Lemma crc16_detects_two_byte_error_witness :
  CRC16 0 ([1; 2] ++ [3; 4] ++ [5]) <> CRC16 0 ([1; 2] ++ [3; 5] ++ [5]).
Proof.
  apply (crc16_detects_two_byte_error 0 [1; 2] 3 4 3 5 [5]);
    repeat constructor; cint || congruence.
Defined.

Lemma crc16_table_is_bit_serial_witness : CRC16 65535 [1; 2; 255] = crc_serial 65535 [1; 2; 255].
Proof. apply (crc16_table_is_bit_serial 65535 [1; 2; 255]); repeat constructor; cint. Defined.
End Crc16.
Export Crc16.
