(* ===== verification/SdfErrno.v ===== *)
(** * Error numbers

    [services/stack/src/sdf/dfx/errno]: the packing of an error number from its
    component, module, submodule and id, its decoding functions, and the codes of
    the data plane ([dpfwk_errcode.h], [dtap_errno.h]) built with it. *)
From S2P Require Import Prelude.

Definition SDF_ERRNO_COMP_MASK : Z := 0xF.
Definition SDF_ERRNO_MOD_MASK : Z := 0xF.
Definition SDF_ERRNO_SUBMOD_MASK : Z := 0xFF.
Definition SDF_ERRNO_ID_MASK : Z := 0xFFFFF.
Definition SDF_ERRNO_COMP_SHIFT : Z := 28.
Definition SDF_ERRNO_MOD_SHIFT : Z := 24.
Definition SDF_ERRNO_SUBMOD_SHIFT : Z := 16.

Definition SDF_MAKE_ERRNO (comp mdl submod id : Z) : Z :=
  Z.lor (Z.lor (Z.lor (Z.shiftl (Z.land SDF_ERRNO_COMP_MASK comp) SDF_ERRNO_COMP_SHIFT)
                      (Z.shiftl (Z.land SDF_ERRNO_MOD_MASK mdl) SDF_ERRNO_MOD_SHIFT))
               (Z.shiftl (Z.land SDF_ERRNO_SUBMOD_MASK submod) SDF_ERRNO_SUBMOD_SHIFT))
        (Z.land SDF_ERRNO_ID_MASK id).

Definition SDF_ErrGetCompId (err : Z) : Z :=
  Z.land (Z.shiftr err SDF_ERRNO_COMP_SHIFT) SDF_ERRNO_COMP_MASK.
Definition SDF_ErrGetModId (err : Z) : Z :=
  Z.land (Z.shiftr err SDF_ERRNO_MOD_SHIFT) SDF_ERRNO_MOD_MASK.
Definition SDF_ErrGetSubmodId (err : Z) : Z :=
  Z.land (Z.shiftr err SDF_ERRNO_SUBMOD_SHIFT) SDF_ERRNO_SUBMOD_MASK.
Definition SDF_ErrGetErrId (err : Z) : Z := Z.land err SDF_ERRNO_ID_MASK.

Definition COMP_DP : Z := 3.
Definition DP_MOD_DTAP : Z := 4.
Definition DP_DTAP_SUBMOD_TRANS : Z := 4.
Definition DP_DTAP_SUBMOD_FRAME : Z := 5.
Definition DP_MAKE_DTAP_TRANS_ERRNO (id : Z) : Z :=
  SDF_MAKE_ERRNO COMP_DP DP_MOD_DTAP DP_DTAP_SUBMOD_TRANS id.
Definition DP_MAKE_DTAP_FRAME_ERRNO (id : Z) : Z :=
  SDF_MAKE_ERRNO COMP_DP DP_MOD_DTAP DP_DTAP_SUBMOD_FRAME id.

(** ** The codes of [dtap_errno.h] *)
Definition DTAP_SUCCESS : Z := 0.
Definition SDF_OK : Z := 0.

Notation "'trans_err' n" := (ltac:(let v := eval vm_compute in (DP_MAKE_DTAP_TRANS_ERRNO n) in exact v))
  (at level 10, n at level 9, only parsing).
Notation "'frame_err' n" := (ltac:(let v := eval vm_compute in (DP_MAKE_DTAP_FRAME_ERRNO n) in exact v))
  (at level 10, n at level 9, only parsing).
Definition DTAP_REGISTER_RECV_CB_ALLOC_ERR : Z := trans_err 100.
Definition DTAP_REGISTER_RECV_CB_INVALID_PI : Z := trans_err 101.
Definition DTAP_REGISTER_RECV_CB_NULL_ERR : Z := trans_err 102.
Definition DTAP_UNREGISTER_RECV_CB_TCID_NOT_EXIST : Z := trans_err 103.
Definition DTAP_TRANS_CHANNEL_CREATE_LINK_MAP_ERR : Z := trans_err 200.
Definition DTAP_TRANS_INVALID_DATA : Z := trans_err 300.
Definition DTAP_TRANS_FIND_CHANNEL_ERR : Z := trans_err 301.
Definition DTAP_TRANS_EXCEED_MTU_ERR : Z := trans_err 302.
Definition DTAP_TRANS_INVALID_MODULE_TYPE : Z := trans_err 303.
Definition DTAP_TRANS_MALLOC_ERR : Z := trans_err 304.
Definition DTAP_TRANS_UNSUPPORTED : Z := trans_err 305.
Definition DTAP_TRANS_EXCEED_MAX_ERR : Z := trans_err 306.
Definition DTAP_TRANS_INVALID_PARAM_ERR : Z := trans_err 307.
Definition DTAP_TRANS_CP_POST_ERR : Z := trans_err 308.
Definition DTAP_TRANS_INIT_ERR : Z := trans_err 309.
Definition DTAP_TRANS_ASSIGN_ERR : Z := trans_err 310.
Definition DTAP_TRANS_BASIC_SEND_EXCEED_MPS : Z := trans_err 400.
Definition DTAP_TRANS_BASIC_SEND_PREPEND_ERR : Z := trans_err 401.
Definition DTAP_TRANS_BASIC_RECV_TRIM_PRE_ERR : Z := trans_err 402.
Definition DTAP_TRANS_BASIC_SEND_GET_CTX_ERR : Z := trans_err 403.
Definition DTAP_TRANS_BASIC_CACHE_OVERFLOW_ERR : Z := trans_err 404.
Definition DTAP_TRANS_BASIC_CREATE_FRAME_ERR : Z := trans_err 405.
Definition DTAP_TRANS_TRANSPARENT_PACK_EXCEED_MPS : Z := trans_err 500.
Definition DTAP_TRANS_STREAM_PACK_HEADER_ERR : Z := trans_err 600.
Definition DTAP_TRANS_STREAM_PACK_CRC_ERR : Z := trans_err 601.
Definition DTAP_TRANS_STREAM_TX_FULL : Z := trans_err 602.
Definition DTAP_TRANS_STREAM_RECV_TRIM_PRE_ERR : Z := trans_err 603.
Definition DTAP_TRANS_STREAM_RECV_TRIM_SUF_ERR : Z := trans_err 604.
Definition DTAP_TRANS_STREAM_RECV_CRC_ERR : Z := trans_err 605.
Definition DTAP_TRANS_STREAM_RECV_DUPLICATED_ERR : Z := trans_err 606.
Definition DTAP_TRANS_STREAM_RX_FULL : Z := trans_err 607.
Definition DTAP_TRANS_RELIABLE_GET_CTX_ERR : Z := trans_err 700.
Definition DTAP_TRANS_RELIABLE_TX_WINDOW_FULL_ERR : Z := trans_err 701.
Definition DTAP_TRANS_RELIABLE_COPY_BUFF_ERR : Z := trans_err 702.
Definition DTAP_TRANS_RELIABLE_FIND_FRAME_ERR : Z := trans_err 703.
Definition DTAP_TRANS_RELIABLE_REACH_MAX_RE_TX_CNT_ERR : Z := trans_err 704.
Definition DTAP_TRANS_RELIABLE_COPY_FRAME_ERR : Z := trans_err 705.
Definition DTAP_TRANS_RELIABLE_INVALID_MPS : Z := trans_err 706.
Definition DTAP_TRANS_RELIABLE_FRAGMENT_ERR : Z := trans_err 707.
Definition DTAP_TRANS_RELIABLE_TX_WINDOW_FULL : Z := trans_err 708.
Definition DTAP_TRANS_RELIABLE_TRANS_CHANNEL_FULL : Z := trans_err 709.
Definition DTAP_TRANS_RELIABLE_INVALID_FRAME_NUM : Z := trans_err 710.
Definition DTAP_MODULE_DUP_INITED_ERR : Z := trans_err 800.
Definition DTAP_MODULE_NOT_INITED_ERR : Z := trans_err 801.
Definition DTAP_FRAME_INVALID_FRAME_TYPE : Z := frame_err 100.
Definition DTAP_FRAME_SEND_ALLOC_ERR : Z := frame_err 101.
Definition DTAP_FRAME_SEND_DLI_SEND_ERR : Z := frame_err 102.
Definition DTAP_FRAME_NULL_PTR_ERR : Z := frame_err 103.
Definition DTAP_FRAME_INVALID_BUFF_LEN : Z := frame_err 104.
Definition DTAP_FRAME_INVALID_EXT_HDR_LEN : Z := frame_err 105.
Definition DTAP_FRAME_INVALID_EXT_LEN : Z := frame_err 106.
Definition DTAP_FRAME_INVALID_EXT_NUM : Z := frame_err 107.
Definition DTAP_BASIC_FRAME_INVALID_PI_LEN : Z := frame_err 200.
Definition DTAP_ENHANCED_FRAME_HDR_LEN_TOO_SHORT : Z := frame_err 400.
Definition DTAP_ENHANCED_FRAME_LENGTH_TOO_SHORT : Z := frame_err 401.
Definition DTAP_ENHANCED_FRAME_SDU_HDR_LEN_TOO_SHORT : Z := frame_err 402.
Definition DTAP_ENHANCED_FRAME_SDU_LEN_TOO_SHORT : Z := frame_err 403.
Definition DTAP_ENHANCED_FRAME_NOT_SUPPORT_ERR : Z := frame_err 404.
Definition DTAP_ENHANCED_FRAME_PREPEND_ERR : Z := frame_err 405.
Definition DTAP_ENHANCED_FRAME_APPEND_ERR : Z := frame_err 406.
Definition DTAP_ENHANCED_FRAME_BUFF_NEW_ERR : Z := frame_err 407.
Definition DTAP_ENHANCED_FRAME_NULL : Z := frame_err 408.
Definition DTAP_ENHANCED_FRAME_TRIM_PREFIX_ERR : Z := frame_err 409.
Definition DTAP_ENHANCED_FRAME_TRIM_SUFFIX_ERR : Z := frame_err 410.
Definition DTAP_ENHANCED_FRAME_DUP_FIRST_FRAG_FRAME : Z := frame_err 411.
Definition DTAP_ENHANCED_FRAME_NO_FIRST_FRAG_FRAME : Z := frame_err 412.
Definition DTAP_ENHANCED_FRAME_FRAGMENT_FRAME_LEN_ERR : Z := frame_err 413.
Definition DTAP_ENHANCED_FRAME_UPDATE_FRAG_FRAME_ERR : Z := frame_err 414.

(** [DTAP_Trans_Result_E] *)
Definition DTAP_TRANS_RESULT_INTERNAL_FAULT : Z := 1.
Definition DTAP_TRANS_RESULT_LOGIC_LINK_NOT_FOUND : Z := 2.
Definition DTAP_TRANS_RESULT_INVALID_DATA : Z := 3.
Definition DTAP_TRANS_RESULT_CHANNEL_NOT_FOUND : Z := 4.
Definition DTAP_TRANS_RESULT_EXCEED_MTU_ERR : Z := 5.
Definition DTAP_TRANS_RESULT_TX_CACHE_FULL : Z := 6.

(** ** Decoding *)

(** The component, module and submodule of an error number are read back
    exactly, but [SDF_ErrGetErrId] masks 20 bits where the layout gives the id 16:
    what it answers is the id plus the low four bits of the submodule above it. *)
Theorem errno_decode comp mdl submod id :
  0 <= comp < 16 -> 0 <= mdl < 16 -> 0 <= submod < 256 -> 0 <= id < 65536 ->
  let err := SDF_MAKE_ERRNO comp mdl submod id in
  SDF_ErrGetCompId err = comp /\ SDF_ErrGetModId err = mdl /\
  SDF_ErrGetSubmodId err = submod /\
  SDF_ErrGetErrId err = id + 65536 * (submod mod 16).
Proof.
  intros Hc Hm Hs Hi. cbv zeta.
  assert (SDF_MAKE_ERRNO comp mdl submod id
          = id + (submod + (mdl + comp * 16) * 256) * 65536) as ->.
  { unfold SDF_MAKE_ERRNO, SDF_ERRNO_COMP_MASK, SDF_ERRNO_MOD_MASK, SDF_ERRNO_SUBMOD_MASK,
      SDF_ERRNO_ID_MASK, SDF_ERRNO_COMP_SHIFT, SDF_ERRNO_MOD_SHIFT, SDF_ERRNO_SUBMOD_SHIFT.
    rewrite !(Z.land_comm 15), (Z.land_comm 255), (Z.land_comm 0xFFFFF).
    change 15 with (2 ^ 4 - 1). change 255 with (2 ^ 8 - 1). change 0xFFFFF with (2 ^ 20 - 1).
    rewrite !land_ones_mod, !Z.mod_small by lia.
    rewrite (Z.lor_comm (Z.shiftl comp _)).
    replace (Z.shiftl comp 28) with (Z.shiftl (Z.shiftl comp 4) 24) by (by rewrite Z.shiftl_shiftl).
    rewrite <- Z.shiftl_lor, (lor_shiftl_add mdl comp 4) by lia.
    rewrite (Z.lor_comm (Z.shiftl _ 24)).
    replace (Z.shiftl (mdl + comp * 2 ^ 4) 24)
      with (Z.shiftl (Z.shiftl (mdl + comp * 2 ^ 4) 8) 16) by (by rewrite Z.shiftl_shiftl).
    rewrite <- Z.shiftl_lor, (lor_shiftl_add submod _ 8) by lia.
    rewrite Z.lor_comm, lor_shiftl_add by lia. lia. }
  unfold SDF_ErrGetCompId, SDF_ErrGetModId, SDF_ErrGetSubmodId, SDF_ErrGetErrId,
    SDF_ERRNO_COMP_MASK, SDF_ERRNO_MOD_MASK, SDF_ERRNO_SUBMOD_MASK,
    SDF_ERRNO_ID_MASK, SDF_ERRNO_COMP_SHIFT, SDF_ERRNO_MOD_SHIFT, SDF_ERRNO_SUBMOD_SHIFT.
  change 0xFFFFF with (2 ^ 20 - 1). change 0xFF with (2 ^ 8 - 1). change 0xF with (2 ^ 4 - 1).
  rewrite !land_ones_mod, !Z.shiftr_div_pow2 by lia.
  split_and!; Z.div_mod_to_equations; lia.
Qed.

Lemma errno_decode_witness :
  let err := SDF_MAKE_ERRNO 3 4 4 709 in
  err = DTAP_TRANS_RELIABLE_TRANS_CHANNEL_FULL /\
  SDF_ErrGetCompId err = 3 /\ SDF_ErrGetModId err = 4 /\ SDF_ErrGetSubmodId err = 4 /\
  SDF_ErrGetErrId err = 709 + 65536 * 4.
Proof.
  split; [reflexivity|]. refine (errno_decode 3 4 4 709 _ _ _ _); lia.
Defined.
