(* ===== verification/SdfBuff.v ===== *)
(** * SDF packet buffers

    [services/stack/src/sdf/bsl/dsl/src/sdf_buff.c]: the buffer every packet of
    the stack travels in.  A buffer owns one memory block; its payload is the
    window [dataOff, dataOff + dataLen) of it, and headers and trailers are added
    by widening that window into the reserved head and tail room.  Pointers into a
    buffer are offsets into its block. *)
From S2P Require Import Prelude.

Record SDF_Buff := mk_buff {
  dataOff : Z;
  dataLen : Z;
  buffLen : Z;
  bmem : bytes
}.
#[export] Instance eta_buff : Eta SDF_Buff :=
  fun b => mk_buff (dataOff b) (dataLen b) (buffLen b) (bmem b).

Definition SDF_BUFF_MAX_HEADROOM_SIZE : Z := 14.
Definition SDF_BUFF_MAX_TAILROOM_SIZE : Z := 2.
Definition SDF_BUFF_MAX_RESERVED_SIZE : Z :=
  SDF_BUFF_MAX_HEADROOM_SIZE + SDF_BUFF_MAX_TAILROOM_SIZE.

(** The header before the block: three [uint64_t]. *)
Definition sizeof_SDF_Buff : Z := 24.

(** The macros [SDF_BuffHeadRoom], [SDF_BuffTailRoom], [SDF_DataLenGet] and
    [SDF_DataOffset]. *)
Definition SDF_BuffHeadRoom (b : SDF_Buff) : Z := dataOff b.
Definition SDF_BuffTailRoom (b : SDF_Buff) : Z := u64 (buffLen b - dataOff b - dataLen b).
Definition SDF_DataLenGet (b : SDF_Buff) : Z := dataLen b.
Definition SDF_DataOffset (b : SDF_Buff) : Z := dataOff b.

(** A zeroed block of [n] bytes. *)
Definition zeros (n : Z) : bytes := replicate (Z.to_nat n) 0.

(** The constructors; [ok] is the outcome of the allocation.  The block has the
    size passed to the allocator (computed in [size_t]), [buffLen] the size the
    code computes in [uint32_t]. *)
Definition SDF_BuffNew (ok : bool) (size : Z) : option SDF_Buff :=
  if ok then Some (mk_buff 0 0 (u32 size) (zeros (u32 size))) else None.

Definition SDF_BuffNewWithReserve (ok : bool) (size : Z) : option SDF_Buff :=
  if ok then
    Some (mk_buff SDF_BUFF_MAX_HEADROOM_SIZE 0
            (u32 (SDF_BUFF_MAX_RESERVED_SIZE + u32 size))
            (zeros (SDF_BUFF_MAX_RESERVED_SIZE + u32 size)))
  else None.

Definition SDF_BuffNewWithExtraReserve (ok : bool) (size extraSize : Z) : option SDF_Buff :=
  if ok then
    Some (mk_buff (u32 (SDF_BUFF_MAX_HEADROOM_SIZE + u16 extraSize)) 0
            (u32 (SDF_BUFF_MAX_RESERVED_SIZE + u32 size + u16 extraSize))
            (zeros (SDF_BUFF_MAX_RESERVED_SIZE + u32 size + u16 extraSize)))
  else None.

(** The window operations answer the pointer the code returns and the updated
    buffer, or [None] for its null result (the buffer is then unchanged). *)
Definition SDF_BuffAppend (buff : option SDF_Buff) (size : Z) : option (Z * SDF_Buff) :=
  match buff with
  | None => None
  | Some b =>
      if SDF_BuffTailRoom b <? u32 size then None
      else Some (u64 (dataOff b + dataLen b), b <| dataLen := u64 (dataLen b + u32 size) |>)
  end.

Definition SDF_BuffPrepend (buff : option SDF_Buff) (size : Z) : option (Z * SDF_Buff) :=
  match buff with
  | None => None
  | Some b =>
      if SDF_BuffHeadRoom b <? u32 size then None
      else
        let b' := b <| dataOff := u64 (dataOff b - u32 size) |>
                    <| dataLen := u64 (dataLen b + u32 size) |> in
        Some (dataOff b', b')
  end.

Definition SDF_BuffTrimPrefix (buff : option SDF_Buff) (size : Z) : option (Z * SDF_Buff) :=
  match buff with
  | None => None
  | Some b =>
      if dataLen b <? u32 size then None
      else
        let b' := b <| dataLen := u64 (dataLen b - u32 size) |>
                    <| dataOff := u64 (dataOff b + u32 size) |> in
        Some (dataOff b', b')
  end.

(** Answers the status code and the buffer. *)
Definition SDF_BuffTrimSuffix (buff : option SDF_Buff) (size : Z) : Z * option SDF_Buff :=
  match buff with
  | None => (-1, None)
  | Some b =>
      if dataLen b <? u32 size then (-1, Some b)
      else (0, Some (b <| dataLen := u64 (dataLen b - u32 size) |>))
  end.

(** The copy duplicates header and block; [ok] is the outcome of the allocation. *)
Definition SDF_BuffCopy (ok : bool) (buff : option SDF_Buff) : option SDF_Buff :=
  match buff with
  | None => None
  | Some b =>
      if 18446744073709551615 - sizeof_SDF_Buff <? buffLen b then None
      else if ok then Some (b <| bmem ::= take (Z.to_nat (buffLen b)) |>) else None
  end.

(** A store of [d] at pointer [p] of the block (through a pointer the operations
    above returned). *)
Definition buff_store (b : SDF_Buff) (p : Z) (d : bytes) : SDF_Buff :=
  b <| bmem ::= fun m => mem_write m p d |>.

(** [memcpy_s(dst, n, src, n)] with [dst] an offset in [b]: the copied buffer. *)
Definition memcpy_to (b : SDF_Buff) (dst : Z) (d : bytes) : option SDF_Buff :=
  m ← wr (bmem b) dst d; Some (b <| bmem := m |>).

(** Whether [memcpy_s(dst, destMax, src, count)] copies: the destination is not empty
    and the source fits. *)
Definition memcpy_s_ok (destMax count : Z) : bool := (0 <? destMax) && (count <=? destMax).

(** The bytes of a buffer's window. *)
Definition window_bytes (b : SDF_Buff) : option bytes :=
  rds (bmem b) (SDF_DataOffset b) (SDF_DataLenGet b).

(** The payload window. *)
Definition buff_data (b : SDF_Buff) : bytes := mem_read (bmem b) (dataOff b) (dataLen b).

(** Well-formedness: the window lies inside the block. *)
Record buff_wf (b : SDF_Buff) : Prop := {
  wf_off : 0 <= dataOff b;
  wf_len : 0 <= dataLen b;
  wf_window : dataOff b + dataLen b <= buffLen b;
  wf_block : buffLen b = zlen (bmem b);
  wf_size : buffLen b < 4294967296;
  wf_bytes : bytes_ok (bmem b)
}.
#[export] Hint Resolve wf_bytes : mem.

(** ** Lemmas *)
Lemma length_zeros n : 0 <= n -> zlen (zeros n) = n.
Proof. intros. unfold zeros. rewrite length_replicate. lia. Qed.

Lemma zeros_ok n : bytes_ok (zeros n).
Proof. apply Forall_replicate. cint. Qed.
#[export] Hint Resolve zeros_ok : mem.

Lemma length_buff_data b : buff_wf b -> zlen (buff_data b) = dataLen b.
Proof. intros []. apply length_mem_read; lia. Qed.

Lemma buff_data_ok b : buff_wf b -> bytes_ok (buff_data b).
Proof. intros []. by apply bytes_ok_mem_read. Qed.
#[export] Hint Resolve buff_data_ok : mem.

Ltac buff_arith := unfold is_u8, is_u16, is_u32, is_u64, sizeof_SDF_Buff in *; lia.

Lemma tailroom_wf b : buff_wf b -> SDF_BuffTailRoom b = buffLen b - dataOff b - dataLen b.
Proof. intros []. apply u64_small. buff_arith. Qed.

(** What the constructor promises: an empty window with the reserved room around it. *)
Lemma new_with_reserve_spec size :
  0 <= size -> size < 4294967280 ->
  exists b, SDF_BuffNewWithReserve true size = Some b /\ buff_wf b /\ dataLen b = 0 /\
    dataOff b = 14 /\ buffLen b = 16 + size.
Proof.
  intros. unfold SDF_BuffNewWithReserve, SDF_BUFF_MAX_RESERVED_SIZE,
    SDF_BUFF_MAX_HEADROOM_SIZE, SDF_BUFF_MAX_TAILROOM_SIZE.
  rewrite (u32_small size) by cint. rewrite u32_small by cint.
  eexists; split; [done|]. split; [|done].
  constructor; cbn; try lia; auto with mem. rewrite length_zeros; lia.
Qed.

Lemma new_spec size :
  0 <= size < 4294967296 ->
  exists b, SDF_BuffNew true size = Some b /\ buff_wf b /\ dataLen b = 0 /\
    dataOff b = 0 /\ buffLen b = size.
Proof.
  intros. unfold SDF_BuffNew. rewrite (u32_small size) by cint.
  eexists; split; [done|]. split; [|done].
  constructor; cbn; try lia; auto with mem. rewrite length_zeros; lia.
Qed.

(** Appending [d]: the pointer is the old end of the payload, and storing [d]
    there makes the payload end in [d]. *)
Lemma append_spec b d :
  buff_wf b -> bytes_ok d -> dataOff b + dataLen b + zlen d <= buffLen b ->
  exists p b', SDF_BuffAppend (Some b) (zlen d) = Some (p, b') /\
    p = dataOff b + dataLen b /\
    buff_wf (buff_store b' p d) /\
    buff_data (buff_store b' p d) = buff_data b ++ d /\
    dataOff b' = dataOff b /\ dataLen b' = dataLen b + zlen d /\ buffLen b' = buffLen b /\
    bmem b' = bmem b.
Proof.
  intros Hwf Hd Hroom. pose proof (tailroom_wf b Hwf) as Ht. destruct Hwf.
  unfold SDF_BuffAppend. rewrite u32_small by cint.
  destruct (Z.ltb_spec (SDF_BuffTailRoom b) (zlen d)); [lia|].
  do 2 eexists; split; [done|]. rewrite !u64_small by buff_arith.
  split; [done|]. split; [|split; [|done]].
  - constructor; cbn; try lia; auto with mem. rewrite length_mem_write; lia.
  - unfold buff_data, buff_store; cbn.
    rewrite mem_read_app, mem_read_write_before, mem_read_write_same by lia. done.
Qed.

(** Prepending [d]: the pointer is the new start of the payload, and storing [d]
    there makes the payload start with [d]. *)
Lemma prepend_spec b d :
  buff_wf b -> bytes_ok d -> zlen d <= dataOff b ->
  exists p b', SDF_BuffPrepend (Some b) (zlen d) = Some (p, b') /\
    p = dataOff b - zlen d /\ dataOff b' = p /\
    buff_wf (buff_store b' p d) /\
    buff_data (buff_store b' p d) = d ++ buff_data b /\
    dataLen b' = dataLen b + zlen d /\ buffLen b' = buffLen b /\ bmem b' = bmem b.
Proof.
  intros Hwf Hd Hroom. destruct Hwf.
  unfold SDF_BuffPrepend, SDF_BuffHeadRoom. rewrite u32_small by cint.
  destruct (Z.ltb_spec (dataOff b) (zlen d)); [lia|].
  do 2 eexists; split; [done|]. cbn. rewrite !u64_small by buff_arith.
  do 2 (split; [done|]). split; [|split; [|done]].
  - constructor; cbn; try lia; auto with mem. rewrite length_mem_write; lia.
  - unfold buff_data, buff_store; cbn.
    rewrite Z.add_comm, mem_read_app by lia.
    rewrite mem_read_write_same by lia. f_equal.
    rewrite mem_read_write_after by lia. f_equal. lia.
Qed.

Lemma trim_prefix_spec b n :
  buff_wf b -> 0 <= n <= dataLen b ->
  exists b', SDF_BuffTrimPrefix (Some b) n = Some (dataOff b + n, b') /\ buff_wf b' /\
    buff_data b' = drop (Z.to_nat n) (buff_data b) /\ dataLen b' = dataLen b - n /\
    dataOff b' = dataOff b + n /\ buffLen b' = buffLen b /\ bmem b' = bmem b.
Proof.
  intros Hwf Hn. destruct Hwf. unfold SDF_BuffTrimPrefix. rewrite u32_small by cint.
  destruct (Z.ltb_spec (dataLen b) n); [lia|]. cbn. rewrite !u64_small by buff_arith.
  eexists; split; [done|]. split; [constructor; cbn; try lia; done|].
  split; [|done]. unfold buff_data, mem_read; cbn.
  rewrite skipn_firstn_comm, drop_drop. f_equal; [|f_equal]; lia.
Qed.

Lemma trim_suffix_spec b n :
  buff_wf b -> 0 <= n <= dataLen b ->
  exists b', SDF_BuffTrimSuffix (Some b) n = (0, Some b') /\ buff_wf b' /\
    buff_data b' = take (Z.to_nat (dataLen b - n)) (buff_data b) /\
    dataLen b' = dataLen b - n /\
    dataOff b' = dataOff b /\ buffLen b' = buffLen b /\ bmem b' = bmem b.
Proof.
  intros Hwf Hn. destruct Hwf. unfold SDF_BuffTrimSuffix. rewrite u32_small by cint.
  destruct (Z.ltb_spec (dataLen b) n); [lia|]. rewrite u64_small by buff_arith.
  eexists; split; [done|]. split; [constructor; cbn; try lia; done|].
  split; [|done]. unfold buff_data, mem_read; cbn. rewrite take_take. f_equal. lia.
Qed.

(** A copy of a well-formed buffer is that buffer. *)
Lemma copy_wf b : buff_wf b -> SDF_BuffCopy true (Some b) = Some b.
Proof.
  intros []. unfold SDF_BuffCopy.
  destruct (Z.ltb_spec (18446744073709551615 - sizeof_SDF_Buff) (buffLen b)); [buff_arith|].
  f_equal. destruct b; cbn in *. unfold modify. cbn. f_equal. apply take_ge. lia.
Qed.

(** Operations that keep a buffer well-formed. *)
Lemma buff_ops_wf b size :
  buff_wf b -> 0 <= size < 4294967296 ->
  (forall p b', SDF_BuffAppend (Some b) size = Some (p, b') ->
     buff_wf b' /\ 0 <= p /\ p + size <= zlen (bmem b')) /\
  (forall p b', SDF_BuffPrepend (Some b) size = Some (p, b') ->
     buff_wf b' /\ 0 <= p /\ p + size <= zlen (bmem b')) /\
  (forall p b', SDF_BuffTrimPrefix (Some b) size = Some (p, b') -> buff_wf b') /\
  (forall r b', SDF_BuffTrimSuffix (Some b) size = (r, Some b') -> buff_wf b').
Proof.
  intros Hwf Hs. pose proof (tailroom_wf b Hwf) as Ht. destruct Hwf.
  unfold SDF_BuffAppend, SDF_BuffPrepend, SDF_BuffTrimPrefix, SDF_BuffTrimSuffix,
    SDF_BuffHeadRoom.
  rewrite !(u32_small size) by cint.
  split_and!; intros *;
    match goal with |- context [?x <? ?y] => destruct (Z.ltb_spec x y) end;
    intros [=]; subst; cbn in *; try rewrite !u64_small by buff_arith;
    split_and?; try done; try lia;
    constructor; cbn; rewrite ?u64_small by buff_arith; lia || done.
Qed.

(** ** Lemmas: copying into buffers *)
Lemma append_copy_spec b d n :
  buff_wf b -> bytes_ok d -> n = zlen d -> dataOff b + dataLen b + n <= buffLen b ->
  exists p b1 b2, SDF_BuffAppend (Some b) n = Some (p, b1) /\ memcpy_to b1 p d = Some b2 /\
    buff_wf b2 /\ buff_data b2 = buff_data b ++ d /\
    dataOff b2 = dataOff b /\ dataLen b2 = dataLen b + n /\ buffLen b2 = buffLen b.
Proof.
  intros Hwf Hd -> Hroom.
  destruct (append_spec b d Hwf Hd Hroom) as (p&b1&Ha&Hp&Hwf2&Hd2&Ho&Hl&Hbl&Hm).
  exists p, b1, (buff_store b1 p d). split; [done|]. split; [|by split_and!].
  unfold memcpy_to, wr. destruct Hwf. rewrite Hm, decide_True by lia. cbn [mbind option_bind].
  unfold buff_store, modify. by rewrite Hm.
Qed.

Lemma window_bytes_spec b : buff_wf b -> window_bytes b = Some (buff_data b).
Proof.
  intros []. unfold window_bytes, rds, SDF_DataOffset, SDF_DataLenGet.
  by rewrite decide_True by lia.
Qed.

Lemma zlen_nil_data b : buff_wf b -> dataLen b = 0 -> buff_data b = [].
Proof. intros Hwf Hl. apply nil_length_inv. pose proof (length_buff_data b Hwf). lia. Qed.
