(* ===== verification/SdfDlist.v ===== *)
(** * Intrusive doubly-linked lists

    [services/stack/src/sdf/bsl/dsl/src/sdf_dlist.c] and its macros in
    [include/sdf_dlist.h].  Lists are rings of [SDF_DListEntry_S] nodes closed by
    the head; here they live in a heap of [next] and [prev] pointers, and [rep h l]
    says that the ring of head [h] visits exactly the nodes [l].  The rest of the
    development works on the represented lists. *)
From S2P Require Import Prelude.

Notation loc := positive.

(** The heap cells the list code touches: the two pointers of every node (the
    head's [list] field is such a node) and the [size] field of every head. *)
Record dheap := mk_dheap {
  nxt : gmap loc loc;
  prv : gmap loc loc;
  dsize : gmap loc Z
}.
#[export] Instance eta_dheap : Eta dheap := fun d => mk_dheap (nxt d) (prv d) (dsize d).

Definition set_next (n v : loc) : ST dheap unit :=
  fun d => if decide (is_Some (nxt d !! n)) then Some (tt, d <| nxt ::= <[n:=v]> |>) else None.
Definition set_prev (n v : loc) : ST dheap unit :=
  fun d => if decide (is_Some (prv d !! n)) then Some (tt, d <| prv ::= <[n:=v]> |>) else None.
Definition get_next (n : loc) : ST dheap loc :=
  fun d => match nxt d !! n with Some v => Some (v, d) | None => None end.
Definition get_prev (n : loc) : ST dheap loc :=
  fun d => match prv d !! n with Some v => Some (v, d) | None => None end.
Definition get_size (h : loc) : ST dheap Z :=
  fun d => match dsize d !! h with Some v => Some (v, d) | None => None end.
Definition set_size (h : loc) (v : Z) : ST dheap unit :=
  fun d => if decide (is_Some (dsize d !! h)) then Some (tt, d <| dsize ::= <[h:=v]> |>) else None.

(** [SDF_DListHeadInit] *)
Definition SDF_DListHeadInit (h : loc) : ST dheap unit :=
  set_next h h ;;! set_prev h h ;;! set_size h 0.

(** [SDF_DListEntryInit] *)
Definition SDF_DListEntryInit (n : loc) : ST dheap unit :=
  set_next n n ;;! set_prev n n.

Definition SDF_DListIsEmpty (h : loc) : ST dheap bool :=
  let! s := get_size h in st_ret (s =? 0).

Definition SDF_DListCount (h : loc) : ST dheap Z := get_size h.

Definition SDF_DListAdd (head node prev next : loc) : ST dheap unit :=
  set_next node next ;;!
  set_prev node prev ;;!
  set_prev next node ;;!
  set_next prev node ;;!
  let! s := get_size head in
  set_size head (u32 (s + 1)).

(** [SDF_DListElmHeadInsert] and [SDF_DListElmTailInsert] *)
Definition SDF_DListElmHeadInsert (head node : loc) : ST dheap unit :=
  let! first := get_next head in SDF_DListAdd head node head first.
Definition SDF_DListElmTailInsert (head node : loc) : ST dheap unit :=
  let! last := get_prev head in SDF_DListAdd head node last head.

Definition SDF_DListDel (head node : loc) : ST dheap loc :=
  let! p := get_prev node in
  let! n := get_next node in
  set_next p n ;;!
  let! n' := get_next node in
  let! p' := get_prev node in
  set_prev n' p' ;;!
  SDF_DListEntryInit node ;;!
  let! s := get_size head in
  set_size head (u32 (s - 1)) ;;!
  st_ret node.

Definition SDF_DListMove (dst src : loc) : ST dheap unit :=
  let! sn := get_next src in
  set_next dst sn ;;!
  let! sp := get_prev src in
  set_prev dst sp ;;!
  let! sn' := get_next src in
  set_prev sn' dst ;;!
  let! sp' := get_prev src in
  set_next sp' dst ;;!
  let! ds := get_size dst in
  let! ss := get_size src in
  set_size dst (u32 (ds + ss)) ;;!
  SDF_DListHeadInit src.

Definition SDF_DListConcat (first last prev next : loc) : ST dheap unit :=
  set_prev first prev ;;!
  set_next prev first ;;!
  set_next last next ;;!
  set_prev next last.

Definition SDF_DListPosConcat (pos src : loc) : ST dheap unit :=
  let! e := SDF_DListIsEmpty src in
  if (e : bool) then st_ret tt
  else
    let! pn := get_next pos in
    let! sp := get_prev src in
    let! sn := get_next src in
    SDF_DListConcat pos pn sp sn ;;!
    SDF_DListHeadInit src ;;!
    let! s := get_size src in
    set_size src (u32 (s + 1)).

(** The nodes [SDF_DListElmForeach] visits, within [fuel] steps. *)
Fixpoint foreach_from (fuel : nat) (d : dheap) (h n : loc) : option (list loc) :=
  match fuel with
  | O => None
  | Datatypes.S fuel' =>
      if decide (n = h) then Some []
      else
        match nxt d !! n with
        | None => None
        | Some n' =>
            match foreach_from fuel' d h n' with
            | Some l => Some (n :: l)
            | None => None
            end
        end
  end.
Definition SDF_DListElmForeach (fuel : nat) (h : loc) (d : dheap) : option (list loc) :=
  match nxt d !! h with Some n => foreach_from fuel d h n | None => None end.

(** ** The representation predicate *)

(** [a] is followed by the nodes [l] and then by [z]. *)
Fixpoint dseg (d : dheap) (a : loc) (l : list loc) (z : loc) : Prop :=
  match l with
  | [] => nxt d !! a = Some z /\ prv d !! z = Some a
  | x :: l' => nxt d !! a = Some x /\ prv d !! x = Some a /\ dseg d x l' z
  end.

Record rep (d : dheap) (h : loc) (l : list loc) : Prop := {
  rep_ring : dseg d h l h;
  rep_nodup : NoDup (h :: l);
  rep_size : dsize d !! h = Some (u32 (zlen l))
}.

(** ** Lemmas *)
Lemma wp_set_next n v d (Q : unit -> dheap -> Prop) :
  is_Some (nxt d !! n) -> Q tt (d <| nxt ::= <[n:=v]> |>) -> wp (set_next n v) d Q.
Proof. intros ??. unfold wp, set_next. by rewrite decide_True. Qed.
Lemma wp_set_prev n v d (Q : unit -> dheap -> Prop) :
  is_Some (prv d !! n) -> Q tt (d <| prv ::= <[n:=v]> |>) -> wp (set_prev n v) d Q.
Proof. intros ??. unfold wp, set_prev. by rewrite decide_True. Qed.
Lemma wp_set_size h v d (Q : unit -> dheap -> Prop) :
  is_Some (dsize d !! h) -> Q tt (d <| dsize ::= <[h:=v]> |>) -> wp (set_size h v) d Q.
Proof. intros ??. unfold wp, set_size. by rewrite decide_True. Qed.
Lemma wp_get_next n v d (Q : loc -> dheap -> Prop) :
  nxt d !! n = Some v -> Q v d -> wp (get_next n) d Q.
Proof. intros Hn ?. unfold wp, get_next. by rewrite Hn. Qed.
Lemma wp_get_prev n v d (Q : loc -> dheap -> Prop) :
  prv d !! n = Some v -> Q v d -> wp (get_prev n) d Q.
Proof. intros Hn ?. unfold wp, get_prev. by rewrite Hn. Qed.
Lemma wp_get_size h v d (Q : Z -> dheap -> Prop) :
  dsize d !! h = Some v -> Q v d -> wp (get_size h) d Q.
Proof. intros Hn ?. unfold wp, get_size. by rewrite Hn. Qed.

Lemma dseg_app d a l1 x l2 z :
  dseg d a (l1 ++ x :: l2) z <-> dseg d a l1 x /\ dseg d x l2 z.
Proof. revert a. induction l1 as [|y l1 IH]; intros a; simpl; [tauto|]. rewrite IH. tauto. Qed.

(** A segment reads the [next] of its nodes but the last, and the [prev] of its
    nodes but the first. *)
Lemma dseg_frame d d' a l z :
  (forall x, x ∈ a :: l -> nxt d' !! x = nxt d !! x) ->
  (forall x, x ∈ l ++ [z] -> prv d' !! x = prv d !! x) ->
  dseg d a l z -> dseg d' a l z.
Proof.
  revert a. induction l as [|x l IH]; intros a Hn Hp; simpl.
  - rewrite Hn, Hp by set_solver. done.
  - rewrite (Hn a), (Hp x) by set_solver. intros (?&?&?). split_and!; [done..|].
    apply IH; [| |done]; intros y ?; [apply Hn|apply Hp]; set_solver.
Qed.

Lemma dseg_next_Some d a l z : dseg d a l z -> forall x, x ∈ a :: l -> is_Some (nxt d !! x).
Proof.
  revert a. induction l as [|y l IH]; intros a; simpl.
  - intros [H _] x ->%list_elem_of_singleton. eauto.
  - intros (Ha & _ & H) x [->|Hx]%elem_of_cons; [eauto|]. by apply (IH y).
Qed.

Lemma dseg_prev_Some d a l z : dseg d a l z -> forall x, x ∈ l ++ [z] -> is_Some (prv d !! x).
Proof.
  revert a. induction l as [|y l IH]; intros a; simpl.
  - intros [_ H] x ->%list_elem_of_singleton. eauto.
  - intros (_ & Hy & H) x [->|Hx]%elem_of_cons; [eauto|]. by apply (IH y).
Qed.

(** The last node before [z] and the first node after [a]. *)
Lemma dseg_first d a l z : dseg d a l z -> nxt d !! a = Some (hd z l).
Proof. destruct l; simpl; tauto. Qed.
Lemma last_cons_default (x a : loc) l : List.last (x :: l) a = List.last l x.
Proof.
  revert x a. induction l as [|y l IH]; intros x a; [done|].
  transitivity (List.last (y :: l) a); [done|]. by rewrite (IH y a), (IH y x).
Qed.
Lemma dseg_last d a l z : dseg d a l z -> prv d !! z = Some (List.last l a).
Proof.
  revert a. induction l as [|x l IH]; intros a; simpl; [tauto|].
  intros (_ & _ & H). rewrite (IH _ H). f_equal.
  symmetry. apply (last_cons_default x a l).
Qed.

Lemma foreach_dseg d a l z fuel :
  dseg d a l z -> z ∉ l -> (length l < fuel)%nat ->
  match nxt d !! a with Some n => foreach_from fuel d z n | None => None end = Some l.
Proof.
  revert a fuel. induction l as [|x l IH]; intros a fuel Hs Hz Hf; simpl in *.
  - destruct Hs as [-> _]. destruct fuel; [lia|]. simpl. by rewrite decide_True.
  - destruct Hs as (-> & _ & Hs). destruct fuel; [lia|]. simpl.
    rewrite decide_False by set_solver.
    specialize (IH x fuel Hs ltac:(set_solver) ltac:(lia)).
    destruct (nxt d !! x); [|done]. by rewrite IH.
Qed.

(** The nodes around an insertion point. *)
Lemma ring_split d h l1 l2 :
  dseg d h (l1 ++ l2) h ->
  nxt d !! (List.last l1 h) = Some (hd h l2) /\ prv d !! (hd h l2) = Some (List.last l1 h).
Proof.
  intros H. destruct l2 as [|x l2]; simpl.
  - rewrite app_nil_r in H. split; [|by apply dseg_last in H].
    destruct l1 as [|y l1 _] using rev_ind; [by apply dseg_first in H|].
    apply dseg_app in H as [_ [H _]]. by rewrite List.last_last.
  - pose proof H as [H1 H2]%dseg_app. split; [|by apply dseg_last in H1].
    destruct l1 as [|y l1 _] using rev_ind; [by apply dseg_first in H1|].
    apply dseg_app in H1 as [_ [H1 _]]. by rewrite List.last_last.
Qed.

Lemma last_in (h : loc) l : List.last l h ∈ h :: l.
Proof.
  destruct l as [|x l _] using rev_ind; [set_solver|]. rewrite List.last_last. set_solver.
Qed.
Lemma hd_in (h : loc) l : hd h l ∈ l ++ [h].
Proof. destruct l; set_solver. Qed.

(** Redirecting the end of a segment. *)
Lemma dseg_retarget d d' a l x z :
  dseg d a l x -> NoDup (a :: l) ->
  nxt d' !! (List.last l a) = Some z -> prv d' !! z = Some (List.last l a) ->
  (forall y, y ∈ a :: l -> y <> List.last l a -> nxt d' !! y = nxt d !! y) ->
  (forall y, y ∈ l -> prv d' !! y = prv d !! y) ->
  dseg d' a l z.
Proof.
  destruct l as [|y l _] using rev_ind; intros Hs Hnd Hn Hp Hfn Hfp; [by split|].
  rewrite List.last_last in *. apply dseg_app in Hs as [Hs _]. apply dseg_app.
  split; [|by split]. apply NoDup_cons in Hnd as [Ha Hnd].
  apply NoDup_app in Hnd as (Hnd & Hdis & _).
  apply (dseg_frame d); [| |done].
  - intros w Hw. apply Hfn; [set_solver|]. intros ->.
    apply elem_of_cons in Hw as [->|Hw]; [set_solver|]. apply (Hdis y Hw). set_solver.
  - intros w Hw. apply Hfp. set_solver.
Qed.

(** The second half of a ring, up to the head. *)
Lemma dseg_tail d d' x l2 h :
  dseg d x l2 h ->
  (forall y, y ∈ x :: l2 -> nxt d' !! y = nxt d !! y) ->
  (forall y, y ∈ l2 ++ [h] -> prv d' !! y = prv d !! y) ->
  dseg d' x l2 h.
Proof. intros. by apply (dseg_frame d). Qed.

Lemma ring_nodup (h : loc) l1 l2 :
  NoDup (h :: l1 ++ l2) ->
  NoDup (h :: l1) /\ (forall x, x ∈ h :: l1 -> x ∉ l2) /\ NoDup l2 /\ h ∉ l2.
Proof.
  intros [Hh (H1 & H12 & H2)%NoDup_app]%NoDup_cons.
  split_and!; [constructor; set_solver|set_solver|done|set_solver].
Qed.

(** Splicing a node in: the ring with its two halves intact and the new links. *)
Lemma dseg_splice d d' h l1 l2 n :
  dseg d h (l1 ++ l2) h -> NoDup (h :: l1 ++ l2) -> n ∉ h :: l1 ++ l2 ->
  nxt d' !! n = Some (hd h l2) -> prv d' !! n = Some (List.last l1 h) ->
  prv d' !! (hd h l2) = Some n -> nxt d' !! (List.last l1 h) = Some n ->
  (forall x, x <> n -> x <> List.last l1 h -> nxt d' !! x = nxt d !! x) ->
  (forall x, x <> n -> x <> hd h l2 -> prv d' !! x = prv d !! x) ->
  dseg d' h (l1 ++ n :: l2) h.
Proof.
  intros Hs (H1 & H12 & H2 & Hh)%ring_nodup Hn Hnn Hnp Hhp Hln Hfn Hfp.
  pose proof (last_in h l1) as Hli. apply dseg_app. destruct l2 as [|z l2]; simpl in *.
  - rewrite app_nil_r in Hs. split; [|by split].
    apply (dseg_retarget d d' h l1 h n); [done..| |]; intros y Hy; [apply Hfn|apply Hfp];
      apply NoDup_cons in H1; set_solver.
  - apply dseg_app in Hs as [Hs1 Hs2]. apply NoDup_cons in H2 as [Hz H2]. split.
    + apply (dseg_retarget d d' h l1 z n); [done..| |]; intros y Hy; [apply Hfn|apply Hfp];
        set_solver.
    + split_and!; [done..|]. apply (dseg_tail d); [done|..]; intros y Hy; [apply Hfn|apply Hfp];
        set_solver.
Qed.

(** Splicing a node out. *)
Lemma dseg_unsplice d d' h l1 l2 n :
  dseg d h (l1 ++ n :: l2) h -> NoDup (h :: l1 ++ l2) -> n ∉ h :: l1 ++ l2 ->
  prv d' !! (hd h l2) = Some (List.last l1 h) ->
  nxt d' !! (List.last l1 h) = Some (hd h l2) ->
  (forall x, x <> n -> x <> List.last l1 h -> nxt d' !! x = nxt d !! x) ->
  (forall x, x <> n -> x <> hd h l2 -> prv d' !! x = prv d !! x) ->
  dseg d' h (l1 ++ l2) h.
Proof.
  intros [Hs1 Hs2]%dseg_app (H1 & H12 & H2 & Hh)%ring_nodup Hn Hhp Hln Hfn Hfp.
  pose proof (last_in h l1) as Hli. destruct l2 as [|z l2]; simpl in *.
  - rewrite app_nil_r.
    apply (dseg_retarget d d' h l1 n h); [done..| |]; intros y Hy; [apply Hfn|apply Hfp];
      apply NoDup_cons in H1; set_solver.
  - destruct Hs2 as (_ & _ & Hs2). apply NoDup_cons in H2 as [Hz H2]. apply dseg_app. split.
    + apply (dseg_retarget d d' h l1 n z); [done..| |]; intros y Hy; [apply Hfn|apply Hfp];
        set_solver.
    + apply (dseg_tail d); [done|..]; intros y Hy; [apply Hfn|apply Hfp]; set_solver.
Qed.

Lemma u32_succ n : u32 (u32 n + 1) = u32 (n + 1).
Proof. unfold u32. by rewrite Zplus_mod_idemp_l. Qed.
Lemma u32_pred n : u32 (u32 n - 1) = u32 (n - 1).
Proof. unfold u32. by rewrite Zminus_mod_idemp_l. Qed.

(** Another ring of the heap, sharing no node with the one an operation works on. *)
Definition rep_elsewhere (d d' : dheap) (nodes : list loc) : Prop :=
  forall h l, rep d h l -> (forall x, x ∈ h :: l -> x ∉ nodes) -> rep d' h l.

Lemma rep_elsewhere_intro d d' nodes :
  (forall x, x ∉ nodes -> nxt d' !! x = nxt d !! x /\ prv d' !! x = prv d !! x /\
                          dsize d' !! x = dsize d !! x) ->
  rep_elsewhere d d' nodes.
Proof.
  intros Hsame h l [] Hdis. constructor; [|done|].
  - apply (dseg_frame d); [..|done]; intros x Hx; apply Hsame, Hdis; set_solver.
  - destruct (Hsame h) as (_ & _ & ->); [|done]. apply Hdis. set_solver.
Qed.

Lemma wp_add d head node l1 l2 :
  rep d head (l1 ++ l2) -> node ∉ head :: l1 ++ l2 ->
  is_Some (nxt d !! node) -> is_Some (prv d !! node) ->
  wp (SDF_DListAdd head node (List.last l1 head) (hd head l2)) d (fun _ d' =>
    rep d' head (l1 ++ node :: l2) /\ rep_elsewhere d d' (node :: head :: l1 ++ l2)).
Proof.
  intros [Hs Hnd Hsz] Hn Hnn Hnp. destruct (ring_split _ _ _ _ Hs) as [Hl Hh].
  assert (List.last l1 head ∈ head :: l1 ++ l2) as Hlin by (pose proof (last_in head l1); set_solver).
  assert (hd head l2 ∈ head :: l1 ++ l2) as Hhin by (pose proof (hd_in head l2); set_solver).
  assert (List.last l1 head <> node) as Hln by set_solver.
  assert (hd head l2 <> node) as Hhn by set_solver.
  unfold SDF_DListAdd.
  wp_steps. apply wp_set_next; [done|]. wp_steps. apply wp_set_prev; [done|]. wp_steps.
  apply wp_set_prev; cbn; [rewrite lookup_insert_ne by done; eauto|]. wp_steps.
  apply wp_set_next; cbn; [rewrite lookup_insert_ne by done; eauto|]. wp_steps.
  eapply wp_get_size; [exact Hsz|]. apply wp_set_size; cbn; [eauto|]. split.
  - constructor; cbn.
    + eapply (dseg_splice d _ head l1 l2 node); cbn; simplify_map_eq; try done.
      * intros x ??. by rewrite !lookup_insert_ne by done.
      * intros x ??. by rewrite !lookup_insert_ne by done.
    + assert (head :: l1 ++ node :: l2 ≡ₚ node :: head :: l1 ++ l2) as ->
        by (rewrite <- Permutation_middle; apply Permutation_swap).
      by constructor.
    + rewrite lookup_insert_eq, u32_succ. do 2 f_equal. rewrite !length_app. simpl. lia.
  - apply rep_elsewhere_intro. intros x Hx. cbn.
    rewrite !lookup_insert_ne by set_solver. done.
Qed.

(** Insertion at any position of a ring (the contract of [SDF_DListAdd]) inserts
    exactly that node there, keeps the element count, terminates without touching
    unallocated memory, and leaves every disjoint list of the heap as it was. *)
Theorem dlist_add_refines_insert d head node l1 l2 :
  rep d head (l1 ++ l2) -> node ∉ head :: l1 ++ l2 ->
  is_Some (nxt d !! node) -> is_Some (prv d !! node) ->
  exists d', SDF_DListAdd head node (List.last l1 head) (hd head l2) d = Some (tt, d') /\
    rep d' head (l1 ++ node :: l2) /\ rep_elsewhere d d' (node :: head :: l1 ++ l2).
Proof.
  intros Hr Hn Hx Hp. pose proof (wp_add d head node l1 l2 Hr Hn Hx Hp) as H.
  apply wp_run in H as ([] & d' & ? & ? & ?). eauto.
Qed.

Lemma wp_head_insert d head node l :
  rep d head l -> node ∉ head :: l -> is_Some (nxt d !! node) -> is_Some (prv d !! node) ->
  wp (SDF_DListElmHeadInsert head node) d (fun _ d' =>
    rep d' head (node :: l) /\ rep_elsewhere d d' (node :: head :: l)).
Proof.
  intros Hr Hn ??. unfold SDF_DListElmHeadInsert. apply wp_bind.
  eapply wp_get_next; [eapply dseg_first, Hr|].
  apply (wp_add d head node [] l); done.
Qed.

Lemma wp_tail_insert d head node l :
  rep d head l -> node ∉ head :: l -> is_Some (nxt d !! node) -> is_Some (prv d !! node) ->
  wp (SDF_DListElmTailInsert head node) d (fun _ d' =>
    rep d' head (l ++ [node]) /\ rep_elsewhere d d' (node :: head :: l)).
Proof.
  intros Hr Hn ??. unfold SDF_DListElmTailInsert. apply wp_bind.
  eapply wp_get_prev; [eapply dseg_last, Hr|].
  assert (l ++ [] = l) as E by apply app_nil_r.
  pose proof (wp_add d head node l []) as Ha. rewrite E in Ha. by apply Ha.
Qed.

Lemma wp_del d head node l1 l2 :
  rep d head (l1 ++ node :: l2) ->
  wp (SDF_DListDel head node) d (fun r d' =>
    r = node /\ rep d' head (l1 ++ l2) /\
    nxt d' !! node = Some node /\ prv d' !! node = Some node /\
    rep_elsewhere d d' (head :: l1 ++ node :: l2)).
Proof.
  intros [Hs Hnd Hsz].
  pose proof Hs as [Hs1 Hs2]%dseg_app.
  pose proof (dseg_last _ _ _ _ Hs1) as Hp. pose proof (dseg_first _ _ _ _ Hs2) as Hn.
  destruct (ring_split d head (l1 ++ [node]) l2) as [_ Hhp]; [by rewrite <- app_assoc|].
  rewrite List.last_last in Hhp.
  destruct (ring_split d head l1 (node :: l2)) as [Hln _]; [done|]. simpl in Hln.
  assert (head :: l1 ++ node :: l2 ≡ₚ node :: head :: l1 ++ l2) as Hperm
    by (rewrite <- Permutation_middle; apply Permutation_swap).
  rewrite Hperm in Hnd. apply NoDup_cons in Hnd as [Hnin Hnd].
  assert (List.last l1 head <> node) as Hpn by (pose proof (last_in head l1); set_solver).
  assert (hd head l2 <> node) as Hnn by (pose proof (hd_in head l2); set_solver).
  assert (List.last l1 head ∈ head :: l1 ++ l2) by (pose proof (last_in head l1); set_solver).
  assert (hd head l2 ∈ head :: l1 ++ l2) by (pose proof (hd_in head l2); set_solver).
  unfold SDF_DListDel, SDF_DListEntryInit.
  wp_steps. eapply wp_get_prev; [done|]. wp_steps. eapply wp_get_next; [done|].
  wp_steps. apply wp_set_next; [eauto|]. wp_steps.
  eapply wp_get_next; cbn; [by rewrite lookup_insert_ne by done|]. wp_steps.
  eapply wp_get_prev; [done|]. wp_steps. apply wp_set_prev; [eauto|]. wp_steps.
  apply wp_set_next; cbn; [rewrite lookup_insert_ne by done; eauto|]. wp_steps.
  apply wp_set_prev; cbn; [rewrite lookup_insert_ne by done; eauto|]. wp_steps.
  eapply wp_get_size; [done|]. wp_steps. apply wp_set_size; cbn; [eauto|]. wp_steps.
  split; [done|]. split; [|split_and!; cbn; [by rewrite lookup_insert_eq..|]].
  - constructor; cbn.
    + eapply (dseg_unsplice d _ head l1 l2 node); cbn; simplify_map_eq; try done.
      * intros x ??. by rewrite !lookup_insert_ne by done.
      * intros x ??. by rewrite !lookup_insert_ne by done.
    + done.
    + rewrite lookup_insert_eq, u32_pred. do 2 f_equal. rewrite !length_app. simpl. lia.
  - apply rep_elsewhere_intro. intros x Hx. cbn.
    rewrite !lookup_insert_ne by set_solver. done.
Qed.

(** Removing a node ([SDF_DListDel]) yields the list without it, self-links the
    node, fixes the count and leaves every disjoint list of the heap as it was. *)
Theorem dlist_del_refines_remove d head node l1 l2 :
  rep d head (l1 ++ node :: l2) ->
  exists d', SDF_DListDel head node d = Some (node, d') /\
    rep d' head (l1 ++ l2) /\ nxt d' !! node = Some node /\ prv d' !! node = Some node /\
    rep_elsewhere d d' (head :: l1 ++ node :: l2).
Proof.
  intros Hr. pose proof (wp_del d head node l1 l2 Hr) as H.
  apply wp_run in H as (? & d' & ? & -> & ? & ? & ? & ?). eauto 10.
Qed.

(** The iteration macros visit the represented nodes in order and stop at the head. *)
Lemma foreach_visits d h l fuel :
  rep d h l -> (length l < fuel)%nat -> SDF_DListElmForeach fuel h d = Some l.
Proof.
  intros [Hs [Hh _]%NoDup_cons _] Hf. by apply (foreach_dseg d h l h).
Qed.

Lemma head_init_rep d h :
  is_Some (nxt d !! h) -> is_Some (prv d !! h) -> is_Some (dsize d !! h) ->
  wp (SDF_DListHeadInit h) d (fun _ d' => rep d' h []).
Proof.
  intros. unfold SDF_DListHeadInit. wp_steps. apply wp_set_next; [done|]. wp_steps.
  apply wp_set_prev; [done|]. apply wp_set_size; [done|].
  constructor; cbn; [by rewrite !lookup_insert_eq|apply NoDup_singleton|].
  by rewrite lookup_insert_eq.
Qed.

(** ** Moving a list

    [SDF_DListMove] is correct only for a source that is not empty: the ring of an
    empty source is the source head itself, so the code leaves the destination's
    [prev] pointing at the source head. *)
Lemma wp_move_empty d dst src :
  dst <> src -> rep d dst [] -> rep d src [] ->
  wp (SDF_DListMove dst src) d (fun _ d' =>
    nxt d' !! dst = Some dst /\ prv d' !! dst = Some src /\ dsize d' !! dst = Some 0 /\
    is_Some (nxt d' !! src) /\
    (forall x, x <> dst -> x <> src -> nxt d' !! x = nxt d !! x /\ prv d' !! x = prv d !! x)).
Proof.
  intros Hne [[Hd1 Hd2] _ Hd3] [[Hs1 Hs2] _ Hs3].
  unfold SDF_DListMove, SDF_DListHeadInit. wp_steps.
  eapply wp_get_next; [done|]. wp_steps. apply wp_set_next; [eauto|]. wp_steps.
  eapply wp_get_prev; [done|]. wp_steps. apply wp_set_prev; [eauto|]. wp_steps.
  eapply wp_get_next; cbn; [by rewrite lookup_insert_ne by done|]. wp_steps.
  apply wp_set_prev; cbn; [rewrite lookup_insert_ne by done; eauto|]. wp_steps.
  eapply wp_get_prev; cbn; [by rewrite lookup_insert_eq|]. wp_steps.
  apply wp_set_next; cbn; [rewrite lookup_insert_eq; eauto|]. wp_steps.
  eapply wp_get_size; [done|]. wp_steps. eapply wp_get_size; [done|]. wp_steps.
  apply wp_set_size; cbn; [eauto|]. wp_steps.
  apply wp_set_next; cbn; [rewrite !lookup_insert_ne by done; eauto|]. wp_steps.
  apply wp_set_prev; cbn; [rewrite lookup_insert_eq; eauto|].
  apply wp_set_size; cbn; [rewrite lookup_insert_ne by done; eauto|]. cbn.
  rewrite lookup_insert_eq. split_and!; [by simplify_map_eq..|eauto|].
  intros x ??. by rewrite !lookup_insert_ne by done.
Qed.

(** After moving an empty list, a node appended to the destination is counted but
    no iteration over the destination reaches it. *)
Lemma dlist_move_empty_loses_node d dst src node fuel :
  dst <> src -> rep d dst [] -> rep d src [] ->
  node <> dst -> node <> src -> is_Some (nxt d !! node) -> is_Some (prv d !! node) ->
  wp (SDF_DListMove dst src ;;! SDF_DListElmTailInsert dst node) d (fun _ d' =>
    dsize d' !! dst = Some 1 /\ SDF_DListElmForeach (Datatypes.S fuel) dst d' = Some []).
Proof.
  intros Hne Hd Hs Hnd Hns Hnn Hnp. apply wp_bind.
  eapply wp_mono; [by apply wp_move_empty|]. intros _ d1 (H1 & H2 & H3 & H4 & Hf).
  destruct (Hf node Hnd Hns) as [Hf1 Hf2].
  unfold SDF_DListElmTailInsert, SDF_DListAdd. wp_steps.
  eapply wp_get_prev; [done|]. wp_steps. apply wp_set_next; [by rewrite Hf1|]. wp_steps.
  apply wp_set_prev; cbn; [by rewrite Hf2|]. wp_steps.
  apply wp_set_prev; cbn; [rewrite lookup_insert_ne by done; eauto|]. wp_steps.
  apply wp_set_next; cbn; [rewrite lookup_insert_ne by done; eauto|]. wp_steps.
  eapply wp_get_size; [done|]. apply wp_set_size; cbn; [eauto|].
  rewrite lookup_insert_eq. split; [done|].
  unfold SDF_DListElmForeach. cbn. rewrite !lookup_insert_ne, H1 by done.
  by rewrite decide_True.
Qed.

(** ** A concrete heap: the list [2] headed at 1, an unlinked node 3 and an empty
    list headed at 4. *)
Definition demo_heap : dheap :=
  mk_dheap (list_to_map [(1, 2); (2, 1); (3, 3); (4, 4)])%positive
           (list_to_map [(1, 2); (2, 1); (3, 3); (4, 4)])%positive
           (list_to_map [(1%positive, 1); (4%positive, 0)]).

Lemma demo_rep : rep demo_heap 1 [2%positive].
Proof.
  constructor; [by vm_compute|apply (bool_decide_unpack _); by vm_compute|by vm_compute].
Qed.

Lemma dlist_add_refines_insert_witness :
  exists d', SDF_DListAdd 1 3 2 1 demo_heap = Some (tt, d') /\
    rep d' 1 [2; 3]%positive /\ rep_elsewhere demo_heap d' [3; 1; 2]%positive.
Proof.
  apply (dlist_add_refines_insert demo_heap 1 3 [2%positive] []); [apply demo_rep| |by eexists..].
  apply (bool_decide_unpack _). by vm_compute.
Defined.

Lemma dlist_del_refines_remove_witness :
  exists d', SDF_DListDel 1 2 demo_heap = Some (2%positive, d') /\
    rep d' 1 [] /\ nxt d' !! 2%positive = Some 2%positive /\
    prv d' !! 2%positive = Some 2%positive /\ rep_elsewhere demo_heap d' [1; 2]%positive.
Proof. apply (dlist_del_refines_remove demo_heap 1 2 [] []), demo_rep. Defined.

(** Two empty lists, headed at 1 and 4, and the unlinked node 3. *)
Definition demo_empty : dheap :=
  mk_dheap (list_to_map [(1, 1); (3, 3); (4, 4)])%positive
           (list_to_map [(1, 1); (3, 3); (4, 4)])%positive
           (list_to_map [(1%positive, 0); (4%positive, 0)]).

Lemma dlist_move_empty_loses_node_witness :
  wp (SDF_DListMove 1 4 ;;! SDF_DListElmTailInsert 1 3) demo_empty (fun _ d' =>
    dsize d' !! 1%positive = Some 1 /\ SDF_DListElmForeach 6 1 d' = Some []).
Proof.
  refine (dlist_move_empty_loses_node demo_empty 1 4 3 5 _ _ _ _ _ _ _); try done; try by eexists.
  - constructor; [by vm_compute|apply (bool_decide_unpack _); by vm_compute|by vm_compute].
  - constructor; [by vm_compute|apply (bool_decide_unpack _); by vm_compute|by vm_compute].
Defined.
