(* ===== verification/SdfContainers.v ===== *)
(** * Vectors and maps

    [services/stack/src/sdf/bsl/dsl/src/sdf_vector.c] and [sdf_map.c]: the growable
    pointer array and the association list keyed through a comparator.  Elements
    are pointers; [None] is NULL.  The destructor hooks of the [traits] are
    reported as the list of elements they were called on. *)
From S2P Require Import Prelude.

Module Vector.
Section vector.
Context {A : Type}.

Record SDF_Vector := mk_vector {
  buf : list (option A);
  vsize : Z;
  capacity : Z;
  dtor : bool          (* [traits.dtor != NULL] *)
}.
#[export] Instance eta_vector : Eta SDF_Vector :=
  fun v => mk_vector (buf v) (vsize v) (capacity v) (dtor v).

Definition SDF_VECTOR_DEFAULT_CAPACITY : Z := 8.
Definition SDF_VECTOR_ELEMENT_SIZE : Z := 8.   (* sizeof(void * ) on the 64-bit targets *)
Definition SDF_VECTOR_GROW_FACTOR : Z := 2.

(** [malloc] fails beyond PTRDIFF_MAX; below it, [ok] is its outcome. *)
Definition alloc (ok : bool) (size : Z) : bool := ok && (size <=? 9223372036854775807).

Definition SDF_CreateVectorByCapacity (ok1 ok2 : bool) (cap : Z) (d : bool) : option SDF_Vector :=
  if cap =? 0 then None
  else if negb ok1 then None
  else
    let bytes := u64 (SDF_VECTOR_ELEMENT_SIZE * cap) in
    if alloc ok2 bytes then
      Some (mk_vector (replicate (Z.to_nat (bytes / SDF_VECTOR_ELEMENT_SIZE)) None) 0 cap d)
    else None.

Definition SDF_CreateVector (ok1 ok2 : bool) (d : bool) : option SDF_Vector :=
  SDF_CreateVectorByCapacity ok1 ok2 SDF_VECTOR_DEFAULT_CAPACITY d.

(** The elements handed to the destructor. *)
Definition destroyed (v : SDF_Vector) (l : list (option A)) : list (option A) :=
  if dtor v then l else [].

Definition SDF_CleanVector (v : SDF_Vector) : SDF_Vector * list (option A) :=
  let n := Z.to_nat (vsize v) in
  ((if dtor v then v <| buf ::= fun b => replicate n None ++ drop n b |> else v) <| vsize := 0 |>,
   destroyed v (take n (buf v))).

Definition VectorGrow (ok : bool) (v : SDF_Vector) : bool * SDF_Vector :=
  let copySize := u64 (SDF_VECTOR_ELEMENT_SIZE * capacity v) in
  let size := u64 (copySize * SDF_VECTOR_GROW_FACTOR) in
  if alloc ok size then
    (true,
     v <| buf := take (Z.to_nat (capacity v)) (buf v)
                 ++ replicate (Z.to_nat (size / SDF_VECTOR_ELEMENT_SIZE - capacity v)) None |>
       <| capacity := u64 (capacity v * SDF_VECTOR_GROW_FACTOR) |>)
  else (false, v).

Definition SDF_VectorEmplaceBack (ok : bool) (v : SDF_Vector) (ptr : option A) : bool * SDF_Vector :=
  match ptr with
  | None => (false, v)
  | Some _ =>
      let '(grown, v1) := if capacity v =? vsize v then VectorGrow ok v else (true, v) in
      if grown then
        (true, v1 <| buf ::= <[Z.to_nat (vsize v1) := ptr]> |> <| vsize := u64 (vsize v1 + 1) |>)
      else (false, v1)
  end.

(** [memmove_s(&buf[i], n * 8, &buf[i+1], n * 8)] *)
Definition move_down (i n : nat) (b : list (option A)) : list (option A) :=
  take i b ++ take n (drop (Datatypes.S i) b) ++ drop (i + n) b.

(** [moved] is the outcome of [memmove_s]. *)
Definition SDF_VectorRemove (moved : bool) (v : SDF_Vector) (index : Z) :
    SDF_Vector * list (option A) :=
  if vsize v <=? index then (v, [])
  else
    let d := destroyed v (take 1 (drop (Z.to_nat index) (buf v))) in
    if negb (index =? vsize v - 1) then
      if moved then
        (v <| buf ::= move_down (Z.to_nat index) (Z.to_nat (vsize v - index - 1)) |>
           <| vsize := vsize v - 1 |>, d)
      else (v, d)
    else (v <| vsize := vsize v - 1 |>, d).

Definition SDF_VectorRemoveLast (moved : bool) (v : SDF_Vector) : SDF_Vector * list (option A) :=
  if vsize v =? 0 then (v, []) else SDF_VectorRemove moved v (vsize v - 1).

Definition SDF_VectorElementAt (v : SDF_Vector) (index : Z) : option A :=
  if vsize v <=? index then None else mjoin (buf v !! Z.to_nat index).

Definition SDF_VectorPopElement (moved : bool) (v : SDF_Vector) (index : Z) :
    option A * SDF_Vector :=
  if vsize v <=? index then (None, v)
  else
    let element := mjoin (buf v !! Z.to_nat index) in
    if negb (index =? vsize v - 1) then
      if moved then
        (element, v <| buf ::= move_down (Z.to_nat index) (Z.to_nat (vsize v - index - 1)) |>
                    <| vsize := vsize v - 1 |>)
      else (None, v)
    else (element, v <| vsize := vsize v - 1 |>).

(** The search loop: the index found, from [i] over at most [n] elements. *)
Fixpoint find_from (func : option A -> bool) (b : list (option A)) (i : Z) (n : nat) : option Z :=
  match n with
  | O => None
  | Datatypes.S n' =>
      if func (mjoin (b !! Z.to_nat i)) then Some i else find_from func b (i + 1) n'
  end.

Definition SDF_VectorFindFirstByStartIndex (v : SDF_Vector) (func : option A -> bool)
    (startIndex : Z) : option Z :=
  if vsize v <=? startIndex then None
  else find_from func (buf v) startIndex (Z.to_nat (vsize v - startIndex)).

Definition SDF_VectorFindFirst (v : SDF_Vector) (func : option A -> bool) : option Z :=
  SDF_VectorFindFirstByStartIndex v func 0.

(** ** Specification: the vector is a list *)
Definition vlist (v : SDF_Vector) : list (option A) := take (Z.to_nat (vsize v)) (buf v).

Record vec_wf (v : SDF_Vector) : Prop := {
  vw_size : 0 <= vsize v <= capacity v;
  vw_cap : 0 < capacity v;
  vw_bytes : 8 * capacity v <= 9223372036854775807;
  vw_buf : zlen (buf v) = capacity v
}.

(** One call on a vector, with the outcome of its allocation or move. *)
Inductive vop : Type :=
| VPush (ok : bool) (a : A)
| VRemove (i : Z)
| VRemoveLast
| VPop (i : Z)
| VClean
| VGet (i : Z)
| VFind (f : option A -> bool).

(** What a call answers: a boolean, a pointer, an index, or nothing. *)
Inductive vres : Type := RB (b : bool) | RP (p : option A) | RI (i : option Z) | RU.

Definition vstep (v : SDF_Vector) (o : vop) : SDF_Vector * vres :=
  match o with
  | VPush ok a => let '(b, v') := SDF_VectorEmplaceBack ok v (Some a) in (v', RB b)
  | VRemove i => (fst (SDF_VectorRemove true v i), RU)
  | VRemoveLast => (fst (SDF_VectorRemoveLast true v), RU)
  | VPop i => let '(p, v') := SDF_VectorPopElement true v i in (v', RP p)
  | VClean => (fst (SDF_CleanVector v), RU)
  | VGet i => (v, RP (SDF_VectorElementAt v i))
  | VFind f => (v, RI (SDF_VectorFindFirst v f))
  end.

(** The same calls on a plain list. *)
Definition lstep (l : list (option A)) (o : vop) (pushed : bool) : list (option A) * vres :=
  match o with
  | VPush _ a => if pushed then (l ++ [Some a], RB true) else (l, RB false)
  | VRemove i => (delete (Z.to_nat i) l, RU)
  | VRemoveLast => (delete (length l - 1)%nat l, RU)
  | VPop i => (delete (Z.to_nat i) l, RP (mjoin (l !! Z.to_nat i)))
  | VClean => ([], RU)
  | VGet i => (l, RP (mjoin (l !! Z.to_nat i)))
  | VFind f => (l, RI (Z.of_nat <$> (fst <$> list_find f l)))
  end.

(** ** Lemmas *)
Lemma length_vlist v : vec_wf v -> zlen (vlist v) = vsize v.
Proof. intros []. unfold vlist. rewrite length_take. lia. Qed.

Lemma vlist_lookup v i : vec_wf v -> 0 <= i < vsize v -> vlist v !! Z.to_nat i = buf v !! Z.to_nat i.
Proof. intros [] ?. unfold vlist. rewrite lookup_take_lt by lia. done. Qed.

Lemma create_wf ok1 ok2 cap d v :
  0 <= cap -> 8 * cap <= 9223372036854775807 ->
  SDF_CreateVectorByCapacity ok1 ok2 cap d = Some v -> vec_wf v /\ vlist v = [].
Proof.
  unfold SDF_CreateVectorByCapacity. intros Hc Hb.
  destruct (Z.eqb_spec cap 0); [done|]. destruct ok1; simpl; [|done].
  case_match; [|done]. intros [= <-]. split; [constructor; cbn; try lia|done].
  unfold SDF_VECTOR_ELEMENT_SIZE. rewrite length_replicate, u64_small by cint.
  Z.div_mod_to_equations; lia.
Qed.

Lemma grow_spec ok v b v' :
  vec_wf v -> VectorGrow ok v = (b, v') ->
  vec_wf v' /\ vlist v' = vlist v /\ vsize v' = vsize v /\
  (b = true -> vsize v < capacity v' ) /\ (b = false -> v' = v).
Proof.
  intros [] H. unfold VectorGrow, alloc in H.
  unfold SDF_VECTOR_ELEMENT_SIZE, SDF_VECTOR_GROW_FACTOR in H.
  rewrite (u64_small (8 * capacity v)) in H by cint.
  rewrite (u64_small (8 * capacity v * 2)) in H by cint.
  rewrite (u64_small (capacity v * 2)) in H by cint.
  case_match eqn:E; injection H as <- <-; [|by split_and!].
  apply andb_prop in E as [_ E%Z.leb_le].
  split_and!; [constructor; cbn; try lia| |done|cbn; lia|done].
  - rewrite length_app, length_take, length_replicate. Z.div_mod_to_equations; lia.
  - unfold vlist; cbn. rewrite take_app_le by (rewrite length_take; lia).
    rewrite take_take. f_equal. lia.
Qed.

Lemma emplace_spec ok v a b v' :
  vec_wf v -> SDF_VectorEmplaceBack ok v (Some a) = (b, v') ->
  vec_wf v' /\ vlist v' = if b then vlist v ++ [Some a] else vlist v.
Proof.
  intros Hw H. unfold SDF_VectorEmplaceBack in H.
  destruct (if capacity v =? vsize v then VectorGrow ok v else (true, v)) as [g v1] eqn:Eg.
  assert (vec_wf v1 /\ vlist v1 = vlist v /\ vsize v1 = vsize v /\
          (g = true -> vsize v1 < capacity v1)) as (Hw1 & Hl1 & Hs1 & Hroom).
  { destruct (Z.eqb_spec (capacity v) (vsize v)).
    - apply grow_spec in Eg as (?&?&?&?&?); [|done]. rewrite H2 at 1. naive_solver lia.
    - injection Eg as <- <-. destruct Hw. split_and!; try done. lia. }
  destruct g; injection H as <- <-; [|done]. specialize (Hroom eq_refl). destruct Hw1.
  rewrite u64_small by cint. split; [constructor; cbn; try rewrite length_insert; lia|].
  unfold vlist in *; cbn. rewrite <- Hl1.
  replace (Z.to_nat (vsize v1 + 1)) with (Datatypes.S (Z.to_nat (vsize v1))) by lia.
  erewrite take_S_r by (apply list_lookup_insert_eq; lia).
  f_equal. by apply take_insert_ge.
Qed.

Lemma move_down_delete i n (b : list (option A)) s :
  (i < s)%nat -> (s <= length b)%nat -> n = (s - i - 1)%nat ->
  take (s - 1) (move_down i n b) = delete i (take s b).
Proof.
  intros Hi Hs ->. unfold move_down. rewrite delete_take_drop.
  rewrite take_take, Nat.min_l by lia.
  rewrite take_app, length_take, Nat.min_l by lia. rewrite take_take, Nat.min_r by lia.
  f_equal. rewrite take_app_le by (rewrite length_take, length_drop; lia).
  rewrite take_take. rewrite skipn_firstn_comm. f_equal; lia.
Qed.

Lemma length_move_down i n (b : list (option A)) :
  (i + n < length b)%nat -> length (move_down i n b) = length b.
Proof.
  intros. unfold move_down. rewrite !length_app, !length_take, !length_drop. lia.
Qed.

(** Deleting the element at a valid index, shared by remove and pop. *)
Lemma delete_at_spec v i :
  vec_wf v -> 0 <= i < vsize v ->
  let v' := if negb (i =? vsize v - 1)
            then v <| buf ::= move_down (Z.to_nat i) (Z.to_nat (vsize v - i - 1)) |>
                   <| vsize := vsize v - 1 |>
            else v <| vsize := vsize v - 1 |> in
  vec_wf v' /\ vlist v' = delete (Z.to_nat i) (vlist v).
Proof.
  intros [] Hi. destruct (Z.eqb_spec i (vsize v - 1)); cbn.
  - split; [constructor; cbn; lia|]. unfold vlist; cbn.
    rewrite delete_take_drop, take_take, drop_ge, app_nil_r by (rewrite length_take; lia).
    f_equal. lia.
  - split; [constructor; cbn; try rewrite length_move_down; lia|]. unfold vlist; cbn.
    rewrite <- (move_down_delete (Z.to_nat i) (Z.to_nat (vsize v - i - 1)) (buf v)) by lia.
    f_equal. lia.
Qed.

Lemma find_from_spec f (l : list (option A)) b i n :
  (forall k, (k < n)%nat -> l !! k = b !! (Z.to_nat i + k)%nat) -> length l = n -> 0 <= i ->
  find_from f b i n = (fun k => i + Z.of_nat k) <$> (fst <$> list_find f l).
Proof.
  revert l i. induction n as [|n IH]; intros l i Hl Hn Hi; simpl.
  - by destruct l.
  - destruct l as [|x l]; [done|]. simpl in Hn. pose proof (Hl 0%nat ltac:(lia)) as H0.
    rewrite Nat.add_0_r in H0. simpl in H0. rewrite <- H0. simpl.
    unfold decide, decide_rel. destruct (f x); simpl; [f_equal; lia|].
    rewrite (IH l (i + 1)); [|intros k Hk; specialize (Hl (Datatypes.S k) ltac:(lia));
      simpl in Hl; rewrite Hl; f_equal; lia|lia|lia].
    destruct (list_find f l) as [[k y]|]; simpl; [|done]. f_equal. lia.
Qed.

(** Side conditions of the calls: an index parameter is a [size_t]. *)
Definition vop_ok (o : vop) : Prop :=
  match o with VRemove i | VPop i | VGet i => 0 <= i | _ => True end.

(** The push was carried out. *)
Definition pushed (r : vres) : bool := match r with RB b => b | _ => false end.

Lemma vlist_out v i : vec_wf v -> vsize v <= i -> vlist v !! Z.to_nat i = None.
Proof. intros Hw ?. apply lookup_ge_None. pose proof (length_vlist v Hw). lia. Qed.

Lemma vlist_delete_out v i :
  vec_wf v -> vsize v <= i -> delete (Z.to_nat i) (vlist v) = vlist v.
Proof.
  intros Hw ?. rewrite delete_take_drop. pose proof (length_vlist v Hw).
  rewrite take_ge, (drop_ge _ (Datatypes.S _)) by lia. by rewrite app_nil_r.
Qed.

Lemma remove_spec v i :
  vec_wf v -> 0 <= i ->
  vec_wf (fst (SDF_VectorRemove true v i)) /\
  vlist (fst (SDF_VectorRemove true v i)) = delete (Z.to_nat i) (vlist v).
Proof.
  intros Hw Hi. unfold SDF_VectorRemove. destruct (Z.leb_spec (vsize v) i); cbn.
  - by rewrite vlist_delete_out.
  - pose proof (delete_at_spec v i Hw ltac:(lia)) as H'.
    destruct (negb (i =? vsize v - 1)); exact H'.
Qed.

Lemma pop_spec v i :
  vec_wf v -> 0 <= i ->
  let '(p, v') := SDF_VectorPopElement true v i in
  vec_wf v' /\ vlist v' = delete (Z.to_nat i) (vlist v) /\ p = mjoin (vlist v !! Z.to_nat i).
Proof.
  intros Hw Hi. unfold SDF_VectorPopElement. destruct (Z.leb_spec (vsize v) i); cbn.
  - by rewrite vlist_delete_out, vlist_out.
  - pose proof (delete_at_spec v i Hw ltac:(lia)) as H'.
    rewrite vlist_lookup by (done || lia).
    destruct (negb (i =? vsize v - 1)); cbn in *; by destruct H'.
Qed.

Lemma clean_spec v : 
  vec_wf v -> vec_wf (fst (SDF_CleanVector v)) /\ vlist (fst (SDF_CleanVector v)) = [].
Proof.
  intros []. unfold SDF_CleanVector. cbn.
  destruct (dtor v); (split; [constructor; cbn; try lia|done]).
  rewrite length_app, length_replicate, length_drop. lia.
Qed.

Lemma find_spec v f :
  vec_wf v -> SDF_VectorFindFirst v f = Z.of_nat <$> (fst <$> list_find f (vlist v)).
Proof.
  intros Hw. unfold SDF_VectorFindFirst, SDF_VectorFindFirstByStartIndex.
  pose proof (length_vlist v Hw) as Hl. destruct Hw. destruct (Z.leb_spec (vsize v) 0).
  - destruct (vlist v); [done|simpl in Hl; lia].
  - rewrite (find_from_spec f (vlist v)); [|intros k Hk|lia|done].
    + by destruct (list_find f (vlist v)).
    + unfold vlist. rewrite lookup_take_lt by lia. done.
Qed.

Lemma vstep_spec v o :
  vec_wf v -> vop_ok o ->
  let '(v', r) := vstep v o in
  vec_wf v' /\ lstep (vlist v) o (pushed r) = (vlist v', r).
Proof.
  intros Hw Ho. destruct o; unfold vstep, lstep; simpl in Ho.
  - destruct (SDF_VectorEmplaceBack ok v (Some a)) as [b v'] eqn:E.
    apply emplace_spec in E as [? ->]; [|done]. split; [done|]. by destruct b.
  - destruct (remove_spec v i Hw Ho) as [? ->]. done.
  - unfold SDF_VectorRemoveLast. destruct (Z.eqb_spec (vsize v) 0) as [E|E]; cbn.
    + split; [done|]. f_equal. unfold vlist. by rewrite E.
    + pose proof (vw_size v Hw). destruct (remove_spec v (vsize v - 1) Hw ltac:(lia)) as [? ->].
      split; [done|]. repeat f_equal. pose proof (length_vlist v Hw). lia.
  - pose proof (pop_spec v i Hw Ho) as H. destruct (SDF_VectorPopElement true v i).
    destruct H as (?&->&->). done.
  - destruct (clean_spec v Hw) as [? ->]. done.
  - split; [done|]. repeat f_equal. unfold SDF_VectorElementAt.
    destruct (Z.leb_spec (vsize v) i); [by rewrite vlist_out|by rewrite vlist_lookup by (done || lia)].
  - split; [done|]. by rewrite find_spec.
Qed.

Lemma push_succeeds v a :
  vec_wf v -> 16 * capacity v <= 9223372036854775807 ->
  fst (SDF_VectorEmplaceBack true v (Some a)) = true.
Proof.
  intros [] Hc. unfold SDF_VectorEmplaceBack. destruct (capacity v =? vsize v); [|done].
  unfold VectorGrow, alloc, SDF_VECTOR_ELEMENT_SIZE, SDF_VECTOR_GROW_FACTOR.
  rewrite (u64_small (8 * capacity v)) by cint. rewrite (u64_small (8 * capacity v * 2)) by cint.
  destruct (Z.leb_spec (8 * capacity v * 2) 9223372036854775807); [done|lia].
Qed.

(** A run of calls on the vector, and the same run on a list. *)
Fixpoint vrun (v : SDF_Vector) (os : list vop) : SDF_Vector * list vres :=
  match os with
  | [] => (v, [])
  | o :: os' =>
      let '(v1, r) := vstep v o in
      let '(v2, rs) := vrun v1 os' in (v2, r :: rs)
  end.

Fixpoint lrun (l : list (option A)) (os : list vop) (ps : list bool) :
    list (option A) * list vres :=
  match os, ps with
  | o :: os', p :: ps' =>
      let '(l1, r) := lstep l o p in
      let '(l2, rs) := lrun l1 os' ps' in (l2, r :: rs)
  | _, _ => (l, [])
  end.

(** Refinement: whatever the sequence of calls made on a vector, and whichever
    of its allocations fail, every call answers what the same call answers on a
    plain list of pointers (append, delete at index, read, search), the vector
    stays well formed and ends up denoting the final list. *)
Theorem vector_refines_list v os v' rs :
  vec_wf v -> Forall vop_ok os -> vrun v os = (v', rs) ->
  vec_wf v' /\ lrun (vlist v) os (pushed <$> rs) = (vlist v', rs).
Proof.
  revert v v' rs. induction os as [|o os IH]; intros v v' rs Hw Ho; simpl.
  - by intros [= <- <-].
  - inversion_clear Ho as [|? ? Ho1 Ho2].
    pose proof (vstep_spec v o Hw Ho1) as Hs.
    destruct (vstep v o) as [v1 r]. destruct Hs as [Hw1 Hs].
    destruct (vrun v1 os) as [v2 rs'] eqn:E. intros [= <- <-].
    destruct (IH _ _ _ Hw1 Ho2 E) as [? Hr]. split; [done|].
    cbn. rewrite Hs. cbn. by rewrite Hr.
Qed.
End vector.
#[global] Arguments SDF_Vector : clear implicits.
#[global] Arguments vop : clear implicits.
#[global] Arguments vres : clear implicits.

(** Nine pushes on a fresh vector (the ninth grows it), a removal and a search. *)
Definition demo_ops : list (vop Z) :=
  [VPush true 1; VPush true 2; VPush true 3; VPush true 4; VPush true 5; VPush true 6;
   VPush true 7; VPush true 8; VPush false 9; VPush true 10; VRemove 2; VPop 0; VGet 7;
   VFind (fun p => bool_decide (p = Some 10))].

Definition demo_vec : SDF_Vector Z := default (mk_vector [] 0 0 false) (SDF_CreateVector true true false).

Lemma vector_refines_list_witness :
  snd (vrun demo_vec demo_ops)
  = [RB true; RB true; RB true; RB true; RB true; RB true; RB true; RB true; RB false;
     RB true; RU; RP (Some 1); RP None; RI (Some 6)] /\
  lrun [] demo_ops (pushed <$> snd (vrun demo_vec demo_ops))
  = (vlist (fst (vrun demo_vec demo_ops)), snd (vrun demo_vec demo_ops)).
Proof.
  split; [vm_compute; reflexivity|].
  refine (proj2 (vector_refines_list demo_vec demo_ops _ _ _ _ _)).
  - constructor; vm_compute; repeat split; try done.
  - repeat constructor; vm_compute; done.
  - vm_compute; reflexivity.
Defined.
(** ** Vectors whose capacity is bounded by their size *)
Section small.
Context {A : Type}.
Implicit Types v : SDF_Vector A.

Definition vec_small v : Prop := vec_wf v /\ capacity v <= 8 + 2 * vsize v.

Lemma emplace_small ok v a : vec_small v -> vsize v < 65536 ->
  let r := SDF_VectorEmplaceBack ok v (Some a) in
  vec_small (snd r) /\ vlist (snd r) = (if fst r then vlist v ++ [Some a] else vlist v) /\
  ((capacity v =? vsize v) = false \/ ok = true -> fst r = true).
Proof.
  intros [Hw Hc] Hs r. destruct (SDF_VectorEmplaceBack ok v (Some a)) as [b v'] eqn:E. subst r; cbn [fst snd].
  destruct (emplace_spec ok v a b v' Hw E) as [Hw' Hl]. split; [|split; [done|]].
  - split; [done|]. pose proof (length_vlist v Hw) as H1. pose proof (length_vlist v' Hw') as H2. rewrite Hl in H2.
    pose proof Hw as []. unfold SDF_VectorEmplaceBack, VectorGrow, alloc, SDF_VECTOR_GROW_FACTOR in E.
    destruct (Z.eqb_spec (capacity v) (vsize v)).
    + destruct (ok && _)%bool; injection E as <- <-; cbn in *; [|lia]. rewrite length_app in H2. cbn in H2.
      rewrite !u64_small in * by cint. lia.
    + injection E as <- <-; cbn in *. rewrite length_app in H2. cbn in H2. lia.
  - intros H. unfold SDF_VectorEmplaceBack in E. destruct (capacity v =? vsize v) eqn:Ec; [|by injection E as <- <-].
    destruct H as [? | ->]; [done|]. apply Z.eqb_eq in Ec. pose proof (push_succeeds v a Hw ltac:(lia)) as Hp.
    unfold SDF_VectorEmplaceBack in Hp. rewrite (proj2 (Z.eqb_eq _ _) Ec) in Hp. by rewrite E in Hp.
Qed.

Lemma create_small d v : SDF_CreateVector true true d = Some v -> vec_small v /\ vlist v = [] /\ capacity v <> vsize v.
Proof.
  intros E. pose proof (create_wf true true SDF_VECTOR_DEFAULT_CAPACITY d v ltac:(done) ltac:(done) E) as [Hw Hl]. split; [|split; [done|]].
  - split; [done|]. vm_compute in E. injection E as <-. cbn. lia.
  - vm_compute in E. injection E as <-. done.
Qed.
End small.

End Vector.

Module Map.
Section map.
Context {K V : Type} (cmptor : K -> K -> Z).

(** The list of nodes from [entry]; a map without the three required hooks is
    never created. *)
Record SDF_Map := mk_map { entry : list (K * V) }.

Definition SDF_MapCtor (hasKeyDtor hasKeyCmptor hasValDtor ok : bool) : option SDF_Map :=
  if negb hasKeyDtor || negb hasKeyCmptor || negb hasValDtor then None
  else if ok then Some (mk_map []) else None.

Definition key_is (key : K) (kv : K * V) : bool := cmptor (fst kv) key =? 0.

Definition SDF_MapFind (map : SDF_Map) (key : K) : option (K * V) :=
  find_first (key_is key) (entry map).

Definition SDF_MapMoveInsert (ok : bool) (map : SDF_Map) (key : K) (val : V) : bool * SDF_Map :=
  match SDF_MapFind map key with
  | Some _ => (false, map)
  | None => if ok then (true, mk_map ((key, val) :: entry map)) else (false, map)
  end.

(** Answers whether a node was erased; the destructors run on its key and value. *)
Definition SDF_MapErase (map : SDF_Map) (key : K) : bool * SDF_Map * list (K * V) :=
  match SDF_MapFind map key with
  | Some kv => (true, mk_map (remove_first (key_is key) (entry map)), [kv])
  | None => (false, map, [])
  end.

(** Everything the destructor of the map destroys. *)
Definition SDF_MapDtor (map : SDF_Map) : list (K * V) := entry map.
End map.
#[global] Arguments SDF_Map : clear implicits.
#[global] Arguments mk_map {K V} entry.

Section refine.
Context {K V : Type} `{Countable K} (cmptor : K -> K -> Z).
Context (cmptor_eq : forall a b, cmptor a b = 0 <-> a = b).

Definition map_wf (m : SDF_Map K V) : Prop := NoDup (fst <$> entry m).
Definition mmap (m : SDF_Map K V) : gmap K V := list_to_map (entry m).

Lemma key_is_true k kv : key_is cmptor (V := V) k kv = true <-> fst kv = k.
Proof using cmptor_eq. unfold key_is. rewrite Z.eqb_eq. apply cmptor_eq. Qed.
Lemma key_is_false k kv : key_is cmptor (V := V) k kv = false <-> fst kv <> k.
Proof using cmptor_eq. rewrite <- not_true_iff_false. by rewrite key_is_true. Qed.

Lemma find_none m k :
  SDF_MapFind cmptor m k = None -> mmap m !! k = None /\ k ∉ fst <$> entry m.
Proof using cmptor_eq.
  unfold SDF_MapFind. rewrite find_first_None. intros Hf.
  assert (k ∉ fst <$> entry m) as Hk.
  { intros [kv [-> Hin]]%list_elem_of_fmap. rewrite Forall_forall in Hf.
    by apply Hf, key_is_false in Hin. }
  split; [by apply not_elem_of_list_to_map_1|done].
Qed.

Lemma find_lookup m k :
  map_wf m -> mmap m !! k = snd <$> SDF_MapFind cmptor m k.
Proof using cmptor_eq.
  intros Hw. destruct (SDF_MapFind cmptor m k) as [[k' v]|] eqn:E; cbn.
  - apply find_first_Some in E as [Hin Hk]. apply key_is_true in Hk; cbn in Hk. subst k'.
    by apply elem_of_list_to_map_1.
  - by apply find_none in E as [? _].
Qed.

(** Refinement of a finite map: for a comparator that answers 0 exactly on
    equal keys, insertion refuses a key that is present (or a failed allocation)
    and otherwise adds the binding, erasure removes the binding and answers
    whether there was one, lookup is the map's lookup, and no call ever creates
    two nodes with one key. *)
Theorem map_refines_gmap (m : SDF_Map K V) (ok : bool) (key : K) (val : V) :
  map_wf m ->
  snd <$> SDF_MapFind cmptor m key = mmap m !! key /\
  (let '(b, m') := SDF_MapMoveInsert cmptor ok m key val in
   map_wf m' /\ b = (bool_decide (mmap m !! key = None) && ok)%bool /\
   mmap m' = if b then <[key := val]> (mmap m) else mmap m) /\
  (let '(b, m', _) := SDF_MapErase cmptor m key in
   map_wf m' /\ b = bool_decide (is_Some (mmap m !! key)) /\
   mmap m' = delete key (mmap m)).
Proof using cmptor_eq.
  intros Hw. split_and!; [by rewrite find_lookup| |].
  - unfold SDF_MapMoveInsert. rewrite find_lookup by done.
    destruct (SDF_MapFind cmptor m key) eqn:E; cbn; [done|].
    apply find_none in E as [_ Hk]. destruct ok; cbn; [|done].
    split_and!; [by constructor|done|done].
  - unfold SDF_MapErase. rewrite find_lookup by done.
    destruct (SDF_MapFind cmptor m key) as [[k v]|] eqn:E; cbn.
    + apply find_first_split in E as (l1&l2&El&H1&Hk).
      rewrite El, (remove_first_split _ _ (k, v)) by done.
      apply key_is_true in Hk; cbn in Hk; subst k. unfold map_wf, mmap in *.
      rewrite El, fmap_app, fmap_cons in Hw; cbn in *. rewrite El.
      assert (NoDup (fst <$> (key, v) :: l1 ++ l2)) as Hw'.
      { rewrite fmap_cons, fmap_app. by rewrite <- Permutation_middle in Hw. }
      split_and!; [|done|].
      * rewrite fmap_app. inversion_clear Hw' as [|? ? ? Hn]. by rewrite fmap_app in Hn.
      * rewrite <- (list_to_map_proper ((key, v) :: l1 ++ l2)
          (l1 ++ (key, v) :: l2)); [|done|by rewrite Permutation_middle].
        cbn. rewrite delete_insert_id; [done|].
        apply not_elem_of_list_to_map_1. inversion Hw'; subst. done.
    + apply find_none in E as [Hn _]. by rewrite delete_id.
Qed.
End refine.

Lemma map_refines_gmap_witness :
  (forall a b : Z, a - b = 0 <-> a = b) /\
  (let m := mk_map [(1, 10); (2, 20)] in
   let '(b, m', _) := SDF_MapErase Z.sub m 2 in
   map_wf m' /\ b = true /\ mmap m' = delete 2 (mmap m)).
Proof.
  assert (forall a b : Z, a - b = 0 <-> a = b) as Hc by (intros; lia).
  split; [exact Hc|]. cbv zeta.
  refine (proj2 (proj2 (map_refines_gmap Z.sub Hc (mk_map [(1, 10); (2, 20)]) true 2 5 _))).
  repeat constructor; set_solver.
Defined.
End Map.
