(* ===== verification/CmData.v ===== *)
(** * What the connection manager tells the QoS manager

    [services/stack/src/cp/bsl/sle/cm/interface]: device addresses, and the records the
    callbacks of [CM_RegDynTransChannelCbks] get.  They come first because the
    surroundings ([DtapEnv]) keep them in the trace.  The lists of QoS indexes and of
    application identifiers have one element wherever the code fills them. *)
From S2P Require Import Prelude.

(** [SLE_Addr_S]: seven bytes without padding, so that [memcmp] on it is equality. *)
Record SLE_Addr := mk_addr { a_type : Z; a_addr : bytes }.
#[export] Instance SLE_Addr_dec : EqDecision SLE_Addr.
Proof. solve_decision. Defined.

Record CM_DynTransChanEstablishParamRsp := mk_est_rsp {
  er_version : Z; er_localIndex : Z; er_result : Z; er_srcPort : Z; er_dstPort : Z; er_transMode : Z;
  er_srcTcid : Z; er_dstTcid : Z; er_slqiList : list Z; er_aidList : list Z; er_lcid : Z;
  er_addr : SLE_Addr; er_mtu : Z; er_frameType : Z
}.
Record CM_DynTransChanReleaseParamRsp := mk_rel_rsp {
  rr_version : Z; rr_localIndex : Z; rr_result : Z; rr_srcPort : Z; rr_dstPort : Z;
  rr_srcTcid : Z; rr_dstTcid : Z; rr_lcid : Z; rr_slqiList : list Z; rr_addr : SLE_Addr; rr_frameType : Z
}.
Record CM_DynTransChanStatusIndicationRsp := mk_ind_rsp {
  ir_version : Z; ir_localIndex : Z; ir_result : Z; ir_srcPort : Z; ir_dstPort : Z; ir_added : bool;
  ir_transMode : Z; ir_srcTcid : Z; ir_dstTcid : Z; ir_slqiList : list Z; ir_lcid : Z;
  ir_addr : SLE_Addr; ir_mtu : Z
}.

(** What CM's channel management asks of its surroundings, besides memory. *)
Inductive cm_call :=
| CmTimerAdd (id expires : Z)                        (* CP_TimerAdd for the request [id] *)
| CmTimerDel (handle : Z)                            (* CP_TimerDel *)
| CmEstablishRsp (rsp : CM_DynTransChanEstablishParamRsp)      (* establishRspCbk *)
| CmReleaseRsp (rsp : CM_DynTransChanReleaseParamRsp)          (* releaseRspCbk *)
| CmStatusIndication (rsp : CM_DynTransChanStatusIndicationRsp)  (* statusIndicationCbk *)
| CmEstablishedCheck (srcPort dstPort : Z)           (* establishedCheckCbk *)
| CmLinkCbk (moduleId lcid result : Z)               (* another module's logicLinkCbk *)
| CmNotifyCollab                                     (* CM_ConcurrentConnNotifyLinkCollabResult *)
| CmReadRemoteVersion (lcid : Z)                     (* SleAccessReadRemoteVersion *)
| CmLinkReleaseReq (lcid : Z)                        (* SleAccessLinkReleaseReq *)
| CmConnDoingComplete (result : Z)                   (* CM_ConcurrentConnDoingComplete *)
| CmCreateConnection (addr : SLE_Addr)               (* SleAccessLinkEstablishReq *)
| CmReadRemoteExtFeatures (companyId subversion lcid : Z)  (* DLI_ReadRemoteExtFeatures *)
| CmReadRemoteFeatures (lcid : Z)                    (* SleAccessReadRemoteFeatures *)
| CmRemoteFeatures (lcid : Z)                        (* CM_ExecLogicLinkRemoteFeaturesCbks *)
| CmFeatureVersion (lcid : Z)                        (* CM_SLE_CBK_EVENT_READ_REMOTE_FEATURE_VERSION *)
| CmSetDataLength (lcid : Z).                        (* DLI_SetDataLength, with DLI_GetAcbDataLen *)
