(* ===== verification/DtapEnv.v ===== *)
(** * The surroundings of the data plane

    What [services/stack/src/dp/dtap] and the DLI layer below it
    ([services/stack/src/dli]) ask of the rest of the system: memory, the workers'
    timers and task queues, the receive callbacks of the upper layers, the
    connection manager, the driver.  Each request is a [call]; a world
    answers it with the integer the code looks at (a status, a handle, a time, 0
    for a null allocation) and keeps the trace of all requests and answers.  The
    theorems hold for every world, so for every behaviour of these parties, the
    failing ones included. *)
From S2P Require Import Prelude SdfBuff SdfErrno CmData.

(** [DTAP_Data_Info_S] *)
Record DTAP_Data_Info := mk_info { info_pi : Z; info_lcid : Z; info_tcid : Z }.

(** A receive callback is known by its identity; [None] is a null pointer. *)
Definition DTAP_DataRecvCb : Type := option Z.

(** The DLI header every sent packet reserves room for. *)
Definition DLI_HEADER : Z := 5.

(** The procedures the timers run. *)
Inductive timer_proc := RspTimerExpireProc | ReorderTimerExpireProc | RetransTimerExpireProc
  | ReorderStreamFrameCbk.

(** The tasks the DLI layer posts to its own thread and to the stack's main
    thread; a task is known by its procedure and the address of its argument. *)
Inductive dli_task := DLI_CmdSendInner_task | DLI_CmdWork_task | DLI_DataSendInner_task
  | DLI_AcbPacketReceived_task | DLI_EventPacketReceived_task | DLI_EventTask_task
  | TimeoutCallback_task.

Inductive call : Type :=
| CAlloc                                              (* SDF_MemZalloc, SDF_BuffNew*, SDF_BuffCopy *)
| CRecv (cb : Z) (info : DTAP_Data_Info) (data : bytes)   (* recvCb(info, buff) *)
| CTimerAdd (proc : timer_proc) (expires : Z) (periodic : bool)  (* CP_TimerAdd *)
| CTimerDel (handle : Z)                              (* CP_TimerDel *)
| CTimeMs                                             (* DP_GetMonoTimeMs *)
| CStrayRead                                          (* a read whose value C does not define *)
| CPostTask                                           (* CP_PostTask, CP_PostTaskBlocked *)
| CFindTransChannel (lcid srcTcid : Z)                (* CM_FindTransChannelByLocalTcid *)
| CReleaseReq (srcTcid dstTcid : Z)                   (* CM_DynTransChannelReleaseReq *)
| CStatusChange (lcid srcTcid result : Z)             (* transChannelStatusChangeCbk *)
| CDliSend (lcid : Z) (data : bytes)                  (* DLI_DataSend *)
| CSignaling (up : bool)                              (* CM_SignalingInit / DeInit *)
| CListener (up : bool) (which : Z)                   (* listener registrations of CM and DLI *)
| CCollab (n : Z)                                     (* COLLAB_* notifications *)
| CLinkCount                                          (* CM_GetLogicLinkConnectedSize *)
| CPost (t : dli_task)                                (* DLI_PostTask, DLI_PostOtherThread *)
| CHalSend (data : bytes)                             (* SleSendDliPacket *)
| CSleep (ms : Z)                                     (* SDF_ThreadSleep *)
| CDliTimerAdd (node expires : Z)                     (* SDF_TimerAdd *)
| CDliTimerDel (handle : Z)                           (* SDF_TimerDel *)
| CAcbRecv (lcid : Z) (data : bytes)                  (* recvAcbHandler *)
| CEventRecv (event : Z) (context : option Z) (data : bytes)   (* recvEvent *)
| CDataNumChange (type num : Z)                       (* the callback of DLI_DataNumChangeRegister *)
| CCm (c : cm_call)                                   (* the requests of CM's channel management *)
| CKill.                                              (* kill(getpid(), SIGKILL) *)

Class World (W : Type) := {
  trace : W -> list (call * Z);
  ask : call -> ST W Z;
  ask_total : forall c w, exists a w', ask c w = Some (a, w') /\ trace w' = trace w ++ [(c, a)]
}.

(** A component with state [B] runs over a world through the product state. *)
Definition over {B W A} (m : ST W A) : ST (B * W) A :=
  fun s => match m (snd s) with Some (a, w') => Some (a, (fst s, w')) | None => None end.

#[export] Instance world_prod {B W} `{World W} : World (B * W).
Proof.
  refine {| trace := fun s => trace (snd s); ask := fun c => over (ask c) |}.
  intros c [b w]. destruct (ask_total c w) as (a&w'&Ha&Ht).
  exists a, (b, w'). unfold over. cbn. by rewrite Ha.
Defined.

(** A world whose memory never runs out. *)
Definition memory_suffices (W : Type) `{World W} : Prop := forall w a w', ask CAlloc w = Some (a, w') -> a <> 0.

Section env.
Context {W : Type} `{World W}.

(** An allocation succeeds unless it is answered 0. *)
Definition alloc_ok : ST W bool := let! a := ask CAlloc in st_ret (negb (a =? 0)).

Definition recv_cb (cb : Z) (info : DTAP_Data_Info) (b : SDF_Buff) : ST W Z :=
  ask (CRecv cb info (buff_data b)).

(** [w'] is later than [w]. *)
Definition extends (w w' : W) : Prop := exists t, trace w' = trace w ++ t.
Lemma extends_refl w : extends w w.
Proof. exists []. by rewrite app_nil_r. Qed.
Lemma extends_trans w1 w2 w3 : extends w1 w2 -> extends w2 w3 -> extends w1 w3.
Proof. intros [t1 E1] [t2 E2]. exists (t1 ++ t2). by rewrite E2, E1, app_assoc. Qed.

Lemma wp_ask c w (Q : Z -> W -> Prop) :
  (forall a w', trace w' = trace w ++ [(c, a)] -> Q a w') -> wp (ask c) w Q.
Proof. intros HQ. unfold wp. destruct (ask_total c w) as (a&w'&->&Ht). auto. Qed.

Lemma wp_alloc w (Q : bool -> W -> Prop) :
  (forall b w' a, trace w' = trace w ++ [(CAlloc, a)] -> Q b w') -> wp alloc_ok w Q.
Proof. intros HQ. apply wp_bind, wp_ask. intros. apply wp_ret. eauto. Qed.
Lemma wp_alloc_ok w (Q : bool -> W -> Prop) :
  (forall a w', trace w' = trace w ++ [(CAlloc, a)] -> Q (negb (a =? 0)) w') -> wp alloc_ok w Q.
Proof. intros HQ. apply wp_bind, wp_ask. intros a w' Ht. by apply wp_ret, HQ. Qed.

Lemma wp_alloc_either (w : W) (Q : bool -> W -> Prop) :
  (forall w', Q true w') -> (forall w', ~ memory_suffices W -> Q false w') -> wp alloc_ok w Q.
Proof.
  intros HT HF. unfold alloc_ok. apply wp_bind, wp_run. destruct (ask_total CAlloc w) as (x&w'&Hx&_). exists x, w'. split; [done|].
  apply wp_ret. destruct (Z.eqb_spec x 0) as [->|]; cbn [negb]; [apply HF; intros Hm; by apply (Hm w 0 w')|apply HT].
Qed.

End env.
#[export] Hint Resolve extends_refl : core.

Section env_prod.
Context {B W : Type} `{World W}.

Lemma wp_over {A} (m : ST W A) (b : B) w Q :
  wp m w (fun a w' => Q a (b, w')) -> wp (over m) (b, w) Q.
Proof. unfold wp, over. cbn. by destruct (m w) as [[a w']|]. Qed.
End env_prod.

(** ** Which requests a computation makes

    [asks_only C m]: all that [m] does to the world is to make requests in [C], so it
    keeps every property of the world that such requests keep. *)
Section only.
Context {W : Type} `{World W}.
Implicit Types C : call -> Prop.

Definition closed_for C (P : W -> Prop) : Prop :=
  forall c w a w', C c -> P w -> ask c w = Some (a, w') -> P w'.

Definition asks_only C {A} (m : ST W A) : Prop :=
  forall P w a w', closed_for C P -> P w -> m w = Some (a, w') -> P w'.

Lemma only_ret C {A} (a : A) : asks_only C (st_ret a).
Proof. by intros P w a' w' _ HP [=_ <-]. Qed.
Lemma only_ub C {A} : asks_only C (st_ub (A := A)).
Proof. by intros P w a w' _ _ [=]. Qed.
Lemma only_opt C {A} (o : option A) : asks_only C (st_opt o).
Proof. intros P w a w' _ HP. unfold st_opt. destruct o; [|done]. by intros [=_ <-]. Qed.
Lemma only_ask C c : C c -> asks_only C (ask c).
Proof. intros HC P w a w' HP Hw Ha. by eapply HP. Qed.
Lemma only_bind C {A B} (m : ST W A) (k : A -> ST W B) :
  asks_only C m -> (forall a, asks_only C (k a)) -> asks_only C (st_bind m k).
Proof.
  intros Hm Hk P w b w' HP Hw. unfold st_bind. destruct (m w) as [[a w1]|] eqn:E; [|done].
  intros E2. eapply Hk; [exact HP| |exact E2]. by eapply Hm.
Qed.
Lemma only_alloc C : C CAlloc -> asks_only C alloc_ok.
Proof. intros. apply only_bind; [by apply only_ask|intros; apply only_ret]. Qed.

Lemma only_mono C C' {A} (m : ST W A) : (forall c, C c -> C' c) -> asks_only C m -> asks_only C' m.
Proof. intros HC Hm P w a w' HP. apply Hm. intros c w1 a1 w1' Hc. by apply HP, HC. Qed.

Lemma wp_only C {A} (m : ST W A) (P : W -> Prop) w (Q : A -> W -> Prop) :
  asks_only C m -> closed_for C P -> P w -> wp m w Q -> wp m w (fun a w' => P w' /\ Q a w').
Proof.
  intros Hm HP Hw. unfold wp. destruct (m w) as [[a w']|] eqn:E; [|done].
  split; [|done]. by eapply Hm.
Qed.
End only.

Create HintDb only.
#[export] Hint Resolve only_ret only_ub only_opt : only.

(** Walks through a computation, using the [only] lemmas of the functions it calls. *)
Ltac requests :=
  repeat match goal with
  | |- asks_only _ (st_bind _ _) => apply only_bind; [|intros ?]
  | |- asks_only _ alloc_ok => apply only_alloc; try done
  | |- asks_only _ (ask _) => apply only_ask; try done
  | |- asks_only _ (let '(_, _) := ?x in _) => destruct x
  | |- asks_only _ (match ?x with _ => _ end) => destruct x
  | |- asks_only _ _ => solve [eauto with only]
  | |- asks_only _ (?f _) => progress unfold f
  end.

(** ** Traces *)

(** The data handed to the upper layer, oldest first. *)
Definition delivered (t : list (call * Z)) : list bytes :=
  omap (fun '(c, _) => match c with CRecv _ _ d => Some d | _ => None end) t.

Definition delivered_to (t : list (call * Z)) : list (Z * DTAP_Data_Info * bytes) :=
  omap (fun '(c, _) => match c with CRecv cb i d => Some (cb, i, d) | _ => None end) t.

Lemma delivered_app t1 t2 : delivered (t1 ++ t2) = delivered t1 ++ delivered t2.
Proof. apply omap_app. Qed.

(** An allocation in a trace suffix failed. *)
Definition alloc_failed (t : list (call * Z)) : Prop := (CAlloc, 0) ∈ t.

(** ** A concrete world, for the witnesses

    It answers the requests with a script, and with 1 when the script is used up. *)
Record script := mk_script { answers : list Z; past : list (call * Z) }.

#[export] Instance script_world : World script.
Proof.
  refine {| trace := past;
            ask := fun c w =>
              let a := default 1 (head (answers w)) in
              Some (a, mk_script (tail (answers w)) (past w ++ [(c, a)])) |}.
  intros c w. by eexists _, _.
Defined.
