(* ===== verification/DliLayer.v ===== *)
(** * The DLI layer: its state

    [services/stack/src/dli/layer]: what the layer that speaks to the controller
    keeps.  [g_info] holds the commands waiting for the controller or for its
    answer ([DliCmd]), the packets being put together again and the flag of the
    last fragment sent ([DliData]); [dli_layer_config.c] holds the size and number
    of the controller's buffers and the number of commands it accepts. *)
From S2P Require Import Prelude SdfErrno SdfBuff DtapEnv.

(** ** [dli_errno.h] *)
Definition COMP_DLI : Z := 4.
Definition DLI_SUCCESS : Z := 0.
Definition DLI_UNKNOWN_COMMAND : Z := 1.
Definition DLI_COMMAND_TIMEOUT : Z := 0x0D.
Definition DLI_MAKE_ERRNO (id : Z) : Z := SDF_MAKE_ERRNO COMP_DLI 1 1 id.
Definition DLI_STACK_NOINIT_ERRNO : Z := DLI_MAKE_ERRNO 101.
Definition DLI_STACK_INITED_ERRNO : Z := DLI_MAKE_ERRNO 102.
Definition DLI_STACK_PARAMS_ERRNO : Z := DLI_MAKE_ERRNO 103.
Definition DLI_STACK_MEM_ERRNO : Z := DLI_MAKE_ERRNO 104.

(** ** [dli_layer_stru.h] *)
Definition DLI_HEADER_WITHOUT_TYPE_SIZE : Z := 4.
Definition DLI_MAX_TXRX_DATA_LEN : Z := 102400.
Definition DLI_MAX_FRAGMEN_NUM : Z := 128.
Definition DLI_DATATYPE_CMD : Z := 0xA1.
Definition DLI_DATATYPE_EVENT : Z := 0xA2.
Definition DLI_DATATYPE_ACB : Z := 0xA3.
Definition DLI_DATATYPE_ICB : Z := 0xA4.
Definition DLI_FULL_FRAGMENT : Z := 0.
Definition DLI_FIRST_FRAGMENT : Z := 1.
Definition DLI_MIDDLE_FRAGMENT : Z := 2.
Definition DLI_LAST_FRAGMENT : Z := 3.
Definition UINT8_MAX : Z := 255.

Definition DLI_DATA_MAX_CNT : Z := 10000.

(** [DLI_DataType] *)
Inductive DLI_DataType := ACB_DATA_TYPE | ICB_DATA_TYPE | UNKNOWN_DATA_TYPE.

(** A command; the context is known by its address, of the callbacks only whether
    they are set.  [par] is the whole trailing array: room for the DLI header,
    then the parameters. *)
Record DLI_CmdStru := mk_cmd {
  needErase : bool;
  cmd : Z;
  event : Z;
  parLen : Z;
  context : option Z;
  timeoutCallback : bool;
  contextFree : bool;
  par : bytes
}.
#[export] Instance eta_cmd : Eta DLI_CmdStru := fun c =>
  mk_cmd (needErase c) (cmd c) (event c) (parLen c) (context c) (timeoutCallback c)
    (contextFree c) (par c).

(** [node_addr] is the address of the node, which the timer's callback gets. *)
Record DLI_CmdTxNode := mk_cmdnode {
  node_addr : Z;
  isSent : bool;
  isRecvStatusEvt : bool;
  handle : Z;
  info : option DLI_CmdStru
}.
#[export] Instance eta_cmdnode : Eta DLI_CmdTxNode := fun n =>
  mk_cmdnode (node_addr n) (isSent n) (isRecvStatusEvt n) (handle n) (info n).

Record DLI_RecvDataNode := mk_datanode { dn_lcid : Z; dn_pb : Z; dn_buf : option SDF_Buff }.
#[export] Instance eta_datanode : Eta DLI_RecvDataNode := fun n =>
  mk_datanode (dn_lcid n) (dn_pb n) (dn_buf n).

Record DLI_DataStru := mk_data {
  d_lcid : Z; d_type : Z; d_ts : Z; d_prio : Z; d_buf : option SDF_Buff
}.
#[export] Instance eta_data : Eta DLI_DataStru := fun d =>
  mk_data (d_lcid d) (d_type d) (d_ts d) (d_prio d) (d_buf d).

Record DLI_TxDataConfig := mk_txconfig { cfg_num : Z; cfg_len : Z }.

(** [g_info], [g_txDataConfig] and [g_cmdNum]. *)
Record DLI_LayerInfo := mk_layer {
  cmdTx : list DLI_CmdTxNode;
  dataRx : list DLI_RecvDataNode;
  pdFlag : Z;
  inited : bool;
  acbConfig : DLI_TxDataConfig;
  icbConfig : DLI_TxDataConfig;
  g_cmdNum : Z
}.
#[export] Instance eta_layer : Eta DLI_LayerInfo := fun l =>
  mk_layer (cmdTx l) (dataRx l) (pdFlag l) (inited l) (acbConfig l) (icbConfig l) (g_cmdNum l).

(** The state of a process that has not enabled the layer: C's static zeros. *)
Definition g_info0 : DLI_LayerInfo :=
  mk_layer [] [] 0 false (mk_txconfig 0 0) (mk_txconfig 0 0) 0.

(** ** [dli_layer_config.c] *)
Definition DLI_DEFAULT_CMD_NUM : Z := 1.

Definition DLI_DataLenGet (l : DLI_LayerInfo) (type : DLI_DataType) : Z :=
  match type with
  | ACB_DATA_TYPE => cfg_len (acbConfig l)
  | ICB_DATA_TYPE => cfg_len (icbConfig l)
  | UNKNOWN_DATA_TYPE => 0
  end.

Definition DLI_DataNumGet (l : DLI_LayerInfo) (type : DLI_DataType) : Z :=
  match type with
  | ACB_DATA_TYPE => cfg_num (acbConfig l)
  | ICB_DATA_TYPE => cfg_num (icbConfig l)
  | UNKNOWN_DATA_TYPE => 0
  end.

Definition DLI_IsCmdAllow (l : DLI_LayerInfo) : bool := 0 <? g_cmdNum l.
Definition DLI_CmdNumSubOne (l : DLI_LayerInfo) : DLI_LayerInfo :=
  l <| g_cmdNum ::= fun n => u16 (n - DLI_DEFAULT_CMD_NUM) |>.
Definition DLI_CmdNumSet (num : Z) (l : DLI_LayerInfo) : DLI_LayerInfo :=
  l <| g_cmdNum := u8 num |>.

Section layer.
Context {W : Type} `{World W}.
Notation M := (ST (DLI_LayerInfo * W)).

Definition lay {A} (f : DLI_LayerInfo -> A) : M A := st_gets (fun s => f (fst s)).
Definition lupd (f : DLI_LayerInfo -> DLI_LayerInfo) : M unit :=
  st_modify (fun s => (f (fst s), snd s)).

(** The callback is the data plane's; [CDataNumChange] when one is registered. *)
Definition DLI_DataNumChange (type num : Z) : M unit :=
  let! _ := over (ask (CDataNumChange type num)) in st_ret tt.

Definition DLI_AllDataSet (acbLen acbNum icbLen icbNum : Z) : M unit :=
  lupd (fun l => l <| acbConfig := mk_txconfig acbNum acbLen |>
                   <| icbConfig := mk_txconfig icbNum icbLen |>) ;;!
  DLI_DataNumChange 0 acbNum ;;!
  DLI_DataNumChange 1 icbNum.

(** ** Allocation of the nodes ([dli_layer_utils.c]) *)

(** [sizeof(DLI_CmdStru)]: a bool, three 16-bit fields and three pointers. *)
Definition sizeof_DLI_CmdStru : Z := 32.
Definition DLI_MAX_LEN (sz : Z) : Z := 65535 - DLI_HEADER - sz.

(** [data] are the [parLen] bytes at the pointer [par] of the caller. *)
Definition DLI_DefaultCmdStruCreate (cmd event : Z) (data : bytes) (parLen : Z) :
    ST W (option DLI_CmdStru) :=
  if negb (parLen <=? DLI_MAX_LEN sizeof_DLI_CmdStru) then st_ret None
  else
    let! ok := alloc_ok in
    if negb ok then st_ret None
    else
      let c := mk_cmd false cmd event 0 None false false (zeros (DLI_HEADER + parLen)) in
      if negb (parLen =? 0) then
        let! d := st_opt (rds data 0 parLen) in
        let! p := st_opt (wr (par c) DLI_HEADER d) in
        st_ret (Some (c <| par := p |> <| DliLayer.parLen := parLen |>))
      else st_ret (Some c).

Definition DLI_DefaultDataStruCreate (lcid type ts prio : Z) (buf : option SDF_Buff) :
    ST W (option DLI_DataStru) :=
  let! ok := alloc_ok in
  if negb ok then st_ret None
  else st_ret (Some (mk_data lcid (u8 type) ts prio buf)).

Definition DLI_RecvDataNodeCreate (lcid pb : Z) (buf : SDF_Buff) : ST W (option DLI_RecvDataNode) :=
  let! ok := alloc_ok in
  if negb ok then st_ret None else st_ret (Some (mk_datanode lcid (u8 pb) (Some buf))).

(** [addr] is the address the allocator answers, 0 when it fails. *)
Definition DLI_CmdNodeCreate (c : option DLI_CmdStru) : ST W (option DLI_CmdTxNode) :=
  match c with
  | None => st_ret None
  | Some c =>
      let! addr := ask CAlloc in
      if addr =? 0 then st_ret None
      else st_ret (Some (mk_cmdnode addr false false (-1) (Some c)))
  end.

(** ** Searches *)
Definition DLI_DataNodeFind (head : list DLI_RecvDataNode) (lcid : Z) : option DLI_RecvDataNode :=
  find_first (fun n => dn_lcid n =? lcid) head.

(** The tests of the three searches for a command; [None] is the dereference of a
    null [info]. *)
Definition cmd_matches (opcode : Z) (c : DLI_CmdStru) : bool := (opcode =? 0) || (cmd c =? opcode).

Fixpoint find_cmd (p : DLI_CmdTxNode -> DLI_CmdStru -> bool) (head : list DLI_CmdTxNode) :
    option (option DLI_CmdTxNode) :=
  match head with
  | [] => Some None
  | n :: head' =>
      c ← info n;
      if p n c then Some (Some n) else find_cmd p head'
  end.

Definition DLI_CmdNodeFind (head : list DLI_CmdTxNode) (ev opcode : Z) :
    option (option DLI_CmdTxNode) :=
  find_cmd (fun _ c => cmd_matches opcode c && (event c =? ev)) head.
Definition DLI_CmdNodeFindByOpcode (head : list DLI_CmdTxNode) (opcode : Z) :
    option (option DLI_CmdTxNode) :=
  find_cmd (fun _ c => cmd_matches opcode c) head.
Definition DLI_CmdNodeFindNotRecvStatus (head : list DLI_CmdTxNode) (opcode : Z) :
    option (option DLI_CmdTxNode) :=
  find_cmd (fun n c => cmd_matches opcode c && negb (isRecvStatusEvt n)) head.

(** ** Destruction *)

(** [memset_s(info->par, info->parLen, 0, info->parLen)] *)
Definition DLI_EraseParInfo (c : DLI_CmdStru) : option DLI_CmdStru :=
  if needErase c && negb (parLen c =? 0) then
    p ← wr (par c) 0 (zeros (parLen c)); Some (c <| par := p |>)
  else Some c.

(** [SDF_DListElmSafeForeach] with [SDF_TimerDel] for the commands that have a timer. *)
Fixpoint DLI_CmdDlistDestroy (head : list DLI_CmdTxNode) : ST W unit :=
  match head with
  | [] => st_ret tt
  | n :: head' =>
      (if negb (handle n =? -1) then let! _ := ask (CDliTimerDel (handle n)) in st_ret tt
       else st_ret tt) ;;!
      (match info n with
       | None => st_ret tt
       | Some c => let! _ := st_opt (DLI_EraseParInfo c) in st_ret tt
       end) ;;!
      DLI_CmdDlistDestroy head'
  end.

(** ** Switching the layer on and off *)
Definition DLI_LayerInfoInit : M Z :=
  let! on := lay inited in
  if (on : bool) then st_ret DLI_STACK_INITED_ERRNO
  else
    lupd (fun l => DLI_CmdNumSet DLI_DEFAULT_CMD_NUM
                     (l <| cmdTx := [] |> <| dataRx := [] |> <| pdFlag := UINT8_MAX |>)
                   <| inited := true |>) ;;!
    st_ret 0.

Definition DLI_LayerInfoDeInit : M unit :=
  let! on := lay inited in
  if negb on then st_ret tt
  else
    lupd (DLI_CmdNumSet DLI_DEFAULT_CMD_NUM) ;;!
    let! head := lay cmdTx in
    over (DLI_CmdDlistDestroy head) ;;!
    lupd (fun l => l <| cmdTx := [] |> <| dataRx := [] |> <| pdFlag := UINT8_MAX |>
                     <| inited := false |>).

(** ** The driver ([dli_sapi.c]) *)
Definition DLI_SapiSend (data : bytes) : ST W Z :=
  if zlen data =? 0 then st_ret DLI_STACK_PARAMS_ERRNO
  else
    let! ok := alloc_ok in
    if negb ok then st_ret DLI_STACK_MEM_ERRNO
    else
      let! ok := alloc_ok in
      if negb ok then st_ret DLI_STACK_MEM_ERRNO
      else ask (CHalSend data).
End layer.
