(* ===== verification/DliCmd.v ===== *)
(** * The DLI layer: commands

    [services/stack/src/dli/layer/src/dli_layer.c] and [dli_event.c]: commands wait
    in [cmdTx]; as long as the controller accepts commands ([g_cmdNum]) the oldest
    unsent one is sent; the event that answers a command removes it, and says how
    many more the controller accepts; a timer removes a command that is not
    answered.  The list belongs to the DLI thread; [g_cmdNum] is also stored to by
    the stack's main thread, which handles the events. *)
From S2P Require Import Prelude SdfErrno SdfBuff DtapEnv DliLayer.

Definition CMD_EVC_TIMEOUT : Z := 10000.
Definition DLI_STATUS_EVENT : Z := 0x0001.
Definition DLI_COMPLETE_EVENT : Z := 0x0002.
Definition DLI_OPCODE_BYTE_LENGTH : Z := 2.
Definition DLI_CMD_STATUS_EVT : Z := 0x0001.
Definition DLI_CMD_COMPLETE_EVT : Z := 0x0002.
Definition DLI_CMD_ERROR_EVT : Z := 0x00EE.
Definition DLI_INVALID_EVT : Z := 0xFFFF.

(** The packed [DLI_CommandStatus] and [DLI_CommandComplete]: opcode, number of
    commands accepted, then a status or the parameters. *)
Definition sizeof_DLI_CommandStatus : Z := 4.
Definition sizeof_DLI_CommandComplete : Z := 3.

(** What the callbacks registered for the events do to the layer: the command
    status callback of [dli_event.c], or a callback of another module. *)
Inductive inner_cbk := DLI_CommandStatusCbk_fn | other_cbk (id : Z).
Definition DLI_InnerCbkLineStru : Type := Z * option inner_cbk.

(** The double loop of [DLI_RunCmdCbk]: the first line of the registered tables with
    this opcode and a function. *)
Definition DLI_FindCbk (tables : list (list DLI_InnerCbkLineStru)) (evtOpcode : Z) : option inner_cbk :=
  match find_first (fun '(opcode, f) => (opcode =? evtOpcode) && bool_decide (is_Some f))
          (concat tables) with
  | Some (_, f) => f
  | None => None
  end.

Definition DLI_GetEvtOpcode (event opcode : Z) : Z :=
  if (event =? DLI_CMD_COMPLETE_EVT) || (event =? DLI_INVALID_EVT) then opcode else event.

(** Operations on the command at an address of the list. *)
Definition at_addr (addr : Z) (n : DLI_CmdTxNode) : bool := node_addr n =? addr.
Definition del_cmd (addr : Z) (l : list DLI_CmdTxNode) : list DLI_CmdTxNode :=
  remove_first (at_addr addr) l.
Definition put_cmd (n : DLI_CmdTxNode) (l : list DLI_CmdTxNode) : list DLI_CmdTxNode :=
  update_first (at_addr (node_addr n)) (fun _ => n) l.

Section cmd.
Context {W : Type} `{World W}.
Notation M := (ST (DLI_LayerInfo * W)).

(** ** Sending *)

(** The status of the driver and the command, with the header stored in front of its
    parameters. *)
Definition DLI_CmdListSendInner (info : option DLI_CmdStru) : ST W (Z * DLI_CmdStru) :=
  let! c := st_opt info in
  let! p := st_opt (wr (par c) 0 [DLI_DATATYPE_CMD]) in
  let! p := st_opt (st16 p 1 (cmd c)) in
  let! p := st_opt (st16 p 3 (parLen c)) in
  let! d := st_opt (rds p 0 (parLen c + DLI_HEADER)) in
  let! ret := DLI_SapiSend d in
  st_ret (ret, c <| par := p |>).

(** The status and the new value of [*handle]. *)
Definition SDF_TimerAdd (addr handle : Z) : ST W (Z * Z) :=
  let! a := ask (CDliTimerAdd addr CMD_EVC_TIMEOUT) in
  st_ret (if 0 <? a then (0, a) else (1 - a, handle)).

(** The loop of [DLI_CmdListSend] from a node of the list on; it answers the list it
    leaves.  [others] are the stores of the stack's main thread to [g_cmdNum]: the
    one that falls into the sending of the first command, of the second, ... *)
Fixpoint cmd_send_loop (others : list (option Z)) (l : list DLI_CmdTxNode) : M (list DLI_CmdTxNode) :=
  match l with
  | [] => st_ret []
  | n :: l' =>
      let! allow := lay DLI_IsCmdAllow in
      if negb allow then st_ret l
      else if isSent n then
        let! r := cmd_send_loop others l' in st_ret (n :: r)
      else
        let! (ret, c) := over (DLI_CmdListSendInner (info n)) in
        lupd (match head others with Some (Some k) => DLI_CmdNumSet k | _ => id end) ;;!
        let n := n <| info := Some c |> in
        if negb (ret =? 0) then st_ret (n :: l')
        else
          let! (ret, h) := over (SDF_TimerAdd (node_addr n) (handle n)) in
          lupd DLI_CmdNumSubOne ;;!
          let! r := cmd_send_loop (tail others) l' in
          st_ret (n <| isSent := true |> <| handle := h |> :: r)
  end.

Definition DLI_CmdListSend (others : list (option Z)) : M unit :=
  let! l := lay cmdTx in
  let! l := cmd_send_loop others l in
  lupd (fun s => s <| cmdTx := l |>).

Definition DLI_CmdAddToList (cmdNode : DLI_CmdTxNode) : M Z :=
  let! l := lay cmdTx in
  if negb (zlen l <=? DLI_DATA_MAX_CNT) then st_ret DLI_STACK_MEM_ERRNO
  else lupd (fun s => s <| cmdTx ::= fun l => l ++ [cmdNode] |>) ;;! st_ret 0.

Definition DLI_CmdNodeDestroy (n : DLI_CmdTxNode) : ST W unit :=
  match info n with
  | None => st_ret tt
  | Some c => let! _ := st_opt (DLI_EraseParInfo c) in st_ret tt
  end.

Definition DLI_CmdSendInner (others : list (option Z)) (cmdNode : DLI_CmdTxNode) : M unit :=
  let! on := lay inited in
  if negb on then over (DLI_CmdNodeDestroy cmdNode)
  else
    let! ret := DLI_CmdAddToList cmdNode in
    DLI_CmdListSend others ;;!
    if ret =? 0 then st_ret tt
    else
      let! ret := DLI_CmdAddToList cmdNode in
      if negb (ret =? 0) then over (DLI_CmdNodeDestroy cmdNode) else st_ret tt.

(** The status, and the node in the task posted to the DLI thread. *)
Definition DLI_CmdSend (c : option DLI_CmdStru) : ST W (Z * option DLI_CmdTxNode) :=
  match c with
  | None => st_ret (DLI_STACK_PARAMS_ERRNO, None)
  | Some _ =>
      let! node := DLI_CmdNodeCreate c in
      match node with
      | None => st_ret (DLI_STACK_MEM_ERRNO, None)
      | Some node =>
          let! ret := ask (CPost DLI_CmdSendInner_task) in
          if negb (ret =? 0) then
            DLI_CmdNodeDestroy (node <| info := None |>) ;;! st_ret (ret, None)
          else st_ret (ret, Some node)
      end
  end.

Definition DLI_PostNextTask : M unit :=
  let! on := lay inited in
  if negb on then st_ret tt
  else let! _ := over (ask (CPost DLI_CmdWork_task)) in st_ret tt.

Definition DLI_CmdWorkCallback (others : list (option Z)) : M unit := DLI_CmdListSend others.

(** Answers the node in the task posted to the stack's main thread.  An address
    that is not in the list is that of a destroyed node. *)
Definition DLI_CmdTimerCallback (arg : option Z) : M (option DLI_CmdTxNode) :=
  match arg with
  | None => st_ret None
  | Some addr =>
      let! l := lay cmdTx in
      let! n := st_opt (find_first (at_addr addr) l) in
      match info n with
      | None => st_ret None
      | Some c =>
          lupd (fun s => s <| cmdTx ::= del_cmd addr |>) ;;!
          let! posted :=
            (if timeoutCallback c then
               let! ret := over (ask (CPost TimeoutCallback_task)) in
               st_ret (if ret =? 0 then Some n else None)
             else st_ret None) in
          DLI_PostNextTask ;;!
          st_ret posted
      end
  end.

(** ** Events on the DLI thread *)

(** The end of [DLI_CmdNodeRemove]: a sent command leaves the list and its timer
    stops. *)
Definition take_cmd (n : DLI_CmdTxNode) : M (option DLI_CmdTxNode) :=
  if negb (isSent n) then st_ret None
  else
    (if negb (handle n =? -1) then
       let! _ := over (ask (CDliTimerDel (handle n))) in st_ret tt
     else st_ret tt) ;;!
    lupd (fun s => s <| cmdTx ::= del_cmd (node_addr n) |>) ;;!
    st_ret (Some (if negb (handle n =? -1) then n <| handle := -1 |> else n)).

(** The command an event answers; [None] inside is a null pointer. *)
Definition DLI_CmdNodeRemove (event opcode status : Z) : M (option DLI_CmdTxNode) :=
  let! l := lay cmdTx in
  let! (cmdNode, stop) :=
    (if status =? DLI_SUCCESS then
       if event =? DLI_STATUS_EVENT then
         let! n := st_opt (DLI_CmdNodeFindNotRecvStatus l opcode) in
         match n with
         | None => st_ret (None, true)
         | Some n =>
             lupd (fun s => s <| cmdTx ::= put_cmd (n <| isRecvStatusEvt := true |>) |>) ;;!
             st_ret (None, true)
         end
       else if event =? DLI_COMPLETE_EVENT then
         let! n := st_opt (DLI_CmdNodeFind l event opcode) in st_ret (n, false)
       else
         let! n := st_opt (DLI_CmdNodeFind l event opcode) in
         match n with
         | None => st_ret (None, true)
         | Some n => if negb (isRecvStatusEvt n) then st_ret (None, true) else st_ret (Some n, false)
         end
     else if event =? DLI_STATUS_EVENT then
       let! n := st_opt (DLI_CmdNodeFindNotRecvStatus l opcode) in st_ret (n, false)
     else
       let! n := st_opt (DLI_CmdNodeFindByOpcode l opcode) in st_ret (n, false)) in
  if (stop : bool) then st_ret None
  else
    match cmdNode with
    | None => st_ret None
    | Some n => take_cmd n
    end.

Definition DLI_EventGetStatus (buf : SDF_Buff) (event : Z) : option Z :=
  status ←
    (if event =? DLI_STATUS_EVENT then
       if sizeof_DLI_CommandStatus <=? SDF_DataLenGet buf then rd (bmem buf) (SDF_DataOffset buf + 3)
       else Some DLI_UNKNOWN_COMMAND
     else Some DLI_SUCCESS);
  if event =? DLI_COMPLETE_EVENT then
    if sizeof_DLI_CommandComplete + 1 <=? SDF_DataLenGet buf
    then rd (bmem buf) (SDF_DataOffset buf + 3)
    else Some DLI_UNKNOWN_COMMAND
  else Some status.

(** The parameter of [DLI_EventTask]. *)
Record DLI_EventTaskParam := mk_task {
  task_event : Z; task_node : option DLI_CmdTxNode; task_buf : option SDF_Buff
}.

(** Answers the task posted to the stack's main thread. *)
Definition DLI_EventPacketReceived (buf : SDF_Buff) : M (option DLI_EventTaskParam) :=
  let! event := st_opt (ld16 (bmem buf) (SDF_DataOffset buf)) in
  let! opcode :=
    (if ((event =? DLI_STATUS_EVENT) || (event =? DLI_COMPLETE_EVENT))
        && (DLI_HEADER_WITHOUT_TYPE_SIZE + DLI_OPCODE_BYTE_LENGTH <=? SDF_DataLenGet buf)
     then st_opt (ld16 (bmem buf) (SDF_DataOffset buf + DLI_HEADER_WITHOUT_TYPE_SIZE))
     else st_ret 0) in
  let buf := match SDF_BuffTrimPrefix (Some buf) DLI_HEADER_WITHOUT_TYPE_SIZE with
             | Some (_, b) => b
             | None => buf end in
  let! status := st_opt (DLI_EventGetStatus buf event) in
  let! node := DLI_CmdNodeRemove event opcode status in
  let! ok := over alloc_ok in
  if negb ok then
    match node with
    | Some n => over (DLI_CmdNodeDestroy n) ;;! st_ret None
    | None => st_ret None
    end
  else
    let! ret := over (ask (CPost DLI_EventTask_task)) in
    st_ret (if ret =? 0 then Some (mk_task event node (Some buf)) else None).

(** ** Events on the stack's main thread *)

(** A callback of another module; [None] is a missing line of the tables. *)
Definition run_module_cbk (f : option inner_cbk) (context : option Z) (data : bytes) (evtOpcode : Z) :
    ST W unit :=
  match f with
  | Some (other_cbk id) => let! _ := ask (CEventRecv evtOpcode context data) in st_ret tt
  | _ => st_ret tt
  end.

(** [tables] are the registered callbacks, [data] the parameters of the event.  An
    error is passed on as a [DLI_CommandErrorStru]: status, command, event, and a
    byte the code leaves 0; the callback for it is of another module. *)
Definition DLI_CommandStatusCbk (tables : list (list DLI_InnerCbkLineStru)) (context : option Z)
    (data : bytes) (evtOpcode : Z) : M unit :=
  if negb (sizeof_DLI_CommandStatus <=? zlen data) then st_ret tt
  else
    let! num := st_opt (rd data 2) in
    lupd (DLI_CmdNumSet num) ;;!
    let! status := st_opt (rd data 3) in
    if negb (status =? DLI_SUCCESS) then
      let! op := st_opt (ld16 data 0) in
      let param := [u8 status; 0; u8 op; u8 (op / 256); u8 evtOpcode; u8 (evtOpcode / 256); 0] in
      over (run_module_cbk (DLI_FindCbk tables DLI_CMD_ERROR_EVT) context param DLI_CMD_ERROR_EVT)
    else st_ret tt.

Definition DLI_RunCmdCbk (tables : list (list DLI_InnerCbkLineStru)) (context : option Z)
    (data : bytes) (evtOpcode : Z) : M unit :=
  match DLI_FindCbk tables evtOpcode with
  | Some DLI_CommandStatusCbk_fn => DLI_CommandStatusCbk tables context data evtOpcode
  | f => over (run_module_cbk f context data evtOpcode)
  end.

Definition RecvEventHandler (tables : list (list DLI_InnerCbkLineStru)) (event : Z)
    (context : option Z) (data : bytes) : M unit :=
  if ((event =? DLI_CMD_COMPLETE_EVT) && bool_decide (context = None)) || (zlen data =? 0)
  then st_ret tt
  else
    let! opcode := (if DLI_OPCODE_BYTE_LENGTH <=? zlen data then st_opt (ld16 data 0) else st_ret 0) in
    (if (event =? DLI_CMD_COMPLETE_EVT) && (sizeof_DLI_CommandComplete <=? zlen data) then
       let! num := st_opt (rd data 2) in lupd (DLI_CmdNumSet num)
     else st_ret tt) ;;!
    DLI_RunCmdCbk tables context data (DLI_GetEvtOpcode event opcode) ;;!
    DLI_PostNextTask.

Definition DLI_EventTask (tables : list (list DLI_InnerCbkLineStru)) (info : option DLI_EventTaskParam) :
    M unit :=
  match info with
  | None => st_ret tt
  | Some t =>
      match task_buf t with
      | None => st_ret tt
      | Some b =>
          let! d := st_opt (window_bytes b) in
          match task_node t with
          | None => RecvEventHandler tables (task_event t) None d
          | Some n =>
              let! c := st_opt (DliLayer.info n) in
              RecvEventHandler tables (task_event t) (context c) d
          end
      end
  end.

(** [TimeoutCallback] of [dli_cmd.c], the time-out callback of every command. *)
Definition TimeoutCallback (tables : list (list DLI_InnerCbkLineStru)) (param : option DLI_CmdTxNode) :
    M unit :=
  match param with
  | None => st_ret tt
  | Some n =>
      let! c := st_opt (info n) in
      (if event c =? DLI_CMD_COMPLETE_EVT then lupd (DLI_CmdNumSet DLI_DEFAULT_CMD_NUM)
       else if negb (isRecvStatusEvt n) then lupd (DLI_CmdNumSet DLI_DEFAULT_CMD_NUM)
       else st_ret tt) ;;!
      RecvEventHandler tables DLI_CMD_ERROR_EVT (context c)
        [DLI_COMMAND_TIMEOUT; 0; u8 (cmd c); u8 (cmd c / 256); u8 (event c); u8 (event c / 256); 0]
  end.
End cmd.

(** ** What the list of commands keeps invariant *)
Record cmd_ok (c : DLI_CmdStru) : Prop := {
  co_par : zlen (par c) = parLen c + DLI_HEADER;
  co_len : 0 <= parLen c <= 65498;
  co_bytes : bytes_ok (par c)
}.

Definition node_ok (n : DLI_CmdTxNode) : Prop := exists c, info n = Some c /\ cmd_ok c.

(** The sent commands come before the unsent ones. *)
Definition in_order (l : list DLI_CmdTxNode) : Prop :=
  exists s u, l = s ++ u /\ Forall (fun n => isSent n = true) s /\ Forall (fun n => isSent n = false) u.

Record cmds_inv (l : DLI_LayerInfo) : Prop := {
  ci_addr : NoDup (map node_addr (cmdTx l));
  ci_node : Forall node_ok (cmdTx l);
  ci_order : in_order (cmdTx l);
  ci_num : is_u16 (g_cmdNum l)
}.

(** The frame of a command: type, opcode and length before the parameters. *)
Definition cmd_frame (c : DLI_CmdStru) : bytes :=
  [DLI_DATATYPE_CMD; u8 (cmd c); u8 (cmd c / 256); u8 (parLen c); u8 (parLen c / 256)]
  ++ drop 5 (par c).
Definition node_frame (n : DLI_CmdTxNode) : bytes :=
  match info n with Some c => cmd_frame c | None => [] end.

(** What the driver took over, in order; and whether something failed on the way. *)
Definition driven (t : list (call * Z)) : list bytes :=
  omap (fun '(c, a) => match c with CHalSend d => if a =? 0 then Some d else None | _ => None end) t.
Definition send_failed (t : list (call * Z)) : Prop :=
  Exists (fun '(c, a) => match c with CAlloc => a = 0 | CHalSend _ => a <> 0 | _ => False end) t.

Lemma driven_app t1 t2 : driven (t1 ++ t2) = driven t1 ++ driven t2.
Proof. apply omap_app. Qed.

(** [n'] is [n] as the loop leaves it: the header of the command is filled in. *)
Record same_cmd (n n' : DLI_CmdTxNode) : Prop := {
  sc_addr : node_addr n' = node_addr n;
  sc_status : isRecvStatusEvt n' = isRecvStatusEvt n;
  sc_frame : node_frame n' = node_frame n;
  sc_info : node_ok n -> exists c c', info n = Some c /\ info n' = Some c' /\ cmd_ok c' /\
    cmd c' = cmd c /\ event c' = event c /\ parLen c' = parLen c /\ context c' = context c /\
    needErase c' = needErase c /\ timeoutCallback c' = timeoutCallback c
}.

Lemma same_cmd_refl n : same_cmd n n.
Proof. constructor; try done. intros (c&Hc&Hok). by exists c, c. Qed.

Section cmd_lemmas.
Context {W : Type} `{World W}.
Implicit Types c : DLI_CmdStru.

Lemma fill_header c : cmd_ok c ->
  exists p1 p2, wr (par c) 0 [DLI_DATATYPE_CMD] = Some p1 /\ st16 p1 1 (cmd c) = Some p2 /\
    st16 p2 3 (parLen c) = Some (cmd_frame c) /\
    rds (cmd_frame c) 0 (parLen c + DLI_HEADER) = Some (cmd_frame c) /\
    cmd_ok (c <| par := cmd_frame c |>) /\ cmd_frame (c <| par := cmd_frame c |>) = cmd_frame c.
Proof.
  intros [Hp Hl Hb]. unfold DLI_HEADER in *.
  destruct (par c) as [|b0 [|b1 [|b2 [|b3 [|b4 L]]]]] eqn:E; simpl length in Hp; try lia.
  do 2 eexists.
  split; [unfold wr; rewrite decide_True by (simpl length; lia); reflexivity|].
  split; [unfold st16, wr; rewrite decide_True by (simpl length; lia); reflexivity|].
  assert (cmd_frame c = [DLI_DATATYPE_CMD; u8 (cmd c); u8 (cmd c / 256); u8 (parLen c);
            u8 (parLen c / 256)] ++ L) as Hf by (unfold cmd_frame; by rewrite E).
  split.
  { unfold st16, wr. rewrite decide_True by (simpl length; lia). rewrite Hf. reflexivity. }
  split.
  { unfold rds. rewrite decide_True by (rewrite Hf; simpl length; lia). f_equal. unfold mem_read.
    rewrite drop_0. apply take_ge. rewrite Hf. simpl length. lia. }
  split; [|by rewrite Hf at 1].
  constructor; cbn -[cmd_frame]; [rewrite Hf; simpl length; unfold DLI_HEADER; lia|done|].
  rewrite Hf. unfold bytes_ok in Hb. rewrite !Forall_cons in Hb. apply Forall_app. split; [|naive_solver].
  repeat constructor; try apply u8_range; unfold DLI_DATATYPE_CMD; lia.
Qed.

(** Sending one command: the driver took its frame, or something failed. *)
Lemma wp_send_one c w (Q : Z * DLI_CmdStru -> W -> Prop) :
  cmd_ok c ->
  (forall ret w' t, trace w' = trace w ++ t ->
     (ret = 0 /\ driven t = [cmd_frame c]) \/ (ret <> 0 /\ driven t = [] /\ send_failed t) ->
     Q (ret, c <| par := cmd_frame c |>) w') ->
  wp (DLI_CmdListSendInner (Some c)) w Q.
Proof.
  intros Hok HQ. destruct (fill_header c Hok) as (p1&p2&E1&E2&E3&E4&_&_).
  unfold DLI_CmdListSendInner.
  apply wp_bind, (wp_opt _ c); [done|]. apply wp_bind, (wp_opt _ p1); [done|].
  apply wp_bind, (wp_opt _ p2); [done|]. apply wp_bind, (wp_opt _ (cmd_frame c)); [done|].
  apply wp_bind, (wp_opt _ (cmd_frame c)); [done|].
  apply wp_bind. unfold DLI_SapiSend.
  destruct (zlen (cmd_frame c) =? 0) eqn:Ez; [by apply Z.eqb_eq in Ez|].
  assert (forall ret w' t, trace w' = trace w ++ t ->
     (ret = 0 /\ driven t = [cmd_frame c]) \/ (ret <> 0 /\ driven t = [] /\ send_failed t) ->
     wp (st_ret (ret, c <| par := cmd_frame c |>)) w' Q) as HR by (intros; by eapply wp_ret, HQ).
  unfold alloc_ok.
  apply wp_bind, wp_bind, wp_ask. intros a1 w1 T1. apply wp_ret.
  destruct (Z.eqb_spec a1 0) as [->|Ha1]; cbn [negb].
  { apply wp_ret. eapply HR; [exact T1|]. right. split; [done|]. split; [done|]. by constructor. }
  apply wp_bind, wp_bind, wp_ask. intros a2 w2 T2. apply wp_ret.
  rewrite T1, <- app_assoc in T2.
  destruct (Z.eqb_spec a2 0) as [->|Ha2]; cbn [negb].
  { apply wp_ret. eapply HR; [exact T2|]. right. split; [done|]. split; [done|].
    by apply Exists_cons_tl, Exists_cons_hd. }
  apply wp_ask. intros a3 w3 T3. rewrite T2, <- app_assoc in T3. eapply HR; [exact T3|]. cbn.
  destruct (Z.eqb_spec a3 0) as [->|Ha3]; [by left|]. right. split; [done|]. split; [done|].
  by do 2 apply Exists_cons_tl; apply Exists_cons_hd.
Qed.

Lemma wp_timer_add addr h w (Q : Z * Z -> W -> Prop) :
  (forall ret h' w' t, trace w' = trace w ++ t -> driven t = [] -> (h' = h \/ 0 < h') -> Q (ret, h') w') ->
  wp (SDF_TimerAdd addr h) w Q.
Proof.
  intros HQ. unfold SDF_TimerAdd. apply wp_bind, wp_ask. intros a w' Ht. apply wp_ret.
  destruct (Z.ltb_spec 0 a); eapply HQ; try exact Ht; auto.
Qed.

(** What one pass over the unsent commands [u] does: the commands [a] at the front
    are sent, the rest [r] waits. *)
Record sends (others : list (option Z)) (st st' : DLI_LayerInfo) (t : list (call * Z))
    (u a r u' : list DLI_CmdTxNode) : Prop := {
  se_split : u = a ++ r;
  se_sent : exists a' r', u' = a' ++ r' /\ Forall2 same_cmd a a' /\ Forall2 same_cmd r r' /\
    Forall (fun n => isSent n = true) a' /\ Forall (fun n => isSent n = false) r';
  se_driven : driven t = map node_frame a;
  se_state : st' = st <| g_cmdNum := g_cmdNum st' |>;
  se_num : is_u16 (g_cmdNum st');
  se_credit : others = [] -> g_cmdNum st' = g_cmdNum st - zlen a;
  se_stop : r = [] \/ g_cmdNum st' = 0 \/ send_failed t;
  se_none : a = [] -> u = [] \/ g_cmdNum st = 0 \/ send_failed t;
  se_race : others = [Some 0] -> a <> [] -> g_cmdNum st' = 65536 - zlen a
}.

Lemma Forall2_same_refl l : Forall2 same_cmd l l.
Proof. apply Forall_Forall2_diag, Forall_true, same_cmd_refl. Qed.

Lemma same_cmd_fill n c b h : info n = Some c -> cmd_ok c ->
  same_cmd n (n <| info := Some (c <| par := cmd_frame c |>) |> <| isSent := b |> <| handle := h |>).
Proof.
  intros Hi Hok. destruct (fill_header c Hok) as (?&?&_&_&_&_&Hok'&Hf).
  constructor; try done; unfold node_frame; cbn -[cmd_frame].
  - by rewrite Hi.
  - intros _. exists c. eexists. by rewrite Hi.
Qed.

Lemma send_failed_app t1 t2 : send_failed t2 -> send_failed (t1 ++ t2).
Proof. intros. apply Exists_app. by right. Qed.

Lemma wp_send_unsent u : forall others st w (Q : list DLI_CmdTxNode -> DLI_LayerInfo * W -> Prop),
  Forall node_ok u -> Forall (fun n => isSent n = false) u -> is_u16 (g_cmdNum st) ->
  (forall st' w' t a r u', trace w' = trace w ++ t -> sends others st st' t u a r u' ->
     Q u' (st', w')) ->
  wp (cmd_send_loop others u) (st, w) Q.
Proof.
  induction u as [|n u IH]; intros others st w Q Hok Hun Hnum HQ; cbn [cmd_send_loop].
  { apply wp_ret. apply (HQ st w [] [] []); [by rewrite app_nil_r|].
    constructor; try done; [by exists [], []|by destruct st|intros; simpl; lia|by left|by left]. }
  apply Forall_cons in Hok as [(c&Hi&Hc) Hok]. apply Forall_cons in Hun as [Hn Hun].
  apply wp_bind, wp_gets. unfold DLI_IsCmdAllow. cbn [fst].
  destruct (Z.ltb_spec 0 (g_cmdNum st)) as [Hallow|Hallow]; cbn [negb].
  2:{ apply wp_ret. apply (HQ st w [] [] (n :: u)); [by rewrite app_nil_r|].
      constructor; try done; [|by destruct st|intros; simpl; lia|right; left; cint|right; left; cint].
      exists [], (n :: u). split_and!; try done; [apply Forall2_same_refl|by constructor]. }
  rewrite Hn. apply wp_bind, wp_over. rewrite Hi. apply wp_send_one; [done|].
  intros ret w1 t1 T1 Hsent. apply wp_bind, wp_modify. cbn [fst snd].
  match goal with |- context [(?f st, w1)] => set (st1 := f st) end.
  assert (is_u16 (g_cmdNum st1) /\ st1 = st <| g_cmdNum := g_cmdNum st1 |> /\
    (others = [] -> st1 = st)) as (Hn1&Hst1&Hst1').
  { subst st1. destruct others as [|[k|] others]; cbn; split_and!; try done; try by destruct st.
    pose proof (u8_range k). cint. }
  assert (others = [Some 0] -> g_cmdNum st1 = 0) as Hrace1 by (by intros ->).
  clearbody st1. destruct Hsent as [[-> Hd]|(Hret&Hd&Hf)].
  2:{ destruct (Z.eqb_spec ret 0); [done|]. cbn [negb]. apply wp_ret.
      eapply (HQ st1 w1 t1 [] (n :: u)); [done|].
      constructor; try done; [|intros Ho; rewrite (Hst1' Ho); simpl; lia|by right; right|by right; right].
      eexists [], _. split; [done|]. split; [constructor|]. split.
      - constructor; [|apply Forall2_same_refl].
        pose proof (same_cmd_fill n c (isSent n) (handle n) Hi Hc) as Hs. by destruct n.
      - by repeat constructor. }
  cbn [negb Z.eqb]. apply wp_bind, wp_over, wp_timer_add. intros _ h w2 t2 T2 Hd2 _.
  apply wp_bind, wp_modify. cbn [fst snd].
  apply wp_bind, (IH (tail others)); [done..| |].
  { cbn. apply u16_range. }
  intros st' w' t3 a r u' T3 [Hsp (a'&r'&->&Ha&Hr&Has&Hrs) Hdr Hst' Hnum' Hcr Hstop _ _]. apply wp_ret.
  eapply (HQ st' w' (t1 ++ t2 ++ t3) (n :: a) r).
  { by rewrite T3, T2, T1, <- !app_assoc. }
  constructor; try done.
  - by rewrite Hsp.
  - eexists (_ :: a'), r'. split; [done|]. split; [|split; [done|split; [|done]]].
    + constructor; [|done]. pose proof (same_cmd_fill n c true h Hi Hc) as Hs. by destruct n.
    + by constructor.
  - rewrite !driven_app, Hd, Hd2, Hdr. cbn. unfold node_frame at 2. by rewrite Hi.
  - rewrite Hst' at 1. rewrite Hst1. by destruct st.
  - intros ->. rewrite Hcr by done. cbn. unfold DLI_DEFAULT_CMD_NUM.
    rewrite (Hst1' eq_refl), u16_small by cint. lia.
  - destruct Hstop as [->|[?|?]]; [by left|by right; left|]. right; right.
    by do 2 apply send_failed_app.
  - intros -> _. rewrite Hcr by done. cbn. rewrite Hrace1 by done.
    unfold DLI_DEFAULT_CMD_NUM. change (u16 (0 - 1)) with 65535. lia.
Qed.

(** The sent commands in front change nothing. *)
Lemma wp_cmd_send_loop s : forall u others st w (Q : list DLI_CmdTxNode -> DLI_LayerInfo * W -> Prop),
  Forall (fun n => isSent n = true) s ->
  Forall node_ok u -> Forall (fun n => isSent n = false) u -> is_u16 (g_cmdNum st) ->
  (forall st' w' t a r u', trace w' = trace w ++ t -> sends others st st' t u a r u' ->
     Q (s ++ u') (st', w')) ->
  wp (cmd_send_loop others (s ++ u)) (st, w) Q.
Proof.
  induction s as [|n s IH]; intros u others st w Q Hs Hok Hun Hnum HQ; cbn [cmd_send_loop app].
  { by apply wp_send_unsent. }
  apply Forall_cons in Hs as [Hn Hs]. apply wp_bind, wp_gets. unfold DLI_IsCmdAllow. cbn [fst].
  destruct (Z.ltb_spec 0 (g_cmdNum st)) as [Hallow|Hallow]; cbn [negb].
  - rewrite Hn. apply wp_bind, IH; [done..|]. intros. apply wp_ret. by eapply HQ.
  - apply wp_ret. eapply (HQ st w [] [] u u); [by rewrite app_nil_r|].
    constructor; try done; [|by destruct st|intros; simpl; lia|right; left; cint|right; left; cint].
    exists [], u. split_and!; try done. apply Forall2_same_refl.
Qed.
End cmd_lemmas.

(** ** The list under its operations *)
Section cmd_inv.
Context {W : Type} `{World W}.
Implicit Types (st : DLI_LayerInfo) (l : list DLI_CmdTxNode) (n : DLI_CmdTxNode).

Definition unsent l : list DLI_CmdTxNode := filter (fun n => isSent n = false) l.

Lemma unsent_sent s : Forall (fun n => isSent n = true) s -> unsent s = [].
Proof.
  induction 1 as [|n s Hn Hs IH]; [done|]. unfold unsent in *. rewrite filter_cons_False; [done|].
  by rewrite Hn.
Qed.
Lemma unsent_unsent u : Forall (fun n => isSent n = false) u -> unsent u = u.
Proof.
  induction 1 as [|n s Hn Hs IH]; [done|]. unfold unsent in *. by rewrite filter_cons_True, IH.
Qed.
Lemma unsent_app l1 l2 : unsent (l1 ++ l2) = unsent l1 ++ unsent l2.
Proof. apply filter_app. Qed.

Lemma same_addrs l l' : Forall2 same_cmd l l' -> map node_addr l' = map node_addr l.
Proof. induction 1 as [|n n' l l' Hn Hl IH]; [done|]. cbn. by rewrite IH, (sc_addr _ _ Hn). Qed.
Lemma same_nodes_ok l l' : Forall2 same_cmd l l' -> Forall node_ok l -> Forall node_ok l'.
Proof.
  induction 1 as [|n n' l l' Hn Hl IH]; [done|]. rewrite !Forall_cons. intros [Hok Hl'].
  split; [|auto]. destruct (sc_info _ _ Hn Hok) as (c&c'&_&Hi&Hc&_). by exists c'.
Qed.

Lemma wp_list_send others st w (Q : unit -> DLI_LayerInfo * W -> Prop) :
  cmds_inv st ->
  (forall st' w' t a r, trace w' = trace w ++ t -> cmds_inv st' ->
     unsent (cmdTx st) = a ++ r ->
     (exists l' r', cmdTx st' = l' ++ r' /\ Forall2 same_cmd (cmdTx st) (l' ++ r') /\
        Forall (fun n => isSent n = true) l' /\ Forall2 same_cmd r r' /\ unsent r' = r') ->
     driven t = map node_frame a ->
     st' = st <| cmdTx := cmdTx st' |> <| g_cmdNum := g_cmdNum st' |> ->
     (others = [] -> g_cmdNum st' = g_cmdNum st - zlen a) ->
     r = [] \/ g_cmdNum st' = 0 \/ send_failed t ->
     Q tt (st', w')) ->
  wp (DLI_CmdListSend others) (st, w) Q.
Proof.
  intros [Ha Hok (s&u&Hsu&Hs&Hu) Hnum] HQ. unfold DLI_CmdListSend.
  apply wp_bind, wp_gets. cbn [fst]. rewrite Hsu in *. apply Forall_app in Hok as [Hoks Hoku].
  apply wp_bind, wp_cmd_send_loop; [done..|].
  intros st' w' t a r u' T [Hsp (a'&r'&->&Haa&Hrr&Has&Hrs) Hd Hst' Hn' Hcr Hstop _ _].
  apply wp_modify. cbn [fst snd].
  assert (Forall2 same_cmd (s ++ u) ((s ++ a') ++ r')) as Hsame.
  { rewrite Hsp, <- app_assoc. repeat apply Forall2_app; try done. apply Forall2_same_refl. }
  apply (HQ _ w' t a r T).
  - constructor; cbn; rewrite ?app_assoc.
    + by rewrite (same_addrs _ _ Hsame).
    + eapply same_nodes_ok; [done|]. by apply Forall_app.
    + exists (s ++ a'), r'. split_and!; [done| |done]. by apply Forall_app.
    + done.
  - by rewrite unsent_app, unsent_sent, unsent_unsent, app_nil_l by done.
  - exists (s ++ a'), r'. cbn. rewrite app_assoc. split_and!; try done.
    + by apply Forall_app.
    + by apply unsent_unsent.
  - done.
  - cbn. rewrite Hst' at 1. by destruct st.
  - done.
  - done.
Qed.

Lemma cmds_inv_num st k : cmds_inv st -> is_u16 k -> cmds_inv (st <| g_cmdNum := k |>).
Proof. intros [] ?. by constructor. Qed.
Lemma cmds_inv_set st k : cmds_inv st -> cmds_inv (DLI_CmdNumSet k st).
Proof. intros. apply cmds_inv_num; [done|]. pose proof (u8_range k). cint. Qed.

Lemma in_order_app l n : in_order l -> isSent n = false -> in_order (l ++ [n]).
Proof.
  intros (s&u&->&Hs&Hu) Hn. exists s, (u ++ [n]). rewrite app_assoc. split_and!; try done.
  apply Forall_app. split; [done|]. by constructor.
Qed.

Lemma in_order_sub l l' : l' `sublist_of` l -> in_order l -> in_order l'.
Proof.
  intros Hsub (s&u&->&Hs&Hu). apply sublist_app_r in Hsub as (s'&u'&->&Hs'&Hu').
  exists s', u'. split; [done|]. split; eapply Forall_sub; eauto.
Qed.

Lemma cmds_inv_del st addr : cmds_inv st -> cmds_inv (st <| cmdTx ::= del_cmd addr |>).
Proof.
  intros [Ha Hok Ho Hn]. pose proof (remove_first_sub (at_addr addr) (cmdTx st)) as Hsub. constructor; cbn; try done.
  - eapply sublist_NoDup; [done|]. by apply map_sub.
  - eapply Forall_sub; eauto.
  - by eapply in_order_sub.
Qed.
End cmd_inv.

(** ** The command an event answers *)

(** The test of [DLI_CmdNodeRemove] for an event with this status. *)
Definition answers (event opcode status : Z) (n : DLI_CmdTxNode) : bool :=
  match info n with
  | None => false
  | Some c =>
      cmd_matches opcode c &&
      (if status =? DLI_SUCCESS then
         if event =? DLI_STATUS_EVENT then negb (isRecvStatusEvt n) else DliLayer.event c =? event
       else if event =? DLI_STATUS_EVENT then negb (isRecvStatusEvt n) else true)
  end.

(** A successful status event only marks a command. *)
Definition only_marks (event status : Z) : bool := (status =? DLI_SUCCESS) && (event =? DLI_STATUS_EVENT).

(** A successful final event answers a command only after its status event. *)
Definition too_early (event status : Z) (n : DLI_CmdTxNode) : bool :=
  (status =? DLI_SUCCESS) && negb (event =? DLI_STATUS_EVENT) && negb (event =? DLI_COMPLETE_EVENT)
  && negb (isRecvStatusEvt n).

Definition timer_deleted (n : DLI_CmdTxNode) : list call :=
  if handle n =? -1 then [] else [CDliTimerDel (handle n)].

Section remove.
Context {W : Type} `{World W}.
Implicit Types (st : DLI_LayerInfo) (l : list DLI_CmdTxNode) (n : DLI_CmdTxNode).

Lemma find_cmd_first p l :
  Forall node_ok l ->
  find_cmd p l = Some (find_first (fun n => match info n with Some c => p n c | None => false end) l).
Proof.
  induction 1 as [|n l (c&Hi&_) Hl IH]; [done|]. simpl. rewrite Hi. simpl. by destruct (p n c).
Qed.

Lemma find_first_ext {A} (p q : A -> bool) (l : list A) : (forall x, p x = q x) -> find_first p l = find_first q l.
Proof. intros Hpq. induction l as [|x l IH]; [done|]. simpl. by rewrite Hpq, IH. Qed.

Lemma find_answers event opcode status l :
  Forall node_ok l ->
  (if status =? DLI_SUCCESS then
     if event =? DLI_STATUS_EVENT then DLI_CmdNodeFindNotRecvStatus l opcode
     else DLI_CmdNodeFind l event opcode
   else if event =? DLI_STATUS_EVENT then DLI_CmdNodeFindNotRecvStatus l opcode
   else DLI_CmdNodeFindByOpcode l opcode) = Some (find_first (answers event opcode status) l).
Proof.
  intros Hok. unfold DLI_CmdNodeFindNotRecvStatus, DLI_CmdNodeFind, DLI_CmdNodeFindByOpcode.
  rewrite !find_cmd_first by done.
  destruct (status =? DLI_SUCCESS) eqn:E1, (event =? DLI_STATUS_EVENT) eqn:E2; f_equal;
    apply find_first_ext; intros n; unfold answers; rewrite E1, E2; destruct (info n); try done.
  by rewrite andb_true_r.
Qed.

(** Commands that wait to be sent come last, so the first answered command is the
    oldest outstanding one, or there is none. *)
Lemma find_outstanding p l :
  in_order l ->
  match find_first p l with
  | Some n => find_first (fun n => isSent n && p n) l = if isSent n then Some n else None
  | None => find_first (fun n => isSent n && p n) l = None
  end.
Proof.
  intros (s&u&->&Hs&Hu).
  assert (find_first (fun n => isSent n && p n) u = None) as Hnone.
  { apply find_first_None. eapply Forall_impl; [exact Hu|]. intros n Hn. cbn in *. by rewrite Hn. }
  induction Hs as [|n s Hn Hs IH]; simpl.
  - destruct (find_first p u) as [n|] eqn:E; [|done]. apply find_first_Some in E as [Hin _].
    rewrite Forall_forall in Hu. by rewrite (Hu n Hin).
  - rewrite Hn. simpl. destruct (p n); [by rewrite Hn|done].
Qed.

Lemma wp_take_cmd n st w (Q : option DLI_CmdTxNode -> DLI_LayerInfo * W -> Prop) :
  (forall w' t, trace w' = trace w ++ t ->
     if isSent n
     then map fst t = timer_deleted n ->
          Q (Some (n <| handle := -1 |>)) (st <| cmdTx ::= del_cmd (node_addr n) |>, w')
     else t = [] -> Q None (st, w')) ->
  wp (take_cmd n) (st, w) Q.
Proof.
  intros HQ. pose proof (HQ w [] (eq_sym (app_nil_r _))) as H0. unfold take_cmd.
  destruct (isSent n); cbn [negb] in *; [|by apply wp_ret, H0].
  apply wp_bind. unfold timer_deleted in *. destruct (Z.eqb_spec (handle n) (-1)) as [Hh|Hh]; cbn [negb].
  - apply wp_ret, wp_bind, wp_modify, wp_ret. cbn [fst snd].
    assert (n = n <| handle := -1 |>) as Hn by (destruct n; cbn in *; by rewrite Hh).
    rewrite <- Hn in H0. by apply H0.
  - apply wp_bind, wp_over, wp_ask. intros a w' T. apply wp_ret, wp_bind, wp_modify, wp_ret. by eapply HQ.
Qed.

(** What the list is after an event, and which command is handed on. *)
Lemma wp_node_remove event opcode status st w (Q : option DLI_CmdTxNode -> DLI_LayerInfo * W -> Prop) :
  Forall node_ok (cmdTx st) ->
  (forall w' t, trace w' = trace w ++ t ->
     match find_first (answers event opcode status) (cmdTx st) with
     | None => t = [] -> Q None (st, w')
     | Some n =>
         if only_marks event status
         then t = [] -> Q None (st <| cmdTx ::= put_cmd (n <| isRecvStatusEvt := true |>) |>, w')
         else if isSent n && negb (too_early event status n)
         then map fst t = timer_deleted n ->
              Q (Some (n <| handle := -1 |>)) (st <| cmdTx ::= del_cmd (node_addr n) |>, w')
         else t = [] -> Q None (st, w')
     end) ->
  wp (DLI_CmdNodeRemove event opcode status) (st, w) Q.
Proof.
  intros Hok HQ. pose proof (find_answers event opcode status _ Hok) as Hf.
  pose proof (HQ w [] (eq_sym (app_nil_r _))) as H0.
  unfold DLI_CmdNodeRemove. apply wp_bind, wp_gets. cbn [fst].
  set (found := find_first (answers event opcode status) (cmdTx st)) in *.
  apply wp_bind. unfold only_marks, too_early in *.
  assert (forall m, found = Some m -> (only_marks event status || too_early event status m) = false ->
    wp (take_cmd m) (st, w) Q) as Hdel.
  { intros m Hm Hno. unfold only_marks, too_early in Hno. rewrite Hm in HQ.
    apply orb_false_iff in Hno as [Hno1 Hno2]. rewrite Hno1, Hno2, andb_true_r in HQ.
    by apply wp_take_cmd. }
  destruct (status =? DLI_SUCCESS) eqn:E1; [destruct (event =? DLI_STATUS_EVENT) eqn:E2|].
  - apply wp_bind. eapply wp_opt; [exact Hf|]. destruct found as [m|]; cbn [andb] in *.
    + apply wp_bind, wp_modify, wp_ret, wp_ret. by apply H0.
    + by apply wp_ret, wp_ret, H0.
  - destruct (event =? DLI_COMPLETE_EVENT) eqn:E3.
    + apply wp_bind. eapply wp_opt; [exact Hf|]. apply wp_ret. destruct found as [m|]; [|by apply wp_ret, H0].
      apply Hdel; [done|]. unfold only_marks, too_early. by rewrite E1, E2, E3.
    + apply wp_bind. eapply wp_opt; [exact Hf|]. destruct found as [m|]; [|by apply wp_ret, wp_ret, H0].
      destruct (isRecvStatusEvt m) eqn:E4; cbn [negb].
      * apply wp_ret, Hdel; [done|]. unfold only_marks, too_early. by rewrite E1, E2, E3, E4.
      * apply wp_ret, wp_ret. cbn [andb negb] in H0. rewrite andb_false_r in H0. by apply H0.
  - destruct (event =? DLI_STATUS_EVENT) eqn:E2; apply wp_bind; (eapply wp_opt; [exact Hf|]);
      apply wp_ret; (destruct found as [m|]; [|by apply wp_ret, H0]);
      (apply Hdel; [done|]; unfold only_marks, too_early; by rewrite E1).
Qed.
End remove.

(** ** Runs of the layer

    The steps of the DLI thread and of the stack's main thread that touch the
    commands, in any order. *)
Inductive dli_event :=
| EvInit                                                     (* DLI_LayerInfoInit *)
| EvDeInit                                                   (* DLI_LayerInfoDeInit *)
| EvCmdSend (others : list (option Z)) (n : DLI_CmdTxNode)   (* the task of DLI_CmdSend *)
| EvWork (others : list (option Z))                          (* the task of DLI_PostNextTask *)
| EvTimer (addr : Z)                                         (* the timer of a command *)
| EvPacket (buf : SDF_Buff)                                  (* an event packet *)
| EvTask (tables : list (list DLI_InnerCbkLineStru)) (t : DLI_EventTaskParam)
| EvTimeout (tables : list (list DLI_InnerCbkLineStru)) (n : DLI_CmdTxNode).

(** A posted command is new to the list; a timer is that of a listed command; a
    packet has passed [DLI_PacketReceived]; a task holds what the event step posted. *)
Definition admissible (st : DLI_LayerInfo) (ev : dli_event) : Prop :=
  match ev with
  | EvInit | EvDeInit | EvWork _ => True
  | EvCmdSend _ n => node_ok n /\ isSent n = false /\ node_addr n ∉ map node_addr (cmdTx st)
  | EvTimer addr => addr ∈ map node_addr (cmdTx st)
  | EvPacket buf => buff_wf buf /\ DLI_HEADER_WITHOUT_TYPE_SIZE <= dataLen buf
  | EvTask _ t => (forall n, task_node t = Some n -> node_ok n) /\
                  (forall b, task_buf t = Some b -> buff_wf b)
  | EvTimeout _ n => node_ok n
  end.

Section runs.
Context {W : Type} `{World W}.
Notation M := (ST (DLI_LayerInfo * W)).
Implicit Types (st : DLI_LayerInfo) (l : list DLI_CmdTxNode) (n : DLI_CmdTxNode).

Definition run_dli_event (ev : dli_event) : M unit :=
  match ev with
  | EvInit => let! _ := DLI_LayerInfoInit in st_ret tt
  | EvDeInit => DLI_LayerInfoDeInit
  | EvCmdSend others n => DLI_CmdSendInner others n
  | EvWork others => DLI_CmdWorkCallback others
  | EvTimer addr => let! _ := DLI_CmdTimerCallback (Some addr) in st_ret tt
  | EvPacket buf => let! _ := DLI_EventPacketReceived buf in st_ret tt
  | EvTask tables t => DLI_EventTask tables (Some t)
  | EvTimeout tables n => TimeoutCallback tables (Some n)
  end.

Inductive dli_step (s s' : DLI_LayerInfo * W) : Prop :=
| dli_step_ev ev : admissible (fst s) ev -> run_dli_event ev s = Some (tt, s') -> dli_step s s'.

(** A run of [m] ends, and keeps the invariant. *)
Definition keeps_cmds {A} (m : M A) : Prop :=
  forall st w, cmds_inv st -> wp m (st, w) (fun _ s' => cmds_inv (fst s')).

Lemma keeps_ret {A} (a : A) : keeps_cmds (st_ret a).
Proof. intros st w Hst. by apply wp_ret. Qed.
Lemma keeps_bind {A B} (m : M A) (k : A -> M B) :
  keeps_cmds m -> (forall a, keeps_cmds (k a)) -> keeps_cmds (st_bind m k).
Proof.
  intros Hm Hk st w Hst. apply wp_bind. eapply wp_mono; [by apply Hm|].
  intros a [st' w'] Hst'. by apply Hk.
Qed.
Lemma keeps_ask {B} c (k : Z -> M B) : (forall a, keeps_cmds (k a)) ->
  keeps_cmds (st_bind (over (ask c)) k).
Proof. intros Hk. apply keeps_bind; [|done]. intros st w Hst. by apply wp_over, wp_ask. Qed.
Lemma keeps_set k : keeps_cmds (lupd (DLI_CmdNumSet k)).
Proof. intros st w Hst. apply wp_modify. by apply cmds_inv_set. Qed.
Lemma keeps_opt {A B} (o : option A) a (k : A -> M B) : o = Some a -> keeps_cmds (k a) ->
  keeps_cmds (st_bind (st_opt o) k).
Proof. intros -> Hk st w Hst. apply wp_bind. eapply wp_opt; [done|]. by apply Hk. Qed.
Lemma keeps_if {A} (b : bool) (m1 m2 : M A) : keeps_cmds m1 -> keeps_cmds m2 -> keeps_cmds (if b then m1 else m2).
Proof. by destruct b. Qed.
End runs.
Create HintDb keeps.
#[local] Hint Resolve keeps_ret keeps_set keeps_if : keeps.

Section runs_safe.
Context {W : Type} `{World W}.
Implicit Types (st : DLI_LayerInfo) (l : list DLI_CmdTxNode) (n : DLI_CmdTxNode).

Lemma erase_total c : cmd_ok c -> exists c', DLI_EraseParInfo c = Some c'.
Proof.
  intros [Hp Hl _]. unfold DLI_EraseParInfo, wr. case_match; [|eauto].
  rewrite decide_True; [simpl; eauto|]. rewrite length_zeros; unfold DLI_HEADER in *; lia.
Qed.

Lemma keeps_destroy n : node_ok n -> keeps_cmds (over (W := W) (DLI_CmdNodeDestroy n)).
Proof.
  intros (c&Hi&Hc) st w Hst. apply wp_over. unfold DLI_CmdNodeDestroy. rewrite Hi.
  destruct (erase_total c Hc) as [c' E]. apply wp_bind. by eapply wp_opt.
Qed.

Lemma keeps_post : keeps_cmds (W := W) DLI_PostNextTask.
Proof.
  intros st w Hst. apply wp_bind, wp_gets. destruct (negb _); [by apply wp_ret|].
  by apply (keeps_ask (CPost DLI_CmdWork_task)); auto with keeps.
Qed.

Lemma keeps_list_send others : keeps_cmds (W := W) (DLI_CmdListSend others).
Proof. intros st w Hst. by apply wp_list_send. Qed.

Lemma NoDup_snoc {A} (l : list A) x : NoDup l -> x ∉ l -> NoDup (l ++ [x]).
Proof.
  intros. apply NoDup_app. split_and!; [done| |apply NoDup_singleton].
  intros y Hy ->%list_elem_of_singleton. done.
Qed.

(** The node is in the list afterwards if the answer is 0. *)
Lemma wp_cmd_add n st w (Q : Z -> DLI_LayerInfo * W -> Prop) :
  cmds_inv st -> node_ok n -> isSent n = false -> node_addr n ∉ map node_addr (cmdTx st) ->
  (forall st', cmds_inv st' -> cmdTx st' = cmdTx st ++ [n] -> Q 0 (st', w)) ->
  (Q DLI_STACK_MEM_ERRNO (st, w)) ->
  wp (DLI_CmdAddToList n) (st, w) Q.
Proof.
  intros [Ha Hok Ho Hn] Hnode Hun Hnew Hyes Hno. apply wp_bind, wp_gets.
  destruct (negb _); [by apply wp_ret|]. apply wp_bind, wp_modify, wp_ret, Hyes; [|done].
  constructor; cbn; try done.
  - rewrite map_app. by apply NoDup_snoc.
  - apply Forall_app. by split; [|constructor].
  - by apply in_order_app.
Qed.

Lemma send_inner_safe others n st w :
  cmds_inv st -> node_ok n -> isSent n = false -> node_addr n ∉ map node_addr (cmdTx st) ->
  wp (DLI_CmdSendInner (W := W) others n) (st, w) (fun _ s' => cmds_inv (fst s')).
Proof.
  intros Hst Hn Hun Hnew. apply wp_bind, wp_gets. destruct (negb _); [by apply keeps_destroy|].
  apply wp_bind, wp_cmd_add; [done..| |].
  - intros st' Hst' _. by apply keeps_bind; [apply keeps_list_send|intros; apply keeps_ret|].
  - apply wp_bind, wp_list_send; [done|].
    intros st' w' t a r _ Hst' _ (l'&r'&Hl&Hsame&_) _ _ _ _.
    change (DLI_STACK_MEM_ERRNO =? 0) with false. cbv iota. apply wp_bind, wp_cmd_add; try done.
    + by rewrite Hl, (same_addrs _ _ Hsame).
    + by apply keeps_destroy.
Qed.

Lemma timer_safe addr st w :
  cmds_inv st -> addr ∈ map node_addr (cmdTx st) ->
  wp (DLI_CmdTimerCallback (W := W) (Some addr)) (st, w) (fun _ s' => cmds_inv (fst s')).
Proof.
  intros Hst Hin. apply wp_bind, wp_gets. cbn [fst].
  destruct (find_first (at_addr addr) (cmdTx st)) as [n|] eqn:E.
  2:{ apply find_first_None in E. apply list_elem_of_In, in_map_iff in Hin as (m&<-&Hm).
      rewrite Forall_forall in E. specialize (E m ltac:(by apply list_elem_of_In)).
      unfold at_addr in E. by rewrite Z.eqb_refl in E. }
  apply wp_bind, (wp_opt _ n); [done|]. apply find_first_Some in E as [Hm _].
  destruct Hst as [Ha Hok Ho Hnum] eqn:Eq. clear Eq.
  rewrite Forall_forall in Hok. destruct (Hok n Hm) as (c&Hi&_). rewrite Hi.
  apply wp_bind, wp_modify. cbn [fst snd].
  match goal with |- wp ?m (?s, w) _ => assert (cmds_inv s) as Hs by (by apply cmds_inv_del) end.
  revert Hs. generalize (st <| cmdTx ::= del_cmd addr |>). intros st' Hst'.
  revert st' w Hst'. apply keeps_bind.
  - apply keeps_if; [|auto with keeps]. apply keeps_ask. auto with keeps.
  - intros posted. apply keeps_bind; [apply keeps_post|auto with keeps].
Qed.

Lemma in_order_same l l' :
  Forall2 (fun n n' => isSent n' = isSent n) l l' -> in_order l -> in_order l'.
Proof.
  intros H2 (s&u&->&Hs&Hu). apply Forall2_app_inv_l in H2 as (s'&u'&H2s&H2u&->).
  exists s', u'. split; [done|]. split.
  - clear -H2s Hs. induction H2s; [done|]. rewrite Forall_cons in *. naive_solver congruence.
  - clear -H2u Hu. induction H2u; [done|]. rewrite Forall_cons in *. naive_solver congruence.
Qed.

(** Rewriting a listed command in place. *)
Lemma put_cmd_split st n n' :
  cmds_inv st -> n ∈ cmdTx st -> node_addr n' = node_addr n ->
  exists l1 l2, cmdTx st = l1 ++ n :: l2 /\ put_cmd n' (cmdTx st) = l1 ++ n' :: l2.
Proof.
  intros [Ha _ _ _] Hin Heq. apply list_elem_of_split in Hin as (l1&l2&E). exists l1, l2.
  split; [done|]. unfold put_cmd. rewrite E in *. apply update_first_split.
  - rewrite map_app in Ha. apply NoDup_app in Ha as (_&Hd&_). apply Forall_forall. intros m Hm.
    apply Z.eqb_neq. intros Hadr. apply (Hd (node_addr m)).
    + by apply list_elem_of_fmap_2.
    + cbn. rewrite Hadr, Heq. constructor.
  - unfold at_addr. rewrite Heq. apply Z.eqb_refl.
Qed.

Lemma cmds_inv_mark st n :
  cmds_inv st -> n ∈ cmdTx st ->
  cmds_inv (st <| cmdTx ::= put_cmd (n <| isRecvStatusEvt := true |>) |>).
Proof.
  intros Hst Hin.
  assert (exists n', n <| isRecvStatusEvt := true |> = n' /\ node_addr n' = node_addr n /\
    isSent n' = isSent n /\ (node_ok n -> node_ok n')) as (n'&->&Hn1&Hn2&Hn3) by by eexists.
  destruct (put_cmd_split st n n' Hst Hin Hn1) as (l1&l2&E&E').
  destruct Hst as [Ha Hok Ho Hnum]. rewrite E in Ha, Hok, Ho.
  constructor; cbn -[put_cmd]; rewrite ?E'; try done.
  - revert Ha. rewrite !map_app. cbn. by rewrite Hn1.
  - apply Forall_app in Hok as [? Hok]. apply Forall_cons in Hok as [Hn ?].
    apply Forall_app. split; [done|]. constructor; [auto|done].
  - eapply in_order_same; [|exact Ho].
    apply Forall2_app; [|constructor; [done|]]; by apply Forall_Forall2_diag, Forall_true.
Qed.

Lemma remove_safe event opcode status st w :
  cmds_inv st ->
  wp (DLI_CmdNodeRemove (W := W) event opcode status) (st, w)
    (fun r s' => cmds_inv (fst s') /\ match r with Some n => node_ok n | None => True end).
Proof.
  intros Hst. apply wp_node_remove; [by apply ci_node|]. intros w' t _.
  destruct (find_first _ _) as [n|] eqn:E; [|done]. apply find_first_Some in E as [Hin _].
  assert (node_ok n) as (c&Hi&Hc). { pose proof (ci_node _ Hst) as Hf. rewrite Forall_forall in Hf. auto. }
  destruct (only_marks _ _); [intros _; split; [by apply cmds_inv_mark|done]|].
  destruct (isSent n && _); [|done]. intros _. split; [by apply cmds_inv_del|]. by exists c.
Qed.

Lemma event_status_total buf event :
  buff_wf buf -> exists status, DLI_EventGetStatus buf event = Some status.
Proof.
  intros [Ho Hl Hw Hb _ _]. unfold DLI_EventGetStatus, sizeof_DLI_CommandStatus,
    sizeof_DLI_CommandComplete, SDF_DataLenGet, SDF_DataOffset. change (3 + 1) with 4.
  assert (4 <= dataLen buf -> exists v, rd (bmem buf) (dataOff buf + 3) = Some v) as Hrd
    by (intros; apply rd_is_Some; lia).
  destruct (event =? DLI_STATUS_EVENT), (event =? DLI_COMPLETE_EVENT), (Z.leb_spec 4 (dataLen buf));
    simpl; try (destruct Hrd as [v ->]; [done|]; simpl); eauto.
Qed.

Lemma ld16_is_Some m p : 0 <= p -> p + 2 <= zlen m -> exists v, ld16 m p = Some v.
Proof.
  intros. unfold ld16. destruct (rd_is_Some m p ltac:(lia)) as [a ->].
  destruct (rd_is_Some m (p + 1) ltac:(lia)) as [b ->]. by eexists.
Qed.

Lemma packet_safe buf st w :
  cmds_inv st -> buff_wf buf -> DLI_HEADER_WITHOUT_TYPE_SIZE <= dataLen buf ->
  wp (DLI_EventPacketReceived (W := W) buf) (st, w) (fun _ s' => cmds_inv (fst s')).
Proof.
  intros Hst Hwf Hlen. unfold DLI_HEADER_WITHOUT_TYPE_SIZE in *. pose proof Hwf as [Ho Hl Hw Hb _ _].
  unfold DLI_EventPacketReceived, SDF_DataOffset, DLI_OPCODE_BYTE_LENGTH, DLI_HEADER_WITHOUT_TYPE_SIZE.
  destruct (ld16_is_Some (bmem buf) (dataOff buf)) as [event Ee]; [lia..|].
  apply wp_bind, (wp_opt _ event); [done|]. apply wp_bind.
  match goal with |- wp ?m _ ?Q => assert (forall opcode, Q opcode (st, w)) as HQ end.
  { intros opcode. destruct (trim_prefix_spec buf 4 Hwf ltac:(lia)) as (b'&->&Hwf'&_).
    destruct (event_status_total b' event Hwf') as [status Es].
    apply wp_bind, (wp_opt _ status); [done|].
    apply wp_bind. eapply wp_mono; [by apply remove_safe|]. intros node [st' w'] [Hst' Hnode].
    apply wp_bind, wp_over, wp_alloc. intros ok w2 _ _. destruct ok; cbn [negb].
    - by apply (keeps_ask (CPost DLI_EventTask_task)); auto with keeps.
    - destruct node as [n|]; [|by apply wp_ret].
      apply (keeps_bind _ _ (keeps_destroy n Hnode)); auto with keeps. }
  match goal with |- context [if ?c then _ else _] => destruct c eqn:Ec end; [|by apply wp_ret].
  apply andb_true_iff in Ec as [_ Ec]. apply Z.leb_le in Ec. unfold SDF_DataLenGet in Ec.
  destruct (ld16_is_Some (bmem buf) (dataOff buf + 4)) as [op Eo]; [lia..|].
  by apply (wp_opt _ op).
Qed.
End runs_safe.

Section main_thread.
Context {W : Type} `{World W}.
Implicit Types (st : DLI_LayerInfo) (l : list DLI_CmdTxNode) (n : DLI_CmdTxNode).
Implicit Types tables : list (list DLI_InnerCbkLineStru).

(** The stack's main thread leaves the list alone: it stores to [g_cmdNum] only. *)
Lemma keeps_over {A} (m : ST W A) : (forall w Q, (forall a w', Q a w') -> wp m w Q) -> keeps_cmds (over m).
Proof. intros Hm st w Hst. apply wp_over, Hm. auto. Qed.

Lemma keeps_module_cbk f ctx data op : keeps_cmds (W := W) (over (run_module_cbk f ctx data op)).
Proof.
  apply keeps_over. intros w Q HQ. destruct f as [[|id]|]; try by apply wp_ret.
  apply wp_bind, wp_ask. intros. by apply wp_ret.
Qed.

Lemma keeps_run_cbk tables ctx data op : keeps_cmds (W := W) (DLI_RunCmdCbk tables ctx data op).
Proof.
  unfold DLI_RunCmdCbk. destruct (DLI_FindCbk tables op) as [[|id]|]; [|apply keeps_module_cbk..].
  unfold DLI_CommandStatusCbk, sizeof_DLI_CommandStatus.
  destruct (Z.leb_spec 4 (zlen data)); cbn [negb]; [|auto with keeps].
  destruct (rd_is_Some data 2) as [num E2]; [lia|]. destruct (rd_is_Some data 3) as [stt E3]; [lia|].
  destruct (ld16_is_Some data 0) as [o Eo]; [lia..|].
  apply (keeps_opt _ num); [done|]. apply keeps_bind; [auto with keeps|intros _].
  apply (keeps_opt _ stt); [done|]. apply keeps_if; [|auto with keeps].
  apply (keeps_opt _ o); [done|]. apply keeps_module_cbk.
Qed.

Lemma keeps_recv_event tables event ctx data : keeps_cmds (W := W) (RecvEventHandler tables event ctx data).
Proof.
  unfold RecvEventHandler, DLI_OPCODE_BYTE_LENGTH, sizeof_DLI_CommandComplete.
  apply keeps_if; [auto with keeps|]. apply keeps_bind.
  { destruct (Z.leb_spec 2 (zlen data)); [|auto with keeps]. intros st w Hst.
    destruct (ld16_is_Some data 0) as [o Eo]; [lia..|]. by eapply wp_opt. }
  intros opcode. apply keeps_bind.
  { destruct (Z.leb_spec 3 (zlen data)); rewrite ?andb_true_r, ?andb_false_r; auto with keeps.
    apply keeps_if; [|auto with keeps].
    destruct (rd_is_Some data 2) as [num E2]; [lia|]. apply (keeps_opt _ num); auto with keeps. }
  intros _. apply keeps_bind; [apply keeps_run_cbk|intros _; apply keeps_post].
Qed.

Lemma keeps_task tables t :
  (forall n, task_node t = Some n -> node_ok n) -> (forall b, task_buf t = Some b -> buff_wf b) ->
  keeps_cmds (W := W) (DLI_EventTask tables (Some t)).
Proof.
  intros Hn Hb. unfold DLI_EventTask. destruct (task_buf t) as [b|]; [|auto with keeps].
  apply (keeps_opt _ (buff_data b)); [by apply window_bytes_spec, Hb|].
  destruct (task_node t) as [n|]; [|apply keeps_recv_event].
  destruct (Hn n eq_refl) as (c&Hi&_). apply (keeps_opt _ c); [done|]. apply keeps_recv_event.
Qed.

Lemma keeps_timeout tables n : node_ok n -> keeps_cmds (W := W) (TimeoutCallback tables (Some n)).
Proof.
  intros (c&Hi&_). unfold TimeoutCallback. apply (keeps_opt _ c); [done|].
  apply keeps_bind; [repeat apply keeps_if; auto with keeps|]. intros _. apply keeps_recv_event.
Qed.

Lemma wp_destroy_all l w (Q : unit -> W -> Prop) :
  Forall node_ok l -> (forall w', Q tt w') -> wp (DLI_CmdDlistDestroy l) w Q.
Proof.
  intros Hok HQ. revert w. induction Hok as [|n l (c&Hi&Hc) Hl IH]; intros w; [by apply wp_ret|].
  cbn [DLI_CmdDlistDestroy]. apply wp_bind.
  assert (forall w1, wp ((match info n with
       | None => st_ret tt
       | Some c => let! _ := st_opt (DLI_EraseParInfo c) in st_ret tt
       end) ;;! DLI_CmdDlistDestroy l) w1 Q) as Hrest.
  { intros w1. rewrite Hi. destruct (erase_total c Hc) as [c' E].
    apply wp_bind, wp_bind, (wp_opt _ c'); [done|]. by apply wp_ret, IH. }
  destruct (negb _); [|by apply wp_ret, Hrest]. apply wp_bind, wp_ask. intros. by apply wp_ret, Hrest.
Qed.

Lemma cmds_inv_nil st : cmdTx st = [] -> is_u16 (g_cmdNum st) -> cmds_inv st.
Proof.
  intros E Hn. constructor; rewrite ?E; try done; [by constructor|]. by exists [], [].
Qed.

Lemma keeps_init : keeps_cmds (W := W) DLI_LayerInfoInit.
Proof.
  intros st w Hst. apply wp_bind, wp_gets. destruct (inited _); [by apply wp_ret|].
  apply wp_bind, wp_modify, wp_ret. by apply cmds_inv_nil.
Qed.

Lemma keeps_deinit : keeps_cmds (W := W) DLI_LayerInfoDeInit.
Proof.
  intros st w Hst. apply wp_bind, wp_gets. destruct (negb _); [by apply wp_ret|].
  apply wp_bind, wp_modify, wp_bind, wp_gets, wp_bind, wp_over, wp_destroy_all.
  { by apply (ci_node _ Hst). }
  intros w'. apply wp_modify. by apply cmds_inv_nil.
Qed.

(** Every admissible step runs to its end and keeps the invariant. *)
Lemma dli_event_safe ev st w :
  cmds_inv st -> admissible st ev -> wp (run_dli_event (W := W) ev) (st, w) (fun _ s' => cmds_inv (fst s')).
Proof.
  destruct ev as [| |others n|others|addr|buf|tables t|tables n]; cbn [admissible run_dli_event];
    intros Hst Ha.
  - revert st w Hst Ha. intros st w Hst _. revert st w Hst. apply keeps_bind; [apply keeps_init|auto with keeps].
  - by apply keeps_deinit.
  - destruct Ha as (?&?&?). by apply send_inner_safe.
  - by apply keeps_list_send.
  - apply wp_bind. eapply wp_mono; [by apply timer_safe|]. intros ? s' Hs'. by apply wp_ret.
  - destruct Ha. apply wp_bind. eapply wp_mono; [by apply packet_safe|]. intros ? s' Hs'. by apply wp_ret.
  - destruct Ha. by apply keeps_task.
  - by apply keeps_timeout.
Qed.
End main_thread.

Section theorems.
Context {W : Type} `{World W}.

(** C33.  In every state the layer reaches from one that keeps the invariant, by any
    steps of its threads - commands posted, tasks run, timers, event packets, stores
    to the number of accepted commands while one is being sent - the list of
    commands is well-formed, sent commands come before waiting ones, and every
    further admissible step runs without undefined behaviour. *)
Theorem dli_commands_safe (s s' : DLI_LayerInfo * W) :
  cmds_inv (fst s) -> rtc dli_step s s' ->
  cmds_inv (fst s') /\
  forall ev, admissible (fst s') ev -> exists s'', run_dli_event ev s' = Some (tt, s'').
Proof.
  intros Hs Hr. assert (cmds_inv (fst s')) as Hs'.
  { induction Hr as [s|s s1 s2 [ev Ha Hrun] Hr IH]; [done|]. apply IH. destruct s as [st w].
    pose proof (dli_event_safe ev st w Hs Ha) as Hwp. unfold wp in Hwp. by rewrite Hrun in Hwp. }
  split; [done|]. intros ev Ha. destruct s' as [st w]. pose proof (dli_event_safe ev st w Hs' Ha) as Hwp.
  unfold wp in Hwp. destruct (run_dli_event ev (st, w)) as [[[] s'']|]; [|done]. by exists s''.
Qed.

(** C34.  Sending the waiting commands, when no other thread changes the number of
    accepted commands: the driver takes the frames of the commands at the front of
    the queue, in order, one per accepted command and never more; the rest waits,
    only because there are no more, the controller accepts no more, or sending
    failed. *)
Theorem dli_flow_control st (w : W) :
  cmds_inv st ->
  wp (DLI_CmdListSend []) (st, w) (fun _ s' => exists a r r' t,
    trace (snd s') = trace w ++ t /\
    unsent (cmdTx st) = a ++ r /\ driven t = map node_frame a /\
    unsent (cmdTx (fst s')) = r' /\ Forall2 same_cmd r r' /\
    map node_addr (cmdTx (fst s')) = map node_addr (cmdTx st) /\
    g_cmdNum (fst s') = g_cmdNum st - zlen a /\ zlen a <= g_cmdNum st /\
    (r = [] \/ g_cmdNum (fst s') = 0 \/ send_failed t)).
Proof.
  intros Hst. apply wp_list_send; [done|].
  intros st' w' t a r T Hst' Hsp (l'&r'&Hl&Hsame&Hsent&Hrr&Hr') Hd _ Hcr Hstop.
  exists a, r, r', t. cbn [fst snd]. pose proof (ci_num _ Hst') as Hnum. unfold is_u16 in Hnum.
  split_and!; try done.
  - by rewrite Hl, unsent_app, unsent_sent, app_nil_l.
  - by rewrite Hl, (same_addrs _ _ Hsame).
  - by apply Hcr.
  - rewrite Hcr in Hnum by done. lia.
Qed.

(**  An event that answers a command takes the oldest outstanding one it answers
    out of the list and stops its timer; a waiting command is never taken for
    answered, and a successful final event takes nothing before the command's status
    event. *)
Theorem event_takes_outstanding event opcode status st (w : W) :
  cmds_inv st -> only_marks event status = false ->
  wp (DLI_CmdNodeRemove event opcode status) (st, w) (fun r s' => exists t,
    trace (snd s') = trace w ++ t /\
    match find_first (fun n => isSent n && answers event opcode status n) (cmdTx st) with
    | Some n =>
        if too_early event status n then r = None /\ fst s' = st /\ t = []
        else r = Some (n <| handle := -1 |>) /\ map fst t = timer_deleted n /\
          exists l1 l2, cmdTx st = l1 ++ n :: l2 /\ fst s' = st <| cmdTx := l1 ++ l2 |>
    | None => r = None /\ fst s' = st /\ t = []
    end).
Proof.
  intros Hst Hno. apply wp_node_remove; [by apply ci_node|]. intros w' t T.
  pose proof (find_outstanding (answers event opcode status) _ (ci_order _ Hst)) as Hout.
  destruct (find_first (answers event opcode status) (cmdTx st)) as [n|] eqn:E; rewrite Hout.
  2:{ intros ->. by exists []. }
  rewrite Hno. destruct (isSent n); cbn [andb]; [|intros ->; by exists []].
  destruct (too_early event status n); cbn [negb]; [intros ->; by exists []|].
  intros Ht. exists t. split_and!; try done. apply find_first_Some in E as [Hin _].
  destruct (put_cmd_split st n n Hst Hin eq_refl) as (l1&l2&E&_). exists l1, l2. split; [done|].
  cbn [fst]. unfold modify. cbn. rewrite E. do 2 f_equal. unfold del_cmd.
  destruct (put_cmd_split st n n Hst Hin eq_refl) as (l1'&l2'&E'&Hput).
  apply remove_first_split; [|apply Z.eqb_refl].
  pose proof (ci_addr _ Hst) as Ha. rewrite E, map_app in Ha. apply NoDup_app in Ha as (_&Hd&_).
  apply Forall_forall. intros m Hm. apply Z.eqb_neq. intros Hadr.
  apply (Hd (node_addr m)); [by apply list_elem_of_fmap_2|]. cbn. rewrite Hadr. constructor.
Qed.

(**  When the stack's main thread stores 0 to the number of accepted commands
    while a command is being sent, the decrement that follows wraps around: the
    controller's flow control is off, and every waiting command is sent. *)
Theorem credit_race_wraps st (w : W) :
  cmds_inv st -> 0 < g_cmdNum st -> 0 < zlen (unsent (cmdTx st)) <= 65536 ->
  wp (DLI_CmdListSend [Some 0]) (st, w) (fun _ s' => exists a r t,
    trace (snd s') = trace w ++ t /\ unsent (cmdTx st) = a ++ r /\ driven t = map node_frame a /\
    (send_failed t \/ (r = [] /\ g_cmdNum (fst s') = 65536 - zlen a))).
Proof.
  intros [Ha Hok (s&u&Hsu&Hs&Hu) Hnum] Hpos Hlen. unfold DLI_CmdListSend.
  apply wp_bind, wp_gets. cbn [fst]. rewrite Hsu in *.
  rewrite unsent_app, unsent_sent, unsent_unsent, app_nil_l in * by done.
  apply Forall_app in Hok as [_ Hok]. apply wp_bind, wp_cmd_send_loop; [done..|].
  intros st' w' t a r u' T [Hsp _ Hd _ _ _ Hstop Hnone Hrace]. apply wp_modify.
  exists a, r, t. split_and!; [done..|]. cbn. destruct a as [|n a].
  { left. destruct Hnone as [->|[?|?]]; [done|simpl in Hlen; lia|lia|done]. }
  rewrite Hrace in * by done. destruct Hstop as [->|[?|?]]; [by right| |by left]. right.
  apply (f_equal length) in Hsp. rewrite length_app in Hsp. split; [|done].
  apply nil_length_inv. lia.
Qed.
End theorems.

(**  Erasing a command's parameters, before the memory is given back, leaves their
    last five bytes as they were: the length of the parameters is counted from the
    start of the header in front of them. *)
Theorem erase_leaves_tail c :
  cmd_ok c -> needErase c = true -> DLI_HEADER <= parLen c ->
  exists c', DLI_EraseParInfo c = Some c' /\
    drop 5 (par c') = zeros (parLen c - 5) ++ drop (Z.to_nat (parLen c)) (par c) /\
    zlen (drop (Z.to_nat (parLen c)) (par c)) = 5.
Proof.
  intros [Hp Hl _] He Hlen. unfold DLI_HEADER in *. unfold DLI_EraseParInfo. rewrite He.
  destruct (Z.eqb_spec (parLen c) 0); [lia|]. cbn [negb andb].
  unfold wr. rewrite length_zeros, decide_True by lia. eexists; split; [done|]. split.
  - cbn. unfold mem_write. change (take (Z.to_nat 0) (par c)) with (@nil Z). rewrite app_nil_l.
    assert (length (zeros (parLen c)) = Z.to_nat (parLen c)) as Hz
      by (pose proof (length_zeros (parLen c)); lia).
    rewrite drop_app_le, Hz by lia. f_equal.
    unfold zeros. rewrite drop_replicate. f_equal. lia.
  - rewrite length_drop. lia.
Qed.

(** ** Concrete runs *)
Section demo.

Definition demo_cmd (op ev : Z) : DLI_CmdStru :=
  mk_cmd false op ev 3 (Some 1) true true [0; 0; 0; 0; 0; 7; 8; 9].
Definition demo_node (addr op ev : Z) : DLI_CmdTxNode :=
  mk_cmdnode addr false false (-1) (Some (demo_cmd op ev)).

(** Three commands wait, the controller accepts two. *)
Definition demo_waiting : DLI_LayerInfo :=
  g_info0 <| cmdTx := [demo_node 1 0x1001 2; demo_node 2 0x1002 2; demo_node 3 0x1003 0x80] |>
          <| inited := true |> <| g_cmdNum := 2 |>.
Definition demo_sent : DLI_LayerInfo :=
  match DLI_CmdListSend [] (demo_waiting, mk_script [1; 1; 0; 5; 1; 1; 0; 6] []) with
  | Some (_, (st, _)) => st
  | None => g_info0
  end.

Lemma demo_nodes_ok op ev : cmd_ok (demo_cmd op ev).
Proof. constructor; [done|done|]. by repeat constructor. Qed.

Lemma demo_waiting_ok : cmds_inv demo_waiting.
Proof.
  constructor; cbn.
  - by apply (bool_decide_unpack (NoDup [1; 2; 3])).
  - repeat constructor; eexists; (split; [reflexivity|apply demo_nodes_ok]).
  - eexists [], _. split; [reflexivity|]. by repeat constructor.
  - done.
Qed.

Lemma demo_sent_ok : cmds_inv demo_sent.
Proof.
  pose proof (wp_list_send (W := script) [] demo_waiting (mk_script [1; 1; 0; 5; 1; 1; 0; 6] [])
                (fun _ s' => cmds_inv (fst s')) demo_waiting_ok) as H.
  assert (exists st w, DLI_CmdListSend [] (demo_waiting, mk_script [1; 1; 0; 5; 1; 1; 0; 6] [])
            = Some (tt, (st, w)) /\ demo_sent = st) as (st&w&E&->)
    by (do 2 eexists; split; vm_compute; reflexivity).
  unfold wp in H. rewrite E in H. apply H. auto.
Qed.

(** The layer is switched on, a command is posted and sent, its answer comes. *)
Definition demo_answer : SDF_Buff := mk_buff 0 8 8 [2; 0; 4; 0; 1; 16; 1; 0].

Definition demo_s0 : DLI_LayerInfo * script := (g_info0, mk_script [1; 1; 0; 5; 0; 1; 0] []).
Definition demo_post : dli_event := EvCmdSend [] (demo_node 1 0x1001 2).
Definition demo_run (ev : dli_event) (s : DLI_LayerInfo * script) : DLI_LayerInfo * script :=
  match run_dli_event ev s with Some (_, s') => s' | None => s end.
Definition demo_s1 : DLI_LayerInfo * script := Eval vm_compute in demo_run EvInit demo_s0.
Definition demo_s2 : DLI_LayerInfo * script := Eval vm_compute in demo_run demo_post demo_s1.
Definition demo_s3 : DLI_LayerInfo * script := Eval vm_compute in demo_run (EvPacket demo_answer) demo_s2.

Lemma demo_steps : rtc dli_step demo_s0 demo_s3.
Proof.
  apply (rtc_l _ _ demo_s1); [|apply (rtc_l _ _ demo_s2); [|apply rtc_once]].
  - apply (dli_step_ev _ _ EvInit); [exact I|vm_compute; reflexivity].
  - apply (dli_step_ev _ _ demo_post); [|vm_compute; reflexivity].
    split; [eexists; split; [reflexivity|apply demo_nodes_ok]|]. split; [reflexivity|].
    apply not_elem_of_nil.
  - apply (dli_step_ev _ _ (EvPacket demo_answer)); [|vm_compute; reflexivity].
    split; [|vm_compute; congruence]. constructor; cbn; try lia. by repeat constructor.
Qed.

Lemma dli_commands_safe_witness :
  cmdTx (fst demo_s3) = [] /\ driven (trace (snd demo_s3)) = [cmd_frame (demo_cmd 0x1001 2)] /\
  exists s'', run_dli_event (EvWork []) demo_s3 = Some (tt, s'').
Proof.
  split; [vm_compute; reflexivity|]. split; [vm_compute; reflexivity|].
  apply (dli_commands_safe demo_s0 demo_s3); [|exact demo_steps|exact I].
  by apply cmds_inv_nil.
Defined.

Lemma dli_flow_control_witness :
  wp (DLI_CmdListSend []) (demo_waiting, mk_script [] []) (fun _ s' => exists a r r' t,
    trace (snd s') = trace (mk_script [] []) ++ t /\
    unsent (cmdTx demo_waiting) = a ++ r /\ driven t = map node_frame a /\
    unsent (cmdTx (fst s')) = r' /\ Forall2 same_cmd r r' /\
    map node_addr (cmdTx (fst s')) = map node_addr (cmdTx demo_waiting) /\
    g_cmdNum (fst s') = g_cmdNum demo_waiting - zlen a /\ zlen a <= g_cmdNum demo_waiting /\
    (r = [] \/ g_cmdNum (fst s') = 0 \/ send_failed t)).
Proof. exact (dli_flow_control demo_waiting (mk_script [] []) demo_waiting_ok). Defined.

Lemma event_takes_outstanding_witness :
  wp (DLI_CmdNodeRemove 2 0x1002 0) (demo_sent, mk_script [] []) (fun r s' => exists t,
    trace (snd s') = trace (mk_script [] []) ++ t /\
    match find_first (fun n => isSent n && answers 2 0x1002 0 n) (cmdTx demo_sent) with
    | Some n =>
        if too_early 2 0 n then r = None /\ fst s' = demo_sent /\ t = []
        else r = Some (n <| handle := -1 |>) /\ map fst t = timer_deleted n /\
          exists l1 l2, cmdTx demo_sent = l1 ++ n :: l2 /\ fst s' = demo_sent <| cmdTx := l1 ++ l2 |>
    | None => r = None /\ fst s' = demo_sent /\ t = []
    end) /\
  is_Some (find_first (fun n => isSent n && answers 2 0x1002 0 n) (cmdTx demo_sent)).
Proof.
  split; [|vm_compute; eexists; reflexivity].
  apply (event_takes_outstanding 2 0x1002 0 demo_sent (mk_script [] []) demo_sent_ok). reflexivity.
Defined.

Lemma credit_race_wraps_witness :
  wp (DLI_CmdListSend [Some 0]) (demo_waiting, mk_script [] []) (fun _ s' => exists a r t,
    trace (snd s') = trace (mk_script [] []) ++ t /\ unsent (cmdTx demo_waiting) = a ++ r /\ driven t = map node_frame a /\
    (send_failed t \/ (r = [] /\ g_cmdNum (fst s') = 65536 - zlen a))).
Proof.
  apply (credit_race_wraps demo_waiting (mk_script [] []) demo_waiting_ok); [done|].
  vm_compute. split; congruence.
Defined.

Definition demo_key : DLI_CmdStru :=
  mk_cmd true 0x1801 2 8 None true true ([0; 0; 0; 0; 0] ++ [1; 2; 3; 4; 5; 6; 7; 8]).

Lemma erase_leaves_tail_witness : exists c', DLI_EraseParInfo demo_key = Some c' /\
  drop 5 (par c') = zeros 3 ++ [4; 5; 6; 7; 8].
Proof.
  destruct (erase_leaves_tail demo_key) as (c'&E&Hd&_).
  - constructor; [done|done|]. by repeat constructor.
  - done.
  - done.
  - exists c'. split; [exact E|exact Hd].
Defined.
End demo.
