(* ===== verification/DliData.v ===== *)
(** * The DLI layer: data

    [services/stack/src/dli/layer/src/dli_layer.c] and [dli_layer_utils.c]: a packet
    of the data plane is cut into fragments of the controller's buffer size, each
    with a header of its own, and the fragments the controller delivers are put
    together again, per link. *)
From S2P Require Import Prelude SdfErrno SdfBuff DtapEnv DliLayer.

Definition DLI_CONNECTION_HDL_BIT_LEN : Z := 12.
Definition DLI_PB_BIT_LEN : Z := 2.
Definition DLI_PAYLOAD_BITS_LEN : Z := 2.
Definition DLI_RESET_EVENT_SIZE : Z := 5.
Definition DLI_DATA_LEN_OFFSET : Z := 2.
Definition DLI_TRY_SEND_CNT : nat := 3.
Definition DLI_TRY_SEND_SLEEP_TIME : Z := 10.

Definition DLI_GetDataFragmentNums (l : DLI_LayerInfo) (buf : option SDF_Buff) : Z :=
  match buf with
  | None => DLI_STACK_PARAMS_ERRNO
  | Some b =>
      let bufferLen := DLI_DataLenGet l ACB_DATA_TYPE in
      if bufferLen =? 0 then 0
      else
        let fragmentNums := u32 (u64 (SDF_DataLenGet b + bufferLen - 1) / bufferLen) in
        if DLI_MAX_FRAGMEN_NUM <? fragmentNums then 0 else fragmentNums
  end.

Definition DLI_GetFragmentMaxLen (l : DLI_LayerInfo) : Z := DLI_DataLenGet l ACB_DATA_TYPE + DLI_HEADER.

Definition DLI_IsFirstPb (pb : Z) : bool := (pb =? DLI_FIRST_FRAGMENT) || (pb =? DLI_FULL_FRAGMENT).

Definition DLI_CheckPb (prePb curPb : Z) : bool :=
  if (negb (prePb =? DLI_MIDDLE_FRAGMENT) && (prePb =? curPb)) || (curPb <? prePb) then false else true.

(** The header of a fragment: link, kind of fragment, time stamp and priority. *)
Definition link_word (lcid pb ts prio : Z) : Z :=
  Z.lor (Z.lor (Z.lor lcid (Z.shiftl pb DLI_CONNECTION_HDL_BIT_LEN))
               (Z.shiftl ts (DLI_CONNECTION_HDL_BIT_LEN + DLI_PB_BIT_LEN)))
        (Z.shiftl prio (DLI_CONNECTION_HDL_BIT_LEN + DLI_PB_BIT_LEN + 1)).

(** Answers the status (1 when there is no room) and the buffer. *)
Definition DLI_ReciveBufUpdate (buf newBuf : SDF_Buff) : option (Z * SDF_Buff) :=
  let remainLen := SDF_BuffTailRoom buf in
  match SDF_BuffAppend (Some buf) (SDF_DataLenGet newBuf) with
  | None => Some (1, buf)
  | Some (p, buf) =>
      if negb (memcpy_s_ok remainLen (SDF_DataLenGet newBuf)) then Some (-1, buf)
      else
        d ← window_bytes newBuf;
        buf ← memcpy_to buf p d;
        Some (0, buf)
  end.

(** Write-back to, and removal of, the node of a link. *)
Definition put_node (n : DLI_RecvDataNode) (l : list DLI_RecvDataNode) : list DLI_RecvDataNode :=
  update_first (fun m => dn_lcid m =? dn_lcid n) (fun _ => n) l.
Definition del_node (lcid : Z) (l : list DLI_RecvDataNode) : list DLI_RecvDataNode :=
  remove_first (fun m => dn_lcid m =? lcid) l.

(** What [DLI_PacketReceived] posts to another thread. *)
Inductive posted := NoTask | AcbTask (buf : SDF_Buff) | EventTask (buf : SDF_Buff).

Section data.
Context {W : Type} `{World W}.
Notation M := (ST (DLI_LayerInfo * W)).

(** ** Sending *)
Definition DLI_PdFlagGet (remainLen oneSendLen : Z) : M Z :=
  let! cur := lay pdFlag in
  let pd :=
    if (cur =? DLI_FIRST_FRAGMENT) || (cur =? DLI_MIDDLE_FRAGMENT) then
      if oneSendLen <? remainLen then DLI_MIDDLE_FRAGMENT else DLI_LAST_FRAGMENT
    else if (cur =? DLI_LAST_FRAGMENT) || (cur =? DLI_FULL_FRAGMENT) || (cur =? UINT8_MAX) then
      if oneSendLen <? remainLen then DLI_FIRST_FRAGMENT else DLI_FULL_FRAGMENT
    else DLI_FIRST_FRAGMENT in
  lupd (fun l => l <| pdFlag := pd |>) ;;!
  st_ret pd.

(** One round of the loop of [DLI_SplitData]: the fragment at [dataOffset] goes to
    [fragmentBuf[i]].  It answers whether it succeeded, the source buffer, the
    fragment's buffer and the length sent.  [DLI_ENCODE2BYTE] evaluates its value
    twice, first for the high byte: so the flag is computed twice. *)
Definition split_round (data : DLI_DataStru) (b : SDF_Buff) (fragment : option SDF_Buff)
    (bufferLen dataOffset : Z) : M (bool * SDF_Buff * option SDF_Buff * Z) :=
  let p := SDF_DataOffset b - DLI_HEADER + dataOffset in
  let remainLen := u64 (SDF_DataLenGet b - dataOffset) in
  let! m := st_opt (wr (bmem b) p [u8 (d_type data)]) in
  let! pb := DLI_PdFlagGet remainLen bufferLen in
  let! m := st_opt (wr m (p + 1 + 1) [u8 (link_word (d_lcid data) pb (d_ts data) (d_prio data) / 256)]) in
  let! pb := DLI_PdFlagGet remainLen bufferLen in
  let! m := st_opt (wr m (p + 1) [u8 (link_word (d_lcid data) pb (d_ts data) (d_prio data))]) in
  let sendLen := if bufferLen <? remainLen then bufferLen else u16 remainLen in
  let! m := st_opt (st16 m (p + 1 + DLI_PAYLOAD_BITS_LEN) sendLen) in
  let b := b <| bmem := m |> in
  let fragmentLen := u16 (sendLen + DLI_HEADER) in
  match SDF_BuffAppend fragment fragmentLen with
  | None => st_ret (false, b, fragment, sendLen)
  | Some (fragmentData, f) =>
      if negb (memcpy_s_ok fragmentLen fragmentLen) then st_ret (false, b, Some f, sendLen)
      else
        let! d := st_opt (rds m p fragmentLen) in
        let! f := st_opt (memcpy_to f fragmentData d) in
        st_ret (true, b, Some f, sendLen)
  end.

(** [todo] rounds are left; the next is the [i]-th. *)
Fixpoint split_loop (todo i : nat) (data : DLI_DataStru) (b : SDF_Buff)
    (fragmentBuf : list (option SDF_Buff)) (bufferLen dataOffset : Z) :
    M (Z * SDF_Buff * list (option SDF_Buff)) :=
  match todo with
  | O => st_ret (DLI_SUCCESS, b, fragmentBuf)
  | S todo' =>
      let! fragment := st_opt (fragmentBuf !! i) in
      let! (ok, b, fragment, sendLen) := split_round data b fragment bufferLen dataOffset in
      let fragmentBuf := <[i := fragment]> fragmentBuf in
      if negb ok then st_ret (DLI_STACK_MEM_ERRNO, b, fragmentBuf)
      else split_loop todo' (S i) data b fragmentBuf bufferLen (u64 (dataOffset + sendLen))
  end.

(** Answers the status, the data with its buffer and the buffers of the fragments as
    they are left. *)
Definition DLI_SplitData (data : option DLI_DataStru) (fragmentBuf : option (list (option SDF_Buff)))
    (fragmentCnt : Z) : M (Z * option DLI_DataStru * option (list (option SDF_Buff))) :=
  match data with
  | None => st_ret (DLI_STACK_PARAMS_ERRNO, data, fragmentBuf)
  | Some d =>
      match d_buf d with
      | None => st_ret (DLI_STACK_PARAMS_ERRNO, data, fragmentBuf)
      | Some b =>
          match fragmentBuf with
          | None => st_ret (DLI_STACK_PARAMS_ERRNO, data, fragmentBuf)
          | Some bufs =>
              if negb ((0 <? fragmentCnt) && (fragmentCnt <=? DLI_MAX_FRAGMEN_NUM))
              then st_ret (DLI_STACK_PARAMS_ERRNO, data, fragmentBuf)
              else
                let! bufferLen := lay (fun l => DLI_DataLenGet l ACB_DATA_TYPE) in
                let! (ret, b, bufs) := split_loop (Z.to_nat fragmentCnt) 0 d b bufs bufferLen 0 in
                st_ret (ret, Some (d <| d_buf := Some b |>), Some bufs)
          end
      end
  end.

(** Up to [n] more attempts. *)
Fixpoint try_send (n : nat) (data : bytes) : ST W Z :=
  match n with
  | O => st_ret (-1)
  | S n' =>
      let! ret := DLI_SapiSend data in
      if ret =? 0 then st_ret 0
      else let! _ := ask (CSleep DLI_TRY_SEND_SLEEP_TIME) in try_send n' data
  end.

Definition DLI_TrySend (data : bytes) : ST W Z := try_send DLI_TRY_SEND_CNT data.

Definition DLI_DataSendInner (data : DLI_DataStru) : M unit :=
  let! on := lay inited in
  if negb on then st_ret tt
  else
    let! b := st_opt (d_buf data) in
    let! d := st_opt (window_bytes b) in
    let! result := over (DLI_TrySend d) in
    st_ret tt.

Definition isDataParamValid (data : option DLI_DataStru) : bool :=
  match data with
  | None => false
  | Some d => match d_buf d with
              | None => false
              | Some b => SDF_DataLenGet b <=? DLI_MAX_TXRX_DATA_LEN
              end
  end.

(** The request carries the link and the bytes of the packet posted to the DLI
    thread, of which [DLI_DataSendInner] then hands the bytes to the driver. *)
Definition DLI_DataSend (data : option DLI_DataStru) : ST W Z :=
  if negb (isDataParamValid data) then st_ret DLI_STACK_PARAMS_ERRNO
  else
    let! d := st_opt data in
    let! b := st_opt (d_buf d) in
    let! bs := st_opt (window_bytes b) in
    ask (CDliSend (d_lcid d) bs).

(** ** Receiving *)

(** Answers whether the fragment was added, and the node. *)
Definition DLI_ReciveDataUpdate (node : DLI_RecvDataNode) (lcid pb : Z) (buf : SDF_Buff) :
    ST W (bool * DLI_RecvDataNode) :=
  match dn_buf node with
  | None => st_ret (false, node)
  | Some old =>
      let! (ret, b) := st_opt (DLI_ReciveBufUpdate old buf) in
      if negb (ret =? 1) then st_ret (ret =? 0, node <| dn_buf := Some b |>)
      else
        let size := if pb =? DLI_MIDDLE_FRAGMENT then u64 (2 * SDF_DataLenGet buf) else SDF_DataLenGet buf in
        let size := u64 (size + SDF_DataLenGet old) in
        if negb (size <=? DLI_MAX_TXRX_DATA_LEN) then st_ret (false, node)
        else
          let! ok := alloc_ok in
          match SDF_BuffNew ok (u32 size) with
          | None => st_ret (false, node)
          | Some newBuf =>
              let! (ret, newBuf) := st_opt (DLI_ReciveBufUpdate newBuf old) in
              if negb (ret =? 0) then st_ret (false, node)
              else
                let! (ret, newBuf) := st_opt (DLI_ReciveBufUpdate newBuf buf) in
                if negb (ret =? 0) then st_ret (false, node)
                else st_ret (true, mk_datanode lcid (u8 pb) (Some newBuf))
          end
  end.

Definition DLI_AcbRecvHander (lcid : Z) (buf : option SDF_Buff) : ST W unit :=
  let! b := st_opt buf in
  let! d := st_opt (window_bytes b) in
  let! _ := ask (CAcbRecv lcid d) in st_ret tt.

Definition DLI_ReceiveDataNodeUpdate (buf : SDF_Buff) (lcid pb : Z) : M (option DLI_RecvDataNode) :=
  let! l := lay dataRx in
  match DLI_DataNodeFind l lcid with
  | None =>
      if negb (DLI_IsFirstPb pb) then st_ret None
      else
        let! dataNode := over (DLI_RecvDataNodeCreate lcid pb buf) in
        match dataNode with
        | None => st_ret None
        | Some dataNode =>
            if DLI_DATA_MAX_CNT <=? zlen l then st_ret None
            else lupd (fun s => s <| dataRx ::= fun l => l ++ [dataNode] |>) ;;! st_ret (Some dataNode)
        end
  | Some dataNode =>
      if negb (DLI_CheckPb (dn_pb dataNode) pb) && DLI_IsFirstPb pb then
        let dataNode := dataNode <| dn_buf := Some buf |> <| dn_pb := u8 pb |> in
        lupd (fun s => s <| dataRx ::= put_node dataNode |>) ;;! st_ret (Some dataNode)
      else
        let! (ok, dataNode') :=
          (if negb (DLI_CheckPb (dn_pb dataNode) pb) then st_ret (false, dataNode)
           else over (DLI_ReciveDataUpdate dataNode lcid pb buf)) in
        if negb ok then
          lupd (fun s => s <| dataRx ::= del_node lcid |>) ;;! st_ret None
        else
          lupd (fun s => s <| dataRx ::= put_node dataNode' |>) ;;! st_ret (Some dataNode')
  end.

Definition DLI_AcbPacketReceived (buff : SDF_Buff) : M unit :=
  let p := SDF_DataOffset buff in
  let! dataLen := st_opt (ld16 (bmem buff) (p + DLI_DATA_LEN_OFFSET)) in
  if negb (dataLen =? u64 (SDF_DataLenGet buff - DLI_HEADER_WITHOUT_TYPE_SIZE)) then st_ret tt
  else
    let! word := st_opt (ld16 (bmem buff) p) in
    let pb := u8 (Z.land (Z.shiftr word DLI_CONNECTION_HDL_BIT_LEN) 0x03) in
    let lcid := Z.land word (Z.shiftl 1 DLI_CONNECTION_HDL_BIT_LEN - 1) in
    let buff := match SDF_BuffTrimPrefix (Some buff) DLI_HEADER_WITHOUT_TYPE_SIZE with
                | Some (_, b) => b
                | None => buff end in
    if pb =? DLI_FULL_FRAGMENT then over (DLI_AcbRecvHander lcid (Some buff))
    else if (pb =? DLI_FIRST_FRAGMENT) || (pb =? DLI_MIDDLE_FRAGMENT) then
      let! _ := DLI_ReceiveDataNodeUpdate buff lcid pb in st_ret tt
    else if pb =? DLI_LAST_FRAGMENT then
      let! dataNode := DLI_ReceiveDataNodeUpdate buff lcid pb in
      match dataNode with
      | None => st_ret tt
      | Some n =>
          lupd (fun s => s <| dataRx ::= del_node (dn_lcid n) |>) ;;!
          over (DLI_AcbRecvHander lcid (dn_buf n))
      end
    else st_ret tt.

(** [data] is the packet of the driver, of [size] bytes. *)
Definition DLI_CreateRxBuff (data : bytes) (size : Z) : ST W (option SDF_Buff) :=
  let! ok := alloc_ok in
  match SDF_BuffNew ok size with
  | None => st_ret None
  | Some buf =>
      match SDF_BuffAppend (Some buf) size with
      | None => st_ret None
      | Some (p, buf) =>
          let! d := st_opt (rds data 0 size) in
          let! buf := st_opt (memcpy_to buf p d) in
          st_ret (Some buf)
      end
  end.

Definition DLI_PacketReceived (type : Z) (packet : option (option bytes * Z)) : ST W posted :=
  match packet with
  | None => st_ret NoTask
  | Some (None, _) => st_ret NoTask
  | Some (Some data, size) =>
      if negb ((DLI_HEADER_WITHOUT_TYPE_SIZE <=? size) && (size <=? 65535)) then st_ret NoTask
      else
        let! head := st_opt (rds data 0 (Z.min size DLI_RESET_EVENT_SIZE)) in
        if (type =? DLI_DATATYPE_EVENT) && (size =? DLI_RESET_EVENT_SIZE)
           && bool_decide (head = [0xff; 0xff; 0x01; 0x00; 0xc7])
        then let! _ := ask CKill in st_ret NoTask
        else
          let! buf := DLI_CreateRxBuff data size in
          match buf with
          | None => st_ret NoTask
          | Some buf =>
              if type =? DLI_DATATYPE_ACB then
                let! ret := ask (CPost DLI_AcbPacketReceived_task) in
                st_ret (if ret =? 0 then AcbTask buf else NoTask)
              else if type =? DLI_DATATYPE_EVENT then
                let! ret := ask (CPost DLI_EventPacketReceived_task) in
                st_ret (if ret =? 0 then EventTask buf else NoTask)
              else st_ret NoTask
          end
  end.
End data.

(** ** What the receiver promises

    Abstractly, the receiver keeps for every link the bytes of the packet that is
    being put together. *)
Definition rx_step (m : gmap Z bytes) (lcid pb : Z) (payload : bytes) :
    gmap Z bytes * list (Z * bytes) :=
  if pb =? DLI_FULL_FRAGMENT then (m, [(lcid, payload)])
  else if pb =? DLI_FIRST_FRAGMENT then (<[lcid := payload]> m, [])
  else
    match m !! lcid with
    | None => (m, [])
    | Some d =>
        if pb =? DLI_MIDDLE_FRAGMENT then (<[lcid := d ++ payload]> m, [])
        else (delete lcid m, [(lcid, d ++ payload)])
    end.

(** A fragment as the controller delivers it: link, kind and payload; [None] when the
    length in the header is not that of the payload. *)
Definition decode (d : bytes) : option (Z * Z * bytes) :=
  match d with
  | b0 :: b1 :: b2 :: b3 :: payload =>
      if b2 + 256 * b3 =? zlen payload
      then Some (Z.land (b0 + 256 * b1) 4095, Z.land (Z.shiftr (b0 + 256 * b1) 12) 3, payload)
      else None
  | _ => None
  end.

Definition node_data (n : DLI_RecvDataNode) : bytes :=
  match dn_buf n with Some b => buff_data b | None => [] end.
Definition partials (l : list DLI_RecvDataNode) : gmap Z bytes :=
  list_to_map (map (fun n => (dn_lcid n, node_data n)) l).

Record data_node_ok (n : DLI_RecvDataNode) : Prop := {
  dno_lcid : 0 <= dn_lcid n < 4096;
  dno_pb : dn_pb n = DLI_FIRST_FRAGMENT \/ dn_pb n = DLI_MIDDLE_FRAGMENT;
  dno_buf : exists b, dn_buf n = Some b /\ buff_wf b
}.

Record rx_inv (st : DLI_LayerInfo) : Prop := {
  ri_nodup : NoDup (map dn_lcid (dataRx st));
  ri_ok : Forall data_node_ok (dataRx st)
}.

Definition acb_delivered (t : list (call * Z)) : list (Z * bytes) :=
  omap (fun '(c, _) => match c with CAcbRecv lcid d => Some (lcid, d) | _ => None end) t.

Lemma acb_delivered_app t1 t2 : acb_delivered (t1 ++ t2) = acb_delivered t1 ++ acb_delivered t2.
Proof. apply omap_app. Qed.

#[global] Arguments partials : simpl never.

(** ** The list of nodes as a map *)
Section nodes.
Implicit Types (n : DLI_RecvDataNode) (l : list DLI_RecvDataNode).

Lemma partials_cons n l : partials (n :: l) = <[dn_lcid n := node_data n]> (partials l).
Proof. done. Qed.

Lemma partials_None l lcid : lcid ∉ map dn_lcid l -> partials l !! lcid = None.
Proof.
  intros Hn. apply not_elem_of_list_to_map_1. intros Hin. apply Hn.
  rewrite list_elem_of_fmap in Hin. destruct Hin as ([? ?]&->&Hin).
  rewrite list_elem_of_fmap in Hin. destruct Hin as (n&[= -> ->]&Hin).
  cbn in *. exact (list_elem_of_fmap_2 dn_lcid l n Hin).
Qed.

Lemma find_node l lcid :
  match DLI_DataNodeFind l lcid with
  | Some n => n ∈ l /\ dn_lcid n = lcid /\ partials l !! lcid = Some (node_data n)
  | None => lcid ∉ map dn_lcid l
  end.
Proof.
  induction l as [|n l IH]; simpl; [apply not_elem_of_nil|]. unfold DLI_DataNodeFind in *. simpl.
  destruct (Z.eqb_spec (dn_lcid n) lcid) as [Heq|Hne].
  - split; [constructor|]. split; [done|]. rewrite partials_cons, Heq. apply lookup_insert_eq.
  - destruct (find_first _ l) as [m|].
    + destruct IH as (?&?&?). split; [by constructor|]. split; [done|].
      by rewrite partials_cons, lookup_insert_ne.
    + by rewrite not_elem_of_cons.
Qed.

Lemma put_node_spec n l :
  dn_lcid n ∈ map dn_lcid l ->
  map dn_lcid (put_node n l) = map dn_lcid l /\ partials (put_node n l) = <[dn_lcid n := node_data n]> (partials l).
Proof.
  induction l as [|m l IH]; simpl; [by intros ?%not_elem_of_nil|]. unfold put_node in *. simpl.
  rewrite elem_of_cons. destruct (Z.eqb_spec (dn_lcid m) (dn_lcid n)) as [Heq|Hne].
  - intros _. cbn. split; [by rewrite Heq|]. rewrite !partials_cons, Heq. by rewrite insert_insert_eq.
  - intros [?|Hin]; [done|]. destruct (IH Hin) as [IH1 IH2]. cbn. split; [by rewrite IH1|].
    rewrite !partials_cons, IH2. by apply insert_insert_ne.
Qed.

Lemma put_node_Forall (P : DLI_RecvDataNode -> Prop) n l : Forall P l -> P n -> Forall P (put_node n l).
Proof.
  intros Hl Hn. unfold put_node. induction Hl as [|m l Hm Hl IH]; simpl; [constructor|].
  destruct (dn_lcid m =? dn_lcid n); by constructor.
Qed.

Lemma del_node_partials lcid l :
  NoDup (map dn_lcid l) -> partials (del_node lcid l) = delete lcid (partials l).
Proof.
  induction l as [|m l IH]; simpl; [symmetry; apply (delete_empty (M := gmap Z))|].
  intros [Hm Hnd]%NoDup_cons. unfold del_node in *. simpl. rewrite partials_cons.
  destruct (Z.eqb_spec (dn_lcid m) lcid) as [<-|Hne].
  - rewrite delete_insert_eq, delete_id; [done|]. by apply partials_None.
  - by rewrite partials_cons, IH, delete_insert_ne.
Qed.

Lemma del_node_sub lcid l : del_node lcid l `sublist_of` l.
Proof. apply remove_first_sub. Qed.

Lemma add_node_partials n l :
  dn_lcid n ∉ map dn_lcid l -> partials (l ++ [n]) = <[dn_lcid n := node_data n]> (partials l).
Proof.
  induction l as [|m l IH]; simpl; [done|]. intros [Hne Hn]%not_elem_of_cons.
  by rewrite !partials_cons, IH, insert_insert_ne.
Qed.
End nodes.

Section rx_inv_ops.
Implicit Types st : DLI_LayerInfo.

Lemma rx_inv_put st n :
  rx_inv st -> data_node_ok n -> dn_lcid n ∈ map dn_lcid (dataRx st) ->
  rx_inv (st <| dataRx ::= put_node n |>).
Proof.
  intros [Hd Ho] Hn Hin. constructor; cbn.
  - by rewrite (proj1 (put_node_spec n _ Hin)).
  - by apply put_node_Forall.
Qed.
Lemma rx_inv_del st lcid : rx_inv st -> rx_inv (st <| dataRx ::= del_node lcid |>).
Proof.
  intros [Hd Ho]. pose proof (del_node_sub lcid (dataRx st)) as Hsub. constructor; cbn.
  - eapply sublist_NoDup; [done|]. by apply map_sub.
  - by eapply Forall_sub.
Qed.
Lemma rx_inv_add st n :
  rx_inv st -> data_node_ok n -> dn_lcid n ∉ map dn_lcid (dataRx st) ->
  rx_inv (st <| dataRx ::= fun l => l ++ [n] |>).
Proof.
  intros [Hd Ho] Hn Hin. constructor; cbn.
  - rewrite map_app. apply NoDup_app. split_and!; [done| |apply NoDup_singleton].
    intros x Hx ->%list_elem_of_singleton. done.
  - apply Forall_app. by split; [|constructor].
Qed.

(** There are fewer links than the list may have nodes. *)
Lemma rx_inv_count st : rx_inv st -> zlen (dataRx st) <= 4096.
Proof.
  intros [Hd Ho].
  assert (map dn_lcid (dataRx st) ⊆+ seqZ 0 4096) as Hsub.
  { apply NoDup_submseteq; [done|]. intros x (n&->&Hn)%list_elem_of_fmap. apply elem_of_seqZ.
    rewrite Forall_forall in Ho. pose proof (dno_lcid _ (Ho n Hn)). lia. }
  apply submseteq_length in Hsub. rewrite length_map, length_seqZ in Hsub. lia.
Qed.
End rx_inv_ops.

(** ** Adding a fragment to a buffer *)
Section update.
Context {W : Type} `{World W}.

Lemma bufupdate_spec b nb :
  buff_wf b -> buff_wf nb ->
  let room := buffLen b - dataOff b - dataLen b in
  exists r b', DLI_ReciveBufUpdate b nb = Some (r, b') /\
    if decide (room < dataLen nb) then r = 1 /\ b' = b
    else if decide (room = 0) then r = -1 /\ dataLen nb = 0
    else r = 0 /\ buff_wf b' /\ buff_data b' = buff_data b ++ buff_data nb /\
      buffLen b' = buffLen b /\ dataOff b' = dataOff b /\ dataLen b' = dataLen b + dataLen nb.
Proof.
  intros Hb Hnb room. pose proof (tailroom_wf b Hb) as Ht. pose proof (length_buff_data nb Hnb) as Hl.
  pose proof Hnb as [Hno Hnl Hnw Hnb' Hns _]. pose proof Hb as [Ho Hl' Hw Hbl Hs _].
  unfold DLI_ReciveBufUpdate, SDF_DataLenGet.
  destruct (decide (room < dataLen nb)) as [Hlt|Hge].
  - unfold SDF_BuffAppend. rewrite u32_small, Ht by cint.
    destruct (Z.ltb_spec (buffLen b - dataOff b - dataLen b) (dataLen nb)); [eauto|lia].
  - destruct (append_copy_spec b (buff_data nb) (dataLen nb)) as (p&b1&b2&E1&E2&Hwf&Hd&Hdo&Hdl&Hbl2);
      [done|auto with mem|done|lia|].
    rewrite E1, Ht. unfold memcpy_s_ok.
    destruct (Z.ltb_spec 0 (buffLen b - dataOff b - dataLen b)) as [Hr|Hr]; cbn [andb].
    + destruct (Z.leb_spec (dataLen nb) (buffLen b - dataOff b - dataLen b)); [|lia]. cbn [negb].
      rewrite window_bytes_spec by done. cbn [mbind option_bind]. rewrite E2. cbn [mbind option_bind].
      do 2 eexists. split; [done|]. by rewrite decide_False by lia.
    + cbn [negb]. do 2 eexists. split; [done|]. rewrite decide_True by lia. split; [done|lia].
Qed.

(** What can cost a link its partial packet [cur] when [payload] arrives. *)
Definition rx_lost (t : list (call * Z)) (cur : bytes) (pb : Z) (payload : bytes) : Prop :=
  alloc_failed t \/
  (pb <> DLI_FIRST_FRAGMENT /\ (payload = [] \/ DLI_MAX_TXRX_DATA_LEN < zlen cur + 2 * zlen payload)).

Lemma wp_update node lcid pb buf old w (Q : bool * DLI_RecvDataNode -> W -> Prop) :
  data_node_ok node -> dn_lcid node = lcid -> pb = DLI_MIDDLE_FRAGMENT \/ pb = DLI_LAST_FRAGMENT ->
  dn_buf node = Some old -> buff_wf old -> buff_wf buf ->
  (forall n' w' t, trace w' = trace w ++ t -> acb_delivered t = [] ->
     dn_lcid n' = lcid -> node_data n' = buff_data old ++ buff_data buf ->
     (exists b, dn_buf n' = Some b /\ buff_wf b) -> dn_pb n' = dn_pb node \/ dn_pb n' = pb ->
     Q (true, n') w') ->
  (forall n' w' t, trace w' = trace w ++ t -> acb_delivered t = [] ->
     rx_lost t (buff_data old) pb (buff_data buf) -> Q (false, n') w') ->
  wp (DLI_ReciveDataUpdate node lcid pb buf) w Q.
Proof.
  intros Hn Hlc Hpb Hold Hwo Hwb Hyes Hno. unfold DLI_ReciveDataUpdate. rewrite Hold.
  pose proof (length_buff_data old Hwo) as Lo. pose proof (length_buff_data buf Hwb) as Lb.
  pose proof Hwo as [Oo Ol Ow Ob Os _]. pose proof Hwb as [Bo Bl Bw Bb Bs _].
  assert (pb <> DLI_FIRST_FRAGMENT) as Hnf by (by destruct Hpb as [->| ->]).
  destruct (bufupdate_spec old buf Hwo Hwb) as (r&b'&E&Hr).
  apply wp_bind, (wp_opt _ (r, b')); [done|]. destruct (decide _) as [Hlt|Hge].
  2:{ destruct (decide _) as [Hz|Hz].
      - destruct Hr as [-> Hz']. apply wp_ret. eapply (Hno _ w []); [by rewrite app_nil_r|done|].
        right. split; [done|]. left. apply nil_length_inv. lia.
      - destruct Hr as (->&Hwf&Hd&_). apply wp_ret.
        eapply (Hyes _ w []); [by rewrite app_nil_r|done|done| |by eexists|by left]. done. }
  destruct Hr as [-> ->]. cbn [Z.eqb negb]. change (1 =? 1) with true. cbn [negb].
  unfold SDF_DataLenGet, DLI_MAX_TXRX_DATA_LEN in *.
  set (k := if pb =? DLI_MIDDLE_FRAGMENT then 2 else 1).
  assert ((if pb =? DLI_MIDDLE_FRAGMENT then u64 (2 * dataLen buf) else dataLen buf) = k * dataLen buf) as ->.
  { unfold k. destruct (pb =? _); [rewrite u64_small by cint|]; lia. }
  assert (1 <= k <= 2) as Hk by (unfold k; destruct (pb =? _); lia).
  rewrite (u64_small (k * dataLen buf + dataLen old)) by (unfold is_u64; nia).
  destruct (Z.leb_spec (k * dataLen buf + dataLen old) 102400) as [Hsz|Hsz]; cbn [negb].
  2:{ apply wp_ret. eapply (Hno _ w []); [by rewrite app_nil_r|done|]. right. split; [done|]. right.
      unfold DLI_MAX_TXRX_DATA_LEN. nia. }
  apply wp_bind, wp_alloc_ok. intros a w1 T1.
  assert (acb_delivered [(CAlloc, a)] = []) as Hd1 by done.
  destruct (Z.eqb_spec a 0) as [->|Ha]; cbn [negb].
  { apply wp_ret. eapply (Hno _ w1 _ T1 Hd1). left. by apply elem_of_cons; left. }
  rewrite (u32_small (k * dataLen buf + dataLen old)) by (unfold is_u32; nia).
  destruct (new_spec (k * dataLen buf + dataLen old)) as (nb&->&Hwn&Hnl&Hno'&Hnb); [nia|].
  destruct (bufupdate_spec nb old Hwn Hwo) as (r2&b2&E2&Hr2).
  rewrite decide_False, decide_False in Hr2 by nia. destruct Hr2 as (->&Hwf2&Hd2&Hbl2&Hdo2&Hdl2).
  apply wp_bind, (wp_opt _ (0, b2)); [done|]. cbn [Z.eqb negb].
  destruct (bufupdate_spec b2 buf Hwf2 Hwb) as (r3&b3&E3&Hr3).
  rewrite decide_False, decide_False in Hr3 by nia. destruct Hr3 as (->&Hwf3&Hd3&_).
  apply wp_bind, (wp_opt _ (0, b3)); [done|]. cbn [Z.eqb negb]. apply wp_ret.
  eapply (Hyes _ w1 _ T1 Hd1); [done| |by eexists|].
  - unfold node_data. cbn. rewrite Hd3, Hd2. by rewrite (zlen_nil_data nb).
  - right. cbn. apply u8_small. destruct Hpb as [->| ->]; done.
Qed.
End update.

Section receive.
Context {W : Type} `{World W}.
Implicit Types (st : DLI_LayerInfo) (buf : SDF_Buff).

(** [st'] differs from [st] in the partial packets only, which are now [m]. *)
Record rx_state st st' (m : gmap Z bytes) : Prop := {
  rs_inv : rx_inv st';
  rs_same : st' = st <| dataRx := dataRx st' |>;
  rs_map : partials (dataRx st') = m
}.

Lemma rx_state_refl st : rx_inv st -> rx_state st st (partials (dataRx st)).
Proof. intros. constructor; [done|by destruct st|done]. Qed.

Lemma rx_state_put st n :
  rx_inv st -> data_node_ok n -> dn_lcid n ∈ map dn_lcid (dataRx st) ->
  rx_state st (st <| dataRx ::= put_node n |>) (<[dn_lcid n := node_data n]> (partials (dataRx st))).
Proof.
  intros Hst Hn Hin. constructor; [by apply rx_inv_put|done|]. cbn. by apply put_node_spec.
Qed.
Lemma rx_state_del st lcid :
  rx_inv st -> rx_state st (st <| dataRx ::= del_node lcid |>) (delete lcid (partials (dataRx st))).
Proof.
  intros Hst. constructor; [by apply rx_inv_del|done|]. cbn. apply del_node_partials. by apply ri_nodup.
Qed.
Lemma rx_state_add st n :
  rx_inv st -> data_node_ok n -> dn_lcid n ∉ map dn_lcid (dataRx st) ->
  rx_state st (st <| dataRx ::= fun l => l ++ [n] |>) (<[dn_lcid n := node_data n]> (partials (dataRx st))).
Proof.
  intros Hst Hn Hin. constructor; [by apply rx_inv_add|done|]. cbn. by apply add_node_partials.
Qed.

(** The fragment [payload] of the kind [pb] extends the partial packet [cur]. *)
Definition extended (cur : option bytes) (pb : Z) (payload : bytes) : option bytes :=
  if pb =? DLI_FIRST_FRAGMENT then Some payload
  else match cur with Some d => Some (d ++ payload) | None => None end.

Lemma del_put_node n l : del_node (dn_lcid n) (put_node n l) = del_node (dn_lcid n) l.
Proof.
  unfold del_node, put_node. induction l as [|m l IH]; simpl; [done|].
  destruct (dn_lcid m =? dn_lcid n) eqn:E; simpl; [by rewrite Z.eqb_refl|]. by rewrite E, IH.
Qed.

(** The packet [d] of the link is kept, or, once it is complete, about to be taken out. *)
Definition settled st st' (lcid pb : Z) (d : bytes) : Prop :=
  if pb =? DLI_LAST_FRAGMENT
  then rx_state st (st' <| dataRx ::= del_node lcid |>) (delete lcid (partials (dataRx st)))
  else rx_state st st' (<[lcid := d]> (partials (dataRx st))).

Lemma settled_put st n pb :
  rx_inv st -> dn_lcid n ∈ map dn_lcid (dataRx st) ->
  (pb <> DLI_LAST_FRAGMENT -> data_node_ok n) ->
  settled st (st <| dataRx ::= put_node n |>) (dn_lcid n) pb (node_data n).
Proof.
  intros Hst Hin Hn. unfold settled. destruct (Z.eqb_spec pb DLI_LAST_FRAGMENT).
  - pose proof (rx_state_del st (dn_lcid n) Hst) as Hdel.
    replace (st <| dataRx ::= put_node n |> <| dataRx ::= del_node (dn_lcid n) |>)
      with (st <| dataRx ::= del_node (dn_lcid n) |>); [done|].
    unfold modify. cbn -[del_node put_node]. by rewrite del_put_node.
  - apply rx_state_put; auto.
Qed.

(** What adding a fragment does to the partial packets: it extends that of its link,
    or loses it; a fragment that continues nothing is dropped. *)
Definition node_outcome st (w : W) (lcid pb : Z) (payload : bytes) (r : option DLI_RecvDataNode)
    (s' : DLI_LayerInfo * W) : Prop :=
  exists t, trace (snd s') = trace w ++ t /\ acb_delivered t = [] /\
    let m := partials (dataRx st) in
    match extended (m !! lcid) pb payload with
    | Some d =>
        (exists n b, r = Some n /\ settled st (fst s') lcid pb d /\
           dn_lcid n = lcid /\ dn_buf n = Some b /\ buff_wf b /\ buff_data b = d) \/
        (r = None /\ rx_state st (fst s') (delete lcid m) /\ rx_lost t (default [] (m !! lcid)) pb payload)
    | None => r = None /\ fst s' = st
    end.

Lemma check_pb_existing pre pb :
  pre = DLI_FIRST_FRAGMENT \/ pre = DLI_MIDDLE_FRAGMENT ->
  pb = DLI_FIRST_FRAGMENT \/ pb = DLI_MIDDLE_FRAGMENT \/ pb = DLI_LAST_FRAGMENT ->
  DLI_CheckPb pre pb = negb (pb =? DLI_FIRST_FRAGMENT) /\ DLI_IsFirstPb pb = (pb =? DLI_FIRST_FRAGMENT).
Proof. by intros [->| ->] [->|[->| ->]]. Qed.

Lemma node_create_first st buf lcid w :
  rx_inv st -> buff_wf buf -> 0 <= lcid < 4096 -> lcid ∉ map dn_lcid (dataRx st) ->
  DLI_DataNodeFind (dataRx st) lcid = None ->
  wp (DLI_ReceiveDataNodeUpdate buf lcid DLI_FIRST_FRAGMENT) (st, w)
    (node_outcome st w lcid DLI_FIRST_FRAGMENT (buff_data buf)).
Proof.
  intros Hst Hb Hlc Hnin Hf. unfold DLI_ReceiveDataNodeUpdate. apply wp_bind, wp_gets. cbn [fst].
  rewrite Hf. change (negb (DLI_IsFirstPb DLI_FIRST_FRAGMENT)) with false. cbv iota.
  apply wp_bind, wp_over. unfold DLI_RecvDataNodeCreate. apply wp_bind, wp_alloc_ok. intros a w1 T1.
  destruct (Z.eqb_spec a 0) as [->|Ha]; cbn [negb]; apply wp_ret.
  - apply wp_ret. eexists. split; [exact T1|]. split; [done|]. right.
    split_and!; [done| |left; apply elem_of_cons; by left].
    rewrite delete_id; [by apply rx_state_refl|]. by apply partials_None.
  - pose proof (rx_inv_count st Hst). unfold DLI_DATA_MAX_CNT.
    destruct (Z.leb_spec 10000 (zlen (dataRx st))); [lia|].
    apply wp_bind, wp_modify, wp_ret. eexists. split; [exact T1|]. split; [done|]. left.
    do 2 eexists. split; [reflexivity|]. split; [|by split_and!].
    eapply (rx_state_add st (mk_datanode lcid _ (Some buf))); try done.
    constructor; cbn; [done|by left|by eexists].
Qed.

Lemma node_update_spec buf lcid pb st w :
  rx_inv st -> buff_wf buf -> 0 <= lcid < 4096 ->
  pb = DLI_FIRST_FRAGMENT \/ pb = DLI_MIDDLE_FRAGMENT \/ pb = DLI_LAST_FRAGMENT ->
  wp (DLI_ReceiveDataNodeUpdate buf lcid pb) (st, w) (node_outcome st w lcid pb (buff_data buf)).
Proof.
  intros Hst Hb Hlc Hpb. pose proof (find_node (dataRx st) lcid) as Hf.
  destruct (DLI_DataNodeFind (dataRx st) lcid) as [n|] eqn:E.
  2:{ destruct Hpb as [->|Hpb]; [by apply node_create_first|].
      unfold DLI_ReceiveDataNodeUpdate. apply wp_bind, wp_gets. cbn [fst]. rewrite E.
      assert (DLI_IsFirstPb pb = false) as -> by (by destruct Hpb as [->| ->]). apply wp_ret.
      exists []. rewrite app_nil_r. split; [done|]. split; [done|]. unfold extended.
      rewrite partials_None by done. by destruct Hpb as [->| ->]. }
  destruct Hf as (Hin&Hl&Hm). pose proof (ri_ok _ Hst) as Hok. rewrite Forall_forall in Hok.
  pose proof (Hok n Hin) as Hn. pose proof Hn as [_ Hnpb (old&Hold&Hwo)].
  assert (lcid ∈ map dn_lcid (dataRx st)) as Hinl by (rewrite <- Hl; by apply list_elem_of_fmap_2).
  unfold DLI_ReceiveDataNodeUpdate. apply wp_bind, wp_gets. cbn [fst]. rewrite E.
  destruct (check_pb_existing _ _ Hnpb Hpb) as [-> ->].
  assert (node_data n = buff_data old) as Hnd by (unfold node_data; by rewrite Hold).
  destruct (Z.eqb_spec pb DLI_FIRST_FRAGMENT) as [->|Hne]; cbn [negb andb].
  - apply wp_bind, wp_modify, wp_ret. exists []. rewrite app_nil_r. split; [done|]. split; [done|].
    left. do 2 eexists. split; [reflexivity|]. split; [|by split_and!]. subst lcid.
    refine (settled_put st (n <| dn_buf := Some buf |> <| dn_pb := u8 DLI_FIRST_FRAGMENT |>)
              DLI_FIRST_FRAGMENT _ _ _); [done..|].
    intros _. destruct Hn. constructor; cbn; [done|by left|by eexists].
  - destruct Hpb as [?|Hpb]; [done|]. apply wp_bind, wp_over. eapply wp_update; try done.
    + intros n' w' t T Hd Hl' Hnd' (b&Hb'&Hwb') Hpb'. cbn [negb].
      apply wp_bind, wp_modify, wp_ret. exists t. split; [done|]. split; [done|].
      unfold extended. rewrite Hm, (proj2 (Z.eqb_neq _ _) Hne), Hnd. left.
      exists n', b. split; [done|]. rewrite <- Hnd'. split; [|split_and!; try done; unfold node_data; by rewrite Hb'].
      rewrite <- Hl'. apply settled_put; [done|by rewrite Hl'|]. intros Hnl.
      constructor; [by rewrite Hl'| |by eexists]. destruct Hpb' as [->| ->]; [done|].
      destruct Hpb as [->|?]; [by right|done].
    + intros n' w' t T Hd Hlost. cbn [negb]. apply wp_bind, wp_modify, wp_ret.
      exists t. split; [done|]. split; [done|]. unfold extended. rewrite Hm, (proj2 (Z.eqb_neq _ _) Hne), Hnd.
      right. split_and!; [done|by apply rx_state_del|done].
Qed.

(** What a received packet is to a link, abstractly. *)
Definition packet_outcome st (w : W) (p : option (Z * Z * bytes)) (s' : DLI_LayerInfo * W) : Prop :=
  exists t, trace (snd s') = trace w ++ t /\
    let m := partials (dataRx st) in
    match p with
    | None => fst s' = st /\ acb_delivered t = []
    | Some (lcid, pb, payload) =>
        (let '(m', out) := rx_step m lcid pb payload in
         rx_state st (fst s') m' /\ acb_delivered t = out) \/
        (rx_state st (fst s') (delete lcid m) /\ acb_delivered t = [] /\ pb <> DLI_FULL_FRAGMENT /\
         rx_lost t (default [] (m !! lcid)) pb payload)
    end.

Lemma wp_hand_up lcid b w (Q : unit -> W -> Prop) :
  buff_wf b -> (forall w' a, trace w' = trace w ++ [(CAcbRecv lcid (buff_data b), a)] -> Q tt w') ->
  wp (DLI_AcbRecvHander lcid (Some b)) w Q.
Proof.
  intros Hb HQ. unfold DLI_AcbRecvHander. apply wp_bind, (wp_opt _ b); [done|].
  apply wp_bind, (wp_opt _ (buff_data b)); [by apply window_bytes_spec|].
  apply wp_bind, wp_ask. intros a w' T. apply wp_ret. by eapply HQ.
Qed.

(** Reading the header of a packet. *)
Lemma ld16_payload b i :
  buff_wf b -> 0 <= i -> i + 2 <= dataLen b ->
  ld16 (bmem b) (dataOff b + i) = ld16 (buff_data b) i.
Proof.
  intros [Ho Hl Hw _ _ _] Hi Hil. unfold ld16, buff_data.
  rewrite !rd_mem_read by lia. by rewrite Z.add_assoc.
Qed.

Lemma land_4095 x : 0 <= Z.land x 4095 < 4096.
Proof. change 4095 with (Z.ones 12). rewrite Z.land_ones by lia. apply Z.mod_pos_bound. lia. Qed.
Lemma land_3 x : Z.land x 3 = 0 \/ Z.land x 3 = 1 \/ Z.land x 3 = 2 \/ Z.land x 3 = 3.
Proof.
  change (Z.land x 3) with (Z.land x (Z.ones 2)). rewrite Z.land_ones by lia.
  pose proof (Z.mod_pos_bound x (2 ^ 2)). lia.
Qed.

(** A first or middle fragment is kept. *)
Lemma fragment_kept lcid pb payload st w r s' :
  rx_inv st -> (pb =? DLI_FIRST_FRAGMENT) || (pb =? DLI_MIDDLE_FRAGMENT) = true ->
  node_outcome st w lcid pb payload r s' -> packet_outcome st w (Some (lcid, pb, payload)) s'.
Proof.
  intros Hst Hpb (t&T&Hd&Hr). exists t. split; [done|]. cbn zeta in *.
  assert (pb =? DLI_FULL_FRAGMENT = false /\ pb =? DLI_LAST_FRAGMENT = false) as [E0 E3].
  { apply orb_true_iff in Hpb as [->%Z.eqb_eq| ->%Z.eqb_eq]; done. }
  unfold rx_step, extended, settled in *. rewrite E0. rewrite E3 in Hr.
  destruct (pb =? DLI_FIRST_FRAGMENT); cbn [orb] in Hpb.
  - destruct Hr as [(n&b&_&Hs&_)|(_&Hs&Hlost)]; [by left|right]. split_and!; try done.
    intros ->. done.
  - rewrite Hpb. destruct (partials (dataRx st) !! lcid) as [d|] eqn:Em.
    + destruct Hr as [(n&b&_&Hs&_)|(_&Hs&Hlost)]; [by left|right]. split_and!; try done. intros ->. done.
    + left. destruct Hr as [_ ->]. split; [by apply rx_state_refl|done].
Qed.

(** A last fragment hands the packet up. *)
Lemma packet_completed lcid payload st w r st' w' :
  rx_inv st -> node_outcome st w lcid DLI_LAST_FRAGMENT payload r (st', w') ->
  wp (match r with
      | None => st_ret tt
      | Some n =>
          lupd (fun s => s <| dataRx ::= del_node (dn_lcid n) |>) ;;!
          over (DLI_AcbRecvHander lcid (dn_buf n))
      end) (st', w') (fun _ => packet_outcome st w (Some (lcid, DLI_LAST_FRAGMENT, payload))).
Proof.
  intros Hst (t&T&Hd&Hr). cbn [fst snd] in *. unfold packet_outcome, rx_step, extended, settled in *.
  change (DLI_LAST_FRAGMENT =? DLI_FIRST_FRAGMENT) with false in *.
  change (DLI_LAST_FRAGMENT =? DLI_LAST_FRAGMENT) with true in *.
  change (DLI_LAST_FRAGMENT =? DLI_FULL_FRAGMENT) with false.
  change (DLI_LAST_FRAGMENT =? DLI_MIDDLE_FRAGMENT) with false. cbv iota zeta in *.
  destruct (partials (dataRx st) !! lcid) as [d|] eqn:Em.
  - destruct Hr as [(n&b&->&Hs&Hl&Hb&Hwb&Hdb)|(->&Hs&Hlost)].
    + apply wp_bind, wp_modify. rewrite Hb, Hl. apply wp_over, wp_hand_up; [done|]. intros w2 a T2. cbn [fst snd] in T2.
      exists (t ++ [(CAcbRecv lcid (buff_data b), a)]). cbn [fst snd].
      rewrite T2, T, <- app_assoc, acb_delivered_app, Hd, Hdb. split; [done|]. by left.
    + apply wp_ret. exists t. split; [done|]. right. by split_and!.
  - destruct Hr as [-> ->]. apply wp_ret. exists t. split; [done|]. left. split; [by apply rx_state_refl|done].
Qed.

Lemma acb_packet_spec b st w :
  rx_inv st -> buff_wf b -> DLI_HEADER_WITHOUT_TYPE_SIZE <= dataLen b ->
  wp (DLI_AcbPacketReceived b) (st, w) (fun _ => packet_outcome st w (decode (buff_data b))).
Proof.
  intros Hst Hb Hlen. unfold DLI_HEADER_WITHOUT_TYPE_SIZE in Hlen.
  pose proof (length_buff_data b Hb) as HL. pose proof Hb as [Ho Hl Hw Hbl Hs _].
  unfold DLI_AcbPacketReceived, SDF_DataOffset, DLI_DATA_LEN_OFFSET, DLI_HEADER_WITHOUT_TYPE_SIZE, SDF_DataLenGet.
  destruct (trim_prefix_spec b 4 Hb ltac:(lia)) as (b'&->&Hwf'&Hd'&_).
  rewrite (u64_small (dataLen b - 4)) by cint.
  destruct (buff_data b) as [|b0 [|b1 [|b2 [|b3 payload]]]] eqn:Ed; simpl length in HL; try lia.
  change (drop (Z.to_nat 4) (b0 :: b1 :: b2 :: b3 :: payload)) with payload in Hd'.
  apply wp_bind, (wp_opt _ (b2 + 256 * b3)).
  { rewrite ld16_payload, Ed by (done || lia). reflexivity. }
  cbn [decode]. replace (dataLen b - 4) with (zlen payload) by lia.
  destruct (Z.eqb_spec (b2 + 256 * b3) (zlen payload)) as [_|_]; cbn [negb].
  2:{ apply wp_ret. exists []. by rewrite app_nil_r. }
  apply wp_bind, (wp_opt _ (b0 + 256 * b1)).
  { replace (dataOff b) with (dataOff b + 0) by lia. rewrite ld16_payload, Ed by (done || lia). reflexivity. }
  unfold DLI_CONNECTION_HDL_BIT_LEN. change (Z.shiftl 1 12 - 1) with 4095.
  set (lcid := Z.land (b0 + 256 * b1) 4095). pose proof (land_4095 (b0 + 256 * b1)) as Hlc. fold lcid in Hlc.
  pose proof (land_3 (Z.shiftr (b0 + 256 * b1) 12)) as Hpb.
  set (pb := Z.land (Z.shiftr (b0 + 256 * b1) 12) 3) in *. clearbody lcid pb.
  rewrite (u8_small pb) by cint. rewrite <- Hd'.
  destruct (Z.eqb_spec pb DLI_FULL_FRAGMENT) as [->|Hne].
  { apply wp_over, wp_hand_up; [done|]. intros w' a T. eexists. split; [exact T|]. left.
    cbn. split; [by apply rx_state_refl|done]. }
  assert (pb = DLI_FIRST_FRAGMENT \/ pb = DLI_MIDDLE_FRAGMENT \/ pb = DLI_LAST_FRAGMENT) as Hk by naive_solver.
  pose proof (node_update_spec b' lcid pb st w Hst Hwf' Hlc Hk) as Hup.
  destruct (orb (pb =? DLI_FIRST_FRAGMENT) (pb =? DLI_MIDDLE_FRAGMENT)) eqn:Ekeep.
  - apply wp_bind. eapply wp_mono; [exact Hup|]. intros r [st' w'] Hr. apply wp_ret.
    by eapply fragment_kept.
  - assert (pb = DLI_LAST_FRAGMENT) as -> by (destruct Hk as [->|[->| ->]]; done).
    change (DLI_LAST_FRAGMENT =? DLI_LAST_FRAGMENT) with true. cbv iota.
    apply wp_bind. eapply wp_mono; [exact Hup|]. intros r [st' w'] Hr. by apply packet_completed.
Qed.
End receive.

(** ** Fragments *)

(** The [i]-th piece of [D], of at most [mtu] bytes. *)
Definition chunk (D : bytes) (mtu i : Z) : bytes := mem_read D (i * mtu) (Z.min mtu (zlen D - i * mtu)).

Definition frag_label (cnt i : Z) : Z :=
  if cnt =? 1 then DLI_FULL_FRAGMENT
  else if i =? 0 then DLI_FIRST_FRAGMENT
  else if i <? cnt - 1 then DLI_MIDDLE_FRAGMENT else DLI_LAST_FRAGMENT.

Definition dli_header (d : DLI_DataStru) (pb len : Z) : bytes :=
  let word := link_word (d_lcid d) pb (d_ts d) (d_prio d) in
  [u8 (d_type d); u8 word; u8 (word / 256); u8 len; u8 (len / 256)].

Definition dli_fragment (d : DLI_DataStru) (D : bytes) (mtu cnt i : Z) : bytes :=
  dli_header d (frag_label cnt i) (zlen (chunk D mtu i)) ++ chunk D mtu i.

Record data_ok (d : DLI_DataStru) : Prop := {
  do_lcid : 0 <= d_lcid d < 4096;
  do_ts : 0 <= d_ts d < 2;
  do_prio : 0 <= d_prio d < 2
}.

Lemma link_word_sum d pb :
  data_ok d -> 0 <= pb < 4 ->
  link_word (d_lcid d) pb (d_ts d) (d_prio d)
  = d_lcid d + 4096 * pb + 16384 * d_ts d + 32768 * d_prio d.
Proof.
  intros [Hl Ht Hp] Hpb. unfold link_word, DLI_CONNECTION_HDL_BIT_LEN, DLI_PB_BIT_LEN.
  change (12 + 2 + 1) with 15. change (12 + 2) with 14.
  rewrite (lor_shiftl_add (d_lcid d) pb 12) by lia. change (2 ^ 12) with 4096.
  rewrite (lor_shiftl_add _ (d_ts d) 14) by lia. change (2 ^ 14) with 16384.
  rewrite (lor_shiftl_add _ (d_prio d) 15) by lia. change (2 ^ 15) with 32768. lia.
Qed.

(** The kind of fragment is not in the low byte. *)
Lemma link_word_low d pb pb' :
  data_ok d -> 0 <= pb < 4 -> 0 <= pb' < 4 ->
  u8 (link_word (d_lcid d) pb (d_ts d) (d_prio d)) = u8 (link_word (d_lcid d) pb' (d_ts d) (d_prio d)).
Proof.
  intros Hd Hpb Hpb'. rewrite !link_word_sum by done. unfold u8.
  replace (d_lcid d + 4096 * pb + 16384 * d_ts d + 32768 * d_prio d)
    with (d_lcid d + 4096 * pb' + 16384 * d_ts d + 32768 * d_prio d + (16 * (pb - pb')) * 256) by lia.
  apply Z_mod_plus_full.
Qed.

(** The flag after one round, which asks for it twice. *)
Definition idle (pd : Z) : bool :=
  (pd =? DLI_LAST_FRAGMENT) || (pd =? DLI_FULL_FRAGMENT) || (pd =? UINT8_MAX).

Definition next_label (busy more : bool) : Z :=
  if busy then if more then DLI_MIDDLE_FRAGMENT else DLI_LAST_FRAGMENT
  else if more then DLI_FIRST_FRAGMENT else DLI_FULL_FRAGMENT.

Section split.
Context {W : Type} `{World W}.
Implicit Types (st : DLI_LayerInfo).

Lemma wp_pd_flag (busy : bool) rem mtu st w (Q : Z -> DLI_LayerInfo * W -> Prop) :
  (if busy then pdFlag st = DLI_FIRST_FRAGMENT \/ pdFlag st = DLI_MIDDLE_FRAGMENT else idle (pdFlag st) = true) ->
  Q (next_label busy (mtu <? rem)) (st <| pdFlag := next_label busy (mtu <? rem) |>, w) ->
  wp (DLI_PdFlagGet rem mtu) (st, w) Q.
Proof.
  intros Hb HQ. unfold DLI_PdFlagGet. apply wp_bind, wp_gets. cbn [fst].
  assert ((if (pdFlag st =? DLI_FIRST_FRAGMENT) || (pdFlag st =? DLI_MIDDLE_FRAGMENT) then
      if mtu <? rem then DLI_MIDDLE_FRAGMENT else DLI_LAST_FRAGMENT
    else if (pdFlag st =? DLI_LAST_FRAGMENT) || (pdFlag st =? DLI_FULL_FRAGMENT) || (pdFlag st =? UINT8_MAX) then
      if mtu <? rem then DLI_FIRST_FRAGMENT else DLI_FULL_FRAGMENT
    else DLI_FIRST_FRAGMENT) = next_label busy (mtu <? rem)) as ->.
  { destruct busy; [by destruct Hb as [->| ->]|]. unfold idle in Hb. rewrite Hb.
    apply orb_true_iff in Hb as [[->%Z.eqb_eq| ->%Z.eqb_eq]%orb_true_iff| ->%Z.eqb_eq]; done. }
  by apply wp_bind, wp_modify, wp_ret.
Qed.

(** The five stores of the header. *)
Lemma header_stores m p x0 x1 x2 x3 :
  0 <= p -> p + 5 <= zlen m ->
  exists m1 m2 m3, wr m p [x0] = Some m1 /\ wr m1 (p + 1 + 1) [x2] = Some m2 /\
    wr m2 (p + 1) [x1] = Some m3 /\
    st16 m3 (p + 1 + DLI_PAYLOAD_BITS_LEN) x3 = Some (mem_write m p [x0; x1; x2; u8 x3; u8 (x3 / 256)]).
Proof.
  intros Hp Hm. pose proof (length_mem_read m p 5 ltac:(lia) ltac:(lia) ltac:(lia)) as Hl.
  pose proof (mem_write_read m p 5 ltac:(lia) ltac:(lia) ltac:(lia)) as Hsame.
  destruct (mem_read m p 5) as [|a [|b [|c [|d [|e [|]]]]]]; simpl length in Hl; try lia.
  replace (p + 1 + 1) with (p + 2) by lia. unfold st16, DLI_PAYLOAD_BITS_LEN.
  replace (p + 1 + 2) with (p + 3) by lia.
  exists (mem_write m p [x0; b; c; d; e]), (mem_write m p [x0; b; x2; d; e]), (mem_write m p [x0; x1; x2; d; e]).
  split.
  { transitivity (wr (mem_write m p [a; b; c; d; e]) (p + 0) [x0]); [by rewrite Hsame, Z.add_0_r|].
    rewrite wr_window by (simpl length; lia). reflexivity. }
  split; [rewrite wr_window by (simpl length; lia); reflexivity|].
  split; [rewrite wr_window by (simpl length; lia); reflexivity|].
  rewrite wr_window by (simpl length; lia). reflexivity.
Qed.

Lemma split_round_spec (busy : bool) d b f mtu o st w (Q : bool * SDF_Buff * option SDF_Buff * Z -> DLI_LayerInfo * W -> Prop) :
  data_ok d -> buff_wf b -> DLI_HEADER <= dataOff b -> 0 <= o < dataLen b -> 1 <= mtu <= 65530 ->
  buff_wf f -> dataOff f + dataLen f + mtu + DLI_HEADER <= buffLen f ->
  (if busy then pdFlag st = DLI_FIRST_FRAGMENT \/ pdFlag st = DLI_MIDDLE_FRAGMENT else idle (pdFlag st) = true) ->
  let more := mtu <? dataLen b - o in
  let sl := Z.min mtu (dataLen b - o) in
  (forall m f', zlen m = zlen (bmem b) -> bytes_ok m ->
     mem_read m (dataOff b + o) (dataLen b - o) = mem_read (bmem b) (dataOff b + o) (dataLen b - o) ->
     buff_wf f' ->
     buff_data f' = buff_data f ++ dli_header d (next_label busy more) sl ++ mem_read (bmem b) (dataOff b + o) sl ->
     Q (true, b <| bmem := m |>, Some f', sl)
       (st <| pdFlag := if more then DLI_MIDDLE_FRAGMENT else DLI_FULL_FRAGMENT |>, w)) ->
  wp (split_round d b (Some f) mtu o) (st, w) Q.
Proof.
  intros Hd Hb Hoff Ho Hmtu Hf Hroom Hpd more sl HQ. unfold DLI_HEADER in *.
  pose proof Hb as [_ Hl Hw Hbl Hs Hby].
  unfold split_round, SDF_DataOffset, SDF_DataLenGet, DLI_HEADER.
  rewrite (u64_small (dataLen b - o)) by cint.
  set (word := fun pb => link_word (d_lcid d) pb (d_ts d) (d_prio d)).
  set (lab := next_label busy more).
  destruct (header_stores (bmem b) (dataOff b - 5 + o) (u8 (d_type d)) (u8 (word lab)) (u8 (word lab / 256)) sl)
    as (m1&m2&m3&E1&E2&E3&E4); [lia..|].
  apply wp_bind, (wp_opt _ m1); [done|].
  apply wp_bind, (wp_pd_flag busy); [done|]. fold more lab.
  apply wp_bind, (wp_opt _ m2); [exact E2|].
  assert (forall Q', Q' (next_label (if more then true else false) more)
      (st <| pdFlag := if more then DLI_MIDDLE_FRAGMENT else DLI_FULL_FRAGMENT |>, w) ->
    wp (DLI_PdFlagGet (dataLen b - o) mtu) (st <| pdFlag := lab |>, w) Q') as Hsecond.
  { intros Q' HQ'. apply (wp_pd_flag (if more then true else false)).
    - unfold lab, more in *. by destruct busy, (mtu <? dataLen b - o); cbn; auto.
    - fold more. unfold more in *. by destruct (mtu <? dataLen b - o). }
  apply wp_bind, Hsecond.
  assert (0 <= lab < 4 /\ 0 <= next_label (if more then true else false) more < 4) as [Hlab Hlab2]
    by (unfold lab; destruct busy, more; by cbn).
  rewrite (link_word_low d _ lab) by done. fold (word lab).
  apply wp_bind, (wp_opt _ m3); [exact E3|].
  assert ((if more then mtu else u16 (dataLen b - o)) = sl) as ->.
  { unfold sl, more. destruct (Z.ltb_spec mtu (dataLen b - o)); [lia|]. rewrite u16_small by cint. lia. }
  apply wp_bind; eapply wp_opt; [exact E4|].
  fold (dli_header d lab sl). set (hdr := dli_header d lab sl).
  assert (zlen hdr = 5 /\ bytes_ok hdr) as [Hhl Hhb].
  { split; [done|]. repeat constructor; apply u8_range. }
  set (m := mem_write (bmem b) (dataOff b - 5 + o) hdr).
  assert (zlen m = zlen (bmem b)) as Hm by (unfold m; rewrite length_mem_write; lia).
  rewrite (u16_small (sl + 5)) by (unfold is_u16, sl; lia).
  assert (rds m (dataOff b - 5 + o) (sl + 5) = Some (hdr ++ mem_read (bmem b) (dataOff b + o) sl)) as Hrd.
  { unfold rds. rewrite decide_True by (unfold sl; lia). f_equal.
    rewrite (Z.add_comm sl 5), mem_read_app by (unfold sl; lia). f_equal.
    - pose proof (mem_read_write_same (bmem b) (dataOff b - 5 + o) hdr ltac:(lia) ltac:(lia)) as Hs'.
      rewrite Hhl in Hs'. exact Hs'.
    - unfold m. rewrite mem_read_write_after by (unfold sl; lia). f_equal. lia. }
  destruct (append_copy_spec f (hdr ++ mem_read (bmem b) (dataOff b + o) sl) (sl + 5)) as (q&f1&f2&A1&A2&Hf2&Hfd&_).
  { done. }
  { apply Forall_app; split; [done|by apply bytes_ok_mem_read]. }
  { rewrite length_app, Nat2Z.inj_add, length_mem_read by (unfold sl; lia). lia. }
  { unfold sl; lia. }
  rewrite A1. unfold memcpy_s_ok.
  destruct (Z.ltb_spec 0 (sl + 5)); [|unfold sl in *; lia]. rewrite Z.leb_refl. cbn [andb negb].
  apply wp_bind; eapply wp_opt; [exact Hrd|]. apply wp_bind, (wp_opt _ f2); [exact A2|].
  apply wp_ret, HQ; try done.
  - by apply bytes_ok_mem_write.
  - apply (mem_read_write_after (bmem b) (dataOff b - 5 + o) hdr); lia.
Qed.
End split.

Section split_all.
Context {W : Type} `{World W}.
Context (d : DLI_DataStru) (D : bytes) (mtu cnt : Z).
Implicit Types (st : DLI_LayerInfo).

(** A buffer a fragment can be written to. *)
Definition frag_room (f : SDF_Buff) : Prop :=
  buff_wf f /\ dataLen f = 0 /\ dataOff f + mtu + DLI_HEADER <= buffLen f.

(** [cnt] is the number of fragments of [D]. *)
Definition frag_count : Prop := (cnt - 1) * mtu < zlen D <= cnt * mtu.

Definition holds_fragment (out : list (option SDF_Buff)) (j : nat) : Prop :=
  exists f, out !! j = Some (Some f) /\ buff_wf f /\ buff_data f = dli_fragment d D mtu cnt (Z.of_nat j).

Lemma more_label i :
  1 <= mtu -> frag_count -> 0 <= i < cnt ->
  (mtu <? zlen D - i * mtu) = (i <? cnt - 1) /\
  frag_label cnt i = next_label (0 <? i) (i <? cnt - 1).
Proof.
  intros Hm Hc Hi. unfold frag_count in Hc. split.
  - destruct (Z.ltb_spec mtu (zlen D - i * mtu)), (Z.ltb_spec i (cnt - 1)); try done; nia.
  - unfold frag_label, next_label.
    destruct (Z.eqb_spec cnt 1), (Z.eqb_spec i 0), (Z.ltb_spec 0 i), (Z.ltb_spec i (cnt - 1));
      try done; lia.
Qed.

Lemma split_loop_spec todo : forall i b bufs o st w (Q : Z * SDF_Buff * list (option SDF_Buff) -> DLI_LayerInfo * W -> Prop),
  data_ok d -> 1 <= mtu <= 65530 -> frag_count -> cnt = Z.of_nat (i + todo) ->
  buff_wf b -> DLI_HEADER <= dataOff b -> dataLen b = zlen D ->
  (0 < Z.of_nat todo -> o = Z.of_nat i * mtu /\
     mem_read (bmem b) (dataOff b + o) (zlen D - o) = mem_read D o (zlen D - o)) ->
  (forall j, (i <= j < i + todo)%nat -> exists f, bufs !! j = Some (Some f) /\ frag_room f) ->
  (if decide (i = 0)%nat then idle (pdFlag st) = true else todo <> 0%nat -> pdFlag st = DLI_MIDDLE_FRAGMENT) ->
  (forall b' out, length out = length bufs -> (forall j, (j < i)%nat -> out !! j = bufs !! j) ->
     (forall j, (i <= j < i + todo)%nat -> holds_fragment out j) ->
     Q (DLI_SUCCESS, b', out) (if decide (todo = 0)%nat then st else st <| pdFlag := DLI_FULL_FRAGMENT |>, w)) ->
  wp (split_loop todo i d b bufs mtu o) (st, w) Q.
Proof.
  induction todo as [|todo IH]; intros i b bufs o st w Q Hd Hm Hc Hcnt Hb Hoff Hlen Ho Hbufs Hpd HQ.
  { apply wp_ret. rewrite decide_True in HQ by done. apply HQ; [done|done|]. intros j Hj. lia. }
  destruct Ho as [-> Hrest]; [lia|]. cbn [split_loop].
  destruct (Hbufs i) as (f&Hf&(Hwf&Hfl&Hroom)); [lia|].
  apply wp_bind, (wp_opt _ (Some f)); [done|].
  destruct (more_label (Z.of_nat i)) as [Hmore Hlab]; [lia|done|lia|].
  pose proof Hc as Hc'. unfold frag_count in Hc'.
  apply wp_bind, (split_round_spec (0 <? Z.of_nat i)); try done; [nia|lia| |].
  { destruct (decide (i = 0)%nat) as [->|]; [done|]. destruct (Z.ltb_spec 0 (Z.of_nat i)); [auto|lia]. }
  intros m f' Hml Hmb Hmr Hf' Hfd. cbn [negb]. rewrite Hlen in *. rewrite Hmore in *.
  assert (buff_data f' = dli_fragment d D mtu cnt (Z.of_nat i)) as Hfrag.
  { rewrite Hfd. rewrite (nil_length_inv (buff_data f)) by (pose proof (length_buff_data f Hwf); lia).
    unfold dli_fragment, chunk. rewrite Hlab, length_mem_read by nia. rewrite app_nil_l. f_equal.
    apply (f_equal (take (Z.to_nat (Z.min mtu (zlen D - Z.of_nat i * mtu))))) in Hrest.
    by rewrite !mem_read_take in Hrest by nia. }
  assert ((i < length bufs)%nat) as Hil by (by eapply lookup_lt_Some).
  set (bufs' := <[i := Some f']> bufs).
  assert (holds_fragment bufs' i) as Hhi by (exists f'; unfold bufs'; by rewrite list_lookup_insert_eq).
  apply (IH (S i)); try done; try lia.
  - destruct Hb. constructor; cbn; try done. congruence.
  - intros Htodo. destruct (Z.ltb_spec (Z.of_nat i) (cnt - 1)); [|lia].
    assert (mtu < zlen D - Z.of_nat i * mtu) by (by apply Z.ltb_lt).
    assert (zlen D < 4294967296) by (destruct Hb; lia). assert (0 <= Z.of_nat i * mtu) by nia.
    rewrite Z.min_l, u64_small by (unfold is_u64; nia). split; [lia|].
    cbn. apply (f_equal (drop (Z.to_nat mtu))) in Hrest. rewrite <- Hmr, !mem_read_drop in Hrest by (unfold DLI_HEADER in *; lia).
    by rewrite Z.add_assoc, Z.sub_add_distr.
  - intros j Hj. destruct (Hbufs j) as (g&Hg&Hgr); [lia|]. exists g. split; [|done].
    unfold bufs'. by rewrite list_lookup_insert_ne by lia.
  - rewrite decide_False by lia. intros Htodo. destruct (Z.ltb_spec (Z.of_nat i) (cnt - 1)); [done|lia].
  - intros b' out Hlo Hbefore Hafter. rewrite (decide_False (P := S todo = 0%nat)) in HQ by lia.
    assert ((if decide (todo = 0%nat) then st <| pdFlag := if Z.of_nat i <? cnt - 1 then DLI_MIDDLE_FRAGMENT
        else DLI_FULL_FRAGMENT |> else st <| pdFlag := if Z.of_nat i <? cnt - 1 then DLI_MIDDLE_FRAGMENT
        else DLI_FULL_FRAGMENT |> <| pdFlag := DLI_FULL_FRAGMENT |>) = st <| pdFlag := DLI_FULL_FRAGMENT |>) as ->.
    { destruct (decide (todo = 0%nat)) as [->|]; [|reflexivity]. destruct (Z.ltb_spec (Z.of_nat i) (cnt - 1)); [lia|reflexivity]. }
    apply HQ.
    + rewrite Hlo. apply length_insert.
    + intros j Hj. rewrite Hbefore by lia. unfold bufs'. by rewrite list_lookup_insert_ne by lia.
    + intros j Hj. destruct (decide (j = i)) as [->|]; [|by apply Hafter; lia].
      destruct Hhi as (g&Hg&Hg'). exists g. by rewrite Hbefore by lia.
Qed.
End split_all.

Lemma cons_inj {A} (x y : A) l k : x :: l = y :: k -> x = y /\ l = k.
Proof. by intros [= -> ->]. Qed.

Lemma packet_outcome_inv {W : Type} `{World W} st (w : W) p s' :
  rx_inv st -> packet_outcome st w p s' -> rx_inv (fst s').
Proof.
  intros Hst (t&_&Hp). destruct p as [[[lcid pb] payload]|]; [|by destruct Hp as [-> _]].
  cbn zeta in Hp. destruct (rx_step (partials (dataRx st)) lcid pb payload).
  by destruct Hp as [[[] _]|[[] _]].
Qed.

(** Received packets never lead to undefined behaviour. *)
Lemma run_acb_ok {W : Type} `{World W} pkts : forall st (w : W),
  rx_inv st -> Forall (fun b => buff_wf b /\ DLI_HEADER_WITHOUT_TYPE_SIZE <= dataLen b) pkts ->
  wp (st_for pkts DLI_AcbPacketReceived) (st, w) (fun _ s' => rx_inv (fst s') /\ extends w (snd s')).
Proof.
  induction pkts as [|b pkts IH]; intros st w Hst Hpk; cbn [st_for]; [by apply wp_ret|].
  apply Forall_cons in Hpk as [[Hb Hbl] Hpk]. apply wp_bind.
  eapply wp_mono; [by apply acb_packet_spec|]. intros [] [st1 w1] Hout.
  pose proof (packet_outcome_inv _ _ _ _ Hst Hout) as Hst1. destruct Hout as (t&T&_).
  eapply wp_mono; [by apply IH|]. intros _ s2 [Hs2 Hext]. split; [done|].
  eapply extends_trans; [by exists t|done].
Qed.

(** ** From one end to the other *)
Section end_to_end.
#[local] Set Default Proof Using "All".
Context {W : Type} `{World W}.
Context (d : DLI_DataStru) (D : bytes) (mtu cnt : Z).
Context (Hd : data_ok d) (Hmtu : 1 <= mtu <= 65530) (Hcnt : frag_count D mtu cnt).
Context (Hsize : zlen D + mtu <= DLI_MAX_TXRX_DATA_LEN) (HD : 0 < zlen D).
Implicit Types (st : DLI_LayerInfo).
Notation L := (d_lcid d).
Notation frag := (dli_fragment d D mtu cnt).

Lemma frag_label_range i : 0 <= frag_label cnt i < 4.
Proof. unfold frag_label. repeat case_match; by cbn. Qed.

Lemma length_chunk i : 0 <= i < cnt -> zlen (chunk D mtu i) = Z.min mtu (zlen D - i * mtu).
Proof. intros Hi. unfold frag_count in Hcnt. unfold chunk. apply length_mem_read; nia. Qed.

(** The controller delivers a fragment without its type byte. *)
Lemma decode_fragment i :
  0 <= i < cnt -> decode (drop 1 (frag i)) = Some (L, frag_label cnt i, chunk D mtu i).
Proof.
  intros Hi. pose proof (length_chunk i Hi) as Hl. pose proof (frag_label_range i) as Hlab.
  destruct Hd as [Hlc Hts Hpr]. unfold frag_count in Hcnt.
  unfold dli_fragment, dli_header. cbn [drop app decode].
  rewrite (link_word_sum d _ Hd Hlab).
  set (word := L + 4096 * frag_label cnt i + 16384 * d_ts d + 32768 * d_prio d).
  assert (0 <= word < 65536) as Hw by (unfold word; lia).
  assert (forall x, 0 <= x < 65536 -> u8 x + 256 * u8 (x / 256) = x) as Hle.
  { intros x Hx. unfold u8. Z.div_mod_to_equations; lia. }
  rewrite (Hle (zlen (chunk D mtu i))), Z.eqb_refl, (Hle word) by lia.
  change 4095 with (Z.ones 12). change 3 with (Z.ones 2).
  rewrite !Z.land_ones, Z.shiftr_div_pow2 by lia. unfold word.
  do 3 f_equal; change (2 ^ 12) with 4096; change (2 ^ 2) with 4; Z.div_mod_to_equations; lia.
Qed.

Definition of_link (b : SDF_Buff) : bool :=
  match decode (buff_data b) with Some (lcid, _, _) => lcid =? L | None => false end.

Definition for_link (l : list (Z * bytes)) : list (Z * bytes) := filter (fun x => x.1 = L) l.

(** The bytes of the first [k] fragments. *)
Definition prefix (k : Z) : bytes := mem_read D 0 (k * mtu).

Lemma prefix_chunk k : 0 <= k < cnt -> prefix k ++ chunk D mtu k = if k + 1 =? cnt then D else prefix (k + 1).
Proof.
  intros Hk. unfold frag_count in Hcnt. unfold prefix, chunk. 
  replace (k * mtu) with (0 + k * mtu) at 2 by lia. rewrite <- mem_read_app by nia.
  destruct (Z.eqb_spec (k + 1) cnt).
  - unfold mem_read. rewrite drop_0. apply take_ge. nia.
  - f_equal. nia.
Qed.

(** What one fragment of the link does to its partial packet. *)
Lemma step_fragment m k :
  0 <= k < cnt -> (0 < k -> m !! L = Some (prefix k)) ->
  let '(m', out) := rx_step m L (frag_label cnt k) (chunk D mtu k) in
  out = (if k + 1 =? cnt then [(L, D)] else []) /\ (k + 1 < cnt -> m' !! L = Some (prefix (k + 1))).
Proof.
  intros Hk Hm. pose proof (prefix_chunk k Hk) as Hp. unfold rx_step, frag_label.
  destruct (Z.eqb_spec cnt 1) as [->|].
  { replace k with 0 in * by lia. cbn. split; [|lia]. do 2 f_equal.
    replace (prefix 0) with (@nil Z) in Hp by done. rewrite app_nil_l in Hp. by rewrite Hp. }
  destruct (Z.eqb_spec k 0) as [->|].
  { cbn -[chunk lookup insert]. destruct (Z.eqb_spec (0 + 1) cnt); [lia|]. split; [done|].
    intros _. replace (prefix 0) with (@nil Z) in Hp by done. rewrite app_nil_l in Hp.
    rewrite Hp. apply lookup_insert_eq. }
  rewrite Hm by lia. destruct (Z.ltb_spec k (cnt - 1)), (Z.eqb_spec (k + 1) cnt); try lia;
    cbn -[chunk lookup insert delete]; rewrite Hp.
  - split; [done|]. intros _. apply lookup_insert_eq.
  - split; [done|lia].
Qed.

Lemma for_link_app l1 l2 : for_link (l1 ++ l2) = for_link l1 ++ for_link l2.
Proof. apply filter_app. Qed.

(** A packet of another link leaves this one alone. *)
Lemma other_packet st (w : W) b s' :
  of_link b = false -> packet_outcome st w (decode (buff_data b)) s' -> rx_inv st ->
  exists t, trace (snd s') = trace w ++ t /\ rx_inv (fst s') /\ for_link (acb_delivered t) = [] /\
    partials (dataRx (fst s')) !! L = partials (dataRx st) !! L.
Proof.
  unfold of_link. intros Hne (t&T&Hp) Hst. exists t. split; [done|].
  destruct (decode (buff_data b)) as [[[lcid pb] payload]|].
  2:{ destruct Hp as [-> ->]. done. }
  apply Z.eqb_neq in Hne.
  assert (forall x, for_link [(lcid, x)] = []) as Hfl.
  { intros x. unfold for_link. by rewrite filter_cons_False. }
  destruct Hp as [Hp|([Hi _ Hm]&->&_)].
  2:{ split; [done|]. split; [done|]. by rewrite Hm, lookup_delete_ne. }
  destruct (rx_step (partials (dataRx st)) lcid pb payload) as [m' out] eqn:E.
  destruct Hp as [[Hi _ Hm] ->]. unfold rx_step in E. split; [done|]. rewrite Hm.
  repeat case_match; injection E as <- <-; (split; [try done; apply Hfl|]);
    rewrite ?lookup_insert_ne, ?lookup_delete_ne by done; done.
Qed.

Lemma run_link pkts : forall k st (w : W),
  rx_inv st -> 0 <= k <= cnt ->
  Forall (fun b => buff_wf b /\ DLI_HEADER_WITHOUT_TYPE_SIZE <= dataLen b) pkts ->
  map buff_data (filter of_link pkts) = map (fun i => drop 1 (frag i)) (seqZ k (cnt - k)) ->
  (0 < k < cnt -> partials (dataRx st) !! L = Some (prefix k)) ->
  wp (st_for pkts DLI_AcbPacketReceived) (st, w) (fun _ s' => exists t,
    trace (snd s') = trace w ++ t /\
    (alloc_failed t \/ for_link (acb_delivered t) = if k <? cnt then [(L, D)] else [])).
Proof.
  induction pkts as [|b pkts IH]; intros k st w Hst Hk Hpk Hmap Hpart; cbn [st_for].
  { apply wp_ret. exists []. rewrite app_nil_r. split; [done|]. right. cbn in Hmap.
    destruct (Z.ltb_spec k cnt); [|done]. by rewrite seqZ_cons in Hmap by lia. }
  apply Forall_cons in Hpk as [[Hb Hbl] Hpk]. apply wp_bind.
  eapply wp_mono; [by apply acb_packet_spec|]. intros [] [st1 w1] Hout.
  destruct (of_link b) eqn:Eb.
  2:{ rewrite filter_cons_False in Hmap by (rewrite Eb; intros []).
      destruct (other_packet st w b (st1, w1) Eb Hout Hst) as (t1&T1&Hst1&Hf1&Hm1). cbn [fst snd] in *.
      eapply wp_mono; [apply (IH k st1 w1); [done..|]; intros; rewrite Hm1; auto|].
      intros _ s2 (t2&T2&Hres). exists (t1 ++ t2). rewrite T2, T1, <- app_assoc. split; [done|].
      rewrite acb_delivered_app, for_link_app, Hf1. destruct Hres as [?|Hres]; [left|by right].
      by apply elem_of_app; right. }
  rewrite filter_cons_True in Hmap by (rewrite Eb; exact I). cbn [map] in Hmap.
  destruct (Z.ltb_spec k cnt) as [Hkc|]; [|rewrite seqZ_nil in Hmap by lia; done].
  rewrite seqZ_cons in Hmap by lia. cbn [map] in Hmap. apply cons_inj in Hmap as [Hbd Hmap].
  replace (Z.succ k) with (k + 1) in Hmap by lia. replace (Z.pred (cnt - k)) with (cnt - (k + 1)) in Hmap by lia.
  destruct Hout as (t1&T1&Hout). cbn [fst snd] in *. rewrite Hbd, decode_fragment in Hout by lia.
  destruct Hout as [Hout|([Hi _ Hm]&Hd1&Hnf&Hlost)].
  - pose proof (step_fragment (partials (dataRx st)) k ltac:(lia) ltac:(intros; apply Hpart; lia)) as Hstep.
    destruct (rx_step _ _ _ _) as [m' out]. destruct Hout as [[Hi _ Hm] Hd1]. destruct Hstep as [-> Hnext].
    eapply wp_mono; [apply (IH (k + 1) st1 w1); try done; [lia|]|].
    { intros Hk1. rewrite Hm. apply Hnext. lia. }
    intros _ s2 (t2&T2&Hres). exists (t1 ++ t2). rewrite T2, T1, <- app_assoc. split; [done|].
    rewrite acb_delivered_app, for_link_app, Hd1. destruct Hres as [?|Hres]; [left; by apply elem_of_app; right|].
    right. rewrite Hres. unfold for_link. destruct (Z.eqb_spec (k + 1) cnt), (Z.ltb_spec (k + 1) cnt); try lia; [|done].
    by rewrite filter_cons_True.
  - assert (alloc_failed t1) as Hf.
    { destruct Hlost as [?|[Hnfirst [Hnil|Hbig]]]; [done| |].
      - pose proof (length_chunk k ltac:(lia)) as Hl. rewrite Hnil in Hl. simpl in Hl.
        unfold frag_count in Hcnt. nia.
      - rewrite (length_chunk k ltac:(lia)) in Hbig. unfold frag_count in Hcnt.
        assert (0 < k) as Hk0.
        { unfold frag_label in *. destruct (Z.eqb_spec cnt 1), (Z.eqb_spec k 0); try done; lia. }
        rewrite Hpart in Hbig by lia. cbn [from_option] in Hbig. unfold id, prefix in Hbig.
        rewrite length_mem_read in Hbig by nia. unfold DLI_MAX_TXRX_DATA_LEN in *. lia. }
    eapply wp_mono; [by apply (run_acb_ok pkts)|]. intros _ s2 [_ [t2 T2]]. cbn [fst snd] in *.
    exists (t1 ++ t2). rewrite T2, T1, <- app_assoc. split; [done|]. left. by apply elem_of_app; left.
Qed.
End end_to_end.

Section theorems.
Context {W : Type} `{World W}.
Implicit Types st : DLI_LayerInfo.

(** C32.  A received data packet does to the partial packets what the reassembler over
    a map from links to byte strings does with its link, kind and payload: complete
    packets are handed up, once, with their bytes in order.  The only exceptions are
    a failed allocation, an empty continuation that meets a full buffer, and a packet
    beyond the limit, which cost the link its partial packet; a packet whose length
    field is wrong changes nothing.  There is no undefined behaviour. *)
Theorem dli_receive_refines b st (w : W) :
  rx_inv st -> buff_wf b -> DLI_HEADER_WITHOUT_TYPE_SIZE <= dataLen b ->
  wp (DLI_AcbPacketReceived b) (st, w) (fun _ s' =>
    rx_inv (fst s') /\ packet_outcome st w (decode (buff_data b)) s').
Proof.
  intros Hst Hb Hl. eapply wp_mono; [by apply acb_packet_spec|]. intros ? s' Hout.
  split; [exact (packet_outcome_inv st w _ _ Hst Hout)|exact Hout].
Qed.

(** The number of fragments is the least that holds the packet. *)
Lemma fragment_nums_spec b st cnt mtu :
  buff_wf b -> 0 < dataLen b -> cfg_len (acbConfig st) = mtu -> 1 <= mtu <= 65530 ->
  cnt = DLI_GetDataFragmentNums st (Some b) -> 0 < cnt ->
  1 <= cnt <= DLI_MAX_FRAGMEN_NUM /\ frag_count (buff_data b) mtu cnt.
Proof.
  intros Hb Hpos Hcfg Hmtu -> Hcnt. pose proof (length_buff_data b Hb) as Hl. revert Hcnt.
  unfold DLI_GetDataFragmentNums, DLI_DataLenGet, SDF_DataLenGet, frag_count, DLI_MAX_FRAGMEN_NUM.
  rewrite Hcfg, Hl. destruct (Z.eqb_spec mtu 0); [lia|]. destruct Hb as [Ho Hln Hw Hbl Hs _].
  rewrite u64_small by cint.
  assert (0 <= (dataLen b + mtu - 1) / mtu < 4294967296) as Hdiv
    by (split; [apply Z.div_pos|apply Z.div_lt_upper_bound]; nia).
  rewrite u32_small by done. destruct (Z.ltb_spec 128 ((dataLen b + mtu - 1) / mtu)); [done|].
  intros Hc. pose proof (Z.div_mod (dataLen b + mtu - 1) mtu ltac:(lia)).
  pose proof (Z.mod_pos_bound (dataLen b + mtu - 1) mtu ltac:(lia)). nia.
Qed.

Lemma wp_split d b bufs cnt mtu st (w : W) Q :
  data_ok d -> d_buf d = Some b -> buff_wf b -> DLI_HEADER <= dataOff b ->
  cfg_len (acbConfig st) = mtu -> 1 <= mtu <= 65530 -> 1 <= cnt <= DLI_MAX_FRAGMEN_NUM ->
  frag_count (buff_data b) mtu cnt -> idle (pdFlag st) = true ->
  (forall j, (j < Z.to_nat cnt)%nat -> exists f, bufs !! j = Some (Some f) /\ frag_room mtu f) ->
  (forall d' frags, length frags = length bufs ->
     (forall j, (j < Z.to_nat cnt)%nat -> holds_fragment d (buff_data b) mtu cnt frags j) ->
     Q (DLI_SUCCESS, d', Some frags) (st <| pdFlag := DLI_FULL_FRAGMENT |>, w)) ->
  wp (DLI_SplitData (Some d) (Some bufs) cnt) (st, w) Q.
Proof.
  intros Hd Hbuf Hb Hoff Hcfg Hmtu Hcnt Hfc Hidle Hbufs HQ. unfold DLI_SplitData. rewrite Hbuf.
  destruct (Z.ltb_spec 0 cnt), (Z.leb_spec cnt DLI_MAX_FRAGMEN_NUM); try lia. cbn [andb negb].
  apply wp_bind, wp_gets. cbn [fst]. unfold DLI_DataLenGet. rewrite Hcfg.
  pose proof (length_buff_data b Hb) as Hl.
  apply wp_bind, (split_loop_spec d (buff_data b) mtu cnt (Z.to_nat cnt) 0); try done; try lia.
  - intros _. split; [lia|]. unfold buff_data. rewrite Z.add_0_r. unfold mem_read.
    rewrite drop_0, take_take. f_equal. rewrite Z.sub_0_r. unfold buff_data, mem_read in Hl. lia.
  - intros j Hj. apply Hbufs. lia.
  - intros b' out Hlo _ Hout. rewrite decide_False by lia. apply wp_ret, HQ; [done|]. intros j Hj. apply Hout. lia.
Qed.

(** The fragments in the buffers are those of the packet, in order. *)
Lemma fragments_in_order d D mtu cnt out :
  (forall j, (j < Z.to_nat cnt)%nat -> holds_fragment d D mtu cnt out j) ->
  map (fmap (fun f => drop 1 (buff_data f))) (take (Z.to_nat cnt) out)
  = map Some (map (fun i => drop 1 (dli_fragment d D mtu cnt i)) (seqZ 0 (cnt - 0))).
Proof.
  intros Hout. rewrite map_map, Z.sub_0_r. apply list_eq. intros j. rewrite !list_lookup_fmap.
  destruct (decide (j < Z.to_nat cnt)%nat) as [Hj|Hj].
  - rewrite lookup_take_lt, lookup_seqZ_lt by lia. destruct (Hout j Hj) as (f&->&_&Hfd). cbn.
    by rewrite Hfd.
  - by rewrite lookup_take_ge, lookup_seqZ_ge by lia.
Qed.

(**  Splitting a packet fills the given buffers with its fragments, in order: each
    has the header with its link, kind and length before at most the controller's
    buffer size of payload, and the pieces are those of the packet from its start.
    The flag that numbers the kinds is then ready for the next packet. *)
Theorem split_fragments d b bufs cnt mtu st (w : W) :
  data_ok d -> d_buf d = Some b -> buff_wf b -> DLI_HEADER <= dataOff b -> 0 < dataLen b ->
  cfg_len (acbConfig st) = mtu -> 1 <= mtu <= 65530 ->
  cnt = DLI_GetDataFragmentNums st (Some b) -> 0 < cnt -> idle (pdFlag st) = true ->
  (forall j, (j < Z.to_nat cnt)%nat -> exists f, bufs !! j = Some (Some f) /\ frag_room mtu f) ->
  wp (DLI_SplitData (Some d) (Some bufs) cnt) (st, w) (fun '(ret, _, out) s' =>
    ret = DLI_SUCCESS /\ s' = (st <| pdFlag := DLI_FULL_FRAGMENT |>, w) /\
    exists frags, out = Some frags /\
      forall j, (j < Z.to_nat cnt)%nat -> holds_fragment d (buff_data b) mtu cnt frags j).
Proof.
  intros Hd Hbuf Hb Hoff Hpos Hcfg Hmtu Hcnt Hc0 Hidle Hbufs.
  destruct (fragment_nums_spec b st cnt mtu) as [Hc Hfc]; [done..|].
  eapply wp_split; try done. intros d' frags _ Hf. split; [done|]. split; [done|]. by exists frags.
Qed.

(** C31.  What one end splits, the other end puts together: when the sender's
    fragment flag is idle, the packet and one fragment more are within the size limit,
    and the fragments arrive in order, without their type byte and among any packets
    of other links, the packet is handed up for its link, whole and once, unless an
    allocation fails; and nothing else is handed up for that link. *)
Theorem split_received d b bufs cnt mtu st (w : W) :
  data_ok d -> d_buf d = Some b -> buff_wf b -> DLI_HEADER <= dataOff b -> 0 < dataLen b ->
  cfg_len (acbConfig st) = mtu -> 1 <= mtu <= 65530 ->
  cnt = DLI_GetDataFragmentNums st (Some b) -> 0 < cnt -> dataLen b + mtu <= DLI_MAX_TXRX_DATA_LEN -> idle (pdFlag st) = true ->
  (forall j, (j < Z.to_nat cnt)%nat -> exists f, bufs !! j = Some (Some f) /\ frag_room mtu f) ->
  wp (DLI_SplitData (Some d) (Some bufs) cnt) (st, w) (fun '(ret, _, out) _ =>
    ret = DLI_SUCCESS /\ exists frags, out = Some frags /\
    forall pkts st2 (w2 : W),
      rx_inv st2 -> Forall (fun p => buff_wf p /\ DLI_HEADER_WITHOUT_TYPE_SIZE <= dataLen p) pkts ->
      map (fun p => Some (buff_data p)) (filter (of_link d) pkts) =
        map (fmap (fun f => drop 1 (buff_data f))) (take (Z.to_nat cnt) frags) ->
      wp (st_for pkts DLI_AcbPacketReceived) (st2, w2) (fun _ s' => exists t,
        trace (snd s') = trace w2 ++ t /\
        (alloc_failed t \/ for_link d (acb_delivered t) = [(d_lcid d, buff_data b)]))).
Proof.
  intros Hd Hbuf Hb Hoff Hpos Hcfg Hmtu Hcnt Hc0 Hsize Hidle Hbufs.
  destruct (fragment_nums_spec b st cnt mtu) as [Hc Hfc]; [done..|].
  pose proof (length_buff_data b Hb) as Hl. eapply wp_split; try done. intros d' out _ Hout.
  split; [done|]. exists out. split; [done|]. intros pkts st2 w2 Hst2 Hpk Hmap.
  eapply wp_mono; [apply (run_link d (buff_data b) mtu cnt) with (k := 0); try done; try lia|].
  - apply (inj (map Some)). rewrite <- (fragments_in_order d (buff_data b) mtu cnt out Hout), <- Hmap. by rewrite map_map.
  - intros _ s' (t&T&Hr). exists t. split; [done|]. by destruct (Z.ltb_spec 0 cnt); [|lia].
Qed.
End theorems.

(** ** A concrete packet *)
Section demo.

(** Seven bytes, a controller that takes three at a time. *)
Definition demo_packet : SDF_Buff := mk_buff 5 7 12 [0; 0; 0; 0; 0; 11; 12; 13; 14; 15; 16; 17].
Definition demo_data : DLI_DataStru := mk_data 9 DLI_DATATYPE_ACB 0 1 (Some demo_packet).
Definition demo_layer : DLI_LayerInfo :=
  g_info0 <| acbConfig := mk_txconfig 4 3 |> <| pdFlag := UINT8_MAX |> <| inited := true |>.
Definition demo_bufs : list (option SDF_Buff) := replicate 3 (SDF_BuffNew true 8).

Lemma demo_packet_ok : buff_wf demo_packet.
Proof. constructor; cbn; try lia. by repeat constructor. Qed.
Lemma demo_data_ok : data_ok demo_data.
Proof. by constructor. Qed.

Lemma demo_bufs_ok j : (j < Z.to_nat 3)%nat -> exists f, demo_bufs !! j = Some (Some f) /\ frag_room 3 f.
Proof.
  intros Hj. destruct (new_spec 8) as (f&E&Hwf&Hl&Ho&Hb); [lia|]. exists f. split.
  - unfold demo_bufs. rewrite E. apply lookup_replicate. by split.
  - split; [done|]. rewrite Hl, Ho, Hb. done.
Qed.

Lemma split_fragments_witness :
  wp (DLI_SplitData (Some demo_data) (Some demo_bufs) 3) (demo_layer, mk_script [] [])
    (fun '(ret, _, out) s' => ret = DLI_SUCCESS /\
       s' = (demo_layer <| pdFlag := DLI_FULL_FRAGMENT |>, mk_script [] []) /\
       exists frags, out = Some frags /\
         forall j, (j < Z.to_nat 3)%nat -> holds_fragment demo_data (buff_data demo_packet) 3 3 frags j).
Proof.
  apply (split_fragments demo_data demo_packet demo_bufs 3 3 demo_layer (mk_script [] []) demo_data_ok
           eq_refl demo_packet_ok); try reflexivity; try done. exact demo_bufs_ok.
Defined.

Definition rx_packet (d : bytes) : SDF_Buff := mk_buff 0 (zlen d) (zlen d) d.

(** The fragments arrive among a packet of another link. *)
Definition demo_pkts : list SDF_Buff :=
  [rx_packet [9; 0x90; 3; 0; 11; 12; 13]; rx_packet [8; 0x80; 1; 0; 1];
   rx_packet [9; 0xA0; 3; 0; 14; 15; 16]; rx_packet [9; 0xB0; 1; 0; 17]].

Lemma demo_pkts_ok : Forall (fun p => buff_wf p /\ DLI_HEADER_WITHOUT_TYPE_SIZE <= dataLen p) demo_pkts.
Proof.
  repeat constructor; cbn; unfold DLI_HEADER_WITHOUT_TYPE_SIZE; try lia; unfold is_u8; lia.
Qed.

Lemma split_received_witness :
  wp (st_for demo_pkts DLI_AcbPacketReceived) (demo_layer, mk_script [] []) (fun _ s' => exists t,
    trace (snd s') = trace (mk_script [] []) ++ t /\
    (alloc_failed t \/ for_link demo_data (acb_delivered t) = [(9, [11; 12; 13; 14; 15; 16; 17])])).
Proof.
  pose proof (split_received demo_data demo_packet demo_bufs 3 3 demo_layer (mk_script [] [])
    demo_data_ok eq_refl demo_packet_ok ltac:(done) ltac:(done) eq_refl ltac:(lia) eq_refl ltac:(lia)
    ltac:(done) eq_refl demo_bufs_ok) as H.
  apply wp_run in H as ([[ret d'] out]&s'&E&_&frags&Hf&Hrun).
  assert (out = Some (map Some [mk_buff 0 8 8 [0xA3; 9; 0x90; 3; 0; 11; 12; 13];
                                mk_buff 0 8 8 [0xA3; 9; 0xA0; 3; 0; 14; 15; 16];
                                mk_buff 0 6 8 [0xA3; 9; 0xB0; 1; 0; 17; 0; 0]])) as Hout.
  { vm_compute in E. injection E as _ _ <- _. reflexivity. }
  rewrite Hout in Hf. injection Hf as <-. apply Hrun.
  - constructor; [by constructor|by constructor].
  - exact demo_pkts_ok.
  - vm_compute. reflexivity.
Defined.

Lemma dli_receive_refines_witness :
  wp (DLI_AcbPacketReceived (rx_packet [9; 0x90; 3; 0; 11; 12; 13])) (demo_layer, mk_script [] [])
    (fun _ s' => rx_inv (fst s') /\
       packet_outcome demo_layer (mk_script [] []) (decode [9; 0x90; 3; 0; 11; 12; 13]) s') /\
  decode [9; 0x90; 3; 0; 11; 12; 13] = Some (9, DLI_FIRST_FRAGMENT, [11; 12; 13]).
Proof.
  split; [|reflexivity].
  apply (dli_receive_refines (rx_packet [9; 0x90; 3; 0; 11; 12; 13]) demo_layer (mk_script [] [])).
  - constructor; [by constructor|by constructor].
  - constructor; cbn; try lia. repeat constructor; unfold is_u8; lia.
  - done.
Defined.
End demo.
