(* ===== verification/DtapFrame.v ===== *)
(** * DTAP frames

    [services/stack/src/dp/dtap]: the frame layouts of [include/dtap_frame.h] and
    the parsers, header checks and builders of [src/dtap_frame.c],
    [src/dtap_frame_basic.c] and [src/dtap_frame_enhance.c].  A frame holds the
    buffer it was received in or is built in; its pointers are offsets in the
    block of that buffer, and every load and store is checked against the block. *)
From S2P Require Import Prelude Utils SdfErrno SdfBuff DtapEnv.

(** ** Layout *)
Definition DTAP_FRAME_BASIC : Z := 0.
Definition DTAP_FRAME_SIMPLEX_AGGR : Z := 1.
Definition DTAP_FRAME_SIMPLEX_FRAG : Z := 2.
Definition DTAP_FRAME_DUPLEX_AGGR : Z := 3.
Definition DTAP_FRAME_DUPLEX_FRAG : Z := 4.
Definition DTAP_FRAME_ACK : Z := 5.
Definition DTAP_FRAME_MAX : Z := 8.

Definition DTAP_SAR_UNSEG : Z := 0.
Definition DTAP_SAR_FIRST : Z := 1.
Definition DTAP_SAR_MID : Z := 2.
Definition DTAP_SAR_LAST : Z := 3.

Definition DTAP_FRAME_O_BIT : Z := 1.
Definition DTAP_FRAME_C_BIT : Z := 2.
Definition DTAP_FRAME_P_BIT : Z := 4.
Definition DTAP_FRAME_F_BIT : Z := 8.

Definition DTAP_FRAME_SEQ_INIT : Z := 0xFFFF.
Definition DTAP_FRAME_SEQ_MAX : Z := 0x3FFF.
Definition DTAP_FRAME_SEQ_SIGN_MASK : Z := 0x2000.
Definition DTAP_MAX_FRAGMENT_NUM : Z := 128.
Definition DTAP_BASIC_FRAME_BITS_SHIFT : Z := 4.

Definition DTAP_CRC_LEN : Z := 2.
(** Sizes of the packed header structures. *)
Definition DTAP_BASIC_HEADER_LEN : Z := 4.
Definition DTAP_SIMPLEX_FRAG_FRAME_HEADER_LEN : Z := 7.
Definition DTAP_SIMPLEX_AGGR_FRAME_HEADER_LEN : Z := 7.
Definition DTAP_DUPLEX_FRAG_FRAME_HEADER_LEN : Z := 9.
Definition DTAP_DUPLEX_AGGR_FRAME_HEADER_LEN : Z := 9.
Definition DTAP_ACK_FRAME_HEADER_LEN : Z := 6.
Definition DTAP_EXTENSIONS_MAX_NUM : Z := 16.
Definition sizeof_DTAP_ExtensionHeader : Z := 1.
Definition sizeof_DTAP_Extension : Z := 2.
Definition TCID_FTC_RFU_END : Z := 0x1D.
Definition DTAP_PI_NONE : Z := 0.

(** Which of the registered contexts (a table of functions) a frame carries. *)
Inductive FrameCtx := BasicCtx | SimplexAggrCtx | SimplexFragCtx | DuplexAggrCtx
  | DuplexFragCtx | AckCtx.
#[export] Instance FrameCtx_eq_dec : EqDecision FrameCtx.
Proof. solve_decision. Defined.

(** [DTAP_Frame_S]; the [ack] and [enhance] members of its union are apart, since
    the code only reads the member of the frame's own type. *)
Record DTAP_Frame := mk_frame {
  f_buff : option SDF_Buff;
  header : option Z;
  extension : option Z;
  payload : option Z;
  bits : Z;
  pi : Z;
  ack_reqSeq : Z;
  ack_sBit : bool;
  reTxCnt : Z;
  sar : Z;
  txSeq : Z;
  reqSeq : Z;
  headerLen : Z;
  extensionLen : Z;
  payloadLen : Z;
  ctx : option FrameCtx
}.
#[export] Instance eta_frame : Eta DTAP_Frame := fun f =>
  mk_frame (f_buff f) (header f) (extension f) (payload f) (bits f) (pi f) (ack_reqSeq f)
    (ack_sBit f) (reTxCnt f) (sar f) (txSeq f) (reqSeq f) (headerLen f) (extensionLen f)
    (payloadLen f) (ctx f).

(** [DTAP_Frame_S frame = {0}] *)
Definition frame0 : DTAP_Frame :=
  mk_frame None None None None 0 0 0 false 0 0 0 0 0 0 0 None.

Definition DTAP_GetFragmentFramesNum (len mps : Z) : Z :=
  if mps =? 0 then 1 else u16 ((u16 len + mps - 1) / mps).

Definition DTAP_CheckFrameBit (bits bit : Z) : bool := negb (Z.land bits bit =? 0).

Definition b2z (b : bool) : Z := if b then 1 else 0.

(** The block of a frame's buffer. *)
Definition frame_mem (f : DTAP_Frame) : bytes :=
  match f_buff f with Some b => bmem b | None => [] end.

(** ** The type and header length each context answers *)
Definition DTAP_GetBasicFrameType : Z := DTAP_FRAME_BASIC.
Definition DTAP_GetBasicFrameHdrLen : Z := DTAP_BASIC_HEADER_LEN.
Definition DTAP_GetSimplexAggrFrameType : Z := DTAP_FRAME_SIMPLEX_AGGR.
Definition DTAP_GetSimplexAggrFrameHdrLen : Z := DTAP_SIMPLEX_AGGR_FRAME_HEADER_LEN.
Definition DTAP_GetSimplexFragFrameType : Z := DTAP_FRAME_SIMPLEX_FRAG.
Definition DTAP_GetSimplexFragFrameHdrLen : Z := DTAP_SIMPLEX_FRAG_FRAME_HEADER_LEN.
Definition DTAP_GetDuplexAggrFrameType : Z := DTAP_FRAME_DUPLEX_AGGR.
Definition DTAP_GetDuplexAggrFrameHdrLen : Z := DTAP_DUPLEX_AGGR_FRAME_HEADER_LEN.
Definition DTAP_GetDuplexFragFrameType : Z := DTAP_FRAME_DUPLEX_FRAG.
Definition DTAP_GetDuplexFragFrameHdrLen : Z := DTAP_DUPLEX_FRAG_FRAME_HEADER_LEN.
Definition DTAP_GetAckFrameType : Z := DTAP_FRAME_ACK.
Definition DTAP_GetAckFrameHdrLen : Z := DTAP_ACK_FRAME_HEADER_LEN.

(** [ctx->getFrameType()] *)
Definition getFrameType (c : FrameCtx) : Z :=
  match c with
  | BasicCtx => DTAP_GetBasicFrameType
  | SimplexAggrCtx => DTAP_GetSimplexAggrFrameType
  | SimplexFragCtx => DTAP_GetSimplexFragFrameType
  | DuplexAggrCtx => DTAP_GetDuplexAggrFrameType
  | DuplexFragCtx => DTAP_GetDuplexFragFrameType
  | AckCtx => DTAP_GetAckFrameType
  end.

(** [frame.ctx.getFrameType()]; a frame without a context has a null pointer. *)
Definition frame_type (f : DTAP_Frame) : option Z := getFrameType <$> ctx f.

(** ** The table of contexts *)
Definition DTAP_RegisterFrameCtx (t : list (option FrameCtx)) (dtapFrameCtx : FrameCtx) :
    list (option FrameCtx) :=
  let frameType := getFrameType dtapFrameCtx in
  if frameType <? DTAP_FRAME_MAX then <[Z.to_nat frameType := Some dtapFrameCtx]> t else t.

Definition g_dtapFrameBasicCtx : FrameCtx := BasicCtx.
Definition g_dtapEnhanceFrameCtx : list FrameCtx :=
  [SimplexAggrCtx; SimplexFragCtx; DuplexAggrCtx; DuplexFragCtx; AckCtx].

Definition DTAP_RegisterBasicFrameCtx (t : list (option FrameCtx)) : list (option FrameCtx) :=
  DTAP_RegisterFrameCtx t g_dtapFrameBasicCtx.
Definition DTAP_RegisterEnhanceFrameCtx (t : list (option FrameCtx)) : list (option FrameCtx) :=
  foldl DTAP_RegisterFrameCtx t g_dtapEnhanceFrameCtx.

(** [g_dtapFrameCtx] once [DTAP_Init] has registered the frame formats. *)
Definition g_dtapFrameCtx : list (option FrameCtx) :=
  DTAP_RegisterEnhanceFrameCtx
    (DTAP_RegisterBasicFrameCtx (replicate (Z.to_nat DTAP_FRAME_MAX) None)).

Definition DTAP_GetFrameCtx (frameType : Z) : option FrameCtx :=
  if DTAP_FRAME_MAX <=? frameType then None
  else mjoin (g_dtapFrameCtx !! Z.to_nat frameType).

(** ** Parsing

    A parser answers its status and the frame it filled in; [None] is a load
    outside the block. *)

(** The walk over the extension fields, from [p], with [len] bytes taken so far;
    the inner [None] is the error [DTAP_FRAME_INVALID_EXT_LEN]. *)
Fixpoint ext_walk (num : nat) (m : bytes) (dataLen p len : Z) : option (option Z) :=
  match num with
  | O => Some (Some len)
  | Datatypes.S num' =>
      if (dataLen <? len) || (dataLen - len <? sizeof_DTAP_Extension) then Some None
      else
        let len1 := u16 (len + sizeof_DTAP_Extension) in
        l ← rd m (p + 1);
        if (dataLen <? len1) || (dataLen - len1 <? l) then Some None
        else ext_walk num' m dataLen (p + sizeof_DTAP_Extension + l) (u16 (len1 + l))
  end.

Definition DTAP_ParseExtension (frame : DTAP_Frame) : option (Z * DTAP_Frame) :=
  match f_buff frame, header frame with
  | Some b, Some h =>
      if SDF_DataLenGet b <? headerLen frame then Some (DTAP_FRAME_INVALID_BUFF_LEN, frame)
      else
        let dataLen := u16 (SDF_DataLenGet b - headerLen frame) in
        if dataLen <? sizeof_DTAP_ExtensionHeader then
          Some (DTAP_FRAME_INVALID_EXT_HDR_LEN, frame)
        else
          let ext := h + headerLen frame in
          let frame := frame <| extension := Some ext |> in
          num ← rd (bmem b) ext;
          if DTAP_EXTENSIONS_MAX_NUM <? num then Some (DTAP_FRAME_INVALID_EXT_NUM, frame)
          else
            r ← ext_walk (Z.to_nat num) (bmem b) dataLen (ext + sizeof_DTAP_ExtensionHeader)
                  sizeof_DTAP_ExtensionHeader;
            match r with
            | None => Some (DTAP_FRAME_INVALID_EXT_LEN, frame)
            | Some len => Some (DTAP_SUCCESS, frame <| extensionLen := len |>)
            end
  | _, _ => Some (DTAP_FRAME_NULL_PTR_ERR, frame)
  end.

Definition DTAP_ParseEnhanceFrame (hdrLen : Z) (frame : DTAP_Frame) : option (Z * DTAP_Frame) :=
  b ← f_buff frame; h ← header frame;
  let dataLen := SDF_DataLenGet b in
  if dataLen <? hdrLen then Some (DTAP_ENHANCED_FRAME_HDR_LEN_TOO_SHORT, frame)
  else
    typeBits ← rd (bmem b) (h + 1);
    piByte ← rd (bmem b) (h + DTAP_BASIC_HEADER_LEN);
    let frame := frame <| bits := Z.shiftr typeBits DTAP_BASIC_FRAME_BITS_SHIFT |>
                       <| pi := piByte |> <| headerLen := hdrLen |> in
    '(ret, frame) ← (if negb (bf_get typeBits 4 1 =? 0) then DTAP_ParseExtension frame
                      else Some (DTAP_SUCCESS, frame));
    if negb (ret =? DTAP_SUCCESS) then Some (ret, frame)
    else
      let frame := frame <| payload := Some (h + headerLen frame + extensionLen frame) |>
                         <| payloadLen := u16 (dataLen - headerLen frame - extensionLen frame) |> in
      if payloadLen frame <? DTAP_CRC_LEN then Some (DTAP_ENHANCED_FRAME_LENGTH_TOO_SHORT, frame)
      else Some (DTAP_SUCCESS, frame <| payloadLen := payloadLen frame - DTAP_CRC_LEN |>).

Definition DTAP_CheckEnhanceFrameHeader (frame : DTAP_Frame) : option bool :=
  h ← header frame;
  typeBits ← rd (frame_mem frame) (h + 1);
  Some (negb (bf_get typeBits 5 1 =? 0)).

Definition DTAP_ParseSimplexAggrFrame (frame : DTAP_Frame) : option (Z * DTAP_Frame) :=
  '(ret, frame) ← DTAP_ParseEnhanceFrame DTAP_GetSimplexAggrFrameHdrLen frame;
  if negb (ret =? DTAP_SUCCESS) then Some (ret, frame)
  else
    h ← header frame; v ← ld16 (frame_mem frame) (h + 5);
    Some (DTAP_SUCCESS, frame <| txSeq := bf_get v 0 14 |> <| reqSeq := DTAP_FRAME_SEQ_INIT |>).

Definition DTAP_CheckSimplexAggrFrameHeader (frame : DTAP_Frame) : option bool :=
  DTAP_CheckEnhanceFrameHeader frame.

Definition DTAP_ParseSimplexFragFrame (frame : DTAP_Frame) : option (Z * DTAP_Frame) :=
  '(ret, frame) ← DTAP_ParseEnhanceFrame DTAP_GetSimplexFragFrameHdrLen frame;
  if negb (ret =? DTAP_SUCCESS) then Some (ret, frame)
  else
    h ← header frame; v ← ld16 (frame_mem frame) (h + 5);
    Some (DTAP_SUCCESS, frame <| sar := bf_get v 14 2 |> <| txSeq := bf_get v 0 14 |>
                              <| reqSeq := DTAP_FRAME_SEQ_INIT |>).

Definition DTAP_CheckSimplexFragFrameHeader (frame : DTAP_Frame) : option bool :=
  DTAP_CheckEnhanceFrameHeader frame.

Definition DTAP_ParseDuplexAggrFrame (frame : DTAP_Frame) : option (Z * DTAP_Frame) :=
  '(ret, frame) ← DTAP_ParseEnhanceFrame DTAP_GetDuplexAggrFrameHdrLen frame;
  if negb (ret =? DTAP_SUCCESS) then Some (ret, frame)
  else
    h ← header frame; v ← ld16 (frame_mem frame) (h + 5); r ← ld16 (frame_mem frame) (h + 7);
    Some (DTAP_SUCCESS, frame <| txSeq := bf_get v 0 14 |> <| reqSeq := bf_get r 0 14 |>).

Definition DTAP_CheckDuplexAggrFrameHeader (frame : DTAP_Frame) : option bool :=
  DTAP_CheckEnhanceFrameHeader frame.

Definition DTAP_ParseDuplexFragFrame (frame : DTAP_Frame) : option (Z * DTAP_Frame) :=
  '(ret, frame) ← DTAP_ParseEnhanceFrame DTAP_GetDuplexFragFrameHdrLen frame;
  if negb (ret =? DTAP_SUCCESS) then Some (ret, frame)
  else
    h ← header frame; v ← ld16 (frame_mem frame) (h + 5); r ← ld16 (frame_mem frame) (h + 7);
    Some (DTAP_SUCCESS, frame <| sar := bf_get v 14 2 |> <| txSeq := bf_get v 0 14 |>
                              <| reqSeq := bf_get r 0 14 |>).

Definition DTAP_CheckDuplexFragFrameHeader (frame : DTAP_Frame) : option bool :=
  DTAP_CheckEnhanceFrameHeader frame.

Definition DTAP_ParseAckFrame (frame : DTAP_Frame) : option (Z * DTAP_Frame) :=
  '(ret, frame) ← DTAP_ParseEnhanceFrame DTAP_GetAckFrameHdrLen frame;
  if negb (ret =? DTAP_SUCCESS) then Some (ret, frame)
  else
    h ← header frame; v ← ld16 (frame_mem frame) (h + 4);
    Some (DTAP_SUCCESS, frame <| ack_reqSeq := bf_get v 0 14 |>
                              <| ack_sBit := negb (bf_get v 14 1 =? 0) |>).

Definition DTAP_CheckAckFrameHeader (frame : DTAP_Frame) : option bool :=
  DTAP_CheckEnhanceFrameHeader frame.

Definition DTAP_ParseBasicFrame (frame : DTAP_Frame) : option (Z * DTAP_Frame) :=
  b ← f_buff frame; h ← header frame;
  let dataLen := SDF_DataLenGet b in
  tcid ← rd (bmem b) h;
  if tcid <=? TCID_FTC_RFU_END then
    Some (DTAP_SUCCESS,
          frame <| pi := DTAP_PI_NONE |> <| headerLen := DTAP_BASIC_HEADER_LEN |>
                <| payloadLen := u16 (dataLen - DTAP_BASIC_HEADER_LEN) |>)
  else if dataLen <? DTAP_BASIC_HEADER_LEN + 1 then Some (DTAP_BASIC_FRAME_INVALID_PI_LEN, frame)
  else
    piByte ← rd (bmem b) (h + DTAP_BASIC_HEADER_LEN);
    Some (DTAP_SUCCESS,
          frame <| pi := piByte |> <| headerLen := DTAP_BASIC_HEADER_LEN + 1 |>
                <| payloadLen := u16 (dataLen - DTAP_BASIC_HEADER_LEN - 1) |>).

Definition DTAP_CheckBasicFrameHeader (frame : DTAP_Frame) : option bool :=
  h ← header frame;
  typeBits ← rd (frame_mem frame) (h + 1);
  Some (bool_decide (bf_get typeBits 4 1 = 0) && bool_decide (bf_get typeBits 5 1 = 0)
        && bool_decide (bf_get typeBits 6 1 = 0) && bool_decide (bf_get typeBits 7 1 = 0)).

(** [ctx->parseFrame], [ctx->checkFrameHeader] *)
Definition parseFrame (c : FrameCtx) (frame : DTAP_Frame) : option (Z * DTAP_Frame) :=
  match c with
  | BasicCtx => DTAP_ParseBasicFrame frame
  | SimplexAggrCtx => DTAP_ParseSimplexAggrFrame frame
  | SimplexFragCtx => DTAP_ParseSimplexFragFrame frame
  | DuplexAggrCtx => DTAP_ParseDuplexAggrFrame frame
  | DuplexFragCtx => DTAP_ParseDuplexFragFrame frame
  | AckCtx => DTAP_ParseAckFrame frame
  end.

Definition checkFrameHeader (c : FrameCtx) (frame : DTAP_Frame) : option bool :=
  match c with
  | BasicCtx => DTAP_CheckBasicFrameHeader frame
  | SimplexAggrCtx => DTAP_CheckSimplexAggrFrameHeader frame
  | SimplexFragCtx => DTAP_CheckSimplexFragFrameHeader frame
  | DuplexAggrCtx => DTAP_CheckDuplexAggrFrameHeader frame
  | DuplexFragCtx => DTAP_CheckDuplexFragFrameHeader frame
  | AckCtx => DTAP_CheckAckFrameHeader frame
  end.

Definition DTAP_ParseFrame (frameType : Z) (buff : SDF_Buff) (dtapFrame : DTAP_Frame) :
    option (Z * DTAP_Frame) :=
  match DTAP_GetFrameCtx frameType with
  | None => Some (DTAP_FRAME_INVALID_FRAME_TYPE, dtapFrame)
  | Some c =>
      parseFrame c (dtapFrame <| f_buff := Some buff |> <| header := Some (SDF_DataOffset buff) |>
                              <| ctx := Some c |>)
  end.

(** ** Header bits and checksum of a frame in place *)
Definition DTAP_SetFrameBit (m : bytes) (frameHeader bits : Z) : option bytes :=
  m ← set_bits8 m (frameHeader + 1) 4 1 (b2z (DTAP_CheckFrameBit bits DTAP_FRAME_O_BIT));
  m ← set_bits8 m (frameHeader + 1) 5 1 (b2z (DTAP_CheckFrameBit bits DTAP_FRAME_C_BIT));
  m ← set_bits8 m (frameHeader + 1) 6 1 (b2z (DTAP_CheckFrameBit bits DTAP_FRAME_P_BIT));
  set_bits8 m (frameHeader + 1) 7 1 (b2z (DTAP_CheckFrameBit bits DTAP_FRAME_F_BIT)).

Definition DTAP_ReCalculateCrcValue (crcInit : Z) (frame : DTAP_Frame) : option (Z * DTAP_Frame) :=
  match f_buff frame with
  | None => Some (DTAP_FRAME_NULL_PTR_ERR, frame)
  | Some b =>
      if SDF_DataLenGet b <? DTAP_CRC_LEN then Some (DTAP_FRAME_INVALID_BUFF_LEN, frame)
      else
        let realDataLen := SDF_DataLenGet b - DTAP_CRC_LEN in
        let originCrc := SDF_DataOffset b + realDataLen in
        m ← wr (bmem b) originCrc [0; 0];
        data ← rds m (SDF_DataOffset b) realDataLen;
        m ← st16 m originCrc (CRC16 crcInit data);
        Some (DTAP_SUCCESS, frame <| f_buff := Some (b <| bmem := m |>) |>)
  end.

(** ** Building *)

(** The stores to the first two bytes of a header: [tcid], [frameType] and the
    four indicator bits. *)
Definition set_basic_header (m : bytes) (h tcid frameType o c p f : Z) : option bytes :=
  m ← wr m h [u8 tcid];
  m ← set_bits8 m (h + 1) 0 4 frameType;
  m ← set_bits8 m (h + 1) 4 1 o;
  m ← set_bits8 m (h + 1) 5 1 c;
  m ← set_bits8 m (h + 1) 6 1 p;
  set_bits8 m (h + 1) 7 1 f.

(** The checksum of the window of [b], appended to it; [None] inside is a failed
    append. *)
Definition append_crc (crcInit : Z) (b : SDF_Buff) : option (option SDF_Buff) :=
  data ← rds (bmem b) (SDF_DataOffset b) (SDF_DataLenGet b);
  match SDF_BuffAppend (Some b) DTAP_CRC_LEN with
  | None => Some None
  | Some (crc, b') => m ← st16 (bmem b') crc (CRC16 crcInit data); Some (Some (b' <| bmem := m |>))
  end.

Definition DTAP_BuildSimplexAggrFrame (frame : DTAP_Frame) (tcid crcInit : Z) :
    option (Z * DTAP_Frame) :=
  Some (DTAP_ENHANCED_FRAME_NOT_SUPPORT_ERR, frame).

Definition DTAP_BuildSimplexFragFrame (frame : DTAP_Frame) (tcid crcInit : Z) :
    option (Z * DTAP_Frame) :=
  match SDF_BuffPrepend (f_buff frame) DTAP_SIMPLEX_FRAG_FRAME_HEADER_LEN with
  | None => Some (DTAP_ENHANCED_FRAME_PREPEND_ERR, frame)
  | Some (h, b) =>
      m ← set_basic_header (bmem b) h tcid DTAP_FRAME_SIMPLEX_FRAG 0 1
            (b2z (DTAP_CheckFrameBit (bits frame) DTAP_FRAME_P_BIT)) 0;
      m ← wr m (h + 2)
            (ENCODE2BYTE_LITTLE (SDF_DataLenGet b - DTAP_BASIC_HEADER_LEN + DTAP_CRC_LEN));
      m ← wr m (h + 4) [u8 (pi frame)];
      m ← set_bits16 m (h + 5) 0 14 (txSeq frame);
      m ← set_bits16 m (h + 5) 14 2 (sar frame);
      let b := b <| bmem := m |> in
      r ← append_crc crcInit b;
      match r with
      | None => Some (DTAP_ENHANCED_FRAME_APPEND_ERR, frame <| f_buff := Some b |>)
      | Some b => Some (DTAP_SUCCESS, frame <| f_buff := Some b |>)
      end
  end.

Definition DTAP_BuildDuplexAggrFrame (frame : DTAP_Frame) (tcid crcInit : Z) :
    option (Z * DTAP_Frame) :=
  Some (DTAP_ENHANCED_FRAME_NOT_SUPPORT_ERR, frame).

Definition DTAP_BuildDuplexFragFrame (frame : DTAP_Frame) (tcid crcInit : Z) :
    option (Z * DTAP_Frame) :=
  match SDF_BuffPrepend (f_buff frame) DTAP_DUPLEX_FRAG_FRAME_HEADER_LEN with
  | None => Some (DTAP_ENHANCED_FRAME_PREPEND_ERR, frame)
  | Some (h, b) =>
      m ← set_basic_header (bmem b) h tcid DTAP_FRAME_DUPLEX_FRAG 0 1
            (b2z (DTAP_CheckFrameBit (bits frame) DTAP_FRAME_P_BIT))
            (b2z (DTAP_CheckFrameBit (bits frame) DTAP_FRAME_F_BIT));
      m ← wr m (h + 4) [u8 (pi frame)];
      m ← wr m (h + 2)
            (ENCODE2BYTE_LITTLE (SDF_DataLenGet b - DTAP_BASIC_HEADER_LEN + DTAP_CRC_LEN));
      m ← set_bits16 m (h + 5) 0 14 (txSeq frame);
      m ← set_bits16 m (h + 5) 14 2 (sar frame);
      m ← set_bits16 m (h + 7) 0 14 (reqSeq frame);
      let b := b <| bmem := m |> in
      r ← append_crc crcInit b;
      match r with
      | None => Some (DTAP_ENHANCED_FRAME_APPEND_ERR, frame <| f_buff := Some b |>)
      | Some b => Some (DTAP_SUCCESS, frame <| f_buff := Some b |>)
      end
  end.

(** The acknowledgement allocates its own buffer; [ok] is the outcome. *)
Definition DTAP_BuildAckFrame (ok : bool) (frame : DTAP_Frame) (tcid crcInit : Z) :
    option (Z * DTAP_Frame) :=
  match SDF_BuffNewWithReserve ok 0 with
  | None => Some (DTAP_ENHANCED_FRAME_BUFF_NEW_ERR, frame)
  | Some b0 =>
      match SDF_BuffPrepend (Some b0) DTAP_ACK_FRAME_HEADER_LEN with
      | None => Some (DTAP_ENHANCED_FRAME_PREPEND_ERR, frame)
      | Some (h, b) =>
          m ← set_basic_header (bmem b) h tcid DTAP_FRAME_ACK 0 1 0
                (b2z (DTAP_CheckFrameBit (bits frame) DTAP_FRAME_F_BIT));
          m ← wr m (h + 2)
                (ENCODE2BYTE_LITTLE (SDF_DataLenGet b - DTAP_BASIC_HEADER_LEN + DTAP_CRC_LEN));
          m ← set_bits16 m (h + 4) 0 14 (ack_reqSeq frame);
          m ← set_bits16 m (h + 4) 14 1 (b2z (ack_sBit frame));
          r ← append_crc crcInit (b <| bmem := m |>);
          match r with
          | None => Some (DTAP_ENHANCED_FRAME_APPEND_ERR, frame)
          | Some b => Some (DTAP_SUCCESS, frame <| f_buff := Some b |>)
          end
      end
  end.

Definition DTAP_BuildBasicFrame (frame : DTAP_Frame) (tcid crcInit : Z) :
    option (Z * DTAP_Frame) :=
  let headerLen := if TCID_FTC_RFU_END <? tcid then DTAP_BASIC_HEADER_LEN + 1
                   else DTAP_BASIC_HEADER_LEN in
  match SDF_BuffPrepend (f_buff frame) headerLen with
  | None => Some (DTAP_TRANS_BASIC_SEND_PREPEND_ERR, frame)
  | Some (h, b) =>
      m ← set_basic_header (bmem b) h tcid DTAP_FRAME_BASIC 0 0 0 0;
      m ← wr m (h + 2) (ENCODE2BYTE_LITTLE (SDF_DataLenGet b - DTAP_BASIC_HEADER_LEN));
      m ← (if TCID_FTC_RFU_END <? tcid then wr m (h + DTAP_BASIC_HEADER_LEN) [u8 (pi frame)]
           else Some m);
      Some (DTAP_SUCCESS, frame <| f_buff := Some (b <| bmem := m |>) |>)
  end.

(** ** Frames as objects *)
Section objects.
Context {W : Type} `{World W}.

(** [ctx->buildFrame]; only the acknowledgement allocates. *)
Definition buildFrame (c : FrameCtx) (frame : DTAP_Frame) (tcid crcInit : Z) :
    ST W (Z * DTAP_Frame) :=
  match c with
  | BasicCtx => st_opt (DTAP_BuildBasicFrame frame tcid crcInit)
  | SimplexAggrCtx => st_opt (DTAP_BuildSimplexAggrFrame frame tcid crcInit)
  | SimplexFragCtx => st_opt (DTAP_BuildSimplexFragFrame frame tcid crcInit)
  | DuplexAggrCtx => st_opt (DTAP_BuildDuplexAggrFrame frame tcid crcInit)
  | DuplexFragCtx => st_opt (DTAP_BuildDuplexFragFrame frame tcid crcInit)
  | AckCtx => let! ok := alloc_ok in st_opt (DTAP_BuildAckFrame ok frame tcid crcInit)
  end.

Definition DTAP_CreateFrame (frameType : Z) : ST W (option DTAP_Frame) :=
  match DTAP_GetFrameCtx frameType with
  | None => st_ret None
  | Some c =>
      let! ok := alloc_ok in
      st_ret (if ok then Some (frame0 <| ctx := Some c |>) else None)
  end.

Definition DTAP_CopyFrame (srcFrame : DTAP_Frame) : ST W (option DTAP_Frame) :=
  let! ok := alloc_ok in
  if negb ok then st_ret None
  else
    let dst := srcFrame <| header := None |> <| extension := None |> <| payload := None |> in
    match f_buff srcFrame with
    | None => st_ret (Some dst)
    | Some sb =>
        let! ok2 := alloc_ok in
        match SDF_BuffCopy ok2 (Some sb) with
        | None => st_ret None
        | Some b =>
            let h := SDF_DataOffset b in
            st_ret (Some
              (match header srcFrame with
               | None => dst <| f_buff := Some b |>
               | Some _ =>
                   dst <| f_buff := Some b |> <| header := Some h |>
                       <| extension := match extension srcFrame with
                                       | Some _ => Some (h + headerLen srcFrame)
                                       | None => None end |>
                       <| payload := match payload srcFrame with
                                     | Some _ => Some (h + headerLen srcFrame + extensionLen srcFrame)
                                     | None => None end |>
               end))
        end
    end.
End objects.

(** ** Lemmas: stores through a header pointer

    A header under construction is a window of the block; stores to its fields
    are stores to the window's contents. *)
Definition le16 (v : Z) : bytes := [u8 v; u8 (v / 256)].

Lemma le16_ok v : bytes_ok (le16 v).
Proof. repeat constructor; apply u8_range. Qed.

Lemma le16_encode v : is_u16 v -> ENCODE2BYTE_LITTLE v = le16 v.
Proof.
  intros. unfold ENCODE2BYTE_LITTLE, le16. rewrite u16_small by done.
  by rewrite Z.shiftr_div_pow2 by lia.
Qed.

Lemma le16_join v : is_u16 v -> u8 v + 256 * u8 (v / 256) = v.
Proof. unfold is_u16, u8. intros. Z.div_mod_to_equations; lia. Qed.

Section window.
Context (m : bytes) (h : Z) (L : bytes) (Hh : 0 <= h) (Hw : h + zlen L <= zlen m).

Lemma wr_window0 d :
  zlen d <= zlen L -> wr (mem_write m h L) h d = Some (mem_write m h (mem_write L 0 d)).
Proof using Hh Hw. intros. rewrite <- (Z.add_0_r h) at 2. by apply wr_window; lia. Qed.

Lemma set_bits8_window i lo w x v :
  0 <= i < zlen L -> rd L i = Some v ->
  set_bits8 (mem_write m h L) (h + i) lo w x
  = Some (mem_write m h (mem_write L i [bf_set v lo w x])).
Proof using Hh Hw.
  intros Hi Hv. unfold set_bits8. rewrite rd_window, Hv by lia. simpl.
  apply wr_window; simpl; lia.
Qed.

Lemma set_bits16_window i lo w x v0 v1 :
  0 <= i -> i + 2 <= zlen L -> rd L i = Some v0 -> rd L (i + 1) = Some v1 ->
  set_bits16 (mem_write m h L) (h + i) lo w x
  = Some (mem_write m h (mem_write L i (le16 (bf_set (v0 + 256 * v1) lo w x)))).
Proof using Hh Hw.
  intros Hi Hl H0 H1. unfold set_bits16, ld16, st16.
  rewrite rd_window, H0 by lia. simpl. rewrite <- Z.add_assoc, rd_window, H1 by lia. simpl.
  apply wr_window; simpl; lia.
Qed.
End window.

(** The five bit-field stores to the type byte overwrite it completely. *)
Lemma type_byte_stores x t o c p f :
  is_u8 x -> 0 <= t < 16 ->
  bf_set (bf_set (bf_set (bf_set (bf_set x 0 4 t) 4 1 (b2z o)) 5 1 (b2z c)) 6 1 (b2z p)) 7 1 (b2z f)
  = t + 16 * (b2z o + 2 * b2z c + 4 * b2z p + 8 * b2z f).
Proof.
  intros Hx Ht. rewrite !bf_set_arith, !bf_get_arith by lia. unfold is_u8 in *.
  change (2 ^ 0) with 1. change (2 ^ 1) with 2. change (2 ^ 4) with 16. change (2 ^ 5) with 32.
  change (2 ^ 6) with 64. change (2 ^ 7) with 128.
  rewrite Z.div_1_r, (Z.mod_small t) by lia.
  destruct o, c, p, f; simpl b2z; Z.div_mod_to_equations; lia.
Qed.

Definition type_byte (t : Z) (o c p f : bool) : Z :=
  t + 16 * (b2z o + 2 * b2z c + 4 * b2z p + 8 * b2z f).

Lemma type_byte_range t o c p f : 0 <= t < 16 -> is_u8 (type_byte t o c p f).
Proof. unfold type_byte, is_u8. destruct o, c, p, f; simpl; lia. Qed.

Lemma bf_set_u8 x lo w v : is_u8 x -> 0 <= lo -> 0 <= w -> lo + w <= 8 -> is_u8 (bf_set x lo w v).
Proof. intros. by apply (bf_set_range x lo w v 8). Qed.

Lemma set_basic_header_spec m h tcid t o c p f x0 x1 L :
  0 <= h -> h + zlen (x0 :: x1 :: L) <= zlen m -> is_u8 x1 -> 0 <= t < 16 ->
  set_basic_header (mem_write m h (x0 :: x1 :: L)) h tcid t (b2z o) (b2z c) (b2z p) (b2z f)
  = Some (mem_write m h (u8 tcid :: type_byte t o c p f :: L)).
Proof.
  intros Hh Hw Hx Ht. unfold set_basic_header.
  rewrite wr_window0 by (simpl in *; lia). simpl.
  assert (forall a d z, mem_write (a :: d :: L) 1 [z] = a :: z :: L) as Hset by done.
  change (mem_write (x0 :: x1 :: L) 0 [u8 tcid]) with (u8 tcid :: x1 :: L).
  do 5 (erewrite set_bits8_window by (simpl in *; (reflexivity || lia)); simpl; rewrite Hset).
  by rewrite type_byte_stores.
Qed.

(** ** Lemmas: windows of a buffer *)
Lemma rd_data b i :
  0 <= dataOff b -> 0 <= i < dataLen b -> rd (bmem b) (dataOff b + i) = rd (buff_data b) i.
Proof. intros. unfold buff_data. by rewrite rd_mem_read by lia. Qed.

(** The window a successful prepend opens. *)
Lemma prepend_window b n :
  buff_wf b -> 0 <= n <= dataOff b ->
  exists b' L, SDF_BuffPrepend (Some b) n = Some (dataOff b - n, b') /\
    bmem b' = mem_write (bmem b) (dataOff b - n) L /\ zlen L = n /\ bytes_ok L /\
    dataOff b' = dataOff b - n /\ dataLen b' = dataLen b + n /\ buffLen b' = buffLen b /\
    dataOff b - n + zlen L <= zlen (bmem b) /\ L = mem_read (bmem b) (dataOff b - n) n.
Proof.
  intros Hwf Hn. destruct Hwf. set (d := mem_read (bmem b) (dataOff b - n) n).
  assert (zlen d = n) as Hd by (apply length_mem_read; lia).
  destruct (prepend_spec b d) as (p&b'&Hp&->&Ho&_&_&Hl&Hbl&Hm);
    [done|by apply bytes_ok_mem_read|lia|].
  rewrite Hd in *. exists b', d. rewrite Hm. subst d. rewrite mem_write_read by lia.
  split_and!; first [done | lia | by apply bytes_ok_mem_read].
Qed.

(** Filling that window with a header gives the payload with the header before it. *)
Lemma filled_header b b' h H :
  buff_wf b -> bytes_ok H -> zlen H <= dataOff b -> h = dataOff b - zlen H ->
  dataOff b' = h -> dataLen b' = dataLen b + zlen H -> buffLen b' = buffLen b ->
  let b'' := b' <| bmem := mem_write (bmem b) h H |> in
  buff_wf b'' /\ buff_data b'' = H ++ buff_data b.
Proof.
  intros Hwf HH Hroom -> Ho Hl Hbl. destruct (prepend_spec b H Hwf HH Hroom)
    as (p&c&_&->&Hco&Hcwf&Hcd&Hcl&Hcbl&Hcm).
  assert (b' <| bmem := mem_write (bmem b) (dataOff b - zlen H) H |>
          = buff_store c (dataOff b - zlen H) H) as ->; [|done].
  unfold buff_store, modify. destruct b', c; cbn in *. by subst.
Qed.

Lemma append_crc_spec crcInit b :
  buff_wf b -> is_u16 crcInit -> dataOff b + dataLen b + 2 <= buffLen b ->
  exists b', append_crc crcInit b = Some (Some b') /\ buff_wf b' /\
    buff_data b' = buff_data b ++ ENCODE2BYTE_LITTLE (CRC16 crcInit (buff_data b)) /\
    dataOff b' = dataOff b /\ dataLen b' = dataLen b + 2 /\ buffLen b' = buffLen b.
Proof.
  intros Hwf Hc Hroom. pose proof (buff_data_ok b Hwf) as Hd.
  pose proof (CRC16_range crcInit _ Hc Hd) as Hr.
  rewrite le16_encode by done. set (cb := le16 (CRC16 crcInit (buff_data b))).
  assert (zlen cb = 2) as Hcb by done.
  destruct (append_spec b cb) as (p&b'&Ha&->&Hwf'&Hd'&Ho&Hl&Hbl&Hm); [done|apply le16_ok|lia|].
  rewrite Hcb in *. pose proof (wf_off b Hwf). pose proof (wf_len b Hwf).
  pose proof (wf_window b Hwf). pose proof (wf_block b Hwf).
  unfold append_crc, rds, SDF_DataOffset, SDF_DataLenGet. rewrite decide_True by lia.
  cbn [mbind option_bind]. fold (buff_data b). change DTAP_CRC_LEN with 2. rewrite Ha. unfold st16, wr.
  fold (le16 (CRC16 crcInit (buff_data b))). fold cb.
  rewrite Hm, decide_True by lia. cbn [mbind option_bind]. rewrite <- Hm.
  exists (buff_store b' (dataOff b + dataLen b) cb). by split_and!.
Qed.

(** ** Lemmas: what the builders write *)
Lemma fields16 x0 x1 s r :
  is_u8 x0 -> is_u8 x1 -> 0 <= s < 16384 -> 0 <= r < 4 ->
  bf_set (bf_set (x0 + 256 * x1) 0 14 s) 14 2 r = s + 16384 * r.
Proof.
  intros Hx0 Hx1 Hs Hr. rewrite !bf_set_arith, !bf_get_arith by lia. unfold is_u8 in *.
  change (2 ^ 0) with 1. change (2 ^ 14) with 16384. change (2 ^ 2) with 4.
  rewrite Z.div_1_r, (Z.mod_small s), (Z.mod_small r) by lia. Z.div_mod_to_equations; lia.
Qed.

Lemma bf_set_u16 x0 x1 lo w v :
  is_u8 x0 -> is_u8 x1 -> 0 <= lo -> 0 <= w -> lo + w <= 16 ->
  is_u16 (bf_set (x0 + 256 * x1) lo w v).
Proof. unfold is_u8. intros. apply (bf_set_range _ lo w v 16); try lia. Qed.

(** Header bytes, as the peer sees them. *)
Definition simplex_header (tcid : Z) (p : bool) (len pi seq sar : Z) : bytes :=
  [u8 tcid; type_byte DTAP_FRAME_SIMPLEX_FRAG false true p false] ++ ENCODE2BYTE_LITTLE len
  ++ [u8 pi] ++ le16 (seq + 16384 * sar).

Definition duplex_header (tcid : Z) (p f : bool) (len pi seq sar req : Z) : bytes :=
  [u8 tcid; type_byte DTAP_FRAME_DUPLEX_FRAG false true p f] ++ ENCODE2BYTE_LITTLE len
  ++ [u8 pi] ++ le16 (seq + 16384 * sar) ++ le16 req.

Definition ack_header (tcid : Z) (f : bool) (req : Z) (s : bool) : bytes :=
  [u8 tcid; type_byte DTAP_FRAME_ACK false true false f] ++ ENCODE2BYTE_LITTLE 4
  ++ le16 (req + 16384 * b2z s).

Definition basic_header (tcid len pi : Z) : bytes :=
  [u8 tcid; type_byte DTAP_FRAME_BASIC false false false false] ++ ENCODE2BYTE_LITTLE len
  ++ (if TCID_FTC_RFU_END <? tcid then [u8 pi] else []).

Lemma header_bytes_ok :
  (forall tcid p len pi seq sar, bytes_ok (simplex_header tcid p len pi seq sar)) /\
  (forall tcid p f len pi seq sar req, bytes_ok (duplex_header tcid p f len pi seq sar req)) /\
  (forall tcid f req s, bytes_ok (ack_header tcid f req s)) /\
  (forall tcid len pi, bytes_ok (basic_header tcid len pi)).
Proof.
  split_and!; intros; unfold simplex_header, duplex_header, ack_header, basic_header;
    try case_match; repeat first
      [ apply Forall_nil | apply encode2_bytes_ok | apply le16_ok | apply Forall_app_2
      | apply Forall_cons_2 | apply u8_range | apply type_byte_range; done | done ].
Qed.

(** Names the bytes of a list of known length. *)
Ltac name_bytes L HL :=
  repeat (destruct L as [|? L]; [simpl in HL; lia|]);
  (destruct L; [|simpl in HL; lia]).

Ltac header_step :=
  match goal with
  | |- context [wr (mem_write ?m ?h ?L) (?h + ?i) ?d] =>
      rewrite (wr_window m h L i d) by (simpl in *; lia)
  | |- context [set_bits16 (mem_write ?m ?h ?L) (?h + ?i) ?lo ?w ?x] =>
      erewrite (set_bits16_window m h L) by (simpl in *; (reflexivity || lia))
  end; cbn [mbind option_bind].

(** The constant indicator bits, as booleans. *)
Ltac as_b2z x :=
  lazymatch x with 0 => constr:(b2z false) | 1 => constr:(b2z true) | _ => x end.
Ltac basic_header_step :=
  match goal with |- context [set_basic_header ?m ?h ?t ?ty ?o ?c ?p ?f] =>
    let o' := as_b2z o in let c' := as_b2z c in let p' := as_b2z p in let f' := as_b2z f in
    change (set_basic_header m h t ty o c p f) with (set_basic_header m h t ty o' c' p' f');
    rewrite set_basic_header_spec by (done || lia); cbn [mbind option_bind]
  end.

Section builders.
Context (f : DTAP_Frame) (b : SDF_Buff) (tcid crcInit : Z).
Context (Hb : f_buff f = Some b) (Hwf : buff_wf b) (Hcrc : is_u16 crcInit).

(** The common end of the builders: the header is in place, the checksum is appended. *)
Lemma finish_build b' h H e :
  bytes_ok H -> zlen H <= dataOff b -> dataOff b + dataLen b + 2 <= buffLen b ->
  h = dataOff b - zlen H -> dataOff b' = h -> dataLen b' = dataLen b + zlen H ->
  buffLen b' = buffLen b ->
  exists b2,
    (r ← append_crc crcInit (b' <| bmem := mem_write (bmem b) h H |>);
     match r with
     | Some b3 => Some (DTAP_SUCCESS, f <| f_buff := Some b3 |>)
     | None => e
     end) = Some (DTAP_SUCCESS, f <| f_buff := Some b2 |>) /\
    buff_wf b2 /\ buff_data b2 = (H ++ buff_data b)
      ++ ENCODE2BYTE_LITTLE (CRC16 crcInit (H ++ buff_data b)) /\
    dataOff b2 = h /\ dataLen b2 = dataLen b + zlen H + 2 /\ buffLen b2 = buffLen b.
Proof using Hwf Hcrc.
  intros HH Hroom Htail Hh Ho Hl Hbl.
  destruct (filled_header b b' h H Hwf HH Hroom Hh Ho Hl Hbl) as [Hwf' Hd].
  destruct (append_crc_spec crcInit _ Hwf' Hcrc) as (b2&->&Hwf2&Hd2&Ho2&Hl2&Hbl2); [cbn; lia|].
  rewrite Hd in Hd2. exists b2. cbn in *. split_and!; try done; lia.
Qed.

Lemma build_simplex_spec :
  7 <= dataOff b -> dataOff b + dataLen b + 2 <= buffLen b ->
  0 <= txSeq f < 16384 -> 0 <= sar f < 4 ->
  let H := simplex_header tcid (DTAP_CheckFrameBit (bits f) DTAP_FRAME_P_BIT)
             (dataLen b + 5) (pi f) (txSeq f) (sar f) in
  exists b', DTAP_BuildSimplexFragFrame f tcid crcInit
             = Some (DTAP_SUCCESS, f <| f_buff := Some b' |>) /\
    buff_wf b' /\
    buff_data b' = (H ++ buff_data b) ++ ENCODE2BYTE_LITTLE (CRC16 crcInit (H ++ buff_data b)) /\
    dataOff b' = dataOff b - 7 /\ dataLen b' = dataLen b + 9 /\ buffLen b' = buffLen b.
Proof using Hb Hwf Hcrc.
  intros Hoff Htail Hseq Hsar H. pose proof (wf_off b Hwf). unfold DTAP_BuildSimplexFragFrame.
  rewrite Hb. change DTAP_SIMPLEX_FRAG_FRAME_HEADER_LEN with 7. destruct (prepend_window b 7 Hwf ltac:(lia)) as (b1&L&->&Hm&HL&HLok&Ho&Hl&Hbl&Hw&_).
  name_bytes L HL. rewrite Hm. set (h := dataOff b - 7) in *.
  repeat apply Forall_cons in HLok as [?Hx HLok].
  basic_header_step.
  repeat header_step.
  match goal with |- context [mem_write (bmem b) h ?X] => assert (X = H) as -> end.
  { unfold SDF_DataLenGet, DTAP_BASIC_HEADER_LEN, DTAP_CRC_LEN. rewrite Hl.
    replace (dataLen b + 7 - 4 + 2) with (dataLen b + 5) by lia.
    rewrite le16_join, fields16 by (done || (apply bf_set_u16; done || lia)). done. }
  assert (zlen H = 7) as HH by done.
  destruct (finish_build b1 h H (Some (DTAP_ENHANCED_FRAME_APPEND_ERR,
    f <| f_buff := Some (b1 <| bmem := mem_write (bmem b) h H |>) |>)))
    as (b2&E&?&?&?&?&?); try (done || lia). { apply header_bytes_ok. }
  exists b2. split_and!; try done; lia.
Qed.

(** The two reserved bits beside [reqSeq] keep what the headroom held. *)
Lemma build_duplex_spec :
  9 <= dataOff b -> dataOff b + dataLen b + 2 <= buffLen b ->
  0 <= txSeq f < 16384 -> 0 <= sar f < 4 -> 0 <= reqSeq f < 16384 ->
  exists b' rfu, 0 <= rfu < 4 /\
    let H := duplex_header tcid (DTAP_CheckFrameBit (bits f) DTAP_FRAME_P_BIT)
               (DTAP_CheckFrameBit (bits f) DTAP_FRAME_F_BIT)
               (dataLen b + 7) (pi f) (txSeq f) (sar f) (reqSeq f + 16384 * rfu) in
    DTAP_BuildDuplexFragFrame f tcid crcInit
      = Some (DTAP_SUCCESS, f <| f_buff := Some b' |>) /\
    buff_wf b' /\
    buff_data b' = (H ++ buff_data b) ++ ENCODE2BYTE_LITTLE (CRC16 crcInit (H ++ buff_data b)) /\
    dataOff b' = dataOff b - 9 /\ dataLen b' = dataLen b + 11 /\ buffLen b' = buffLen b.
Proof using Hb Hwf Hcrc.
  intros Hoff Htail Hseq Hsar Hreq. pose proof (wf_off b Hwf) as Hpos. unfold DTAP_BuildDuplexFragFrame.
  rewrite Hb. change DTAP_DUPLEX_FRAG_FRAME_HEADER_LEN with 9.
  destruct (prepend_window b 9 Hwf ltac:(lia)) as (b1&L&->&Hm&HL&HLok&Ho&Hl&Hbl&Hw&_).
  name_bytes L HL. rewrite Hm. set (h := dataOff b - 9) in *.
  repeat apply Forall_cons in HLok as [?Hx HLok].
  basic_header_step.
  repeat header_step.
  assert (exists g, 0 <= g < 4 /\ bf_set (z6 + 256 * z7) 0 14 (reqSeq f) = reqSeq f + 16384 * g)
    as (g&Hg&Eg).
  { exists ((z6 + 256 * z7) / 16384). rewrite bf_set_arith, bf_get_arith by lia.
    unfold is_u8 in *. change (2 ^ 0) with 1. change (2 ^ 14) with 16384.
    rewrite Z.div_1_r, (Z.mod_small (reqSeq f)) by lia. Z.div_mod_to_equations; lia. }
  set (H := duplex_header tcid (DTAP_CheckFrameBit (bits f) DTAP_FRAME_P_BIT)
         (DTAP_CheckFrameBit (bits f) DTAP_FRAME_F_BIT)
         (dataLen b + 7) (pi f) (txSeq f) (sar f) (reqSeq f + 16384 * g)).
  match goal with |- context [mem_write (bmem b) h ?X] => assert (X = H) as -> end.
  { unfold SDF_DataLenGet, DTAP_BASIC_HEADER_LEN, DTAP_CRC_LEN. rewrite Hl.
    replace (dataLen b + 9 - 4 + 2) with (dataLen b + 7) by lia. rewrite Eg.
    rewrite le16_join, fields16 by (done || (apply bf_set_u16; done || lia)). done. }
  assert (zlen H = 9) as HH by done.
  destruct (finish_build b1 h H (Some (DTAP_ENHANCED_FRAME_APPEND_ERR,
    f <| f_buff := Some (b1 <| bmem := mem_write (bmem b) h H |>) |>)))
    as (b2&E&?&?&?&?&?); try (done || lia). { apply header_bytes_ok. }
  exists b2, g. split_and!; try done; lia.
Qed.

Lemma build_basic_spec :
  (if TCID_FTC_RFU_END <? tcid then 5 else 4) <= dataOff b ->
  let n := if TCID_FTC_RFU_END <? tcid then 5 else 4 in
  let H := basic_header tcid (dataLen b + n - 4) (pi f) in
  exists b', DTAP_BuildBasicFrame f tcid crcInit
             = Some (DTAP_SUCCESS, f <| f_buff := Some b' |>) /\
    buff_wf b' /\ buff_data b' = H ++ buff_data b /\
    dataOff b' = dataOff b - n /\ dataLen b' = dataLen b + n /\ buffLen b' = buffLen b.
Proof using Hb Hwf.
  intros Hoff n H. pose proof (wf_off b Hwf) as Hpos. unfold DTAP_BuildBasicFrame. rewrite Hb.
  assert (bytes_ok H) as HHok by apply header_bytes_ok.
  assert (zlen H = n) as HHlen by (unfold H, n, basic_header; by destruct (TCID_FTC_RFU_END <? tcid)).
  destruct (TCID_FTC_RFU_END <? tcid) eqn:Et.
  - change (DTAP_BASIC_HEADER_LEN + 1) with n.
    destruct (prepend_window b n Hwf ltac:(lia)) as (b1&L&->&Hm&HL&HLok&Ho&Hl&Hbl&Hw&_).
    subst n. name_bytes L HL. rewrite Hm. set (h := dataOff b - 5) in *.
    repeat apply Forall_cons in HLok as [?Hx HLok].
    basic_header_step.
    change DTAP_BASIC_HEADER_LEN with 4. repeat header_step. unfold SDF_DataLenGet. rewrite Hl.
    match goal with |- context [mem_write (bmem b) h ?X] => assert (X = H) as -> end.
    { unfold H, basic_header. by rewrite Et. }
    destruct (filled_header b b1 h H) as [? ?]; try (done || lia). eexists; by split_and!.
  - change DTAP_BASIC_HEADER_LEN with n at 1.
    destruct (prepend_window b n Hwf ltac:(lia)) as (b1&L&->&Hm&HL&HLok&Ho&Hl&Hbl&Hw&_).
    subst n. name_bytes L HL. rewrite Hm. set (h := dataOff b - 4) in *.
    repeat apply Forall_cons in HLok as [?Hx HLok].
    basic_header_step.
    change DTAP_BASIC_HEADER_LEN with 4. repeat header_step. unfold SDF_DataLenGet. rewrite Hl.
    match goal with |- context [mem_write (bmem b) h ?X] => assert (X = H) as -> end.
    { unfold H, basic_header. by rewrite Et. }
    destruct (filled_header b b1 h H) as [? ?]; try (done || lia). eexists; by split_and!.
Qed.
End builders.

Lemma build_ack_spec f tcid crcInit :
  is_u16 crcInit -> 0 <= ack_reqSeq f < 16384 ->
  let H := ack_header tcid (DTAP_CheckFrameBit (bits f) DTAP_FRAME_F_BIT) (ack_reqSeq f) (ack_sBit f) in
  exists b', DTAP_BuildAckFrame true f tcid crcInit
             = Some (DTAP_SUCCESS, f <| f_buff := Some b' |>) /\
    buff_wf b' /\ buff_data b' = H ++ ENCODE2BYTE_LITTLE (CRC16 crcInit H) /\
    dataLen b' = 8 /\ dataOff b' = 8.
Proof.
  intros Hcrc Hreq H. unfold DTAP_BuildAckFrame.
  destruct (new_with_reserve_spec 0) as (b&Eb&Hwf&Hlen&Hoff&Hbl0); [done..|]. rewrite Eb.
  change DTAP_ACK_FRAME_HEADER_LEN with 6.
  destruct (prepend_window b 6 Hwf ltac:(lia)) as (b1&L&->&Hm&HL&HLok&Ho&Hl&Hbl&Hw&HLm).
  assert (L = [0; 0; 0; 0; 0; 0]) as ->.
  { rewrite HLm. injection Eb as <-. reflexivity. }
  rewrite Hm. set (h := dataOff b - 6) in *. assert (is_u8 0) by cint.
  basic_header_step. repeat header_step. unfold SDF_DataLenGet. rewrite Hl, Hlen.
  match goal with |- context [mem_write (bmem b) h ?X] => assert (X = H) as -> end.
  { rewrite le16_join by (by apply bf_set_u16).
    assert (bf_set (bf_set (0 + 256 * 0) 0 14 (ack_reqSeq f)) 14 1 (b2z (ack_sBit f))
            = ack_reqSeq f + 16384 * b2z (ack_sBit f)) as ->; [|done].
    rewrite !bf_set_arith, !bf_get_arith by lia.
    change (2 ^ 0) with 1. change (2 ^ 14) with 16384. change (2 ^ 1) with 2.
    destruct (ack_sBit f); simpl b2z; Z.div_mod_to_equations; lia. }
  assert (bytes_ok H) as HHok by apply header_bytes_ok. assert (zlen H = 6) as HH6 by done.
  destruct (filled_header b b1 h H) as [Hwf2 Hd2]; try (done || lia).
  assert (buff_data b = []) as Hempty.
  { unfold buff_data. by rewrite Hlen. }
  rewrite Hempty, app_nil_r in Hd2.
  destruct (append_crc_spec crcInit _ Hwf2 Hcrc) as (b2&->&Hwf3&Hd3&Ho3&Hl3&Hbl3); [cbn; lia|].
  rewrite Hd2 in Hd3. exists b2. cbn in *. split_and!; try done; lia.
Qed.

(** ** Lemmas: what the parsers read *)
Lemma type_byte_fields t o c p f :
  0 <= t < 16 ->
  let B := type_byte t o c p f in
  bf_get B 0 4 = t /\ bf_get B 4 1 = b2z o /\ bf_get B 5 1 = b2z c /\ bf_get B 6 1 = b2z p /\
  bf_get B 7 1 = b2z f /\ Z.shiftr B 4 = b2z o + 2 * b2z c + 4 * b2z p + 8 * b2z f.
Proof.
  intros Ht. cbv zeta. rewrite !bf_get_arith, Z.shiftr_div_pow2 by lia. unfold type_byte.
  change (2 ^ 0) with 1. change (2 ^ 4) with 16. change (2 ^ 5) with 32. change (2 ^ 6) with 64.
  change (2 ^ 7) with 128. change (2 ^ 1) with 2. rewrite Z.div_1_r.
  split_and!; destruct o, c, p, f; simpl b2z; Z.div_mod_to_equations; lia.
Qed.

Lemma word_fields s r :
  0 <= s < 16384 -> 0 <= r < 4 ->
  bf_get (s + 16384 * r) 0 14 = s /\ bf_get (s + 16384 * r) 14 2 = r.
Proof.
  intros. rewrite !bf_get_arith by lia. change (2 ^ 0) with 1. change (2 ^ 14) with 16384.
  change (2 ^ 2) with 4. rewrite Z.div_1_r. split; Z.div_mod_to_equations; lia.
Qed.

Lemma ld16_data b i v0 v1 :
  0 <= dataOff b -> 0 <= i -> i + 2 <= dataLen b ->
  rd (buff_data b) i = Some v0 -> rd (buff_data b) (i + 1) = Some v1 ->
  ld16 (bmem b) (dataOff b + i) = Some (v0 + 256 * v1).
Proof.
  intros Ho Hi Hl H0 H1. unfold ld16. rewrite rd_data, H0 by lia. simpl.
  rewrite <- Z.add_assoc, rd_data, H1 by lia. done.
Qed.

Lemma rd_app_l l1 l2 i : i < zlen l1 -> rd (l1 ++ l2) i = rd l1 i.
Proof. intros. unfold rd. case_decide; [|done]. apply lookup_app_l. lia. Qed.

Lemma payloadLen_twice (g : DTAP_Frame) x y :
  g <| payloadLen := x |> <| payloadLen := y |> = g <| payloadLen := y |>.
Proof. done. Qed.

(** A frame without extension fields. *)
Lemma parse_enhance_plain hl b f t p :
  buff_wf b -> f_buff f = Some b -> header f = Some (dataOff b) -> extensionLen f = 0 ->
  5 <= hl -> hl + 2 <= dataLen b -> dataLen b - hl < 65536 ->
  rd (buff_data b) 1 = Some t -> bf_get t 4 1 = 0 -> rd (buff_data b) 4 = Some p ->
  exists g, DTAP_ParseEnhanceFrame hl f = Some (DTAP_SUCCESS, g) /\
    f_buff g = Some b /\ header g = Some (dataOff b) /\ ctx g = ctx f /\
    bits g = Z.shiftr t 4 /\ pi g = p /\ headerLen g = hl /\ extensionLen g = 0 /\
    payload g = Some (dataOff b + hl + 0) /\ payloadLen g = dataLen b - hl - 2.
Proof.
  intros Hwf Hb Hh He Hhl Hl1 Hl2 Ht Ho Hp. destruct Hwf.
  unfold DTAP_ParseEnhanceFrame. rewrite Hb, Hh. cbn [mbind option_bind].
  unfold SDF_DataLenGet. destruct (Z.ltb_spec (dataLen b) hl); [lia|].
  rewrite !rd_data, Ht by (unfold DTAP_BASIC_HEADER_LEN; lia). cbn [mbind option_bind].
  change DTAP_BASIC_HEADER_LEN with 4. rewrite Hp. cbn [mbind option_bind].
  rewrite Ho. cbn [negb Z.eqb mbind option_bind].
  match goal with |- context [u16 ?x] => replace x with (dataLen b - hl - 0) by (cbn; lia) end.
  rewrite u16_small by cint.
  match goal with |- context [Some (?x + ?y + ?z)] =>
    replace (x + y + z) with (dataOff b + hl + 0) by (cbn; lia) end.
  match goal with |- context [payloadLen ?x] => change (payloadLen x) with (dataLen b - hl - 0) end.
  change DTAP_CRC_LEN with 2. change DTAP_BASIC_FRAME_BITS_SHIFT with 4.
  destruct (Z.ltb_spec (dataLen b - hl - 0) 2); [lia|]. rewrite payloadLen_twice.
  replace (dataLen b - hl - 0 - 2) with (dataLen b - hl - 2) by lia.
  eexists; split; [reflexivity|]. by split_and!.
Qed.

Lemma mem_read_payload b H D C :
  buff_wf b -> buff_data b = (H ++ D) ++ C ->
  mem_read (bmem b) (dataOff b + zlen H + 0) (zlen D) = D.
Proof.
  intros Hwf Hd. pose proof (length_buff_data b Hwf) as Hl. destruct Hwf.
  rewrite Hd, !length_app in Hl. rewrite Z.add_0_r.
  assert (mem_read (bmem b) (dataOff b) (dataLen b) = (H ++ D) ++ C) as Hr by done.
  replace (dataLen b) with (zlen H + (zlen D + zlen C)) in Hr by lia.
  rewrite !mem_read_app in Hr by lia. rewrite <- app_assoc in Hr.
  apply app_inj_1 in Hr as [_ Hr]; [|apply Nat2Z.inj; rewrite length_mem_read; lia].
  by apply app_inj_1 in Hr as [? _]; [|apply Nat2Z.inj; rewrite length_mem_read; lia].
Qed.

(** What a receiver finds in a buffer a sender built: the length field, a zero CRC
    remainder, a header that passes the check, and the fields and payload sent. *)
Record received (b : SDF_Buff) (crcInit : Z) (g : DTAP_Frame) (D : bytes) : Prop := {
  rcv_len : DECODE2BYTE_LITTLE (bmem b) (dataOff b + 2) = Some (dataLen b - 4);
  rcv_crc : CRC16 crcInit (buff_data b) = 0;
  rcv_check : exists c, ctx g = Some c /\ checkFrameHeader c g = Some true;
  rcv_payload : exists p, payload g = Some p /\ mem_read (bmem b) p (payloadLen g) = D;
  rcv_buff : f_buff g = Some b
}.

Lemma decode_len_data b H D n :
  buff_wf b -> buff_data b = H ++ D -> 4 <= zlen H -> 0 <= n < 65536 ->
  rd H 2 = Some (u8 n) -> rd H 3 = Some (u8 (Z.shiftr (u16 n) 8)) ->
  DECODE2BYTE_LITTLE (bmem b) (dataOff b + 2) = Some n.
Proof.
  intros Hwf Hd HH Hn H2 H3. pose proof (length_buff_data b Hwf) as Hl. destruct Hwf.
  rewrite Hd, length_app in Hl. unfold DECODE2BYTE_LITTLE.
  rewrite <- Z.add_assoc, !rd_data, Hd, !rd_app_l, H2 by lia. change (2 + 1) with 3. rewrite H3.
  cbn [mbind option_bind]. rewrite decode_encode2, (u16_small n) by cint.
  rewrite u16_small by cint. done.
Qed.

Definition build_frag (duplex : bool) : DTAP_Frame -> Z -> Z -> option (Z * DTAP_Frame) :=
  if duplex then DTAP_BuildDuplexFragFrame else DTAP_BuildSimplexFragFrame.
Definition frag_type (duplex : bool) : Z :=
  if duplex then DTAP_FRAME_DUPLEX_FRAG else DTAP_FRAME_SIMPLEX_FRAG.
Definition frag_hdr_len (duplex : bool) : Z :=
  if duplex then DTAP_DUPLEX_FRAG_FRAME_HEADER_LEN else DTAP_SIMPLEX_FRAG_FRAME_HEADER_LEN.

(** The frame a receiver parses out of a data frame built from [f]. *)
Record parsed_as (duplex : bool) (f g : DTAP_Frame) : Prop := {
  pa_pi : pi g = pi f;
  pa_txSeq : txSeq g = txSeq f;
  pa_sar : sar g = sar f;
  pa_reqSeq : reqSeq g = if duplex then reqSeq f else DTAP_FRAME_SEQ_INIT;
  pa_p : DTAP_CheckFrameBit (bits g) DTAP_FRAME_P_BIT = DTAP_CheckFrameBit (bits f) DTAP_FRAME_P_BIT;
  pa_c : DTAP_CheckFrameBit (bits g) DTAP_FRAME_C_BIT = true;
  pa_hdr : headerLen g = frag_hdr_len duplex;
  pa_ext : extensionLen g = 0;
  pa_ctx : ctx g = Some (if duplex then DuplexFragCtx else SimplexFragCtx)
}.

Lemma check_bits_of c p f :
  let v := b2z false + 2 * b2z c + 4 * b2z p + 8 * b2z f in
  DTAP_CheckFrameBit v DTAP_FRAME_P_BIT = p /\ DTAP_CheckFrameBit v DTAP_FRAME_C_BIT = c.
Proof. by destruct c, p, f. Qed.

Lemma CRC_of_built crcInit L b :
  buff_wf b -> is_u16 crcInit -> bytes_ok L ->
  buff_data b = L ++ ENCODE2BYTE_LITTLE (CRC16 crcInit L) -> CRC16 crcInit (buff_data b) = 0.
Proof. intros _ Hc HL ->. by apply crc16_residue. Qed.

(** Loads of header bytes of a buffer whose payload starts with the header [H]. *)
Ltac hdr_loads Hdata :=
  repeat first
    [ rewrite Hdata
    | rewrite rd_app_l by (simpl; lia) ];
  try reflexivity.

(** The frame [DTAP_ParseFrame] hands to the parser of the type. *)
Lemma parse_frame_eq ty c b :
  DTAP_GetFrameCtx ty = Some c ->
  exists f, DTAP_ParseFrame ty b frame0 = parseFrame c f /\
    f_buff f = Some b /\ header f = Some (dataOff b) /\ ctx f = Some c /\ extensionLen f = 0.
Proof. intros Hc. unfold DTAP_ParseFrame. rewrite Hc. eexists; split; [reflexivity|]. done. Qed.

Lemma parse_built_simplex b tcid p len pi0 seq sar0 D C :
  let H := simplex_header tcid p len pi0 seq sar0 in
  buff_wf b -> buff_data b = (H ++ D) ++ C -> zlen C = 2 -> zlen D < 65534 ->
  0 <= seq < 16384 -> 0 <= sar0 < 4 -> is_u8 pi0 ->
  exists g, DTAP_ParseFrame DTAP_FRAME_SIMPLEX_FRAG b frame0 = Some (DTAP_SUCCESS, g) /\
    f_buff g = Some b /\ ctx g = Some SimplexFragCtx /\ header g = Some (dataOff b) /\
    bits g = b2z false + 2 * b2z true + 4 * b2z p + 8 * b2z false /\ pi g = pi0 /\
    txSeq g = seq /\ sar g = sar0 /\ reqSeq g = DTAP_FRAME_SEQ_INIT /\ headerLen g = 7 /\
    extensionLen g = 0 /\ payload g = Some (dataOff b + 7 + 0) /\ payloadLen g = zlen D.
Proof.
  intros H Hwf Hd HC HD Hseq Hsar Hpi.
  pose proof (length_buff_data b Hwf) as Hlen. rewrite Hd, !length_app in Hlen.
  assert (zlen H = 7) as HH by done.
  pose proof (wf_off b Hwf) as Hoff.
  destruct (type_byte_fields DTAP_FRAME_SIMPLEX_FRAG false true p false ltac:(done))
    as (_&Eo&_&_&_&Esh).
  destruct (parse_frame_eq DTAP_FRAME_SIMPLEX_FRAG SimplexFragCtx b) as (f0&->&Hb0&Hh0&Hc0&He0); [done|].
  unfold parseFrame, DTAP_ParseSimplexFragFrame. change DTAP_GetSimplexFragFrameHdrLen with 7.
  destruct (parse_enhance_plain 7 b f0
    (type_byte DTAP_FRAME_SIMPLEX_FRAG false true p false) (u8 pi0)) as (g&->&Hb&Hh&Hc&Hbi&Hp&Hl&He&Hpay&Hpl);
    [first [done | lia | hdr_loads Hd]..|].
  cbn [mbind option_bind]. change (negb (DTAP_SUCCESS =? DTAP_SUCCESS)) with false. cbv iota.
  rewrite Hh. unfold frame_mem. rewrite Hb. cbn [mbind option_bind].
  set (w := seq + 16384 * sar0). assert (is_u16 w) by (unfold w, is_u16; lia).
  rewrite (ld16_data b 5 (u8 w) (u8 (w / 256))) by (first [done | lia | hdr_loads Hd]).
  cbn [mbind option_bind]. rewrite le16_join by done.
  destruct (word_fields seq sar0 Hseq Hsar) as [E1 E2]. fold w in E1, E2. rewrite E1, E2.
  eexists; split; [reflexivity|]. cbn. rewrite Hbi, Esh, Hp, u8_small by done.
  split_and!; try done; try congruence; lia.
Qed.

Lemma parse_built_duplex b tcid p f len pi0 seq sar0 req rfu D C :
  let H := duplex_header tcid p f len pi0 seq sar0 (req + 16384 * rfu) in
  buff_wf b -> buff_data b = (H ++ D) ++ C -> zlen C = 2 -> zlen D < 65534 ->
  0 <= seq < 16384 -> 0 <= sar0 < 4 -> is_u8 pi0 -> 0 <= req < 16384 -> 0 <= rfu < 4 ->
  exists g, DTAP_ParseFrame DTAP_FRAME_DUPLEX_FRAG b frame0 = Some (DTAP_SUCCESS, g) /\
    f_buff g = Some b /\ ctx g = Some DuplexFragCtx /\ header g = Some (dataOff b) /\
    bits g = b2z false + 2 * b2z true + 4 * b2z p + 8 * b2z f /\ pi g = pi0 /\
    txSeq g = seq /\ sar g = sar0 /\ reqSeq g = req /\ headerLen g = 9 /\
    extensionLen g = 0 /\ payload g = Some (dataOff b + 9 + 0) /\ payloadLen g = zlen D.
Proof.
  intros H Hwf Hd HC HD Hseq Hsar Hpi Hreq Hrfu.
  pose proof (length_buff_data b Hwf) as Hlen. rewrite Hd, !length_app in Hlen.
  assert (zlen H = 9) as HH by done.
  pose proof (wf_off b Hwf) as Hoff.
  destruct (type_byte_fields DTAP_FRAME_DUPLEX_FRAG false true p f ltac:(done))
    as (_&Eo&_&_&_&Esh).
  destruct (parse_frame_eq DTAP_FRAME_DUPLEX_FRAG DuplexFragCtx b) as (f0&->&Hb0&Hh0&Hc0&He0); [done|].
  unfold parseFrame, DTAP_ParseDuplexFragFrame. change DTAP_GetDuplexFragFrameHdrLen with 9.
  destruct (parse_enhance_plain 9 b f0
    (type_byte DTAP_FRAME_DUPLEX_FRAG false true p f) (u8 pi0)) as (g&->&Hb&Hh&Hc&Hbi&Hp&Hl&He&Hpay&Hpl);
    [first [done | lia | hdr_loads Hd]..|].
  cbn [mbind option_bind]. change (negb (DTAP_SUCCESS =? DTAP_SUCCESS)) with false. cbv iota.
  rewrite Hh. unfold frame_mem. rewrite Hb. cbn [mbind option_bind].
  set (w := seq + 16384 * sar0). assert (is_u16 w) by (unfold w, is_u16; lia).
  set (w' := req + 16384 * rfu). assert (is_u16 w') by (unfold w', is_u16; lia).
  rewrite (ld16_data b 5 (u8 w) (u8 (w / 256))) by (first [done | lia | hdr_loads Hd]).
  rewrite (ld16_data b 7 (u8 w') (u8 (w' / 256))) by (first [done | lia | hdr_loads Hd]).
  cbn [mbind option_bind]. rewrite !le16_join by done.
  destruct (word_fields seq sar0 Hseq Hsar) as [E1 E2]. fold w in E1, E2. rewrite E1, E2.
  destruct (word_fields req rfu Hreq Hrfu) as [E3 _]. fold w' in E3. rewrite E3.
  eexists; split; [reflexivity|]. cbn. rewrite Hbi, Esh, Hp, u8_small by done.
  split_and!; try done; try congruence; lia.
Qed.

Lemma parse_built_ack b tcid f req s C :
  let H := ack_header tcid f req s in
  buff_wf b -> buff_data b = H ++ C -> zlen C = 2 -> 0 <= req < 16384 ->
  exists g, DTAP_ParseFrame DTAP_FRAME_ACK b frame0 = Some (DTAP_SUCCESS, g) /\
    f_buff g = Some b /\ ctx g = Some AckCtx /\ header g = Some (dataOff b) /\
    bits g = b2z false + 2 * b2z true + 4 * b2z false + 8 * b2z f /\
    ack_reqSeq g = req /\ ack_sBit g = s /\ payload g = Some (dataOff b + 6 + 0) /\
    payloadLen g = 0.
Proof.
  intros H Hwf Hd HC Hreq.
  pose proof (length_buff_data b Hwf) as Hlen. rewrite Hd, !length_app in Hlen.
  assert (zlen H = 6) as HH by done. pose proof (wf_off b Hwf) as Hoff.
  destruct (type_byte_fields DTAP_FRAME_ACK false true false f ltac:(done)) as (_&Eo&_&_&_&Esh).
  set (w := req + 16384 * b2z s) in *.
  assert (is_u16 w) by (unfold w, is_u16; destruct s; simpl b2z; lia).
  destruct (parse_frame_eq DTAP_FRAME_ACK AckCtx b) as (f0&->&Hb0&Hh0&Hc0&He0); [done|].
  unfold parseFrame, DTAP_ParseAckFrame. change DTAP_GetAckFrameHdrLen with 6.
  destruct (parse_enhance_plain 6 b f0 (type_byte DTAP_FRAME_ACK false true false f) (u8 w))
    as (g&->&Hb&Hh&Hc&Hbi&Hp&Hl&He&Hpay&Hpl); [first [done | lia | hdr_loads Hd]..|].
  cbn [mbind option_bind]. change (negb (DTAP_SUCCESS =? DTAP_SUCCESS)) with false. cbv iota.
  rewrite Hh. unfold frame_mem. rewrite Hb. cbn [mbind option_bind].
  rewrite (ld16_data b 4 (u8 w) (u8 (w / 256))) by (first [done | lia | hdr_loads Hd]).
  cbn [mbind option_bind]. rewrite le16_join by done.
  eexists; split; [reflexivity|]. cbn. rewrite Hbi, Esh.
  rewrite !bf_get_arith by lia. change (2 ^ 0) with 1. change (2 ^ 14) with 16384.
  change (2 ^ 1) with 2. rewrite Z.div_1_r.
  assert (w mod 16384 = req /\ (w / 16384) mod 2 = b2z s) as [-> ->].
  { unfold w. destruct s; simpl b2z; split; Z.div_mod_to_equations; lia. }
  split_and!; try done; try congruence; [by destruct s|lia].
Qed.

Lemma check_enhance_header b g typ p f L :
  buff_wf b -> f_buff g = Some b -> header g = Some (dataOff b) -> 0 <= typ < 16 ->
  2 <= dataLen b -> rd (buff_data b) 1 = Some (type_byte typ false true p f) -> L = true ->
  DTAP_CheckEnhanceFrameHeader g = Some L.
Proof.
  intros Hwf Hb Hh Ht Hl Hr ->. unfold DTAP_CheckEnhanceFrameHeader, frame_mem.
  rewrite Hh, Hb. cbn [mbind option_bind]. rewrite rd_data, Hr by (destruct Hwf; lia).
  cbn [mbind option_bind]. by destruct (type_byte_fields typ false true p f Ht) as (_&_&->&_).
Qed.

Lemma received_built b crcInit H D n typ p f g c :
  buff_wf b -> is_u16 crcInit -> bytes_ok H -> bytes_ok D ->
  buff_data b = (H ++ D) ++ ENCODE2BYTE_LITTLE (CRC16 crcInit (H ++ D)) ->
  4 <= zlen H -> 0 <= typ < 16 -> rd H 1 = Some (type_byte typ false true p f) ->
  rd H 2 = Some (u8 n) -> rd H 3 = Some (u8 (Z.shiftr (u16 n) 8)) ->
  n = dataLen b - 4 -> n < 65536 ->
  f_buff g = Some b -> header g = Some (dataOff b) -> ctx g = Some c ->
  checkFrameHeader c g = DTAP_CheckEnhanceFrameHeader g ->
  payload g = Some (dataOff b + zlen H + 0) -> payloadLen g = zlen D ->
  received b crcInit g D.
Proof.
  intros Hwf Hcrc HHok HDok Hd HH Ht H1 H2 H3 -> Hn Hb Hh Hc Hck Hp Hpl.
  pose proof (length_buff_data b Hwf) as Hlen. rewrite Hd, !length_app in Hlen.
  constructor; [| | | |done].
  - rewrite <- app_assoc in Hd. eapply decode_len_data; [done|exact Hd|done| |done..]. lia.
  - rewrite Hd. apply crc16_residue; [done|by apply Forall_app_2].
  - exists c. split; [done|]. rewrite Hck.
    eapply check_enhance_header; try done; [lia|]. rewrite Hd.
    rewrite !rd_app_l by (rewrite ?length_app; lia). exact H1.
  - eexists; split; [exact Hp|]. rewrite Hpl. by eapply mem_read_payload.
Qed.

(** ** Theorems *)

(** C19. Round trip of a data frame.  A fragment built with the simplex or the
    duplex builder in a buffer with room for its header and trailer is accepted by
    the peer: the length field counts the bytes after it, the CRC over the whole
    frame is 0, the header check passes, and parsing recovers the protocol
    identifier, sequence numbers, segmentation state, the P bit and exactly the
    payload that was sent. *)
Theorem data_frame_roundtrip (duplex : bool) f b tcid crcInit :
  f_buff f = Some b -> buff_wf b -> is_u16 crcInit ->
  frag_hdr_len duplex <= dataOff b -> dataOff b + dataLen b + 2 <= buffLen b ->
  dataLen b + frag_hdr_len duplex < 65536 ->
  0 <= txSeq f < 16384 -> 0 <= reqSeq f < 16384 -> 0 <= sar f < 4 -> is_u8 (pi f) ->
  exists f' b' g,
    build_frag duplex f tcid crcInit = Some (DTAP_SUCCESS, f') /\ f_buff f' = Some b' /\
    buff_wf b' /\ dataLen b' = dataLen b + frag_hdr_len duplex + DTAP_CRC_LEN /\
    DTAP_ParseFrame (frag_type duplex) b' frame0 = Some (DTAP_SUCCESS, g) /\
    received b' crcInit g (buff_data b) /\ parsed_as duplex f g.
Proof.
  intros Hfb Hwf Hcrc Hroom Htail Hlen Hseq Hreq Hsar Hpi.
  pose proof (buff_data_ok b Hwf) as HDok. pose proof (length_buff_data b Hwf) as HDl.
  pose proof (wf_len b Hwf) as Hpos. pose proof header_bytes_ok as (Hs&Hdx&_).
  destruct duplex; [change (frag_hdr_len true) with 9 in *|change (frag_hdr_len false) with 7 in *].
  - destruct (build_duplex_spec f b tcid crcInit Hfb Hwf Hcrc) as (b'&rfu&Hrfu&Hb&Hwf'&Hd&Ho&Hl&Hbl);
      [done..|].
    edestruct (parse_built_duplex b') as (g&Hg&Hgb&Hgc&Hgh&Hgbi&Hgp&Hgs&Hgsar&Hgr&Hghl&Hge&Hgpay&Hgpl);
      [exact Hwf'|exact Hd|done|lia|done..|].
    eexists _, b', g. split; [exact Hb|]. change DTAP_CRC_LEN with 2. split_and!; try done; try lia.
    + eapply (received_built b' crcInit _ _ (dataLen b + 7) DTAP_FRAME_DUPLEX_FRAG); try exact Hd; first [done | apply header_bytes_ok | unfold DTAP_FRAME_DUPLEX_FRAG, DTAP_FRAME_SIMPLEX_FRAG; simpl; lia].
    + constructor; try done; rewrite Hgbi; apply check_bits_of.
  - destruct (build_simplex_spec f b tcid crcInit Hfb Hwf Hcrc) as (b'&Hb&Hwf'&Hd&Ho&Hl&Hbl);
      [done..|].
    edestruct (parse_built_simplex b') as (g&Hg&Hgb&Hgc&Hgh&Hgbi&Hgp&Hgs&Hgsar&Hgr&Hghl&Hge&Hgpay&Hgpl);
      [exact Hwf'|exact Hd|done|lia|done..|].
    eexists _, b', g. split; [exact Hb|]. change DTAP_CRC_LEN with 2. split_and!; try done; try lia.
    + eapply (received_built b' crcInit _ _ (dataLen b + 5) DTAP_FRAME_SIMPLEX_FRAG); try exact Hd; first [done | apply header_bytes_ok | unfold DTAP_FRAME_DUPLEX_FRAG, DTAP_FRAME_SIMPLEX_FRAG; simpl; lia].
    + constructor; try done; rewrite Hgbi; apply check_bits_of.
Qed.

(** Round trip of an acknowledgement frame, with its sequence number, its
    normal/abnormal flag and its F bit. *)
Theorem ack_frame_roundtrip f tcid crcInit :
  is_u16 crcInit -> 0 <= ack_reqSeq f < 16384 ->
  exists f' b' g,
    DTAP_BuildAckFrame true f tcid crcInit = Some (DTAP_SUCCESS, f') /\ f_buff f' = Some b' /\
    buff_wf b' /\ dataLen b' = DTAP_ACK_FRAME_HEADER_LEN + DTAP_CRC_LEN /\
    DTAP_ParseFrame DTAP_FRAME_ACK b' frame0 = Some (DTAP_SUCCESS, g) /\
    received b' crcInit g [] /\ ack_reqSeq g = ack_reqSeq f /\ ack_sBit g = ack_sBit f /\
    DTAP_CheckFrameBit (bits g) DTAP_FRAME_F_BIT = DTAP_CheckFrameBit (bits f) DTAP_FRAME_F_BIT.
Proof.
  intros Hcrc Hreq. destruct (build_ack_spec f tcid crcInit Hcrc Hreq) as (b'&Hb&Hwf'&Hd&Hl&_).
  edestruct (parse_built_ack b') as (g&Hg&Hgb&Hgc&Hgh&Hgbi&Hgr&Hgs&Hgpay&Hgpl);
    [exact Hwf'|exact Hd|done|done|].
  eexists _, b', g. split; [exact Hb|]. split_and!; try done.
  - eapply (received_built b' crcInit _ [] 4 DTAP_FRAME_ACK); rewrite ?app_nil_r; try exact Hd;
      first [done | apply header_bytes_ok | apply Forall_nil; done | unfold DTAP_FRAME_ACK; simpl; lia].
  - rewrite Hgbi. by destruct (DTAP_CheckFrameBit (bits f) DTAP_FRAME_F_BIT).
Qed.

(** ** Parsing arbitrary bytes *)
Lemma ext_walk_safe num m dataLen p len :
  bytes_ok m -> 0 <= p - len -> 0 <= len <= dataLen -> dataLen < 65536 ->
  p - len + dataLen <= zlen m ->
  exists r, ext_walk num m dataLen p len = Some r /\
    (forall len', r = Some len' -> len <= len' <= dataLen).
Proof.
  intros Hm. revert p len. induction num as [|num IH]; intros p len Hp Hlen HdL Hz; simpl.
  - eexists; split; [done|]. intros ? [= <-]. lia.
  - unfold sizeof_DTAP_Extension. destruct (Z.ltb_spec dataLen len); [lia|].
    destruct (Z.ltb_spec (dataLen - len) 2); simpl; [eexists; split; [done|discriminate]|].
    rewrite (u16_small (len + 2)) by cint.
    destruct (rd_is_Some m (p + 1) ltac:(lia)) as [l Hl]. rewrite Hl. simpl.
    pose proof (rd_byte _ _ _ Hm Hl) as Hlb.
    destruct (Z.ltb_spec dataLen (len + 2)); simpl; [eexists; split; [done|discriminate]|].
    destruct (Z.ltb_spec (dataLen - (len + 2)) l); simpl; [eexists; split; [done|discriminate]|].
    rewrite u16_small by (unfold is_u8, is_u16 in *; lia).
    destruct (IH (p + 2 + l) (len + 2 + l)) as (r&Hr&Hb); try (unfold is_u8 in *; lia).
    exists r. split; [done|]. intros len' E. specialize (Hb len' E). unfold is_u8 in *. lia.
Qed.

(** A frame over a received buffer, before the parser has filled it in. *)
Record frame_over (b : SDF_Buff) (f : DTAP_Frame) : Prop := {
  fo_buff : f_buff f = Some b;
  fo_header : header f = Some (dataOff b)
}.

Definition seqs (f : DTAP_Frame) : Z * Z * Z * Z := (txSeq f, sar f, reqSeq f, ack_reqSeq f).

Lemma parse_extension_safe b f :
  buff_wf b -> frame_over b f -> extensionLen f = 0 -> 0 <= headerLen f <= dataLen b ->
  dataLen b - headerLen f < 65536 ->
  exists ret g, DTAP_ParseExtension f = Some (ret, g) /\ frame_over b g /\ ctx g = ctx f /\
    bits g = bits f /\ pi g = pi f /\ headerLen g = headerLen f /\
    seqs g = seqs f /\
    (ret = DTAP_SUCCESS -> 0 <= extensionLen g /\ headerLen f + extensionLen g <= dataLen b).
Proof.
  intros Hwf [Hb Hh] He Hhl Hlen. pose proof (wf_bytes b Hwf) as Hbytes.
  unfold DTAP_ParseExtension. rewrite Hb, Hh. unfold SDF_DataLenGet.
  destruct (Z.ltb_spec (dataLen b) (headerLen f)); [lia|].
  rewrite u16_small by cint. unfold sizeof_DTAP_ExtensionHeader.
  destruct (Z.ltb_spec (dataLen b - headerLen f) 1).
  { eexists _, _; split; [done|]. split_and!; try done. }
  pose proof (wf_off b Hwf). pose proof (wf_window b Hwf). pose proof (wf_block b Hwf).
  destruct (rd_is_Some (bmem b) (dataOff b + headerLen f) ltac:(lia)) as [num Hnum].
  cbn [headerLen]. rewrite Hnum. cbn [mbind option_bind].
  destruct (DTAP_EXTENSIONS_MAX_NUM <? num); [eexists _, _; split; [done|]; by split_and!|].
  destruct (ext_walk_safe (Z.to_nat num) (bmem b) (dataLen b - headerLen f)
    (dataOff b + headerLen f + 1) 1 Hbytes) as (r&->&Hr); try lia.
  cbn [mbind option_bind]. destruct r as [len|]; eexists _, _; (split; [reflexivity|]);
    split_and!; try done. specialize (Hr len eq_refl). intros _. cbn. lia.
Qed.

Lemma parse_enhance_safe hl b f :
  buff_wf b -> frame_over b f -> extensionLen f = 0 -> 5 <= hl ->
  dataLen b < 65536 + 5 ->
  exists ret g, DTAP_ParseEnhanceFrame hl f = Some (ret, g) /\ frame_over b g /\ ctx g = ctx f /\
    seqs g = seqs f /\
    (ret = DTAP_SUCCESS ->
       0 <= bits g < 16 /\ is_u8 (pi g) /\ headerLen g = hl /\ 0 <= extensionLen g /\
       0 <= payloadLen g /\ hl + extensionLen g + payloadLen g + 2 = dataLen b /\
       payload g = Some (dataOff b + hl + extensionLen g) /\ hl <= dataLen b).
Proof.
  intros Hwf Hf He Hhl Hlen. destruct Hf as [Hb Hh]. pose proof (wf_bytes b Hwf) as Hbytes.
  pose proof (wf_off b Hwf). pose proof (wf_window b Hwf). pose proof (wf_block b Hwf).
  unfold DTAP_ParseEnhanceFrame. rewrite Hb, Hh. cbn [mbind option_bind]. unfold SDF_DataLenGet.
  destruct (Z.ltb_spec (dataLen b) hl); [eexists _, _; split; [done|]; by split_and!|].
  destruct (rd_is_Some (bmem b) (dataOff b + 1) ltac:(lia)) as [t Ht]. rewrite Ht.
  destruct (rd_is_Some (bmem b) (dataOff b + DTAP_BASIC_HEADER_LEN)
    ltac:(unfold DTAP_BASIC_HEADER_LEN; lia)) as [p Hp].
  cbn [mbind option_bind]. rewrite Hp. cbn [mbind option_bind].
  pose proof (rd_byte _ _ _ Hbytes Ht) as Htb. pose proof (rd_byte _ _ _ Hbytes Hp) as Hpb.
  match goal with |- context [DTAP_ParseExtension ?x] => set (f1 := x) end.
  assert (Hf1 : frame_over b f1) by (split; [exact Hb|exact Hh]).
  assert (0 <= bits f1 < 16) as Hbits.
  { change (bits f1) with (Z.shiftr t 4). rewrite Z.shiftr_div_pow2 by lia.
    unfold is_u8 in Htb. change (2 ^ 4) with 16. Z.div_mod_to_equations; lia. }
  assert (exists ret g,
    (if negb (bf_get t 4 1 =? 0) then DTAP_ParseExtension f1 else Some (DTAP_SUCCESS, f1))
      = Some (ret, g) /\ frame_over b g /\ ctx g = ctx f /\ bits g = bits f1 /\ pi g = p /\
      headerLen g = hl /\ seqs g = seqs f /\
      (ret = DTAP_SUCCESS -> 0 <= extensionLen g /\ hl + extensionLen g <= dataLen b))
    as (ret&g&->&Hg&Hgc&Hgb&Hgp&Hgh&Hgq&Hgs).
  { destruct (negb (bf_get t 4 1 =? 0)).
    - destruct (parse_extension_safe b f1 Hwf Hf1 He) as (ret&g&->&?&?&?&?&?&?&?); [cbn; lia..|].
      exists ret, g. split_and!; try done.
    - eexists _, _; split; [done|]. split_and!; try done. intros _.
      change (extensionLen f1) with (extensionLen f). lia. }
  clearbody f1. cbn [mbind option_bind].
  destruct (Z.eqb_spec ret DTAP_SUCCESS) as [->|]; cbn [negb];
    [|eexists _, _; split; [done|]; by split_and!].
  destruct (Hgs eq_refl) as [Hx Hy].
  rewrite Hgh. unfold u16. rewrite Z.mod_small by lia. destruct Hg as [Hgb' Hgh'].
  match goal with |- context [payloadLen ?x <? _] =>
    change (payloadLen x) with (dataLen b - hl - extensionLen g) end.
  unfold DTAP_CRC_LEN. destruct (Z.ltb_spec (dataLen b - hl - extensionLen g) 2);
    eexists _, _; (split; [reflexivity|]); split_and!; try done; intros _.
  cbn. rewrite Hgb, Hgp, Hgh. split_and!; try done; try lia.
Qed.

Lemma ld16_in b i :
  buff_wf b -> 0 <= i -> i + 2 <= dataLen b ->
  exists v, ld16 (bmem b) (dataOff b + i) = Some v /\ is_u16 v.
Proof.
  intros [] Hi Hl. unfold ld16.
  destruct (rd_is_Some (bmem b) (dataOff b + i) ltac:(lia)) as [v0 H0].
  destruct (rd_is_Some (bmem b) (dataOff b + i + 1) ltac:(lia)) as [v1 H1].
  rewrite H0, H1. simpl. eexists; split; [done|].
  pose proof (rd_byte _ _ _ wf_bytes H0). pose proof (rd_byte _ _ _ wf_bytes H1).
  unfold is_u8, is_u16 in *. lia.
Qed.

(** What a successfully parsed frame of type [ty] promises. *)
Record parsed_wf (b : SDF_Buff) (ty : Z) (g : DTAP_Frame) : Prop := {
  pw_over : frame_over b g;
  pw_ctx : exists c, ctx g = Some c /\ getFrameType c = ty;
  pw_lens : 0 <= headerLen g /\ 0 <= extensionLen g /\ 0 <= payloadLen g;
  pw_sum : headerLen g + extensionLen g + payloadLen g
           + (if ty =? DTAP_FRAME_BASIC then 0 else DTAP_CRC_LEN) = dataLen b;
  pw_payload : ty <> DTAP_FRAME_BASIC ->
    payload g = Some (dataOff b + headerLen g + extensionLen g);
  pw_bits : 0 <= bits g < 16;
  pw_pi : is_u8 (pi g);
  pw_seq : 0 <= txSeq g <= DTAP_FRAME_SEQ_MAX;
  pw_sar : 0 <= sar g < 4;
  pw_ack : 0 <= ack_reqSeq g <= DTAP_FRAME_SEQ_MAX;
  pw_req : ty = DTAP_FRAME_DUPLEX_FRAG \/ ty = DTAP_FRAME_DUPLEX_AGGR ->
    0 <= reqSeq g <= DTAP_FRAME_SEQ_MAX;
  pw_none : ty = DTAP_FRAME_SIMPLEX_FRAG \/ ty = DTAP_FRAME_SIMPLEX_AGGR ->
    reqSeq g = DTAP_FRAME_SEQ_INIT
}.

Lemma bf_14 v : 0 <= bf_get v 0 14 <= DTAP_FRAME_SEQ_MAX.
Proof. pose proof (bf_get_range v 0 14 ltac:(lia)). unfold DTAP_FRAME_SEQ_MAX. lia. Qed.

Lemma get_frame_ctx_type ty c : 0 <= ty -> DTAP_GetFrameCtx ty = Some c -> getFrameType c = ty.
Proof.
  intros Hty. unfold DTAP_GetFrameCtx. destruct (Z.leb_spec DTAP_FRAME_MAX ty); [done|].
  unfold DTAP_FRAME_MAX in *.
  assert (ty = 0 \/ ty = 1 \/ ty = 2 \/ ty = 3 \/ ty = 4 \/ ty = 5 \/ ty = 6 \/ ty = 7) as E by lia.
  destruct E as [->|[->|[->|[->|[->|[->|[->| ->]]]]]]]; vm_compute; by intros [= <-].
Qed.

Lemma parse_frame_eq0 ty c b :
  DTAP_GetFrameCtx ty = Some c ->
  exists f, DTAP_ParseFrame ty b frame0 = parseFrame c f /\ frame_over b f /\ ctx f = Some c /\
    extensionLen f = 0 /\ seqs f = (0, 0, 0, 0) /\ bits f = 0.
Proof.
  intros Hc. unfold DTAP_ParseFrame. rewrite Hc. eexists; split; [reflexivity|]. by repeat split.
Qed.

Lemma parse_basic_safe b f :
  buff_wf b -> 4 <= dataLen b < 65536 + 4 -> frame_over b f -> ctx f = Some BasicCtx ->
  extensionLen f = 0 -> seqs f = (0, 0, 0, 0) -> bits f = 0 -> 
  exists ret g, DTAP_ParseBasicFrame f = Some (ret, g) /\
    (ret = DTAP_SUCCESS -> parsed_wf b DTAP_FRAME_BASIC g).
Proof.
  intros Hwf Hlen [Hb Hh] Hc He Hq Hbits. unfold DTAP_ParseBasicFrame. rewrite Hb, Hh.
  cbn [mbind option_bind]. injection Hq as H1 H2 H3 H4.
  pose proof (wf_bytes b Hwf) as Hbytes.
  pose proof (wf_off b Hwf). pose proof (wf_window b Hwf). pose proof (wf_block b Hwf).
  destruct (rd_is_Some (bmem b) (dataOff b) ltac:(lia)) as [t Ht]. rewrite Ht.
  cbn [mbind option_bind]. unfold SDF_DataLenGet, DTAP_BASIC_HEADER_LEN.
  assert (forall g, frame_over b g -> ctx g = Some BasicCtx -> extensionLen g = 0 ->
    seqs g = (0, 0, 0, 0) -> bits g = 0 -> is_u8 (pi g) -> 0 <= headerLen g -> 0 <= payloadLen g ->
    headerLen g + payloadLen g = dataLen b -> parsed_wf b DTAP_FRAME_BASIC g) as Hwfg.
  { intros g Hg Hgc Hge [= Q1 Q2 Q3 Q4] Hgb Hgp Hgh Hgpl Hsum. unfold DTAP_FRAME_BASIC.
    constructor; rewrite ?Hge, ?Hgb, ?Q1, ?Q2, ?Q4; unfold DTAP_FRAME_SEQ_MAX,
      DTAP_FRAME_DUPLEX_FRAG, DTAP_FRAME_DUPLEX_AGGR; try done; try (cbn; lia).
    - by exists BasicCtx.
    - intros [?|?]; discriminate. }
  destruct (t <=? TCID_FTC_RFU_END).
  - eexists _, _; split; [done|]. intros _. unfold u16. rewrite Z.mod_small by lia.
    apply Hwfg; cbn; try done; try lia; unfold seqs; cbn; congruence.
  - destruct (Z.ltb_spec (dataLen b) (4 + 1)); [eexists _, _; split; [done|]; discriminate|].
    destruct (rd_is_Some (bmem b) (dataOff b + 4) ltac:(lia)) as [p Hp]. rewrite Hp.
    eexists _, _; split; [done|]. intros _. unfold u16. rewrite Z.mod_small by lia.
    apply Hwfg; cbn; try done; try lia; try (unfold seqs; cbn; congruence).
    by eapply rd_byte.
Qed.

(** After the common part succeeded on an enhanced frame, filling in the sequence
    fields from header words gives a well-formed frame. *)
Lemma parsed_enhanced b c g0 g :
  frame_over b g0 -> c <> BasicCtx -> ctx g0 = Some c ->
  0 <= bits g0 < 16 /\ is_u8 (pi g0) /\ 0 <= headerLen g0 /\ 0 <= extensionLen g0 /\
    0 <= payloadLen g0 /\ headerLen g0 + extensionLen g0 + payloadLen g0 + 2 = dataLen b /\
    payload g0 = Some (dataOff b + headerLen g0 + extensionLen g0) ->
  (f_buff g, header g, ctx g, bits g, pi g) = (f_buff g0, header g0, ctx g0, bits g0, pi g0) ->
  (headerLen g, extensionLen g, payloadLen g, payload g)
    = (headerLen g0, extensionLen g0, payloadLen g0, payload g0) ->
  0 <= txSeq g <= DTAP_FRAME_SEQ_MAX -> 0 <= sar g < 4 -> 0 <= ack_reqSeq g <= DTAP_FRAME_SEQ_MAX ->
  (getFrameType c = DTAP_FRAME_DUPLEX_FRAG \/ getFrameType c = DTAP_FRAME_DUPLEX_AGGR ->
   0 <= reqSeq g <= DTAP_FRAME_SEQ_MAX) ->
  (getFrameType c = DTAP_FRAME_SIMPLEX_FRAG \/ getFrameType c = DTAP_FRAME_SIMPLEX_AGGR ->
   reqSeq g = DTAP_FRAME_SEQ_INIT) ->
  parsed_wf b (getFrameType c) g.
Proof.
  intros [Hb Hh] Hnb Hc (H1&H2&H3&H4&H5&H6&H7) [= E1 E2 E3 E4 E5] [= E6 E7 E8 E9] Ht Hs Ha Hr Hn.
  assert ((getFrameType c =? DTAP_FRAME_BASIC) = false) as Hty by (by destruct c).
  constructor; rewrite ?Hty, ?E4, ?E5, ?E6, ?E7, ?E8, ?E9; try done.
  - split; congruence.
  - exists c. split; [congruence|done].
Qed.

(** The common shape of the parsers of enhanced frames. *)
Lemma enhanced_parser hl b f0 (K : DTAP_Frame -> option (Z * DTAP_Frame)) (P : DTAP_Frame -> Prop) :
  buff_wf b -> frame_over b f0 -> extensionLen f0 = 0 -> 5 <= hl -> dataLen b < 65536 + 5 ->
  (forall g0, frame_over b g0 -> ctx g0 = ctx f0 -> seqs g0 = seqs f0 -> hl <= dataLen b ->
     0 <= bits g0 < 16 /\ is_u8 (pi g0) /\ 0 <= headerLen g0 /\ 0 <= extensionLen g0 /\
     0 <= payloadLen g0 /\ headerLen g0 + extensionLen g0 + payloadLen g0 + 2 = dataLen b /\
     payload g0 = Some (dataOff b + headerLen g0 + extensionLen g0) ->
     exists ret g, K g0 = Some (ret, g) /\ (ret = DTAP_SUCCESS -> P g)) ->
  exists ret g,
    ('(ret, frame) ← DTAP_ParseEnhanceFrame hl f0;
     if negb (ret =? DTAP_SUCCESS) then Some (ret, frame) else K frame) = Some (ret, g) /\
    (ret = DTAP_SUCCESS -> P g).
Proof.
  intros Hwf Hf He Hhl Hlen HK.
  destruct (parse_enhance_safe hl b f0 Hwf Hf He) as (ret&g0&->&Hg&Hgc&Hgq&Hgs); [lia..|].
  cbn [mbind option_bind]. destruct (Z.eqb_spec ret DTAP_SUCCESS) as [->|]; cbn [negb];
    [|eexists _, _; split; [done|]; done].
  destruct (Hgs eq_refl) as (?&?&Hh&?&?&?&?&?). apply HK; try done. rewrite Hh. split_and!; done || lia.
Qed.

Ltac fin :=
  try done; cbn; first
    [ apply bf_14 | apply (bf_get_range _ 14 2); lia | congruence
    | match goal with Q : _ = 0 |- _ => rewrite Q end; unfold DTAP_FRAME_SEQ_MAX; lia
    | intros [?|?]; discriminate
    | match goal with |- _ -> _ => intros; first [apply bf_14 | reflexivity] end ].

(** The parser is total, and what it accepts is well-formed. *)
Lemma parse_total b ty :
  buff_wf b -> DTAP_BASIC_HEADER_LEN <= dataLen b < 65536 + DTAP_BASIC_HEADER_LEN -> 0 <= ty ->
  exists ret g, DTAP_ParseFrame ty b frame0 = Some (ret, g) /\
    (ret = DTAP_SUCCESS -> parsed_wf b ty g).
Proof.
  intros Hwf Hlen Hty. unfold DTAP_BASIC_HEADER_LEN in Hlen.
  destruct (DTAP_GetFrameCtx ty) as [c|] eqn:Hc;
    [|unfold DTAP_ParseFrame; rewrite Hc; eexists _, _; by split].
  apply get_frame_ctx_type in Hc as Hct; [|done].
  destruct (parse_frame_eq0 ty c b Hc) as (f0&->&Hf0&Hc0&He0&Hq0&Hb0).
  destruct c; cbn [parseFrame]; subst ty; [by apply parse_basic_safe|..];
    (apply (enhanced_parser _ b); [exact Hwf|exact Hf0|exact He0|done|lia|]);
    intros g0 Hg Hgc Hgq Hle Hprops; rewrite (fo_header _ _ Hg);
    unfold frame_mem; rewrite (fo_buff _ _ Hg); cbn [mbind option_bind]; rewrite Hq0 in Hgq;
    injection Hgq as Q1 Q2 Q3 Q4;
    (match type of Hle with ?x <= _ => let y := eval vm_compute in x in change x with y in Hle end).
  - destruct (ld16_in b 5 Hwf) as (v&->&_); [lia..|].
    eexists _, _; split; [reflexivity|]; intros _.
    eapply (parsed_enhanced b SimplexAggrCtx g0); fin.
  - destruct (ld16_in b 5 Hwf) as (v&->&_); [lia..|].
    eexists _, _; split; [reflexivity|]; intros _.
    eapply (parsed_enhanced b SimplexFragCtx g0); fin.
  - destruct (ld16_in b 5 Hwf) as (v&->&_); [lia..|].
    destruct (ld16_in b 7 Hwf) as (v'&->&_); [lia..|].
    eexists _, _; split; [reflexivity|]; intros _.
    eapply (parsed_enhanced b DuplexAggrCtx g0); fin.
  - destruct (ld16_in b 5 Hwf) as (v&->&_); [lia..|].
    destruct (ld16_in b 7 Hwf) as (v'&->&_); [lia..|].
    eexists _, _; split; [reflexivity|]; intros _.
    eapply (parsed_enhanced b DuplexFragCtx g0); fin.
  - destruct (ld16_in b 4 Hwf) as (v&->&_); [lia..|].
    eexists _, _; split; [reflexivity|]; intros _.
    eapply (parsed_enhanced b AckCtx g0); fin.
Qed.

(** C18. Memory safety of parsing: whatever bytes arrive in a buffer that holds at
    least a basic header, and whatever type field they carry, the parser never
    reads outside the buffer's block; when it accepts, header, extension fields,
    payload and checksum tile the received bytes exactly and every field is within
    its width. *)
Theorem parse_frame_safe b ty :
  buff_wf b -> DTAP_BASIC_HEADER_LEN <= dataLen b < 65536 + DTAP_BASIC_HEADER_LEN -> 0 <= ty ->
  exists ret g, DTAP_ParseFrame ty b frame0 = Some (ret, g) /\
    (ret = DTAP_SUCCESS -> parsed_wf b ty g).
Proof. apply parse_total. Qed.

(** ** Witnesses *)
(** A three-byte payload with the usual room around it. *)
Definition demo_buff : SDF_Buff :=
  mk_buff 14 3 19 (replicate 14 0 ++ [0xA1; 0xB2; 0xC3] ++ [0; 0]).
Definition demo_frame : DTAP_Frame :=
  frame0 <| f_buff := Some demo_buff |> <| bits := DTAP_FRAME_C_BIT + DTAP_FRAME_P_BIT |>
         <| pi := 3 |> <| txSeq := 0x1234 |> <| reqSeq := 0x2A |> <| sar := DTAP_SAR_FIRST |>
         <| ack_reqSeq := 0x155 |> <| ack_sBit := true |>.

Lemma demo_buff_wf : buff_wf demo_buff.
Proof. constructor; closed_fact. Qed.

Lemma data_frame_roundtrip_witness :
  exists f' b' g,
    build_frag true demo_frame 0x80 0xFFFF = Some (DTAP_SUCCESS, f') /\ f_buff f' = Some b' /\
    buff_wf b' /\ dataLen b' = dataLen demo_buff + frag_hdr_len true + DTAP_CRC_LEN /\
    DTAP_ParseFrame (frag_type true) b' frame0 = Some (DTAP_SUCCESS, g) /\
    received b' 0xFFFF g [0xA1; 0xB2; 0xC3] /\ parsed_as true demo_frame g.
Proof.
  refine (data_frame_roundtrip true demo_frame demo_buff 0x80 0xFFFF _ demo_buff_wf _ _ _ _ _ _ _ _);
    closed_fact.
Defined.

Lemma ack_frame_roundtrip_witness :
  exists f' b' g,
    DTAP_BuildAckFrame true demo_frame 0x80 0xFFFF = Some (DTAP_SUCCESS, f') /\ f_buff f' = Some b' /\
    buff_wf b' /\ dataLen b' = DTAP_ACK_FRAME_HEADER_LEN + DTAP_CRC_LEN /\
    DTAP_ParseFrame DTAP_FRAME_ACK b' frame0 = Some (DTAP_SUCCESS, g) /\
    received b' 0xFFFF g [] /\ ack_reqSeq g = 0x155 /\ ack_sBit g = true /\
    DTAP_CheckFrameBit (bits g) DTAP_FRAME_F_BIT = false.
Proof. refine (ack_frame_roundtrip demo_frame 0x80 0xFFFF _ _); closed_fact. Defined.

(** A simplex fragment with one extension field, as it could arrive. *)
Definition demo_rx : SDF_Buff :=
  let d := [0x80; 0x32; 8; 0; 3; 5; 0; 1; 7; 1; 9; 0xA1; 0x34; 0x12] in
  mk_buff 0 (zlen d) (zlen d) d.

Lemma parse_frame_safe_witness :
  exists ret g, DTAP_ParseFrame DTAP_FRAME_SIMPLEX_FRAG demo_rx frame0 = Some (ret, g) /\
    (ret = DTAP_SUCCESS -> parsed_wf demo_rx DTAP_FRAME_SIMPLEX_FRAG g).
Proof.
  refine (parse_frame_safe demo_rx DTAP_FRAME_SIMPLEX_FRAG _ _ _); [|closed_fact|closed_fact].
  constructor; closed_fact.
Defined.
