(* ===== verification/DtapFragment.v ===== *)
(** * Segmentation, reassembly and aggregation

    The rest of [services/stack/src/dp/dtap/src/dtap_frame_enhance.c]: an SDU is
    cut into frames of at most [mps] bytes and put back together by the receiver;
    an aggregated frame carries several SDUs, each behind its length. *)
From S2P Require Import Prelude Utils SdfErrno SdfBuff DtapEnv DtapFrame.

Definition DTAP_MAX_FRAG_TOTAL_LEN : Z := 65535.
Definition sizeof_DTAP_AggregateSdu : Z := 2.

Definition DTAP_GetFragFrameSar (fragCnt curFragCnt : Z) : Z :=
  if fragCnt =? 1 then DTAP_SAR_UNSEG
  else if curFragCnt =? 1 then DTAP_SAR_FIRST
  else if curFragCnt <? fragCnt then DTAP_SAR_MID
  else DTAP_SAR_LAST.

Section frag.
Context {W : Type} `{World W}.

(** ** Segmentation *)

(** The loop of [DTAP_FragmentFrame]: [total] bytes are left, from [data] on;
    [out] are the frames made so far.  The inner [None] is the error exit, which
    destroys them. *)
Fixpoint fragment_loop (n : nat) (m : bytes) (frameType cnt mps total data : Z)
    (out : list DTAP_Frame) : ST W (option (list DTAP_Frame)) :=
  if total <=? 0 then st_ret (Some out)
  else
    match n with
    | O => st_ub
    | Datatypes.S n' =>
        let! fr := DTAP_CreateFrame frameType in
        match fr with
        | None => st_ret None
        | Some frame =>
            let buffLen := if mps =? 0 then total else if total <? mps then total else mps in
            let! ok := alloc_ok in
            match SDF_BuffNewWithReserve ok buffLen with
            | None => st_ret None
            | Some subBuff =>
                match SDF_BuffAppend (Some subBuff) buffLen with
                | None => st_ret None
                | Some (buffData, subBuff) =>
                    let! d := st_opt (rds m data (u32 buffLen)) in
                    let! subBuff := st_opt (memcpy_to subBuff buffData d) in
                    if DTAP_MAX_FRAGMENT_NUM <=? zlen out then st_ub
                    else
                      let i := zlen out + 1 in
                      let frame := frame <| f_buff := Some subBuff |>
                                         <| sar := DTAP_GetFragFrameSar cnt (u16 i) |> in
                      fragment_loop n' m frameType cnt mps (total - buffLen) (data + buffLen)
                        (out ++ [frame])
                end
            end
        end
    end.

(** Answers [outFrames] and the value left in [*outCnt], which was [outCnt]. *)
Definition DTAP_FragmentFrame (buff : option SDF_Buff) (mps frameType outCnt : Z) :
    ST W (list DTAP_Frame * Z) :=
  match buff with
  | None => st_ret ([], outCnt)
  | Some b =>
      if SDF_DataLenGet b =? 0 then st_ret ([], outCnt)
      else if negb (frameType =? DTAP_FRAME_SIMPLEX_FRAG) && negb (frameType =? DTAP_FRAME_DUPLEX_FRAG)
      then st_ret ([], outCnt)
      else
        let totalLen := SDF_DataLenGet b in
        let cnt := DTAP_GetFragmentFramesNum totalLen mps in
        if DTAP_MAX_FRAGMENT_NUM <? cnt then st_ret ([], 0)
        else
          let! r := fragment_loop (Z.to_nat totalLen) (bmem b) frameType cnt mps totalLen
                      (SDF_DataOffset b) [] in
          match r with
          | Some frames => st_ret (frames, cnt)
          | None => st_ret ([], 0)
          end
  end.

(** ** Reassembly *)

(** Answers the status and the new value of [*buffs]. *)
Definition DTAP_UpdateFragmentFrame (buffs buff : SDF_Buff) : ST W (Z * option SDF_Buff) :=
  let totalFragLen := u64 (SDF_DataLenGet buffs + SDF_DataLenGet buff) in
  if DTAP_MAX_FRAG_TOTAL_LEN <? totalFragLen then
    st_ret (DTAP_ENHANCED_FRAME_FRAGMENT_FRAME_LEN_ERR, None)
  else
    let! ok := alloc_ok in
    match SDF_BuffNewWithReserve ok totalFragLen with
    | None => st_ret (DTAP_ENHANCED_FRAME_UPDATE_FRAG_FRAME_ERR, None)
    | Some newBuff =>
        match SDF_BuffAppend (Some newBuff) (SDF_DataLenGet buffs) with
        | None => st_ret (DTAP_ENHANCED_FRAME_UPDATE_FRAG_FRAME_ERR, None)
        | Some (data, newBuff) =>
            let! d := st_opt (window_bytes buffs) in
            let! newBuff := st_opt (memcpy_to newBuff data d) in
            match SDF_BuffAppend (Some newBuff) (SDF_DataLenGet buff) with
            | None => st_ret (DTAP_ENHANCED_FRAME_UPDATE_FRAG_FRAME_ERR, None)
            | Some (data, newBuff) =>
                let! d := st_opt (window_bytes buff) in
                let! newBuff := st_opt (memcpy_to newBuff data d) in
                st_ret (DTAP_SUCCESS, Some newBuff)
            end
        end
    end.

(** The switch over the segmentation state: the status, the callback's result and
    the new value of [*buffs], for the payload left in [b] after trimming. *)
Definition recv_fragment_switch (buffs : option SDF_Buff) (sar : Z) (b : SDF_Buff)
    (info : DTAP_Data_Info) (recvCb : DTAP_DataRecvCb) : ST W (Z * Z * option SDF_Buff) :=
  if sar =? DTAP_SAR_UNSEG then
    match recvCb with
    | None => st_ret (DTAP_SUCCESS, DTAP_SUCCESS, buffs)
    | Some cb => let! result := recv_cb cb info b in st_ret (DTAP_SUCCESS, result, buffs)
    end
  else if sar =? DTAP_SAR_FIRST then
    let ret := match buffs with
               | Some _ => DTAP_ENHANCED_FRAME_DUP_FIRST_FRAG_FRAME
               | None => DTAP_SUCCESS end in
    let! ok := alloc_ok in
    st_ret (ret, DTAP_SUCCESS, SDF_BuffCopy ok (Some b))
  else if (sar =? DTAP_SAR_MID) || (sar =? DTAP_SAR_LAST) then
    match buffs with
    | None => st_ret (DTAP_ENHANCED_FRAME_NO_FIRST_FRAG_FRAME, DTAP_SUCCESS, None)
    | Some old =>
        let! (ret, buffs) := DTAP_UpdateFragmentFrame old b in
        if sar =? DTAP_SAR_LAST then
          match buffs with
          | None => st_ret (ret, DTAP_SUCCESS, None)
          | Some full =>
              match recvCb with
              | None => st_ret (ret, DTAP_SUCCESS, None)
              | Some cb => let! result := recv_cb cb info full in st_ret (ret, result, None)
              end
          end
        else st_ret (ret, DTAP_SUCCESS, buffs)
    end
  else st_ret (DTAP_SUCCESS, DTAP_SUCCESS, buffs).

(** Answers the status, [*buffs] and the frame (whose buffer has been trimmed). *)
Definition DTAP_RecvFragmentFrame (buffs : option SDF_Buff) (frame : DTAP_Frame)
    (info : DTAP_Data_Info) (recvCb : DTAP_DataRecvCb) : ST W (Z * option SDF_Buff * DTAP_Frame) :=
  match SDF_BuffTrimPrefix (f_buff frame) (headerLen frame + extensionLen frame) with
  | None => st_ret (DTAP_ENHANCED_FRAME_TRIM_PREFIX_ERR, buffs, frame)
  | Some (_, b) =>
      let '(trimmed, b') := SDF_BuffTrimSuffix (Some b) DTAP_CRC_LEN in
      if negb (trimmed =? 0) then
        st_ret (DTAP_ENHANCED_FRAME_TRIM_SUFFIX_ERR, buffs, frame <| f_buff := Some b |>)
      else
        let frame := frame <| f_buff := b' |> in
        let! b := st_opt b' in
        let! (ret, result, buffs) := recv_fragment_switch buffs (sar frame) b info recvCb in
        if result =? DTAP_TRANS_RELIABLE_TRANS_CHANNEL_FULL
        then st_ret (DTAP_TRANS_RELIABLE_TRANS_CHANNEL_FULL, buffs, frame)
        else st_ret (ret, buffs, frame)
  end.

(** ** Aggregated frames *)

(** The do-while loop: the SDU at [p] with [total] bytes from there on. *)
Fixpoint aggregate_loop (n : nat) (frame : DTAP_Frame) (info : DTAP_Data_Info) (cb : Z)
    (p total : Z) : ST W (Z * DTAP_Frame) :=
  match n with
  | O => st_ub
  | Datatypes.S n' =>
      if total <? sizeof_DTAP_AggregateSdu then
        st_ret (DTAP_ENHANCED_FRAME_SDU_HDR_LEN_TOO_SHORT, frame)
      else
        let total := total - sizeof_DTAP_AggregateSdu in
        let! sduLen := st_opt (DECODE2BYTE_LITTLE (frame_mem frame) p) in
        if (sduLen =? 0) || (total <? sduLen) then
          st_ret (DTAP_ENHANCED_FRAME_SDU_LEN_TOO_SHORT, frame)
        else
          let! ok := alloc_ok in
          match SDF_BuffNew ok sduLen with
          | None => st_ret (DTAP_ENHANCED_FRAME_BUFF_NEW_ERR, frame)
          | Some buff =>
              match SDF_BuffAppend (Some buff) sduLen with
              | None => st_ret (DTAP_ENHANCED_FRAME_APPEND_ERR, frame)
              | Some (data, buff) =>
                  let! d := st_opt (rds (frame_mem frame) (p + sizeof_DTAP_AggregateSdu) sduLen) in
                  let! buff := st_opt (memcpy_to buff data d) in
                  let! result := recv_cb cb info buff in
                  if result =? DTAP_TRANS_RELIABLE_TRANS_CHANNEL_FULL then
                    st_ret (DTAP_TRANS_RELIABLE_TRANS_CHANNEL_FULL,
                            frame <| payload := Some p |> <| payloadLen := total |>)
                  else
                    let total := total - sduLen in
                    if 0 <? total then
                      aggregate_loop n' frame info cb (p + sizeof_DTAP_AggregateSdu + sduLen) total
                    else st_ret (DTAP_SUCCESS, frame)
              end
          end
  end.

Definition DTAP_RecvAggregateFrame (frame : DTAP_Frame) (info : DTAP_Data_Info)
    (recvCb : DTAP_DataRecvCb) : ST W (Z * DTAP_Frame) :=
  match payload frame with
  | None => st_ret (DTAP_ENHANCED_FRAME_NULL, frame)
  | Some p =>
      match recvCb with
      | None => st_ret (DTAP_SUCCESS, frame)
      | Some cb =>
          if payloadLen frame =? 0 then st_ret (DTAP_SUCCESS, frame)
          else aggregate_loop (Z.to_nat (payloadLen frame)) frame info cb p (payloadLen frame)
      end
  end.
End frag.

(** ** Lemmas: the requests made *)
Definition is_alloc (c : call) : Prop := c = CAlloc.
Definition alloc_or_recv (c : call) : Prop :=
  match c with CAlloc | CRecv _ _ _ => True | _ => False end.

Section frag_only.
Context {W : Type} `{World W}.

Lemma only_create ft : asks_only is_alloc (DTAP_CreateFrame ft).
Proof. unfold DTAP_CreateFrame. requests. Qed.
Lemma only_copy f : asks_only is_alloc (DTAP_CopyFrame f).
Proof. unfold DTAP_CopyFrame. requests. Qed.
Lemma only_build c f tcid crc : asks_only is_alloc (buildFrame c f tcid crc).
Proof. unfold buildFrame. requests. Qed.
#[local] Hint Resolve only_create : only.

Lemma only_fragment_loop n m ft cnt mps total data out :
  asks_only is_alloc (fragment_loop n m ft cnt mps total data out).
Proof.
  revert total data out. induction n as [|n IH]; intros; cbn [fragment_loop]; requests.
Qed.
#[local] Hint Resolve only_fragment_loop : only.

Lemma only_fragment buff mps ft n : asks_only is_alloc (DTAP_FragmentFrame buff mps ft n).
Proof. unfold DTAP_FragmentFrame. requests. Qed.

Lemma only_recv_fragment buffs f info rcb : asks_only alloc_or_recv (DTAP_RecvFragmentFrame buffs f info rcb).
Proof.
  unfold DTAP_RecvFragmentFrame, recv_fragment_switch, DTAP_UpdateFragmentFrame, recv_cb. requests.
Qed.

Lemma only_aggregate_loop n f info cb p total : asks_only alloc_or_recv (aggregate_loop n f info cb p total).
Proof.
  revert p total. induction n as [|n IH]; intros; cbn [aggregate_loop]; unfold recv_cb; requests.
Qed.
#[local] Hint Resolve only_aggregate_loop : only.

Lemma only_recv_aggregate f info rcb : asks_only alloc_or_recv (DTAP_RecvAggregateFrame f info rcb).
Proof. unfold DTAP_RecvAggregateFrame. requests. Qed.
End frag_only.
#[export] Hint Resolve only_create only_copy only_build only_fragment only_recv_fragment
  only_recv_aggregate : only.

(** ** Specification of the receiver's frames *)

(** A received data frame whose payload is [D]. *)
Record rx_frame (f : DTAP_Frame) (D : bytes) : Prop := {
  rx_hdr : 0 <= headerLen f;
  rx_ext : 0 <= extensionLen f;
  rx_buff : exists b H C, f_buff f = Some b /\ buff_wf b /\ buff_data b = H ++ D ++ C /\
    zlen H = headerLen f + extensionLen f /\ zlen C = DTAP_CRC_LEN
}.

(** What the parser accepted, as the receiver of fragments sees it. *)
Lemma received_rx b crc ty g D :
  buff_wf b -> ty <> DTAP_FRAME_BASIC -> parsed_wf b ty g -> received b crc g D -> rx_frame g D.
Proof.
  intros Hwf Hty [_ _ (Hh&He&Hl) Hsum Hpay _ _ _ _ _ _ _] [_ _ _ (p&Hp&HD) Hb].
  rewrite (proj2 (Z.eqb_neq ty _)) in Hsum by done. rewrite Hpay in Hp by done. injection Hp as <-.
  unfold DTAP_CRC_LEN in Hsum. pose proof (length_buff_data b Hwf) as Hlen. constructor; [done..|].
  exists b, (take (Z.to_nat (headerLen g + extensionLen g)) (buff_data b)),
    (drop (Z.to_nat (headerLen g + extensionLen g + payloadLen g)) (buff_data b)).
  split_and!; [done|done| | |].
  - rewrite <- HD. unfold buff_data, mem_read. rewrite take_take, skipn_firstn_comm, drop_drop.
    pose proof (wf_off b Hwf).
    rewrite <- (take_drop (Z.to_nat (headerLen g + extensionLen g + payloadLen g))
      (take (Z.to_nat (dataLen b)) (drop (Z.to_nat (dataOff b)) (bmem b)))) at 1.
    rewrite app_assoc. f_equal; [|by rewrite skipn_firstn_comm, drop_drop].
    rewrite take_take.
    rewrite <- (take_drop (Z.to_nat (headerLen g + extensionLen g)) (take _ (drop (Z.to_nat (dataOff b)) (bmem b)))) at 1.
    rewrite take_take, skipn_firstn_comm, drop_drop.
    f_equal; [f_equal; lia|]. repeat (f_equal; try lia).
  - rewrite length_take. lia.
  - rewrite length_drop. unfold DTAP_CRC_LEN. lia.
Qed.

(** Both trims of the receiver leave exactly the payload. *)
Lemma trim_rx_frame f D :
  rx_frame f D ->
  exists p b1 b2, SDF_BuffTrimPrefix (f_buff f) (headerLen f + extensionLen f) = Some (p, b1) /\
    SDF_BuffTrimSuffix (Some b1) DTAP_CRC_LEN = (0, Some b2) /\ buff_wf b2 /\ buff_data b2 = D.
Proof.
  intros [Hh He (b&H&C&->&Hwf&Hd&HH&HC)]. pose proof (length_buff_data b Hwf) as Hl.
  rewrite Hd, !length_app in Hl. unfold DTAP_CRC_LEN in *.
  destruct (trim_prefix_spec b (headerLen f + extensionLen f) Hwf) as (b1&E1&Hwf1&Hd1&Hl1&_); [lia|].
  destruct (trim_suffix_spec b1 2 Hwf1) as (b2&E2&Hwf2&Hd2&Hl2&_); [lia|].
  eexists _, b1, b2. split_and!; try done.
  rewrite Hd2, Hd1, Hd, Hl1, drop_app_length' by lia.
  rewrite take_app_length' by lia. done.
Qed.

Section frag_facts.
Context {W : Type} `{World W}.

Lemma update_spec old b w :
  buff_wf old -> buff_wf b -> dataLen old + dataLen b <= DTAP_MAX_FRAG_TOTAL_LEN ->
  wp (DTAP_UpdateFragmentFrame old b) w (fun '(ret, r) w' =>
    exists a, trace w' = trace w ++ [(CAlloc, a)] /\
      if a =? 0 then r = None /\ ret = DTAP_ENHANCED_FRAME_UPDATE_FRAG_FRAME_ERR
      else ret = DTAP_SUCCESS /\
           exists nb, r = Some nb /\ buff_wf nb /\ buff_data nb = buff_data old ++ buff_data b).
Proof.
  intros Hwo Hwb Hlen. unfold DTAP_MAX_FRAG_TOTAL_LEN in Hlen.
  pose proof (wf_len old Hwo). pose proof (wf_len b Hwb).
  unfold DTAP_UpdateFragmentFrame, SDF_DataLenGet. rewrite u64_small by cint.
  destruct (Z.ltb_spec DTAP_MAX_FRAG_TOTAL_LEN (dataLen old + dataLen b));
    [unfold DTAP_MAX_FRAG_TOTAL_LEN in *; lia|].
  apply wp_bind, wp_alloc_ok. intros a w' Ht. destruct (Z.eqb_spec a 0) as [->|Ha]; cbn [negb].
  { apply wp_ret. exists 0. by split. }
  destruct (new_with_reserve_spec (dataLen old + dataLen b)) as (nb&->&Hwn&Hln&Hon&Hbn); [lia..|].
  pose proof (buff_data_ok old Hwo). pose proof (buff_data_ok b Hwb).
  destruct (append_copy_spec nb (buff_data old) (dataLen old) Hwn) as (p&b1&b2&->&E2&Hw2&Hd2&Ho2&Hl2&Hb2);
    [done|by rewrite length_buff_data|lia|].
  rewrite window_bytes_spec by done. apply wp_bind. eapply wp_opt; [done|].
  apply wp_bind. eapply wp_opt; [exact E2|].
  destruct (append_copy_spec b2 (buff_data b) (dataLen b) Hw2) as (p'&b3&b4&->&E4&Hw4&Hd4&_);
    [done|by rewrite length_buff_data|lia|].
  rewrite window_bytes_spec by done. apply wp_bind. eapply wp_opt; [done|].
  apply wp_bind. eapply wp_opt; [exact E4|]. apply wp_ret.
  exists a. split; [done|]. rewrite (proj2 (Z.eqb_neq a 0)) by done. split; [done|].
  exists b4. split_and!; try done. rewrite Hd4, Hd2, zlen_nil_data by done. done.
Qed.

Lemma wp_recv_head buffs f info rcb D w Q :
  rx_frame f D ->
  (forall b, buff_wf b -> buff_data b = D ->
     wp (recv_fragment_switch buffs (sar f) b info rcb) w (fun '(ret, result, bs) w' =>
       Q (if result =? DTAP_TRANS_RELIABLE_TRANS_CHANNEL_FULL
          then DTAP_TRANS_RELIABLE_TRANS_CHANNEL_FULL else ret, bs, f <| f_buff := Some b |>) w')) ->
  wp (DTAP_RecvFragmentFrame buffs f info rcb) w Q.
Proof.
  intros Hf HQ. destruct (trim_rx_frame f D Hf) as (p&b1&b2&E1&E2&Hwf&Hd).
  unfold DTAP_RecvFragmentFrame. rewrite E1, E2. cbn [Z.eqb negb].
  apply wp_bind. eapply wp_opt; [done|]. apply wp_bind.
  eapply wp_mono; [exact (HQ b2 Hwf Hd)|]. intros [[ret result] bs] w' HQ'.
  by destruct (result =? DTAP_TRANS_RELIABLE_TRANS_CHANNEL_FULL); apply wp_ret.
Qed.

(** One received fragment, by its segmentation state.  [whole] is what has been
    collected so far. *)
Definition collected (buffs : option SDF_Buff) (whole : bytes) : Prop :=
  exists b, buffs = Some b /\ buff_wf b /\ buff_data b = whole.

Lemma recv_unseg buffs f info cb D w :
  rx_frame f D -> sar f = DTAP_SAR_UNSEG ->
  wp (DTAP_RecvFragmentFrame buffs f info (Some cb)) w (fun '(ret, bs, _) w' =>
    exists a, trace w' = trace w ++ [(CRecv cb info D, a)] /\ bs = buffs /\
      ret = if a =? DTAP_TRANS_RELIABLE_TRANS_CHANNEL_FULL
            then DTAP_TRANS_RELIABLE_TRANS_CHANNEL_FULL else DTAP_SUCCESS).
Proof.
  intros Hf Hs. eapply wp_recv_head; [done|]. intros b Hwf Hd. rewrite Hs.
  unfold recv_fragment_switch. cbn [Z.eqb DTAP_SAR_UNSEG]. apply wp_bind, wp_ask.
  intros a w' Ht. apply wp_ret. exists a. by rewrite Hd in Ht.
Qed.

Lemma recv_first f info rcb D w :
  rx_frame f D -> sar f = DTAP_SAR_FIRST ->
  wp (DTAP_RecvFragmentFrame None f info rcb) w (fun '(ret, bs, _) w' =>
    ret = DTAP_SUCCESS /\ exists a, trace w' = trace w ++ [(CAlloc, a)] /\
      if a =? 0 then bs = None else collected bs D).
Proof.
  intros Hf Hs. eapply wp_recv_head; [done|]. intros b Hwf Hd. rewrite Hs.
  unfold recv_fragment_switch. cbn [Z.eqb DTAP_SAR_UNSEG DTAP_SAR_FIRST].
  apply wp_bind, wp_alloc_ok. intros a w' Ht. apply wp_ret. split; [done|]. exists a.
  split; [done|]. destruct (a =? 0) eqn:E; cbn [negb].
  - unfold SDF_BuffCopy. by case_match.
  - rewrite copy_wf by done. by exists b.
Qed.

Lemma recv_lost f info rcb D w :
  rx_frame f D -> sar f = DTAP_SAR_MID \/ sar f = DTAP_SAR_LAST ->
  wp (DTAP_RecvFragmentFrame None f info rcb) w (fun '(ret, bs, _) w' =>
    ret = DTAP_ENHANCED_FRAME_NO_FIRST_FRAG_FRAME /\ bs = None /\ w' = w).
Proof.
  intros Hf Hs. eapply wp_recv_head; [done|]. intros b Hwf Hd.
  by destruct Hs as [-> | ->].
Qed.

Lemma recv_mid f info rcb D whole buffs w :
  rx_frame f D -> sar f = DTAP_SAR_MID -> collected buffs whole ->
  zlen whole + zlen D <= DTAP_MAX_FRAG_TOTAL_LEN ->
  wp (DTAP_RecvFragmentFrame buffs f info rcb) w (fun '(ret, bs, _) w' =>
    exists a, trace w' = trace w ++ [(CAlloc, a)] /\
      if a =? 0 then bs = None else ret = DTAP_SUCCESS /\ collected bs (whole ++ D)).
Proof.
  intros Hf Hs (old&->&Hwo&<-) Hlen. eapply wp_recv_head; [done|]. intros b Hwf Hd. rewrite Hs.
  unfold recv_fragment_switch.
  cbn [Z.eqb Pos.eqb DTAP_SAR_UNSEG DTAP_SAR_FIRST DTAP_SAR_MID DTAP_SAR_LAST orb].
  apply wp_bind. eapply wp_mono; [apply update_spec; try done|].
  - rewrite <- Hd, !length_buff_data in Hlen by done. done.
  - intros [ret r] w' (a&Ht&Hr). apply wp_ret. exists a. split; [done|].
    destruct (a =? 0); [by destruct Hr|]. destruct Hr as (->&nb&->&Hwn&Hdn).
    split; [done|]. exists nb. by rewrite Hdn, Hd.
Qed.

Lemma recv_last f info cb D whole buffs w :
  rx_frame f D -> sar f = DTAP_SAR_LAST -> collected buffs whole ->
  zlen whole + zlen D <= DTAP_MAX_FRAG_TOTAL_LEN ->
  wp (DTAP_RecvFragmentFrame buffs f info (Some cb)) w (fun '(ret, bs, _) w' =>
    bs = None /\ exists a, if a =? 0 then trace w' = trace w ++ [(CAlloc, a)]
      else exists r, trace w' = trace w ++ [(CAlloc, a); (CRecv cb info (whole ++ D), r)]).
Proof.
  intros Hf Hs (old&->&Hwo&<-) Hlen. eapply wp_recv_head; [done|]. intros b Hwf Hd. rewrite Hs.
  unfold recv_fragment_switch.
  cbn [Z.eqb Pos.eqb DTAP_SAR_UNSEG DTAP_SAR_FIRST DTAP_SAR_MID DTAP_SAR_LAST orb].
  apply wp_bind. eapply wp_mono; [apply update_spec; try done|].
  - rewrite <- Hd, !length_buff_data in Hlen by done. done.
  - intros [ret r] w' (a&Ht&Hr). destruct (a =? 0) eqn:Ea.
    + destruct Hr as [-> _]. apply wp_ret. split; [done|]. exists a. by rewrite Ea.
    + destruct Hr as (->&nb&->&Hwn&Hdn). apply wp_bind, wp_ask. intros r w'' Ht'.
      apply wp_ret. split; [done|]. exists a. rewrite Ea. exists r.
      rewrite Ht', Ht, Hdn, Hd, <- app_assoc. done.
Qed.

(** Receiving a run of fragments. *)
Fixpoint recv_fragments (buffs : option SDF_Buff) (fs : list DTAP_Frame) (info : DTAP_Data_Info)
    (rcb : DTAP_DataRecvCb) : ST W (option SDF_Buff) :=
  match fs with
  | [] => st_ret buffs
  | f :: fs' =>
      let! (_, buffs', _) := DTAP_RecvFragmentFrame buffs f info rcb in
      recv_fragments buffs' fs' info rcb
  end.

(** The frames [fs] are the fragments [k], [k+1], ... of [n]. *)
Definition labelled (n k : Z) (fs : list DTAP_Frame) : Prop :=
  forall i f, fs !! i = Some f -> sar f = DTAP_GetFragFrameSar n (k + Z.of_nat i).

Lemma labelled_cons n k f fs :
  labelled n k (f :: fs) -> sar f = DTAP_GetFragFrameSar n k /\ labelled n (k + 1) fs.
Proof.
  intros Hl. split.
  - rewrite (Hl 0%nat f) by done. f_equal. lia.
  - intros i g Hg. rewrite (Hl (Datatypes.S i) g) by done. f_equal. lia.
Qed.

Lemma recv_fragments_lost fs Ds n k info rcb w :
  Forall2 rx_frame fs Ds -> labelled n k fs -> 2 <= k -> k + zlen fs = n + 1 ->
  wp (recv_fragments None fs info rcb) w (fun bs w' => bs = None /\ w' = w).
Proof.
  intros Hfs. revert k w. induction Hfs as [|f D fs Ds Hf Hfs IH]; intros k w Hl Hk Hn; simpl.
  - by apply wp_ret.
  - apply labelled_cons in Hl as [Hs Hl]. apply wp_bind.
    eapply wp_mono; [apply (recv_lost f info rcb D); [done|]|].
    + rewrite Hs. simpl in Hn. unfold DTAP_GetFragFrameSar.
      destruct (Z.eqb_spec n 1); [lia|]. destruct (Z.eqb_spec k 1); [lia|].
      destruct (k <? n); [by left|by right].
    + intros [[ret bs] g] w' (_&->&->). apply IH with (k := k + 1); try done; [lia|].
      simpl in Hn. lia.
Qed.

Lemma recv_fragments_rest fs Ds n k info cb whole buffs w :
  Forall2 rx_frame fs Ds -> labelled n k fs -> 2 <= k -> k + zlen fs = n + 1 -> fs <> [] ->
  collected buffs whole -> zlen whole + zlen (concat Ds) <= DTAP_MAX_FRAG_TOTAL_LEN ->
  wp (recv_fragments buffs fs info (Some cb)) w (fun bs w' => bs = None /\
    exists t, trace w' = trace w ++ t /\
      (alloc_failed t /\ delivered t = [] \/
       ~ alloc_failed t /\ delivered t = [whole ++ concat Ds])).
Proof.
  intros Hfs. revert k w whole buffs.
  induction Hfs as [|f D fs Ds Hf Hfs IH]; intros k w whole buffs Hl Hk Hn Hne Hb Hlen; [done|].
  apply labelled_cons in Hl as [Hs Hl]. simpl in *. rewrite length_app in Hlen.
  unfold DTAP_GetFragFrameSar in Hs.
  destruct (Z.eqb_spec n 1); [lia|]. destruct (Z.eqb_spec k 1); [lia|]. apply wp_bind.
  destruct (Z.ltb_spec k n).
  - eapply wp_mono; [eapply recv_mid; [done..|lia]|]. intros [[ret bs] g] w' (a&Ht&Hr).
    destruct (Z.eqb_spec a 0) as [->|Ha].
    + subst bs. eapply wp_mono; [apply (recv_fragments_lost fs Ds n (k + 1)); try done; lia|].
      intros bs' w'' [-> ->]. split; [done|]. exists [(CAlloc, 0)]. split; [done|]. left.
      split; [by apply list_elem_of_here|done].
    + destruct Hr as [_ Hc]. eapply wp_mono; [apply (IH (k + 1) w' (whole ++ D) bs)|]; try done; try lia.
      * intros ->. simpl in *. lia.
      * rewrite length_app. lia.
      * intros bs' w'' [-> (t&Ht'&Hd)]. split; [done|]. exists ((CAlloc, a) :: t).
        rewrite Ht', Ht, <- app_assoc. split; [done|]. unfold alloc_failed in *.
        rewrite elem_of_cons. rewrite <- app_assoc in Hd.
        destruct Hd as [[? Hd]|[? Hd]]; [left|right]; (split; [|exact Hd]); [by right|].
        intros [[=]|?]; [by subst|done].
  - assert (fs = []) as -> by (destruct fs; [done|simpl in *; lia]). inversion Hfs; subst.
    eapply wp_mono; [eapply recv_last; [done..|lia]|]. intros [[ret bs] g] w' [-> (a&Ht)].
    simpl. apply wp_ret. split; [done|]. rewrite app_nil_r. destruct (a =? 0) eqn:Ea.
    + apply Z.eqb_eq in Ea as ->. exists [(CAlloc, 0)]. split; [done|]. left.
      split; [by apply list_elem_of_here|done].
    + apply Z.eqb_neq in Ea. destruct Ht as [r Ht]. eexists; split; [exact Ht|]. right. split; [|done].
      unfold alloc_failed. rewrite !elem_of_cons, elem_of_nil. intros [[=]|[[=]|[]]]; by subst.
Qed.
End frag_facts.

(** ** Specification of the sender's fragments *)

(** A fragment ready for its header: its payload is [D], with room around it. *)
Record tx_frame (c : FrameCtx) (f : DTAP_Frame) (D : bytes) : Prop := {
  tx_ctx : ctx f = Some c;
  tx_cnt : reTxCnt f = 0;
  tx_buff : exists b, f_buff f = Some b /\ buff_wf b /\ buff_data b = D /\
    dataOff b = SDF_BUFF_MAX_HEADROOM_SIZE /\ dataOff b + dataLen b + DTAP_CRC_LEN <= buffLen b
}.

Definition ceil_div (n d : Z) : Z := (n + d - 1) / d.

Lemma ceil_div_step n d : 0 < d -> d < n -> ceil_div n d = 1 + ceil_div (n - d) d.
Proof. intros. unfold ceil_div. replace (n + d - 1) with (n - d + d - 1 + 1 * d) by lia.
  rewrite Z.div_add by lia. lia. Qed.

Lemma ceil_div_last n d : 0 < n <= d -> ceil_div n d = 1.
Proof. intros. unfold ceil_div. symmetry. apply Z.div_unique with (r := n - 1); lia. Qed.

Lemma ceil_div_nonneg n d : 0 <= n -> 0 < d -> 0 <= ceil_div n d.
Proof. intros. unfold ceil_div. apply Z.div_pos; lia. Qed.

Section frag_loop.
Context {W : Type} `{World W}.

Lemma wp_create_frame ft c w Q :
  DTAP_GetFrameCtx ft = Some c ->
  (forall a w', trace w' = trace w ++ [(CAlloc, a)] ->
     Q (if negb (a =? 0) then Some (frame0 <| ctx := Some c |>) else None) w') ->
  wp (DTAP_CreateFrame ft) w Q.
Proof.
  intros Hc HQ. unfold DTAP_CreateFrame. rewrite Hc. apply wp_bind, wp_alloc_ok.
  intros a w' Ht. by apply wp_ret, HQ.
Qed.

(** The outcome of the loop, from the frames [out] made before. *)
Definition loop_post (c : FrameCtx) (cnt sz : Z) (out : list DTAP_Frame) (rest : bytes) (w : W)
    (r : option (list DTAP_Frame)) (w' : W) : Prop :=
  exists t, trace w' = trace w ++ t /\
    match r with
    | None => alloc_failed t
    | Some fs => ~ alloc_failed t /\ exists fs' Ds, fs = out ++ fs' /\
        Forall2 (tx_frame c) fs' Ds /\ concat Ds = rest /\
        Forall (fun D => 0 < zlen D <= sz) Ds /\ zlen fs' = ceil_div (zlen rest) sz /\
        labelled cnt (zlen out + 1) fs'
    end.

Lemma loop_post_step c cnt sz out f D rest w w1 r w2 t1 :
  0 < sz -> trace w1 = trace w ++ t1 -> ~ alloc_failed t1 ->
  tx_frame c f D -> 0 < zlen D <= sz -> sar f = DTAP_GetFragFrameSar cnt (zlen out + 1) ->
  (rest = [] \/ zlen D = sz) ->
  loop_post c cnt sz (out ++ [f]) rest w1 r w2 -> loop_post c cnt sz out (D ++ rest) w r w2.
Proof.
  intros Hsz Ht1 Hn1 Hf HD Hs Hrest (t&Ht&Hr). exists (t1 ++ t).
  rewrite Ht, Ht1, <- app_assoc. split; [done|]. unfold alloc_failed in *.
  destruct r as [fs|]; [|apply elem_of_app; by right].
  destruct Hr as (Hn&fs'&Ds&->&Hfs&Hc&HDs&Hlen&Hl). split; [rewrite elem_of_app; tauto|].
  exists (f :: fs'), (D :: Ds). rewrite <- app_assoc. split_and!; try done.
  - by constructor.
  - simpl. by rewrite Hc.
  - by constructor.
  - simpl. rewrite length_app. destruct Hrest as [-> | HDsz].
    + change (zlen []) with 0 in Hlen. unfold ceil_div in Hlen. rewrite Z.div_small in Hlen by lia.
      rewrite ceil_div_last; simpl; lia.
    + destruct rest as [|x rest].
      * unfold ceil_div in Hlen. rewrite Z.div_small in Hlen by (simpl; lia).
        rewrite ceil_div_last; simpl; lia.
      * rewrite ceil_div_step by (simpl; lia).
        replace (Z.of_nat (length D + length (x :: rest)) - sz) with (zlen (x :: rest)) by lia. lia.
  - intros i g Hg. destruct i as [|i]; simpl in Hg.
    + injection Hg as <-. rewrite Hs. f_equal. lia.
    + rewrite (Hl i g Hg). f_equal. rewrite length_app. simpl. lia.
Qed.

Lemma fragment_loop_spec ft c m cnt mps sz n total data out w :
  DTAP_GetFrameCtx ft = Some c -> bytes_ok m -> 0 < sz ->
  (if mps =? 0 then total <= sz else sz = mps) ->
  0 <= data -> 0 <= total < 65536 -> data + total <= zlen m -> (Z.to_nat total <= n)%nat ->
  zlen out + ceil_div total sz <= DTAP_MAX_FRAGMENT_NUM ->
  wp (fragment_loop n m ft cnt mps total data out) w
    (loop_post c cnt sz out (mem_read m data total) w).
Proof.
  intros Hc Hm Hsz. revert total data out w.
  assert (forall data out w, loop_post c cnt sz out (mem_read m data 0) w (Some out) w) as Hdone.
  { intros data out w. exists []. rewrite app_nil_r. split; [done|].
    split; [by intros ?%elem_of_nil|]. exists [], []. rewrite app_nil_r.
    split_and!; try done. simpl. unfold ceil_div. by rewrite Z.div_small by lia. }
  induction n as [|n IH]; intros total data out w Hmps Hdata Htot Hin Hfuel Hcnt;
    cbn [fragment_loop]; (destruct (Z.leb_spec total 0);
      [assert (total = 0) as -> by lia; by apply wp_ret|]); [lia|].
  assert ((if mps =? 0 then total else if total <? mps then total else mps) = Z.min total sz) as ->.
  { destruct (mps =? 0); [lia|]. subst sz. destruct (Z.ltb_spec total mps); lia. }
  set (len := Z.min total sz). assert (0 < len <= total) as Hlen by lia.
  apply wp_bind, (wp_create_frame ft c); [done|]. intros a w1 Ht1.
  destruct (Z.eqb_spec a 0) as [->|Ha]; cbn [negb].
  { apply wp_ret. exists [(CAlloc, 0)]. split; [done|]. by apply list_elem_of_here. }
  apply wp_bind, wp_alloc_ok. intros a2 w2 Ht2. rewrite Ht1, <- app_assoc in Ht2.
  destruct (Z.eqb_spec a2 0) as [->|Ha2]; cbn [negb].
  { apply wp_ret. eexists; split; [exact Ht2|]. apply elem_of_cons. right. by apply list_elem_of_here. }
  destruct (new_with_reserve_spec len) as (b&->&Hwf&Hl&Ho&Hbl); [lia..|].
  set (D := mem_read m data len).
  assert (zlen D = len) as HD by (apply length_mem_read; lia).
  destruct (append_copy_spec b D len Hwf) as (p&b1&b2&->&Hcp&Hwf2&Hd2&Ho2&Hl2&Hbl2);
    [by apply bytes_ok_mem_read|done|lia|].
  apply wp_bind. eapply wp_opt.
  { rewrite u32_small by cint. unfold rds. by rewrite decide_True by lia. }
  fold D. apply wp_bind. eapply wp_opt; [exact Hcp|].
  pose proof (ceil_div_nonneg (total - len) sz ltac:(lia) Hsz) as Hnn.
  assert (ceil_div total sz = 1 + ceil_div (total - len) sz) as Hstep.
  { destruct (decide (sz < total)).
    - replace len with sz by lia. by apply ceil_div_step.
    - replace (total - len) with 0 by lia. rewrite ceil_div_last by lia.
      unfold ceil_div. by rewrite Z.div_small by lia. }
  destruct (Z.leb_spec DTAP_MAX_FRAGMENT_NUM (zlen out)); [lia|].
  match goal with |- context [out ++ [?x]] => set (f := x) end.
  eapply wp_mono.
  { apply (IH (total - len) (data + len) (out ++ [f]) w2); try lia.
    - destruct (mps =? 0); lia.
    - rewrite length_app. simpl. lia. }
  intros r w3 Hpost. replace total with (len + (total - len)) by lia.
  rewrite mem_read_app by lia. fold D.
  eapply (loop_post_step c cnt sz out f D _ w w2 r w3 _ Hsz Ht2); try done.
  - unfold alloc_failed. intros [E|[E|Hnil]%elem_of_cons]%elem_of_cons;
      [injection E as E; done|injection E as E; done|by apply elem_of_nil in Hnil].
  - constructor; [done|done|]. exists b2. rewrite Hd2, (zlen_nil_data b) by done. cbn.
    split_and!; try done; [by rewrite Ho2, Ho|].
    unfold DTAP_CRC_LEN. rewrite Ho2, Hl2, Hbl2. lia.
  - rewrite HD. lia.
  - change (sar f) with (DTAP_GetFragFrameSar cnt (u16 (zlen out + 1))).
    unfold DTAP_MAX_FRAGMENT_NUM in *. by rewrite u16_small by cint.
  - rewrite HD. destruct (decide (total <= sz)); [left|right; lia].
    replace (total - len) with 0 by lia. done.
Qed.
End frag_loop.

(** ** Theorems *)
Section frag_theorems.
Context {W : Type} `{World W}.

(** What segmentation produces, when no allocation fails. *)
Record fragments_of (duplex : bool) (b : SDF_Buff) (mps : Z) (frames : list DTAP_Frame)
    (Ds : list bytes) : Prop := {
  fo_frames : Forall2 (tx_frame (if duplex then DuplexFragCtx else SimplexFragCtx)) frames Ds;
  fo_count : zlen frames = DTAP_GetFragmentFramesNum (dataLen b) mps;
  fo_label : labelled (zlen frames) 1 frames;
  fo_concat : concat Ds = buff_data b;
  fo_sizes : Forall (fun D => 0 < zlen D <= (if mps =? 0 then dataLen b else mps)) Ds
}.

Lemma wp_fragment_frame (duplex : bool) b mps w (Q : list DTAP_Frame * Z -> W -> Prop) :
  buff_wf b -> 0 < dataLen b < 65536 -> 0 <= mps < 65536 ->
  DTAP_GetFragmentFramesNum (dataLen b) mps <= DTAP_MAX_FRAGMENT_NUM ->
  (forall t w', trace w' = trace w ++ t -> alloc_failed t -> Q ([], 0) w') ->
  (forall t w' frames Ds, trace w' = trace w ++ t -> ~ alloc_failed t ->
     fragments_of duplex b mps frames Ds -> Q (frames, zlen frames) w') ->
  wp (DTAP_FragmentFrame (Some b) mps (frag_type duplex) 0) w Q.
Proof.
  intros Hwf Hlen Hmps Hn Hfail Hdone. unfold DTAP_FragmentFrame, SDF_DataLenGet.
  destruct (Z.eqb_spec (dataLen b) 0); [lia|].
  replace (negb (frag_type duplex =? DTAP_FRAME_SIMPLEX_FRAG)
    && negb (frag_type duplex =? DTAP_FRAME_DUPLEX_FRAG))%bool with false by (by destruct duplex).
  set (cnt := DTAP_GetFragmentFramesNum (dataLen b) mps) in *.
  destruct (Z.ltb_spec DTAP_MAX_FRAGMENT_NUM cnt); [lia|].
  set (sz := if mps =? 0 then dataLen b else mps).
  assert (0 < sz) as Hsz by (subst sz; destruct (Z.eqb_spec mps 0); lia).
  assert (ceil_div (dataLen b) sz = cnt) as Hceil.
  { subst cnt sz. unfold DTAP_GetFragmentFramesNum. destruct (Z.eqb_spec mps 0).
    - by rewrite ceil_div_last by lia.
    - unfold ceil_div. rewrite (u16_small (dataLen b)) by cint. symmetry. apply u16_small.
      split; [apply Z.div_pos; lia|]. apply Z.div_lt_upper_bound; nia. }
  pose proof (wf_off b Hwf). pose proof (wf_window b Hwf). pose proof (wf_block b Hwf).
  apply wp_bind. eapply wp_mono.
  { eapply (fragment_loop_spec (frag_type duplex)
      (if duplex then DuplexFragCtx else SimplexFragCtx) (bmem b) cnt mps sz);
      [by destruct duplex|by apply wf_bytes|done| |done|lia|unfold SDF_DataOffset; lia|lia|].
    - subst sz. by destruct (Z.eqb_spec mps 0).
    - rewrite Hceil. simpl. lia. }
  intros r w' (t&Ht&Hr). destruct r as [fs|]; apply wp_ret; [|by eapply Hfail].
  destruct Hr as (Hnf&fs'&Ds&->&Hfs&Hc&HDs&Hl&Hlab). unfold SDF_DataOffset in *. simpl in *.
  rewrite length_mem_read in Hl by lia. assert (zlen fs' = cnt) as Hcnt by lia.
  rewrite <- Hcnt at 1. rewrite <- Hcnt in Hlab. by eapply Hdone.
Qed.

(** The segmentation states of the [n] fragments of an SDU, in order. *)
Definition sar_labels (n : nat) : list Z :=
  if (n =? 1)%nat then [DTAP_SAR_UNSEG]
  else [DTAP_SAR_FIRST] ++ replicate (n - 2) DTAP_SAR_MID ++ [DTAP_SAR_LAST].

(** [n] is the least number of fragments of at most [mps] bytes that hold [len] bytes;
    without a limit, one. *)
Definition least_fragments (len mps n : Z) : Prop :=
  if mps =? 0 then n = 1
  else len <= n * mps /\ forall k, len <= k * mps -> n <= k.

Lemma least_fragments_num len mps :
  0 < len < 65536 -> 0 <= mps < 65536 -> least_fragments len mps (DTAP_GetFragmentFramesNum len mps).
Proof.
  intros Hlen Hmps. unfold least_fragments, DTAP_GetFragmentFramesNum. destruct (Z.eqb_spec mps 0); [done|].
  rewrite (u16_small len) by cint. rewrite u16_small.
  - split; [|intros k Hk; apply Z.lt_succ_r, Z.div_lt_upper_bound; nia].
    pose proof (Z.div_mod (len + mps - 1) mps ltac:(lia)). pose proof (Z.mod_pos_bound (len + mps - 1) mps ltac:(lia)). nia.
  - split; [apply Z.div_pos; lia|]. apply Z.div_lt_upper_bound; nia.
Qed.

Lemma least_fragments_bound len mps n k :
  least_fragments len mps n -> (mps = 0 \/ len <= k * mps) -> 1 <= k -> n <= k.
Proof.
  unfold least_fragments. destruct (Z.eqb_spec mps 0) as [->|]; [lia|]. intros [_ Hn] [?|Hk] _; [done|by apply Hn].
Qed.

Lemma labelled_sar fs : fs <> [] -> labelled (zlen fs) 1 fs -> map sar fs = sar_labels (length fs).
Proof.
  intros Hne Hl. apply list_eq. intros i. rewrite list_lookup_fmap.
  destruct (decide (i < length fs)%nat) as [Hi|Hi].
  2:{ rewrite (lookup_ge_None_2 fs) by lia. cbn. symmetry. apply lookup_ge_None_2. unfold sar_labels.
      destruct (Nat.eqb_spec (length fs) 1); [simpl; lia|]. cbn. rewrite length_app, length_replicate. simpl.
      destruct fs as [|? [|? ?]]; [done|simpl in *; lia|simpl in *; lia]. }
  destruct (lookup_lt_is_Some_2 fs i Hi) as [f Hf]. rewrite Hf. cbn. rewrite (Hl i f Hf).
  unfold sar_labels, DTAP_GetFragFrameSar. destruct (Nat.eqb_spec (length fs) 1) as [E1|E1].
  { replace i with 0%nat by lia. by rewrite E1. }
  destruct (Z.eqb_spec (zlen fs) 1); [lia|]. destruct i as [|i]; [done|].
  destruct (Z.eqb_spec (1 + Z.of_nat (Datatypes.S i)) 1); [lia|].
  rewrite (lookup_app_r [DTAP_SAR_FIRST]) by (simpl; lia). cbn [length]. rewrite Nat.sub_succ, Nat.sub_0_r.
  destruct (Z.ltb_spec (1 + Z.of_nat (Datatypes.S i)) (zlen fs)).
  - rewrite lookup_app_l by (rewrite length_replicate; lia). by rewrite lookup_replicate_2 by lia.
  - rewrite lookup_app_r by (rewrite length_replicate; lia). rewrite length_replicate.
    by replace (i - (length fs - 2))%nat with 0%nat by lia.
Qed.

(** C30. Segmentation.  An SDU of at most 65535 bytes that fits 128 frames of at most
    [mps] bytes ([mps] zero: no limit) is cut, in order and without loss, into the least
    number of fragments of at most [mps] bytes that hold it, none empty; a single one
    is labelled unsegmented, of several the first is labelled first, the last one last
    and the others middle; each is in a buffer with room for the longest header and the
    checksum.  Only a failed allocation makes the function produce nothing, and an SDU
    that needs more frames is refused without any allocation. *)
Theorem fragment_frame_spec (duplex : bool) b mps w :
  buff_wf b -> 0 < dataLen b < 65536 -> 0 <= mps < 65536 ->
  wp (DTAP_FragmentFrame (Some b) mps (frag_type duplex) 0) w (fun '(frames, n) w' =>
    if decide (mps = 0 \/ dataLen b <= 128 * mps) then
      exists t, trace w' = trace w ++ t /\
        ((alloc_failed t /\ frames = [] /\ n = 0) \/
         (~ alloc_failed t /\ least_fragments (dataLen b) mps n /\ zlen frames = n /\
          map sar frames = sar_labels (length frames) /\
          exists Ds, Forall2 (tx_frame (if duplex then DuplexFragCtx else SimplexFragCtx)) frames Ds /\
            concat Ds = buff_data b /\
            Forall (fun D => 0 < zlen D <= (if mps =? 0 then dataLen b else mps)) Ds))
    else frames = [] /\ n = 0 /\ w' = w).
Proof.
  intros Hwf Hlen Hmps. pose proof (least_fragments_num (dataLen b) mps Hlen Hmps) as Hleast. case_decide as Hfit.
  - pose proof (least_fragments_bound _ _ _ 128 Hleast Hfit ltac:(lia)) as Hn. apply wp_fragment_frame; try done.
    + intros t w' Ht Hf. exists t. split; [done|]. by left.
    + intros t w' frames Ds Ht Hf [F1 F2 F3 F4 F5]. exists t. split; [done|]. right. rewrite F2.
      split_and!; try done; [|by exists Ds]. apply labelled_sar; [|done]. intros ->.
      unfold least_fragments in Hleast. rewrite <- F2 in Hleast. destruct (mps =? 0); simpl in Hleast; lia.
  - unfold DTAP_FragmentFrame, SDF_DataLenGet. destruct (Z.eqb_spec (dataLen b) 0); [lia|].
    replace (negb (frag_type duplex =? DTAP_FRAME_SIMPLEX_FRAG)
      && negb (frag_type duplex =? DTAP_FRAME_DUPLEX_FRAG))%bool with false by (by destruct duplex).
    unfold least_fragments in Hleast. destruct (Z.eqb_spec mps 0); [tauto|]. destruct Hleast as [Hle _].
    unfold DTAP_MAX_FRAGMENT_NUM. destruct (Z.ltb_spec 128 (DTAP_GetFragmentFramesNum (dataLen b) mps)); [by apply wp_ret|].
    exfalso. apply Hfit. right. nia.
Qed.

(** C35. Reassembly.  Received in order, the fragments of one SDU are handed to the
    upper layer as that SDU, once and in one piece; if an allocation fails on the
    way, nothing is handed up.  In both cases the reassembly buffer is empty again. *)
Theorem fragments_reassemble fs Ds info cb w :
  Forall2 rx_frame fs Ds -> labelled (zlen fs) 1 fs -> fs <> [] ->
  zlen (concat Ds) <= DTAP_MAX_FRAG_TOTAL_LEN ->
  wp (recv_fragments None fs info (Some cb)) w (fun bs w' => bs = None /\
    exists t, trace w' = trace w ++ t /\
      (alloc_failed t /\ delivered t = [] \/
       ~ alloc_failed t /\ delivered t = [concat Ds])).
Proof.
  intros Hfs Hl Hne Hlen. destruct Hfs as [|f D fs Ds Hf Hfs]; [done|].
  apply labelled_cons in Hl as [Hs Hl]. unfold DTAP_GetFragFrameSar in Hs.
  cbn [concat recv_fragments] in *. rewrite length_app in Hlen. apply wp_bind.
  destruct (Z.eqb_spec (zlen (f :: fs)) 1); simpl in *.
  - assert (fs = []) as -> by (destruct fs; [done|simpl in *; lia]). inversion Hfs; subst.
    eapply wp_mono; [by apply (recv_unseg None f info cb D)|].
    intros [[ret bs] g] w' (a&Ht&->&_). simpl. apply wp_ret. split; [done|].
    eexists; split; [exact Ht|]. right. rewrite app_nil_r. split; [|done].
    unfold alloc_failed. by intros Hin%list_elem_of_singleton.
  - eapply wp_mono; [apply (recv_first f info (Some cb) D); [exact Hf|exact Hs]|].
    intros [[ret bs] g] w' (_&a&Ht&Hb). destruct (Z.eqb_spec a 0) as [->|Ha].
    + subst bs. eapply wp_mono.
      { apply (recv_fragments_lost fs Ds (Z.of_nat (Datatypes.S (length fs))) 2); try done; lia. }
      intros bs' w'' [-> ->]. split; [done|]. exists [(CAlloc, 0)]. split; [done|]. left.
      split; [by apply list_elem_of_here|done].
    + eapply wp_mono.
      { eapply (recv_fragments_rest fs Ds (Z.of_nat (Datatypes.S (length fs))) 2); try done; try lia.
        intros ->. simpl in *. lia. }
      intros bs' w'' [-> (t&Ht'&Hd)]. split; [done|]. exists ((CAlloc, a) :: t).
      rewrite Ht', Ht, <- app_assoc. split; [done|]. unfold alloc_failed in *.
      rewrite elem_of_cons.
      destruct Hd as [[? Hd]|[? Hd]]; [left|right]; (split; [|exact Hd]); [by right|].
      intros [[=]|?]; [by subst|done].
Qed.
End frag_theorems.

(** ** A busy receiver

    When the upper layer answers [DTAP_TRANS_RELIABLE_TRANS_CHANNEL_FULL], the frame
    stays at the head of the receive window and is processed again later. *)
Section busy.
Context {W : Type} `{World W}.
Context (info : DTAP_Data_Info) (cb : Z).

Lemma recv_unseg_frame buffs f D w :
  rx_frame f D -> sar f = DTAP_SAR_UNSEG ->
  wp (DTAP_RecvFragmentFrame buffs f info (Some cb)) w (fun '(ret, bs, g) w' =>
    exists a b, trace w' = trace w ++ [(CRecv cb info D, a)] /\
      g = f <| f_buff := Some b |> /\ buff_wf b /\ buff_data b = D).
Proof.
  intros Hf Hs. eapply wp_recv_head; [done|]. intros b Hwf Hd. rewrite Hs.
  unfold recv_fragment_switch. cbn [Z.eqb DTAP_SAR_UNSEG]. apply wp_bind, wp_ask.
  intros a w' Ht. apply wp_ret. exists a, b. by rewrite Hd in Ht.
Qed.

(** Defect: the trims are not undone when the upper layer is busy, so the retry
    trims again.  An unsegmented SDU [D] that met a full receiver is handed up the
    second time without its first [headerLen + extensionLen] and its last two
    bytes. *)
Theorem fragment_retry_truncates buffs f D w :
  rx_frame f D -> sar f = DTAP_SAR_UNSEG ->
  headerLen f + extensionLen f + DTAP_CRC_LEN <= zlen D ->
  wp (DTAP_RecvFragmentFrame buffs f info (Some cb)) w (fun '(_, bs, g) w1 =>
    wp (DTAP_RecvFragmentFrame bs g info (Some cb)) w1 (fun _ w2 =>
      exists a1 a2, trace w2 = trace w ++ [(CRecv cb info D, a1);
        (CRecv cb info (mem_read D (headerLen f + extensionLen f)
                          (zlen D - (headerLen f + extensionLen f) - DTAP_CRC_LEN)), a2)])).
Proof.
  intros Hf Hs Hlen. eapply wp_mono; [by apply recv_unseg_frame|].
  intros [[ret bs] g] w1 (a1&b&Ht1&->&Hwf&Hd). destruct Hf as [Hh He _].
  set (hl := headerLen f + extensionLen f) in *. unfold DTAP_CRC_LEN in *.
  set (D2 := mem_read D hl (zlen D - hl - 2)).
  assert (rx_frame (f <| f_buff := Some b |>) D2) as Hf2.
  { constructor; [done|done|].
    exists b, (mem_read D 0 hl), (mem_read D (zlen D - 2) 2). split_and!; try done.
    - rewrite Hd. unfold D2. replace (zlen D - 2) with (hl + (zlen D - hl - 2)) by lia.
      rewrite <- mem_read_app by lia.
      replace hl with (0 + hl) at 2 by lia. rewrite <- mem_read_app by lia.
      unfold mem_read. rewrite take_ge; [done|]. simpl. rewrite drop_0. lia.
    - change (zlen (mem_read D 0 hl) = hl). by rewrite length_mem_read by lia.
    - unfold DTAP_CRC_LEN. by rewrite length_mem_read by lia. }
  eapply wp_mono; [apply recv_unseg_frame; [exact Hf2|exact Hs]|].
  intros [[ret2 bs2] g2] w2 (a2&b2&Ht2&_). exists a1, a2. by rewrite Ht2, Ht1, <- app_assoc.
Qed.
End busy.

(** ** Aggregated frames *)

(** The payload of an aggregated frame. *)
Definition encode_sdus (sdus : list bytes) : bytes :=
  concat ((fun s => ENCODE2BYTE_LITTLE (zlen s) ++ s) <$> sdus).

Definition sdus_ok (sdus : list bytes) : Prop := Forall (fun s => 0 < zlen s < 65536 /\ bytes_ok s) sdus.

(** The receiver was busy at some point of the trace. *)
Definition answered_full (t : list (call * Z)) : Prop :=
  exists c, (c, DTAP_TRANS_RELIABLE_TRANS_CHANNEL_FULL) ∈ t.

Section aggregate.
Context {W : Type} `{World W}.
Context (info : DTAP_Data_Info) (cb : Z).

(** One SDU at [p], with the bytes of [s] behind its length field. *)
Lemma sdu_at m p s rest total :
  mem_read m p total = ENCODE2BYTE_LITTLE (zlen s) ++ s ++ rest -> 0 <= p ->
  p + total <= zlen m -> 0 < zlen s < 65536 -> total = 2 + zlen s + zlen rest ->
  DECODE2BYTE_LITTLE m p = Some (zlen s) /\ rds m (p + 2) (zlen s) = Some s /\
  mem_read m (p + 2 + zlen s) (zlen rest) = rest.
Proof.
  intros Hm Hp Hin Hs ->. rewrite !mem_read_app in Hm by lia.
  assert (zlen (mem_read m p 2) = 2) by (apply length_mem_read; lia).
  assert (zlen (mem_read m (p + 2) (zlen s)) = zlen s) by (apply length_mem_read; lia).
  rewrite <- app_assoc in Hm. apply app_inj_1 in Hm as [E1 Hm]; [|simpl; lia].
  apply app_inj_1 in Hm as [E2 E3]; [|lia]. split_and!.
  - unfold DECODE2BYTE_LITTLE.
    assert (forall i, 0 <= i < 2 -> rd m (p + i) = rd (ENCODE2BYTE_LITTLE (zlen s)) i) as Hrd
      by (intros; by rewrite <- E1, rd_mem_read by lia).
    rewrite <- (Z.add_0_r p) at 1. rewrite !Hrd by lia. cbn [mbind option_bind rd].
    change (rd (ENCODE2BYTE_LITTLE (zlen s)) 0) with (Some (u8 (zlen s))).
    change (rd (ENCODE2BYTE_LITTLE (zlen s)) 1) with (Some (u8 (Z.shiftr (u16 (zlen s)) 8))).
    cbn [mbind option_bind]. by rewrite decode_encode2, !(u16_small (zlen s)) by cint.
  - unfold rds. by rewrite decide_True, E2 by lia.
  - by rewrite <- Z.add_assoc.
Qed.

Lemma aggregate_loop_spec f n p sdus w :
  sdus_ok sdus -> sdus <> [] -> 0 <= p -> p + zlen (encode_sdus sdus) <= zlen (frame_mem f) ->
  mem_read (frame_mem f) p (zlen (encode_sdus sdus)) = encode_sdus sdus ->
  (length (encode_sdus sdus) <= n)%nat ->
  wp (aggregate_loop n f info cb p (zlen (encode_sdus sdus))) w (fun '(ret, g) w' =>
    exists t, trace w' = trace w ++ t /\ delivered t `prefix_of` sdus /\
      (ret = DTAP_SUCCESS -> delivered t = sdus /\ g = f) /\
      (~ alloc_failed t -> ~ answered_full t -> ret = DTAP_SUCCESS)).
Proof.
  intros Hok Hne. revert n p w. induction Hok as [|s sdus [Hs Hsb] Hok IH];
    intros n p w Hp Hin Hm Hfuel; [done|].
  assert (encode_sdus (s :: sdus) = ENCODE2BYTE_LITTLE (zlen s) ++ s ++ encode_sdus sdus) as E.
  { done. }
  assert (zlen (encode_sdus (s :: sdus)) = 2 + zlen s + zlen (encode_sdus sdus)) as El.
  { rewrite E, !length_app. simpl. lia. }
  rewrite E in Hm at 2. destruct n as [|n]; [lia|].
  destruct (sdu_at _ _ _ _ _ Hm Hp Hin Hs El) as (Hdec&Hrds&Hrest).
  cbn [aggregate_loop]. unfold sizeof_DTAP_AggregateSdu. rewrite El.
  destruct (Z.ltb_spec (2 + zlen s + zlen (encode_sdus sdus)) 2); [lia|].
  apply wp_bind. eapply wp_opt; [exact Hdec|].
  destruct (Z.eqb_spec (zlen s) 0); [lia|].
  destruct (Z.ltb_spec (2 + zlen s + zlen (encode_sdus sdus) - 2) (zlen s)); [lia|]. cbn [orb].
  apply wp_bind, wp_alloc_ok. intros a w1 Ht1.
  destruct (Z.eqb_spec a 0) as [->|Ha]; cbn [negb].
  { apply wp_ret. exists [(CAlloc, 0)]. split; [done|]. split; [apply prefix_nil|].
    split; [discriminate|]. intros []. by apply list_elem_of_here. }
  destruct (new_spec (zlen s)) as (b&->&Hwf&Hl&Ho&Hbl); [lia|].
  destruct (append_copy_spec b s (zlen s) Hwf) as (q&b1&b2&->&Hcp&Hwf2&Hd2&_); [done|done|lia|].
  apply wp_bind. eapply wp_opt; [exact Hrds|]. apply wp_bind. eapply wp_opt; [exact Hcp|].
  rewrite (zlen_nil_data b) in Hd2 by done. simpl in Hd2.
  apply wp_bind, wp_ask. intros r w2 Ht2. rewrite Hd2, Ht1, <- app_assoc in Ht2.
  destruct (Z.eqb_spec r DTAP_TRANS_RELIABLE_TRANS_CHANNEL_FULL) as [->|Hr].
  { apply wp_ret. eexists; split; [exact Ht2|]. split; [by apply prefix_cons, prefix_nil|].
    split; [discriminate|]. intros _ []. eexists. apply elem_of_cons. right.
    by apply list_elem_of_here. }
  destruct (Z.ltb_spec 0 (2 + zlen s + zlen (encode_sdus sdus) - 2 - zlen s)) as [Hmore|Hend].
  - replace (2 + zlen s + zlen (encode_sdus sdus) - 2 - zlen s) with (zlen (encode_sdus sdus)) by lia.
    eapply wp_mono; [apply (IH ltac:(intros ->; simpl in Hmore; lia) n (p + 2 + zlen s) w2)|];
      try lia; [done|].
    intros [ret g] w3 (t&Ht3&Hpre&Hsucc&Hfail). exists ((CAlloc, a) :: (CRecv cb info s, r) :: t).
    rewrite Ht3, Ht2, <- app_assoc. split; [done|]. simpl. split; [by apply prefix_cons|].
    split; [intros Hret; by destruct (Hsucc Hret) as [-> ->]|].
    intros Hna Hnf. apply Hfail.
    + intros Hin'. apply Hna. unfold alloc_failed. rewrite !elem_of_cons. by do 2 right.
    + intros [c Hc]. apply Hnf. exists c. rewrite !elem_of_cons. by do 2 right.
  - assert (sdus = []) as ->.
    { destruct sdus as [|s' sdus]; [done|]. unfold encode_sdus in Hend. simpl in Hend.
      rewrite !length_app in Hend. simpl in Hend. lia. }
    apply wp_ret. eexists; split; [exact Ht2|]. split; [done|]. split; [done|done].
Qed.

(** Aggregated frames: the SDUs of a well-formed aggregated payload are handed
    to the upper layer in order, each exactly once and byte for byte; processing
    stops early only at a failed allocation or at a busy receiver, and success
    means that all of them were handed up. *)
Theorem aggregate_delivers f p sdus w :
  payload f = Some p -> sdus_ok sdus -> 0 <= p -> p + payloadLen f <= zlen (frame_mem f) ->
  payloadLen f = zlen (encode_sdus sdus) ->
  mem_read (frame_mem f) p (payloadLen f) = encode_sdus sdus ->
  wp (DTAP_RecvAggregateFrame f info (Some cb)) w (fun '(ret, g) w' =>
    exists t, trace w' = trace w ++ t /\ delivered t `prefix_of` sdus /\
      (ret = DTAP_SUCCESS -> delivered t = sdus /\ g = f) /\
      (~ alloc_failed t -> ~ answered_full t -> ret = DTAP_SUCCESS)).
Proof.
  intros Hpay Hok Hp Hin Hlen Hm. unfold DTAP_RecvAggregateFrame. rewrite Hpay.
  destruct (Z.eqb_spec (payloadLen f) 0) as [E|E].
  - assert (sdus = []) as ->.
    { destruct sdus as [|s sdus]; [done|]. exfalso. unfold encode_sdus in Hlen. simpl in Hlen. lia. }
    apply wp_ret. exists []. by rewrite app_nil_r.
  - rewrite Hlen in *. apply aggregate_loop_spec; try done; [by intros ->|lia].
Qed.

(** Defect: at a busy receiver the payload pointer is put back at the length
    field of the refused SDU, but [payloadLen] is already short of these two bytes.
    When that SDU is the last one, processing the frame again fails with
    a length error and the SDU is never handed up. *)
Theorem aggregate_retry_loses f p s w :
  payload f = Some p -> 0 < zlen s < 65536 -> bytes_ok s -> 0 <= p ->
  p + payloadLen f <= zlen (frame_mem f) -> payloadLen f = 2 + zlen s ->
  mem_read (frame_mem f) p (payloadLen f) = ENCODE2BYTE_LITTLE (zlen s) ++ s ->
  wp (DTAP_RecvAggregateFrame f info (Some cb)) w (fun '(ret, g) w1 =>
    ret = DTAP_TRANS_RELIABLE_TRANS_CHANNEL_FULL ->
    wp (DTAP_RecvAggregateFrame g info (Some cb)) w1 (fun '(ret2, _) w2 =>
      ret2 = (if zlen s =? 1 then DTAP_ENHANCED_FRAME_SDU_HDR_LEN_TOO_SHORT
              else DTAP_ENHANCED_FRAME_SDU_LEN_TOO_SHORT) /\ w2 = w1)).
Proof.
  intros Hpay Hs Hsb Hp Hin Hlen Hm. unfold DTAP_RecvAggregateFrame at 1. rewrite Hpay.
  destruct (Z.eqb_spec (payloadLen f) 0) as [E|E]; [lia|].
  rewrite Hlen in Hm, Hin |- *.
  destruct (sdu_at (frame_mem f) p s [] (2 + zlen s)) as (Hdec&Hrds&_);
    [by rewrite app_nil_r|done|lia|done|simpl; lia|].
  destruct (Z.to_nat (2 + zlen s)) as [|n] eqn:En; [lia|].
  cbn [aggregate_loop]. unfold sizeof_DTAP_AggregateSdu at 1.
  destruct (Z.ltb_spec (2 + zlen s) 2); [lia|].
  apply wp_bind. eapply wp_opt; [exact Hdec|].
  destruct (Z.eqb_spec (zlen s) 0); [lia|]. unfold sizeof_DTAP_AggregateSdu at 1.
  destruct (Z.ltb_spec (2 + zlen s - 2) (zlen s)); [lia|]. cbn [orb].
  apply wp_bind, wp_alloc_ok. intros a w1 Ht1. destruct (Z.eqb_spec a 0) as [->|Ha]; cbn [negb].
  { apply wp_ret. discriminate. }
  destruct (new_spec (zlen s)) as (b&->&Hwf&Hl&Ho&Hbl); [lia|].
  destruct (append_copy_spec b s (zlen s) Hwf) as (q&b1&b2&->&Hcp&_); [done|done|lia|].
  apply wp_bind. eapply wp_opt; [exact Hrds|]. apply wp_bind. eapply wp_opt; [exact Hcp|].
  apply wp_bind, wp_ask. intros r w2 Ht2.
  destruct (Z.eqb_spec r DTAP_TRANS_RELIABLE_TRANS_CHANNEL_FULL) as [->|Hr].
  - apply wp_ret. intros _. unfold DTAP_RecvAggregateFrame.
    match goal with |- context [payload ?g] => set (g1 := g) end.
    change (payload g1) with (Some p). change (payloadLen g1) with (2 + zlen s - sizeof_DTAP_AggregateSdu).
    unfold sizeof_DTAP_AggregateSdu. replace (2 + zlen s - 2) with (zlen s) by lia.
    destruct (Z.eqb_spec (zlen s) 0); [lia|].
    destruct (Z.to_nat (zlen s)) as [|n'] eqn:En'; [lia|]. cbn [aggregate_loop].
    change (frame_mem g1) with (frame_mem f). unfold sizeof_DTAP_AggregateSdu.
    destruct (Z.ltb_spec (zlen s) 2).
    + apply wp_ret. by rewrite (proj2 (Z.eqb_eq (zlen s) 1)) by lia.
    + rewrite (proj2 (Z.eqb_neq (zlen s) 1)) by lia. apply wp_bind. eapply wp_opt; [exact Hdec|]. destruct (Z.eqb_spec (zlen s) 0); [lia|].
      destruct (Z.ltb_spec (zlen s - 2) (zlen s)); [|lia]. cbn [orb]. by apply wp_ret.
  - destruct (Z.ltb_spec 0 (2 + zlen s - sizeof_DTAP_AggregateSdu - zlen s));
      [unfold sizeof_DTAP_AggregateSdu in *; lia|]. apply wp_ret. discriminate.
Qed.
End aggregate.

(** ** Witnesses *)

(** A world in which everything succeeds except that callbacks answer what the
    script says. *)
Definition world0 : script := mk_script [] [].

(** The payload of [demo_rx_frame] is its last bytes but the two of the checksum. *)
Definition demo_rx_frame (s : Z) (D : bytes) : DTAP_Frame :=
  let d := [0x80; 0x22; 0; 0; 3; 0; 0] ++ D ++ [0; 0] in
  frame0 <| f_buff := Some (mk_buff 0 (zlen d) (zlen d) d) |> <| headerLen := 7 |> <| sar := s |>
         <| payload := Some 7 |> <| payloadLen := zlen D |>.

Lemma demo_rx_frame_ok s D :
  bytes_ok D -> zlen D < 1000 -> rx_frame (demo_rx_frame s D) D.
Proof.
  intros HD Hl. constructor; [cbn; lia|cbn; lia|].
  set (d := [0x80; 0x22; 0; 0; 3; 0; 0] ++ D ++ [0; 0]).
  assert (zlen d = 9 + zlen D) as Hd by (unfold d; rewrite !length_app; simpl; lia).
  exists (mk_buff 0 (zlen d) (zlen d) d), [0x80; 0x22; 0; 0; 3; 0; 0], [0; 0]. split_and!; try done.
  - constructor; cbn [dataOff dataLen buffLen bmem]; try lia. unfold d.
    repeat apply Forall_app_2; repeat constructor; cint || done.
  - unfold buff_data, mem_read; cbn [dataOff dataLen bmem]. rewrite drop_0. by rewrite take_ge by lia.
Qed.

Definition demo_sdu : list bytes := [[1; 2; 3]; [4; 5; 6]; [7]].

Lemma fragments_reassemble_witness :
  wp (recv_fragments None
        [demo_rx_frame DTAP_SAR_FIRST [1; 2; 3]; demo_rx_frame DTAP_SAR_MID [4; 5; 6];
         demo_rx_frame DTAP_SAR_LAST [7]] (mk_info 3 1 0x80) (Some 77)) world0
    (fun bs w' => bs = None /\ exists t, past w' = [] ++ t /\
      (alloc_failed t /\ delivered t = [] \/
       ~ alloc_failed t /\ delivered t = [[1; 2; 3; 4; 5; 6; 7]])).
Proof.
  refine (fragments_reassemble _ demo_sdu (mk_info 3 1 0x80) 77 world0 _ _ _ _).
  - repeat constructor; apply demo_rx_frame_ok; repeat constructor; cint || (simpl; lia).
  - intros i f Hi. do 3 (destruct i as [|i]; [injection Hi as <-; reflexivity|]). done.
  - done.
  - vm_compute. discriminate.
Defined.

Definition demo_tx : SDF_Buff := mk_buff 14 7 23 (replicate 14 0 ++ [1; 2; 3; 4; 5; 6; 7] ++ [0; 0]).

Lemma fragment_frame_spec_witness :
  wp (DTAP_FragmentFrame (Some demo_tx) 3 (frag_type false) 0) world0 (fun '(frames, n) w' =>
    exists t, past w' = [] ++ t /\
      ((alloc_failed t /\ frames = [] /\ n = 0) \/
       (~ alloc_failed t /\ least_fragments 7 3 n /\ zlen frames = n /\
        map sar frames = sar_labels (length frames) /\
        exists Ds, Forall2 (tx_frame SimplexFragCtx) frames Ds /\ concat Ds = buff_data demo_tx /\
          Forall (fun D => 0 < zlen D <= 3) Ds))).
Proof.
  refine (fragment_frame_spec false demo_tx 3 world0 _ _ _); [constructor| |]; closed_fact.
Defined.

Lemma fragment_retry_truncates_witness :
  wp (DTAP_RecvFragmentFrame None (demo_rx_frame DTAP_SAR_UNSEG [1; 2; 3; 4; 5; 6; 7; 8; 9; 10; 11])
        (mk_info 3 1 0x80) (Some 77)) world0 (fun '(_, bs, g) w1 =>
    wp (DTAP_RecvFragmentFrame bs g (mk_info 3 1 0x80) (Some 77)) w1 (fun _ w2 =>
      exists a1 a2, past w2 = [] ++
        [(CRecv 77 (mk_info 3 1 0x80) [1; 2; 3; 4; 5; 6; 7; 8; 9; 10; 11], a1);
         (CRecv 77 (mk_info 3 1 0x80) [8; 9], a2)])).
Proof.
  refine (fragment_retry_truncates (mk_info 3 1 0x80) 77 None _
    [1; 2; 3; 4; 5; 6; 7; 8; 9; 10; 11] world0 _ _ _).
  - apply demo_rx_frame_ok; [repeat constructor; cint|simpl; lia].
  - reflexivity.
  - vm_compute. discriminate.
Defined.

Definition demo_aggr : DTAP_Frame := demo_rx_frame 0 (encode_sdus [[1; 2]; [3; 4; 5]]).

Lemma aggregate_delivers_witness :
  wp (DTAP_RecvAggregateFrame demo_aggr (mk_info 3 1 0x80) (Some 77)) world0 (fun '(ret, g) w' =>
    exists t, past w' = [] ++ t /\ delivered t `prefix_of` [[1; 2]; [3; 4; 5]] /\
      (ret = DTAP_SUCCESS -> delivered t = [[1; 2]; [3; 4; 5]] /\ g = demo_aggr) /\
      (~ alloc_failed t -> ~ answered_full t -> ret = DTAP_SUCCESS)).
Proof.
  refine (aggregate_delivers (mk_info 3 1 0x80) 77 demo_aggr 7 [[1; 2]; [3; 4; 5]] world0 _ _ _ _ _ _);
    closed_fact.
Defined.

Lemma aggregate_retry_loses_witness :
  wp (DTAP_RecvAggregateFrame (demo_rx_frame 0 (encode_sdus [[3; 4; 5]])) (mk_info 3 1 0x80) (Some 77))
     (mk_script [1; DTAP_TRANS_RELIABLE_TRANS_CHANNEL_FULL] []) (fun '(ret, g) w1 =>
    ret = DTAP_TRANS_RELIABLE_TRANS_CHANNEL_FULL ->
    wp (DTAP_RecvAggregateFrame g (mk_info 3 1 0x80) (Some 77)) w1 (fun '(ret2, _) w2 =>
      ret2 = DTAP_ENHANCED_FRAME_SDU_LEN_TOO_SHORT /\ w2 = w1)).
Proof.
  refine (aggregate_retry_loses (mk_info 3 1 0x80) 77 _ 7 [3; 4; 5] _ _ _ _ _ _ _ _);
    closed_fact.
Defined.
