(* ===== verification/DtapTrans.v ===== *)
(** * What the transmission modes share

    [services/stack/src/dp/dtap/src/dtap_trans.c] with the types of
    [dtap_channel.h] and [dtap_trans.h]: sequence-number arithmetic, timers, the
    table of transmission modes, and the interface [Scheduler] through which a
    mode hands a frame to the packet scheduler. *)
From S2P Require Import Prelude SdfErrno SdfBuff DtapEnv DtapFrame.

(** [CM_TransChannelMode] *)
Definition CM_TRANS_MODE_BASIC : Z := 0.
Definition CM_TRANS_MODE_TRANSPARENT : Z := 1.
Definition CM_TRANS_MODE_STREAM : Z := 2.
Definition CM_TRANS_MODE_RELIABLE : Z := 3.
Definition CM_TRANS_MODE_MAX : Z := 4.

(** [DTAP_CAST_MODE] *)
Definition DTAP_FRAME_UNICAST : Z := 0.
Definition DTAP_FRAME_MULTICAST : Z := 1.
Definition DTAP_FRAME_BROADCAST : Z := 2.

(** [DTAP_ChannelPriority] *)
Definition DTAP_PRIORITY_FRAGMENT : Z := 0.
Definition DTAP_PRIORITY_CMD : Z := 1.
Definition DTAP_PRIORITY_HIGH : Z := 2.
Definition DTAP_PRIORITY_NORMAL : Z := 3.
Definition DTAP_PRIORITY_MAX : Z := 4.

Definition INVALID_TIMER_HANDLE : Z := -1.

(** The attributes of [DTAP_Channel_S] that the transmission modes read.
    [ch_ptr] is the address of the object, by which the scheduler knows the
    channel; its packet list belongs to the scheduler ([DtapScheduler]) and its
    [attr] to the mode ([DtapReliable], [DtapStream], [DtapBasic]). *)
Record DTAP_Channel := mk_channel {
  ch_ptr : Z;
  ch_priority : Z;
  ch_type : Z;
  ch_lcid : Z;
  ch_srcTcid : Z;
  ch_dstTcid : Z;
  ch_mode : Z;
  ch_mtu : Z;
  ch_mps : Z;
  ch_castMode : Z
}.
#[export] Instance eta_channel : Eta DTAP_Channel := fun c =>
  mk_channel (ch_ptr c) (ch_priority c) (ch_type c) (ch_lcid c) (ch_srcTcid c) (ch_dstTcid c)
    (ch_mode c) (ch_mtu c) (ch_mps c) (ch_castMode c).

(** ** The table of transmission modes *)
Inductive TransMode := BasicMode | TransparentMode | StreamMode | ReliableMode.
#[export] Instance TransMode_eq_dec : EqDecision TransMode.
Proof. solve_decision. Defined.

Definition DTAP_GetBasicModeType : Z := CM_TRANS_MODE_BASIC.
Definition DTAP_GetTransparentModeType : Z := CM_TRANS_MODE_TRANSPARENT.
Definition DTAP_GetStreamModeType : Z := CM_TRANS_MODE_STREAM.
Definition DTAP_GetReliableModeType : Z := CM_TRANS_MODE_RELIABLE.

(** [getModeType()] *)
Definition getModeType (m : TransMode) : Z :=
  match m with
  | BasicMode => DTAP_GetBasicModeType
  | TransparentMode => DTAP_GetTransparentModeType
  | StreamMode => DTAP_GetStreamModeType
  | ReliableMode => DTAP_GetReliableModeType
  end.

Definition DTAP_RegisterTransMode (t : list (option TransMode)) (m : TransMode) :
    list (option TransMode) :=
  let modeType := getModeType m in
  if modeType <? CM_TRANS_MODE_MAX then <[Z.to_nat modeType := Some m]> t else t.

Definition DTAP_RegisterBasicTransMode t := DTAP_RegisterTransMode t BasicMode.
Definition DTAP_RegisterTransparentMode t := DTAP_RegisterTransMode t TransparentMode.
Definition DTAP_RegisterStreamMode t := DTAP_RegisterTransMode t StreamMode.
Definition DTAP_RegisterReliableTransMode t := DTAP_RegisterTransMode t ReliableMode.

(** [g_dtapTransMode] once [DTAP_Init] has registered the modes. *)
Definition g_dtapTransMode : list (option TransMode) :=
  DTAP_RegisterReliableTransMode (DTAP_RegisterStreamMode (DTAP_RegisterTransparentMode
    (DTAP_RegisterBasicTransMode (replicate (Z.to_nat CM_TRANS_MODE_MAX) None)))).

Definition DTAP_GetTransMode (modeType : Z) : option TransMode :=
  if CM_TRANS_MODE_MAX <=? modeType then None
  else mjoin (g_dtapTransMode !! Z.to_nat modeType).

(** ** Sequence numbers *)
Definition DTAP_IsFrameSeqSmaller (own other : Z) : bool :=
  Z.land (u16 (own - other)) DTAP_FRAME_SEQ_SIGN_MASK =? DTAP_FRAME_SEQ_SIGN_MASK.

Definition DTAP_GetNextFrameSeq (seq : Z) : Z :=
  let nextSeq := u16 (seq + 1) in
  if DTAP_FRAME_SEQ_MAX <? nextSeq then 0 else nextSeq.

(** ** Timers

    Each answers the status and the new value of [*timer].  A request for a timer
    is answered by a positive handle, stored in [*timer], or by a number [a] up to
    0 that stands for the failure status [1 - a] and leaves [*timer] alone. *)

Section timers.
Context {W : Type} `{World W}.

Definition CP_TimerAdd (timer : Z) (proc : timer_proc) (expires : Z) (period : bool) : ST W (Z * Z) :=
  let! a := ask (CTimerAdd proc expires period) in
  st_ret (if 0 <? a then (SDF_OK, a) else (1 - a, timer)).

Definition CP_TimerDel (handle : Z) : ST W unit := ask (CTimerDel handle) ;;! st_ret tt.

Definition DTAP_TransStartTimer (timer expire : Z) (isPeriodic : bool) (cbk : timer_proc) :
    ST W (Z * Z) :=
  let! (ret, timer) := CP_TimerAdd timer cbk expire isPeriodic in
  if negb (ret =? SDF_OK) then st_ret (ret, timer) else st_ret (DTAP_SUCCESS, timer).

Definition DTAP_TransStopTimer (timer : Z) : ST W Z :=
  if timer =? INVALID_TIMER_HANDLE then st_ret timer
  else CP_TimerDel timer ;;! st_ret INVALID_TIMER_HANDLE.

Definition DTAP_TransRestartTimer (timer expire : Z) (isPeriodic : bool) (cbk : timer_proc) :
    ST W (Z * Z) :=
  let! timer := DTAP_TransStopTimer timer in
  DTAP_TransStartTimer timer expire isPeriodic cbk.
End timers.

(** ** The scheduler, as the modes see it

    [DTAP_DataSendWithPriority] takes the channel by its address and a buffer,
    null included.  [sched_ok p w] says that the scheduler may be called for the
    channel at [p]: what [DtapScheduler] keeps invariant, and no other party
    breaks.  A call hands nothing to the upper layers. *)
Definition sched_call (c : call) : Prop :=
  match c with CAlloc | CDliSend _ _ | CTimeMs | CCollab _ => True | _ => False end.

(** A buffer the scheduler can send: the DLI header is written in its headroom. *)
Definition sendable (b : SDF_Buff) : Prop :=
  buff_wf b /\ DLI_HEADER <= dataOff b /\ 0 < dataLen b.

Class Scheduler (W : Type) `{World W} := {
  DTAP_DataSendWithPriority : DTAP_Channel -> option SDF_Buff -> ST W Z;
  sched_ok : DTAP_Channel -> W -> Prop;
  sched_ask : forall ch c w a w', sched_ok ch w -> ask c w = Some (a, w') -> sched_ok ch w';
  sched_send : forall ch buff w, sched_ok ch w ->
    match buff with Some b => sendable b | None => True end ->
    wp (DTAP_DataSendWithPriority ch buff) w (fun _ w' => sched_ok ch w' /\
      exists t, trace w' = trace w ++ t /\ Forall (fun '(c, _) => sched_call c) t)
}.

Section send.
Context {W : Type} `{Scheduler W}.

Definition DTAP_SendFrame (transChan : DTAP_Channel) (buff : option SDF_Buff) : ST W Z :=
  let! ret := DTAP_DataSendWithPriority transChan buff in
  if negb (ret =? 0) then st_ret DTAP_FRAME_SEND_DLI_SEND_ERR else st_ret DTAP_SUCCESS.
End send.

(** ** Lemmas: sequence numbers

    Sequence numbers are 14-bit; a proof counts frames with unbounded integers, of
    which the code sees [seq14]. *)
Definition seq14 (n : Z) : Z := n mod 16384.

Lemma seq14_range n : 0 <= seq14 n <= DTAP_FRAME_SEQ_MAX.
Proof. unfold seq14, DTAP_FRAME_SEQ_MAX. Z.div_mod_to_equations; lia. Qed.

Lemma sign_bit x : (Z.land x 0x2000 =? 0x2000) = ((x / 8192) mod 2 =? 1).
Proof.
  change 8192 with (2 ^ 13). rewrite <- (Z.testbit_eqb x 13) by lia.
  destruct (Z.testbit x 13) eqn:E; [apply Z.eqb_eq|apply Z.eqb_neq].
  - apply Z.bits_inj'. intros i Hi. rewrite Z.land_spec, Z.pow2_bits_eqb by lia.
    destruct (Z.eqb_spec 13 i) as [<-|]; [by rewrite E|apply andb_false_r].
  - intros Heq. apply (f_equal (fun z => Z.testbit z 13)) in Heq.
    rewrite Z.land_spec, E in Heq. by rewrite Z.pow2_bits_true in Heq by lia.
Qed.

Lemma smaller_spec a b :
  DTAP_IsFrameSeqSmaller (seq14 a) (seq14 b) = (8192 <=? (a - b) mod 16384).
Proof.
  unfold DTAP_IsFrameSeqSmaller, DTAP_FRAME_SEQ_SIGN_MASK, u16. rewrite sign_bit.
  assert (((seq14 a - seq14 b) mod 65536 / 8192) mod 2 = ((a - b) mod 16384) / 8192) as ->.
  { unfold seq14. Z.div_mod_to_equations. lia. }
  destruct (Z.leb_spec 8192 ((a - b) mod 16384)); [apply Z.eqb_eq|apply Z.eqb_neq];
    Z.div_mod_to_equations; lia.
Qed.

(** Numbers less than half the range apart compare as the integers they stand for. *)
Lemma smaller_near a b : -8192 < b - a < 8192 -> DTAP_IsFrameSeqSmaller (seq14 a) (seq14 b) = (a <? b).
Proof.
  intros Hab. rewrite smaller_spec.
  destruct (Z.leb_spec 8192 ((a - b) mod 16384)), (Z.ltb_spec a b); [done| |..|done];
    Z.div_mod_to_equations; lia.
Qed.

Lemma next_seq14 a : DTAP_GetNextFrameSeq (seq14 a) = seq14 (a + 1).
Proof.
  pose proof (seq14_range a). unfold DTAP_GetNextFrameSeq, DTAP_FRAME_SEQ_MAX in *.
  rewrite u16_small by cint. unfold seq14 in *.
  destruct (Z.ltb_spec 16383 (a mod 16384 + 1)); Z.div_mod_to_equations; lia.
Qed.

Lemma seq14_inj a b : -16384 < a - b < 16384 -> seq14 a = seq14 b -> a = b.
Proof. unfold seq14. intros. Z.div_mod_to_equations; lia. Qed.

Lemma seq14_eqb a b : -16384 < a - b < 16384 -> (seq14 a =? seq14 b) = (a =? b).
Proof.
  intros Hab. destruct (Z.eqb_spec a b) as [->|Hne]; [apply Z.eqb_refl|].
  apply Z.eqb_neq. intros Heq. by apply Hne, seq14_inj.
Qed.

Lemma seq14_land_max a : Z.land a DTAP_FRAME_SEQ_MAX = seq14 a.
Proof. by apply (Z.land_ones a 14). Qed.

(** ** Lemmas: what the modes ask of the world

    A quiet stretch of a run hands nothing to the upper layer and does not ask for
    the release of the channel. *)
Definition quiet_call (c : call) : Prop :=
  match c with CRecv _ _ _ | CReleaseReq _ _ => False | _ => True end.

Section calm.
Context {W : Type} `{Scheduler W}.
Context (ch : DTAP_Channel).

Definition quiet (w w' : W) : Prop :=
  exists t, trace w' = trace w ++ t /\ Forall (fun '(c, _) => quiet_call c) t.

(** The scheduler can still be called, and the run from [w] to [w'] was quiet. *)
Definition calm (w w' : W) : Prop := sched_ok ch w' /\ quiet w w'.

Lemma quiet_refl w : quiet w w.
Proof. exists []. by rewrite app_nil_r. Qed.
Lemma quiet_trans w1 w2 w3 : quiet w1 w2 -> quiet w2 w3 -> quiet w1 w3.
Proof.
  intros (t1&E1&H1) (t2&E2&H2). exists (t1 ++ t2). rewrite E2, E1, <- app_assoc.
  split; [done|]. by apply Forall_app_2.
Qed.
Lemma quiet_snoc w w' c a : quiet_call c -> trace w' = trace w ++ [(c, a)] -> quiet w w'.
Proof. intros Hc Ht. exists [(c, a)]. split; [done|]. by constructor. Qed.

Lemma calm_refl w : sched_ok ch w -> calm w w.
Proof. split; [done|apply quiet_refl]. Qed.
Lemma calm_trans w1 w2 w3 : calm w1 w2 -> calm w2 w3 -> calm w1 w3.
Proof. intros [_ H1] [? H2]. split; [done|]. by eapply quiet_trans. Qed.
Lemma calm_ok w w' : calm w w' -> sched_ok ch w'.
Proof. by intros []. Qed.

Lemma quiet_closed w : closed_for quiet_call (quiet w).
Proof.
  intros c w1 a w2 Hc Hq Ha. eapply quiet_trans; [exact Hq|].
  destruct (ask_total c w1) as (a'&w'&E&Ht). rewrite Ha in E. injection E as <- <-.
  by eapply quiet_snoc.
Qed.
Lemma calm_closed w : closed_for quiet_call (calm w).
Proof.
  intros c w1 a w2 Hc [Hok Hq] Ha. split; [by eapply sched_ask|].
  by eapply (quiet_closed w).
Qed.
Lemma sched_closed C : closed_for C (sched_ok ch).
Proof. intros c w a w' _ Hok Ha. by eapply sched_ask. Qed.

Lemma wp_calm {A} (m : ST W A) w Q :
  asks_only quiet_call m -> sched_ok ch w -> wp m w (fun a w' => calm w w' -> Q a w') -> wp m w Q.
Proof.
  intros Hm Hok Hwp. eapply wp_mono.
  - eapply (wp_only quiet_call m (calm w)); [done|apply calm_closed|by apply calm_refl|exact Hwp].
  - intros a w' [Hc HQ]. by apply HQ.
Qed.

Lemma wp_ask_calm c w (Q : Z -> W -> Prop) :
  quiet_call c -> sched_ok ch w -> (forall a w', calm w w' -> Q a w') -> wp (ask c) w Q.
Proof. intros Hc Hok HQ. apply wp_calm; [by apply only_ask|done|]. apply wp_ask. auto. Qed.

Lemma wp_alloc_calm w (Q : bool -> W -> Prop) :
  sched_ok ch w -> (forall b w', calm w w' -> Q b w') -> wp alloc_ok w Q.
Proof.
  intros Hok HQ. apply wp_bind, wp_ask_calm; [done..|]. intros. by apply wp_ret, HQ.
Qed.

(** The buffer is given to the scheduler, and its answer decides the status. *)
Lemma wp_send_frame_call buff w (Q : Z -> W -> Prop) :
  sched_ok ch w -> match buff with Some b => sendable b | None => True end ->
  (forall a w', calm w w' -> DTAP_DataSendWithPriority ch buff w = Some (a, w') ->
     Q (if a =? 0 then DTAP_SUCCESS else DTAP_FRAME_SEND_DLI_SEND_ERR) w') ->
  wp (DTAP_SendFrame ch buff) w Q.
Proof.
  intros Hok Hb HQ. unfold DTAP_SendFrame. apply wp_bind. pose proof (sched_send ch buff w Hok Hb) as Hwp.
  unfold wp in Hwp |- *. destruct (DTAP_DataSendWithPriority ch buff w) as [[ret w']|] eqn:E; [|done].
  destruct Hwp as (Hok'&t&Ht&Hc). assert (calm w w') as Hcalm.
  { split; [done|]. exists t. split; [done|]. eapply Forall_impl; [exact Hc|].
    by intros [[] ?]. }
  specialize (HQ ret w' Hcalm eq_refl). destruct (ret =? 0); by apply wp_ret.
Qed.

Lemma wp_alloc_run w (Q : bool -> W -> Prop) :
  sched_ok ch w -> (forall b w', calm w w' -> alloc_ok w = Some (b, w') -> Q b w') -> wp alloc_ok w Q.
Proof.
  intros Hok HQ. pose proof (wp_alloc_calm w (fun b w' => calm w w') Hok ltac:(done)) as Hwp.
  unfold wp in Hwp |- *. destruct (alloc_ok w) as [[b w']|]; [by apply HQ|done].
Qed.

Lemma wp_send_frame buff w (Q : Z -> W -> Prop) :
  sched_ok ch w -> match buff with Some b => sendable b | None => True end ->
  (forall a w', calm w w' -> a = DTAP_SUCCESS \/ a = DTAP_FRAME_SEND_DLI_SEND_ERR -> Q a w') ->
  wp (DTAP_SendFrame ch buff) w Q.
Proof.
  intros Hok Hb HQ. apply wp_send_frame_call; [done..|]. intros a w' Hc _.
  destruct (a =? 0); auto.
Qed.

(** A timer operation answers some status and handle. *)
Lemma wp_start_timer timer e b proc w (Q : Z * Z -> W -> Prop) :
  sched_ok ch w -> (forall ret t w', calm w w' -> Q (ret, t) w') ->
  wp (DTAP_TransStartTimer timer e b proc) w Q.
Proof.
  intros Hok HQ. unfold DTAP_TransStartTimer, CP_TimerAdd.
  apply wp_bind, wp_bind, wp_ask_calm; [done..|]. intros a w' Hc. apply wp_ret.
  destruct (0 <? a); cbn; [|destruct (negb _)]; by apply wp_ret, HQ.
Qed.
Lemma wp_stop_timer timer w (Q : Z -> W -> Prop) :
  sched_ok ch w -> (forall w', calm w w' -> Q INVALID_TIMER_HANDLE w') ->
  wp (DTAP_TransStopTimer timer) w Q.
Proof.
  intros Hok HQ. unfold DTAP_TransStopTimer, CP_TimerDel.
  destruct (Z.eqb_spec timer INVALID_TIMER_HANDLE) as [->|].
  - by apply wp_ret, HQ, calm_refl.
  - apply wp_bind, wp_bind, wp_ask_calm; [done..|]. intros a w' Hc. apply wp_ret, wp_ret. auto.
Qed.
Lemma wp_restart_timer timer e b proc w (Q : Z * Z -> W -> Prop) :
  sched_ok ch w -> (forall ret t w', calm w w' -> Q (ret, t) w') ->
  wp (DTAP_TransRestartTimer timer e b proc) w Q.
Proof.
  intros Hok HQ. apply wp_bind, wp_stop_timer; [done|]. intros w1 Hc1.
  apply wp_start_timer; [by eapply calm_ok|]. intros ret t w2 Hc2. by apply HQ, (calm_trans w w1).
Qed.
End calm.

(** ** Lemmas: what reaches the upper layer *)
Lemma delivered_to_app t1 t2 : delivered_to (t1 ++ t2) = delivered_to t1 ++ delivered_to t2.
Proof. apply omap_app. Qed.

Lemma quiet_delivered t : Forall (fun '(c, _) => quiet_call c) t -> delivered_to t = [].
Proof. induction 1 as [|[[] a] t Hc Ht IH]; done. Qed.

Lemma copy_failed b : SDF_BuffCopy false b = None.
Proof. unfold SDF_BuffCopy. by repeat case_match. Qed.

Section alloc.
Context {W : Type} `{Scheduler W}.
Context (ch : DTAP_Channel).

Definition alloc_failed_since (w w' : W) : Prop := exists t, trace w' = trace w ++ t /\ alloc_failed t.

Lemma alloc_failed_later w w1 w' : extends w w1 -> alloc_failed_since w1 w' -> alloc_failed_since w w'.
Proof.
  intros [t1 Ht1] (t&Ht&Hf). exists (t1 ++ t). rewrite Ht, Ht1, app_assoc. split; [done|].
  apply elem_of_app. by right.
Qed.

(** An allocation that fails leaves its mark in the trace. *)
Lemma wp_alloc_cases w (Q : bool -> W -> Prop) :
  sched_ok ch w -> (forall w', calm ch w w' -> alloc_failed_since w w' -> Q false w') ->
  (forall w', calm ch w w' -> Q true w') -> wp alloc_ok w Q.
Proof.
  intros Hok H1 H2. apply wp_calm with ch; [requests|done|]. apply wp_alloc_ok.
  intros a w2 Ht Hc. destruct (Z.eqb_spec a 0) as [->|]; cbn [negb]; [|auto].
  apply H1; [done|]. exists [(CAlloc, 0)]. split; [done|]. constructor.
Qed.

Lemma calm_extends w w' : calm ch w w' -> extends w w'.
Proof. intros [_ (t&Ht&_)]. by exists t. Qed.
End alloc.

(** ** A concrete scheduler, for the witnesses

    It hands every frame to the DLI layer at once. *)
#[export] Instance script_scheduler : Scheduler script.
Proof.
  refine {|
    DTAP_DataSendWithPriority := fun ch buff =>
      match buff with
      | None => st_ret DTAP_TRANS_INVALID_PARAM_ERR
      | Some b => let! ret := ask (CDliSend (ch_lcid ch) (buff_data b)) in st_ret DTAP_SUCCESS
      end;
    sched_ok := fun _ _ => True |}; [done|].
  intros ch [b|] w _ _; cbn.
  - split; [done|]. eexists; split; [done|]. by repeat constructor.
  - split; [done|]. exists []. by rewrite app_nil_r.
Defined.
