(* ===== verification/DtapQuota.v ===== *)
(** * The share of every link in the controller's buffers

    [services/stack/src/dp/dtap/src/dtap_scheduler.c], from [DTAP_AddLcidBufferNode]
    to [DTAP_RecalcLcidQuota]: the list [g_lcidBufferList] has a node per link with
    the packets queued and in flight; the controller's buffers are divided among the
    links, one each and the rest in proportion to what is queued, rounded by the
    method of the largest remainder. *)
From S2P Require Import Prelude.

Definition DTAP_MIN_BUFFER_NUM : Z := 1.
Definition DTAP_SCHED_SUB (x y : Z) : Z := if y <? x then x - y else 0.

Record DTAP_LcidBufferNode := mk_bufnode {
  bn_lcid : Z;
  quota : Z;
  lastQuota : Z;
  sendNotAckPktCnt : Z;
  queuedPktCnt : Z;
  windowBytes : Z;
  lastRateCalcTime : Z
}.
#[export] Instance eta_bufnode : Eta DTAP_LcidBufferNode := fun n =>
  mk_bufnode (bn_lcid n) (quota n) (lastQuota n) (sendNotAckPktCnt n) (queuedPktCnt n)
    (windowBytes n) (lastRateCalcTime n).

Definition find_bufnode (lcid : Z) (l : list DTAP_LcidBufferNode) : option DTAP_LcidBufferNode :=
  find_first (fun n => bn_lcid n =? lcid) l.
Definition update_bufnode (lcid : Z) (f : DTAP_LcidBufferNode -> DTAP_LcidBufferNode)
    (l : list DTAP_LcidBufferNode) : list DTAP_LcidBufferNode :=
  update_first (fun n => bn_lcid n =? lcid) f l.

#[global] Arguments find_bufnode : simpl never.
#[global] Arguments update_bufnode : simpl never.

Definition DTAP_DecLcidQueuedPktCnt (lcid cnt : Z) (l : list DTAP_LcidBufferNode) :
    list DTAP_LcidBufferNode :=
  update_bufnode lcid (fun n => n <| queuedPktCnt ::= fun q => DTAP_SCHED_SUB q cnt |>) l.

Definition DTAP_CalcTotalQueuedPktCnt (l : list DTAP_LcidBufferNode) : Z :=
  fold_left (fun total n => u64 (total + queuedPktCnt n)) l 0.

(** The loop that gives every link the rounded-down share; answers the nodes and
    [sumBonus]. *)
Fixpoint alloc_floor (bonusPool total sumBonus : Z) (l : list DTAP_LcidBufferNode) :
    list DTAP_LcidBufferNode * Z :=
  match l with
  | [] => ([], sumBonus)
  | node :: l' =>
      let bonus := u8 (u64 (bonusPool * queuedPktCnt node) / total) in
      let '(l'', sum) := alloc_floor bonusPool total (u8 (sumBonus + bonus)) l' in
      (node <| quota := u8 (DTAP_MIN_BUFFER_NUM + bonus) |> :: l'', sum)
  end.

(** The loop that looks for the node with the largest fraction among those not yet
    topped up; the node is known by its place, [i] at the head of [l]. *)
Fixpoint max_frac (bonusPool total : Z) (l : list DTAP_LcidBufferNode) (i : nat) (maxFrac : Z)
    (maxNode : option nat) : option nat :=
  match l with
  | [] => maxNode
  | node :: l' =>
      let product := u64 (bonusPool * queuedPktCnt node) in
      let floorBonus := u8 (product / total) in
      if floorBonus <? quota node - DTAP_MIN_BUFFER_NUM
      then max_frac bonusPool total l' (S i) maxFrac maxNode
      else
        let frac := product mod total in
        if maxFrac <? frac then max_frac bonusPool total l' (S i) frac (Some i)
        else max_frac bonusPool total l' (S i) maxFrac maxNode
  end.

Fixpoint top_up (rem : nat) (bonusPool total : Z) (l : list DTAP_LcidBufferNode) :
    list DTAP_LcidBufferNode :=
  match rem with
  | O => l
  | S rem' =>
      let l' := match max_frac bonusPool total l 0 0 None with
                | Some i => alter (fun n => n <| quota ::= fun q => u8 (q + 1) |>) i l
                | None => l
                end in
      top_up rem' bonusPool total l'
  end.

(** [None] is the division by zero. *)
Definition DTAP_AllocLcidQuota (g_apBufferNum total : Z) (l : list DTAP_LcidBufferNode) :
    option (list DTAP_LcidBufferNode) :=
  let lcidNums := u32 (zlen l) in
  let bonusPool := if u32 (lcidNums * DTAP_MIN_BUFFER_NUM) <? g_apBufferNum
                   then u8 (g_apBufferNum - lcidNums * DTAP_MIN_BUFFER_NUM) else 0 in
  if total =? 0 then None
  else
    let '(l, sumBonus) := alloc_floor bonusPool total 0 l in
    Some (top_up (Z.to_nat (u8 (bonusPool - sumBonus))) bonusPool total l).

Definition note_quota (n : DTAP_LcidBufferNode) : DTAP_LcidBufferNode :=
  if negb (quota n =? lastQuota n) then n <| lastQuota := quota n |> else n.

Definition DTAP_RecalcLcidQuota (g_apBufferNum : Z) (l : list DTAP_LcidBufferNode) :
    option (list DTAP_LcidBufferNode) :=
  let total := DTAP_CalcTotalQueuedPktCnt l in
  if negb (total =? 0) then
    l ← DTAP_AllocLcidQuota g_apBufferNum total l;
    Some (map note_quota l)
  else Some (map (fun n => note_quota (n <| quota := DTAP_MIN_BUFFER_NUM |>)) l).

(** ** Lemmas *)
Section alloc.
(** The bonus pool and the number of packets queued on all links. *)
Context (pool total : Z) (Hpool : 0 <= pool < 255) (Htotal : 0 < total).
#[local] Set Default Proof Using "All".
Implicit Types (n : DTAP_LcidBufferNode) (l : list DTAP_LcidBufferNode).

(** What the proportional share of a link comes to, and the part that is cut off. *)
Definition share n : Z := pool * queuedPktCnt n / total.
Definition cut n : Z := (pool * queuedPktCnt n) mod total.
Definition topped n : bool := 1 + share n <? quota n.

Definition queued_ok n : Prop := 0 <= queuedPktCnt n < 4294967296 /\ queuedPktCnt n <= total.

Record shared n : Prop := {
  sh_queued : queued_ok n;
  sh_quota : quota n = 1 + share n \/ (quota n = 2 + share n /\ 0 < cut n)
}.

Lemma cut_range n : 0 <= cut n < total.
Proof. apply Z.mod_pos_bound. lia. Qed.

Lemma share_range n : queued_ok n -> 0 <= share n <= pool /\ (0 < cut n -> share n < pool).
Proof.
  intros [Hq Hle]. pose proof (cut_range n). unfold share, cut in *.
  pose proof (Z.div_mod (pool * queuedPktCnt n) total ltac:(lia)). nia.
Qed.

Lemma product_small n : queued_ok n -> u64 (pool * queuedPktCnt n) = pool * queuedPktCnt n.
Proof. intros [Hq _]. apply u64_small. unfold is_u64. nia. Qed.

(** The code's comparison is [topped]. *)
Lemma topped_spec n :
  queued_ok n -> (u8 (u64 (pool * queuedPktCnt n) / total) <? quota n - 1) = topped n.
Proof.
  intros Hn. destruct (share_range n Hn) as [Hs _]. rewrite product_small by done.
  unfold share, topped in *. unfold share. rewrite u8_small by cint.
  destruct (Z.ltb_spec (pool * queuedPktCnt n / total) (quota n - 1)),
    (Z.ltb_spec (1 + pool * queuedPktCnt n / total) (quota n)); lia.
Qed.

Lemma max_frac_spec l : forall i m o, Forall shared l ->
  (max_frac pool total l i m o = o /\ forall n, n ∈ l -> topped n = false -> cut n <= m) \/
  (exists j n, max_frac pool total l i m o = Some (i + j)%nat /\ l !! j = Some n /\
     topped n = false /\ m < cut n /\ forall n', n' ∈ l -> topped n' = false -> cut n' <= cut n).
Proof.
  induction l as [|n l IH]; intros i m o Hl; simpl.
  { left. split; [done|]. by intros ? ?%not_elem_of_nil. }
  apply Forall_cons in Hl as [Hn Hl]. pose proof (sh_queued n Hn) as Hq.
  unfold DTAP_MIN_BUFFER_NUM. rewrite topped_spec, product_small by done. fold (cut n).
  destruct (topped n) eqn:Et; [|destruct (Z.ltb_spec m (cut n)) as [Hm|Hm]].
  - destruct (IH (S i) m o Hl) as [[E Hle]|(j&n'&E&Hj&Ht&Hlt&Hle)].
    + left. split; [done|]. intros a [->|Ha]%elem_of_cons; [congruence|auto].
    + right. exists (S j), n'. rewrite E. split; [f_equal; lia|]. split_and!; try done.
      intros a [->|Ha]%elem_of_cons; [congruence|auto].
  - right. destruct (IH (S i) (cut n) (Some i) Hl) as [[E Hle]|(j&n'&E&Hj&Ht&Hlt&Hle)].
    + exists 0%nat, n. rewrite E. split; [f_equal; lia|]. split_and!; try done.
      intros a [->|Ha]%elem_of_cons; [done|auto].
    + exists (S j), n'. rewrite E. split; [f_equal; lia|]. split_and!; try done; [lia|].
      intros a [->|Ha]%elem_of_cons; [lia|auto].
  - destruct (IH (S i) m o Hl) as [[E Hle]|(j&n'&E&Hj&Ht&Hlt&Hle)].
    + left. split; [done|]. intros a [->|Ha]%elem_of_cons; [done|auto].
    + right. exists (S j), n'. rewrite E. split; [f_equal; lia|]. split_and!; try done.
      intros a [->|Ha]%elem_of_cons; [lia|auto].
Qed.

Definition same_but_quota n n' : Prop := n' = n <| quota := quota n' |>.
Definition topped_count l : Z := zsum (fun n => if topped n then 1 else 0) l.

Record shared_list l : Prop := {
  sl_shared : Forall shared l;
  sl_largest : forall a b, a ∈ l -> b ∈ l -> topped a = true -> topped b = false -> cut b <= cut a
}.

(** Topping up the node with the largest cut-off part. *)
Lemma top_node l j n :
  shared_list l -> l !! j = Some n -> topped n = false -> 0 < cut n ->
  (forall n', n' ∈ l -> topped n' = false -> cut n' <= cut n) ->
  let l' := alter (fun m => m <| quota ::= fun q => u8 (q + 1) |>) j l in
  shared_list l' /\ topped_count l' = topped_count l + 1 /\ zsum cut l' = zsum cut l /\
  Forall2 same_but_quota l l'.
Proof.
  intros [Hs Hlarge] Hj Ht Hc Hmax l'. pose proof (Forall_lookup_1 _ _ _ _ Hs Hj) as Hn.
  pose proof (share_range n (sh_queued n Hn)) as [Hsr Hlt]. specialize (Hlt Hc).
  assert (quota n = 1 + share n) as Hq.
  { destruct (sh_quota n Hn) as [?|[Hq _]]; [done|]. unfold topped in Ht. apply Z.ltb_ge in Ht. lia. }
  set (n1 := n <| quota ::= fun q => u8 (q + 1) |>).
  assert (quota n1 = 2 + share n) as Hq1. { cbn. rewrite u8_small by cint. lia. }
  assert (topped n1 = true) as Ht1.
  { unfold topped. apply Z.ltb_lt. rewrite Hq1. change (share n1) with (share n). lia. }
  assert (shared n1) as Hn1.
  { constructor; [exact (sh_queued n Hn)|]. right. split; [exact Hq1|exact Hc]. }
  assert (forall a, a ∈ l' -> a = n1 \/ a ∈ l) as Hin.
  { intros a (i&Hi)%list_elem_of_lookup. unfold l' in Hi. destruct (decide (i = j)) as [->|Hne].
    - left. rewrite list_lookup_alter, decide_True, Hj in Hi by done. by injection Hi as <-.
    - right. rewrite list_lookup_alter_ne in Hi by done. by eapply list_elem_of_lookup_2. }
  split; [constructor|].
  - apply Forall_forall. intros a [->|Ha]%Hin; [done|]. rewrite Forall_forall in Hs. auto.
  - intros a b [->|Ha]%Hin [->|Hb]%Hin Hta Htb; [congruence|by apply Hmax|congruence|by apply Hlarge].
  - split; [|split].
    + unfold topped_count, l'. rewrite (zsum_alter _ _ _ _ n) by done. cbv beta. fold n1. rewrite Ht, Ht1. lia.
    + unfold l'. rewrite (zsum_alter _ _ _ _ n) by done. cbv beta. change (cut (n <| quota ::= _ |>)) with (cut n). lia.
    + apply Forall2_same_length_lookup. split; [by unfold l'; rewrite length_alter|].
      intros i a b Ha Hb. unfold l' in Hb. rewrite list_lookup_alter in Hb. case_decide as Hij.
      * rewrite Hij, Ha in Hb. by injection Hb as <-.
      * rewrite Ha in Hb. injection Hb as <-. unfold same_but_quota. by destruct a.
Qed.

Lemma same_but_quota_refl l : Forall2 same_but_quota l l.
Proof. apply Forall2_same_length_lookup. split; [done|]. intros i a b -> [=->]. unfold same_but_quota. by destruct b. Qed.
Lemma same_but_quota_trans l1 l2 l3 :
  Forall2 same_but_quota l1 l2 -> Forall2 same_but_quota l2 l3 -> Forall2 same_but_quota l1 l3.
Proof.
  intros H1. revert l3. induction H1 as [|a b l1 l2 Hab H1 IH]; intros l3 H2.
  - apply Forall2_nil_inv_l in H2 as ->. constructor.
  - apply Forall2_cons_inv_l in H2 as (c&l3'&Hbc&H2&->). constructor; [|by apply IH].
    unfold same_but_quota in *. rewrite Hbc, Hab. by destruct c.
Qed.

(** While there is something left to give, a node has a part cut off: the rounds give
    one each. *)
Lemma top_up_spec rem : forall l,
  shared_list l -> zsum cut l = (Z.of_nat rem + topped_count l) * total ->
  let l' := top_up rem pool total l in
  shared_list l' /\ zsum cut l' = topped_count l' * total /\ zsum cut l' = zsum cut l /\
  Forall2 same_but_quota l l'.
Proof.
  induction rem as [|rem IH]; intros l Hl Hsum l'.
  { unfold l'. simpl. split_and!; [done|lia|done|apply same_but_quota_refl]. }
  unfold l'. cbn [top_up].
  destruct (max_frac_spec l 0 0 None (sl_shared _ Hl)) as [[E Hle]|(j&n&E&Hj&Ht&Hc&Hmax)].
  - exfalso. assert (zsum cut l <= zsum (fun n => (total - 1) * (if topped n then 1 else 0)) l) as Hb.
    { apply zsum_le. intros n Hn. pose proof (cut_range n). destruct (topped n) eqn:Et; [lia|].
      pose proof (Hle n Hn Et). lia. }
    rewrite zsum_scale in Hb. fold (topped_count l) in Hb.
    assert (0 <= topped_count l) by (apply zsum_nonneg; intros; by destruct (topped _)). nia.
  - rewrite E. cbn [Nat.add]. destruct (top_node l j n Hl Hj Ht Hc Hmax) as (H1&H2&H3&H4).
    edestruct (IH _ H1) as (G1&G2&G3&G4); [rewrite H2, H3, Hsum; lia|].
    split_and!; [done|done|congruence|]. by eapply same_but_quota_trans.
Qed.

Lemma alloc_floor_spec l : forall s,
  Forall queued_ok l -> 0 <= s -> s + zsum share l <= pool ->
  exists l', alloc_floor pool total s l = (l', s + zsum share l) /\ Forall2 same_but_quota l l' /\
    Forall (fun n => queued_ok n /\ quota n = 1 + share n) l' /\ zsum share l' = zsum share l /\
    zsum cut l' = zsum cut l.
Proof.
  induction l as [|n l IH]; intros s Hl Hs Hle; simpl.
  { exists []. rewrite !zsum_nil, Z.add_0_r. split_and!; by try constructor. }
  apply Forall_cons in Hl as [Hn Hl]. rewrite zsum_cons in Hle.
  destruct (share_range n Hn) as [Hsr _].
  assert (0 <= zsum share l) as Hnn.
  { apply zsum_nonneg. intros x Hx. rewrite Forall_forall in Hl. by apply share_range, Hl. }
  rewrite product_small by done. fold (share n). rewrite (u8_small (share n)), (u8_small (s + share n)) by cint.
  destruct (IH (s + share n)) as (l'&E&H1&H2&H3&H4); [done|lia|lia|].
  rewrite E. eexists. split; [f_equal; rewrite zsum_cons; lia|]. unfold DTAP_MIN_BUFFER_NUM. split_and!.
  - constructor; [|done]. by unfold same_but_quota.
  - constructor; [|done]. split; [done|]. cbn. rewrite u8_small by cint. done.
  - rewrite !zsum_cons, H3. done.
  - rewrite !zsum_cons, H4. done.
Qed.
End alloc.

(** The whole of [DTAP_AllocLcidQuota] once the pool is known. *)
Lemma alloc_spec pool total l :
  0 <= pool < 255 -> 0 < total -> Forall (queued_ok total) l -> zsum queuedPktCnt l = total ->
  exists l1 sumBonus,
    alloc_floor pool total 0 l = (l1, sumBonus) /\
    let l' := top_up (Z.to_nat (u8 (pool - sumBonus))) pool total l1 in
    Forall2 same_but_quota l l' /\ zsum quota l' = zlen l + pool /\ shared_list pool total l'.
Proof.
  intros Hp Ht Hl Hsum.
  assert (pool * total = total * zsum (share pool total) l + zsum (cut pool total) l) as Hdiv.
  { rewrite <- Hsum at 1. rewrite <- !zsum_scale, <- zsum_add. apply zsum_ext. intros n _. unfold share, cut.
    rewrite <- Z.div_mod by lia. done. }
  assert (0 <= zsum (cut pool total) l) as Hc0.
  { apply zsum_nonneg. intros n _. by apply cut_range. }
  assert (0 <= zsum (share pool total) l) as Hs0.
  { apply zsum_nonneg. intros n Hn. rewrite Forall_forall in Hl. by apply share_range, Hl. }
  assert (zsum (share pool total) l <= pool) as Hle by nia.
  destruct (alloc_floor_spec pool total Hp Ht l 0) as (l1&E&H1&H2&H3&H4); [done|lia|lia|].
  rewrite Z.add_0_l in E. exists l1, (zsum (share pool total) l). split; [exact E|]. rewrite u8_small by cint.
  assert (topped_count pool total l1 = 0) as Hcnt.
  { unfold topped_count. rewrite (zsum_ext _ (fun _ => 0)), zsum_const; [lia|]. intros n Hn.
    rewrite Forall_forall in H2. unfold topped. rewrite (proj2 (H2 n Hn)).
    by destruct (Z.ltb_spec (1 + share pool total n) (1 + share pool total n)); [lia|]. }
  destruct (top_up_spec pool total Hp Ht (Z.to_nat (pool - zsum (share pool total) l)) l1) as (G1&G2&G3&G4).
  - constructor.
    + eapply Forall_impl; [exact H2|]. intros n [??]. constructor; [done|by left].
    + intros a b Ha _ Hta _. rewrite Forall_forall in H2. unfold topped in Hta.
      rewrite (proj2 (H2 a Ha)) in Hta. apply Z.ltb_lt in Hta. lia.
  - rewrite Hcnt, H4. nia.
  - split; [by eapply same_but_quota_trans|]. split; [|done].
    set (l' := top_up _ _ _ _) in *.
    assert (zsum (share pool total) l' = zsum (share pool total) l1) as Hs.
    { symmetry. apply zsum_Forall2. eapply Forall2_impl; [exact G4|]. intros a b Hab. rewrite Hab. done. }
    rewrite (zsum_ext quota (fun n => 1 + (share pool total n + (if topped pool total n then 1 else 0)))).
    + rewrite zsum_add, zsum_add, zsum_const. fold (topped_count pool total l').
      pose proof (Forall2_length _ _ _ G4). pose proof (Forall2_length _ _ _ H1). nia.
    + intros n Hn. pose proof (sl_shared _ _ _ G1) as Hsh. rewrite Forall_forall in Hsh.
      unfold topped. destruct (sh_quota _ _ n (Hsh n Hn)) as [->|[-> _]];
        match goal with |- context [?a <? ?b] => destruct (Z.ltb_spec a b) end; lia.
Qed.

Definition node_ok (n : DTAP_LcidBufferNode) : Prop := 0 <= queuedPktCnt n < 4294967296.

Lemma total_queued l :
  Forall node_ok l -> zlen l <= 65536 -> DTAP_CalcTotalQueuedPktCnt l = zsum queuedPktCnt l.
Proof.
  intros Hl Hlen. unfold DTAP_CalcTotalQueuedPktCnt.
  assert (forall s, 0 <= s -> s + zlen l * 4294967296 < 18446744073709551616 ->
            fold_left (fun total n => u64 (total + queuedPktCnt n)) l s = s + zsum queuedPktCnt l) as H.
  { clear Hlen. induction Hl as [|n l Hn Hl IH]; intros s Hs Hb; cbn [fold_left]; [rewrite zsum_nil; lia|].
    unfold node_ok in Hn. simpl length in Hb. rewrite u64_small by cint. rewrite IH by lia. rewrite zsum_cons. lia. }
  rewrite H; lia.
Qed.

Lemma noted n : note_quota n = n <| lastQuota := quota n |>.
Proof.
  destruct n as [lc q lq s u wb lr]. unfold note_quota. cbn. destruct (Z.eqb_spec q lq); cbn; [subst|]; done.
Qed.

Section recalc.
Implicit Types (n : DTAP_LcidBufferNode) (l : list DTAP_LcidBufferNode).

Lemma quota_recalc_spec ap l :
  Forall node_ok l -> zlen l <= 65536 -> is_u8 ap ->
  let total := zsum queuedPktCnt l in
  let pool := Z.max 0 (ap - zlen l) in
  exists l', DTAP_RecalcLcidQuota ap l = Some l' /\
    Forall2 (fun n n' => n' = n <| quota := quota n' |> <| lastQuota := quota n' |>) l l' /\
    Forall (fun n' => 1 <= quota n' < 256) l' /\
    if total =? 0 then Forall (fun n' => quota n' = 1) l'
    else
      Forall (fun n' => quota n' = 1 + share pool total n' \/
                        (quota n' = 2 + share pool total n' /\ 0 < cut pool total n')) l' /\
      zsum quota l' = Z.max (zlen l) ap /\
      forall a b, a ∈ l' -> b ∈ l' ->
        quota a = 2 + share pool total a -> quota b = 1 + share pool total b ->
        cut pool total b <= cut pool total a.
Proof.
  intros Hl Hlen Hap total pool. unfold DTAP_RecalcLcidQuota. rewrite total_queued by done. fold total.
  destruct (Z.eqb_spec total 0) as [Hz|Hz]; cbn [negb].
  { eexists. split; [done|]. split.
    - apply Forall2_fmap_r, Forall_Forall2_diag, Forall_forall. intros n _. unfold compose. by rewrite noted.
    - split; apply Forall_map, Forall_forall; intros n _; unfold compose; by rewrite noted. }
  assert (forall n, n ∈ l -> node_ok n) as Hok by (by apply Forall_forall).
  assert (forall n, n ∈ l -> queued_ok total n) as Hqo.
  { intros n Hn. split; [by apply Hok|]. apply zsum_elem; [|done]. intros y Hy. by apply Hok. }
  assert (0 < total) as Ht.
  { assert (0 <= total) by (apply zsum_nonneg; intros y Hy; by apply Hok). lia. }
  assert (0 < zlen l) as Hne by (destruct l; [done|simpl; lia]).
  assert (0 <= pool < 255) as Hpool by (unfold pool; cint).
  destruct (alloc_spec pool total l) as (l1&sumBonus&E&Hl'&Hsum&Hs); [done|done|by apply Forall_forall|done|].
  unfold DTAP_AllocLcidQuota, DTAP_MIN_BUFFER_NUM.
  rewrite (u32_small (zlen l)), Z.mul_1_r, (u32_small (zlen l)) by cint.
  assert ((if zlen l <? ap then u8 (ap - zlen l) else 0) = pool) as ->.
  { unfold pool. destruct (Z.ltb_spec (zlen l) ap); [rewrite u8_small by cint|]; lia. }
  destruct (Z.eqb_spec total 0); [lia|]. rewrite E. cbn [mbind option_bind].
  eexists. split; [done|]. split; [|split; [|split; [|split]]].
  - eapply Forall2_fmap_r, Forall2_impl; [exact Hl'|]. intros a b Hab. unfold compose. rewrite noted, Hab. done.
  - apply Forall_map. eapply Forall_impl; [exact (sl_shared _ _ _ Hs)|]. intros m Hm. unfold compose.
    rewrite noted. cbn. pose proof (share_range pool total Hpool Ht m (sh_queued _ _ _ Hm)) as [Hr1 Hr2].
    destruct (sh_quota _ _ _ Hm) as [->|[-> Hc]]; lia.
  - apply Forall_map. eapply Forall_impl; [exact (sl_shared _ _ _ Hs)|]. intros m Hm. unfold compose.
    rewrite noted. exact (sh_quota _ _ _ Hm).
  - rewrite zsum_map, (zsum_ext _ quota) by (intros; by rewrite noted). rewrite Hsum. unfold pool. lia.
  - intros a b (a'&->&Ha)%list_elem_of_fmap (b'&->&Hb)%list_elem_of_fmap. rewrite !noted. cbn. intros Hqa Hqb.
    refine (sl_largest _ _ _ Hs a' b' Ha Hb _ _); unfold topped.
    + change (share pool total (a' <| lastQuota := quota a' |>)) with (share pool total a') in Hqa.
      apply Z.ltb_lt. lia.
    + change (share pool total (b' <| lastQuota := quota b' |>)) with (share pool total b') in Hqb.
      apply Z.ltb_ge. lia.
Qed.
End recalc.

Section theorems.
Implicit Types (n : DTAP_LcidBufferNode) (l : list DTAP_LcidBufferNode).

(** C27.  The controller's buffers are divided without loss: with packets queued, every
    link gets one buffer and its proportional share of the rest, rounded down, or one
    more, and all buffers are given out; those that get one more are the links of
    which rounding down cut off the most.  Nothing else of a node changes, and no
    arithmetic overflows.  Without packets queued every link gets one buffer. *)
Theorem quota_largest_remainder ap l :
  Forall node_ok l -> zlen l <= 65536 -> is_u8 ap ->
  let total := zsum queuedPktCnt l in
  let pool := Z.max 0 (ap - zlen l) in
  exists l', DTAP_RecalcLcidQuota ap l = Some l' /\
    Forall2 (fun n n' => n' = n <| quota := quota n' |> <| lastQuota := quota n' |>) l l' /\
    if total =? 0 then Forall (fun n' => quota n' = 1) l'
    else
      Forall (fun n' => quota n' = 1 + share pool total n' \/
                        (quota n' = 2 + share pool total n' /\ 0 < cut pool total n')) l' /\
      zsum quota l' = Z.max (zlen l) ap /\
      forall a b, a ∈ l' -> b ∈ l' ->
        quota a = 2 + share pool total a -> quota b = 1 + share pool total b ->
        cut pool total b <= cut pool total a.
Proof.
  intros Hl Hlen Hap total pool. destruct (quota_recalc_spec ap l Hl Hlen Hap) as (l'&E&H1&_&H2). by exists l'.
Qed.
End theorems.

(** ** Three links share seven buffers *)
Definition demo_links : list DTAP_LcidBufferNode :=
  [mk_bufnode 1 1 1 0 5 0 0; mk_bufnode 2 1 1 0 2 0 0; mk_bufnode 3 1 1 0 0 0 0].

Lemma quota_largest_remainder_witness :
  exists l', DTAP_RecalcLcidQuota 7 demo_links = Some l' /\ map quota l' = [4; 2; 1] /\
    zsum quota l' = Z.max 3 7.
Proof.
  destruct (quota_largest_remainder 7 demo_links) as (l'&E&_&_&Hs&_).
  - repeat constructor; cbn; lia.
  - done.
  - done.
  - exists l'. split; [exact E|]. split; [|exact Hs]. vm_compute in E. injection E as <-. reflexivity.
Defined.
