(* ===== verification/DtapScheduler.v ===== *)
(** * The packet scheduler: its state and operations

    [services/stack/src/dp/dtap/src/dtap_scheduler.c]: four queues of strict
    priority, the first for fragments left over from a packet.  A queue has a node
    per link, a node the channels of the link that have sent, a channel the packets
    that wait.  A packet goes out, fragment by fragment, while the controller has
    buffers and the link has not used up its quota ([DtapQuota]).

    A channel is an object of [dtap_channel.c]: [channels] is the store, in which a
    node's list refers to it by its address; the channels the scheduler makes for
    left-over fragments are known by their link.  A node of a queue is known by the
    queue and its link. *)
From S2P Require Import Prelude SdfErrno SdfBuff DtapEnv DliLayer DliData DtapTrans DtapQuota.

Definition DTAP_PACKET_MAX_SIZE : Z := 10000.
Definition DTAP_FRAGMENT_TCID : Z := 0xFF.
Definition DTAP_RATE_CALC_INTERVAL_MS : Z := 10000.

Inductive chan_ref := TransChan (p : Z) | FragChan (lcid : Z).
#[export] Instance chan_ref_eq_dec : EqDecision chan_ref.
Proof. solve_decision. Defined.
#[export] Instance chan_ref_countable : Countable chan_ref.
Proof.
  refine (inj_countable' (fun r => match r with TransChan p => inl p | FragChan l => inr l end)
            (fun x => match x with inl p => TransChan p | inr l => FragChan l end) _).
  by intros [].
Defined.

Record DTAP_PendingPacket := mk_pkt { pk_buff : SDF_Buff; pk_seq : Z; isSplited : bool }.
#[export] Instance eta_pkt : Eta DTAP_PendingPacket := fun p =>
  mk_pkt (pk_buff p) (pk_seq p) (isSplited p).

(** The fields of [DTAP_Channel_S] the scheduler reads and its [pktList]. *)
Record SchedChannel := mk_schan {
  c_priority : Z; c_lcid : Z; c_srcTcid : Z; pktList : list DTAP_PendingPacket
}.
#[export] Instance eta_schan : Eta SchedChannel := fun c =>
  mk_schan (c_priority c) (c_lcid c) (c_srcTcid c) (pktList c).

Record DTAP_LcidNode := mk_lnode {
  channelList : list chan_ref; hasScheduled : bool; ln_lcid : Z; ln_priority : Z; ln_pktCnt : Z
}.
#[export] Instance eta_lnode : Eta DTAP_LcidNode := fun n =>
  mk_lnode (channelList n) (hasScheduled n) (ln_lcid n) (ln_priority n) (ln_pktCnt n).

Record DTAP_PriorityQueue := mk_queue {
  lcidList : list DTAP_LcidNode; q_priority : Z; q_pktCnt : Z
}.
#[export] Instance eta_queue : Eta DTAP_PriorityQueue := fun q =>
  mk_queue (lcidList q) (q_priority q) (q_pktCnt q).

(** The globals of [dtap_scheduler.c]; of [g_acbNumChangeCbk] whether it is set. *)
Record Sched := mk_sched {
  g_dtapScheduler : list DTAP_PriorityQueue;
  g_lcidBufferList : list DTAP_LcidBufferNode;
  g_sendNotAckPktCnt : Z;
  g_isInited : bool;
  g_pktSeq : Z;
  g_apBufferNum : Z;
  g_acbNumChangeCbk : bool;
  channels : gmap chan_ref SchedChannel
}.
#[export] Instance eta_sched : Eta Sched := fun s =>
  mk_sched (g_dtapScheduler s) (g_lcidBufferList s) (g_sendNotAckPktCnt s) (g_isInited s)
    (g_pktSeq s) (g_apBufferNum s) (g_acbNumChangeCbk s) (channels s).

(** The state of a process that has not initialised the scheduler. *)
Definition g_sched0 : Sched :=
  mk_sched (replicate (Z.to_nat DTAP_PRIORITY_MAX) (mk_queue [] 0 0)) [] 0 false 0 DTAP_MIN_BUFFER_NUM false ∅.

(** ** Access to the state *)
Definition is_lnode (lcid : Z) (n : DTAP_LcidNode) : bool := ln_lcid n =? lcid.

Definition upd_queue (i : nat) (f : DTAP_PriorityQueue -> DTAP_PriorityQueue) (s : Sched) : Sched :=
  s <| g_dtapScheduler ::= alter f i |>.
Definition upd_lnode (i : nat) (lcid : Z) (f : DTAP_LcidNode -> DTAP_LcidNode) : Sched -> Sched :=
  upd_queue i (fun q => q <| lcidList ::= update_first (is_lnode lcid) f |>).
Definition upd_chan (r : chan_ref) (f : SchedChannel -> SchedChannel) (s : Sched) : Sched :=
  s <| channels ::= alter f r |>.
Definition upd_bufnode (lcid : Z) (f : DTAP_LcidBufferNode -> DTAP_LcidBufferNode) (s : Sched) : Sched :=
  s <| g_lcidBufferList ::= update_bufnode lcid f |>.

Definition DTAP_GetLcidBufferNode (lcid : Z) (s : Sched) : option DTAP_LcidBufferNode :=
  find_bufnode lcid (g_lcidBufferList s).

(** The code finds no node in an empty list either. *)
Definition DTAP_GetLcidNode (q : DTAP_PriorityQueue) (lcid : Z) : option DTAP_LcidNode :=
  find_first (is_lnode lcid) (lcidList q).

Definition DTAP_CanSend (s : Sched) (lcid : Z) : bool :=
  match DTAP_GetLcidBufferNode lcid s with
  | None => false
  | Some node =>
      if g_apBufferNum s <=? g_sendNotAckPktCnt s then false
      else sendNotAckPktCnt node <? quota node
  end.

Section sched.
Context {W : Type} `{World W}.
Notation M := (ST (Sched * (DLI_LayerInfo * W))).

Definition sg {A} (f : Sched -> A) : M A := st_gets (fun s => f (fst s)).
Definition supd (f : Sched -> Sched) : M unit := st_modify (fun s => (f (fst s), snd s)).

(** Dereferences; [None] is the dangling pointer. *)
Definition get_queue (i : nat) : M DTAP_PriorityQueue :=
  let! q := sg (fun s => g_dtapScheduler s !! i) in st_opt q.
Definition get_lnode (i : nat) (lcid : Z) : M DTAP_LcidNode :=
  let! q := get_queue i in st_opt (DTAP_GetLcidNode q lcid).
Definition get_chan (r : chan_ref) : M SchedChannel :=
  let! c := sg (fun s => channels s !! r) in st_opt c.

(** ** The links *)

(** Answers whether a node was added. *)
Definition DTAP_AddLcidBufferNode (connHandle : Z) : M bool :=
  let! node := sg (DTAP_GetLcidBufferNode connHandle) in
  match node with
  | Some _ => st_ret false
  | None =>
      let! ok := alloc_ok in
      if negb ok then st_ret false
      else
        supd (fun s => s <| g_lcidBufferList ::= fun l => l ++ [mk_bufnode connHandle 0 0 0 0 0 0] |>) ;;!
        st_ret true
  end.

Definition DTAP_DeleteLcidBufferNode (connHandle : Z) : M bool :=
  let! node := sg (DTAP_GetLcidBufferNode connHandle) in
  match node with
  | None => st_ret false
  | Some _ =>
      supd (fun s => s <| g_lcidBufferList ::= remove_first (fun n => bn_lcid n =? connHandle) |>) ;;!
      st_ret true
  end.

(** Without the line it logs. *)
Definition DTAP_CalcLcidSendRate (lcid pktBytes : Z) : M unit :=
  supd (upd_bufnode lcid (fun n => n <| windowBytes ::= fun b => u64 (b + pktBytes) |>)) ;;!
  let! now := ask CTimeMs in
  let now := u64 now in
  let! node := sg (DTAP_GetLcidBufferNode lcid) in
  let! node := st_opt node in
  if lastRateCalcTime node =? 0 then supd (upd_bufnode lcid (fun n => n <| lastRateCalcTime := now |>))
  else
    let elapsed := DTAP_SCHED_SUB now (lastRateCalcTime node) in
    if elapsed <? DTAP_RATE_CALC_INTERVAL_MS then st_ret tt
    else supd (upd_bufnode lcid (fun n => n <| windowBytes := 0 |> <| lastRateCalcTime := now |>)).

Definition RecalcLcidQuota : M unit :=
  let! ap := sg g_apBufferNum in
  let! l := sg g_lcidBufferList in
  let! l := st_opt (DTAP_RecalcLcidQuota ap l) in
  supd (fun s => s <| g_lcidBufferList := l |>).

(** [param]: the event's parameters, of which the code decodes the connection. *)
Definition DTAP_DLIConnectCbk (status : Z) (param : option Z) : M unit :=
  if negb (status =? DLI_SUCCESS) then st_ret tt
  else
    match param with
    | None => st_ret tt
    | Some connHandle =>
        let! added := DTAP_AddLcidBufferNode connHandle in
        if (added : bool) then RecalcLcidQuota else st_ret tt
    end.

Definition COLLAB_ContinueAssignTransBuffer (n : Z) : M unit :=
  let! _ := ask (CCollab n) in st_ret tt.

Definition DTAP_DLIDisconnectCbk (param : option Z) : M unit :=
  match param with
  | None => st_ret tt
  | Some connHandle =>
      let! node := sg (DTAP_GetLcidBufferNode connHandle) in
      (match node with
       | Some node =>
           supd (fun s => s <| g_sendNotAckPktCnt ::= fun g => u8 (DTAP_SCHED_SUB g (sendNotAckPktCnt node)) |>) ;;!
           let! g := sg g_sendNotAckPktCnt in
           COLLAB_ContinueAssignTransBuffer g
       | None => st_ret tt
       end) ;;!
      let! deleted := DTAP_DeleteLcidBufferNode connHandle in
      if (deleted : bool) then RecalcLcidQuota else st_ret tt
  end.

Definition DTAP_SetApBufferNum (bufferNum : Z) : M unit :=
  supd (fun s => s <| g_apBufferNum := u8 bufferNum |>) ;;!
  RecalcLcidQuota.

Definition DTAP_DLIAcbNumGet : M Z :=
  over (lay (fun l => u8 (DLI_DataNumGet l ACB_DATA_TYPE))).

(** [g_acbNumChangeCbk] is a function of the collaboration module. *)
Definition DTAP_DLIDataNumChangecbk (type : DLI_DataType) (dataNum : Z) : M unit :=
  match type with
  | ACB_DATA_TYPE =>
      DTAP_SetApBufferNum dataNum ;;!
      let! cbk := sg g_acbNumChangeCbk in
      if (cbk : bool) then COLLAB_ContinueAssignTransBuffer dataNum else st_ret tt
  | _ => st_ret tt
  end.

Definition DTAP_DLIAcbNumChangeRegister (cbk : bool) : M unit :=
  supd (fun s => s <| g_acbNumChangeCbk := cbk |>).

(** ** Packets and nodes *)
Definition DTAP_CreatePacket (buff : SDF_Buff) : M (option DTAP_PendingPacket) :=
  let! ok := alloc_ok in
  if negb ok then st_ret None
  else
    let! seq := sg g_pktSeq in
    supd (fun s => s <| g_pktSeq := u32 (seq + 1) |>) ;;!
    st_ret (Some (mk_pkt buff seq false)).

(** The channels of a node lose their packets; those made for fragments are freed. *)
Definition DTAP_DestroyLcidNode (lcidNode : DTAP_LcidNode) : M unit :=
  st_for (channelList lcidNode) (fun r =>
    let! c := get_chan r in
    supd (upd_chan r (fun c => c <| pktList := [] |>)) ;;!
    if c_priority c =? DTAP_PRIORITY_FRAGMENT then supd (fun s => s <| channels ::= delete r |>)
    else st_ret tt).

Definition DTAP_CreateLcidNode (lcid priority : Z) : M (option DTAP_LcidNode) :=
  let! ok := alloc_ok in
  st_ret (if (ok : bool) then Some (mk_lnode [] false lcid priority 0) else None).

(** The first channel of a list with the link and identifier given. *)
Fixpoint find_chan (lcid tcid : Z) (l : list chan_ref) : M (option chan_ref) :=
  match l with
  | [] => st_ret None
  | r :: l' =>
      let! c := get_chan r in
      if (c_lcid c =? lcid) && (c_srcTcid c =? tcid) then st_ret (Some r) else find_chan lcid tcid l'
  end.

(** The first such channel of the nodes of a link. *)
Fixpoint find_frag_chan (lcid : Z) (l : list DTAP_LcidNode) : M (option chan_ref) :=
  match l with
  | [] => st_ret None
  | n :: l' =>
      if negb (ln_lcid n =? lcid) then find_frag_chan lcid l'
      else
        let! r := find_chan lcid DTAP_FRAGMENT_TCID (channelList n) in
        match r with Some r => st_ret (Some r) | None => find_frag_chan lcid l' end
  end.

(** Answers the channel and [hasCreated]. *)
Definition DTAP_GetOrCreateFragmentChannel (lcid : Z) : M (option chan_ref * bool) :=
  let! q := get_queue (Z.to_nat DTAP_PRIORITY_FRAGMENT) in
  let! r := find_frag_chan lcid (lcidList q) in
  match r with
  | Some r => st_ret (Some r, false)
  | None =>
      let! ok := alloc_ok in
      if negb ok then st_ret (None, false)
      else
        supd (fun s => s <| channels ::=
          <[FragChan lcid := mk_schan DTAP_PRIORITY_FRAGMENT lcid DTAP_FRAGMENT_TCID []]> |>) ;;!
        st_ret (Some (FragChan lcid), true)
  end.

(** ** Switching the scheduler on and off

    The registrations are requests whose failure is only logged. *)
Definition DTAP_SchedulerInitInner : M unit :=
  let! on := sg g_isInited in
  if (on : bool) then st_ret tt
  else
    supd (fun s => s <| g_dtapScheduler ::= imap (fun i q => mk_queue [] (Z.of_nat i) 0) |>
                     <| g_lcidBufferList := [] |>) ;;!
    let! _ := ask (CListener true 0) in
    let! _ := ask (CListener true 1) in
    let! _ := ask (CListener true 2) in
    let! _ := ask (CListener true 3) in
    let! _ := ask (CListener true 4) in
    supd (fun s => s <| g_sendNotAckPktCnt := 0 |> <| g_isInited := true |>).

(** The task posted to the worker has run when the call answers success.  A task whose
    post timed out may still run later, by itself ([DtapSchedProps], [EvInitTask]). *)
Definition DTAP_SchedulerInit : M Z :=
  let! ret := ask CPostTask in
  if negb (ret =? 0) then st_ret DTAP_TRANS_CP_POST_ERR
  else DTAP_SchedulerInitInner ;;! st_ret DTAP_SUCCESS.

Definition destroy_queue (i : nat) : M unit :=
  let! q := get_queue i in
  st_for (lcidList q) DTAP_DestroyLcidNode ;;!
  supd (upd_queue i (fun q => q <| lcidList := [] |> <| q_pktCnt := 0 |>)).

Definition queue_indices : list nat := seq 0 (Z.to_nat DTAP_PRIORITY_MAX).

Definition DTAP_SchedulerDeinitInner : M unit :=
  let! on := sg g_isInited in
  if negb on then st_ret tt
  else
    let! _ := ask (CListener false 2) in
    let! _ := ask (CListener false 1) in
    let! _ := ask (CListener false 0) in
    supd (fun s => s <| g_lcidBufferList := [] |>) ;;!
    st_for queue_indices destroy_queue ;;!
    supd (fun s => s <| g_isInited := false |>).

Definition DTAP_SchedulerDeinit : M Z :=
  let! ret := ask CPostTask in
  if negb (ret =? 0) then st_ret DTAP_TRANS_CP_POST_ERR
  else DTAP_SchedulerDeinitInner ;;! st_ret DTAP_SUCCESS.

(** ** Removal of a channel *)
Definition DTAP_ChannelDownProc (i : nat) (lcid srcTcid : Z) : M unit :=
  let! q := get_queue i in
  match DTAP_GetLcidNode q lcid with
  | None => st_ret tt
  | Some lcidNode =>
      let! r := find_chan lcid srcTcid (channelList lcidNode) in
      (match r with
       | None => st_ret tt
       | Some r =>
           let! c := get_chan r in
           let channelPktCnt := zlen (pktList c) in
           supd (fun s => s <| g_lcidBufferList ::= DTAP_DecLcidQueuedPktCnt lcid channelPktCnt |>) ;;!
           supd (upd_lnode i lcid (fun n =>
             n <| channelList ::= remove_first (fun x => bool_decide (x = r)) |>
               <| ln_pktCnt ::= fun k => DTAP_SCHED_SUB k channelPktCnt |>)) ;;!
           supd (upd_queue i (fun q => q <| q_pktCnt ::= fun k => DTAP_SCHED_SUB k channelPktCnt |>)) ;;!
           supd (upd_chan r (fun c => c <| pktList := [] |>)) ;;!
           if q_priority q =? DTAP_PRIORITY_FRAGMENT then supd (fun s => s <| channels ::= delete r |>)
           else st_ret tt
       end) ;;!
      let! lcidNode := get_lnode i lcid in
      match channelList lcidNode with
      | [] =>
          supd (upd_queue i (fun q => q <| lcidList ::= remove_first (is_lnode lcid) |>)) ;;!
          DTAP_DestroyLcidNode lcidNode
      | _ => st_ret tt
      end
  end.

Definition DTAP_ChannelDown (lcid srcTcid : Z) : M unit :=
  st_for queue_indices (fun i =>
    DTAP_ChannelDownProc i lcid
      (if Z.of_nat i =? DTAP_PRIORITY_FRAGMENT then DTAP_FRAGMENT_TCID else srcTcid)).

(** ** Adding a packet *)

(** Whether the node has a channel with the link and identifier already. *)
Definition DTAP_InsertChannelToLcidNode (i : nat) (lcid : Z) (transChan : chan_ref) : M unit :=
  let! lcidNode := get_lnode i lcid in
  let! c := get_chan transChan in
  let! r := find_chan (c_lcid c) (c_srcTcid c) (channelList lcidNode) in
  match r with
  | Some _ => st_ret tt
  | None => supd (upd_lnode i lcid (fun n => n <| channelList ::= fun l => l ++ [transChan] |>))
  end.

Definition DTAP_PriorityQueuePush (i : nat) (transChan : chan_ref) (pktCnt : Z) : M Z :=
  let! c := get_chan transChan in
  let lcid := c_lcid c in
  let! q := get_queue i in
  let! ok :=
    (match DTAP_GetLcidNode q lcid with
     | Some _ => st_ret true
     | None =>
         let! lcidNode := DTAP_CreateLcidNode lcid (q_priority q) in
         match lcidNode with
         | None => st_ret false
         | Some n => supd (upd_queue i (fun q => q <| lcidList ::= fun l => l ++ [n] |>)) ;;! st_ret true
         end
     end) in
  if negb ok then st_ret DTAP_TRANS_MALLOC_ERR
  else
    DTAP_InsertChannelToLcidNode i lcid transChan ;;!
    supd (upd_lnode i lcid (fun n => n <| ln_pktCnt ::= fun k => u32 (k + pktCnt) |>)) ;;!
    supd (upd_queue i (fun q => q <| q_pktCnt ::= fun k => u32 (k + pktCnt) |>)) ;;!
    supd (upd_bufnode lcid (fun n => n <| queuedPktCnt ::= fun k => u32 (k + pktCnt) |>)) ;;!
    st_ret DTAP_SUCCESS.

(** ** Sending *)

(** The channel with a packet to send, if any. *)
Fixpoint first_pending (l : list chan_ref) : M (option chan_ref) :=
  match l with
  | [] => st_ret None
  | r :: l' =>
      let! c := get_chan r in
      match pktList c with [] => first_pending l' | _ => st_ret (Some r) end
  end.

Definition DTAP_PriorityQueuePeek (i : nat) (lcid : Z) : M (option chan_ref) :=
  let! lcidNode := get_lnode i lcid in
  if ln_pktCnt lcidNode =? 0 then st_ret None else first_pending (channelList lcidNode).

(** [pkt] is the first packet of the channel. *)
Definition DTAP_PriorityQueuePop (i : nat) (lcid : Z) (r : chan_ref) : M unit :=
  supd (upd_chan r (fun c => c <| pktList ::= tail |>)) ;;!
  supd (upd_lnode i lcid (fun n => n <| ln_pktCnt ::= fun k => DTAP_SCHED_SUB k 1 |>)) ;;!
  supd (upd_queue i (fun q => q <| q_pktCnt ::= fun k => DTAP_SCHED_SUB k 1 |>)) ;;!
  supd (fun s => s <| g_lcidBufferList ::= DTAP_DecLcidQueuedPktCnt lcid 1 |>) ;;!
  let! c := get_chan r in
  match pktList c with
  | [] => st_ret tt
  | _ =>
      supd (upd_lnode i lcid (fun n =>
        n <| channelList ::= fun l => remove_first (fun x => bool_decide (x = r)) l ++ [r] |>))
  end.

(** [cnt] more fragment buffers; [None] when an allocation fails. *)
Fixpoint new_frags (cnt : nat) (fragmentLen : Z) : M (option (list (option SDF_Buff))) :=
  match cnt with
  | O => st_ret (Some [])
  | S cnt' =>
      let! ok := alloc_ok in
      match SDF_BuffNew ok fragmentLen with
      | None => st_ret None
      | Some f =>
          let! fs := new_frags cnt' fragmentLen in
          st_ret (match fs with Some fs => Some (Some f :: fs) | None => None end)
      end
  end.

(** Answers the fragments, [None] when it fails, and the buffer, in which splitting
    leaves the headers it writes. *)
Definition DTAP_SplitData (lcid : Z) (buff : SDF_Buff) (fragmentCnt : Z) :
    M (option (list (option SDF_Buff)) * SDF_Buff) :=
  let! fragmentLen := over (lay (fun l => u32 (DLI_GetFragmentMaxLen l))) in
  let! fragmentBuf := new_frags (Z.to_nat fragmentCnt) fragmentLen in
  match fragmentBuf with
  | None => st_ret (None, buff)
  | Some fragmentBuf =>
      let! (ret, d, bufs) :=
        over (DLI_SplitData (Some (mk_data lcid DLI_DATATYPE_ACB 0 0 (Some buff))) (Some fragmentBuf) fragmentCnt) in
      let buff := default buff (d' ← d; d_buf d') in
      if negb (ret =? DLI_SUCCESS) then st_ret (None, buff) else st_ret (bufs, buff)
  end.

Definition DTAP_CreateDataStru (lcid type ts prio : Z) (buf : SDF_Buff) : M (option DLI_DataStru) :=
  let! ok := alloc_ok in
  st_ret (if (ok : bool) then Some (mk_data lcid (u8 type) ts prio (Some buf)) else None).

Definition DTAP_SendData (lcid : Z) (buff : SDF_Buff) : M bool :=
  let! dliData := DTAP_CreateDataStru lcid DLI_DATATYPE_ACB 0 0 buff in
  match dliData with
  | None => st_ret false
  | Some d =>
      let! ret := over (over (DLI_DataSend (Some d))) in
      if negb (ret =? DLI_SUCCESS) then st_ret false
      else
        DTAP_CalcLcidSendRate lcid (SDF_DataLenGet buff) ;;!
        supd (upd_bufnode lcid (fun n => n <| sendNotAckPktCnt ::= fun k => u32 (k + 1) |>)) ;;!
        supd (fun s => s <| g_sendNotAckPktCnt ::= fun g => u8 (g + 1) |>) ;;!
        st_ret true
  end.

(** The packets for the buffers left; [None] when an allocation fails. *)
Fixpoint save_packets (buffs : list SDF_Buff) : M (option (list DTAP_PendingPacket)) :=
  match buffs with
  | [] => st_ret (Some [])
  | b :: buffs' =>
      let! pkt := DTAP_CreatePacket b in
      match pkt with
      | None => st_ret None
      | Some pkt =>
          let! rest := save_packets buffs' in
          st_ret (match rest with Some rest => Some (pkt <| isSplited := true |> :: rest) | None => None end)
      end
  end.

Definition DTAP_SaveFragmentData (lcid : Z) (buffs : list SDF_Buff) : M bool :=
  let! pendingPkt := save_packets buffs in
  match pendingPkt with
  | None => st_ret false
  | Some pendingPkt =>
      let! (fragmentChannel, hasCreated) := DTAP_GetOrCreateFragmentChannel lcid in
      match fragmentChannel with
      | None => st_ret false
      | Some r =>
          let! c := get_chan r in
          let! ret := DTAP_PriorityQueuePush (Z.to_nat (c_priority c)) r (zlen buffs) in
          if negb (ret =? DTAP_SUCCESS) then
            (if (hasCreated : bool) then supd (fun s => s <| channels ::= delete r |>) else st_ret tt) ;;!
            st_ret false
          else
            supd (upd_chan r (fun c => c <| pktList ::= fun l => l ++ pendingPkt |>)) ;;!
            st_ret true
      end
  end.

(** The fragments still to send when the loop stops. *)
Fixpoint send_fragments (lcid : Z) (frags : list (option SDF_Buff)) : M (list (option SDF_Buff)) :=
  match frags with
  | [] => st_ret []
  | f :: frags' =>
      let! go := sg (fun s => DTAP_CanSend s lcid) in
      if negb go then st_ret frags
      else
        let! b := st_opt f in
        let! ok := DTAP_SendData lcid b in
        if negb ok then st_ret frags else send_fragments lcid frags'
  end.

(** How a round of the loop of [DTAP_ScheduleLcid] ends. *)
Inductive round := Continue | Break | Return (ret : bool).

Definition schedule_round (i : nat) (lcid : Z) (r : chan_ref) : M round :=
  let! c := get_chan r in
  let! pkt := st_opt (head (pktList c)) in
  if isSplited pkt then
    let! ok := DTAP_SendData (c_lcid c) (pk_buff pkt) in
    if negb ok then st_ret (Return false)
    else DTAP_PriorityQueuePop i lcid r ;;! st_ret Continue
  else
    let! fragmentCnt := over (lay (fun l => DLI_GetDataFragmentNums l (Some (pk_buff pkt)))) in
    if fragmentCnt =? 0 then st_ret (Return false)
    else
      let! (frags, buff) := DTAP_SplitData (c_lcid c) (pk_buff pkt) fragmentCnt in
      match frags with
      | None =>
          supd (upd_chan r (fun c => c <| pktList ::= fun l => pkt <| pk_buff := buff |> :: tail l |>)) ;;!
          st_ret (Return false)
      | Some frags =>
          let! unsent := send_fragments lcid frags in
          DTAP_PriorityQueuePop i lcid r ;;!
          match unsent with
          | [] => st_ret Continue
          | _ =>
              let! buffs := st_opt (mapM id unsent) in
              let! ok := DTAP_SaveFragmentData (c_lcid c) buffs in
              if negb ok then st_ret (Return false) else st_ret Break
          end
      end.

(** Every round takes a packet from the node: [fuel] exceeds the number of these. *)
Fixpoint schedule_loop (fuel : nat) (i : nat) (lcid : Z) : M bool :=
  match fuel with
  | O => st_ub
  | S fuel' =>
      let! go := sg (fun s => DTAP_CanSend s lcid) in
      if negb go then st_ret true
      else
        let! r := DTAP_PriorityQueuePeek i lcid in
        match r with
        | None => st_ret true
        | Some r =>
            let! res := schedule_round i lcid r in
            match res with
            | Continue => schedule_loop fuel' i lcid
            | Break => st_ret true
            | Return b => st_ret b
            end
        end
  end.

Definition chan_pkts (s : Sched) (r : chan_ref) : list DTAP_PendingPacket :=
  match channels s !! r with Some c => pktList c | None => [] end.

Definition DTAP_ScheduleLcid (i : nat) (lcid : Z) : M bool :=
  let! lcidNode := get_lnode i lcid in
  let! n := sg (fun s => length (concat (map (chan_pkts s) (channelList lcidNode)))) in
  schedule_loop (S n) i lcid.

(** The nodes of the links [lcids], one after the other.  While a queue is walked no
    node joins or leaves it, except that the node of the link at hand may join the
    queue of fragments. *)
Fixpoint schedule_links (i : nat) (lcids : list Z) : M bool :=
  match lcids with
  | [] => st_ret true
  | lcid :: lcids' =>
      let! go := sg (fun s => DTAP_CanSend s lcid) in
      if negb go then schedule_links i lcids'
      else
        supd (upd_lnode i lcid (fun n => n <| hasScheduled := true |>)) ;;!
        let! ok := DTAP_ScheduleLcid i lcid in
        if negb ok then st_ret false else schedule_links i lcids'
  end.

(** The second loop: a node that was scheduled goes to the end. *)
Definition rotate_step (l : list DTAP_LcidNode) (lcid : Z) : list DTAP_LcidNode :=
  match find_first (is_lnode lcid) l with
  | Some n =>
      if negb (hasScheduled n) then l
      else remove_first (is_lnode lcid) l ++ [n <| hasScheduled := false |>]
  | None => l
  end.

Definition rotate (l : list DTAP_LcidNode) : list DTAP_LcidNode :=
  fold_left rotate_step (map ln_lcid l) l.

Definition DTAP_SchedulePriority (i : nat) : M bool :=
  let! q := get_queue i in
  let! ret := schedule_links i (map ln_lcid (lcidList q)) in
  supd (upd_queue i (fun q => q <| lcidList ::= rotate |>)) ;;!
  st_ret ret.

Fixpoint run_queues (qs : list nat) : M unit :=
  match qs with
  | [] => st_ret tt
  | i :: qs' =>
      let! q := get_queue i in
      let! full := sg (fun s => g_apBufferNum s <=? g_sendNotAckPktCnt s) in
      if (full : bool) then st_ret tt
      else if q_pktCnt q =? 0 then run_queues qs'
      else
        let! ok := DTAP_SchedulePriority i in
        if negb ok then st_ret tt else run_queues qs'
  end.

Definition DTAP_SchedulerRun : M unit := run_queues queue_indices.

(** [transChan] is not null; its [lcid], [srcTcid] and [priority] are those of the
    store. *)
Definition SendWithPriority (transChan : chan_ref) (buff : option SDF_Buff) : M Z :=
  let! on := sg g_isInited in
  if negb on then st_ret DTAP_TRANS_INIT_ERR
  else
    match buff with
    | None => st_ret DTAP_TRANS_INVALID_PARAM_ERR
    | Some buff =>
        let! c := get_chan transChan in
        if DTAP_PRIORITY_MAX <=? c_priority c then st_ret DTAP_TRANS_INVALID_MODULE_TYPE
        else
          let i := Z.to_nat (c_priority c) in
          let! q := get_queue i in
          if DTAP_PACKET_MAX_SIZE <=? q_pktCnt q then st_ret DTAP_TRANS_EXCEED_MAX_ERR
          else
            let! pkt := DTAP_CreatePacket buff in
            match pkt with
            | None => st_ret DTAP_TRANS_MALLOC_ERR
            | Some pkt =>
                let! ret := DTAP_PriorityQueuePush i transChan 1 in
                if negb (ret =? DTAP_SUCCESS) then st_ret ret
                else
                  supd (upd_chan transChan (fun c => c <| pktList ::= fun l => l ++ [pkt] |>)) ;;!
                  let! bufNode := sg (DTAP_GetLcidBufferNode (c_lcid c)) in
                  let! room := sg (fun s => g_sendNotAckPktCnt s <? g_apBufferNum s) in
                  (match bufNode with
                   | Some n => if (quota n <=? sendNotAckPktCnt n) && room then RecalcLcidQuota else st_ret tt
                   | None => st_ret tt
                   end) ;;!
                  DTAP_SchedulerRun ;;!
                  st_ret DTAP_SUCCESS
            end
    end.

Definition DTAP_SendCompleteCbk (connHandle numCompletedPackets : Z) : M unit :=
  let! node := sg (DTAP_GetLcidBufferNode connHandle) in
  match node with
  | None => st_ret tt
  | Some _ =>
      supd (fun s => s <| g_sendNotAckPktCnt ::= fun g => u8 (DTAP_SCHED_SUB g numCompletedPackets) |>) ;;!
      let! g := sg g_sendNotAckPktCnt in
      COLLAB_ContinueAssignTransBuffer g ;;!
      supd (upd_bufnode connHandle (fun n =>
        n <| sendNotAckPktCnt ::= fun k => DTAP_SCHED_SUB k numCompletedPackets |>)) ;;!
      RecalcLcidQuota ;;!
      DTAP_SchedulerRun
  end.
End sched.
