(* ===== verification/DtapSchedStore.v ===== *)
(** * The packet scheduler: its invariant

    The queues of [DtapScheduler] and the store of channels fit together: every
    channel a node refers to is in the store and belongs to the node's link and
    queue, every channel with packets is linked, and the counters of nodes and queues
    are the numbers of packets.  The lemmas are about these two parts of the state
    only, without the monad. *)
From S2P Require Import Prelude SdfErrno SdfBuff DtapEnv DliLayer DliData DtapTrans DtapQuota DtapScheduler.

Implicit Types (n : DTAP_LcidNode) (q : DTAP_PriorityQueue) (c : SchedChannel) (r : chan_ref)
  (qs : list DTAP_PriorityQueue) (h : gmap chan_ref SchedChannel).

(** More sums. *)
Lemma zsum_change {A} (f g : A -> Z) (x : A) l :
  NoDup l -> x ∈ l -> (forall y, y ∈ l -> y <> x -> g y = f y) -> zsum g l = zsum f l - f x + g x.
Proof.
  intros Hnd (l1&l2&->)%list_elem_of_split Hfg. rewrite !zsum_app, !zsum_cons.
  apply NoDup_app in Hnd as (_&Hd&Hnd). apply NoDup_cons in Hnd as [Hx _].
  rewrite (zsum_ext g f l1), (zsum_ext g f l2); [lia|..]; intros y Hy; apply Hfg.
  - apply elem_of_app. right. by constructor.
  - intros ->. done.
  - apply elem_of_app. by left.
  - intros ->. apply (Hd x Hy). by constructor.
Qed.

(** ** Nodes in a list *)
Lemma is_lnode_spec lcid n : is_lnode lcid n = true <-> ln_lcid n = lcid.
Proof. apply Z.eqb_eq. Qed.

Lemma find_lnode_lcid lcid l n : find_first (is_lnode lcid) l = Some n -> n ∈ l /\ ln_lcid n = lcid.
Proof. intros [Hn Hl]%find_first_Some. by rewrite is_lnode_spec in Hl. Qed.

Lemma find_lnode_elem n l :
  NoDup (map ln_lcid l) -> n ∈ l -> find_first (is_lnode (ln_lcid n)) l = Some n.
Proof.
  induction l as [|m l IH]; [by intros _ ?%not_elem_of_nil|]. intros [Hm Hnd]%NoDup_cons. simpl.
  intros [->|Hn]%elem_of_cons.
  - by rewrite (proj2 (is_lnode_spec _ _) eq_refl).
  - unfold is_lnode at 1. destruct (Z.eqb_spec (ln_lcid m) (ln_lcid n)) as [E|]; [|by apply IH].
    exfalso. apply Hm. rewrite E. by apply (list_elem_of_fmap_2 ln_lcid).
Qed.

Lemma find_lnode_None lcid l : find_first (is_lnode lcid) l = None <-> lcid ∉ map ln_lcid l.
Proof.
  rewrite find_first_None, Forall_forall. split.
  - intros Hf (n&->&Hn)%list_elem_of_fmap. specialize (Hf n Hn). unfold is_lnode in Hf. by rewrite Z.eqb_refl in Hf.
  - intros Hn n Hin. apply Z.eqb_neq. intros <-. by apply Hn, (list_elem_of_fmap_2 ln_lcid).
Qed.

(** The node of a link put in the place of the old one. *)
Definition set_node n l : list DTAP_LcidNode := update_first (is_lnode (ln_lcid n)) (fun _ => n) l.

#[global] Arguments set_node : simpl never.

Lemma set_node_lcids n l : map ln_lcid (set_node n l) = map ln_lcid l.
Proof.
  unfold set_node. induction l as [|m l IH]; simpl; [done|].
  destruct (is_lnode (ln_lcid n) m) eqn:E; simpl; [|by rewrite IH]. apply is_lnode_spec in E. by rewrite E.
Qed.

Lemma find_set_node n l m :
  find_first (is_lnode (ln_lcid n)) l = Some m -> find_first (is_lnode (ln_lcid n)) (set_node n l) = Some n.
Proof.
  intros (l1&l2&->&H1&H2)%find_first_split. unfold set_node. rewrite update_first_split by done.
  induction H1 as [|x l1 Hx _ IH]; simpl; [by rewrite (proj2 (is_lnode_spec _ _) eq_refl)|]. by rewrite Hx.
Qed.

Lemma find_set_node_ne n l lcid :
  lcid <> ln_lcid n -> find_first (is_lnode lcid) (set_node n l) = find_first (is_lnode lcid) l.
Proof.
  intros Hne. unfold set_node. induction l as [|m l IH]; simpl; [done|].
  destruct (is_lnode (ln_lcid n) m) eqn:E; simpl; [|by rewrite IH].
  apply is_lnode_spec in E. unfold is_lnode. rewrite E.
  by destruct (Z.eqb_spec (ln_lcid n) lcid); [congruence|].
Qed.

Lemma set_node_twice n n' l : ln_lcid n' = ln_lcid n -> set_node n' (set_node n l) = set_node n' l.
Proof.
  intros E. unfold set_node. rewrite E. induction l as [|m l IH]; simpl; [done|].
  destruct (is_lnode (ln_lcid n) m) eqn:Em; simpl.
  - by rewrite (proj2 (is_lnode_spec _ _) eq_refl).
  - by rewrite Em, IH.
Qed.

Lemma elem_set_node n l x :
  NoDup (map ln_lcid l) -> x ∈ set_node n l -> x = n \/ (x ∈ l /\ ln_lcid x <> ln_lcid n).
Proof.
  intros Hnd Hx. destruct (decide (ln_lcid x = ln_lcid n)) as [E|E].
  - left. pose proof (find_lnode_elem x (set_node n l)) as Hf. rewrite set_node_lcids, E in Hf.
    specialize (Hf Hnd Hx). destruct (find_first (is_lnode (ln_lcid n)) l) as [m|] eqn:Em.
    + rewrite (find_set_node n l m Em) in Hf. congruence.
    + exfalso. apply find_lnode_None in Em. apply Em. rewrite <- (set_node_lcids n), <- E.
      by apply (list_elem_of_fmap_2 ln_lcid).
  - right. split; [|done]. pose proof (find_lnode_elem x (set_node n l)) as Hf. rewrite set_node_lcids in Hf.
    rewrite find_set_node_ne in Hf by done. by destruct (find_lnode_lcid _ _ _ (Hf Hnd Hx)).
Qed.

Lemma zsum_set_node f n l m :
  find_first (is_lnode (ln_lcid n)) l = Some m -> zsum f (set_node n l) = zsum f l - f m + f n.
Proof. apply zsum_update_first. Qed.

(** ** The invariant of queues and channels *)
Definition pkts_of h r : list DTAP_PendingPacket :=
  match h !! r with Some c => pktList c | None => [] end.

(** Left-over fragments a link may have. *)
Definition max_frags : Z := 384.

Definition packet_ok r (p : DTAP_PendingPacket) : Prop :=
  match r with
  | TransChan _ => isSplited p = false /\ sendable (pk_buff p)
  | FragChan _ => isSplited p = true /\ buff_wf (pk_buff p) /\ dataLen (pk_buff p) <= DLI_MAX_TXRX_DATA_LEN
  end.

Record chan_inv r c : Prop := {
  ci_lcid : 0 <= c_lcid c < 4096;
  ci_kind : match r with
            | TransChan _ => 1 <= c_priority c <= 3
            | FragChan L => c_lcid c = L /\ c_srcTcid c = DTAP_FRAGMENT_TCID /\
                            c_priority c = DTAP_PRIORITY_FRAGMENT /\ zlen (pktList c) <= max_frags
            end;
  ci_pkts : Forall (packet_ok r) (pktList c)
}.

Definition member (lcid : Z) (i : nat) h r : Prop :=
  exists c, h !! r = Some c /\ c_lcid c = lcid /\ c_priority c = Z.of_nat i.

Record node_inv h (i : nat) n : Prop := {
  ni_lcid : 0 <= ln_lcid n < 4096;
  ni_nodup : NoDup (channelList n);
  ni_chans : forall r, r ∈ channelList n -> member (ln_lcid n) i h r;
  ni_cnt : ln_pktCnt n = zsum (fun r => zlen (pkts_of h r)) (channelList n)
}.

Record queue_inv h (i : nat) q : Prop := {
  qi_prio : q_priority q = Z.of_nat i;
  qi_nodup : NoDup (map ln_lcid (lcidList q));
  qi_nodes : forall n, n ∈ lcidList q -> node_inv h i n;
  qi_cnt : q_pktCnt q = zsum ln_pktCnt (lcidList q);
  qi_bound : (0 < i)%nat -> q_pktCnt q <= DTAP_PACKET_MAX_SIZE
}.

Definition linked qs r c : Prop :=
  exists q n, qs !! Z.to_nat (c_priority c) = Some q /\ DTAP_GetLcidNode q (c_lcid c) = Some n /\
    r ∈ channelList n.

Record store_inv qs h : Prop := {
  si_len : length qs = 4%nat;
  si_queues : forall i q, qs !! i = Some q -> queue_inv h i q;
  si_chans : forall r c, h !! r = Some c -> chan_inv r c;
  si_keys : forall p1 p2 c1 c2, h !! TransChan p1 = Some c1 -> h !! TransChan p2 = Some c2 ->
    c_lcid c1 = c_lcid c2 -> c_srcTcid c1 = c_srcTcid c2 -> p1 = p2;
  si_linked : forall r c, h !! r = Some c ->
    linked qs r c \/ (pktList c = [] /\ exists p, r = TransChan p)
}.

Lemma pkts_of_insert h r c : pkts_of (<[r := c]> h) r = pktList c.
Proof. unfold pkts_of. by rewrite lookup_insert_eq. Qed.
Lemma pkts_of_insert_ne h r r' c : r <> r' -> pkts_of (<[r := c]> h) r' = pkts_of h r'.
Proof. intros. unfold pkts_of. by rewrite lookup_insert_ne. Qed.
Lemma pkts_of_Some h r c : h !! r = Some c -> pkts_of h r = pktList c.
Proof. intros E. unfold pkts_of. by rewrite E. Qed.

Lemma node_of qs h i q lcid n :
  store_inv qs h -> qs !! i = Some q -> DTAP_GetLcidNode q lcid = Some n ->
  node_inv h i n /\ n ∈ lcidList q /\ ln_lcid n = lcid.
Proof.
  intros Hs Hq Hn. apply find_lnode_lcid in Hn as [Hn Hl]. split; [|done].
  exact (qi_nodes _ _ _ (si_queues _ _ Hs i q Hq) n Hn).
Qed.

(** What belongs to another node is not touched by a change of [r]. *)
Lemma node_inv_other h i n r c' lcid i' :
  node_inv h i n -> (forall c, h !! r = Some c -> c_lcid c = lcid /\ c_priority c = Z.of_nat i') ->
  (ln_lcid n <> lcid \/ i <> i') -> node_inv (<[r := c']> h) i n.
Proof.
  intros [Hl Hnd Hc Hcnt] Hr Hne.
  assert (forall x, x ∈ channelList n -> r <> x) as Hx.
  { intros x Hx ->. destruct (Hc x Hx) as (c&Hc1&Hc2&Hc3). destruct (Hr c Hc1). destruct Hne; [congruence|lia]. }
  constructor; [done|done| |].
  - intros x Hin. destruct (Hc x Hin) as (c&Hc1&?). exists c. by rewrite lookup_insert_ne by auto.
  - rewrite Hcnt. apply zsum_ext. intros x Hin. by rewrite pkts_of_insert_ne by auto.
Qed.

(** A change of one channel and of the node it belongs to. *)
Lemma store_put qs h i q n n' r c' :
  store_inv qs h -> qs !! i = Some q -> DTAP_GetLcidNode q (ln_lcid n') = Some n ->
  (match h !! r with
   | Some c => c_lcid c = c_lcid c' /\ c_priority c = c_priority c' /\ c_srcTcid c = c_srcTcid c'
   | None => exists L, r = FragChan L end) ->
  c_lcid c' = ln_lcid n' -> c_priority c' = Z.of_nat i -> chan_inv r c' ->
  NoDup (channelList n') -> (forall x, x ∈ channelList n' <-> x ∈ channelList n \/ x = r) ->
  ln_pktCnt n' = zsum (fun x => zlen (pkts_of (<[r := c']> h) x)) (channelList n') ->
  ((0 < i)%nat -> q_pktCnt q - ln_pktCnt n + ln_pktCnt n' <= DTAP_PACKET_MAX_SIZE) ->
  let q' := mk_queue (set_node n' (lcidList q)) (q_priority q) (q_pktCnt q - ln_pktCnt n + ln_pktCnt n') in
  store_inv (<[i := q']> qs) (<[r := c']> h).
Proof.
  intros Hs Hq Hn Hr Hl Hp Hc' Hnd Hmem Hcnt Hb q'.
  destruct (node_of _ _ _ _ _ _ Hs Hq Hn) as (Hni&Hin&Hnl).
  pose proof (si_queues _ _ Hs i q Hq) as Hqi. assert (i < length qs)%nat as Hi by (by eapply lookup_lt_Some).
  assert (forall c, h !! r = Some c -> c_lcid c = ln_lcid n' /\ c_priority c = Z.of_nat i) as Hr'.
  { intros c E. rewrite E in Hr. destruct Hr as (?&?&?). split; congruence. }
  constructor.
  - rewrite length_insert. apply Hs.
  - intros j qj Hj. destruct (decide (j = i)) as [->|Hji].
    + rewrite list_lookup_insert_eq in Hj by done. injection Hj as <-. constructor; cbn.
      * apply Hqi.
      * rewrite set_node_lcids. apply Hqi.
      * intros m [->|[Hm Hml]]%elem_set_node; [..|apply Hqi].
        -- constructor; [rewrite <- Hnl; apply Hni|done| |done]. intros x Hx. apply Hmem in Hx.
           destruct (decide (x = r)) as [->|Hxr].
           ++ exists c'. by rewrite lookup_insert_eq.
           ++ destruct Hx as [Hx|]; [|done]. destruct (ni_chans _ _ _ Hni x Hx) as (c&Hc1&Hc2&Hc3).
              exists c. rewrite lookup_insert_ne by done. by rewrite <- Hnl.
        -- eapply node_inv_other; [by apply Hqi|exact Hr'|by left].
      * rewrite (zsum_set_node _ _ _ n) by done. rewrite (qi_cnt _ _ _ Hqi). lia.
      * done.
    + rewrite list_lookup_insert_ne in Hj by done. pose proof (si_queues _ _ Hs j qj Hj) as Hqj.
      constructor; [apply Hqj..| |apply Hqj|apply Hqj]. intros m Hm.
      eapply node_inv_other; [by apply Hqj|exact Hr'|by right].
  - intros x c. destruct (decide (r = x)) as [->|Hne].
    + rewrite lookup_insert_eq. by intros [=<-].
    + rewrite lookup_insert_ne by done. apply Hs.
  - assert (forall p c, <[r:=c']> h !! TransChan p = Some c ->
      exists c0, h !! TransChan p = Some c0 /\ c_lcid c0 = c_lcid c /\ c_srcTcid c0 = c_srcTcid c) as Hk.
    { intros p c. destruct (decide (r = TransChan p)) as [->|Hne].
      - rewrite lookup_insert_eq. intros [=<-]. destruct (h !! TransChan p) as [c0|]; [|by destruct Hr].
        exists c0. naive_solver.
      - rewrite lookup_insert_ne by done. eauto. }
    intros p1 p2 c1 c2 (d1&?&?&?)%Hk (d2&?&?&?)%Hk ??. eapply (si_keys _ _ Hs); eauto; congruence.
  - assert (forall x c, linked qs x c -> linked (<[i:=q']> qs) x c) as Hlk.
    { intros x c (qj&m&Hqj&Hm&Hx). unfold linked. destruct (decide (Z.to_nat (c_priority c) = i)) as [E|E].
      - rewrite E in Hqj |- *. rewrite Hq in Hqj. injection Hqj as <-. exists q'. rewrite list_lookup_insert_eq by done.
        unfold DTAP_GetLcidNode in *. cbn. destruct (decide (c_lcid c = ln_lcid n')) as [El|El].
        + rewrite El in Hm |- *. rewrite Hn in Hm. injection Hm as <-. exists n'. split; [done|].
          split; [by eapply find_set_node|]. apply Hmem. by left.
        + exists m. by rewrite find_set_node_ne.
      - exists qj, m. by rewrite list_lookup_insert_ne. }
    intros x c. destruct (decide (r = x)) as [->|Hne].
    + rewrite lookup_insert_eq. intros [=<-]. left. exists q', n'. rewrite Hp, Nat2Z.id.
      rewrite list_lookup_insert_eq by done. split; [done|]. rewrite Hl. split; [by eapply find_set_node|].
      apply Hmem. by right.
    + rewrite lookup_insert_ne by done. intros Hx. destruct (si_linked _ _ Hs x c Hx) as [?|?]; [left; auto|by right].
Qed.

(** A node for a link that has none. *)
Lemma store_add_node qs h i q lcid :
  store_inv qs h -> qs !! i = Some q -> DTAP_GetLcidNode q lcid = None -> 0 <= lcid < 4096 ->
  let n := mk_lnode [] false lcid (q_priority q) 0 in
  store_inv (<[i := q <| lcidList ::= fun l => l ++ [n] |>]> qs) h /\
  DTAP_GetLcidNode (q <| lcidList ::= fun l => l ++ [n] |>) lcid = Some n.
Proof.
  intros Hs Hq Hnone Hl n. assert (i < length qs)%nat as Hi by (by eapply lookup_lt_Some).
  pose proof (si_queues _ _ Hs i q Hq) as Hqi. pose proof (proj1 (find_lnode_None _ _) Hnone) as Hnin.
  assert (forall L m, DTAP_GetLcidNode q L = Some m ->
            DTAP_GetLcidNode (q <| lcidList ::= fun l => l ++ [n] |>) L = Some m) as Hkeep.
  { intros L m. unfold DTAP_GetLcidNode. cbn. intros (l1&l2&->&H1&H2)%find_first_split.
    rewrite <- app_assoc. simpl. clear -H1 H2. induction H1 as [|x l1 Hx _ IH]; simpl; [by rewrite H2|by rewrite Hx]. }
  split.
  - constructor.
    + rewrite length_insert. apply Hs.
    + intros j qj Hj. destruct (decide (j = i)) as [->|Hji].
      2:{ rewrite list_lookup_insert_ne in Hj by done. by apply Hs. }
      rewrite list_lookup_insert_eq in Hj by done. injection Hj as <-. constructor; cbn.
      * apply Hqi.
      * rewrite map_app. apply NoDup_app. split_and!; [apply Hqi| |apply NoDup_singleton].
        intros x Hx ->%list_elem_of_singleton. done.
      * intros m [Hm| ->%list_elem_of_singleton]%elem_of_app; [by apply Hqi|].
        constructor; cbn; [done|constructor| |done]. by intros ? ?%not_elem_of_nil.
      * rewrite zsum_app, zsum_cons, zsum_nil, (qi_cnt _ _ _ Hqi). cbn. lia.
      * apply Hqi.
    + apply Hs.
    + apply Hs.
    + intros r c Hr. destruct (si_linked _ _ Hs r c Hr) as [(qj&m&Hqj&Hm&Hx)|?]; [left|by right].
      unfold linked. destruct (decide (Z.to_nat (c_priority c) = i)) as [E|E].
      * rewrite E in Hqj |- *. rewrite Hq in Hqj. injection Hqj as <-. rewrite list_lookup_insert_eq by done.
        eexists _, m. split; [done|]. split; [by apply Hkeep|done].
      * exists qj, m. by rewrite list_lookup_insert_ne.
  - unfold DTAP_GetLcidNode in *. cbn.
    assert (Forall (fun m => is_lnode lcid m = false) (lcidList q)) as Hall by (by apply find_first_None).
    assert (is_lnode lcid n = true) as Hn by (by apply is_lnode_spec).
    clear -Hall Hn. induction Hall as [|x l Hx _ IH]; simpl; [by rewrite Hn|by rewrite Hx].
Qed.

(** The order of the nodes and their flags do not matter. *)
Definition unflag n : DTAP_LcidNode := n <| hasScheduled := false |>.
Definition same_nodes (l l' : list DTAP_LcidNode) : Prop := map unflag l ≡ₚ map unflag l'.

#[export] Instance same_nodes_equiv : Equivalence same_nodes.
Proof. split; unfold same_nodes; [by intros l|by intros l l' ->|by intros l1 l2 l3 -> ->]. Qed.

Lemma same_nodes_elem l l' n : same_nodes l l' -> n ∈ l -> exists n', n' ∈ l' /\ unflag n' = unflag n.
Proof.
  intros Hp Hn. apply (list_elem_of_fmap_2 unflag) in Hn. unfold same_nodes in Hp. change (fmap unflag l) with (map unflag l) in Hn.
  rewrite Hp in Hn. apply list_elem_of_fmap in Hn as (n'&E&Hn'). eauto.
Qed.

Lemma same_nodes_lcids l l' : same_nodes l l' -> map ln_lcid l ≡ₚ map ln_lcid l'.
Proof.
  intros Hp. apply (Permutation_map ln_lcid) in Hp. rewrite !map_map in Hp. exact Hp.
Qed.

Lemma same_nodes_count l l' : same_nodes l l' -> zsum ln_pktCnt l = zsum ln_pktCnt l'.
Proof.
  intros Hp. apply (zsum_perm ln_pktCnt) in Hp. rewrite (zsum_map unflag ln_pktCnt l), (zsum_map unflag ln_pktCnt l') in Hp.
  exact Hp.
Qed.

Lemma same_nodes_find l l' lcid n :
  NoDup (map ln_lcid l) -> same_nodes l l' -> find_first (is_lnode lcid) l = Some n ->
  exists n', find_first (is_lnode lcid) l' = Some n' /\ unflag n' = unflag n.
Proof.
  intros Hnd Hp Hf. pose proof (find_lnode_lcid _ _ _ Hf) as [Hn <-].
  destruct (same_nodes_elem _ _ _ Hp Hn) as (n'&Hn'&E). exists n'. split; [|done].
  assert (ln_lcid n' = ln_lcid n) as <- by exact (f_equal ln_lcid E). apply find_lnode_elem; [|done].
  by rewrite <- (same_nodes_lcids _ _ Hp).
Qed.

Lemma node_inv_unflag h i n n' : unflag n' = unflag n -> node_inv h i n -> node_inv h i n'.
Proof.
  intros E [H1 H2 H3 H4]. destruct n as [cl hs L p k], n' as [cl' hs' L' p' k']. injection E as -> -> -> ->.
  by constructor.
Qed.

Lemma store_flags qs h i q l' :
  store_inv qs h -> qs !! i = Some q -> same_nodes (lcidList q) l' ->
  store_inv (<[i := q <| lcidList := l' |>]> qs) h.
Proof.
  intros Hs Hq Hp. assert (i < length qs)%nat as Hi by (by eapply lookup_lt_Some).
  pose proof (si_queues _ _ Hs i q Hq) as Hqi. constructor.
  - rewrite length_insert. apply Hs.
  - intros j qj Hj. destruct (decide (j = i)) as [->|Hji].
    2:{ rewrite list_lookup_insert_ne in Hj by done. by apply Hs. }
    rewrite list_lookup_insert_eq in Hj by done. injection Hj as <-. constructor; cbn.
    + apply Hqi.
    + rewrite <- (same_nodes_lcids _ _ Hp). apply Hqi.
    + intros n' Hn'. destruct (same_nodes_elem l' (lcidList q) n') as (n&Hn&E); [by symmetry|done|].
      eapply node_inv_unflag; [symmetry; exact E|by apply Hqi].
    + rewrite (qi_cnt _ _ _ Hqi). by apply same_nodes_count.
    + apply Hqi.
  - apply Hs.
  - apply Hs.
  - intros r c Hr. destruct (si_linked _ _ Hs r c Hr) as [(qj&m&Hqj&Hm&Hx)|?]; [left|by right].
    unfold linked. destruct (decide (Z.to_nat (c_priority c) = i)) as [E|E].
    + rewrite E in Hqj |- *. rewrite Hq in Hqj. injection Hqj as <-. rewrite list_lookup_insert_eq by done.
      destruct (same_nodes_find _ _ _ _ (qi_nodup _ _ _ Hqi) Hp Hm) as (m'&Hm'&Em).
      eexists _, m'. split; [done|]. split; [done|]. by rewrite (f_equal channelList Em : channelList m' = _).
    + exists qj, m. by rewrite list_lookup_insert_ne.
Qed.

(** Channels that lose their packets; those for fragments leave the store. *)
Definition wiped c : option SchedChannel :=
  if c_priority c =? DTAP_PRIORITY_FRAGMENT then None else Some (c <| pktList := [] |>).

Lemma store_wipe qs h i q l' cnt' h' (X : list chan_ref) :
  store_inv qs h -> qs !! i = Some q ->
  (forall r, r ∈ X -> exists c, h !! r = Some c /\ c_priority c = Z.of_nat i) ->
  (forall r, h' !! r = if decide (r ∈ X) then (c ← h !! r; wiped c) else h !! r) ->
  NoDup (map ln_lcid l') -> (forall n, n ∈ l' -> node_inv h' i n) -> cnt' = zsum ln_pktCnt l' ->
  cnt' <= q_pktCnt q ->
  (forall r c n, h !! r = Some c -> r ∉ X -> c_priority c = Z.of_nat i ->
     DTAP_GetLcidNode q (c_lcid c) = Some n -> r ∈ channelList n ->
     exists n', find_first (is_lnode (c_lcid c)) l' = Some n' /\ r ∈ channelList n') ->
  store_inv (<[i := mk_queue l' (q_priority q) cnt']> qs) h'.
Proof.
  intros Hs Hq HX Hh Hnd Hni Hcnt Hle Hlk. assert (i < length qs)%nat as Hi by (by eapply lookup_lt_Some).
  pose proof (si_queues _ _ Hs i q Hq) as Hqi.
  assert (forall r c', h' !! r = Some c' -> exists c, h !! r = Some c /\ c_lcid c' = c_lcid c /\
    c_srcTcid c' = c_srcTcid c /\ c_priority c' = c_priority c /\
    if decide (r ∈ X) then c_priority c <> 0 /\ pktList c' = [] else c' = c) as Hback.
  { intros r c' Hr. rewrite Hh in Hr. destruct (decide (r ∈ X)) as [Hx|Hx]; [|exists c'; by rewrite Hr].
    destruct (h !! r) as [c|]; [|done]. cbn [mbind option_bind] in Hr. unfold wiped, DTAP_PRIORITY_FRAGMENT in Hr.
    destruct (Z.eqb_spec (c_priority c) 0); [done|]. injection Hr as <-. by exists c. }
  constructor.
  - rewrite length_insert. apply Hs.
  - intros j qj Hj. destruct (decide (j = i)) as [->|Hji].
    + rewrite list_lookup_insert_eq in Hj by done. injection Hj as <-. constructor; cbn; try done; [apply Hqi|].
      intros Hpos. pose proof (qi_bound _ _ _ Hqi Hpos). lia.
    + rewrite list_lookup_insert_ne in Hj by done. pose proof (si_queues _ _ Hs j qj Hj) as Hqj.
      constructor; [apply Hqj..| |apply Hqj|apply Hqj]. intros m Hm. pose proof (qi_nodes _ _ _ Hqj m Hm) as [G1 G2 G3 G4].
      assert (forall x, x ∈ channelList m -> h' !! x = h !! x) as Hsame.
      { intros x Hx. rewrite Hh, decide_False; [done|]. intros Hin. destruct (HX x Hin) as (c&Hc&Hp).
        destruct (G3 x Hx) as (c2&Hc2&_&Hp2). rewrite Hc in Hc2. injection Hc2 as <-. lia. }
      constructor; [done|done| |].
      * intros x Hx. unfold member. rewrite Hsame by done. by apply G3.
      * rewrite G4. apply zsum_ext. intros x Hx. unfold pkts_of. by rewrite Hsame.
  - intros r c' Hr. destruct (Hback r c' Hr) as (c&Hc&El&Et&Ep&Hcase). pose proof (si_chans _ _ Hs r c Hc) as [H1 H2 H3].
    destruct (decide (r ∈ X)) as [Hx|Hx]; [|by subst].
    destruct Hcase as [Hnz Hnil]. constructor; rewrite ?El, ?Et, ?Ep, ?Hnil; [done| |constructor].
    destruct r; [done|]. destruct H2 as (?&?&Hz&?). by unfold DTAP_PRIORITY_FRAGMENT in Hz.
  - intros p1 p2 c1 c2 (d1&Hd1&E1&F1&_)%Hback (d2&Hd2&E2&F2&_)%Hback ??.
    eapply (si_keys _ _ Hs); eauto; congruence.
  - intros r c' Hr. destruct (Hback r c' Hr) as (c&Hc&El&Et&Ep&Hcase).
    destruct (decide (r ∈ X)) as [Hx|Hx].
    { right. destruct Hcase as [Hnz ?]. split; [done|]. pose proof (ci_kind _ _ (si_chans _ _ Hs r c Hc)) as Hk.
      destruct r as [p|L]; [by exists p|]. destruct Hk as (_&_&Hz&_). by unfold DTAP_PRIORITY_FRAGMENT in Hz. }
    subst c'. destruct (si_linked _ _ Hs r c Hc) as [(qj&m&Hqj&Hm&Hxm)|?]; [left|by right].
    unfold linked. destruct (decide (Z.to_nat (c_priority c) = i)) as [E|E].
    + rewrite E in Hqj |- *. rewrite Hq in Hqj. injection Hqj as <-. rewrite list_lookup_insert_eq by done.
      assert (c_priority c = Z.of_nat i) as Hpi.
      { pose proof (ci_kind _ _ (si_chans _ _ Hs r c Hc)). unfold DTAP_PRIORITY_FRAGMENT in *. destruct r; lia. }
      destruct (Hlk r c m Hc Hx Hpi Hm Hxm) as (m'&?&?). eexists _, m'. by split.
    + exists qj, m. by rewrite list_lookup_insert_ne.
Qed.

(** Channels come and go between runs of the scheduler. *)
Lemma store_new qs h p c :
  store_inv qs h -> h !! TransChan p = None -> 0 <= c_lcid c < 4096 -> 1 <= c_priority c <= 3 -> pktList c = [] ->
  (forall p' c', h !! TransChan p' = Some c' -> c_lcid c' = c_lcid c -> c_srcTcid c' <> c_srcTcid c) ->
  store_inv qs (<[TransChan p := c]> h).
Proof.
  intros Hs Hp Hl Hpr Hnil Hkey.
  assert (forall L i r, member L i h r -> TransChan p <> r) as Hm by (intros L i r (?&?&_) <-; congruence).
  constructor.
  - apply Hs.
  - intros i q Hq. destruct (si_queues _ _ Hs i q Hq) as [Q1 Q2 Q3 Q4 Q5]. constructor; try done.
    intros n Hn. destruct (Q3 n Hn) as [G1 G2 G3 G4]. constructor; [done|done| |].
    + intros r Hr. pose proof (G3 r Hr) as Hmr. unfold member. rewrite lookup_insert_ne by (by eapply Hm). done.
    + rewrite G4. apply zsum_ext. intros r Hr. rewrite pkts_of_insert_ne by (eapply Hm, G3, Hr). done.
  - intros r c'. destruct (decide (TransChan p = r)) as [<-|Hne].
    + rewrite lookup_insert_eq. intros [=<-]. constructor; [done|done|rewrite Hnil; constructor].
    + rewrite lookup_insert_ne by done. apply Hs.
  - intros p1 p2 c1 c2. destruct (decide (p1 = p)) as [->|H1], (decide (p2 = p)) as [->|H2]; [done|..].
    + rewrite lookup_insert_eq, lookup_insert_ne by congruence. intros [=<-] E ? ?. by edestruct (Hkey p2 c2).
    + rewrite lookup_insert_eq, lookup_insert_ne by congruence. intros E [=<-] ? ?. by edestruct (Hkey p1 c1).
    + rewrite !lookup_insert_ne by congruence. apply Hs.
  - intros r c'. destruct (decide (TransChan p = r)) as [<-|Hne].
    + rewrite lookup_insert_eq. intros [=<-]. right. eauto.
    + rewrite lookup_insert_ne by done. apply Hs.
Qed.

Lemma store_delete qs h p :
  store_inv qs h ->
  (forall i q n, qs !! i = Some q -> n ∈ lcidList q -> TransChan p ∉ channelList n) ->
  store_inv qs (delete (TransChan p) h).
Proof.
  intros Hs Hun. constructor.
  - apply Hs.
  - intros i q Hq. destruct (si_queues _ _ Hs i q Hq) as [Q1 Q2 Q3 Q4 Q5]. constructor; try done.
    intros n Hn. destruct (Q3 n Hn) as [G1 G2 G3 G4].
    assert (forall r, r ∈ channelList n -> TransChan p <> r) as Hne by (intros r Hr <-; by eapply Hun).
    constructor; [done|done| |].
    + intros r Hr. pose proof (G3 r Hr) as Hmr. unfold member. rewrite lookup_delete_ne by auto. done.
    + rewrite G4. apply zsum_ext. intros r Hr. unfold pkts_of. rewrite lookup_delete_ne by auto. done.
  - intros r c' [_ Hr]%lookup_delete_Some. by apply Hs.
  - intros p1 p2 c1 c2 [_ H1]%lookup_delete_Some [_ H2]%lookup_delete_Some. by apply (si_keys _ _ Hs).
  - intros r c' [_ Hr]%lookup_delete_Some. by apply Hs.
Qed.

(** ** Bounds of the counters *)
Lemma frag_node h n :
  node_inv h 0 n -> (forall r c, h !! r = Some c -> chan_inv r c) ->
  (forall r, r ∈ channelList n -> r = FragChan (ln_lcid n)) /\ ln_pktCnt n <= max_frags.
Proof.
  intros [Hl Hnd Hc Hcnt] Hch.
  assert (forall r, r ∈ channelList n -> r = FragChan (ln_lcid n)) as Hr.
  { intros r Hr. destruct (Hc r Hr) as (c&E&El&Ep). pose proof (ci_kind _ _ (Hch r c E)) as Hk.
    destruct r as [p|L]; [lia|]. destruct Hk as (<-&_). by rewrite El. }
  split; [done|]. rewrite Hcnt. destruct (channelList n) as [|r l] eqn:E; [done|].
  assert (l = []) as ->.
  { destruct l as [|r2 l]; [done|]. apply NoDup_cons in Hnd as [Hnin _]. exfalso. apply Hnin.
    rewrite (Hr r), (Hr r2); [constructor|right; constructor|constructor]. }
  rewrite zsum_cons, zsum_nil. destruct (Hc r) as (c&Ec&_); [constructor|]. rewrite (pkts_of_Some _ _ c) by done.
  pose proof (ci_kind _ _ (Hch r c Ec)) as Hk. rewrite (Hr r) in Hk by constructor. lia.
Qed.

Lemma node_cnt_nonneg h i n : node_inv h i n -> 0 <= ln_pktCnt n.
Proof. intros Hn. rewrite (ni_cnt _ _ _ Hn). apply zsum_nonneg. intros. lia. Qed.

(** No counter is near the end of its range. *)
Lemma queue_count qs h i q :
  store_inv qs h -> qs !! i = Some q -> 0 <= q_pktCnt q <= 4096 * max_frags.
Proof.
  intros Hs Hq. pose proof (si_queues _ _ Hs i q Hq) as Hqi. rewrite (qi_cnt _ _ _ Hqi). split.
  { apply zsum_nonneg. intros n Hn. eapply node_cnt_nonneg. by apply Hqi. }
  destruct (decide (i = 0%nat)) as [->|Hi].
  2:{ rewrite <- (qi_cnt _ _ _ Hqi). etrans; [apply Hqi; lia|]. unfold DTAP_PACKET_MAX_SIZE, max_frags. lia. }
  transitivity (zsum (fun _ => max_frags) (lcidList q)).
  { apply zsum_le. intros n Hn. eapply frag_node; [by apply Hqi|apply Hs]. }
  rewrite zsum_const. assert (zlen (lcidList q) <= 4096); [|unfold max_frags; lia].
  assert (map ln_lcid (lcidList q) ⊆+ seqZ 0 4096) as Hsub.
  { apply NoDup_submseteq; [apply Hqi|]. intros x (n&->&Hn)%list_elem_of_fmap. apply elem_of_seqZ.
    pose proof (ni_lcid _ _ _ (qi_nodes _ _ _ Hqi n Hn)). lia. }
  apply submseteq_length in Hsub. rewrite length_map, length_seqZ in Hsub. lia.
Qed.

Lemma node_count qs h i q L n :
  store_inv qs h -> qs !! i = Some q -> DTAP_GetLcidNode q L = Some n -> 0 <= ln_pktCnt n <= q_pktCnt q.
Proof.
  intros Hs Hq Hn. destruct (node_of _ _ _ _ _ _ Hs Hq Hn) as (Hni&Hin&_). split; [by eapply node_cnt_nonneg|].
  pose proof (si_queues _ _ Hs i q Hq) as Hqi. rewrite (qi_cnt _ _ _ Hqi). apply zsum_elem; [|done].
  intros m Hm. eapply node_cnt_nonneg. by apply Hqi.
Qed.
