(* ===== verification/DtapSchedRun.v ===== *)
(** * The packet scheduler: a run

    What [DTAP_SchedulerRun] does to the state of [DtapScheduler]: the specification
    of every operation it is made of, and their composition.  [ran] says what every
    stretch of a run keeps and how the packets taken from the channels, the [log],
    and the requests made account for the change; [ordered] says that a link's
    fragments go out in the order of the log. *)
From S2P Require Import Prelude SdfErrno SdfBuff DtapEnv DliLayer DliData DtapTrans DtapQuota DtapScheduler DtapSchedStore.

(** ** The invariant of the whole state *)
Record bufnode_inv (n : DTAP_LcidBufferNode) : Prop := {
  bi_lcid : 0 <= bn_lcid n < 65536;
  bi_quota : 0 <= quota n < 256;
  bi_notack : is_u32 (sendNotAckPktCnt n);
  bi_queued : is_u32 (queuedPktCnt n)
}.

Record bufs_inv (l : list DTAP_LcidBufferNode) : Prop := {
  bs_nodup : NoDup (map bn_lcid l);
  bs_nodes : Forall bufnode_inv l
}.

Record sched_inv (S : Sched) : Prop := {
  sv_store : store_inv (g_dtapScheduler S) (channels S);
  sv_bufs : bufs_inv (g_lcidBufferList S);
  sv_g : is_u8 (g_sendNotAckPktCnt S);
  sv_ap : is_u8 (g_apBufferNum S)
}.

(** The controller's buffers are at most what a 16-bit length and the header leave; no
    packet is half split. *)
Definition layer_ok (l : DLI_LayerInfo) : Prop :=
  0 <= cfg_len (acbConfig l) <= 65530 /\ idle (pdFlag l) = true.

(** ** What the requests say *)

(** The packets the DLI layer accepted, with their links. *)
Definition accepted (t : list (call * Z)) : list (Z * bytes) :=
  omap (fun '(c, a) => match c with CDliSend L d => if a =? 0 then Some (L, d) else None | _ => None end) t.
Definition sent_on (L : Z) (t : list (call * Z)) : list bytes :=
  map snd (filter (fun x => x.1 = L) (accepted t)).

(** No allocation failed and the DLI layer accepted every packet. *)
Definition answered (x : call * Z) : Prop :=
  match x.1 with CAlloc => x.2 <> 0 | CDliSend _ _ => x.2 = 0 | _ => True end.
Definition clean (t : list (call * Z)) : Prop := Forall answered t.

Lemma accepted_app t1 t2 : accepted (t1 ++ t2) = accepted t1 ++ accepted t2.
Proof. apply omap_app. Qed.
Lemma sent_on_app L t1 t2 : sent_on L (t1 ++ t2) = sent_on L t1 ++ sent_on L t2.
Proof. unfold sent_on. by rewrite accepted_app, filter_app, map_app. Qed.
Lemma sent_on_nil L t : accepted t = [] -> sent_on L t = [].
Proof. intros E. unfold sent_on. by rewrite E. Qed.
Lemma clean_app t1 t2 : clean (t1 ++ t2) <-> clean t1 /\ clean t2.
Proof. apply Forall_app. Qed.
Lemma failed_not_clean t : (CAlloc, 0) ∈ t -> ~ clean t.
Proof. unfold clean. rewrite Forall_forall. intros Hin Hc. by apply (Hc _ Hin). Qed.

(** ** Nodes of the list of links *)
Lemma find_bufnode_spec L l n :
  find_bufnode L l = Some n -> n ∈ l /\ bn_lcid n = L.
Proof. intros [Hn Hl]%find_first_Some. split; [done|by apply Z.eqb_eq]. Qed.

Lemma find_bufnode_elem l n : NoDup (map bn_lcid l) -> n ∈ l -> find_bufnode (bn_lcid n) l = Some n.
Proof.
  unfold find_bufnode. induction l as [|m l IH]; [by intros _ ?%not_elem_of_nil|]. intros [Hm Hnd]%NoDup_cons.
  simpl. intros [->|Hn]%elem_of_cons; [by rewrite Z.eqb_refl|].
  destruct (Z.eqb_spec (bn_lcid m) (bn_lcid n)) as [E|]; [|by apply IH].
  exfalso. apply Hm. rewrite E. by apply (list_elem_of_fmap_2 bn_lcid).
Qed.

(** How the nodes change: the quotas stay, and the packets accepted are counted. *)
Definition counted (t : list (call * Z)) (n n' : DTAP_LcidBufferNode) : Prop :=
  bn_lcid n' = bn_lcid n /\ quota n' = quota n /\
  sendNotAckPktCnt n' = sendNotAckPktCnt n + zlen (sent_on (bn_lcid n) t) /\
  (sent_on (bn_lcid n) t = [] \/ sendNotAckPktCnt n' <= quota n).

Lemma counted_refl t n : accepted t = [] -> counted t n n.
Proof. intros E. unfold counted. rewrite sent_on_nil by done. cbn. split_and!; [done..|lia|by left]. Qed.

Lemma counted_trans t1 t2 n1 n2 n3 : counted t1 n1 n2 -> counted t2 n2 n3 -> counted (t1 ++ t2) n1 n3.
Proof.
  intros (E1&Q1&C1&B1) (E2&Q2&C2&B2). unfold counted. rewrite E1 in *. rewrite Q1 in *.
  rewrite sent_on_app, length_app. split_and!; [done|done|lia|].
  destruct B2 as [E|]; [|by right]. rewrite E in *. rewrite app_nil_r. cbn in C2.
  destruct B1; [by left|right; lia].
Qed.

Definition bufs_ran (t : list (call * Z)) : list DTAP_LcidBufferNode -> list DTAP_LcidBufferNode -> Prop :=
  Forall2 (counted t).

Lemma bufs_ran_refl t l : accepted t = [] -> bufs_ran t l l.
Proof. intros E. apply Forall_Forall2_diag, Forall_forall. intros. by apply counted_refl. Qed.

Lemma bufs_ran_trans t1 t2 l1 l2 l3 :
  bufs_ran t1 l1 l2 -> bufs_ran t2 l2 l3 -> bufs_ran (t1 ++ t2) l1 l3.
Proof.
  intros H1. revert l3. induction H1 as [|n1 n2 l1 l2 Hn H1 IH]; intros l3 H2.
  - apply Forall2_nil_inv_l in H2 as ->. constructor.
  - apply Forall2_cons_inv_l in H2 as (n3&l3'&Hn2&H2&->). constructor; [by eapply counted_trans|by apply IH].
Qed.

Lemma bufs_ran_find t l l' L :
  bufs_ran t l l' ->
  match find_bufnode L l, find_bufnode L l' with
  | Some n, Some n' => counted t n n'
  | None, None => True
  | _, _ => False
  end.
Proof.
  unfold find_bufnode. induction 1 as [|n n' l l' Hn _ IH]; simpl; [done|]. pose proof Hn as (E&_). rewrite E.
  by destruct (bn_lcid n =? L).
Qed.

(** An update of one node. *)
Lemma bufs_ran_update t l L f :
  (forall n, find_bufnode L l = Some n -> counted t n (f n)) -> (forall L', L' <> L -> sent_on L' t = []) ->
  NoDup (map bn_lcid l) -> bufs_ran t l (update_bufnode L f l).
Proof.
  unfold find_bufnode, update_bufnode. intros Hf Ht. induction l as [|n l IH]; [constructor|].
  intros [Hn Hnd]%NoDup_cons. simpl in *. destruct (Z.eqb_spec (bn_lcid n) L) as [E|E].
  - constructor; [by apply Hf|]. apply Forall_Forall2_diag, Forall_forall. intros m Hm.
    unfold counted. rewrite Ht; [cbn; split_and!; [done..|lia|by left]|]. intros <-. apply Hn. rewrite E.
    by apply (list_elem_of_fmap_2 bn_lcid).
  - constructor; [|by apply IH]. unfold counted. rewrite Ht by done. cbn. split_and!; [done..|lia|by left].
Qed.

Lemma bufs_inv_update l L f :
  bufs_inv l -> (forall n, find_bufnode L l = Some n -> bn_lcid (f n) = L /\ bufnode_inv (f n)) ->
  bufs_inv (update_bufnode L f l).
Proof.
  intros [Hnd Hl] Hf. unfold find_bufnode, update_bufnode in *.
  assert (map bn_lcid (update_first (fun n => bn_lcid n =? L) f l) = map bn_lcid l /\
          Forall bufnode_inv (update_first (fun n => bn_lcid n =? L) f l)) as [E ?].
  { clear Hnd. induction Hl as [|n l Hn Hl IH]; simpl in *; [by repeat constructor|].
    destruct (Z.eqb_spec (bn_lcid n) L) as [E|E].
    - destruct (Hf n eq_refl). split; [simpl; congruence|by constructor].
    - destruct (IH Hf) as [E' ?]. split; [simpl; congruence|by constructor]. }
  constructor; [by rewrite E|done].
Qed.

Lemma bufs_inv_len l : bufs_inv l -> zlen l <= 65536.
Proof.
  intros [Hnd Hl]. assert (map bn_lcid l ⊆+ seqZ 0 65536) as Hsub.
  { apply NoDup_submseteq; [done|]. intros x (n&->&Hn)%list_elem_of_fmap. apply elem_of_seqZ.
    rewrite Forall_forall in Hl. pose proof (bi_lcid _ (Hl n Hn)). lia. }
  apply submseteq_length in Hsub. rewrite length_map, length_seqZ in Hsub. lia.
Qed.

(** ** A stretch of a run *)

(** A packet taken from a channel: the channel, its link, the packet. *)
Record taken := mk_taken { tk_chan : Z; tk_lcid : Z; tk_pkt : DTAP_PendingPacket }.

Definition has_node (S : Sched) (j : nat) (L : Z) : Prop :=
  exists q, g_dtapScheduler S !! j = Some q /\ is_Some (DTAP_GetLcidNode q L).

Definition shrunk (log : list taken) (p : Z) (o o' : option SchedChannel) : Prop :=
  match o, o' with
  | Some c, Some c' => c' = c <| pktList := pktList c' |> /\
      pktList c = map tk_pkt (filter (fun e => tk_chan e = p) log) ++ pktList c'
  | None, None => True
  | _, _ => False
  end.

Record ran (S : Sched) (log : list taken) (t : list (call * Z)) (S' : Sched) : Prop := {
  rn_ap : g_apBufferNum S' = g_apBufferNum S;
  rn_on : g_isInited S' = g_isInited S;
  rn_calls : Forall (fun '(c, _) => sched_call c) t;
  rn_g : g_sendNotAckPktCnt S' = g_sendNotAckPktCnt S + zlen (accepted t);
  rn_room : accepted t = [] \/ g_sendNotAckPktCnt S' <= g_apBufferNum S;
  rn_bufs : bufs_ran t (g_lcidBufferList S) (g_lcidBufferList S');
  rn_known : forall L d, (L, d) ∈ accepted t -> is_Some (DTAP_GetLcidBufferNode L S);
  rn_nodes : forall j L, has_node S j L -> has_node S' j L;
  rn_chans : forall p, shrunk log p (channels S !! TransChan p) (channels S' !! TransChan p);
  rn_log : forall e, e ∈ log -> exists c, channels S !! TransChan (tk_chan e) = Some c /\ c_lcid c = tk_lcid e
}.

Lemma shrunk_trans log1 log2 p o1 o2 o3 :
  shrunk log1 p o1 o2 -> shrunk log2 p o2 o3 -> shrunk (log1 ++ log2) p o1 o3.
Proof.
  unfold shrunk. destruct o1 as [c1|], o2 as [c2|], o3 as [c3|]; try done. intros [E1 H1] [E2 H2].
  split; [|by rewrite H1, H2, filter_app, map_app, app_assoc]. rewrite E2, E1. by destruct c3.
Qed.

Lemma ran_trans S1 S2 S3 log1 log2 t1 t2 :
  ran S1 log1 t1 S2 -> ran S2 log2 t2 S3 -> ran S1 (log1 ++ log2) (t1 ++ t2) S3.
Proof.
  intros [A1 A2 A3 A4 A5 A6 A7 A8 A9 A10] [B1 B2 B3 B4 B5 B6 B7 B8 B9 B10]. constructor.
  - congruence.
  - congruence.
  - by apply Forall_app_2.
  - rewrite accepted_app, length_app. lia.
  - rewrite accepted_app. destruct B5 as [E|]; [|right; congruence]. rewrite E in *. rewrite app_nil_r.
    cbn in B4. destruct A5; [by left|right; lia].
  - by eapply bufs_ran_trans.
  - intros L d. rewrite accepted_app. intros [Hin|Hin]%elem_of_app; [by eapply A7|].
    pose proof (B7 L d Hin) as [n' E]. unfold DTAP_GetLcidBufferNode in *.
    pose proof (bufs_ran_find _ _ _ L A6) as Hf. rewrite E in Hf. by destruct (find_bufnode L (g_lcidBufferList S1)).
  - auto.
  - intros p. by eapply shrunk_trans.
  - intros e [He|He]%elem_of_app; [auto|]. destruct (B10 e He) as (c&Ec&El).
    pose proof (A9 (tk_chan e)) as Hs. unfold shrunk in Hs. rewrite Ec in Hs.
    destruct (channels S1 !! TransChan (tk_chan e)) as [c1|]; [|done]. destruct Hs as [Hc _].
    exists c1. split; [done|]. by rewrite <- El, Hc.
Qed.

(** ** The order of the fragments *)
Definition left_over (S : Sched) (L : Z) : list bytes :=
  map (fun p => buff_data (pk_buff p)) (chan_pkts S (FragChan L)).

(** The fragments of a packet taken, as [DLI_SplitData] makes them. *)
Definition pkt_frags (l : DLI_LayerInfo) (e : taken) : list bytes :=
  let b := pk_buff (tk_pkt e) in
  let cnt := DLI_GetDataFragmentNums l (Some b) in
  map (dli_fragment (mk_data (tk_lcid e) DLI_DATATYPE_ACB 0 0 (Some b)) (buff_data b) (cfg_len (acbConfig l)) cnt)
    (seqZ 0 cnt).

Definition on_link (L : Z) (log : list taken) : list taken := filter (fun e => tk_lcid e = L) log.

Definition ordered (l : DLI_LayerInfo) (S : Sched) (log : list taken) (t : list (call * Z)) (S' : Sched) : Prop :=
  forall L, sent_on L t ++ left_over S' L = left_over S L ++ concat (map (pkt_frags l) (on_link L log)).

Lemma ordered_trans l S1 S2 S3 log1 log2 t1 t2 :
  ordered l S1 log1 t1 S2 -> ordered l S2 log2 t2 S3 -> ordered l S1 (log1 ++ log2) (t1 ++ t2) S3.
Proof.
  intros H1 H2 L. rewrite sent_on_app, <- app_assoc, (H2 L), app_assoc, (H1 L), <- app_assoc.
  unfold on_link. by rewrite filter_app, map_app, concat_app.
Qed.

Lemma ordered_layer l l' S log t S' :
  acbConfig l' = acbConfig l -> ordered l' S log t S' -> ordered l S log t S'.
Proof.
  intros E H L. rewrite (H L). do 2 f_equal. apply list_fmap_ext. intros i e _.
  unfold pkt_frags, DLI_GetDataFragmentNums, DLI_DataLenGet. by rewrite E.
Qed.

(** A link that can send at the end of a stretch could at its start. *)
Lemma ran_can_send S log t S' L :
  ran S log t S' -> DTAP_CanSend S' L = true -> DTAP_CanSend S L = true.
Proof.
  intros R. unfold DTAP_CanSend, DTAP_GetLcidBufferNode. pose proof (bufs_ran_find _ _ _ L (rn_bufs _ _ _ _ R)) as Hf.
  pose proof (rn_g _ _ _ _ R). pose proof (rn_ap _ _ _ _ R) as ->.
  destruct (find_bufnode L (g_lcidBufferList S')) as [n'|]; [|done].
  destruct (find_bufnode L (g_lcidBufferList S)) as [n|]; [|done]. destruct Hf as (_&Hq&Hc&_).
  destruct (Z.leb_spec (g_apBufferNum S) (g_sendNotAckPktCnt S')), (Z.leb_spec (g_apBufferNum S) (g_sendNotAckPktCnt S));
    rewrite ?Z.ltb_lt; intros; first [done|lia].
Qed.

(** ** Stretches that send nothing *)

(** The queues and the channels are the same. *)
Definition same_store (S S' : Sched) : Prop :=
  g_dtapScheduler S' = g_dtapScheduler S /\ channels S' = channels S.

Lemma shrunk_refl o p : shrunk [] p o o.
Proof. destruct o as [c|]; [|done]. split; [by destruct c|done]. Qed.

Lemma has_node_insert qs i q q' S S' :
  g_dtapScheduler S = qs -> g_dtapScheduler S' = <[i := q']> qs -> qs !! i = Some q ->
  (forall L n, DTAP_GetLcidNode q L = Some n -> is_Some (DTAP_GetLcidNode q' L)) ->
  forall j L, has_node S j L -> has_node S' j L.
Proof.
  intros Es Es' Hq Hk j L (qj&Hj&n&Hn). unfold has_node. rewrite Es in Hj. rewrite Es'.
  destruct (decide (j = i)) as [->|Hji].
  - rewrite Hq in Hj. injection Hj as <-. exists q'. rewrite list_lookup_insert_eq by (by eapply lookup_lt_Some).
    split; [done|]. by eapply Hk.
  - exists qj. by rewrite list_lookup_insert_ne.
Qed.

(** A stretch that changes the store only. *)
Lemma ran_store S S' log t :
  g_apBufferNum S' = g_apBufferNum S -> g_isInited S' = g_isInited S ->
  g_sendNotAckPktCnt S' = g_sendNotAckPktCnt S ->
  accepted t = [] -> Forall (fun '(c, _) => sched_call c) t ->
  bufs_ran [] (g_lcidBufferList S) (g_lcidBufferList S') ->
  (forall j L, has_node S j L -> has_node S' j L) ->
  (forall p, shrunk log p (channels S !! TransChan p) (channels S' !! TransChan p)) ->
  (forall e, e ∈ log -> exists c, channels S !! TransChan (tk_chan e) = Some c /\ c_lcid c = tk_lcid e) ->
  ran S log t S'.
Proof.
  intros E1 E2 E3 E4 H1 H2 H3 H4 H5. constructor; try done.
  - rewrite E3, E4. cbn. lia.
  - by left.
  - eapply Forall2_impl; [exact H2|]. intros n n' (C1&C2&C3&C4). unfold counted. rewrite sent_on_nil by done.
    split_and!; [done|done|done|by left].
  - intros L d. rewrite E4. by intros ?%not_elem_of_nil.
Qed.

Lemma ran_still S t : accepted t = [] -> Forall (fun '(c, _) => sched_call c) t -> ran S [] t S.
Proof.
  intros E H. apply ran_store; try done; [by apply bufs_ran_refl|intros; apply shrunk_refl|].
  by intros e ?%not_elem_of_nil.
Qed.

Lemma update_bufnode_twice L f g l :
  (forall n, bn_lcid (g n) = bn_lcid n) ->
  update_bufnode L f (update_bufnode L g l) = update_bufnode L (fun n => f (g n)) l.
Proof.
  intros Hg. unfold update_bufnode. induction l as [|n l IH]; simpl; [done|].
  destruct (bn_lcid n =? L) eqn:E; simpl; [by rewrite Hg, E|]. by rewrite E, IH.
Qed.

Lemma find_update_bufnode L f l n :
  (forall n, bn_lcid (f n) = bn_lcid n) -> find_bufnode L l = Some n ->
  find_bufnode L (update_bufnode L f l) = Some (f n).
Proof.
  intros Hf (l1&l2&->&H1&H2)%find_first_split. unfold find_bufnode, update_bufnode.
  rewrite update_first_split by done. induction H1 as [|x l1 Hx _ IH]; simpl; [by rewrite Hf, H2|by rewrite Hx].
Qed.

Lemma remove_first_perm {A} `{EqDecision A} (r : A) (ls : list A) :
  r ∈ ls -> remove_first (fun y => bool_decide (y = r)) ls ++ [r] ≡ₚ ls.
Proof.
  induction ls as [|y ls IH]; [by intros ?%not_elem_of_nil|]. simpl. case_bool_decide as E.
  - intros _. subst y. by rewrite Permutation_app_comm.
  - intros [->|Hin]%elem_of_cons; [done|]. simpl. by rewrite IH.
Qed.

Section wp.
Context {W : Type} `{World W}.
Implicit Types (S : Sched) (l : DLI_LayerInfo) (w : W).
Notation state := (Sched * (DLI_LayerInfo * W))%type.

(** ** Elementary steps *)
Lemma wp_sg {A} (f : Sched -> A) S x (Q : A -> state -> Prop) : Q (f S) (S, x) -> wp (sg f) (S, x) Q.
Proof. done. Qed.
Lemma wp_supd (f : Sched -> Sched) S x (Q : unit -> state -> Prop) : Q tt (f S, x) -> wp (supd f) (S, x) Q.
Proof. done. Qed.

Lemma wp_asks c S l w (Q : Z -> state -> Prop) :
  (forall a w', trace w' = trace w ++ [(c, a)] -> Q a (S, (l, w'))) -> wp (ask c) (S, (l, w)) Q.
Proof.
  intros HQ. change (ask c) with (over (B := Sched) (over (B := DLI_LayerInfo) (ask (W := W) c))).
  apply wp_over, wp_over, wp_ask. exact HQ.
Qed.

Lemma wp_allocs S l w (Q : bool -> state -> Prop) :
  (forall a w', trace w' = trace w ++ [(CAlloc, a)] -> Q (negb (a =? 0)) (S, (l, w'))) ->
  wp alloc_ok (S, (l, w)) Q.
Proof. intros HQ. apply wp_bind, wp_asks. intros a w' Ht. by apply wp_ret, HQ. Qed.

Lemma wp_get_queue i q S x (Q : DTAP_PriorityQueue -> state -> Prop) :
  g_dtapScheduler S !! i = Some q -> Q q (S, x) -> wp (get_queue i) (S, x) Q.
Proof. intros E HQ. apply wp_bind, wp_sg, (wp_opt _ q); done. Qed.
Lemma wp_get_lnode i q L n S x (Q : DTAP_LcidNode -> state -> Prop) :
  g_dtapScheduler S !! i = Some q -> DTAP_GetLcidNode q L = Some n -> Q n (S, x) ->
  wp (get_lnode i L) (S, x) Q.
Proof. intros E En HQ. apply wp_bind, (wp_get_queue _ q); [done|]. by apply (wp_opt _ n). Qed.
Lemma wp_get_chan r c S x (Q : SchedChannel -> state -> Prop) :
  channels S !! r = Some c -> Q c (S, x) -> wp (get_chan r) (S, x) Q.
Proof. intros E HQ. apply wp_bind, wp_sg, (wp_opt _ c); done. Qed.

(** ** [DTAP_SendData] *)
Definition rate_only (f : DTAP_LcidBufferNode -> DTAP_LcidBufferNode) : Prop :=
  forall n, exists b t, f n = n <| windowBytes := b |> <| lastRateCalcTime := t |>.

Lemma rate_only_lcid f n : rate_only f -> bn_lcid (f n) = bn_lcid n.
Proof. intros Hf. by destruct (Hf n) as (?&?&->). Qed.

Lemma rate_comp f g : rate_only f -> rate_only g -> rate_only (fun n => f (g n)).
Proof. intros Hf Hg n. destruct (Hg n) as (?&?&->), (Hf (n <| windowBytes := x |> <| lastRateCalcTime := x0 |>)) as (b&t&->). by exists b, t. Qed.

Lemma wp_rate L k n S l w (Q : unit -> state -> Prop) :
  DTAP_GetLcidBufferNode L S = Some n ->
  (forall f a w', trace w' = trace w ++ [(CTimeMs, a)] -> rate_only f ->
     Q tt (S <| g_lcidBufferList ::= update_bufnode L f |>, (l, w'))) ->
  wp (DTAP_CalcLcidSendRate L k) (S, (l, w)) Q.
Proof.
  intros Hn HQ. unfold DTAP_CalcLcidSendRate. apply wp_bind, wp_supd, wp_bind, wp_asks. intros a w' Ht.
  set (g := fun n : DTAP_LcidBufferNode => n <| windowBytes ::= fun b => u64 (b + k) |>).
  assert (rate_only g) as Hg by (intros m; exists (u64 (windowBytes m + k)), (lastRateCalcTime m); by destruct m).
  assert (forall f, rate_only f -> Q tt (upd_bufnode L f (upd_bufnode L g S), (l, w'))) as HQ'.
  { intros f Hf. specialize (HQ (fun n => f (g n)) a w' Ht (rate_comp f g Hf Hg)).
    assert (upd_bufnode L f (upd_bufnode L g S) = S <| g_lcidBufferList ::= update_bufnode L (fun n => f (g n)) |>) as ->; [|done].
    destruct S. unfold upd_bufnode, modify. cbn.
    by rewrite update_bufnode_twice. }
  apply wp_bind, wp_sg, wp_bind, (wp_opt _ (g n)).
  { unfold DTAP_GetLcidBufferNode. cbn. by apply find_update_bufnode. }
  repeat case_match; [|apply wp_ret|].
  - apply wp_supd, HQ'. intros m. exists (windowBytes m), (u64 a). by destruct m.
  - apply (HQ g a w' Ht Hg).
  - apply wp_supd, HQ'. intros m. by eexists _, _.
Qed.

Lemma wp_send_data L b S l w (Q : bool -> state -> Prop) :
  sched_inv S -> DTAP_CanSend S L = true -> buff_wf b -> dataLen b <= DLI_MAX_TXRX_DATA_LEN ->
  (forall t S' w', trace w' = trace w ++ t -> sched_inv S' -> ran S [] t S' -> same_store S S' ->
     accepted t = [(L, buff_data b)] -> clean t -> Q true (S', (l, w'))) ->
  (forall t w', trace w' = trace w ++ t -> ran S [] t S -> accepted t = [] -> ~ clean t -> Q false (S, (l, w'))) ->
  wp (DTAP_SendData L b) (S, (l, w)) Q.
Proof.
  intros HS Hcan Hb Hlen Hyes Hno. unfold DTAP_SendData, DTAP_CreateDataStru.
  apply wp_bind, wp_bind, wp_allocs. intros a w1 T1. apply wp_ret.
  destruct (Z.eqb_spec a 0) as [->|Ha]; cbn [negb].
  { apply wp_ret. eapply Hno; [exact T1|apply ran_still; [done|by constructor]|done|].
    apply failed_not_clean. by constructor. }
  apply wp_bind, wp_over, wp_over. unfold DLI_DataSend, isDataParamValid, SDF_DataLenGet. cbn [d_buf].
  destruct (Z.leb_spec (dataLen b) DLI_MAX_TXRX_DATA_LEN); [|lia]. cbn [negb].
  apply wp_bind, wp_ret, wp_bind, wp_ret, wp_bind, (wp_opt _ (buff_data b)); [by apply window_bytes_spec|].
  apply wp_ask. intros ret w2 T2. rewrite T1, <- app_assoc in T2. cbn [app d_lcid] in T2.
  unfold DLI_SUCCESS. destruct (Z.eqb_spec ret 0) as [->|Hret]; cbn [negb].
  2:{ apply wp_ret. eapply Hno; [exact T2|apply ran_still| |].
      - cbn. by destruct (Z.eqb_spec ret 0).
      - by repeat constructor.
      - cbn. by destruct (Z.eqb_spec ret 0).
      - unfold clean. rewrite !Forall_cons. by intros (_&?&_). }
  unfold DTAP_CanSend in Hcan. destruct (DTAP_GetLcidBufferNode L S) as [n|] eqn:Hn; [|done].
  destruct (Z.leb_spec (g_apBufferNum S) (g_sendNotAckPktCnt S)) as [|Hg]; [done|]. apply Z.ltb_lt in Hcan.
  apply wp_bind, (wp_rate L _ n); [done|]. intros f a3 w3 T3 Hf. rewrite T2, <- app_assoc in T3.
  apply wp_bind, wp_supd, wp_bind, wp_supd, wp_ret. cbn [app] in T3.
  set (t := [(CAlloc, a); (CDliSend L (buff_data b), 0); (CTimeMs, a3)]) in *.
  set (credit := fun n : DTAP_LcidBufferNode => n <| sendNotAckPktCnt ::= fun k => u32 (k + 1) |>).
  destruct HS as [Hst Hbf Hg8 Hap]. pose proof (find_bufnode_spec _ _ _ Hn) as [Hin HnL].
  pose proof (proj1 (Forall_forall _ _) (bs_nodes _ Hbf) n Hin) as [B1 B2 B3 B4].
  assert (forall m, find_bufnode L (g_lcidBufferList S) = Some m -> counted t m (credit (f m)) /\
            bufnode_inv (credit (f m)) /\ bn_lcid (credit (f m)) = L) as Hcr.
  { intros m Hm. unfold DTAP_GetLcidBufferNode in Hn. rewrite Hn in Hm. injection Hm as <-.
    destruct (Hf n) as (x&y&Ef). rewrite Ef. unfold credit. split_and!.
    - unfold counted, sent_on. cbn. rewrite u32_small by cint. rewrite HnL, decide_True by done. cbn.
      split_and!; [done..|right; lia].
    - constructor; cbn; rewrite ?u32_small by cint; cint.
    - done. }
  eapply (Hyes t).
  - exact T3.
  - constructor; cbn; [done| |rewrite u8_small by cint; cint|done].
    rewrite update_bufnode_twice by (intros; by apply rate_only_lcid). apply bufs_inv_update; [done|].
    intros m Hm. destruct (Hcr m Hm) as (_&?&?). done.
  - constructor; cbn; try done.
    + unfold t. repeat constructor.
    + rewrite u8_small by cint. done.
    + right. rewrite u8_small by cint. lia.
    + rewrite update_bufnode_twice by (intros; by apply rate_only_lcid).
      apply bufs_ran_update; [intros m Hm; by apply Hcr| |by apply Hbf].
      intros L' HL'. unfold sent_on. cbn. by rewrite decide_False by auto.
    + intros L' d [[= -> ->]| ?%not_elem_of_nil]%elem_of_cons; [|done]. by rewrite Hn.
    + intros p. apply shrunk_refl.
    + by intros e ?%not_elem_of_nil.
  - done.
  - done.
  - unfold t. by repeat constructor.
Qed.

(** ** Changes of the queues, the channels and the links *)
Definition put (qs : list DTAP_PriorityQueue) (h : gmap chan_ref SchedChannel)
    (b : list DTAP_LcidBufferNode) S : Sched :=
  S <| g_dtapScheduler := qs |> <| channels := h |> <| g_lcidBufferList := b |>.

Lemma put_self S : put (g_dtapScheduler S) (channels S) (g_lcidBufferList S) S = S.
Proof. by destruct S. Qed.

Section puts.
Context (qs : list DTAP_PriorityQueue) (h : gmap chan_ref SchedChannel) (b : list DTAP_LcidBufferNode).
Context (S : Sched) (x : DLI_LayerInfo * W).

Lemma alter_put {A} (f : A -> A) (ls : list A) i a : ls !! i = Some a -> alter f i ls = <[i := f a]> ls.
Proof.
  intros E. apply list_eq. intros j. rewrite list_lookup_alter, list_lookup_insert. case_decide as Hij.
  - subst j. rewrite E. by rewrite decide_True by (split; [done|by eapply lookup_lt_Some]).
  - by rewrite decide_False by (by intros [? _]).
Qed.

Lemma wp_put_queue i q f (Q : unit -> state -> Prop) :
  qs !! i = Some q -> Q tt (put (<[i := f q]> qs) h b S, x) ->
  wp (supd (upd_queue i f)) (put qs h b S, x) Q.
Proof. intros Hq HQ. apply wp_supd. rewrite <- (alter_put f qs i q Hq) in HQ. exact HQ. Qed.

Lemma update_set_node L f (ls : list DTAP_LcidNode) n :
  find_first (is_lnode L) ls = Some n -> ln_lcid (f n) = L -> update_first (is_lnode L) f ls = set_node (f n) ls.
Proof.
  intros Hn Hf. unfold set_node. rewrite Hf. apply find_first_split in Hn as (l1&l2&->&H1&H2).
  by rewrite !update_first_split by done.
Qed.

Lemma wp_put_lnode i q L n f (Q : unit -> state -> Prop) :
  qs !! i = Some q -> DTAP_GetLcidNode q L = Some n -> ln_lcid (f n) = L ->
  Q tt (put (<[i := q <| lcidList := set_node (f n) (lcidList q) |>]> qs) h b S, x) ->
  wp (supd (upd_lnode i L f)) (put qs h b S, x) Q.
Proof.
  intros Hq Hn Hf HQ. apply (wp_put_queue i q); [done|]. rewrite <- (update_set_node L) in HQ by done. exact HQ.
Qed.

Lemma wp_put_chan r c f (Q : unit -> state -> Prop) :
  h !! r = Some c -> Q tt (put qs (<[r := f c]> h) b S, x) -> wp (supd (upd_chan r f)) (put qs h b S, x) Q.
Proof.
  intros Hr HQ. apply wp_supd. assert (alter f r h = <[r := f c]> h) as E.
  { apply map_eq. intros r'. destruct (decide (r = r')) as [<-|Hne].
    - by rewrite lookup_alter_eq, lookup_insert_eq, Hr.
    - by rewrite lookup_alter_ne, lookup_insert_ne. }
  rewrite <- E in HQ. exact HQ.
Qed.

Lemma wp_put_bufs f (Q : unit -> state -> Prop) :
  Q tt (put qs h (f b) S, x) -> wp (supd (fun s => s <| g_lcidBufferList ::= f |>)) (put qs h b S, x) Q.
Proof. done. Qed.
End puts.

Lemma bufs_inv_dec L k (b : list DTAP_LcidBufferNode) :
  0 <= k -> bufs_inv b -> bufs_inv (DTAP_DecLcidQueuedPktCnt L k b).
Proof.
  intros Hk Hb. apply bufs_inv_update; [done|]. intros m Hm. destruct (find_bufnode_spec _ _ _ Hm) as [Hin Hl].
  split; [done|]. pose proof (bs_nodes _ Hb) as Hall. rewrite Forall_forall in Hall. destruct (Hall m Hin).
  constructor; cbn; try done. unfold DTAP_SCHED_SUB. destruct (Z.ltb_spec k (queuedPktCnt m)); cint.
Qed.

Lemma bufs_ran_dec L k (b : list DTAP_LcidBufferNode) :
  NoDup (map bn_lcid b) -> bufs_ran [] b (DTAP_DecLcidQueuedPktCnt L k b).
Proof.
  intros Hnd. apply bufs_ran_update; [|done|done]. intros m _. unfold counted. cbn. split_and!; [done..|lia|by left].
Qed.

(** A packet leaves a channel, and the node and the queue know. *)
Lemma wp_pop i q L n r c p rest S x (Q : unit -> state -> Prop) :
  sched_inv S -> g_dtapScheduler S !! i = Some q -> DTAP_GetLcidNode q L = Some n ->
  channels S !! r = Some c -> r ∈ channelList n -> pktList c = p :: rest ->
  (forall S' q' n', sched_inv S' -> channels S' = <[r := c <| pktList := rest |>]> (channels S) ->
     g_dtapScheduler S' = <[i := q']> (g_dtapScheduler S) -> DTAP_GetLcidNode q' L = Some n' ->
     ln_pktCnt n' = ln_pktCnt n - 1 -> ran S (match r with TransChan a => [mk_taken a L p] | _ => [] end) [] S' ->
     Q tt (S', x)) ->
  wp (DTAP_PriorityQueuePop i L r) (S, x) Q.
Proof.
  intros HS Hq Hn Hr Hin Hp HQ. destruct HS as [Hst Hbf Hg Hap].
  destruct (node_of _ _ _ _ _ _ Hst Hq Hn) as (Hni&Hnq&HnL).
  destruct (ni_chans _ _ _ Hni r Hin) as (c0&Hc0&HcL&Hcp). rewrite Hr in Hc0. injection Hc0 as <-. rewrite HnL in HcL.
  assert (1 <= ln_pktCnt n) as H1.
  { rewrite (ni_cnt _ _ _ Hni). etrans; [|apply (zsum_elem _ _ r); [intros; lia|done]].
    cbv beta. rewrite (pkts_of_Some _ _ c), Hp by done. simpl. lia. }
  pose proof (node_count _ _ _ _ _ _ Hst Hq Hn) as Hle.
  set (c' := c <| pktList := rest |>).
  set (n' := n <| channelList := match rest with [] => channelList n
                  | _ => remove_first (fun y => bool_decide (y = r)) (channelList n) ++ [r] end |>
              <| ln_pktCnt := ln_pktCnt n - 1 |>).
  set (q' := mk_queue (set_node n' (lcidList q)) (q_priority q) (q_pktCnt q - 1)).
  set (b' := DTAP_DecLcidQueuedPktCnt L 1 (g_lcidBufferList S)).
  assert (DTAP_GetLcidNode q' L = Some n') as Hn'.
  { unfold DTAP_GetLcidNode. cbn. rewrite <- HnL. by apply (find_set_node n' _ n); change (ln_lcid n') with (ln_lcid n); rewrite HnL. }
  assert (wp (DTAP_PriorityQueuePop i L r) (S, x)
            (fun _ s => s = (put (<[i := q']> (g_dtapScheduler S)) (<[r := c']> (channels S)) b' S, x))) as Hrun.
  { rewrite <- (put_self S) at 1. unfold DTAP_PriorityQueuePop.
    apply wp_bind, (wp_put_chan _ _ _ _ _ _ c); [done|].
    apply wp_bind, (wp_put_lnode _ _ _ _ _ _ q L n); [done|done|done|].
    apply wp_bind. eapply wp_put_queue; [by apply list_lookup_insert_eq; eapply lookup_lt_Some|].
    apply wp_bind, wp_put_bufs, wp_bind. eapply wp_get_chan; [cbn; by rewrite lookup_insert_eq|].
    assert (DTAP_SCHED_SUB (ln_pktCnt n) 1 = ln_pktCnt n - 1 /\ DTAP_SCHED_SUB (q_pktCnt q) 1 = q_pktCnt q - 1) as [E1 E2].
    { unfold DTAP_SCHED_SUB. destruct (Z.ltb_spec 1 (ln_pktCnt n)), (Z.ltb_spec 1 (q_pktCnt q)); lia. }
    rewrite list_insert_insert_eq. cbn [pktList modify]. rewrite Hp.
    set (n1 := n <| ln_pktCnt ::= fun k => DTAP_SCHED_SUB k 1 |>).
    assert (c <| pktList ::= tail |> = c') as -> by (unfold c', modify; by rewrite Hp).
    assert (forall m, q <| lcidList := set_node m (lcidList q) |> <| q_pktCnt ::= fun k => DTAP_SCHED_SUB k 1 |>
              = mk_queue (set_node m (lcidList q)) (q_priority q) (q_pktCnt q - 1)) as -> by (intros m; unfold modify; cbn; by rewrite E2).
    cbn [tail]. destruct rest as [|p2 rest].
    - apply wp_ret. unfold q', n', n1, modify. cbn. rewrite E1. done.
    - assert (find_first (is_lnode L) (set_node n1 (lcidList q)) = Some n1) as Hn1.
      { rewrite <- HnL. apply (find_set_node n1 _ n). change (ln_lcid n1) with (ln_lcid n). by rewrite HnL. }
      eapply wp_put_lnode; [by apply list_lookup_insert_eq; eapply lookup_lt_Some|exact Hn1|done|].
      rewrite list_insert_insert_eq. cbn [lcidList]. unfold q', n', n1, modify. cbn.
      rewrite set_node_twice by done. cbn. rewrite E1. done. }
  eapply wp_mono; [exact Hrun|]. intros [] ? ->.
  assert (channelList n' ≡ₚ channelList n) as Hperm.
  { unfold n'. cbn. destruct rest; [done|]. by apply remove_first_perm. }
  apply (HQ _ q' n'); try done.
  - constructor; [|by apply bufs_inv_dec|done|done]. cbn.
    assert (q_pktCnt q - 1 = q_pktCnt q - ln_pktCnt n + ln_pktCnt n') as Ecnt by (unfold n'; cbn; lia).
    unfold q'. rewrite Ecnt. apply store_put; try done.
    + change (ln_lcid n') with (ln_lcid n). by rewrite HnL.
    + by rewrite Hr.
    + change (ln_lcid n') with (ln_lcid n). by rewrite HnL.
    + destruct (si_chans _ _ Hst r c Hr) as [G1 G2 G3]. rewrite Hp in G2, G3. constructor; [done| |by inversion G3].
      destruct r; [done|]. destruct G2 as (?&?&?&Hlen). simpl in Hlen. cbn. split_and!; [done..|lia].
    + rewrite Hperm. apply Hni.
    + intros y. rewrite Hperm. split; [by left|]. by intros [?| ->].
    + rewrite (zsum_perm _ _ _ Hperm). rewrite (zsum_change (fun y => zlen (pkts_of (channels S) y)) _ r); [..|done|].
      * rewrite pkts_of_insert, (pkts_of_Some _ _ c), Hp by done. cbn. rewrite <- (ni_cnt _ _ _ Hni). lia.
      * apply Hni.
      * intros y _ Hy. cbv beta. by rewrite pkts_of_insert_ne.
    + intros Hpos. pose proof (qi_bound _ _ _ (si_queues _ _ Hst i q Hq) Hpos). lia.
  - apply ran_store; try done.
    + apply bufs_ran_dec, Hbf.
    + eapply has_node_insert; [done|done|exact Hq|]. intros L' m Hm. unfold q', DTAP_GetLcidNode in *. cbn.
      destruct (decide (L' = ln_lcid n')) as [->|Hne]; [rewrite (find_set_node _ _ m) by done; done|].
      by rewrite find_set_node_ne, Hm.
    + intros a. cbn. destruct (decide (r = TransChan a)) as [->|Hne].
      * rewrite lookup_insert_eq, Hr. split; [done|]. rewrite Hp. cbn. by rewrite decide_True.
      * rewrite lookup_insert_ne by done. destruct r as [a'|]; [|apply shrunk_refl].
        destruct (channels S !! TransChan a) as [ca|]; [|done]. split; [by destruct ca|]. cbn.
        by rewrite decide_False by congruence.
    + destruct r as [a|]; intros e He; [|by apply not_elem_of_nil in He].
      apply list_elem_of_singleton in He as ->. by exists c.
Qed.

(** ** Finding a packet *)
Lemma wp_first_pending lst S x (Q : option chan_ref -> state -> Prop) :
  (forall r, r ∈ lst -> is_Some (channels S !! r)) ->
  ((forall r, r ∈ lst -> chan_pkts S r = []) -> Q None (S, x)) ->
  (forall r c p rest, r ∈ lst -> channels S !! r = Some c -> pktList c = p :: rest -> Q (Some r) (S, x)) ->
  wp (first_pending lst) (S, x) Q.
Proof.
  induction lst as [|r lst IH]; intros Hin Hnone Hsome; simpl.
  { apply wp_ret, Hnone. by intros r ?%not_elem_of_nil. }
  destruct (Hin r) as [c Hc]; [constructor|]. apply wp_bind, (wp_get_chan _ c); [done|].
  destruct (pktList c) as [|p rest] eqn:E.
  - apply IH; [intros; apply Hin; by constructor| |].
    + intros Hall. apply Hnone. intros y [->|Hy]%elem_of_cons; [|auto]. unfold chan_pkts. by rewrite Hc.
    + intros y cy py resty Hy. apply Hsome. by constructor.
  - apply wp_ret. eapply Hsome; [constructor|done|done].
Qed.

Lemma wp_peek i q L n S x (Q : option chan_ref -> state -> Prop) :
  sched_inv S -> g_dtapScheduler S !! i = Some q -> DTAP_GetLcidNode q L = Some n ->
  ((forall r, r ∈ channelList n -> chan_pkts S r = []) -> Q None (S, x)) ->
  (forall r c p rest, r ∈ channelList n -> channels S !! r = Some c -> pktList c = p :: rest ->
     Q (Some r) (S, x)) ->
  wp (DTAP_PriorityQueuePeek i L) (S, x) Q.
Proof.
  intros HS Hq Hn Hnone Hsome. destruct (node_of _ _ _ _ _ _ (sv_store _ HS) Hq Hn) as (Hni&_&_).
  apply wp_bind, (wp_get_lnode _ q _ n); [done..|]. destruct (Z.eqb_spec (ln_pktCnt n) 0) as [E|E].
  - apply wp_ret, Hnone. intros r Hr. rewrite (ni_cnt _ _ _ Hni) in E.
    assert (zlen (pkts_of (channels S) r) <= 0) as Hz.
    { rewrite <- E. apply (zsum_elem (fun r => zlen (pkts_of (channels S) r))); [intros; lia|done]. }
    change (pkts_of (channels S) r = []). by destruct (pkts_of (channels S) r).
  - apply wp_first_pending; [|done|].
    + intros r Hr. destruct (ni_chans _ _ _ Hni r Hr) as (c&->&_). done.
    + intros r c p rest. apply Hsome.
Qed.

(** ** Adding packets *)
Lemma wp_find_chan L tc lst S x (Q : option chan_ref -> state -> Prop) :
  (forall r, r ∈ lst -> is_Some (channels S !! r)) ->
  (forall r c, r ∈ lst -> channels S !! r = Some c -> c_lcid c = L -> c_srcTcid c = tc -> Q (Some r) (S, x)) ->
  ((forall r c, r ∈ lst -> channels S !! r = Some c -> ~ (c_lcid c = L /\ c_srcTcid c = tc)) -> Q None (S, x)) ->
  wp (find_chan L tc lst) (S, x) Q.
Proof.
  induction lst as [|r lst IH]; intros Hin Hsome Hnone; simpl.
  { apply wp_ret, Hnone. by intros r c ?%not_elem_of_nil. }
  destruct (Hin r) as [c Hc]; [constructor|]. apply wp_bind, (wp_get_chan _ c); [done|].
  destruct (Z.eqb_spec (c_lcid c) L) as [E1|E1], (Z.eqb_spec (c_srcTcid c) tc) as [E2|E2]; cbn [andb].
  { apply wp_ret. eapply Hsome; [constructor|done..]. }
  all: apply IH; [intros; apply Hin; by constructor|intros y cy Hy; apply Hsome; by constructor|].
  all: intros Hall; apply Hnone; intros y cy [->|Hy]%elem_of_cons Hcy; [|by eapply Hall].
  all: rewrite Hc in Hcy; injection Hcy as <-; by intros [? ?].
Qed.

(** What joins the channel [r], whose object was [c], has been accounted for. *)
Record enqueued S (i : nat) r c (pkts : list DTAP_PendingPacket) S' : Prop := {
  en_inv : sched_inv S';
  en_chans : forall r', channels S' !! r' =
    if decide (r' = r) then Some (c <| pktList := pktList c ++ pkts |>) else channels S !! r';
  en_bufs : bufs_ran [] (g_lcidBufferList S) (g_lcidBufferList S');
  en_nodes : forall j L, has_node S j L -> has_node S' j L;
  en_g : g_sendNotAckPktCnt S' = g_sendNotAckPktCnt S;
  en_ap : g_apBufferNum S' = g_apBufferNum S;
  en_on : g_isInited S' = g_isInited S
}.

(** The store may have got the channel just now. *)
Definition known_or_new S r c (h0 : gmap chan_ref SchedChannel) : Prop :=
  (channels S = h0 /\ h0 !! r = Some c) \/
  (channels S = <[r := c]> h0 /\ h0 !! r = None /\ (exists L, r = FragChan L) /\ pktList c = []).

Lemma known_lookup S r c h0 : known_or_new S r c h0 -> channels S !! r = Some c.
Proof. intros [[-> ?]|[-> _]]; [done|by rewrite lookup_insert_eq]. Qed.
Lemma known_other S r c h0 r' : known_or_new S r c h0 -> r' <> r -> channels S !! r' = h0 !! r'.
Proof. intros [[-> ?]|[-> _]] Hne; [done|by rewrite lookup_insert_ne]. Qed.
Lemma known_insert S r c h0 c' : known_or_new S r c h0 -> <[r := c']> (channels S) = <[r := c']> h0.
Proof. intros [[-> ?]|[-> _]]; [done|by rewrite insert_insert_eq]. Qed.

(** A channel of the node with the same link and identifier is the same channel. *)
Lemma same_channel qs h0 i q n r c r2 c2 S :
  store_inv qs h0 -> known_or_new S r c h0 -> chan_inv r c -> c_priority c = Z.of_nat i ->
  qs !! i = Some q -> DTAP_GetLcidNode q (c_lcid c) = Some n -> r2 ∈ channelList n ->
  channels S !! r2 = Some c2 -> c_srcTcid c2 = c_srcTcid c -> r2 = r.
Proof.
  intros Hs Hk Hc Hp Hq Hn Hin Hc2 Ht. destruct (decide (r2 = r)) as [|Hne]; [done|].
  rewrite (known_other _ _ _ _ _ Hk Hne) in Hc2.
  destruct (node_of _ _ _ _ _ _ Hs Hq Hn) as (Hni&_&HnL).
  destruct (ni_chans _ _ _ Hni r2 Hin) as (c2'&E&El&Ep). rewrite Hc2 in E. injection E as <-.
  pose proof (ci_kind _ _ Hc) as K1. pose proof (ci_kind _ _ (si_chans _ _ Hs r2 c2 Hc2)) as K2.
  unfold DTAP_PRIORITY_FRAGMENT in *. destruct r as [p|L0], r2 as [p2|L2].
  - f_equal. destruct Hk as [[_ Hk]|(_&_&[? ?]&_)]; [|done]. eapply (si_keys _ _ Hs); [done..|congruence|done].
  - lia.
  - lia.
  - f_equal. destruct K1 as (<-&_), K2 as (<-&_). congruence.
Qed.

Lemma wp_insert_channel i q n r c S x h0 (Q : unit -> state -> Prop) :
  store_inv (g_dtapScheduler S) h0 -> known_or_new S r c h0 -> chan_inv r c -> c_priority c = Z.of_nat i ->
  g_dtapScheduler S !! i = Some q -> DTAP_GetLcidNode q (c_lcid c) = Some n ->
  (let n1 := n <| channelList := if decide (r ∈ channelList n) then channelList n else channelList n ++ [r] |> in
   Q tt (put (<[i := q <| lcidList := set_node n1 (lcidList q) |>]> (g_dtapScheduler S)) (channels S)
             (g_lcidBufferList S) S, x)) ->
  wp (DTAP_InsertChannelToLcidNode i (c_lcid c) r) (S, x) Q.
Proof.
  intros Hs Hk Hc Hp Hq Hn HQ. destruct (node_of _ _ _ _ _ _ Hs Hq Hn) as (Hni&Hin&HnL).
  apply wp_bind, (wp_get_lnode _ q _ n); [done..|].
  apply wp_bind, (wp_get_chan _ c); [by eapply known_lookup|]. apply wp_bind, wp_find_chan.
  - intros r2 Hr2. destruct (decide (r2 = r)) as [->|Hne]; [by rewrite (known_lookup _ _ _ _ Hk)|].
    rewrite (known_other _ _ _ _ _ Hk Hne). destruct (ni_chans _ _ _ Hni r2 Hr2) as (c2&->&_). done.
  - intros r2 c2 Hr2 Hc2 _ Ht. assert (r2 = r) as -> by (by eapply same_channel).
    apply wp_ret. rewrite decide_True in HQ by done.
    assert (set_node (n <| channelList := channelList n |>) (lcidList q) = lcidList q) as E.
    { assert (n <| channelList := channelList n |> = n) as -> by (by destruct n). unfold set_node. rewrite HnL.
      destruct (find_first_split _ _ _ Hn) as (l1&l2&E&H1&H2). rewrite E. by apply update_first_split. }
    cbv zeta in HQ. rewrite E in HQ. replace (q <| lcidList := lcidList q |>) with q in HQ by (by destruct q).
    rewrite list_insert_id in HQ by done. by rewrite put_self in HQ.
  - intros Hno. rewrite decide_False in HQ.
    2:{ intros Hr. eapply (Hno r c Hr); [by eapply known_lookup|done]. }
    rewrite <- (put_self S). eapply (wp_put_lnode _ _ _ _ _ _ q _ n); [done|done|done|]. exact HQ.
Qed.

(** The counts and the store once the packets are in. *)
Lemma store_enqueue i q n r c k S h0 pkts :
  store_inv (g_dtapScheduler S) h0 -> known_or_new S r c h0 -> c_priority c = Z.of_nat i ->
  g_dtapScheduler S !! i = Some q -> DTAP_GetLcidNode q (c_lcid c) = Some n ->
  ((0 < i)%nat -> q_pktCnt q + k <= DTAP_PACKET_MAX_SIZE) -> zlen pkts = k ->
  let c' := c <| pktList := pktList c ++ pkts |> in
  let n1 := n <| channelList := if decide (r ∈ channelList n) then channelList n else channelList n ++ [r] |> in
  let n' := n1 <| ln_pktCnt := ln_pktCnt n + k |> in
  chan_inv r c' ->
  store_inv (<[i := mk_queue (set_node n' (lcidList q)) (q_priority q) (q_pktCnt q + k)]> (g_dtapScheduler S))
    (<[r := c']> h0).
Proof.
  intros Hs Hk Hp Hq Hn Hroom Hlen c' n1 n' Hc'.
  destruct (node_of _ _ _ _ _ _ Hs Hq Hn) as (Hni&Hin&HnL).
  assert (q_pktCnt q + k = q_pktCnt q - ln_pktCnt n + ln_pktCnt n') as -> by (unfold n', n1; cbn; lia).
  assert (r ∈ channelList n -> pkts_of h0 r = pktList c) as Hold.
  { intros Hr. destruct (ni_chans _ _ _ Hni r Hr) as (c0&E&_). destruct Hk as [[_ Hk]|(_&Hk&_)]; [|congruence].
    by apply pkts_of_Some. }
  assert (r ∉ channelList n -> pktList c = []) as Hnew.
  { intros Hr. destruct Hk as [[_ Hk]|(_&_&_&Hk)]; [|done].
    destruct (si_linked _ _ Hs r c Hk) as [(q2&n2&Hq2&Hn2&Hr2)|[? _]]; [|done].
    rewrite Hp, Nat2Z.id, Hq in Hq2. injection Hq2 as <-. rewrite Hn in Hn2. by injection Hn2 as <-. }
  assert (forall y, y ∈ channelList n' <-> y ∈ channelList n \/ y = r) as Hmem.
  { intros y. unfold n', n1. cbn. case_decide.
    - split; [by left|]. by intros [?| ->].
    - rewrite elem_of_app, list_elem_of_singleton. done. }
  apply store_put; try done.
  - change (ln_lcid n') with (ln_lcid n). by rewrite HnL.
  - destruct Hk as [[_ ->]|(_&->&?&_)]; done.
  - unfold n', n1. cbn. case_decide; [apply Hni|]. apply NoDup_app. split_and!; [apply Hni| |apply NoDup_singleton].
    intros y Hy ->%list_elem_of_singleton. done.
  - unfold n', n1. cbn. rewrite (ni_cnt _ _ _ Hni). case_decide as Hr.
    + rewrite (zsum_change (fun y => zlen (pkts_of h0 y)) (fun y => zlen (pkts_of (<[r:=c']> h0) y)) r); [|apply Hni|done|].
      * cbv beta. rewrite pkts_of_insert, Hold by done. unfold c'. cbn. rewrite length_app. lia.
      * intros y _ Hy. cbv beta. by rewrite pkts_of_insert_ne.
    + rewrite zsum_app, zsum_cons, zsum_nil, pkts_of_insert.
      rewrite (zsum_ext (fun y => zlen (pkts_of (<[r:=c']> h0) y)) (fun y => zlen (pkts_of h0 y)));
        [unfold c'; cbn; rewrite Hnew by done; cbn; lia|].
      intros y Hy. cbv beta. rewrite pkts_of_insert_ne; [done|]. by intros <-.
  - intros Hpos. specialize (Hroom Hpos). unfold n', n1. cbn. lia.
Qed.

Lemma wp_link i q n r c k S x h0 (Q : Z -> state -> Prop) :
  store_inv (g_dtapScheduler S) h0 -> bufs_inv (g_lcidBufferList S) -> is_u8 (g_sendNotAckPktCnt S) ->
  is_u8 (g_apBufferNum S) ->
  known_or_new S r c h0 -> chan_inv r c -> c_priority c = Z.of_nat i ->
  g_dtapScheduler S !! i = Some q -> DTAP_GetLcidNode q (c_lcid c) = Some n ->
  0 <= k <= DTAP_PACKET_MAX_SIZE -> ((0 < i)%nat -> q_pktCnt q + k <= DTAP_PACKET_MAX_SIZE) ->
  (forall S', channels S' = channels S ->
     (forall pkts, zlen pkts = k -> chan_inv r (c <| pktList := pktList c ++ pkts |>) ->
        enqueued S i r c pkts (upd_chan r (fun c => c <| pktList ::= fun ps => ps ++ pkts |>) S')) ->
     Q DTAP_SUCCESS (S', x)) ->
  wp (DTAP_InsertChannelToLcidNode i (c_lcid c) r ;;!
      supd (upd_lnode i (c_lcid c) (fun n => n <| ln_pktCnt ::= fun j => u32 (j + k) |>)) ;;!
      supd (upd_queue i (fun q => q <| q_pktCnt ::= fun j => u32 (j + k) |>)) ;;!
      supd (upd_bufnode (c_lcid c) (fun n => n <| queuedPktCnt ::= fun j => u32 (j + k) |>)) ;;!
      st_ret DTAP_SUCCESS) (S, x) Q.
Proof.
  intros Hs Hbf Hg Hap Hk Hc Hp Hq Hn Hk0 Hroom HQ.
  destruct (node_of _ _ _ _ _ _ Hs Hq Hn) as (Hni&Hin&HnL).
  pose proof (node_count _ _ _ _ _ _ Hs Hq Hn) as Hcn. pose proof (queue_count _ _ _ _ Hs Hq) as Hcq.
  unfold DTAP_PACKET_MAX_SIZE, max_frags in Hcq, Hk0.
  apply wp_bind, (wp_insert_channel i q n r c S x h0); [done..|]. intros n1.
  assert (find_first (is_lnode (c_lcid c)) (set_node n1 (lcidList q)) = Some n1) as Hn1.
  { rewrite <- HnL. apply (find_set_node n1 _ n). change (ln_lcid n1) with (ln_lcid n). by rewrite HnL. }
  assert (i < length (g_dtapScheduler S))%nat as Hi by (by eapply lookup_lt_Some).
  apply wp_bind. eapply (wp_put_lnode _ _ _ _ _ _ _ (c_lcid c) n1); [by apply list_lookup_insert_eq|exact Hn1|done|].
  rewrite list_insert_insert_eq. apply wp_bind. eapply wp_put_queue; [by apply list_lookup_insert_eq|].
  rewrite list_insert_insert_eq. apply wp_bind, wp_supd, wp_ret. cbn [lcidList].
  set (n' := n1 <| ln_pktCnt := ln_pktCnt n + k |>).
  set (q' := mk_queue (set_node n' (lcidList q)) (q_priority q) (q_pktCnt q + k)).
  set (b' := update_bufnode (c_lcid c) (fun n => n <| queuedPktCnt ::= fun j => u32 (j + k) |>) (g_lcidBufferList S)).
  match goal with |- Q _ (?S1, _) => assert (S1 = put (<[i := q']> (g_dtapScheduler S)) (channels S) b' S) as -> end.
  { unfold put, upd_bufnode, modify, q', n', n1. cbn.
    rewrite set_node_twice by done.
    rewrite !u32_small by cint. done. }
  apply HQ; [done|]. intros pkts Hlen Hc'. set (c' := c <| pktList := pktList c ++ pkts |>) in *.
  assert (upd_chan r (fun c => c <| pktList ::= fun ps => ps ++ pkts |>)
            (put (<[i := q']> (g_dtapScheduler S)) (channels S) b' S)
          = put (<[i := q']> (g_dtapScheduler S)) (<[r := c']> h0) b' S) as ->.
  { rewrite <- (known_insert _ _ _ _ c' Hk). unfold put, upd_chan, modify. cbn. f_equal.
    apply map_eq. intros r'. destruct (decide (r = r')) as [<-|Hne].
    - by rewrite lookup_alter_eq, lookup_insert_eq, (known_lookup _ _ _ _ Hk).
    - by rewrite lookup_alter_ne, lookup_insert_ne. }
  assert (bufs_inv b') as Hb'.
  { apply bufs_inv_update; [done|]. intros m Hm. destruct (find_bufnode_spec _ _ _ Hm) as [Hmin Hl].
    split; [done|]. pose proof (bs_nodes _ Hbf) as Hall. rewrite Forall_forall in Hall. destruct (Hall m Hmin).
    constructor; cbn; try done. apply u32_range. }
  constructor; cbn; try done.
  - constructor; cbn; [|done..]. by eapply store_enqueue.
  - intros r'. destruct (decide (r' = r)) as [->|Hne]; [by rewrite lookup_insert_eq|].
    by rewrite lookup_insert_ne, (known_other _ _ _ _ _ Hk Hne).
  - apply bufs_ran_update; [|done|apply Hbf]. intros m _. unfold counted. cbn. split_and!; [done..|lia|by left].
  - eapply has_node_insert; [done|done|exact Hq|]. intros L' m Hm. unfold q', DTAP_GetLcidNode in *. cbn.
    destruct (decide (L' = ln_lcid n')) as [->|Hne]; [rewrite (find_set_node _ _ m) by done; done|].
    by rewrite find_set_node_ne, Hm.
Qed.

(** What the sending code makes of [DTAP_PriorityQueuePush]: it fails for want of
    memory, or the caller may add the packets. *)
Lemma wp_push i q r c k S l w h0 (Q : Z -> state -> Prop) :
  store_inv (g_dtapScheduler S) h0 -> bufs_inv (g_lcidBufferList S) -> is_u8 (g_sendNotAckPktCnt S) ->
  is_u8 (g_apBufferNum S) ->
  known_or_new S r c h0 -> chan_inv r c -> c_priority c = Z.of_nat i ->
  g_dtapScheduler S !! i = Some q ->
  0 <= k <= DTAP_PACKET_MAX_SIZE -> ((0 < i)%nat -> q_pktCnt q + k <= DTAP_PACKET_MAX_SIZE) ->
  (forall w', trace w' = trace w ++ [(CAlloc, 0)] -> Q DTAP_TRANS_MALLOC_ERR (S, (l, w'))) ->
  (forall S' t w', trace w' = trace w ++ t -> t = [] \/ (exists a, a <> 0 /\ t = [(CAlloc, a)]) ->
     channels S' = channels S ->
     (forall pkts, zlen pkts = k -> chan_inv r (c <| pktList := pktList c ++ pkts |>) ->
        enqueued S i r c pkts (upd_chan r (fun c => c <| pktList ::= fun ps => ps ++ pkts |>) S')) ->
     Q DTAP_SUCCESS (S', (l, w'))) ->
  wp (DTAP_PriorityQueuePush i r k) (S, (l, w)) Q.
Proof.
  intros Hs Hbf Hg Hap Hk Hc Hp Hq Hk0 Hroom Hfail Hok. unfold DTAP_PriorityQueuePush.
  apply wp_bind, (wp_get_chan _ c); [by eapply known_lookup|].
  apply wp_bind, (wp_get_queue _ q); [done|]. apply wp_bind.
  destruct (DTAP_GetLcidNode q (c_lcid c)) as [n|] eqn:Hn.
  { apply wp_ret. cbn [negb]. eapply wp_link; [done..|exact Hq|exact Hn|done|done|].
    intros S' Hch Henq. eapply (Hok S' [] w); [by rewrite app_nil_r|by left|done|done]. }
  apply wp_bind. unfold DTAP_CreateLcidNode. apply wp_bind, wp_allocs. intros a w1 T1.
  destruct (Z.eqb_spec a 0) as [->|Ha]; cbn [negb]; apply wp_ret.
  { apply wp_ret. cbn [negb]. apply wp_ret. by apply Hfail. }
  rewrite <- (put_self S) at 1. apply wp_bind. eapply wp_put_queue; [done|]. apply wp_ret. cbn [negb].
  set (n := mk_lnode [] false (c_lcid c) (q_priority q) 0).
  set (q1 := q <| lcidList ::= fun ns => ns ++ [n] |>).
  destruct (store_add_node _ _ _ _ _ Hs Hq Hn (ci_lcid _ _ Hc)) as [Hs1 Hn1]. fold n q1 in Hs1, Hn1.
  set (S1 := put (<[i := q1]> (g_dtapScheduler S)) (channels S) (g_lcidBufferList S) S).
  assert (i < length (g_dtapScheduler S))%nat as Hi by (by eapply lookup_lt_Some).
  eapply (wp_link i q1 n r c k S1); [exact Hs1|done|done|done|exact Hk|done|done|by apply list_lookup_insert_eq|
    exact Hn1|done|done|].
  intros S' Hch Henq. eapply (Hok S' _ w1 T1); [right; eauto|done|].
  intros pkts Hlen Hc'. destruct (Henq pkts Hlen Hc') as [G1 G2 G3 G4 G5 G6 G7].
  constructor; try done. intros j L Hj. apply G4. revert j L Hj. eapply has_node_insert; [done|done|exact Hq|].
  intros L m Hm. unfold q1, DTAP_GetLcidNode in *. cbn. apply find_first_split in Hm as (l1&l2&->&H1&H2).
  rewrite <- app_assoc. simpl. clear -H1 H2. induction H1 as [|y l1 Hy _ IH]; simpl; [by rewrite H2|by rewrite Hy].
Qed.

(** ** Saving the fragments that are left *)
Definition allocs (t : list (call * Z)) : Prop := Forall (fun x => x.1 = CAlloc) t.

Lemma allocs_accepted t : allocs t -> accepted t = [].
Proof. induction 1 as [|[c a] t Hc _ IH]; [done|]. simpl in Hc. subst c. exact IH. Qed.
Lemma allocs_calls t : allocs t -> Forall (fun '(c, _) => sched_call c) t.
Proof. intros Ht. eapply Forall_impl; [exact Ht|]. intros [c a] Hc. simpl in Hc. by subst c. Qed.

(** [S'] is [S] but for the number of the next packet. *)
Definition reseq S S' : Prop := S' = S <| g_pktSeq := g_pktSeq S' |>.

Lemma reseq_trans S1 S2 S3 : reseq S1 S2 -> reseq S2 S3 -> reseq S1 S3.
Proof. unfold reseq. intros E1 E2. rewrite E2, E1. by destruct S1. Qed.
Lemma reseq_inv S S' : reseq S S' -> sched_inv S -> sched_inv S'.
Proof. intros -> [G1 G2 G3 G4]. by constructor. Qed.

Lemma wp_create_packet b S l w (Q : option DTAP_PendingPacket -> state -> Prop) :
  (forall w', trace w' = trace w ++ [(CAlloc, 0)] -> Q None (S, (l, w'))) ->
  (forall a S' w' seq, trace w' = trace w ++ [(CAlloc, a)] -> a <> 0 -> reseq S S' ->
     Q (Some (mk_pkt b seq false)) (S', (l, w'))) ->
  wp (DTAP_CreatePacket b) (S, (l, w)) Q.
Proof.
  intros Hno Hyes. apply wp_bind, wp_allocs. intros a w' T. destruct (Z.eqb_spec a 0) as [->|Ha]; cbn [negb].
  - by apply wp_ret, Hno.
  - apply wp_bind, wp_sg, wp_bind, wp_supd, wp_ret. by eapply Hyes.
Qed.

Lemma wp_save_packets bs : forall S l w (Q : option (list DTAP_PendingPacket) -> state -> Prop),
  (forall t S' w', trace w' = trace w ++ t -> allocs t -> ~ clean t -> reseq S S' -> Q None (S', (l, w'))) ->
  (forall t S' w' pkts, trace w' = trace w ++ t -> allocs t -> clean t -> reseq S S' ->
     map pk_buff pkts = bs -> Forall (fun p => isSplited p = true) pkts -> Q (Some pkts) (S', (l, w'))) ->
  wp (save_packets bs) (S, (l, w)) Q.
Proof.
  induction bs as [|b bs IH]; intros S l w Q Hno Hyes; simpl.
  { apply wp_ret, (Hyes [] S w []); [by rewrite app_nil_r|constructor|constructor|by destruct S|done|constructor]. }
  apply wp_bind, wp_create_packet.
  - intros w' T. apply wp_ret. eapply Hno; [exact T|by repeat constructor| |by destruct S].
    apply failed_not_clean. by constructor.
  - intros a S1 w1 seq T1 Ha R1. apply wp_bind, IH.
    + intros t S2 w2 T2 At Nt R2. apply wp_ret. rewrite T1, <- app_assoc in T2.
      eapply Hno; [exact T2|by constructor| |by eapply reseq_trans]. intros [_ Hc]%clean_app. done.
    + intros t S2 w2 pkts T2 At Ct R2 E Hs. apply wp_ret. rewrite T1, <- app_assoc in T2.
      eapply Hyes; [exact T2|by constructor|by constructor|by eapply reseq_trans| |by constructor].
      simpl. by rewrite E.
Qed.

(** The channel for the fragments of a link is found when there is one. *)
Lemma wp_find_frag L q S x (Q : option chan_ref -> state -> Prop) :
  sched_inv S -> g_dtapScheduler S !! 0%nat = Some q ->
  (forall c, channels S !! FragChan L = Some c -> Q (Some (FragChan L)) (S, x)) ->
  (channels S !! FragChan L = None -> Q None (S, x)) ->
  wp (find_frag_chan L (lcidList q)) (S, x) Q.
Proof.
  intros HS Hq Hsome Hnone. pose proof (si_queues _ _ (sv_store _ HS) _ _ Hq) as Hqi.
  assert (forall ns, (forall n, n ∈ ns -> node_inv (channels S) 0 n) ->
    ((forall n, n ∈ ns -> ln_lcid n = L -> channelList n = []) -> Q None (S, x)) ->
    wp (find_frag_chan L ns) (S, x) Q) as Hloop.
  { clear Hnone. induction ns as [|n ns IH]; intros Hns Hnone; simpl.
    { apply wp_ret, Hnone. by intros n ?%not_elem_of_nil. }
    pose proof (Hns n ltac:(by constructor)) as Hn.
    destruct (Z.eqb_spec (ln_lcid n) L) as [El|El]; cbn [negb].
    2:{ apply IH; [intros m Hm; apply Hns; by constructor|]. intros Hall. apply Hnone.
        intros m [->|Hm]%elem_of_cons; [done|auto]. }
    destruct (frag_node (channels S) n Hn) as [Hfr _]; [apply HS|]. rewrite El in Hfr.
    apply wp_bind, wp_find_chan.
    - intros r Hr. destruct (ni_chans _ _ _ Hn r Hr) as (c&->&_). done.
    - intros r c Hr Hc _ _. apply wp_ret. rewrite (Hfr r Hr) in Hc |- *. by eapply Hsome.
    - intros Hno. apply IH; [intros m Hm; apply Hns; by constructor|]. intros Hall. apply Hnone.
      intros m [->|Hm]%elem_of_cons Hml; [|auto]. destruct (channelList n) as [|r rs] eqn:Er; [done|].
      exfalso. destruct (ni_chans _ _ _ Hn r) as (c&Hc&Hcl&_); [rewrite Er; constructor|].
      apply (Hno r c); [constructor|done|]. split; [congruence|].
      rewrite (Hfr r) in Hc by constructor.
      by destruct (ci_kind _ _ (si_chans _ _ (sv_store _ HS) _ _ Hc)) as (_&?&_). }
  apply Hloop; [apply Hqi|]. intros Hall. apply Hnone.
  destruct (channels S !! FragChan L) as [c|] eqn:Hc; [|done]. exfalso.
  destruct (ci_kind _ _ (si_chans _ _ (sv_store _ HS) _ _ Hc)) as (El&_&Ep&_).
  destruct (si_linked _ _ (sv_store _ HS) _ _ Hc) as [(q2&n&Hq2&Hn&Hr)|[_ [? ?]]]; [|done].
  rewrite Ep in Hq2. change (Z.to_nat DTAP_PRIORITY_FRAGMENT) with 0%nat in Hq2. rewrite Hq in Hq2. injection Hq2 as <-. rewrite El in Hn.
  destruct (find_lnode_lcid _ _ _ Hn) as [Hin Hl]. rewrite (Hall n Hin Hl) in Hr. by apply not_elem_of_nil in Hr.
Qed.

Lemma wp_get_or_create L S l w (Q : option chan_ref * bool -> state -> Prop) :
  sched_inv S ->
  (forall c, channels S !! FragChan L = Some c -> Q (Some (FragChan L), false) (S, (l, w))) ->
  (forall w', trace w' = trace w ++ [(CAlloc, 0)] -> Q (None, false) (S, (l, w'))) ->
  (forall a w', trace w' = trace w ++ [(CAlloc, a)] -> a <> 0 -> channels S !! FragChan L = None ->
     Q (Some (FragChan L), true)
       (S <| channels ::= <[FragChan L := mk_schan DTAP_PRIORITY_FRAGMENT L DTAP_FRAGMENT_TCID []]> |>, (l, w'))) ->
  wp (DTAP_GetOrCreateFragmentChannel L) (S, (l, w)) Q.
Proof.
  intros HS Hold Hno Hnew. destruct (lookup_lt_is_Some_2 (g_dtapScheduler S) 0) as [q Hq].
  { rewrite (si_len _ _ (sv_store _ HS)). lia. }
  apply wp_bind, (wp_get_queue _ q); [done|]. apply wp_bind, (wp_find_frag _ _ _ _ _ HS Hq).
  - intros c Hc. apply wp_ret. by eapply Hold.
  - intros Hc. apply wp_bind, wp_allocs. intros a w' T. destruct (Z.eqb_spec a 0) as [->|Ha]; cbn [negb].
    + by apply wp_ret, Hno.
    + apply wp_bind, wp_supd, wp_ret. by apply (Hnew a).
Qed.

(** Fragments to send. *)
Definition frag_ok (b : SDF_Buff) : Prop := buff_wf b /\ dataLen b <= DLI_MAX_TXRX_DATA_LEN.

Lemma enqueued_ran S i r c pkts S' t L :
  enqueued S i r c pkts S' -> r = FragChan L -> allocs t -> ran S [] t S'.
Proof.
  intros [G1 G2 G3 G4 G5 G6 G7] -> Ht. apply ran_store; try done.
  - by apply allocs_accepted.
  - by apply allocs_calls.
  - intros p. rewrite G2, decide_False by done. apply shrunk_refl.
  - by intros e ?%not_elem_of_nil.
Qed.

(** The object of the channel for the fragments of a link. *)
Record frag_chan_ok S (L : Z) c : Prop := {
  fc_lcid : c_lcid c = L;
  fc_priority : c_priority c = DTAP_PRIORITY_FRAGMENT;
  fc_tcid : c_srcTcid c = DTAP_FRAGMENT_TCID;
  fc_pkts : pktList c = chan_pkts S (FragChan L);
  fc_ok : Forall (packet_ok (FragChan L)) (pktList c)
}.

Lemma frag_chan_known S L c : sched_inv S -> channels S !! FragChan L = Some c -> frag_chan_ok S L c.
Proof.
  intros HS Hc. destruct (si_chans _ _ (sv_store _ HS) _ _ Hc) as [_ (?&?&?&_) ?]. constructor; try done.
  unfold chan_pkts. by rewrite Hc.
Qed.

(** The end of [DTAP_SaveFragmentData], once the channel is there. *)
Definition save_tail (L : Z) (bs : list SDF_Buff) (pkts : list DTAP_PendingPacket) (created : bool) : ST state bool :=
  let! c := get_chan (FragChan L) in
  let! ret := DTAP_PriorityQueuePush (Z.to_nat (c_priority c)) (FragChan L) (zlen bs) in
  if negb (ret =? DTAP_SUCCESS) then
    (if created then supd (fun s => s <| channels ::= delete (FragChan L) |>) else st_ret tt) ;;! st_ret false
  else supd (upd_chan (FragChan L) (fun c => c <| pktList ::= fun ps => ps ++ pkts |>)) ;;! st_ret true.

Lemma wp_save_tail L bs pkts (created : bool) S S2 c l w (Q : bool -> state -> Prop) :
  sched_inv S -> 0 <= L < 4096 -> Forall frag_ok (map pk_buff pkts) -> Forall (fun p => isSplited p = true) pkts ->
  zlen pkts = zlen bs -> 1 <= zlen bs -> zlen (chan_pkts S (FragChan L)) + zlen bs <= max_frags ->
  known_or_new S2 (FragChan L) c (channels S) -> S2 = S <| channels := channels S2 |> ->
  (if created then channels S !! FragChan L = None else S2 = S) -> frag_chan_ok S L c ->
  (forall t w', trace w' = trace w ++ t -> allocs t -> ~ clean t -> Q false (S, (l, w'))) ->
  (forall t S' w', trace w' = trace w ++ t -> allocs t -> clean t -> sched_inv S' -> ran S [] t S' ->
     chan_pkts S' (FragChan L) = chan_pkts S (FragChan L) ++ pkts ->
     (forall r, r <> FragChan L -> channels S' !! r = channels S !! r) -> Q true (S', (l, w'))) ->
  wp (save_tail L bs pkts created) (S2, (l, w)) Q.
Proof.
  intros HS HL Hbs Hspl Hlen Hlen1 Hroom Hk E2 Hcr [F1 F2 F3 F4 F5] Hno Hyes. unfold save_tail.
  apply wp_bind, (wp_get_chan _ c); [by eapply known_lookup|]. rewrite F2.
  change (Z.to_nat DTAP_PRIORITY_FRAGMENT) with 0%nat.
  destruct (lookup_lt_is_Some_2 (g_dtapScheduler S) 0) as [q Hq]; [rewrite (si_len _ _ (sv_store _ HS)); lia|].
  assert (chan_inv (FragChan L) (c <| pktList := pktList c ++ pkts |>)) as Hc'.
  { constructor; cbn; [by rewrite F1| |].
    - rewrite F4, length_app. split_and!; [done..|lia].
    - apply Forall_app. split; [done|]. rewrite Forall_map in Hbs.
      eapply Forall_impl; [apply Forall_and; split; [exact Hbs|exact Hspl]|]. intros p [[? ?] ?]. done. }
  assert (chan_inv (FragChan L) c) as Hc.
  { constructor; [by rewrite F1| |done]. rewrite F4. split_and!; [done..|lia]. }
  assert (g_dtapScheduler S2 = g_dtapScheduler S /\ g_lcidBufferList S2 = g_lcidBufferList S /\
    g_sendNotAckPktCnt S2 = g_sendNotAckPktCnt S /\ g_apBufferNum S2 = g_apBufferNum S /\ g_isInited S2 = g_isInited S)
    as (Eq&Eb&Eg&Ea&Eo) by (by rewrite E2).
  apply wp_bind, (wp_push 0 q _ c _ S2 l w (channels S)); rewrite ?Eq, ?Eb, ?Eg, ?Ea; try done; try apply HS.
  - unfold max_frags, DTAP_PACKET_MAX_SIZE in *. lia.
  - lia.
  - intros w' T. cbn [Z.eqb negb]. apply wp_bind.
    assert (Q false (S, (l, w'))) as HQ.
    { eapply Hno; [exact T|by constructor|]. apply failed_not_clean. by constructor. }
    change (DTAP_TRANS_MALLOC_ERR =? DTAP_SUCCESS) with false. cbn [negb].
    destruct created; [|by rewrite Hcr; apply wp_ret, wp_ret].
    apply wp_supd, wp_ret. assert (S2 <| channels ::= delete (FragChan L) |> = S) as ->; [|done].
    rewrite E2. destruct Hk as [[Ek Hk]|(Ek&_)]; [congruence|]. rewrite Ek. unfold modify. cbn.
    rewrite delete_insert_id by done. by destruct S.
  - intros S3 t w' T Ht Ech Henq. specialize (Henq pkts Hlen Hc'). change (DTAP_SUCCESS =? DTAP_SUCCESS) with true. cbn [negb].
    assert (allocs t /\ clean t) as [At Ct].
    { destruct Ht as [->|(a&Ha&->)]; [by split; constructor|]. split; by repeat constructor. }
    apply wp_bind, wp_supd, wp_ret. eapply Hyes; [exact T|done|done|apply Henq| | |].
    + assert (enqueued S 0 (FragChan L) c pkts (upd_chan (FragChan L) (fun c => c <| pktList ::= fun ps => ps ++ pkts |>) S3)) as He.
      { destruct Henq as [G1 G2 G3 G4 G5 G6 G7]. rewrite ?Eb, ?Eg, ?Ea, ?Eo in *. constructor; try done.
        - intros r'. rewrite G2. case_decide; [done|]. by eapply known_other.
        - intros j L' (qj&Hj&Hn). apply G4. exists qj. by rewrite Eq. }
      by eapply enqueued_ran.
    + unfold chan_pkts at 1. rewrite (en_chans _ _ _ _ _ _ Henq), decide_True by done. cbn. by rewrite F4.
    + intros r Hr. rewrite (en_chans _ _ _ _ _ _ Henq), decide_False by done. by eapply known_other.
Qed.

(** What [DTAP_SaveFragmentData] leaves: the fragments at the end of the link's
    channel, or, when it fails, nothing. *)
Lemma wp_save L bs S l w (Q : bool -> state -> Prop) :
  sched_inv S -> 0 <= L < 4096 -> Forall frag_ok bs -> 1 <= zlen bs ->
  zlen (chan_pkts S (FragChan L)) + zlen bs <= max_frags ->
  (forall t S' w', trace w' = trace w ++ t -> ~ clean t -> sched_inv S' -> ran S [] t S' -> accepted t = [] ->
     channels S' = channels S -> Q false (S', (l, w'))) ->
  (forall t S' w' pkts, trace w' = trace w ++ t -> clean t -> sched_inv S' -> ran S [] t S' -> accepted t = [] ->
     map pk_buff pkts = bs ->
     chan_pkts S' (FragChan L) = chan_pkts S (FragChan L) ++ pkts ->
     (forall r, r <> FragChan L -> channels S' !! r = channels S !! r) -> Q true (S', (l, w'))) ->
  wp (DTAP_SaveFragmentData L bs) (S, (l, w)) Q.
Proof.
  intros HS HL Hbs Hlen1 Hroom Hno Hyes. unfold DTAP_SaveFragmentData. apply wp_bind, wp_save_packets.
  { intros t S' w' T At Nt R. apply wp_ret. eapply Hno; [exact T|done|by eapply reseq_inv| |by apply allocs_accepted|by rewrite R].
    rewrite R. apply ran_store; try done; [by apply allocs_accepted|by apply allocs_calls|by apply bufs_ran_refl|
      intros; apply shrunk_refl|by intros e ?%not_elem_of_nil]. }
  intros t1 S1 w1 pkts T1 At1 Ct1 R1 Ebs Hspl. pose proof (reseq_inv _ _ R1 HS) as HS1.
  assert (channels S1 = channels S) as Ech by (by rewrite R1).
  assert (ran S [] t1 S1) as Hr1.
  { rewrite R1. apply ran_store; try done; [by apply allocs_accepted|by apply allocs_calls|by apply bufs_ran_refl|
      intros; apply shrunk_refl|by intros e ?%not_elem_of_nil]. }
  assert (forall t2 w2 S2 c created, trace w2 = trace w1 ++ t2 -> allocs t2 -> clean t2 ->
    known_or_new S2 (FragChan L) c (channels S1) -> S2 = S1 <| channels := channels S2 |> ->
    (if created : bool then channels S1 !! FragChan L = None else S2 = S1) -> frag_chan_ok S1 L c ->
    wp (save_tail L bs pkts created) (S2, (l, w2)) Q) as Htail.
  { intros t2 w2 S2 c created T2 At2 Ct2 Hk E2 Hcr Hc. rewrite T1, <- app_assoc in T2.
    apply (wp_save_tail L bs pkts created S1 S2 c l w2); try done.
    - rewrite Ebs. done.
    - by rewrite <- Ebs, length_map.
    - unfold chan_pkts. rewrite Ech. exact Hroom.
    - intros t3 w3 T3 At3 Nt3. rewrite T2, <- !app_assoc in T3.
      eapply (Hno _ S1 w3 T3); [by intros [_ [_ ?]%clean_app]%clean_app|done| | |done].
      + eapply (ran_trans _ _ _ [] []); [exact Hr1|]. apply ran_still.
        * by rewrite accepted_app, !allocs_accepted.
        * apply Forall_app_2; by apply allocs_calls.
      + by rewrite !accepted_app, !allocs_accepted.
    - intros t3 S3 w3 T3 At3 Ct3 HS3 Hr3 Hp3 Ho3. rewrite T2, <- !app_assoc in T3.
      eapply (Hyes _ S3 w3 pkts T3); [by rewrite !clean_app|done| | |done| |].
      + eapply (ran_trans _ _ _ [] []); [exact Hr1|]. eapply (ran_trans _ _ _ [] []); [|exact Hr3].
        apply ran_still; [by apply allocs_accepted|by apply allocs_calls].
      + by rewrite !accepted_app, !allocs_accepted.
      + rewrite Hp3. unfold chan_pkts. by rewrite Ech.
      + intros r Hr. by rewrite Ho3, Ech. }
  apply wp_bind, wp_get_or_create; [done|..].
  - intros c Hc. apply (Htail [] w1 S1 c false); [by rewrite app_nil_r|constructor|constructor|by left|by destruct S1|done|].
    by eapply frag_chan_known.
  - intros w2 T2. apply wp_ret. rewrite T1, <- app_assoc in T2.
    eapply (Hno _ S1 w2 T2); [|done| |by rewrite accepted_app, allocs_accepted|done].
    + intros [_ Hc]%clean_app. by apply (failed_not_clean [(CAlloc, 0)]); [constructor|].
    + eapply (ran_trans _ _ _ [] []); [exact Hr1|]. apply ran_still; [done|by constructor].
  - intros a w2 T2 Ha Hnone. apply (Htail _ w2 _ (mk_schan DTAP_PRIORITY_FRAGMENT L DTAP_FRAGMENT_TCID []) true T2).
    + by constructor.
    + by constructor.
    + right. split_and!; [done|done|by exists L|done].
    + by destruct S1.
    + done.
    + constructor; try done. unfold chan_pkts. by rewrite Hnone.
Qed.

(** ** Splitting a packet *)
Lemma wp_new_frags cnt size : forall S l w (Q : option (list (option SDF_Buff)) -> state -> Prop),
  0 <= size < 4294967296 ->
  (forall t w', trace w' = trace w ++ t -> allocs t -> ~ clean t -> Q None (S, (l, w'))) ->
  (forall t w', trace w' = trace w ++ t -> allocs t -> clean t ->
     Q (Some (replicate cnt (SDF_BuffNew true size))) (S, (l, w'))) ->
  wp (new_frags cnt size) (S, (l, w)) Q.
Proof.
  induction cnt as [|cnt IH]; intros S l w Q Hsz Hno Hyes; simpl.
  { apply wp_ret, (Hyes []); [by rewrite app_nil_r|constructor|constructor]. }
  destruct (new_spec size Hsz) as (f&Ef&_).
  apply wp_bind, wp_allocs. intros a w1 T1. destruct (Z.eqb_spec a 0) as [->|Ha]; cbn [negb].
  { apply wp_ret. eapply Hno; [exact T1|by repeat constructor|]. apply failed_not_clean. by constructor. }
  rewrite Ef. apply wp_bind, IH; [done|..].
  - intros t w2 T2 At Nt. apply wp_ret. rewrite T1, <- app_assoc in T2.
    eapply Hno; [exact T2|by constructor|]. by intros [_ ?]%clean_app.
  - intros t w2 T2 At Ct. apply wp_ret. rewrite T1, <- app_assoc in T2.
    specialize (Hyes _ w2 T2). rewrite Ef in Hyes |- *. apply Hyes; by constructor.
Qed.

(** The buffers filled by [DLI_SplitData], as a list. *)
Lemma filled {A} (P : nat -> A -> Prop) (out : list (option A)) : forall k,
  (forall j, (j < length out)%nat -> exists f, out !! j = Some (Some f) /\ P (k + j)%nat f) ->
  exists fs, out = map Some fs /\ forall j f, fs !! j = Some f -> P (k + j)%nat f.
Proof.
  induction out as [|o out IH]; intros k Hout; [by exists []|].
  destruct (Hout 0%nat) as (f&Hf&HP); [simpl; lia|]. injection Hf as ->. rewrite Nat.add_0_r in HP.
  destruct (IH (Datatypes.S k)) as (fs&->&Hfs).
  { intros j Hj. destruct (Hout (Datatypes.S j)) as (g&Hg&HPg); [simpl; lia|]. exists g. split; [done|].
    by replace (Datatypes.S k + j)%nat with (k + Datatypes.S j)%nat by lia. }
  exists (f :: fs). split; [done|]. intros [|j] g Hg; [injection Hg as <-; by rewrite Nat.add_0_r|].
  replace (k + Datatypes.S j)%nat with (Datatypes.S k + j)%nat by lia. by apply Hfs.
Qed.

Definition split_of l (L : Z) (b : SDF_Buff) (fs : list SDF_Buff) : Prop :=
  Forall frag_ok fs /\
  map buff_data fs = pkt_frags l (mk_taken 0 L (mk_pkt b 0 false)) /\
  zlen fs = DLI_GetDataFragmentNums l (Some b).

Lemma fragments_ok l L b out cnt :
  1 <= cfg_len (acbConfig l) <= 65530 -> frag_count (buff_data b) (cfg_len (acbConfig l)) cnt ->
  cnt = DLI_GetDataFragmentNums l (Some b) -> 0 < cnt -> length out = Z.to_nat cnt ->
  (forall j, (j < Z.to_nat cnt)%nat -> holds_fragment (mk_data L DLI_DATATYPE_ACB 0 0 (Some b)) (buff_data b)
     (cfg_len (acbConfig l)) cnt out j) ->
  exists fs, out = map Some fs /\ split_of l L b fs.
Proof.
  intros Hm Hfc Hcnt Hpos Hlen Hout. set (mtu := cfg_len (acbConfig l)) in *.
  destruct (filled (fun j f => buff_wf f /\ buff_data f = dli_fragment (mk_data L DLI_DATATYPE_ACB 0 0 (Some b))
    (buff_data b) mtu cnt (Z.of_nat j)) out 0) as (fs&->&Hfs).
  { intros j Hj. apply (Hout j). lia. }
  rewrite length_map in Hlen. exists fs. split; [done|]. unfold split_of. split_and!; [| |lia].
  - apply Forall_forall. intros f (j&Hj)%list_elem_of_lookup. destruct (Hfs j f Hj) as [Hwf Hd].
    split; [done|]. pose proof (length_buff_data f Hwf) as Hl. rewrite Hd in Hl. unfold dli_fragment in Hl.
    rewrite length_app in Hl. apply lookup_lt_Some in Hj. unfold frag_count in Hfc.
    assert (zlen (chunk (buff_data b) mtu (Z.of_nat j)) <= mtu) as Hc.
    { unfold chunk. rewrite length_mem_read by nia. lia. }
    unfold DLI_MAX_TXRX_DATA_LEN. simpl in Hl. lia.
  - unfold pkt_frags. cbn [tk_pkt pk_buff tk_lcid]. rewrite <- Hcnt. fold mtu. apply list_eq. intros j.
    rewrite !list_lookup_fmap. destruct (decide (j < length fs)%nat) as [Hj|Hj].
    + destruct (lookup_lt_is_Some_2 fs j Hj) as [f Hf]. rewrite Hf, lookup_seqZ_lt by lia. cbn.
      by rewrite (proj2 (Hfs j f Hf)).
    + by rewrite (lookup_ge_None_2 fs), lookup_seqZ_ge by lia.
Qed.

Lemma wp_sched_split L b cnt S l w (Q : option (list (option SDF_Buff)) * SDF_Buff -> state -> Prop) :
  layer_ok l -> 0 <= L < 4096 -> sendable b -> cnt = DLI_GetDataFragmentNums l (Some b) -> cnt <> 0 ->
  (forall t w', trace w' = trace w ++ t -> allocs t -> ~ clean t -> Q (None, b) (S, (l, w'))) ->
  (forall t w' fs b', trace w' = trace w ++ t -> allocs t -> clean t -> split_of l L b fs ->
     Q (Some (map Some fs), b') (S, (l <| pdFlag := DLI_FULL_FRAGMENT |>, w'))) ->
  wp (DTAP_SplitData L b cnt) (S, (l, w)) Q.
Proof.
  intros [Hcfg Hidle] HL (Hb&Hoff&Hpos) Hcnt Hnz Hno Hyes.
  assert (0 <= cnt) as Hc0.
  { rewrite Hcnt. unfold DLI_GetDataFragmentNums. repeat case_match; try done. apply u32_range. }
  assert (1 <= cfg_len (acbConfig l)) as Hm1.
  { destruct (decide (cfg_len (acbConfig l) = 0)) as [E|]; [|lia]. exfalso. apply Hnz. rewrite Hcnt.
    unfold DLI_GetDataFragmentNums, DLI_DataLenGet. by rewrite E. }
  set (mtu := cfg_len (acbConfig l)) in *.
  destruct (fragment_nums_spec b l cnt mtu) as [Hc Hfc]; [done..|lia|done|lia|].
  unfold DTAP_SplitData. apply wp_bind, wp_over, wp_gets. cbn [fst].
  change (DLI_GetFragmentMaxLen l) with (mtu + DLI_HEADER). unfold DLI_HEADER in *.
  rewrite u32_small by cint.
  destruct (new_spec (mtu + 5)) as (f&Ef&Hwf&Hfl&Hfo&Hfb); [lia|].
  apply wp_bind, wp_new_frags; [lia|..].
  { intros t w' T At Nt. by eapply wp_ret, Hno. }
  intros t w' T At Ct. rewrite Ef. apply wp_bind, wp_over.
  eapply wp_split; try done; [lia| |].
  - intros j Hj. exists f. split; [by apply lookup_replicate|]. split; [done|]. unfold DLI_HEADER. lia.
  - intros d' out Hlen Hout. rewrite length_replicate in Hlen. cbn [negb]. apply wp_ret.
    destruct (fragments_ok l L b out cnt) as (fs&->&Hfs); [lia|done|done|lia|done|exact Hout|].
    by eapply Hyes.
Qed.
End wp.
