(* ===== verification/DtapSchedLoop.v ===== *)
(** * The packet scheduler: the loops of a run

    [DTAP_ScheduleLcid], [DTAP_SchedulePriority] and [DTAP_SchedulerRun] on top of the
    steps of [DtapSchedRun]: what a run as a whole keeps, sends and leaves behind. *)
From S2P Require Import Prelude SdfErrno SdfBuff DtapEnv DliLayer DliData DtapTrans DtapQuota DtapScheduler DtapSchedStore DtapSchedRun.

(** A packet that cannot be split: it needs more fragments than the layer makes, or
    the controller's buffer size is not known. *)
Definition blocked (l : DLI_LayerInfo) (S : Sched) : Prop :=
  exists r p, p ∈ chan_pkts S r /\ isSplited p = false /\ DLI_GetDataFragmentNums l (Some (pk_buff p)) = 0.

(** The left-over fragments of the links but [L] stay. *)
Definition only_link (L : Z) (S S' : Sched) : Prop :=
  forall L', L' <> L -> chan_pkts S' (FragChan L') = chan_pkts S (FragChan L').

Lemma only_link_trans L S1 S2 S3 : only_link L S1 S2 -> only_link L S2 S3 -> only_link L S1 S3.
Proof. intros H1 H2 L' HL. by rewrite H2, H1. Qed.

Section loops.
Context {W : Type} `{World W}.
Implicit Types (S : Sched) (l : DLI_LayerInfo) (w : W).
Notation state := (Sched * (DLI_LayerInfo * W))%type.

(** What every stretch of a run promises: [log] are the packets taken. *)
Record stretch S l w (log : list taken) (t : list (call * Z)) S' l' w' : Prop := {
  st_trace : trace w' = trace w ++ t;
  st_inv : sched_inv S';
  st_layer : layer_ok l';
  st_config : acbConfig l' = acbConfig l;
  st_ran : ran S log t S'
}.

Lemma stretch_refl S l w : sched_inv S -> layer_ok l -> stretch S l w [] [] S l w.
Proof. intros. constructor; try done; [by rewrite app_nil_r|by apply ran_still]. Qed.

Lemma stretch_trans S1 l1 w1 S2 l2 w2 S3 l3 w3 log1 log2 t1 t2 :
  stretch S1 l1 w1 log1 t1 S2 l2 w2 -> stretch S2 l2 w2 log2 t2 S3 l3 w3 ->
  stretch S1 l1 w1 (log1 ++ log2) (t1 ++ t2) S3 l3 w3.
Proof.
  intros [A1 A2 A3 A4 A5] [B1 B2 B3 B4 B5]. constructor; [|done|done|congruence|by eapply ran_trans].
  by rewrite B1, A1, app_assoc.
Qed.

Definition frag_cnt S (L : Z) : Z := zlen (chan_pkts S (FragChan L)).

(** ** The fragments of one packet *)
Lemma wp_send_fragments L fs : forall S l w (Q : list (option SDF_Buff) -> state -> Prop),
  sched_inv S -> layer_ok l -> Forall frag_ok fs ->
  (forall t S' w' fs1 fs2, fs = fs1 ++ fs2 -> stretch S l w [] t S' l w' -> same_store S S' ->
     accepted t = map (fun f => (L, buff_data f)) fs1 ->
     (clean t -> fs2 <> [] -> DTAP_CanSend S' L = false) -> Q (map Some fs2) (S', (l, w'))) ->
  wp (send_fragments L (map Some fs)) (S, (l, w)) Q.
Proof.
  induction fs as [|f fs IH]; intros S l w Q HS Hl Hfs HQ; cbn [map send_fragments].
  { apply wp_ret, (HQ [] S w [] []); [done|by apply stretch_refl|done|done|done]. }
  apply Forall_cons in Hfs as [[Hf Hlen] Hfs]. apply wp_bind, wp_sg.
  destruct (DTAP_CanSend S L) eqn:Hcan; cbn [negb].
  2:{ apply wp_ret, (HQ [] S w [] (f :: fs)); [done|by apply stretch_refl|done..]. }
  apply wp_bind, (wp_opt _ f); [done|]. apply wp_bind, wp_send_data; [done..| |].
  - intros t S1 w1 T1 HS1 R1 Hst1 Ha1 Ct1. cbn [negb]. apply IH; [done..|].
    intros t2 S2 w2 fs1 fs2 Efs St2 Hst2 Ha2 Hstop.
    assert (stretch S l w [] t S1 l w1) as St1 by (by constructor).
    apply (HQ (t ++ t2) S2 w2 (f :: fs1) fs2); [by rewrite Efs|exact (stretch_trans _ _ _ _ _ _ _ _ _ _ _ _ _ St1 St2)| | |].
    + destruct Hst1, Hst2. split; congruence.
    + by rewrite accepted_app, Ha1, Ha2.
    + intros [_ Ct2]%clean_app. by apply Hstop.
  - intros t w1 T1 R1 Ha1 Nt1. cbn [negb]. apply wp_ret, (HQ t S w1 [] (f :: fs)); [done|by constructor|done|done|].
    intros Ct. done.
Qed.

Lemma mapM_some {A} (xs : list A) : mapM id (map Some xs) = Some xs.
Proof. induction xs as [|x xs IH]; [done|]. cbn. by rewrite IH. Qed.

(** ** One round *)

(** What a round that takes a packet of link [L] from queue [i] leaves.  [k]: the
    multiple of the fragments of one packet that bounds those left over before. *)
Definition round_post (i : nat) (L k : Z) S l w (n : DTAP_LcidNode) (res : round) (s' : state) : Prop :=
  exists log t, stretch S l w log t s'.1 s'.2.1 s'.2.2 /\ only_link L S s'.1 /\
    (i = 0%nat \/ frag_cnt S L = 0 -> clean t -> ordered l S log t s'.1) /\
    match res with
    | Continue =>
        (exists q' n', g_dtapScheduler s'.1 !! i = Some q' /\ DTAP_GetLcidNode q' L = Some n' /\
           ln_pktCnt n' = ln_pktCnt n - 1) /\
        ((0 < i)%nat -> frag_cnt s'.1 L = frag_cnt S L)
    | Break => (0 < i)%nat /\ (clean t -> DTAP_CanSend s'.1 L = false) /\ frag_cnt s'.1 L <= 128 * (k + 1)
    | Return b => b = false /\ (clean t -> blocked l S) /\ ((0 < i)%nat -> frag_cnt s'.1 L = frag_cnt S L)
    end.

Lemma left_over_only L S S' L' : only_link L S S' -> L' <> L -> left_over S' L' = left_over S L'.
Proof. intros Ho HL. unfold left_over. by rewrite Ho. Qed.

(** It is enough to look at the link at hand. *)
Lemma ordered_one l L S log t S' :
  (forall L', L' <> L -> sent_on L' t = []) -> only_link L S S' -> (forall e, e ∈ log -> tk_lcid e = L) ->
  sent_on L t ++ left_over S' L = left_over S L ++ concat (map (pkt_frags l) log) -> ordered l S log t S'.
Proof.
  intros Hs Ho Hlog HL L'. unfold on_link. destruct (decide (L' = L)) as [->|Hne].
  - assert (filter (fun e => tk_lcid e = L) log = log) as ->; [|done].
    clear HL. induction log as [|e log IH]; [done|]. rewrite filter_cons_True by (apply Hlog; constructor).
    f_equal. apply IH. intros e' He'. apply Hlog. by constructor.
  - rewrite Hs, (left_over_only L S S') by done.
    assert (filter (fun e => tk_lcid e = L') log = []) as ->; [|by rewrite app_nil_r].
    clear HL. induction log as [|e log IH]; [done|]. rewrite filter_cons_False.
    + apply IH. intros e' He'. apply Hlog. by constructor.
    + intros E. apply Hne. rewrite <- E. apply Hlog. by constructor.
Qed.

Lemma sent_on_const L (ds : list bytes) t :
  accepted t = map (fun d => (L, d)) ds -> sent_on L t = ds /\ forall L', L' <> L -> sent_on L' t = [].
Proof.
  intros E. unfold sent_on. rewrite E. split.
  - clear E. induction ds as [|d ds IH]; [done|]. cbn [map]. rewrite filter_cons_True by done. cbn. by rewrite IH.
  - intros L' HL. clear E. induction ds as [|d ds IH]; [done|]. cbn [map]. by rewrite filter_cons_False.
Qed.

(** A round with a fragment left over from a packet. *)
Lemma round_fragment L q n c p rest S l w k :
  sched_inv S -> layer_ok l -> DTAP_CanSend S L = true -> g_dtapScheduler S !! 0%nat = Some q ->
  DTAP_GetLcidNode q L = Some n -> FragChan L ∈ channelList n ->
  channels S !! FragChan L = Some c -> pktList c = p :: rest ->
  wp (schedule_round 0 L (FragChan L)) (S, (l, w)) (round_post 0 L k S l w n).
Proof.
  intros HS Hl Hcan Hq Hn Hin Hc Hp.
  destruct (si_chans _ _ (sv_store _ HS) _ _ Hc) as [_ (HcL&_&_&_) Hok].
  rewrite Hp in Hok. apply Forall_cons in Hok as [(Hsp&Hwf&Hlen) _].
  unfold schedule_round. apply wp_bind, (wp_get_chan _ c); [done|].
  apply wp_bind, (wp_opt _ p); [by rewrite Hp|]. rewrite Hsp, HcL. apply wp_bind, wp_send_data; [done..| |].
  - intros t S1 w1 T1 HS1 R1 [Eq1 Ec1] Ha1 Ct1. cbn [negb]. apply wp_bind.
    apply (wp_pop 0 q L n (FragChan L) c p rest); rewrite ?Eq1, ?Ec1; try done.
    intros S2 q2 n2 HS2 Ec2 Eq2 Hn2 Hcnt2 R2. apply wp_ret.
    exists [], (t ++ []). cbn [fst snd].
    assert (stretch S l w [] (t ++ []) S2 l w1) as Hst.
    { constructor; try done; [by rewrite app_nil_r|]. exact (ran_trans _ _ _ [] [] _ _ R1 R2). }
    assert (only_link L S S2) as Ho.
    { intros L' HL'. unfold chan_pkts. by rewrite Ec2, lookup_insert_ne by congruence. }
    rewrite app_nil_r in Hst |- *. split; [done|]. split; [done|]. split; [|split; [|lia]].
    + intros _ _. destruct (sent_on_const L [buff_data (pk_buff p)] t Ha1) as [Hs Hs']. apply (ordered_one l L); try done.
      { by intros e ?%not_elem_of_nil. }
      rewrite Hs. unfold left_over, chan_pkts. rewrite Ec2, lookup_insert_eq, Hc, Hp. cbn. by rewrite app_nil_r.
    + exists q2, n2. rewrite Eq2, list_lookup_insert_eq by (by eapply lookup_lt_Some). done.
  - intros t w1 T1 R1 Ha1 Nt1. cbn [negb]. apply wp_ret. exists [], t. cbn [fst snd].
    split; [by constructor|]. split; [done|]. split; [|done]. by intros _ ?.
Qed.

Lemma stretch_allocs S l w t w' :
  sched_inv S -> layer_ok l -> trace w' = trace w ++ t -> allocs t -> stretch S l w [] t S l w'.
Proof.
  intros HS Hl T At. constructor; try done. apply ran_still; [by apply allocs_accepted|by apply allocs_calls].
Qed.

Lemma upd_chan_id r f S c : channels S !! r = Some c -> f c = c -> upd_chan r f S = S.
Proof.
  intros Hc Hf. unfold upd_chan, modify. destruct S as [a1 a2 a3 a4 a5 a6 a7 h]. cbn in *. f_equal.
  apply map_eq. intros r'. destruct (decide (r = r')) as [<-|Hne].
  - rewrite lookup_alter_eq, Hc. cbn. by rewrite Hf.
  - by rewrite lookup_alter_ne.
Qed.

(** The end of the round of a packet: it leaves its channel, and the fragments [fs2]
    that were not sent are saved. *)
Definition packet_tail (i : nat) (L : Z) (r : chan_ref) (fs2 : list SDF_Buff) : ST state round :=
  DTAP_PriorityQueuePop i L r ;;!
  match map Some fs2 with
  | [] => st_ret Continue
  | _ =>
      let! buffs := st_opt (mapM id (map Some fs2)) in
      let! ok := DTAP_SaveFragmentData L buffs in
      if negb ok then st_ret (Return false) else st_ret Break
  end.

Lemma packet_tail_spec i a L q n c p rest fs1 fs2 S l w t S1 l1 w1 k :
  (0 < i)%nat -> 0 <= L < 4096 -> 0 <= k <= 2 -> frag_cnt S L <= 128 * k ->
  stretch S l w [] t S1 l1 w1 -> same_store S S1 ->
  g_dtapScheduler S !! i = Some q -> DTAP_GetLcidNode q L = Some n -> TransChan a ∈ channelList n ->
  channels S !! TransChan a = Some c -> pktList c = p :: rest ->
  split_of l L (pk_buff p) (fs1 ++ fs2) -> zlen (fs1 ++ fs2) <= 128 ->
  accepted t = map (fun f => (L, buff_data f)) fs1 ->
  (clean t -> fs2 <> [] -> DTAP_CanSend S1 L = false) ->
  wp (packet_tail i L (TransChan a) fs2) (S1, (l1, w1)) (round_post i L k S l w n).
Proof.
  intros Hi HL Hk Hfk St1 [Eq1 Ec1] Hq Hn Hin Hc Hp (Hfok&Hfd&_) Hlen Hacc Hstop.
  assert (accepted t = map (fun d => (L, d)) (map buff_data fs1)) as Hacc' by (by rewrite map_map).
  destruct (sent_on_const L _ _ Hacc') as [Hs Hs'].
  unfold packet_tail. apply wp_bind, (wp_pop i q L n (TransChan a) c p rest); rewrite ?Eq1, ?Ec1; try done; [apply St1|].
  intros S2 q2 n2 HS2 Ec2 Eq2 Hn2 Hcnt2 R2.
  assert (forall L', chan_pkts S2 (FragChan L') = chan_pkts S (FragChan L')) as Hfr.
  { intros L'. unfold chan_pkts. by rewrite Ec2, lookup_insert_ne. }
  set (e := mk_taken a L p) in *.
  assert (stretch S l w [e] t S2 l1 w1) as St2.
  { assert (stretch S1 l1 w1 [e] [] S2 l1 w1) as St2'.
    { constructor; try done; [by rewrite app_nil_r|apply St1]. }
    pose proof (stretch_trans _ _ _ _ _ _ _ _ _ _ _ _ _ St1 St2') as St. by rewrite app_nil_r in St. }
  assert (forall t' S', chan_pkts S' (FragChan L) = chan_pkts S2 (FragChan L) -> only_link L S S' ->
    accepted t' = [] -> fs2 = [] -> frag_cnt S L = 0 -> ordered l S [e] (t ++ t') S') as Hord.
  { intros t' S' Hf Ho Ht' -> Hz. rewrite app_nil_r in Hfd. apply (ordered_one l L).
    - intros L' HL'. by rewrite sent_on_app, Hs', sent_on_nil.
    - done.
    - by intros e' ->%list_elem_of_singleton.
    - rewrite sent_on_app, Hs, (sent_on_nil L t') by done. cbn [map concat]. rewrite !app_nil_r.
      unfold left_over. rewrite Hf, Hfr. unfold frag_cnt in Hz.
      assert (chan_pkts S (FragChan L) = []) as -> by (by apply nil_length_inv; lia).
      rewrite app_nil_r. exact Hfd. }
  destruct fs2 as [|f fs2]; cbn [map].
  { apply wp_ret. exists [e], t. cbn [fst snd]. split; [done|]. split; [by intros L' _|]. split; [|split].
    - intros [?|Hz] _; [lia|]. specialize (Hord [] S2 eq_refl ltac:(by intros L' _) eq_refl eq_refl Hz). by rewrite app_nil_r in Hord.
    - exists q2, n2. rewrite Eq2, list_lookup_insert_eq by (by eapply lookup_lt_Some). done.
    - intros _. unfold frag_cnt. by rewrite Hfr. }
  apply wp_bind, (wp_opt _ (f :: fs2)); [exact (mapM_some (f :: fs2))|].
  apply Forall_app in Hfok as [_ Hfok]. rewrite length_app in Hlen.
  apply wp_bind, wp_save; [done|done|done|simpl; lia| | |].
  { fold (frag_cnt S2 L). unfold frag_cnt in *. rewrite Hfr. unfold max_frags. lia. }
  - intros t3 S3 w3 T3 Nt3 HS3 R3 Ha3 Ec3. cbn [negb]. apply wp_ret. exists [e], (t ++ t3). cbn [fst snd].
    assert (stretch S2 l1 w1 [] t3 S3 l1 w3) as St3 by (constructor; try done; apply St1).
    split; [exact (stretch_trans _ _ _ _ _ _ _ _ _ _ _ _ _ St2 St3)|].
    split; [intros L' _; unfold chan_pkts at 1; rewrite Ec3; exact (Hfr L')|].
    split; [by intros _ [_ ?]%clean_app|]. split; [done|]. split; [by intros [_ ?]%clean_app|].
    intros _. unfold frag_cnt, chan_pkts at 1. rewrite Ec3. by fold (chan_pkts S2 (FragChan L)); rewrite Hfr.
  - intros t3 S3 w3 pkts T3 Ct3 HS3 R3 Ha3 Eb Hp3 Ho3. cbn [negb]. apply wp_ret. exists [e], (t ++ t3). cbn [fst snd].
    assert (stretch S2 l1 w1 [] t3 S3 l1 w3) as St3 by (constructor; try done; apply St1).
    assert (only_link L S S3) as Hol.
    { intros L' HL'. unfold chan_pkts at 1. rewrite Ho3 by congruence. exact (Hfr L'). }
    split; [exact (stretch_trans _ _ _ _ _ _ _ _ _ _ _ _ _ St2 St3)|]. split; [done|]. split; [|split; [done|split]].
    + intros [?|Hz] _; [lia|]. apply (ordered_one l L); [|done|by intros e' ->%list_elem_of_singleton|].
      * intros L' HL'. by rewrite sent_on_app, Hs', sent_on_nil.
      * rewrite sent_on_app, Hs, (sent_on_nil L t3) by done. cbn [map concat]. rewrite !app_nil_r.
        unfold left_over. rewrite Hp3, Hfr. unfold frag_cnt in Hz.
        assert (chan_pkts S (FragChan L) = []) as -> by (by apply nil_length_inv; lia).
        cbn [app map]. rewrite <- (map_map pk_buff buff_data), Eb. rewrite map_app in Hfd. exact Hfd.
    + intros [Ct _]%clean_app. specialize (Hstop Ct ltac:(done)).
      destruct (DTAP_CanSend S3 L) eqn:E3; [|done]. pose proof (ran_can_send _ _ _ _ _ R3 E3) as E2.
      pose proof (ran_can_send _ _ _ _ _ R2 E2). congruence.
    + unfold frag_cnt. rewrite Hp3, Hfr, length_app. fold (frag_cnt S L).
      assert (length pkts = length (f :: fs2)) by (by rewrite <- Eb, length_map). unfold frag_cnt in *. lia.
Qed.

(** A round with a packet. *)
Lemma round_packet i a L q n c p rest S l w k :
  sched_inv S -> layer_ok l -> (0 < i)%nat -> 0 <= k <= 2 -> frag_cnt S L <= 128 * k ->
  g_dtapScheduler S !! i = Some q -> DTAP_GetLcidNode q L = Some n -> TransChan a ∈ channelList n ->
  channels S !! TransChan a = Some c -> pktList c = p :: rest ->
  wp (schedule_round i L (TransChan a)) (S, (l, w)) (round_post i L k S l w n).
Proof.
  intros HS Hl Hi Hk Hfk Hq Hn Hin Hc Hp.
  destruct (node_of _ _ _ _ _ _ (sv_store _ HS) Hq Hn) as (Hni&_&HnL).
  assert (c_lcid c = L) as HcL.
  { destruct (ni_chans _ _ _ Hni _ Hin) as (c0&Hc0&E&_). rewrite Hc in Hc0. injection Hc0 as <-. congruence. }
  destruct (si_chans _ _ (sv_store _ HS) _ _ Hc) as [Hlr _ Hok]. rewrite HcL in Hlr.
  rewrite Hp in Hok. apply Forall_cons in Hok as [[Hsp Hsend] _].
  unfold schedule_round. apply wp_bind, (wp_get_chan _ c); [done|].
  apply wp_bind, (wp_opt _ p); [by rewrite Hp|]. rewrite Hsp. apply wp_bind, wp_over, wp_gets. cbn [fst].
  destruct (Z.eqb_spec (DLI_GetDataFragmentNums l (Some (pk_buff p))) 0) as [Ez|Enz].
  { apply wp_ret. exists [], []. cbn [fst snd]. split; [by apply stretch_refl|]. split; [done|]. split; [|split; [done|split; [|done]]].
    - intros _ _ L'. unfold on_link. cbn. by rewrite app_nil_r.
    - intros _. exists (TransChan a), p. unfold chan_pkts. rewrite Hc, Hp. split; [constructor|done]. }
  apply wp_bind. rewrite HcL. apply wp_sched_split; try done.
  - intros t w1 T1 At Nt. apply wp_bind, wp_supd. rewrite (upd_chan_id _ _ S c); [|done|].
    2:{ destruct c as [c1 c2 c3 c4]. cbn in Hp. subst c4. unfold modify. cbn. by destruct p. }
    apply wp_ret. exists [], t. cbn [fst snd]. split; [by apply stretch_allocs|]. split; [done|].
    split; [by intros _ ?|]. done.
  - intros t w1 fs b' T1 At Ct Hsplit. pose proof Hsplit as (Hfok&_&Hcnt).
    set (l1 := l <| pdFlag := DLI_FULL_FRAGMENT |>).
    assert (stretch S l w [] t S l1 w1) as St0.
    { pose proof (stretch_allocs S l w t w1 HS Hl T1 At) as [A1 A2 A3 A4 A5]. constructor; try done. split; [apply Hl|done]. }
    assert (zlen fs <= 128) as Hlen.
    { rewrite Hcnt. unfold DLI_GetDataFragmentNums, DLI_MAX_FRAGMEN_NUM. repeat case_match; [done|done|].
      apply Z.ltb_ge. done. }
    apply wp_bind, wp_send_fragments; [done|apply St0|done|].
    intros t2 S1 w2 fs1 fs2 Efs St1 Hst1 Ha1 Hstop. subst fs.
    pose proof (stretch_trans _ _ _ _ _ _ _ _ _ _ _ _ _ St0 St1) as St. cbn [app] in St.
    eapply (packet_tail_spec i a L q n c p rest fs1 fs2 S l w (t ++ t2) S1 l1 w2 k); try done.
    + by rewrite accepted_app, (allocs_accepted t).
    + intros [_ Ct2]%clean_app. by apply Hstop.
Qed.

(** Every round. *)
Lemma round_spec i L q n r c p rest S l w k :
  sched_inv S -> layer_ok l -> DTAP_CanSend S L = true -> ((0 < i)%nat -> 0 <= k <= 2 /\ frag_cnt S L <= 128 * k) ->
  g_dtapScheduler S !! i = Some q -> DTAP_GetLcidNode q L = Some n -> r ∈ channelList n ->
  channels S !! r = Some c -> pktList c = p :: rest ->
  wp (schedule_round i L r) (S, (l, w)) (round_post i L k S l w n).
Proof.
  intros HS Hl Hcan Hk Hq Hn Hr Hc Hp. destruct (node_of _ _ _ _ _ _ (sv_store _ HS) Hq Hn) as (Hni&_&HnL).
  destruct (ni_chans _ _ _ Hni r Hr) as (c0&Hc0&HcL&Hcp). rewrite Hc in Hc0. injection Hc0 as <-.
  pose proof (ci_kind _ _ (si_chans _ _ (sv_store _ HS) r c Hc)) as Hkind.
  destruct r as [a|L'].
  - destruct Hk as [? ?]; [lia|]. eapply round_packet; try done. lia.
  - destruct Hkind as (E&_&Ep&_). unfold DTAP_PRIORITY_FRAGMENT in Ep.
    assert (i = 0%nat) as -> by lia. assert (L' = L) as -> by congruence. by eapply round_fragment.
Qed.

(** ** The loop over the packets of a link *)

(** Nothing waits on link [L] in queue [i]. *)
Definition link_idle S (i : nat) (L : Z) : Prop :=
  forall r c, channels S !! r = Some c -> c_lcid c = L -> c_priority c = Z.of_nat i -> pktList c = [].

Lemma idle_node S i q n L :
  sched_inv S -> g_dtapScheduler S !! i = Some q -> DTAP_GetLcidNode q L = Some n ->
  (forall r, r ∈ channelList n -> chan_pkts S r = []) -> link_idle S i L.
Proof.
  intros HS Hq Hn Hall r c Hc HcL Hcp.
  destruct (si_linked _ _ (sv_store _ HS) r c Hc) as [(q2&n2&Hq2&Hn2&Hr)|[? _]]; [|done].
  rewrite Hcp, Nat2Z.id, Hq in Hq2. injection Hq2 as <-. rewrite HcL, Hn in Hn2. injection Hn2 as <-.
  pose proof (Hall r Hr) as E. unfold chan_pkts in E. by rewrite Hc in E.
Qed.

Lemma idle_no_node S i q L :
  sched_inv S -> g_dtapScheduler S !! i = Some q -> DTAP_GetLcidNode q L = None -> link_idle S i L.
Proof.
  intros HS Hq Hn r c Hc HcL Hcp.
  destruct (si_linked _ _ (sv_store _ HS) r c Hc) as [(q2&n2&Hq2&Hn2&Hr)|[? _]]; [|done].
  rewrite Hcp, Nat2Z.id, Hq in Hq2. injection Hq2 as <-. rewrite HcL, Hn in Hn2. done.
Qed.

(** What was idle stays idle: channels only lose packets, but for those of fragments. *)
Lemma idle_kept S log t S' i L :
  sched_inv S -> sched_inv S' -> ran S log t S' -> (i = 0%nat -> frag_cnt S' L = frag_cnt S L) ->
  link_idle S i L -> link_idle S' i L.
Proof.
  intros HS HS' R Hf Hidle r c' Hc' HcL Hcp. pose proof (ci_kind _ _ (si_chans _ _ (sv_store _ HS') r c' Hc')) as Hk.
  destruct r as [a|L'].
  - pose proof (rn_chans _ _ _ _ R a) as Hsh. unfold shrunk in Hsh. rewrite Hc' in Hsh.
    destruct (channels S !! TransChan a) as [c|] eqn:Hc; [|done]. destruct Hsh as [E Hp].
    assert (c_lcid c = L /\ c_priority c = Z.of_nat i) as [??] by (rewrite E in HcL, Hcp; done).
    rewrite (Hidle _ _ Hc) in Hp by done. symmetry in Hp. by apply app_eq_nil in Hp as [_ ->].
  - destruct Hk as (E&_&Ep&_). unfold DTAP_PRIORITY_FRAGMENT in Ep. assert (L' = L) as -> by congruence.
    specialize (Hf ltac:(lia)). unfold frag_cnt, chan_pkts in Hf. rewrite Hc' in Hf.
    apply nil_length_inv. destruct (channels S !! FragChan L) as [c|] eqn:Hc; [|simpl in Hf; lia].
    assert (pktList c = []) as Ez; [|rewrite Ez in Hf; simpl in Hf; lia].
    destruct (ci_kind _ _ (si_chans _ _ (sv_store _ HS) _ c Hc)) as (?&_&Ep'&_). unfold DTAP_PRIORITY_FRAGMENT in Ep'.
    eapply Hidle; [exact Hc|done|lia].
Qed.

Lemma blocked_back S log t S' l l' :
  sched_inv S' -> ran S log t S' -> acbConfig l' = acbConfig l -> blocked l' S' -> blocked l S.
Proof.
  intros HS' R El (r&p&Hp&Hsp&Hn). unfold chan_pkts in Hp.
  destruct (channels S' !! r) as [c'|] eqn:Hc'; [|by apply not_elem_of_nil in Hp].
  destruct r as [a|L].
  2:{ pose proof (ci_pkts _ _ (si_chans _ _ (sv_store _ HS') _ c' Hc')) as Hok. rewrite Forall_forall in Hok.
      destruct (Hok p Hp) as [Hs _]. congruence. }
  pose proof (rn_chans _ _ _ _ R a) as Hsh. unfold shrunk in Hsh. rewrite Hc' in Hsh.
  destruct (channels S !! TransChan a) as [c|] eqn:Hc; [|done]. destruct Hsh as [_ E].
  exists (TransChan a), p. unfold chan_pkts. rewrite Hc, E. split_and!; [by apply elem_of_app; right|done|].
  unfold DLI_GetDataFragmentNums, DLI_DataLenGet in *. by rewrite <- El.
Qed.

Definition lcid_post (i : nat) (L k : Z) S l w (res : bool) (s' : state) : Prop :=
  exists log t, stretch S l w log t s'.1 s'.2.1 s'.2.2 /\ only_link L S s'.1 /\
    (i = 0%nat \/ (DTAP_CanSend S L = true -> frag_cnt S L = 0) -> clean t -> ordered l S log t s'.1) /\
    ((0 < i)%nat -> DTAP_CanSend s'.1 L = true ->
       frag_cnt s'.1 L <= 128 * (k + 1) /\ (clean t -> frag_cnt s'.1 L = frag_cnt S L)) /\
    (res = true -> i = 0%nat \/ clean t -> DTAP_CanSend s'.1 L = true -> link_idle s'.1 i L) /\
    (res = false -> clean t -> blocked l S).

Lemma loop_stops i L k S l w (res : bool) :
  sched_inv S -> layer_ok l -> ((0 < i)%nat -> 0 <= k /\ (DTAP_CanSend S L = true -> frag_cnt S L <= 128 * k)) ->
  (res = true) -> (DTAP_CanSend S L = true -> link_idle S i L) -> lcid_post i L k S l w res (S, (l, w)).
Proof.
  intros HS Hl Hk -> Hidle. exists [], []. cbn [fst snd]. split; [by apply stretch_refl|]. split; [done|].
  split; [|split; [|by split]].
  - intros _ _ L'. unfold on_link. cbn. by rewrite app_nil_r.
  - intros Hi Hcan. destruct (Hk Hi) as [? Hb]. specialize (Hb Hcan). split; [lia|done].
Qed.

Lemma loop_spec i L k fuel : forall S l w q n,
  sched_inv S -> layer_ok l -> g_dtapScheduler S !! i = Some q -> DTAP_GetLcidNode q L = Some n ->
  ln_pktCnt n < Z.of_nat fuel -> ((0 < i)%nat -> 0 <= k <= 2 /\ (DTAP_CanSend S L = true -> frag_cnt S L <= 128 * k)) ->
  wp (schedule_loop fuel i L) (S, (l, w)) (lcid_post i L k S l w).
Proof.
  induction fuel as [|fuel IH]; intros S l w q n HS Hl Hq Hn Hfuel Hk.
  { pose proof (node_count _ _ _ _ _ _ (sv_store _ HS) Hq Hn). lia. }
  assert ((0 < i)%nat -> 0 <= k /\ (DTAP_CanSend S L = true -> frag_cnt S L <= 128 * k)) as Hk'.
  { intros Hi. destruct (Hk Hi). by split; [lia|]. }
  cbn [schedule_loop]. apply wp_bind, wp_sg. destruct (DTAP_CanSend S L) eqn:Hcan; cbn [negb].
  2:{ apply wp_ret, loop_stops; try done; rewrite Hcan; done. }
  apply wp_bind, (wp_peek i q L n); [done..| |].
  { intros Hall. apply wp_ret, loop_stops; try done; rewrite Hcan; [done|]. intros _. by eapply idle_node. }
  intros r c p rest Hr Hc Hp. apply wp_bind. eapply wp_mono.
  { apply (round_spec i L q n r c p rest S l w k); try done. intros Hi. destruct (Hk Hi). auto. }
  intros res [S1 [l1 w1]] (log1&t1&St1&Ho1&Hord1&Hres). cbn [fst snd] in *.
  destruct res as [| |b].
  - destruct Hres as [(q1&n1&Hq1&Hn1&Hcnt1) Hf1].
    eapply wp_mono; [apply (IH S1 l1 w1 q1 n1); try done; [apply St1|apply St1|lia|]|].
    { intros Hi. destruct (Hk Hi) as [Hk2 Hb]. split; [done|]. intros Hcan1. rewrite Hf1 by done. auto. }
    intros res [S2 [l2 w2]] (log2&t2&St2&Ho2&Hord2&Hfr2&Hid2&Hbl2). cbn [fst snd] in *.
    exists (log1 ++ log2), (t1 ++ t2). cbn [fst snd]. split; [exact (stretch_trans _ _ _ _ _ _ _ _ _ _ _ _ _ St1 St2)|].
    split; [by eapply only_link_trans|]. split; [|split; [|split]].
    + intros Hz [Ct1 Ct2]%clean_app. eapply ordered_trans; [apply Hord1; [|done]; destruct Hz; auto|].
      eapply ordered_layer; [apply St1|]. apply Hord2; [|done]. destruct (decide (i = 0%nat)) as [|Hi]; [by left|right].
      intros _. rewrite Hf1 by lia. destruct Hz; [lia|auto].
    + intros Hi Hcan2. destruct (Hfr2 Hi Hcan2) as [? Hc2]. split; [done|]. intros [_ Ct2]%clean_app.
      rewrite Hc2 by done. auto.
    + intros Hr2 Hc2. apply Hid2; [done|]. destruct Hc2 as [?|[_ ?]%clean_app]; auto.
    + intros Hr2 [_ Ct2]%clean_app. eapply blocked_back; [apply St1|apply St1|apply St1|]. auto.
  - apply wp_ret. destruct Hres as (Hi&Hstop&Hfr). exists log1, t1. cbn [fst snd]. split; [done|]. split; [done|].
    split; [|split; [|split; [|done]]].
    + intros Hz Ct. apply Hord1; [|done]. destruct Hz; auto.
    + intros _ Hcan1. split; [done|]. intros Ct. rewrite Hstop in Hcan1 by done. done.
    + intros _ [?|Ct] Hcan1; [lia|]. rewrite Hstop in Hcan1 by done. done.
  - apply wp_ret. destruct Hres as (->&Hbl&Hfr). exists log1, t1. cbn [fst snd]. split; [done|]. split; [done|].
    split; [|split; [|done]].
    + intros Hz Ct. apply Hord1; [|done]. destruct Hz; auto.
    + intros Hi Hcan1. destruct (Hk Hi) as [? Hb]. rewrite Hfr by done. specialize (Hb eq_refl). split; [lia|done].
Qed.

Lemma concat_len {A B} (f : A -> list B) (xs : list A) :
  zlen (concat (map f xs)) = zsum (fun x => zlen (f x)) xs.
Proof. induction xs as [|x xs IH]; [done|]. cbn [map concat]. rewrite zsum_cons, length_app, <- IH. lia. Qed.

(** A link and queue: the number of packets bounds the rounds. *)
Lemma schedule_lcid_spec i L k S l w q n :
  sched_inv S -> layer_ok l -> g_dtapScheduler S !! i = Some q -> DTAP_GetLcidNode q L = Some n ->
  ((0 < i)%nat -> 0 <= k <= 2 /\ (DTAP_CanSend S L = true -> frag_cnt S L <= 128 * k)) ->
  wp (DTAP_ScheduleLcid i L) (S, (l, w)) (lcid_post i L k S l w).
Proof.
  intros HS Hl Hq Hn Hk. unfold DTAP_ScheduleLcid. apply wp_bind, (wp_get_lnode _ q _ n); [done..|].
  apply wp_bind, wp_sg. eapply loop_spec; try done.
  destruct (node_of _ _ _ _ _ _ (sv_store _ HS) Hq Hn) as (Hni&_&_).
  rewrite (ni_cnt _ _ _ Hni). pose proof (concat_len (chan_pkts S) (channelList n)) as E.
  change (zsum (fun r => zlen (pkts_of (channels S) r)) (channelList n)) with (zsum (fun r => zlen (chan_pkts S r)) (channelList n)).
  rewrite <- E. lia.
Qed.

(** ** The loops over the links of a queue *)

(** A change of order and flags of a queue's nodes only. *)
Lemma reorder_nodes S i q ls l w :
  sched_inv S -> layer_ok l -> g_dtapScheduler S !! i = Some q -> same_nodes (lcidList q) ls ->
  let S' := put (<[i := q <| lcidList := ls |>]> (g_dtapScheduler S)) (channels S) (g_lcidBufferList S) S in
  stretch S l w [] [] S' l w.
Proof.
  intros HS Hl Hq Hls S'. constructor; try done; [by rewrite app_nil_r| |].
  - destruct HS as [G1 G2 G3 G4]. constructor; try done. by apply store_flags.
  - apply ran_store; try done; [by apply bufs_ran_refl| |intros; apply shrunk_refl|by intros e ?%not_elem_of_nil].
    eapply has_node_insert; [done|done|exact Hq|]. intros L n Hn.
    destruct (same_nodes_find _ ls L n (qi_nodup _ _ _ (si_queues _ _ (sv_store _ HS) _ _ Hq)) Hls Hn) as (n'&Hn'&_).
    unfold DTAP_GetLcidNode. cbn. by rewrite Hn'.
Qed.

Lemma flag_same L ls n :
  find_first (is_lnode L) ls = Some n -> same_nodes ls (set_node (n <| hasScheduled := true |>) ls).
Proof.
  intros Hn. destruct (find_first_split _ _ _ Hn) as (l1&l2&E&H1&H2). apply is_lnode_spec in H2 as HnL.
  unfold same_nodes, set_node. cbn. rewrite HnL, E, update_first_split by done. by rewrite !map_app.
Qed.

Definition links_post (i : nat) (Ls : list Z) (k : Z) S l w (res : bool) (s' : state) : Prop :=
  exists log t, stretch S l w log t s'.1 s'.2.1 s'.2.2 /\
    (forall L, L ∉ Ls -> frag_cnt s'.1 L = frag_cnt S L) /\
    (i = 0%nat \/ (forall L, DTAP_CanSend S L = true -> frag_cnt S L = 0) -> clean t -> ordered l S log t s'.1) /\
    ((0 < i)%nat -> forall L, L ∈ Ls -> DTAP_CanSend s'.1 L = true ->
       frag_cnt s'.1 L <= 128 * (k + 1) /\ (clean t -> frag_cnt s'.1 L = frag_cnt S L)) /\
    (res = true -> i = 0%nat \/ clean t -> forall L, L ∈ Ls -> DTAP_CanSend s'.1 L = true -> link_idle s'.1 i L) /\
    (res = false -> clean t -> blocked l S).

Definition room (k : Z) S : Prop := forall L, DTAP_CanSend S L = true -> frag_cnt S L <= 128 * k.

Lemma ordered_refl l S : ordered l S [] [] S.
Proof. intros L. unfold on_link. cbn. by rewrite app_nil_r. Qed.

Lemma links_skip i L Ls k S l w res s' :
  DTAP_CanSend S L = false -> links_post i Ls k S l w res s' -> links_post i (L :: Ls) k S l w res s'.
Proof.
  intros Hcan (log&t&St&Hf&Ho&Hfr&Hid&Hbl). exists log, t. split; [done|].
  assert (DTAP_CanSend s'.1 L = true -> False) as Hno.
  { intros E. pose proof (ran_can_send _ _ _ _ _ (st_ran _ _ _ _ _ _ _ _ St) E). congruence. }
  split; [intros L' [_ ?]%not_elem_of_cons; auto|]. split; [done|]. split; [|split; [|done]].
  - intros Hi L' [->|HL]%elem_of_cons Hc; [done|auto].
  - intros Hr Hc L' [->|HL]%elem_of_cons Hc'; [done|auto].
Qed.

(** The first link's post-condition makes the list's, when its scheduling fails ... *)
Lemma links_stop i L Ls k S l w s' :
  L ∉ Ls -> ((0 < i)%nat -> 0 <= k /\ forall L', L' ∈ Ls -> DTAP_CanSend S L' = true -> frag_cnt S L' <= 128 * k) ->
  lcid_post i L k S l w false s' -> links_post i (L :: Ls) k S l w false s'.
Proof.
  destruct s' as [S1 [l1 w1]]. intros HL Hk (log1&t1&St1&Ho1&Hord1&Hfr1&_&Hbl1). cbn [fst snd] in *.
  assert (forall L', L' <> L -> frag_cnt S1 L' = frag_cnt S L') as Hother.
  { intros L' HL'. unfold frag_cnt. by rewrite Ho1. }
  exists log1, t1. cbn [fst snd]. split; [done|]. split; [intros L' [? _]%not_elem_of_cons; auto|].
  split; [|split; [|split; [done|]]].
  - intros Hz Ct. apply Hord1; [|done]. destruct Hz as [?|Hz]; [by left|right; intros; by apply Hz].
  - intros Hi L' [->|HL']%elem_of_cons Hc; [by apply Hfr1|]. assert (L' <> L) by (by intros ->).
    rewrite Hother by done. destruct (Hk Hi) as [? Hb]. split; [|done].
    assert (DTAP_CanSend S L' = true) as Hc0 by (exact (ran_can_send _ _ _ _ _ (st_ran _ _ _ _ _ _ _ _ St1) Hc)).
    specialize (Hb L' HL' Hc0). lia.
  - intros _ Ct. by apply Hbl1.
Qed.

(** ... and together with that of the other links when it succeeds. *)
Lemma links_cons i L Ls k S l w s1 res s2 :
  L ∉ Ls -> lcid_post i L k S l w true s1 -> links_post i Ls k s1.1 s1.2.1 s1.2.2 res s2 ->
  links_post i (L :: Ls) k S l w res s2.
Proof.
  destruct s1 as [S1 [l1 w1]], s2 as [S2 [l2 w2]].
  intros HL (log1&t1&St1&Ho1&Hord1&Hfr1&Hid1&Hbl1) (log2&t2&St2&Hf2&Hord2&Hfr2&Hid2&Hbl2). cbn [fst snd] in *.
  pose proof (st_ran _ _ _ _ _ _ _ _ St2) as R2. pose proof (st_ran _ _ _ _ _ _ _ _ St1) as R1.
  assert (forall L', L' <> L -> frag_cnt S1 L' = frag_cnt S L') as Hother.
  { intros L' HL'. unfold frag_cnt. by rewrite Ho1. }
  exists (log1 ++ log2), (t1 ++ t2). cbn [fst snd]. split; [exact (stretch_trans _ _ _ _ _ _ _ _ _ _ _ _ _ St1 St2)|].
  split; [|split; [|split; [|split]]].
  - intros L' [HL1 HL2]%not_elem_of_cons. rewrite Hf2 by done. auto.
  - intros Hz [Ct1 Ct2]%clean_app. eapply ordered_trans.
    + apply Hord1; [|done]. destruct Hz as [?|Hz]; [by left|right; intros; by apply Hz].
    + eapply ordered_layer; [apply St1|]. apply Hord2; [|done]. destruct (decide (i = 0%nat)) as [|Hi]; [by left|right].
      destruct Hz as [|Hz]; [done|]. intros L' Hc. pose proof (ran_can_send _ _ _ _ _ R1 Hc) as Hc0.
      destruct (decide (L' = L)) as [->|Hne]; [|rewrite Hother by done; auto].
      destruct (Hfr1 ltac:(lia) Hc) as [_ E]. rewrite E by done. by apply Hz.
  - intros Hi L' HL' Hc. destruct (decide (L' = L)) as [->|Hne].
    + pose proof (ran_can_send _ _ _ _ _ R2 Hc) as Hc1. rewrite Hf2 by done. destruct (Hfr1 Hi Hc1) as [? E].
      split; [done|]. intros [Ct1 _]%clean_app. by apply E.
    + apply elem_of_cons in HL' as [?|HL']; [done|]. destruct (Hfr2 Hi L' HL' Hc) as [? E]. split; [done|].
      intros [_ Ct2]%clean_app. rewrite E by done. auto.
  - intros Hr Hc L' HL' Hcs'. assert (i = 0%nat \/ clean t1 /\ clean t2) as Hc2 by (destruct Hc as [?|?%clean_app]; auto).
    destruct (decide (L' = L)) as [->|Hne].
    + pose proof (ran_can_send _ _ _ _ _ R2 Hcs') as Hc1.
      eapply idle_kept; [apply St1|apply St2|exact R2|intros _; by apply Hf2|]. apply Hid1; [done|naive_solver|done].
    + apply elem_of_cons in HL' as [?|HL']; [done|]. apply Hid2; [done|naive_solver|done|done].
  - intros Hr [_ Ct2]%clean_app. eapply blocked_back; [apply St1|exact R1|apply St1|]. auto.
Qed.

(** The flag of the node makes no difference. *)
Lemma flagged_post i L k S S0 l w res s' :
  stretch S l w [] [] S0 l w -> channels S0 = channels S -> g_lcidBufferList S0 = g_lcidBufferList S ->
  lcid_post i L k S0 l w res s' -> lcid_post i L k S l w res s'.
Proof.
  intros St0 Ec Eb (log&t&St&Ho&Hord&Hfr&Hid&Hbl).
  assert (forall L', chan_pkts S0 L' = chan_pkts S L') as Hch by (intros L'; unfold chan_pkts; by rewrite Ec).
  assert (forall L', frag_cnt S0 L' = frag_cnt S L') as Hfc by (intros L'; unfold frag_cnt; by rewrite Hch).
  assert (DTAP_CanSend S0 L = DTAP_CanSend S L) as Hcs.
  { pose proof (st_ran _ _ _ _ _ _ _ _ St0) as R. unfold DTAP_CanSend, DTAP_GetLcidBufferNode.
    rewrite Eb, (rn_ap _ _ _ _ R), (rn_g _ _ _ _ R). cbn. by rewrite Z.add_0_r. }
  exists log, t. split; [exact (stretch_trans _ _ _ _ _ _ _ _ _ _ _ _ _ St0 St)|].
  split; [intros L' HL'; rewrite Ho by done; apply Hch|].
  split; [|split; [|split; [done|]]].
  - intros Hz Ct L'. rewrite Hcs, Hfc in Hord. rewrite (Hord Hz Ct L'). unfold left_over. by rewrite Hch.
  - intros Hi Hc. rewrite Hfc in Hfr. auto.
  - intros Hr Ct. destruct (Hbl Hr Ct) as (r&p&Hp&?&?). exists r, p. by rewrite <- Hch.
Qed.

Lemma links_spec i k Ls : forall S l w,
  sched_inv S -> layer_ok l -> NoDup Ls -> (forall L, L ∈ Ls -> has_node S i L) ->
  ((0 < i)%nat -> 0 <= k <= 2 /\ forall L, L ∈ Ls -> DTAP_CanSend S L = true -> frag_cnt S L <= 128 * k) ->
  wp (schedule_links i Ls) (S, (l, w)) (links_post i Ls k S l w).
Proof.
  induction Ls as [|L Ls IH]; intros S l w HS Hl Hnd Hnode Hk; cbn [schedule_links].
  { apply wp_ret. exists [], []. cbn [fst snd]. split; [by apply stretch_refl|]. split; [done|].
    split; [intros _ _; apply ordered_refl|]. split; [by intros _ ? ?%not_elem_of_nil|].
    split; [by intros _ _ ? ?%not_elem_of_nil|done]. }
  apply NoDup_cons in Hnd as [HL Hnd].
  assert ((0 < i)%nat -> 0 <= k <= 2 /\ forall L', L' ∈ Ls -> DTAP_CanSend S L' = true -> frag_cnt S L' <= 128 * k) as Hk'.
  { intros Hi. destruct (Hk Hi). split; [done|]. intros L' HL'. apply H1. by constructor. }
  apply wp_bind, wp_sg. destruct (DTAP_CanSend S L) eqn:Hcan; cbn [negb].
  2:{ eapply wp_mono; [apply IH; try done; intros L' HL'; apply Hnode; by constructor|].
      intros res s'. by apply links_skip. }
  destruct (Hnode L ltac:(by constructor)) as (q&Hq&n&Hn).
  rewrite <- (put_self S) at 1. apply wp_bind. eapply wp_put_lnode; [exact Hq|exact Hn|by destruct (find_lnode_lcid _ _ _ Hn)|].
  set (S0 := put _ _ _ S).
  assert (stretch S l w [] [] S0 l w) as St0 by (by eapply reorder_nodes, flag_same).
  destruct (rn_nodes _ _ _ _ (st_ran _ _ _ _ _ _ _ _ St0) i L (Hnode L ltac:(by constructor))) as (q0&Hq0&n0&Hn0).
  apply wp_bind. eapply wp_mono.
  { apply (schedule_lcid_spec i L k S0 l w q0 n0); try done; [apply St0|]. intros Hi. destruct (Hk Hi) as [? Hb]. split; [done|].
    apply (Hb L). constructor. }
  intros res [S1 [l1 w1]] Hpost%(flagged_post _ _ _ S); [|done..]. destruct res; cbn [negb].
  2:{ apply wp_ret, links_stop; [done| |done]. intros Hi. destruct (Hk' Hi). by split; [lia|]. }
  pose proof Hpost as (log1&t1&St1&Ho1&_). cbn [fst snd] in *.
  pose proof (st_ran _ _ _ _ _ _ _ _ St1) as R1.
  eapply wp_mono; [apply (IH S1 l1 w1); try done; [apply St1|apply St1| |]|].
  - intros L' HL'. apply (rn_nodes _ _ _ _ R1), Hnode. by constructor.
  - intros Hi. destruct (Hk' Hi) as [? Hb]. split; [done|]. intros L' HL' Hc. unfold frag_cnt. rewrite Ho1 by (by intros ->).
    exact (Hb L' HL' (ran_can_send _ _ _ _ _ R1 Hc)).
  - intros res s'. exact (links_cons i L Ls k S l w (S1, (l1, w1)) res s' HL Hpost).
Qed.

(** ** Queues *)
Lemma rotate_step_same (ns ls : list DTAP_LcidNode) L : same_nodes ns ls -> same_nodes ns (rotate_step ls L).
Proof.
  intros Hs. unfold rotate_step. destruct (find_first (is_lnode L) ls) as [n|] eqn:Hn; [|done].
  destruct (hasScheduled n); cbn [negb]; [|done].
  destruct (find_first_split _ _ _ Hn) as (l1&l2&->&H1&H2). rewrite remove_first_split by done.
  unfold same_nodes in *. rewrite Hs. rewrite !map_app. cbn [map].
  change (unflag (n <| hasScheduled := false |>)) with (unflag n). solve_Permutation.
Qed.

Lemma rotate_same ls : same_nodes ls (rotate ls).
Proof.
  unfold rotate. assert (forall Ls ns, same_nodes ls ns -> same_nodes ls (fold_left rotate_step Ls ns)) as Hf.
  { induction Ls as [|L Ls IH]; intros ns Hns; [done|]. by apply IH, rotate_step_same. }
  by apply Hf.
Qed.

(** A queue that has been gone through, or had nothing to send. *)
Definition queue_post (i : nat) (k : Z) S l w (res : bool) (s' : state) : Prop :=
  exists log t, stretch S l w log t s'.1 s'.2.1 s'.2.2 /\
    (i = 0%nat \/ room 0 S -> clean t -> ordered l S log t s'.1) /\
    ((0 < i)%nat -> room (k + 1) s'.1 /\ (room 0 S -> clean t -> room 0 s'.1)) /\
    (res = true -> i = 0%nat \/ clean t -> forall L, DTAP_CanSend s'.1 L = true -> link_idle s'.1 i L) /\
    (res = false -> clean t -> blocked l S).

Lemma room0 S L : room 0 S -> DTAP_CanSend S L = true -> frag_cnt S L = 0.
Proof. intros Hr Hc. specialize (Hr L Hc). unfold frag_cnt in *. lia. Qed.

Lemma priority_spec i k S l w :
  sched_inv S -> layer_ok l -> (i < 4)%nat -> ((0 < i)%nat -> 0 <= k <= 2 /\ room k S) ->
  wp (DTAP_SchedulePriority i) (S, (l, w)) (queue_post i k S l w).
Proof.
  intros HS Hl Hi4 Hk. destruct (lookup_lt_is_Some_2 (g_dtapScheduler S) i) as [q Hq].
  { by rewrite (si_len _ _ (sv_store _ HS)). }
  pose proof (si_queues _ _ (sv_store _ HS) _ _ Hq) as Hqi.
  unfold DTAP_SchedulePriority. apply wp_bind, (wp_get_queue _ q); [done|]. apply wp_bind. eapply wp_mono.
  { apply (links_spec i k); [done|done|apply Hqi| |].
    - intros L (n&->&Hn)%list_elem_of_fmap. exists q. split; [done|]. exists n. by apply find_lnode_elem; [apply Hqi|].
    - intros Hi. destruct (Hk Hi) as [? Hr]. split; [done|]. intros L _. apply Hr. }
  intros res [S1 [l1 w1]] (log&t&St1&Hf&Hord&Hfr&Hid&Hbl). cbn [fst snd] in *.
  destruct (lookup_lt_is_Some_2 (g_dtapScheduler S1) i) as [q1 Hq1].
  { by rewrite (si_len _ _ (sv_store _ (st_inv _ _ _ _ _ _ _ _ St1))). }
  rewrite <- (put_self S1). apply wp_bind. eapply wp_put_queue; [done|]. apply wp_ret.
  set (S2 := put _ _ _ S1).
  assert (stretch S1 l1 w1 [] [] S2 l1 w1) as St2 by (apply reorder_nodes; [apply St1|apply St1|done|apply rotate_same]).
  assert (forall L, DTAP_CanSend S2 L = DTAP_CanSend S1 L) as Hcs by done.
  assert (forall L, frag_cnt S2 L = frag_cnt S1 L) as Hfc by done.
  exists log, t. cbn [fst snd]. pose proof (stretch_trans _ _ _ _ _ _ _ _ _ _ _ _ _ St1 St2) as St.
  rewrite !app_nil_r in St. split; [done|].
  assert (forall L, L ∉ map ln_lcid (lcidList q) -> link_idle S i L) as Hno.
  { intros L HL. eapply idle_no_node; [done|done|]. by apply find_lnode_None. }
  split; [|split; [|split; [|done]]].
  - intros Hz Ct. apply (Hord ltac:(destruct Hz as [?|Hz]; [by left|right; intros; by apply room0]) Ct).
  - intros Hi. destruct (Hk Hi) as [? Hr]. split.
    + intros L Hc. rewrite Hfc. destruct (decide (L ∈ map ln_lcid (lcidList q))) as [HL|HL]; [by apply Hfr|].
      rewrite Hf by done. specialize (Hr L (ran_can_send _ _ _ _ _ (st_ran _ _ _ _ _ _ _ _ St1) Hc)). lia.
    + intros Hr0 Ct L Hc. rewrite Hfc. pose proof (ran_can_send _ _ _ _ _ (st_ran _ _ _ _ _ _ _ _ St1) Hc) as Hc0.
      destruct (decide (L ∈ map ln_lcid (lcidList q))) as [HL|HL]; [|rewrite Hf by done; by apply Hr0].
      destruct (Hfr Hi L HL Hc) as [_ E]. rewrite E by done. by apply Hr0.
  - intros Hr Hc L Hcan. change (link_idle S1 i L). destruct (decide (L ∈ map ln_lcid (lcidList q))) as [HL|HL]; [by apply Hid|].
    eapply idle_kept; [done|apply St1|apply St1|intros _; by apply Hf|]. by apply Hno.
Qed.

(** ** The run *)
Lemma idle0_frags S L : sched_inv S -> link_idle S 0 L -> frag_cnt S L = 0.
Proof.
  intros HS Hidle. unfold frag_cnt, chan_pkts. destruct (channels S !! FragChan L) as [c|] eqn:Hc; [|done].
  destruct (ci_kind _ _ (si_chans _ _ (sv_store _ HS) _ c Hc)) as (?&_&Ep&_).
  by rewrite (Hidle _ c Hc) by done.
Qed.

Lemma empty_idle S i q L :
  sched_inv S -> g_dtapScheduler S !! i = Some q -> q_pktCnt q = 0 -> link_idle S i L.
Proof.
  intros HS Hq Hz. destruct (DTAP_GetLcidNode q L) as [n|] eqn:Hn; [|by eapply idle_no_node].
  pose proof (node_count _ _ _ _ _ _ (sv_store _ HS) Hq Hn) as Hc.
  destruct (node_of _ _ _ _ _ _ (sv_store _ HS) Hq Hn) as (Hni&_&_).
  eapply idle_node; [done|done|exact Hn|]. intros r Hr.
  assert (zlen (pkts_of (channels S) r) <= ln_pktCnt n) as Hle.
  { rewrite (ni_cnt _ _ _ Hni). apply (zsum_elem (fun r => zlen (pkts_of (channels S) r))); [intros; lia|done]. }
  apply nil_length_inv. change (chan_pkts S r) with (pkts_of (channels S) r). lia.
Qed.

(** Whoever can send has sent all he has. *)
Definition conserving S : Prop :=
  forall i L, (i < 4)%nat -> DTAP_CanSend S L = true -> link_idle S i L.

(** Before queue [j], when [A] says that nothing has failed so far. *)
Definition reached (j : nat) (A : Prop) S : Prop :=
  ((0 < j)%nat -> room (Z.of_nat j - 1) S /\ (A -> room 0 S)) /\
  (A -> forall i L, (i < j)%nat -> DTAP_CanSend S L = true -> link_idle S i L).

Lemma reached_next j A S l w log t S' l' w' :
  sched_inv S -> reached j A S -> stretch S l w log t S' l' w' ->
  ((0 < j)%nat -> room (Z.of_nat j) S' /\ (room 0 S -> clean t -> room 0 S')) ->
  (j = 0%nat \/ clean t -> forall L, DTAP_CanSend S' L = true -> link_idle S' j L) ->
  reached (Datatypes.S j) (A /\ clean t) S'.
Proof.
  intros HS [Hr Hidle] St Hroom Hnow. pose proof (st_ran _ _ _ _ _ _ _ _ St) as R.
  assert (j = 0%nat -> room 0 S') as H0.
  { intros -> L Hc. rewrite idle0_frags; [lia|apply St|]. by apply Hnow; [left|]. }
  assert (A /\ clean t -> room 0 S') as Hr0.
  { intros [HA Ct]. destruct (decide (j = 0%nat)) as [|Hj]; [auto|]. apply Hroom; [lia|apply Hr; [lia|done]|done]. }
  split.
  - intros _. split; [|done]. replace (Z.of_nat (Datatypes.S j) - 1) with (Z.of_nat j) by lia.
    destruct (decide (j = 0%nat)) as [->|Hj]; [by apply H0|apply Hroom; lia].
  - intros [HA Ct] i L Hi Hc. destruct (decide (i = j)) as [->|Hij]; [by apply Hnow; [right|]|].
    pose proof (ran_can_send _ _ _ _ _ R Hc) as Hc0.
    eapply idle_kept; [exact HS|apply St|exact R| |apply Hidle; [done|lia|done]].
    intros _. rewrite (room0 S'), (room0 S); [done| |done|by apply Hr0|done]. apply Hr; [lia|done].
Qed.

Definition run_post (A : Prop) S l w (_ : unit) (s' : state) : Prop :=
  exists log t, stretch S l w log t s'.1 s'.2.1 s'.2.2 /\ (A -> clean t -> ordered l S log t s'.1) /\
    (A -> clean t -> ~ blocked l S -> conserving s'.1).

Lemma run_from m : forall j A S l w,
  (j + m = 4)%nat -> sched_inv S -> layer_ok l -> reached j A S ->
  wp (run_queues (seq j m)) (S, (l, w)) (run_post A S l w).
Proof.
  induction m as [|m IH]; intros j A S l w Hj HS Hl Hre; cbn [seq run_queues].
  { apply wp_ret. exists [], []. cbn [fst snd]. split; [by apply stretch_refl|]. split; [intros; apply ordered_refl|].
    intros HA _ _ i L Hi Hc. apply Hre; [done|lia|done]. }
  destruct (lookup_lt_is_Some_2 (g_dtapScheduler S) j) as [q Hq].
  { rewrite (si_len _ _ (sv_store _ HS)). lia. }
  apply wp_bind, (wp_get_queue _ q); [done|]. apply wp_bind, wp_sg.
  destruct (g_apBufferNum S <=? g_sendNotAckPktCnt S) eqn:Hfull.
  { apply wp_ret. exists [], []. cbn [fst snd]. split; [by apply stretch_refl|]. split; [intros; apply ordered_refl|].
    intros HA _ _ i L Hi Hc. unfold DTAP_CanSend in Hc. rewrite Hfull in Hc. by destruct (DTAP_GetLcidBufferNode L S). }
  destruct (Z.eqb_spec (q_pktCnt q) 0) as [Hz|Hnz].
  { eapply wp_mono; [apply (IH (Datatypes.S j) (A /\ clean []) S l w); [lia|done|done|]|].
    - apply (reached_next j A S l w [] [] S l w); [done|done|by apply stretch_refl| |].
      + intros Hpos. split; [|done]. intros L Hc. destruct Hre as [Hr _]. destruct (Hr Hpos) as [Hr1 _]. specialize (Hr1 L Hc). lia.
      + intros _ L _. by eapply empty_idle.
    - intros [] s' (log&t&St&Ho&Hc). exists log, t. split; [done|]. split; intros; [apply Ho|apply Hc]; try done; by split; [|constructor]. }
  apply wp_bind. eapply wp_mono.
  { apply (priority_spec j (Z.of_nat j - 1)); [done|done|lia|]. intros Hpos. split; [lia|]. by apply Hre. }
  intros res [S1 [l1 w1]] (log1&t1&St1&Hord1&Hroom1&Hid1&Hbl1). cbn [fst snd] in *.
  assert (A -> j = 0%nat \/ room 0 S) as Hz.
  { intros HA. destruct (decide (j = 0%nat)) as [|Hj0]; [by left|right]. apply Hre; [lia|done]. }
  destruct res; cbn [negb].
  2:{ apply wp_ret. exists log1, t1. cbn [fst snd]. split; [done|]. split; [intros HA Ct; apply Hord1; auto|].
      intros HA Ct Hnb. by destruct Hnb; apply Hbl1. }
  eapply wp_mono; [apply (IH (Datatypes.S j) (A /\ clean t1) S1 l1 w1); [lia|apply St1|apply St1|]|].
  - apply (reached_next j A S l w log1 t1 S1 l1 w1); [exact HS|done|exact St1| |].
    + intros Hpos. destruct (Hroom1 Hpos) as [Hr Hr0]. split; [|done].
      by replace (Z.of_nat j) with (Z.of_nat j - 1 + 1) by lia.
    + intros Hc. by apply Hid1.
  - intros [] [S2 [l2 w2]] (log2&t2&St2&Hord2&Hcons2). cbn [fst snd] in *. exists (log1 ++ log2), (t1 ++ t2). cbn [fst snd].
    split; [exact (stretch_trans _ _ _ _ _ _ _ _ _ _ _ _ _ St1 St2)|]. split.
    + intros HA [Ct1 Ct2]%clean_app. eapply ordered_trans; [apply Hord1; auto|]. eapply ordered_layer; [apply St1|]. by apply Hord2.
    + intros HA [Ct1 Ct2]%clean_app Hnb. apply Hcons2; [done|done|]. intros Hb. apply Hnb.
      eapply blocked_back; [apply St1|apply St1|apply St1|done].
Qed.

Lemma run_spec S l w :
  sched_inv S -> layer_ok l -> wp DTAP_SchedulerRun (S, (l, w)) (run_post True S l w).
Proof.
  intros HS Hl. unfold DTAP_SchedulerRun, queue_indices. apply (run_from 4 0); [done..|]. split; [lia|].
  intros _ i L Hi. lia.
Qed.
End loops.
