(* ===== verification/DtapSchedDown.v ===== *)
(** * The packet scheduler: channels and the scheduler itself go

    [DTAP_ChannelDown], [DTAP_DestroyLcidNode] and the switching on and off of
    [DtapScheduler]: what they leave of the store and its invariant. *)
From S2P Require Import Prelude SdfErrno SdfBuff DtapEnv DliLayer DliData DtapTrans DtapQuota DtapScheduler DtapSchedStore DtapSchedRun.

Implicit Types (n : DTAP_LcidNode) (q : DTAP_PriorityQueue) (c : SchedChannel) (r : chan_ref)
  (qs : list DTAP_PriorityQueue) (h : gmap chan_ref SchedChannel).

(** ** The store, as channels leave *)
Definition set_wiped r c h : gmap chan_ref SchedChannel :=
  match wiped c with Some c' => <[r := c']> h | None => delete r h end.

Lemma set_wiped_eq r c h : set_wiped r c h !! r = wiped c.
Proof. unfold set_wiped. destruct (wiped c); [apply lookup_insert_eq|apply lookup_delete_eq]. Qed.
Lemma set_wiped_ne r c h r' : r <> r' -> set_wiped r c h !! r' = h !! r'.
Proof. intros. unfold set_wiped. destruct (wiped c); [by apply lookup_insert_ne|by apply lookup_delete_ne]. Qed.

Lemma node_inv_agree h h' i n :
  (forall r, r ∈ channelList n -> h' !! r = h !! r) -> node_inv h i n -> node_inv h' i n.
Proof.
  intros Hh [G1 G2 G3 G4]. constructor; [done|done| |].
  - intros r Hr. unfold member. rewrite Hh by done. by apply G3.
  - rewrite G4. apply zsum_ext. intros r Hr. unfold pkts_of. by rewrite Hh.
Qed.

(** A node without one of its channels. *)
Definition drop_chan r (k : Z) n : DTAP_LcidNode :=
  n <| channelList ::= remove_first (fun x => bool_decide (x = r)) |> <| ln_pktCnt := ln_pktCnt n - k |>.

Lemma node_drop h h' i n r c :
  node_inv h i n -> r ∈ channelList n -> h !! r = Some c -> (forall r', r <> r' -> h' !! r' = h !! r') ->
  r ∉ channelList (drop_chan r (zlen (pktList c)) n) /\ node_inv h' i (drop_chan r (zlen (pktList c)) n) /\
  forall x, x ∈ channelList n -> x <> r -> x ∈ channelList (drop_chan r (zlen (pktList c)) n).
Proof.
  intros [G1 G2 G3 G4] Hr Hc Hh. pose proof (remove_first_perm _ _ Hr) as Hp. unfold drop_chan. cbn.
  set (l' := remove_first _ _) in *. assert (r ∉ l' /\ NoDup l') as [Hn Hnd].
  { rewrite <- Hp in G2. apply NoDup_app in G2 as (?&Hd&_). split; [|done]. intros Hin. apply (Hd r Hin). by constructor. }
  split; [done|]. split.
  - constructor; cbn; [done|done| |].
    + intros x Hx. unfold member. rewrite Hh by (by intros ->). apply G3. rewrite <- Hp. apply elem_of_app. by left.
    + rewrite G4, <- (zsum_perm _ _ _ Hp), zsum_app, zsum_cons, zsum_nil, (pkts_of_Some _ _ c) by done.
      rewrite (zsum_ext (fun x => zlen (pkts_of h' x)) (fun x => zlen (pkts_of h x))).
      { fold l'. lia. }
      intros x Hx. unfold pkts_of. by rewrite Hh by (by intros ->).
  - intros x Hx Hne. rewrite <- Hp in Hx. apply elem_of_app in Hx as [?|Hx]; [done|].
    by apply list_elem_of_singleton in Hx.
Qed.

Lemma find_remove_ne L L' (l : list DTAP_LcidNode) :
  L' <> L -> find_first (is_lnode L') (remove_first (is_lnode L) l) = find_first (is_lnode L') l.
Proof.
  intros Hne. induction l as [|m l IH]; simpl; [done|]. unfold is_lnode in *.
  destruct (Z.eqb_spec (ln_lcid m) L), (Z.eqb_spec (ln_lcid m) L'); simpl; try congruence.
  - by destruct (Z.eqb_spec (ln_lcid m) L').
  - by destruct (Z.eqb_spec (ln_lcid m) L').
Qed.

Section store.
Context (qs : list DTAP_PriorityQueue) (h : gmap chan_ref SchedChannel) (i : nat) (q : DTAP_PriorityQueue)
  (L : Z) (n : DTAP_LcidNode).
Context (Hs : store_inv qs h) (Hq : qs !! i = Some q) (Hn : DTAP_GetLcidNode q L = Some n).

(** A channel is unlinked and loses its packets. *)
Lemma store_drop r c :
  r ∈ channelList n -> h !! r = Some c -> let k := zlen (pktList c) in
  store_inv (<[i := mk_queue (set_node (drop_chan r k n) (lcidList q)) (q_priority q) (q_pktCnt q - k)]> qs)
    (set_wiped r c h).
Proof using Hs Hq Hn.
  intros Hr Hc k. destruct (node_of _ _ _ _ _ _ Hs Hq Hn) as (Hni&Hnq&HnL).
  pose proof (si_queues _ _ Hs i q Hq) as Hqi. destruct (ni_chans _ _ _ Hni r Hr) as (c0&Hc0&HcL&Hcp).
  rewrite Hc in Hc0. injection Hc0 as <-.
  assert (forall r', r <> r' -> set_wiped r c h !! r' = h !! r') as Hne by apply set_wiped_ne.
  destruct (node_drop h (set_wiped r c h) i n r c Hni Hr Hc Hne) as (Hnin&Hni'&Hkeep). fold k in Hnin, Hni', Hkeep.
  set (n' := drop_chan r k n) in *. assert (DTAP_GetLcidNode q (ln_lcid n') = Some n) as Hn' by (change (ln_lcid n') with (ln_lcid n); by rewrite HnL).
  assert (forall m, m ∈ lcidList q -> ln_lcid m <> ln_lcid n' -> r ∉ channelList m) as Hoth.
  { intros m Hm Hml Hrm. destruct (ni_chans _ _ _ (qi_nodes _ _ _ Hqi m Hm) r Hrm) as (c2&Hc2&HL2&_).
    rewrite Hc in Hc2. injection Hc2 as <-. apply Hml. change (ln_lcid n') with (ln_lcid n). congruence. }
  apply (store_wipe qs h i q _ _ _ [r]); [done|done|..].
  - intros x ->%list_elem_of_singleton. by exists c.
  - intros x. destruct (decide (x ∈ [r])) as [Hx|Hx]; rewrite list_elem_of_singleton in Hx.
    + subst x. by rewrite set_wiped_eq, Hc.
    + by rewrite Hne.
  - rewrite set_node_lcids. apply Hqi.
  - intros m [->|[Hm Hml]]%elem_set_node; [done| |apply Hqi].
    eapply node_inv_agree; [|by apply Hqi]. intros x Hx. apply Hne. intros <-. by eapply Hoth.
  - rewrite (zsum_set_node _ _ _ n) by exact Hn'. rewrite (qi_cnt _ _ _ Hqi). unfold n', drop_chan. cbn. lia.
  - subst k. lia.
  - intros x cx m Hcx Hx Hpx Hm Hxm. destruct (decide (c_lcid cx = ln_lcid n')) as [E|E].
    + rewrite E in Hm |- *. rewrite Hn' in Hm. injection Hm as <-. exists n'. split; [by eapply find_set_node|].
      apply Hkeep; [done|]. intros ->. apply Hx. constructor.
    + exists m. by rewrite find_set_node_ne.
Qed.

(** A node without channels is removed. *)
Lemma store_drop_node :
  channelList n = [] -> store_inv (<[i := q <| lcidList ::= remove_first (is_lnode L) |>]> qs) h.
Proof using Hs Hq Hn.
  intros Hnil. destruct (node_of _ _ _ _ _ _ Hs Hq Hn) as (Hni&Hnq&HnL).
  pose proof (si_queues _ _ Hs i q Hq) as Hqi.
  assert (ln_pktCnt n = 0) as Hz by (by rewrite (ni_cnt _ _ _ Hni), Hnil).
  apply (store_wipe qs h i q _ (q_pktCnt q) _ []); [done|done|..].
  - by intros r ?%not_elem_of_nil.
  - done.
  - eapply sublist_NoDup; [apply Hqi|]. apply map_sub, remove_first_sub.
  - intros m Hm. apply Hqi. eapply elem_of_submseteq; [exact Hm|]. apply sublist_submseteq, remove_first_sub.
  - rewrite (zsum_remove_first _ _ _ n) by exact Hn. rewrite (qi_cnt _ _ _ Hqi). lia.
  - done.
  - intros r c m Hc _ Hp Hm Hr. exists m. split; [|done]. unfold DTAP_GetLcidNode in *.
    assert (c_lcid c <> L) as Hne. { intros E. rewrite E, Hn in Hm. injection Hm as <-. rewrite Hnil in Hr. by apply not_elem_of_nil in Hr. }
    by rewrite find_remove_ne.
Qed.
End store.

(** ** [DTAP_ChannelDown] *)

(** What is not part of the store stays. *)
Definition same_globals (S S' : Sched) : Prop :=
  g_sendNotAckPktCnt S' = g_sendNotAckPktCnt S /\ g_isInited S' = g_isInited S /\
  g_apBufferNum S' = g_apBufferNum S /\ g_pktSeq S' = g_pktSeq S.

Definition unlinked_from (i : nat) (S : Sched) r : Prop :=
  forall q n, g_dtapScheduler S !! i = Some q -> n ∈ lcidList q -> r ∉ channelList n.

Definition keyed (L tc : Z) c : Prop := c_lcid c = L /\ c_srcTcid c = tc.

(** Channels [L], [tc] have left queue [i]; they have lost their packets if they were
    in it. *)
Record downed (i : nat) (L tc : Z) (S S' : Sched) : Prop := {
  dn_inv : sched_inv S';
  dn_globals : same_globals S S';
  dn_queues : forall j, j <> i -> g_dtapScheduler S' !! j = g_dtapScheduler S !! j;
  dn_gone : forall r c, channels S !! r = Some c -> keyed L tc c -> unlinked_from i S' r;
  dn_chans : forall r, channels S' !! r = channels S !! r \/
    exists c, channels S !! r = Some c /\ c_priority c = Z.of_nat i /\ keyed L tc c /\ channels S' !! r = wiped c
}.

Section wp.
Context {W : Type} `{World W}.
Notation state := (Sched * (DLI_LayerInfo * W))%type.
Implicit Types (S : Sched) (x : DLI_LayerInfo * W).

Lemma unlinked_node S i q L n r c :
  sched_inv S -> g_dtapScheduler S !! i = Some q -> DTAP_GetLcidNode q L = Some n ->
  channels S !! r = Some c -> c_lcid c = L -> r ∉ channelList n -> unlinked_from i S r.
Proof.
  intros HS Hq Hn Hc HL Hr q2 m Hq2 Hm Hin. rewrite Hq in Hq2. injection Hq2 as <-.
  pose proof (si_queues _ _ (sv_store _ HS) i q Hq) as Hqi.
  destruct (ni_chans _ _ _ (qi_nodes _ _ _ Hqi m Hm) r Hin) as (c2&Hc2&HL2&_). rewrite Hc in Hc2. injection Hc2 as <-.
  pose proof (find_lnode_elem m _ (qi_nodup _ _ _ Hqi) Hm) as Hf. rewrite <- HL2, HL in Hf.
  unfold DTAP_GetLcidNode in Hn. rewrite Hn in Hf. by injection Hf as <-.
Qed.

Lemma unlinked_no_node S i q L r c :
  sched_inv S -> g_dtapScheduler S !! i = Some q -> DTAP_GetLcidNode q L = None ->
  channels S !! r = Some c -> c_lcid c = L -> unlinked_from i S r.
Proof.
  intros HS Hq Hn Hc HL q2 m Hq2 Hm Hin. rewrite Hq in Hq2. injection Hq2 as <-.
  pose proof (si_queues _ _ (sv_store _ HS) i q Hq) as Hqi.
  destruct (ni_chans _ _ _ (qi_nodes _ _ _ Hqi m Hm) r Hin) as (c2&Hc2&HL2&_). rewrite Hc in Hc2. injection Hc2 as <-.
  apply find_lnode_None in Hn. apply Hn. rewrite <- HL, HL2. by apply (list_elem_of_fmap_2 ln_lcid).
Qed.

(** The end of [DTAP_ChannelDownProc]: a node without channels goes. *)
Lemma wp_drop_empty i q L n S x (Q : unit -> state -> Prop) :
  sched_inv S -> g_dtapScheduler S !! i = Some q -> DTAP_GetLcidNode q L = Some n ->
  (forall qs', sched_inv (put qs' (channels S) (g_lcidBufferList S) S) ->
     (forall j, j <> i -> qs' !! j = g_dtapScheduler S !! j) ->
     (forall r, unlinked_from i S r -> unlinked_from i (put qs' (channels S) (g_lcidBufferList S) S) r) ->
     Q tt (put qs' (channels S) (g_lcidBufferList S) S, x)) ->
  wp (let! lcidNode := get_lnode i L in
      match channelList lcidNode with
      | [] => supd (upd_queue i (fun q => q <| lcidList ::= remove_first (is_lnode L) |>)) ;;!
              DTAP_DestroyLcidNode lcidNode
      | _ => st_ret tt
      end) (S, x) Q.
Proof.
  intros HS Hq Hn HQ. apply wp_bind. eapply wp_get_lnode; [done|exact Hn|].
  destruct (channelList n) as [|r0 l0] eqn:Hnil.
  2:{ apply wp_ret. rewrite <- (put_self S). apply HQ; [by rewrite put_self|done|by rewrite put_self]. }
  rewrite <- (put_self S) at 1. apply wp_bind. eapply wp_put_queue; [done|]. unfold DTAP_DestroyLcidNode. rewrite Hnil.
  apply wp_ret. apply HQ.
  - constructor; [|apply HS..]. cbn. by eapply store_drop_node; [apply HS|..].
  - intros j Hj. by apply list_lookup_insert_ne.
  - intros r Hr q2 m Hq2 Hm. cbn in Hq2. rewrite list_lookup_insert_eq in Hq2 by (by eapply lookup_lt_Some).
    injection Hq2 as <-. apply (Hr q); [done|]. cbn in Hm. eapply elem_of_submseteq; [exact Hm|]. apply sublist_submseteq, remove_first_sub.
Qed.

(** No channel with the same link and identifier is left in the queue. *)
Lemma unlinked_drop i q n r c r2 c2 S m k :
  sched_inv S -> g_dtapScheduler S !! i = Some q -> DTAP_GetLcidNode q (c_lcid c) = Some n ->
  r ∈ channelList n -> channels S !! r = Some c -> channels S !! r2 = Some c2 ->
  c_lcid c2 = c_lcid c -> c_srcTcid c2 = c_srcTcid c -> m ∈ set_node (drop_chan r k n) (lcidList q) ->
  r2 ∉ channelList m.
Proof.
  intros HS Hq Hn Hr Hc Hc2 El Et Hm Hin. pose proof (sv_store _ HS) as Hst.
  destruct (node_of _ _ _ _ _ _ Hst Hq Hn) as (Hni&_&HnL).
  pose proof (si_queues _ _ Hst i q Hq) as Hqi. destruct (ni_chans _ _ _ Hni r Hr) as (c0&Hc0&_&Hp).
  rewrite Hc in Hc0. injection Hc0 as <-. pose proof (remove_first_perm _ _ Hr) as Hperm.
  apply elem_set_node in Hm as [->|[Hm Hne]]; [..|apply Hqi].
  - unfold drop_chan in Hin. cbn in Hin.
    assert (r2 = r) as ->.
    { eapply (same_channel _ _ i q n r c r2 c2 S); try done; [by left|by apply (si_chans _ _ Hst)|].
      rewrite <- Hperm. apply elem_of_app. by left. }
    pose proof (ni_nodup _ _ _ Hni) as Hnd. rewrite <- Hperm in Hnd. apply NoDup_app in Hnd as (_&Hd&_).
    apply (Hd r Hin). by constructor.
  - destruct (ni_chans _ _ _ (qi_nodes _ _ _ Hqi m Hm) r2 Hin) as (c3&Hc3&HL3&_). rewrite Hc2 in Hc3. injection Hc3 as <-.
    apply Hne. change (ln_lcid (drop_chan r k n)) with (ln_lcid n). congruence.
Qed.

(** The channel found is unlinked and loses its packets. *)
Lemma wp_unlink i q L n r c S x (Q : unit -> state -> Prop) :
  sched_inv S -> g_dtapScheduler S !! i = Some q -> DTAP_GetLcidNode q L = Some n ->
  r ∈ channelList n -> channels S !! r = Some c ->
  (let k := zlen (pktList c) in
   let q' := mk_queue (set_node (drop_chan r k n) (lcidList q)) (q_priority q) (q_pktCnt q - k) in
   forall S', S' = put (<[i := q']> (g_dtapScheduler S)) (set_wiped r c (channels S))
                    (DTAP_DecLcidQueuedPktCnt L k (g_lcidBufferList S)) S ->
     sched_inv S' -> DTAP_GetLcidNode q' L = Some (drop_chan r k n) -> Q tt (S', x)) ->
  wp (let! c := get_chan r in
      let channelPktCnt := zlen (pktList c) in
      supd (fun s => s <| g_lcidBufferList ::= DTAP_DecLcidQueuedPktCnt L channelPktCnt |>) ;;!
      supd (upd_lnode i L (fun n =>
        n <| channelList ::= remove_first (fun y => bool_decide (y = r)) |>
          <| ln_pktCnt ::= fun k => DTAP_SCHED_SUB k channelPktCnt |>)) ;;!
      supd (upd_queue i (fun q => q <| q_pktCnt ::= fun k => DTAP_SCHED_SUB k channelPktCnt |>)) ;;!
      supd (upd_chan r (fun c => c <| pktList := [] |>)) ;;!
      if q_priority q =? DTAP_PRIORITY_FRAGMENT then supd (fun s => s <| channels ::= delete r |>)
      else st_ret tt) (S, x) Q.
Proof.
  intros HS Hq Hn Hr Hc HQ. set (k := zlen (pktList c)) in *.
  set (q' := mk_queue (set_node (drop_chan r k n) (lcidList q)) (q_priority q) (q_pktCnt q - k)) in HQ.
  destruct (node_of _ _ _ _ _ _ (sv_store _ HS) Hq Hn) as (Hni&_&HnL).
  pose proof (node_count _ _ _ _ _ _ (sv_store _ HS) Hq Hn) as Hle.
  assert (k <= ln_pktCnt n) as Hk.
  { rewrite (ni_cnt _ _ _ Hni). etrans; [|apply (zsum_elem _ _ r); [intros; lia|done]]. cbv beta. by rewrite (pkts_of_Some _ _ c). }
  destruct (ni_chans _ _ _ Hni r Hr) as (c0&Hc0&_&Hcp). rewrite Hc in Hc0. injection Hc0 as <-.
  assert (DTAP_SCHED_SUB (ln_pktCnt n) k = ln_pktCnt n - k /\ DTAP_SCHED_SUB (q_pktCnt q) k = q_pktCnt q - k) as [E1 E2].
  { unfold DTAP_SCHED_SUB. destruct (Z.ltb_spec k (ln_pktCnt n)), (Z.ltb_spec k (q_pktCnt q)); lia. }
  apply wp_bind, (wp_get_chan _ c); [done|]. fold k. rewrite <- (put_self S) at 1.
  apply wp_bind, wp_put_bufs, wp_bind, (wp_put_lnode _ _ _ _ _ _ q L n); [done|done|done|].
  apply wp_bind. eapply wp_put_queue; [by apply list_lookup_insert_eq; eapply lookup_lt_Some|].
  apply wp_bind, (wp_put_chan _ _ _ _ _ _ c); [done|]. rewrite list_insert_insert_eq.
  match goal with |- context [<[i := ?z]> (g_dtapScheduler S)] => assert (z = q') as -> end.
  { unfold q', drop_chan, modify. cbn. by rewrite E1, E2. }
  set (S' := put (<[i := q']> (g_dtapScheduler S)) (set_wiped r c (channels S)) (DTAP_DecLcidQueuedPktCnt L k (g_lcidBufferList S)) S).
  assert (Q tt (S', x)) as HQ'.
  { apply HQ; [done| |].
    - constructor; [|apply bufs_inv_dec; [lia|apply HS]|apply HS..]. cbn. by eapply store_drop; [apply HS|..].
    - unfold DTAP_GetLcidNode, q'. cbn. rewrite <- HnL.
      apply (find_set_node (drop_chan r k n) _ n). change (ln_lcid (drop_chan r k n)) with (ln_lcid n). by rewrite HnL. }
  rewrite (qi_prio _ _ _ (si_queues _ _ (sv_store _ HS) i q Hq)).
  unfold S', set_wiped, wiped in HQ'. rewrite Hcp in HQ'.
  destruct (Z.of_nat i =? DTAP_PRIORITY_FRAGMENT).
  - apply wp_supd. unfold put, modify in *. cbn in *. rewrite delete_insert_eq. exact HQ'.
  - by apply wp_ret.
Qed.

Lemma wp_down_proc i L tc S x :
  sched_inv S -> (i < 4)%nat ->
  wp (DTAP_ChannelDownProc i L tc) (S, x) (fun _ s => downed i L tc S s.1 /\ s.2 = x).
Proof.
  intros HS Hi. destruct (lookup_lt_is_Some_2 (g_dtapScheduler S) i) as [q Hq].
  { by rewrite (si_len _ _ (sv_store _ HS)). }
  unfold DTAP_ChannelDownProc. apply wp_bind, (wp_get_queue _ q); [done|].
  destruct (DTAP_GetLcidNode q L) as [n|] eqn:Hn.
  2:{ apply wp_ret. split; [|done]. constructor; [done|done|done| |by left].
      intros r c Hc [HL _]. by eapply unlinked_no_node. }
  destruct (node_of _ _ _ _ _ _ (sv_store _ HS) Hq Hn) as (Hni&_&HnL).
  apply wp_bind, wp_find_chan.
  - intros r (c&Hc&_)%(ni_chans _ _ _ Hni). by exists c.
  - intros r c Hr Hc HL Ht. apply wp_bind. cbv beta iota. eapply wp_unlink; [done..|]. cbv zeta.
    set (k := zlen (pktList c)). set (q' := mk_queue (set_node (drop_chan r k n) (lcidList q)) (q_priority q) (q_pktCnt q - k)). intros S' ES' HS' Hn'.
    assert (g_dtapScheduler S' !! i = Some q') as Hq'.
    { rewrite ES'. cbn. apply list_lookup_insert_eq. by eapply lookup_lt_Some. }
    destruct (node_drop (channels S) (set_wiped r c (channels S)) i n r c Hni Hr Hc (set_wiped_ne r c _)) as (Hnin&_&_).
    eapply wp_drop_empty; [done|exact Hq'|exact Hn'|]. intros qs' HS2 Hqs Hun. split; [|done].
    constructor; [done|by rewrite ES'|intros j Hj; cbn; rewrite Hqs by done; rewrite ES'; cbn; by apply list_lookup_insert_ne| |].
    + intros r2 c2 Hc2 Hk2. apply Hun. intros q2 m Hq2. rewrite Hq' in Hq2. injection Hq2 as <-.
      apply (unlinked_drop i q n r c r2 c2 S); try done; destruct Hk2; congruence.
    + intros r2. cbn. rewrite ES'. cbn. destruct (decide (r = r2)) as [<-|Hne].
      * right. exists c. rewrite set_wiped_eq. destruct (ni_chans _ _ _ Hni r Hr) as (c0&Hc0&_&Hp).
        rewrite Hc in Hc0. injection Hc0 as <-. by repeat split.
      * left. by apply set_wiped_ne.
  - intros Hnone. apply wp_bind, wp_ret. eapply wp_drop_empty; [done|exact Hq|exact Hn|]. intros qs' HS2 Hqs Hun.
    split; [|done]. constructor; [done|done|exact Hqs| |by left].
    intros r c Hc [HL Ht]. apply Hun. eapply unlinked_node; [done|exact Hq|exact Hn|exact Hc|done|].
    intros Hr. exact (Hnone r c Hr Hc (conj HL Ht)).
Qed.
(** The whole of [DTAP_ChannelDown]: the channel keeps its place in the store, without
    packets; so does every other one, with its packets, but for the channel of the
    link's fragments, which is freed. *)
Record channel_down (L tc : Z) S S' : Prop := {
  cd_inv : sched_inv S';
  cd_globals : same_globals S S';
  cd_gone : forall p c, channels S !! TransChan p = Some c -> keyed L tc c ->
    channels S' !! TransChan p = Some (c <| pktList := [] |>);
  cd_unlinked : forall p c i, channels S !! TransChan p = Some c -> keyed L tc c -> unlinked_from i S' (TransChan p);
  cd_frags : channels S' !! FragChan L = None;
  cd_other : forall r, r <> FragChan L -> (forall c, channels S !! r = Some c -> ~ keyed L tc c) ->
    channels S' !! r = channels S !! r
}.

Definition down_key (tc : Z) (i : nat) : Z :=
  if Z.of_nat i =? DTAP_PRIORITY_FRAGMENT then DTAP_FRAGMENT_TCID else tc.

(** Before the queues [Is]. *)
Record going_down (L tc : Z) S (Is : list nat) S' : Prop := {
  gd_inv : sched_inv S';
  gd_globals : same_globals S S';
  gd_done : forall j r c, (j < 4)%nat -> j ∉ Is -> channels S' !! r = Some c -> keyed L (down_key tc j) c ->
    unlinked_from j S' r;
  gd_chans : forall r, channels S' !! r = channels S !! r \/
    exists c, channels S !! r = Some c /\ (keyed L tc c \/ r = FragChan L) /\ channels S' !! r = wiped c
}.

Lemma wiped_key c c' :
  wiped c = Some c' -> c_lcid c' = c_lcid c /\ c_srcTcid c' = c_srcTcid c /\ c_priority c' = c_priority c.
Proof. unfold wiped. destruct (_ =? _); [done|]. by intros [=<-]. Qed.

Lemma wiped_twice c c' : wiped c = Some c' -> wiped c' = wiped c.
Proof.
  unfold wiped. destruct (c_priority c =? _) eqn:E; [done|]. intros [=<-]. cbn. by rewrite E.
Qed.

Lemma going_step L tc S i Is S1 S2 :
  going_down L tc S (i :: Is) S1 -> downed i L (down_key tc i) S1 S2 -> going_down L tc S Is S2.
Proof.
  intros [I1 I2 I3 I4] [D1 D2 D3 D4 D5]. constructor; [done| | |].
  - unfold same_globals in *. intuition congruence.
  - intros j r c Hj HIs Hc Hk.
    assert (exists c1, channels S1 !! r = Some c1 /\ keyed L (down_key tc j) c1) as (c1&Hc1&Hk1).
    { destruct (D5 r) as [E|(c1&Hc1&_&_&E)]; [exists c; by rewrite <- E|]. rewrite E in Hc. exists c1. split; [done|].
      apply wiped_key in Hc as (El&Et&_). destruct Hk. split; congruence. }
    destruct (decide (j = i)) as [->|Hne]; [by eapply D4|].
    intros q n Hq. rewrite D3 in Hq by done. eapply I3; [done| |exact Hc1|exact Hk1|exact Hq].
    intros [?|?]%elem_of_cons; done.
  - intros r. destruct (D5 r) as [->|(c1&Hc1&Hp1&Hk1&E)]; [apply I4|]. right.
    assert (keyed L tc c1 \/ r = FragChan L) as Hkey.
    { unfold down_key in Hk1. destruct (Z.eqb_spec (Z.of_nat i) DTAP_PRIORITY_FRAGMENT) as [Hz|]; [right|by left].
      pose proof (ci_kind _ _ (si_chans _ _ (sv_store _ I1) r c1 Hc1)) as Hkind. unfold DTAP_PRIORITY_FRAGMENT in *.
      destruct r; [lia|]. destruct Hkind as [<- _], Hk1 as [<- _]. done. }
    destruct (I4 r) as [E1|(c&Hc&Hkc&E1)]; [exists c1; by rewrite <- E1|]. exists c. split; [done|]. split; [done|].
    rewrite E, <- E1, Hc1. rewrite E1 in Hc1. by rewrite (wiped_twice _ _ Hc1).
Qed.

Lemma going_done L tc S S' : sched_inv S -> going_down L tc S [] S' -> channel_down L tc S S'.
Proof.
  intros HS [I1 I2 I3 I4]. pose proof (sv_store _ HS) as Hst. pose proof (sv_store _ I1) as Hst'.
  assert (forall p c, channels S !! TransChan p = Some c -> keyed L tc c ->
    exists c', channels S' !! TransChan p = Some c' /\ keyed L tc c' /\ c' = c <| pktList := pktList c' |> /\
      1 <= c_priority c' <= 3) as Hstay.
  { intros p c Hc [Hl Ht]. pose proof (ci_kind _ _ (si_chans _ _ Hst _ c Hc)) as Hk. cbn in Hk.
    destruct (I4 (TransChan p)) as [E|(c0&Hc0&_&E)].
    - exists c. rewrite E. split_and!; [done|by split|by destruct c|lia|lia].
    - rewrite Hc in Hc0. injection Hc0 as <-. unfold wiped, DTAP_PRIORITY_FRAGMENT in E.
      destruct (Z.eqb_spec (c_priority c) 0); [lia|]. eexists. split; [exact E|]. split_and!; [by split|done|cbn; lia|cbn; lia]. }
  assert (forall p c i, channels S !! TransChan p = Some c -> keyed L tc c -> unlinked_from i S' (TransChan p)) as Hun.
  { intros p c i Hc Hk q n Hq Hn Hin. destruct (Hstay p c Hc Hk) as (c'&Hc'&Hk'&_&Hp').
    destruct (ni_chans _ _ _ (qi_nodes _ _ _ (si_queues _ _ Hst' i q Hq) n Hn) _ Hin) as (c2&Hc2&_&Hp2).
    rewrite Hc' in Hc2. injection Hc2 as <-. eapply (I3 i); [lia|by apply not_elem_of_nil|exact Hc'| |done..].
    unfold down_key, DTAP_PRIORITY_FRAGMENT. by destruct (Z.eqb_spec (Z.of_nat i) 0); [lia|]. }
  constructor; [done|done| |exact Hun| |].
  - intros p c Hc Hk. destruct (Hstay p c Hc Hk) as (c'&Hc'&Hk'&E&_). rewrite Hc', E. do 3 f_equal.
    destruct (si_linked _ _ Hst' _ c' Hc') as [(q&n&Hq&Hn&Hin)|[-> _]]; [|done].
    exfalso. destruct (node_of _ _ _ _ _ _ Hst' Hq Hn) as (_&Hnq&_). exact (Hun p c _ Hc Hk q n Hq Hnq Hin).
  - destruct (channels S' !! FragChan L) as [c'|] eqn:Hc'; [exfalso|done].
    pose proof (ci_kind _ _ (si_chans _ _ Hst' _ c' Hc')) as (Hl&Ht&Hp&_).
    destruct (si_linked _ _ Hst' _ c' Hc') as [(q&n&Hq&Hn&Hin)|(_&?&?)]; [|done].
    destruct (node_of _ _ _ _ _ _ Hst' Hq Hn) as (_&Hnq&_). rewrite Hp in Hq.
    apply (I3 0%nat (FragChan L) c' ltac:(lia) (not_elem_of_nil _) Hc' (conj Hl Ht) q n Hq Hnq Hin).
  - intros r Hr Hnk. destruct (I4 r) as [?|(c&Hc&[?|?]&_)]; [done| |done]. by destruct (Hnk c).
Qed.

Lemma wp_channel_down L tc S x :
  sched_inv S -> wp (DTAP_ChannelDown L tc) (S, x) (fun _ s => channel_down L tc S s.1 /\ s.2 = x).
Proof.
  intros HS. unfold DTAP_ChannelDown. set (Is := queue_indices).
  apply (wp_for (fun Is s => (forall i, i ∈ Is -> (i < 4)%nat) /\ going_down L tc S Is s.1 /\ s.2 = x)).
  - split; [|split; [|done]].
    + intros i Hi. unfold queue_indices in Hi. apply elem_of_seq in Hi. unfold DTAP_PRIORITY_MAX in Hi. lia.
    + constructor; [done|done| |by left]. intros j r c Hj HIs. destruct HIs. unfold Is, queue_indices, DTAP_PRIORITY_MAX. apply elem_of_seq. lia.
  - intros i Is' [S1 x1] (HIs&Hgd&E). cbn in *. subst x1. eapply wp_mono.
    { apply wp_down_proc; [apply Hgd|]. apply HIs. constructor. }
    intros [] [S2 x2] [Hd E]. cbn in *. split; [|split; [|done]].
    + intros j Hj. apply HIs. by constructor.
    + by eapply going_step.
  - intros [S' x'] (_&Hgd&E). cbn in *. split; [|done]. by apply going_done.
Qed.
(** ** Switching off *)

(** The store once the channels [X] have lost their packets. *)
Definition wiped_out (X : list chan_ref) h h' : Prop :=
  forall r, h' !! r = if decide (r ∈ X) then (c ← h !! r; wiped c) else h !! r.

Lemma wiped_out_app X1 X2 h1 h2 h3 :
  NoDup (X1 ++ X2) -> wiped_out X1 h1 h2 -> wiped_out X2 h2 h3 -> wiped_out (X1 ++ X2) h1 h3.
Proof.
  intros (_&Hd&_)%NoDup_app H1 H2 r. rewrite (H2 r), (H1 r).
  destruct (decide (r ∈ X2)) as [R2|R2], (decide (r ∈ X1)) as [R1|R1];
    destruct (decide (r ∈ X1 ++ X2)) as [R|R]; try done; rewrite elem_of_app in R; try tauto.
  by destruct (Hd r R1).
Qed.

Lemma wiped_out_nil h : wiped_out [] h h.
Proof. intros r. rewrite decide_False; [done|apply not_elem_of_nil]. Qed.

Definition only_channels S h' : Sched := S <| channels := h' |>.

(** The body of the loop of [DTAP_DestroyLcidNode]. *)
Lemma wp_wipe_chan r c S x (Q : unit -> state -> Prop) :
  channels S !! r = Some c -> Q tt (only_channels S (set_wiped r c (channels S)), x) ->
  wp (let! c := get_chan r in
      supd (upd_chan r (fun c => c <| pktList := [] |>)) ;;!
      if c_priority c =? DTAP_PRIORITY_FRAGMENT then supd (fun s => s <| channels ::= delete r |>)
      else st_ret tt) (S, x) Q.
Proof.
  intros Hc HQ. apply wp_bind, (wp_get_chan _ c); [done|]. rewrite <- (put_self S) at 1.
  apply wp_bind, (wp_put_chan _ _ _ _ _ _ c); [done|]. unfold set_wiped, wiped in HQ.
  destruct (c_priority c =? DTAP_PRIORITY_FRAGMENT).
  - apply wp_supd. unfold put, only_channels, modify in *. cbn in *. rewrite delete_insert_eq. exact HQ.
  - by apply wp_ret.
Qed.

Lemma wiped_out_one r c h : h !! r = Some c -> wiped_out [r] h (set_wiped r c h).
Proof.
  intros Hc r'. destruct (decide (r' ∈ [r])) as [Hr|Hr]; rewrite list_elem_of_singleton in Hr.
  - subst. by rewrite set_wiped_eq, Hc.
  - by rewrite set_wiped_ne.
Qed.

Lemma wp_destroy_chans X : forall S x (Q : unit -> state -> Prop),
  NoDup X -> (forall r, r ∈ X -> is_Some (channels S !! r)) ->
  (forall h', wiped_out X (channels S) h' -> Q tt (only_channels S h', x)) ->
  wp (st_for X (fun r =>
        let! c := get_chan r in
        supd (upd_chan r (fun c => c <| pktList := [] |>)) ;;!
        if c_priority c =? DTAP_PRIORITY_FRAGMENT then supd (fun s => s <| channels ::= delete r |>)
        else st_ret tt)) (S, x) Q.
Proof.
  induction X as [|r X IH]; intros S x Q Hnd HX HQ; cbn [st_for].
  { apply wp_ret. specialize (HQ (channels S)). unfold only_channels in HQ. destruct S. apply HQ, wiped_out_nil. }
  pose proof Hnd as [Hr Hnd']%NoDup_cons. destruct (HX r) as [c Hc]; [constructor|].
  apply wp_bind. eapply wp_wipe_chan; [done|]. apply IH; [done| |].
  - intros r' Hr'. cbn. rewrite set_wiped_ne by (by intros ->). apply HX. by constructor.
  - intros h' Hh'. cbn in Hh'. change (only_channels (only_channels S (set_wiped r c (channels S))) h') with (only_channels S h').
    apply HQ. apply (wiped_out_app [r] X _ (set_wiped r c (channels S))); [done|by apply wiped_out_one|done].
Qed.

Lemma wp_destroy_nodes ns : forall S x (Q : unit -> state -> Prop),
  NoDup (concat (map channelList ns)) -> (forall r, r ∈ concat (map channelList ns) -> is_Some (channels S !! r)) ->
  (forall h', wiped_out (concat (map channelList ns)) (channels S) h' -> Q tt (only_channels S h', x)) ->
  wp (st_for ns DTAP_DestroyLcidNode) (S, x) Q.
Proof.
  induction ns as [|n ns IH]; intros S x Q Hnd HX HQ; cbn [st_for map concat] in *.
  { apply wp_ret. specialize (HQ (channels S)). unfold only_channels in HQ. destruct S. apply HQ, wiped_out_nil. }
  pose proof Hnd as (Hnd1&Hd&Hnd2)%NoDup_app. apply wp_bind. apply wp_destroy_chans; [done| |].
  - intros r Hr. apply HX, elem_of_app. by left.
  - intros h1 Hh1. apply IH; [done| |].
    + intros r Hr. cbn. rewrite Hh1, decide_False; [|intros Hr1; by destruct (Hd r Hr1)]. apply HX, elem_of_app. by right.
    + intros h2 Hh2. change (only_channels (only_channels S h1) h2) with (only_channels S h2). apply HQ.
      by eapply wiped_out_app.
Qed.
Lemma elem_concat {A B} (f : A -> list B) (l : list A) b :
  b ∈ concat (map f l) <-> exists a, a ∈ l /\ b ∈ f a.
Proof.
  rewrite list_elem_of_In, in_concat. split.
  - intros (l0&(a&<-&Ha)%in_map_iff&Hb). exists a. by rewrite !list_elem_of_In.
  - intros (a&Ha&Hb). exists (f a). rewrite <- !list_elem_of_In. split; [|done]. by apply (list_elem_of_fmap_2 f).
Qed.

Lemma queue_members S i q :
  sched_inv S -> g_dtapScheduler S !! i = Some q ->
  NoDup (concat (map channelList (lcidList q))) /\
  forall r, r ∈ concat (map channelList (lcidList q)) ->
    exists c, channels S !! r = Some c /\ c_priority c = Z.of_nat i.
Proof.
  intros HS Hq. pose proof (si_queues _ _ (sv_store _ HS) i q Hq) as [_ Hnd Hni _ _].
  assert (forall r, r ∈ concat (map channelList (lcidList q)) ->
    exists n, n ∈ lcidList q /\ r ∈ channelList n /\ member (ln_lcid n) i (channels S) r) as Hm.
  { intros r (n&Hn&Hr)%elem_concat. exists n. split_and!; [done..|by apply Hni]. }
  split; [|intros r Hr; destruct (Hm r Hr) as (n&_&_&c&?&_&?); eauto].
  clear Hm. induction (lcidList q) as [|n ns IH]; cbn; [constructor|].
  cbn in Hnd. apply NoDup_cons in Hnd as [Hn Hnd]. apply NoDup_app. split_and!.
  - eapply ni_nodup, Hni. constructor.
  - intros r Hr (n2&Hn2&Hr2)%elem_concat.
    destruct (ni_chans _ _ _ (Hni n ltac:(by constructor)) r Hr) as (c&Hc&HL&_).
    destruct (ni_chans _ _ _ (Hni n2 ltac:(by constructor)) r Hr2) as (c2&Hc2&HL2&_).
    rewrite Hc in Hc2. injection Hc2 as <-. apply Hn. rewrite <- HL, HL2. by apply (list_elem_of_fmap_2 ln_lcid).
  - apply IH; [done|]. intros m Hmm. apply Hni. by constructor.
Qed.

Definition queue_empty (i : nat) S : Prop :=
  forall q, g_dtapScheduler S !! i = Some q -> lcidList q = [] /\ q_pktCnt q = 0.

(** What an operation keeps, whatever it does to the queues. *)
Definition same_channel_attrs S S' : Prop :=
  forall p, match channels S !! TransChan p, channels S' !! TransChan p with
            | Some c, Some c' => c' = c <| pktList := pktList c' |>
            | None, None => True
            | _, _ => False
            end.

Lemma attrs_refl S : same_channel_attrs S S.
Proof. intros p. destruct (channels S !! TransChan p) as [[]|]; done. Qed.
Lemma attrs_same S S' : channels S' = channels S -> same_channel_attrs S S'.
Proof. intros E p. rewrite E. apply attrs_refl. Qed.
Lemma attrs_trans S1 S2 S3 : same_channel_attrs S1 S2 -> same_channel_attrs S2 S3 -> same_channel_attrs S1 S3.
Proof.
  intros H1 H2 p. specialize (H1 p). specialize (H2 p).
  destruct (channels S1 !! _) as [[]|], (channels S2 !! _) as [[]|], (channels S3 !! _) as [[]|]; try done.
  unfold modify in *. cbn in *. congruence.
Qed.

Lemma attrs_wiped S S' X :
  store_inv (g_dtapScheduler S) (channels S) -> wiped_out X (channels S) (channels S') -> same_channel_attrs S S'.
Proof.
  intros Hst HX p. rewrite (HX (TransChan p)).
  destruct (channels S !! TransChan p) as [c|] eqn:Hc; destruct (decide _); cbn; try done; [|by destruct c].
  pose proof (ci_kind _ _ (si_chans _ _ Hst _ c Hc)) as Hk. cbn in Hk. unfold wiped, DTAP_PRIORITY_FRAGMENT.
  destruct (Z.eqb_spec (c_priority c) 0); [lia|done].
Qed.

Lemma wp_destroy_queue i S x (Q : unit -> state -> Prop) :
  sched_inv S -> (i < 4)%nat ->
  (forall S', sched_inv S' -> same_globals S S' -> g_lcidBufferList S' = g_lcidBufferList S ->
     (forall j, j <> i -> g_dtapScheduler S' !! j = g_dtapScheduler S !! j) ->
     queue_empty i S' -> same_channel_attrs S S' -> Q tt (S', x)) ->
  wp (destroy_queue i) (S, x) Q.
Proof.
  intros HS Hi HQ. destruct (lookup_lt_is_Some_2 (g_dtapScheduler S) i) as [q Hq].
  { by rewrite (si_len _ _ (sv_store _ HS)). }
  destruct (queue_members S i q HS Hq) as [Hnd HX]. unfold destroy_queue.
  apply wp_bind, (wp_get_queue _ q); [done|]. apply wp_bind, wp_destroy_nodes; [done| |].
  { intros r Hr. destruct (HX r Hr) as (c&?&_). by exists c. }
  intros h' Hh'. set (S1 := only_channels S h'). rewrite <- (put_self S1). eapply wp_put_queue; [exact Hq|].
  pose proof (sv_store _ HS) as Hst. assert (i < length (g_dtapScheduler S))%nat as Hlt by (by eapply lookup_lt_Some).
  apply HQ; [|done|done| | |].
  - constructor; [|apply HS..]. cbn.
    change (q <| lcidList := [] |> <| q_pktCnt := 0 |>) with (mk_queue [] (q_priority q) 0).
    eapply (store_wipe _ _ i q [] 0); [done|done|exact HX|exact Hh'|constructor| |done| |].
    + by intros n ?%not_elem_of_nil.
    + pose proof (queue_count _ _ _ _ Hst Hq). lia.
    + intros r c n Hc Hr _ Hn Hin. destruct Hr. apply elem_concat. exists n. split; [|done]. by destruct (node_of _ _ _ _ _ _ Hst Hq Hn) as (_&?&_).
  - intros j Hj. by apply list_lookup_insert_ne.
  - intros q2. cbn. rewrite list_lookup_insert_eq by done. by intros [=<-].
  - eapply (attrs_wiped S); [done|exact Hh'].
Qed.

(** The scheduler switched off, or not switched on yet: nothing is queued. *)
Record off_inv S : Prop := {
  of_len : length (g_dtapScheduler S) = 4%nat;
  of_empty : forall i, queue_empty i S;
  of_chans : forall r c, channels S !! r = Some c ->
    pktList c = [] /\ (exists p, r = TransChan p) /\ chan_inv r c;
  of_keys : forall p1 p2 c1 c2, channels S !! TransChan p1 = Some c1 -> channels S !! TransChan p2 = Some c2 ->
    c_lcid c1 = c_lcid c2 -> c_srcTcid c1 = c_srcTcid c2 -> p1 = p2;
  of_bufs : bufs_inv (g_lcidBufferList S);
  of_g : is_u8 (g_sendNotAckPktCnt S);
  of_ap : is_u8 (g_apBufferNum S)
}.

Lemma emptied_off S : sched_inv S -> (forall i, queue_empty i S) -> off_inv S.
Proof.
  intros [Hst Hb Hg Hap] He. constructor; [apply Hst|done| |apply Hst|done..].
  intros r c Hc. pose proof (si_chans _ _ Hst r c Hc) as Hci.
  destruct (si_linked _ _ Hst r c Hc) as [(q&n&Hq&Hn&_)|[? ?]]; [|done].
  exfalso. destruct (node_of _ _ _ _ _ _ Hst Hq Hn) as (_&Hin&_). destruct (He _ q Hq) as [E _].
  rewrite E in Hin. by apply not_elem_of_nil in Hin.
Qed.

Lemma off_emptied S qs :
  off_inv S -> qs = imap (fun i (_ : DTAP_PriorityQueue) => mk_queue [] (Z.of_nat i) 0) (g_dtapScheduler S) ->
  store_inv qs (channels S).
Proof.
  intros [H1 H2 H3 H4 H5 H6 H7] ->. constructor.
  - by rewrite length_imap.
  - intros i q. rewrite list_lookup_imap. destruct (g_dtapScheduler S !! i); [|done]. intros [=<-].
    constructor; cbn; try done; [constructor|by intros n ?%not_elem_of_nil].
  - intros r c Hc. by apply H3.
  - exact H4.
  - intros r c Hc. right. split; apply (H3 r c Hc).
Qed.
End wp.
