(* ===== verification/DtapSchedEvents.v ===== *)
(** * The packet scheduler: its operations

    What each entry point of [DtapScheduler] keeps and does, on top of the run of
    [DtapSchedLoop] and the removals of [DtapSchedDown]. *)
From S2P Require Import Prelude SdfErrno SdfBuff DtapEnv DliLayer DliData DtapTrans DtapQuota DtapScheduler DtapSchedStore DtapSchedRun DtapSchedLoop DtapSchedDown.

(** The scheduler is on and its invariant holds, or it is off and empty. *)
Definition sched_good (S : Sched) : Prop := if g_isInited S then sched_inv S else off_inv S.

(** Changes outside the queues and channels. *)
Lemma good_core S S' :
  sched_good S -> g_dtapScheduler S' = g_dtapScheduler S -> channels S' = channels S ->
  g_isInited S' = g_isInited S -> bufs_inv (g_lcidBufferList S') -> is_u8 (g_sendNotAckPktCnt S') ->
  is_u8 (g_apBufferNum S') -> sched_good S'.
Proof.
  unfold sched_good. intros HS Eq Ec Eo Hb Hg Ha. rewrite Eo. destruct (g_isInited S).
  - constructor; [|done..]. rewrite Eq, Ec. apply HS.
  - destruct HS as [H1 H2 H3 H4 _ _ _]. constructor; rewrite ?Eq, ?Ec; try done.
    intros i q. rewrite Eq. apply H2.
Qed.

Lemma good_bufs S : sched_good S -> bufs_inv (g_lcidBufferList S).
Proof. unfold sched_good. destruct (g_isInited S); intros HS; apply HS. Qed.
Lemma good_g S : sched_good S -> is_u8 (g_sendNotAckPktCnt S).
Proof. unfold sched_good. destruct (g_isInited S); intros HS; apply HS. Qed.
Lemma good_ap S : sched_good S -> is_u8 (g_apBufferNum S).
Proof. unfold sched_good. destruct (g_isInited S); intros HS; apply HS. Qed.

Lemma bufs_node_ok (ls : list DTAP_LcidBufferNode) : bufs_inv ls -> Forall node_ok ls.
Proof. intros Hb. eapply Forall_impl; [apply Hb|]. intros n Hn. apply Hn. Qed.

(** What [DTAP_RecalcLcidQuota] does to the nodes: new quotas, all of them positive. *)
Definition requoted (n n' : DTAP_LcidBufferNode) : Prop :=
  n' = n <| quota := quota n' |> <| lastQuota := quota n' |> /\ 1 <= quota n' < 256.

Lemma requoted_inv ls ls' : bufs_inv ls -> Forall2 requoted ls ls' -> bufs_inv ls'.
Proof.
  intros [Hnd Hall] H2. constructor.
  - assert (map bn_lcid ls' = map bn_lcid ls) as ->; [|done]. clear -H2. induction H2 as [|n n' ls ls' [E _] _ IH]; [done|].
    cbn. rewrite IH, E. done.
  - clear Hnd. induction H2 as [|n n' ls ls' [E Hq] _ IH]; [done|]. inversion Hall as [|? ? [B1 B2 B3 B4] Hrest]; subst.
    constructor; [|by apply IH]. rewrite E. constructor; cbn; [done|lia|done..].
Qed.

Section events.
Context {W : Type} `{World W}.
Implicit Types (S : Sched) (l : DLI_LayerInfo) (w : W) (x : DLI_LayerInfo * W).
Notation state := (Sched * (DLI_LayerInfo * W))%type.

Lemma wp_recalc S x (Q : unit -> state -> Prop) :
  bufs_inv (g_lcidBufferList S) -> is_u8 (g_apBufferNum S) ->
  (forall ls, Forall2 requoted (g_lcidBufferList S) ls -> Q tt (S <| g_lcidBufferList := ls |>, x)) ->
  wp RecalcLcidQuota (S, x) Q.
Proof.
  intros Hb Ha HQ. unfold RecalcLcidQuota.
  destruct (quota_recalc_spec (g_apBufferNum S) (g_lcidBufferList S)) as (ls&E&H1&H2&_); [by apply bufs_node_ok|by apply bufs_inv_len|done|].
  apply wp_bind, wp_sg, wp_bind, wp_sg, wp_bind. unfold st_opt, wp. rewrite E. apply HQ.
  revert H2. clear -H1. induction H1; intros H2; [constructor|]. inversion H2; subst. constructor; [by split|auto].
Qed.

Lemma wp_recalc_good S x (Q : unit -> state -> Prop) :
  sched_good S ->
  (forall S', sched_good S' -> same_store S S' -> g_isInited S' = g_isInited S -> Q tt (S', x)) ->
  wp RecalcLcidQuota (S, x) Q.
Proof.
  intros HS HQ. apply wp_recalc; [by apply good_bufs|by apply good_ap|]. intros ls Hls. apply HQ; [|done..].
  apply (good_core S); [done..|by eapply requoted_inv; [by apply good_bufs|]|by apply (good_g S)|by apply (good_ap S)].
Qed.

(** ** Sending a packet *)

(** The packet joins its channel, and the scheduler runs; or nothing happens but for
    an error. *)
Inductive send_result (p : Z) (c : SchedChannel) (b : SDF_Buff) S l w : Z -> state -> Prop :=
| send_fails ret S' w' t :
    ret = DTAP_TRANS_EXCEED_MAX_ERR \/ ret = DTAP_TRANS_MALLOC_ERR /\ (CAlloc, 0) ∈ t ->
    trace w' = trace w ++ t -> allocs t -> sched_inv S' -> same_store S S' -> g_isInited S' = g_isInited S ->
    send_result p c b S l w ret (S', (l, w'))
| send_runs seq S1 w1 t1 s' :
    trace w1 = trace w ++ t1 -> allocs t1 -> clean t1 -> sched_inv S1 -> g_isInited S1 = g_isInited S ->
    g_sendNotAckPktCnt S1 = g_sendNotAckPktCnt S -> g_apBufferNum S1 = g_apBufferNum S ->
    channels S1 = <[TransChan p := c <| pktList := pktList c ++ [mk_pkt b seq false] |>]> (channels S) ->
    run_post True S1 l w1 tt s' ->
    send_result p c b S l w DTAP_SUCCESS s'.

Lemma wp_send_priority p c b S l w :
  sched_inv S -> layer_ok l -> g_isInited S = true -> channels S !! TransChan p = Some c -> sendable b ->
  wp (SendWithPriority (TransChan p) (Some b)) (S, (l, w)) (send_result p c b S l w).
Proof.
  intros HS Hl Hon Hc Hb. pose proof (sv_store _ HS) as Hst. pose proof (si_chans _ _ Hst _ c Hc) as Hci.
  pose proof (ci_kind _ _ Hci) as Hpr. cbn in Hpr. unfold SendWithPriority.
  apply wp_bind, wp_sg. rewrite Hon. cbn [negb]. apply wp_bind, (wp_get_chan _ c); [done|].
  unfold DTAP_PRIORITY_MAX. destruct (Z.leb_spec 4 (c_priority c)); [lia|]. cbv zeta.
  set (i := Z.to_nat (c_priority c)). assert (c_priority c = Z.of_nat i) as Hi by (unfold i; lia).
  destruct (lookup_lt_is_Some_2 (g_dtapScheduler S) i) as [q Hq]; [rewrite (si_len _ _ Hst); lia|].
  apply wp_bind, (wp_get_queue _ q); [done|]. destruct (Z.leb_spec DTAP_PACKET_MAX_SIZE (q_pktCnt q)).
  { apply wp_ret. eapply (send_fails p c b S l w _ S w []); [by left|by rewrite app_nil_r|constructor|done..]. }
  apply wp_bind, wp_create_packet.
  { intros w' T. apply wp_ret. eapply (send_fails p c b S l w _ S w'); [right; split; [done|constructor]|exact T|by repeat constructor|done..]. }
  intros a S1 w1 seq T1 Ha Hre. pose proof (reseq_inv _ _ Hre HS) as HS1. 
  assert (channels S1 = channels S /\ g_dtapScheduler S1 = g_dtapScheduler S /\ g_lcidBufferList S1 = g_lcidBufferList S /\
    g_sendNotAckPktCnt S1 = g_sendNotAckPktCnt S /\ g_apBufferNum S1 = g_apBufferNum S /\ g_isInited S1 = g_isInited S)
    as (Ec&Eq&Eb&Eg&Ea&Eo) by (by rewrite Hre).
  apply wp_bind. eapply (wp_push i q (TransChan p) c 1 S1 l w1 (channels S1)); [apply HS1..|left; by rewrite Ec|done|done|
    by rewrite Eq|unfold DTAP_PACKET_MAX_SIZE; lia|lia| |].
  { intros w' T. apply wp_ret. change (negb (DTAP_TRANS_MALLOC_ERR =? DTAP_SUCCESS)) with true. cbn iota.
    eapply (send_fails p c b S l w _ S1 w' ([(CAlloc, a)] ++ [(CAlloc, 0)])); [|by rewrite T, T1, app_assoc|by repeat constructor|done..].
    right. split; [done|]. right. constructor. }
  intros S2 t2 w2 T2 Ht2 Ec2 Henq. change (negb (DTAP_SUCCESS =? DTAP_SUCCESS)) with false. cbn iota.
  specialize (Henq [mk_pkt b seq false] eq_refl).
  apply wp_bind, wp_supd. destruct Henq as [G1 G2 G3 G4 G5 G6 G7].
  { destruct Hci as [I1 I2 I3]. constructor; [done|done|]. apply Forall_app. by split; [|constructor]. }
  cbn [fst snd] in *. set (S3 := upd_chan _ _ S2) in *.
  apply wp_bind, wp_sg, wp_bind, wp_sg.
  assert (channels S3 = <[TransChan p := c <| pktList := pktList c ++ [mk_pkt b seq false] |>]> (channels S)) as Ec3.
  { apply map_eq. intros r. rewrite G2. destruct (decide (r = TransChan p)) as [->|Hne]; [by rewrite lookup_insert_eq|].
    by rewrite lookup_insert_ne, Ec. }
  assert (trace w2 = trace w ++ ([(CAlloc, a)] ++ t2)) as T3 by (by rewrite T2, T1, app_assoc).
  assert (allocs ([(CAlloc, a)] ++ t2) /\ clean ([(CAlloc, a)] ++ t2)) as [Al Cl].
  { destruct Ht2 as [->|(a2&Ha2&->)]; split; by repeat constructor. }
  assert (forall S4, sched_inv S4 -> channels S4 = channels S3 -> g_isInited S4 = g_isInited S3 ->
    g_sendNotAckPktCnt S4 = g_sendNotAckPktCnt S3 -> g_apBufferNum S4 = g_apBufferNum S3 ->
    wp (DTAP_SchedulerRun ;;! st_ret DTAP_SUCCESS) (S4, (l, w2)) (send_result p c b S l w)) as Hrun.
  { intros S4 HS4 E1 E2 E3 E4. apply wp_bind. eapply wp_mono; [by apply run_spec|]. intros [] s' Hpost. apply wp_ret.
    eapply (send_runs p c b S l w seq S4 w2); [exact T3|done|done|done|congruence..|exact Hpost]. }
  apply wp_bind. destruct (DTAP_GetLcidBufferNode (c_lcid c) S3) as [n|]; [|by apply wp_ret, Hrun].
  destruct ((quota n <=? sendNotAckPktCnt n) && _); [|by apply wp_ret, Hrun].
  apply wp_recalc; [apply G1..|]. intros ls Hls. apply Hrun; [|done..].
  constructor; [apply G1|by eapply requoted_inv; [apply G1|]|apply G1..].
Qed.

(** ** The other parties *)
Lemma wp_run_off S x : off_inv S -> wp DTAP_SchedulerRun (S, x) (fun _ s => s = (S, x)).
Proof.
  intros HS. unfold DTAP_SchedulerRun. assert (forall i, i ∈ queue_indices -> (i < 4)%nat) as Hi.
  { intros i Hi. unfold queue_indices, DTAP_PRIORITY_MAX in Hi. apply elem_of_seq in Hi. lia. }
  revert Hi. generalize queue_indices as Is. induction Is as [|i Is IH]; intros Hi; cbn [run_queues]; [by apply wp_ret|].
  destruct (lookup_lt_is_Some_2 (g_dtapScheduler S) i) as [q Hq].
  { rewrite (of_len _ HS). apply Hi. constructor. }
  apply wp_bind, (wp_get_queue _ q); [done|]. apply wp_bind, wp_sg. destruct (_ <=? _); [by apply wp_ret|].
  destruct (of_empty _ HS i q Hq) as [_ ->]. apply IH. intros j Hj. apply Hi. by constructor.
Qed.

Lemma attrs_ran S log t S' : ran S log t S' -> same_channel_attrs S S'.
Proof.
  intros R p. pose proof (rn_chans _ _ _ _ R p) as Hs. unfold shrunk in Hs.
  destruct (channels S !! TransChan p), (channels S' !! TransChan p); try done. by destruct Hs.
Qed.

(** The state is good again, the channels' attributes are what they were, and only
    the scheduler's own requests were made. *)
Definition calls w w' : Prop := exists t, trace w' = trace w ++ t /\ Forall (fun '(c, _) => sched_call c) t.

Lemma calls_refl w : calls w w.
Proof. exists []. by rewrite app_nil_r. Qed.
#[local] Hint Resolve calls_refl : core.
Lemma calls_trans w1 w2 w3 : calls w1 w2 -> calls w2 w3 -> calls w1 w3.
Proof.
  intros (t1&E1&F1) (t2&E2&F2). exists (t1 ++ t2). rewrite E2, E1, app_assoc. split; [done|by apply Forall_app].
Qed.
Lemma calls_snoc w w' c a : sched_call c -> trace w' = trace w ++ [(c, a)] -> calls w w'.
Proof. intros Hc T. exists [(c, a)]. split; [done|]. by constructor. Qed.

Definition kept S l w (s' : state) : Prop :=
  sched_good s'.1 /\ layer_ok s'.2.1 /\ same_channel_attrs S s'.1 /\ calls w s'.2.2.

Lemma wp_run_good S l w :
  sched_good S -> layer_ok l -> wp DTAP_SchedulerRun (S, (l, w)) (fun _ => kept S l w).
Proof.
  intros HS Hl. unfold sched_good in HS. destruct (g_isInited S) eqn:Hon.
  - eapply wp_mono; [by apply run_spec|]. intros [] s' (log&t&St&_). split_and!; [|apply St|eapply attrs_ran, St|].
    + unfold sched_good. rewrite (rn_on _ _ _ _ (st_ran _ _ _ _ _ _ _ _ St)), Hon. apply St.
    + eexists. split; [apply St|apply (rn_calls _ _ _ _ (st_ran _ _ _ _ _ _ _ _ St))].
  - eapply wp_mono; [by apply wp_run_off|]. intros [] ? ->. split_and!; [unfold sched_good; cbn [fst]; by rewrite Hon|done|apply attrs_refl|apply calls_refl].
Qed.

Lemma kept_trans S1 l1 w1 s2 s3 : kept S1 l1 w1 s2 -> kept s2.1 s2.2.1 s2.2.2 s3 -> kept S1 l1 w1 s3.
Proof.
  intros (_&_&A1&X1) (?&?&A2&X2). split_and!; [done|done|by eapply attrs_trans|by eapply calls_trans].
Qed.

Lemma kept_core S l w S' w' :
  sched_good S' -> layer_ok l -> channels S' = channels S -> calls w w' -> kept S l w (S', (l, w')).
Proof. intros. split_and!; [done|done|by apply attrs_same|done]. Qed.

(** Sequencing of operations that keep everything. *)
Lemma wp_kept_bind {A B} (m : ST state A) (f : A -> ST state B) S l w :
  wp m (S, (l, w)) (fun a s => kept S l w s /\ wp (f a) s (fun _ => kept s.1 s.2.1 s.2.2)) ->
  wp (st_bind m f) (S, (l, w)) (fun _ => kept S l w).
Proof.
  intros Hm. apply wp_bind. eapply wp_mono; [exact Hm|]. intros a s [Hk Hf].
  eapply wp_mono; [exact Hf|]. intros b s' Hk'. by eapply kept_trans.
Qed.

(** A request and its answer leave the state alone. *)
Lemma wp_ask_kept {B} c (f : Z -> ST state B) S l w :
  sched_call c -> sched_good S -> layer_ok l -> (forall a w', wp (f a) (S, (l, w')) (fun _ => kept S l w')) ->
  wp (let! a := ask c in f a) (S, (l, w)) (fun _ => kept S l w).
Proof.
  intros Hc HS Hl Hf. apply wp_kept_bind, wp_asks. intros a w' T. split; [|apply Hf].
  apply kept_core; [done..|by eapply calls_snoc].
Qed.

(** A change outside the queues and channels. *)
Lemma wp_supd_kept f S l w :
  sched_good S -> layer_ok l -> g_dtapScheduler (f S) = g_dtapScheduler S -> channels (f S) = channels S ->
  g_isInited (f S) = g_isInited S -> bufs_inv (g_lcidBufferList (f S)) -> is_u8 (g_sendNotAckPktCnt (f S)) ->
  is_u8 (g_apBufferNum (f S)) -> wp (supd f) (S, (l, w)) (fun _ s => s = (f S, (l, w)) /\ kept S l w s).
Proof.
  intros. apply wp_supd. split; [done|]. apply kept_core; [by eapply (good_core S)|done..|apply calls_refl].
Qed.

Lemma wp_recalc_kept S l w : sched_good S -> layer_ok l -> wp RecalcLcidQuota (S, (l, w)) (fun _ => kept S l w).
Proof.
  intros HS Hl. apply wp_recalc_good; [done|]. intros S' HS' [_ Ec] _. by apply kept_core.
Qed.

Lemma bufs_inv_app ls L :
  bufs_inv ls -> 0 <= L < 65536 -> find_bufnode L ls = None -> bufs_inv (ls ++ [mk_bufnode L 0 0 0 0 0 0]).
Proof.
  intros [Hnd Hall] HL Hf. constructor.
  - rewrite map_app. apply NoDup_app. split_and!; [done| |repeat constructor; by apply not_elem_of_nil].
    intros z (n&->&Hn)%list_elem_of_fmap E%list_elem_of_singleton. cbn in E.
    unfold find_bufnode in Hf. pose proof (proj1 (find_first_None _ _) Hf) as Hnone. rewrite Forall_forall in Hnone.
    specialize (Hnone n Hn). cbv beta in Hnone. apply Z.eqb_neq in Hnone. done.
  - apply Forall_app. split; [done|]. repeat constructor; cbn; lia.
Qed.

Lemma bufs_inv_sub ls ls' : ls' `sublist_of` ls -> bufs_inv ls -> bufs_inv ls'.
Proof.
  intros Hsub [Hnd Hall]. constructor; [|by eapply Forall_sub].
  eapply sublist_NoDup; [exact Hnd|]. by apply map_sub.
Qed.

Lemma wp_connect st param S l w :
  sched_good S -> layer_ok l -> (forall L, param = Some L -> 0 <= L < 65536) ->
  wp (DTAP_DLIConnectCbk st param) (S, (l, w)) (fun _ => kept S l w).
Proof.
  intros HS Hl HL. unfold DTAP_DLIConnectCbk.
  destruct (negb _); [apply wp_ret; by apply kept_core|]. destruct param as [L|]; [|apply wp_ret; by apply kept_core].
  specialize (HL L eq_refl). apply wp_kept_bind. unfold DTAP_AddLcidBufferNode. apply wp_bind, wp_sg.
  destruct (DTAP_GetLcidBufferNode L S) eqn:Hf.
  { apply wp_ret. split; [by apply kept_core|]. apply wp_ret. by apply kept_core. }
  apply wp_bind, wp_allocs. intros a w' T. destruct (negb (negb _)).
  { apply wp_ret. split; [apply kept_core; [done..|by apply (calls_snoc _ _ CAlloc a)]|]. apply wp_ret. by apply kept_core. }
  apply wp_bind. eapply wp_mono; [apply wp_supd_kept; [done..| |by apply (good_g S)|by apply (good_ap S)]|].
  - cbn. apply bufs_inv_app; [by apply good_bufs|done|done].
  - intros [] s' [_ Hk]. apply wp_ret. split; [|destruct s' as [S2 [l2 w2]]; apply wp_recalc_kept; apply Hk].
    apply (kept_trans S l w (S, (l, w'))); [|exact Hk]. apply kept_core; [done..|by apply (calls_snoc _ _ CAlloc a)].
Qed.

Lemma wp_collab_kept n S l w :
  sched_good S -> layer_ok l -> wp (COLLAB_ContinueAssignTransBuffer n) (S, (l, w)) (fun _ => kept S l w).
Proof.
  intros HS Hl. unfold COLLAB_ContinueAssignTransBuffer. apply wp_ask_kept; [done..|]. intros a w'.
  apply wp_ret. by apply kept_core.
Qed.

(** Runs what follows an operation that keeps everything. *)
Lemma wp_kept_then {A B} (m : ST state A) (f : A -> ST state B) S l w :
  wp m (S, (l, w)) (fun _ => kept S l w) ->
  (forall a S' l' w', sched_good S' -> layer_ok l' -> wp (f a) (S', (l', w')) (fun _ => kept S' l' w')) ->
  wp (st_bind m f) (S, (l, w)) (fun _ => kept S l w).
Proof.
  intros Hm Hf. apply wp_kept_bind. eapply wp_mono; [exact Hm|]. intros a [S' [l' w']] Hk. split; [done|].
  apply Hf; apply Hk.
Qed.

Lemma wp_gets_kept {A B} (g : Sched -> A) (f : A -> ST state B) S l w :
  wp (f (g S)) (S, (l, w)) (fun _ => kept S l w) -> wp (st_bind (sg g) f) (S, (l, w)) (fun _ => kept S l w).
Proof. intros Hf. by apply wp_bind, wp_sg. Qed.

Lemma wp_supd_then {B} f (k : unit -> ST state B) S l w :
  sched_good S -> layer_ok l -> g_dtapScheduler (f S) = g_dtapScheduler S -> channels (f S) = channels S ->
  g_isInited (f S) = g_isInited S -> bufs_inv (g_lcidBufferList (f S)) -> is_u8 (g_sendNotAckPktCnt (f S)) ->
  is_u8 (g_apBufferNum (f S)) -> (sched_good (f S) -> wp (k tt) (f S, (l, w)) (fun _ => kept (f S) l w)) ->
  wp (st_bind (supd f) k) (S, (l, w)) (fun _ => kept S l w).
Proof.
  intros ???????? Hk. apply wp_kept_bind. eapply wp_mono; [by apply wp_supd_kept|]. intros [] s [-> Hs].
  split; [done|]. apply Hk, Hs.
Qed.

Lemma wp_disconnect param S l w :
  sched_good S -> layer_ok l -> wp (DTAP_DLIDisconnectCbk param) (S, (l, w)) (fun _ => kept S l w).
Proof.
  intros HS Hl. destruct param as [L|]; cbn [DTAP_DLIDisconnectCbk]; [|apply wp_ret; by apply kept_core].
  apply wp_gets_kept. apply wp_kept_then.
  { destruct (DTAP_GetLcidBufferNode L S) as [n|]; [|apply wp_ret; by apply kept_core].
    apply wp_supd_then; [done..|by apply (good_bufs S)|apply u8_range|by apply (good_ap S)|]. intros HS1.
    apply wp_gets_kept. by apply wp_collab_kept. }
  intros [] S1 l1 w1 HS1 Hl1. unfold DTAP_DeleteLcidBufferNode.
  apply wp_kept_then; [|intros [] S2 l2 w2 ??; [by apply wp_recalc_kept|apply wp_ret; by apply kept_core]].
  apply wp_gets_kept. destruct (DTAP_GetLcidBufferNode L S1); [|apply wp_ret; by apply kept_core].
  apply wp_supd_then; [done..| |by apply (good_g S1)|by apply (good_ap S1)|].
  - cbn. eapply bufs_inv_sub; [apply remove_first_sub|by apply good_bufs].
  - intros HS2. apply wp_ret. by apply kept_core.
Qed.

Lemma wp_set_ap n S l w :
  sched_good S -> layer_ok l -> wp (DTAP_SetApBufferNum n) (S, (l, w)) (fun _ => kept S l w).
Proof.
  intros HS Hl. apply wp_supd_then; [done..|by apply (good_bufs S)|by apply (good_g S)|apply u8_range|].
  intros HS1. by apply wp_recalc_kept.
Qed.

Lemma wp_data_num ty n S l w :
  sched_good S -> layer_ok l -> wp (DTAP_DLIDataNumChangecbk ty n) (S, (l, w)) (fun _ => kept S l w).
Proof.
  intros HS Hl. destruct ty; cbn [DTAP_DLIDataNumChangecbk]; [|apply wp_ret; by apply kept_core..].
  apply wp_kept_then; [by apply wp_set_ap|]. intros _ S1 l1 w1 HS1 Hl1. apply wp_gets_kept.
  destruct (g_acbNumChangeCbk S1); [by apply wp_collab_kept|apply wp_ret; by apply kept_core].
Qed.

Lemma sched_sub_range a b : 0 <= b -> is_u32 a -> is_u32 (DTAP_SCHED_SUB a b).
Proof. unfold DTAP_SCHED_SUB, is_u32. destruct (Z.ltb_spec b a); lia. Qed.

Lemma wp_complete L k S l w :
  sched_good S -> layer_ok l -> 0 <= k -> wp (DTAP_SendCompleteCbk L k) (S, (l, w)) (fun _ => kept S l w).
Proof.
  intros HS Hl Hk. unfold DTAP_SendCompleteCbk. apply wp_gets_kept.
  destruct (DTAP_GetLcidBufferNode L S) as [n|]; [|apply wp_ret; by apply kept_core].
  apply wp_supd_then; [done..|by apply (good_bufs S)|apply u8_range|by apply (good_ap S)|]. intros HS1.
  apply wp_gets_kept, wp_kept_then; [by apply wp_collab_kept|]. intros _ S2 l2 w2 HS2 Hl2.
  apply wp_supd_then; [done..| |by apply (good_g S2)|by apply (good_ap S2)|].
  - cbn. apply bufs_inv_update; [by apply good_bufs|]. intros m Hm. destruct (find_bufnode_spec _ _ _ Hm) as [Hin HL].
    pose proof (bs_nodes _ (good_bufs _ HS2)) as Hall. rewrite Forall_forall in Hall. destruct (Hall m Hin).
    split; [done|]. constructor; cbn; [done|done|by apply sched_sub_range|done].
  - intros HS3. apply wp_kept_then; [by apply wp_recalc_kept|]. intros _ S4 l4 w4 HS4 Hl4. by apply wp_run_good.
Qed.

Lemma wp_send_kept p b S l w :
  sched_good S -> layer_ok l -> is_Some (channels S !! TransChan p) ->
  match b with Some b => sendable b | None => True end ->
  wp (SendWithPriority (TransChan p) b) (S, (l, w)) (fun _ => kept S l w).
Proof.
  intros HS Hl [c Hc] Hb. destruct (g_isInited S) eqn:Hon.
  2:{ unfold SendWithPriority. apply wp_gets_kept. rewrite Hon. apply wp_ret. by apply kept_core. }
  destruct b as [b|].
  2:{ unfold SendWithPriority. apply wp_gets_kept. rewrite Hon. apply wp_ret. by apply kept_core. }
  pose proof HS as HI. unfold sched_good in HI. rewrite Hon in HI.
  eapply wp_mono; [by eapply wp_send_priority|]. intros ret s' Hres.
  destruct Hres as [ret S' w' t _ T Al HS' [_ Ec] Eo|seq S1 w1 t1 s' T1 Al _ HS1 Eo _ _ Ec (log&t&St&_)].
  - apply kept_core; [unfold sched_good; by rewrite Eo, Hon|done|done|eexists; split; [done|by apply allocs_calls]].
  - pose proof (st_ran _ _ _ _ _ _ _ _ St) as R. split_and!.
    + unfold sched_good. rewrite (rn_on _ _ _ _ R), Eo, Hon. apply St.
    + apply St.
    + apply (attrs_trans S S1); [|by eapply attrs_ran]. intros p'. rewrite Ec.
      destruct (decide (p' = p)) as [->|Hne]; [rewrite lookup_insert_eq, Hc; done|].
      rewrite lookup_insert_ne by congruence. destruct (channels S !! TransChan p') as [[]|]; done.
    + exists (t1 ++ t). rewrite (st_trace _ _ _ _ _ _ _ _ St), T1, app_assoc. split; [done|].
      apply Forall_app. split; [by apply allocs_calls|apply R].
Qed.
End events.
