(* ===== verification/DtapSchedProps.v ===== *)
(** * The packet scheduler: theorems

    The scheduler as a state machine whose events are the calls of the other parts of
    the stack, the theorems about its reachable states and about what a run sends,
    and the instance that puts the real scheduler under the transmission modes. *)
From S2P Require Import Prelude SdfErrno SdfBuff DtapEnv DliLayer DliData DtapTrans DtapQuota DtapScheduler DtapSchedStore DtapSchedRun DtapSchedLoop DtapSchedDown DtapSchedEvents.

(** ** The state machine

    [EvOpen] and [EvClose] are what [dtap_channel.c] does around the scheduler: it
    makes a channel, with no other of the same link and identifier alive; it takes it
    down and frees it.  [EvLayer]: anything the DLI layer does to its own state between
    two calls. *)
Inductive sched_event :=
| EvInit | EvDeinit
| EvInitTask | EvDeinitTask     (* the task of a blocked post that timed out, run late *)
| EvOpen (p lcid tcid prio : Z) | EvClose (p : Z)
| EvSend (p : Z) (buff : option SDF_Buff)
| EvComplete (connHandle numCompletedPackets : Z)
| EvConnect (status : Z) (param : option Z) | EvDisconnect (param : option Z)
| EvSetAp (bufferNum : Z) | EvDataNum (type : DLI_DataType) (dataNum : Z) | EvRegister (cbk : bool)
| EvLayer (l : DLI_LayerInfo).

Section machine.
Context {W : Type} `{World W}.
Implicit Types (S : Sched) (l : DLI_LayerInfo) (w : W) (x : DLI_LayerInfo * W).
Notation state := (Sched * (DLI_LayerInfo * W))%type.

Definition close_channel (p : Z) : ST state unit :=
  let! c := get_chan (TransChan p) in
  DTAP_ChannelDown (c_lcid c) (c_srcTcid c) ;;!
  supd (fun s => s <| channels ::= delete (TransChan p) |>).

Definition ignore {A} (m : ST state A) : ST state unit := let! _ := m in st_ret tt.

Definition run_sched_event (ev : sched_event) : ST state unit :=
  match ev with
  | EvInit => ignore DTAP_SchedulerInit
  | EvDeinit => ignore DTAP_SchedulerDeinit
  | EvInitTask => DTAP_SchedulerInitInner
  | EvDeinitTask => DTAP_SchedulerDeinitInner
  | EvOpen p lcid tcid prio => supd (fun s => s <| channels ::= <[TransChan p := mk_schan prio lcid tcid []]> |>)
  | EvClose p => close_channel p
  | EvSend p buff => ignore (SendWithPriority (TransChan p) buff)
  | EvComplete h n => DTAP_SendCompleteCbk h n
  | EvConnect st param => DTAP_DLIConnectCbk st param
  | EvDisconnect param => DTAP_DLIDisconnectCbk param
  | EvSetAp n => DTAP_SetApBufferNum n
  | EvDataNum ty n => DTAP_DLIDataNumChangecbk ty n
  | EvRegister cbk => DTAP_DLIAcbNumChangeRegister cbk
  | EvLayer l => st_modify (fun s => (s.1, (l, s.2.2)))
  end.

(** What the theorems assume of an event: a channel is opened where none lives, on
    a link of 12 bits, with a priority of the enumeration and an identifier no other
    channel of the link has; only live channels are closed and sent on. *)
Definition sched_event_ok (ev : sched_event) S : Prop :=
  match ev with
  | EvOpen p lcid tcid prio =>
      channels S !! TransChan p = None /\ 0 <= lcid < 4096 /\ 1 <= prio <= 3 /\
      forall p' c', channels S !! TransChan p' = Some c' -> c_lcid c' = lcid -> c_srcTcid c' <> tcid
  | EvClose p => is_Some (channels S !! TransChan p)
  | EvSend p buff => is_Some (channels S !! TransChan p) /\ match buff with Some b => sendable b | None => True end
  | EvComplete _ n => 0 <= n
  | EvConnect _ (Some L) => 0 <= L < 65536
  | EvLayer l => layer_ok l
  | _ => True
  end.

Inductive reachable : state -> Prop :=
| reach_start l w : layer_ok l -> reachable (g_sched0, (l, w))
| reach_event ev s s' : reachable s -> sched_event_ok ev s.1 -> run_sched_event ev s = Some (tt, s') -> reachable s'.

Definition steady (s' : state) : Prop := sched_good s'.1 /\ layer_ok s'.2.1.

(** ** Switching on and off *)
Lemma bufs_inv_nil : bufs_inv [].
Proof. split; constructor. Qed.

Lemma wp_ask_any {B} c (f : Z -> ST state B) S l w Q :
  (forall a w', wp (f a) (S, (l, w')) Q) -> wp (let! a := ask c in f a) (S, (l, w)) Q.
Proof. intros Hf. apply wp_bind, wp_asks. auto. Qed.

(** [S'] is [S] after switching; the channels lose at most their packets. *)
Definition switched (on : bool) S (ret : Z) (s' : state) : Prop :=
  steady s' /\ same_channel_attrs S s'.1 /\
  (if ret =? DTAP_SUCCESS then g_isInited s'.1 = on else g_isInited s'.1 = g_isInited S).

Lemma wp_init_inner S l w : sched_good S -> layer_ok l ->
  wp DTAP_SchedulerInitInner (S, (l, w)) (fun _ => switched true S DTAP_SUCCESS).
Proof.
  intros HS Hl. unfold DTAP_SchedulerInitInner. apply wp_bind, wp_sg. unfold sched_good in HS.
  destruct (g_isInited S) eqn:Hon.
  { apply wp_ret. split_and!; [|apply attrs_refl|done]. split; [|done]. unfold sched_good. cbn [fst]. by rewrite Hon. }
  apply wp_bind, wp_supd. do 5 (apply wp_ask_any; intros). apply wp_supd.
  split_and!; [|by apply attrs_same|done]. split; [|done].
  unfold sched_good. cbn. constructor; cbn; [|apply bufs_inv_nil|done|by apply HS].
  by eapply off_emptied.
Qed.

Lemma wp_init S l w : sched_good S -> layer_ok l -> wp DTAP_SchedulerInit (S, (l, w)) (switched true S).
Proof.
  intros HS Hl. unfold DTAP_SchedulerInit. apply wp_ask_any. intros a w1.
  destruct (negb _); [apply wp_ret; split_and!; [by split|apply attrs_refl|done]|].
  apply wp_bind. eapply wp_mono; [by apply wp_init_inner|]. intros [] s Hs. by apply wp_ret.
Qed.

Lemma wp_deinit_inner S l w : sched_good S -> layer_ok l ->
  wp DTAP_SchedulerDeinitInner (S, (l, w)) (fun _ => switched false S DTAP_SUCCESS).
Proof.
  intros HS Hl. unfold DTAP_SchedulerDeinitInner. apply wp_bind, wp_sg. unfold sched_good in HS.
  destruct (g_isInited S) eqn:Hon; cbn [negb].
  2:{ apply wp_ret. split_and!; [|apply attrs_refl|done]. split; [|done]. unfold sched_good. cbn [fst]. by rewrite Hon. }
  do 3 (apply wp_ask_any; intros). apply wp_bind, wp_supd. apply wp_bind.
  apply (wp_for (fun Is s => (forall i, i ∈ Is -> (i < 4)%nat) /\ (sched_inv s.1 /\ same_channel_attrs S s.1) /\
    layer_ok s.2.1 /\ forall i, i ∉ Is -> queue_empty i s.1)).
  - split_and!; [intros i Hi; apply elem_of_seq in Hi; unfold DTAP_PRIORITY_MAX in Hi; lia| |by apply attrs_same|done|].
    + constructor; [apply HS|apply bufs_inv_nil|apply HS..].
    + intros i Hi q Hq. apply lookup_lt_Some in Hq. cbn in Hq. rewrite (si_len _ _ (sv_store _ HS)) in Hq.
      destruct Hi. apply elem_of_seq. unfold DTAP_PRIORITY_MAX. lia.
  - intros i Is [S1 [l1 w9]] (HIs&[HS1 Ha1]&Hl1&He). cbn [fst snd] in *. apply wp_destroy_queue; [done|apply HIs; constructor|].
    intros S2 HS2 _ _ Hoth Hem Ha2. split_and!; [intros j Hj; apply HIs; by constructor|done|by eapply attrs_trans|done|].
    intros j Hj. destruct (decide (j = i)) as [->|Hne]; [done|]. intros q Hq. cbn in Hq. rewrite Hoth in Hq by done.
    apply (He j); [|done]. intros [?|?]%elem_of_cons; done.
  - intros [S1 [l1 w9]] (_&[HS1 Ha1]&Hl1&He). cbn [fst snd] in *. apply wp_supd.
    split_and!; [|by apply (attrs_trans S S1); [|apply attrs_same]|done]. split; [|done].
    unfold sched_good. cbn. assert (off_inv S1) as [O1 O2 O3 O4 O5 O6 O7].
    { apply emptied_off; [done|]. intros i. apply He. apply not_elem_of_nil. }
    by constructor.
Qed.

Lemma wp_deinit S l w : sched_good S -> layer_ok l -> wp DTAP_SchedulerDeinit (S, (l, w)) (switched false S).
Proof.
  intros HS Hl. unfold DTAP_SchedulerDeinit. apply wp_ask_any. intros a w1.
  destruct (negb _); [apply wp_ret; split_and!; [by split|apply attrs_refl|done]|].
  apply wp_bind. eapply wp_mono; [by apply wp_deinit_inner|]. intros [] s Hs. by apply wp_ret.
Qed.

(** ** Channels *)
Lemma wp_channel_down_off L tc S x : off_inv S -> wp (DTAP_ChannelDown L tc) (S, x) (fun _ s => s = (S, x)).
Proof.
  intros HS. unfold DTAP_ChannelDown.
  apply (wp_for (fun Is s => (forall i, i ∈ Is -> (i < 4)%nat) /\ s = (S, x))); [|
    |by intros s' [_ ->]].
  - split; [|done]. intros i Hi. apply elem_of_seq in Hi. unfold DTAP_PRIORITY_MAX in Hi. lia.
  - intros i Is s [HIs ->]. destruct (lookup_lt_is_Some_2 (g_dtapScheduler S) i) as [q Hq].
    { rewrite (of_len _ HS). apply HIs. constructor. }
    unfold DTAP_ChannelDownProc. apply wp_bind, (wp_get_queue _ q); [done|]. destruct (of_empty _ HS i q Hq) as [E _].
    unfold DTAP_GetLcidNode. rewrite E. apply wp_ret. split; [|done]. intros j Hj. apply HIs. by constructor.
Qed.

(** No queue refers to the channel: it can be freed. *)
Definition detached p S : Prop := g_isInited S = true -> forall i, unlinked_from i S (TransChan p).

Definition freed p S : Sched := S <| channels ::= delete (TransChan p) |>.

Lemma good_free p S : sched_good S -> detached p S -> sched_good (freed p S).
Proof.
  intros HS Hd. unfold sched_good, detached in *. cbn. destruct (g_isInited S).
  - destruct HS as [H1 H2 H3 H4]. constructor; [|done..]. cbn. apply store_delete; [done|].
    intros i q n Hq Hn. by apply (Hd eq_refl i q n).
  - destruct HS as [O1 O2 O3 O4 O5 O6 O7]. constructor; try done; cbn.
    + intros r c' [_ Hr]%lookup_delete_Some. by apply O3.
    + intros p1 p2 c1 c2 [_ Hr1]%lookup_delete_Some [_ Hr2]%lookup_delete_Some. by apply O4.
Qed.

Lemma wp_channel_detach p c S x :
  sched_good S -> channels S !! TransChan p = Some c ->
  wp (DTAP_ChannelDown (c_lcid c) (c_srcTcid c)) (S, x) (fun _ s' =>
    s'.2 = x /\ sched_good s'.1 /\ detached p s'.1 /\ same_channel_attrs S s'.1).
Proof.
  intros HS Hc. unfold sched_good in HS. destruct (g_isInited S) eqn:Hon.
  - eapply wp_mono; [by apply wp_channel_down|]. intros [] [S1 x1] [Hd E]. cbn [fst snd] in *. subst x1.
    destruct (cd_globals _ _ _ _ Hd) as (_&Eo&_). split_and!; [done| | |].
    + unfold sched_good. rewrite Eo, Hon. apply Hd.
    + intros _ i. by apply (cd_unlinked _ _ _ _ Hd p c).
    + intros p'. destruct (channels S !! TransChan p') as [c'|] eqn:Hc'.
      * destruct (decide (c_lcid c' = c_lcid c /\ c_srcTcid c' = c_srcTcid c)) as [Hk|Hk].
        -- by rewrite (cd_gone _ _ _ _ Hd p' c').
        -- rewrite (cd_other _ _ _ _ Hd), Hc'; [by destruct c'|done|]. intros c2 Hc2. rewrite Hc' in Hc2. by injection Hc2 as <-.
      * rewrite (cd_other _ _ _ _ Hd), Hc'; [done|done|]. intros c2 Hc2. by rewrite Hc' in Hc2.
  - eapply wp_mono; [by apply wp_channel_down_off|]. intros [] ? ->. split_and!; [done| | |apply attrs_refl].
    + unfold sched_good. cbn. by rewrite Hon.
    + intros E. cbn in E. congruence.
Qed.

Lemma wp_close p S l w :
  sched_good S -> layer_ok l -> is_Some (channels S !! TransChan p) ->
  wp (close_channel p) (S, (l, w)) (fun _ => steady).
Proof.
  intros HS Hl [c Hc]. unfold close_channel. apply wp_bind, (wp_get_chan _ c); [done|]. apply wp_bind.
  eapply wp_mono; [by apply wp_channel_detach|]. intros [] [S1 x1] (E&HS1&Hd&_). cbn [fst snd] in *. subst x1.
  apply wp_supd. split; [|done]. by apply good_free.
Qed.

Lemma good_open S p L tc prio :
  sched_good S -> sched_event_ok (EvOpen p L tc prio) S ->
  sched_good (S <| channels ::= <[TransChan p := mk_schan prio L tc []]> |>).
Proof.
  intros HS (Hp&HL&Hpr&Hkey). unfold sched_good in *. cbn. destruct (g_isInited S).
  - destruct HS as [H1 H2 H3 H4]. constructor; [|done..]. cbn. by apply store_new.
  - destruct HS as [O1 O2 O3 O4 O5 O6 O7].
    assert (forall p' c', p' <> p -> c_lcid c' = L -> channels S !! TransChan p' = Some c' -> c_srcTcid c' = tc -> False) as Hne.
    { intros p' c' _ HL' Hc' Ht. by apply (Hkey p' c'). }
    constructor; try done; cbn.
    + intros r c. destruct (decide (TransChan p = r)) as [<-|Hr]; [|rewrite lookup_insert_ne by done; apply O3].
      rewrite lookup_insert_eq. intros [=<-]. split_and!; [done|by eexists|]. constructor; cbn; [done|done|constructor].
    + intros p1 p2 c1 c2. destruct (decide (p1 = p)) as [->|H1], (decide (p2 = p)) as [->|H2]; [done|..];
        rewrite ?lookup_insert_eq, ?lookup_insert_ne by congruence.
      * intros [=<-] Hc2 El Et. exfalso. by apply (Hne p2 c2).
      * intros Hc1 [=<-] El Et. exfalso. by apply (Hne p1 c1).
      * apply O4.
Qed.

Lemma steady_kept {A} (m : ST state A) S l w :
  wp m (S, (l, w)) (fun _ => kept S l w) -> wp (ignore m) (S, (l, w)) (fun _ => steady).
Proof. intros Hm. apply wp_bind. eapply wp_mono; [exact Hm|]. intros a s (?&?&_). by apply wp_ret. Qed.

Lemma wp_event ev s :
  steady s -> sched_event_ok ev s.1 -> wp (run_sched_event ev) s (fun _ => steady).
Proof.
  destruct s as [S [l w]]. intros [HS Hl] Hev. cbn [fst snd] in *.
  assert (forall m : ST state unit, wp m (S, (l, w)) (fun _ => kept S l w) -> wp m (S, (l, w)) (fun _ => steady)) as Hk.
  { intros m Hm. eapply wp_mono; [exact Hm|]. by intros [] s (?&?&_). }
  destruct ev; cbn [run_sched_event sched_event_ok] in *.
  - apply wp_bind. eapply wp_mono; [by apply wp_init|]. intros a s Hs. apply wp_ret, Hs.
  - apply wp_bind. eapply wp_mono; [by apply wp_deinit|]. intros a s Hs. apply wp_ret, Hs.
  - eapply wp_mono; [by apply wp_init_inner|]. intros [] s Hs. apply Hs.
  - eapply wp_mono; [by apply wp_deinit_inner|]. intros [] s Hs. apply Hs.
  - apply wp_supd. split; [|done]. by apply good_open.
  - by apply wp_close.
  - destruct Hev. by apply steady_kept, wp_send_kept.
  - by apply Hk, wp_complete.
  - apply Hk, wp_connect; [done..|]. by intros L ->.
  - by apply Hk, wp_disconnect.
  - by apply Hk, wp_set_ap.
  - by apply Hk, wp_data_num.
  - apply wp_supd. split; [|done]. cbn [fst]. pose proof (good_bufs S HS). pose proof (good_g S HS). pose proof (good_ap S HS).
    by apply (good_core S).
  - done.
Qed.

Lemma start_good : sched_good g_sched0.
Proof.
  constructor; cbn; try done.
  - intros i q Hq. do 4 (destruct i; [injection Hq as <-; done|]). done.
  - apply bufs_inv_nil.
Qed.

Lemma reachable_steady s : reachable s -> steady s.
Proof.
  induction 1 as [l w Hl|ev s s' Hs IH Hev Hrun]; [by split; [apply start_good|]|].
  pose proof (wp_event ev s IH Hev) as Hwp. unfold wp in Hwp. by rewrite Hrun in Hwp.
Qed.

(** A packet in the log was one of its channel's. *)
Lemma shrunk_logged log p o o' c e :
  shrunk log p o o' -> o = Some c -> tk_chan e = p -> e ∈ log -> tk_pkt e ∈ pktList c.
Proof.
  intros Hs -> Ep He. unfold shrunk in Hs. destruct o' as [c'|]; [|done]. destruct Hs as [_ ->].
  apply elem_of_app. left. apply list_elem_of_fmap. exists e. split; [done|]. by apply list_elem_of_filter.
Qed.

(** ** Theorems *)

(** C20. Safety of the scheduler.  From the start of the process, whatever the other
    parts do (switch the scheduler on and off, create, use and delete channels, report
    connections, completed packets and buffer numbers, refuse packets or memory), every
    next event runs to its end without a dangling pointer, an access out of bounds or an
    endless loop, and the invariant holds: each queue's and node's counter is the number
    of packets it holds, nodes refer to live channels of their own link and priority,
    each channel with packets is in exactly the node it belongs to, and a link never
    has more than [max_frags] left-over fragments. *)
Theorem scheduler_safe s :
  reachable s ->
  (g_isInited s.1 = true -> sched_inv s.1) /\ (g_isInited s.1 = false -> off_inv s.1) /\
  forall ev, sched_event_ok ev s.1 -> exists s', run_sched_event ev s = Some (tt, s') /\ reachable s'.
Proof.
  intros Hs. pose proof (reachable_steady s Hs) as [Hg Hl]. unfold sched_good in Hg. split_and!.
  - intros E. by rewrite E in Hg.
  - intros E. by rewrite E in Hg.
  - intros ev Hev. pose proof (wp_event ev s (reachable_steady s Hs) Hev) as Hwp. unfold wp in Hwp.
    destruct (run_sched_event ev s) as [[[] s']|] eqn:Hrun; [|done]. exists s'. split; [done|]. by eapply reach_event.
Qed.

(** C22. Flow control.  A run never has more packets outstanding than the controller has
    buffers, nor more on a link than the link's quota, unless it sends nothing at all
    (there); the counters of outstanding packets, of 8 and 32 bits, grow by exactly the
    packets that the DLI layer accepted, without wrapping; and nothing is sent on a link
    that is not connected. *)
Theorem scheduler_flow_control s :
  reachable s -> g_isInited s.1 = true ->
  wp DTAP_SchedulerRun s (fun _ s' => exists t, trace s'.2.2 = trace s.2.2 ++ t /\
    g_sendNotAckPktCnt s'.1 = g_sendNotAckPktCnt s.1 + zlen (accepted t) /\
    (accepted t = [] \/ g_sendNotAckPktCnt s'.1 <= g_apBufferNum s.1) /\
    forall L, match DTAP_GetLcidBufferNode L s.1, DTAP_GetLcidBufferNode L s'.1 with
              | Some n, Some n' =>
                  quota n' = quota n /\
                  sendNotAckPktCnt n' = sendNotAckPktCnt n + zlen (sent_on L t) /\
                  (sent_on L t = [] \/ sendNotAckPktCnt n' <= quota n)
              | None, None => sent_on L t = []
              | _, _ => False
              end).
Proof.
  intros Hr Hon. destruct s as [S [l w]]. cbn [fst snd] in *. destruct (reachable_steady _ Hr) as [HS Hl].
  unfold sched_good in HS. cbn [fst snd] in *. rewrite Hon in HS.
  eapply wp_mono; [by apply run_spec|]. intros [] s' (log&t&[T HS' _ _ R]&_). exists t.
  split; [done|]. split; [apply R|]. split; [apply R|]. intros L.
  pose proof (bufs_ran_find _ _ _ L (rn_bufs _ _ _ _ R)) as Hf. unfold DTAP_GetLcidBufferNode.
  destruct (find_bufnode L (g_lcidBufferList S)) as [n|] eqn:Hn, (find_bufnode L (g_lcidBufferList s'.1)) as [n'|]; try done.
  - destruct (find_bufnode_spec _ _ _ Hn) as [_ <-]. destruct Hf as (_&?&?&?). done.
  - destruct (sent_on L t) as [|d ds] eqn:E; [done|]. exfalso.
    assert (d ∈ sent_on L t) as Hd by (rewrite E; constructor). unfold sent_on in Hd.
    apply list_elem_of_fmap in Hd as ([L' d']&->&[HL Hin]%list_elem_of_filter). cbn in HL. subst L'.
    destruct (rn_known _ _ _ _ R _ _ Hin) as [n Hn2]. unfold DTAP_GetLcidBufferNode in Hn2. congruence.
Qed.

(** C21. Order.  A run takes packets from the front of the channels: there is a log of
    the packets taken, each of a live channel, under that channel's link, such that each
    channel's packets before the run are those the log has of it, in the log's order and
    each once, followed by those that stay.  When moreover no allocation fails and the
    DLI layer accepts every fragment it is offered, the fragments sent on a link,
    followed by those left over for later, are exactly those left over before, followed
    by the fragments of the packets taken on the link in the order of the log: nothing
    is lost or sent twice, and fragments of two packets of a link are not interleaved. *)
Theorem scheduler_order s :
  reachable s -> g_isInited s.1 = true ->
  wp DTAP_SchedulerRun s (fun _ s' => exists log t, trace s'.2.2 = trace s.2.2 ++ t /\
    (forall e, e ∈ log -> exists c, channels s.1 !! TransChan (tk_chan e) = Some c /\
       tk_lcid e = c_lcid c /\ tk_pkt e ∈ pktList c) /\
    (forall p c, channels s.1 !! TransChan p = Some c ->
       exists rest, channels s'.1 !! TransChan p = Some (c <| pktList := rest |>) /\
         pktList c = map tk_pkt (filter (fun e => tk_chan e = p) log) ++ rest) /\
    (clean t -> forall L,
       sent_on L t ++ left_over s'.1 L = left_over s.1 L ++ concat (map (pkt_frags s.2.1) (on_link L log)))).
Proof.
  intros Hr Hon. destruct s as [S [l w]]. cbn [fst snd] in *. destruct (reachable_steady _ Hr) as [HS Hl].
  unfold sched_good in HS. cbn [fst snd] in *. rewrite Hon in HS.
  eapply wp_mono; [by apply run_spec|]. intros [] s' (log&t&[T HS' _ _ R]&Ho&_). exists log, t.
  split; [done|]. split; [|split; [|by apply Ho]].
  - intros e He. destruct (rn_log _ _ _ _ R e He) as (c&Hc&E). exists c. split_and!; [done|done|].
    eapply shrunk_logged; [|exact Hc|done|exact He]. apply (rn_chans _ _ _ _ R).
  - intros p c Hc. pose proof (rn_chans _ _ _ _ R p) as Hs. rewrite Hc in Hs.
    unfold shrunk in Hs. destruct (channels s'.1 !! TransChan p) as [c'|]; [|done]. destruct Hs as [E1 E2].
    exists (pktList c'). by rewrite <- E1.
Qed.

(** C23. Work conservation.  When a run ends, unless memory or the DLI layer failed, or a
    packet waits that cannot be split into fragments, no link that could still send,
    the controller having a buffer and the link quota, has a packet waiting in any
    queue. *)
Theorem scheduler_work_conserving s :
  reachable s -> g_isInited s.1 = true -> ~ blocked s.2.1 s.1 ->
  wp DTAP_SchedulerRun s (fun _ s' => exists t, trace s'.2.2 = trace s.2.2 ++ t /\
    (clean t -> forall r c, channels s'.1 !! r = Some c -> DTAP_CanSend s'.1 (c_lcid c) = true -> pktList c = [])).
Proof.
  intros Hr Hon Hnb. destruct s as [S [l w]]. cbn [fst snd] in *. destruct (reachable_steady _ Hr) as [HS Hl].
  unfold sched_good in HS. cbn [fst snd] in *. rewrite Hon in HS.
  eapply wp_mono; [by apply run_spec|]. intros [] s' (log&t&St&_&Hc). exists t.
  split; [apply St|]. intros Ct r c Hrc Hcan. pose proof (si_chans _ _ (sv_store _ (st_inv _ _ _ _ _ _ _ _ St)) r c Hrc) as Hci.
  pose proof (ci_kind _ _ Hci) as Hk. unfold DTAP_PRIORITY_FRAGMENT in Hk.
  apply (Hc I Ct Hnb (Z.to_nat (c_priority c)) (c_lcid c)) with r; [destruct r; lia|done|done|done|destruct r; lia].
Qed.

(** C28. [DTAP_DataSendWithPriority], on every branch: while the scheduler is off or
    without a buffer it only answers an error; when the queue of the channel's priority
    is full, or memory for the packet or its node fails, no channel or queue changes;
    otherwise the packet joins the end of its channel, and the scheduler runs. *)
Theorem data_send_spec s p c buff :
  reachable s -> channels s.1 !! TransChan p = Some c ->
  match buff with Some b => sendable b | None => True end ->
  wp (SendWithPriority (TransChan p) buff) s (fun ret s' =>
    if negb (g_isInited s.1) then ret = DTAP_TRANS_INIT_ERR /\ s' = s
    else match buff with
         | None => ret = DTAP_TRANS_INVALID_PARAM_ERR /\ s' = s
         | Some b => send_result p c b s.1 s.2.1 s.2.2 ret s'
         end).
Proof.
  intros Hr Hc Hb. destruct s as [S [l w]]. cbn [fst snd] in *. destruct (reachable_steady _ Hr) as [HS Hl].
  unfold sched_good in HS. cbn [fst snd] in *. destruct (g_isInited S) eqn:Hon; cbn [negb].
  2:{ unfold SendWithPriority. apply wp_bind, wp_sg. rewrite Hon. by apply wp_ret. }
  destruct buff as [b|]; [by apply wp_send_priority|].
  unfold SendWithPriority. apply wp_bind, wp_sg. rewrite Hon. by apply wp_ret.
Qed.

(** C29. [DTAP_ChannelDown] empties the channel with the link and identifier given and
    unlinks it from every queue, so that it can be freed, and leaves all other channels
    and their packets alone, except that the left-over fragments of the link are
    dropped, to whichever of its channels they belong. *)
Theorem channel_down_spec s L tc :
  reachable s -> g_isInited s.1 = true ->
  wp (DTAP_ChannelDown L tc) s (fun _ s' => s'.2 = s.2 /\ sched_inv s'.1 /\
    (forall p c, channels s.1 !! TransChan p = Some c -> c_lcid c = L -> c_srcTcid c = tc ->
       channels s'.1 !! TransChan p = Some (c <| pktList := [] |>) /\
       forall i q n, g_dtapScheduler s'.1 !! i = Some q -> n ∈ lcidList q -> TransChan p ∉ channelList n) /\
    channels s'.1 !! FragChan L = None /\
    (forall r, r <> FragChan L ->
       (forall c, channels s.1 !! r = Some c -> ~ (c_lcid c = L /\ c_srcTcid c = tc)) ->
       channels s'.1 !! r = channels s.1 !! r)).
Proof.
  intros Hr Hon. destruct s as [S [l w]]. cbn [fst snd] in *. destruct (reachable_steady _ Hr) as [HS Hl].
  unfold sched_good in HS. cbn [fst snd] in *. rewrite Hon in HS.
  eapply wp_mono; [by apply wp_channel_down|]. intros [] s' [Hd E]. split; [done|]. split; [apply Hd|]. split.
  - intros p c Hc E1 E2. split; [by eapply cd_gone|]. intros i. by apply (cd_unlinked _ _ _ _ Hd p c i).
  - split; apply Hd.
Qed.

(** ** The scheduler under the transmission modes *)
Definition registered (ch : DTAP_Channel) S : Prop :=
  exists c, channels S !! TransChan (ch_ptr ch) = Some c /\
    c_lcid c = ch_lcid ch /\ c_srcTcid c = ch_srcTcid ch /\ c_priority c = ch_priority ch.

Lemma registered_kept ch S S' : same_channel_attrs S S' -> registered ch S -> registered ch S'.
Proof.
  intros Ha (c&Hc&E1&E2&E3). specialize (Ha (ch_ptr ch)). rewrite Hc in Ha.
  destruct (channels S' !! TransChan (ch_ptr ch)) as [c'|] eqn:E; [|done]. exists c'. rewrite E, Ha. done.
Qed.

Lemma scheduler_ask ch c (s : state) a s' :
  sched_good s.1 /\ layer_ok s.2.1 /\ registered ch s.1 -> ask c s = Some (a, s') ->
  sched_good s'.1 /\ layer_ok s'.2.1 /\ registered ch s'.1.
Proof.
  destruct s as [S [l w]]. intros Hok. cbn. unfold over. cbn. destruct (ask c w) as [[a' w']|]; [|done].
  by intros [=<- <-].
Qed.

Lemma scheduler_send ch buff (s : state) :
  sched_good s.1 /\ layer_ok s.2.1 /\ registered ch s.1 ->
  match buff with Some b => sendable b | None => True end ->
  wp (SendWithPriority (TransChan (ch_ptr ch)) buff) s (fun _ s' =>
    (sched_good s'.1 /\ layer_ok s'.2.1 /\ registered ch s'.1) /\
    exists t, trace s' = trace s ++ t /\ Forall (fun '(c, _) => sched_call c) t).
Proof.
  destruct s as [S [l w]]. intros (HS&Hl&Hreg) Hb. cbn [fst snd] in *.
  eapply wp_mono; [apply wp_send_kept; try done|].
  - destruct Hreg as (c&Hc&_). by exists c.
  - intros ret s' (?&?&Ha&Hx). split; [|exact Hx]. split_and!; [done..|by eapply registered_kept].
Qed.

#[export] Instance DtapScheduler : Scheduler state := {
  DTAP_DataSendWithPriority := fun ch => SendWithPriority (TransChan (ch_ptr ch));
  sched_ok := fun ch s => sched_good s.1 /\ layer_ok s.2.1 /\ registered ch s.1;
  sched_ask := scheduler_ask;
  sched_send := scheduler_send
}.

(** The state after an event, which by [wp_event] always exists. *)
Definition exec (ev : sched_event) (s : state) : state :=
  match run_sched_event ev s with Some (_, s') => s' | None => s end.

Lemma reach_exec ev s : reachable s -> sched_event_ok ev s.1 -> reachable (exec ev s).
Proof.
  intros Hs Hev. pose proof (wp_event ev s (reachable_steady s Hs) Hev) as Hwp. unfold wp in Hwp. unfold exec.
  destruct (run_sched_event ev s) as [[[] s']|] eqn:Hrun; [|done]. by eapply reach_event.
Qed.

Lemma open_ok S p L tc prio :
  channels S = ∅ -> 0 <= L < 4096 -> 1 <= prio <= 3 -> sched_event_ok (EvOpen p L tc prio) S.
Proof. intros E HL Hp. cbn. rewrite E. split_and!; [apply lookup_empty|lia..|]. intros p' c'. by rewrite lookup_empty. Qed.
End machine.

(** ** One link, one channel

    The packet of three fragments meets a controller with one buffer, which then turns
    out to have four. *)
Section demo.
Definition demo_world : script := mk_script ([0] ++ replicate 12 1 ++ [0] ++ replicate 6 1 ++ [0; 1; 1; 0]) [].
Definition demo_start : Sched * (DLI_LayerInfo * script) := (g_sched0, (demo_layer, demo_world)).
Definition demo_open := exec (EvOpen 10 9 5 2) (exec (EvSetAp 1) (exec (EvConnect 0 (Some 9)) (exec EvInit demo_start))).
Definition demo_sched := exec (EvSetAp 4) (exec (EvSend 10 (Some demo_packet)) demo_open).
Definition demo_chan (pkts : list DTAP_PendingPacket) : SchedChannel := mk_schan 2 9 5 pkts.

Lemma demo_sendable : sendable demo_packet.
Proof. split; [apply demo_packet_ok|]. by split. Qed.

Lemma demo_open_reachable : reachable demo_open.
Proof.
  unfold demo_open. apply reach_exec.
  - do 3 (apply reach_exec; [|cbn; first [lia|done]]). by apply reach_start.
  - by apply open_ok.
Qed.

Lemma demo_sched_reachable : reachable demo_sched.
Proof.
  unfold demo_sched. apply reach_exec; [|done]. apply reach_exec; [apply demo_open_reachable|].
  split; [vm_compute; by eexists|apply demo_sendable].
Qed.

Lemma scheduler_safe_witness :
  reachable demo_sched /\ exists s', run_sched_event (EvComplete 9 1) demo_sched = Some (tt, s') /\ reachable s'.
Proof.
  split; [apply demo_sched_reachable|].
  destruct (scheduler_safe demo_sched demo_sched_reachable) as (_&_&Hev).
  exact (Hev (EvComplete 9 1) Z.le_0_1).
Defined.

Lemma demo_sent : g_sendNotAckPktCnt demo_sched.1 = 1.
Proof. vm_compute. reflexivity. Qed.
Lemma demo_buffers : g_apBufferNum demo_sched.1 = 4.
Proof. vm_compute. reflexivity. Qed.
Lemma demo_left : left_over demo_sched.1 9 = [[163; 9; 32; 3; 0; 14; 15; 16]; [163; 9; 48; 1; 0; 17]].
Proof. vm_compute. reflexivity. Qed.

Lemma scheduler_flow_control_witness :
  wp DTAP_SchedulerRun demo_sched (fun _ s' => exists t, trace s'.2.2 = trace demo_sched.2.2 ++ t /\
    g_sendNotAckPktCnt s'.1 = 1 + zlen (accepted t) /\ (accepted t = [] \/ g_sendNotAckPktCnt s'.1 <= 4)).
Proof.
  eapply wp_mono; [apply (scheduler_flow_control demo_sched demo_sched_reachable)|]; [by vm_compute|].
  intros _ s' (t&H1&H2&H3&_). rewrite demo_sent in H2. rewrite demo_buffers in H3. exists t. exact (conj H1 (conj H2 H3)).
Defined.

Lemma scheduler_order_witness :
  wp DTAP_SchedulerRun demo_sched (fun _ s' => exists t log, trace s'.2.2 = trace demo_sched.2.2 ++ t /\
    (clean t -> sent_on 9 t ++ left_over s'.1 9 =
      [[163; 9; 32; 3; 0; 14; 15; 16]; [163; 9; 48; 1; 0; 17]] ++
      concat (map (pkt_frags demo_sched.2.1) (on_link 9 log)))).
Proof.
  eapply wp_mono; [apply (scheduler_order demo_sched demo_sched_reachable)|]; [by vm_compute|].
  intros _ s' (log&t&H1&_&_&H2). exists t, log. split; [exact H1|]. intros Hc.
  rewrite <- demo_left. exact (H2 Hc 9).
Defined.

Lemma demo_not_blocked : ~ blocked demo_sched.2.1 demo_sched.1.
Proof.
  intros (r&p&Hp&Hs&_). unfold chan_pkts in Hp. destruct (channels demo_sched.1 !! r) as [c|] eqn:Hr.
  2:{ by apply not_elem_of_nil in Hp. }
  assert (Forall (fun '(_, c) => Forall (fun p => isSplited p = true) (pktList c)) (map_to_list (channels demo_sched.1))) as Hall.
  { vm_compute. by repeat constructor. }
  rewrite Forall_forall in Hall. specialize (Hall (r, c)). rewrite elem_of_map_to_list in Hall.
  specialize (Hall Hr). cbv beta iota in Hall. rewrite Forall_forall in Hall. specialize (Hall p Hp). congruence.
Qed.

Lemma scheduler_work_conserving_witness :
  wp DTAP_SchedulerRun demo_sched (fun _ s' => exists t, trace s'.2.2 = trace demo_sched.2.2 ++ t /\
    (clean t -> forall r c, channels s'.1 !! r = Some c -> DTAP_CanSend s'.1 (c_lcid c) = true -> pktList c = [])).
Proof.
  apply (scheduler_work_conserving demo_sched demo_sched_reachable); [by vm_compute|apply demo_not_blocked].
Defined.

Lemma data_send_spec_witness :
  wp (SendWithPriority (TransChan 10) (Some demo_packet)) demo_open
    (send_result 10 (demo_chan []) demo_packet demo_open.1 demo_open.2.1 demo_open.2.2).
Proof.
  exact (data_send_spec demo_open 10 (demo_chan []) (Some demo_packet) demo_open_reachable
           ltac:(vm_compute; reflexivity) demo_sendable).
Defined.

Lemma channel_down_spec_witness :
  wp (DTAP_ChannelDown 9 5) demo_sched (fun _ s' => s'.2 = demo_sched.2 /\
    channels s'.1 !! TransChan 10 = Some (demo_chan []) /\ channels s'.1 !! FragChan 9 = None).
Proof.
  eapply wp_mono; [apply (channel_down_spec demo_sched 9 5 demo_sched_reachable)|]; [by vm_compute|].
  intros _ s' (H1&_&H2&H3&_). split; [exact H1|]. split; [|exact H3].
  apply (H2 10 (demo_chan [])); by vm_compute.
Defined.
End demo.
