(* ===== verification/DtapReliable.v ===== *)
(** * Reliable transmission

    [services/stack/src/dp/dtap/src/dtap_trans_reliable.c], and the part of
    [dtap.c] that resends a packet which did not fit the window.  The state is
    the channel's [attr] next to a world with a scheduler; [ch] is the rest of the
    channel, which this code only reads. *)
From S2P Require Import Prelude Utils SdfErrno SdfBuff DtapEnv DtapFrame DtapFragment DtapTrans.

Definition SEND_POLLING_CNT_THRESHOLD_FACTOR : Z := 4.
Definition MAX_BASE_RETRANS_TIMEOUT : Z := 15.
Definition UINT16_MAX : Z := 65535.

Record DTAP_TxWindow := mk_tx {
  tx_size : Z;
  nextTxSeq : Z;
  expectedAckSeq : Z;
  txList : list DTAP_Frame
}.
#[export] Instance eta_tx : Eta DTAP_TxWindow := fun w =>
  mk_tx (tx_size w) (nextTxSeq w) (expectedAckSeq w) (txList w).

Record DTAP_RxWindow := mk_rx {
  rx_size : Z;
  bufferSeq : Z;
  expectedTxSeq : Z;
  maxExpectedTxSeq : Z;
  rxList : list DTAP_Frame
}.
#[export] Instance eta_rx : Eta DTAP_RxWindow := fun w =>
  mk_rx (rx_size w) (bufferSeq w) (expectedTxSeq w) (maxExpectedTxSeq w) (rxList w).

Record DTAP_ReliableChannel := mk_reliable {
  reorderTimeout : Z;
  crcInit : Z;
  retransTimeout : Z;
  rspTimeout : Z;
  maxTxThreshold : Z;
  reorderTimer : Z;
  retransTimer : Z;
  rspTimer : Z;
  isRecvFrame : bool;
  isRxWindowFull : bool;
  reTxSeq : Z;
  txWindow : DTAP_TxWindow;
  nackCnt : Z;
  rxWindow : DTAP_RxWindow;
  frags : option SDF_Buff;
  cachePi : Z;
  cacheBuff : option SDF_Buff;
  sendPollingCounter : Z;
  isTxWindowFull : bool;
  isDestroyMsgSent : bool
}.
#[export] Instance eta_reliable : Eta DTAP_ReliableChannel := fun r =>
  mk_reliable (reorderTimeout r) (crcInit r) (retransTimeout r) (rspTimeout r) (maxTxThreshold r)
    (reorderTimer r) (retransTimer r) (rspTimer r) (isRecvFrame r) (isRxWindowFull r) (reTxSeq r)
    (txWindow r) (nackCnt r) (rxWindow r) (frags r) (cachePi r) (cacheBuff r)
    (sendPollingCounter r) (isTxWindowFull r) (isDestroyMsgSent r).

Definition set_tx (f : DTAP_TxWindow -> DTAP_TxWindow) (r : DTAP_ReliableChannel) :
    DTAP_ReliableChannel := r <| txWindow ::= f |>.
Definition set_rx (f : DTAP_RxWindow -> DTAP_RxWindow) (r : DTAP_ReliableChannel) :
    DTAP_ReliableChannel := r <| rxWindow ::= f |>.

Definition DTAP_FindFrameBySeq (head : list DTAP_Frame) (seq : Z) : option DTAP_Frame :=
  find_first (fun frame => txSeq frame =? seq) head.

(** The write-back through the pointer [DTAP_FindFrameBySeq] answers. *)
Definition put_frame (seq : Z) (frame : DTAP_Frame) (head : list DTAP_Frame) : list DTAP_Frame :=
  update_first (fun f => txSeq f =? seq) (fun _ => frame) head.

Definition DTAP_CheckEnhanceFrameTxSeq (window : DTAP_RxWindow) (txSeq : Z) : bool :=
  if DTAP_IsFrameSeqSmaller txSeq (expectedTxSeq window) then false
  else if txSeq =? expectedTxSeq window then true
  else
    let boundarySeq := Z.land (u16 (bufferSeq window + rx_size window)) DTAP_FRAME_SEQ_MAX in
    if negb (DTAP_IsFrameSeqSmaller txSeq boundarySeq) then false
    else match DTAP_FindFrameBySeq (rxList window) txSeq with None => true | Some _ => false end.

(** [None] is a null function pointer or a load outside the frame's block. *)
Definition DTAP_CheckEnhanceFrame (channel : DTAP_ReliableChannel) (dtapFrame : DTAP_Frame) :
    option bool :=
  frameType ← frame_type dtapFrame;
  if negb ((DTAP_FRAME_SIMPLEX_AGGR <=? frameType) && (frameType <=? DTAP_FRAME_ACK))
  then Some false
  else
    b ← f_buff dtapFrame;
    data ← window_bytes b;
    if negb (CRC16 (crcInit channel) data =? 0) then Some false
    else if frameType =? DTAP_FRAME_ACK then Some true
    else Some (DTAP_CheckEnhanceFrameTxSeq (rxWindow channel) (txSeq dtapFrame)).

Definition DTAP_CalculateRetransTimeout (baseTimeout count : Z) : Z :=
  if count =? 0 then baseTimeout
  else
    let safeCount := if MAX_BASE_RETRANS_TIMEOUT <? count then MAX_BASE_RETRANS_TIMEOUT else count in
    if Z.shiftr UINT16_MAX safeCount <? baseTimeout then UINT16_MAX
    else u16 (Z.shiftl baseTimeout safeCount).

(** The store of new indicator bits to a frame's header, and its checksum anew. *)
Definition DTAP_SetPbitForSendPolling (frame : DTAP_Frame) (crcInit : Z) : option DTAP_Frame :=
  b ← f_buff frame;
  let frameHeader := SDF_DataOffset b in
  typeBits ← rd (bmem b) (frameHeader + 1);
  let oriBits := Z.shiftr typeBits DTAP_BASIC_FRAME_BITS_SHIFT in
  let newBits := Z.lor oriBits DTAP_FRAME_P_BIT in
  if oriBits =? newBits then Some frame
  else
    m ← DTAP_SetFrameBit (bmem b) frameHeader newBits;
    let frame := frame <| f_buff := Some (b <| bmem := m |>) |> in
    '(ret, frame) ← DTAP_ReCalculateCrcValue crcInit frame;
    if negb (ret =? DTAP_SUCCESS) then
      b ← f_buff frame;
      m ← DTAP_SetFrameBit (bmem b) frameHeader oriBits;
      Some (frame <| f_buff := Some (b <| bmem := m |>) |>)
    else Some frame.

Definition DTAP_SetBitForSendPolling (frame : DTAP_Frame) (crcInit : Z) : option DTAP_Frame :=
  b ← f_buff frame;
  let frameHeader := SDF_DataOffset b in
  typeBits ← rd (bmem b) (frameHeader + 1);
  let oriBits := Z.shiftr typeBits DTAP_BASIC_FRAME_BITS_SHIFT in
  let newBits := Z.lor oriBits DTAP_FRAME_P_BIT in
  m ← DTAP_SetFrameBit (bmem b) frameHeader newBits;
  '(_, frame) ← DTAP_ReCalculateCrcValue crcInit (frame <| f_buff := Some (b <| bmem := m |>) |>);
  Some frame.

Definition DTAP_TriggerSendPolling (reliable : DTAP_ReliableChannel) : bool * DTAP_ReliableChannel :=
  if tx_size (txWindow reliable) <=? sendPollingCounter reliable * SEND_POLLING_CNT_THRESHOLD_FACTOR
  then (true, reliable <| sendPollingCounter := 0 |>)
  else (false, reliable <| sendPollingCounter := u8 (sendPollingCounter reliable + 1) |>).

Section reliable.
Context {W : Type} `{Scheduler W}.
Notation M := (ST (DTAP_ReliableChannel * W)).

(** The channel of the call, a constant of the section: [const DTAP_Channel_S *]. *)
Context (ch : DTAP_Channel).

Definition rel {A} (f : DTAP_ReliableChannel -> A) : M A := st_gets (fun s => f (fst s)).
Definition upd (f : DTAP_ReliableChannel -> DTAP_ReliableChannel) : M unit :=
  st_modify (fun s => (f (fst s), snd s)).

(** ** Timers of the channel: [(void)DTAP_TransRestartTimer(&reliable->t, ...)] *)
Definition restart_rsp : M unit :=
  let! r := rel id in
  let! (_, t) := over (DTAP_TransRestartTimer (rspTimer r) (rspTimeout r) true RspTimerExpireProc) in
  upd (fun r => r <| rspTimer := t |>).
Definition restart_retrans (expire : Z) : M unit :=
  let! r := rel id in
  let! (_, t) := over (DTAP_TransRestartTimer (retransTimer r) expire true RetransTimerExpireProc) in
  upd (fun r => r <| retransTimer := t |>).
Definition restart_reorder : M unit :=
  let! r := rel id in
  let! (_, t) := over (DTAP_TransRestartTimer (reorderTimer r) (reorderTimeout r) true
                         ReorderTimerExpireProc) in
  upd (fun r => r <| reorderTimer := t |>).

(** ** Acknowledgements *)
Definition DTAP_SendAckFrame (fBit sBit : bool) : M Z :=
  let! r := rel id in
  let bits := Z.lor DTAP_FRAME_C_BIT (if fBit then DTAP_FRAME_F_BIT else 0) in
  let seq := if sBit then expectedTxSeq (rxWindow r) else bufferSeq (rxWindow r) in
  match DTAP_GetFrameCtx DTAP_FRAME_ACK with
  | None => st_ret DTAP_TRANS_RELIABLE_GET_CTX_ERR
  | Some c =>
      let frame := mk_frame None None None None bits 0 seq sBit 0 0 0 0 0 0 0 (Some c) in
      let! (ret, frame) := over (buildFrame c frame (ch_dstTcid ch) (crcInit r)) in
      if negb (ret =? DTAP_SUCCESS) then st_ret ret
      else over (DTAP_SendFrame ch (f_buff frame))
  end.

Definition DTAP_RspTimerExpireProc : M unit :=
  let! ret := DTAP_SendAckFrame false false in
  st_ret tt.

(** ** Releasing the channel *)
Definition DTAP_DynTransChannReleaseReq : M unit :=
  let! sent := rel isDestroyMsgSent in
  if (sent : bool) then st_ret tt
  else
    let! node := over (ask (CFindTransChannel (ch_lcid ch) (ch_srcTcid ch))) in
    if node =? 0 then st_ret tt
    else
      let! ret := over (ask (CReleaseReq (ch_srcTcid ch) (ch_dstTcid ch))) in
      upd (fun r => r <| isDestroyMsgSent := true |>).

Definition DTAP_ReorderTimerExpireProc : M unit :=
  let! r := rel id in
  if maxTxThreshold r <=? nackCnt r then DTAP_DynTransChannReleaseReq
  else
    let! ret := DTAP_SendAckFrame false true in
    if negb (ret =? DTAP_SUCCESS) then st_ret tt
    else
      restart_rsp ;;!
      upd (fun r => r <| nackCnt := u8 (nackCnt r + 1) |>).

(** ** Retransmission *)
Definition DTAP_RetransEnhanceFrame : M Z :=
  let! r := rel id in
  let seq := reTxSeq r in
  match DTAP_FindFrameBySeq (txList (txWindow r)) seq with
  | None => st_ret DTAP_TRANS_RELIABLE_FIND_FRAME_ERR
  | Some frame =>
      if maxTxThreshold r <=? reTxCnt frame then
        DTAP_DynTransChannReleaseReq ;;!
        st_ret DTAP_TRANS_RELIABLE_REACH_MAX_RE_TX_CNT_ERR
      else
        let! frame := st_opt (DTAP_SetPbitForSendPolling frame (crcInit r)) in
        upd (set_tx (fun w => w <| txList ::= put_frame seq frame |>)) ;;!
        let! ok := over alloc_ok in
        match SDF_BuffCopy ok (f_buff frame) with
        | None => st_ret DTAP_TRANS_RELIABLE_COPY_BUFF_ERR
        | Some buff =>
            let! ret := over (DTAP_SendFrame ch (Some buff)) in
            if negb (ret =? DTAP_SUCCESS) then st_ret ret
            else
              let frame := frame <| reTxCnt := u8 (reTxCnt frame + 1) |> in
              upd (set_tx (fun w => w <| txList ::= put_frame seq frame |>)) ;;!
              let! frameType := st_opt (frame_type frame) in
              (if frameType =? DTAP_FRAME_DUPLEX_FRAG then restart_rsp else st_ret tt) ;;!
              restart_retrans (DTAP_CalculateRetransTimeout (retransTimeout r) (reTxCnt frame)) ;;!
              st_ret DTAP_SUCCESS
        end
  end.

Definition DTAP_RetransTimerExpireProc : M unit :=
  let! r := rel id in
  if zlen (txList (txWindow r)) =? 0 then st_ret tt
  else
    upd (fun r => r <| reTxSeq := expectedAckSeq (txWindow r) |>) ;;!
    let! ret := DTAP_RetransEnhanceFrame in
    st_ret tt.

(** ** Receiving acknowledgements *)

(** The removal loop: the frames at the front that precede [reqSeq]. *)
Fixpoint drop_acked (reqSeq : Z) (l : list DTAP_Frame) : list DTAP_Frame :=
  match l with
  | [] => []
  | frame :: l' =>
      if DTAP_IsFrameSeqSmaller (txSeq frame) reqSeq then drop_acked reqSeq l' else frame :: l'
  end.

Definition DTAP_SlideTxWindow (dtapFrame : DTAP_Frame) : M unit :=
  let! frameType := st_opt (frame_type dtapFrame) in
  let seq := if frameType =? DTAP_FRAME_ACK then ack_reqSeq dtapFrame else reqSeq dtapFrame in
  if seq =? DTAP_FRAME_SEQ_INIT then st_ret tt
  else
    upd (fun r => r <| sendPollingCounter := 0 |>) ;;!
    let! r := rel id in
    if zlen (txList (txWindow r)) =? 0 then st_ret tt
    else
      (if DTAP_IsFrameSeqSmaller (reTxSeq r) seq then upd (fun r => r <| reTxSeq := seq |>)
       else st_ret tt) ;;!
      if (DTAP_IsFrameSeqSmaller (expectedAckSeq (txWindow r)) seq
          && DTAP_IsFrameSeqSmaller seq (nextTxSeq (txWindow r)))
         || (seq =? nextTxSeq (txWindow r))
      then
        upd (set_tx (fun w => w <| expectedAckSeq := seq |> <| txList ::= drop_acked seq |>)) ;;!
        let! r := rel id in
        if expectedAckSeq (txWindow r) =? nextTxSeq (txWindow r) then
          let! t := over (DTAP_TransStopTimer (retransTimer r)) in
          upd (fun r => r <| retransTimer := t |>)
        else restart_retrans (retransTimeout r)
      else st_ret tt.

Definition DTAP_RecvNackFrame (dtapFrame : DTAP_Frame) : M Z :=
  let! frameType := st_opt (frame_type dtapFrame) in
  if (frameType =? DTAP_FRAME_ACK) && ack_sBit dtapFrame then
    upd (fun r => r <| reTxSeq := ack_reqSeq dtapFrame |>) ;;!
    let! ret := DTAP_RetransEnhanceFrame in
    if ret =? DTAP_TRANS_RELIABLE_REACH_MAX_RE_TX_CNT_ERR
    then st_ret DTAP_TRANS_RELIABLE_REACH_MAX_RE_TX_CNT_ERR
    else st_ret DTAP_SUCCESS
  else st_ret DTAP_SUCCESS.

(** ** Receiving data *)

(** The insertion loop: before the first frame with a later sequence number. *)
Fixpoint insert_by_seq (frame : DTAP_Frame) (l : list DTAP_Frame) : list DTAP_Frame :=
  match l with
  | [] => [frame]
  | cur :: l' =>
      if DTAP_IsFrameSeqSmaller (txSeq frame) (txSeq cur) then frame :: l
      else cur :: insert_by_seq frame l'
  end.

(** The search loop over [n] sequence numbers from [seq] on: the first missing. *)
Fixpoint first_missing (n : nat) (l : list DTAP_Frame) (seq : Z) : option Z :=
  match n with
  | O => None
  | Datatypes.S n' =>
      match DTAP_FindFrameBySeq l seq with
      | None => Some seq
      | Some _ => first_missing n' l (DTAP_GetNextFrameSeq seq)
      end
  end.

Definition DTAP_SlideRxWindow (dtapFrame : DTAP_Frame) : M unit :=
  let seq := txSeq dtapFrame in
  upd (fun r => r <| isRecvFrame := true |>) ;;!
  upd (set_rx (fun w => w <| rxList ::= insert_by_seq dtapFrame |>)) ;;!
  let! r := rel id in
  (if seq =? expectedTxSeq (rxWindow r) then
     match first_missing (Z.to_nat (rx_size (rxWindow r))) (rxList (rxWindow r))
             (DTAP_GetNextFrameSeq seq) with
     | Some next =>
         upd (set_rx (fun w => w <| expectedTxSeq := next |>)) ;;!
         upd (fun r => r <| nackCnt := 0 |>)
     | None => st_ret tt
     end
   else st_ret tt) ;;!
  if DTAP_IsFrameSeqSmaller (maxExpectedTxSeq (rxWindow r)) seq
     || (maxExpectedTxSeq (rxWindow r) =? seq)
  then upd (set_rx (fun w => w <| maxExpectedTxSeq := DTAP_GetNextFrameSeq seq |>))
  else st_ret tt.

Definition DTAP_OperateReorderTimer : M unit :=
  let! r := rel id in
  let w := rxWindow r in
  if reorderTimer r =? INVALID_TIMER_HANDLE then
    if DTAP_IsFrameSeqSmaller (expectedTxSeq w) (maxExpectedTxSeq w) then
      let! (_, t) := over (DTAP_TransStartTimer (reorderTimer r) (reorderTimeout r) true
                             ReorderTimerExpireProc) in
      upd (fun r => r <| reorderTimer := t |>)
    else st_ret tt
  else if expectedTxSeq w =? maxExpectedTxSeq w then
    let! t := over (DTAP_TransStopTimer (reorderTimer r)) in
    upd (fun r => r <| reorderTimer := t |>)
  else if DTAP_IsFrameSeqSmaller (expectedTxSeq w) (maxExpectedTxSeq w) then restart_reorder
  else st_ret tt.

(** The switch over the type of the frame at the front: the status, [*frags] and
    the frame as the delivery left it. *)
Definition recv_by_type (buffs : option SDF_Buff) (frame : DTAP_Frame) (recvCb : DTAP_DataRecvCb) :
    ST W (Z * option SDF_Buff * DTAP_Frame) :=
  let info := mk_info (pi frame) (ch_lcid ch) (ch_dstTcid ch) in
  let! frameType := st_opt (frame_type frame) in
  if (frameType =? DTAP_FRAME_SIMPLEX_AGGR) || (frameType =? DTAP_FRAME_DUPLEX_AGGR) then
    let! (ret, frame) := DTAP_RecvAggregateFrame frame info recvCb in
    st_ret (ret, buffs, frame)
  else if (frameType =? DTAP_FRAME_SIMPLEX_FRAG) || (frameType =? DTAP_FRAME_DUPLEX_FRAG) then
    DTAP_RecvFragmentFrame buffs frame info recvCb
  else st_ret (DTAP_SUCCESS, buffs, frame).

(** One round of the delivery loop: whether to go on. *)
Definition recv_round (recvCb : DTAP_DataRecvCb) : M bool :=
  let! r := rel id in
  match rxList (rxWindow r) with
  | [] => st_ret false
  | firstFrame :: rest =>
      if negb (txSeq firstFrame =? bufferSeq (rxWindow r)) then st_ret false
      else
        let! (ret, buffs, firstFrame) := over (recv_by_type (frags r) firstFrame recvCb) in
        upd (fun r => r <| frags := buffs |>) ;;!
        if ret =? DTAP_TRANS_RELIABLE_TRANS_CHANNEL_FULL then
          upd (set_rx (fun w => w <| rxList := firstFrame :: rest |>)) ;;!
          upd (fun r => r <| isRxWindowFull := true |>) ;;!
          st_ret false
        else
          upd (set_rx (fun w => w <| rxList := rest |>
                                  <| bufferSeq := DTAP_GetNextFrameSeq (bufferSeq w) |>)) ;;!
          st_ret true
  end.

Definition DTAP_RecvEnhanceFrameInner (recvCb : DTAP_DataRecvCb) : M unit :=
  let! r := rel id in
  if isRxWindowFull r then st_ret tt
  else st_while (S (length (rxList (rxWindow r)))) (recv_round recvCb).

Definition DTAP_SetTransChannelStatus (result : Z) (recvCb : DTAP_DataRecvCb) : M unit :=
  if result =? DTAP_SUCCESS then
    upd (fun r => r <| isRxWindowFull := false |>) ;;!
    DTAP_RecvEnhanceFrameInner recvCb
  else st_ret tt.

(** ** Sending *)

(** The loop over the fragments: each gets the next sequence number and is built.
    Answers the status and the frames, none of them after a failure. *)
Fixpoint pack_loop (r : DTAP_ReliableChannel) (pi0 : Z) (frames : list DTAP_Frame) (next : Z)
    (out : list DTAP_Frame) : ST W (Z * list DTAP_Frame) :=
  match frames with
  | [] => st_ret (DTAP_SUCCESS, out)
  | frame :: rest =>
      let frame := frame <| bits := DTAP_FRAME_C_BIT |> <| pi := pi0 |> <| txSeq := next |>
                         <| reqSeq := expectedTxSeq (rxWindow r) |> in
      let! c := st_opt (ctx frame) in
      let! (ret, frame) := buildFrame c frame (ch_dstTcid ch) (crcInit r) in
      if negb (ret =? DTAP_SUCCESS) then st_ret (ret, [])
      else pack_loop r pi0 rest (DTAP_GetNextFrameSeq next) (out ++ [frame])
  end.

Definition DTAP_PackEnhanceFrames (pi0 : Z) (buff : option SDF_Buff) (mps : Z) :
    M (Z * list DTAP_Frame) :=
  let! r := rel id in
  let frameType := if isRecvFrame r then DTAP_FRAME_DUPLEX_FRAG else DTAP_FRAME_SIMPLEX_FRAG in
  let! (frames, frameCnt) := over (DTAP_FragmentFrame buff mps frameType 0) in
  if frameCnt =? 0 then st_ret (DTAP_TRANS_RELIABLE_FRAGMENT_ERR, [])
  else over (pack_loop r pi0 frames (nextTxSeq (txWindow r)) []).

(** One round of the loop that sends new frames: whether the frame went out. *)
Definition send_round (frame : DTAP_Frame) : M bool :=
  let! r := rel id in
  let (poll, r') := DTAP_TriggerSendPolling r in
  upd (fun _ => r') ;;!
  let! frame := (if poll : bool then st_opt (DTAP_SetBitForSendPolling frame (crcInit r))
                 else st_ret frame) in
  let! ok := over alloc_ok in
  let! ret := over (DTAP_SendFrame ch (SDF_BuffCopy ok (f_buff frame))) in
  upd (fun r => r <| reTxSeq ::= DTAP_GetNextFrameSeq |>) ;;!
  upd (set_tx (fun w => w <| nextTxSeq ::= DTAP_GetNextFrameSeq |>
                          <| txList ::= (fun l => l ++ [frame]) |>)) ;;!
  st_ret (ret =? DTAP_SUCCESS).

(** The loop: [frames[i]] for [i < n]; a missing entry is a null pointer. *)
Fixpoint send_loop (n : nat) (frames : list DTAP_Frame) (isResetRspTimer : bool) : M bool :=
  match n with
  | O => st_ret isResetRspTimer
  | Datatypes.S n' =>
      match frames with
      | [] => st_ub
      | frame :: rest =>
          let! sent := send_round frame in
          send_loop n' rest (sent || isResetRspTimer)
      end
  end.

Definition DTAP_SendEnhanceFrameInner (frames : list DTAP_Frame) (frameCnt : Z) : M Z :=
  if DTAP_MAX_FRAGMENT_NUM <? frameCnt then st_ret DTAP_TRANS_RELIABLE_INVALID_FRAME_NUM
  else
    let! r := rel id in
    let! (ret, isResetRspTimer) :=
      (if DTAP_IsFrameSeqSmaller (reTxSeq r) (nextTxSeq (txWindow r)) then
         let! ret := DTAP_RetransEnhanceFrame in
         if ret =? DTAP_TRANS_RELIABLE_REACH_MAX_RE_TX_CNT_ERR then st_ret (ret, false)
         else
           upd (fun r => r <| reTxSeq := nextTxSeq (txWindow r) |>) ;;!
           st_ret (DTAP_SUCCESS, ret =? DTAP_SUCCESS)
       else st_ret (DTAP_SUCCESS, false)) in
    if negb (ret =? DTAP_SUCCESS) then st_ret ret
    else
      let! isResetRspTimer := send_loop (Z.to_nat frameCnt) frames isResetRspTimer in
      let! r := rel id in
      (if isResetRspTimer && isRecvFrame r then restart_rsp else st_ret tt) ;;!
      let! r := rel id in
      (if retransTimer r =? INVALID_TIMER_HANDLE then
         let! (_, t) := over (DTAP_TransStartTimer (retransTimer r) (retransTimeout r) true
                                RetransTimerExpireProc) in
         upd (fun r => r <| retransTimer := t |>)
       else st_ret tt) ;;!
      st_ret DTAP_SUCCESS.

Definition frag_header_len (r : DTAP_ReliableChannel) : Z :=
  if isRecvFrame r then DTAP_DUPLEX_FRAG_FRAME_HEADER_LEN else DTAP_SIMPLEX_FRAG_FRAME_HEADER_LEN.

Definition DTAP_SendEnhanceFrame (pi0 : Z) (buff : SDF_Buff) : M Z :=
  let! r := rel id in
  let headerLen := frag_header_len r in
  if ch_mps ch <=? headerLen + DTAP_CRC_LEN then st_ret DTAP_TRANS_RELIABLE_INVALID_MPS
  else
    let mps := u16 (ch_mps ch - headerLen - DTAP_CRC_LEN) in
    let frameCnt := DTAP_GetFragmentFramesNum (SDF_DataLenGet buff) mps in
    if DTAP_MAX_FRAGMENT_NUM <? frameCnt then st_ret DTAP_TRANS_RELIABLE_INVALID_FRAME_NUM
    else
      let count := zlen (txList (txWindow r)) + frameCnt in
      if tx_size (txWindow r) <? count then
        (if cacheBuff r then st_ret tt
         else
           let! ok := over alloc_ok in
           upd (fun r => r <| cacheBuff := SDF_BuffCopy ok (Some buff) |> <| cachePi := pi0 |>)) ;;!
        upd (fun r => r <| isTxWindowFull := true |>) ;;!
        st_ret DTAP_TRANS_RELIABLE_TX_WINDOW_FULL
      else
        (if count =? tx_size (txWindow r) then upd (fun r => r <| isTxWindowFull := true |>)
         else st_ret tt) ;;!
        let! (ret, frames) := DTAP_PackEnhanceFrames pi0 (Some buff) mps in
        if negb (ret =? DTAP_SUCCESS) then st_ret ret
        else
          let! ret := DTAP_SendEnhanceFrameInner frames frameCnt in
          if ret =? DTAP_SUCCESS then
            let! full := rel isTxWindowFull in
            st_ret (if (full : bool) then DTAP_TRANS_RELIABLE_TX_WINDOW_FULL else ret)
          else st_ret ret.

(** ** The packet that waits for room in the window ([dtap.c])

    [statusCbk]: whether [transChannelStatusChangeCbk] is registered. *)
Definition DTAP_CovertErrorCode (result : Z) : Z :=
  if result =? DTAP_SUCCESS then DTAP_SUCCESS
  else if result =? DTAP_TRANS_INVALID_DATA then DTAP_TRANS_RESULT_INVALID_DATA
  else if result =? DTAP_TRANS_FIND_CHANNEL_ERR then DTAP_TRANS_RESULT_CHANNEL_NOT_FOUND
  else if result =? DTAP_TRANS_EXCEED_MTU_ERR then DTAP_TRANS_RESULT_EXCEED_MTU_ERR
  else if result =? DTAP_TRANS_RELIABLE_TX_WINDOW_FULL then DTAP_TRANS_RESULT_TX_CACHE_FULL
  else DTAP_TRANS_RESULT_INTERNAL_FAULT.

Definition status_change (statusCbk : bool) (result : Z) : M unit :=
  if statusCbk then over (ask (CStatusChange (ch_lcid ch) (ch_srcTcid ch) result)) ;;! st_ret tt
  else st_ret tt.

(** [transMode->sendFrame] is [DTAP_SendEnhanceFrame]: the caller has checked that
    the channel is reliable. *)
Definition DTAP_TransSendCacheBuff (statusCbk : bool) (result : Z) : M unit :=
  match DTAP_GetTransMode (ch_mode ch) with
  | None => st_ret tt
  | Some _ =>
      let! r := rel id in
      let! buff := st_opt (cacheBuff r) in
      let mps := u16 (ch_mps ch - frag_header_len r - DTAP_CRC_LEN) in
      let frameCnt := DTAP_GetFragmentFramesNum (SDF_DataLenGet buff) mps in
      if tx_size (txWindow r) <=? zlen (txList (txWindow r)) + frameCnt then st_ret tt
      else
        upd (fun r => r <| isTxWindowFull := false |>) ;;!
        let! ret := DTAP_SendEnhanceFrame (cachePi r) buff in
        let transResult := DTAP_CovertErrorCode ret in
        upd (fun r => r <| cacheBuff := None |>) ;;!
        status_change statusCbk result
  end.

Definition DTAP_TransChannelStatusChange (statusCbk : bool) (result : Z) : M unit :=
  if negb (ch_mode ch =? CM_TRANS_MODE_RELIABLE) then st_ret tt
  else
    let! r := rel id in
    if negb (isTxWindowFull r) then st_ret tt
    else
      match cacheBuff r with
      | Some _ => DTAP_TransSendCacheBuff statusCbk result
      | None =>
          if zlen (txList (txWindow r)) <? tx_size (txWindow r) then
            upd (fun r => r <| isTxWindowFull := false |>) ;;!
            status_change statusCbk result
          else st_ret tt
      end.

(** ** Receiving a frame *)
Definition DTAP_RecvEnhanceFrame (statusCbk : bool) (dtapFrame : DTAP_Frame)
    (recvCb : DTAP_DataRecvCb) : M Z :=
  let! ret := DTAP_RecvNackFrame dtapFrame in
  if negb (ret =? DTAP_SUCCESS) then st_ret ret
  else
    DTAP_SlideTxWindow dtapFrame ;;!
    let! frameType := st_opt (frame_type dtapFrame) in
    if frameType =? DTAP_FRAME_ACK then
      DTAP_TransChannelStatusChange statusCbk DTAP_SUCCESS ;;!
      st_ret DTAP_SUCCESS
    else
      let! copy := over (DTAP_CopyFrame dtapFrame) in
      match copy with
      | None => st_ret DTAP_TRANS_RELIABLE_COPY_FRAME_ERR
      | Some copyFrame =>
          DTAP_SlideRxWindow copyFrame ;;!
          DTAP_OperateReorderTimer ;;!
          let isNeedToSendAckFrame := DTAP_CheckFrameBit (bits copyFrame) DTAP_FRAME_P_BIT in
          DTAP_RecvEnhanceFrameInner recvCb ;;!
          (if isNeedToSendAckFrame then
             let! ret := DTAP_SendAckFrame true false in
             if negb (ret =? DTAP_SUCCESS) then st_ret tt else restart_rsp
           else st_ret tt) ;;!
          DTAP_TransChannelStatusChange statusCbk DTAP_SUCCESS ;;!
          st_ret DTAP_SUCCESS
      end.
End reliable.
