(* ===== verification/DtapReliableTx.v ===== *)
(** * Reliable transmission: the sender

    What the transmit window of [DtapReliable] promises.  Frames are counted with
    unbounded integers: [A] is the oldest unacknowledged one, [N] the next to be
    sent; the code sees [seq14 A] and [seq14 N]. *)
From S2P Require Import Prelude Utils SdfErrno SdfBuff DtapEnv.
From S2P Require Import DtapFrame DtapFragment DtapTrans DtapReliable.

(** ** A built frame, as the window keeps it *)
Definition data_header (duplex : bool) (tcid : Z) (p : bool) (len : Z) (f : DTAP_Frame) (rfu : Z) :
    bytes :=
  if duplex then duplex_header tcid p false len (pi f) (txSeq f) (sar f) (reqSeq f + 16384 * rfu)
  else simplex_header tcid p len (pi f) (txSeq f) (sar f).

Definition with_crc (crc : Z) (L : bytes) : bytes := L ++ ENCODE2BYTE_LITTLE (CRC16 crc L).

(** [f] carries the payload [D], built for the channel [tcid] with checksum seed
    [crc]; [p] is its P bit. *)
Record stored (crc tcid : Z) (duplex p : bool) (f : DTAP_Frame) (D : bytes) : Prop := {
  st_ctx : ctx f = Some (if duplex then DuplexFragCtx else SimplexFragCtx);
  st_seq : 0 <= txSeq f < 16384;
  st_sar : 0 <= sar f < 4;
  st_req : 0 <= reqSeq f < 16384;
  st_pi : is_u8 (pi f);
  st_cnt : is_u8 (reTxCnt f);
  st_len : zlen D + frag_hdr_len duplex < 65534;
  st_ok : bytes_ok D;
  st_buff : exists b rfu, f_buff f = Some b /\ 0 <= rfu < 4 /\ sendable b /\
    buff_data b = with_crc crc (data_header duplex tcid p
                    (zlen D + frag_hdr_len duplex - 2) f rfu ++ D)
}.

(** The peer reads from a stored frame what the window says it is, in whatever buffer
    [b] it gets the bytes. *)
Lemma wire_received crc tcid duplex p f D rfu b :
  is_u16 crc -> stored crc tcid duplex p f D -> 0 <= rfu < 4 -> buff_wf b ->
  buff_data b = with_crc crc (data_header duplex tcid p (zlen D + frag_hdr_len duplex - 2) f rfu ++ D) ->
  exists g, DTAP_ParseFrame (frag_type duplex) b frame0 = Some (DTAP_SUCCESS, g) /\
    received b crc g D /\ txSeq g = txSeq f /\ sar g = sar f /\ pi g = pi f /\
    DTAP_CheckFrameBit (bits g) DTAP_FRAME_P_BIT = p.
Proof.
  intros Hcrc [Hc Hs Hsar Hr Hpi _ Hl HDok _] Hrfu Hwf Hd.
  pose proof (length_buff_data b Hwf) as Hlen. unfold with_crc in Hd.
  rewrite Hd, !length_app in Hlen. unfold data_header in *.
  destruct duplex; [change (frag_hdr_len true) with 9 in *|change (frag_hdr_len false) with 7 in *].
  - edestruct (parse_built_duplex b) as (g&Hg&Hgb&Hgc&Hgh&Hgbi&Hgp&Hgs&Hgsar&Hgr&Hghl&Hge&Hgpay&Hgpl);
      [exact Hwf|exact Hd|done|lia|done..|].
    exists g. split_and!; try done.
    + eapply (received_built b crc _ _ (zlen D + 9 - 2) DTAP_FRAME_DUPLEX_FRAG); try exact Hd;
        first [done | apply header_bytes_ok
              | unfold DTAP_FRAME_DUPLEX_FRAG, DTAP_FRAME_SIMPLEX_FRAG; simpl; simpl in Hlen; lia].
    + rewrite Hgbi. apply check_bits_of.
  - edestruct (parse_built_simplex b) as (g&Hg&Hgb&Hgc&Hgh&Hgbi&Hgp&Hgs&Hgsar&Hgr&Hghl&Hge&Hgpay&Hgpl);
      [exact Hwf|exact Hd|done|lia|done..|].
    exists g. split_and!; try done.
    + eapply (received_built b crc _ _ (zlen D + 7 - 2) DTAP_FRAME_SIMPLEX_FRAG); try exact Hd;
        first [done | apply header_bytes_ok
              | unfold DTAP_FRAME_DUPLEX_FRAG, DTAP_FRAME_SIMPLEX_FRAG; simpl; simpl in Hlen; lia].
    + rewrite Hgbi. apply check_bits_of.
Qed.

Lemma stored_received crc tcid duplex p f D :
  is_u16 crc -> stored crc tcid duplex p f D ->
  exists b g, f_buff f = Some b /\
    DTAP_ParseFrame (frag_type duplex) b frame0 = Some (DTAP_SUCCESS, g) /\
    received b crc g D /\ txSeq g = txSeq f /\ sar g = sar f /\ pi g = pi f /\
    DTAP_CheckFrameBit (bits g) DTAP_FRAME_P_BIT = p.
Proof.
  intros Hcrc Hst. pose proof (st_buff _ _ _ _ _ _ Hst) as (b&rfu&Hb&Hrfu&(Hwf&_&_)&Hd). exists b.
  destruct (wire_received crc tcid duplex p f D rfu b) as (g&Hg); [done..|]. by exists g.
Qed.

(** ** Setting the P bit of a stored frame *)

(** Rewriting the payload window in place. *)
Lemma refill b X :
  buff_wf b -> bytes_ok X -> zlen X = dataLen b ->
  let b' := b <| bmem := mem_write (bmem b) (dataOff b) X |> in
  buff_wf b' /\ buff_data b' = X.
Proof.
  intros Hwf HX HlX. destruct Hwf. split.
  - constructor; cbn; try done; [|by apply bytes_ok_mem_write]. rewrite length_mem_write; lia.
  - unfold buff_data. cbn. rewrite <- HlX. apply mem_read_write_same; lia.
Qed.

Lemma set_frame_bit_window m h x0 x1 L bits o c p f t :
  0 <= h -> h + zlen (x0 :: x1 :: L) <= zlen m -> 0 <= t < 16 ->
  (exists o c p f, x1 = type_byte t o c p f) ->
  DTAP_CheckFrameBit bits DTAP_FRAME_O_BIT = o -> DTAP_CheckFrameBit bits DTAP_FRAME_C_BIT = c ->
  DTAP_CheckFrameBit bits DTAP_FRAME_P_BIT = p -> DTAP_CheckFrameBit bits DTAP_FRAME_F_BIT = f ->
  DTAP_SetFrameBit (mem_write m h (x0 :: x1 :: L)) h bits
  = Some (mem_write m h (x0 :: type_byte t o c p f :: L)).
Proof.
  intros Hh Hw Ht (o'&c'&p'&f'&->) <- <- <- <-. unfold DTAP_SetFrameBit.
  assert (forall a d z, mem_write (a :: d :: L) 1 [z] = a :: z :: L) as Hset by done.
  do 4 (erewrite set_bits8_window by (simpl in *; (reflexivity || lia)); cbn [mbind option_bind];
        rewrite Hset).
  do 4 f_equal. pose proof (type_byte_range t o' c' p' f' Ht) as Hr.
  etrans; [|by apply (type_byte_stores (type_byte t o' c' p' f') t)]. do 4 f_equal.
  unfold type_byte. rewrite bf_set_arith, bf_get_arith by lia.
  change (2 ^ 0) with 1. change (2 ^ 4) with 16. rewrite Z.div_1_r.
  destruct o', c', p', f'; simpl b2z; Z.div_mod_to_equations; lia.
Qed.

Lemma mem_write_end X C d : zlen d = zlen C -> mem_write (X ++ C) (zlen X) d = X ++ d.
Proof.
  intros Hd. unfold mem_write. rewrite take_app_length' by lia.
  rewrite drop_ge by (rewrite length_app; lia). by rewrite app_nil_r.
Qed.

Lemma recalc_spec crc f b m X C :
  f_buff f = Some (b <| bmem := m |>) -> buff_wf b -> is_u16 crc -> bytes_ok X -> zlen C = 2 ->
  zlen X + 2 = dataLen b -> m = mem_write (bmem b) (dataOff b) (X ++ C) ->
  exists b', b' = b <| bmem := mem_write (bmem b) (dataOff b) (with_crc crc X) |> /\
    DTAP_ReCalculateCrcValue crc f = Some (DTAP_SUCCESS, f <| f_buff := Some b' |>).
Proof.
  intros Hf Hwf Hcrc HX HC Hlen ->. destruct Hwf. eexists; split; [done|].
  assert (zlen (X ++ C) = dataLen b) as HXC by (rewrite length_app; lia).
  unfold DTAP_ReCalculateCrcValue, SDF_DataLenGet, SDF_DataOffset, DTAP_CRC_LEN. rewrite Hf. cbn.
  destruct (Z.ltb_spec (dataLen b) 2); [lia|].
  replace (dataLen b - 2) with (zlen X) by lia.
  rewrite wr_window by (try lia; simpl; lia). cbn [mbind option_bind].
  rewrite mem_write_end by done.
  set (m1 := mem_write (bmem b) (dataOff b) (X ++ [0; 0])).
  assert (zlen (X ++ [0; 0]) = dataLen b) as HX0 by (rewrite length_app; simpl; lia).
  assert (zlen m1 = zlen (bmem b)) as Hm1 by (unfold m1; rewrite length_mem_write; lia).
  assert (rds m1 (dataOff b) (zlen X) = Some X) as ->.
  { unfold rds. rewrite decide_True by lia. f_equal.
    assert (mem_read m1 (dataOff b) (zlen X + 2) = X ++ [0; 0]) as Hr.
    { unfold m1. replace (zlen X + 2) with (zlen (X ++ [0; 0])) by lia.
      apply mem_read_write_same; lia. }
    rewrite mem_read_app in Hr by lia. apply app_inj_1 in Hr as [Hr _]; [done|].
    apply Nat2Z.inj. rewrite length_mem_read by lia. done. }
  cbn [mbind option_bind]. pose proof (CRC16_range crc X Hcrc HX) as Hr.
  unfold st16, m1. rewrite wr_window by (try lia; simpl; lia). cbn [mbind option_bind].
  rewrite mem_write_end by done.
  unfold with_crc, ENCODE2BYTE_LITTLE. rewrite u16_small, Z.shiftr_div_pow2 by (done || lia). done.
Qed.

(** Two frames that differ only in their buffer. *)
Lemma stored_buff crc tcid duplex p p' f D b rfu :
  stored crc tcid duplex p f D -> 0 <= rfu < 4 -> sendable b ->
  buff_data b = with_crc crc (data_header duplex tcid p'
                  (zlen D + frag_hdr_len duplex - 2) f rfu ++ D) ->
  stored crc tcid duplex p' (f <| f_buff := Some b |>) D.
Proof. intros [] Hrfu Hs Hd. constructor; try done. by exists b, rfu. Qed.

Lemma data_header_shape duplex tcid p len f rfu :
  exists rest, data_header duplex tcid p len f rfu
    = u8 tcid :: type_byte (frag_type duplex) false true p false :: rest /\ bytes_ok rest /\
  data_header duplex tcid true len f rfu
    = u8 tcid :: type_byte (frag_type duplex) false true true false :: rest.
Proof.
  destruct duplex; eexists; (split; [reflexivity|]); (split; [|reflexivity]);
    repeat first [apply Forall_app_2 | apply encode2_bytes_ok | apply le16_ok | apply Forall_cons_2
                 | apply u8_range | apply Forall_nil; done].
Qed.

(** The indicator bits the code computes for a frame with the P bit added. *)
Lemma p_bits t p :
  0 <= t < 16 ->
  let ori := Z.shiftr (type_byte t false true p false) DTAP_BASIC_FRAME_BITS_SHIFT in
  let new := Z.lor ori DTAP_FRAME_P_BIT in
  (ori =? new) = p /\ DTAP_CheckFrameBit new DTAP_FRAME_O_BIT = false /\
  DTAP_CheckFrameBit new DTAP_FRAME_C_BIT = true /\ DTAP_CheckFrameBit new DTAP_FRAME_P_BIT = true /\
  DTAP_CheckFrameBit new DTAP_FRAME_F_BIT = false.
Proof.
  intros Ht ori new.
  assert (ori = if p then 6 else 2) as Eo.
  { unfold ori, type_byte, DTAP_BASIC_FRAME_BITS_SHIFT. rewrite Z.shiftr_div_pow2 by lia.
    change (2 ^ 4) with 16. destruct p; simpl b2z; Z.div_mod_to_equations; lia. }
  unfold new. rewrite Eo. by destruct p.
Qed.

Lemma set_p_bit crc tcid duplex p f D :
  is_u16 crc -> stored crc tcid duplex p f D ->
  exists b, stored crc tcid duplex true (f <| f_buff := Some b |>) D /\
    DTAP_SetBitForSendPolling f crc = Some (f <| f_buff := Some b |>) /\
    DTAP_SetPbitForSendPolling f crc = Some (if p then f else f <| f_buff := Some b |>).
Proof.
  intros Hcrc Hst. pose proof Hst as [_ _ _ _ _ _ Hl HDok (b&rfu&Hb&Hrfu&Hsend&Hd)].
  pose proof Hsend as (Hwf&Hoff&Hpos).
  set (len := zlen D + frag_hdr_len duplex - 2) in *.
  destruct (data_header_shape duplex tcid p len f rfu) as (rest&E&Hrest&E'). rewrite E in Hd.
  set (ty := type_byte (frag_type duplex)) in *.
  assert (0 <= frag_type duplex < 16) as Ht by (by destruct duplex).
  set (X := u8 tcid :: ty false true true false :: rest ++ D).
  pose proof (length_buff_data b Hwf) as HlenX. rewrite Hd in HlenX. unfold with_crc in Hd, HlenX.
  set (C := ENCODE2BYTE_LITTLE (CRC16 crc _)) in Hd, HlenX.
  assert (zlen C = 2) as HC by done. pose proof HlenX as Htotal. rewrite length_app in HlenX.
  assert (zlen X + 2 = dataLen b) as HX2.
  { unfold X. cbn [app length] in *. lia. }
  assert (bytes_ok X) as HXok.
  { apply Forall_cons_2; [apply u8_range|]. apply Forall_cons_2; [by apply type_byte_range|].
    by apply Forall_app_2. }
  pose proof (wf_off b Hwf) as Hb0. pose proof (wf_window b Hwf). pose proof (wf_block b Hwf).
  assert (bmem b = mem_write (bmem b) (dataOff b) (u8 tcid :: ty false true p false :: (rest ++ D) ++ C))
    as Hm.
  { rewrite <- (mem_write_read (bmem b) (dataOff b) (dataLen b)) at 1 by lia.
    unfold buff_data in Hd. by rewrite Hd. }
  assert (rd (bmem b) (dataOff b + 1) = Some (ty false true p false)) as Hrd.
  { rewrite rd_data, Hd by lia. done. }
  destruct (p_bits (frag_type duplex) p Ht) as (Eeq&Eo&Ec&Ep&Ef). fold ty in Eeq, Eo, Ec, Ep, Ef.
  assert (DTAP_SetFrameBit (bmem b) (dataOff b)
            (Z.lor (Z.shiftr (ty false true p false) DTAP_BASIC_FRAME_BITS_SHIFT) DTAP_FRAME_P_BIT)
          = Some (mem_write (bmem b) (dataOff b) (X ++ C))) as Hset.
  { rewrite Hm at 1. rewrite (set_frame_bit_window _ _ _ _ _ _ false true true false (frag_type duplex));
      try done; [|by eexists _, _, _, _].
    change (dataOff b + zlen (((u8 tcid :: ty false true p false :: rest) ++ D) ++ C) <= zlen (bmem b)).
    lia. }
  set (m := mem_write (bmem b) (dataOff b) (X ++ C)) in *. set (b1 := b <| bmem := m |>).
  set (f1 := f <| f_buff := Some b1 |>).
  destruct (recalc_spec crc f1 b m X C eq_refl Hwf Hcrc HXok HC HX2 eq_refl) as (b'&Eb'&Hre).
  destruct (refill b (with_crc crc X) Hwf) as [Hwf' Hd'].
  { apply Forall_app_2; [done|]. apply encode2_bytes_ok. }
  { unfold with_crc. rewrite length_app. simpl in *. lia. }
  exists b'. unfold DTAP_SetBitForSendPolling, DTAP_SetPbitForSendPolling, SDF_DataOffset.
  rewrite Hb. cbn [mbind option_bind]. rewrite Hrd. cbn [mbind option_bind].
  rewrite Hset, Eeq. cbn [mbind option_bind]. fold b1. change (f <| f_buff := Some b1 |>) with f1.
  rewrite Hre. cbn [mbind option_bind]. split; [|split; [done|by destruct p]].
  apply (stored_buff crc tcid duplex p true f D b' rfu); [done..| |].
  - rewrite Eb'. by split.
  - rewrite Eb', Hd'. unfold X. fold len. by rewrite E'.
Qed.

(** ** Lemmas: the list of outstanding frames *)
Lemma put_put seq f1 f2 l :
  txSeq f1 = seq -> put_frame seq f2 (put_frame seq f1 l) = put_frame seq f2 l.
Proof.
  intros Hf. unfold put_frame. induction l as [|f l IH]; simpl; [done|].
  destruct (Z.eqb_spec (txSeq f) seq); simpl.
  - by rewrite Hf, Z.eqb_refl.
  - rewrite (proj2 (Z.eqb_neq _ _)) by done. by rewrite IH.
Qed.

Lemma find_frame_split l seq f :
  DTAP_FindFrameBySeq l seq = Some f ->
  exists i, l !! i = Some f /\ txSeq f = seq /\ forall f', put_frame seq f' l = <[i:=f']> l.
Proof.
  intros (l1&l2&->&H1&Hf)%find_first_split. exists (length l1).
  rewrite list_lookup_middle by done. split_and!; [done|by apply Z.eqb_eq|].
  intros f'. unfold put_frame. rewrite update_first_split by done.
  by rewrite insert_app_r_alt, Nat.sub_diag.
Qed.

(** Outstanding frames [A], [A + 1], ...: their sequence numbers. *)
Definition consecutive (A : Z) (l : list DTAP_Frame) : Prop :=
  forall i f, l !! i = Some f -> txSeq f = seq14 (A + Z.of_nat i).

Lemma consecutive_cons A f l :
  consecutive A (f :: l) <-> txSeq f = seq14 A /\ consecutive (A + 1) l.
Proof.
  split.
  - intros Hl. split.
    + rewrite (Hl 0%nat f) by done. f_equal. lia.
    + intros i g Hg. rewrite (Hl (Datatypes.S i) g) by done. f_equal. lia.
  - intros [Hf Hl] [|i] g Hg; simpl in Hg.
    + injection Hg as <-. rewrite Hf. f_equal. lia.
    + rewrite (Hl i g Hg). f_equal. lia.
Qed.

Lemma consecutive_app A l1 l2 :
  consecutive A (l1 ++ l2) <-> consecutive A l1 /\ consecutive (A + zlen l1) l2.
Proof.
  revert A. induction l1 as [|f l1 IH]; intros A; simpl.
  - rewrite Z.add_0_r. split; [by split|tauto].
  - rewrite !consecutive_cons, IH. replace (A + Z.of_nat (Datatypes.S (length l1)))
      with (A + 1 + zlen l1) by lia. tauto.
Qed.

Lemma consecutive_insert A l i f f' :
  consecutive A l -> l !! i = Some f -> txSeq f' = txSeq f -> consecutive A (<[i:=f']> l).
Proof.
  intros Hl Hi Hf j g Hj. destruct (decide (i = j)) as [<-|Hne].
  - rewrite list_lookup_insert_eq in Hj by (by eapply lookup_lt_Some). injection Hj as <-.
    rewrite Hf. by apply Hl.
  - rewrite list_lookup_insert_ne in Hj by done. by apply Hl.
Qed.

(** The removal loop drops the frames before an acknowledged number in the window. *)
Lemma drop_acked_spec A K l :
  consecutive A l -> A <= K <= A + zlen l -> zlen l < 8192 ->
  drop_acked (seq14 K) l = drop (Z.to_nat (K - A)) l.
Proof.
  revert A. induction l as [|f l IH]; intros A Hl HK Hlen; [by rewrite drop_nil|].
  apply consecutive_cons in Hl as [Hf Hl]. simpl in *. rewrite Hf, smaller_near by lia.
  destruct (Z.ltb_spec A K).
  - replace (Z.to_nat (K - A)) with (Datatypes.S (Z.to_nat (K - (A + 1)))) by lia.
    apply IH; [done|lia..].
  - by replace (Z.to_nat (K - A)) with 0%nat by lia.
Qed.

(** ** The invariant of the sender *)
Definition outstanding (r : DTAP_ReliableChannel) (tcid : Z) (f : DTAP_Frame) (D : bytes) : Prop :=
  0 <= reTxCnt f <= maxTxThreshold r /\
  exists duplex p, stored (crcInit r) tcid duplex p f D.

(** A packet kept for later was accepted by the caller's checks. *)
Definition cache_ok (r : DTAP_ReliableChannel) : Prop :=
  match cacheBuff r with
  | Some b => buff_wf b /\ 0 < dataLen b < 65536 /\ is_u8 (cachePi r)
  | None => True
  end.

Record tx_inv (tcid A : Z) (Ds : list bytes) (r : DTAP_ReliableChannel) : Prop := {
  ti_crc : is_u16 (crcInit r);
  ti_max : is_u8 (maxTxThreshold r);
  ti_size : 0 < tx_size (txWindow r) < 256;
  ti_ack : expectedAckSeq (txWindow r) = seq14 A;
  ti_next : nextTxSeq (txWindow r) = seq14 (A + zlen Ds);
  ti_room : zlen Ds <= tx_size (txWindow r);
  ti_frames : Forall2 (outstanding r tcid) (txList (txWindow r)) Ds;
  ti_seqs : consecutive A (txList (txWindow r));
  ti_cache : cache_ok r
}.

Lemma tx_inv_len tcid A Ds r : tx_inv tcid A Ds r -> zlen (txList (txWindow r)) = zlen Ds.
Proof. intros []. by erewrite Forall2_length. Qed.

(** What the sender's code leaves alone: the receive side and the configuration. *)
Definition rx_part (r : DTAP_ReliableChannel) :=
  (rxWindow r, frags r, isRxWindowFull r, isRecvFrame r, nackCnt r, reorderTimer r).
Definition conf (r : DTAP_ReliableChannel) :=
  (reorderTimeout r, crcInit r, retransTimeout r, rspTimeout r, maxTxThreshold r,
   tx_size (txWindow r), rx_size (rxWindow r)).

(** The sequence numbers an acknowledgement carries. *)
Definition rx_seqs_ok (r : DTAP_ReliableChannel) : Prop :=
  0 <= bufferSeq (rxWindow r) < 16384 /\ 0 <= expectedTxSeq (rxWindow r) < 16384.

(** ** Release requests *)
Definition releases (t : list (call * Z)) : list unit :=
  omap (fun '(c, _) => match c with CReleaseReq _ _ => Some tt | _ => None end) t.

(** How many release requests were made beyond the one the flag stands for. *)
Definition tally {W} `{World W} (r : DTAP_ReliableChannel) (w : W) : Z :=
  zlen (releases (trace w)) - b2z (isDestroyMsgSent r).

Section steps.
Context {W : Type} `{Scheduler W}.
Context (ch : DTAP_Channel).
Implicit Types (r : DTAP_ReliableChannel) (w : W).

(** What every operation of the sender keeps. *)
Record evolves r w r' w' : Prop := {
  ev_ok : sched_ok ch w';
  ev_tally : tally r' w' = tally r w;
  ev_deliv : delivered (trace w') = delivered (trace w);
  ev_conf : conf r' = conf r;
  ev_rx : rx_part r' = rx_part r;
  ev_ext : extends w w'
}.

Lemma evolves_refl r w : sched_ok ch w -> evolves r w r w.
Proof. by constructor; [..|apply extends_refl]. Qed.
Lemma evolves_trans r1 w1 r2 w2 r3 w3 : evolves r1 w1 r2 w2 -> evolves r2 w2 r3 w3 -> evolves r1 w1 r3 w3.
Proof. intros [] []. constructor; [congruence..|by eapply extends_trans]. Qed.

Lemma quiet_facts w w' : quiet w w' ->
  delivered (trace w') = delivered (trace w) /\ releases (trace w') = releases (trace w).
Proof.
  intros (t&->&Hq). unfold delivered, releases. rewrite !omap_app.
  assert (omap (fun '(c, _) => match c with CRecv _ _ d => Some d | _ => None end) t = [] /\
          omap (fun '(c, _) => match c with CReleaseReq _ _ => Some tt | _ => None end) t = [])
    as [-> ->]; [|by rewrite !app_nil_r].
  induction Hq as [|[c a] t Hc Hq [IH1 IH2]]; [done|]. by destruct c.
Qed.

Lemma quiet_extends w w' : quiet w w' -> extends w w'.
Proof. intros (t&Ht&_). by exists t. Qed.

Lemma evolves_calm r w r' w' :
  calm ch w w' -> isDestroyMsgSent r' = isDestroyMsgSent r -> conf r' = conf r ->
  rx_part r' = rx_part r -> evolves r w r' w'.
Proof.
  intros [Hok Hq] Hd Hc Hr. destruct (quiet_facts w w' Hq) as [H1 H2].
  constructor; try done; [unfold tally; by rewrite Hd, H2|by apply quiet_extends].
Qed.

(** ** Symbolic execution over the channel and the world *)
Lemma wp_rel {A} (f : DTAP_ReliableChannel -> A) r w Q : Q (f r) (r, w) -> wp (rel f) (r, w) Q.
Proof. done. Qed.
Lemma wp_upd (f : DTAP_ReliableChannel -> DTAP_ReliableChannel) r w (Q : unit -> _ -> Prop) :
  Q tt (f r, w) -> wp (upd f) (r, w) Q.
Proof. done. Qed.

Lemma wp_restart_rsp r w (Q : unit -> _ -> Prop) :
  sched_ok ch w -> (forall t w', calm ch w w' -> Q tt (r <| rspTimer := t |>, w')) ->
  wp restart_rsp (r, w) Q.
Proof.
  intros Hok HQ. apply wp_bind, wp_rel, wp_bind, wp_over, (wp_restart_timer ch); [done|].
  intros ret t w' Hc. apply wp_upd. auto.
Qed.
Lemma wp_restart_retrans e r w (Q : unit -> _ -> Prop) :
  sched_ok ch w -> (forall t w', calm ch w w' -> Q tt (r <| retransTimer := t |>, w')) ->
  wp (restart_retrans e) (r, w) Q.
Proof.
  intros Hok HQ. apply wp_bind, wp_rel, wp_bind, wp_over, (wp_restart_timer ch); [done|].
  intros ret t w' Hc. apply wp_upd. auto.
Qed.
Lemma wp_restart_reorder r w (Q : unit -> _ -> Prop) :
  sched_ok ch w -> (forall t w', calm ch w w' -> Q tt (r <| reorderTimer := t |>, w')) ->
  wp restart_reorder (r, w) Q.
Proof.
  intros Hok HQ. apply wp_bind, wp_rel, wp_bind, wp_over, (wp_restart_timer ch); [done|].
  intros ret t w' Hc. apply wp_upd. auto.
Qed.

(** An acknowledgement is built and offered to the scheduler; the channel does not
    change. *)
Lemma wp_send_ack f s r w (Q : Z -> _ -> Prop) :
  sched_ok ch w -> is_u16 (crcInit r) -> rx_seqs_ok r ->
  (forall ret w', calm ch w w' -> Q ret (r, w')) -> wp (DTAP_SendAckFrame ch f s) (r, w) Q.
Proof.
  intros Hok Hcrc [Hb He] HQ. unfold DTAP_SendAckFrame. apply wp_bind, wp_rel. cbn [id].
  change (DTAP_GetFrameCtx DTAP_FRAME_ACK) with (Some AckCtx). cbv iota beta zeta.
  set (frame := mk_frame _ _ _ _ _ _ _ _ _ _ _ _ _ _ _ _).
  apply wp_bind, wp_over. unfold buildFrame. apply wp_bind, (wp_alloc_calm ch); [done|].
  intros ok w1 Hc1. destruct ok.
  - destruct (build_ack_spec frame (ch_dstTcid ch) (crcInit r) Hcrc) as (b'&Hbuild&Hwf&Hd&Hl&Ho).
    { cbn. by destruct s. }
    eapply wp_opt; [exact Hbuild|]. cbn [negb Z.eqb DTAP_SUCCESS].
    apply wp_over, (wp_send_frame ch); [by eapply calm_ok| |].
    { cbn. split; [done|]. rewrite Hl, Ho. by split. }
    intros ret w2 Hc2 _. by apply HQ, (calm_trans ch w w1).
  - eapply wp_opt; [reflexivity|]. cbn. apply wp_ret. by apply HQ.
Qed.
Lemma wp_ask_ok c w (Q : Z -> W -> Prop) :
  sched_ok ch w ->
  (forall a w', sched_ok ch w' -> trace w' = trace w ++ [(c, a)] -> Q a w') -> wp (ask c) w Q.
Proof.
  intros Hok HQ. unfold wp. destruct (ask_total c w) as (a&w'&E&Ht). rewrite E.
  apply HQ; [|done]. by eapply sched_ask.
Qed.

(** The release of the channel is asked for, unless the flag says that it has been or
    the connection manager does not know the channel; [sent] is the flag afterwards. *)
Definition asks_release r w (sent : bool) w' : Prop :=
  if isDestroyMsgSent r then sent = true /\ w' = w
  else exists found w1, trace w1 = trace w ++ [(CFindTransChannel (ch_lcid ch) (ch_srcTcid ch), found)] /\
    if found =? 0 then sent = false /\ w' = w1
    else sent = true /\ exists a, trace w' = trace w1 ++ [(CReleaseReq (ch_srcTcid ch) (ch_dstTcid ch), a)].

(** The release request goes out at most once: afterwards the flag is up. *)
Lemma wp_release r w (Q : unit -> _ -> Prop) :
  sched_ok ch w ->
  (forall b w', evolves r w (r <| isDestroyMsgSent := b |>) w' -> asks_release r w b w' ->
     Q tt (r <| isDestroyMsgSent := b |>, w')) ->
  wp (DTAP_DynTransChannReleaseReq ch) (r, w) Q.
Proof.
  intros Hok HQ. assert (r <| isDestroyMsgSent := isDestroyMsgSent r |> = r) as Hr by (by destruct r).
  apply wp_bind, wp_rel. destruct (isDestroyMsgSent r) eqn:Es.
  { apply wp_ret. rewrite <- Hr. unfold asks_release in HQ. rewrite Es in HQ.
    apply HQ; [|done]. rewrite Hr. by apply evolves_refl. }
  apply wp_bind, wp_over, wp_ask_ok; [done|]. intros a w1 Hok1 Ht1.
  assert (calm ch w w1) as Hc1 by (split; [done|by eapply quiet_snoc; [|exact Ht1]]).
  unfold asks_release in HQ. rewrite Es in HQ. destruct (a =? 0) eqn:Ea.
  { apply wp_ret. specialize (HQ false w1). rewrite Hr in HQ. apply HQ; [by apply evolves_calm|].
    exists a, w1. split; [done|]. by rewrite Ea. }
  apply wp_bind, wp_over, wp_ask_ok; [by eapply calm_ok|]. intros a' w2 Hok2 Ht2.
  apply wp_upd, HQ; [|exists a, w1; rewrite Ea; split_and!; [done..|by exists a']]. destruct Hc1 as [_ Hq1].
  pose proof (quiet_extends _ _ Hq1) as [t1 Hx]. apply quiet_facts in Hq1 as [Hd1 Hr1].
  constructor; try done.
  - unfold tally. cbn [isDestroyMsgSent]. rewrite Ht2, Es. unfold releases in *.
    rewrite omap_app, Hr1, length_app. simpl. lia.
  - rewrite Ht2, delivered_app, Hd1. apply app_nil_r.
  - eexists. by rewrite Ht2, Hx, <- app_assoc.
Qed.

(** ** Retransmission *)
Definition tx_flags r :=
  (reTxSeq r, isTxWindowFull r, cacheBuff r, cachePi r, sendPollingCounter r,
   nextTxSeq (txWindow r), expectedAckSeq (txWindow r)).

(** The outcome of retransmitting the frame with number [reTxSeq r].  Without such
    a frame nothing happens.  A frame sent [maxTxThreshold] times stays as it is and the
    release is asked for.  Any other gets the P bit, in a buffer [b] with its number and
    payload; a copy of [b], if there is memory for it, is given to the scheduler, and
    the count grows when the scheduler takes it. *)
Definition retransmitted r w r' w' (ret : Z) : Prop :=
  match DTAP_FindFrameBySeq (txList (txWindow r)) (reTxSeq r) with
  | None => ret = DTAP_TRANS_RELIABLE_FIND_FRAME_ERR /\ r' = r /\ w' = w
  | Some f =>
      if maxTxThreshold r <=? reTxCnt f then
        ret = DTAP_TRANS_RELIABLE_REACH_MAX_RE_TX_CNT_ERR /\
        exists sent, asks_release r w sent w' /\ r' = r <| isDestroyMsgSent := sent |>
      else
        isDestroyMsgSent r' = isDestroyMsgSent r /\
        exists b f', txList (txWindow r') = put_frame (reTxSeq r) f' (txList (txWindow r)) /\
          f' = f <| f_buff := Some b |>
                 <| reTxCnt := reTxCnt f + (if ret =? DTAP_SUCCESS then 1 else 0) |> /\
          (exists duplex p D, stored (crcInit r) (ch_dstTcid ch) duplex p f D /\
             stored (crcInit r) (ch_dstTcid ch) duplex true f' D) /\
          exists ok w1, calm ch w w1 /\ alloc_ok w = Some (ok, w1) /\
            if ok : bool then
              exists a w2, DTAP_DataSendWithPriority ch (Some b) w1 = Some (a, w2) /\
                if a =? 0 then ret = DTAP_SUCCESS /\ calm ch w2 w'
                else ret = DTAP_FRAME_SEND_DLI_SEND_ERR /\ w' = w2
            else ret = DTAP_TRANS_RELIABLE_COPY_BUFF_ERR /\ w' = w1
  end.

Lemma stored_cnt crc tcid duplex p f D n :
  stored crc tcid duplex p f D -> is_u8 n -> stored crc tcid duplex p (f <| reTxCnt := n |>) D.
Proof. by intros []. Qed.

Lemma set_p_bit_any crc tcid f D duplex p :
  is_u16 crc -> stored crc tcid duplex p f D ->
  exists b, DTAP_SetPbitForSendPolling f crc = Some (f <| f_buff := Some b |>) /\
    sendable b /\ stored crc tcid duplex true (f <| f_buff := Some b |>) D.
Proof.
  intros Hcrc Hst. destruct (set_p_bit crc tcid duplex p f D Hcrc Hst) as (b&Hst'&_&Hset).
  destruct p.
  - pose proof Hst as [_ _ _ _ _ _ _ _ (b0&rfu&Hb0&_&Hs&_)]. exists b0.
    assert (f <| f_buff := Some b0 |> = f) as -> by (destruct f; cbn in *; by subst). done.
  - exists b. split_and!; try done. by destruct Hst' as [_ _ _ _ _ _ _ _ (?&?&[=<-]&_&?&_)].
Qed.

Lemma outstanding_at tcid A Ds r seq f :
  tx_inv tcid A Ds r -> DTAP_FindFrameBySeq (txList (txWindow r)) seq = Some f ->
  exists i D, txList (txWindow r) !! i = Some f /\ Ds !! i = Some D /\ txSeq f = seq /\
    outstanding r tcid f D /\
    forall f', put_frame seq f' (txList (txWindow r)) = <[i:=f']> (txList (txWindow r)).
Proof.
  intros [] (i&Hi&Hs&Hput)%find_frame_split.
  destruct (Forall2_lookup_l _ _ _ _ _ ti_frames0 Hi) as (D&HD&Ho). by exists i, D.
Qed.

(** Replaces the fields of [r'] by the equal ones of [r]. *)
Ltac same_fields r' :=
  repeat match goal with Heq : ?x = ?y |- _ =>
    lazymatch x with context [r'] => lazymatch y with context [r'] => fail | _ =>
      rewrite Heq; clear Heq end end end.

Lemma outstanding_conf tcid r r' f D :
  conf r' = conf r -> outstanding r tcid f D -> outstanding r' tcid f D.
Proof. unfold conf, outstanding. intros [=_ -> _ _ -> _ _]. done. Qed.

(** [r'] differs from [r] in one outstanding frame that carries what it carried. *)
Lemma tx_inv_update tcid A Ds r r' i f f' D :
  tx_inv tcid A Ds r -> txList (txWindow r) !! i = Some f -> Ds !! i = Some D ->
  txSeq f' = txSeq f -> outstanding r tcid f' D -> conf r' = conf r -> tx_flags r' = tx_flags r ->
  txList (txWindow r') = <[i:=f']> (txList (txWindow r)) -> tx_inv tcid A Ds r'.
Proof.
  intros [] Hi HD Hs Ho Hc Hf Hl. pose proof (outstanding_conf tcid r r') as Hout.
  unfold conf, tx_flags in *. simplify_eq. constructor; try congruence.
  - rewrite Hl. rewrite <- (list_insert_id Ds i D) by done. apply Forall2_insert; [|apply Hout; [congruence|done]].
    eapply Forall2_impl; [exact ti_frames0|]. intros. apply Hout; [congruence|done].
  - rewrite Hl. by eapply consecutive_insert.
  - unfold cache_ok in *. by same_fields r'.
Qed.

Lemma tx_inv_same tcid A Ds r r' :
  tx_inv tcid A Ds r -> conf r' = conf r ->
  (nextTxSeq (txWindow r'), expectedAckSeq (txWindow r'), txList (txWindow r'))
  = (nextTxSeq (txWindow r), expectedAckSeq (txWindow r), txList (txWindow r)) ->
  cache_ok r' -> tx_inv tcid A Ds r'.
Proof.
  intros [] Hc Hf Hk. pose proof (outstanding_conf tcid r r') as Hout.
  unfold conf in *. simplify_eq. constructor; try congruence; [|by same_fields r'].
  replace (txList (txWindow r')) with (txList (txWindow r)) by done.
  eapply Forall2_impl; [exact ti_frames0|]. intros. apply Hout; [congruence|done].
Qed.

Lemma wp_retrans A Ds r w (Q : Z -> _ -> Prop) :
  sched_ok ch w -> tx_inv (ch_dstTcid ch) A Ds r ->
  (forall ret r' w', evolves r w r' w' -> tx_inv (ch_dstTcid ch) A Ds r' -> tx_flags r' = tx_flags r ->
     retransmitted r w r' w' ret -> Q ret (r', w')) ->
  wp (DTAP_RetransEnhanceFrame ch) (r, w) Q.
Proof.
  intros Hok Hinv HQ. apply wp_bind, wp_rel. cbn [id]. unfold retransmitted in HQ.
  destruct (DTAP_FindFrameBySeq (txList (txWindow r)) (reTxSeq r)) as [f|] eqn:Efind.
  2: { by apply wp_ret, HQ. }
  destruct (maxTxThreshold r <=? reTxCnt f) eqn:Emax.
  { apply wp_bind, wp_release; [done|]. intros b w' Hev Hrel. apply wp_ret, HQ; try done; [|by split; [|eauto]].
    apply (tx_inv_same _ A Ds r); try done. by destruct Hinv. }
  apply Z.leb_gt in Emax.
  destruct (outstanding_at _ A Ds r _ f Hinv Efind) as (i&D&Hi&HD&Hseq&[Hcnt (duplex&p&Hst)]&Hput).
  pose proof (ti_crc _ _ _ _ Hinv) as Hcrc. pose proof (ti_max _ _ _ _ Hinv) as Hmax.
  destruct (set_p_bit_any _ _ _ _ _ _ Hcrc Hst) as (b&Hset&Hsend&Hst').
  apply wp_bind. eapply wp_opt; [exact Hset|]. apply wp_bind, wp_upd. rewrite <- Hseq in *.
  set (f1 := f <| f_buff := Some b |>) in *.
  set (r1 := set_tx _ r). assert (tx_inv (ch_dstTcid ch) A Ds r1) as Hinv1.
  { eapply (tx_inv_update _ A Ds r r1 i f f1 D); try done; [by split; [|eauto]|apply Hput]. }
  assert (reTxCnt f1 = reTxCnt f) as Ecnt by done.
  assert (f1 = f <| f_buff := Some b |> <| reTxCnt := reTxCnt f + 0 |>) as Ef1.
  { rewrite Z.add_0_r. by destruct f. }
  apply wp_bind, wp_over, (wp_alloc_run ch); [done|]. intros ok w1 Hc1 Hrun.
  destruct ok; cycle 1.
  { cbn [SDF_BuffCopy f1]. replace (SDF_BuffCopy false (f_buff f1)) with (@None SDF_Buff)
      by (cbn; by destruct (_ <? _)).
    apply wp_ret, HQ; try done; [by apply evolves_calm|]. split; [done|].
    exists b, f1. split_and!; try done; [by exists duplex, p, D|]. by exists false, w1. }
  replace (SDF_BuffCopy true (f_buff f1)) with (Some b) by (symmetry; apply copy_wf, Hsend).
  apply wp_bind, wp_over, (wp_send_frame_call ch); [by eapply calm_ok|done|]. intros ret w2 Hc2 Hret.
  pose proof (calm_trans ch _ _ _ Hc1 Hc2) as Hc. destruct (ret =? 0) eqn:Er; cycle 1.
  { apply wp_ret, HQ; try done; [by apply evolves_calm|]. split; [done|].
    exists b, f1. split_and!; try done; [by exists duplex, p, D|]. exists true, w1. split_and!; [done..|].
    exists ret, w2. by rewrite Er. }
  cbn [negb Z.eqb DTAP_SUCCESS]. cbv zeta. rewrite u8_small by (rewrite Ecnt; cint).
  set (f2 := f1 <| reTxCnt := reTxCnt f1 + 1 |>).
  assert (stored (crcInit r) (ch_dstTcid ch) duplex true f2 D) as Hst2.
  { apply stored_cnt; [done|]. rewrite Ecnt. cint. }
  apply wp_bind, wp_upd. set (r2 := set_tx _ r1).
  assert (txList (txWindow r2) = put_frame (txSeq f) f2 (txList (txWindow r))) as El2.
  { apply put_put. done. }
  assert (tx_inv (ch_dstTcid ch) A Ds r2) as Hinv2.
  { eapply (tx_inv_update _ A Ds r r2 i f f2 D); try done; [|by rewrite El2, Hput].
    split; [|by eauto]. change (reTxCnt f2) with (reTxCnt f + 1). lia. }
  apply wp_bind. eapply wp_opt; [unfold frame_type; rewrite (st_ctx _ _ _ _ _ _ Hst2); reflexivity|].
  apply wp_bind.
  assert (forall t1 t2 w', calm ch w2 w' ->
    Q DTAP_SUCCESS (r2 <| rspTimer := t1 |> <| retransTimer := t2 |>, w')) as Hfin.
  { intros t1 t2 w' Hc'. apply HQ.
    - apply evolves_calm; try done. by eapply calm_trans.
    - apply (tx_inv_same _ A Ds r2); try done. by destruct Hinv2.
    - done.
    - split; [done|]. exists b, f2. split_and!; try done; [by exists duplex, p, D|].
      exists true, w1. split_and!; [done..|]. exists ret, w2. by rewrite Er. }
  destruct (_ =? DTAP_FRAME_DUPLEX_FRAG).
  - apply wp_restart_rsp; [by eapply calm_ok|]. intros t1 w3 Hc3.
    apply wp_bind, wp_restart_retrans; [by eapply calm_ok|]. intros t2 w4 Hc4.
    apply wp_ret, Hfin. by eapply calm_trans.
  - apply wp_ret, wp_bind, wp_restart_retrans; [by eapply calm_ok|]. intros t2 w4 Hc4.
    apply wp_ret. assert (r2 <| rspTimer := rspTimer r2 |> = r2) as <- by (by destruct r2).
    by apply Hfin.
Qed.
(** ** Acknowledgements *)

(** How many of the [n] outstanding frames from [A] on the number [s] acknowledges. *)
Definition ack_count (A n s : Z) : Z :=
  if s =? DTAP_FRAME_SEQ_INIT then 0
  else let d := (s - A) mod 16384 in if d <=? n then d else 0.

Definition ack_number (s : Z) : Prop := 0 <= s < 16384 \/ s = DTAP_FRAME_SEQ_INIT.

Lemma ack_count_range A n s : 0 <= n -> 0 <= ack_count A n s <= n.
Proof.
  intros Hn. unfold ack_count. destruct (s =? _); [lia|]. cbv zeta.
  pose proof (Z.mod_pos_bound (s - A) 16384). destruct (Z.leb_spec ((s - A) mod 16384) n); lia.
Qed.

Lemma ack_count_seq A n s :
  0 < n < 256 -> 0 <= s < 16384 ->
  let k := ack_count A n s in
  ((DTAP_IsFrameSeqSmaller (seq14 A) s && DTAP_IsFrameSeqSmaller s (seq14 (A + n)))
     || (s =? seq14 (A + n)))%bool = (0 <? k) /\ (0 < k -> s = seq14 (A + k)).
Proof.
  intros Hn Hs. unfold ack_count, DTAP_FRAME_SEQ_INIT.
  rewrite (proj2 (Z.eqb_neq s 0xFFFF)) by lia. cbv zeta.
  set (d := (s - A) mod 16384). assert (s = seq14 (A + d)) as Es.
  { unfold d, seq14. Z.div_mod_to_equations; lia. }
  assert (0 <= d < 16384) as Hd by (apply Z.mod_pos_bound; lia).
  rewrite Es at 1 2 3. rewrite !smaller_spec.
  assert ((seq14 (A + d) =? seq14 (A + n)) = (d =? n)) as ->.
  { rewrite seq14_eqb by lia. destruct (Z.eqb_spec (A + d) (A + n)), (Z.eqb_spec d n); lia. }
  replace (A - (A + d)) with (- d) by lia. replace (A + d - (A + n)) with (d - n) by lia.
  split.
  - destruct (Z.leb_spec d n), (Z.leb_spec 8192 (- d mod 16384)),
      (Z.leb_spec 8192 ((d - n) mod 16384)), (Z.eqb_spec d n);
      match goal with |- _ = (0 <? ?k) => destruct (Z.ltb_spec 0 k) end;
      try done; Z.div_mod_to_equations; lia.
  - destruct (Z.leb_spec d n); [done|lia].
Qed.

Definition cached r := (isTxWindowFull r, cacheBuff r, cachePi r).

Lemma tx_inv_ack tcid A Ds r r' K :
  tx_inv tcid A Ds r -> 0 <= K <= zlen Ds -> conf r' = conf r -> cached r' = cached r ->
  (nextTxSeq (txWindow r'), expectedAckSeq (txWindow r'), txList (txWindow r'))
  = (nextTxSeq (txWindow r), seq14 (A + K), drop (Z.to_nat K) (txList (txWindow r))) ->
  tx_inv tcid (A + K) (drop (Z.to_nat K) Ds) r'.
Proof.
  intros [] HK Hc Hk Hf. pose proof (outstanding_conf tcid r r') as Hout.
  unfold conf, cached in *. simplify_eq.
  assert (zlen (drop (Z.to_nat K) Ds) = zlen Ds - K) as Hlen by (rewrite length_drop; lia).
  constructor; try congruence; rewrite ?Hlen.
  - replace (A + K + (zlen Ds - K)) with (A + zlen Ds) by lia. congruence.
  - replace (tx_size (txWindow r')) with (tx_size (txWindow r)) by done. lia.
  - replace (txList (txWindow r')) with (drop (Z.to_nat K) (txList (txWindow r))) by done.
    apply Forall2_drop. eapply Forall2_impl; [exact ti_frames0|]. intros.
    apply Hout; [congruence|done].
  - replace (txList (txWindow r')) with (drop (Z.to_nat K) (txList (txWindow r))) by done.
    intros i f Hi. rewrite lookup_drop in Hi. rewrite (ti_seqs0 _ _ Hi). f_equal. lia.
  - unfold cache_ok in *. by same_fields r'.
Qed.

Lemma wp_slide_tx A Ds f ty s r w (Q : unit -> _ -> Prop) :
  sched_ok ch w -> tx_inv (ch_dstTcid ch) A Ds r -> frame_type f = Some ty ->
  s = (if ty =? DTAP_FRAME_ACK then ack_reqSeq f else reqSeq f) -> ack_number s ->
  (forall r' w', evolves r w r' w' -> cached r' = cached r ->
     (let k := ack_count A (zlen Ds) s in
      tx_inv (ch_dstTcid ch) (A + k) (drop (Z.to_nat k) Ds) r') -> Q tt (r', w')) ->
  wp (DTAP_SlideTxWindow f) (r, w) Q.
Proof.
  intros Hok Hinv Hty Hs Hnum HQ. apply wp_bind. eapply wp_opt; [exact Hty|]. rewrite <- Hs. cbv zeta.
  pose proof (tx_inv_len _ _ _ _ Hinv) as Hlen. pose proof (ti_room _ _ _ _ Hinv).
  pose proof (ti_size _ _ _ _ Hinv) as Hsize. cbv zeta in HQ.
  assert (forall r' w', evolves r w r' w' -> cached r' = cached r ->
    (nextTxSeq (txWindow r'), expectedAckSeq (txWindow r'), txList (txWindow r'))
    = (nextTxSeq (txWindow r), expectedAckSeq (txWindow r), txList (txWindow r)) ->
    ack_count A (zlen Ds) s = 0 -> Q tt (r', w')) as Hsame.
  { intros r' w' Hev Hk Hf Hz0. apply HQ; [done..|]. rewrite Hz0.
    pose proof (ti_ack _ _ _ _ Hinv). apply (tx_inv_ack _ _ _ r r' 0); try done; [lia|apply Hev|].
    rewrite Hf, Z.add_0_r. change (Z.to_nat 0) with 0%nat. rewrite drop_0. congruence. }
  destruct (Z.eqb_spec s DTAP_FRAME_SEQ_INIT) as [Einit|Hni].
  { apply wp_ret, Hsame; [by apply evolves_refl|done|done|]. by rewrite Einit. }
  destruct Hnum as [Hnum|]; [|done].
  apply wp_bind, wp_upd, wp_bind, wp_rel. cbn [id]. set (r1 := r <| sendPollingCounter := 0 |>).
  change (txWindow r1) with (txWindow r). change (reTxSeq r1) with (reTxSeq r).
  destruct (Z.eqb_spec (zlen (txList (txWindow r))) 0) as [E0|Hne].
  { apply wp_ret, Hsame; [by apply evolves_calm; [apply calm_refl|..]|done|done|].
    pose proof (ack_count_range A (zlen Ds) s). lia. }
  apply wp_bind.
  set (r2 := r1 <| reTxSeq := if DTAP_IsFrameSeqSmaller (reTxSeq r) s then s else reTxSeq r |>).
  assert (wp (if DTAP_IsFrameSeqSmaller (reTxSeq r) s then upd (fun r => r <| reTxSeq := s |>)
              else st_ret tt) (r1, w) (fun _ x => x = (r2, w))) as Hre.
  { unfold r2. by destruct (DTAP_IsFrameSeqSmaller (reTxSeq r) s). }
  eapply wp_mono; [exact Hre|]. intros _ x ->.
  rewrite (ti_ack _ _ _ _ Hinv), (ti_next _ _ _ _ Hinv).
  destruct (ack_count_seq A (zlen Ds) s ltac:(lia) Hnum) as [-> Heq].
  set (k := ack_count A (zlen Ds) s) in *. pose proof (ack_count_range A (zlen Ds) s ltac:(lia)) as Hk.
  fold k in Hk. destruct (Z.ltb_spec 0 k) as [Hpos|Hz].
  2: { apply wp_ret, Hsame; [by apply evolves_calm; [apply calm_refl|..]|done|done|lia]. }
  specialize (Heq Hpos). apply wp_bind, wp_upd, wp_bind, wp_rel. cbn [id].
  set (r3 := set_tx _ r2).
  assert (forall t w', calm ch w w' -> Q tt (r3 <| retransTimer := t |>, w')) as Hfin.
  { intros t w' Hc. apply HQ; [by apply evolves_calm|done|].
    apply (tx_inv_ack _ _ _ r); try done. unfold r3.
    change (txList (txWindow (set_tx _ r2 <| retransTimer := t |>)))
      with (drop_acked s (txList (txWindow r))).
    rewrite Heq, (drop_acked_spec A) by (first [apply Hinv|lia]).
    replace (A + k - A) with k by lia. done. }
  destruct (expectedAckSeq (txWindow r3) =? _).
  - apply wp_bind, wp_over, (wp_stop_timer ch); [done|]. intros w' Hc. apply wp_upd. by apply Hfin.
  - apply wp_restart_retrans; [done|]. intros t w' Hc. by apply Hfin.
Qed.
(** ** Packing an SDU *)
Lemma sar_range n k : 0 <= DTAP_GetFragFrameSar n k < 4.
Proof.
  unfold DTAP_GetFragFrameSar, DTAP_SAR_UNSEG, DTAP_SAR_FIRST, DTAP_SAR_MID, DTAP_SAR_LAST.
  repeat case_match; lia.
Qed.

Definition frag_ctx (duplex : bool) : FrameCtx := if duplex then DuplexFragCtx else SimplexFragCtx.

(** One fragment built: it is stored with the payload it was given. *)
Lemma wp_build_fragment duplex f D crc tcid w (Q : Z * DTAP_Frame -> W -> Prop) :
  tx_frame (frag_ctx duplex) f D -> is_u16 crc -> bits f = DTAP_FRAME_C_BIT ->
  0 < zlen D -> zlen D + frag_hdr_len duplex < 65534 -> bytes_ok D -> 0 <= sar f < 4 ->
  0 <= txSeq f < 16384 -> 0 <= reqSeq f < 16384 -> is_u8 (pi f) ->
  (forall b, stored crc tcid duplex false (f <| f_buff := Some b |>) D ->
     Q (DTAP_SUCCESS, f <| f_buff := Some b |>) w) ->
  wp (buildFrame (frag_ctx duplex) f tcid crc) w Q.
Proof.
  intros [Hc Hcnt (b&Hb&Hwf&Hd&Ho&Htail)] Hcrc Hbits Hpos Hlen HD Hsar Hseq Hreq Hpi HQ.
  pose proof (length_buff_data b Hwf) as Hl. rewrite Hd in Hl.
  unfold SDF_BUFF_MAX_HEADROOM_SIZE, DTAP_CRC_LEN in *.
  assert (DTAP_CheckFrameBit (bits f) DTAP_FRAME_P_BIT = false) as Hp by (by rewrite Hbits).
  assert (DTAP_CheckFrameBit (bits f) DTAP_FRAME_F_BIT = false) as Hf by (by rewrite Hbits).
  destruct duplex; unfold frag_ctx, buildFrame;
    [change (frag_hdr_len true) with 9 in *|change (frag_hdr_len false) with 7 in *].
  - destruct (build_duplex_spec f b tcid crc Hb Hwf Hcrc) as (b'&rfu&Hrfu&Hbuild&Hwf'&Hd'&Ho'&Hl'&_);
      [lia..|]. rewrite Hp, Hf, Hd in Hd'.
    eapply wp_opt; [exact Hbuild|]. apply HQ. constructor; try done.
    + change (is_u8 (reTxCnt f)). by rewrite Hcnt.
    + exists b', rfu. split; [done|]. split; [done|]. split.
      * unfold sendable, DLI_HEADER. split_and!; [done|lia..].
      * rewrite Hd'. change (frag_hdr_len true) with 9. unfold with_crc, data_header.
        replace (zlen D + 9 - 2) with (dataLen b + 7) by lia. done.
  - destruct (build_simplex_spec f b tcid crc Hb Hwf Hcrc) as (b'&Hbuild&Hwf'&Hd'&Ho'&Hl'&_);
      [lia..|]. rewrite Hp, Hd in Hd'.
    eapply wp_opt; [exact Hbuild|]. apply HQ. constructor; try done.
    + change (is_u8 (reTxCnt f)). by rewrite Hcnt.
    + exists b', 0. split; [done|]. split; [done|]. split.
      * unfold sendable, DLI_HEADER. split_and!; [done|lia..].
      * rewrite Hd'. change (frag_hdr_len false) with 7. unfold with_crc, data_header.
        replace (zlen D + 7 - 2) with (dataLen b + 5) by lia. done.
Qed.

Lemma wp_pack_loop duplex r pi0 tcid frames Ds n k N out w (Q : Z * list DTAP_Frame -> W -> Prop) :
  Forall2 (tx_frame (frag_ctx duplex)) frames Ds -> labelled n k frames ->
  Forall (fun D => 0 < zlen D /\ zlen D + frag_hdr_len duplex < 65534 /\ bytes_ok D) Ds ->
  is_u16 (crcInit r) -> is_u8 (maxTxThreshold r) -> is_u8 pi0 ->
  0 <= expectedTxSeq (rxWindow r) < 16384 -> tcid = ch_dstTcid ch ->
  (forall fs, Forall2 (outstanding r tcid) fs Ds -> consecutive N fs -> map sar fs = map sar frames ->
     Q (DTAP_SUCCESS, out ++ fs) w) ->
  wp (pack_loop ch r pi0 frames (seq14 N) out) w Q.
Proof.
  intros Hfs Hlab HDs Hcrc Hmax Hpi Hexp ->. revert k N out Hlab HDs.
  induction Hfs as [|f D frames Ds Hf Hfs IH]; intros k N out Hlab HDs HQ; cbn [pack_loop].
  { apply wp_ret. rewrite <- (app_nil_r out). apply HQ; [done| |done]. by intros i f Hi. }
  apply labelled_cons in Hlab as [Hs Hlab]. apply Forall_cons in HDs as [(Hpos&Hlen&HD) HDs].
  set (f1 := f <| bits := _ |> <| pi := _ |> <| txSeq := _ |> <| reqSeq := _ |>).
  pose proof (seq14_range N) as Hseq. unfold DTAP_FRAME_SEQ_MAX in Hseq.
  assert (tx_frame (frag_ctx duplex) f1 D) as Hf1 by (by destruct Hf).
  apply wp_bind. eapply wp_opt; [apply (tx_ctx _ _ _ Hf1)|].
  apply wp_bind, (wp_build_fragment duplex f1 D); try done.
  { change (sar f1) with (sar f). rewrite Hs. apply sar_range. }
  { change (txSeq f1) with (seq14 N). lia. }
  intros b Hst. cbn [negb Z.eqb DTAP_SUCCESS]. rewrite next_seq14.
  eapply IH; [exact Hlab|done|]. intros fs Hout Hcons Hsar. rewrite <- app_assoc. apply HQ; [| |cbn; by rewrite Hsar].
  - constructor; [|done]. split; [|by eauto]. pose proof (tx_cnt _ _ _ Hf1) as Hcnt.
    change (reTxCnt (f1 <| f_buff := Some b |>)) with (reTxCnt f1). rewrite Hcnt. cint.
  - by apply consecutive_cons.
Qed.

(** The payload sizes a fragmentation by [mps] leaves room for. *)
Lemma fragment_sizes b mps hdr Ds :
  buff_wf b -> concat Ds = buff_data b -> 0 < mps -> mps + hdr < 65534 ->
  Forall (fun D => 0 < zlen D <= (if mps =? 0 then dataLen b else mps)) Ds ->
  Forall (fun D => 0 < zlen D /\ zlen D + hdr < 65534 /\ bytes_ok D) Ds.
Proof.
  intros Hwf Hc Hm Hh HDs. rewrite (proj2 (Z.eqb_neq mps 0)) in HDs by lia.
  pose proof (buff_data_ok b Hwf) as Hok. rewrite <- Hc in Hok. clear Hc.
  induction Ds as [|D Ds IH]; [done|]. apply Forall_cons in HDs as [? HDs].
  cbn [concat] in Hok. apply Forall_app in Hok as [? ?]. constructor; [split_and!; [lia|lia|done]|].
  by apply IH.
Qed.

Lemma wp_pack A Ds pi0 b mps r w (Q : Z * list DTAP_Frame -> _ -> Prop) :
  sched_ok ch w -> tx_inv (ch_dstTcid ch) A Ds r -> rx_seqs_ok r -> is_u8 pi0 ->
  buff_wf b -> 0 < dataLen b < 65536 -> 0 < mps -> mps + frag_header_len r < 65534 ->
  DTAP_GetFragmentFramesNum (dataLen b) mps <= DTAP_MAX_FRAGMENT_NUM ->
  (forall w' t, calm ch w w' -> trace w' = trace w ++ t -> alloc_failed t ->
     Q (DTAP_TRANS_RELIABLE_FRAGMENT_ERR, []) (r, w')) ->
  (forall w' fs Ds', calm ch w w' -> Forall2 (outstanding r (ch_dstTcid ch)) fs Ds' ->
     consecutive (A + zlen Ds) fs -> concat Ds' = buff_data b -> map sar fs = sar_labels (length fs) ->
     zlen fs = DTAP_GetFragmentFramesNum (dataLen b) mps -> Q (DTAP_SUCCESS, fs) (r, w')) ->
  wp (DTAP_PackEnhanceFrames ch pi0 (Some b) mps) (r, w) Q.
Proof.
  intros Hok [] [_ Hexp] Hpi Hwf Hlen Hmps Hroom Hn Hfail Hdone. apply wp_bind, wp_rel. cbn [id].
  assert ((if isRecvFrame r then DTAP_FRAME_DUPLEX_FRAG else DTAP_FRAME_SIMPLEX_FRAG)
          = frag_type (isRecvFrame r)) as -> by done.
  assert (frag_header_len r = frag_hdr_len (isRecvFrame r)) as Eh by done.
  assert (0 <= frag_header_len r) by (rewrite Eh; by destruct (isRecvFrame r)).
  apply wp_bind, wp_over, (wp_calm ch);
    [eapply only_mono; [|apply only_fragment]; by intros c ->|done|].
  apply wp_fragment_frame; try done; [lia| |].
  - intros t w' Ht Hf Hc. cbn. apply wp_ret. by eapply Hfail.
  - intros t w' frames Ds' Ht Hnf [Hfs Hcnt Hlab Hcat Hsz] Hc.
    destruct (Z.eqb_spec (zlen frames) 0) as [E0|Hne].
    { exfalso. destruct frames; [|simpl in E0; lia]. inversion Hfs; subst.
      apply (f_equal (fun l => zlen l)) in Hcat. rewrite length_buff_data in Hcat by done.
      simpl in Hcat. lia. }
    apply wp_over. rewrite ti_next0.
    eapply (wp_pack_loop (isRecvFrame r) r pi0 (ch_dstTcid ch)); try done.
    + by eapply (fragment_sizes b mps).
    + intros fs Hout Hcons Hsar. assert (length fs = length frames) as El
        by (by rewrite (Forall2_length _ _ _ Hfs), (Forall2_length _ _ _ Hout)).
      cbn [app]. apply (Hdone w' fs Ds'); try done.
      * rewrite Hsar, El. apply labelled_sar; [|done]. by intros ->.
      * by rewrite <- Hcnt, El.
Qed.
(** ** Sending the packed frames *)

(** The segmentation states of the window's frames. *)
Definition sars r : list Z := map sar (txList (txWindow r)).

Lemma retransmitted_sars A Ds r w r' w' ret :
  tx_inv (ch_dstTcid ch) A Ds r -> retransmitted r w r' w' ret -> sars r' = sars r.
Proof.
  intros Hinv. unfold retransmitted, sars. destruct (DTAP_FindFrameBySeq _ _) as [f|] eqn:Ef; [|by intros (_&->&_)].
  destruct (outstanding_at _ A Ds r _ f Hinv Ef) as (i&D&Hi&_&_&_&Hput). case_match; [by intros (_&sent&_&->)|].
  intros (_&b&f'&->&->&_). rewrite Hput. change (map sar) with (fmap (M := list) sar).
  rewrite list_fmap_insert, list_insert_id; [done|]. by rewrite list_lookup_fmap, Hi.
Qed.

Lemma tx_inv_append tcid A Ds D f r r' :
  tx_inv tcid A Ds r -> outstanding r tcid f D -> txSeq f = seq14 (A + zlen Ds) ->
  zlen Ds + 1 <= tx_size (txWindow r) -> conf r' = conf r -> cached r' = cached r ->
  (nextTxSeq (txWindow r'), expectedAckSeq (txWindow r'), txList (txWindow r'))
  = (DTAP_GetNextFrameSeq (nextTxSeq (txWindow r)), expectedAckSeq (txWindow r),
     txList (txWindow r) ++ [f]) ->
  tx_inv tcid A (Ds ++ [D]) r'.
Proof.
  intros Hinv Ho Hs Hroom Hc Hk Hf. pose proof (tx_inv_len _ _ _ _ Hinv) as Hlen. destruct Hinv.
  pose proof (outstanding_conf tcid r r') as Hout. unfold conf, cached in *. simplify_eq.
  constructor; try congruence; rewrite ?length_app; simpl.
  - replace (nextTxSeq (txWindow r')) with (DTAP_GetNextFrameSeq (nextTxSeq (txWindow r))) by done.
    rewrite ti_next0, next_seq14. f_equal. lia.
  - replace (tx_size (txWindow r')) with (tx_size (txWindow r)) by done. lia.
  - replace (txList (txWindow r')) with (txList (txWindow r) ++ [f]) by done.
    apply Forall2_app; [|constructor; [|done]; apply Hout; [congruence|done]].
    eapply Forall2_impl; [exact ti_frames0|]. intros. apply Hout; [congruence|done].
  - replace (txList (txWindow r')) with (txList (txWindow r) ++ [f]) by done.
    apply consecutive_app. split; [done|]. apply consecutive_cons. rewrite Hlen. split; [done|].
    by intros i g Hi.
  - unfold cache_ok in *. by same_fields r'.
Qed.

Lemma wp_send_round A Ds f D r w (Q : bool -> _ -> Prop) :
  sched_ok ch w -> tx_inv (ch_dstTcid ch) A Ds r -> outstanding r (ch_dstTcid ch) f D ->
  txSeq f = seq14 (A + zlen Ds) -> zlen Ds + 1 <= tx_size (txWindow r) ->
  (forall sent r' w', evolves r w r' w' -> cached r' = cached r ->
     tx_inv (ch_dstTcid ch) A (Ds ++ [D]) r' -> sars r' = sars r ++ [sar f] -> Q sent (r', w')) ->
  wp (send_round ch f) (r, w) Q.
Proof.
  intros Hok Hinv [Hcnt (duplex&p&Hst)] Hs Hroom HQ. apply wp_bind, wp_rel. cbn [id].
  destruct (DTAP_TriggerSendPolling r) as [poll r1] eqn:Epoll.
  assert (exists n, r1 = r <| sendPollingCounter := n |>) as [n ->].
  { unfold DTAP_TriggerSendPolling in Epoll. destruct (_ <=? _); injection Epoll as _ <-; by eexists. }
  apply wp_bind, wp_upd, wp_bind.
  assert (exists f', outstanding r (ch_dstTcid ch) f' D /\ (txSeq f' = txSeq f /\ sar f' = sar f) /\
    (if poll then DTAP_SetBitForSendPolling f (crcInit r) else Some f) = Some f') as (f'&Ho'&[Hs' Hsar']&Hf').
  { destruct poll; [|exists f; split_and!; [split; eauto|done..]].
    destruct (set_p_bit _ _ _ _ _ _ (ti_crc _ _ _ _ Hinv) Hst) as (b&Hst'&Hset&_).
    exists (f <| f_buff := Some b |>). split_and!; [|done..|exact Hset]. split; [done|]. eauto. }
  eapply wp_mono with (Q := fun g x => g = f' /\ x = (r <| sendPollingCounter := n |>, w)).
  { destruct poll; [eapply wp_opt; [exact Hf'|done]|by injection Hf' as ->]. }
  intros _ _ [-> ->]. destruct Ho' as [Hcnt' (duplex'&p'&Hst')].
  pose proof (st_buff _ _ _ _ _ _ Hst') as (b&rfu&Hb&_&Hsend&_).
  apply wp_bind, wp_over, (wp_alloc_calm ch); [done|]. intros ok w1 Hc1.
  apply wp_bind, wp_over, (wp_send_frame ch); [by eapply calm_ok| |].
  { rewrite Hb. destruct ok; [by rewrite copy_wf by apply Hsend|]. cbn. by destruct (_ <? _). }
  intros ret w2 Hc2 _. apply wp_bind, wp_upd, wp_bind, wp_upd, wp_ret, HQ.
  - apply evolves_calm; try done. by eapply calm_trans.
  - done.
  - eapply (tx_inv_append _ A Ds D f' r); try done; [by split; eauto|congruence].
  - unfold sars. cbn. by rewrite map_app, <- Hsar'.
Qed.

Lemma wp_send_loop A Ds frames Ds' b r w (Q : bool -> _ -> Prop) :
  sched_ok ch w -> tx_inv (ch_dstTcid ch) A Ds r ->
  Forall2 (outstanding r (ch_dstTcid ch)) frames Ds' -> consecutive (A + zlen Ds) frames ->
  zlen Ds + zlen frames <= tx_size (txWindow r) ->
  (forall sent r' w', evolves r w r' w' -> cached r' = cached r ->
     tx_inv (ch_dstTcid ch) A (Ds ++ Ds') r' -> sars r' = sars r ++ map sar frames -> Q sent (r', w')) ->
  wp (send_loop ch (length frames) frames b) (r, w) Q.
Proof.
  revert Ds Ds' b r w.
  induction frames as [|f frames IH]; intros Ds Ds' b r w Hok Hinv Hfs Hcons Hroom HQ;
    cbn [length send_loop].
  { inversion Hfs; subst. apply wp_ret, HQ; [by apply evolves_refl|done|..]; by rewrite app_nil_r. }
  apply Forall2_cons_inv_l in Hfs as (D&Ds2&Ho&Hfs&->). apply consecutive_cons in Hcons as [Hs Hcons].
  simpl in Hroom. pose proof (outstanding_conf (ch_dstTcid ch)) as Hout.
  apply wp_bind, (wp_send_round A Ds f D); try done; [lia|]. intros sent r1 w1 Hev1 Hk1 Hinv1 Hs1.
  pose proof (ev_conf _ _ _ _ Hev1) as Hc1.
  apply (IH (Ds ++ [D]) Ds2); try done.
  - by destruct Hev1.
  - eapply Forall2_impl; [exact Hfs|]. intros. by apply (Hout r).
  - rewrite length_app. simpl. by replace (A + Z.of_nat (length Ds + 1)) with (A + zlen Ds + 1) by lia.
  - unfold conf in Hc1. simplify_eq. rewrite length_app. simpl.
    replace (tx_size (txWindow r1)) with (tx_size (txWindow r)) by done. lia.
  - intros sent2 r2 w2 Hev2 Hk2 Hinv2 Hs2. apply HQ; [by eapply evolves_trans|congruence| |].
    + by rewrite <- app_assoc in Hinv2.
    + by rewrite Hs2, Hs1, <- app_assoc.
Qed.

Lemma wp_send_inner A Ds frames Ds' r w (Q : Z -> _ -> Prop) :
  sched_ok ch w -> tx_inv (ch_dstTcid ch) A Ds r ->
  Forall2 (outstanding r (ch_dstTcid ch)) frames Ds' -> consecutive (A + zlen Ds) frames ->
  zlen Ds + zlen frames <= tx_size (txWindow r) -> zlen frames <= DTAP_MAX_FRAGMENT_NUM ->
  (forall r' w', evolves r w r' w' -> cached r' = cached r -> tx_inv (ch_dstTcid ch) A Ds r' ->
     Q DTAP_TRANS_RELIABLE_REACH_MAX_RE_TX_CNT_ERR (r', w')) ->
  (forall r' w', evolves r w r' w' -> cached r' = cached r ->
     tx_inv (ch_dstTcid ch) A (Ds ++ Ds') r' -> sars r' = sars r ++ map sar frames -> Q DTAP_SUCCESS (r', w')) ->
  wp (DTAP_SendEnhanceFrameInner ch frames (zlen frames)) (r, w) Q.
Proof.
  intros Hok Hinv Hfs Hcons Hroom Hmax Hfail Hdone. unfold DTAP_SendEnhanceFrameInner.
  destruct (Z.ltb_spec DTAP_MAX_FRAGMENT_NUM (zlen frames)); [lia|].
  apply wp_bind, wp_rel, wp_bind. cbn [id]. rewrite Nat2Z.id.
  assert (forall b r1 w1, evolves r w r1 w1 -> cached r1 = cached r ->
    tx_inv (ch_dstTcid ch) A Ds r1 -> sars r1 = sars r ->
    wp (let! isResetRspTimer := send_loop ch (length frames) frames b in
      let! r := rel id in
      (if isResetRspTimer && isRecvFrame r then restart_rsp else st_ret tt) ;;!
      let! r := rel id in
      (if retransTimer r =? INVALID_TIMER_HANDLE then
         let! (_, t) := over (DTAP_TransStartTimer (retransTimer r) (retransTimeout r) true
                                RetransTimerExpireProc) in
         upd (fun r => r <| retransTimer := t |>)
       else st_ret tt) ;;!
      st_ret DTAP_SUCCESS) (r1, w1) Q) as Hrest.
  { intros b r1 w1 Hev1 Hk1 Hinv1 Hs1. pose proof (ev_conf _ _ _ _ Hev1) as Hc1.
    apply wp_bind, (wp_send_loop A Ds frames Ds'); try done; [by destruct Hev1|..].
    - eapply Forall2_impl; [exact Hfs|]. intros. by apply (outstanding_conf _ r).
    - unfold conf in Hc1. simplify_eq.
      by replace (tx_size (txWindow r1)) with (tx_size (txWindow r)) by done.
    - intros sent r2 w2 Hev2 Hk2 Hinv2 Hs2. pose proof (evolves_trans _ _ _ _ _ _ Hev1 Hev2) as Hev.
      assert (cached r2 = cached r) as Hk by congruence.
      assert (forall t1 t2 w', calm ch w2 w' ->
        Q DTAP_SUCCESS (r2 <| rspTimer := t1 |> <| retransTimer := t2 |>, w')) as Hfin.
      { intros t1 t2 w' Hc. apply Hdone.
        - eapply evolves_trans; [exact Hev|by apply evolves_calm].
        - done.
        - apply (tx_inv_same _ A (Ds ++ Ds') r2); try done. by destruct Hinv2.
        - rewrite <- Hs1. exact Hs2. }
      assert (forall t1 w', calm ch w2 w' ->
        wp (let! r := rel id in
            (if retransTimer r =? INVALID_TIMER_HANDLE then
               let! (_, t) := over (DTAP_TransStartTimer (retransTimer r) (retransTimeout r) true
                                      RetransTimerExpireProc) in
               upd (fun r => r <| retransTimer := t |>)
             else st_ret tt) ;;!
            st_ret DTAP_SUCCESS) (r2 <| rspTimer := t1 |>, w') Q) as Htim.
      { intros t1 w' Hc. apply wp_bind, wp_rel, wp_bind. cbn [id].
        destruct (retransTimer (r2 <| rspTimer := t1 |>) =? INVALID_TIMER_HANDLE) eqn:Et.
        - apply wp_bind, wp_over, (wp_start_timer ch); [by eapply calm_ok|]. intros ret t w3 Hc3.
          apply wp_upd, wp_ret, Hfin. by eapply calm_trans.
        - apply wp_ret, wp_ret.
          assert (r2 <| rspTimer := t1 |> = r2 <| rspTimer := t1 |> <| retransTimer := retransTimer r2 |>)
            as -> by (by destruct r2). by apply Hfin. }
      pose proof (ev_ok _ _ _ _ Hev2) as Hok2. apply wp_bind, wp_rel, wp_bind. cbn [id].
      destruct (sent && isRecvFrame r2)%bool.
      + apply wp_restart_rsp; [done|]. intros t w3 Hc3. by apply Htim.
      + apply wp_ret. assert (r2 <| rspTimer := rspTimer r2 |> = r2) as <- by (by destruct r2).
        by apply Htim, calm_refl. }
  destruct (DTAP_IsFrameSeqSmaller (reTxSeq r) (nextTxSeq (txWindow r))).
  - apply wp_bind, (wp_retrans A Ds); [done..|]. intros ret r1 w1 Hev1 Hinv1 Hf1 Hr1.
    assert (cached r1 = cached r) as Hk1 by (unfold tx_flags, cached in *; congruence).
    destruct (Z.eqb_spec ret DTAP_TRANS_RELIABLE_REACH_MAX_RE_TX_CNT_ERR) as [->|Hne].
    + apply wp_ret. cbn. apply wp_ret. by apply Hfail.
    + apply wp_bind, wp_upd, wp_ret. cbn [negb Z.eqb DTAP_SUCCESS]. apply Hrest.
      * eapply evolves_trans; [exact Hev1|]. apply evolves_calm; try done. apply calm_refl, Hev1.
      * done.
      * apply (tx_inv_same _ A Ds r1); try done. by destruct Hinv1.
      * by apply (retransmitted_sars A Ds r w r1 w1 ret).
  - apply wp_ret. cbn [negb Z.eqb DTAP_SUCCESS]. by apply Hrest.
Qed.
(** ** Sending a packet *)
Definition payload_room r : Z := ch_mps ch - frag_header_len r - DTAP_CRC_LEN.
Definition frames_needed r (b : SDF_Buff) : Z := DTAP_GetFragmentFramesNum (dataLen b) (payload_room r).

(** The outcomes of [DTAP_SendEnhanceFrame] for the packet [b] when the frames
    carrying [Ds] are outstanding from [A] on. *)
Inductive send_outcome (A : Z) (Ds : list bytes) (b : SDF_Buff) r r' : Z -> Prop :=
| send_bad_mps : payload_room r <= 0 -> r' = r -> send_outcome A Ds b r r' DTAP_TRANS_RELIABLE_INVALID_MPS
| send_too_long : DTAP_MAX_FRAGMENT_NUM < frames_needed r b -> r' = r ->
    send_outcome A Ds b r r' DTAP_TRANS_RELIABLE_INVALID_FRAME_NUM
| send_no_room : tx_size (txWindow r) < zlen Ds + frames_needed r b ->
    tx_inv (ch_dstTcid ch) A Ds r' -> isTxWindowFull r' = true ->
    (cacheBuff r' = match cacheBuff r with Some c => Some c | None => Some b end \/
     cacheBuff r' = None) ->
    send_outcome A Ds b r r' DTAP_TRANS_RELIABLE_TX_WINDOW_FULL
| send_no_memory : zlen Ds + frames_needed r b <= tx_size (txWindow r) ->
    tx_inv (ch_dstTcid ch) A Ds r' -> cacheBuff r' = cacheBuff r ->
    isTxWindowFull r' = isTxWindowFull r || (zlen Ds + frames_needed r b =? tx_size (txWindow r)) ->
    send_outcome A Ds b r r' DTAP_TRANS_RELIABLE_FRAGMENT_ERR
| send_peer_lost : zlen Ds + frames_needed r b <= tx_size (txWindow r) ->
    tx_inv (ch_dstTcid ch) A Ds r' -> cacheBuff r' = cacheBuff r ->
    send_outcome A Ds b r r' DTAP_TRANS_RELIABLE_REACH_MAX_RE_TX_CNT_ERR
| send_sent Ds' : zlen Ds' = frames_needed r b -> concat Ds' = buff_data b ->
    sars r' = sars r ++ sar_labels (length Ds') ->
    zlen Ds + zlen Ds' <= tx_size (txWindow r) ->
    tx_inv (ch_dstTcid ch) A (Ds ++ Ds') r' -> cacheBuff r' = cacheBuff r ->
    isTxWindowFull r' = isTxWindowFull r || (zlen Ds + zlen Ds' =? tx_size (txWindow r)) ->
    send_outcome A Ds b r r'
      (if isTxWindowFull r' then DTAP_TRANS_RELIABLE_TX_WINDOW_FULL else DTAP_SUCCESS).

(** The frames are packed and sent, from a state [r1] that only differs in the flag. *)
Lemma wp_send_packed A Ds pi0 b r w full (Q : Z -> _ -> Prop) :
  let r1 := r <| isTxWindowFull := full |> in
  sched_ok ch w -> tx_inv (ch_dstTcid ch) A Ds r -> rx_seqs_ok r -> is_u8 pi0 ->
  buff_wf b -> 0 < dataLen b < 65536 -> 0 <= ch_mps ch < 65536 -> 0 < payload_room r ->
  frames_needed r b <= DTAP_MAX_FRAGMENT_NUM -> zlen Ds + frames_needed r b <= tx_size (txWindow r) ->
  full = isTxWindowFull r || (zlen Ds + frames_needed r b =? tx_size (txWindow r)) ->
  (forall ret r' w', evolves r w r' w' -> send_outcome A Ds b r r' ret -> Q ret (r', w')) ->
  wp (let! (ret, frames) := DTAP_PackEnhanceFrames ch pi0 (Some b) (payload_room r) in
      if negb (ret =? DTAP_SUCCESS) then st_ret ret
      else
        let! ret := DTAP_SendEnhanceFrameInner ch frames (frames_needed r b) in
        if ret =? DTAP_SUCCESS then
          let! full := rel isTxWindowFull in
          st_ret (if (full : bool) then DTAP_TRANS_RELIABLE_TX_WINDOW_FULL else ret)
        else st_ret ret) (r1, w) Q.
Proof.
  intros r1 Hok Hinv Hrx Hpi Hwf Hlen Hmps Hroom Hn Hfit Hfull HQ.
  assert (tx_inv (ch_dstTcid ch) A Ds r1) as Hinv1.
  { apply (tx_inv_same _ A Ds r); try done. by destruct Hinv. }
  assert (frag_header_len r1 = frag_header_len r) as Eh by done.
  unfold payload_room, DTAP_CRC_LEN in Hroom.
  apply wp_bind, (wp_pack A Ds); try done.
  { rewrite Eh. unfold payload_room, DTAP_CRC_LEN. lia. }
  - intros w' t Hc _ _. cbn. apply wp_ret, HQ; [by apply evolves_calm|].
    by apply send_no_memory.
  - intros w1 fs Ds' Hc Hout Hcons Hcat Hsar Hcnt. cbn [negb Z.eqb DTAP_SUCCESS].
    fold (frames_needed r b) in Hcnt. rewrite <- Hcnt in *.
    pose proof (Forall2_length _ _ _ Hout) as Hl.
    apply wp_bind, (wp_send_inner A Ds fs Ds'); try done; [by eapply calm_ok|..].
    + intros r2 w2 Hev Hk Hinv2. cbn. apply wp_ret, HQ.
      * eapply evolves_trans; [|exact Hev]. by apply evolves_calm.
      * apply send_peer_lost; [lia|done|]. unfold cached in Hk. by simplify_eq.
    + intros r2 w2 Hev Hk Hinv2 Hsars. cbn [Z.eqb DTAP_SUCCESS]. apply wp_bind, wp_rel, wp_ret, HQ.
      * eapply evolves_trans; [|exact Hev]. by apply evolves_calm.
      * unfold cached in Hk. injection Hk as Hk1 Hk2 Hk3.
        apply (send_sent A Ds b r r2 Ds'); [lia|done| |lia|done|done|].
        { rewrite Hsars, Hsar, Hl. done. }
        rewrite Hk1, <- Hl. exact Hfull.
Qed.

Lemma wp_send A Ds pi0 b r w (Q : Z -> _ -> Prop) :
  sched_ok ch w -> tx_inv (ch_dstTcid ch) A Ds r -> rx_seqs_ok r -> is_u8 pi0 ->
  buff_wf b -> 0 < dataLen b < 65536 -> 0 <= ch_mps ch < 65536 ->
  (forall ret r' w', evolves r w r' w' -> send_outcome A Ds b r r' ret -> Q ret (r', w')) ->
  wp (DTAP_SendEnhanceFrame ch pi0 b) (r, w) Q.
Proof.
  intros Hok Hinv Hrx Hpi Hwf Hlen Hmps HQ. apply wp_bind, wp_rel. cbn [id]. cbv zeta.
  assert (frag_header_len r = 7 \/ frag_header_len r = 9) as Hh
    by (unfold frag_header_len; destruct (isRecvFrame r); auto).
  destruct (Z.leb_spec (ch_mps ch) (frag_header_len r + DTAP_CRC_LEN)).
  { apply wp_ret, HQ; [by apply evolves_refl|]. apply send_bad_mps; [|done]. unfold payload_room. lia. }
  assert (0 < payload_room r) as Hroom by (unfold payload_room; lia).
  assert (u16 (ch_mps ch - frag_header_len r - DTAP_CRC_LEN) = payload_room r) as ->.
  { unfold payload_room, DTAP_CRC_LEN in *. apply u16_small. cint. }
  unfold SDF_DataLenGet. fold (frames_needed r b).
  destruct (Z.ltb_spec DTAP_MAX_FRAGMENT_NUM (frames_needed r b)).
  { apply wp_ret, HQ; [by apply evolves_refl|]. by apply send_too_long. }
  rewrite (tx_inv_len _ _ _ _ Hinv).
  destruct (Z.ltb_spec (tx_size (txWindow r)) (zlen Ds + frames_needed r b)) as [Hover|Hfit].
  - apply wp_bind.
    assert (forall c p w', calm ch w w' -> (c = None \/ c = Some b /\ p = pi0 \/
        c = cacheBuff r /\ p = cachePi r) ->
      (c = match cacheBuff r with Some c => Some c | None => Some b end \/ c = None) ->
      Q DTAP_TRANS_RELIABLE_TX_WINDOW_FULL
        (r <| cacheBuff := c |> <| cachePi := p |> <| isTxWindowFull := true |>, w')) as Hfin.
    { intros c p w' Hc Hcp Hcc. apply HQ; [by apply evolves_calm|]. apply send_no_room; try done.
      apply (tx_inv_same _ A Ds r); try done. unfold cache_ok. cbn.
      destruct Hcp as [->|[[-> ->]|[-> ->]]]; [done|done|]. by destruct Hinv. }
    destruct (cacheBuff r) as [c|] eqn:Ec.
    + apply wp_ret, wp_bind, wp_upd, wp_ret.
      assert (r <| isTxWindowFull := true |>
        = r <| cacheBuff := Some c |> <| cachePi := cachePi r |> <| isTxWindowFull := true |>) as ->.
      { rewrite <- Ec. by destruct r. }
      apply Hfin; [by apply calm_refl|auto..].
    + apply wp_bind, wp_over, (wp_alloc_calm ch); [done|]. intros ok w1 Hc1.
      apply wp_upd, wp_bind, wp_upd, wp_ret. apply Hfin; [done|..].
      * destruct ok; [rewrite copy_wf by done; auto|]. left. cbn. by destruct (_ <? _).
      * destruct ok; [rewrite copy_wf by done; auto|]. right. cbn. by destruct (_ <? _).
  - apply wp_bind. set (full := (isTxWindowFull r || (zlen Ds + frames_needed r b =? tx_size (txWindow r)))%bool).
    eapply wp_mono with (Q := fun _ x => x = (r <| isTxWindowFull := full |>, w)).
    { unfold full. destruct (zlen Ds + frames_needed r b =? tx_size (txWindow r)).
      - apply wp_upd. by rewrite orb_true_r.
      - apply wp_ret. rewrite orb_false_r. by destruct r. }
    intros _ _ ->. by apply (wp_send_packed A Ds).
Qed.
Lemma send_outcome_inv A Ds b r r' ret :
  tx_inv (ch_dstTcid ch) A Ds r -> send_outcome A Ds b r r' ret ->
  exists Ds', tx_inv (ch_dstTcid ch) A (Ds ++ Ds') r'.
Proof.
  intros Hinv []; subst; first [by eexists | exists []; by rewrite app_nil_r].
Qed.

(** ** Acknowledgement with a retransmission request, timers, and the waiting packet *)
Lemma wp_recv_nack A Ds f ty r w (Q : Z -> _ -> Prop) :
  sched_ok ch w -> tx_inv (ch_dstTcid ch) A Ds r -> frame_type f = Some ty ->
  (forall ret r' w', evolves r w r' w' -> cached r' = cached r -> tx_inv (ch_dstTcid ch) A Ds r' ->
     ret = DTAP_SUCCESS \/ ret = DTAP_TRANS_RELIABLE_REACH_MAX_RE_TX_CNT_ERR -> Q ret (r', w')) ->
  wp (DTAP_RecvNackFrame ch f) (r, w) Q.
Proof.
  intros Hok Hinv Hty HQ. apply wp_bind. eapply wp_opt; [exact Hty|].
  destruct ((ty =? DTAP_FRAME_ACK) && ack_sBit f)%bool.
  - apply wp_bind, wp_upd, wp_bind, (wp_retrans A Ds); [done| |].
    { apply (tx_inv_same _ A Ds r); try done. by destruct Hinv. }
    intros ret r1 w1 Hev Hinv1 Hf _.
    assert (cached r1 = cached r) as Hk by (unfold tx_flags in Hf; cbn in Hf; unfold cached; congruence).
    assert (evolves r w r1 w1) as Hev'.
    { eapply evolves_trans; [|exact Hev]. apply evolves_calm; try done. by apply calm_refl. }
    destruct (ret =? _); apply wp_ret, HQ; auto.
  - apply wp_ret, HQ; auto. by apply evolves_refl.
Qed.

Lemma wp_retrans_timer A Ds r w (Q : unit -> _ -> Prop) :
  sched_ok ch w -> tx_inv (ch_dstTcid ch) A Ds r ->
  (forall r' w', evolves r w r' w' -> tx_inv (ch_dstTcid ch) A Ds r' -> Q tt (r', w')) ->
  wp (DTAP_RetransTimerExpireProc ch) (r, w) Q.
Proof.
  intros Hok Hinv HQ. apply wp_bind, wp_rel. cbn [id]. destruct (_ =? 0).
  { apply wp_ret, HQ; [by apply evolves_refl|done]. }
  apply wp_bind, wp_upd, wp_bind, (wp_retrans A Ds); [done| |].
  { apply (tx_inv_same _ A Ds r); try done. by destruct Hinv. }
  intros ret r1 w1 Hev Hinv1 _ _. apply wp_ret, HQ; [|done].
  eapply evolves_trans; [|exact Hev]. apply evolves_calm; try done. by apply calm_refl.
Qed.

Lemma wp_status_change cbk result r w (Q : unit -> _ -> Prop) :
  sched_ok ch w -> (forall w', calm ch w w' -> Q tt (r, w')) ->
  wp (status_change ch cbk result) (r, w) Q.
Proof.
  intros Hok HQ. unfold status_change. destruct cbk.
  - apply wp_bind, wp_over, (wp_ask_calm ch); [done..|]. intros a w' Hc. by apply wp_ret, HQ.
  - by apply wp_ret, HQ, calm_refl.
Qed.

Lemma wp_send_cache A Ds cbk result b r w (Q : unit -> _ -> Prop) :
  sched_ok ch w -> tx_inv (ch_dstTcid ch) A Ds r -> rx_seqs_ok r -> 0 <= ch_mps ch < 65536 ->
  cacheBuff r = Some b ->
  (forall r' w' Ds', evolves r w r' w' -> tx_inv (ch_dstTcid ch) A (Ds ++ Ds') r' ->
     (r' = r \/ cacheBuff r' = None) -> Q tt (r', w')) ->
  wp (DTAP_TransSendCacheBuff ch cbk result) (r, w) Q.
Proof.
  intros Hok Hinv Hrx Hmps Hb HQ.
  assert (Q tt (r, w)) as Hstay.
  { apply (HQ r w []); [by apply evolves_refl|by rewrite app_nil_r|by left]. }
  unfold DTAP_TransSendCacheBuff. destruct (DTAP_GetTransMode _); [|by apply wp_ret].
  pose proof (ti_cache _ _ _ _ Hinv) as Hck. unfold cache_ok in Hck. rewrite Hb in Hck.
  destruct Hck as (Hwf&Hlen&Hpi).
  apply wp_bind, wp_rel, wp_bind. cbn [id]. rewrite Hb. eapply wp_opt; [done|]. cbv zeta.
  destruct (_ <=? _); [by apply wp_ret|].
  apply wp_bind, wp_upd. set (r1 := r <| isTxWindowFull := false |>).
  assert (tx_inv (ch_dstTcid ch) A Ds r1) as Hinv1.
  { apply (tx_inv_same _ A Ds r); try done. by destruct Hinv. }
  apply wp_bind, (wp_send A Ds); try done. intros ret r2 w2 Hev2 Hout.
  destruct (send_outcome_inv _ _ _ _ _ _ Hinv1 Hout) as [Ds' Hinv2].
  apply wp_bind, wp_upd, wp_status_change; [by destruct Hev2|]. intros w3 Hc3.
  apply (HQ _ w3 Ds'); [| |by right].
  - eapply (evolves_trans r w r1 w); [apply evolves_calm; try done; by apply calm_refl|].
    eapply evolves_trans; [exact Hev2|]. by apply evolves_calm.
  - by apply (tx_inv_same _ A (Ds ++ Ds') r2).
Qed.

Lemma wp_channel_status A Ds cbk result r w (Q : unit -> _ -> Prop) :
  sched_ok ch w -> tx_inv (ch_dstTcid ch) A Ds r -> rx_seqs_ok r -> 0 <= ch_mps ch < 65536 ->
  (forall r' w' Ds', evolves r w r' w' -> tx_inv (ch_dstTcid ch) A (Ds ++ Ds') r' -> Q tt (r', w')) ->
  wp (DTAP_TransChannelStatusChange ch cbk result) (r, w) Q.
Proof.
  intros Hok Hinv Hrx Hmps HQ.
  assert (Q tt (r, w)) as Hstay.
  { apply (HQ r w []); [by apply evolves_refl|by rewrite app_nil_r]. }
  unfold DTAP_TransChannelStatusChange. destruct (negb _); [by apply wp_ret|].
  apply wp_bind, wp_rel. cbn [id]. destruct (negb _); [by apply wp_ret|].
  destruct (cacheBuff r) as [b|] eqn:Eb.
  { apply (wp_send_cache A Ds _ _ b); try done. intros. by eapply HQ. }
  destruct (_ <? _); [|by apply wp_ret].
  apply wp_bind, wp_upd, wp_status_change; [done|]. intros w' Hc. apply (HQ _ w' []).
  - by apply evolves_calm.
  - rewrite app_nil_r. apply (tx_inv_same _ A Ds r); try done. by destruct Hinv.
Qed.
End steps.
