(* ===== verification/DtapReliableRx.v ===== *)
(** * Reliable transmission: the receiver

    First safety: whatever the peer sends, no operation of [DtapReliable] has
    undefined behaviour and the channel stays well-formed.  Then function: the
    receive window hands up the peer's stream in order, each frame once. *)
From S2P Require Import Prelude Utils SdfErrno SdfBuff DtapEnv.
From S2P Require Import DtapFrame DtapFragment DtapTrans DtapReliable DtapReliableTx.

(** ** Frames and buffers the receiver may hold *)
Definition buffs_ok (bs : option SDF_Buff) : Prop :=
  match bs with Some b => buff_wf b | None => True end.

Record frame_safe (f : DTAP_Frame) : Prop := {
  fs_ctx : exists c, ctx f = Some c;
  fs_buff : exists b, f_buff f = Some b /\ buff_wf b;
  fs_lens : 0 <= headerLen f + extensionLen f < 4294967296;
  fs_payload : match payload f with
               | Some p => 0 <= p /\ 0 <= payloadLen f /\ p + payloadLen f <= zlen (frame_mem f)
               | None => True
               end;
  fs_seq : 0 <= txSeq f < 16384
}.

(** [g] is [f] after some delivery. *)
Definition same_frame (f g : DTAP_Frame) : Prop := txSeq g = txSeq f /\ ctx g = ctx f.

Section safety.
Context {W : Type} `{World W}.
Implicit Types w : W.

Lemma update_safe old b w (Q : Z * option SDF_Buff -> W -> Prop) :
  buff_wf old -> buff_wf b ->
  (forall ret bs w', extends w w' -> buffs_ok bs -> Q (ret, bs) w') ->
  wp (DTAP_UpdateFragmentFrame old b) w Q.
Proof.
  intros Hwo Hwb HQ. destruct (decide (dataLen old + dataLen b <= DTAP_MAX_FRAG_TOTAL_LEN)) as [Hle|Hgt].
  - eapply wp_mono; [by apply update_spec|]. intros [ret bs] w' (a&Ht&Hr). apply HQ.
    + by eexists.
    + destruct (a =? 0); [by destruct Hr as [-> _]|]. by destruct Hr as (_&nb&->&?&_).
  - unfold DTAP_UpdateFragmentFrame, SDF_DataLenGet. destruct Hwo, Hwb.
    rewrite u64_small by cint. unfold DTAP_MAX_FRAG_TOTAL_LEN in *.
    destruct (Z.ltb_spec 65535 (dataLen old + dataLen b)); [|lia].
    apply wp_ret, HQ; [apply extends_refl|done].
Qed.

Lemma copy_ok_wf ok b : buff_wf b -> buffs_ok (SDF_BuffCopy ok (Some b)).
Proof. intros Hwf. destruct ok; [by rewrite copy_wf|]. cbn. by destruct (_ <? _). Qed.

Lemma recv_switch_safe buffs s b info rcb w (Q : Z * Z * option SDF_Buff -> W -> Prop) :
  buffs_ok buffs -> buff_wf b ->
  (forall ret result bs w', extends w w' -> buffs_ok bs -> Q (ret, result, bs) w') ->
  wp (recv_fragment_switch buffs s b info rcb) w Q.
Proof.
  intros Hbs Hwf HQ. unfold recv_fragment_switch, recv_cb.
  destruct (s =? DTAP_SAR_UNSEG).
  { destruct rcb; [|by apply wp_ret, HQ; [apply extends_refl|]].
    apply wp_bind, wp_ask. intros a w' Ht. apply wp_ret, HQ; [by eexists|done]. }
  destruct (s =? DTAP_SAR_FIRST).
  { apply wp_bind, wp_alloc. intros ok w' a Ht. apply wp_ret, HQ; [by eexists|by apply copy_ok_wf]. }
  destruct (_ || _)%bool; [|by apply wp_ret, HQ; [apply extends_refl|]].
  destruct buffs as [old|]; [|by apply wp_ret, HQ; [apply extends_refl|]].
  apply wp_bind, update_safe; [done..|]. intros ret bs w' Hext Hok.
  destruct (s =? DTAP_SAR_LAST); [|by apply wp_ret, HQ].
  destruct bs as [full|]; [|by apply wp_ret, HQ].
  destruct rcb; [|by apply wp_ret, HQ].
  apply wp_bind, wp_ask. intros a w2 Ht. apply wp_ret, HQ; [|done].
  eapply extends_trans; [exact Hext|by eexists].
Qed.

Lemma recv_fragment_safe buffs f info rcb w (Q : Z * option SDF_Buff * DTAP_Frame -> W -> Prop) :
  buffs_ok buffs -> frame_safe f ->
  (forall ret bs g w', extends w w' -> buffs_ok bs -> frame_safe g -> same_frame f g ->
     Q (ret, bs, g) w') ->
  wp (DTAP_RecvFragmentFrame buffs f info rcb) w Q.
Proof.
  intros Hbs [Hc (b&Hb&Hwf) Hl Hp Hs] HQ. unfold DTAP_RecvFragmentFrame. rewrite Hb.
  set (n := headerLen f + extensionLen f) in *.
  destruct (Z.le_gt_cases n (dataLen b)) as [Hle|Hgt].
  2: { unfold SDF_BuffTrimPrefix. rewrite u32_small by done.
       destruct (Z.ltb_spec (dataLen b) n); [|lia].
       apply wp_ret, HQ; [apply extends_refl|done|constructor; eauto|done]. }
  destruct (trim_prefix_spec b n Hwf) as (b1&->&Hwf1&_&Hl1&_&_&Hm1); [lia|].
  assert (forall b', buff_wf b' -> bmem b' = bmem b -> frame_safe (f <| f_buff := Some b' |>)) as Hsafe.
  { intros b' Hwf' Hm. constructor; try done; [by exists b'|]. cbn [payload payloadLen].
    change (payload (f <| f_buff := Some b' |>)) with (payload f). destruct (payload f) as [p|]; [|done].
    unfold frame_mem in *. rewrite Hb in Hp. cbn. by rewrite Hm. }
  unfold DTAP_CRC_LEN.
  destruct (Z.le_gt_cases 2 (dataLen b1)) as [Hle1|Hgt1].
  2: { unfold SDF_BuffTrimSuffix. rewrite u32_small by done.
       destruct (Z.ltb_spec (dataLen b1) 2); [|lia].
       apply wp_ret, HQ; [apply extends_refl|done|by apply Hsafe|done]. }
  destruct (trim_suffix_spec b1 2 Hwf1) as (b2&->&Hwf2&_&_&_&_&Hm2); [lia|].
  cbn [Z.eqb negb]. apply wp_bind. eapply wp_opt; [done|].
  apply wp_bind, recv_switch_safe; [done..|]. intros ret result bs w' Hext Hok.
  assert (frame_safe (f <| f_buff := Some b2 |>)) by (apply Hsafe; congruence).
  destruct (result =? _); apply wp_ret, HQ; done.
Qed.

Lemma aggregate_loop_safe n f info cb p total w (Q : Z * DTAP_Frame -> W -> Prop) :
  frame_safe f -> 0 <= p -> 0 < total -> p + total <= zlen (frame_mem f) -> (Z.to_nat total <= n)%nat ->
  (forall ret g w', extends w w' -> frame_safe g -> same_frame f g -> Q (ret, g) w') ->
  wp (aggregate_loop n f info cb p total) w Q.
Proof.
  intros Hf. revert p total w. induction n as [|n IH]; intros p total w Hp Ht Hin Hfuel HQ; [lia|].
  assert (forall ret w', extends w w' -> Q (ret, f) w') as Hret by (intros; by apply HQ).
  pose proof Hf as [_ (b&Hb&Hwf) _ _ _]. unfold frame_mem in *. rewrite Hb in *.
  cbn [aggregate_loop]. unfold sizeof_DTAP_AggregateSdu.
  destruct (Z.ltb_spec total 2); [by apply wp_ret, Hret, extends_refl|].
  assert (exists len, DECODE2BYTE_LITTLE (bmem b) p = Some len /\ is_u16 len) as (len&Hdec&Hlen).
  { unfold DECODE2BYTE_LITTLE. destruct (rd_is_Some (bmem b) p) as [x Hx]; [lia|].
    destruct (rd_is_Some (bmem b) (p + 1)) as [y Hy]; [lia|]. rewrite Hx, Hy.
    cbn [mbind option_bind]. eexists; split; [done|apply u16_range]. }
  apply wp_bind. unfold frame_mem. rewrite Hb. eapply wp_opt; [exact Hdec|].
  destruct (Z.eqb_spec len 0); [by apply wp_ret, Hret, extends_refl|].
  destruct (Z.ltb_spec (total - 2) len); [by apply wp_ret, Hret, extends_refl|]. cbn [orb].
  apply wp_bind, wp_alloc. intros ok w1 a Ht1. assert (extends w w1) as He1 by (by eexists).
  unfold is_u16 in Hlen. destruct ok.
  2: { unfold SDF_BuffNew. by apply wp_ret, Hret. }
  destruct (new_spec len) as (nb&->&Hwfn&Hln&Hon&Hbn); [lia|].
  set (d := mem_read (bmem b) (p + 2) len).
  assert (zlen d = len) as Hd by (apply length_mem_read; lia).
  destruct (append_copy_spec nb d len Hwfn) as (q&b1&b2&->&Hcp&_);
    [apply bytes_ok_mem_read, Hwf|done|lia|].
  apply wp_bind. eapply wp_opt; [unfold rds; by rewrite decide_True by lia|]. fold d.
  apply wp_bind. eapply wp_opt; [exact Hcp|].
  apply wp_bind, wp_ask. intros r w2 Ht2.
  assert (extends w w2) as He2 by (eapply extends_trans; [exact He1|by eexists]).
  destruct (r =? _).
  { apply wp_ret, HQ; [done| |done]. destruct Hf. constructor; try done. cbn.
    unfold frame_mem. cbn. rewrite Hb. lia. }
  destruct (Z.ltb_spec 0 (total - 2 - len)); [|by apply wp_ret, Hret].
  apply IH; try lia. intros ret g w3 He3 Hg Hsame. apply HQ; [|done..].
  by eapply extends_trans.
Qed.

Lemma recv_aggregate_safe f info rcb w (Q : Z * DTAP_Frame -> W -> Prop) :
  frame_safe f ->
  (forall ret g w', extends w w' -> frame_safe g -> same_frame f g -> Q (ret, g) w') ->
  wp (DTAP_RecvAggregateFrame f info rcb) w Q.
Proof.
  intros Hf HQ. unfold DTAP_RecvAggregateFrame. pose proof (fs_payload _ Hf) as Hp.
  assert (forall ret, wp (st_ret (ret, f)) w Q) as Hret.
  { intros ret. apply wp_ret, HQ; [apply extends_refl|done|done]. }
  destruct (payload f) as [p|]; [|apply Hret]. destruct rcb; [|apply Hret].
  destruct (payloadLen f =? 0) eqn:E; [apply Hret|]. apply Z.eqb_neq in E.
  by apply aggregate_loop_safe; try lia.
Qed.
End safety.

(** ** The invariant of the receiver, for any peer *)
Record rx_safe (r : DTAP_ReliableChannel) : Prop := {
  rs_list : Forall frame_safe (rxList (rxWindow r));
  rs_frags : buffs_ok (frags r);
  rs_seqs : rx_seqs_ok r
}.

Definition tx_part (r : DTAP_ReliableChannel) :=
  (txWindow r, isTxWindowFull r, cacheBuff r, cachePi r, reTxSeq r, sendPollingCounter r).

Section receive.
Context {W : Type} `{Scheduler W}.
Context (ch : DTAP_Channel).
Implicit Types (r : DTAP_ReliableChannel) (w : W).

(** No release is asked for, and the scheduler can still be called. *)
Record steady w w' : Prop := {
  sd_ok : sched_ok ch w';
  sd_rel : releases (trace w') = releases (trace w);
  sd_ext : extends w w'
}.

Lemma steady_refl w : sched_ok ch w -> steady w w.
Proof. constructor; [done|done|apply extends_refl]. Qed.
Lemma steady_trans w1 w2 w3 : steady w1 w2 -> steady w2 w3 -> steady w1 w3.
Proof. intros [] []. constructor; [done|congruence|by eapply extends_trans]. Qed.
Lemma calm_steady w w' : calm ch w w' -> steady w w'.
Proof.
  intros [Hok Hq]. destruct (quiet_facts w w' Hq). constructor; try done.
  destruct Hq as (t&E&_). by exists t.
Qed.

Definition not_release (c : call) : Prop := match c with CReleaseReq _ _ => False | _ => True end.
Lemma steady_closed w : closed_for not_release (steady w).
Proof.
  intros c w1 a w2 Hc [Hok Hr [t Ht]] Ha. destruct (ask_total c w1) as (a'&w'&E&Ht').
  rewrite Ha in E. injection E as <- <-. constructor; [by eapply sched_ask| |].
  - rewrite Ht'. unfold releases in *. rewrite omap_app, Hr. destruct c; try done; apply app_nil_r.
  - eexists. by rewrite Ht', Ht, <- app_assoc.
Qed.

Lemma wp_steady {A} (m : ST W A) w (Q : A -> W -> Prop) :
  asks_only not_release m -> sched_ok ch w -> wp m w (fun a w' => steady w w' -> Q a w') -> wp m w Q.
Proof.
  intros Hm Hok Hwp. eapply wp_mono.
  - eapply (wp_only not_release m (steady w)); [done|apply steady_closed|by apply steady_refl|exact Hwp].
  - intros a w' [Hc HQ]. by apply HQ.
Qed.

Record rx_evolves r w r' w' : Prop := {
  re_steady : steady w w';
  re_sent : isDestroyMsgSent r' = isDestroyMsgSent r;
  re_conf : conf r' = conf r;
  re_tx : tx_part r' = tx_part r
}.
Lemma rx_evolves_refl r w : sched_ok ch w -> rx_evolves r w r w.
Proof. by constructor; [apply steady_refl|..]. Qed.
Lemma rx_evolves_trans r1 w1 r2 w2 r3 w3 :
  rx_evolves r1 w1 r2 w2 -> rx_evolves r2 w2 r3 w3 -> rx_evolves r1 w1 r3 w3.
Proof. intros [] []. constructor; [by eapply steady_trans|congruence..]. Qed.
Lemma rx_evolves_calm r w r' w' :
  calm ch w w' -> isDestroyMsgSent r' = isDestroyMsgSent r -> conf r' = conf r ->
  tx_part r' = tx_part r -> rx_evolves r w r' w'.
Proof. intros Hc%calm_steady ???. by constructor. Qed.

Lemma tx_inv_rx tcid A Ds r r' :
  tx_inv tcid A Ds r -> conf r' = conf r -> tx_part r' = tx_part r -> tx_inv tcid A Ds r'.
Proof.
  intros Hinv Hc Ht. injection Ht as H1 H2 H3 H4 _ _.
  eapply tx_inv_same; [exact Hinv|done|congruence|].
  destruct Hinv. unfold cache_ok in *. by rewrite H3, H4.
Qed.

(** ** Delivery *)
Lemma only_recv_by_type buffs f rcb : asks_only not_release (recv_by_type ch buffs f rcb).
Proof.
  apply (only_mono alloc_or_recv); [by intros []|]. unfold recv_by_type. requests.
Qed.

Lemma recv_by_type_safe buffs f rcb w (Q : Z * option SDF_Buff * DTAP_Frame -> W -> Prop) :
  sched_ok ch w -> buffs_ok buffs -> frame_safe f ->
  (forall ret bs g w', steady w w' -> buffs_ok bs -> frame_safe g -> same_frame f g ->
     Q (ret, bs, g) w') ->
  wp (recv_by_type ch buffs f rcb) w Q.
Proof.
  intros Hok Hbs Hf HQ. apply wp_steady; [apply only_recv_by_type|done|].
  destruct (fs_ctx _ Hf) as [c Hc]. unfold recv_by_type. apply wp_bind.
  eapply wp_opt; [unfold frame_type; by rewrite Hc|].
  destruct (_ || _)%bool.
  - apply wp_bind, recv_aggregate_safe; [done|]. intros ret g w' _ Hg Hs. apply wp_ret. auto.
  - destruct (_ || _)%bool; [|by apply wp_ret; intros Hs; apply HQ].
    apply recv_fragment_safe; [done..|]. auto.
Qed.

Lemma next_range s : 0 <= s < 16384 -> 0 <= DTAP_GetNextFrameSeq s < 16384.
Proof.
  intros Hs. unfold DTAP_GetNextFrameSeq, DTAP_FRAME_SEQ_MAX. rewrite u16_small by cint.
  destruct (Z.ltb_spec 16383 (s + 1)); lia.
Qed.

Lemma recv_round_safe rcb r w (Q : bool -> _ -> Prop) :
  sched_ok ch w -> rx_safe r ->
  (forall go r' w', rx_evolves r w r' w' -> rx_safe r' ->
     (go = true -> length (rxList (rxWindow r)) = S (length (rxList (rxWindow r')))) -> Q go (r', w')) ->
  wp (recv_round ch rcb) (r, w) Q.
Proof.
  intros Hok [Hl Hfr [Hb He]] HQ. apply wp_bind, wp_rel. cbn [id].
  assert (Q false (r, w)) as Hstop by (by apply HQ; [apply rx_evolves_refl|..]).
  destruct (rxList (rxWindow r)) as [|f rest] eqn:El; [by apply wp_ret|].
  destruct (negb _); [by apply wp_ret|].
  apply Forall_cons in Hl as [Hf Hrest].
  apply wp_bind, wp_over, recv_by_type_safe; [done..|]. intros ret bs g w1 Hs1 Hbs Hg Hsame.
  apply wp_bind, wp_upd. destruct (ret =? _).
  - apply wp_bind, wp_upd, wp_bind, wp_upd, wp_ret, HQ; [by constructor| |done].
    constructor; [by constructor|done|by split].
  - apply wp_bind, wp_upd, wp_ret, HQ; [by constructor| |done].
    constructor; [done|done|]. split; [|done]. by apply next_range.
Qed.

Lemma recv_loop_safe n rcb r w (Q : unit -> _ -> Prop) :
  sched_ok ch w -> rx_safe r -> (length (rxList (rxWindow r)) < n)%nat ->
  (forall r' w', rx_evolves r w r' w' -> rx_safe r' -> Q tt (r', w')) ->
  wp (st_while n (recv_round ch rcb)) (r, w) Q.
Proof.
  revert r w. induction n as [|n IH]; intros r w Hok Hs Hn HQ; [lia|]. cbn [st_while].
  apply wp_bind, recv_round_safe; [done..|]. intros go r1 w1 Hev Hs1 Hgo. destruct go.
  - apply IH; [apply Hev|done| |].
    + specialize (Hgo eq_refl). lia.
    + intros r2 w2 Hev2 Hs2. apply HQ; [|done]. by eapply rx_evolves_trans.
  - by apply wp_ret, HQ.
Qed.

Lemma recv_inner_safe rcb r w (Q : unit -> _ -> Prop) :
  sched_ok ch w -> rx_safe r ->
  (forall r' w', rx_evolves r w r' w' -> rx_safe r' -> Q tt (r', w')) ->
  wp (DTAP_RecvEnhanceFrameInner ch rcb) (r, w) Q.
Proof.
  intros Hok Hs HQ. apply wp_bind, wp_rel. cbn [id]. destruct (isRxWindowFull r).
  - by apply wp_ret, HQ; [apply rx_evolves_refl|].
  - apply recv_loop_safe; [done..|lia|done].
Qed.

Lemma set_status_safe result rcb r w (Q : unit -> _ -> Prop) :
  sched_ok ch w -> rx_safe r ->
  (forall r' w', rx_evolves r w r' w' -> rx_safe r' -> Q tt (r', w')) ->
  wp (DTAP_SetTransChannelStatus ch result rcb) (r, w) Q.
Proof.
  intros Hok [] HQ. unfold DTAP_SetTransChannelStatus. destruct (_ =? _).
  - apply wp_bind, wp_upd, recv_inner_safe; [done|by constructor|]. intros r' w' Hev Hs.
    apply HQ; [|done]. eapply rx_evolves_trans; [|exact Hev].
    apply rx_evolves_calm; try done. by apply calm_refl.
  - by apply wp_ret, HQ; [apply rx_evolves_refl|].
Qed.

(** ** The receive window *)
Lemma insert_by_seq_Forall P f l : P f -> Forall P l -> Forall P (insert_by_seq f l).
Proof.
  intros Hf. induction 1 as [|g l Hg Hl IH]; simpl; [by constructor|].
  destruct (DTAP_IsFrameSeqSmaller _ _); by repeat constructor.
Qed.

Lemma first_missing_range n l s s' :
  first_missing n l s = Some s' -> 0 <= s < 16384 -> 0 <= s' < 16384.
Proof.
  revert s. induction n as [|n IH]; intros s; simpl; [done|].
  destruct (DTAP_FindFrameBySeq l s); [|by intros [=->]].
  intros Hm Hs. eapply IH; [exact Hm|]. by apply next_range.
Qed.

Lemma slide_rx_safe f r w (Q : unit -> _ -> Prop) :
  sched_ok ch w -> rx_safe r -> frame_safe f ->
  (forall r', rx_evolves r w r' w -> rx_safe r' -> Q tt (r', w)) ->
  wp (DTAP_SlideRxWindow f) (r, w) Q.
Proof.
  intros Hok [Hl Hfr [Hb He]] Hf HQ. pose proof (fs_seq _ Hf) as Hseq.
  apply wp_bind, wp_upd, wp_bind, wp_upd, wp_bind, wp_rel. cbn [id].
  set (r1 := set_rx _ _). assert (rx_safe r1) as Hs1.
  { constructor; [by apply insert_by_seq_Forall|done|by split]. }
  assert (rx_evolves r w r1 w) as Hev1 by (apply rx_evolves_calm; try done; by apply calm_refl).
  apply wp_bind.
  assert (wp (if txSeq f =? expectedTxSeq (rxWindow r1) then
     match first_missing (Z.to_nat (rx_size (rxWindow r1))) (rxList (rxWindow r1))
             (DTAP_GetNextFrameSeq (txSeq f)) with
     | Some next =>
         upd (set_rx (fun x => x <| expectedTxSeq := next |>)) ;;!
         upd (fun r => r <| nackCnt := 0 |>)
     | None => st_ret tt
     end
   else st_ret tt) (r1, w) (fun _ '(r', w') => w' = w /\ rx_evolves r w r' w /\ rx_safe r')) as Hexp.
  { destruct (_ =? _); [|by apply wp_ret].
    destruct (first_missing _ _ _) as [next|] eqn:Em; [|by apply wp_ret].
    apply wp_bind, wp_upd, wp_upd. split; [done|]. split; [by destruct Hev1; constructor|].
    constructor; [apply Hs1|done|]. split; [done|].
    eapply first_missing_range; [exact Em|]. by apply next_range. }
  eapply wp_mono; [exact Hexp|]. intros _ [r2 w2] (->&Hev2&Hs2).
  destruct (_ || _)%bool; [|by apply wp_ret, HQ].
  apply wp_upd, HQ; [by destruct Hev2; constructor|]. destruct Hs2. by constructor.
Qed.

Lemma reorder_timer_safe r w (Q : unit -> _ -> Prop) :
  sched_ok ch w ->
  (forall t w', calm ch w w' -> Q tt (r <| reorderTimer := t |>, w')) ->
  wp DTAP_OperateReorderTimer (r, w) Q.
Proof.
  intros Hok HQ. assert (r <| reorderTimer := reorderTimer r |> = r) as Hr by (by destruct r).
  assert (Q tt (r, w)) as Hsame by (rewrite <- Hr; by apply HQ, calm_refl).
  apply wp_bind, wp_rel. cbn [id].
  destruct (reorderTimer r =? _).
  - destruct (DTAP_IsFrameSeqSmaller _ _); [|by apply wp_ret].
    apply wp_bind, wp_over, (wp_start_timer ch); [done|]. intros ret t w' Hc. by apply wp_upd, HQ.
  - destruct (_ =? _).
    + apply wp_bind, wp_over, (wp_stop_timer ch); [done|]. intros w' Hc. by apply wp_upd, HQ.
    + destruct (DTAP_IsFrameSeqSmaller _ _); [|by apply wp_ret].
      apply (wp_restart_reorder ch); [done|]. intros t w' Hc. by apply HQ.
Qed.
(** ** The whole channel *)

(** What every operation keeps. *)
Record keeps r w r' w' : Prop := {
  kp_ok : sched_ok ch w';
  kp_tally : tally r' w' = tally r w;
  kp_conf : conf r' = conf r;
  kp_ext : extends w w'
}.
Lemma keeps_trans r1 w1 r2 w2 r3 w3 : keeps r1 w1 r2 w2 -> keeps r2 w2 r3 w3 -> keeps r1 w1 r3 w3.
Proof. intros [] []. constructor; [done|congruence..|by eapply extends_trans]. Qed.
Lemma keeps_tx r w r' w' : evolves ch r w r' w' -> keeps r w r' w'.
Proof. by intros []. Qed.
Lemma keeps_rx r w r' w' : rx_evolves r w r' w' -> keeps r w r' w'.
Proof. intros [[] Hs Hc _]. constructor; try done. unfold tally. by rewrite Hs, sd_rel0. Qed.
Lemma keeps_calm r w r' w' :
  calm ch w w' -> isDestroyMsgSent r' = isDestroyMsgSent r -> conf r' = conf r -> keeps r w r' w'.
Proof.
  intros [Hok Hq] Hs Hc. destruct (quiet_facts w w' Hq) as [_ Hr]. constructor; try done.
  - unfold tally. by rewrite Hs, Hr.
  - by apply quiet_extends.
Qed.

Lemma rx_safe_same r r' : rx_safe r -> rx_part r' = rx_part r -> rx_safe r'.
Proof.
  intros [Hl Hfr Hs] Hp. injection Hp as E1 E2 _ _ _ _. unfold rx_seqs_ok in Hs.
  constructor; unfold rx_seqs_ok; congruence.
Qed.

(** The invariant of a channel: the sender's and the receiver's. *)
Definition channel_inv r : Prop :=
  rx_safe r /\ exists A Ds, tx_inv (ch_dstTcid ch) A Ds r.

(** A frame the parser accepted from a well-formed buffer. *)
Record peer_frame (f : DTAP_Frame) (ty : Z) : Prop := {
  pf_type : DTAP_FRAME_SIMPLEX_AGGR <= ty <= DTAP_FRAME_ACK;
  pf_wf : exists b, buff_wf b /\ parsed_wf b ty f
}.

Lemma peer_frame_type f ty : peer_frame f ty -> frame_type f = Some ty.
Proof. intros [_ (b&_&Hp)]. destruct (pw_ctx _ _ _ Hp) as (c&Hc&<-). unfold frame_type. by rewrite Hc. Qed.

Lemma peer_frame_ack f ty : peer_frame f ty ->
  ack_number (if ty =? DTAP_FRAME_ACK then ack_reqSeq f else reqSeq f).
Proof.
  intros [Ht (b&_&Hp)]. unfold ack_number. pose proof (pw_ack _ _ _ Hp) as Hack.
  pose proof (pw_req _ _ _ Hp) as Hreq. pose proof (pw_none _ _ _ Hp) as Hnone.
  unfold DTAP_FRAME_SIMPLEX_AGGR, DTAP_FRAME_ACK, DTAP_FRAME_SEQ_MAX, DTAP_FRAME_DUPLEX_FRAG,
    DTAP_FRAME_DUPLEX_AGGR, DTAP_FRAME_SIMPLEX_FRAG in *.
  destruct (Z.eqb_spec ty 5); [lia|].
  assert (ty = 1 \/ ty = 2 \/ ty = 3 \/ ty = 4) as E by lia.
  destruct E as [-> | [-> | [-> | ->]]]; [right; auto|right; auto|left..];
    pose proof (Hreq ltac:(auto)); lia.
Qed.

(** The deep copy of an accepted frame points into its own buffer. *)
Lemma wp_copy_frame f ty w (Q : option DTAP_Frame -> W -> Prop) :
  sched_ok ch w -> peer_frame f ty ->
  (forall t w', calm ch w w' -> trace w' = trace w ++ t -> alloc_failed t -> Q None w') ->
  (forall g w', calm ch w w' -> frame_safe g -> same_frame f g ->
     (f_buff g, sar g, pi g, bits g, headerLen g, extensionLen g) =
     (f_buff f, sar f, pi f, bits f, headerLen f, extensionLen f) -> Q (Some g) w') ->
  wp (DTAP_CopyFrame f) w Q.
Proof.
  intros Hok [Hty (b&Hwf&Hp)] Hnone Hsome.
  unfold DTAP_FRAME_SIMPLEX_AGGR, DTAP_FRAME_ACK in Hty.
  destruct Hp as [[Hb Hh] (c&Hc&_) (Hl1&Hl2&Hl3) Hsum Hpay _ _ Hseq _ _ _ _].
  unfold DTAP_FRAME_BASIC in *. rewrite (proj2 (Z.eqb_neq ty 0)) in Hsum by lia.
  specialize (Hpay ltac:(lia)). unfold DTAP_CRC_LEN in Hsum.
  pose proof (wf_off b Hwf). pose proof (wf_window b Hwf). pose proof (wf_block b Hwf).
  pose proof (wf_size b Hwf).
  apply (wp_calm ch); [eapply only_mono; [|apply only_copy]; by intros ? ->|done|].
  unfold DTAP_CopyFrame. apply wp_bind, wp_alloc_ok. intros a w1 Ht1.
  destruct (Z.eqb_spec a 0) as [->|Ha]; cbn [negb].
  { apply wp_ret. intros Hc'. eapply Hnone; [done|exact Ht1|by apply list_elem_of_here]. }
  rewrite Hb. apply wp_bind, wp_alloc_ok. intros a2 w2 Ht2. rewrite Ht1, <- app_assoc in Ht2.
  destruct (Z.eqb_spec a2 0) as [->|Ha2]; cbn [negb].
  { assert (SDF_BuffCopy false (Some b) = None) as -> by (cbn; by destruct (_ <? _)).
    apply wp_ret. intros Hc'. eapply Hnone; [done|exact Ht2|].
    by apply list_elem_of_further, list_elem_of_here. }
  rewrite copy_wf by done. rewrite Hh, Hpay. apply wp_ret. intros Hc'.
  apply Hsome; [done| |by split|by rewrite Hb].
  unfold DTAP_FRAME_SEQ_MAX in Hseq. constructor; try done; cbn.
  - by exists c.
  - by exists b.
  - lia.
  - unfold frame_mem, SDF_DataOffset. cbn. lia.
  - lia.
Qed.
Lemma channel_status_safe cbk result r w (Q : unit -> _ -> Prop) :
  sched_ok ch w -> channel_inv r -> 0 <= ch_mps ch < 65536 ->
  (forall r' w', keeps r w r' w' -> channel_inv r' -> rx_part r' = rx_part r ->
     delivered (trace w') = delivered (trace w) -> Q tt (r', w')) ->
  wp (DTAP_TransChannelStatusChange ch cbk result) (r, w) Q.
Proof.
  intros Hok [Hrx (A&Ds&Hinv)] Hmps HQ.
  apply (wp_channel_status ch A Ds); [done..|apply Hrx|done|]. intros r' w' Ds' Hev Hinv'.
  apply HQ; [by apply keeps_tx| |apply Hev..]. split; [|by exists A, (Ds ++ Ds')].
  eapply rx_safe_same; [exact Hrx|apply Hev].
Qed.

Lemma send_ack_safe f s r w (Q : Z -> _ -> Prop) :
  sched_ok ch w -> channel_inv r -> (forall ret w', calm ch w w' -> Q ret (r, w')) ->
  wp (DTAP_SendAckFrame ch f s) (r, w) Q.
Proof.
  intros Hok [[_ _ Hs] (A&Ds&Hinv)] HQ. apply wp_send_ack; [done|apply Hinv|done|done].
Qed.

(** A change that leaves both invariants' fields alone. *)
Lemma channel_inv_same r r' :
  channel_inv r -> conf r' = conf r -> rx_part r' = rx_part r -> tx_part r' = tx_part r -> channel_inv r'.
Proof.
  intros [Hrx (A&Ds&Hinv)] Hc Hr Ht. split; [by eapply rx_safe_same|].
  exists A, Ds. by eapply tx_inv_rx.
Qed.
Lemma channel_inv_rx r w r' w' :
  channel_inv r -> rx_evolves r w r' w' -> rx_safe r' -> channel_inv r'.
Proof.
  intros [_ (A&Ds&Hinv)] [_ _ Hc Ht] Hs. split; [done|]. exists A, Ds. by eapply tx_inv_rx.
Qed.
Lemma rx_safe_timer r t : rx_safe r -> rx_safe (r <| reorderTimer := t |>).
Proof. by intros []. Qed.

(** The acknowledgement a set P bit asks for. *)
Lemma poll_answer_safe (need : bool) r w (Q : unit -> _ -> Prop) :
  sched_ok ch w -> channel_inv r ->
  (forall t w', calm ch w w' -> Q tt (r <| rspTimer := t |>, w')) ->
  wp (if need then
        let! ret := DTAP_SendAckFrame ch true false in
        if negb (ret =? DTAP_SUCCESS) then st_ret tt else restart_rsp
      else st_ret tt) (r, w) Q.
Proof.
  intros Hok Hinv HQ. assert (r <| rspTimer := rspTimer r |> = r) as Hr by (by destruct r).
  assert (forall w', calm ch w w' -> Q tt (r, w')) as Hsame by (intros; rewrite <- Hr; auto).
  destruct need; [|by apply wp_ret, Hsame, calm_refl].
  apply wp_bind, send_ack_safe; [done..|]. intros ret w1 Hc1. destruct (negb _); [by apply wp_ret, Hsame|].
  apply (wp_restart_rsp ch); [by eapply calm_ok|]. intros t w2 Hc2. apply HQ. by eapply calm_trans.
Qed.

Lemma recv_enhance_safe cbk f ty rcb r w (Q : Z -> _ -> Prop) :
  sched_ok ch w -> channel_inv r -> 0 <= ch_mps ch < 65536 -> peer_frame f ty ->
  (forall ret r' w', keeps r w r' w' -> channel_inv r' -> Q ret (r', w')) ->
  wp (DTAP_RecvEnhanceFrame ch cbk f rcb) (r, w) Q.
Proof.
  intros Hok [Hrx (A&Ds&Hinv)] Hmps Hf HQ. pose proof (peer_frame_type _ _ Hf) as Hty.
  apply wp_bind, (wp_recv_nack ch A Ds _ ty); [done..|]. intros ret r1 w1 Hev1 _ Hinv1 _.
  pose proof (keeps_tx _ _ _ _ Hev1) as Hk1.
  assert (rx_safe r1) as Hrx1 by (eapply rx_safe_same; [exact Hrx|apply Hev1]).
  destruct (negb _). { apply wp_ret, HQ; [done|]. split; [done|]. eauto. }
  apply wp_bind, (wp_slide_tx ch A Ds _ ty _ _ _ _ ltac:(apply Hev1) Hinv1 Hty eq_refl);
    [by apply peer_frame_ack|].
  intros r2 w2 Hev2 _ Hinv2. cbv zeta in Hinv2.
  assert (keeps r w r2 w2) as Hk2 by (eapply keeps_trans; [exact Hk1|by apply keeps_tx]).
  assert (channel_inv r2) as Hch2.
  { split; [|by eexists _, _]. eapply rx_safe_same; [exact Hrx1|apply Hev2]. }
  apply wp_bind. eapply wp_opt; [exact Hty|].
  destruct (ty =? DTAP_FRAME_ACK).
  { apply wp_bind, channel_status_safe; [apply Hev2|done..|]. intros r3 w3 Hk3 Hch3 _ _.
    apply wp_ret, HQ; [by eapply keeps_trans|done]. }
  apply wp_bind, wp_over, (wp_copy_frame f ty); [apply Hev2|done|..].
  { intros t w3 Hc3 _ _. apply wp_ret, HQ; [|done]. eapply keeps_trans; [exact Hk2|by apply keeps_calm]. }
  intros g w3 Hc3 Hg _ _.
  assert (keeps r w r2 w3) as Hk3 by (eapply keeps_trans; [exact Hk2|by apply keeps_calm]).
  apply wp_bind, slide_rx_safe; [by eapply calm_ok|apply Hch2|done|]. intros r4 Hev4 Hs4.
  apply wp_bind, reorder_timer_safe; [by eapply calm_ok|]. intros t w5 Hc5.
  set (r5 := r4 <| reorderTimer := t |>).
  assert (rx_evolves r2 w3 r5 w5) as Hev5.
  { eapply rx_evolves_trans; [exact Hev4|]. by apply rx_evolves_calm. }
  apply wp_bind, recv_inner_safe; [by eapply calm_ok|by apply rx_safe_timer|]. intros r6 w6 Hev6 Hs6.
  pose proof (rx_evolves_trans _ _ _ _ _ _ Hev5 Hev6) as Hev26.
  assert (keeps r w r6 w6) as Hk6 by (eapply keeps_trans; [exact Hk3|by apply keeps_rx]).
  assert (channel_inv r6) as Hch6 by (by eapply channel_inv_rx).
  apply wp_bind, poll_answer_safe; [apply Hk6|done|]. intros t' w7 Hc7.
  apply wp_bind, channel_status_safe; [by eapply calm_ok|by eapply channel_inv_same|done|].
  intros r8 w8 Hk8 Hch8 _ _. apply wp_ret, HQ; [|done].
  eapply keeps_trans; [exact Hk6|]. eapply keeps_trans; [|exact Hk8]. by apply keeps_calm.
Qed.
(** ** The events of a channel's life *)
Inductive reliable_event :=
| EvSend (pi0 : Z) (buff : SDF_Buff)        (* [sendFrame] *)
| EvRecv (f : DTAP_Frame)                   (* [checkFrame], then [recvFrame] *)
| EvStatus (result : Z)                     (* [setTransChannelStatus] *)
| EvRsp | EvReorder | EvRetrans.            (* the timers *)

Definition run_event (statusCbk : bool) (rcb : DTAP_DataRecvCb) (ev : reliable_event) :
    ST (DTAP_ReliableChannel * W) unit :=
  match ev with
  | EvSend pi0 buff => let! ret := DTAP_SendEnhanceFrame ch pi0 buff in st_ret tt
  | EvRecv f =>
      let! r := rel id in
      let! ok := st_opt (DTAP_CheckEnhanceFrame r f) in
      if (ok : bool) then let! ret := DTAP_RecvEnhanceFrame ch statusCbk f rcb in st_ret tt
      else st_ret tt
  | EvStatus result => DTAP_SetTransChannelStatus ch result rcb
  | EvRsp => DTAP_RspTimerExpireProc ch
  | EvReorder => DTAP_ReorderTimerExpireProc ch
  | EvRetrans => DTAP_RetransTimerExpireProc ch
  end.

(** What the callers in [dtap.c] guarantee. *)
Definition event_ok (ev : reliable_event) : Prop :=
  match ev with
  | EvSend pi0 buff => is_u8 pi0 /\ buff_wf buff /\ 0 < dataLen buff < 65536
  | EvRecv f => exists b ty, buff_wf b /\ parsed_wf b ty f
  | _ => True
  end.

(** The check lets only enhanced frames through. *)
Lemma check_enhance_total r f b ty :
  buff_wf b -> parsed_wf b ty f ->
  exists ok, DTAP_CheckEnhanceFrame r f = Some ok /\ (ok = true -> peer_frame f ty).
Proof.
  intros Hwf Hp. pose proof (pw_over _ _ _ Hp) as [Hb _].
  destruct (pw_ctx _ _ _ Hp) as (c&Hc&Hty). unfold DTAP_CheckEnhanceFrame, frame_type.
  rewrite Hc. cbn [fmap option_fmap option_map mbind option_bind]. rewrite Hty.
  destruct ((DTAP_FRAME_SIMPLEX_AGGR <=? ty) && (ty <=? DTAP_FRAME_ACK))%bool eqn:Er; cbn [negb];
    [|by exists false].
  rewrite Hb. cbn [mbind option_bind]. rewrite window_bytes_spec by done. cbn [mbind option_bind].
  assert (peer_frame f ty) as Hf.
  { constructor; [|by exists b]. apply andb_true_iff in Er as [?%Z.leb_le ?%Z.leb_le]. done. }
  destruct (negb _); [by exists false|]. destruct (_ =? _); by eexists.
Qed.

(** What the delivery depends on. *)
Definition rx_core r := (rxWindow r, frags r, isRxWindowFull r).

Lemma reorder_expire_safe r w (Q : unit -> _ -> Prop) :
  sched_ok ch w -> channel_inv r ->
  (forall r' w', keeps r w r' w' -> channel_inv r' -> rx_core r' = rx_core r ->
     delivered (trace w') = delivered (trace w) -> Q tt (r', w')) ->
  wp (DTAP_ReorderTimerExpireProc ch) (r, w) Q.
Proof.
  intros Hok Hinv HQ. apply wp_bind, wp_rel. cbn [id]. destruct (_ <=? _).
  { apply wp_release; [done|]. intros b w' Hev _. apply HQ; [by apply keeps_tx| |done|apply Hev].
    by eapply channel_inv_same. }
  apply wp_bind, send_ack_safe; [done..|]. intros ret w1 Hc1.
  destruct (negb _).
  { apply wp_ret, HQ; [by apply keeps_calm|done..|apply (quiet_facts _ _ (proj2 Hc1))]. }
  apply wp_bind, (wp_restart_rsp ch); [by eapply calm_ok|]. intros t w2 Hc2.
  pose proof (calm_trans ch _ _ _ Hc1 Hc2) as Hc. apply wp_upd, HQ; [by apply keeps_calm| |done|].
  - destruct Hinv as [[] (A&Ds&Hinv)]. split; [by constructor|]. exists A, Ds.
    apply (tx_inv_same _ A Ds r); try done. by destruct Hinv.
  - apply (quiet_facts _ _ (proj2 Hc)).
Qed.

Lemma run_event_safe cbk rcb ev r w (Q : unit -> _ -> Prop) :
  sched_ok ch w -> channel_inv r -> 0 <= ch_mps ch < 65536 -> event_ok ev ->
  (forall r' w', keeps r w r' w' -> channel_inv r' -> Q tt (r', w')) ->
  wp (run_event cbk rcb ev) (r, w) Q.
Proof.
  intros Hok Hinv Hmps Hev HQ. pose proof Hinv as [Hrx (A&Ds&Htx)].
  destruct ev as [pi0 buff|f|result| | |]; cbn [run_event event_ok] in *.
  - destruct Hev as (Hpi&Hwf&Hlen). apply wp_bind, (wp_send ch A Ds); try done; [apply Hrx|].
    intros ret r' w' Hevo Hout. apply wp_ret, HQ; [by apply keeps_tx|].
    split; [eapply rx_safe_same; [exact Hrx|apply Hevo]|].
    destruct (send_outcome_inv _ _ _ _ _ _ _ Htx Hout) as [Ds' H']. by eexists _, _.
  - destruct Hev as (b&ty&Hwf&Hp). apply wp_bind, wp_rel. cbn [id].
    destruct (check_enhance_total r f b ty Hwf Hp) as (ok&Hck&Hpf).
    apply wp_bind. eapply wp_opt; [exact Hck|]. destruct ok.
    + apply wp_bind, (recv_enhance_safe _ _ ty); [done..|by apply Hpf|]. intros ret r' w' Hk Hi.
      by apply wp_ret, HQ.
    + by apply wp_ret, HQ.
  - apply set_status_safe; [done..|]. intros r' w' Hevo Hs. apply HQ; [by apply keeps_rx|].
    by eapply channel_inv_rx.
  - apply wp_bind, send_ack_safe; [done..|]. intros ret w' Hc. apply wp_ret, HQ; [by apply keeps_calm|done].
  - apply reorder_expire_safe; auto.
  - apply (wp_retrans_timer ch A Ds); [done..|]. intros r' w' Hevo Hinv'. apply HQ; [by apply keeps_tx|].
    split; [eapply rx_safe_same; [exact Hrx|apply Hevo]|]. eauto.
Qed.

Fixpoint run_events (statusCbk : bool) (rcb : DTAP_DataRecvCb) (evs : list reliable_event) :
    ST (DTAP_ReliableChannel * W) unit :=
  match evs with
  | [] => st_ret tt
  | ev :: evs' => run_event statusCbk rcb ev ;;! run_events statusCbk rcb evs'
  end.

Lemma run_events_safe cbk rcb evs r w :
  sched_ok ch w -> channel_inv r -> 0 <= ch_mps ch < 65536 -> Forall event_ok evs ->
  wp (run_events cbk rcb evs) (r, w) (fun _ '(r', w') => keeps r w r' w' /\ channel_inv r').
Proof.
  intros Hok Hinv Hmps Hevs. revert r w Hok Hinv.
  induction Hevs as [|ev evs Hev Hevs IH]; intros r w Hok Hinv; cbn [run_events].
  { by apply wp_ret. }
  apply wp_bind, run_event_safe; [done..|]. intros r1 w1 Hk1 Hi1.
  eapply wp_mono; [apply IH; [apply Hk1|done]|]. intros _ [r2 w2] [Hk2 Hi2].
  split; [by eapply keeps_trans|done].
Qed.

(** ** Theorems *)

(** C14. Safety of the reliable channel.  Whatever packets the upper layers send,
    whatever well-formed or malicious frames the peer sends, in whatever order the
    three timers expire, and whatever allocations, timers or transmissions fail, no
    operation has undefined behaviour or fails to finish, and the invariant of the
    channel holds again: the transmit list holds consecutive, correctly built
    frames within the window, none retransmitted more than [maxTxThreshold] times,
    and the receive list holds intact frames. *)
Theorem reliable_channel_safe cbk rcb evs r w :
  sched_ok ch w -> channel_inv r -> 0 <= ch_mps ch < 65536 -> Forall event_ok evs ->
  wp (run_events cbk rcb evs) (r, w) (fun _ '(r', w') => sched_ok ch w' /\ channel_inv r').
Proof.
  intros. eapply wp_mono; [by apply run_events_safe|]. intros _ [r' w'] [[] ?]. done.
Qed.

(** The channel asks the connection manager for its own release at most once,
    however often retransmissions and reorder time-outs exceed the threshold, and
    never again once the flag says that the request went out. *)
Theorem release_requested_once cbk rcb evs r w :
  sched_ok ch w -> channel_inv r -> 0 <= ch_mps ch < 65536 -> Forall event_ok evs ->
  wp (run_events cbk rcb evs) (r, w) (fun _ '(_, w') =>
    zlen (releases (trace w')) <= zlen (releases (trace w)) + (if isDestroyMsgSent r then 0 else 1)).
Proof.
  intros. eapply wp_mono; [by apply run_events_safe|]. intros _ [r' w'] [[_ Ht _] _].
  unfold tally in Ht. destruct (isDestroyMsgSent r), (isDestroyMsgSent r'); simpl b2z in Ht; lia.
Qed.
End receive.
