(* ===== verification/DtapReliableOrder.v ===== *)
(** * Reliable transmission: delivery in order

    A peer numbers the fragments of its stream; the receiver sees them in any
    order, some of them twice.  The receive window hands up exactly the SDUs of the
    stream's contiguous prefix, each once and in order.  Indices are unbounded
    integers, of which frames and windows carry 14 bits. *)
From Stdlib Require Import Sorted.
From S2P Require Import Prelude Utils SdfErrno SdfBuff DtapEnv DtapFrame.
From S2P Require Import DtapFragment DtapTrans DtapReliable DtapReliableTx DtapReliableRx.

(** ** Reassembly, as a function of the stream *)

(** One fragment, its segmentation state and payload, onto what is collected: the
    new collection, and the SDU handed up. *)
Definition reasm (acc : option bytes) (x : Z * bytes) : option bytes * list bytes :=
  let '(s, D) := x in
  if s =? DTAP_SAR_UNSEG then (acc, [D])
  else if s =? DTAP_SAR_FIRST then (Some D, [])
  else match acc with
       | None => (None, [])
       | Some a =>
           if DTAP_MAX_FRAG_TOTAL_LEN <? zlen a + zlen D then (None, [])
           else if s =? DTAP_SAR_LAST then (None, [a ++ D])
           else (Some (a ++ D), [])
       end.

Fixpoint reassemble (acc : option bytes) (xs : list (Z * bytes)) : option bytes * list bytes :=
  match xs with
  | [] => (acc, [])
  | x :: xs' =>
      let '(acc, ds) := reasm acc x in
      let '(acc, ds') := reassemble acc xs' in
      (acc, ds ++ ds')
  end.

Lemma reassemble_app acc xs ys :
  reassemble acc (xs ++ ys) =
    let '(acc1, ds) := reassemble acc xs in
    let '(acc2, ds') := reassemble acc1 ys in (acc2, ds ++ ds').
Proof.
  revert acc. induction xs as [|x xs IH]; intros acc; simpl.
  - by destruct (reassemble acc ys).
  - destruct (reasm acc x) as [a ds]. rewrite IH. destruct (reassemble a xs) as [a1 ds1].
    destruct (reassemble a1 ys). by rewrite app_assoc.
Qed.

(** ** The window, as a set of indices

    [n] is the next index to hand up; [held] are the later ones kept. *)
Fixpoint advance (n : Z) (held : list Z) : Z * list Z :=
  match held with
  | [] => (n, [])
  | k :: rest => if k =? n then advance (n + 1) rest else (n, held)
  end.

Fixpoint insert_index (k : Z) (held : list Z) : list Z :=
  match held with
  | [] => [k]
  | j :: rest => if k <? j then k :: held else j :: insert_index k rest
  end.

Definition accepts (size n : Z) (held : list Z) (k : Z) : bool :=
  (n <=? k) && (k <? n + size) && negb (bool_decide (k ∈ held)).

Definition window_step (size : Z) (st : Z * list Z) (k : Z) : Z * list Z :=
  let '(n, held) := st in
  if accepts size n held k then advance n (insert_index k held) else st.

Definition window_run (size : Z) (st : Z * list Z) (ks : list Z) : Z * list Z :=
  fold_left (window_step size) ks st.

(** Each index arrives while it is in the window, or at most this far behind. *)
Definition MAX_BEHIND : Z := 7936.

Fixpoint in_window (size : Z) (st : Z * list Z) (ks : list Z) : Prop :=
  match ks with
  | [] => True
  | k :: ks' => fst st - MAX_BEHIND <= k < fst st + size /\ in_window size (window_step size st k) ks'
  end.

(** [held] is increasing and lies in the window after [n]. *)
Definition window_ok (size n : Z) (held : list Z) : Prop :=
  StronglySorted Z.lt held /\ Forall (fun k => n < k < n + size) held.

Lemma insert_index_elem k held j : j ∈ insert_index k held <-> j = k \/ j ∈ held.
Proof.
  induction held as [|i held IH]; simpl.
  - rewrite list_elem_of_singleton, elem_of_nil. tauto.
  - destruct (k <? i); rewrite !elem_of_cons, ?IH; tauto.
Qed.

Lemma Forall_insert_index (P : Z -> Prop) k held : P k -> Forall P held -> Forall P (insert_index k held).
Proof. rewrite !Forall_forall. intros ?? j [->|]%insert_index_elem; auto. Qed.

Lemma insert_index_sorted k held :
  StronglySorted Z.lt held -> k ∉ held -> StronglySorted Z.lt (insert_index k held).
Proof.
  induction 1 as [|j held Hs IH Hj]; intros Hk; simpl; [by repeat constructor|].
  rewrite not_elem_of_cons in Hk. destruct Hk as [Hne Hk].
  destruct (Z.ltb_spec k j); constructor; auto.
  - by constructor.
  - constructor; [done|]. eapply Forall_impl; [exact Hj|]. simpl. lia.
  - apply Forall_insert_index; [lia|done].
Qed.

(** What [advance] answers: the first index missing from [held], and the rest. *)
Lemma advance_spec n held n' rest :
  StronglySorted Z.lt held -> Forall (fun k => n <= k) held -> advance n held = (n', rest) ->
  n <= n' /\ Forall (fun k => n' < k) rest /\ StronglySorted Z.lt rest /\
  (forall k, n <= k -> k ∈ held <-> k < n' \/ k ∈ rest) /\ zlen held = (n' - n) + zlen rest.
Proof.
  revert n. induction held as [|j held IH]; intros n Hs Hn Ha; simpl in Ha.
  { injection Ha as <- <-. split_and!; try done; [|simpl; lia].
    intros k Hk. split; [by intros ?%elem_of_nil|]. intros [?|?%elem_of_nil]; [lia|done]. }
  apply Forall_cons in Hn as [Hj Hn]. inversion_clear Hs as [|?? Hs' Hlt].
  destruct (Z.eqb_spec j n) as [->|Hne].
  - destruct (IH (n + 1)) as (H1&H2&H3&H4&H5); try done.
    { eapply Forall_impl; [exact Hlt|]. simpl. lia. }
    split_and!; try done; [lia| |simpl; lia].
    intros k Hk. rewrite elem_of_cons. destruct (Z.eq_dec k n) as [->|]; [split; [lia|auto]|].
    rewrite <- H4 by lia. tauto.
  - injection Ha as <- <-. split_and!; try done; [| | |simpl; lia].
    + constructor; [lia|]. eapply Forall_impl; [exact Hlt|]. simpl. lia.
    + by constructor.
    + intros k Hk. split; [by right|]. intros [?|?]; [lia|done].
Qed.

Lemma window_step_ok size n held k n' held' :
  0 < size -> window_ok size n held -> window_step size (n, held) k = (n', held') ->
  window_ok size n' held' /\ n <= n' /\
  (forall j, n <= j -> (j < n' \/ j ∈ held') <-> (j ∈ held \/ (j = k /\ n <= k < n + size))).
Proof.
  intros Hsize [Hs Hw] Hstep. unfold window_step, accepts in Hstep.
  assert (n ∉ held) as Hn.
  { intros Hin. rewrite Forall_forall in Hw. specialize (Hw n Hin). lia. }
  destruct ((n <=? k) && (k <? n + size) && negb (bool_decide (k ∈ held)))%bool eqn:Ea.
  - apply andb_prop in Ea as [[?%Z.leb_le ?%Z.ltb_lt]%andb_prop Hk].
    apply negb_true_iff, bool_decide_eq_false in Hk.
    apply advance_spec in Hstep as (H1&H2&H3&H4&_).
    + split; [|split; [done|]].
      2: { intros j Hj. rewrite <- H4 by done. rewrite insert_index_elem.
           split; [intros [->|?]; auto|intros [?|[-> _]]; auto]. }
      split; [done|]. rewrite Forall_forall in *. intros j Hj. pose proof (H2 j Hj). split; [done|].
      assert (j ∈ insert_index k held) as [->|Hj']%insert_index_elem; [|lia|].
      { apply H4; [lia|by right]. }
      specialize (Hw j Hj'). lia.
    + by apply insert_index_sorted.
    + apply Forall_insert_index; [done|]. eapply Forall_impl; [exact Hw|]. simpl. lia.
  - injection Hstep as <- <-. split; [done|split; [lia|]]. intros j Hj. split.
    + intros [?|?]; [lia|by left].
    + intros [?|[-> ?]]; [by right|]. right.
      destruct (Z.leb_spec n k), (Z.ltb_spec k (n + size)); try lia. simpl in Ea.
      by apply negb_false_iff, bool_decide_eq_true in Ea.
Qed.

(** After a run whose arrivals were all in the window, [n'] is the first index that
    has not arrived. *)
Lemma window_run_ok size n held ks n' held' :
  0 < size -> window_ok size n held -> in_window size (n, held) ks ->
  window_run size (n, held) ks = (n', held') ->
  window_ok size n' held' /\ n <= n' /\
  (forall j, n <= j -> (j < n' \/ j ∈ held') <-> j ∈ held ++ ks).
Proof.
  intros Hsize. revert n held. induction ks as [|k ks IH]; intros n held Hok Hin Hrun.
  { injection Hrun as <- <-. split; [done|split; [lia|]]. intros j Hj. rewrite app_nil_r.
    split; [intros [?|?]; [lia|done]|by right]. }
  cbn [window_run fold_left in_window fst] in *. destruct Hin as [Hk Hin].
  destruct (window_step size (n, held) k) as [n1 held1] eqn:Es.
  destruct (window_step_ok size n held k n1 held1) as (Hok1&Hn1&H1); try done.
  destruct (IH n1 held1) as (Hok'&Hn'&H'); try done. split; [done|split; [lia|]].
  intros j Hj. rewrite elem_of_app, elem_of_cons. specialize (H1 j Hj).
  destruct (Z.lt_ge_cases j n1) as [Hlt|Hge].
  - assert (j ∈ held \/ j = k /\ n <= k < n + size) by tauto. split; [tauto|]. left. lia.
  - rewrite H', elem_of_app by lia. split; [intros [?|?]|intros [?|[->|?]]]; try tauto.
    + assert (j < n1 \/ j ∈ held1) as [?|?] by tauto; [lia|tauto].
    + assert (k < n1 \/ k ∈ held1) as [?|?] by (apply H1; right; lia); [lia|tauto].
Qed.

(** ** The receive list, as the frames of held indices *)

(** A stream: the segmentation state and the payload of each fragment. *)
Definition stream : Type := Z -> Z * bytes.

(** [g] is the fragment [k] of the stream. *)
Record carries (strm : stream) (k : Z) (g : DTAP_Frame) : Prop := {
  cr_ctx : exists duplex, ctx g = Some (frag_ctx duplex);
  cr_seq : txSeq g = seq14 k;
  cr_frag : strm k = (sar g, snd (strm k));
  cr_sar : 0 <= sar g < 4;
  cr_rx : rx_frame g (snd (strm k))
}.

Section frames.
Context (strm : stream).

Lemma find_held held l n j :
  Forall2 (carries strm) held l -> Forall (fun k => n <= k < n + 512) held -> n <= j < n + 512 ->
  match DTAP_FindFrameBySeq l (seq14 j) with Some _ => j ∈ held | None => j ∉ held end.
Proof.
  intros Hl Hh Hj. unfold DTAP_FindFrameBySeq.
  induction Hl as [|k g held l Hg Hl IH]; simpl; [by intros ?%elem_of_nil|].
  apply Forall_cons in Hh as [Hk Hh]. rewrite (cr_seq _ _ _ Hg), seq14_eqb by lia.
  destruct (Z.eqb_spec k j) as [->|Hne]; [by apply list_elem_of_here|].
  specialize (IH Hh). destruct (find_first _ l); rewrite elem_of_cons; [by right|]. intros [?|?]; [lia|done].
Qed.

Lemma insert_carries k g held l n :
  carries strm k g -> Forall2 (carries strm) held l ->
  Forall (fun k => n <= k < n + 512) held -> n <= k < n + 512 ->
  Forall2 (carries strm) (insert_index k held) (insert_by_seq g l).
Proof.
  intros Hg Hl Hh Hk. induction Hl as [|j f held l Hf Hl IH]; simpl; [by constructor|].
  apply Forall_cons in Hh as [Hj Hh]. rewrite (cr_seq _ _ _ Hg), (cr_seq _ _ _ Hf), smaller_near by lia.
  destruct (k <? j); constructor; auto.
Qed.

(** The search for the first missing number walks like [advance]. *)
Lemma first_missing_advance l (held : list Z) n j (held2 : list Z) fuel :
  (forall i, j <= i < n + 512 ->
     match DTAP_FindFrameBySeq l (seq14 i) with Some _ => i ∈ held | None => i ∉ held end) ->
  (forall i, j <= i -> i ∈ held <-> i ∈ held2) ->
  StronglySorted Z.lt held2 -> Forall (fun k => j <= k) held2 ->
  j + zlen held2 < n + 512 -> (length held2 < fuel)%nat ->
  first_missing fuel l (seq14 j) = Some (seq14 (fst (advance j held2))).
Proof.
  intros Hfind. revert j held2 Hfind. induction fuel as [|fuel IH]; intros j held2 Hfind Hsame Hs Hj Hlen Hf;
    [lia|]. cbn [first_missing]. specialize (Hfind j) as Hfj.
  destruct held2 as [|k rest]; cbn [advance].
  { destruct (DTAP_FindFrameBySeq l (seq14 j)); [|done]. exfalso.
    eapply elem_of_nil, Hsame; [|apply Hfj]; simpl in *; lia. }
  apply Forall_cons in Hj as [Hk Hrest]. inversion_clear Hs as [|?? Hs' Hlt].
  rewrite Forall_forall in Hlt. simpl in Hlen, Hf.
  destruct (Z.eqb_spec k j) as [->|Hne].
  - destruct (DTAP_FindFrameBySeq l (seq14 j)).
    2: { exfalso. apply Hfj; [lia|]. apply Hsame; [lia|by apply list_elem_of_here]. }
    rewrite next_seq14. apply IH; try done; try lia.
    + intros i Hi. apply Hfind. lia.
    + intros i Hi. rewrite Hsame by lia. rewrite elem_of_cons. split; [|auto]. intros [?|?]; [lia|done].
    + rewrite Forall_forall. intros i Hi. specialize (Hlt i Hi). lia.
  - destruct (DTAP_FindFrameBySeq l (seq14 j)); [|done]. exfalso.
    assert (j ∈ k :: rest) as [?|Hin]%elem_of_cons by (apply Hsame; [lia|apply Hfj; lia]); [lia|].
    specialize (Hlt j Hin). lia.
Qed.
End frames.

(** ** Faults

    Delivery is promised as long as no allocation failed and the upper layer
    refused nothing. *)
Definition refused (t : list (call * Z)) : Prop :=
  exists cb info d, (CRecv cb info d, DTAP_TRANS_RELIABLE_TRANS_CHANNEL_FULL) ∈ t.
Definition faulty (t : list (call * Z)) : Prop := alloc_failed t \/ refused t.

Lemma faulty_app t1 t2 : faulty (t1 ++ t2) <-> faulty t1 \/ faulty t2.
Proof.
  unfold faulty, alloc_failed, refused. setoid_rewrite elem_of_app. split.
  - intros [[?|?]|(cb&i&d&[?|?])]; eauto 8.
  - intros [[?|(cb&i&d&?)]|[?|(cb&i&d&?)]]; eauto 8.
Qed.

(** What the receiver has collected. *)
Definition holds (buffs : option SDF_Buff) (acc : option bytes) : Prop :=
  match acc with None => buffs = None | Some a => collected buffs a end.

Section order.
Context {W : Type} `{Scheduler W}.
Context (ch : DTAP_Channel) (strm : stream) (cb : Z).
Implicit Types (r : DTAP_ReliableChannel) (w : W).

(** From [w] to [w'] something failed, or [ds] was handed up and [P] holds. *)
Definition progress (ds : list bytes) (P : Prop) w w' : Prop :=
  exists t, trace w' = trace w ++ t /\ (faulty t \/ (delivered t = ds /\ P)).

Lemma progress_fault ds P w w1 w2 t :
  trace w1 = trace w ++ t -> faulty t -> extends w1 w2 -> progress ds P w w2.
Proof.
  intros Ht Hf [t' Ht']. exists (t ++ t'). rewrite Ht', Ht, <- app_assoc. split; [done|].
  left. apply faulty_app. by left.
Qed.

Lemma progress_here P w w' : extends w w' -> delivered (trace w') = delivered (trace w) ->
  P -> progress [] P w w'.
Proof.
  intros [t Ht] Hd HP. exists t. split; [done|]. right. split; [|done].
  rewrite Ht, delivered_app in Hd. by apply (app_inv_head (delivered (trace w))); rewrite Hd, app_nil_r.
Qed.

Lemma progress_trans ds1 ds2 (P1 P2 : Prop) w w1 w2 :
  progress ds1 P1 w w1 -> extends w1 w2 -> (P1 -> progress ds2 P2 w1 w2) ->
  progress (ds1 ++ ds2) P2 w w2.
Proof.
  intros (t1&E1&[Hf|[<- HP]]) Hx H2; [by eapply progress_fault|].
  destruct (H2 HP) as (t2&E2&Hr). exists (t1 ++ t2). rewrite E2, E1, <- app_assoc. split; [done|].
  rewrite faulty_app, delivered_app. destruct Hr as [?|[<- ?]]; auto.
Qed.

Lemma progress_mono ds (P P' : Prop) w w' : (P -> P') -> progress ds P w w' -> progress ds P' w w'.
Proof. intros HP (t&Ht&[?|[? ?]]); exists t; auto. Qed.

(** One fragment: what the code collects and hands up is what [reasm] says. *)
Lemma recv_fragment_reasm buffs acc k g info w :
  holds buffs acc -> carries strm k g ->
  wp (DTAP_RecvFragmentFrame buffs g info (Some cb)) w (fun '(ret, bs, _) w' =>
    let '(acc', ds) := reasm acc (strm k) in
    progress ds (holds bs acc' /\ ret <> DTAP_TRANS_RELIABLE_TRANS_CHANNEL_FULL) w w').
Proof.
  intros Hb [_ _ Hk Hs Hrx]. eapply wp_recv_head; [exact Hrx|]. intros b Hwf Hd.
  rewrite Hk. set (D := snd (strm k)) in *. unfold reasm, recv_fragment_switch, recv_cb.
  destruct (Z.eqb_spec (sar g) DTAP_SAR_UNSEG).
  { apply wp_bind, wp_ask. intros a w' Ht. apply wp_ret. rewrite Hd in Ht. exists [(CRecv cb info D, a)].
    split; [done|]. destruct (Z.eqb_spec a DTAP_TRANS_RELIABLE_TRANS_CHANNEL_FULL) as [->|];
      [left; right|right; by split_and!].
    exists cb, info, D. by apply list_elem_of_here. }
  destruct (Z.eqb_spec (sar g) DTAP_SAR_FIRST).
  { apply wp_bind, wp_alloc_ok. intros a w' Ht. apply wp_ret.
    exists [(CAlloc, a)]. split; [done|]. destruct (Z.eqb_spec a 0) as [->|].
    - left. left. by apply list_elem_of_here.
    - right. split_and!; [done| |by destruct buffs]. cbn [negb]. rewrite copy_wf by done. by exists b. }
  rewrite (proj2 (orb_true_iff _ _)).
  2: { rewrite !Z.eqb_eq. unfold DTAP_SAR_UNSEG, DTAP_SAR_FIRST, DTAP_SAR_MID, DTAP_SAR_LAST in *. lia. }
  destruct acc as [whole|]; cbn [holds] in Hb.
  2: { rewrite Hb. apply wp_ret. exists []. rewrite app_nil_r. split; [done|]. right. by split_and!. }
  destruct Hb as (old&->&Hwo&Hwhole). pose proof (length_buff_data old Hwo) as Hlo.
  pose proof (length_buff_data b Hwf) as Hlb. rewrite Hwhole in Hlo. rewrite Hd in Hlb.
  rewrite Hlo, Hlb. apply wp_bind.
  destruct (Z.ltb_spec DTAP_MAX_FRAG_TOTAL_LEN (dataLen old + dataLen b)) as [Hgt|Hle].
  { unfold DTAP_UpdateFragmentFrame, SDF_DataLenGet. destruct Hwo, Hwf. rewrite u64_small by cint.
    destruct (Z.ltb_spec DTAP_MAX_FRAG_TOTAL_LEN (dataLen old + dataLen b)); [|lia]. apply wp_ret.
    assert (progress [] (holds None None /\ DTAP_ENHANCED_FRAME_FRAGMENT_FRAME_LEN_ERR <>
      DTAP_TRANS_RELIABLE_TRANS_CHANNEL_FULL) w w) by (by apply progress_here).
    destruct (_ =? DTAP_SAR_LAST); by apply wp_ret. }
  eapply wp_mono; [by apply update_spec|]. intros [ret bs] w1 (a&Ht&Hr).
  destruct (Z.eqb_spec a 0) as [->|Ha].
  { destruct Hr as [-> ->].
    assert (forall ds P, progress ds P w w1) as Hbad.
    { intros. eapply progress_fault; [exact Ht| |done]. left. by apply list_elem_of_here. }
    destruct (_ =? DTAP_SAR_LAST); by apply wp_ret. }
  destruct Hr as (->&nb&->&Hwn&Hdn). rewrite Hwhole, Hd in Hdn.
  destruct (Z.eqb_spec (sar g) DTAP_SAR_LAST).
  2: { apply wp_ret. exists [(CAlloc, a)]. split; [done|]. right. split_and!; try done. by exists nb. }
  apply wp_bind, wp_ask. intros res w2 Ht2. apply wp_ret.
  exists [(CAlloc, a); (CRecv cb info (whole ++ D), res)]. rewrite Ht2, Ht, Hdn, <- app_assoc.
  split; [done|]. destruct (Z.eqb_spec res DTAP_TRANS_RELIABLE_TRANS_CHANNEL_FULL) as [->|];
    [left; right|right; by split_and!].
  exists cb, info, (whole ++ D). apply list_elem_of_further, list_elem_of_here.
Qed.

Lemma carries_type k g : carries strm k g ->
  frame_type g = Some DTAP_FRAME_SIMPLEX_FRAG \/ frame_type g = Some DTAP_FRAME_DUPLEX_FRAG.
Proof. intros [([]&Hc) _ _ _ _]; unfold frame_type; rewrite Hc; auto. Qed.

Lemma recv_by_type_reasm buffs acc k g w :
  holds buffs acc -> carries strm k g ->
  wp (recv_by_type ch buffs g (Some cb)) w (fun '(ret, bs, _) w' =>
    let '(acc', ds) := reasm acc (strm k) in
    progress ds (holds bs acc' /\ ret <> DTAP_TRANS_RELIABLE_TRANS_CHANNEL_FULL) w w').
Proof.
  intros Hb Hg. unfold recv_by_type. apply wp_bind.
  destruct (carries_type k g Hg) as [Ht|Ht]; (eapply wp_opt; [exact Ht|]); by apply recv_fragment_reasm.
Qed.

(** What the delivery of [ks], from [m] on, leaves. *)
Record delivered_to_window (m : Z) (held : list Z) (acc : option bytes) r r' : Prop := {
  dw_next : bufferSeq (rxWindow r') = seq14 m;
  dw_list : Forall2 (carries strm) held (rxList (rxWindow r'));
  dw_acc : holds (frags r') acc;
  dw_same : (expectedTxSeq (rxWindow r'), rx_size (rxWindow r'), isRxWindowFull r') =
            (expectedTxSeq (rxWindow r), rx_size (rxWindow r), isRxWindowFull r)
}.

Lemma seqZ_step m m' : m < m' -> seqZ m (m' - m) = m :: seqZ (m + 1) (m' - (m + 1)).
Proof. intros. rewrite seqZ_cons by lia. f_equal. f_equal; lia. Qed.

Lemma advance_le n held : n <= fst (advance n held).
Proof.
  revert n. induction held as [|k held IH]; intros n; simpl; [lia|].
  destruct (k =? n); simpl; [|lia]. specialize (IH (n + 1)). lia.
Qed.

Lemma recv_loop_order n m held acc r w :
  sched_ok ch w -> rx_safe r -> (length (rxList (rxWindow r)) < n)%nat ->
  delivered_to_window m held acc r r ->
  StronglySorted Z.lt held -> Forall (fun k => m <= k < m + 256) held ->
  wp (st_while n (recv_round ch (Some cb))) (r, w) (fun _ '(r', w') =>
    let '(m', rest) := advance m held in
    let '(acc', ds) := reassemble acc (strm <$> seqZ m (m' - m)) in
    progress ds (delivered_to_window m' rest acc' r r') w w').
Proof.
  revert m held acc r w. induction n as [|n IH]; intros m held acc r w Hok Hs Hn Hdw Hsort Hh;
    [lia|].
  assert (progress [] (delivered_to_window m held acc r r) w w) as Hstop by (by apply progress_here).
  pose proof Hdw as [Hnext Hl Hacc _]. pose proof (rs_list _ Hs) as Hfs. cbn [st_while].
  apply wp_bind, wp_bind, wp_rel. cbn [id].
  destruct Hl as [|k g held rest Hg Hl]; cbn [advance].
  { apply wp_ret, wp_ret. rewrite Z.sub_diag. by cbn. }
  apply Forall_cons in Hh as [Hk Hh]. inversion_clear Hsort as [|?? Hsort' Hlt].
  rewrite Hnext, (cr_seq _ _ _ Hg), seq14_eqb by lia.
  destruct (Z.eqb_spec k m) as [->|Hne]; cbn [negb].
  2: { apply wp_ret, wp_ret. rewrite Z.sub_diag. by cbn. }
  apply Forall_cons in Hfs as [Hgs Hrs].
  apply wp_bind, wp_over. eapply wp_mono.
  { apply wp_conj; [by apply recv_by_type_reasm|].
    apply (recv_by_type_safe ch (frags r) g (Some cb) w (fun x w' =>
      steady ch w w' /\ buffs_ok (snd (fst x)) /\ frame_safe (snd x))); [done|apply Hs|done|].
    by intros ret bs g' w' ????. }
  intros [[ret bs] g'] w1 [Hstep (Hst&Hbs&Hg's)]. cbn [fst snd] in *.
  apply wp_bind, wp_upd. set (r1 := r <| frags := bs |>).
  pose proof (advance_le (m + 1) held) as Hle. specialize (IH (m + 1) held).
  destruct (advance (m + 1) held) as [m' rest'] eqn:Ea. cbn [fst] in Hle.
  rewrite (seqZ_step m m'), fmap_cons by lia. cbn [reassemble].
  destruct (reasm acc (strm m)) as [acc1 ds1] eqn:Er.
  destruct (reassemble acc1 (strm <$> seqZ (m + 1) (m' - (m + 1)))) as [acc2 ds2] eqn:Er2.
  destruct (Z.eqb_spec ret DTAP_TRANS_RELIABLE_TRANS_CHANNEL_FULL) as [->|Hfull].
  { apply wp_bind, wp_upd, wp_bind, wp_upd, wp_ret, wp_ret.
    destruct Hstep as (t&Ht&[Hf|(_&_&Hne)]); [|done]. by eapply progress_fault. }
  apply wp_bind, wp_upd, wp_ret. set (r2 := set_rx _ r1).
  assert (rx_safe r2) as Hs2.
  { constructor; [done..|]. destruct (rs_seqs _ Hs). split; [|done]. by apply next_range. }
  assert (length (rxList (rxWindow r2)) < n)%nat as Hn2 by (simpl in Hn |- *; lia).
  pose proof (sd_ok _ _ _ Hst) as Hok1.
  assert (wp (st_while n (recv_round ch (Some cb))) (r2, w1) (fun _ '(_, w2) => extends w1 w2)) as Hx.
  { apply recv_loop_safe; [done..|]. by intros r' w' [[] _ _ _] _. }
  destruct Hstep as (t&Ht&[Hf|(Hd&Hb&_)]).
  { eapply wp_mono; [exact Hx|]. intros _ [r' w'] He. by eapply progress_fault. }
  eapply wp_mono; [apply wp_conj; [exact Hx|apply (IH acc1 r2 w1 Hok1 Hs2 Hn2)]|].
  - constructor; try done. cbn. by rewrite Hnext, next_seq14.
  - done.
  - rewrite Forall_forall in *. intros j Hj. specialize (Hlt j Hj). specialize (Hh j Hj). simpl in *. lia.
  - intros _ [r' w'] [He Hp]. rewrite Er2 in Hp.
    apply (progress_trans ds1 ds2 True _ w w1 w'); [|done|].
    { exists t. auto. }
    intros _. eapply progress_mono; [|exact Hp]. intros [H1 H2 H3 H4]. by constructor.
Qed.

(** ** The invariant of the receive window *)
Record rx_order (n : Z) (held : list Z) (acc : option bytes) r : Prop := {
  ro_full : isRxWindowFull r = false;
  ro_size : 0 < rx_size (rxWindow r) < 256;
  ro_expected : expectedTxSeq (rxWindow r) = seq14 n;
  ro_window : window_ok (rx_size (rxWindow r)) n held;
  ro_list : delivered_to_window n held acc r r
}.

Lemma rx_order_same n held acc r r' :
  rx_order n held acc r -> rx_core r' = rx_core r -> rx_order n held acc r'.
Proof.
  intros [Hf Hs He Hw [H1 H2 H3 _]] Hp. injection Hp as E1 E2 E3.
  constructor; rewrite ?E1, ?E2, ?E3; try done. by constructor; rewrite ?E1, ?E2.
Qed.

Lemma rx_part_core r r' : rx_part r' = rx_part r -> rx_core r' = rx_core r.
Proof. unfold rx_part, rx_core. congruence. Qed.

Lemma window_near size n held : size < 256 -> window_ok size n held ->
  Forall (fun k => n <= k < n + 256) held.
Proof. intros Hs [_ Hw]. eapply Forall_impl; [exact Hw|]. simpl. lia. Qed.

Lemma near_wide n held : Forall (fun k => n <= k < n + 256) held -> Forall (fun k => n <= k < n + 512) held.
Proof. intros. eapply Forall_impl; [done|]. simpl. lia. Qed.

(** The check of the sequence number, for an index in the window or behind it. *)
Lemma check_seq_accepts n held acc r k :
  rx_order n held acc r -> n - MAX_BEHIND <= k < n + rx_size (rxWindow r) ->
  DTAP_CheckEnhanceFrameTxSeq (rxWindow r) (seq14 k) = accepts (rx_size (rxWindow r)) n held k.
Proof.
  intros [_ Hsize Hexp Hw [Hnext Hl _ _]] Hk. unfold MAX_BEHIND in *.
  pose proof (near_wide _ _ (window_near (rx_size (rxWindow r)) n held ltac:(lia) Hw)) as Hh.
  unfold DTAP_CheckEnhanceFrameTxSeq, accepts. rewrite Hexp, Hnext, smaller_near, seq14_eqb by lia.
  assert (Z.land (u16 (seq14 n + rx_size (rxWindow r))) DTAP_FRAME_SEQ_MAX
          = seq14 (n + rx_size (rxWindow r))) as ->.
  { rewrite seq14_land_max. pose proof (seq14_range n). unfold DTAP_FRAME_SEQ_MAX in *.
    rewrite u16_small by cint. unfold seq14. by rewrite Zplus_mod_idemp_l. }
  rewrite smaller_near by lia. rewrite (proj2 (Z.ltb_lt k (n + rx_size (rxWindow r)))) by lia.
  destruct (Z.ltb_spec k n), (Z.leb_spec n k); try lia; cbn [andb negb].
  assert (n ∉ held) as Hn.
  { intros Hin. destruct Hw as [_ Hw]. rewrite Forall_forall in Hw. specialize (Hw n Hin). lia. }
  destruct (Z.eqb_spec k n) as [->|Hne]; [by rewrite bool_decide_eq_false_2|].
  pose proof (find_held strm held _ n k Hl Hh ltac:(lia)) as Hf.
  destruct (DTAP_FindFrameBySeq _ _); [by rewrite bool_decide_eq_true_2|by rewrite bool_decide_eq_false_2].
Qed.

Lemma advance_gap n held : Forall (fun k => n < k) held -> advance n held = (n, held).
Proof.
  destruct 1 as [|k held Hk]; simpl; [done|]. destruct (Z.eqb_spec k n); [lia|done].
Qed.

Lemma insert_front n held : Forall (fun k => n < k) held -> insert_index n held = n :: held.
Proof. destruct 1 as [|k held Hk]; simpl; [done|]. destruct (Z.ltb_spec n k); [done|lia]. Qed.

(** A window holds fewer indices than its size. *)
Lemma held_room size n held : StronglySorted Z.lt held -> Forall (fun k => n < k < n + size) held ->
  0 < size -> zlen held < size.
Proof.
  intros Hs. revert n size. induction Hs as [|k held Hs IH Hlt]; intros n size Hw Hsz; simpl; [lia|].
  apply Forall_cons in Hw as [Hk Hw]. specialize (IH k (n + size - k)).
  assert (zlen held < n + size - k); [|lia]. apply IH; [|lia].
  rewrite Forall_forall in *. intros j Hj. specialize (Hlt j Hj). specialize (Hw j Hj). simpl in *. lia.
Qed.

(** Between the insertion of index [k] and the delivery. *)
Record slid (n : Z) (held : list Z) (acc : option bytes) r r' : Prop := {
  sl_full : isRxWindowFull r' = false;
  sl_size : rx_size (rxWindow r') = rx_size (rxWindow r);
  sl_expected : expectedTxSeq (rxWindow r') = seq14 (fst (advance n held));
  sl_list : delivered_to_window n held acc r' r'
}.

Lemma slide_rx_order n held acc k g r w :
  rx_order n held acc r -> carries strm k g ->
  n <= k < n + rx_size (rxWindow r) -> k ∉ held ->
  wp (DTAP_SlideRxWindow (W := W) g) (r, w) (fun _ '(r', w') =>
    w' = w /\ slid n (insert_index k held) acc r r').
Proof.
  intros [Hfull Hsize Hexp Hw [Hnext Hl Hacc _]] Hg Hk Hnew.
  pose proof (window_near (rx_size (rxWindow r)) n held ltac:(lia) Hw) as Hh. destruct Hw as [Hsort Hw].
  assert (Forall (fun k => n < k) held) as Hgt by (eapply Forall_impl; [exact Hw|]; simpl; lia).
  assert (Forall2 (carries strm) (insert_index k held) (insert_by_seq g (rxList (rxWindow r)))) as Hins.
  { eapply insert_carries; [done..|by apply near_wide|lia]. }
  apply wp_bind, wp_upd, wp_bind, wp_upd, wp_bind, wp_rel. cbn [id]. set (r1 := set_rx _ _).
  apply wp_bind.
  assert (forall e r2, expectedTxSeq (rxWindow r2) = e -> e = seq14 (fst (advance n (insert_index k held))) ->
    (rxList (rxWindow r2), bufferSeq (rxWindow r2), rx_size (rxWindow r2), frags r2, isRxWindowFull r2)
    = (insert_by_seq g (rxList (rxWindow r)), bufferSeq (rxWindow r), rx_size (rxWindow r), frags r,
       isRxWindowFull r) ->
    wp (if DTAP_IsFrameSeqSmaller (maxExpectedTxSeq (rxWindow r1)) (txSeq g)
           || (maxExpectedTxSeq (rxWindow r1) =? txSeq g)
        then upd (set_rx (fun x => x <| maxExpectedTxSeq := DTAP_GetNextFrameSeq (txSeq g) |>))
        else st_ret tt) (r2, w) (fun _ '(r', w') => w' = w /\ slid n (insert_index k held) acc r r'))
    as Hfin.
  { intros e r2 He1 He2 Hr2. injection Hr2 as E1 E2 E3 E4 E5.
    assert (slid n (insert_index k held) acc r r2) as [].
    { constructor; [congruence|congruence|congruence|]. constructor; [congruence| | |done].
      - by rewrite E1.
      - by rewrite E4. }
    destruct (_ || _)%bool; (split; [done|]); constructor; try done. by destruct sl_list0. }
  change (txSeq g =? expectedTxSeq (rxWindow r1)) with (txSeq g =? expectedTxSeq (rxWindow r)).
  pose proof (cr_seq _ _ _ Hg) as Hseq. rewrite Hseq at 1. rewrite Hexp, seq14_eqb by lia.
  destruct (Z.eqb_spec k n) as [->|Hne].
  - rewrite (insert_front n held Hgt) in *. cbn [advance] in Hfin. rewrite Z.eqb_refl in Hfin.
    rewrite Hseq, next_seq14 in *.
    rewrite (first_missing_advance _ (n :: held) n (n + 1) held).
    + apply wp_bind, wp_upd, wp_upd. by eapply Hfin.
    + intros i Hi. apply (find_held strm (n :: held) _ n); [done| |lia].
      constructor; [lia|by apply near_wide].
    + intros i Hi. rewrite elem_of_cons. split; [|auto]. intros [?|?]; [lia|done].
    + done.
    + eapply Forall_impl; [exact Hgt|]. simpl. lia.
    + pose proof (held_room (rx_size (rxWindow r)) n held Hsort Hw ltac:(lia)). lia.
    + change (rx_size (rxWindow r1)) with (rx_size (rxWindow r)).
      pose proof (held_room (rx_size (rxWindow r)) n held Hsort Hw ltac:(lia)). lia.
  - apply wp_ret. eapply Hfin; [exact Hexp| |done]. rewrite advance_gap; [done|].
    apply Forall_insert_index; [lia|done].
Qed.

(** ** A received frame *)

(** A parsed frame that carries fragment [k] and whose checksum is right. *)
Record stream_frame (crc k : Z) (f : DTAP_Frame) : Prop := {
  sf_carries : carries strm k f;
  sf_parsed : exists b ty, buff_wf b /\ parsed_wf b ty f;
  sf_crc : forall b, f_buff f = Some b -> CRC16 crc (buff_data b) = 0
}.

Lemma stream_frame_peer crc k f : stream_frame crc k f ->
  exists ty, peer_frame f ty /\ (ty = DTAP_FRAME_SIMPLEX_FRAG \/ ty = DTAP_FRAME_DUPLEX_FRAG).
Proof.
  intros [Hc (b&ty&Hwf&Hp) _].
  assert (frame_type f = Some ty) as Ht.
  { destruct (pw_ctx _ _ _ Hp) as (c&Hctx&<-). unfold frame_type. by rewrite Hctx. }
  assert (ty = DTAP_FRAME_SIMPLEX_FRAG \/ ty = DTAP_FRAME_DUPLEX_FRAG) as Hty.
  { destruct (carries_type k f Hc) as [E|E]; rewrite Ht in E; injection E as ->; auto. }
  exists ty. split; [|done]. constructor; [|by exists b].
  unfold DTAP_FRAME_SIMPLEX_FRAG, DTAP_FRAME_DUPLEX_FRAG, DTAP_FRAME_SIMPLEX_AGGR, DTAP_FRAME_ACK in *. lia.
Qed.

Lemma carries_same k f g : carries strm k f -> same_frame f g ->
  (f_buff g, sar g, pi g, bits g, headerLen g, extensionLen g) =
  (f_buff f, sar f, pi f, bits f, headerLen f, extensionLen f) -> carries strm k g.
Proof.
  intros [Hc Hs Hk Hsar [Hh He Hb]] [Et Ec] E. injection E as E1 E2 _ _ E5 E6.
  constructor; rewrite ?Et, ?Ec, ?E2; try done. constructor; rewrite ?E1, ?E5, ?E6; done.
Qed.

Lemma check_frame_accepts n held acc r k f :
  rx_order n held acc r -> n - MAX_BEHIND <= k < n + rx_size (rxWindow r) ->
  stream_frame (crcInit r) k f ->
  DTAP_CheckEnhanceFrame r f = Some (accepts (rx_size (rxWindow r)) n held k).
Proof.
  intros Ho Hk Hf. pose proof Hf as [Hc (b0&ty0&Hwf&Hp0) Hcrc].
  destruct (stream_frame_peer _ _ _ Hf) as (ty&[Hr _]&Hty).
  pose proof (pw_over _ _ _ Hp0) as [Hb _]. unfold DTAP_CheckEnhanceFrame.
  rewrite Hb, (cr_seq _ _ _ Hc), (check_seq_accepts _ _ _ _ _ Ho Hk).
  destruct (carries_type k f Hc) as [-> | ->]; cbn [mbind option_bind];
    rewrite window_bytes_spec by done; cbn [mbind option_bind]; by rewrite Hcrc.
Qed.

(** The delivery after the insertion. *)
Lemma recv_inner_order n held acc r0 r w :
  sched_ok ch w -> rx_safe r -> 0 < rx_size (rxWindow r0) < 256 ->
  slid n held acc r0 r -> StronglySorted Z.lt held ->
  Forall (fun k => n <= k < n + rx_size (rxWindow r0)) held ->
  wp (DTAP_RecvEnhanceFrameInner ch (Some cb)) (r, w) (fun _ '(r', w') =>
    rx_evolves ch r w r' w' /\ rx_safe r' /\
    let '(n', held') := advance n held in
    let '(acc', ds) := reassemble acc (strm <$> seqZ n (n' - n)) in
    progress ds (rx_order n' held' acc' r') w w').
Proof.
  intros Hok Hs Hsize [Hfull Hsz Hexp Hdw] Hsort Hh.
  eapply wp_mono.
  { apply wp_conj; [apply (recv_inner_safe ch (Some cb) r w (fun _ '(r', w') =>
      rx_evolves ch r w r' w' /\ rx_safe r')); by auto|].
    unfold DTAP_RecvEnhanceFrameInner. apply wp_bind, wp_rel. cbn [id]. rewrite Hfull.
    apply (recv_loop_order _ n held acc); try done; [lia|].
    eapply Forall_impl; [exact Hh|]. simpl. lia. }
  intros _ [r' w'] [[Hev Hs'] Hp]. split; [done|]. split; [done|].
  destruct (advance n held) as [n' held'] eqn:Ea. cbn [fst] in Hexp.
  destruct (reassemble acc _) as [acc' ds]. eapply progress_mono; [|exact Hp].
  intros [H1 H2 H3 H4]. injection H4 as E1 E2 E3.
  apply advance_spec in Ea as (Hle&Hgt&Hs2&Hel&_); [|done|].
  2: { eapply Forall_impl; [exact Hh|]. simpl. lia. }
  constructor; try congruence; [|by constructor].
  split; [done|]. rewrite E2, Hsz. rewrite Forall_forall in *. intros j Hj.
  pose proof (Hgt j Hj). assert (j ∈ held) as Hin by (apply Hel; [lia|auto]).
  specialize (Hh j Hin). simpl in *. lia.
Qed.

(** The acknowledgement and the status change that end every reception. *)
Lemma finish_frame cbk (need : bool) r w (Q : Z -> _ -> Prop) :
  sched_ok ch w -> channel_inv ch r -> 0 <= ch_mps ch < 65536 ->
  (forall r' w', extends w w' -> delivered (trace w') = delivered (trace w) ->
     rx_part r' = rx_part r -> Q DTAP_SUCCESS (r', w')) ->
  wp ((if need then
         let! ret := DTAP_SendAckFrame ch true false in
         if negb (ret =? DTAP_SUCCESS) then st_ret tt else restart_rsp
       else st_ret tt) ;;!
      DTAP_TransChannelStatusChange ch cbk DTAP_SUCCESS ;;!
      st_ret DTAP_SUCCESS) (r, w) Q.
Proof.
  intros Hok Hinv Hmps HQ. apply wp_bind, poll_answer_safe; [done..|]. intros t w1 [Hok1 Hq1].
  apply wp_bind, channel_status_safe; [done|by eapply channel_inv_same|done|].
  intros r2 w2 Hk2 _ Hrx Hd. apply wp_ret, HQ.
  - eapply extends_trans; [by apply quiet_extends|apply Hk2].
  - rewrite Hd. by apply quiet_facts.
  - by rewrite Hrx.
Qed.

Lemma recv_nack_data f ty s (Q : Z -> _ -> Prop) :
  frame_type f = Some ty -> ty <> DTAP_FRAME_ACK -> Q DTAP_SUCCESS s ->
  wp (DTAP_RecvNackFrame ch f) s Q.
Proof.
  intros Ht Hne HQ. apply wp_bind. eapply wp_opt; [exact Ht|].
  rewrite (proj2 (Z.eqb_neq ty _)) by done. by apply wp_ret.
Qed.

(** The window's answer to an accepted frame. *)
Lemma recv_frame_order cbk n held acc k f r w :
  sched_ok ch w -> channel_inv ch r -> 0 <= ch_mps ch < 65536 -> rx_order n held acc r ->
  stream_frame (crcInit r) k f -> n <= k < n + rx_size (rxWindow r) -> k ∉ held ->
  wp (DTAP_RecvEnhanceFrame ch cbk f (Some cb)) (r, w) (fun _ '(r', w') =>
    let '(n', held') := advance n (insert_index k held) in
    let '(acc', ds) := reassemble acc (strm <$> seqZ n (n' - n)) in
    progress ds (rx_order n' held' acc' r') w w').
Proof.
  intros Hok Hinv Hmps Ho Hf Hk Hnew. pose proof Hinv as [Hrx (A&Ds&Htx)].
  destruct (stream_frame_peer _ _ _ Hf) as (ty&Hpf&Hty). pose proof (peer_frame_type _ _ Hpf) as Hft.
  assert (ty <> DTAP_FRAME_ACK) as Hna by (by destruct Hty as [-> | ->]).
  apply wp_bind, (recv_nack_data _ ty); [done..|]. cbn [negb Z.eqb DTAP_SUCCESS].
  apply wp_bind, (wp_slide_tx ch A Ds _ ty _ _ _ _ Hok Htx Hft eq_refl); [by apply peer_frame_ack|].
  intros r2 w2 Hev2 _ Htx2. apply (rx_order_same _ _ _ r r2) in Ho; [|apply rx_part_core, Hev2].
  pose proof (rx_safe_same _ _ Hrx (ev_rx _ _ _ _ _ Hev2)) as Hrx2.
  assert (channel_inv ch r2) as Hinv2 by (split; [done|by eexists _, _]).
  assert (rx_size (rxWindow r2) = rx_size (rxWindow r)) as Hsz.
  { pose proof (ev_rx _ _ _ _ _ Hev2) as E. injection E as -> _ _ _ _ _. done. }
  assert (progress [] True w w2) as Hp2 by (apply progress_here; [apply Hev2..|done]).
  apply wp_bind. eapply wp_opt; [exact Hft|]. rewrite (proj2 (Z.eqb_neq ty _)) by done.
  destruct (advance n (insert_index k held)) as [n' held'] eqn:Ea.
  destruct (reassemble acc (strm <$> seqZ n (n' - n))) as [acc' ds] eqn:Er.
  apply wp_bind, wp_over, (wp_copy_frame ch f ty); [apply Hev2|done|..].
  { intros t w3 Hc3 Ht Hfail. apply wp_ret.
    eapply (progress_trans [] ds True); [exact Hp2|apply quiet_extends, Hc3|]. intros _.
    eapply (progress_fault _ _ _ w3); [exact Ht|by left|done]. }
  intros g w3 Hc3 Hg Hsame Hfields. pose proof (carries_same _ _ _ (sf_carries _ _ _ Hf) Hsame Hfields) as Hcg.
  apply wp_bind. eapply wp_mono.
  { apply wp_conj; [by eapply slide_rx_order; [exact Ho|exact Hcg|lia|]|].
    apply (slide_rx_safe ch g r2 w3 (fun _ x => rx_evolves ch r2 w3 (fst x) (snd x) /\ rx_safe (fst x)));
      [apply Hc3|done..]. }
  intros _ [r4 w4] [[-> Hslid] [Hev4 Hs4]]. cbn [fst snd] in *.
  apply wp_bind, (reorder_timer_safe ch); [apply Hc3|]. intros t w5 Hc5. set (r5 := r4 <| reorderTimer := t |>).
  assert (rx_evolves ch r2 w3 r5 w5) as Hev5 by (eapply rx_evolves_trans; [exact Hev4|by apply rx_evolves_calm]).
  destruct (ro_window _ _ _ _ Ho) as [Hsort Hwin].
  apply wp_bind. eapply wp_mono.
  { apply (recv_inner_order n (insert_index k held) acc r2);
      [by eapply calm_ok|by apply rx_safe_timer|by destruct Ho| | |].
    - destruct Hslid as [H1 H2 H3 []]. by constructor.
    - by apply insert_index_sorted.
    - apply Forall_insert_index; [lia|]. eapply Forall_impl; [exact Hwin|]. simpl. lia. }
  intros _ [r6 w6] (Hev6&Hs6&Hp6). rewrite Ea, Er in Hp6.
  pose proof (rx_evolves_trans _ _ _ _ _ _ _ Hev5 Hev6) as Hev26.
  apply finish_frame; [apply Hev6|by eapply channel_inv_rx|done|]. intros r' w' Hx Hd Hrx'.
  assert (extends w2 w5) as He5.
  { eapply extends_trans; [apply quiet_extends, Hc3|apply quiet_extends, Hc5]. }
  assert (extends w5 w6) as He6 by apply Hev6.
  assert (delivered (trace w5) = delivered (trace w2)) as Hd5.
  { destruct (quiet_facts _ _ (proj2 Hc3)) as [<- _]. apply (quiet_facts _ _ (proj2 Hc5)). }
  eapply (progress_trans [] ds True); [exact Hp2|by do 2 (eapply extends_trans; [done|])|intros _].
  eapply (progress_trans [] ds True); [by apply progress_here|by eapply extends_trans|intros _].
  rewrite <- (app_nil_r ds). eapply progress_trans; [exact Hp6|done|]. intros Ho6.
  apply progress_here; [done..|]. by eapply rx_order_same, rx_part_core.
Qed.

(** ** Runs *)

(** Which fragment an event brings: none, for acknowledgements, packets to send,
    status changes and timers. *)
Inductive arrives (crc : Z) : reliable_event -> option Z -> Prop :=
| arrives_data k f : stream_frame crc k f -> arrives crc (EvRecv f) (Some k)
| arrives_ack b f : buff_wf b -> parsed_wf b DTAP_FRAME_ACK f -> arrives crc (EvRecv f) None
| arrives_other ev : match ev with EvRecv _ => False | _ => event_ok ev end -> arrives crc ev None.

Lemma arrives_ok crc ev k : arrives crc ev k -> event_ok ev.
Proof. destruct 1 as [k f [_ Hp _]|b f Hwf Hp|[]]; cbn; eauto; done. Qed.

(** An acknowledgement leaves the receive side alone. *)
Lemma recv_ack_order cbk b f r w (Q : Z -> _ -> Prop) :
  sched_ok ch w -> channel_inv ch r -> 0 <= ch_mps ch < 65536 ->
  buff_wf b -> parsed_wf b DTAP_FRAME_ACK f ->
  (forall ret r' w', extends w w' -> delivered (trace w') = delivered (trace w) ->
     rx_part r' = rx_part r -> Q ret (r', w')) ->
  wp (DTAP_RecvEnhanceFrame ch cbk f (Some cb)) (r, w) Q.
Proof.
  intros Hok Hinv Hmps Hwf Hp HQ. pose proof Hinv as [Hrx (A&Ds&Htx)].
  assert (peer_frame f DTAP_FRAME_ACK) as Hpf by (constructor; [done|by exists b]).
  pose proof (peer_frame_type _ _ Hpf) as Hft.
  apply wp_bind, (wp_recv_nack ch A Ds _ DTAP_FRAME_ACK); [done..|]. intros ret r1 w1 Hev1 _ Htx1 _.
  destruct (negb _); [apply wp_ret, HQ; apply Hev1|].
  apply wp_bind, (wp_slide_tx ch A Ds _ DTAP_FRAME_ACK _ _ _ _ ltac:(apply Hev1) Htx1 Hft eq_refl);
    [apply (peer_frame_ack f DTAP_FRAME_ACK Hpf)|].
  intros r2 w2 Hev2 _ Htx2. pose proof (evolves_trans _ _ _ _ _ _ _ Hev1 Hev2) as Hev.
  apply wp_bind. eapply wp_opt; [exact Hft|]. cbn [Z.eqb Pos.eqb DTAP_FRAME_ACK].
  apply wp_bind, channel_status_safe; [apply Hev|split; [|by eexists _, _]|done|].
  { eapply rx_safe_same; [exact Hrx|apply Hev]. }
  intros r3 w3 Hk3 _ Hrx3 Hd3. apply wp_ret, HQ.
  - eapply extends_trans; [apply Hev|apply Hk3].
  - rewrite Hd3. apply Hev.
  - rewrite Hrx3. apply Hev.
Qed.

Lemma status_order n held acc result r w :
  sched_ok ch w -> channel_inv ch r -> rx_order n held acc r ->
  wp (DTAP_SetTransChannelStatus ch result (Some cb)) (r, w) (fun _ '(r', w') =>
    progress [] (rx_order n held acc r') w w').
Proof.
  intros Hok [Hrx _] Ho. unfold DTAP_SetTransChannelStatus.
  destruct (_ =? _); [|by apply wp_ret, progress_here].
  apply wp_bind, wp_upd. set (r1 := r <| isRxWindowFull := false |>).
  pose proof (ro_window _ _ _ _ Ho) as [Hsort Hwin].
  assert (Forall (fun k => n < k) held) as Hgt by (eapply Forall_impl; [exact Hwin|]; simpl; lia).
  eapply wp_mono.
  { apply (recv_inner_order n held acc r); [done|by destruct Hrx|by destruct Ho| |done|].
    - destruct Ho as [_ ? He _ [? ? ? _]]. constructor; [done..| |by constructor].
      by rewrite advance_gap.
    - eapply Forall_impl; [exact Hwin|]. simpl. lia. }
  intros _ [r' w'] (_&_&Hp). rewrite advance_gap, Z.sub_diag in Hp by done. exact Hp.
Qed.

Definition arrive (size : Z) (st : Z * list Z) (k : option Z) : Z * list Z :=
  match k with Some k => window_step size st k | None => st end.

Lemma run_event_order cbk ev k n held acc r w :
  sched_ok ch w -> channel_inv ch r -> 0 <= ch_mps ch < 65536 -> rx_order n held acc r ->
  arrives (crcInit r) ev k ->
  match k with Some k => n - MAX_BEHIND <= k < n + rx_size (rxWindow r) | None => True end ->
  wp (run_event ch cbk (Some cb) ev) (r, w) (fun _ '(r', w') =>
    let '(n', held') := arrive (rx_size (rxWindow r)) (n, held) k in
    let '(acc', ds) := reassemble acc (strm <$> seqZ n (n' - n)) in
    progress ds (rx_order n' held' acc' r') w w').
Proof.
  intros Hok Hinv Hmps Ho Harr Hk. pose proof Hinv as [Hrx (A&Ds&Htx)].
  assert (forall r' w', extends w w' -> delivered (trace w') = delivered (trace w) ->
    rx_core r' = rx_core r ->
    let '(acc', ds) := reassemble acc (strm <$> seqZ n (n - n)) in
    progress ds (rx_order n held acc' r') w w') as Hsame.
  { intros. rewrite Z.sub_diag. apply progress_here; [done..|]. by eapply rx_order_same. }
  assert (forall r' w', evolves ch r w r' w' ->
    let '(acc', ds) := reassemble acc (strm <$> seqZ n (n - n)) in
    progress ds (rx_order n held acc' r') w w') as Hev.
  { intros r' w' Hev. apply Hsame; [apply Hev..|apply rx_part_core, Hev]. }
  destruct Harr as [k f Hf|b f Hwf Hp|ev Hother]; cbn [run_event arrive].
  - apply wp_bind, wp_rel. cbn [id]. apply wp_bind.
    eapply wp_opt; [by eapply check_frame_accepts|]. unfold window_step.
    destruct (accepts (rx_size (rxWindow r)) n held k) eqn:Ea; [|by apply wp_ret, Hsame].
    apply andb_prop in Ea as [[?%Z.leb_le ?%Z.ltb_lt]%andb_prop Hnew%negb_true_iff%bool_decide_eq_false].
    apply wp_bind. eapply wp_mono; [by apply recv_frame_order|]. by intros ret [r' w'].
  - apply wp_bind, wp_rel. cbn [id].
    destruct (check_enhance_total r f b DTAP_FRAME_ACK Hwf Hp) as (ok&Hck&_).
    apply wp_bind. eapply wp_opt; [exact Hck|]. destruct ok; [|by apply wp_ret, Hsame].
    apply wp_bind, (recv_ack_order cbk b); [done..|]. intros ret r' w' Hx Hd Hp'.
    apply wp_ret, Hsame; [done..|by apply rx_part_core].
  - destruct ev as [pi0 buff|f|result| | |]; cbn [run_event event_ok] in *; [|done|..].
    + destruct Hother as (Hpi&Hwf&Hlen). apply wp_bind, (wp_send ch A Ds); try done; [apply Hrx|].
      intros ret r' w' Hevo _. by apply wp_ret, Hev.
    + rewrite Z.sub_diag. by apply status_order.
    + apply wp_bind, send_ack_safe; [done..|]. intros ret w' Hc. apply wp_ret, Hsame; [|by apply quiet_facts, Hc|done].
      apply quiet_extends, Hc.
    + apply reorder_expire_safe; [done..|]. intros r' w' Hk' _ Hc Hd. by apply Hsame; [apply Hk'|..].
    + apply (wp_retrans_timer ch A Ds); [done..|]. intros r' w' Hevo _. by apply Hev.
Qed.

Lemma reassemble_split acc n n1 n' acc1 ds1 acc' ds' :
  n <= n1 <= n' -> reassemble acc (strm <$> seqZ n (n1 - n)) = (acc1, ds1) ->
  reassemble acc1 (strm <$> seqZ n1 (n' - n1)) = (acc', ds') ->
  reassemble acc (strm <$> seqZ n (n' - n)) = (acc', ds1 ++ ds').
Proof.
  intros Hn H1 H2. replace (n' - n) with ((n1 - n) + (n' - n1)) by lia.
  rewrite seqZ_app, fmap_app, reassemble_app, H1 by lia. replace (n + (n1 - n)) with n1 by lia. by rewrite H2.
Qed.

(** The first event of a run, on the window. *)
Lemma arrive_step size n held k ks n' held' :
  0 < size -> window_ok size n held ->
  in_window size (n, held) (omap id (k :: ks)) ->
  window_run size (n, held) (omap id (k :: ks)) = (n', held') ->
  match k with Some k => n - MAX_BEHIND <= k < n + size | None => True end /\
  exists n1 held1, arrive size (n, held) k = (n1, held1) /\ window_ok size n1 held1 /\ n <= n1 <= n' /\
    in_window size (n1, held1) (omap id ks) /\ window_run size (n1, held1) (omap id ks) = (n', held').
Proof.
  intros Hsize Hok. destruct k as [k|]; cbn [omap list_omap id arrive]; intros Hin Hrun.
  2: { split; [done|]. exists n, held. pose proof (window_run_ok _ _ _ _ _ _ Hsize Hok Hin Hrun) as (_&?&_).
       split_and!; done || apply Hok. }
  destruct Hin as [Hk Hin]. split; [done|]. cbn [window_run fold_left] in Hrun.
  destruct (window_step size (n, held) k) as [n1 held1] eqn:Es. exists n1, held1.
  destruct (window_step_ok _ _ _ _ _ _ Hsize Hok Es) as (Hok1&Hn1&_).
  pose proof (window_run_ok _ _ _ _ _ _ Hsize Hok1 Hin Hrun) as (_&?&_). split_and!; done || apply Hok1.
Qed.

Lemma run_events_order cbk evs ks n held acc r w n' held' acc' ds :
  sched_ok ch w -> channel_inv ch r -> 0 <= ch_mps ch < 65536 -> rx_order n held acc r ->
  Forall2 (arrives (crcInit r)) evs ks ->
  in_window (rx_size (rxWindow r)) (n, held) (omap id ks) ->
  window_run (rx_size (rxWindow r)) (n, held) (omap id ks) = (n', held') ->
  reassemble acc (strm <$> seqZ n (n' - n)) = (acc', ds) ->
  wp (run_events ch cbk (Some cb) evs) (r, w) (fun _ '(r', w') =>
    progress ds (rx_order n' held' acc' r') w w').
Proof.
  intros Hok Hinv Hmps Ho Harr. remember (crcInit r) as crc eqn:Ecrc.
  remember (rx_size (rxWindow r)) as size eqn:Esize. revert n held acc r w ds Hok Hinv Ho Ecrc Esize.
  induction Harr as [|ev k evs ks Hev Hevs IH]; intros n held acc r w ds Hok Hinv Ho -> -> Hin Hrun Hre.
  { injection Hrun as <- <-. rewrite Z.sub_diag in Hre. injection Hre as <- <-.
    by apply wp_ret, progress_here. }
  pose proof (ro_size _ _ _ _ Ho) as Hsize.
  apply arrive_step in Hrun as (Hk&n1&held1&Ea&Hok1&Hn1&Hin1&Hrun1); try done; [|lia|by destruct Ho].
  destruct (reassemble acc (strm <$> seqZ n (n1 - n))) as [acc1 ds1] eqn:E1.
  destruct (reassemble acc1 (strm <$> seqZ n1 (n' - n1))) as [acc2 ds2] eqn:E2.
  rewrite (reassemble_split _ _ _ _ _ _ _ _ Hn1 E1 E2) in Hre. injection Hre as <- <-.
  assert (Forall event_ok evs) as Hevok.
  { clear -Hevs. induction Hevs; constructor; [by eapply arrives_ok|done]. }
  apply wp_bind. eapply wp_mono.
  { apply wp_conj; [by apply (run_event_order cbk ev k n held acc)|].
    apply (run_event_safe ch cbk (Some cb) ev r w (fun _ '(r', w') => keeps ch r w r' w' /\ channel_inv ch r'));
      [done..|by eapply arrives_ok|by auto]. }
  intros _ [r1 w1] [Hp [Hkeep Hinv1]]. rewrite Ea, E1 in Hp.
  pose proof (kp_conf _ _ _ _ _ Hkeep) as Hc. injection Hc as _ Hcrc _ _ _ _ Hsz.
  assert (wp (run_events ch cbk (Some cb) evs) (r1, w1) (fun _ '(r', w') => extends w1 w')) as Hx.
  { eapply wp_mono; [by apply run_events_safe; [apply Hkeep|..]|]. intros _ [r' w'] [[] _]. done. }
  destruct Hp as (t&Ht&[Hf|[Hd Ho1]]).
  { eapply wp_mono; [exact Hx|]. intros _ [r' w'] He. by eapply progress_fault. }
  eapply wp_mono; [apply wp_conj; [exact Hx|eapply (IH n1 held1 acc1 r1 w1 ds2)]|]; try done; [apply Hkeep|].
  intros _ [r' w'] [He Hp]. apply (progress_trans ds1 ds2 True _ w w1 w'); [|done|done].
  exists t. auto.
Qed.
End order.

(** ** SDUs *)

(** The fragments of one SDU, cut into [Ds]. *)
Definition sdu_fragments (Ds : list bytes) : list (Z * bytes) :=
  imap (fun i D => (DTAP_GetFragFrameSar (zlen Ds) (Z.of_nat i + 1), D)) Ds.

Lemma reassemble_rest n i whole Ds :
  2 <= i -> i + zlen Ds = n + 1 -> Ds <> [] ->
  zlen whole + zlen (concat Ds) <= DTAP_MAX_FRAG_TOTAL_LEN ->
  reassemble (Some whole) (imap (fun j D => (DTAP_GetFragFrameSar n (Z.of_nat j + i), D)) Ds)
  = (None, [whole ++ concat Ds]).
Proof.
  revert i whole. induction Ds as [|D Ds IH]; intros i whole Hi Hn Hne Hlen; [done|].
  simpl in Hlen. rewrite length_app in Hlen. simpl in Hn.
  rewrite imap_cons. cbn [reassemble reasm]. unfold DTAP_GetFragFrameSar at 1 2 3.
  change (Z.of_nat 0 + i) with i.
  destruct (Z.eqb_spec n 1); [lia|]. destruct (Z.eqb_spec i 1); [lia|].
  destruct (Z.ltb_spec DTAP_MAX_FRAG_TOTAL_LEN (zlen whole + zlen D)); [lia|].
  destruct (Z.ltb_spec i n).
  - cbn [Z.eqb Pos.eqb DTAP_SAR_MID DTAP_SAR_UNSEG DTAP_SAR_FIRST DTAP_SAR_LAST].
    rewrite (imap_ext _ (fun j D => (DTAP_GetFragFrameSar n (Z.of_nat j + (i + 1)), D))).
    2: { intros j E _. simpl. f_equal. f_equal. lia. }
    rewrite IH; [|lia|lia| |rewrite length_app; lia].
    + simpl. by rewrite app_assoc.
    + intros ->. simpl in *. lia.
  - assert (Ds = []) as -> by (destruct Ds; [done|simpl in *; lia]).
    cbn. by rewrite app_nil_r.
Qed.

Lemma reassemble_sdu acc Ds :
  Ds <> [] -> zlen (concat Ds) <= DTAP_MAX_FRAG_TOTAL_LEN ->
  exists acc', reassemble acc (sdu_fragments Ds) = (acc', [concat Ds]) /\ (acc = None -> acc' = None).
Proof.
  intros Hne Hlen. unfold sdu_fragments. destruct Ds as [|D Ds]; [done|]. rewrite imap_cons.
  cbn [reassemble reasm]. unfold DTAP_GetFragFrameSar at 1 2. change (Z.of_nat 0 + 1) with 1.
  simpl in Hlen. rewrite length_app in Hlen.
  destruct (Z.eqb_spec (zlen (D :: Ds)) 1) as [E|E]; simpl in E.
  - assert (Ds = []) as -> by (destruct Ds; [done|simpl in *; lia]). exists acc. cbn. by rewrite app_nil_r.
  - cbn [Z.eqb Pos.eqb DTAP_SAR_FIRST DTAP_SAR_UNSEG]. exists None. split; [|done].
    rewrite (imap_ext _ (fun j D' => (DTAP_GetFragFrameSar (zlen (D :: Ds)) (Z.of_nat j + 2), D'))).
    2: { intros j E' _. simpl. f_equal. f_equal. lia. }
    rewrite (reassemble_rest _ 2); [done|lia|simpl; lia| |lia]. intros ->. simpl in E. lia.
Qed.

Lemma reassemble_sdus sdus :
  Forall (fun Ds => Ds <> [] /\ zlen (concat Ds) <= DTAP_MAX_FRAG_TOTAL_LEN) sdus ->
  reassemble None (concat (sdu_fragments <$> sdus)) = (None, @concat Z <$> sdus).
Proof.
  induction 1 as [|Ds sdus [Hne Hlen] Hs IH]; [done|]. cbn [fmap list_fmap concat].
  rewrite reassemble_app. destruct (reassemble_sdu None Ds Hne Hlen) as (acc'&->&Hacc).
  rewrite Hacc by done. by rewrite IH.
Qed.

(** ** The sender's frames, at the receiver *)
Lemma stored_arrives strm crc tcid duplex p f D k b b' :
  is_u16 crc -> stored crc tcid duplex p f D -> txSeq f = seq14 k -> strm k = (sar f, D) ->
  f_buff f = Some b -> buff_wf b' -> buff_data b' = buff_data b ->
  exists g, DTAP_ParseFrame (frag_type duplex) b' frame0 = Some (DTAP_SUCCESS, g) /\ stream_frame strm crc k g.
Proof.
  intros Hcrc Hst Hseq Hk Hb Hwf Hsame.
  pose proof (st_buff _ _ _ _ _ _ Hst) as (b0&rfu&Hb0&Hrfu&_&Hd). rewrite Hb in Hb0. injection Hb0 as <-.
  rewrite <- Hsame in Hd. destruct (wire_received crc tcid duplex p f D rfu b') as (g&Hg&Hr&Ht&Hs&Hpi&_); [done..|].
  pose proof (st_len _ _ _ _ _ _ Hst) as Hlen. pose proof (length_buff_data b' Hwf) as Hl.
  assert (exists g', DTAP_ParseFrame (frag_type duplex) b' frame0 = Some (DTAP_SUCCESS, g') /\
    parsed_wf b' (frag_type duplex) g') as (g'&Hg'&Hp).
  { rewrite Hd in Hl. unfold with_crc, data_header in Hl. rewrite !length_app in Hl.
    destruct (parse_total b' (frag_type duplex)) as (ret&g'&Hg'&Hp); [done| |by destruct duplex|].
    - unfold DTAP_BASIC_HEADER_LEN, frag_hdr_len, DTAP_DUPLEX_FRAG_FRAME_HEADER_LEN,
        DTAP_SIMPLEX_FRAG_FRAME_HEADER_LEN, duplex_header, simplex_header in *.
      destruct duplex; simpl in *; lia.
    - rewrite Hg in Hg'. injection Hg' as <- <-. eauto. }
  rewrite Hg in Hg'. injection Hg' as <-. exists g. split; [done|].
  assert (frag_type duplex <> DTAP_FRAME_BASIC) as Hne by by destruct duplex.
  constructor; [|by exists b', (frag_type duplex)|].
  - constructor; [|congruence|rewrite Hk; simpl; congruence|by apply Hp|].
    + destruct (pw_ctx _ _ _ Hp) as (c&Hc&Hty). exists duplex. rewrite Hc. by destruct c, duplex.
    + rewrite Hk. by eapply received_rx.
  - intros b1 Hb1. rewrite (rcv_buff _ _ _ _ Hr) in Hb1. injection Hb1 as <-. apply Hr.
Qed.

(** ** Theorems *)
Section theorems.
Context {W : Type} `{Scheduler W}.
Context (ch : DTAP_Channel) (strm : stream) (cb : Z).

(** C13. Reliable delivery in order.  Let a peer's fragments arrive in any order, some
    of them repeatedly, each while its index is within the receive window or at most
    7936 behind it, mixed with acknowledgements, packets to send, timer expiries and
    status changes.  Unless an allocation failed or the upper layer refused an SDU, the
    channel has handed up exactly what reassembly makes of the fragments from [n] up to
    the first index [n'] that has not arrived: nothing is lost, repeated or reordered. *)
Theorem reliable_delivers_in_order cbk evs ks n held acc r (w : W) :
  sched_ok ch w -> channel_inv ch r -> 0 <= ch_mps ch < 65536 -> rx_order strm n held acc r ->
  Forall2 (arrives strm (crcInit r)) evs ks ->
  in_window (rx_size (rxWindow r)) (n, held) (omap id ks) ->
  wp (run_events ch cbk (Some cb) evs) (r, w) (fun _ '(r', w') => exists n' t,
    n <= n' /\ (forall j, n <= j < n' -> j ∈ held ++ omap id ks) /\ ~ (n' ∈ held ++ omap id ks) /\
    trace w' = trace w ++ t /\
    let '(acc', ds) := reassemble acc (strm <$> seqZ n (n' - n)) in
    faulty t \/ (delivered t = ds /\ exists held', rx_order strm n' held' acc' r')).
Proof.
  intros Hok Hinv Hmps Ho Harr Hin.
  destruct (window_run (rx_size (rxWindow r)) (n, held) (omap id ks)) as [n' held'] eqn:Erun.
  destruct (reassemble acc (strm <$> seqZ n (n' - n))) as [acc' ds] eqn:Ere.
  destruct (window_run_ok _ _ _ _ _ _ (proj1 (ro_size _ _ _ _ _ Ho)) (ro_window _ _ _ _ _ Ho) Hin Erun)
    as ([_ Hgt]&Hle&Hel).
  eapply wp_mono; [by eapply run_events_order|]. intros _ [r' w'] (t&Ht&Hp).
  exists n', t. split_and!; [done| | |done|].
  - intros j Hj. apply Hel; [lia|left; lia].
  - rewrite <- (Hel n' Hle). intros [?|Hin']; [lia|]. rewrite Forall_forall in Hgt.
    specialize (Hgt _ Hin'). lia.
  - rewrite Ere. destruct Hp as [?|[? ?]]; [by left|right; eauto].
Qed.

Lemma sdus_delivered cbk evs ks n sdus r (w : W) :
  sched_ok ch w -> channel_inv ch r -> 0 <= ch_mps ch < 65536 -> rx_order strm n [] None r ->
  Forall (fun Ds => Ds <> [] /\ zlen (concat Ds) <= DTAP_MAX_FRAG_TOTAL_LEN) sdus ->
  let frags := concat (sdu_fragments <$> sdus) in
  strm <$> seqZ n (zlen frags) = frags ->
  Forall2 (arrives strm (crcInit r)) evs ks -> in_window (rx_size (rxWindow r)) (n, []) (omap id ks) ->
  (forall j, n <= j < n + zlen frags -> Some j ∈ ks) ->
  wp (run_events ch cbk (Some cb) evs) (r, w) (fun _ '(_, w') => exists t,
    trace w' = trace w ++ t /\ (faulty t \/ ((@concat Z) <$> sdus) `prefix_of` delivered t)).
Proof.
  intros Hok Hinv Hmps Ho Hs frags Hstrm Harr Hin Hall.
  destruct (window_run (rx_size (rxWindow r)) (n, []) (omap id ks)) as [n' held'] eqn:Erun.
  destruct (window_run_ok _ _ _ _ _ _ (proj1 (ro_size _ _ _ _ _ Ho)) (ro_window _ _ _ _ _ Ho) Hin Erun)
    as ([_ Hgt]&Hle&Hel).
  assert (n + zlen frags <= n') as Hn'.
  { destruct (Z.le_gt_cases (n + zlen frags) n') as [|Hlt]; [done|exfalso].
    assert (n' < n' \/ n' ∈ held') as [?|Hin'] by (apply Hel; [done|]; apply list_elem_of_omap;
      exists (Some n'); split; [apply Hall; lia|done]); [lia|].
    rewrite Forall_forall in Hgt. specialize (Hgt _ Hin'). lia. }
  destruct (reassemble None (strm <$> seqZ (n + zlen frags) (n' - (n + zlen frags)))) as [acc' ds] eqn:E2.
  assert (reassemble None (strm <$> seqZ n (n + zlen frags - n)) = (None, @concat Z <$> sdus)) as E1.
  { replace (n + zlen frags - n) with (zlen frags) by lia. rewrite Hstrm. by apply reassemble_sdus. }
  eapply wp_mono.
  - eapply (run_events_order ch strm cb cbk evs ks n [] None); try done.
    apply (reassemble_split strm None n (n + zlen frags) n' None (@concat Z <$> sdus) acc' ds); [lia|done|done].
  - intros _ [r' w'] (t&Ht&Hp). exists t. split; [done|]. destruct Hp as [?|[-> _]]; [by left|right].
    by apply prefix_app_r.
Qed.

(** C15. Reliable delivery of SDUs.  When, on a channel that has nothing pending, the
    fragments of [sdus] are the peer's next fragments and every one of them arrives
    within the window, in whatever order and however often, then the upper layer gets
    these SDUs, whole and in order, before anything else. *)
Theorem reliable_delivers_sdus cbk evs ks n sdus r (w : W) :
  sched_ok ch w -> channel_inv ch r -> 0 <= ch_mps ch < 65536 -> rx_order strm n [] None r ->
  Forall (fun Ds => Ds <> [] /\ zlen (concat Ds) <= DTAP_MAX_FRAG_TOTAL_LEN) sdus ->
  let frags := concat (sdu_fragments <$> sdus) in
  strm <$> seqZ n (zlen frags) = frags ->
  Forall2 (arrives strm (crcInit r)) evs ks -> in_window (rx_size (rxWindow r)) (n, []) (omap id ks) ->
  (forall j, n <= j < n + zlen frags -> Some j ∈ ks) ->
  wp (run_events ch cbk (Some cb) evs) (r, w) (fun _ '(_, w') => exists t,
    trace w' = trace w ++ t /\ (faulty t \/ ((@concat Z) <$> sdus) `prefix_of` delivered t)).
Proof. apply sdus_delivered. Qed.
End theorems.
