(* ===== verification/DtapReliableProps.v ===== *)
(** * Reliable transmission: the sender's operations, and concrete runs

    The specifications of the sender's operations as theorems over the invariant of
    [DtapReliableTx], and the closed instances of the theorems of the three files
    on reliable transmission. *)
From S2P Require Import Prelude Utils SdfErrno SdfBuff DtapEnv DtapFrame.
From S2P Require Import DtapFragment DtapTrans DtapReliable DtapReliableTx DtapReliableRx DtapReliableOrder.

(** ** Numbers *)

(** Sequence numbers.  The 14-bit comparison of the code is the comparison of
    the unbounded indices whenever these are less than half the range apart, the
    successor wraps from 16383 to 0, and exactly half the range apart each number
    precedes the other. *)
Theorem frame_seq_order a b :
  (-8192 < b - a < 8192 -> DTAP_IsFrameSeqSmaller (seq14 a) (seq14 b) = (a <? b)) /\
  DTAP_GetNextFrameSeq (seq14 a) = seq14 (a + 1) /\
  (b - a = 8192 -> DTAP_IsFrameSeqSmaller (seq14 a) (seq14 b) = true /\
                   DTAP_IsFrameSeqSmaller (seq14 b) (seq14 a) = true).
Proof.
  split; [apply smaller_near|]. split; [apply next_seq14|]. intros Hab. rewrite !smaller_spec.
  replace (a - b) with (- 8192) by lia. by replace (b - a) with 8192 by lia.
Qed.

(** The retransmission time-out doubles with every transmission of a frame, fifteen
    times at most, and saturates at 65535: neither the shift nor its 16-bit result
    overflows. *)
Theorem retrans_timeout_doubles base count :
  is_u16 base -> is_u8 count ->
  DTAP_CalculateRetransTimeout base count = Z.min 65535 (base * 2 ^ Z.min count 15).
Proof.
  intros Hb Hc. unfold is_u16, is_u8 in *. unfold DTAP_CalculateRetransTimeout, MAX_BASE_RETRANS_TIMEOUT, UINT16_MAX.
  destruct (Z.eqb_spec count 0) as [->|Hne]; [change (2 ^ Z.min 0 15) with 1; lia|].
  assert ((if 15 <? count then 15 else count) = Z.min count 15) as -> by (destruct (Z.ltb_spec 15 count); lia).
  set (c := Z.min count 15). assert (0 <= c <= 15) as Hcr by lia.
  rewrite Z.shiftr_div_pow2, Z.shiftl_mul_pow2 by lia.
  assert (1 <= 2 ^ c) as Hp by (pose proof (Z.pow_pos_nonneg 2 c); lia).
  destruct (Z.ltb_spec (65535 / 2 ^ c) base) as [Hlt|Hge].
  - assert (65535 < base * 2 ^ c); [|lia]. pose proof (Z.mul_succ_div_gt 65535 (2 ^ c)). nia.
  - assert (base * 2 ^ c <= 65535) by (pose proof (Z.mul_div_le 65535 (2 ^ c)); nia).
    rewrite u16_small; [lia|]. split; [nia|lia].
Qed.

(** ** The sender *)
Section sender.
Context {W : Type} `{Scheduler W}.
Context (ch : DTAP_Channel).

(** C17. Sending a packet: the outcomes are those of [send_outcome], the window gains the
    frames of the packet, with the segmentation states of [sar_labels], or nothing, and neither the receive side nor the upper layer
    sees anything of it. *)
Theorem send_frame_spec A Ds pi0 b r w :
  sched_ok ch w -> tx_inv (ch_dstTcid ch) A Ds r -> rx_seqs_ok r -> is_u8 pi0 ->
  buff_wf b -> 0 < dataLen b < 65536 -> 0 <= ch_mps ch < 65536 ->
  wp (DTAP_SendEnhanceFrame ch pi0 b) (r, w) (fun ret '(r', w') =>
    send_outcome ch A Ds b r r' ret /\ rx_part r' = rx_part r /\
    delivered (trace w') = delivered (trace w) /\ sched_ok ch w').
Proof.
  intros. apply (wp_send ch A Ds); try done. intros ret r' w' [] Hout. by split_and!.
Qed.

(** C36. An acknowledgement releases exactly the outstanding frames it covers: those whose
    distance from the oldest is below the acknowledged number's, and none when the number
    lies outside what is outstanding. *)
Theorem ack_releases_prefix A Ds f ty s r w :
  sched_ok ch w -> tx_inv (ch_dstTcid ch) A Ds r -> frame_type f = Some ty ->
  s = (if ty =? DTAP_FRAME_ACK then ack_reqSeq f else reqSeq f) -> ack_number s ->
  wp (DTAP_SlideTxWindow f) (r, w) (fun _ '(r', w') =>
    let k := ack_count A (zlen Ds) s in
    tx_inv (ch_dstTcid ch) (A + k) (drop (Z.to_nat k) Ds) r' /\ cached r' = cached r /\
    rx_part r' = rx_part r /\ sched_ok ch w').
Proof.
  intros. apply (wp_slide_tx ch A Ds f ty s); try done. intros r' w' [] Hc Hinv. by split_and!.
Qed.

(** C37. Retransmission.  When the window holds the frame with the asked-for number and it
    has been sent fewer than [maxTxThreshold] times, the frame gets the P bit, its number
    and payload stay, and a copy of its buffer, if there is memory for one, is given to
    the scheduler; the frame's count grows by one exactly when the scheduler takes it,
    and its refusal or the failed copy is the status answered.  A frame that has been
    sent [maxTxThreshold] times is not sent: instead the release of the channel is
    requested of the connection manager, unless it has been before or the manager does
    not know the channel.  The sender's numbers and flags and the receiver's part stay. *)
Theorem retransmission_spec A Ds r w :
  sched_ok ch w -> tx_inv (ch_dstTcid ch) A Ds r ->
  wp (DTAP_RetransEnhanceFrame ch) (r, w) (fun ret '(r', w') =>
    retransmitted ch r w r' w' ret /\ tx_inv (ch_dstTcid ch) A Ds r' /\ tx_flags r' = tx_flags r /\
    rx_part r' = rx_part r).
Proof.
  intros. apply (wp_retrans ch A Ds); try done. intros ret r' w' [] Hinv Hf Hr. by split_and!.
Qed.

(** The packet that waits for room.  When the channel tells that its status has
    changed and a packet waits, either the window would still be full with it and nothing
    happens, or the packet is sent as any other, with the outcomes of [send_outcome], and
    waits no longer, whatever the outcome. *)
Theorem waiting_packet_sent A Ds cbk result b r (w : W) :
  sched_ok ch w -> tx_inv (ch_dstTcid ch) A Ds r -> rx_seqs_ok r -> 0 <= ch_mps ch < 65536 ->
  ch_mode ch = CM_TRANS_MODE_RELIABLE -> isTxWindowFull r = true -> cacheBuff r = Some b ->
  0 < payload_room ch r ->
  wp (DTAP_TransChannelStatusChange ch cbk result) (r, w) (fun _ '(r', w') =>
    delivered (trace w') = delivered (trace w) /\
    if tx_size (txWindow r) <=? zlen Ds + frames_needed ch r b then r' = r
    else exists ret r1, send_outcome ch A Ds b (r <| isTxWindowFull := false |>) r1 ret /\
      r' = r1 <| cacheBuff := None |>).
Proof.
  intros Hok Hinv Hrx Hmps Hmode Hfull Hb Hroom. unfold DTAP_TransChannelStatusChange.
  rewrite Hmode. cbn [Z.eqb Pos.eqb CM_TRANS_MODE_RELIABLE negb]. apply wp_bind, wp_rel. cbn [id].
  rewrite Hfull, Hb. cbn [negb]. unfold DTAP_TransSendCacheBuff. rewrite Hmode.
  change (DTAP_GetTransMode CM_TRANS_MODE_RELIABLE) with (Some ReliableMode). cbv iota.
  pose proof (ti_cache _ _ _ _ Hinv) as Hck. unfold cache_ok in Hck. rewrite Hb in Hck.
  destruct Hck as (Hwf&Hlen&Hpi). apply wp_bind, wp_rel, wp_bind. cbn [id]. rewrite Hb.
  eapply wp_opt; [done|]. rewrite (tx_inv_len _ _ _ _ Hinv).
  assert (u16 (ch_mps ch - frag_header_len r - DTAP_CRC_LEN) = payload_room ch r) as ->.
  { unfold payload_room, frag_header_len, DTAP_CRC_LEN in *. apply u16_small.
    destruct (isRecvFrame r); unfold DTAP_DUPLEX_FRAG_FRAME_HEADER_LEN, DTAP_SIMPLEX_FRAG_FRAME_HEADER_LEN in *; cint. }
  unfold SDF_DataLenGet. fold (frames_needed ch r b). destruct (_ <=? _); [by apply wp_ret|].
  apply wp_bind, wp_upd, wp_bind, (wp_send ch A Ds); try done.
  { apply (tx_inv_same _ A Ds r); try done. by destruct Hinv. }
  intros ret r2 w2 [Hok2 _ Hd2 _ _ _] Hout. apply wp_bind, wp_upd.
  apply (wp_status_change ch); [done|]. intros w3 Hc3. split.
  - destruct (quiet_facts _ _ (proj2 Hc3)) as [-> _]. done.
  - by exists ret, r2.
Qed.
End sender.

(** ** Closed instances *)

Definition demo_channel : DTAP_Channel :=
  mk_channel 1 DTAP_PRIORITY_NORMAL 0 3 0x21 0x80 CM_TRANS_MODE_RELIABLE 1000 200 DTAP_FRAME_UNICAST.

Definition demo_reliable : DTAP_ReliableChannel :=
  mk_reliable 10000 0xFFFF 1000 1000 3 INVALID_TIMER_HANDLE INVALID_TIMER_HANDLE INVALID_TIMER_HANDLE
    false false 0 (mk_tx 8 0 0 []) 0 (mk_rx 8 0 0 0 []) None 0 None 0 false false.

Lemma demo_tx_inv : tx_inv 0x80 0 [] demo_reliable.
Proof. constructor; closed_fact. Qed.

Lemma demo_channel_inv : channel_inv demo_channel demo_reliable.
Proof.
  split; [constructor; closed_fact|]. exists 0, []. apply demo_tx_inv.
Qed.

(** The packet [1; 2; 3], cut into two fragments that the peer numbers 0 and 1. *)
Definition demo_fragment (k s : Z) (D : bytes) : DTAP_Frame :=
  frame0 <| f_buff := Some (mk_buff 14 (zlen D) (16 + zlen D) (replicate 14 0 ++ D ++ [0; 0])) |>
         <| pi := 3 |> <| txSeq := k |> <| sar := s |>.
Definition demo_arrival (k s : Z) (D : bytes) : option DTAP_Frame :=
  '(_, f) ← DTAP_BuildSimplexFragFrame (demo_fragment k s D) 0x21 0xFFFF;
  b ← f_buff f;
  '(_, g) ← DTAP_ParseFrame DTAP_FRAME_SIMPLEX_FRAG b frame0;
  Some g.
Definition demo_g0 : DTAP_Frame := Eval vm_compute in default frame0 (demo_arrival 0 DTAP_SAR_FIRST [1; 2]).
Definition demo_g1 : DTAP_Frame := Eval vm_compute in default frame0 (demo_arrival 1 DTAP_SAR_LAST [3]).
Definition demo_stream : stream := fun k =>
  if k =? 0 then (DTAP_SAR_FIRST, [1; 2]) else if k =? 1 then (DTAP_SAR_LAST, [3])
  else (DTAP_SAR_UNSEG, [Z.abs k]).

(** Closes [stream_frame] for a closed frame with a payload of [n] bytes. *)
Ltac arrival_fact g n :=
  let b := eval vm_compute in (default (mk_buff 0 0 0 []) (f_buff g)) in
  let H := eval vm_compute in (take 7 (buff_data b)) in
  let C := eval vm_compute in (drop (7 + n) (buff_data b)) in
  constructor;
  [ constructor; [by exists false|closed_fact..|];
    constructor; [closed_fact..|]; exists b, H, C;
    split; [reflexivity|split; [constructor; closed_fact|by split_and!]]
  | exists b, DTAP_FRAME_SIMPLEX_FRAG; split; [constructor; closed_fact|];
    constructor; [by split|eexists; by split|closed_fact..|intros [?|?]; done|done]
  | by intros ? [= <-] ].

Lemma demo_arrives0 : stream_frame demo_stream 0xFFFF 0 demo_g0.
Proof. arrival_fact demo_g0 2%nat. Qed.
Lemma demo_arrives1 : stream_frame demo_stream 0xFFFF 1 demo_g1.
Proof. arrival_fact demo_g1 1%nat. Qed.

(** Fragment 1 overtakes fragment 0, which arrives twice; a timer expires between. *)
Definition demo_events : list reliable_event :=
  [EvRecv demo_g1; EvRsp; EvRecv demo_g0; EvRecv demo_g0].

Lemma demo_events_ok : Forall event_ok demo_events.
Proof.
  repeat apply Forall_cons_2; [apply demo_arrives1|done|apply demo_arrives0|apply demo_arrives0|done].
Qed.

Lemma demo_events_arrive :
  Forall2 (arrives demo_stream 0xFFFF) demo_events [Some 1; None; Some 0; Some 0].
Proof.
  repeat constructor; first [apply demo_arrives1 | apply demo_arrives0].
Qed.

Lemma demo_rx_order : rx_order demo_stream 0 [] None demo_reliable.
Proof. constructor; first [closed_fact | by constructor | split; by constructor]. Qed.

Lemma reliable_channel_safe_witness :
  wp (run_events demo_channel false (Some 77) demo_events) (demo_reliable, world0)
    (fun _ '(r', w') => sched_ok demo_channel w' /\ channel_inv demo_channel r').
Proof.
  refine (reliable_channel_safe demo_channel false (Some 77) demo_events demo_reliable world0 _ _ _ _);
    [done|apply demo_channel_inv|closed_fact|apply demo_events_ok].
Defined.

Lemma release_requested_once_witness :
  wp (run_events demo_channel false (Some 77) demo_events) (demo_reliable, world0) (fun _ '(_, w') =>
    zlen (releases (trace w')) <= zlen (releases (trace world0)) + 1).
Proof.
  refine (release_requested_once demo_channel false (Some 77) demo_events demo_reliable world0 _ _ _ _);
    [done|apply demo_channel_inv|closed_fact|apply demo_events_ok].
Defined.

Lemma reliable_delivers_in_order_witness :
  wp (run_events demo_channel false (Some 77) demo_events) (demo_reliable, world0) (fun _ '(r', w') =>
    exists n' t,
      0 <= n' /\ (forall j, 0 <= j < n' -> j ∈ [] ++ [1; 0; 0]) /\ ~ (n' ∈ [] ++ [1; 0; 0]) /\
      trace w' = trace world0 ++ t /\
      let '(acc', ds) := reassemble None (demo_stream <$> seqZ 0 (n' - 0)) in
      faulty t \/ (delivered t = ds /\ exists held', rx_order demo_stream n' held' acc' r')).
Proof.
  refine (reliable_delivers_in_order demo_channel demo_stream 77 false demo_events
    [Some 1; None; Some 0; Some 0] 0 [] None demo_reliable world0 _ _ _ _ _ _);
    [done|apply demo_channel_inv|closed_fact|apply demo_rx_order|apply demo_events_arrive|].
  vm_compute. by repeat split.
Defined.

Lemma reliable_delivers_sdus_witness :
  wp (run_events demo_channel false (Some 77) demo_events) (demo_reliable, world0) (fun _ '(_, w') =>
    exists t, trace w' = trace world0 ++ t /\ (faulty t \/ [[1; 2; 3]] `prefix_of` delivered t)).
Proof.
  refine (reliable_delivers_sdus demo_channel demo_stream 77 false demo_events
    [Some 1; None; Some 0; Some 0] 0 [[[1; 2]; [3]]] demo_reliable world0 _ _ _ _ _ _ _ _ _);
    [done|apply demo_channel_inv|closed_fact|apply demo_rx_order| | |apply demo_events_arrive| |].
  - by repeat constructor.
  - reflexivity.
  - vm_compute. by repeat split.
  - intros j Hj. change (0 <= j < 2) in Hj. assert (j = 0 \/ j = 1) as [-> | ->] by lia;
      rewrite !elem_of_cons; auto.
Defined.

(** The same run, executed: the packet is handed up once. *)
Lemma demo_run_delivers :
  omap (fun '(_, (_, w)) => Some (delivered (past w)))
    (option_list (run_events demo_channel false (Some 77) demo_events (demo_reliable, world0)))
  = [[[1; 2; 3]]].
Proof. vm_compute. reflexivity. Qed.

(** A sent frame. *)
Definition demo_sent : DTAP_Frame :=
  Eval vm_compute in
    match DTAP_BuildSimplexFragFrame (demo_fragment 0 DTAP_SAR_FIRST [1; 2]) 0x80 0xFFFF with
    | Some (_, f) => f <| ctx := Some SimplexFragCtx |>
    | None => frame0
    end.

Lemma demo_stored : stored 0xFFFF 0x80 false false demo_sent [1; 2].
Proof.
  constructor; try closed_fact.
  let b := eval vm_compute in (default (mk_buff 0 0 0 []) (f_buff demo_sent)) in exists b, 0.
  split; [reflexivity|]. split; [lia|]. split; [|reflexivity].
  split; [constructor; closed_fact|by split].
Qed.

(** The channel with that frame outstanding. *)
Definition demo_outstanding : DTAP_ReliableChannel :=
  set_tx (fun w => w <| txList := [demo_sent] |> <| nextTxSeq := 1 |>) demo_reliable.

Lemma demo_outstanding_inv : tx_inv 0x80 0 [[1; 2]] demo_outstanding.
Proof.
  constructor; try closed_fact.
  - repeat constructor; [closed_fact..|]. exists false, false. apply demo_stored.
  - intros [|i] f; cbn; [by intros [= <-]|done].
Qed.

Definition demo_packet : SDF_Buff := mk_buff 14 3 19 (replicate 14 0 ++ [7; 8; 9] ++ [0; 0]).
Lemma demo_packet_wf : buff_wf demo_packet.
Proof. constructor; closed_fact. Qed.

Lemma frame_seq_order_witness :
  (16383 + 1 - 16383 < 8192) /\ DTAP_IsFrameSeqSmaller (seq14 16383) (seq14 16384) = true.
Proof.
  split; [done|]. pose proof (proj1 (frame_seq_order 16383 16384) ltac:(lia)) as E. exact E.
Defined.

Lemma retrans_timeout_doubles_witness : DTAP_CalculateRetransTimeout 1000 3 = 8000.
Proof. refine (retrans_timeout_doubles 1000 3 _ _); closed_fact. Defined.

Lemma send_frame_spec_witness :
  wp (DTAP_SendEnhanceFrame demo_channel 3 demo_packet) (demo_outstanding, world0) (fun ret '(r', w') =>
    send_outcome demo_channel 0 [[1; 2]] demo_packet demo_outstanding r' ret /\
    rx_part r' = rx_part demo_outstanding /\ delivered (trace w') = delivered (trace world0) /\
    sched_ok demo_channel w').
Proof.
  refine (send_frame_spec demo_channel 0 [[1; 2]] 3 demo_packet demo_outstanding world0 _ _ _ _ _ _ _);
    [done|apply demo_outstanding_inv|closed_fact|closed_fact|apply demo_packet_wf|closed_fact|closed_fact].
Defined.

Definition demo_ack : DTAP_Frame :=
  frame0 <| ctx := Some AckCtx |> <| ack_reqSeq := 1 |>.

Lemma ack_releases_prefix_witness :
  wp (DTAP_SlideTxWindow demo_ack) (demo_outstanding, world0) (fun _ '(r', w') =>
    tx_inv 0x80 1 [] r' /\ cached r' = cached demo_outstanding /\
    rx_part r' = rx_part demo_outstanding /\ sched_ok demo_channel w').
Proof.
  refine (ack_releases_prefix demo_channel 0 [[1; 2]] demo_ack DTAP_FRAME_ACK 1 demo_outstanding world0
    _ _ _ _ _); [done|apply demo_outstanding_inv|closed_fact..|left; closed_fact].
Defined.

Lemma retransmission_spec_witness :
  wp (DTAP_RetransEnhanceFrame demo_channel) (demo_outstanding, world0) (fun ret '(r', w') =>
    retransmitted demo_channel demo_outstanding world0 r' w' ret /\ tx_inv 0x80 0 [[1; 2]] r' /\
    tx_flags r' = tx_flags demo_outstanding /\ rx_part r' = rx_part demo_outstanding).
Proof.
  refine (retransmission_spec demo_channel 0 [[1; 2]] demo_outstanding world0 _ _);
    [done|apply demo_outstanding_inv].
Defined.

Definition demo_waiting : DTAP_ReliableChannel :=
  demo_reliable <| isTxWindowFull := true |> <| cacheBuff := Some demo_packet |> <| cachePi := 3 |>.

Lemma waiting_packet_sent_witness :
  wp (DTAP_TransChannelStatusChange demo_channel true DTAP_SUCCESS) (demo_waiting, world0)
    (fun _ '(r', w') =>
      delivered (trace w') = delivered (trace world0) /\
      exists ret r1, send_outcome demo_channel 0 [] demo_packet (demo_waiting <| isTxWindowFull := false |>) r1 ret /\
        r' = r1 <| cacheBuff := None |>).
Proof.
  refine (waiting_packet_sent demo_channel 0 [] true DTAP_SUCCESS demo_packet demo_waiting world0
    _ _ _ _ _ _ _ _); [done| |closed_fact..].
  destruct demo_tx_inv. constructor; try done. split; [apply demo_packet_wf|closed_fact].
Defined.
