(* ===== verification/DtapReliableEnd.v ===== *)
(** * Reliable transmission: from the sender to the receiver

    The frames that sending a packet puts into the window of one channel, received in any
    order and any number of times by the channel of the peer, hand up this packet:
    [DtapReliableTx] on one side and [DtapReliableOrder] on the other, joined by what the
    parser makes of the bytes of a frame. *)
From Stdlib Require Import Sorted.
From S2P Require Import Prelude Utils SdfErrno SdfBuff DtapEnv DtapFrame.
From S2P Require Import DtapFragment DtapTrans DtapReliable DtapReliableTx DtapReliableRx DtapReliableOrder DtapReliableProps.

(** ** The segmentation states, both ways *)
Lemma sar_labels_fragments Ds : Ds <> [] -> sdu_fragments Ds = zip (sar_labels (length Ds)) Ds.
Proof.
  intros Hne. set (fs := imap (fun i (_ : bytes) => frame0 <| sar := DTAP_GetFragFrameSar (zlen Ds) (Z.of_nat i + 1) |>) Ds).
  assert (length fs = length Ds) as Hl by (unfold fs; by rewrite length_imap).
  rewrite <- Hl, <- (labelled_sar fs).
  - apply list_eq. intros i. unfold sdu_fragments, fs. change (map sar) with (fmap (M := list) sar).
    rewrite lookup_zip_with, list_lookup_fmap, !list_lookup_imap. by destruct (Ds !! i).
  - intros E. apply (f_equal length) in E. rewrite Hl in E. by destruct Ds.
  - intros i f Hf. unfold fs in Hf. rewrite list_lookup_imap in Hf. destruct (Ds !! i); [|done]. injection Hf as <-.
    rewrite Hl. cbn. f_equal. lia.
Qed.

(** ** The window takes any order of at most its size *)
Lemma advance_bound n held M : Forall (fun k => k < M) held -> n <= M -> (advance n held).1 <= M.
Proof.
  revert n. induction held as [|k held IH]; intros n Hh Hn; cbn [advance]; [done|]. apply Forall_cons in Hh as [Hk Hh].
  destruct (Z.eqb_spec k n); [apply IH; [done|lia]|done].
Qed.

Lemma in_window_within size n M st ks :
  M - n <= size -> M - n <= MAX_BEHIND -> 0 < size -> n <= st.1 <= M -> window_ok size st.1 st.2 ->
  Forall (fun k => k < M) st.2 -> Forall (fun k => n <= k < M) ks -> in_window size st ks.
Proof.
  intros Hs Hb Hpos. revert st. induction ks as [|k ks IH]; intros [m held] Hm Hw Hh Hks; cbn [in_window fst snd] in *; [done|].
  apply Forall_cons in Hks as [Hk Hks]. split; [lia|].
  destruct (window_step size (m, held) k) as [m' held'] eqn:E.
  destruct (window_step_ok _ _ _ _ _ _ Hpos Hw E) as (Hw'&Hle&Hiff). apply IH; cbn [fst snd]; try done.
  - split; [lia|]. unfold window_step in E. destruct (accepts size m held k); [|injection E as <- <-; lia].
    pose proof (advance_bound m (insert_index k held) M) as Hbd. rewrite E in Hbd. apply Hbd; [|lia].
    apply Forall_insert_index; [lia|done].
  - rewrite Forall_forall in Hh |- *. intros j Hj. destruct Hw' as [_ Hgt]. rewrite Forall_forall in Hgt.
    pose proof (Hgt j Hj). destruct (proj1 (Hiff j ltac:(lia)) (or_intror Hj)) as [Hj'|[-> _]]; [by apply Hh|lia].
Qed.

(** ** What the peer gets *)

(** The receiver waits for the number [n], with nothing held. *)
Definition rx_idle (n : Z) (r : DTAP_ReliableChannel) : Prop :=
  isRxWindowFull r = false /\ 0 < rx_size (rxWindow r) < 256 /\ expectedTxSeq (rxWindow r) = seq14 n /\
  bufferSeq (rxWindow r) = seq14 n /\ rxList (rxWindow r) = [] /\ frags r = None.

Lemma rx_idle_order strm n r : rx_idle n r -> rx_order strm n [] None r.
Proof.
  intros (H1&H2&H3&H4&H5&H6). constructor; try done; [split; constructor|]. constructor; try done. by rewrite H5.
Qed.

(** An event of the receiver: one of the frames [fs] of the sender, parsed from any
    buffer that holds its bytes, or something that is no frame. *)
Inductive brings (fs : list DTAP_Frame) : reliable_event -> option nat -> Prop :=
| brings_frame i f b b' ty g :
    fs !! i = Some f -> f_buff f = Some b -> frame_type f = Some ty ->
    buff_wf b' -> buff_data b' = buff_data b ->
    DTAP_ParseFrame ty b' frame0 = Some (DTAP_SUCCESS, g) -> brings fs (EvRecv g) (Some i)
| brings_other ev : match ev with EvRecv _ => False | _ => event_ok ev end -> brings fs ev None.

(** The stream of which the packet's fragments are the part from [n] on. *)
Definition stream_of (n : Z) (xs : list (Z * bytes)) : stream := fun k => default (0, []) (xs !! Z.to_nat (k - n)).

Lemma stream_of_part n xs : stream_of n xs <$> seqZ n (zlen xs) = xs.
Proof.
  apply list_eq. intros i. rewrite list_lookup_fmap. destruct (decide (i < length xs)%nat) as [Hi|Hi].
  - rewrite (proj2 (lookup_seqZ n (zlen xs) i (n + Z.of_nat i))) by lia. cbn. unfold stream_of.
    replace (Z.to_nat (n + Z.of_nat i - n)) with i by lia. destruct (lookup_lt_is_Some_2 xs i Hi) as [x ->]. done.
  - rewrite lookup_seqZ_ge by lia. cbn. by rewrite lookup_ge_None_2 by lia.
Qed.

Section ends.
Context {W1 W2 : Type} `{Scheduler W1} `{Scheduler W2}.
Context (ch1 ch2 : DTAP_Channel) (cb : Z).

(** The new frames of the window, after a packet was sent. *)
Definition new_frames (r r' : DTAP_ReliableChannel) : list DTAP_Frame :=
  drop (length (txList (txWindow r))) (txList (txWindow r')).

(** Each new frame arrives as its fragment of the packet. *)
Lemma brings_arrives A Ds Ds' r r' ev i :
  tx_inv (ch_dstTcid ch1) A Ds r -> tx_inv (ch_dstTcid ch1) A (Ds ++ Ds') r' -> crcInit r' = crcInit r ->
  sars r' = sars r ++ sar_labels (length Ds') -> Ds' <> [] ->
  brings (new_frames r r') ev i ->
  arrives (stream_of (A + zlen Ds) (sdu_fragments Ds')) (crcInit r) ev ((fun i => A + zlen Ds + Z.of_nat i) <$> i) /\
  match i with Some i => (i < length Ds')%nat | None => True end.
Proof.
  intros Hr Hr' Hcrc Hsars Hne Hb. pose proof (Forall2_length _ _ _ (ti_frames _ _ _ _ Hr)) as Hlen.
  pose proof (tx_inv_len _ _ _ _ Hr) as Hz. destruct Hb as [i f b b' ty g Hf Hb Hty Hwf Hd Hg|ev Hev]; [|by split; [constructor|]].
  unfold new_frames in Hf. rewrite lookup_drop in Hf. destruct Hr' as [Hc _ _ _ _ _ Hfs Hseq _].
  destruct (Forall2_lookup_l _ _ _ _ _ Hfs Hf) as (D&HD&_&duplex&p&Hst).
  rewrite lookup_app_r, Hlen in HD by lia. replace (length Ds + i - length Ds)%nat with i in HD by lia.
  pose proof (lookup_lt_Some _ _ _ HD) as Hi. split; [|done]. cbn [fmap option_fmap option_map]. constructor.
  rewrite Hcrc in Hst, Hc. unfold frame_type in Hty. rewrite (st_ctx _ _ _ _ _ _ Hst) in Hty. cbn in Hty.
  assert (ty = frag_type duplex) as -> by (by destruct duplex; injection Hty as <-).
  destruct (stored_arrives (stream_of (A + zlen Ds) (sdu_fragments Ds')) (crcInit r) (ch_dstTcid ch1) duplex p f D
    (A + zlen Ds + Z.of_nat i) b b') as (g'&Hg'&Hs'); try done.
  - rewrite (Hseq _ _ Hf). f_equal. lia.
  - unfold stream_of. replace (Z.to_nat (A + zlen Ds + Z.of_nat i - (A + zlen Ds))) with i by lia.
    rewrite sar_labels_fragments by done.
    assert (sar_labels (length Ds') !! i = Some (sar f)) as Hsar.
    { pose proof (f_equal (fun l => l !! (length (sars r) + i)%nat) Hsars) as E. cbn beta in E.
      rewrite lookup_app_r in E by lia. replace (length (sars r) + i - length (sars r))%nat with i in E by lia. rewrite <- E.
      unfold sars. change (map sar) with (fmap (M := list) sar). by rewrite length_fmap, list_lookup_fmap, Hf. }
    by rewrite lookup_zip_with, Hsar, HD.
  - rewrite Hg in Hg'. by injection Hg' as <-.
Qed.

End ends.

(** ** A packet of two fragments

    The first fragment arrives last, and the second one twice. *)
Definition end_channel : DTAP_Channel :=
  mk_channel 1 DTAP_PRIORITY_NORMAL 0 3 0x21 0x80 CM_TRANS_MODE_RELIABLE 1000 11 DTAP_FRAME_UNICAST.
Definition end_sent : DTAP_ReliableChannel :=
  Eval vm_compute in
    match DTAP_SendEnhanceFrame end_channel 3 demo_packet (demo_reliable, world0) with
    | Some (_, (r, _)) => r
    | None => demo_reliable
    end.
Definition end_world : script :=
  Eval vm_compute in
    match DTAP_SendEnhanceFrame end_channel 3 demo_packet (demo_reliable, world0) with
    | Some (_, (_, w)) => w
    | None => world0
    end.
Lemma end_run : DTAP_SendEnhanceFrame end_channel 3 demo_packet (demo_reliable, world0) = Some (DTAP_SUCCESS, (end_sent, end_world)).
Proof. vm_compute. reflexivity. Qed.
Definition end_arrival (i : nat) : option DTAP_Frame :=
  f ← new_frames demo_reliable end_sent !! i; b ← f_buff f;
  '(_, g) ← DTAP_ParseFrame DTAP_FRAME_SIMPLEX_FRAG b frame0; Some g.
Definition end_g0 : DTAP_Frame := Eval vm_compute in default frame0 (end_arrival 0).
Definition end_g1 : DTAP_Frame := Eval vm_compute in default frame0 (end_arrival 1).
Definition end_events : list reliable_event := [EvRecv end_g1; EvRecv end_g1; EvRsp; EvRecv end_g0].

Lemma end_brings0 : brings (new_frames demo_reliable end_sent) (EvRecv end_g0) (Some 0%nat).
Proof.
  eapply (brings_frame _ 0%nat); [vm_compute; reflexivity|reflexivity|reflexivity| |reflexivity|vm_compute; reflexivity].
  constructor; closed_fact.
Qed.
Lemma end_brings1 : brings (new_frames demo_reliable end_sent) (EvRecv end_g1) (Some 1%nat).
Proof.
  eapply (brings_frame _ 1%nat); [vm_compute; reflexivity|reflexivity|reflexivity| |reflexivity|vm_compute; reflexivity].
  constructor; closed_fact.
Qed.

Lemma end_brings_all :
  Forall2 (brings (new_frames demo_reliable end_sent)) end_events [Some 1; Some 1; None; Some 0]%nat.
Proof.
  apply Forall2_cons_2; [apply end_brings1|]. apply Forall2_cons_2; [apply end_brings1|].
  apply Forall2_cons_2; [by apply brings_other|]. apply Forall2_cons_2; [apply end_brings0|]. apply Forall2_nil_2.
Qed.

