(* ===== verification/DtapReliableSched.v ===== *)
(** * Reliable transmission over the packet scheduler

    The theorems on reliable transmission are proved against the interface
    [DtapTrans.Scheduler]; here the real scheduler, [DtapSchedProps.DtapScheduler],
    stands under it. *)
From S2P Require Import Prelude SdfErrno SdfBuff DtapEnv DliLayer DliData DtapFrame DtapFragment DtapTrans DtapQuota DtapScheduler DtapSchedStore.
From S2P Require Import DtapSchedRun DtapSchedLoop DtapSchedDown DtapSchedEvents DtapSchedProps DtapReliable DtapReliableTx DtapReliableRx DtapReliableOrder DtapReliableProps.

Section composed.
Context {W : Type} `{World W}.
Context (ch : DTAP_Channel).

(** The whole data plane below a reliable channel.  From any state the scheduler can
    get into, with the channel known to it, the channel and the scheduler together
    survive every sequence of sends, received frames, however malicious, timer
    expiries and failures: neither has undefined behaviour or an endless loop, and
    both invariants hold again. *)
Theorem reliable_over_scheduler cbk rcb evs r (s : Sched * (DLI_LayerInfo * W)) :
  reachable s -> registered ch s.1 -> channel_inv ch r -> 0 <= ch_mps ch < 65536 -> Forall event_ok evs ->
  wp (run_events ch cbk rcb evs) (r, s) (fun _ '(r', s') =>
    channel_inv ch r' /\ sched_good s'.1 /\ layer_ok s'.2.1 /\ registered ch s'.1).
Proof.
  intros Hs Hreg Hinv Hmps Hevs. destruct (reachable_steady s Hs) as [Hg Hl].
  eapply wp_mono; [by apply (run_events_safe ch cbk rcb evs r s)|].
  intros _ [r' s'] [[Hok] Hi]. split; [exact Hi|exact Hok].
Qed.
End composed.

Definition demo_stack : Sched * (DLI_LayerInfo * script) :=
  exec (EvOpen 1 3 0x21 3) (exec (EvConnect 0 (Some 3)) (exec EvInit demo_start)).

Lemma demo_stack_reachable : reachable demo_stack.
Proof.
  unfold demo_stack. apply reach_exec.
  - do 2 (apply reach_exec; [|cbn; first [lia|done]]). by apply reach_start.
  - by apply open_ok.
Qed.

Lemma demo_stack_registered : registered demo_channel demo_stack.1.
Proof. exists (mk_schan 3 3 0x21 []). by vm_compute. Qed.

Lemma reliable_over_scheduler_witness :
  wp (run_events demo_channel false (Some 77) demo_events) (demo_reliable, demo_stack) (fun _ '(r', s') =>
    channel_inv demo_channel r' /\ sched_good s'.1 /\ layer_ok s'.2.1 /\ registered demo_channel s'.1).
Proof.
  refine (reliable_over_scheduler demo_channel false (Some 77) demo_events demo_reliable demo_stack
    demo_stack_reachable demo_stack_registered demo_channel_inv _ demo_events_ok). closed_fact.
Defined.
