(* ===== verification/DtapBasic.v ===== *)
(** * Basic and transparent transmission

    [services/stack/src/dp/dtap/src/dtap_trans_basic.c] and
    [dtap_trans_transparent.c]: frames handed up as they come.  A basic channel holds
    back what arrives before the upper layer is ready, and hands it up when the link is
    connected.  The state is the channel's [attr] next to a world with a scheduler; a
    transparent channel has none. *)
From S2P Require Import Prelude Utils SdfErrno SdfBuff DtapEnv DtapFrame DtapTrans.

Definition DTAP_BASIC_MODE_MAX_CACHE_NUM : Z := 64.

Record DTAP_BasicCacheFrame := mk_bcache {
  bc_buff : SDF_Buff; bc_info : DTAP_Data_Info; bc_recvCb : DTAP_DataRecvCb
}.

Record DTAP_Basic_Channel := mk_basic {
  isReady : bool;
  cacheRxBuffs : list DTAP_BasicCacheFrame
}.
#[export] Instance eta_basic : Eta DTAP_Basic_Channel := fun b =>
  mk_basic (isReady b) (cacheRxBuffs b).

Definition DTAP_CheckBasicFrame (dtapFrame : DTAP_Frame) : option bool :=
  h ← header dtapFrame; v ← rd (frame_mem dtapFrame) (h + 1);
  Some (negb (negb (bf_get v 0 4 =? DTAP_FRAME_BASIC))).

Section basic.
Context {W : Type} `{Scheduler W}.
Notation M := (ST (DTAP_Basic_Channel * W)).

Context (ch : DTAP_Channel).

Definition get_basic : M DTAP_Basic_Channel := st_gets fst.
Definition upd_basic (f : DTAP_Basic_Channel -> DTAP_Basic_Channel) : M unit :=
  st_modify (fun s => (f (fst s), snd s)).

Definition DTAP_CreateBasicCacheFrame (buff : SDF_Buff) (info : DTAP_Data_Info)
    (recvCb : DTAP_DataRecvCb) : ST W (option DTAP_BasicCacheFrame) :=
  let! basicFrame := alloc_ok in
  if negb basicFrame then st_ret None
  else
    let! ok := alloc_ok in
    st_ret (b ← SDF_BuffCopy ok (Some buff); Some (mk_bcache b info recvCb)).

(** [if (recvCb != NULL) recvCb(&info, buff)] *)
Definition call_recv (recvCb : DTAP_DataRecvCb) (info : DTAP_Data_Info) (buff : SDF_Buff) : ST W unit :=
  match recvCb with
  | Some cb => recv_cb cb info buff ;;! st_ret tt
  | None => st_ret tt
  end.

(** The loop hands up and removes every cached frame. *)
Definition DTAP_RecvBasicFrameContinue : M unit :=
  let! basic := get_basic in
  st_for (cacheRxBuffs basic) (fun frame =>
    over (call_recv (bc_recvCb frame) (bc_info frame) (bc_buff frame)) ;;!
    upd_basic (fun b => b <| cacheRxBuffs ::= tail |>)) ;;!
  upd_basic (fun b => b <| isReady := true |>).

Definition DTAP_RecvBasicFrame (dtapFrame : DTAP_Frame) (recvCb : DTAP_DataRecvCb) : M Z :=
  let! basic := get_basic in
  match SDF_BuffTrimPrefix (f_buff dtapFrame) (headerLen dtapFrame) with
  | None => st_ret DTAP_TRANS_BASIC_RECV_TRIM_PRE_ERR
  | Some (_, buff) =>
      let info := mk_info (pi dtapFrame) (ch_lcid ch) (ch_srcTcid ch) in
      if negb (isReady basic) then
        if negb (zlen (cacheRxBuffs basic) <=? DTAP_BASIC_MODE_MAX_CACHE_NUM)
        then st_ret DTAP_TRANS_BASIC_CACHE_OVERFLOW_ERR
        else
          let! basicFrame := over (DTAP_CreateBasicCacheFrame buff info recvCb) in
          match basicFrame with
          | None => st_ret DTAP_TRANS_BASIC_CREATE_FRAME_ERR
          | Some frame =>
              upd_basic (fun b => b <| cacheRxBuffs ::= fun l => l ++ [frame] |>) ;;!
              st_ret DTAP_SUCCESS
          end
      else
        over (call_recv recvCb info buff) ;;!
        st_ret DTAP_SUCCESS
  end.

Definition DTAP_SendBasicFrame (pi0 : Z) (buff : SDF_Buff) : ST W Z :=
  match DTAP_GetFrameCtx DTAP_FRAME_BASIC with
  | None => st_ret DTAP_TRANS_BASIC_SEND_GET_CTX_ERR
  | Some c =>
      let frame := frame0 <| pi := pi0 |> <| f_buff := Some buff |> <| ctx := Some c |> in
      let! (ret, frame) := buildFrame c frame (ch_dstTcid ch) 0 in
      if negb (ret =? DTAP_SUCCESS) then st_ret ret
      else DTAP_SendFrame ch (f_buff frame)
  end.

(** ** Transparent transmission *)
Definition DTAP_SendTransparentFrame (pi0 : Z) (buff : SDF_Buff) : ST W Z :=
  if ch_mps ch <? SDF_DataLenGet buff then st_ret DTAP_TRANS_TRANSPARENT_PACK_EXCEED_MPS
  else DTAP_SendFrame ch (Some buff).

Definition DTAP_TransparentTransFrame (buff : SDF_Buff) (recvCb : DTAP_DataRecvCb) : ST W unit :=
  call_recv recvCb (mk_info 0 (ch_lcid ch) (ch_srcTcid ch)) buff.
End basic.

(** ** Lemmas: what waits and what is handed up *)

(** A packet with the callback that is to get it, if there is one. *)
Definition entry : Type := DTAP_DataRecvCb * DTAP_Data_Info * bytes.

Definition cached (b : DTAP_Basic_Channel) : list entry :=
  (fun c => (bc_recvCb c, bc_info c, buff_data (bc_buff c))) <$> cacheRxBuffs b.

(** The calls that handing up [out] makes. *)
Definition seen (out : list entry) : list (Z * DTAP_Data_Info * bytes) :=
  omap (fun '(cb, i, d) => (fun c => (c, i, d)) <$> cb) out.

Record basic_inv (b : DTAP_Basic_Channel) : Prop := {
  bi_size : zlen (cacheRxBuffs b) <= DTAP_BASIC_MODE_MAX_CACHE_NUM + 1;
  bi_ready : isReady b = true -> cacheRxBuffs b = []
}.

(** [g] is what parsing made of a buffer [b]. *)
Record basic_frame (g : DTAP_Frame) (b : SDF_Buff) : Prop := {
  bf_wf : buff_wf b;
  bf_parsed : parsed_wf b DTAP_FRAME_BASIC g
}.

Inductive basic_event :=
| BcRecv (g : DTAP_Frame) (cb : DTAP_DataRecvCb)
| BcReady
| BcSend (pi : Z) (b : SDF_Buff).

(** A buffer with room for the headers of this mode and of the DLI layer. *)
Definition basic_send_ok (b : SDF_Buff) : Prop :=
  buff_wf b /\ DTAP_BASIC_HEADER_LEN + 1 + DLI_HEADER <= dataOff b.

Definition basic_event_ok (ev : basic_event) : Prop :=
  match ev with
  | BcRecv g _ => exists b, basic_frame g b
  | BcReady => True
  | BcSend _ b => basic_send_ok b
  end.

Section proofs.
Context {W : Type} `{Scheduler W}.
Context (ch : DTAP_Channel).
Implicit Types (b : DTAP_Basic_Channel) (w : W).

Definition run_basic_event (ev : basic_event) : ST (DTAP_Basic_Channel * W) unit :=
  match ev with
  | BcRecv g cb => let! _ := DTAP_RecvBasicFrame ch g cb in st_ret tt
  | BcReady => DTAP_RecvBasicFrameContinue
  | BcSend p b => let! _ := over (DTAP_SendBasicFrame ch p b) in st_ret tt
  end.
Definition run_basic (evs : list basic_event) : ST (DTAP_Basic_Channel * W) unit :=
  st_for evs run_basic_event.

(** The packet in a frame. *)
Definition frame_entry (g : DTAP_Frame) (cb : DTAP_DataRecvCb) : entry :=
  (cb, mk_info (pi g) (ch_lcid ch) (ch_srcTcid ch),
   match f_buff g with Some b => drop (Z.to_nat (headerLen g)) (buff_data b) | None => [] end).

(** The packets that arrive in a run. *)
Definition basic_arrivals (evs : list basic_event) : list entry :=
  omap (fun ev => match ev with BcRecv g cb => Some (frame_entry g cb) | _ => None end) evs.

(** From [w] to [w'] [out] was handed up and nothing else. *)
Definition gave_all w w' (out : list entry) : Prop :=
  sched_ok ch w' /\ exists t, trace w' = trace w ++ t /\ delivered_to t = seen out.

Lemma seen_app o1 o2 : seen (o1 ++ o2) = seen o1 ++ seen o2.
Proof. apply omap_app. Qed.

Lemma gave_all_trans w1 w2 w3 o1 o2 :
  gave_all w1 w2 o1 -> gave_all w2 w3 o2 -> gave_all w1 w3 (o1 ++ o2).
Proof.
  intros [_ (t1&E1&D1)] [Hok (t2&E2&D2)]. split; [done|]. exists (t1 ++ t2).
  by rewrite E2, E1, delivered_to_app, seen_app, D1, D2, app_assoc.
Qed.
Lemma calm_gave_all w w' : calm ch w w' -> gave_all w w' [].
Proof. intros [Hok (t&E&Hq)]. split; [done|]. exists t. split; [done|]. by apply quiet_delivered. Qed.
Lemma gave_all_extends w w' out : gave_all w w' out -> extends w w'.
Proof. intros [_ (t&E&_)]. by exists t. Qed.

Lemma wp_call_recv cb info d w (Q : unit -> W -> Prop) :
  sched_ok ch w -> (forall w', gave_all w w' [(cb, info, buff_data d)] -> Q tt w') ->
  wp (call_recv cb info d) w Q.
Proof.
  intros Hok HQ. unfold call_recv. destruct cb as [cb|].
  - apply wp_bind. unfold recv_cb. destruct (ask_total (CRecv cb info (buff_data d)) w) as (a&w'&Ha&Ht).
    unfold wp. rewrite Ha. apply HQ. split; [by eapply sched_ask|]. by eexists.
  - apply wp_ret, HQ. split; [done|]. exists []. by rewrite app_nil_r.
Qed.

(** What a step did: [out] was handed up, [tk] taken from what arrived. *)
Record basic_step (arrived tk : list entry) b b' w w' (out : list entry) : Prop := {
  bs_inv : basic_inv b';
  bs_gave : gave_all w w' out;
  bs_queue : out ++ cached b' = cached b ++ tk;
  bs_sub : tk `sublist_of` arrived;
  bs_all : alloc_failed_since w w' \/
    DTAP_BASIC_MODE_MAX_CACHE_NUM + 1 < zlen (cached b) + zlen arrived \/ tk = arrived
}.

Lemma wp_continue b w (Q : unit -> _ -> Prop) :
  sched_ok ch w -> basic_inv b ->
  (forall b' w', basic_step [] [] b b' w w' (cached b) -> isReady b' = true -> Q tt (b', w')) ->
  wp DTAP_RecvBasicFrameContinue (b, w) Q.
Proof.
  intros Hok Hinv HQ. unfold DTAP_RecvBasicFrameContinue. apply wp_bind, wp_gets, wp_bind. cbn [fst].
  apply (wp_for (fun l s => cacheRxBuffs s.1 = l /\ exists out, gave_all w s.2 out /\ out ++ cached s.1 = cached b)).
  - split; [done|]. exists []. split; [apply calm_gave_all, calm_refl; done|done].
  - intros c l [b1 w1] [Hl (out&Hg&Hout)]. cbn [fst snd] in *. apply wp_bind, wp_over, wp_call_recv; [apply Hg|].
    intros w2 Hg2. apply wp_modify. cbn. rewrite Hl. split; [done|].
    eexists. split; [by eapply gave_all_trans|]. rewrite <- app_assoc, <- Hout. f_equal.
    unfold cached. cbn. by rewrite Hl.
  - intros [b1 w1] [Hl (out&Hg&Hout)]. cbn [fst snd] in *. apply wp_modify.
    assert (out = cached b) as ->. { rewrite <- Hout. unfold cached at 1. by rewrite Hl, app_nil_r. }
    apply HQ; [|done]. constructor; [split; cbn; rewrite Hl|done| |constructor|auto].
    + by vm_compute.
    + done.
    + unfold cached at 2. cbn. by rewrite Hl, !app_nil_r.
Qed.

Lemma trim_basic g d :
  basic_frame g d -> exists d', SDF_BuffTrimPrefix (f_buff g) (headerLen g) = Some (dataOff d + headerLen g, d') /\
    buff_wf d' /\ forall cb, frame_entry g cb = (cb, mk_info (pi g) (ch_lcid ch) (ch_srcTcid ch), buff_data d').
Proof.
  intros [Hwf Hp]. pose proof (pw_lens _ _ _ Hp) as (?&?&?). pose proof (pw_sum _ _ _ Hp) as Hs. cbn in Hs.
  destruct (trim_prefix_spec d (headerLen g) Hwf) as (d'&Ht&Hwf'&Hd'&_); [lia|].
  exists d'. rewrite (fo_buff _ _ (pw_over _ _ _ Hp)). split_and!; [done..|].
  intros cb. unfold frame_entry. by rewrite (fo_buff _ _ (pw_over _ _ _ Hp)), Hd'.
Qed.

Lemma wp_new_cache d info cb w (Q : option DTAP_BasicCacheFrame -> W -> Prop) :
  sched_ok ch w -> buff_wf d ->
  (forall w', calm ch w w' -> alloc_failed_since w w' -> Q None w') ->
  (forall w', calm ch w w' -> Q (Some (mk_bcache d info cb)) w') ->
  wp (DTAP_CreateBasicCacheFrame d info cb) w Q.
Proof.
  intros Hok Hwf Hfail HQ. unfold DTAP_CreateBasicCacheFrame. apply wp_bind, (wp_alloc_cases ch); [done| |].
  - intros w1 Hc Hf. by apply wp_ret, Hfail.
  - intros w1 Hc1. cbn [negb]. apply wp_bind, (wp_alloc_cases ch); [by eapply calm_ok| |].
    + intros w2 Hc2 Hf2. apply wp_ret. rewrite copy_failed.
      apply Hfail; [by eapply calm_trans|]. eapply alloc_failed_later; [by eapply calm_extends|done].
    + intros w2 Hc2. apply wp_ret. rewrite copy_wf by done. apply HQ. by eapply calm_trans.
Qed.

(** The statuses of [DTAP_RecvBasicFrame]. *)
Definition basic_status b (tk : list entry) (ret : Z) : Prop :=
  if isReady b then ret = DTAP_SUCCESS
  else if DTAP_BASIC_MODE_MAX_CACHE_NUM <? zlen (cacheRxBuffs b) then ret = DTAP_TRANS_BASIC_CACHE_OVERFLOW_ERR
  else ret = match tk with [] => DTAP_TRANS_BASIC_CREATE_FRAME_ERR | _ => DTAP_SUCCESS end.

Lemma wp_recv_basic g d cb b w (Q : Z -> _ -> Prop) :
  sched_ok ch w -> basic_inv b -> basic_frame g d ->
  (forall ret b' w' tk out, basic_step [frame_entry g cb] tk b b' w w' out ->
     basic_status b tk ret -> out = (if isReady b then tk else []) -> isReady b' = isReady b -> Q ret (b', w')) ->
  wp (DTAP_RecvBasicFrame ch g cb) (b, w) Q.
Proof.
  intros Hok Hinv Hg HQ. destruct (trim_basic g d Hg) as (d'&Ht&Hwf'&He). specialize (He cb).
  unfold DTAP_RecvBasicFrame. apply wp_bind, wp_gets. cbn [fst]. rewrite Ht. unfold basic_status in HQ.
  destruct (isReady b) eqn:Hr; cbn [negb].
  - apply wp_bind, wp_over, wp_call_recv; [done|]. intros w1 Hg1. rewrite <- He in Hg1.
    apply wp_ret, (HQ DTAP_SUCCESS b w1 [frame_entry g cb] [frame_entry g cb]); try done.
    constructor; try done; [|by auto].
    unfold cached. by rewrite (bi_ready b Hinv Hr).
  - destruct (Z.ltb_spec DTAP_BASIC_MODE_MAX_CACHE_NUM (zlen (cacheRxBuffs b))) as [Hgt|Hle].
    + destruct (Z.leb_spec (zlen (cacheRxBuffs b)) DTAP_BASIC_MODE_MAX_CACHE_NUM); [lia|]. cbn [negb].
      apply wp_ret, (HQ _ b w [] []); try done. constructor; [done|by apply calm_gave_all, calm_refl|by rewrite app_nil_r|apply sublist_nil_l|].
      right. left. unfold cached. rewrite length_fmap. cbn. lia.
    + destruct (Z.leb_spec (zlen (cacheRxBuffs b)) DTAP_BASIC_MODE_MAX_CACHE_NUM); [|lia]. cbn [negb].
      apply wp_bind, wp_over, wp_new_cache; [done..| |].
      * intros w1 Hc Hf. apply wp_ret, (HQ _ b w1 [] []); try done.
        constructor; [done|by apply calm_gave_all|by rewrite app_nil_r|apply sublist_nil_l|by left].
      * intros w1 Hc. apply wp_bind, wp_modify, wp_ret, (HQ _ _ w1 [frame_entry g cb] []); try done.
        constructor; [|by apply calm_gave_all| |done|by auto].
        -- split; cbn; [rewrite length_app; cbn; lia|by rewrite Hr].
        -- unfold cached. cbn. by rewrite fmap_app, He.
Qed.

Lemma wp_send_basic p d w (Q : Z -> W -> Prop) :
  sched_ok ch w -> basic_send_ok d -> (forall ret w', calm ch w w' -> Q ret w') ->
  wp (DTAP_SendBasicFrame ch p d) w Q.
Proof.
  intros Hok [Hwf Hoff] HQ. unfold DTAP_SendBasicFrame.
  change (DTAP_GetFrameCtx DTAP_FRAME_BASIC) with (Some BasicCtx). cbv iota zeta.
  change DTAP_BASIC_HEADER_LEN with 4 in Hoff. change DLI_HEADER with 5 in Hoff.
  edestruct (build_basic_spec (frame0 <| pi := p |> <| f_buff := Some d |> <| ctx := Some BasicCtx |>) d (ch_dstTcid ch) 0)
    as (d'&Hb&Hwf'&_&Ho&Hl&_); [done..|destruct (_ <? _); lia|].
  apply wp_bind. cbn [buildFrame]. eapply wp_opt; [exact Hb|]. change (negb (DTAP_SUCCESS =? DTAP_SUCCESS)) with false.
  cbv iota. apply wp_send_frame; [done| |auto]. cbn. pose proof (wf_len d Hwf).
  split; [done|]. change DLI_HEADER with 5. destruct (_ <? _); lia.
Qed.

Lemma wp_basic_event ev b w (Q : unit -> _ -> Prop) :
  sched_ok ch w -> basic_inv b -> basic_event_ok ev ->
  (forall b' w' tk out, basic_step (basic_arrivals [ev]) tk b b' w w' out -> Q tt (b', w')) ->
  wp (run_basic_event ev) (b, w) Q.
Proof.
  intros Hok Hinv Hev HQ. destruct ev as [g cb| |p d]; cbn [run_basic_event basic_event_ok] in *.
  - destruct Hev as [d Hg]. apply wp_bind, (wp_recv_basic g d); [done..|].
    intros ret b' w' tk out Hst _ _ _. by eapply wp_ret, HQ.
  - apply wp_continue; [done..|]. intros b' w' Hst _. by eapply HQ.
  - apply wp_bind, wp_over, wp_send_basic; [done..|]. intros ret w' Hc. apply wp_ret.
    apply (HQ b w' [] []). constructor; [done|by apply calm_gave_all|by rewrite app_nil_r|constructor|auto].
Qed.

Lemma basic_arrivals_cons ev evs : basic_arrivals (ev :: evs) = basic_arrivals [ev] ++ basic_arrivals evs.
Proof. apply (omap_app _ [ev] evs). Qed.

Lemma basic_step_trans a1 a2 tk1 tk2 b b1 b2 w w1 w2 o1 o2 :
  basic_step a1 tk1 b b1 w w1 o1 -> basic_step a2 tk2 b1 b2 w1 w2 o2 ->
  basic_step (a1 ++ a2) (tk1 ++ tk2) b b2 w w2 (o1 ++ o2).
Proof.
  intros [Hi1 Hg1 Hq1 Hs1 Ha1] [Hi2 Hg2 Hq2 Hs2 Ha2]. constructor; [done|by eapply gave_all_trans| |by apply sublist_app|].
  - by rewrite <- app_assoc, Hq2, app_assoc, Hq1, app_assoc.
  - pose proof (sublist_length _ _ Hs1) as Hl1. apply (f_equal length) in Hq1. rewrite !length_app in Hq1.
    rewrite length_app. destruct Ha1 as [(t&Ht&Hf)|[?| ->]].
    + left. destruct (gave_all_extends _ _ _ Hg2) as [t' Ht']. exists (t ++ t').
      rewrite Ht', Ht, app_assoc. split; [done|]. apply elem_of_app. by left.
    + right. left. lia.
    + destruct Ha2 as [Hf|[?| ->]]; [left| |by auto].
      * eapply alloc_failed_later; [by eapply gave_all_extends|done].
      * right. left. lia.
Qed.

Lemma wp_run_basic evs b w :
  sched_ok ch w -> basic_inv b -> Forall basic_event_ok evs ->
  wp (run_basic evs) (b, w) (fun _ '(b', w') => exists tk out,
    basic_step (basic_arrivals evs) tk b b' w w' out).
Proof.
  revert b w. induction evs as [|ev evs IH]; intros b w Hok Hinv Hev.
  - apply wp_ret. exists [], []. constructor; [done|by apply calm_gave_all, calm_refl|by rewrite app_nil_r|constructor|auto].
  - apply Forall_cons in Hev as [He Hev]. rewrite basic_arrivals_cons.
    apply wp_bind, wp_basic_event; [done..|]. intros b1 w1 tk1 o1 Hst1.
    eapply wp_mono; [apply IH; [apply Hst1|apply Hst1|done]|].
    intros _ [b' w'] (tk&out&Hst). exists (tk1 ++ tk), (o1 ++ out). by eapply basic_step_trans.
Qed.

(** ** Theorems *)

(** C26. Basic delivery.  Through any sequence of frames, packets to send and connections
    of the link, a basic channel has no undefined behaviour and hands up what it takes
    first in, first out, each packet to the callback it came with: what was handed up,
    followed by what still waits, is what waited before followed by what was taken.  All
    that arrives is taken, unless an allocation failed or more than 65 packets could
    have been waiting. *)
Theorem basic_delivers_fifo evs b w :
  sched_ok ch w -> basic_inv b -> Forall basic_event_ok evs ->
  wp (run_basic evs) (b, w) (fun _ '(b', w') => exists out tk t,
    sched_ok ch w' /\ basic_inv b' /\ trace w' = trace w ++ t /\ delivered_to t = seen out /\
    out ++ cached b' = cached b ++ tk /\ tk `sublist_of` basic_arrivals evs /\
    (alloc_failed t \/ 65 < zlen (cached b) + zlen (basic_arrivals evs) \/ tk = basic_arrivals evs)).
Proof.
  intros Hok Hinv Hev. eapply wp_mono; [by apply wp_run_basic|].
  intros _ [b' w'] (tk&out&[Hi [Hok' (t&Ht&Hd)] Hq Hs Ha]). exists out, tk, t. split_and!; try done.
  destruct Ha as [(t'&Ht'&Hf)|[?|?]]; [left|by auto..].
  rewrite Ht in Ht'. by apply app_inv_head in Ht' as ->.
Qed.
End proofs.

(** A sent packet arrives: what the sender builds from it is a buffer the scheduler can
    send; the peer finds identifier, type and length right, both checks of the header
    pass, and parsing gives the payload that was sent and its protocol identifier, which
    the fixed channels do not carry. *)
Lemma basic_roundtrip tcid p d :
  basic_send_ok d -> is_u8 tcid -> is_u8 p -> dataLen d < 65535 ->
  exists f' d' g,
    DTAP_BuildBasicFrame (frame0 <| pi := p |> <| f_buff := Some d |> <| ctx := Some BasicCtx |>) tcid 0
    = Some (DTAP_SUCCESS, f') /\ f_buff f' = Some d' /\ (0 < dataLen d -> sendable d') /\
    rd (bmem d') (dataOff d') = Some tcid /\
    (exists v, rd (bmem d') (dataOff d' + 1) = Some v /\ bf_get v 0 4 = DTAP_FRAME_BASIC) /\
    DECODE2BYTE_LITTLE (bmem d') (dataOff d' + 2) = Some (dataLen d' - DTAP_BASIC_HEADER_LEN) /\
    DTAP_ParseFrame DTAP_FRAME_BASIC d' frame0 = Some (DTAP_SUCCESS, g) /\ basic_frame g d' /\
    DTAP_CheckBasicFrameHeader g = Some true /\ DTAP_CheckBasicFrame g = Some true /\
    4 <= dataLen d' /\ payloadLen g <= dataLen d /\ pi g = (if TCID_FTC_RFU_END <? tcid then p else DTAP_PI_NONE) /\
    drop (Z.to_nat (headerLen g)) (buff_data d') = buff_data d.
Proof.
  intros [Hwf Hoff] Ht Hp Hlen. change DTAP_BASIC_HEADER_LEN with 4 in *. change DLI_HEADER with 5 in Hoff.
  pose proof (wf_len d Hwf) as Hpos. pose proof (length_buff_data d Hwf) as Hdl.
  set (n := if TCID_FTC_RFU_END <? tcid then 5 else 4).
  assert (4 <= n <= 5) as Hn by (unfold n; destruct (_ <? _); lia).
  edestruct (build_basic_spec (frame0 <| pi := p |> <| f_buff := Some d |> <| ctx := Some BasicCtx |>) d tcid 0)
    as (d'&Hb&Hwf'&Hd&Ho&Hl&_); [done..|fold n; lia|]. fold n in Hd, Ho, Hl. cbn [pi modify] in Hd.
  set (H := basic_header tcid (dataLen d + n - 4) p) in Hd.
  assert (zlen H = n) as HH by (unfold H, n, basic_header; by destruct (TCID_FTC_RFU_END <? tcid)).
  pose proof (wf_off d' Hwf') as Hoff'.
  assert (forall i, 0 <= i < n -> rd (bmem d') (dataOff d' + i) = rd H i) as Hrd.
  { intros i Hi. rewrite rd_data by lia. rewrite Hd. apply rd_app_l. lia. }
  assert (rd H 0 = Some tcid /\ rd H 1 = Some (type_byte DTAP_FRAME_BASIC false false false false) /\
    rd H 2 = Some (u8 (dataLen d + n - 4)) /\ rd H 3 = Some (u8 (Z.shiftr (u16 (dataLen d + n - 4)) 8)) /\
    (n = 5 -> rd H 4 = Some p)) as (H0&H1&H2&H3&H4).
  { unfold H, n, basic_header. destruct (TCID_FTC_RFU_END <? tcid); cbn; rewrite ?(u8_small tcid), ?(u8_small p) by done; split_and!; done. }
  destruct (parse_total d' DTAP_FRAME_BASIC Hwf') as (ret&g&Hg&Hpw); [change DTAP_BASIC_HEADER_LEN with 4; lia|done|].
  assert (ret = DTAP_SUCCESS /\ pi g = (if TCID_FTC_RFU_END <? tcid then p else DTAP_PI_NONE) /\ headerLen g = n)
    as (->&Hpi&Hhl).
  { unfold DTAP_ParseFrame in Hg. change (DTAP_GetFrameCtx DTAP_FRAME_BASIC) with (Some BasicCtx) in Hg.
    cbn [parseFrame] in Hg. unfold DTAP_ParseBasicFrame, SDF_DataOffset, SDF_DataLenGet in Hg. cbn [f_buff header modify mbind option_bind] in Hg.
    rewrite <- (Z.add_0_r (dataOff d')), Hrd, H0 in Hg by lia. cbn [mbind option_bind] in Hg.
    change DTAP_BASIC_HEADER_LEN with 4 in Hg. unfold n in *.
    destruct (Z.ltb_spec TCID_FTC_RFU_END tcid), (Z.leb_spec tcid TCID_FTC_RFU_END); try lia.
    - destruct (Z.ltb_spec (dataLen d') (4 + 1)); [lia|].
      rewrite Z.add_0_r, (Hrd 4), H4 in Hg by lia. cbn [mbind option_bind] in Hg. by injection Hg as <- <-.
    - by injection Hg as <- <-. }
  specialize (Hpw eq_refl). destruct (pw_over _ _ _ Hpw) as [Hgb Hgh].
  exists (frame0 <| pi := p |> <| f_buff := Some d |> <| ctx := Some BasicCtx |> <| f_buff := Some d' |>), d', g.
  split_and!; try done.
  - intros Hd0. split_and!; [done|change DLI_HEADER with 5; lia|lia].
  - rewrite <- (Z.add_0_r (dataOff d')), Hrd by lia. exact H0.
  - rewrite Hrd by lia. exists (type_byte DTAP_FRAME_BASIC false false false false). split; [exact H1|by vm_compute].
  - eapply decode_len_data; [done|exact Hd|lia|lia|..].
    + rewrite H2. do 2 f_equal. lia.
    + rewrite H3. do 4 f_equal. lia.
  - unfold DTAP_CheckBasicFrameHeader, frame_mem. rewrite Hgh, Hgb. cbn [mbind option_bind].
    rewrite Hrd, H1 by lia. by vm_compute.
  - unfold DTAP_CheckBasicFrame, frame_mem. rewrite Hgh, Hgb. cbn [mbind option_bind].
    rewrite Hrd, H1 by lia. by vm_compute.
  - lia.
  - pose proof (pw_lens _ _ _ Hpw). pose proof (pw_sum _ _ _ Hpw) as Hsum. cbn in Hsum. lia.
  - rewrite Hhl, Hd. apply drop_app_length'. lia.
Qed.

(** ** Closed instances *)
Definition basic_demo_channel : DTAP_Channel :=
  mk_channel 1 DTAP_PRIORITY_HIGH 0 3 1 0x80 CM_TRANS_MODE_BASIC 1000 1000 DTAP_FRAME_UNICAST.
Definition basic_demo_packet (D : bytes) : SDF_Buff :=
  mk_buff 14 (zlen D) (16 + zlen D) (replicate 14 0 ++ D ++ [0; 0]).
Definition basic_demo_arrival (D : bytes) : option DTAP_Frame :=
  '(_, f) ← DTAP_BuildBasicFrame (frame0 <| pi := 3 |> <| f_buff := Some (basic_demo_packet D) |>) 0x80 0;
  b ← f_buff f;
  '(_, g) ← DTAP_ParseFrame DTAP_FRAME_BASIC b frame0;
  Some g.
Definition basic_demo_g1 : DTAP_Frame := Eval vm_compute in default frame0 (basic_demo_arrival [1; 2]).
Definition basic_demo_g2 : DTAP_Frame := Eval vm_compute in default frame0 (basic_demo_arrival [3]).

Ltac basic_frame_fact g :=
  let b := eval vm_compute in (default (mk_buff 0 0 0 []) (f_buff g)) in
  exists b; constructor; [constructor; closed_fact|];
  constructor; [by split|eexists; by split|closed_fact..|intros [?|?]; done|intros [?|?]; done].
Lemma basic_demo_frame1 : exists b, basic_frame basic_demo_g1 b.
Proof. basic_frame_fact basic_demo_g1. Qed.
Lemma basic_demo_frame2 : exists b, basic_frame basic_demo_g2 b.
Proof. basic_frame_fact basic_demo_g2. Qed.
Lemma basic_demo_packet_ok : basic_send_ok (basic_demo_packet [7; 8]).
Proof. split; [constructor; closed_fact|by vm_compute]. Qed.

(** A frame arrives before the link is connected, one after. *)
Definition basic_demo_events : list basic_event :=
  [BcRecv basic_demo_g1 (Some 77); BcSend 3 (basic_demo_packet [7; 8]); BcReady; BcRecv basic_demo_g2 (Some 78)].
Definition new_basic : DTAP_Basic_Channel := mk_basic false [].

Lemma basic_delivers_fifo_witness :
  wp (run_basic basic_demo_channel basic_demo_events) (new_basic, mk_script [] []) (fun _ '(b', w') =>
    exists out tk t,
      sched_ok basic_demo_channel w' /\ basic_inv b' /\ trace w' = trace (mk_script [] []) ++ t /\
      delivered_to t = seen out /\ out ++ cached b' = cached new_basic ++ tk /\
      tk `sublist_of` basic_arrivals basic_demo_channel basic_demo_events /\
      (alloc_failed t \/
       65 < zlen (cached new_basic) + zlen (basic_arrivals basic_demo_channel basic_demo_events) \/
       tk = basic_arrivals basic_demo_channel basic_demo_events)).
Proof.
  refine (basic_delivers_fifo basic_demo_channel basic_demo_events new_basic (mk_script [] []) I _ _).
  - by split; vm_compute.
  - repeat apply Forall_cons_2;
      first [exact basic_demo_frame1|exact basic_demo_frame2|exact basic_demo_packet_ok|exact I|apply Forall_nil_2].
Defined.

Lemma basic_demo_run :
  omap (fun '(_, (b, w)) => Some (delivered_to (past w), isReady b))
    (option_list (run_basic basic_demo_channel basic_demo_events (new_basic, mk_script [] [])))
  = [([(77, mk_info 3 3 1, [1; 2]); (78, mk_info 3 3 1, [3])], true)].
Proof. vm_compute. reflexivity. Qed.
