(* ===== verification/DtapStream.v ===== *)
(** * Stream transmission

    [services/stack/src/dp/dtap/src/dtap_trans_stream.c]: frames without
    acknowledgement, put back in order by the receiver, which waits for a missing
    frame at most [s_reorderTimeout] milliseconds.  The state is the channel's
    [attr] next to a world with a scheduler; [ch] is the rest of the channel, which
    this code only reads.  The transmission list of the channel is never used. *)
From S2P Require Import Prelude Utils SdfErrno SdfBuff DtapEnv DtapFrame DtapTrans.

Definition DTAP_STREAM_CACHE_MAX : Z := 256.

Record StreamRxNode := mk_node {
  n_sar : Z;
  n_txSeq : Z;
  n_buff : SDF_Buff;
  n_timeStamp : Z;
  n_pi : Z;
  n_lcid : Z;
  n_tcid : Z
}.

Record DTAP_Stream_Channel := mk_stream {
  s_flushTimeout : Z;
  s_reorderTimeout : Z;
  s_crcInit : Z;
  reorderTxSeq : Z;
  expectedSeq : Z;
  maxExpectedSeq : Z;
  frameTxSeq : Z;
  reorderTimerHandle : Z;
  s_rxList : list StreamRxNode;
  s_recvCb : DTAP_DataRecvCb
}.
#[export] Instance eta_stream : Eta DTAP_Stream_Channel := fun s =>
  mk_stream (s_flushTimeout s) (s_reorderTimeout s) (s_crcInit s) (reorderTxSeq s) (expectedSeq s)
    (maxExpectedSeq s) (frameTxSeq s) (reorderTimerHandle s) (s_rxList s) (s_recvCb s).

(** The header of a frame, as this mode reads it through a
    [DTAP_SimplexFragFrameHeader_S]: [frameType], [txSeq], [sar]. *)
Definition header_frameType (f : DTAP_Frame) : option Z :=
  h ← header f; v ← rd (frame_mem f) (h + 1); Some (bf_get v 0 4).
Definition header_txSeq (f : DTAP_Frame) : option Z :=
  h ← header f; v ← ld16 (frame_mem f) (h + 5); Some (bf_get v 0 14).
Definition header_sar (f : DTAP_Frame) : option Z :=
  h ← header f; v ← ld16 (frame_mem f) (h + 5); Some (bf_get v 14 2).

Definition DTAP_CheckStreamFrame (dtapFrame : DTAP_Frame) : option bool :=
  frameType ← header_frameType dtapFrame;
  Some ((frameType =? DTAP_FRAME_SIMPLEX_FRAG) || (frameType =? DTAP_FRAME_SIMPLEX_AGGR)).

(** The insertion loop: before the first node with a later sequence number. *)
Fixpoint InsertStreamRxNode (head : list StreamRxNode) (node : StreamRxNode) : list StreamRxNode :=
  match head with
  | [] => [node]
  | cur :: rest =>
      if DTAP_IsFrameSeqSmaller (n_txSeq node) (n_txSeq cur) then node :: head
      else cur :: InsertStreamRxNode rest node
  end.

Definition FindStreamRxNode (head : list StreamRxNode) (txSeq : Z) : option StreamRxNode :=
  find_first (fun node => n_txSeq node =? txSeq) head.

(** The search of [StartReorderTimer] for the node received first: its time, and
    the new [reorderTxSeq]. *)
Fixpoint earliest (l : list StreamRxNode) (minTimeStamp seq : Z) : Z * Z :=
  match l with
  | [] => (minTimeStamp, seq)
  | node :: rest =>
      if n_timeStamp node <? minTimeStamp then earliest rest (n_timeStamp node) (n_txSeq node)
      else earliest rest minTimeStamp seq
  end.

(** Checks and removes the checksum of the frame, and removes its header; answers the
    status and the buffer. *)
Definition BuffCheck (dtapFrame : DTAP_Frame) (stream : DTAP_Stream_Channel) (buff : SDF_Buff) :
    option (Z * SDF_Buff) :=
  buffCrc ← DECODE2BYTE_LITTLE (bmem buff)
              (SDF_DataOffset buff + SDF_DataLenGet buff - DTAP_CRC_LEN);
  match SDF_BuffTrimSuffix (Some buff) DTAP_CRC_LEN with
  | (0, Some b) =>
      data ← window_bytes b;
      let crcValue := CRC16 (s_crcInit stream) data in
      if negb (buffCrc =? crcValue) then Some (DTAP_TRANS_STREAM_RECV_CRC_ERR, b)
      else
        match SDF_BuffTrimPrefix (Some b) (headerLen dtapFrame) with
        | None => Some (DTAP_TRANS_STREAM_RECV_TRIM_PRE_ERR, b)
        | Some (_, b) => Some (DTAP_SUCCESS, b)
        end
  | _ => Some (DTAP_TRANS_STREAM_RECV_TRIM_SUF_ERR, buff)
  end.

(** Answers the status, the channel and the buffer. *)
Definition DTAP_PackStreamFrame (stream : DTAP_Stream_Channel) (tcid pi : Z) (buff : SDF_Buff)
    (sar : Z) : option (Z * DTAP_Stream_Channel * SDF_Buff) :=
  match SDF_BuffPrepend (Some buff) DTAP_SIMPLEX_FRAG_FRAME_HEADER_LEN with
  | None => Some (DTAP_TRANS_STREAM_PACK_HEADER_ERR, stream, buff)
  | Some (h, b) =>
      let stream := stream <| frameTxSeq ::= DTAP_GetNextFrameSeq |> in
      m ← set_basic_header (bmem b) h tcid DTAP_FRAME_SIMPLEX_FRAG 0 1 0 0;
      m ← wr m (h + 4) [u8 pi];
      m ← set_bits16 m (h + 5) 0 14 (frameTxSeq stream);
      m ← set_bits16 m (h + 5) 14 2 sar;
      m ← wr m (h + 2)
            (ENCODE2BYTE_LITTLE (SDF_DataLenGet b - DTAP_BASIC_HEADER_LEN + DTAP_CRC_LEN));
      let b := b <| bmem := m |> in
      r ← append_crc (s_crcInit stream) b;
      match r with
      | None => Some (DTAP_TRANS_STREAM_PACK_CRC_ERR, stream, b)
      | Some b => Some (DTAP_SUCCESS, stream, b)
      end
  end.

Section stream.
Context {W : Type} `{Scheduler W}.
Notation M := (ST (DTAP_Stream_Channel * W)).

Context (ch : DTAP_Channel).

Definition get_stream : M DTAP_Stream_Channel := st_gets fst.
Definition upd_stream (f : DTAP_Stream_Channel -> DTAP_Stream_Channel) : M unit :=
  st_modify (fun s => (f (fst s), snd s)).

Definition DP_GetMonoTimeMs : M Z := let! a := over (ask CTimeMs) in st_ret (u64 a).

(** A node with a copy of the buffer, the other fields zero. *)
Definition NewStreamRxNode (buff : SDF_Buff) : M (option StreamRxNode) :=
  let! node := over alloc_ok in
  if negb node then st_ret None
  else
    let! ok := over alloc_ok in
    st_ret (b ← SDF_BuffCopy ok (Some buff); Some (mk_node 0 0 b 0 0 0 0)).

Definition RecvCallback (buff : SDF_Buff) (pi : Z) : M unit :=
  let! stream := get_stream in
  match s_recvCb stream with
  | Some cb => over (recv_cb cb (mk_info pi (ch_lcid ch) (ch_srcTcid ch)) buff) ;;! st_ret tt
  | None => st_ret tt
  end.

Definition StopReorderTimer : M unit :=
  let! stream := get_stream in
  if negb (reorderTimerHandle stream =? INVALID_TIMER_HANDLE) then
    over (CP_TimerDel (reorderTimerHandle stream)) ;;!
    upd_stream (fun s => s <| reorderTimerHandle := INVALID_TIMER_HANDLE |>)
  else st_ret tt.

Definition StartReorderTimer : M unit :=
  let! stream := get_stream in
  if negb (expectedSeq stream =? maxExpectedSeq stream) then
    let! now := DP_GetMonoTimeMs in
    let (minTimeStamp, seq) := earliest (s_rxList stream) now (reorderTxSeq stream) in
    upd_stream (fun s => s <| reorderTxSeq := seq |>) ;;!
    let diff := u64 (now - minTimeStamp) in
    let expires := if s_reorderTimeout stream <? diff then 0 else s_reorderTimeout stream - diff in
    let! (_, t) := over (CP_TimerAdd (reorderTimerHandle stream) ReorderStreamFrameCbk expires false) in
    upd_stream (fun s => s <| reorderTimerHandle := t |>)
  else st_ret tt.

(** [((StreamRxNode * )SDF_DListLast(&stream->rxList))->txSeq].  Of an empty list this
    reads the list's head, inside the channel's own structure, as if it were a node:
    C does not define the value, so the world picks it. *)
Definition last_txSeq : M Z :=
  let! stream := get_stream in
  match last (s_rxList stream) with
  | Some node => st_ret (n_txSeq node)
  | None => over (ask CStrayRead)
  end.

(** [stream->maxExpectedSeq = ...->txSeq + 1] *)
Definition UpdateMaxExpectedSeq : M unit :=
  let! seq := last_txSeq in
  upd_stream (fun s => s <| maxExpectedSeq := u16 (seq + 1) |>).

(** A round of a loop that delivers the node at the front: whether to go on. *)
Definition report_round : M bool :=
  let! stream := get_stream in
  match s_rxList stream with
  | [] => st_ret false
  | node :: rest =>
      if negb (n_txSeq node =? expectedSeq stream) then st_ret false
      else
        RecvCallback (n_buff node) (n_pi node) ;;!
        upd_stream (fun s => s <| s_rxList := rest |>
                               <| expectedSeq ::= DTAP_GetNextFrameSeq |>) ;;!
        st_ret true
  end.

Definition ReportExpectedStreamFrame : M unit :=
  let! stream := get_stream in
  st_while (S (length (s_rxList stream))) report_round.

Definition reorder_round : M bool :=
  let! stream := get_stream in
  match s_rxList stream with
  | [] => st_ret false
  | node :: rest =>
      if negb (DTAP_IsFrameSeqSmaller (n_txSeq node) (reorderTxSeq stream)) then st_ret false
      else
        upd_stream (fun s => s <| expectedSeq := DTAP_GetNextFrameSeq (n_txSeq node) |>) ;;!
        RecvCallback (n_buff node) (n_pi node) ;;!
        upd_stream (fun s => s <| s_rxList := rest |>) ;;!
        st_ret true
  end.

(** [DTAP_ReorderStreamFrameTask] from the channel on that it has found.  The
    pointer it tests after its loop is never null. *)
Definition reorder_task : M unit :=
  upd_stream (fun s => s <| reorderTimerHandle := INVALID_TIMER_HANDLE |>) ;;!
  let! stream := get_stream in
  st_while (S (length (s_rxList stream))) reorder_round ;;!
  ReportExpectedStreamFrame ;;!
  UpdateMaxExpectedSeq ;;!
  StartReorderTimer.

(** What the timer runs: the task is posted to the worker, which may fail. *)
Definition DTAP_ReorderStreamFrameCbk : M unit := over (ask CPostTask) ;;! st_ret tt.

Definition DTAP_RecvStreamFrame (dtapFrame : DTAP_Frame) (recvCb : DTAP_DataRecvCb) : M Z :=
  let! sar := st_opt (header_sar dtapFrame) in
  if negb (sar =? DTAP_SAR_UNSEG) then st_ret DTAP_TRANS_UNSUPPORTED
  else
    upd_stream (fun s => s <| s_recvCb := recvCb |>) ;;!
    let! stream := get_stream in
    if negb (zlen (s_rxList stream) <=? DTAP_STREAM_CACHE_MAX) then st_ret DTAP_TRANS_STREAM_RX_FULL
    else
      let! buff := st_opt (f_buff dtapFrame) in
      let! (ret, buff) := st_opt (BuffCheck dtapFrame stream buff) in
      if negb (ret =? DTAP_SUCCESS) then st_ret ret
      else
        let! seq := st_opt (header_txSeq dtapFrame) in
        if expectedSeq stream =? DTAP_FRAME_SEQ_INIT then
          upd_stream (fun s => s <| expectedSeq := DTAP_GetNextFrameSeq seq |>
                                 <| maxExpectedSeq := DTAP_GetNextFrameSeq seq |>) ;;!
          RecvCallback buff (pi dtapFrame) ;;!
          st_ret DTAP_SUCCESS
        else if seq =? expectedSeq stream then
          RecvCallback buff (pi dtapFrame) ;;!
          upd_stream (fun s => s <| expectedSeq ::= DTAP_GetNextFrameSeq |>) ;;!
          ReportExpectedStreamFrame ;;!
          StopReorderTimer ;;!
          StartReorderTimer ;;!
          st_ret DTAP_SUCCESS
        else if DTAP_IsFrameSeqSmaller seq (expectedSeq stream)
        then st_ret DTAP_TRANS_STREAM_RECV_DUPLICATED_ERR
        else
          match FindStreamRxNode (s_rxList stream) seq with
          | Some _ => st_ret DTAP_TRANS_STREAM_RECV_DUPLICATED_ERR
          | None =>
              let! node := NewStreamRxNode buff in
              match node with
              | None => st_ret DTAP_TRANS_MALLOC_ERR
              | Some node =>
                  let! now := DP_GetMonoTimeMs in
                  let node := mk_node sar seq (n_buff node) now (pi dtapFrame) (ch_lcid ch)
                                (ch_srcTcid ch) in
                  upd_stream (fun s => s <| s_rxList ::= fun l => InsertStreamRxNode l node |>) ;;!
                  UpdateMaxExpectedSeq ;;!
                  let! stream := get_stream in
                  (if reorderTimerHandle stream =? INVALID_TIMER_HANDLE then StartReorderTimer
                   else st_ret tt) ;;!
                  st_ret DTAP_SUCCESS
              end
          end.

Definition DTAP_SendStreamFrame (pi : Z) (buff : SDF_Buff) : M Z :=
  let tcid := if ch_castMode ch =? DTAP_FRAME_BROADCAST then ch_srcTcid ch else ch_dstTcid ch in
  let! stream := get_stream in
  if SDF_DataLenGet buff <=? ch_mtu ch then
    let! (ret, stream, buff) := st_opt (DTAP_PackStreamFrame stream tcid pi buff DTAP_SAR_UNSEG) in
    upd_stream (fun _ => stream) ;;!
    if negb (ret =? DTAP_SUCCESS) then st_ret ret
    else over (DTAP_SendFrame ch (Some buff))
  else st_ret DTAP_TRANS_UNSUPPORTED.
End stream.
