(* ===== verification/DtapStreamProps.v ===== *)
(** * Stream transmission: what it guarantees

    The specification is a buffer [reorder_recv] that holds the frames received ahead
    of the expected one in a finite map from sequence numbers.  The receiver of
    [DtapStream] implements it with a list in the order of the numbers; the numbers
    are 14 bits wide and wrap, so the proofs read the list through unbounded ones.
    Proved of every run are safety and delivery in order; of a run after a loss, that
    the code never gets over it. *)
From Stdlib Require Import Sorted.
From S2P Require Import Prelude Utils SdfErrno SdfBuff DtapEnv DtapFrame DtapTrans DtapStream.

(** ** Specification *)

(** A packet for the upper layer: the protocol identifier and the payload. *)
Definition item : Type := Z * bytes.

(** The frames held from number [e] on, without a gap: what is handed up, the next
    number expected, what is still held. *)
Fixpoint consecutive (fuel : nat) (e : Z) (held : gmap Z item) : list (Z * item) * Z * gmap Z item :=
  match fuel with
  | O => ([], e, held)
  | Datatypes.S fuel' =>
      match held !! e with
      | None => ([], e, held)
      | Some x =>
          let '(out, e', held') := consecutive fuel' (DTAP_GetNextFrameSeq e) (delete e held) in
          ((e, x) :: out, e', held')
      end
  end.

(** Receiving frame [q] with contents [x] while [e] is expected: the status, what is
    handed up, the next number expected, what is held. *)
Definition reorder_recv (e : Z) (held : gmap Z item) (q : Z) (x : item) :
    Z * list (Z * item) * Z * gmap Z item :=
  if e =? DTAP_FRAME_SEQ_INIT then (DTAP_SUCCESS, [(q, x)], DTAP_GetNextFrameSeq q, held)
  else if q =? e then
    let '(out, e', held') := consecutive (size held) (DTAP_GetNextFrameSeq e) held in
    (DTAP_SUCCESS, (q, x) :: out, e', held')
  else if DTAP_IsFrameSeqSmaller q e || bool_decide (is_Some (held !! q))
  then (DTAP_TRANS_STREAM_RECV_DUPLICATED_ERR, [], e, held)
  else (DTAP_SUCCESS, [], e, <[q := x]> held).

(** Numbers handed up from [e] on: each is expected or follows by less than half of
    the numbers. *)
Fixpoint in_order (e : Z) (qs : list Z) : Prop :=
  match qs with
  | [] => True
  | q :: qs' => (e = DTAP_FRAME_SEQ_INIT \/ DTAP_IsFrameSeqSmaller q e = false)
                /\ in_order (DTAP_GetNextFrameSeq q) qs'
  end.
(** The number expected after that. *)
Definition after (e : Z) (qs : list Z) : Z :=
  match last qs with Some q => DTAP_GetNextFrameSeq q | None => e end.

(** ** What a channel holds *)
Definition node_item (node : StreamRxNode) : Z * item :=
  (n_txSeq node, (n_pi node, buff_data (n_buff node))).
Definition held_in (l : list StreamRxNode) : gmap Z item := list_to_map (node_item <$> l).
Definition held (s : DTAP_Stream_Channel) : gmap Z item := held_in (s_rxList s).

(** The unbounded numbers [ns] of the nodes [l]: increasing, within half of the
    14-bit numbers from [e]. *)
Definition numbered (e : Z) (ns : list Z) (l : list StreamRxNode) : Prop :=
  Forall2 (fun n node => n_txSeq node = seq14 n) ns l /\
  StronglySorted Z.lt ns /\ Forall (fun n => e <= n < e + 8192) ns.

Record stream_inv (s : DTAP_Stream_Channel) : Prop := {
  si_crc : is_u16 (s_crcInit s);
  si_size : zlen (s_rxList s) <= DTAP_STREAM_CACHE_MAX + 1;
  si_tx : 0 <= frameTxSeq s <= DTAP_FRAME_SEQ_MAX;
  si_order : (expectedSeq s = DTAP_FRAME_SEQ_INIT /\ s_rxList s = []) \/
    exists e ns, expectedSeq s = seq14 e /\ numbered e ns (s_rxList s) /\ Forall (Z.lt e) ns
}.

(** ** Lemmas: numbers and lists *)
Lemma Forall_both {A} (P Q R : A -> Prop) l :
  Forall P l -> Forall Q l -> (forall x, P x -> Q x -> R x) -> Forall R l.
Proof. rewrite !Forall_forall. naive_solver. Qed.

Lemma seq14_not_init e : seq14 e <> DTAP_FRAME_SEQ_INIT.
Proof. pose proof (seq14_range e). unfold DTAP_FRAME_SEQ_MAX, DTAP_FRAME_SEQ_INIT in *. lia. Qed.

Lemma seq14_eqb_init e : (seq14 e =? DTAP_FRAME_SEQ_INIT) = false.
Proof. apply Z.eqb_neq, seq14_not_init. Qed.

Lemma seq14_id q : 0 <= q <= DTAP_FRAME_SEQ_MAX -> seq14 q = q.
Proof. intros. unfold DTAP_FRAME_SEQ_MAX in *. apply Z.mod_small. lia. Qed.

(** Every 14-bit number has one reading within a turn from [e]. *)
Lemma seq14_lift e q :
  0 <= q <= DTAP_FRAME_SEQ_MAX -> exists n, seq14 n = q /\ e - 8192 <= n < e + 8192.
Proof.
  intros Hq. unfold DTAP_FRAME_SEQ_MAX in *. exists (e - 8192 + (q - (e - 8192)) mod 16384).
  unfold seq14. split; Z.div_mod_to_equations; lia.
Qed.

Lemma not_smaller_forward e n :
  e <= n < e + 8192 -> DTAP_IsFrameSeqSmaller (seq14 n) (seq14 e) = false.
Proof.
  intros Hn. rewrite smaller_spec, Z.mod_small by lia. apply Z.leb_gt. lia.
Qed.

Lemma smaller_backward e n :
  e - 8192 <= n < e -> DTAP_IsFrameSeqSmaller (seq14 n) (seq14 e) = true.
Proof.
  intros Hn. rewrite smaller_spec. apply Z.leb_le.
  replace ((n - e) mod 16384) with (n - e + 16384); [lia|].
  Z.div_mod_to_equations; lia.
Qed.

Lemma numbered_nil e : numbered e [] [].
Proof. split_and!; constructor. Qed.

Lemma numbered_cons e n ns node l :
  numbered e (n :: ns) (node :: l) <->
  n_txSeq node = seq14 n /\ e <= n < e + 8192 /\ Forall (fun m => n < m < e + 8192) ns /\
  numbered e ns l.
Proof.
  unfold numbered. rewrite Forall2_cons, !Forall_cons. split.
  - intros ([? ?]&Hs&?&Hr). apply StronglySorted_inv in Hs as [? Hlt]. split_and!; try done; try lia.
    eapply Forall_both; [exact Hlt|exact Hr|]. cbn. lia.
  - intros (?&?&Hlt&?&?&?). split_and!; try done; try lia. constructor; [done|].
    eapply Forall_impl; [exact Hlt|]. cbn. lia.
Qed.

Lemma numbered_from e e' ns l :
  numbered e ns l -> e <= e' -> Forall (fun n => e' <= n) ns -> numbered e' ns l.
Proof.
  intros (?&?&Hr) He Hge. split_and!; [done..|].
  eapply Forall_both; [exact Hge|exact Hr|]. cbn. lia.
Qed.

Lemma numbered_key e ns l q :
  numbered e ns l -> q ∈ n_txSeq <$> l -> exists n, n ∈ ns /\ q = seq14 n /\ e <= n < e + 8192.
Proof.
  intros (H2&_&Hr). induction H2 as [|n node ns l Hn H2 IH]; [by intros ?%elem_of_nil|].
  apply Forall_cons in Hr as [? Hr]. cbn. intros [->|Hq]%elem_of_cons.
  - exists n. split; [constructor|]. done.
  - destruct (IH Hr Hq) as (m&?&?). exists m. split; [by constructor|done].
Qed.

Lemma numbered_NoDup e ns l : numbered e ns l -> NoDup (n_txSeq <$> l).
Proof.
  revert e ns. induction l as [|node l IH]; intros e ns Hn; [apply NoDup_nil_2|].
  destruct ns as [|n ns]; [by destruct Hn as [[]%Forall2_nil_cons_inv]|].
  apply numbered_cons in Hn as (Hq&He&Hlt&Hn). cbn. constructor; [|by eapply IH].
  intros Hin. destruct (numbered_key _ _ _ _ Hn Hin) as (m&Hm&Heq&?).
  rewrite Forall_forall in Hlt. specialize (Hlt m Hm).
  rewrite Hq in Heq. apply seq14_inj in Heq; lia.
Qed.

Lemma held_keys l : (node_item <$> l).*1 = n_txSeq <$> l.
Proof. rewrite <- list_fmap_compose. done. Qed.

Lemma held_cons node l : held_in (node :: l) = <[n_txSeq node := (n_pi node, buff_data (n_buff node))]> (held_in l).
Proof. done. Qed.

Lemma held_None l q : held_in l !! q = None <-> q ∉ n_txSeq <$> l.
Proof.
  unfold held_in. rewrite <- held_keys. split; [apply not_elem_of_list_to_map_2|apply not_elem_of_list_to_map_1].
Qed.

Lemma held_find l q : is_Some (held_in l !! q) <-> is_Some (FindStreamRxNode l q).
Proof.
  induction l as [|node l IH].
  - unfold held_in. cbn. rewrite lookup_empty. split; by intros [].
  - rewrite held_cons. unfold FindStreamRxNode in *. cbn [find_first]. destruct (Z.eqb_spec (n_txSeq node) q) as [->|Hne].
    + rewrite lookup_insert_eq. split; by eauto.
    + by rewrite lookup_insert_ne by done.
Qed.

Lemma held_size l : NoDup (n_txSeq <$> l) -> size (held_in l) = length l.
Proof.
  intros Hd. unfold held_in. rewrite map_size_list_to_map by (by rewrite held_keys).
  apply length_fmap.
Qed.

Lemma insert_perm l node : InsertStreamRxNode l node ≡ₚ node :: l.
Proof.
  induction l as [|cur l IH]; cbn; [done|]. destruct (DTAP_IsFrameSeqSmaller _ _); [done|].
  rewrite IH. constructor.
Qed.

Lemma held_insert l node :
  NoDup (n_txSeq <$> l) -> n_txSeq node ∉ n_txSeq <$> l ->
  held_in (InsertStreamRxNode l node)
  = <[n_txSeq node := (n_pi node, buff_data (n_buff node))]> (held_in l).
Proof.
  intros Hd Hnew. rewrite <- held_cons. unfold held_in. apply list_to_map_proper.
  - rewrite held_keys, (insert_perm l node). cbn. by constructor.
  - by rewrite (insert_perm l node).
Qed.

(** The insertion keeps the order. *)
Lemma numbered_insert e ns l node n :
  numbered e ns l -> n_txSeq node = seq14 n -> e <= n < e + 8192 -> n ∉ ns ->
  exists ns', numbered e ns' (InsertStreamRxNode l node).
Proof.
  revert ns. induction l as [|cur l IH]; intros [|m ns] Hl Hq Hn Hnew.
  - exists [n]. cbn. apply numbered_cons. split_and!; (done || lia || apply numbered_nil || constructor).
  - by destruct Hl as [[]%Forall2_cons_nil_inv].
  - by destruct Hl as [[]%Forall2_nil_cons_inv].
  - pose proof Hl as Hl0. apply numbered_cons in Hl as (Hm&Hme&Hlt&Hl).
    apply not_elem_of_cons in Hnew as [Hnm Hnew]. cbn [InsertStreamRxNode].
    rewrite Hq, Hm, smaller_near by lia. destruct (Z.ltb_spec n m).
    + exists (n :: m :: ns). apply numbered_cons. split_and!; try done; try lia.
      constructor; [lia|]. eapply Forall_impl; [exact Hlt|]. cbn. lia.
    + destruct (IH ns Hl Hq Hn Hnew) as [ns' Hns']. exists (m :: ns').
      apply numbered_cons. split_and!; try done; try lia.
      destruct Hns' as (H2&Hs&Hr). apply Forall_forall. intros k Hk.
      rewrite Forall_forall in Hr. pose proof (Hr k Hk). split; [|lia].
      apply (list_elem_of_lookup_1 ns') in Hk as [i Hi].
      destruct (Forall2_lookup_l _ _ _ _ _ H2 Hi) as (nd&Hnd&Hndq).
      apply list_elem_of_lookup_2 in Hnd. rewrite (insert_perm l node) in Hnd.
      apply elem_of_cons in Hnd as [->|Hnd].
      * rewrite Hq in Hndq. apply seq14_inj in Hndq; lia.
      * destruct (numbered_key e ns l (n_txSeq nd) Hl) as (k'&Hk'&Heq&?).
        { by apply list_elem_of_fmap_2. }
        rewrite Hndq in Heq. apply seq14_inj in Heq; [|lia]. subst k'.
        rewrite Forall_forall in Hlt. specialize (Hlt k Hk'). lia.
Qed.

(** The specification's walk over the map, as a walk over the list. *)
Lemma consecutive_list e ns l k :
  numbered e ns l -> take k ns = seqZ e (Z.of_nat k) -> Forall (fun n => e + Z.of_nat k < n) (drop k ns) ->
  (k <= length l)%nat ->
  consecutive (length l) (seq14 e) (held_in l)
  = (node_item <$> take k l, seq14 (e + Z.of_nat k), held_in (drop k l)).
Proof.
  revert e ns l. induction k as [|k IH]; intros e ns l Hn Htk Hgt Hk.
  - rewrite drop_0, Z.add_0_r in *. destruct l as [|node l]; [done|]. cbn [length consecutive].
    assert (held_in (node :: l) !! seq14 e = None) as ->; [|done].
    apply held_None. intros Hin. destruct (numbered_key _ _ _ _ Hn Hin) as (n&Hin'&Heq&?).
    rewrite Forall_forall in Hgt. specialize (Hgt n Hin'). apply seq14_inj in Heq; lia.
  - destruct l as [|node l]; [cbn in Hk; lia|].
    destruct ns as [|n ns]; [by destruct Hn as [[]%Forall2_nil_cons_inv]|].
    rewrite seqZ_cons in Htk by lia. cbn [take] in Htk. injection Htk as -> Htk.
    pose proof (numbered_NoDup _ _ _ Hn) as Hd. cbn in Hd. apply NoDup_cons in Hd as [Hnew _].
    apply numbered_cons in Hn as (Hq&_&Hlt&Hn). cbn [length consecutive].
    rewrite held_cons, Hq, lookup_insert_eq, delete_insert_id by (apply held_None; by rewrite <- Hq).
    rewrite next_seq14. change (e + 1) with (Z.succ e).
    rewrite (IH (Z.succ e) ns l).
    + rewrite <- Hq. cbn [take drop fmap list_fmap]. do 2 f_equal. f_equal. lia.
    + eapply numbered_from; [exact Hn|lia|]. eapply Forall_impl; [exact Hlt|]. cbn. lia.
    + rewrite Htk. f_equal; lia.
    + eapply Forall_impl; [exact Hgt|]. cbn. lia.
    + cbn in Hk. lia.
Qed.

Lemma consecutive_perm fuel e m out e' m' :
  consecutive fuel e m = (out, e', m') -> out ++ map_to_list m' ≡ₚ map_to_list m.
Proof.
  revert e m out e' m'. induction fuel as [|fuel IH]; intros e m out e' m'; cbn; [by intros [= <- _ <-]|].
  destruct (m !! e) as [x|] eqn:Hx; [|by intros [= <- _ <-]].
  destruct (consecutive fuel _ (delete e m)) as [[out1 e1] m1] eqn:E. intros [= <- _ <-].
  cbn. rewrite (IH _ _ _ _ _ E). by apply map_to_list_delete.
Qed.

Lemma after_cons e q qs : after e (q :: qs) = after (DTAP_GetNextFrameSeq q) qs.
Proof. unfold after. rewrite last_cons. by destruct (last qs). Qed.

Lemma after_app e qs1 qs2 : after e (qs1 ++ qs2) = after (after e qs1) qs2.
Proof. revert e. induction qs1 as [|q qs1 IH]; intros e; [done|]. cbn [app]. rewrite !after_cons. apply IH. Qed.

Lemma held_order_app e qs1 qs2 :
  in_order e qs1 -> in_order (after e qs1) qs2 -> in_order e (qs1 ++ qs2).
Proof.
  revert e. induction qs1 as [|q qs1 IH]; intros e; [done|]. cbn [app in_order]. rewrite after_cons.
  intros [? ?] ?. split; [done|]. by apply IH.
Qed.

Lemma consecutive_order fuel e n m out e' m' :
  consecutive fuel e m = (out, e', m') -> e = seq14 n -> in_order e out.*1 /\ e' = after e out.*1.
Proof.
  revert e n m out e' m'. induction fuel as [|fuel IH]; intros e n m out e' m'; cbn; [by intros [= <- <- _] ->|].
  destruct (m !! e) as [x|] eqn:Hx; [|by intros [= <- <- _] ->].
  destruct (consecutive fuel _ (delete e m)) as [[out1 e1] m1] eqn:E. intros [= <- <- _] ->.
  rewrite next_seq14 in E. destruct (IH _ (n + 1) _ _ _ _ E eq_refl) as [Ho ->].
  cbn [fmap list_fmap fst in_order]. rewrite after_cons, next_seq14. split; [|done]. split; [|done].
  right. apply not_smaller_forward. lia.
Qed.

(** ** Lemmas: what reaches the upper layer *)
Section proofs.
Context {W : Type} `{Scheduler W}.
Context (ch : DTAP_Channel).
Implicit Types (s : DTAP_Stream_Channel) (w : W).

(** [out] as the calls of a callback, if there is one. *)
Definition handed (cb : DTAP_DataRecvCb) (out : list (Z * item)) : list (Z * DTAP_Data_Info * bytes) :=
  match cb with
  | Some cb => (fun '(_, (p, d)) => (cb, mk_info p (ch_lcid ch) (ch_srcTcid ch), d)) <$> out
  | None => []
  end.

(** From [w] to [w'] the callback was given [out] and nothing else. *)
Definition gave (cb : DTAP_DataRecvCb) w w' (out : list (Z * item)) : Prop :=
  sched_ok ch w' /\ exists t, trace w' = trace w ++ t /\ delivered_to t = handed cb out.

Lemma handed_app cb o1 o2 : handed cb (o1 ++ o2) = handed cb o1 ++ handed cb o2.
Proof. destruct cb; cbn; [apply fmap_app|done]. Qed.
Lemma handed_nil cb : handed cb [] = [].
Proof. by destruct cb. Qed.

Lemma gave_ok cb w w' out : gave cb w w' out -> sched_ok ch w'.
Proof. by intros []. Qed.
Lemma gave_trans cb w1 w2 w3 o1 o2 :
  gave cb w1 w2 o1 -> gave cb w2 w3 o2 -> gave cb w1 w3 (o1 ++ o2).
Proof.
  intros [_ (t1&E1&D1)] [Hok (t2&E2&D2)]. split; [done|]. exists (t1 ++ t2).
  by rewrite E2, E1, delivered_to_app, handed_app, D1, D2, app_assoc.
Qed.
Lemma calm_gave cb w w' : calm ch w w' -> gave cb w w' [].
Proof.
  intros [Hok (t&E&Hq)]. split; [done|]. exists t. split; [done|].
  rewrite handed_nil. by apply quiet_delivered.
Qed.
Lemma gave_calm cb w1 w2 w3 out : gave cb w1 w2 out -> calm ch w2 w3 -> gave cb w1 w3 out.
Proof. intros H1 H2. rewrite <- (app_nil_r out). eapply gave_trans; [done|by apply calm_gave]. Qed.
Lemma calm_gave_trans cb w1 w2 w3 out : calm ch w1 w2 -> gave cb w2 w3 out -> gave cb w1 w3 out.
Proof. intros H1 H2. apply (gave_trans cb w1 w2 w3 []); [by apply calm_gave|done]. Qed.
Lemma gave_refl cb w : sched_ok ch w -> gave cb w w [].
Proof. intros. by apply calm_gave, calm_refl. Qed.

Lemma wp_get_stream s w (Q : _ -> _ -> Prop) : Q s (s, w) -> wp get_stream (s, w) Q.
Proof. done. Qed.
Lemma wp_upd_stream f s w (Q : unit -> _ -> Prop) : Q tt (f s, w) -> wp (upd_stream f) (s, w) Q.
Proof. done. Qed.

Lemma wp_recv_callback b p s w (Q : unit -> _ -> Prop) q :
  sched_ok ch w ->
  (forall w', gave (s_recvCb s) w w' [(q, (p, buff_data b))] -> Q tt (s, w')) ->
  wp (RecvCallback ch b p) (s, w) Q.
Proof.
  intros Hok HQ. unfold RecvCallback. apply wp_bind, wp_get_stream.
  destruct (s_recvCb s) as [cb|].
  - apply wp_bind, wp_over. unfold recv_cb.
    assert (wp (ask (CRecv cb (mk_info p (ch_lcid ch) (ch_srcTcid ch)) (buff_data b))) w
      (fun a w' => sched_ok ch w' /\ trace w' = trace w ++ [(CRecv cb (mk_info p (ch_lcid ch) (ch_srcTcid ch)) (buff_data b), a)])) as Hask.
    { destruct (ask_total (CRecv cb (mk_info p (ch_lcid ch) (ch_srcTcid ch)) (buff_data b)) w) as (a&w'&Ha&Ht).
      unfold wp. rewrite Ha. split; [by eapply sched_ask|done]. }
    eapply wp_mono; [exact Hask|]. intros a w' [Hok' Ht]. apply wp_ret, HQ.
    split; [done|]. by eexists.
  - apply wp_ret, HQ. split; [done|]. exists []. by rewrite app_nil_r.
Qed.

Lemma wp_stop_reorder s w (Q : unit -> _ -> Prop) :
  sched_ok ch w ->
  (forall w', calm ch w w' -> Q tt (s <| reorderTimerHandle := INVALID_TIMER_HANDLE |>, w')) ->
  wp StopReorderTimer (s, w) Q.
Proof.
  intros Hok HQ. unfold StopReorderTimer. apply wp_bind, wp_get_stream.
  destruct (Z.eqb_spec (reorderTimerHandle s) INVALID_TIMER_HANDLE) as [Heq|]; cbn [negb].
  - apply wp_ret. specialize (HQ w (calm_refl ch w Hok)). rewrite <- Heq in HQ. by destruct s.
  - apply wp_bind, wp_over. unfold CP_TimerDel. apply wp_bind, (wp_ask_calm ch); [done..|].
    intros a w' Hc. apply wp_ret, wp_upd_stream. auto.
Qed.

Lemma wp_update_max s w (Q : unit -> _ -> Prop) :
  sched_ok ch w -> (forall m w', calm ch w w' -> Q tt (s <| maxExpectedSeq := m |>, w')) ->
  wp UpdateMaxExpectedSeq (s, w) Q.
Proof.
  intros Hok HQ. unfold UpdateMaxExpectedSeq, last_txSeq. apply wp_bind, wp_bind, wp_get_stream.
  destruct (last (s_rxList s)) as [node|].
  - apply wp_ret, wp_upd_stream, HQ. by apply calm_refl.
  - apply wp_over, (wp_ask_calm ch); [done..|]. intros a w' Hc. by apply wp_upd_stream, HQ.
Qed.

Lemma wp_time s w (Q : Z -> _ -> Prop) :
  sched_ok ch w ->
  (forall a w', calm ch w w' -> trace w' = trace w ++ [(CTimeMs, a)] -> Q (u64 a) (s, w')) ->
  wp DP_GetMonoTimeMs (s, w) Q.
Proof.
  intros Hok HQ. unfold DP_GetMonoTimeMs. apply wp_bind, wp_over.
  destruct (ask_total CTimeMs w) as (a&w'&Ha&Ht). unfold wp. rewrite Ha. apply HQ; [|done].
  split; [by eapply sched_ask|]. by apply (quiet_snoc w w' CTimeMs a).
Qed.

(** ** Lemmas: the operations *)

(** [StartReorderTimer] sets the mark the timer waits for and the timer. *)
Definition rearmed s s' : Prop := exists mark timer,
  s' = s <| reorderTxSeq := mark |> <| reorderTimerHandle := timer |> /\
  (mark = reorderTxSeq s \/ exists now, mark = (earliest (s_rxList s) now (reorderTxSeq s)).2).

Lemma rearmed_refl s : rearmed s s.
Proof. exists (reorderTxSeq s), (reorderTimerHandle s). split; [by destruct s|by left]. Qed.

Lemma wp_start_reorder s w (Q : unit -> _ -> Prop) :
  sched_ok ch w -> (forall s' w', calm ch w w' -> rearmed s s' -> Q tt (s', w')) ->
  wp StartReorderTimer (s, w) Q.
Proof.
  intros Hok HQ. unfold StartReorderTimer. apply wp_bind, wp_get_stream.
  destruct (negb _); [|by apply wp_ret, HQ; [apply calm_refl|apply rearmed_refl]].
  apply wp_bind, wp_time; [done|]. intros a w1 Hc1 _.
  destruct (earliest _ _ _) as [m q] eqn:E. apply wp_bind, wp_upd_stream.
  apply wp_bind, wp_over. unfold CP_TimerAdd. apply wp_bind, (wp_ask_calm ch); [done|by eapply calm_ok|].
  intros a2 w2 Hc2. apply wp_ret. destruct (0 <? a2); apply wp_upd_stream, HQ;
    try by eapply calm_trans.
  all: eexists q, _; split; [reflexivity|]; right; exists (u64 a); by rewrite E.
Qed.

(** The walk over the list hands up what follows without a gap. *)
Lemma wp_report e ns s w fuel (Q : unit -> _ -> Prop) :
  sched_ok ch w -> expectedSeq s = seq14 e -> numbered e ns (s_rxList s) ->
  (length (s_rxList s) < fuel)%nat ->
  (forall k w', (k <= length (s_rxList s))%nat ->
     take k ns = seqZ e (Z.of_nat k) -> Forall (fun n => e + Z.of_nat k < n) (drop k ns) ->
     gave (s_recvCb s) w w' (node_item <$> take k (s_rxList s)) ->
     Q tt (s <| s_rxList := drop k (s_rxList s) |> <| expectedSeq := seq14 (e + Z.of_nat k) |>, w')) ->
  wp (st_while fuel (report_round ch)) (s, w) Q.
Proof.
  revert e ns s w. induction fuel as [|fuel IH]; intros e ns s w Hok He Hn Hfuel HQ; [lia|].
  assert (forall w', gave (s_recvCb s) w w' [] -> Forall (fun n => e < n) ns -> Q tt (s, w')) as Hstop.
  { intros w' Hg Hgt. specialize (HQ 0%nat w'). rewrite take_0, drop_0, Z.add_0_r in HQ.
    destruct s; cbn in *. subst. apply HQ; (done || lia). }
  cbn [st_while]. apply wp_bind, wp_bind, wp_get_stream.
  destruct (s_rxList s) as [|node l] eqn:El.
  { destruct ns; [|by destruct Hn as [[]%Forall2_cons_nil_inv]].
    apply wp_ret, wp_ret, Hstop; [by apply gave_refl|constructor]. }
  destruct ns as [|n ns]; [by destruct Hn as [[]%Forall2_nil_cons_inv]|].
  apply numbered_cons in Hn as (Hq&Hr&Hlt&Hn). rewrite Hq, He, seq14_eqb by lia.
  destruct (Z.eqb_spec n e) as [->|Hne]; cbn [negb].
  - apply wp_bind, (wp_recv_callback _ _ _ _ _ (n_txSeq node)); [done|]. intros w1 Hg1.
    apply wp_bind, wp_upd_stream, wp_ret.
    apply (IH (e + 1) ns); cbn in *; [by eapply gave_ok|by rewrite He, next_seq14| |lia|].
    { eapply numbered_from; [exact Hn|lia|]. eapply Forall_impl; [exact Hlt|]. cbn. lia. }
    intros k w2 Hk Htk Hgt Hg2. specialize (HQ (Datatypes.S k) w2). cbn in HQ.
    replace (e + 1 + Z.of_nat k) with (e + Z.of_nat (Datatypes.S k)) in * by lia.
    apply HQ; [lia| |done|].
    + rewrite seqZ_cons, Htk by lia. do 2 f_equal; lia.
    + by eapply gave_trans in Hg2; [|exact Hg1].
  - apply wp_ret, wp_ret, Hstop; [by apply gave_refl|]. constructor; [lia|].
    eapply Forall_impl; [exact Hlt|]. cbn. lia.
Qed.

(** The walk of the reordering task gives up the numbers before the mark. *)
Lemma wp_give_up e ns s w fuel (Q : unit -> _ -> Prop) :
  sched_ok ch w -> expectedSeq s = seq14 e -> numbered e ns (s_rxList s) ->
  (length (s_rxList s) < fuel)%nat ->
  (forall k e' w', (k <= length (s_rxList s))%nat -> e <= e' ->
     numbered e' (drop k ns) (drop k (s_rxList s)) ->
     in_order (seq14 e) (n_txSeq <$> take k (s_rxList s)) ->
     after (seq14 e) (n_txSeq <$> take k (s_rxList s)) = seq14 e' ->
     gave (s_recvCb s) w w' (node_item <$> take k (s_rxList s)) ->
     Q tt (s <| s_rxList := drop k (s_rxList s) |> <| expectedSeq := seq14 e' |>, w')) ->
  wp (st_while fuel (reorder_round ch)) (s, w) Q.
Proof.
  revert e ns s w. induction fuel as [|fuel IH]; intros e ns s w Hok He Hn Hfuel HQ; [lia|].
  assert (forall w', gave (s_recvCb s) w w' [] -> Q tt (s, w')) as Hstop.
  { intros w' Hg. specialize (HQ 0%nat e w'). rewrite take_0, !drop_0 in HQ.
    destruct s; cbn in *. subst. apply HQ; (done || lia). }
  cbn [st_while]. apply wp_bind, wp_bind, wp_get_stream.
  destruct (s_rxList s) as [|node l] eqn:El; [by apply wp_ret, wp_ret, Hstop, gave_refl|].
  destruct ns as [|n ns]; [by destruct Hn as [[]%Forall2_nil_cons_inv]|].
  destruct (negb _); [by apply wp_ret, wp_ret, Hstop, gave_refl|].
  apply numbered_cons in Hn as (Hq&Hr&Hlt&Hn). rewrite Hq, next_seq14.
  apply wp_bind, wp_upd_stream, wp_bind, (wp_recv_callback _ _ _ _ _ (n_txSeq node)); [done|].
  intros w1 Hg1. cbn [s_recvCb] in Hg1. apply wp_bind, wp_upd_stream, wp_ret.
  apply (IH (n + 1) ns); cbn; [by eapply gave_ok|done| |cbn in Hfuel; lia|].
  { eapply numbered_from; [exact Hn|lia|]. eapply Forall_impl; [exact Hlt|]. cbn. lia. }
  intros k e' w2 Hk He' Hn' Hord Haft Hg2. apply (HQ (Datatypes.S k) e' w2); cbn; [lia|lia|done| | |].
  - rewrite Hq, next_seq14. split; [|done]. right. apply not_smaller_forward. lia.
  - by rewrite after_cons, Hq, next_seq14.
  - by eapply gave_trans in Hg2; [|exact Hg1].
Qed.

(** What stays the same when packets are handed up and the timer is set. *)
Definition same_conf s s' : Prop :=
  s_crcInit s' = s_crcInit s /\ frameTxSeq s' = frameTxSeq s.

Lemma inv_intro s s' e ns :
  stream_inv s -> same_conf s s' -> zlen (s_rxList s') <= DTAP_STREAM_CACHE_MAX + 1 ->
  expectedSeq s' = seq14 e -> numbered e ns (s_rxList s') -> Forall (Z.lt e) ns -> stream_inv s'.
Proof.
  intros [] [Ec Ef] Hl He Hn Hgt. constructor; [by rewrite Ec|done|by rewrite Ef|right; by exists e, ns].
Qed.

Lemma rearmed_same s s' :
  rearmed s s' -> s_rxList s' = s_rxList s /\ expectedSeq s' = expectedSeq s /\
    s_recvCb s' = s_recvCb s /\ same_conf s s'.
Proof. intros (q&h&->&_). done. Qed.

(** [ReportExpectedStreamFrame] against the specification. *)
Lemma wp_report_expected e ns s w (Q : unit -> _ -> Prop) :
  sched_ok ch w -> expectedSeq s = seq14 e -> numbered e ns (s_rxList s) ->
  (forall l' e' ns' out w',
     consecutive (size (held s)) (seq14 e) (held s) = (out, seq14 e', held_in l') ->
     (length l' <= length (s_rxList s))%nat -> numbered e' ns' l' -> Forall (Z.lt e') ns' ->
     (l' = s_rxList s /\ out = [] /\ e' = e \/ n_txSeq <$> take 1 (s_rxList s) = [seq14 e]) ->
     gave (s_recvCb s) w w' out ->
     Q tt (s <| s_rxList := l' |> <| expectedSeq := seq14 e' |>, w')) ->
  wp (ReportExpectedStreamFrame ch) (s, w) Q.
Proof.
  intros Hok He Hn HQ. unfold ReportExpectedStreamFrame. apply wp_bind, wp_get_stream.
  apply (wp_report e ns); [done..|lia|]. intros k w' Hk Htk Hgt Hg.
  apply (HQ _ _ (drop k ns) (node_item <$> take k (s_rxList s))); [| | |done| |done].
  - unfold held. rewrite held_size by (by eapply numbered_NoDup).
    by apply (consecutive_list e ns).
  - rewrite length_drop. lia.
  - destruct Hn as (H2&Hs&Hr). split_and!.
    + by apply Forall2_drop.
    + clear -Hs. revert ns Hs. induction k as [|k IH]; intros [|n ns] Hs; [done..|].
      cbn. apply IH. by apply StronglySorted_inv in Hs as [? _].
    + eapply Forall_both; [exact Hgt|apply Forall_drop; exact Hr|]. cbn. lia.
  - destruct k as [|k]; [left; rewrite drop_0, Z.add_0_r; done|right].
    destruct ns as [|n ns]; [by rewrite seqZ_cons in Htk by lia|].
    rewrite seqZ_cons in Htk by lia. cbn in Htk. injection Htk as -> _.
    destruct (s_rxList s) as [|node l]; [by destruct Hn as [[]%Forall2_cons_nil_inv]|].
    apply numbered_cons in Hn as (Hq&_). cbn. by rewrite Hq.
Qed.

Lemma held_list l : NoDup (n_txSeq <$> l) -> map_to_list (held_in l) ≡ₚ node_item <$> l.
Proof. intros Hd. apply map_to_list_to_map. by rewrite held_keys. Qed.

Lemma out_keys l : (node_item <$> l).*1 = n_txSeq <$> l.
Proof. apply held_keys. Qed.

(** What a step does to the receiver: what it hands up, in order, it held before or
    received as [arrived]. *)
Record stepped (arrived : list (Z * item)) s s' w w' (out : list (Z * item)) : Prop := {
  sp_inv : stream_inv s';
  sp_crc : s_crcInit s' = s_crcInit s;
  sp_gave : gave (s_recvCb s') w w' out;
  sp_order : in_order (expectedSeq s) out.*1;
  sp_after : expectedSeq s' = after (expectedSeq s) out.*1;
  sp_items : out ++ map_to_list (held s') ≡ₚ map_to_list (held s) ++ arrived
}.

Lemma wp_reorder_task s w (Q : unit -> _ -> Prop) :
  sched_ok ch w -> stream_inv s ->
  (forall s' w' out, stepped [] s s' w w' out -> s_recvCb s' = s_recvCb s -> Q tt (s', w')) ->
  wp (reorder_task ch) (s, w) Q.
Proof.
  intros Hok Hinv HQ. unfold reorder_task.
  apply wp_bind, wp_upd_stream, wp_bind, wp_get_stream, wp_bind.
  pose proof (si_size s Hinv) as Hsize. destruct (si_order s Hinv) as [[He Hl]|(e&ns&He&Hn)].
  - cbn [s_rxList modify]. rewrite Hl. cbn [length st_while]. apply wp_bind, wp_bind, wp_get_stream.
    cbn [s_rxList modify]. rewrite Hl. apply wp_ret, wp_ret, wp_bind. unfold ReportExpectedStreamFrame.
    apply wp_bind, wp_get_stream. cbn [s_rxList modify]. rewrite Hl. cbn [length st_while].
    apply wp_bind, wp_bind, wp_get_stream. cbn [s_rxList modify]. rewrite Hl. apply wp_ret, wp_ret.
    apply wp_bind, wp_update_max; [done|]. intros m w1 Hc1.
    apply wp_start_reorder; [by eapply calm_ok|]. intros s' w' Hc2 Hre. pose proof (calm_trans ch _ _ _ Hc1 Hc2) as Hc.
    destruct (rearmed_same _ _ Hre) as (Hl'&He'&Hcb&Hcf&Hft). cbn in Hl', He', Hcb, Hcf, Hft.
    apply (HQ s' w' []); [|done]. constructor; try done.
    + constructor; [by rewrite Hcf; apply Hinv|by rewrite Hl', Hl|by rewrite Hft; apply Hinv|].
      left. by rewrite He', Hl'.
    + by apply calm_gave.
    + unfold held. by rewrite Hl', app_nil_r.
  - apply (wp_give_up e ns); [done|exact He|exact (proj1 Hn)|cbn; lia|].
    cbn [s_rxList s_recvCb modify]. intros k e1 w1 Hk He1 Hn1 Hord Haft Hg1.
    apply wp_bind, (wp_report_expected e1 (drop k ns)); [by eapply gave_ok|done|done|].
    cbn [s_rxList s_recvCb modify]. intros l' e2 ns' out w2 Hcons Hl' Hn2 Hgt2 _ Hg2.
    apply wp_bind, wp_update_max; [by eapply gave_ok|]. intros m w3 Hc3.
    apply wp_start_reorder; [by eapply calm_ok|]. intros s' w' Hc4 Hre. pose proof (calm_trans ch _ _ _ Hc3 Hc4) as Hc.
    destruct (rearmed_same _ _ Hre) as (El&Ee&Ecb&Ec&Ef). cbn in El, Ee, Ecb, Ec, Ef.
    apply (HQ s' w' ((node_item <$> take k (s_rxList s)) ++ out)); [|done].
    destruct (consecutive_order _ _ e1 _ _ _ _ Hcons eq_refl) as [Hord2 Haft2].
    pose proof (consecutive_perm _ _ _ _ _ _ Hcons) as Hperm.
    assert (NoDup (n_txSeq <$> s_rxList s)) as Hd by (eapply numbered_NoDup, Hn).
    constructor; rewrite ?fmap_app, ?out_keys.
    + eapply (inv_intro s s' e2 ns'); try done; [|by rewrite El..].
      rewrite El. rewrite length_drop in Hl'. lia.
    + done.
    + rewrite Ecb. eapply gave_calm; [|exact Hc]. by eapply gave_trans.
    + rewrite He. apply held_order_app; [done|]. by rewrite Haft.
    + by rewrite Ee, He, after_app, Haft.
    + unfold held at 1. rewrite El, app_nil_r, <- app_assoc, Hperm. unfold held. cbn [s_rxList modify].
      rewrite !held_list, <- fmap_app, take_drop; [done|done|].
      by eapply numbered_NoDup.
Qed.
End proofs.

(** ** Lemmas: frames *)

(** [g] is what parsing made of a buffer [b]. *)
Record simplex_frame (g : DTAP_Frame) (b : SDF_Buff) : Prop := {
  sf_wf : buff_wf b;
  sf_len : DTAP_BASIC_HEADER_LEN <= dataLen b < 65536 + DTAP_BASIC_HEADER_LEN;
  sf_parse : exists ty, (ty = DTAP_FRAME_SIMPLEX_FRAG \/ ty = DTAP_FRAME_SIMPLEX_AGGR) /\
    DTAP_ParseFrame ty b frame0 = Some (DTAP_SUCCESS, g)
}.

(** Whether the frame is complete and undamaged, and its contents behind the header. *)
Definition frame_sound (crc : Z) (g : DTAP_Frame) : bool :=
  match f_buff g with
  | Some b => bool_decide (DECODE2BYTE_LITTLE (bmem b) (dataOff b + dataLen b - DTAP_CRC_LEN)
      = Some (CRC16 crc (take (Z.to_nat (dataLen b - DTAP_CRC_LEN)) (buff_data b))))
  | None => false
  end.
Definition frame_item (g : DTAP_Frame) : item :=
  (pi g, match f_buff g with
         | Some b => drop (Z.to_nat (headerLen g))
                       (take (Z.to_nat (dataLen b - DTAP_CRC_LEN)) (buff_data b))
         | None => []
         end).

Lemma stream_parse_fields c b g0 g ret :
  c = SimplexFragCtx \/ c = SimplexAggrCtx -> buff_wf b ->
  DTAP_BASIC_HEADER_LEN <= dataLen b < 65536 + DTAP_BASIC_HEADER_LEN ->
  frame_over b g0 -> extensionLen g0 = 0 ->
  parseFrame c g0 = Some (ret, g) -> ret = DTAP_SUCCESS ->
  frame_over b g /\ header_txSeq g = Some (txSeq g) /\ is_Some (header_sar g) /\ headerLen g = 7 /\
  9 <= dataLen b /\ 0 <= txSeq g <= DTAP_FRAME_SEQ_MAX.
Proof.
  intros Hc Hwf Hlen Hg0 He Hp ->. unfold DTAP_BASIC_HEADER_LEN in Hlen.
  destruct (parse_enhance_safe 7 b g0 Hwf Hg0 He) as (ret&g1&Hg1&Hov&_&_&Hs); [lia..|].
  assert (ret = DTAP_SUCCESS -> exists v, ld16 (bmem b) (dataOff b + 5) = Some v) as Hld.
  { intros ->. destruct (Hs eq_refl) as (_&_&_&_&_&_&_&?).
    destruct (ld16_in b 5 Hwf) as (v&?&_); [lia..|eauto]. }
  destruct Hc as [-> | ->]; cbn [parseFrame] in Hp;
    unfold DTAP_ParseSimplexFragFrame, DTAP_ParseSimplexAggrFrame in Hp;
    change DTAP_GetSimplexFragFrameHdrLen with 7 in Hp; change DTAP_GetSimplexAggrFrameHdrLen with 7 in Hp;
    rewrite Hg1 in Hp; cbn [mbind option_bind] in Hp;
    (destruct (Z.eqb_spec ret DTAP_SUCCESS) as [Hr|Hr]; cbn [negb] in Hp; [|by injection Hp as ? ?]);
    destruct (Hs Hr) as (_&_&Hh&?&?&?&_&_); destruct (Hld Hr) as [v Hv];
    unfold frame_mem in Hp; rewrite (fo_header _ _ Hov), (fo_buff _ _ Hov) in Hp;
    cbn [mbind option_bind] in Hp; rewrite Hv in Hp; injection Hp as <-;
    unfold header_txSeq, header_sar, frame_mem;
    (split; [split; [exact (fo_buff _ _ Hov)|exact (fo_header _ _ Hov)]|]); cbn;
    rewrite (fo_header _ _ Hov), (fo_buff _ _ Hov); cbn; rewrite Hv; cbn;
    split_and!; try done; try lia; first [apply bf_14 | eauto].
Qed.

Lemma simplex_frame_facts g b :
  simplex_frame g b ->
  f_buff g = Some b /\ header_txSeq g = Some (txSeq g) /\ is_Some (header_sar g) /\ headerLen g = 7 /\
  9 <= dataLen b /\ 0 <= txSeq g <= DTAP_FRAME_SEQ_MAX.
Proof.
  intros [Hwf Hlen (ty&Hty&Hp)].
  assert (exists c, DTAP_GetFrameCtx ty = Some c /\ (c = SimplexFragCtx \/ c = SimplexAggrCtx)) as (c&Hc&Hcc).
  { destruct Hty as [-> | ->]; vm_compute; eauto. }
  destruct (parse_frame_eq0 ty c b Hc) as (g0&E&Hg0&_&He&_). rewrite E in Hp.
  destruct (stream_parse_fields c b g0 g _ Hcc Hwf Hlen Hg0 He Hp eq_refl) as ([Hb _]&?).
  by split.
Qed.

Lemma decode_some b i :
  buff_wf b -> 0 <= i -> i + 2 <= dataLen b -> exists v, DECODE2BYTE_LITTLE (bmem b) (dataOff b + i) = Some v.
Proof.
  intros [] Hi Hl. unfold DECODE2BYTE_LITTLE.
  destruct (rd_is_Some (bmem b) (dataOff b + i) ltac:(lia)) as [v0 ->].
  destruct (rd_is_Some (bmem b) (dataOff b + i + 1) ltac:(lia)) as [v1 ->]. cbn. eauto.
Qed.

(** The check of the checksum. *)
Lemma buff_check_spec g b s :
  simplex_frame g b -> exists b',
    BuffCheck g s b = Some (if frame_sound (s_crcInit s) g then DTAP_SUCCESS
                            else DTAP_TRANS_STREAM_RECV_CRC_ERR, b') /\
    (frame_sound (s_crcInit s) g = true -> buff_wf b' /\ (pi g, buff_data b') = frame_item g).
Proof.
  intros Hg. destruct (simplex_frame_facts g b Hg) as (Hb&_&_&Hh&Hl&_). pose proof (sf_wf _ _ Hg) as Hwf.
  unfold BuffCheck, frame_sound, frame_item. rewrite Hb, Hh. unfold SDF_DataOffset, SDF_DataLenGet.
  change DTAP_CRC_LEN with 2.
  replace (dataOff b + dataLen b - 2) with (dataOff b + (dataLen b - 2)) by lia.
  destruct (decode_some b (dataLen b - 2) Hwf) as [v Hv]; [lia..|]. rewrite Hv. cbn [mbind option_bind].
  destruct (trim_suffix_spec b 2 Hwf) as (b1&->&Hwf1&Hd1&Hl1&Ho1&_); [lia|].
  rewrite window_bytes_spec, Hd1 by done. cbn [mbind option_bind].
  destruct (trim_prefix_spec b1 7 Hwf1) as (b2&Htp&Hwf2&Hd2&_); [lia|].
  destruct (Z.eqb_spec v (CRC16 (s_crcInit s) (take (Z.to_nat (dataLen b - 2)) (buff_data b)))) as [->|Hne].
  - rewrite bool_decide_true by done. cbn [negb]. rewrite Htp. exists b2. split; [done|].
    intros _. split; [done|]. by rewrite Hd2, Hd1.
  - rewrite bool_decide_false by congruence. by exists b1.
Qed.

Section receive.
Context {W : Type} `{Scheduler W}.
Context (ch : DTAP_Channel).
Implicit Types (s : DTAP_Stream_Channel) (w : W).

(** Frames that go no further. *)
Inductive refused (g : DTAP_Frame) s : Z -> Prop :=
| refused_sar : header_sar g <> Some DTAP_SAR_UNSEG -> refused g s DTAP_TRANS_UNSUPPORTED
| refused_full :
    header_sar g = Some DTAP_SAR_UNSEG -> DTAP_STREAM_CACHE_MAX < zlen (s_rxList s) ->
    refused g s DTAP_TRANS_STREAM_RX_FULL
| refused_crc :
    header_sar g = Some DTAP_SAR_UNSEG -> zlen (s_rxList s) <= DTAP_STREAM_CACHE_MAX ->
    frame_sound (s_crcInit s) g = false -> refused g s DTAP_TRANS_STREAM_RECV_CRC_ERR
| refused_again :
    header_sar g = Some DTAP_SAR_UNSEG -> zlen (s_rxList s) <= DTAP_STREAM_CACHE_MAX ->
    frame_sound (s_crcInit s) g = true -> expectedSeq s <> DTAP_FRAME_SEQ_INIT ->
    txSeq g <> expectedSeq s ->
    DTAP_IsFrameSeqSmaller (txSeq g) (expectedSeq s) = true \/
      is_Some (FindStreamRxNode (s_rxList s) (txSeq g)) ->
    refused g s DTAP_TRANS_STREAM_RECV_DUPLICATED_ERR.

Definition accepted (g : DTAP_Frame) s : Prop :=
  header_sar g = Some DTAP_SAR_UNSEG /\ zlen (s_rxList s) <= DTAP_STREAM_CACHE_MAX /\
  frame_sound (s_crcInit s) g = true.

(** A frame that is neither the expected one nor one to refuse. *)
Definition ahead (g : DTAP_Frame) s : Prop :=
  accepted g s /\ expectedSeq s <> DTAP_FRAME_SEQ_INIT /\ txSeq g <> expectedSeq s /\
  DTAP_IsFrameSeqSmaller (txSeq g) (expectedSeq s) = false /\
  FindStreamRxNode (s_rxList s) (txSeq g) = None.

(** The ways [DTAP_RecvStreamFrame] can go: the status, the state after, what was
    handed up. *)
Inductive recv_step (g : DTAP_Frame) (cb : DTAP_DataRecvCb) s w :
    Z -> DTAP_Stream_Channel -> W -> list (Z * item) -> Prop :=
| recv_refused ret s' :
    refused g s ret -> s' = s \/ s' = s <| s_recvCb := cb |> -> recv_step g cb s w ret s' w []
| recv_first w' :
    accepted g s -> expectedSeq s = DTAP_FRAME_SEQ_INIT ->
    gave ch cb w w' [(txSeq g, frame_item g)] ->
    recv_step g cb s w DTAP_SUCCESS
      (s <| s_recvCb := cb |> <| expectedSeq := DTAP_GetNextFrameSeq (txSeq g) |>
         <| maxExpectedSeq := DTAP_GetNextFrameSeq (txSeq g) |>) w' [(txSeq g, frame_item g)]
| recv_expected e l' e' ns' out s' w' :
    accepted g s -> expectedSeq s = seq14 e -> txSeq g = seq14 e ->
    consecutive (size (held s)) (seq14 (e + 1)) (held s) = (out, seq14 e', held_in l') ->
    (length l' <= length (s_rxList s))%nat -> numbered e' ns' l' -> Forall (Z.lt e') ns' ->
    rearmed (s <| s_recvCb := cb |> <| expectedSeq := seq14 e' |> <| s_rxList := l' |>
               <| reorderTimerHandle := INVALID_TIMER_HANDLE |>) s' ->
    gave ch cb w w' ((txSeq g, frame_item g) :: out) ->
    recv_step g cb s w DTAP_SUCCESS s' w' ((txSeq g, frame_item g) :: out)
| recv_no_memory w' :
    ahead g s -> calm ch w w' -> alloc_failed_since w w' ->
    recv_step g cb s w DTAP_TRANS_MALLOC_ERR (s <| s_recvCb := cb |>) w' []
| recv_held node m a s' w' :
    ahead g s -> node_item node = (txSeq g, frame_item g) -> n_timeStamp node = u64 a ->
    (exists t, trace w' = trace w ++ t /\ (CTimeMs, a) ∈ t) -> calm ch w w' ->
    rearmed (s <| s_recvCb := cb |> <| s_rxList := InsertStreamRxNode (s_rxList s) node |>
               <| maxExpectedSeq := m |>) s' ->
    recv_step g cb s w DTAP_SUCCESS s' w' [].

Lemma wp_new_node b s w (Q : option StreamRxNode -> _ -> Prop) :
  sched_ok ch w -> buff_wf b ->
  (forall w', calm ch w w' -> alloc_failed_since w w' -> Q None (s, w')) ->
  (forall w', calm ch w w' -> Q (Some (mk_node 0 0 b 0 0 0 0)) (s, w')) ->
  wp (NewStreamRxNode b) (s, w) Q.
Proof.
  intros Hok Hwf Hfail HQ.
  unfold NewStreamRxNode. apply wp_bind, wp_over, (wp_alloc_cases ch); [done| |].
  - intros w1 Hc Hf. by apply wp_ret, Hfail.
  - intros w1 Hc1. cbn [negb]. apply wp_bind, wp_over, (wp_alloc_cases ch); [by eapply calm_ok| |].
    + intros w2 Hc2 Hf2. apply wp_ret. rewrite copy_failed.
      apply Hfail; [by eapply calm_trans|]. eapply alloc_failed_later; [by eapply calm_extends|done].
    + intros w2 Hc2. apply wp_ret. rewrite copy_wf by done. apply HQ. by eapply calm_trans.
Qed.

(** The expected frame: it goes up, then what follows it, and the timer is set anew. *)
Lemma wp_recv_expected g b' cb e ns s w (Q : Z -> _ -> Prop) :
  let s1 := s <| s_recvCb := cb |> in
  sched_ok ch w -> accepted g s -> (pi g, buff_data b') = frame_item g ->
  expectedSeq s = seq14 e -> numbered e ns (s_rxList s) -> Forall (Z.lt e) ns -> txSeq g = seq14 e ->
  (forall ret s' w' out, recv_step g cb s w ret s' w' out -> Q ret (s', w')) ->
  wp (RecvCallback ch b' (pi g) ;;!
      upd_stream (fun s => s <| expectedSeq ::= DTAP_GetNextFrameSeq |>) ;;!
      ReportExpectedStreamFrame ch ;;! StopReorderTimer ;;! StartReorderTimer ;;!
      st_ret DTAP_SUCCESS) (s1, w) Q.
Proof.
  intros s1 Hok Hacc Hx He Hn Hgt Hq HQ.
  apply wp_bind, (wp_recv_callback ch _ _ _ _ _ (txSeq g)); [done|]. intros w1 Hg1.
  apply wp_bind, wp_upd_stream, wp_bind.
  apply (wp_report_expected ch (e + 1) ns); [by eapply gave_ok|cbn; by rewrite He, next_seq14| |].
  { eapply numbered_from; [exact Hn|lia|]. eapply Forall_impl; [exact Hgt|]. cbn. lia. }
  intros l' e' ns' out w2 Hcons Hl' Hn' Hgt' _ Hg2.
  apply wp_bind, (wp_stop_reorder ch); [by eapply gave_ok|]. intros w3 Hc3.
  apply wp_bind, (wp_start_reorder ch); [by eapply calm_ok|]. intros s' w' Hc4 Hre.
  apply wp_ret, (HQ _ _ _ ((txSeq g, frame_item g) :: out)).
  rewrite Hx in Hg1. apply recv_expected with e l' e' ns'; try done.
  apply (gave_calm ch cb w w2 w'); [|by eapply calm_trans]. by apply (gave_trans ch cb w w1 w2 [_] out).
Qed.

(** A frame ahead of the expected one: it is stored, if there is memory. *)
Lemma wp_recv_ahead g b' cb s w (Q : Z -> _ -> Prop) :
  let s1 := s <| s_recvCb := cb |> in
  sched_ok ch w -> ahead g s -> buff_wf b' -> (pi g, buff_data b') = frame_item g ->
  (forall ret s' w' out, recv_step g cb s w ret s' w' out -> Q ret (s', w')) ->
  wp (let! node := NewStreamRxNode b' in
      match node with
      | None => st_ret DTAP_TRANS_MALLOC_ERR
      | Some node =>
          let! now := DP_GetMonoTimeMs in
          let node := mk_node DTAP_SAR_UNSEG (txSeq g) (n_buff node) now (pi g) (ch_lcid ch)
                        (ch_srcTcid ch) in
          upd_stream (fun s => s <| s_rxList ::= fun l => InsertStreamRxNode l node |>) ;;!
          UpdateMaxExpectedSeq ;;!
          let! stream := get_stream in
          (if reorderTimerHandle stream =? INVALID_TIMER_HANDLE then StartReorderTimer
           else st_ret tt) ;;!
          st_ret DTAP_SUCCESS
      end) (s1, w) Q.
Proof.
  intros s1 Hok Ha Hwf Hx HQ. apply wp_bind, wp_new_node; [done..| |].
  { intros w' Hc Hf. apply wp_ret, (HQ _ _ _ []). by apply recv_no_memory. }
  intros w1 Hc1. cbn [n_buff]. apply wp_bind, (wp_time ch); [by eapply calm_ok|]. intros a w2 Hc2 Ht2.
  apply wp_bind, wp_upd_stream, wp_bind, (wp_update_max ch); [by eapply calm_ok|]. intros m w3 Hc3.
  apply wp_bind, wp_get_stream, wp_bind.
  match goal with |- wp _ (?x, w3) _ => set (s2 := x) end.
  assert (forall s' w', calm ch w3 w' -> rearmed s2 s' -> Q DTAP_SUCCESS (s', w')) as Hend.
  { intros s' w' Hc4 Hre. pose proof (calm_trans ch _ _ _ Hc3 Hc4) as Hc'. apply (HQ _ _ _ []).
    apply recv_held with (mk_node DTAP_SAR_UNSEG (txSeq g) b' (u64 a) (pi g) (ch_lcid ch) (ch_srcTcid ch)) m a; try done.
    - unfold node_item. cbn. by rewrite Hx.
    - destruct Hc1 as [_ (t1&Ht1&_)], Hc' as [_ (t3&Ht3&_)].
      exists (t1 ++ [(CTimeMs, a)] ++ t3). rewrite Ht3, Ht2, Ht1, <- !app_assoc. split; [done|].
      apply elem_of_app. right. apply elem_of_app. left. constructor.
    - eapply calm_trans; [|exact Hc']. by eapply calm_trans. }
  destruct (reorderTimerHandle s2 =? INVALID_TIMER_HANDLE).
  - apply (wp_start_reorder ch); [by eapply calm_ok|]. intros s' w' Hc' Hre. apply wp_ret. by apply Hend.
  - apply wp_ret, wp_ret, Hend; [apply calm_refl; by eapply calm_ok|apply rearmed_refl].
Qed.

Lemma wp_recv_stream g b cb s w (Q : Z -> _ -> Prop) :
  sched_ok ch w -> stream_inv s -> simplex_frame g b ->
  (forall ret s' w' out, recv_step g cb s w ret s' w' out -> Q ret (s', w')) ->
  wp (DTAP_RecvStreamFrame ch g cb) (s, w) Q.
Proof.
  intros Hok Hinv Hg HQ. destruct (simplex_frame_facts g b Hg) as (Hb&Hq&[sar Hsar]&_&_&Hqr).
  unfold DTAP_RecvStreamFrame. apply wp_bind. eapply wp_opt; [exact Hsar|].
  destruct (Z.eqb_spec sar DTAP_SAR_UNSEG) as [->|Hne]; cbn [negb].
  2:{ apply wp_ret, (HQ _ _ _ []), recv_refused; [|by left]. constructor. congruence. }
  apply wp_bind, wp_upd_stream, wp_bind, wp_get_stream. cbn [s_rxList expectedSeq modify].
  destruct (Z.leb_spec (zlen (s_rxList s)) DTAP_STREAM_CACHE_MAX) as [Hle|Hgt]; cbn [negb].
  2:{ apply wp_ret, (HQ _ _ _ []), recv_refused; [|by right]. by constructor. }
  apply wp_bind. eapply wp_opt; [exact Hb|]. apply wp_bind.
  destruct (buff_check_spec g b (s <| s_recvCb := cb |>) Hg) as (b'&Hbc&Hb').
  eapply wp_opt; [exact Hbc|]. cbn [s_crcInit modify] in *.
  destruct (frame_sound (s_crcInit s) g) eqn:Hsound; cbn [negb].
  2:{ apply wp_ret, (HQ _ _ _ []), recv_refused; [|by right]. by constructor. }
  destruct (Hb' eq_refl) as [Hwf' Hx]. assert (accepted g s) as Hacc by done.
  change (DTAP_SUCCESS =? DTAP_SUCCESS) with true. cbn [negb].
  apply wp_bind. eapply wp_opt; [exact Hq|].
  destruct (si_order s Hinv) as [[He Hl]|(e&ns&He&Hn&Hgt)].
  { rewrite He, Z.eqb_refl. apply wp_bind, wp_upd_stream, wp_bind.
    apply (wp_recv_callback ch _ _ _ _ _ (txSeq g)); [done|]. intros w1 Hg1.
    apply wp_ret, (HQ _ _ _ [(txSeq g, frame_item g)]). rewrite Hx in Hg1. by apply recv_first. }
  assert (expectedSeq s <> DTAP_FRAME_SEQ_INIT) as Hni by (rewrite He; apply seq14_not_init).
  destruct (Z.eqb_spec (expectedSeq s) DTAP_FRAME_SEQ_INIT) as [|_]; [done|].
  destruct (Z.eqb_spec (txSeq g) (expectedSeq s)) as [Heq|Hneq].
  { rewrite He in Heq. by apply (wp_recv_expected g b' cb e ns). }
  destruct (DTAP_IsFrameSeqSmaller (txSeq g) (expectedSeq s)) eqn:Hsm.
  { apply wp_ret, (HQ _ _ _ []), recv_refused; [|by right]. constructor; auto. }
  destruct (FindStreamRxNode (s_rxList s) (txSeq g)) as [nd|] eqn:Hfind.
  { apply wp_ret, (HQ _ _ _ []), recv_refused; [|by right]. constructor; eauto. }
  by apply (wp_recv_ahead g b' cb).
Qed.

(** What a step of the receiver took from the frame. *)
Definition taken (g : DTAP_Frame) (ret : Z) : list (Z * item) :=
  if ret =? DTAP_SUCCESS then [(txSeq g, frame_item g)] else [].

Lemma refused_not_success g s ret : refused g s ret -> ret <> DTAP_SUCCESS.
Proof. by destruct 1. Qed.

Lemma stepped_idle s s' w w' :
  stream_inv s -> s' = s \/ (exists cb, s' = s <| s_recvCb := cb |>) -> calm ch w w' ->
  stepped ch [] s s' w w' [].
Proof.
  intros Hinv Hs' Hc. assert (stream_inv s' /\ s_crcInit s' = s_crcInit s /\
    expectedSeq s' = expectedSeq s /\ held s' = held s) as (?&?&?&Hh).
  { destruct Hs' as [->|[cb ->]]; [done|]. split_and!; [|done..]. destruct Hinv. by constructor. }
  constructor; try done; [by apply calm_gave|]. by rewrite Hh, app_nil_r.
Qed.

Lemma numbered_find e ns l n :
  numbered e ns l -> n ∈ ns -> is_Some (FindStreamRxNode l (seq14 n)).
Proof.
  intros (H2&_&_) Hn. apply held_find. destruct (held_in l !! seq14 n) eqn:E; [eauto|].
  apply held_None in E. destruct E. apply (list_elem_of_lookup_1 ns) in Hn as [i Hi].
  destruct (Forall2_lookup_l _ _ _ _ _ H2 Hi) as (nd&Hnd&<-).
  by apply list_elem_of_fmap_2, list_elem_of_lookup_2 with i.
Qed.

(** Storing a frame ahead. *)
Lemma ahead_insert g b s node :
  stream_inv s -> simplex_frame g b -> ahead g s -> node_item node = (txSeq g, frame_item g) ->
  (exists e ns', expectedSeq s = seq14 e /\ numbered e ns' (InsertStreamRxNode (s_rxList s) node) /\
     Forall (Z.lt e) ns' /\ DTAP_IsFrameSeqSmaller (txSeq g) (seq14 e) = false) /\
  held_in (InsertStreamRxNode (s_rxList s) node) = <[txSeq g := frame_item g]> (held s) /\
  held s !! txSeq g = None.
Proof.
  intros Hinv Hg (_&Hni&Hne&Hsm&Hfind) Hit. destruct (simplex_frame_facts g b Hg) as (_&_&_&_&_&Hqr).
  destruct (si_order s Hinv) as [[? _]|(e&ns&He&Hn&Hgt)]; [done|].
  assert (held s !! txSeq g = None) as Hfree.
  { destruct (held s !! txSeq g) eqn:E; [|done]. unfold held in E.
    assert (is_Some (held_in (s_rxList s) !! txSeq g)) as [? Hf]%held_find by eauto.
    by rewrite Hfind in Hf. }
  assert (n_txSeq node = txSeq g) as Hnq by (unfold node_item in Hit; congruence).
  destruct (seq14_lift e (txSeq g) Hqr) as (n&Hnn&Hnr). rewrite He, <- Hnn in *.
  assert (e < n) as Hen.
  { destruct (Z.lt_trichotomy e n) as [?|[->|?]]; [done|done|].
    rewrite smaller_backward in Hsm by lia. done. }
  assert (n ∉ ns) as Hnew.
  { intros Hin. destruct (numbered_find e ns _ n Hn Hin) as [x Hx]. by rewrite Hfind in Hx. }
  destruct (numbered_insert e ns _ node n Hn Hnq) as [ns' Hns']; [lia|done|].
  pose proof (numbered_NoDup _ _ _ Hn) as Hd.
  assert (held_in (InsertStreamRxNode (s_rxList s) node) = <[seq14 n := frame_item g]> (held s)) as Hh.
  { rewrite held_insert; [|done|by rewrite Hnq; apply held_None].
    rewrite Hnq. pose proof (f_equal snd Hit) as Hi. cbn [snd node_item] in Hi. by rewrite Hi. }
  split; [|by split]. exists e, ns'. split_and!; try done.
  apply Forall_forall. intros m Hm. pose proof Hns' as (_&_&Hr). rewrite Forall_forall in Hr.
  pose proof (Hr m Hm). destruct (numbered_find _ _ _ m Hns' Hm) as [x Hx].
  assert (is_Some (held_in (InsertStreamRxNode (s_rxList s) node) !! seq14 m)) as [y Hy].
  { apply held_find. eauto. }
  rewrite Hh in Hy. destruct (decide (m = e)) as [->|]; [|lia].
  rewrite lookup_insert_ne in Hy by (intros Heq; apply seq14_inj in Heq; lia).
  assert (is_Some (held s !! seq14 e)) as Hse by eauto. unfold held in Hse.
  apply not_eq_None_Some in Hse. destruct Hse. apply held_None. intros Hin.
  destruct (numbered_key _ _ _ _ Hn Hin) as (k&Hk&Heq&?). apply seq14_inj in Heq; [|lia]. subst k.
  rewrite Forall_forall in Hgt. specialize (Hgt _ Hk). lia.
Qed.

Lemma recv_stepped g b cb s w ret s' w' out :
  sched_ok ch w -> stream_inv s -> simplex_frame g b -> recv_step g cb s w ret s' w' out ->
  stepped ch (taken g ret) s s' w w' out.
Proof.
  intros Hok Hinv Hg Hst. destruct (simplex_frame_facts g b Hg) as (_&_&_&_&_&Hqr).
  destruct Hst as [ret s' Hr Hs'|w' Hacc He Hgv|e l' e' ns' out s' w' Hacc He Hq Hcons Hl' Hn' Hgt' Hre Hgv
    |w' Ha Hc _|node m a s' w' Ha Hit _ _ Hc Hre].
  - unfold taken. destruct (Z.eqb_spec ret DTAP_SUCCESS) as [->|]; [by destruct (refused_not_success _ _ _ Hr)|].
    apply stepped_idle; [done| |by apply calm_refl]. destruct Hs' as [->| ->]; eauto.
  - destruct (si_order s Hinv) as [[_ Hl]|(e&ns&He'&_)]; [|by destruct (seq14_not_init e); congruence].
    constructor; try done.
    + eapply (inv_intro s _ (txSeq g + 1) []); try done; cbn; [by rewrite Hl| |by rewrite Hl; apply numbered_nil].
      rewrite <- next_seq14. by rewrite seq14_id.
    + split; [by left|done].
    + by rewrite Permutation_app_comm.
  - destruct (rearmed_same _ _ Hre) as (El&Ee&Ecb&Ec&Ef). cbn in El, Ee, Ecb, Ec, Ef.
    destruct (consecutive_order _ _ (e + 1) _ _ _ _ Hcons eq_refl) as [Hord Haft].
    pose proof (consecutive_perm _ _ _ _ _ _ Hcons) as Hperm.
    constructor; cbn [fmap list_fmap fst in_order]; rewrite ?after_cons, ?Hq, ?next_seq14; try done.
    + eapply (inv_intro s s' e' ns'); try done; [|by rewrite El]. rewrite El.
      pose proof (si_size s Hinv). lia.
    + by rewrite Ecb.
    + split; [|done]. right. rewrite He. apply not_smaller_forward. lia.
    + by rewrite Ee.
    + unfold taken. cbn. unfold held at 1. rewrite El, Hperm, Permutation_app_comm, Hq. done.
  - apply stepped_idle; eauto.
  - destruct (rearmed_same _ _ Hre) as (El&Ee&Ecb&Ec&Ef). cbn in El, Ee, Ecb, Ec, Ef.
    destruct (ahead_insert g b s node Hinv Hg Ha Hit) as ((e&ns'&He&Hn'&Hgt'&_)&Hh&Hfree).
    constructor; try done.
    + eapply (inv_intro s s' e ns'); try done; [|congruence|by rewrite El].
      rewrite El, (insert_perm _ node). cbn. destruct Ha as [(_&?&_) _]. lia.
    + by apply calm_gave.
    + unfold taken. cbn. unfold held at 1. rewrite El, Hh, map_to_list_insert by done.
      by rewrite Permutation_app_comm.
Qed.

(** ** Sending *)
Definition send_ok (b : SDF_Buff) : Prop :=
  buff_wf b /\ DTAP_SIMPLEX_FRAG_FRAME_HEADER_LEN + DLI_HEADER <= dataOff b /\
  dataOff b + dataLen b + DTAP_CRC_LEN <= buffLen b.

(** What [DTAP_PackStreamFrame] builds: the next number, the header, the checksum. *)
Lemma pack_stream_spec s tcid p b :
  send_ok b -> is_u16 (s_crcInit s) -> 0 <= frameTxSeq s <= DTAP_FRAME_SEQ_MAX ->
  let seq := DTAP_GetNextFrameSeq (frameTxSeq s) in
  let H := simplex_header tcid false (dataLen b + 5) p seq DTAP_SAR_UNSEG in
  exists b', DTAP_PackStreamFrame s tcid p b DTAP_SAR_UNSEG
             = Some (DTAP_SUCCESS, s <| frameTxSeq := seq |>, b') /\
    buff_wf b' /\
    buff_data b' = (H ++ buff_data b) ++ ENCODE2BYTE_LITTLE (CRC16 (s_crcInit s) (H ++ buff_data b)) /\
    dataOff b' = dataOff b - 7 /\ dataLen b' = dataLen b + 9.
Proof.
  intros (Hwf&Hoff&Htail) Hcrc Hseq seq H1. change DTAP_SIMPLEX_FRAG_FRAME_HEADER_LEN with 7 in *.
  change DLI_HEADER with 5 in Hoff. change DTAP_CRC_LEN with 2 in Htail. pose proof (wf_off b Hwf).
  assert (0 <= seq < 16384) as Hs.
  { unfold seq. rewrite <- (seq14_id _ Hseq), next_seq14.
    pose proof (seq14_range (frameTxSeq s + 1)). unfold DTAP_FRAME_SEQ_MAX in *. lia. }
  unfold DTAP_PackStreamFrame. change DTAP_SIMPLEX_FRAG_FRAME_HEADER_LEN with 7.
  destruct (prepend_window b 7 Hwf ltac:(lia)) as (b1&L&->&Hm&HL&HLok&Ho&Hl&Hbl&Hw&_).
  name_bytes L HL. rewrite Hm. set (h := dataOff b - 7) in *.
  repeat apply Forall_cons in HLok as [?Hx HLok].
  basic_header_step.
  change (frameTxSeq (s <| frameTxSeq ::= DTAP_GetNextFrameSeq |>)) with seq.
  repeat header_step.
  match goal with |- context [mem_write (bmem b) h ?X] => assert (X = H1) as -> end.
  { unfold SDF_DataLenGet, DTAP_BASIC_HEADER_LEN, DTAP_CRC_LEN. rewrite Hl.
    replace (dataLen b + 7 - 4 + 2) with (dataLen b + 5) by lia.
    rewrite le16_join, fields16 by (done || (apply bf_set_u16; done || lia)). done. }
  assert (zlen H1 = 7) as HH by done.
  destruct (filled_header b b1 h H1 Hwf) as [Hwf1 Hd1]; [apply header_bytes_ok|lia|lia|done|lia|done|].
  destruct (append_crc_spec (s_crcInit s) _ Hwf1 Hcrc) as (b2&Happ&Hwf2&Hd2&Ho2&Hl2&_); [cbn; lia|].
  cbn [s_crcInit modify]. rewrite Happ. cbn [mbind option_bind]. rewrite Hd1 in Hd2. cbn in *.
  exists b2. split_and!; try done; lia.
Qed.

Lemma wp_send_stream p b s w (Q : Z -> _ -> Prop) :
  sched_ok ch w -> stream_inv s -> send_ok b ->
  (forall ret q w', let s' := s <| frameTxSeq := q |> in stepped ch [] s s' w w' [] -> Q ret (s', w')) ->
  wp (DTAP_SendStreamFrame ch p b) (s, w) Q.
Proof.
  intros Hok Hinv Hb HQ. unfold DTAP_SendStreamFrame. apply wp_bind, wp_get_stream.
  destruct (SDF_DataLenGet b <=? ch_mtu ch).
  2:{ apply wp_ret. assert (s = s <| frameTxSeq := frameTxSeq s |>) as E by (by destruct s).
      rewrite E. apply HQ. rewrite <- E. apply stepped_idle; [done|by left|by apply calm_refl]. }
  destruct (pack_stream_spec s (if ch_castMode ch =? DTAP_FRAME_BROADCAST then ch_srcTcid ch else ch_dstTcid ch)
    p b Hb (si_crc s Hinv) (si_tx s Hinv)) as (b'&Hp&Hwf'&_&Ho&Hl).
  apply wp_bind. eapply wp_opt; [exact Hp|]. apply wp_bind, wp_upd_stream.
  change (negb (DTAP_SUCCESS =? DTAP_SUCCESS)) with false. cbv iota.
  destruct Hb as (Hwf&Hoff&_). change DTAP_SIMPLEX_FRAG_FRAME_HEADER_LEN with 7 in Hoff.
  pose proof (wf_len b Hwf).
  apply wp_over, wp_send_frame; [done|split_and!; (done || lia)|]. intros a w' Hc _.
  apply HQ. constructor; try done; [|by apply calm_gave|by rewrite app_nil_r].
  destruct Hinv as [? ? Htx ?]. constructor; try done. cbn.
  rewrite <- (seq14_id _ Htx), next_seq14. apply seq14_range.
Qed.
End receive.
