(* ===== verification/DtapStreamRun.v ===== *)
(** * Stream transmission: runs of a channel

    A channel under an arbitrary sequence of frames from the peer, packets to send,
    timer expiries and tasks.  Theorems on its safety and order of delivery, on the
    receiver as an implementation of [DtapStreamProps.reorder_recv], on a frame's way
    from sender to receiver, and on the state a lost frame leaves behind. *)
From Stdlib Require Import Sorted.
From S2P Require Import Prelude Utils SdfErrno SdfBuff DtapEnv DtapFrame DtapTrans DtapStream.
From S2P Require Import DtapStreamProps.

Inductive stream_event :=
| StRecv (g : DTAP_Frame) (cb : DTAP_DataRecvCb)
| StSend (pi : Z) (b : SDF_Buff)
| StTimer
| StTask.

Definition stream_event_ok (ev : stream_event) : Prop :=
  match ev with
  | StRecv g _ => exists b, simplex_frame g b
  | StSend _ b => send_ok b
  | StTimer | StTask => True
  end.

Section run.
Context {W : Type} `{Scheduler W}.
Context (ch : DTAP_Channel).
Implicit Types (s : DTAP_Stream_Channel) (w : W).

Definition run_stream_event (ev : stream_event) : ST (DTAP_Stream_Channel * W) unit :=
  match ev with
  | StRecv g cb => let! _ := DTAP_RecvStreamFrame ch g cb in st_ret tt
  | StSend p b => let! _ := DTAP_SendStreamFrame ch p b in st_ret tt
  | StTimer => DTAP_ReorderStreamFrameCbk
  | StTask => reorder_task ch
  end.
Definition run_stream (evs : list stream_event) : ST (DTAP_Stream_Channel * W) unit :=
  st_for evs run_stream_event.

(** The undamaged frames of a run: number and contents. *)
Definition arrivals (crc : Z) (evs : list stream_event) : list (Z * item) :=
  omap (fun ev => match ev with
    | StRecv g _ => if frame_sound crc g then Some (txSeq g, frame_item g) else None
    | _ => None
    end) evs.

(** The packets handed to the upper layer, whichever callback got them. *)
Definition payloads (t : list (call * Z)) : list item :=
  (fun '(_, i, d) => (info_pi i, d)) <$> delivered_to t.

Lemma payloads_app t1 t2 : payloads (t1 ++ t2) = payloads t1 ++ payloads t2.
Proof. unfold payloads. by rewrite delivered_to_app, fmap_app. Qed.

Lemma payloads_handed t cb out :
  delivered_to t = handed ch (Some cb) out -> payloads t = out.*2.
Proof.
  intros Ht. unfold payloads. rewrite Ht. cbn. rewrite <- list_fmap_compose.
  apply list_fmap_ext. by intros i [q [p d]] _.
Qed.

(** Someone gets what is held. *)
Definition has_cb s : Prop := is_Some (s_recvCb s) \/ s_rxList s = [].

Lemma recv_sound g b cb s w ret s' w' out :
  simplex_frame g b -> recv_step ch g cb s w ret s' w' out ->
  taken g ret `sublist_of` arrivals (s_crcInit s) [StRecv g cb].
Proof.
  intros Hg Hst. unfold taken. cbn.
  assert (ret = DTAP_SUCCESS -> frame_sound (s_crcInit s) g = true) as Hs.
  { intros Hr. destruct Hst as [? ? Hrf|? Ha|? ? ? ? ? ? ? Ha|? [Ha _]|? ? ? ? ? [Ha _]]; try apply Ha.
    by destruct (refused_not_success _ _ _ Hrf). }
  destruct (Z.eqb_spec ret DTAP_SUCCESS) as [->|]; [|apply sublist_nil_l].
  by rewrite Hs.
Qed.

Lemma recv_cb_after g cb s w ret s' w' out :
  recv_step ch g cb s w ret s' w' out -> s_recvCb s' = cb \/ (s' = s /\ out = []).
Proof.
  destruct 1 as [ret s' _ [->| ->]| | | |]; try (by left); [by right|..];
    match goal with Hre : rearmed _ _ |- _ =>
      left; by destruct (rearmed_same _ _ Hre) as (_&_&->&_) end.
Qed.

(** A step of the run. *)
Lemma wp_stream_event ev s w (Q : unit -> _ -> Prop) :
  sched_ok ch w -> stream_inv s -> stream_event_ok ev ->
  (forall s' w' out tk, stepped ch tk s s' w w' out ->
     tk `sublist_of` arrivals (s_crcInit s) [ev] ->
     (match ev with
      | StRecv g cb => exists ret, recv_step ch g cb s w ret s' w' out
      | _ => s_recvCb s' = s_recvCb s
      end) -> Q tt (s', w')) ->
  wp (run_stream_event ev) (s, w) Q.
Proof.
  intros Hok Hinv Hev HQ. destruct ev as [g cb|p b| |]; cbn [run_stream_event stream_event_ok] in *.
  - destruct Hev as [b Hg]. apply wp_bind, (wp_recv_stream ch g b); [done..|].
    intros ret s' w' out Hst. apply wp_ret, (HQ s' w' out (taken g ret)); [|by eapply recv_sound|eauto].
    by eapply recv_stepped.
  - apply wp_bind, wp_send_stream; [done..|]. intros ret q w' s' Hst.
    by apply wp_ret, (HQ s' w' [] []).
  - unfold DTAP_ReorderStreamFrameCbk. apply wp_bind, wp_over, (wp_ask_calm ch); [done..|].
    intros a w' Hc. apply wp_ret, (HQ s w' [] []); [|done..]. apply stepped_idle; [done|by left|done].
  - apply wp_reorder_task; [done..|]. intros s' w' out Hst Hcb. by apply (HQ s' w' out []).
Qed.

(** What a run did: [log] was handed up. *)
Record ran (evs : list stream_event) s s' w w' (log : list (Z * item)) : Prop := {
  rn_ok : sched_ok ch w';
  rn_inv : stream_inv s';
  rn_crc : s_crcInit s' = s_crcInit s;
  rn_cb : has_cb s';
  rn_trace : exists t, trace w' = trace w ++ t /\ payloads t = log.*2;
  rn_order : in_order (expectedSeq s) log.*1;
  rn_after : expectedSeq s' = after (expectedSeq s) log.*1;
  rn_items : exists tk, tk `sublist_of` arrivals (s_crcInit s) evs /\
    log ++ map_to_list (held s') ≡ₚ map_to_list (held s) ++ tk
}.

Definition hears (ev : stream_event) : Prop :=
  match ev with StRecv _ None => False | _ => True end.

Lemma held_empty s : held s = ∅ -> s_rxList s = [].
Proof.
  unfold held. destruct (s_rxList s) as [|node l]; [done|]. rewrite held_cons.
  intros Hi. by apply insert_non_empty in Hi.
Qed.

Lemma stepped_has_cb ev tk s s' w w' out :
  has_cb s -> hears ev -> stepped ch tk s s' w w' out -> tk `sublist_of` arrivals (s_crcInit s) [ev] ->
  (match ev with
   | StRecv g cb => exists ret, recv_step ch g cb s w ret s' w' out
   | _ => s_recvCb s' = s_recvCb s
   end) ->
  has_cb s' /\ (is_Some (s_recvCb s') \/ out = []).
Proof.
  intros Hcb Hh Hst Htk Hev.
  assert (s_recvCb s' = s_recvCb s -> tk = [] -> has_cb s' /\ (is_Some (s_recvCb s') \/ out = [])) as Hsame.
  { intros E ->. unfold has_cb. rewrite E. destruct Hcb as [?|Hl]; [auto|].
    pose proof (sp_items _ _ _ _ _ _ _ Hst) as Hi. unfold held in Hi at 2. rewrite Hl in Hi.
    change (held_in []) with (∅ : gmap Z item) in Hi. rewrite map_to_list_empty in Hi.
    apply Permutation_nil_r, app_eq_nil in Hi as [-> Hi]. apply map_to_list_empty_iff in Hi.
    split; right; [by apply held_empty|done]. }
  destruct ev as [g cb|p b| |]; [|by apply Hsame; [|apply sublist_nil_r in Htk]..].
  destruct Hev as [ret Hev]. destruct (recv_cb_after _ _ _ _ _ _ _ _ Hev) as [E|[-> ->]]; [|auto].
  cbn in Hh. destruct cb; [|done]. unfold has_cb. rewrite E. by split; left.
Qed.

Lemma run_step ev evs s s1 s' w w1 w' out log tk :
  stepped ch tk s s1 w w1 out -> tk `sublist_of` arrivals (s_crcInit s) [ev] ->
  is_Some (s_recvCb s1) \/ out = [] ->
  ran evs s1 s' w1 w' log -> ran (ev :: evs) s s' w w' (out ++ log).
Proof.
  intros [Hi1 Hc1 [_ (t1&Ht1&Hd1)] Ho1 Ha1 Hp1] Htk Hcb
    [Hok Hi Hc Hcb' (t&Ht&Hd) Ho Ha (tk'&Htk'&Hp)].
  constructor; rewrite ?fmap_app; try done.
  - congruence.
  - exists (t1 ++ t). rewrite Ht, Ht1, app_assoc, payloads_app, Hd. split; [done|]. f_equal.
    destruct Hcb as [[cb Hcb]| ->]; [rewrite Hcb in Hd1; by eapply payloads_handed|].
    rewrite handed_nil in Hd1. unfold payloads. by rewrite Hd1.
  - apply held_order_app; [done|]. by rewrite <- Ha1.
  - by rewrite after_app, <- Ha1.
  - exists (tk ++ tk'). split.
    + change (ev :: evs) with ([ev] ++ evs). unfold arrivals. rewrite omap_app.
      rewrite Hc1 in Htk'. by apply sublist_app.
    + rewrite <- app_assoc, Hp, app_assoc, Hp1. by rewrite <- app_assoc.
Qed.

Lemma ran_nil s w : sched_ok ch w -> stream_inv s -> has_cb s -> ran [] s s w w [].
Proof.
  intros. constructor; try done; [exists []; by rewrite app_nil_r|].
  exists []. by rewrite app_nil_r.
Qed.

Lemma wp_run_safe evs s w :
  sched_ok ch w -> stream_inv s -> Forall stream_event_ok evs ->
  wp (run_stream evs) (s, w) (fun _ '(s', w') => sched_ok ch w' /\ stream_inv s' /\ extends w w').
Proof.
  revert s w. induction evs as [|ev evs IH]; intros s w Hok Hinv Hev; [by apply wp_ret|].
  apply Forall_cons in Hev as [He Hev].
  apply wp_bind, wp_stream_event; [done..|]. intros s1 w1 out tk Hst _ _.
  destruct (sp_gave _ _ _ _ _ _ _ Hst) as [Hok1 (t&Ht&_)].
  eapply wp_mono; [apply IH; [done|apply Hst|done]|]. intros _ [s' w'] (?&?&?).
  split_and!; [done..|]. eapply extends_trans; [|done]. by exists t.
Qed.

Lemma wp_run_stream evs s w :
  sched_ok ch w -> stream_inv s -> has_cb s -> Forall stream_event_ok evs -> Forall hears evs ->
  wp (run_stream evs) (s, w) (fun _ '(s', w') => exists log, ran evs s s' w w' log).
Proof.
  revert s w. induction evs as [|ev evs IH]; intros s w Hok Hinv Hcb Hev Hh.
  - apply wp_ret. exists []. by apply ran_nil.
  - apply Forall_cons in Hev as [He Hev]. apply Forall_cons in Hh as [Hhe Hh].
    apply wp_bind, wp_stream_event; [done..|]. intros s1 w1 out tk Hst Htk Hx.
    destruct (stepped_has_cb ev tk _ _ _ _ _ Hcb Hhe Hst Htk Hx) as [Hcb1 Hout].
    eapply wp_mono; [apply IH; try done; [by eapply gave_ok, Hst|apply Hst]|].
    intros _ [s' w'] [log Hr]. exists (out ++ log). by eapply run_step.
Qed.
End run.

(** ** Lemmas: a channel behind a gap *)
Section gap.
Context {W : Type} `{Scheduler W}.
Context (ch : DTAP_Channel).
Implicit Types (s : DTAP_Stream_Channel) (w : W).

(** The frame [h] at the front waits for an earlier one, has been held for longest,
    and the timer's mark is not beyond it. *)
Definition stalled (h : StreamRxNode) s : Prop := exists rest,
  s_rxList s = h :: rest /\
  DTAP_IsFrameSeqSmaller (n_txSeq h) (reorderTxSeq s) = false /\
  Forall (fun node => n_timeStamp h <= n_timeStamp node) rest.

Lemma smaller_refl q : DTAP_IsFrameSeqSmaller q q = false.
Proof. unfold DTAP_IsFrameSeqSmaller. by rewrite Z.sub_diag. Qed.

Lemma earliest_none l now mark :
  Forall (fun node => now <= n_timeStamp node) l -> earliest l now mark = (now, mark).
Proof.
  induction 1 as [|node l Hn Hl IH]; [done|]. cbn.
  by destruct (Z.ltb_spec (n_timeStamp node) now); [lia|].
Qed.

Lemma stalled_mark h rest now mark :
  DTAP_IsFrameSeqSmaller (n_txSeq h) mark = false ->
  Forall (fun node => n_timeStamp h <= n_timeStamp node) rest ->
  DTAP_IsFrameSeqSmaller (n_txSeq h) (earliest (h :: rest) now mark).2 = false.
Proof.
  intros Hm Hr. cbn. destruct (Z.ltb_spec (n_timeStamp h) now).
  - rewrite earliest_none by done. apply smaller_refl.
  - rewrite earliest_none; [done|]. eapply Forall_impl; [exact Hr|]. cbn. lia.
Qed.

Lemma stalled_rearmed h s s' : stalled h s -> rearmed s s' -> stalled h s'.
Proof.
  intros (rest&Hl&Hm&Ht) (mark&timer&->&Hmark). exists rest. split_and!; [done| |done]. cbn.
  destruct Hmark as [->|[now ->]]; [done|]. rewrite Hl. by apply stalled_mark.
Qed.

Lemma stalled_expected h s :
  stream_inv s -> stalled h s -> exists e n, expectedSeq s = seq14 e /\ n_txSeq h = seq14 n /\
    e < n < e + 8192.
Proof.
  intros Hinv (rest&Hl&_). destruct (si_order s Hinv) as [[_ Hnil]|(e&ns&He&Hn&Hgt)]; [congruence|].
  rewrite Hl in Hn. destruct ns as [|n ns]; [by destruct Hn as [[]%Forall2_nil_cons_inv]|].
  apply numbered_cons in Hn as (Hq&Hr&_). apply Forall_cons in Hgt as [? _].
  exists e, n. split_and!; (done || lia).
Qed.

(** What a step leaves of a stalled channel. *)
Definition still_stalled (h : StreamRxNode) s s' : Prop :=
  stalled h s' /\ expectedSeq s' = expectedSeq s /\ zlen (s_rxList s) <= zlen (s_rxList s').

Lemma stalled_task h s w (Q : unit -> _ -> Prop) :
  sched_ok ch w -> stream_inv s -> stalled h s ->
  (forall s' w', calm ch w w' -> still_stalled h s s' -> Q tt (s', w')) ->
  wp (reorder_task ch) (s, w) Q.
Proof.
  intros Hok Hinv Hst HQ. destruct (stalled_expected h s Hinv Hst) as (e&n&He&Hq&Hen).
  pose proof Hst as (rest&Hl&Hm&Ht).
  unfold reorder_task. apply wp_bind, wp_upd_stream, wp_bind, wp_get_stream, wp_bind.
  cbn [st_while]. apply wp_bind, wp_bind, wp_get_stream. cbn [s_rxList reorderTxSeq modify].
  rewrite Hl, Hm. cbn [negb]. apply wp_ret, wp_ret, wp_bind. unfold ReportExpectedStreamFrame.
  apply wp_bind, wp_get_stream. cbn [st_while]. apply wp_bind, wp_bind, wp_get_stream.
  cbn [s_rxList expectedSeq modify]. rewrite Hl, He, Hq, seq14_eqb by lia.
  destruct (Z.eqb_spec n e); [lia|]. cbn [negb]. apply wp_ret, wp_ret, wp_bind, (wp_update_max ch); [done|]. intros m w1 Hc1.
  apply (wp_start_reorder ch); [by eapply calm_ok|]. intros s' w' Hc Hre. apply HQ; [by eapply calm_trans|].
  destruct (rearmed_same _ _ Hre) as (El&Ee&_). cbn in El, Ee.
  split_and!; [|done|by rewrite El]. eapply stalled_rearmed; [|exact Hre].
  exists rest. by split_and!.
Qed.

(** Frames that cannot help: any, once the cache is full; before, those that do not
    come before [h]. *)
Definition no_help (h : StreamRxNode) s (ev : stream_event) : Prop :=
  match ev with
  | StRecv g _ => DTAP_STREAM_CACHE_MAX < zlen (s_rxList s) \/
                  DTAP_IsFrameSeqSmaller (txSeq g) (n_txSeq h) = false
  | _ => True
  end.

(** The clock went back behind the arrival of [h]. *)
Definition clock_back (h : StreamRxNode) w w' : Prop :=
  exists t a, trace w' = trace w ++ t /\ (CTimeMs, a) ∈ t /\ u64 a < n_timeStamp h.

Lemma stalled_recv h g b cb s w ret s' w' out :
  stream_inv s -> simplex_frame g b -> stalled h s -> no_help h s (StRecv g cb) ->
  recv_step ch g cb s w ret s' w' out ->
  clock_back h w w' \/ (out = [] /\ still_stalled h s s').
Proof.
  intros Hinv Hg Hst Hno Hr. destruct (stalled_expected h s Hinv Hst) as (e&n&He&Hq&Hen).
  pose proof Hst as (rest&Hl&Hm&Ht). pose proof (seq14_not_init e) as Hni.
  destruct Hr as [ret s' _ Hs'|w' _ ? _|e1 ? ? ? ? ? ? (_&Hle&_) He1 Hq1|w' _ _ _
    |node m a s' w' Ha Hit Hta (t&Ht'&Hin) Hc Hre].
  - right. split; [done|]. destruct Hs' as [->| ->]; (split_and!; [|done|]); try done; lia.
  - congruence.
  - destruct Hno as [?|Hno]; [lia|]. exfalso.
    rewrite Hq1, Hq in Hno. rewrite He in He1.
    assert (DTAP_IsFrameSeqSmaller (seq14 e) (seq14 n) = true) as E by (apply smaller_backward; lia).
    rewrite He1 in E. congruence.
  - right. split; [done|]. split_and!; try done; lia.
  - destruct Hno as [?|Hno]; [destruct Ha as [(_&?&_) _]; lia|].
    destruct (Z.lt_ge_cases (u64 a) (n_timeStamp h)); [left; by exists t, a|right].
    split; [done|]. destruct (rearmed_same _ _ Hre) as (El&Ee&_). cbn in El, Ee.
    assert (n_txSeq node = txSeq g) as Hnq by (unfold node_item in Hit; congruence).
    split_and!; [|done|].
    + eapply stalled_rearmed; [|exact Hre]. exists (InsertStreamRxNode rest node). cbn.
      rewrite Hl. cbn [InsertStreamRxNode]. rewrite Hnq, Hno. split_and!; [done..|].
      rewrite (insert_perm rest node). constructor; [lia|done].
    + rewrite El, (insert_perm _ node). cbn. lia.
Qed.

Lemma clock_back_later h w w1 w' : clock_back h w w1 -> extends w1 w' -> clock_back h w w'.
Proof.
  intros (t&a&Ht&Hin&Ha) [t' Ht']. exists (t ++ t'), a. rewrite Ht', Ht, app_assoc.
  split_and!; [done| |done]. apply elem_of_app. by left.
Qed.
Lemma clock_back_earlier h w w1 w' : extends w w1 -> clock_back h w1 w' -> clock_back h w w'.
Proof.
  intros [t' Ht'] (t&a&Ht&Hin&Ha). exists (t' ++ t), a. rewrite Ht, Ht', app_assoc.
  split_and!; [done| |done]. apply elem_of_app. by right.
Qed.

Lemma wp_stalled_event h ev s w (Q : unit -> _ -> Prop) :
  sched_ok ch w -> stream_inv s -> stalled h s -> stream_event_ok ev -> no_help h s ev ->
  (forall s' w' t, sched_ok ch w' -> stream_inv s' -> trace w' = trace w ++ t ->
     clock_back h w w' \/ (payloads t = [] /\ still_stalled h s s') -> Q tt (s', w')) ->
  wp (run_stream_event ch ev) (s, w) Q.
Proof.
  intros Hok Hinv Hst Hev Hno HQ.
  assert (forall tk s' w' out, stepped ch tk s s' w w' out ->
    clock_back h w w' \/ (out = [] /\ still_stalled h s s') -> Q tt (s', w')) as Hend.
  { intros tk s' w' out [Hinv' _ [Hok' (t&Ht&Hd)] _ _ _] Hc. apply (HQ s' w' t); try done.
    destruct Hc as [?|[-> ?]]; [by left|right]. rewrite handed_nil in Hd.
    unfold payloads. by rewrite Hd. }
  assert (forall s', s_rxList s' = s_rxList s -> reorderTxSeq s' = reorderTxSeq s ->
    expectedSeq s' = expectedSeq s -> still_stalled h s s') as Hkeep.
  { intros s' El Em Ee. split_and!; [|done|by rewrite El]. unfold stalled. by rewrite El, Em. }
  destruct ev as [g cb|p b| |]; cbn [run_stream_event stream_event_ok] in *.
  - destruct Hev as [b Hg]. apply wp_bind, (wp_recv_stream ch g b); [done..|].
    intros ret s' w' out Hr. apply wp_ret, (Hend (taken g ret) s' w' out); [by eapply recv_stepped|].
    by eapply stalled_recv.
  - apply wp_bind, wp_send_stream; [done..|]. intros ret q w' s' Hs.
    apply wp_ret, (Hend [] s' w' []); [done|]. right. split; [done|]. by apply Hkeep.
  - unfold DTAP_ReorderStreamFrameCbk. apply wp_bind, wp_over, (wp_ask_calm ch); [done..|].
    intros a w' Hc. apply wp_ret, (Hend [] s w' []); [apply stepped_idle; [done|by left|done]|].
    right. split; [done|]. by apply Hkeep.
  - eapply wp_mono; [apply wp_conj|].
    + apply (stalled_task h s w (fun _ '(s', w') => calm ch w w' /\ still_stalled h s s')); auto.
    + apply (wp_reorder_task ch s w (fun _ '(s', w') => stream_inv s')); [done..|].
      intros s' w' out Hs _. apply Hs.
    + intros [] [s' w'] [[[Hok' (t&Ht&Hq)] Hk] Hi]. apply (HQ s' w' t); try done.
      right. split; [|done]. unfold payloads. by rewrite quiet_delivered.
Qed.

Lemma no_help_later h s s' ev : zlen (s_rxList s) <= zlen (s_rxList s') -> no_help h s ev -> no_help h s' ev.
Proof. intros Hl. destruct ev; [|done..]. intros [?|?]; [left; lia|by right]. Qed.

Lemma wp_run_stalled h evs s w :
  sched_ok ch w -> stream_inv s -> stalled h s ->
  Forall stream_event_ok evs -> Forall (no_help h s) evs ->
  wp (run_stream ch evs) (s, w) (fun _ '(s', w') =>
    clock_back h w w' \/
    (exists t, trace w' = trace w ++ t /\ payloads t = [] /\ still_stalled h s s')).
Proof.
  revert s w. induction evs as [|ev evs IH]; intros s w Hok Hinv Hst Hev Hno.
  { apply wp_ret. right. exists []. by rewrite app_nil_r. }
  apply Forall_cons in Hev as [He Hev]. apply Forall_cons in Hno as [Hn Hno].
  apply wp_bind, (wp_stalled_event h); [done..|]. intros s1 w1 t Hok1 Hinv1 Ht [Hc|(Hp&Hst1&He1&Hl1)].
  { eapply wp_mono; [by apply wp_run_safe|]. intros _ [s' w'] (_&_&Hx). left. by eapply clock_back_later. }
  eapply wp_mono; [apply IH; try done; eapply Forall_impl; [exact Hno|]; intros; by eapply no_help_later|].
  intros _ [s' w'] [Hc|(t'&Ht'&Hp'&Hst'&He'&Hl')].
  - left. eapply clock_back_earlier; [by exists t|done].
  - right. exists (t ++ t'). rewrite Ht', Ht, app_assoc, payloads_app, Hp, Hp'.
    split_and!; [done..|]. split_and!; [done|congruence|lia].
Qed.
End gap.

(** ** Lemmas: the receiver and its specification *)
Section spec.
Context {W : Type} `{Scheduler W}.
Context (ch : DTAP_Channel).
Implicit Types (s : DTAP_Stream_Channel) (w : W).

(** What a channel makes of a frame, by the specification. *)
Definition recv_spec (g : DTAP_Frame) s : Z * list (Z * item) * Z * gmap Z item :=
  if negb (bool_decide (header_sar g = Some DTAP_SAR_UNSEG))
  then (DTAP_TRANS_UNSUPPORTED, [], expectedSeq s, held s)
  else if DTAP_STREAM_CACHE_MAX <? Z.of_nat (size (held s))
  then (DTAP_TRANS_STREAM_RX_FULL, [], expectedSeq s, held s)
  else if negb (frame_sound (s_crcInit s) g)
  then (DTAP_TRANS_STREAM_RECV_CRC_ERR, [], expectedSeq s, held s)
  else reorder_recv (expectedSeq s) (held s) (txSeq g) (frame_item g).

Lemma inv_size s : stream_inv s -> Z.of_nat (size (held s)) = zlen (s_rxList s).
Proof.
  intros Hinv. destruct (si_order s Hinv) as [[_ Hl]|(e&ns&_&Hn&_)].
  - unfold held. by rewrite Hl.
  - unfold held. by rewrite held_size by (by eapply numbered_NoDup).
Qed.

Lemma spec_accepted g s :
  stream_inv s -> accepted g s ->
  recv_spec g s = reorder_recv (expectedSeq s) (held s) (txSeq g) (frame_item g).
Proof.
  intros Hinv (Hsar&Hle&Hs). unfold recv_spec. rewrite bool_decide_true by done. cbn [negb].
  rewrite inv_size, Hs by done. cbn [negb].
  by destruct (Z.ltb_spec DTAP_STREAM_CACHE_MAX (zlen (s_rxList s))); [lia|].
Qed.

Lemma spec_refused g s ret :
  stream_inv s -> refused g s ret -> recv_spec g s = (ret, [], expectedSeq s, held s).
Proof.
  intros Hinv Hr. destruct Hr as [Hsar|Hsar Hgt|Hsar Hle Hsound|Hsar Hle Hsound Hni Hne Hdup].
  - unfold recv_spec. by rewrite bool_decide_false.
  - unfold recv_spec. rewrite bool_decide_true, inv_size by done. cbn [negb].
    by destruct (Z.ltb_spec DTAP_STREAM_CACHE_MAX (zlen (s_rxList s))); [|lia].
  - unfold recv_spec. rewrite bool_decide_true, inv_size, Hsound by done. cbn [negb].
    by destruct (Z.ltb_spec DTAP_STREAM_CACHE_MAX (zlen (s_rxList s))); [lia|].
  - rewrite spec_accepted by done. unfold reorder_recv.
    destruct (Z.eqb_spec (expectedSeq s) DTAP_FRAME_SEQ_INIT); [done|].
    destruct (Z.eqb_spec (txSeq g) (expectedSeq s)); [done|].
    destruct Hdup as [->|Hf]; [done|]. unfold held.
    rewrite (bool_decide_true _ (proj2 (held_find _ _) Hf)). by rewrite orb_true_r.
Qed.

Lemma recv_step_spec g b cb s w ret s' w' out :
  stream_inv s -> simplex_frame g b -> recv_step ch g cb s w ret s' w' out ->
  (ret, out, expectedSeq s', held s') = recv_spec g s \/
  (alloc_failed_since w w' /\
   (ret, out, expectedSeq s', held s') = (DTAP_TRANS_MALLOC_ERR, [], expectedSeq s, held s)).
Proof.
  intros Hinv Hg Hst.
  destruct Hst as [ret s' Hr Hs'|w' Hacc He _|e l' e' ns' out s' w' Hacc He Hq Hcons _ _ _ Hre _
    |w' _ _ Hf|node m a s' w' Ha Hit _ _ _ Hre].
  - left. rewrite (spec_refused _ _ ret) by done. by destruct Hs' as [->| ->].
  - left. rewrite spec_accepted by done. unfold reorder_recv. by rewrite He, Z.eqb_refl.
  - left. rewrite spec_accepted by done. unfold reorder_recv.
    destruct (rearmed_same _ _ Hre) as (El&Ee&_). cbn in El, Ee.
    rewrite He, Hq, seq14_eqb_init, Z.eqb_refl, next_seq14, Hcons. unfold held. by rewrite Ee, El.
  - by right.
  - left. destruct (ahead_insert g b s node Hinv Hg Ha Hit) as (_&Hh&Hfree).
    destruct (rearmed_same _ _ Hre) as (El&Ee&_). cbn in El, Ee.
    destruct Ha as (Hacc&Hni&Hne&Hsm&_). rewrite spec_accepted by done. unfold reorder_recv.
    destruct (Z.eqb_spec (expectedSeq s) DTAP_FRAME_SEQ_INIT); [done|].
    destruct (Z.eqb_spec (txSeq g) (expectedSeq s)); [done|]. rewrite Hsm, Hfree.
    rewrite bool_decide_false by (by intros []). cbn [orb]. unfold held at 1. by rewrite El, Ee, Hh.
Qed.
End spec.

(** ** Theorems *)
Section theorems.
Context {W : Type} `{Scheduler W}.
Context (ch : DTAP_Channel).
Implicit Types (s : DTAP_Stream_Channel) (w : W).

(** C24. Stream delivery in order.  Take a channel that has a callback through any
    sequence of frames from the peer, each received with a callback, packets to send,
    expiries of the reorder timer and reordering tasks, with any failures of memory,
    timers and the scheduler.  There is no dangling or out-of-bounds access and no endless
    loop, and the invariant holds at the end; the one read that C leaves undefined, that
    of the last node of an empty list by the reordering task, is answered by any value
    whatever.  The packets handed up are contents of undamaged frames that had been held
    or have arrived, each at most once; and each has the expected number or follows it by
    less than half of the numbers, so that none is handed up after a later one. *)
Theorem stream_delivers_in_order evs s w :
  sched_ok ch w -> stream_inv s -> has_cb s -> Forall stream_event_ok evs -> Forall hears evs ->
  wp (run_stream ch evs) (s, w) (fun _ '(s', w') => exists log tk t,
    sched_ok ch w' /\ stream_inv s' /\
    trace w' = trace w ++ t /\ payloads t = log.*2 /\
    in_order (expectedSeq s) log.*1 /\ expectedSeq s' = after (expectedSeq s) log.*1 /\
    tk `sublist_of` arrivals (s_crcInit s) evs /\
    log ++ map_to_list (held s') ≡ₚ map_to_list (held s) ++ tk).
Proof.
  intros Hok Hinv Hcb Hev Hh. eapply wp_mono; [by apply wp_run_stream|].
  intros _ [s' w'] [log [? ? _ _ (t&?&?) ? ? (tk&?&?)]]. by exists log, tk, t.
Qed.

(** C25. Receiving implements a reorder buffer.  With the list of the receiver read as a
    finite map from sequence numbers to packets, receiving a frame answers the status,
    hands up the packets and leaves the state of the specification [recv_spec]; or, when
    an allocation failed, it answers so and leaves all as it was.  The packets go to the
    callback that came with this frame, those of earlier frames too. *)
Theorem stream_recv_refines g b cb s w :
  sched_ok ch w -> stream_inv s -> simplex_frame g b ->
  wp (DTAP_RecvStreamFrame ch g cb) (s, w) (fun ret '(s', w') => exists out,
    gave ch cb w w' out /\ stream_inv s' /\
    ((ret, out, expectedSeq s', held s') = recv_spec g s \/
     (alloc_failed_since w w' /\
      (ret, out, expectedSeq s', held s') = (DTAP_TRANS_MALLOC_ERR, [], expectedSeq s, held s)))).
Proof.
  intros Hok Hinv Hg. apply (wp_recv_stream ch g b); [done..|]. intros ret s' w' out Hst.
  exists out. pose proof (recv_stepped ch g b cb s w ret s' w' out Hok Hinv Hg Hst) as Hstep.
  split; [|split; [apply Hstep|]].
  { destruct (recv_cb_after ch _ _ _ _ _ _ _ _ Hst) as [<-|[_ ->]]; [apply Hstep|].
    split; [by eapply gave_ok, Hstep|]. destruct (sp_gave _ _ _ _ _ _ _ Hstep) as [_ (t&?&Ht)].
    exists t. rewrite handed_nil in *. done. }
  by eapply recv_step_spec.
Qed.

(** A lost frame stops the channel.  Let the frame at the front of the receiver's
    list wait for a missing one, be the one held for longest, and not be before the
    timer's mark (as [stream_loss_stalls_witness] reaches from a new channel by losing
    one frame).  Then nothing is handed up any more, whatever happens: the reordering
    task never passes the frame that has waited, and as soon as more than 256 frames
    are held every frame is refused, the missing one included.  (Only a frame from
    before that front, arriving while there is room, can help; and all this is as long
    as the clock does not run backwards.) *)
Theorem stream_loss_stalls h evs s w :
  sched_ok ch w -> stream_inv s -> stalled h s ->
  Forall stream_event_ok evs -> Forall (no_help h s) evs ->
  wp (run_stream ch evs) (s, w) (fun _ '(s', w') =>
    clock_back h w w' \/
    (exists t, trace w' = trace w ++ t /\ payloads t = [] /\ still_stalled h s s')).
Proof. intros. by apply wp_run_stalled. Qed.
End theorems.

(** ** From the sender to the receiver *)

Lemma decode_at b L c :
  buff_wf b -> is_u16 c -> buff_data b = L ++ ENCODE2BYTE_LITTLE c ->
  DECODE2BYTE_LITTLE (bmem b) (dataOff b + dataLen b - DTAP_CRC_LEN) = Some c.
Proof.
  intros Hwf Hc Hd. pose proof (length_buff_data b Hwf) as Hl. rewrite Hd, length_app in Hl.
  change (length (ENCODE2BYTE_LITTLE c)) with 2%nat in Hl. change DTAP_CRC_LEN with 2.
  pose proof (wf_off b Hwf). unfold DECODE2BYTE_LITTLE.
  replace (dataOff b + dataLen b - 2) with (dataOff b + zlen L) by lia.
  rewrite <- Z.add_assoc, !rd_data, Hd by lia. unfold rd. rewrite !decide_True by lia.
  rewrite !lookup_app_r by lia. replace (Z.to_nat (zlen L + 1) - length L)%nat with 1%nat by lia.
  replace (Z.to_nat (zlen L) - length L)%nat with 0%nat by lia. cbn [lookup mbind option_bind].
  unfold ENCODE2BYTE_LITTLE. cbn. rewrite decode_encode2. by rewrite !(u16_small c) by (by rewrite ?(u16_small c)).
Qed.

(** A sent packet arrives.  What the sender builds from a packet parses, at the
    peer, to a frame this mode accepts: unsegmented, with the sender's next sequence
    number, undamaged by the checksum both ends agreed on, and with the protocol
    identifier and the payload that were sent. *)
Theorem stream_frame_roundtrip s tcid p b :
  send_ok b -> is_u16 (s_crcInit s) -> 0 <= frameTxSeq s <= DTAP_FRAME_SEQ_MAX ->
  is_u8 p -> is_u16 (dataLen b + 5) ->
  exists b' g,
    DTAP_PackStreamFrame s tcid p b DTAP_SAR_UNSEG
    = Some (DTAP_SUCCESS, s <| frameTxSeq := DTAP_GetNextFrameSeq (frameTxSeq s) |>, b') /\
    DTAP_ParseFrame DTAP_FRAME_SIMPLEX_FRAG b' frame0 = Some (DTAP_SUCCESS, g) /\
    simplex_frame g b' /\ DTAP_CheckStreamFrame g = Some true /\
    header_sar g = Some DTAP_SAR_UNSEG /\ txSeq g = DTAP_GetNextFrameSeq (frameTxSeq s) /\
    frame_sound (s_crcInit s) g = true /\ frame_item g = (p, buff_data b).
Proof.
  intros Hb Hcrc Hseq Hp Hlen. unfold is_u16 in Hlen. set (seq := DTAP_GetNextFrameSeq (frameTxSeq s)).
  assert (0 <= seq < 16384) as Hs.
  { unfold seq. rewrite <- (seq14_id _ Hseq), next_seq14.
    pose proof (seq14_range (frameTxSeq s + 1)). unfold DTAP_FRAME_SEQ_MAX in *. lia. }
  destruct (pack_stream_spec s tcid p b Hb Hcrc Hseq) as (b'&Hpack&Hwf'&Hd&Ho&Hl).
  fold seq in Hpack, Hd. set (H := simplex_header _ _ _ _ _ _) in Hd.
  pose proof (proj1 Hb) as Hwf. pose proof (length_buff_data b Hwf) as Hbl. pose proof (wf_len b Hwf).
  destruct (parse_built_simplex b' tcid false (dataLen b + 5) p seq DTAP_SAR_UNSEG (buff_data b)
    (ENCODE2BYTE_LITTLE (CRC16 (s_crcInit s) (H ++ buff_data b))) Hwf' Hd)
    as (g&Hg&Hgb&Hgc&Hgh&_&Hgp&Hgs&_&_&Hghl&_); [done|lia|done|done|done|].
  assert (simplex_frame g b') as Hf.
  { constructor; [done|change DTAP_BASIC_HEADER_LEN with 4; lia|]. eexists. split; [by left|done]. }
  assert (header_sar g = Some DTAP_SAR_UNSEG /\ DTAP_CheckStreamFrame g = Some true) as [Hsar Hck].
  { unfold header_sar, DTAP_CheckStreamFrame, header_frameType, frame_mem. rewrite Hgh, Hgb.
    cbn [mbind option_bind]. set (v := seq + 16384 * DTAP_SAR_UNSEG).
    assert (is_u16 v) by (unfold v, is_u16, DTAP_SAR_UNSEG; lia). pose proof (wf_off b' Hwf').
    rewrite (ld16_data b' 5 (u8 v) (u8 (v / 256))) by
      (first [done | lia | rewrite Hd, !rd_app_l by (rewrite ?length_app; change (length H) with 7%nat; lia); done]).
    cbn [mbind option_bind]. rewrite le16_join by done.
    destruct (word_fields seq DTAP_SAR_UNSEG Hs) as [_ Ew]; [done|]. fold v in Ew. rewrite Ew.
    rewrite rd_data by lia.
    rewrite Hd, !rd_app_l by (rewrite ?length_app; change (length H) with 7%nat; lia). by split. }
  assert (take (Z.to_nat (dataLen b' - DTAP_CRC_LEN)) (buff_data b') = H ++ buff_data b) as Htake.
  { rewrite Hd. apply take_app_length'. rewrite length_app. change (length H) with 7%nat.
    change DTAP_CRC_LEN with 2. lia. }
  exists b', g. split_and!; try done.
  - unfold frame_sound. rewrite Hgb, Htake. apply bool_decide_true.
    pose proof (CRC16_range (s_crcInit s) (H ++ buff_data b) Hcrc
      (Forall_app_2 _ _ _ (proj1 header_bytes_ok _ _ _ _ _ _) (buff_data_ok b Hwf))) as Hcr.
    by apply (decode_at b' (H ++ buff_data b)).
  - unfold frame_item. by rewrite Hgb, Hghl, Htake, Hgp.
Qed.

(** ** Closed instances *)
Definition stream_demo_channel : DTAP_Channel :=
  mk_channel 1 DTAP_PRIORITY_NORMAL 0 3 0x21 0x80 CM_TRANS_MODE_STREAM 1000 1000 DTAP_FRAME_UNICAST.
Definition new_stream : DTAP_Stream_Channel :=
  mk_stream 1000 1000 0xFFFF 0 DTAP_FRAME_SEQ_INIT DTAP_FRAME_SEQ_INIT 0 INVALID_TIMER_HANDLE [] None.

Definition stream_demo_packet (D : bytes) : SDF_Buff :=
  mk_buff 14 (zlen D) (16 + zlen D) (replicate 14 0 ++ D ++ [0; 0]).

(** Frame [k] of a peer, as it arrives. *)
Definition stream_demo_sent (k : Z) (D : bytes) : option (SDF_Buff * DTAP_Frame) :=
  '(_, _, b) ← DTAP_PackStreamFrame (new_stream <| frameTxSeq := k - 1 |>) 0x21 3
                 (stream_demo_packet D) DTAP_SAR_UNSEG;
  '(_, g) ← DTAP_ParseFrame DTAP_FRAME_SIMPLEX_FRAG b frame0;
  Some (b, g).
Definition stream_demo_frame (k : Z) : DTAP_Frame := default frame0 (snd <$> stream_demo_sent k [k mod 256]).
Definition stream_demo_g1 : DTAP_Frame := Eval vm_compute in stream_demo_frame 1.
Definition stream_demo_g2 : DTAP_Frame := Eval vm_compute in stream_demo_frame 2.
Definition stream_demo_g3 : DTAP_Frame := Eval vm_compute in stream_demo_frame 3.

Ltac stream_frame_fact g :=
  let b := eval vm_compute in (default (mk_buff 0 0 0 []) (f_buff g)) in
  exists b; constructor; [constructor; closed_fact|closed_fact|];
  exists DTAP_FRAME_SIMPLEX_FRAG; split; [by left|vm_compute; reflexivity].

Lemma stream_demo_frame1 : exists b, simplex_frame stream_demo_g1 b.
Proof. stream_frame_fact stream_demo_g1. Qed.
Lemma stream_demo_frame2 : exists b, simplex_frame stream_demo_g2 b.
Proof. stream_frame_fact stream_demo_g2. Qed.
Lemma stream_demo_frame3 : exists b, simplex_frame stream_demo_g3 b.
Proof. stream_frame_fact stream_demo_g3. Qed.
Lemma stream_demo_packet_ok : send_ok (stream_demo_packet [7; 8]).
Proof. split; [constructor; closed_fact|by split]. Qed.

Lemma new_stream_inv : stream_inv new_stream.
Proof. constructor; [closed_fact..|by left]. Qed.

(** Frames 1, 3 and 2 arrive, a packet is sent, the reorder timer expires. *)
Definition stream_demo_events : list stream_event :=
  [StRecv stream_demo_g1 (Some 77); StRecv stream_demo_g3 (Some 77); StSend 3 (stream_demo_packet [7; 8]);
   StTimer; StTask; StRecv stream_demo_g2 (Some 77)].

Lemma stream_delivers_in_order_witness :
  wp (run_stream stream_demo_channel stream_demo_events) (new_stream, mk_script [] [])
    (fun _ '(s', w') => exists log tk t,
      sched_ok stream_demo_channel w' /\ stream_inv s' /\
      trace w' = trace (mk_script [] []) ++ t /\ payloads t = log.*2 /\
      in_order (expectedSeq new_stream) log.*1 /\ expectedSeq s' = after (expectedSeq new_stream) log.*1 /\
      tk `sublist_of` arrivals (s_crcInit new_stream) stream_demo_events /\
      log ++ map_to_list (held s') ≡ₚ map_to_list (held new_stream) ++ tk).
Proof.
  refine (stream_delivers_in_order stream_demo_channel stream_demo_events new_stream (mk_script [] []) _ _ _ _ _).
  - exact I.
  - exact new_stream_inv.
  - by right.
  - repeat apply Forall_cons_2;
      first [exact stream_demo_frame1|exact stream_demo_frame2|exact stream_demo_frame3
            |exact stream_demo_packet_ok|exact I|apply Forall_nil_2].
  - by repeat constructor.
Defined.

(** The same run, executed. *)
Lemma stream_demo_run :
  omap (fun '(_, (s, w)) => Some (payloads (past w), expectedSeq s))
    (option_list (run_stream stream_demo_channel stream_demo_events (new_stream, mk_script [] [])))
  = [([(3, [1]); (3, [2]); (3, [3])], 4)].
Proof. vm_compute. reflexivity. Qed.

(** Frame 1 has arrived, frame 2 is lost, frame 3 is held. *)
Definition stream_demo_gap : DTAP_Stream_Channel * script := Eval vm_compute in
  default (new_stream, mk_script [] []) (snd <$> run_stream stream_demo_channel
    [StRecv stream_demo_g1 (Some 77); StRecv stream_demo_g3 (Some 77)] (new_stream, mk_script [] [])).

Definition stream_demo_node : StreamRxNode := Eval vm_compute in
  default (mk_node 0 0 (mk_buff 0 0 0 []) 0 0 0 0) (head (s_rxList (fst stream_demo_gap))).

Lemma stream_demo_gap_inv : stream_inv (fst stream_demo_gap).
Proof.
  constructor; [closed_fact..|]. right. exists 2, [3]. split; [reflexivity|].
  split; [split_and!|]; repeat constructor; closed_fact.
Qed.

Lemma stream_recv_refines_witness :
  let s := fst stream_demo_gap in let w := snd stream_demo_gap in
  wp (DTAP_RecvStreamFrame stream_demo_channel stream_demo_g2 (Some 78)) (s, w) (fun ret '(s', w') =>
    exists out, gave stream_demo_channel (Some 78) w w' out /\ stream_inv s' /\
    ((ret, out, expectedSeq s', held s') = recv_spec stream_demo_g2 s \/
     (alloc_failed_since w w' /\
      (ret, out, expectedSeq s', held s') = (DTAP_TRANS_MALLOC_ERR, [], expectedSeq s, held s)))).
Proof.
  destruct stream_demo_frame2 as [b Hb].
  exact (stream_recv_refines stream_demo_channel stream_demo_g2 b (Some 78) (fst stream_demo_gap)
    (snd stream_demo_gap) I stream_demo_gap_inv Hb).
Defined.

Definition stream_demo_later : list stream_event :=
  [StTask; StRecv stream_demo_g3 (Some 77); StTimer; StTask].

Lemma stream_loss_stalls_witness :
  let s := fst stream_demo_gap in let w := snd stream_demo_gap in
  run_stream stream_demo_channel [StRecv stream_demo_g1 (Some 77); StRecv stream_demo_g3 (Some 77)]
    (new_stream, mk_script [] []) = Some (tt, (s, w)) /\
  wp (run_stream stream_demo_channel stream_demo_later) (s, w) (fun _ '(s', w') =>
    clock_back stream_demo_node w w' \/
    (exists t, trace w' = trace w ++ t /\ payloads t = [] /\ still_stalled stream_demo_node s s')).
Proof.
  split; [vm_compute; reflexivity|].
  refine (stream_loss_stalls stream_demo_channel stream_demo_node stream_demo_later (fst stream_demo_gap)
    (snd stream_demo_gap) I stream_demo_gap_inv _ _ _).
  - exists []. by repeat constructor.
  - repeat apply Forall_cons_2; first [exact stream_demo_frame3|exact I|apply Forall_nil_2].
  - repeat apply Forall_cons_2; first [exact I|right; vm_compute; reflexivity|apply Forall_nil_2].
Defined.

(** The end of it: frame 2 is lost, frames 3 to 259 fill the cache, and when frame 2 does
    arrive it is refused. *)
Lemma stream_demo_full :
  omap (fun '(ret, (s, w)) => Some (ret, zlen (s_rxList s), payloads (past w)))
    (option_list ((run_stream stream_demo_channel
        ((fun k => StRecv (stream_demo_frame k) (Some 77)) <$> 1 :: seqZ 3 257) ;;!
      DTAP_RecvStreamFrame stream_demo_channel stream_demo_g2 (Some 77)) (new_stream, mk_script [] [])))
  = [(DTAP_TRANS_STREAM_RX_FULL, 257, [(3, [1])])].
Proof. vm_compute. reflexivity. Qed.

Lemma stream_frame_roundtrip_witness :
  let s := new_stream in let b := stream_demo_packet [7; 8] in
  exists b' g,
    DTAP_PackStreamFrame s 0x80 3 b DTAP_SAR_UNSEG = Some (DTAP_SUCCESS, s <| frameTxSeq := 1 |>, b') /\
    DTAP_ParseFrame DTAP_FRAME_SIMPLEX_FRAG b' frame0 = Some (DTAP_SUCCESS, g) /\
    simplex_frame g b' /\ DTAP_CheckStreamFrame g = Some true /\
    header_sar g = Some DTAP_SAR_UNSEG /\ txSeq g = 1 /\
    frame_sound (s_crcInit s) g = true /\ frame_item g = (3, [7; 8]).
Proof.
  refine (stream_frame_roundtrip new_stream 0x80 3 (stream_demo_packet [7; 8]) _ _ _ _ _);
    [exact stream_demo_packet_ok|closed_fact..].
Defined.
