(* ===== verification/DtapChannel.v ===== *)
(** * Transmission channels

    [services/stack/src/dp/dtap/src/dtap_channel.c]: the channels of each logical link,
    in a map from links to lists, made and destroyed as the connection manager reports
    channels activated and released.  A channel object is known by its address; its
    [attr] is the state of its transmission mode, and the part of the object that the
    packet scheduler uses is in the scheduler's store ([DtapScheduler.channels]), put
    there when the object is made and taken out when it is freed.  Addresses are not
    used twice, so that a pointer to a freed object stays dangling. *)
From S2P Require Import Prelude SdfErrno SdfBuff SdfContainers DtapEnv DliLayer DliData DtapFrame DtapFragment DtapTrans DtapQuota DtapScheduler.
From S2P Require Import DtapSchedStore DtapSchedRun DtapSchedLoop DtapSchedDown DtapSchedEvents DtapSchedProps DtapReliable DtapStream DtapBasic.
Export SdfContainers.Map.

Definition DTAP_RELIABLE_REORDER_TIMEOUT : Z := 10000.
Definition DTAP_RELIABLE_RETRANS_TIMEOUT : Z := 1000.
Definition DTAP_RELIABLE_RSP_TIMEOUT : Z := 1000.
Definition DTAP_STREAM_FLUSH_TIMEOUT : Z := 1000.
Definition DTAP_STREAM_REORDER_TIMEOUT : Z := 1000.

(** [CM_Tcid_E], [CM_AccessTransportMode_E], [CM_TransChannelState_E],
    [CM_ConnectLinkState_E], as far as they are used *)
Definition CM_TCID_SLE_CMTC : Z := 0x02.
Definition CM_TCID_SLE_SMTC : Z := 0x0A.
Definition CM_TCID_SLE_CUTC : Z := 0x1F.
Definition CM_TCID_BC_BEGIN : Z := 0x20.
Definition CM_TCID_UC_END : Z := 0xDF.
Definition CM_CAP_WND : Z := 200.
Definition CM_ACCESS_TRANS_MODE_UNICAST : Z := 0.
Definition CM_ACCESS_TRANS_MODE_DATA_MCST : Z := 1.
Definition CM_ACCESS_TRANS_MODE_FEEDBACK_MCST : Z := 2.
Definition CM_ACCESS_TRANS_MODE_BIDI_MCST : Z := 3.
Definition CM_ACCESS_TRANS_MODE_SEND_BCST : Z := 4.
Definition CM_ACCESS_TRANS_MODE_RECV_BCST : Z := 5.
Definition CM_TRANS_CHANNEL_STATE_ACTIVATED : Z := 2.
Definition CM_TRANS_CHANNEL_STATE_RELEASED : Z := 4.
Definition CM_LINK_STATE_CONNECTED : Z := 0.
Definition CM_LINK_STATE_DISCONNECTED : Z := 2.
Definition CM_SUCCESS : Z := 0.

(** The parameters of a channel.  The C type keeps the configurations of the two modes
    in a union, of which the code reads the part that [transMode] says. *)
Record CM_TransReliableModeConfig := mk_relconf {
  rc_reorderTimeout : Z; rc_crcInit : Z; rc_retransTimeout : Z; rc_rspTimeout : Z;
  rc_txWindow : Z; rc_maxTxThreshold : Z
}.
Record CM_TransStreamModeConfig := mk_strconf {
  sc_reorderTimeout : Z; sc_crcInit : Z; sc_flushTimeout : Z
}.
Record CM_TransModeConfig := mk_conf {
  transMode : Z; cf_mtu : Z; cf_mps : Z;
  reliableMode : CM_TransReliableModeConfig; streamMode : CM_TransStreamModeConfig
}.
Record CM_TransChan := mk_param {
  pm_castMode : Z; pm_lcid : Z; pm_srcTcid : Z; pm_dstTcid : Z; config : CM_TransModeConfig
}.
Record CM_TransChannelStateList := mk_states {
  sl_result : Z; channelVector : option (list (option CM_TransChan))
}.
Record CM_LogicLinkState := mk_linkstate { lk_lcid : Z; lk_result : Z }.

(** [channel->attr]; the C code casts it to the type that [channel->mode] says. *)
Inductive Attr :=
| BasicAttr (b : DTAP_Basic_Channel) | StreamAttr (s : DTAP_Stream_Channel)
| ReliableAttr (r : DTAP_ReliableChannel) | NoAttr.

Record ChannelObj := mk_obj { o_ch : DTAP_Channel; o_attr : Attr }.
#[export] Instance eta_obj : Eta ChannelObj := fun o => mk_obj (o_ch o) (o_attr o).

(** The globals of [dtap_channel.c] and [dtap.c]: [g_dtapDataSendCbks] is whether its
    callback is set, [d_next] the address the next object gets. *)
Record Dtap := mk_dtap {
  g_dtapIsInited : bool;
  g_dtapRecvCbks : list (Z * DTAP_DataRecvCb);
  g_dtapProtoRecvCbks : list DTAP_DataRecvCb;
  g_dtapDataSendCbks : bool;
  g_dtapLogicLinksMap : option (SDF_Map Z (list ChannelObj));
  d_next : Z
}.
#[export] Instance eta_dtap : Eta Dtap := fun d =>
  mk_dtap (g_dtapIsInited d) (g_dtapRecvCbks d) (g_dtapProtoRecvCbks d) (g_dtapDataSendCbks d)
    (g_dtapLogicLinksMap d) (d_next d).

Definition entries (d : Dtap) : list (Z * list ChannelObj) :=
  match g_dtapLogicLinksMap d with Some m => entry m | None => [] end.
Definition objs (d : Dtap) : list ChannelObj := concat (entries d).*2.

Definition at_ptr (p : Z) (o : ChannelObj) : bool := ch_ptr (o_ch o) =? p.

Definition upd_entries (f : list (Z * list ChannelObj) -> list (Z * list ChannelObj)) (d : Dtap) : Dtap :=
  d <| g_dtapLogicLinksMap ::= fmap (fun m => mk_map (f (entry m))) |>.
(** A store to the list of a link, and to the [attr] of the object at [p]. *)
Definition upd_link (lcid : Z) (f : list ChannelObj -> list ChannelObj) : Dtap -> Dtap :=
  upd_entries (update_first (fun e => fst e =? lcid) (fun e => (fst e, f (snd e)))).
Definition upd_attr (p : Z) (a : Attr) : Dtap -> Dtap :=
  upd_entries (map (fun e => (fst e, map (fun o => if at_ptr p o then o <| o_attr := a |> else o) (snd e)))).

(** [lhs - rhs] on two [uint16_t] promoted to [int] *)
Definition DTAP_LogicLinkCompare (lhs rhs : Z) : Z := lhs - rhs.

Section channel.
Context {W : Type} `{World W}.
Notation stack := (Sched * (DLI_LayerInfo * W))%type.
Notation M := (ST (Dtap * stack)).

Definition dg {A} (f : Dtap -> A) : M A := st_gets (fun s => f (fst s)).
Definition dupd (f : Dtap -> Dtap) : M unit := st_modify (fun s => (f (fst s), snd s)).

(** The object behind a channel pointer; [None] is the dangling pointer. *)
Definition get_obj (p : Z) : M ChannelObj :=
  let! o := dg (fun d => find_first (at_ptr p) (objs d)) in st_opt o.

(** Code of a transmission mode, on the [attr] of the channel. *)
Definition on_attr {B A} (cast : Attr -> option B) (mk : B -> Attr) (ch : DTAP_Channel)
    (m : ST (B * stack) A) : M A :=
  let! o := get_obj (ch_ptr ch) in
  let! b := st_opt (cast (o_attr o)) in
  let! (a, b') := over (fun x => match m (b, x) with
                                 | Some (a, (b', x')) => Some ((a, b'), x') | None => None end) in
  dupd (upd_attr (ch_ptr ch) (mk b')) ;;!
  st_ret a.
Definition as_basic (a : Attr) := match a with BasicAttr b => Some b | _ => None end.
Definition as_stream (a : Attr) := match a with StreamAttr s => Some s | _ => None end.
Definition as_reliable (a : Attr) := match a with ReliableAttr r => Some r | _ => None end.
Definition on_basic {A} := on_attr (A := A) as_basic BasicAttr.
Definition on_stream {A} := on_attr (A := A) as_stream StreamAttr.
Definition on_reliable {A} := on_attr (A := A) as_reliable ReliableAttr.

(** ** Destruction *)
Definition DTAP_StreamChannelDestroy (stream : DTAP_Stream_Channel) : M unit :=
  if negb (reorderTimerHandle stream =? INVALID_TIMER_HANDLE) then CP_TimerDel (reorderTimerHandle stream)
  else st_ret tt.

Definition DTAP_ReliableChannelDestroy (reliable : DTAP_ReliableChannel) : M unit :=
  let! _ := DTAP_TransStopTimer (reorderTimer reliable) in
  let! _ := DTAP_TransStopTimer (retransTimer reliable) in
  let! _ := DTAP_TransStopTimer (rspTimer reliable) in
  st_ret tt.

(** Of an object that is in no list any more; freeing it takes it out of the
    scheduler's store. *)
Definition DTAP_ChannelDestroy (channel : ChannelObj) : M unit :=
  let mode := ch_mode (o_ch channel) in
  (match o_attr channel with
   | NoAttr => st_ret tt
   | attr =>
       if mode =? CM_TRANS_MODE_STREAM then
         let! s := st_opt (as_stream attr) in DTAP_StreamChannelDestroy s
       else if mode =? CM_TRANS_MODE_RELIABLE then
         let! r := st_opt (as_reliable attr) in DTAP_ReliableChannelDestroy r
       else if mode =? CM_TRANS_MODE_BASIC then
         let! b := st_opt (as_basic attr) in st_ret tt
       else st_ret tt
   end) ;;!
  over (supd (freed (ch_ptr (o_ch channel)))).

Definition DTAP_LogicLinksDtor (list : list ChannelObj) : M unit := st_for list DTAP_ChannelDestroy.

(** ** The map of the links *)
Definition DTAP_LogicLinkMapInit : M Z :=
  let! ok := alloc_ok in
  let m := SDF_MapCtor true true true ok in
  dupd (fun d => d <| g_dtapLogicLinksMap := m |>) ;;!
  st_ret (match m with None => DTAP_TRANS_CHANNEL_CREATE_LINK_MAP_ERR | Some _ => DTAP_SUCCESS end).

Definition DTAP_LogicLinkMapDeInit : M unit :=
  let! m := dg g_dtapLogicLinksMap in
  match m with
  | None => st_ret tt
  | Some m =>
      st_for (SDF_MapDtor m) (fun e => DTAP_LogicLinksDtor (snd e)) ;;!
      dupd (fun d => d <| g_dtapLogicLinksMap := None |>)
  end.

Definition DTAP_LogicLinkFind (lcid : Z) : M (option (list ChannelObj)) :=
  let! m := dg g_dtapLogicLinksMap in
  st_ret (m ← m; snd <$> SDF_MapFind DTAP_LogicLinkCompare m lcid).

(** Allocates the link and inserts it; answers whether both went well. *)
Definition DTAP_LogicLinkInsert (lcid : Z) : M bool :=
  let! link := alloc_ok in
  if negb link then st_ret false
  else
    let! m := dg g_dtapLogicLinksMap in
    match m with
    | None => st_ret false
    | Some m =>
        let! node := (match SDF_MapFind DTAP_LogicLinkCompare m lcid with
                      | Some _ => st_ret false | None => alloc_ok end) in
        let (ok, m) := SDF_MapMoveInsert DTAP_LogicLinkCompare node m lcid [] in
        dupd (fun d => d <| g_dtapLogicLinksMap := Some m |>) ;;!
        st_ret ok
    end.

(** [SDF_MapErase(g_dtapLogicLinksMap, &logicLink->lcid)] *)
Definition DTAP_LogicLinkErase (lcid : Z) : M unit :=
  let! m := dg g_dtapLogicLinksMap in
  match m with
  | None => st_ret tt
  | Some m =>
      let '(_, m, gone) := SDF_MapErase DTAP_LogicLinkCompare m lcid in
      st_for gone (fun e => DTAP_LogicLinksDtor (snd e)) ;;!
      dupd (fun d => d <| g_dtapLogicLinksMap := Some m |>)
  end.

(** ** Looking up a channel *)
Definition answers_to (tcid : Z) (channel : ChannelObj) : bool :=
  (ch_mode (o_ch channel) =? CM_TRANS_MODE_TRANSPARENT) || (ch_srcTcid (o_ch channel) =? tcid).

Definition DTAP_ChannelFind (logicLink : list ChannelObj) (tcid : Z) : option ChannelObj :=
  find_first (answers_to tcid) logicLink.

Definition DTAP_ChannelSearch (lcid tcid : Z) : M (option DTAP_Channel) :=
  let! logicLink := DTAP_LogicLinkFind lcid in
  st_ret (l ← logicLink; o_ch <$> DTAP_ChannelFind l tcid).

(** ** Creation *)
Definition DTAP_BasicChannelCreate (srcTcid : Z) : M (option DTAP_Basic_Channel) :=
  let! basic := alloc_ok in
  if negb basic then st_ret None
  else st_ret (Some (mk_basic (if srcTcid =? CM_TCID_SLE_SMTC then false else true) [])).

Definition DTAP_InitTxWindow (size : Z) : DTAP_TxWindow := mk_tx size 0 0 [].
Definition DTAP_InitRxWindow (size : Z) : DTAP_RxWindow := mk_rx size 0 0 0 [].

Definition DTAP_StreamChannelCreate (param : CM_TransChan) : M (option DTAP_Stream_Channel) :=
  let! stream := alloc_ok in
  if negb stream then st_ret None
  else
    let c := streamMode (config param) in
    let flush := if (sc_flushTimeout c =? 0) || (DTAP_STREAM_FLUSH_TIMEOUT <? sc_flushTimeout c)
                 then DTAP_STREAM_FLUSH_TIMEOUT else sc_flushTimeout c in
    let reorder := if (sc_reorderTimeout c =? 0) || (DTAP_STREAM_REORDER_TIMEOUT <? sc_reorderTimeout c)
                   then DTAP_STREAM_REORDER_TIMEOUT else sc_reorderTimeout c in
    st_ret (Some (mk_stream flush reorder (sc_crcInit c) 0 DTAP_FRAME_SEQ_INIT DTAP_FRAME_SEQ_INIT 0
                    INVALID_TIMER_HANDLE [] None)).

Definition SetChannelCastMode (castMode : Z) : Z :=
  if castMode =? CM_ACCESS_TRANS_MODE_UNICAST then DTAP_FRAME_UNICAST
  else if (castMode =? CM_ACCESS_TRANS_MODE_DATA_MCST) || (castMode =? CM_ACCESS_TRANS_MODE_FEEDBACK_MCST)
       || (castMode =? CM_ACCESS_TRANS_MODE_BIDI_MCST) then DTAP_FRAME_MULTICAST
  else if (castMode =? CM_ACCESS_TRANS_MODE_SEND_BCST) || (castMode =? CM_ACCESS_TRANS_MODE_RECV_BCST)
  then DTAP_FRAME_BROADCAST
  else DTAP_FRAME_UNICAST.

Definition or_default (v d : Z) : Z := if v =? 0 then d else v.

(** A new reliable channel, its fields zero where the code sets none. *)
Definition new_reliable (c : CM_TransReliableModeConfig) (rspTimer window : Z) : DTAP_ReliableChannel :=
  mk_reliable (or_default (rc_reorderTimeout c) DTAP_RELIABLE_REORDER_TIMEOUT) (rc_crcInit c)
    (or_default (rc_retransTimeout c) DTAP_RELIABLE_RETRANS_TIMEOUT)
    (or_default (rc_rspTimeout c) DTAP_RELIABLE_RSP_TIMEOUT)
    (rc_maxTxThreshold c) INVALID_TIMER_HANDLE INVALID_TIMER_HANDLE rspTimer
    false false 0 (DTAP_InitTxWindow window) 0 (DTAP_InitRxWindow window) None 0 None 0 false false.

Definition DTAP_ReliableChannelCreate (param : CM_TransChan) : M (option DTAP_ReliableChannel) :=
  let! reliable := alloc_ok in
  if negb reliable then st_ret None
  else
    let c := reliableMode (config param) in
    let! (ret, rspTimer) := DTAP_TransStartTimer INVALID_TIMER_HANDLE
                              (or_default (rc_rspTimeout c) DTAP_RELIABLE_RSP_TIMEOUT) true RspTimerExpireProc in
    if negb (ret =? DTAP_SUCCESS) then st_ret None
    else st_ret (Some (new_reliable c rspTimer (or_default (rc_txWindow c) CM_CAP_WND))).

Definition channel_priority (srcTcid : Z) : Z :=
  if srcTcid =? CM_TCID_SLE_CMTC then DTAP_PRIORITY_CMD
  else if srcTcid <=? CM_TCID_SLE_CUTC then DTAP_PRIORITY_HIGH
  else if (CM_TCID_BC_BEGIN <=? srcTcid) && (srcTcid <=? CM_TCID_UC_END) then DTAP_PRIORITY_NORMAL
  else DTAP_PRIORITY_NORMAL.

(** The object at address [p], with its fields from the parameters. *)
Definition new_channel (p : Z) (param : CM_TransChan) : DTAP_Channel :=
  mk_channel p (channel_priority (pm_srcTcid param)) 0 (pm_lcid param) (pm_srcTcid param) (pm_dstTcid param)
    (transMode (config param)) (cf_mtu (config param)) (cf_mps (config param))
    (SetChannelCastMode (pm_castMode param)).

(** [attr], by the mode: the outer [None] is a failed creation. *)
Definition create_attr (channel : DTAP_Channel) (param : CM_TransChan) : M (option Attr) :=
  if ch_mode channel =? CM_TRANS_MODE_STREAM then
    let! s := DTAP_StreamChannelCreate param in st_ret (StreamAttr <$> s)
  else if ch_mode channel =? CM_TRANS_MODE_RELIABLE then
    let! r := DTAP_ReliableChannelCreate param in st_ret (ReliableAttr <$> r)
  else if ch_mode channel =? CM_TRANS_MODE_BASIC then
    let! b := DTAP_BasicChannelCreate (ch_srcTcid channel) in st_ret (BasicAttr <$> b)
  else st_ret (Some NoAttr).

Definition DTAP_ChannelCreate (param : CM_TransChan) : M (option ChannelObj) :=
  let! ok := alloc_ok in
  if negb ok then st_ret None
  else
    let! p := dg d_next in
    dupd (fun d => d <| d_next := p + 1 |>) ;;!
    let channel := new_channel p param in
    let! attr := create_attr channel param in
    match attr with
    | None => st_ret None
    | Some attr =>
        over (supd (fun s => s <| channels ::= <[TransChan p :=
          mk_schan (ch_priority channel) (ch_lcid channel) (ch_srcTcid channel) []]> |>)) ;;!
        st_ret (Some (mk_obj channel attr))
    end.

(** ** Changes reported by the connection manager *)
Definition remove_obj (o : ChannelObj) : list ChannelObj -> list ChannelObj :=
  remove_first (at_ptr (ch_ptr (o_ch o))).

(** A link without channels leaves the map. *)
Definition erase_if_empty (lcid : Z) : M unit :=
  let! logicLink := DTAP_LogicLinkFind lcid in
  let! l := st_opt logicLink in
  match l with [] => DTAP_LogicLinkErase lcid | _ => st_ret tt end.

Definition DTAP_ChannelAdd (channel : CM_TransChan) : M unit :=
  let lcid := pm_lcid channel in
  let! logicLink := DTAP_LogicLinkFind lcid in
  let! ok := (match logicLink with Some _ => st_ret true | None => DTAP_LogicLinkInsert lcid end) in
  if negb ok then st_ret tt
  else
    let! logicLink := DTAP_LogicLinkFind lcid in
    let! l := st_opt logicLink in
    (match DTAP_ChannelFind l (pm_srcTcid channel) with
     | Some dtapChannel =>
         dupd (upd_link lcid (remove_obj dtapChannel)) ;;!
         DTAP_ChannelDestroy dtapChannel
     | None => st_ret tt
     end) ;;!
    let! dtapChannel := DTAP_ChannelCreate channel in
    match dtapChannel with
    | None => erase_if_empty lcid
    | Some o => dupd (upd_link lcid (fun l => o :: l))
    end.

Definition DTAP_ChannelDel (channel : CM_TransChan) : M unit :=
  let lcid := pm_lcid channel in
  let! logicLink := DTAP_LogicLinkFind lcid in
  match logicLink with
  | None => st_ret tt
  | Some l =>
      match DTAP_ChannelFind l (pm_srcTcid channel) with
      | None => st_ret tt
      | Some dtapChannel =>
          over (DTAP_ChannelDown lcid (pm_srcTcid channel)) ;;!
          dupd (upd_link lcid (remove_obj dtapChannel)) ;;!
          DTAP_ChannelDestroy dtapChannel ;;!
          erase_if_empty lcid
      end
  end.

Definition DTAP_ChannelsOperate (channelVector : list (option CM_TransChan))
    (DTAP_ChannelPOptFunc : CM_TransChan -> M unit) : M unit :=
  st_for channelVector (fun channel =>
    match channel with None => st_ret tt | Some c => DTAP_ChannelPOptFunc c end).

Definition DTAP_ChannelStateChangeCbk (param : option CM_TransChannelStateList) : M unit :=
  match param with
  | None => st_ret tt
  | Some param =>
      match channelVector param with
      | None => st_ret tt
      | Some v =>
          if sl_result param =? CM_TRANS_CHANNEL_STATE_ACTIVATED then DTAP_ChannelsOperate v DTAP_ChannelAdd
          else if sl_result param =? CM_TRANS_CHANNEL_STATE_RELEASED then DTAP_ChannelsOperate v DTAP_ChannelDel
          else st_ret tt
      end
  end.

Definition DTAP_LinkCollabProc (param : CM_LogicLinkState) : M unit :=
  if (lk_result param =? CM_LINK_STATE_CONNECTED) || (lk_result param =? CM_LINK_STATE_DISCONNECTED) then
    let! n := ask CLinkCount in
    let! _ := ask (CCollab (u8 n)) in
    st_ret tt
  else st_ret tt.

Definition DTAP_LogicLinkStateChangeCbk (param : option CM_LogicLinkState) : M unit :=
  match param with
  | None => st_ret tt
  | Some param =>
      DTAP_LinkCollabProc param ;;!
      if negb (lk_result param =? CM_LINK_STATE_CONNECTED) then st_ret tt
      else
        let! logicLink := DTAP_LogicLinkFind (lk_lcid param) in
        match logicLink with
        | None => st_ret tt
        | Some l =>
            st_for l (fun channel =>
              if ch_mode (o_ch channel) =? CM_TRANS_MODE_BASIC
              then on_basic (o_ch channel) DTAP_RecvBasicFrameContinue
              else st_ret tt)
        end
  end.

(** ** Initialisation

    The registrations with the connection manager are requests: [CListener _ 5] for
    the channels and [CListener _ 6] for the links. *)
Definition DTAP_ChannelInit : M Z :=
  let! ret := DTAP_LogicLinkMapInit in
  if negb (ret =? DTAP_SUCCESS) then st_ret ret
  else
    let! ret := over DTAP_SchedulerInit in
    if negb (ret =? DTAP_SUCCESS) then DTAP_LogicLinkMapDeInit ;;! st_ret ret
    else
      let! ret := ask (CListener true 5) in
      if negb (ret =? CM_SUCCESS) then
        let! _ := over DTAP_SchedulerDeinit in
        DTAP_LogicLinkMapDeInit ;;!
        st_ret (u32 ret)
      else
        let! ret := ask (CListener true 6) in
        if negb (ret =? CM_SUCCESS) then
          let! _ := ask (CListener false 5) in
          let! _ := over DTAP_SchedulerDeinit in
          DTAP_LogicLinkMapDeInit ;;!
          st_ret (u32 ret)
        else st_ret DTAP_SUCCESS.

Definition DTAP_ChannelDeInit : M unit :=
  let! _ := ask (CListener false 6) in
  let! _ := ask (CListener false 5) in
  let! _ := over DTAP_SchedulerDeinit in
  DTAP_LogicLinkMapDeInit.
End channel.
