(* ===== verification/Dtap.v ===== *)
(** * The entry points of DTAP

    [services/stack/src/dp/dtap/src/dtap.c]: the registration of the upper layers'
    callbacks, the way of a received packet to the channel and the callback it belongs
    to, the way of a packet to send to its channel, and initialisation.  (The packet
    that waits for room in a reliable window is in [DtapReliable].)  The tables of
    frame formats and transmission modes, which [DTAP_Init] fills and nobody empties,
    are those of [DtapFrame] and [DtapTrans]. *)
From S2P Require Import Prelude SdfErrno SdfBuff SdfContainers Utils DtapEnv DliLayer DliData DtapFrame DtapFragment DtapTrans DtapQuota DtapScheduler.
From S2P Require Import DtapSchedStore DtapSchedRun DtapSchedLoop DtapSchedDown DtapSchedEvents DtapSchedProps DtapReliable DtapStream DtapBasic DtapChannel.

Definition DTAP_MAX_PAYLOAD_LEN : Z := 32768.
Definition DTAP_PI_MAX : Z := 7.
Definition DTAP_REGISTER_DATA_RECV_CBK : Z := 0.
Definition DTAP_UNREGISTER_DATA_RECV_CBK : Z := 1.
Definition TCID_SLE_CMTC : Z := 0x02.
(** The callback of the connection manager's signalling, [CM_RecvSignalingData]. *)
Definition CM_RecvSignalingData : Z := 0.

Record DTAP_Data := mk_dtapdata { dd_pi : Z; dd_lcid : Z; dd_tcid : Z; dd_buff : option SDF_Buff }.

(** The state of a process that has not initialised the module. *)
Definition g_dtap0 : Dtap :=
  mk_dtap false [] (replicate (Z.to_nat DTAP_PI_MAX) None) false None 1.

Section dtap.
Context {W : Type} `{World W}.
Notation stack := (Sched * (DLI_LayerInfo * W))%type.
Notation M := (ST (Dtap * stack)).

(** ** Callbacks *)
Definition DTAP_GetProtoRecvCbk (pi : Z) (d : Dtap) : DTAP_DataRecvCb :=
  if pi <? DTAP_PI_MAX then mjoin (g_dtapProtoRecvCbks d !! Z.to_nat pi) else None.

(** [cbks]: what it points to, if not null: whether its callback is set. *)
Definition DTAP_RegisterDataSendCbks (cbks : option bool) : M unit :=
  match cbks with
  | Some true => dupd (fun d => d <| g_dtapDataSendCbks := true |>)
  | _ => st_ret tt
  end.
Definition DTAP_UnRegisterDataSendCbks : M unit := dupd (fun d => d <| g_dtapDataSendCbks := false |>).

Definition DTAP_RegisterProtoRecvCbk (pi : Z) (cbk : DTAP_DataRecvCb) : M Z :=
  let! inited := dg g_dtapIsInited in
  if negb inited then st_ret DTAP_MODULE_NOT_INITED_ERR
  else if negb (pi <? DTAP_PI_MAX) then st_ret DTAP_REGISTER_RECV_CB_INVALID_PI
  else
    match cbk with
    | None => st_ret DTAP_REGISTER_RECV_CB_NULL_ERR
    | Some _ =>
        dupd (fun d => d <| g_dtapProtoRecvCbks ::= <[Z.to_nat pi := cbk]> |>) ;;!
        st_ret DTAP_SUCCESS
    end.

Definition DTAP_UnregisterProtoRecvCbk (pi : Z) : M Z :=
  let! inited := dg g_dtapIsInited in
  if negb inited then st_ret DTAP_MODULE_NOT_INITED_ERR
  else if negb (pi <? DTAP_PI_MAX) then st_ret DTAP_REGISTER_RECV_CB_INVALID_PI
  else
    let! cbk := dg (fun d => mjoin (g_dtapProtoRecvCbks d !! Z.to_nat pi)) in
    match cbk with
    | None => st_ret DTAP_REGISTER_RECV_CB_INVALID_PI
    | Some _ =>
        dupd (fun d => d <| g_dtapProtoRecvCbks ::= <[Z.to_nat pi := None]> |>) ;;!
        st_ret DTAP_SUCCESS
    end.

Definition DTAP_DataRecvCbksInit : M unit := dupd (fun d => d <| g_dtapRecvCbks := [] |>).
Definition DTAP_ClearDataRecvCbks : M unit := dupd (fun d => d <| g_dtapRecvCbks := [] |>).

Definition is_tcid (tcid : Z) (cbkEntry : Z * DTAP_DataRecvCb) : bool := fst cbkEntry =? tcid.

Definition DTAP_GetDataRecvCbkByTcid (tcid : Z) (d : Dtap) : DTAP_DataRecvCb :=
  match find_first (is_tcid tcid) (g_dtapRecvCbks d) with Some e => snd e | None => None end.

Definition DTAP_AddDataRecvCbkEntry (tcid : Z) (cb : DTAP_DataRecvCb) : M Z :=
  let! found := dg (fun d => find_first (is_tcid tcid) (g_dtapRecvCbks d)) in
  match found with
  | Some _ =>
      dupd (fun d => d <| g_dtapRecvCbks ::= update_first (is_tcid tcid) (fun e => (fst e, cb)) |>) ;;!
      st_ret DTAP_SUCCESS
  | None =>
      let! ok := alloc_ok in
      if negb ok then st_ret DTAP_REGISTER_RECV_CB_ALLOC_ERR
      else
        dupd (fun d => d <| g_dtapRecvCbks ::= fun l => (tcid, cb) :: l |>) ;;!
        st_ret DTAP_SUCCESS
  end.

Definition DTAP_DelDataRecvCbkEntry (tcid : Z) : M Z :=
  let! found := dg (fun d => find_first (is_tcid tcid) (g_dtapRecvCbks d)) in
  match found with
  | Some _ =>
      dupd (fun d => d <| g_dtapRecvCbks ::= remove_first (is_tcid tcid) |>) ;;!
      st_ret DTAP_SUCCESS
  | None => st_ret DTAP_UNREGISTER_RECV_CB_TCID_NOT_EXIST
  end.

Definition DTAP_RegisterDataRecvCbInner (tcid : Z) (cb : DTAP_DataRecvCb) (action : Z) : M Z :=
  if action =? DTAP_REGISTER_DATA_RECV_CBK then DTAP_AddDataRecvCbkEntry tcid cb
  else if action =? DTAP_UNREGISTER_DATA_RECV_CBK then DTAP_DelDataRecvCbkEntry tcid
  else st_ret DTAP_SUCCESS.

Definition DTAP_RegisterDataRecvCb (tcid : Z) (cb : DTAP_DataRecvCb) : M Z :=
  let! inited := dg g_dtapIsInited in
  if negb inited then st_ret DTAP_MODULE_NOT_INITED_ERR
  else
    match cb with
    | None => st_ret DTAP_REGISTER_RECV_CB_NULL_ERR
    | Some _ => DTAP_RegisterDataRecvCbInner tcid cb DTAP_REGISTER_DATA_RECV_CBK
    end.

Definition DTAP_UnregisterDataRecvCb (tcid : Z) : M Z :=
  let! inited := dg g_dtapIsInited in
  if negb inited then st_ret DTAP_MODULE_NOT_INITED_ERR
  else DTAP_RegisterDataRecvCbInner tcid None DTAP_UNREGISTER_DATA_RECV_CBK.

(** ** The functions of a transmission mode

    [transMode->checkFrame], [->recvFrame], [->sendFrame] and
    [->setTransChannelStatus]; transparent channels have neither of the first two, and
    only reliable channels have the last. *)
Definition checkFrame (transMode : TransMode) (transChan : DTAP_Channel) (frame : DTAP_Frame) : M bool :=
  match transMode with
  | BasicMode => st_opt (DTAP_CheckBasicFrame frame)
  | StreamMode => st_opt (DTAP_CheckStreamFrame frame)
  | ReliableMode => on_reliable transChan (let! r := rel id in st_opt (DTAP_CheckEnhanceFrame r frame))
  | TransparentMode => st_ub
  end.

Definition recvFrame (transMode : TransMode) (transChan : DTAP_Channel) (frame : DTAP_Frame)
    (recvCb : DTAP_DataRecvCb) : M Z :=
  match transMode with
  | BasicMode => on_basic transChan (DTAP_RecvBasicFrame transChan frame recvCb)
  | StreamMode => on_stream transChan (DTAP_RecvStreamFrame transChan frame recvCb)
  | ReliableMode =>
      let! statusCbk := dg g_dtapDataSendCbks in
      on_reliable transChan (DTAP_RecvEnhanceFrame transChan statusCbk frame recvCb)
  | TransparentMode => st_ub
  end.

Definition sendFrame (transMode : TransMode) (transChan : DTAP_Channel) (pi : Z) (buff : SDF_Buff) : M Z :=
  match transMode with
  | BasicMode => over (DTAP_SendBasicFrame transChan pi buff)
  | TransparentMode => over (DTAP_SendTransparentFrame transChan pi buff)
  | StreamMode => on_stream transChan (DTAP_SendStreamFrame transChan pi buff)
  | ReliableMode => on_reliable transChan (DTAP_SendEnhanceFrame transChan pi buff)
  end.

Definition setTransChannelStatus (transMode : TransMode) :
    option (DTAP_Channel -> Z -> DTAP_DataRecvCb -> M unit) :=
  match transMode with
  | ReliableMode => Some (fun transChan result recvCb =>
      on_reliable transChan (DTAP_SetTransChannelStatus transChan result recvCb))
  | _ => None
  end.

(** ** Receiving *)
Definition DTAP_DataRecvFrame (transChan : DTAP_Channel) (transMode : TransMode) (buff : SDF_Buff)
    (recvCb : DTAP_DataRecvCb) : M unit :=
  let mps := ch_mps transChan in
  let len := SDF_DataLenGet buff in
  if len <? DTAP_BASIC_HEADER_LEN then st_ret tt
  else
    let basicHeader := SDF_DataOffset buff in
    let! length := st_opt (DECODE2BYTE_LITTLE (bmem buff) (basicHeader + 2)) in
    let frameLen := length + DTAP_BASIC_HEADER_LEN in
    if negb (len =? frameLen) then st_ret tt
    else
      let! typeBits := st_opt (rd (bmem buff) (basicHeader + 1)) in
      let! (ret, frame) := st_opt (DTAP_ParseFrame (bf_get typeBits 0 4) buff frame0) in
      if negb (ret =? DTAP_SUCCESS) then st_ret tt
      else if mps <? payloadLen frame then st_ret tt
      else
        let! c := st_opt (ctx frame) in
        let! ok := st_opt (checkFrameHeader c frame) in
        if negb ok then st_ret tt
        else
          let! ok := checkFrame transMode transChan frame in
          if negb ok then st_ret tt
          else
            let! d := dg id in
            let recvCbTmp := match recvCb with Some _ => recvCb | None => DTAP_GetProtoRecvCbk (pi frame) d end in
            let! _ := recvFrame transMode transChan frame recvCbTmp in
            st_ret tt.

Definition DTAP_DataRecv (lcid : Z) (buf : option SDF_Buff) : M unit :=
  match buf with
  | None => st_ret tt
  | Some buf =>
      let dataLen := SDF_DataLenGet buf in
      if dataLen =? 0 then st_ret tt
      else
        let! tcid := st_opt (rd (bmem buf) (SDF_DataOffset buf)) in
        let! transChan := DTAP_ChannelSearch lcid tcid in
        match transChan with
        | None => st_ret tt
        | Some transChan =>
            match DTAP_GetTransMode (ch_mode transChan) with
            | None => st_ret tt
            | Some transMode =>
                let! recvCb := dg (DTAP_GetDataRecvCbkByTcid (ch_srcTcid transChan)) in
                if decide (transMode = TransparentMode) then
                  if ch_mps transChan <? dataLen then st_ret tt
                  else over (DTAP_TransparentTransFrame transChan buf recvCb)
                else DTAP_DataRecvFrame transChan transMode buf recvCb
            end
        end
  end.

Definition DTAP_ChannelSetStatus (lcid tcid result : Z) : M unit :=
  let! transChan := DTAP_ChannelSearch lcid tcid in
  match transChan with
  | None => st_ret tt
  | Some transChan =>
      let! recvCb := dg (DTAP_GetDataRecvCbkByTcid (ch_srcTcid transChan)) in
      match DTAP_GetTransMode (ch_mode transChan) with
      | None => st_ret tt
      | Some transMode =>
          match setTransChannelStatus transMode with
          | None => st_ret tt
          | Some f => f transChan result recvCb
          end
      end
  end.

(** ** Sending *)
Definition DTAP_DataSend (data : option DTAP_Data) : M Z :=
  match data with
  | None => st_ret DTAP_TRANS_INVALID_DATA
  | Some data =>
      match dd_buff data with
      | None => st_ret DTAP_TRANS_INVALID_DATA
      | Some buff =>
          let dataLen := SDF_DataLenGet buff in
          if (dataLen =? 0) || (DTAP_MAX_PAYLOAD_LEN <? dataLen) then st_ret DTAP_TRANS_INVALID_DATA
          else
            let! transChan := DTAP_ChannelSearch (dd_lcid data) (dd_tcid data) in
            match transChan with
            | None => st_ret DTAP_TRANS_FIND_CHANNEL_ERR
            | Some transChan =>
                if ch_mtu transChan <? dataLen then st_ret DTAP_TRANS_EXCEED_MTU_ERR
                else
                  match DTAP_GetTransMode (ch_mode transChan) with
                  | None => st_ret DTAP_TRANS_INVALID_MODULE_TYPE
                  | Some transMode => sendFrame transMode transChan (dd_pi data) buff
                  end
            end
      end
  end.

(** ** Initialisation *)
Definition DTAP_Init : M Z :=
  let! inited := dg g_dtapIsInited in
  if (inited : bool) then st_ret DTAP_MODULE_DUP_INITED_ERR
  else
    dupd (fun d => d <| g_dtapIsInited := true |>) ;;!
    DTAP_DataRecvCbksInit ;;!
    let! ret := ask (CSignaling true) in
    if negb (ret =? CM_SUCCESS) then
      dupd (fun d => d <| g_dtapIsInited := false |>) ;;!
      st_ret (u32 ret)
    else
      let! ret := DTAP_RegisterDataRecvCb TCID_SLE_CMTC (Some CM_RecvSignalingData) in
      if negb (ret =? DTAP_SUCCESS) then
        dupd (fun d => d <| g_dtapIsInited := false |>) ;;!
        let! _ := ask (CSignaling false) in
        st_ret ret
      else
        let! ret := DTAP_ChannelInit in
        if negb (ret =? DTAP_SUCCESS) then
          dupd (fun d => d <| g_dtapIsInited := false |>) ;;!
          let! _ := ask (CSignaling false) in
          DTAP_ClearDataRecvCbks ;;!
          st_ret ret
        else st_ret DTAP_SUCCESS.

Definition DTAP_DeInit : M unit :=
  let! inited := dg g_dtapIsInited in
  if negb inited then st_ret tt
  else
    DTAP_ChannelDeInit ;;!
    let! _ := ask (CSignaling false) in
    DTAP_ClearDataRecvCbks ;;!
    dupd (fun d => d <| g_dtapIsInited := false |>).

(** ** Timers of the channels

    The timers of a reliable channel get its address, the task of a stream channel the
    link and identifier. *)
Definition reliable_timer (p : Z) (proc : timer_proc) : M unit :=
  let! o := get_obj p in
  on_reliable (o_ch o)
    (match proc with
     | RspTimerExpireProc => DTAP_RspTimerExpireProc (o_ch o)
     | ReorderTimerExpireProc => DTAP_ReorderTimerExpireProc (o_ch o)
     | RetransTimerExpireProc => DTAP_RetransTimerExpireProc (o_ch o)
     | ReorderStreamFrameCbk => st_ub
     end).

Definition DTAP_ReorderStreamFrameTask (args : Z) : M unit :=
  let timeoutArgs := u32 args in
  let lcid := Z.land (Z.shiftr timeoutArgs 16) 0xFFFF in
  let tcid := u8 (Z.land timeoutArgs 0xFFFF) in
  let! transChan := DTAP_ChannelSearch lcid tcid in
  match transChan with
  | None => st_ret tt
  | Some transChan =>
      if negb (ch_mode transChan =? CM_TRANS_MODE_STREAM) then st_ret tt
      else on_stream transChan (reorder_task transChan)
  end.
End dtap.
