(* ===== verification/DtapInv.v ===== *)
(** * The channels of DTAP: invariant and lemmas

    The invariant of [DtapChannel]: links are unique, channels of a link are told apart
    by the identifiers they answer to, every object is known to the scheduler and the
    scheduler knows no other, and each [attr] keeps the invariant of its mode; and what
    the operations do to it. *)
From S2P Require Import Prelude SdfErrno SdfBuff SdfContainers DtapEnv DliLayer DliData DtapFrame DtapFragment DtapTrans DtapQuota DtapScheduler.
From S2P Require Import DtapSchedStore DtapSchedRun DtapSchedLoop DtapSchedDown DtapSchedEvents DtapSchedProps.
From S2P Require Import DtapReliable DtapReliableTx DtapReliableRx DtapStream DtapStreamProps DtapBasic DtapChannel Dtap.

Implicit Types (d : Dtap) (o : ChannelObj) (S : Sched).

(** ** The scheduler under many channels

    As [DtapSchedProps.DtapScheduler], and the attributes of all channels stay what they
    are in [S0]. *)
Definition FrameScheduler {W} `{World W} (S0 : Sched) : Scheduler (Sched * (DLI_LayerInfo * W)).
Proof.
  refine {|
    DTAP_DataSendWithPriority := fun ch => SendWithPriority (TransChan (ch_ptr ch));
    sched_ok := fun ch s => (sched_good s.1 /\ layer_ok s.2.1 /\ registered ch s.1) /\ same_channel_attrs S0 s.1
  |}.
  - intros ch c s a s' [Hok Ha] Hask. split; [by eapply (scheduler_ask ch c s)|].
    destruct s as [S [l w]]. cbn in Hask. unfold over in Hask. cbn in Hask. destruct (ask c w) as [[]|]; [|done].
    by injection Hask as _ <-.
  - intros ch buff [S [l w]] [(HS&Hl&Hreg) Ha] Hb. cbn [fst snd] in *.
    eapply wp_mono; [apply wp_send_kept; try done|].
    + destruct Hreg as (c&Hc&_). by exists c.
    + intros ret s' (?&?&Ha'&Hx). split; [|exact Hx].
      split_and!; [done..|by eapply registered_kept|by eapply attrs_trans].
Defined.

(** ** The invariant *)
Definition attr_ok (ch : DTAP_Channel) (a : Attr) : Prop :=
  match a with
  | BasicAttr b => ch_mode ch = CM_TRANS_MODE_BASIC /\ basic_inv b
  | StreamAttr s => ch_mode ch = CM_TRANS_MODE_STREAM /\ stream_inv s
  | ReliableAttr r => ch_mode ch = CM_TRANS_MODE_RELIABLE /\ channel_inv ch r
  | NoAttr => ch_mode ch <> CM_TRANS_MODE_BASIC /\ ch_mode ch <> CM_TRANS_MODE_STREAM /\
              ch_mode ch <> CM_TRANS_MODE_RELIABLE
  end.

Record obj_ok (o : ChannelObj) : Prop := {
  ok_attr : attr_ok (o_ch o) (o_attr o);
  ok_mode : is_u8 (ch_mode (o_ch o));
  ok_mps : is_u16 (ch_mps (o_ch o));
  ok_lcid : 0 <= ch_lcid (o_ch o) < 4096;
  ok_tcid : is_u8 (ch_srcTcid (o_ch o));
  ok_prio : 1 <= ch_priority (o_ch o) <= 3
}.

(** A transparent channel has its link for itself. *)
Record link_ok (e : Z * list ChannelObj) : Prop := {
  lk_lcids : Forall (fun o => ch_lcid (o_ch o) = fst e) (snd e);
  lk_tcids : NoDup (map (fun o => ch_srcTcid (o_ch o)) (snd e));
  lk_alone : forall o, o ∈ snd e -> ch_mode (o_ch o) = CM_TRANS_MODE_TRANSPARENT -> snd e = [o]
}.

Notation ptr o := (ch_ptr (o_ch o)).

(** The objects, in any order, and what the scheduler knows of them. *)
Record objs_inv (os : list ChannelObj) (next : Z) S : Prop := {
  oi_objs : Forall obj_ok os;
  oi_ptrs : NoDup (map (fun o => ptr o) os);
  oi_fresh : Forall (fun o => ptr o < next) os;
  oi_reg : Forall (fun o => registered (o_ch o) S) os;
  oi_known : forall p c, channels S !! TransChan p = Some c -> exists o, o ∈ os /\ ptr o = p
}.

Record dtap_inv d S : Prop := {
  di_keys : NoDup (map fst (entries d));
  di_links : Forall link_ok (entries d);
  di_objs : objs_inv (objs d) (d_next d) S;
  di_proto : length (g_dtapProtoRecvCbks d) = 7%nat
}.

(** ** Objects come and go *)
Lemma objs_inv_perm os os' next S : os ≡ₚ os' -> objs_inv os next S -> objs_inv os' next S.
Proof.
  intros E [H1 H2 H3 H4 H5]. constructor; [by rewrite <- E|by rewrite <- E|by rewrite <- E|by rewrite <- E|].
  intros p c Hc. destruct (H5 p c Hc) as (o&Ho&?). exists o. by rewrite <- E.
Qed.

Lemma objs_inv_next os next next' S : next <= next' -> objs_inv os next S -> objs_inv os next' S.
Proof.
  intros Hle [H1 H2 H3 H4 H5]. constructor; try done. eapply Forall_impl; [exact H3|]. cbn. lia.
Qed.

Lemma attrs_known S S' p c' :
  same_channel_attrs S S' -> channels S' !! TransChan p = Some c' -> is_Some (channels S !! TransChan p).
Proof. intros Ha Hc'. specialize (Ha p). rewrite Hc' in Ha. by destruct (channels S !! TransChan p). Qed.

Lemma objs_inv_attrs os next S S' : same_channel_attrs S S' -> objs_inv os next S -> objs_inv os next S'.
Proof.
  intros Ha [H1 H2 H3 H4 H5]. constructor; try done.
  - eapply Forall_impl; [exact H4|]. intros o. by apply registered_kept.
  - intros p c' Hc'. destruct (attrs_known _ _ _ _ Ha Hc') as [c Hc]. by apply (H5 p c).
Qed.

(** The scheduler's part of a new object. *)
Definition with_chan (ch : DTAP_Channel) S : Sched :=
  S <| channels ::= <[TransChan (ch_ptr ch) := mk_schan (ch_priority ch) (ch_lcid ch) (ch_srcTcid ch) []]> |>.

Lemma registered_other ch ch' S c :
  ch_ptr ch <> ch_ptr ch' -> registered ch S -> registered ch (S <| channels ::= <[TransChan (ch_ptr ch') := c]> |>).
Proof. intros Hne (c0&Hc0&?). exists c0. split; [|done]. cbn. rewrite lookup_insert_ne; [done|congruence]. Qed.

Lemma objs_inv_cons o os next S :
  objs_inv os next S -> obj_ok o -> next <= ptr o -> objs_inv (o :: os) (ptr o + 1) (with_chan (o_ch o) S).
Proof.
  intros [H1 H2 H3 H4 H5] Ho Hp. rewrite Forall_forall in H3, H4.
  assert (forall o', o' ∈ os -> ptr o' <> ptr o) as Hne by (intros o' Ho'%H3; lia).
  constructor.
  - by constructor.
  - apply NoDup_cons. split; [|done]. intros (o'&E&Ho')%list_elem_of_fmap. by apply (Hne o').
  - constructor; [lia|]. apply Forall_forall. intros o' Ho'%H3. lia.
  - constructor.
    + eexists. cbn. rewrite lookup_insert_eq. by split.
    + apply Forall_forall. intros o' Ho'. apply registered_other; [by apply Hne|by apply H4].
  - intros p c. cbn. destruct (decide (p = ptr o)) as [->|Hne'].
    + intros _. exists o. split; [by left|done].
    + rewrite lookup_insert_ne by congruence. intros (o'&Ho'&E)%H5. exists o'. split; [by right|done].
Qed.

Lemma objs_inv_tail o os next S : objs_inv (o :: os) next S -> objs_inv os next (freed (ptr o) S).
Proof.
  intros [H1 H2 H3 H4 H5]. apply NoDup_cons in H2 as [Hnin H2]. apply Forall_cons in H1 as [_ H1].
  apply Forall_cons in H3 as [_ H3]. apply Forall_cons in H4 as [_ H4].
  assert (forall o', o' ∈ os -> ptr o' <> ptr o) as Hne.
  { intros o' Ho' E. apply Hnin. rewrite <- E. by apply (list_elem_of_fmap_2 (fun o => ptr o)). }
  constructor; try done.
  - rewrite Forall_forall in *. intros o' Ho'. destruct (H4 o' Ho') as (c&Hc&?). exists c. split; [|done].
    cbn. rewrite lookup_delete_ne; [done|]. intros [=E]. by apply (Hne o').
  - intros p c Hpc. cbn in Hpc. apply lookup_delete_Some in Hpc as [Hp Hc]. destruct (H5 p c Hc) as (o'&[->|Ho']%elem_of_cons&E); [|by exists o'].
    by subst.
Qed.

(** ** The lists of the links *)
Lemma elem_objs d o : o ∈ objs d <-> exists e, e ∈ entries d /\ o ∈ snd e.
Proof. apply (elem_concat snd). Qed.

Lemma compare_eq a b : DTAP_LogicLinkCompare a b = 0 <-> a = b.
Proof. unfold DTAP_LogicLinkCompare. lia. Qed.

Lemma key_is_eqb lcid (e : Z * list ChannelObj) : key_is DTAP_LogicLinkCompare lcid e = (fst e =? lcid).
Proof.
  destruct (Z.eqb_spec (fst e) lcid) as [E|E]; [by apply (key_is_true _ compare_eq)|by apply (key_is_false _ compare_eq)].
Qed.

Lemma find_first_ext_eq {A} (p q : A -> bool) l : (forall x, p x = q x) -> find_first p l = find_first q l.
Proof. intros E. induction l as [|x l IH]; [done|]. simpl. by rewrite E, IH. Qed.

(** The list of a link, as [DTAP_LogicLinkFind] answers it. *)
Definition link_of d (lcid : Z) : option (list ChannelObj) :=
  snd <$> find_first (fun e => fst e =? lcid) (entries d).

Lemma link_of_split d lcid l :
  link_of d lcid = Some l ->
  exists E1 E2, entries d = E1 ++ (lcid, l) :: E2 /\ Forall (fun e => (fst e =? lcid) = false) E1.
Proof.
  unfold link_of. destruct (find_first _ _) as [e|] eqn:Hf; [|done]. intros [=<-].
  apply find_first_split in Hf as (E1&E2&E&HE1&Hk). apply Z.eqb_eq in Hk. destruct e as [k l]. cbn in *. subst k.
  by exists E1, E2.
Qed.

Lemma link_of_elem d lcid l : link_of d lcid = Some l -> (lcid, l) ∈ entries d.
Proof. intros (E1&E2&->&_)%link_of_split. apply elem_of_app. right. by left. Qed.

Lemma link_of_none d lcid : link_of d lcid = None -> lcid ∉ map fst (entries d).
Proof.
  unfold link_of. destruct (find_first _ _) eqn:Hf; [done|]. intros _ (e&->&He)%list_elem_of_fmap.
  apply find_first_None in Hf. rewrite Forall_forall in Hf. specialize (Hf e He). cbn in Hf. lia.
Qed.

Lemma link_of_objs d lcid l o : link_of d lcid = Some l -> o ∈ l -> o ∈ objs d.
Proof. intros Hl Ho. apply elem_objs. exists (lcid, l). split; [by apply link_of_elem|done]. Qed.

Lemma link_ok_of d S lcid l : dtap_inv d S -> link_of d lcid = Some l -> link_ok (lcid, l).
Proof. intros Hd Hl%link_of_elem. pose proof (di_links _ _ Hd) as H. rewrite Forall_forall in H. by apply H. Qed.

Lemma objs_of_link d S lcid o : dtap_inv d S -> o ∈ objs d -> ch_lcid (o_ch o) = lcid -> exists l, link_of d lcid = Some l /\ o ∈ l.
Proof.
  intros Hd Ho E. apply elem_objs in Ho as ([k l]&He&Ho). pose proof (di_links _ _ Hd) as Hl. rewrite Forall_forall in Hl.
  pose proof (lk_lcids _ (Hl _ He)) as Hk. rewrite Forall_forall in Hk. specialize (Hk o Ho). cbn in Hk, Ho. subst k lcid.
  exists l. split; [|done]. unfold link_of.
  destruct (find_first _ _) as [[k l']|] eqn:Hf.
  - apply find_first_Some in Hf as [He' Hk']. apply Z.eqb_eq in Hk'. cbn in *. subst k. f_equal.
    pose proof (di_keys _ _ Hd) as Hnd. apply elem_of_Permutation in He as [E' HE]. rewrite HE in Hnd, He'.
    apply elem_of_cons in He' as [[=]|He']; [done|]. apply NoDup_cons in Hnd as [Hn _]. destruct Hn.
    apply list_elem_of_fmap. by eexists (_, l').
  - apply find_first_None in Hf. rewrite Forall_forall in Hf. specialize (Hf _ He). cbn in Hf. lia.
Qed.

(** ** Stores to the map *)
Lemma link_of_map d lcid l : link_of d lcid = Some l -> exists m, g_dtapLogicLinksMap d = Some m /\ entries d = entry m.
Proof. unfold link_of, entries. destruct (g_dtapLogicLinksMap d) as [m|]; [by exists m|done]. Qed.

Lemma upd_entries_eq f d : f [] = [] -> entries (upd_entries f d) = f (entries d).
Proof. intros Hf. unfold entries, upd_entries. cbn. by destruct (g_dtapLogicLinksMap d). Qed.

Lemma upd_link_split d lcid l f :
  link_of d lcid = Some l -> exists E1 E2,
    entries d = E1 ++ (lcid, l) :: E2 /\ entries (upd_link lcid f d) = E1 ++ (lcid, f l) :: E2.
Proof.
  intros (E1&E2&E&HE1)%link_of_split. exists E1, E2. split; [done|]. unfold upd_link.
  rewrite upd_entries_eq, E by done. rewrite (update_first_split _ _ E1 (lcid, l)); [done|done|apply Z.eqb_refl].
Qed.

Lemma upd_link_of d lcid l f : link_of d lcid = Some l -> link_of (upd_link lcid f d) lcid = Some (f l).
Proof.
  intros Hl. destruct (link_of_split _ _ _ Hl) as (E1&E2&E&HE1). destruct (upd_link_split d lcid l f Hl) as (E1'&E2'&E'&Eu).
  unfold link_of, upd_link. rewrite upd_entries_eq, E by done.
  rewrite (update_first_split _ _ E1 (lcid, l)) by (first [done|apply Z.eqb_refl]). cbn.
  clear -HE1. induction HE1 as [|e E1 He HE IH]; cbn; [by rewrite Z.eqb_refl|]. by rewrite He.
Qed.

Lemma objs_split E1 (e : Z * list ChannelObj) E2 :
  concat (map snd (E1 ++ e :: E2)) ≡ₚ snd e ++ concat (map snd (E1 ++ E2)).
Proof. rewrite !map_app, !concat_app. cbn. rewrite !app_assoc. apply Permutation_app_tail, Permutation_app_comm. Qed.

(** The objects of [d'], and what lists they are in. *)
Lemma inv_upd_link d S lcid l f next S' :
  dtap_inv d S -> link_of d lcid = Some l -> link_ok (lcid, f l) ->
  (forall os, objs_inv (l ++ os) (d_next d) S -> objs_inv (f l ++ os) next S') ->
  dtap_inv (upd_link lcid f (d <| d_next := next |>)) S'.
Proof.
  intros [Hk Hl Ho Hp] Hlk Hok Hos.
  assert (exists d1, d1 = d <| d_next := next |>) as [d1 Ed1] by eauto. rewrite <- Ed1.
  assert (entries d1 = entries d /\ d_next d1 = next /\ g_dtapProtoRecvCbks d1 = g_dtapProtoRecvCbks d) as (Ee&En&Ep) by by subst.
  destruct (upd_link_split d1 lcid l f) as (E1&E2&E&Eu); [unfold link_of; by rewrite Ee|].
  rewrite Ee in E. constructor; [| | |cbn; by rewrite Ep].
  - rewrite Eu. rewrite E in Hk. rewrite map_app in *. exact Hk.
  - rewrite Eu. rewrite E in Hl. apply Forall_app in Hl as [? [? ?]%Forall_cons]. apply Forall_app. split; [done|]. by constructor.
  - unfold objs in *. change (_.*2) with (map snd (entries d)) in Ho. rewrite E in Ho.
    change (_.*2) with (map snd (entries (upd_link lcid f d1))). rewrite Eu.
    change (d_next (upd_link _ _ _)) with (d_next d1). rewrite En.
    eapply objs_inv_perm; [symmetry; apply (objs_split E1 (lcid, f l) E2)|]. apply Hos.
    eapply objs_inv_perm; [apply (objs_split E1 (lcid, l) E2)|exact Ho].
Qed.

Lemma next_self d : d <| d_next := d_next d |> = d.
Proof. by destruct d. Qed.

Lemma inv_push d S lcid l o :
  dtap_inv d S -> link_of d lcid = Some l -> obj_ok o -> link_ok (lcid, o :: l) -> ptr o = d_next d ->
  dtap_inv (upd_link lcid (fun l => o :: l) (d <| d_next := ptr o + 1 |>)) (with_chan (o_ch o) S).
Proof.
  intros Hd Hl Ho Hok Hp. eapply (inv_upd_link d S lcid l (fun l => o :: l)); [done..|]. intros os Hos.
  cbn. apply (objs_inv_cons _ _ (d_next d)); [done|done|lia].
Qed.

Lemma at_ptr_true p o : at_ptr p o = true <-> ptr o = p.
Proof. apply Z.eqb_eq. Qed.

Lemma split_at_ptr l o :
  NoDup (map (fun o => ptr o) l) -> o ∈ l ->
  exists l1 l2, l = l1 ++ o :: l2 /\ Forall (fun o' => at_ptr (ptr o) o' = false) l1.
Proof.
  intros Hnd (l1&l2&->)%list_elem_of_split. exists l1, l2. split; [done|]. apply Forall_forall. intros o' Ho'.
  apply not_true_iff_false. rewrite at_ptr_true. intros E. rewrite map_app in Hnd. apply NoDup_app in Hnd as (_&Hd&_).
  apply (Hd (ptr o)); [rewrite <- E; by apply (list_elem_of_fmap_2 (fun o => ptr o))|by left].
Qed.

Lemma link_ptrs d S lcid l : dtap_inv d S -> link_of d lcid = Some l -> NoDup (map (fun o => ptr o) l).
Proof.
  intros Hd (E1&E2&E&_)%link_of_split. pose proof (oi_ptrs _ _ _ (di_objs _ _ Hd)) as Hnd. unfold objs in Hnd.
  change (_.*2) with (map snd (entries d)) in Hnd. rewrite E, objs_split, map_app in Hnd. by apply NoDup_app in Hnd as [? _].
Qed.

Lemma link_ok_sub lcid l l' : l' `sublist_of` l -> link_ok (lcid, l) -> link_ok (lcid, l').
Proof.
  intros Hs [H1 H2 H3]. cbn in *. constructor; cbn; [by eapply Forall_sub| |].
  - eapply sublist_NoDup; [exact H2|]. by apply map_sub.
  - intros o Ho Hm. assert (o ∈ l) as Hol by (eapply elem_of_submseteq; [exact Ho|by apply sublist_submseteq]). specialize (H3 o Hol Hm). subst l.
    apply sublist_cons_r in Hs as [Hs|(k&->&Hs)].
    + apply sublist_nil_r in Hs. subst. by apply not_elem_of_nil in Ho.
    + apply sublist_nil_r in Hs. by subst k.
Qed.

Lemma remove_obj_eq l o :
  NoDup (map (fun o => ptr o) l) -> o ∈ l -> l ≡ₚ o :: remove_obj o l /\ remove_obj o l `sublist_of` l.
Proof.
  intros Hnd Ho. destruct (split_at_ptr l o Hnd Ho) as (l1&l2&->&Hl1).
  unfold remove_obj. rewrite (remove_first_split _ _ o) by (first [done|by apply at_ptr_true]).
  split; [by rewrite Permutation_middle|]. apply sublist_app; [done|]. by constructor.
Qed.

Lemma inv_remove d S lcid l o :
  dtap_inv d S -> link_of d lcid = Some l -> o ∈ l ->
  dtap_inv (upd_link lcid (remove_obj o) d) (freed (ptr o) S).
Proof.
  intros Hd Hl Ho. destruct (remove_obj_eq l o (link_ptrs _ _ _ _ Hd Hl) Ho) as [E Hs].
  rewrite <- (next_self d) at 1. eapply inv_upd_link; [done..| |].
  - eapply link_ok_sub; [done|by eapply link_ok_of].
  - intros os Hos. apply objs_inv_tail. eapply objs_inv_perm; [|exact Hos].
    apply (Permutation_app_tail os E).
Qed.

Lemma inv_add_link d S lcid m :
  dtap_inv d S -> link_of d lcid = None -> g_dtapLogicLinksMap d = Some m ->
  dtap_inv (d <| g_dtapLogicLinksMap := Some (mk_map ((lcid, []) :: entry m)) |>) S.
Proof.
  intros [Hk Hl Ho Hp] Hn%link_of_none Hm.
  assert (entries d = entry m) as E by (unfold entries; by rewrite Hm). constructor; [| | |done].
  - cbn. rewrite E in *. by constructor.
  - cbn. rewrite E in *. constructor; [|done]. constructor; cbn; [constructor|constructor|]. by intros o ?%not_elem_of_nil.
  - unfold objs in *. rewrite E in Ho. exact Ho.
Qed.

Lemma link_of_add d lcid m :
  link_of (d <| g_dtapLogicLinksMap := Some (mk_map ((lcid, []) :: entry m)) |>) lcid = Some [].
Proof. unfold link_of. cbn. by rewrite Z.eqb_refl. Qed.

Lemma inv_erase d S lcid m :
  dtap_inv d S -> link_of d lcid = Some [] -> g_dtapLogicLinksMap d = Some m ->
  dtap_inv (d <| g_dtapLogicLinksMap := Some (mk_map (remove_first (fun e => fst e =? lcid) (entry m))) |>) S.
Proof.
  intros [Hk Hl Ho Hp] (E1&E2&E&HE1)%link_of_split Hm.
  assert (entries d = entry m) as Em by (unfold entries; by rewrite Hm).
  assert (remove_first (fun e => fst e =? lcid) (entry m) = E1 ++ E2) as Er.
  { rewrite <- Em, E. apply remove_first_split; [done|apply Z.eqb_refl]. }
  rewrite Er. constructor; [| | |done]; cbn.
  - rewrite E, map_app in Hk. rewrite map_app. eapply sublist_NoDup; [exact Hk|].
    apply sublist_app; [done|]. cbn. by constructor.
  - rewrite E in Hl. apply Forall_app in Hl as [? [? ?]%Forall_cons]. by apply Forall_app.
  - unfold objs in *. cbn. change (_.*2) with (map snd (entries d)) in Ho. rewrite E in Ho.
    eapply objs_inv_perm; [apply (objs_split E1 (lcid, []) E2)|exact Ho].
Qed.

(** A store to the [attr] of one object. *)
Definition set_attr (p : Z) (a : Attr) o : ChannelObj := if at_ptr p o then o <| o_attr := a |> else o.

Lemma set_attr_ch p a o : o_ch (set_attr p a o) = o_ch o.
Proof. unfold set_attr. by destruct (at_ptr p o). Qed.

Lemma set_attr_map {A} (f : DTAP_Channel -> A) p a l :
  map (fun o => f (o_ch o)) (map (set_attr p a) l) = map (fun o => f (o_ch o)) l.
Proof. rewrite map_map. apply map_ext. intros o. by rewrite set_attr_ch. Qed.

Lemma set_attr_Forall (P : DTAP_Channel -> Prop) p a l :
  Forall (fun o => P (o_ch o)) l -> Forall (fun o => P (o_ch o)) (map (set_attr p a) l).
Proof. intros HP. apply Forall_map. eapply Forall_impl; [exact HP|]. intros o. cbn. by rewrite set_attr_ch. Qed.

Lemma upd_attr_entries p a d :
  entries (upd_attr p a d) = map (fun e => (fst e, map (set_attr p a) (snd e))) (entries d).
Proof. unfold upd_attr. by rewrite upd_entries_eq. Qed.

Lemma upd_attr_objs p a d : objs (upd_attr p a d) = map (set_attr p a) (objs d).
Proof.
  unfold objs. rewrite upd_attr_entries, concat_map. f_equal. change (?l.*2) with (map snd l).
  by rewrite !map_map.
Qed.

Lemma ptr_inj l o o' :
  NoDup (map (fun o => ptr o) l) -> o ∈ l -> o' ∈ l -> ptr o = ptr o' -> o = o'.
Proof.
  intros Hnd Ho Ho' E. destruct (split_at_ptr l o Hnd Ho) as (l1&l2&->&Hl1).
  apply elem_of_app in Ho' as [Ho'|[->|Ho']%elem_of_cons]; [|done|].
  - rewrite Forall_forall in Hl1. specialize (Hl1 o' Ho'). apply not_true_iff_false in Hl1.
    rewrite at_ptr_true in Hl1. by destruct Hl1.
  - rewrite map_app in Hnd. cbn in Hnd. apply NoDup_app in Hnd as (_&_&[Hn _]%NoDup_cons). destruct Hn.
    rewrite E. by apply (list_elem_of_fmap_2 (fun o => ptr o)).
Qed.

Lemma inv_attr d S o a :
  dtap_inv d S -> o ∈ objs d -> attr_ok (o_ch o) a -> dtap_inv (upd_attr (ptr o) a d) S.
Proof.
  intros [Hk Hl [H1 H2 H3 H4 H5] Hp] Ho Ha. constructor; [| | |done].
  - rewrite upd_attr_entries, map_map. exact Hk.
  - rewrite upd_attr_entries. apply Forall_map. eapply Forall_impl; [exact Hl|]. intros [k l] [L1 L2 L3]. cbn in *.
    constructor; cbn.
    + by apply (set_attr_Forall (fun c => ch_lcid c = k)).
    + by rewrite (set_attr_map ch_srcTcid).
    + intros o' (o0&->&Ho0)%list_elem_of_fmap. rewrite set_attr_ch. intros Hm. by rewrite (L3 o0 Ho0 Hm).
  - rewrite upd_attr_objs. change (d_next (upd_attr _ _ _)) with (d_next d). constructor.
    + apply Forall_forall. intros o' (o0&->&Ho0)%list_elem_of_fmap. rewrite Forall_forall in H1.
      pose proof (H1 o0 Ho0) as [K1 K2 K3 K4 K5 K6]. unfold set_attr. destruct (at_ptr (ptr o) o0) eqn:E; [|by constructor].
      apply at_ptr_true in E. rewrite (ptr_inj _ o0 o H2 Ho0 Ho E) in *. by constructor.
    + by rewrite (set_attr_map ch_ptr).
    + by apply (set_attr_Forall (fun c => ch_ptr c < d_next d)).
    + by apply (set_attr_Forall (fun c => registered c S)).
    + intros p c Hc. destruct (H5 p c Hc) as (o'&Ho'&E). exists (set_attr (ptr o) a o').
      split; [by apply (list_elem_of_fmap_2 (set_attr (ptr o) a))|]. by rewrite set_attr_ch.
Qed.

Lemma upd_attr_self d S o : dtap_inv d S -> o ∈ objs d -> upd_attr (ptr o) (o_attr o) d = d.
Proof.
  intros [_ _ [_ Hnd _ _ _] _] Ho.
  assert (forall o', o' ∈ objs d -> set_attr (ptr o) (o_attr o) o' = o') as Hs.
  { intros o' Ho'. unfold set_attr. destruct (at_ptr (ptr o) o') eqn:Ep; [|done]. apply at_ptr_true in Ep.
    rewrite (ptr_inj _ o' o Hnd Ho' Ho Ep). by destruct o. }
  assert (forall E, (forall e, e ∈ E -> e ∈ entries d) ->
    map (fun e => (fst e, map (set_attr (ptr o) (o_attr o)) (snd e))) E = E) as HE.
  { intros E HE. rewrite <- (map_id E) at 2. apply map_ext_in. intros [k l] He%list_elem_of_In%HE. cbn. f_equal.
    rewrite <- (map_id l) at 2. apply map_ext_in. intros o' Ho'%list_elem_of_In. apply Hs, elem_objs. by exists (k, l). }
  unfold upd_attr, upd_entries. destruct d as [i rc pc sc [[E]|] n]; [|done].
  change (mk_dtap i rc pc sc (Some (mk_map (map (fun e => (fst e, map (set_attr (ptr o) (o_attr o)) (snd e))) E))) n
          = mk_dtap i rc pc sc (Some (mk_map E)) n). by rewrite HE.
Qed.

Lemma find_ptr d S o : dtap_inv d S -> o ∈ objs d -> find_first (at_ptr (ptr o)) (objs d) = Some o.
Proof.
  intros [_ _ [_ Hnd _ _ _] _] Ho. destruct (find_first _ _) as [o'|] eqn:Hf.
  - apply find_first_Some in Hf as [Ho' E%at_ptr_true]. f_equal. by apply (ptr_inj (objs d)).
  - apply find_first_None in Hf. rewrite Forall_forall in Hf. specialize (Hf o Ho). apply not_true_iff_false in Hf.
    rewrite at_ptr_true in Hf. by destruct Hf.
Qed.

Lemma inv_attrs d S S' : same_channel_attrs S S' -> dtap_inv d S -> dtap_inv d S'.
Proof. intros Ha [H1 H2 H3 H4]. constructor; [done|done|by eapply objs_inv_attrs|done]. Qed.

(** Whether the module is initialised, and whether it has a map. *)
Definition shell d : bool * bool :=
  (g_dtapIsInited d, match g_dtapLogicLinksMap d with Some _ => true | None => false end).

Lemma upd_entries_shell f d : shell (upd_entries f d) = shell d.
Proof. unfold shell, upd_entries. cbn. by destruct (g_dtapLogicLinksMap d). Qed.

(** Changes to other parts of the state. *)
Lemma inv_other d d' S :
  dtap_inv d S -> g_dtapLogicLinksMap d' = g_dtapLogicLinksMap d -> d_next d <= d_next d' ->
  length (g_dtapProtoRecvCbks d') = 7%nat -> dtap_inv d' S.
Proof.
  intros [H1 H2 H3 H4] Em Hn Hp. assert (entries d' = entries d) as E by (unfold entries; by rewrite Em).
  constructor; [by rewrite E|by rewrite E| |done]. unfold objs. rewrite E. by eapply objs_inv_next.
Qed.

(** ** The state as a whole *)
Section wp.
Context {W : Type} `{World W}.
Implicit Types (l : DLI_LayerInfo) (w : W).
Notation stack := (Sched * (DLI_LayerInfo * W))%type.
Notation state := (Dtap * stack)%type.

Definition dtap_good (s : state) : Prop := dtap_inv s.1 s.2.1 /\ sched_good s.2.1 /\ layer_ok s.2.2.1.

Lemma wp_dask c d S l w (Q : Z -> state -> Prop) :
  (forall a w', trace w' = trace w ++ [(c, a)] -> Q a (d, (S, (l, w')))) -> wp (ask c) (d, (S, (l, w))) Q.
Proof.
  intros HQ. change (ask c) with (over (B := Dtap) (ask (W := stack) c)). apply wp_over, wp_asks. exact HQ.
Qed.
Lemma wp_dalloc d S l w (Q : bool -> state -> Prop) :
  (forall a w', trace w' = trace w ++ [(CAlloc, a)] -> Q (negb (a =? 0)) (d, (S, (l, w')))) ->
  wp alloc_ok (d, (S, (l, w))) Q.
Proof. intros HQ. apply wp_bind, wp_dask. intros a w' Ht. by apply wp_ret, HQ. Qed.
Lemma wp_dg {A} (f : Dtap -> A) d x (Q : A -> state -> Prop) : Q (f d) (d, x) -> wp (dg f) (d, x) Q.
Proof. done. Qed.
Lemma wp_dupd (f : Dtap -> Dtap) d x (Q : unit -> state -> Prop) : Q tt (f d, x) -> wp (dupd f) (d, x) Q.
Proof. done. Qed.

Lemma wp_get_obj d S x o (Q : ChannelObj -> state -> Prop) :
  dtap_inv d S -> o ∈ objs d -> Q o (d, x) -> wp (get_obj (ptr o)) (d, x) Q.
Proof. intros Hd Ho HQ. apply wp_bind, wp_dg. eapply wp_opt; [by eapply find_ptr|exact HQ]. Qed.

(** Code of a mode keeps everything when it keeps its own [attr], whatever it asks of
    the scheduler. *)
Lemma wp_on_attr {B A} (cast : Attr -> option B) mk o b (m : ST (B * stack) A) d S x (Q : A -> state -> Prop) :
  dtap_good (d, (S, x)) -> o ∈ objs d -> cast (o_attr o) = Some b ->
  (sched_ok (Scheduler := FrameScheduler S) (o_ch o) (S, x) ->
   wp m (b, (S, x)) (fun a '(b', x') =>
     sched_ok (Scheduler := FrameScheduler S) (o_ch o) x' /\ attr_ok (o_ch o) (mk b') /\
     (dtap_good (upd_attr (ptr o) (mk b') d, x') -> Q a (upd_attr (ptr o) (mk b') d, x')))) ->
  wp (on_attr cast mk (o_ch o) m) (d, (S, x)) Q.
Proof.
  intros (Hd&HS&Hl) Ho Hc Hm. cbn [fst snd] in *. unfold on_attr.
  apply wp_bind, (wp_get_obj d S _ o); [done..|]. apply wp_bind. eapply wp_opt; [exact Hc|].
  apply wp_bind, wp_over. unfold wp in Hm |- *.
  pose proof (oi_reg _ _ _ (di_objs _ _ Hd)) as Hreg. rewrite Forall_forall in Hreg.
  specialize (Hm (conj (conj HS (conj Hl (Hreg o Ho))) (attrs_refl S))).
  destruct (m (b, (S, x))) as [[a [b' x']]|]; [|done]. destruct Hm as ([(HS'&Hl'&_) Ha]&Hok&HQ). cbn.
  apply HQ. split_and!; [|done|done]. cbn [fst snd]. apply inv_attr; [by eapply inv_attrs|done|done].
Qed.

(** ** Searching *)
Lemma find_link d m lcid :
  g_dtapLogicLinksMap d = Some m -> snd <$> SDF_MapFind DTAP_LogicLinkCompare m lcid = link_of d lcid.
Proof.
  intros Hm. unfold link_of, SDF_MapFind, entries. rewrite Hm. f_equal. apply find_first_ext_eq, key_is_eqb.
Qed.

Lemma wp_link_find lcid d x (Q : option (list ChannelObj) -> state -> Prop) :
  Q (link_of d lcid) (d, x) -> wp (DTAP_LogicLinkFind lcid) (d, x) Q.
Proof.
  intros HQ. unfold DTAP_LogicLinkFind. apply wp_bind, wp_dg, wp_ret.
  destruct (g_dtapLogicLinksMap d) as [m|] eqn:Hm; cbn [mbind option_bind].
  - by rewrite (find_link d m).
  - unfold link_of, entries in HQ. by rewrite Hm in HQ.
Qed.

(** The channel that a search answers, if any. *)
Definition find_obj d (lcid tcid : Z) : option ChannelObj :=
  l ← link_of d lcid; DTAP_ChannelFind l tcid.

Lemma find_obj_elem d lcid tcid o : find_obj d lcid tcid = Some o -> o ∈ objs d.
Proof.
  unfold find_obj. destruct (link_of d lcid) as [l|] eqn:Hl; [|done]. cbn. intros [Ho _]%find_first_Some.
  by eapply link_of_objs.
Qed.

Lemma wp_channel_search lcid tcid d x (Q : option DTAP_Channel -> state -> Prop) :
  Q (o_ch <$> find_obj d lcid tcid) (d, x) -> wp (DTAP_ChannelSearch lcid tcid) (d, x) Q.
Proof.
  intros HQ. unfold DTAP_ChannelSearch. apply wp_bind, wp_link_find, wp_ret. unfold find_obj in HQ.
  destruct (link_of d lcid) as [l|]; exact HQ.
Qed.

(** ** Destruction *)
Lemma wp_stop_timer_any t d S l w (Q : Z -> state -> Prop) :
  (forall a w', Q a (d, (S, (l, w')))) -> wp (DTAP_TransStopTimer t) (d, (S, (l, w))) Q.
Proof.
  intros HQ. unfold DTAP_TransStopTimer, CP_TimerDel. destruct (t =? _); [apply wp_ret, HQ|].
  apply wp_bind, wp_bind, wp_dask. intros a w' _. apply wp_ret, wp_ret, HQ.
Qed.

Lemma wp_destroy o d S l w (Q : unit -> state -> Prop) :
  attr_ok (o_ch o) (o_attr o) -> (forall w', Q tt (d, (freed (ptr o) S, (l, w')))) ->
  wp (DTAP_ChannelDestroy o) (d, (S, (l, w))) Q.
Proof.
  intros Ha HQ. unfold DTAP_ChannelDestroy. apply wp_bind.
  assert (forall w', wp (over (B := Dtap) (supd (W := W) (freed (ptr o)))) (d, (S, (l, w'))) Q) as Hfree.
  { intros w'. apply wp_over, wp_supd, HQ. }
  destruct (o_attr o) as [b|s|r|]; cbn [attr_ok as_stream as_basic as_reliable] in *.
  - destruct Ha as [-> _]. apply wp_bind. eapply wp_opt; [done|]. apply wp_ret, Hfree.
  - destruct Ha as [-> _]. apply wp_bind. eapply wp_opt; [done|]. unfold DTAP_StreamChannelDestroy, CP_TimerDel.
    destruct (negb _); [|apply wp_ret, Hfree]. apply wp_bind, wp_dask. intros a w' _. apply wp_ret, Hfree.
  - destruct Ha as [-> _]. apply wp_bind. eapply wp_opt; [done|]. unfold DTAP_ReliableChannelDestroy.
    do 3 (apply wp_bind, wp_stop_timer_any; intros). apply wp_ret, Hfree.
  - apply wp_ret, Hfree.
Qed.
End wp.
