(* ===== verification/DtapProps.v ===== *)
(** * DTAP: every event

    The operations of [DtapChannel] and [Dtap] keep the invariant of [DtapInv]; the
    module as a state machine over everything that calls it: the upper layers, the
    connection manager, the DLI layer and the timers. *)
From S2P Require Import Prelude SdfErrno SdfBuff SdfContainers Utils DtapEnv DliLayer DliData DtapFrame DtapFragment DtapTrans DtapQuota DtapScheduler.
From S2P Require Import DtapSchedStore DtapSchedRun DtapSchedLoop DtapSchedDown DtapSchedEvents DtapSchedProps.
From S2P Require Import DtapReliable DtapReliableTx DtapReliableRx DtapStream DtapStreamProps DtapStreamRun DtapBasic DtapChannel Dtap DtapInv.

Implicit Types (d : Dtap) (o : ChannelObj) (S : Sched).
Notation ptr o := (ch_ptr (o_ch o)).

(** ** Parameters of a channel *)
Record param_ok (c : CM_TransChan) : Prop := {
  po_lcid : 0 <= pm_lcid c < 4096;
  po_src : is_u8 (pm_srcTcid c);
  po_mode : is_u8 (transMode (config c));
  po_mps : is_u16 (cf_mps (config c));
  po_crc : is_u16 (rc_crcInit (reliableMode (config c)));
  po_wnd : is_u8 (rc_txWindow (reliableMode (config c)));
  po_max : is_u8 (rc_maxTxThreshold (reliableMode (config c)));
  po_scrc : is_u16 (sc_crcInit (streamMode (config c)))
}.

Lemma new_reliable_inv ch c t window :
  is_u16 (rc_crcInit c) -> is_u8 (rc_maxTxThreshold c) -> 0 < window < 256 ->
  channel_inv ch (new_reliable c t window).
Proof.
  intros Hc Hm Hw. split.
  - by constructor.
  - exists 0, []. constructor; cbn; try done. lia.
Qed.

Lemma fresh_stream_inv f r c : is_u16 c ->
  stream_inv (mk_stream f r c 0 DTAP_FRAME_SEQ_INIT DTAP_FRAME_SEQ_INIT 0 INVALID_TIMER_HANDLE [] None).
Proof. intros Hc. constructor; cbn; [done|done|done|by left]. Qed.

Lemma priority_range t : 1 <= channel_priority t <= 3.
Proof. unfold channel_priority, DTAP_PRIORITY_CMD, DTAP_PRIORITY_HIGH, DTAP_PRIORITY_NORMAL. repeat case_match; lia. Qed.

Section ops.
Context {W : Type} `{World W}.
Implicit Types (l : DLI_LayerInfo) (w : W).
Notation stack := (Sched * (DLI_LayerInfo * W))%type.
Notation state := (Dtap * stack)%type.

(** ** Creation *)
Lemma wp_create_attr p param d S l w (Q : option Attr -> state -> Prop) :
  param_ok param -> (forall w', Q None (d, (S, (l, w')))) ->
  (forall a w', attr_ok (new_channel p param) a -> Q (Some a) (d, (S, (l, w')))) ->
  wp (create_attr (new_channel p param) param) (d, (S, (l, w))) Q.
Proof.
  intros [_ _ _ _ Pc Pw Pm Ps] HN HQ. unfold create_attr. cbn [ch_mode new_channel].
  destruct (Z.eqb_spec (transMode (config param)) CM_TRANS_MODE_STREAM) as [Em|Hs].
  { unfold DTAP_StreamChannelCreate. apply wp_bind, wp_bind, wp_dalloc. intros a w' _.
    destruct (negb (negb _)); apply wp_ret, wp_ret; [apply HN|]. apply HQ. by split; [|apply fresh_stream_inv]. }
  destruct (Z.eqb_spec (transMode (config param)) CM_TRANS_MODE_RELIABLE) as [Em|Hr].
  { unfold DTAP_ReliableChannelCreate. apply wp_bind, wp_bind, wp_dalloc. intros a w' _.
    destruct (negb (negb _)); [apply wp_ret, wp_ret, HN|]. apply wp_bind. unfold DTAP_TransStartTimer, CP_TimerAdd.
    apply wp_bind, wp_bind, wp_dask. intros a' w1 _. apply wp_ret.
    set (win := or_default (rc_txWindow (reliableMode (config param))) CM_CAP_WND).
    assert (0 < win < 256) as Hwin by (unfold win, or_default, CM_CAP_WND, is_u8 in *; case_match; lia).
    destruct (0 <? a'); cbn; [|destruct (negb _)]; apply wp_ret;
      repeat (case_match; try (apply wp_ret)); first [apply HN|apply HQ; by split; [|apply new_reliable_inv]]. }
  destruct (Z.eqb_spec (transMode (config param)) CM_TRANS_MODE_BASIC) as [Em|Hb]; [|apply wp_ret, HQ; done].
  unfold DTAP_BasicChannelCreate. apply wp_bind, wp_bind, wp_dalloc. intros a w' _.
  destruct (negb (negb _)); apply wp_ret, wp_ret; [apply HN|]. apply HQ. split; [done|]. by constructor.
Qed.

(** A new object, with the scheduler's part of it, or nothing but a used address. *)
Lemma wp_channel_create param d S l w (Q : option ChannelObj -> state -> Prop) :
  param_ok param ->
  (forall next w', d_next d <= next -> Q None (d <| d_next := next |>, (S, (l, w')))) ->
  (forall a w', let o := mk_obj (new_channel (d_next d) param) a in attr_ok (o_ch o) a ->
     Q (Some o) (d <| d_next := ptr o + 1 |>, (with_chan (o_ch o) S, (l, w')))) ->
  wp (DTAP_ChannelCreate param) (d, (S, (l, w))) Q.
Proof.
  intros Hp HN HQ. unfold DTAP_ChannelCreate. apply wp_bind, wp_dalloc. intros a w1 _.
  destruct (negb (negb _)).
  { apply wp_ret. specialize (HN (d_next d) w1). rewrite next_self in HN. apply HN. lia. }
  apply wp_bind, wp_dg, wp_bind, wp_dupd, wp_bind, wp_create_attr; [done| |].
  - intros w'. apply wp_ret, HN. lia.
  - intros at' w' Ha. apply wp_bind, wp_over, wp_supd, wp_ret. by apply HQ.
Qed.

Lemma new_obj_ok p param a : param_ok param -> attr_ok (new_channel p param) a -> obj_ok (mk_obj (new_channel p param) a).
Proof. intros [] Ha. constructor; cbn; try done. apply priority_range. Qed.

(** ** The links *)
Lemma wp_link_insert lcid d S l w (Q : bool -> state -> Prop) :
  dtap_inv d S -> link_of d lcid = None -> (forall w', Q false (d, (S, (l, w')))) ->
  (forall d' w', dtap_inv d' S -> link_of d' lcid = Some [] -> objs d' = objs d -> shell d' = shell d ->
     Q true (d', (S, (l, w')))) ->
  wp (DTAP_LogicLinkInsert lcid) (d, (S, (l, w))) Q.
Proof.
  intros Hd Hl HF HQ. unfold DTAP_LogicLinkInsert. apply wp_bind, wp_dalloc. intros a w1 _.
  destruct (negb (negb _)); [apply wp_ret, HF|]. apply wp_bind, wp_dg.
  destruct (g_dtapLogicLinksMap d) as [m|] eqn:Hm; [|apply wp_ret, HF].
  pose proof (find_link d m lcid Hm) as Hf. rewrite Hl in Hf.
  destruct (SDF_MapFind DTAP_LogicLinkCompare m lcid) eqn:E; [done|]. apply wp_bind, wp_dalloc. intros a2 w2 _.
  unfold SDF_MapMoveInsert. rewrite E. destruct (negb (a2 =? 0)); apply wp_bind, wp_dupd, wp_ret.
  - apply HQ; [by apply inv_add_link|apply link_of_add| |]; unfold objs, entries, shell; cbn; by rewrite Hm.
  - assert (d <| g_dtapLogicLinksMap := Some m |> = d) as -> by (destruct d; cbn in *; by subst). apply HF.
Qed.

Lemma wp_erase_if_empty lcid L d S l w (Q : unit -> state -> Prop) :
  dtap_inv d S -> link_of d lcid = Some L ->
  (forall d', dtap_inv d' S -> objs d' = objs d -> shell d' = shell d -> Q tt (d', (S, (l, w)))) ->
  wp (erase_if_empty lcid) (d, (S, (l, w))) Q.
Proof.
  intros Hd Hl HQ. unfold erase_if_empty. apply wp_bind, wp_link_find, wp_bind. eapply wp_opt; [exact Hl|].
  destruct L; [|by apply wp_ret, HQ]. unfold DTAP_LogicLinkErase. apply wp_bind, wp_dg.
  destruct (link_of_map d lcid [] Hl) as (m&Hm&E). rewrite Hm. unfold SDF_MapErase.
  pose proof (find_link d m lcid Hm) as Hf. rewrite Hl in Hf.
  destruct (SDF_MapFind DTAP_LogicLinkCompare m lcid) as [[k v]|]; [|done]. cbn in Hf. injection Hf as ->.
  apply wp_bind. cbn.
  assert (remove_first (key_is DTAP_LogicLinkCompare lcid) (entry m) = remove_first (fun e => fst e =? lcid) (entry m)) as ->.
  { clear. induction (entry m) as [|e E IH]; [done|]. cbn. rewrite key_is_eqb, IH. done. }
  pose proof (inv_erase d S lcid m Hd Hl Hm) as Hd'. apply HQ; [done| |unfold shell; cbn; by rewrite Hm].
  destruct (link_of_split _ _ _ Hl) as (E1&E2&Es&HE1). unfold objs, entries in *. rewrite Hm in *. cbn.
  rewrite Es, (remove_first_split _ E1 (lcid, [])); [|done|apply Z.eqb_refl].
  change (?x.*2) with (map snd x). by rewrite !map_app, !concat_app.
Qed.

(** ** Activation and release *)

(** The connection manager activates no channel twice, and a transparent channel only
    alone on its link. *)
Definition add_ok (c : CM_TransChan) d : Prop :=
  param_ok c /\ forall o, o ∈ objs d -> ch_lcid (o_ch o) = pm_lcid c ->
    ch_srcTcid (o_ch o) <> pm_srcTcid c /\ ch_mode (o_ch o) <> CM_TRANS_MODE_TRANSPARENT /\
    transMode (config c) <> CM_TRANS_MODE_TRANSPARENT.

(** It releases a transparent channel by its own identifier. *)
Definition del_ok (c : CM_TransChan) d : Prop :=
  forall o, find_obj d (pm_lcid c) (pm_srcTcid c) = Some o -> ch_srcTcid (o_ch o) = pm_srcTcid c.

Lemma good_with_chan d S c a :
  dtap_inv d S -> sched_good S -> add_ok c d ->
  let o := mk_obj (new_channel (d_next d) c) a in sched_good (with_chan (o_ch o) S).
Proof.
  intros Hd HS [Hp Hno]. cbn. pose proof (di_objs _ _ Hd) as Ho. pose proof (oi_fresh _ _ _ Ho) as Hf.
  pose proof (oi_reg _ _ _ Ho) as Hr. rewrite Forall_forall in Hf, Hr.
  apply good_open; [done|]. cbn. split_and!; [|apply Hp..|apply priority_range|apply priority_range|].
  - destruct (channels S !! TransChan (d_next d)) as [c'|] eqn:Hc; [|done].
    destruct (oi_known _ _ _ Ho _ _ Hc) as (o&Hin&E). specialize (Hf o Hin). cbn in Hf. lia.
  - intros p' c' Hc' El. destruct (oi_known _ _ _ Ho _ _ Hc') as (o&Hin&<-).
    destruct (Hr o Hin) as (c2&Hc2&E1&E2&_). rewrite Hc' in Hc2. injection Hc2 as <-.
    destruct (Hno o Hin) as [? _]; congruence.
Qed.

Lemma push_link_ok d S lcid L c a :
  dtap_inv d S -> link_of d lcid = Some L -> lcid = pm_lcid c -> add_ok c d ->
  link_ok (lcid, mk_obj (new_channel (d_next d) c) a :: L).
Proof.
  intros Hd Hl -> [_ Hno]. destruct (link_ok_of _ _ _ _ Hd Hl) as [L1 L2 L3]. cbn in *.
  assert (forall o, o ∈ L -> ch_srcTcid (o_ch o) <> pm_srcTcid c /\ ch_mode (o_ch o) <> CM_TRANS_MODE_TRANSPARENT /\
    transMode (config c) <> CM_TRANS_MODE_TRANSPARENT) as HL.
  { intros o Ho. apply Hno; [by eapply link_of_objs|]. rewrite Forall_forall in L1. by apply L1. }
  constructor; cbn.
  - by constructor.
  - apply NoDup_cons. split; [|done]. intros (o&E&Ho)%list_elem_of_fmap. cbn in E. destruct (HL o Ho) as [? _]. congruence.
  - intros o [->|Ho]%elem_of_cons Hm; [|by destruct (HL o Ho) as (_&?&_)]. f_equal. destruct L as [|o' L]; [done|].
    destruct (HL o') as (_&_&?); [by left|done].
Qed.

Lemma add_finds_none d S c L :
  dtap_inv d S -> link_of d (pm_lcid c) = Some L -> add_ok c d -> DTAP_ChannelFind L (pm_srcTcid c) = None.
Proof.
  intros Hd Hl [_ Hno]. unfold DTAP_ChannelFind. apply find_first_None, Forall_forall. intros o Ho.
  pose proof (lk_lcids _ (link_ok_of _ _ _ _ Hd Hl)) as HL. rewrite Forall_forall in HL.
  destruct (Hno o) as (H1&H2&_); [by eapply link_of_objs|by apply HL|]. unfold answers_to.
  apply orb_false_iff. split; by apply Z.eqb_neq.
Qed.

(** What an activation made: one more object, or none. *)
Definition added (c : CM_TransChan) d d' : Prop :=
  objs d' ≡ₚ objs d \/
  exists o, objs d' ≡ₚ o :: objs d /\ ch_lcid (o_ch o) = pm_lcid c /\ ch_srcTcid (o_ch o) = pm_srcTcid c /\
    ch_mode (o_ch o) = transMode (config c).

Lemma upd_link_objs d lcid L f :
  link_of d lcid = Some L -> exists os, objs d ≡ₚ L ++ os /\ objs (upd_link lcid f d) ≡ₚ f L ++ os.
Proof.
  intros Hl. destruct (upd_link_split d lcid L f Hl) as (E1&E2&E&Eu). exists (concat (map snd (E1 ++ E2))).
  unfold objs. change (?x.*2) with (map snd x). rewrite E, Eu. split; apply (objs_split E1 (lcid, _) E2).
Qed.

Lemma wp_channel_add c s :
  dtap_good s -> add_ok c s.1 ->
  wp (DTAP_ChannelAdd c) s (fun _ s' => dtap_good s' /\ added c s.1 s'.1 /\ shell s'.1 = shell s.1).
Proof.
  destruct s as [d [S [l w]]]. intros (Hd&HS&Hl) Ha. cbn [fst snd] in *. unfold DTAP_ChannelAdd.
  set (lcid := pm_lcid c) in *. apply wp_bind, wp_link_find.
  (* with the link in the map *)
  assert (forall d1 L w1, dtap_inv d1 S -> link_of d1 lcid = Some L -> objs d1 = objs d -> shell d1 = shell d ->
    wp (let! logicLink := DTAP_LogicLinkFind lcid in
        let! L0 := st_opt logicLink in
        (match DTAP_ChannelFind L0 (pm_srcTcid c) with
         | Some dtapChannel =>
             dupd (upd_link lcid (remove_obj dtapChannel)) ;;! DTAP_ChannelDestroy dtapChannel
         | None => st_ret tt
         end) ;;!
        let! dtapChannel := DTAP_ChannelCreate c in
        match dtapChannel with
        | None => erase_if_empty lcid
        | Some o => dupd (upd_link lcid (fun L0 => o :: L0))
        end) (d1, (S, (l, w1))) (fun _ s' => dtap_good s' /\ added c d s'.1 /\ shell s'.1 = shell d)) as Hrest.
  { intros d1 L w1 Hd1 HL Eo Es. assert (add_ok c d1) as Ha1 by (unfold add_ok in *; by rewrite Eo).
    apply wp_bind, wp_link_find, wp_bind. eapply wp_opt; [exact HL|].
    rewrite (add_finds_none d1 S c L) by done. apply wp_bind, wp_ret, wp_bind, wp_channel_create; [apply Ha|..].
    - intros next w2 Hn. eapply (wp_erase_if_empty _ L); [|exact HL|].
      { eapply inv_other; [exact Hd1|done|exact Hn|apply Hd1]. }
      intros d2 Hd2 E2 Es2. split; [by split_and!|]. split; [left|cbn [fst]; rewrite Es2; exact Es]. change (objs (d1 <| d_next := next |>)) with (objs d1) in E2.
      cbn. by rewrite E2, Eo.
    - intros a w2 o Hok. apply wp_dupd. split; [|split; [|cbn [fst]; unfold upd_link; rewrite upd_entries_shell; exact Es]].
      + split_and!; [|by apply good_with_chan|done]. cbn [fst snd]. eapply inv_push; [done|exact HL| |by eapply push_link_ok|done].
        by apply new_obj_ok; [apply Ha|].
      + right. exists o. split; [|done].
        destruct (upd_link_objs (d1 <| d_next := ptr o + 1 |>) lcid L (fun L0 => o :: L0) HL) as (os&E1&E2).
        change (objs (d1 <| d_next := ptr o + 1 |>)) with (objs d1) in E1. cbn [fst]. rewrite E2. cbn. by rewrite <- E1, Eo. }
  destruct (link_of d lcid) as [L|] eqn:HL.
  - apply wp_bind, wp_ret. cbn [negb]. by eapply Hrest.
  - apply wp_bind, wp_link_insert; [done|done| |].
    + intros w'. apply wp_ret. split; [by split_and!|]. split; [by left|done].
    + intros d' w' Hd' HL' Eo Es. cbn [negb]. by eapply Hrest.
Qed.

(** The one object that answers to the channel's identifier is gone. *)
Definition released (c : CM_TransChan) d d' : Prop :=
  match find_obj d (pm_lcid c) (pm_srcTcid c) with
  | None => d' = d
  | Some o => objs d ≡ₚ o :: objs d'
  end.

Lemma wp_channel_del c s :
  dtap_good s -> del_ok c s.1 ->
  wp (DTAP_ChannelDel c) s (fun _ s' => dtap_good s' /\ released c s.1 s'.1 /\ shell s'.1 = shell s.1).
Proof.
  destruct s as [d [S [l w]]]. intros (Hd&HS&Hl) Hok. cbn [fst snd] in *. unfold DTAP_ChannelDel.
  unfold del_ok, released, find_obj in *. set (lcid := pm_lcid c) in *. apply wp_bind, wp_link_find.
  destruct (link_of d lcid) as [L|] eqn:HL; cbn [mbind option_bind] in *; [|apply wp_ret; by split].
  destruct (DTAP_ChannelFind L (pm_srcTcid c)) as [o|] eqn:Hf; [|apply wp_ret; by split].
  specialize (Hok o eq_refl). pose proof (find_first_Some _ _ _ Hf) as [Ho _].
  assert (o ∈ objs d) as Hod by (by eapply link_of_objs).
  pose proof (lk_lcids _ (link_ok_of _ _ _ _ Hd HL)) as HLk. rewrite Forall_forall in HLk. specialize (HLk o Ho). cbn in HLk.
  pose proof (oi_reg _ _ _ (di_objs _ _ Hd)) as Hreg. rewrite Forall_forall in Hreg.
  destruct (Hreg o Hod) as (sc&Hsc&E1&E2&_). rewrite HLk in E1. rewrite Hok in E2. rewrite <- E1 at 1. rewrite <- E2 at 1.
  apply wp_bind, wp_over. eapply wp_mono; [by apply wp_channel_detach|]. intros [] [S1 x1] (Ex&HS1&Hdet&Ha1).
  cbn [fst snd] in *. subst x1. apply wp_bind, wp_dupd. apply wp_bind.
  pose proof (oi_objs _ _ _ (di_objs _ _ Hd)) as Hobjs. rewrite Forall_forall in Hobjs.
  apply wp_destroy; [apply (Hobjs o Hod)|]. intros w'.
  pose proof (inv_attrs _ _ _ Ha1 Hd) as Hd1.
  eapply (wp_erase_if_empty _ (remove_obj o L)); [by eapply inv_remove|by apply upd_link_of|].
  intros d' Hd' Eo Es. split; [split_and!; [done|by apply good_free|done]|]. cbn [fst].
  split; [|rewrite Es; apply upd_entries_shell]. rewrite Eo.
  destruct (upd_link_objs d lcid L (remove_obj o) HL) as (os&P1&P2). rewrite P2, P1.
  destruct (remove_obj_eq L o (link_ptrs _ _ _ _ Hd HL) Ho) as [E _].
  exact (Permutation_app_tail os E).
Qed.
End ops.

(** ** Frames on their way to a mode *)

(** [g] is what parsing made of the received buffer [b], whose type field is [ty]. *)
Record arrived (g : DTAP_Frame) (b : SDF_Buff) (ty : Z) : Prop := {
  av_wf : buff_wf b;
  av_len : DTAP_BASIC_HEADER_LEN <= dataLen b < 65536 + DTAP_BASIC_HEADER_LEN;
  av_byte : exists v, rd (bmem b) (dataOff b + 1) = Some v /\ bf_get v 0 4 = ty;
  av_parse : DTAP_ParseFrame ty b frame0 = Some (DTAP_SUCCESS, g);
  av_parsed : parsed_wf b ty g
}.

Lemma arrived_type g b ty : arrived g b ty -> header_frameType g = Some ty.
Proof.
  intros [_ _ (v&Hv&Hty) _ [[Hb Hh] _ _ _ _ _ _ _ _ _ _]]. unfold header_frameType, frame_mem.
  rewrite Hh, Hb. cbn [mbind option_bind]. rewrite Hv. cbn. by rewrite Hty.
Qed.

Lemma check_basic_total g b ty :
  arrived g b ty -> exists ok, DTAP_CheckBasicFrame g = Some ok /\ (ok = true -> basic_frame g b).
Proof.
  intros Hg. pose proof Hg as [Hwf _ (v&Hv&Hty) _ Hp]. pose proof (pw_over _ _ _ Hp) as [Hb Hh].
  unfold DTAP_CheckBasicFrame, frame_mem. rewrite Hh, Hb. cbn [mbind option_bind]. rewrite Hv. cbn [mbind option_bind].
  eexists. split; [done|]. rewrite negb_involutive, Hty. intros ->%Z.eqb_eq. by constructor.
Qed.

Lemma check_stream_total g b ty :
  arrived g b ty -> exists ok, DTAP_CheckStreamFrame g = Some ok /\ (ok = true -> simplex_frame g b).
Proof.
  intros Hg. unfold DTAP_CheckStreamFrame. rewrite (arrived_type _ _ _ Hg). cbn [mbind option_bind].
  eexists. split; [done|]. intros Hok. destruct Hg as [Hwf Hl _ Hp _]. constructor; [done|done|]. exists ty. split; [|done].
  apply orb_true_iff in Hok as [->%Z.eqb_eq| ->%Z.eqb_eq]; auto.
Qed.

Lemma check_header_total g b ty c : arrived g b ty -> exists ok, checkFrameHeader c g = Some ok.
Proof.
  intros [_ _ (v&Hv&_) _ [[Hb Hh] _ _ _ _ _ _ _ _ _ _]].
  destruct c; cbn [checkFrameHeader]; unfold DTAP_CheckBasicFrameHeader, DTAP_CheckSimplexAggrFrameHeader,
    DTAP_CheckSimplexFragFrameHeader, DTAP_CheckDuplexAggrFrameHeader, DTAP_CheckDuplexFragFrameHeader,
    DTAP_CheckAckFrameHeader, DTAP_CheckEnhanceFrameHeader, frame_mem; rewrite Hh, Hb; cbn [mbind option_bind];
    rewrite Hv; by eexists.
Qed.

Lemma get_trans_mode m :
  is_u8 m -> DTAP_GetTransMode m =
    if m =? CM_TRANS_MODE_BASIC then Some BasicMode else if m =? CM_TRANS_MODE_TRANSPARENT then Some TransparentMode
    else if m =? CM_TRANS_MODE_STREAM then Some StreamMode else if m =? CM_TRANS_MODE_RELIABLE then Some ReliableMode
    else None.
Proof.
  intros Hm. unfold DTAP_GetTransMode, CM_TRANS_MODE_MAX. destruct (Z.leb_spec 4 m).
  - unfold CM_TRANS_MODE_BASIC, CM_TRANS_MODE_TRANSPARENT, CM_TRANS_MODE_STREAM, CM_TRANS_MODE_RELIABLE.
    repeat (case_match; [lia|]). done.
  - assert (m = 0 \/ m = 1 \/ m = 2 \/ m = 3) as [->|[->|[->| ->]]] by (unfold is_u8 in Hm; lia); done.
Qed.

(** The mode of a channel and its [attr]. *)
Lemma mode_attr o mode :
  obj_ok o -> DTAP_GetTransMode (ch_mode (o_ch o)) = Some mode ->
  match mode with
  | BasicMode => exists b, o_attr o = BasicAttr b /\ basic_inv b
  | StreamMode => exists s, o_attr o = StreamAttr s /\ stream_inv s
  | ReliableMode => exists r, o_attr o = ReliableAttr r /\ channel_inv (o_ch o) r
  | TransparentMode => ch_mode (o_ch o) = CM_TRANS_MODE_TRANSPARENT
  end.
Proof.
  intros [Ha Hm _ _ _ _] E. rewrite get_trans_mode in E by done. unfold attr_ok in Ha.
  repeat case_match; simplify_eq; try lia; try (destruct Ha; by eauto);
    unfold CM_TRANS_MODE_BASIC, CM_TRANS_MODE_TRANSPARENT, CM_TRANS_MODE_STREAM, CM_TRANS_MODE_RELIABLE in *; lia.
Qed.
