(* ===== verification/DtapEvents.v ===== *)
(** * DTAP: data, timers and initialisation

    What the entry points of [Dtap] keep, and which channel they touch. *)
From S2P Require Import Prelude SdfErrno SdfBuff SdfContainers Utils DtapEnv DliLayer DliData DtapFrame DtapFragment DtapTrans DtapQuota DtapScheduler.
From S2P Require Import DtapSchedStore DtapSchedRun DtapSchedLoop DtapSchedDown DtapSchedEvents DtapSchedProps.
From S2P Require Import DtapReliable DtapReliableTx DtapReliableRx DtapStream DtapStreamProps DtapStreamRun DtapBasic DtapChannel Dtap DtapInv DtapProps.

Implicit Types (d : Dtap) (o : ChannelObj) (S : Sched).

(** A buffer of the upper layers, with the room that [SDF_BuffNew] leaves around it. *)
Record user_buff (b : SDF_Buff) : Prop := {
  ub_wf : buff_wf b;
  ub_head : DTAP_SIMPLEX_FRAG_FRAME_HEADER_LEN + DLI_HEADER <= dataOff b;
  ub_tail : dataOff b + dataLen b + DTAP_CRC_LEN <= buffLen b
}.

(** Only the [attr] of the channel [oo], if any, is not what it was. *)
Definition touched (oo : option ChannelObj) d d' : Prop :=
  d' = d \/ exists o a, oo = Some o /\ d' = upd_attr (ptr o) a d.

Lemma decode2_in b i :
  buff_wf b -> 0 <= i -> i + 2 <= dataLen b ->
  exists v, DECODE2BYTE_LITTLE (bmem b) (dataOff b + i) = Some v /\ is_u16 v.
Proof.
  intros [] Hi Hl. unfold DECODE2BYTE_LITTLE.
  destruct (rd_is_Some (bmem b) (dataOff b + i)) as [b0 ->]; [lia|].
  destruct (rd_is_Some (bmem b) (dataOff b + i + 1)) as [b1 ->]; [lia|]. eexists. split; [done|]. apply u16_range.
Qed.

Section events.
Context {W : Type} `{World W}.
Notation stack := (Sched * (DLI_LayerInfo * W))%type.
Implicit Types (l : DLI_LayerInfo) (w : W) (x : DLI_LayerInfo * W) (y : stack).
Notation state := (Dtap * stack)%type.

(** The code of a mode does not depend on which of the two instances is taken. *)
Lemma frame_recv S : @DTAP_RecvEnhanceFrame stack _ DtapScheduler = @DTAP_RecvEnhanceFrame stack _ (FrameScheduler S).
Proof. reflexivity. Qed.
Lemma frame_send S : @DTAP_SendEnhanceFrame stack _ DtapScheduler = @DTAP_SendEnhanceFrame stack _ (FrameScheduler S).
Proof. reflexivity. Qed.
Lemma frame_send_stream S : @DTAP_SendStreamFrame stack _ DtapScheduler = @DTAP_SendStreamFrame stack _ (FrameScheduler S).
Proof. reflexivity. Qed.
Lemma frame_send_basic S : @DTAP_SendBasicFrame stack _ DtapScheduler = @DTAP_SendBasicFrame stack _ (FrameScheduler S).
Proof. reflexivity. Qed.
Lemma frame_send_plain S : @DTAP_SendFrame stack _ DtapScheduler = @DTAP_SendFrame stack _ (FrameScheduler S).
Proof. reflexivity. Qed.
Lemma frame_rsp S : @DTAP_RspTimerExpireProc stack _ DtapScheduler = @DTAP_RspTimerExpireProc stack _ (FrameScheduler S).
Proof. reflexivity. Qed.
Lemma frame_reorder S : @DTAP_ReorderTimerExpireProc stack _ DtapScheduler = @DTAP_ReorderTimerExpireProc stack _ (FrameScheduler S).
Proof. reflexivity. Qed.
Lemma frame_retrans S : @DTAP_RetransTimerExpireProc stack _ DtapScheduler = @DTAP_RetransTimerExpireProc stack _ (FrameScheduler S).
Proof. reflexivity. Qed.

(** As an operation is about to run on the channel [o]. *)
Lemma good_obj d S x o : dtap_good (d, (S, x)) -> o ∈ objs d -> obj_ok o.
Proof. intros (Hd&_) Ho. pose proof (oi_objs _ _ _ (di_objs _ _ Hd)) as Hall. rewrite Forall_forall in Hall. by apply Hall. Qed.

Lemma wp_check_frame mode o g b ty d y (Q : bool -> state -> Prop) :
  dtap_good (d, y) -> o ∈ objs d -> DTAP_GetTransMode (ch_mode (o_ch o)) = Some mode ->
  mode <> TransparentMode -> arrived g b ty ->
  (forall ok, (ok = true -> match mode with
      | BasicMode => basic_frame g b | StreamMode => simplex_frame g b
      | ReliableMode => peer_frame g ty | TransparentMode => True end) -> Q ok (d, y)) ->
  wp (checkFrame mode (o_ch o) g) (d, y) Q.
Proof using H.
  destruct y as [S x]. intros Hgood Ho Hm Hne Hg HQ. pose proof (mode_attr o mode (good_obj _ _ _ _ Hgood Ho) Hm) as Ha.
  destruct mode; cbn [checkFrame]; [| done | |].
  - destruct (check_basic_total g b ty Hg) as (ok&Hc&Hok). eapply wp_opt; [exact Hc|]. by apply HQ.
  - destruct (check_stream_total g b ty Hg) as (ok&Hc&Hok). eapply wp_opt; [exact Hc|]. by apply HQ.
  - destruct Ha as (r&Er&Hr). destruct (check_enhance_total r g b ty (av_wf _ _ _ Hg) (av_parsed _ _ _ Hg)) as (ok&Hc&Hok).
    apply (wp_on_attr _ _ _ r); [done|done|by rewrite Er|]. intros Hs. apply wp_bind, wp_rel. cbn [id].
    eapply wp_opt; [exact Hc|]. split; [exact Hs|]. split.
    + split; [|done]. pose proof (ok_attr _ (good_obj _ _ _ _ Hgood Ho)) as K. rewrite Er in K. apply K.
    + intros _. rewrite <- Er, (upd_attr_self d S o) by (first [apply Hgood|done]). by apply HQ.
Qed.

Lemma wp_recv_frame mode o g b ty cb d y :
  dtap_good (d, y) -> o ∈ objs d -> DTAP_GetTransMode (ch_mode (o_ch o)) = Some mode -> mode <> TransparentMode ->
  match mode with
  | BasicMode => basic_frame g b | StreamMode => simplex_frame g b
  | ReliableMode => peer_frame g ty | TransparentMode => True end ->
  wp (recvFrame mode (o_ch o) g cb) (d, y) (fun _ s' => dtap_good s' /\ touched (Some o) d s'.1).
Proof.
  destruct y as [S x]. intros Hgood Ho Hm Hne Hg. pose proof (good_obj _ _ _ _ Hgood Ho) as Hok.
  pose proof (mode_attr o mode Hok Hm) as Ha. pose proof (ok_attr _ Hok) as Hat. destruct mode; cbn [recvFrame]; [| done | |].
  - destruct Ha as (a&Ea&Hi). rewrite Ea in Hat. apply (wp_on_attr _ _ _ a); [done|done|by rewrite Ea|]. intros Hs.
    apply (wp_recv_basic (H0 := FrameScheduler S) (o_ch o) g b); [done..|]. intros ret a' x' tk out Hst _ _ _.
    split; [apply Hst|]. split; [split; [apply Hat|apply Hst]|]. intros Hg'. split; [done|]. right. by eexists _, _.
  - destruct Ha as (a&Ea&Hi). rewrite Ea in Hat. apply (wp_on_attr _ _ _ a); [done|done|by rewrite Ea|]. intros Hs.
    apply (wp_recv_stream (H0 := FrameScheduler S) (o_ch o) g b); [done..|]. intros ret a' x' out Hst.
    pose proof (recv_stepped (H0 := FrameScheduler S) _ _ _ _ _ _ _ _ _ _ Hs Hi Hg Hst) as Hstep.
    split; [eapply gave_ok, Hstep|]. split; [split; [apply Hat|apply Hstep]|]. intros Hg'. split; [done|]. right. by eexists _, _.
  - destruct Ha as (r&Er&Hr). rewrite Er in Hat. apply wp_bind, wp_dg. apply (wp_on_attr _ _ _ r); [done|done|by rewrite Er|]. intros Hs.
    rewrite (frame_recv S). apply (recv_enhance_safe (H0 := FrameScheduler S) (o_ch o) _ _ ty); [done|done|apply Hok|done|].
    intros ret r' x' Hk Hi. split; [apply Hk|]. split; [split; [apply Hat|done]|]. intros Hg'. split; [done|]. right. by eexists _, _.
Qed.

Lemma touched_refl oo d : touched oo d d.
Proof. by left. Qed.

(** ** Receiving *)
Lemma wp_data_recv_frame mode o b cb d y :
  dtap_good (d, y) -> o ∈ objs d -> DTAP_GetTransMode (ch_mode (o_ch o)) = Some mode -> mode <> TransparentMode ->
  buff_wf b ->
  wp (DTAP_DataRecvFrame (o_ch o) mode b cb) (d, y) (fun _ s' => dtap_good s' /\ touched (Some o) d s'.1).
Proof.
  intros Hgood Ho Hm Hne Hwf. unfold DTAP_DataRecvFrame.
  assert (forall s', s' = (d, y) -> wp (st_ret tt) s' (fun _ s' => dtap_good s' /\ touched (Some o) d s'.1)) as Hret.
  { intros s' ->. apply wp_ret. split; [done|apply touched_refl]. }
  destruct (Z.ltb_spec (SDF_DataLenGet b) DTAP_BASIC_HEADER_LEN) as [|Hlen]; [by apply Hret|].
  unfold SDF_DataLenGet in *. change DTAP_BASIC_HEADER_LEN with 4 in *.
  destruct (decode2_in b 2 Hwf) as (n&Hn&Hn16); [lia..|].
  apply wp_bind. eapply wp_opt; [exact Hn|].
  destruct (Z.eqb_spec (dataLen b) (n + 4)) as [El|]; cbn [negb]; [|by apply Hret].
  destruct (rd_is_Some (bmem b) (dataOff b + 1)) as [v Hv]; [destruct Hwf; lia|].
  apply wp_bind. eapply wp_opt; [exact Hv|].
  assert (0 <= bf_get v 0 4) as Hty by (pose proof (bf_get_range v 0 4 ltac:(lia)); lia).
  destruct (parse_total b (bf_get v 0 4)) as (ret&g&Hp&Hpw); [done|unfold DTAP_BASIC_HEADER_LEN, is_u16 in *; lia|done|].
  apply wp_bind. eapply wp_opt; [exact Hp|]. cbv beta iota.
  destruct (Z.eqb_spec ret DTAP_SUCCESS) as [->|]; cbn [negb]; [|by apply Hret]. specialize (Hpw eq_refl).
  destruct (ch_mps (o_ch o) <? payloadLen g); [by apply Hret|].
  assert (arrived g b (bf_get v 0 4)) as Hg.
  { constructor; [done|unfold DTAP_BASIC_HEADER_LEN, is_u16 in *; lia|by exists v|done|done]. }
  destruct (pw_ctx _ _ _ Hpw) as (c&Hc&_). apply wp_bind. eapply wp_opt; [exact Hc|].
  destruct (check_header_total g b _ c Hg) as (ok&Hck). apply wp_bind. eapply wp_opt; [exact Hck|].
  destruct ok; cbn [negb]; [|by apply Hret]. apply wp_bind. eapply wp_check_frame; [done..|exact Hg|].
  intros ok Hok. destruct ok; cbn [negb]; [|by apply Hret]. specialize (Hok eq_refl).
  apply wp_bind, wp_dg. cbn [id]. apply wp_bind. eapply wp_mono; [by eapply (wp_recv_frame mode o g b)|].
  intros r s' Hs'. by apply wp_ret.
Qed.

(** The channel a received packet is for. *)
Definition recv_target d (lcid : Z) (buf : option SDF_Buff) : option ChannelObj :=
  b ← buf; tcid ← rd (bmem b) (dataOff b); find_obj d lcid tcid.

Lemma wp_data_recv lcid b d y :
  dtap_good (d, y) -> match b with Some b => buff_wf b | None => True end ->
  wp (DTAP_DataRecv lcid b) (d, y) (fun _ s' => dtap_good s' /\ touched (recv_target d lcid b) d s'.1).
Proof.
  intros Hgood Hwf. unfold DTAP_DataRecv. destruct b as [b|]; [|apply wp_ret; split; [done|apply touched_refl]].
  assert (forall oo, wp (st_ret tt) (d, y) (fun _ s' => dtap_good s' /\ touched oo d s'.1)) as Hret.
  { intros oo. apply wp_ret. split; [done|apply touched_refl]. }
  unfold SDF_DataLenGet, recv_target. cbn [mbind option_bind]. destruct (Z.eqb_spec (dataLen b) 0); [apply Hret|].
  destruct (rd_is_Some (bmem b) (dataOff b)) as [t Ht]; [destruct Hwf; lia|]. rewrite Ht. cbn [mbind option_bind].
  apply wp_bind. eapply wp_opt; [exact Ht|]. apply wp_bind, wp_channel_search.
  destruct (find_obj d lcid t) as [o|] eqn:Hf; cbn [fmap option_fmap option_map]; [|apply Hret].
  pose proof (find_obj_elem _ _ _ _ Hf) as Ho.
  destruct (DTAP_GetTransMode (ch_mode (o_ch o))) as [mode|] eqn:Hm; [|apply Hret].
  apply wp_bind, wp_dg. case_decide as Hd.
  - destruct (_ <? _); [apply Hret|]. destruct y as [S [l w]]. unfold DTAP_TransparentTransFrame, call_recv.
    destruct (DTAP_GetDataRecvCbkByTcid _ _) as [cb|]; [|apply wp_over, wp_ret; split; [done|apply touched_refl]].
    apply wp_over, wp_bind. unfold recv_cb. apply wp_asks. intros a w' _. apply wp_ret. split; [done|apply touched_refl].
  - by apply wp_data_recv_frame.
Qed.

(** ** Sending *)
Lemma frame_ok d S x o :
  dtap_good (d, (S, x)) -> o ∈ objs d -> sched_ok (Scheduler := FrameScheduler S) (o_ch o) (S, x).
Proof.
  intros (Hd&HS&Hl) Ho. pose proof (oi_reg _ _ _ (di_objs _ _ Hd)) as Hreg. rewrite Forall_forall in Hreg.
  split; [split_and!; [done|done|by apply Hreg]|apply attrs_refl].
Qed.

Lemma frame_good d S x o y :
  dtap_good (d, (S, x)) -> sched_ok (Scheduler := FrameScheduler S) (o_ch o) y -> dtap_good (d, y).
Proof. intros (Hd&_) [(HS'&Hl'&_) Ha]. split_and!; [by eapply inv_attrs|done|done]. Qed.

(** Code of a mode that needs no [attr]. *)
Lemma wp_over_frame {A} o (m : ST stack A) d S x :
  dtap_good (d, (S, x)) -> o ∈ objs d ->
  (sched_ok (Scheduler := FrameScheduler S) (o_ch o) (S, x) ->
   wp m (S, x) (fun _ y => calm (H0 := FrameScheduler S) (o_ch o) (S, x) y)) ->
  wp (over m) (d, (S, x)) (fun _ s' => dtap_good s' /\ touched (Some o) d s'.1).
Proof.
  intros Hg Ho Hm. apply wp_over. eapply wp_mono; [by eapply Hm, frame_ok|]. intros a x' [Hok _].
  split; [by eapply frame_good|apply touched_refl].
Qed.

Definition sendable_user b : user_buff b -> 0 < dataLen b -> sendable b.
Proof. intros [Hwf Hh _] Hl. split_and!; [done|unfold DTAP_SIMPLEX_FRAG_FRAME_HEADER_LEN in Hh; lia|done]. Qed.

Lemma wp_send_mode mode o p b d y :
  dtap_good (d, y) -> o ∈ objs d -> DTAP_GetTransMode (ch_mode (o_ch o)) = Some mode -> is_u8 p ->
  user_buff b -> 0 < dataLen b <= DTAP_MAX_PAYLOAD_LEN ->
  wp (sendFrame mode (o_ch o) p b) (d, y) (fun _ s' => dtap_good s' /\ touched (Some o) d s'.1).
Proof.
  destruct y as [S x]. intros Hgood Ho Hm Hp Hb Hl. pose proof (good_obj _ _ _ _ Hgood Ho) as Hok.
  pose proof (mode_attr o mode Hok Hm) as Ha. pose proof (ok_attr _ Hok) as Hat. unfold DTAP_MAX_PAYLOAD_LEN in Hl.
  destruct mode; cbn [sendFrame].
  - rewrite (frame_send_basic S). apply wp_over_frame; [done|done|]. intros Hs.
    apply (wp_send_basic (H0 := FrameScheduler S)); [done| |done]. split; [apply Hb|].
    pose proof (ub_head b Hb). unfold DTAP_SIMPLEX_FRAG_FRAME_HEADER_LEN, DTAP_BASIC_HEADER_LEN in *. lia.
  - apply wp_over_frame; [done|done|]. intros Hs. unfold DTAP_SendTransparentFrame. destruct (_ <? _).
    + by apply wp_ret, (calm_refl (H0 := FrameScheduler S)).
    + rewrite (frame_send_plain S). apply (wp_send_frame (H0 := FrameScheduler S) (o_ch o)); [done| |done].
      apply sendable_user; [done|lia].
  - destruct Ha as (a&Ea&Hi). rewrite Ea in Hat. apply (wp_on_attr _ _ _ a); [done|done|by rewrite Ea|]. intros Hs.
    rewrite (frame_send_stream S). apply (wp_send_stream (H0 := FrameScheduler S) (o_ch o)); [done|done|by destruct Hb|].
    intros ret q x' s' Hst. split; [eapply gave_ok, Hst|]. split; [split; [apply Hat|apply Hst]|].
    intros Hg'. split; [done|]. right. by eexists _, _.
  - destruct Ha as (r&Er&Hr). rewrite Er in Hat. pose proof Hr as [Hrx (A&Ds&Htx)].
    apply (wp_on_attr _ _ _ r); [done|done|by rewrite Er|]. intros Hs. rewrite (frame_send S).
    apply (wp_send (H0 := FrameScheduler S) (o_ch o) A Ds); [done|done|apply Hrx|done|apply Hb|lia|apply Hok|].
    intros ret r' x' Hevo Hout. pose proof (keeps_tx (H0 := FrameScheduler S) _ _ _ _ _ Hevo) as Hk.
    split; [apply Hk|]. split.
    + split; [apply Hat|]. split; [eapply rx_safe_same; [exact Hrx|apply Hevo]|].
      destruct (send_outcome_inv _ _ _ _ _ _ _ Htx Hout) as [Ds' H']. by eexists _, _.
    + intros Hg'. split; [done|]. right. by eexists _, _.
Qed.

Definition data_ok (data : option DTAP_Data) : Prop :=
  match data with
  | Some x => is_u8 (dd_pi x) /\ match dd_buff x with Some b => user_buff b | None => True end
  | None => True
  end.

(** The channel a packet is sent on. *)
Definition send_target d (data : option DTAP_Data) : option ChannelObj :=
  dt ← data; find_obj d (dd_lcid dt) (dd_tcid dt).

Lemma wp_data_send data d y :
  dtap_good (d, y) -> data_ok data ->
  wp (DTAP_DataSend data) (d, y) (fun _ s' => dtap_good s' /\ touched (send_target d data) d s'.1).
Proof.
  intros Hgood Hd. unfold DTAP_DataSend.
  assert (forall oo (ret : Z), wp (st_ret ret) (d, y) (fun _ s' => dtap_good s' /\ touched oo d s'.1)) as Hret.
  { intros oo ret. apply wp_ret. split; [done|apply touched_refl]. }
  destruct data as [dt|]; [|apply Hret]. destruct Hd as [Hp Hb]. unfold send_target. cbn [mbind option_bind].
  destruct (dd_buff dt) as [b|]; [|apply Hret]. unfold SDF_DataLenGet.
  destruct ((dataLen b =? 0) || (DTAP_MAX_PAYLOAD_LEN <? dataLen b)) eqn:El; [apply Hret|].
  apply orb_false_iff in El as [El1%Z.eqb_neq El2%Z.ltb_ge]. apply wp_bind, wp_channel_search.
  destruct (find_obj d (dd_lcid dt) (dd_tcid dt)) as [o|] eqn:Hf; cbn [fmap option_fmap option_map]; [|apply Hret].
  destruct (_ <? _); [apply Hret|]. destruct (DTAP_GetTransMode _) as [mode|] eqn:Hm; [|apply Hret].
  apply wp_send_mode; [done|by eapply find_obj_elem|done|done|done|]. pose proof (wf_len _ (ub_wf _ Hb)). lia.
Qed.

(** ** Status changes and timers *)
Lemma wp_reliable_op {A} o (m : ST (DTAP_ReliableChannel * stack) A) d S x :
  dtap_good (d, (S, x)) -> o ∈ objs d -> ch_mode (o_ch o) = CM_TRANS_MODE_RELIABLE ->
  (forall r, channel_inv (o_ch o) r -> sched_ok (Scheduler := FrameScheduler S) (o_ch o) (S, x) ->
   wp m (r, (S, x)) (fun _ '(r', y) => sched_ok (Scheduler := FrameScheduler S) (o_ch o) y /\ channel_inv (o_ch o) r')) ->
  wp (on_reliable (o_ch o) m) (d, (S, x)) (fun _ s' => dtap_good s' /\ touched (Some o) d s'.1).
Proof.
  intros Hgood Ho Hmode Hm. pose proof (good_obj _ _ _ _ Hgood Ho) as Hok.
  destruct (mode_attr o ReliableMode Hok) as (r&Er&Hr); [by rewrite Hmode|].
  apply (wp_on_attr _ _ _ r); [done|done|by rewrite Er|]. intros Hs. eapply wp_mono; [by apply (Hm r)|].
  intros a [r' x'] [Hs' Hr']. split; [done|]. split; [done|]. intros Hg. split; [done|]. right. by eexists _, _.
Qed.

Lemma wp_set_status lcid tcid result d y :
  dtap_good (d, y) ->
  wp (DTAP_ChannelSetStatus lcid tcid result) (d, y) (fun _ s' => dtap_good s' /\ touched (find_obj d lcid tcid) d s'.1).
Proof.
  intros Hgood. unfold DTAP_ChannelSetStatus. apply wp_bind, wp_channel_search.
  assert (forall oo, wp (st_ret tt) (d, y) (fun _ s' => dtap_good s' /\ touched oo d s'.1)) as Hret.
  { intros oo. apply wp_ret. split; [done|apply touched_refl]. }
  destruct (find_obj d lcid tcid) as [o|] eqn:Hf; cbn [fmap option_fmap option_map]; [|apply Hret].
  apply wp_bind, wp_dg. destruct (DTAP_GetTransMode _) as [mode|] eqn:Hm; [|apply Hret].
  pose proof (find_obj_elem _ _ _ _ Hf) as Ho.
  destruct mode; cbn [setTransChannelStatus]; [apply Hret..|]. destruct y as [S x].
  pose proof (good_obj _ _ _ _ Hgood Ho) as Hok.
  assert (ch_mode (o_ch o) = CM_TRANS_MODE_RELIABLE) as Hmode.
  { rewrite get_trans_mode in Hm by apply Hok. repeat case_match; try done. lia. }
  apply wp_reliable_op; [done..|]. intros r Hr Hs.
  apply (set_status_safe (H0 := FrameScheduler S)); [done|apply Hr|]. intros r' x' Hevo Hrx.
  pose proof (keeps_rx (H0 := FrameScheduler S) _ _ _ _ _ Hevo) as Hk. split; [apply Hk|].
  exact (channel_inv_rx (H0 := FrameScheduler S) _ _ _ _ _ Hr Hevo Hrx).
Qed.

(** The timers of a live reliable channel. *)
Definition timer_ok (p : Z) (proc : timer_proc) d : Prop :=
  proc <> ReorderStreamFrameCbk /\
  exists o, o ∈ objs d /\ ptr o = p /\ ch_mode (o_ch o) = CM_TRANS_MODE_RELIABLE.

Lemma wp_reliable_timer p proc d y :
  dtap_good (d, y) -> timer_ok p proc d ->
  wp (reliable_timer p proc) (d, y) (fun _ s' => dtap_good s' /\
    touched (find_first (at_ptr p) (objs d)) d s'.1).
Proof.
  intros Hgood (Hp&o&Ho&<-&Hm). destruct y as [S x]. pose proof Hgood as (Hd&_). cbn [fst snd] in Hd.
  rewrite (find_ptr _ _ _ Hd Ho). apply wp_bind, (wp_get_obj d S _ o); [done..|].
  apply wp_reliable_op; [done..|]. intros r Hr Hs. destruct proc; [| | |done].
  - rewrite (frame_rsp S). apply wp_bind, (send_ack_safe (H0 := FrameScheduler S)); [done..|].
    intros ret y Hc. apply wp_ret. split; [by eapply calm_ok|done].
  - rewrite (frame_reorder S). apply (reorder_expire_safe (H0 := FrameScheduler S)); [done..|]. intros r' y Hk Hi _ _. split; [apply Hk|done].
  - rewrite (frame_retrans S). pose proof Hr as [Hrx (A&Ds&Htx)]. apply (wp_retrans_timer (H0 := FrameScheduler S) _ A Ds); [done..|].
    intros r' y Hevo Htx'. pose proof (keeps_tx (H0 := FrameScheduler S) _ _ _ _ _ Hevo) as Hk. split; [apply Hk|].
    split; [eapply rx_safe_same; [exact Hrx|apply Hevo]|]. eauto.
Qed.

Lemma wp_stream_task args d y :
  dtap_good (d, y) ->
  wp (DTAP_ReorderStreamFrameTask args) (d, y) (fun _ s' => dtap_good s' /\
    touched (find_obj d (Z.land (Z.shiftr (u32 args) 16) 0xFFFF) (u8 (Z.land (u32 args) 0xFFFF))) d s'.1).
Proof.
  intros Hgood. unfold DTAP_ReorderStreamFrameTask. apply wp_bind, wp_channel_search.
  destruct (find_obj d _ _) as [o|] eqn:Hf; cbn [fmap option_fmap option_map];
    [|apply wp_ret; split; [done|apply touched_refl]].
  pose proof (find_obj_elem _ _ _ _ Hf) as Ho. destruct (Z.eqb_spec (ch_mode (o_ch o)) CM_TRANS_MODE_STREAM) as [Hm|];
    cbn [negb]; [|apply wp_ret; split; [done|apply touched_refl]].
  pose proof (good_obj _ _ _ _ Hgood Ho) as Hok. destruct (mode_attr o StreamMode Hok) as (a&Ea&Hi); [by rewrite Hm|].
  destruct y as [S x]. apply (wp_on_attr _ _ _ a); [done|done|by rewrite Ea|]. intros Hs.
  apply (wp_reorder_task (H0 := FrameScheduler S)); [done..|]. intros a' y out Hst _.
  split; [eapply gave_ok, Hst|]. split; [split; [done|apply Hst]|]. intros Hg. split; [done|]. right. by eexists _, _.
Qed.

(** ** Links *)
Definition chans d : list DTAP_Channel := map o_ch (objs d).

Lemma touched_chans oo d d' : touched oo d d' -> chans d' = chans d.
Proof.
  intros [->|(o&a&_&->)]; [done|]. unfold chans. rewrite upd_attr_objs, map_map. apply map_ext. intros o'. apply set_attr_ch.
Qed.

Lemma touched_shell oo d d' : touched oo d d' -> shell d' = shell d.
Proof. intros [->|(o&a&_&->)]; [done|]. apply upd_entries_shell. Qed.

Lemma elem_chans d ch : ch ∈ chans d -> exists o, o ∈ objs d /\ o_ch o = ch.
Proof. intros (o&->&Ho)%list_elem_of_fmap. by exists o. Qed.

(** A step after which the same channels are there. *)
Definition steps_to d (s' : state) : Prop := dtap_good s' /\ chans s'.1 = chans d /\ shell s'.1 = shell d.

Lemma wp_touch {A} (m : ST state A) d y oo :
  wp m (d, y) (fun _ s' => dtap_good s' /\ touched oo d s'.1) -> wp m (d, y) (fun _ => steps_to d).
Proof. intros Hm. eapply wp_mono; [exact Hm|]. intros a s' [? ?]. split_and!; [done|by eapply touched_chans|by eapply touched_shell]. Qed.

Lemma wp_link_state param d y :
  dtap_good (d, y) -> wp (DTAP_LogicLinkStateChangeCbk param) (d, y) (fun _ => steps_to d).
Proof.
  intros Hgood. destruct param as [p|]; [|by apply wp_ret]. cbn [DTAP_LogicLinkStateChangeCbk]. apply wp_bind.
  assert (forall y, dtap_good (d, y) -> wp (if negb (lk_result p =? CM_LINK_STATE_CONNECTED) then st_ret tt
      else let! logicLink := DTAP_LogicLinkFind (lk_lcid p) in
        match logicLink with
        | None => st_ret tt
        | Some L => st_for L (fun channel =>
            if ch_mode (o_ch channel) =? CM_TRANS_MODE_BASIC
            then on_basic (o_ch channel) DTAP_RecvBasicFrameContinue else st_ret tt)
        end) (d, y) (fun _ => steps_to d)) as Hrest.
  { intros y0 Hg. destruct (negb _); [by apply wp_ret|]. apply wp_bind, wp_link_find.
    destruct (link_of d (lk_lcid p)) as [L|] eqn:HL; [|by apply wp_ret].
    apply (wp_for (fun os s => steps_to d s /\ forall o, o ∈ os -> o_ch o ∈ chans d)).
    - split; [by split|]. intros o Ho. apply (list_elem_of_fmap_2 o_ch). by eapply link_of_objs.
    - intros o os [d1 [S1 x1]] [(Hg1&Hc1&Hsh1) Hos]. cbn [fst] in Hc1, Hsh1.
      assert (forall s, steps_to d s -> steps_to d s /\ forall o0, o0 ∈ os -> o_ch o0 ∈ chans d) as Hnext.
      { intros s Hs. split; [done|]. intros o0 Ho0. apply Hos. by right. }
      destruct (Z.eqb_spec (ch_mode (o_ch o)) CM_TRANS_MODE_BASIC) as [Hm|]; [|apply wp_ret, Hnext; by split].
      destruct (elem_chans d1 (o_ch o)) as (o1&Ho1&E); [rewrite Hc1; apply Hos; by left|]. rewrite <- E in *.
      destruct (mode_attr o1 BasicMode (good_obj _ _ _ _ Hg1 Ho1)) as (a&Ea&Hi); [by rewrite Hm|].
      apply (wp_on_attr _ _ _ a); [done|done|by rewrite Ea|]. intros Hs.
      apply (wp_continue (H0 := FrameScheduler S1) (o_ch o1)); [done..|]. intros a' y1 Hst _.
      split; [apply Hst|]. split; [split; [done|apply Hst]|]. intros Hg'. apply Hnext. split; [done|]. cbn [fst].
      rewrite <- Hc1, <- Hsh1. split; [eapply touched_chans|eapply touched_shell]; right; by eexists o1, _.
    - by intros s [? _]. }
  destruct y as [S [l w]]. unfold DTAP_LinkCollabProc. destruct (_ || _); [|by apply wp_ret, Hrest].
  apply wp_bind, wp_dask. intros a w1 _. apply wp_bind, wp_dask. intros a2 w2 _. by apply wp_ret, Hrest.
Qed.
End events.
