(* ===== verification/DtapMachine.v ===== *)
(** * DTAP as a state machine

    The whole module, with the real scheduler under it: its events are the calls of the
    upper layers, the connection manager, the DLI layer and the timers. *)
From S2P Require Import Prelude SdfErrno SdfBuff SdfContainers Utils DtapEnv DliLayer DliData DtapFrame DtapFragment DtapTrans DtapQuota DtapScheduler.
From S2P Require Import DtapSchedStore DtapSchedRun DtapSchedLoop DtapSchedDown DtapSchedEvents DtapSchedProps.
From S2P Require Import DtapReliable DtapReliableTx DtapReliableRx DtapStream DtapStreamProps DtapStreamRun DtapBasic DtapChannel Dtap DtapInv DtapProps DtapEvents.

Implicit Types (d : Dtap) (o : ChannelObj) (S : Sched).

Inductive dtap_event :=
| DtInit | DtDeInit
| DtRegData (tcid : Z) (cb : DTAP_DataRecvCb) | DtUnregData (tcid : Z)
| DtRegProto (pi : Z) (cb : DTAP_DataRecvCb) | DtUnregProto (pi : Z)
| DtSendCbks (cbks : option bool) | DtUnregSendCbks
| DtRecv (lcid : Z) (buf : option SDF_Buff)
| DtSend (data : option DTAP_Data)
| DtSetStatus (lcid tcid result : Z)
| DtChannels (param : option CM_TransChannelStateList)
| DtLink (param : option CM_LogicLinkState)
| DtTimer (p : Z) (proc : timer_proc) | DtTask (args : Z)
| DtDli (ev : sched_event).

(** What the DLI layer and the collaboration module do to the scheduler, and the tasks
    of its switching on and off that run after their post timed out. *)
Definition dli_event (ev : sched_event) : Prop :=
  match ev with
  | EvComplete _ _ | EvConnect _ _ | EvDisconnect _ | EvSetAp _ | EvDataNum _ _ | EvRegister _ | EvLayer _
  | EvInitTask | EvDeinitTask => True
  | _ => False
  end.

(** The activations of one report, after the channels [keys] (link, identifier, mode). *)
Definition key_of (o : ChannelObj) : Z * Z * Z := (ch_lcid (o_ch o), ch_srcTcid (o_ch o), ch_mode (o_ch o)).
Definition param_key (c : CM_TransChan) : Z * Z * Z := (pm_lcid c, pm_srcTcid c, transMode (config c)).
Definition may_add (c : CM_TransChan) (keys : list (Z * Z * Z)) : Prop :=
  param_ok c /\ forall k, k ∈ keys -> k.1.1 = pm_lcid c ->
    k.1.2 <> pm_srcTcid c /\ k.2 <> CM_TRANS_MODE_TRANSPARENT /\ transMode (config c) <> CM_TRANS_MODE_TRANSPARENT.
Fixpoint may_add_all (v : list (option CM_TransChan)) (keys : list (Z * Z * Z)) : Prop :=
  match v with
  | [] => True
  | None :: v' => may_add_all v' keys
  | Some c :: v' => may_add c keys /\ may_add_all v' (param_key c :: keys)
  end.
(** A transparent channel is released by its own identifier. *)
Definition may_release (keys : list (Z * Z * Z)) (c : option CM_TransChan) : Prop :=
  match c with
  | None => True
  | Some c => forall k, k ∈ keys -> k.1.1 = pm_lcid c -> k.2 = CM_TRANS_MODE_TRANSPARENT -> k.1.2 = pm_srcTcid c
  end.

Definition keys d : list (Z * Z * Z) := map key_of (objs d).

Definition report_ok (param : option CM_TransChannelStateList) d : Prop :=
  match param with
  | Some (mk_states r (Some v)) =>
      (r = CM_TRANS_CHANNEL_STATE_ACTIVATED -> may_add_all v (keys d)) /\
      (r = CM_TRANS_CHANNEL_STATE_RELEASED -> Forall (may_release (keys d)) v)
  | _ => True
  end.

Lemma may_add_all_sub v ks ks' : (forall k, k ∈ ks' -> k ∈ ks) -> may_add_all v ks -> may_add_all v ks'.
Proof.
  revert ks ks'. induction v as [|[c|] v IH]; intros ks ks' Hs; cbn [may_add_all]; [done| |by apply IH].
  intros [[Hp Hk] Hv]. split; [split; [done|by auto]|]. eapply IH; [|exact Hv].
  intros k [->|Hk']%elem_of_cons; [by left|right; by apply Hs].
Qed.

Section machine.
Context {W : Type} `{World W}.
Notation stack := (Sched * (DLI_LayerInfo * W))%type.
Notation state := (Dtap * stack)%type.
Implicit Types (l : DLI_LayerInfo) (w : W) (x : DLI_LayerInfo * W) (y : stack) (s : state).

Definition quietly {A} (m : ST state A) : ST state unit := let! _ := m in st_ret tt.

Definition run_dtap_event (ev : dtap_event) : ST state unit :=
  match ev with
  | DtInit => quietly DTAP_Init
  | DtDeInit => DTAP_DeInit
  | DtRegData tcid cb => quietly (DTAP_RegisterDataRecvCb tcid cb)
  | DtUnregData tcid => quietly (DTAP_UnregisterDataRecvCb tcid)
  | DtRegProto pi cb => quietly (DTAP_RegisterProtoRecvCbk pi cb)
  | DtUnregProto pi => quietly (DTAP_UnregisterProtoRecvCbk pi)
  | DtSendCbks cbks => DTAP_RegisterDataSendCbks cbks
  | DtUnregSendCbks => DTAP_UnRegisterDataSendCbks
  | DtRecv lcid buf => DTAP_DataRecv lcid buf
  | DtSend data => quietly (DTAP_DataSend data)
  | DtSetStatus lcid tcid result => DTAP_ChannelSetStatus lcid tcid result
  | DtChannels param => DTAP_ChannelStateChangeCbk param
  | DtLink param => DTAP_LogicLinkStateChangeCbk param
  | DtTimer p proc => reliable_timer p proc
  | DtTask args => DTAP_ReorderStreamFrameTask args
  | DtDli ev => over (run_sched_event ev)
  end.

(** The conditions under which the theorems claim something of an event: values have
    their C widths and buffers are well-formed; a report activates no channel that
    exists already (the code then frees the old one without telling the scheduler) and
    releases a transparent channel by its own identifier; a timer belongs to a live
    reliable channel, so timers of channels freed with a running timer are left out. *)
Definition dtap_event_ok (ev : dtap_event) (s : state) : Prop :=
  match ev with
  | DtRegProto pi _ | DtUnregProto pi => is_u8 pi
  | DtRecv _ (Some b) => buff_wf b
  | DtSend data => data_ok data
  | DtChannels param => report_ok param s.1
  | DtTimer p proc => timer_ok p proc s.1
  | DtDli ev => dli_event ev /\ sched_event_ok ev s.2.1
  | _ => True
  end.

(** The invariant of the module: while it is off it has no map. *)
Definition dtap_steady (s : state) : Prop :=
  dtap_good s /\ (g_dtapIsInited s.1 = false -> g_dtapLogicLinksMap s.1 = None).

Lemma shell_steady s s' : dtap_steady s -> dtap_good s' -> shell s'.1 = shell s.1 -> dtap_steady s'.
Proof.
  intros [_ Hoff] Hg Es. split; [done|]. unfold shell in Es. injection Es as E1 E2. rewrite E1. intros Hi.
  specialize (Hoff Hi). rewrite Hoff in E2. by destruct (g_dtapLogicLinksMap s'.1).
Qed.

(** ** Reports of the connection manager *)
Lemma keys_elem d k : k ∈ keys d <-> exists o, o ∈ objs d /\ k = key_of o.
Proof. unfold keys. change (map key_of (objs d)) with (key_of <$> objs d). rewrite list_elem_of_fmap. firstorder. Qed.

Lemma may_add_ok c d : may_add c (keys d) -> add_ok c d.
Proof.
  intros [Hp Hk]. split; [done|]. intros o Ho El. apply (Hk (key_of o)); [|done]. apply keys_elem. by exists o.
Qed.

Lemma wp_channels_add v s :
  dtap_steady s -> may_add_all v (keys s.1) -> wp (DTAP_ChannelsOperate v DTAP_ChannelAdd) s (fun _ => dtap_steady).
Proof.
  intros Hs Hv. apply (wp_for (fun v s => dtap_steady s /\ may_add_all v (keys s.1))); [done| |by intros s' []].
  intros c v' s' [Hs' Hv']. destruct c as [c|]; cbn [may_add_all] in Hv'; [|by apply wp_ret]. destruct Hv' as [Hc Hv'].
  eapply wp_mono; [apply wp_channel_add; [apply Hs'|by apply may_add_ok]|].
  intros _ s2 (Hg&Had&Es). split; [by eapply shell_steady|]. eapply may_add_all_sub; [|exact Hv'].
  intros k (o&Ho&->)%keys_elem. destruct Had as [E|(o'&E&E1&E2&E3)]; rewrite E in Ho.
  - right. apply keys_elem. by exists o.
  - apply elem_of_cons in Ho as [->|Ho].
      { assert (key_of o' = param_key c) as -> by (unfold key_of, param_key; congruence). by left. }
    right. apply keys_elem. by exists o.
Qed.

Lemma may_release_ok c d S : dtap_inv d S -> may_release (keys d) (Some c) -> del_ok c d.
Proof.
  intros Hd Hk o Hf. pose proof (find_obj_elem _ _ _ _ Hf) as Ho. unfold find_obj in Hf.
  destruct (link_of d (pm_lcid c)) as [L|] eqn:HL; [|done]. cbn in Hf. apply find_first_Some in Hf as [Hin Ha].
  unfold answers_to in Ha. apply orb_true_iff in Ha as [Hm%Z.eqb_eq|?%Z.eqb_eq]; [|done].
  apply (Hk (key_of o)); [apply keys_elem; by exists o| |done]. cbn.
  pose proof (lk_lcids _ (link_ok_of _ _ _ _ Hd HL)) as Hl. rewrite Forall_forall in Hl. by apply Hl.
Qed.

Lemma wp_channels_del v s :
  dtap_steady s -> Forall (may_release (keys s.1)) v ->
  wp (DTAP_ChannelsOperate v DTAP_ChannelDel) s (fun _ => dtap_steady).
Proof.
  intros Hs Hv. apply (wp_for (fun v s => dtap_steady s /\ Forall (may_release (keys s.1)) v)); [done| |by intros s' []].
  intros c v' s' [Hs' Hv']. apply Forall_cons in Hv' as [Hc Hv']. destruct c as [c|]; [|by apply wp_ret].
  eapply wp_mono; [apply wp_channel_del; [apply Hs'|eapply may_release_ok; [apply Hs'|exact Hc]]|].
  intros _ s2 (Hg&Hre&Es). split; [by eapply shell_steady|]. eapply Forall_impl; [exact Hv'|].
  assert (forall k, k ∈ keys s2.1 -> k ∈ keys s'.1) as Hsub.
  { intros k (o&Ho&->)%keys_elem. apply keys_elem. exists o. split; [|done]. unfold released in Hre.
    destruct (find_obj _ _ _); [rewrite Hre; by right|by rewrite <- Hre]. }
  intros [c'|] Hr; [|done]. intros k Hk. apply Hr. by apply Hsub.
Qed.

(** ** Initialisation *)
Lemma st_for_concat {A B St} (f : A -> list B) (body : B -> ST St unit) (xs : list A) (t : St) :
  st_for xs (fun a => st_for (f a) body) t = st_for (concat (map f xs)) body t.
Proof.
  revert t. induction xs as [|a xs IH]; intros t; cbn [st_for map concat]; [done|].
  assert (forall (bs cs : list B) (t : St), st_for (bs ++ cs) body t = (st_for bs body ;;! st_for cs body) t) as Happ.
  { clear. induction bs as [|b bs IH]; intros cs t; cbn [st_for app]; [done|]. unfold st_bind in *.
    destruct (body b t) as [[[] t1]|]; [|done]. apply IH. }
  rewrite Happ. unfold st_bind. destruct (st_for (f a) body t) as [[[] t1]|]; [|done]. apply IH.
Qed.

Definition without_map d : Dtap := d <| g_dtapLogicLinksMap := None |>.

(** The channels are freed; the scheduler forgets them when it is off. *)
Lemma wp_map_deinit d S l w (Q : unit -> state -> Prop) :
  dtap_good (d, (S, (l, w))) ->
  (forall S' w', g_isInited S' = g_isInited S ->
     (g_isInited S = false \/ objs d = [] -> dtap_good (without_map d, (S', (l, w')))) ->
     Q tt (without_map d, (S', (l, w')))) ->
  wp DTAP_LogicLinkMapDeInit (d, (S, (l, w))) Q.
Proof.
  intros (Hd&HS&Hl) HQ. cbn [fst snd] in *. unfold DTAP_LogicLinkMapDeInit. apply wp_bind, wp_dg.
  destruct (g_dtapLogicLinksMap d) as [m|] eqn:Hm.
  2:{ apply wp_ret. assert (without_map d = d) as <- by (unfold without_map; destruct d; cbn in *; by subst).
      apply HQ; [done|]. intros _. split_and!; [|done|done]. destruct d; cbn in *. by subst. }
  apply wp_bind. unfold SDF_MapDtor, DTAP_LogicLinksDtor. unfold wp. rewrite (st_for_concat snd).
  assert (concat (map snd (entry m)) = objs d) as -> by (unfold objs, entries; by rewrite Hm).
  pose proof (di_objs _ _ Hd) as Hos. set (os := objs d) in *.
  apply (wp_for (fun os s => exists S' w' next, s = (d, (S', (l, w'))) /\ g_isInited S' = g_isInited S /\
    Forall obj_ok os /\ (objs d = [] -> os = []) /\
    (g_isInited S = false \/ objs d = [] -> sched_good S' /\ objs_inv os next S'))).
  - exists S, w, (d_next d). split_and!; [done|done|apply Hos|done|]. intros _. by split.
  - intros o os' s (S'&w'&next&->&Ei&Hok&He&Hg). apply Forall_cons in Hok as [Ho Hok]. apply wp_destroy; [apply Ho|].
    intros w2. exists (freed (ptr o) S'), w2, next. split_and!; [done|done|done|by intros E%He|]. intros Hc.
    destruct (Hg Hc) as [Hg1 Hg2]. split; [|by apply objs_inv_tail]. apply good_free; [done|]. intros Eon.
    destruct Hc as [Hc|Hc]; [congruence|]. by apply He in Hc.
  - intros s (S'&w'&next&->&Ei&_&_&Hg). apply wp_dupd. apply HQ; [done|]. intros Hc. destruct (Hg Hc) as [Hg1 [_ _ _ _ Hk]].
    split_and!; [|done|done]. cbn [fst snd]. constructor; cbn; [constructor|constructor| |apply Hd].
    constructor; cbn; [constructor..|]. intros p c Hpc. destruct (Hk p c Hpc) as (o&Ho&_). by apply not_elem_of_nil in Ho.
Qed.

(** A new map, with nothing in it. *)
Lemma wp_map_init d S l w (Q : Z -> state -> Prop) :
  dtap_good (d, (S, (l, w))) -> objs d = [] ->
  (forall ret d' w', ret <> DTAP_SUCCESS -> g_dtapLogicLinksMap d' = None -> dtap_good (d', (S, (l, w'))) ->
     g_dtapIsInited d' = g_dtapIsInited d -> Q ret (d', (S, (l, w')))) ->
  (forall d' w', objs d' = [] -> dtap_good (d', (S, (l, w'))) -> g_dtapIsInited d' = g_dtapIsInited d ->
     Q DTAP_SUCCESS (d', (S, (l, w')))) ->
  wp DTAP_LogicLinkMapInit (d, (S, (l, w))) Q.
Proof.
  intros (Hd&HS&Hl) He HF HQ. cbn [fst snd] in *. unfold DTAP_LogicLinkMapInit. apply wp_bind, wp_dalloc. intros a w' _.
  assert (forall m, (m = None \/ m = Some (mk_map [])) -> dtap_good (d <| g_dtapLogicLinksMap := m |>, (S, (l, w')))) as Hg.
  { intros m Hm. split_and!; [|done|done]. pose proof (di_objs _ _ Hd) as Ho. rewrite He in Ho.
    destruct Hm as [->| ->]; constructor; cbn; try constructor; try apply Ho; apply Hd. }
  destruct (negb (a =? 0)); apply wp_bind, wp_dupd, wp_ret.
  - apply HQ; [done|apply Hg; by right|done].
  - apply HF; [done|done|apply Hg; by left|done].
Qed.

Lemma wp_over_switch (m : ST stack Z) d S l w on (Q : Z -> state -> Prop) :
  wp m (S, (l, w)) (switched on S) -> dtap_inv d S ->
  (forall ret S' l' w', dtap_good (d, (S', (l', w'))) ->
     (if ret =? DTAP_SUCCESS then g_isInited S' = on else g_isInited S' = g_isInited S) -> Q ret (d, (S', (l', w')))) ->
  wp (over m) (d, (S, (l, w))) Q.
Proof.
  intros Hm Hd HQ. apply wp_over. eapply wp_mono; [exact Hm|]. intros ret [S' [l' w']] ([HS' Hl']&Ha&Hon).
  apply HQ; [|done]. split_and!; [|done|done]. by eapply inv_attrs.
Qed.

(** While there are no channels the map can always be dropped. *)
Lemma wp_map_drop d y (Q : unit -> state -> Prop) :
  dtap_good (d, y) -> objs d = [] ->
  (forall y', dtap_good (without_map d, y') -> Q tt (without_map d, y')) -> wp DTAP_LogicLinkMapDeInit (d, y) Q.
Proof.
  intros Hg He HQ. destruct y as [S [l w]]. apply wp_map_deinit; [done|]. intros S' w' _ H'. apply HQ, H'. by right.
Qed.

Lemma good_ask d S l w w' : dtap_good (d, (S, (l, w))) -> dtap_good (d, (S, (l, w'))).
Proof. by intros (?&?&?). Qed.

Lemma wp_channel_init d y :
  dtap_good (d, y) -> objs d = [] ->
  wp DTAP_ChannelInit (d, y) (fun ret s' => dtap_good s' /\ g_dtapIsInited s'.1 = g_dtapIsInited d /\
    (ret <> DTAP_SUCCESS -> g_dtapLogicLinksMap s'.1 = None)).
Proof.
  intros Hg He. destruct y as [S [l w]]. unfold DTAP_ChannelInit. apply wp_bind, wp_map_init; [done|done| |].
  { intros ret d' w' Hne Hm Hg' Ei. destruct (Z.eqb_spec ret DTAP_SUCCESS); [done|]. cbn [negb]. by apply wp_ret. }
  intros d1 w1 He1 Hg1 Ei. change (negb (DTAP_SUCCESS =? DTAP_SUCCESS)) with false. cbv iota.
  apply wp_bind. pose proof Hg1 as (Hd1&HS1&Hl1). cbn [fst snd] in *.
  apply (wp_over_switch _ _ _ _ _ true); [by apply wp_init|done|]. intros ret S2 l2 w2 Hg2 _.
  destruct (Z.eqb_spec ret DTAP_SUCCESS) as [->|Hne]; cbn [negb].
  2:{ apply wp_bind, wp_map_drop; [done|done|]. intros y' Hg'. by apply wp_ret. }
  assert (forall r w', wp (let! _ := over DTAP_SchedulerDeinit in DTAP_LogicLinkMapDeInit ;;! st_ret r)
    (d1, (S2, (l2, w'))) (fun ret s' => dtap_good s' /\ g_dtapIsInited s'.1 = g_dtapIsInited d /\
    (ret <> DTAP_SUCCESS -> g_dtapLogicLinksMap s'.1 = None))) as Hundo.
  { intros r w'. apply wp_bind. apply (good_ask _ _ _ _ w') in Hg2. pose proof Hg2 as (Hd2&HS2&Hl2). cbn [fst snd] in *.
    apply (wp_over_switch _ _ _ _ _ false); [by apply wp_deinit|done|]. intros ret S3 l3 w3 Hg3 _.
    apply wp_bind, wp_map_drop; [done|done|]. intros y' Hg'. by apply wp_ret. }
  apply wp_bind, wp_dask. intros a w3 _. destruct (negb _); [apply Hundo|].
  apply wp_bind, wp_dask. intros a' w4 _. destruct (negb _); [apply wp_bind, wp_dask; intros; apply Hundo|].
  apply wp_ret. split; [by eapply good_ask|]. split; [done|]. by intros ?.
Qed.

(** ** Stores to the other globals *)
Lemma good_other d d' y :
  dtap_good (d, y) -> g_dtapLogicLinksMap d' = g_dtapLogicLinksMap d -> d_next d' = d_next d ->
  length (g_dtapProtoRecvCbks d') = length (g_dtapProtoRecvCbks d) -> dtap_good (d', y).
Proof.
  intros (Hd&HS) Em En Ep. split; [|done]. cbn [fst snd] in *. apply (inv_other d); [done..|rewrite En; lia|]. rewrite Ep. apply Hd.
Qed.

Lemma steady_other d d' y :
  dtap_steady (d, y) -> g_dtapLogicLinksMap d' = g_dtapLogicLinksMap d -> d_next d' = d_next d ->
  length (g_dtapProtoRecvCbks d') = length (g_dtapProtoRecvCbks d) -> g_dtapIsInited d' = g_dtapIsInited d ->
  dtap_steady (d', y).
Proof. intros [Hg Hi] Em En Ep Ei. split; [by eapply good_other|]. cbn [fst] in *. by rewrite Em, Ei. Qed.

Lemma steady_ask d S l w w' : dtap_steady (d, (S, (l, w))) -> dtap_steady (d, (S, (l, w'))).
Proof. intros [Hg Hi]. split; [by eapply good_ask|done]. Qed.

(** A registration: it makes at most one request, for memory, and stores to tables of
    callbacks. *)
Definition callbacks_only d (s' : state) : Prop :=
  g_dtapLogicLinksMap s'.1 = g_dtapLogicLinksMap d /\ d_next s'.1 = d_next d /\
  length (g_dtapProtoRecvCbks s'.1) = length (g_dtapProtoRecvCbks d) /\ g_dtapIsInited s'.1 = g_dtapIsInited d.

Definition registers {A} (m : ST state A) : Prop :=
  forall d S l w, wp m (d, (S, (l, w))) (fun _ s' => callbacks_only d s' /\ exists w', s'.2 = (S, (l, w'))).

Lemma regs_ret {A} (a : A) : registers (st_ret a).
Proof. intros d S l w. apply wp_ret. split; [done|by exists w]. Qed.

Lemma regs_upd (f : Dtap -> Dtap) : (forall d y, callbacks_only d (f d, y)) -> registers (dupd f).
Proof. intros Hf d S l w. apply wp_dupd. split; [apply Hf|by exists w]. Qed.

Lemma regs_bind {A B} (m : ST state A) (k : A -> ST state B) :
  registers m -> (forall a, registers (k a)) -> registers (st_bind m k).
Proof.
  intros Hm Hk d S l w. apply wp_bind. eapply wp_mono; [apply Hm|]. intros a [d1 y1] [(E1&E2&E3&E4) [w1 Ey]]. cbn [fst snd] in *. subst y1.
  eapply wp_mono; [apply Hk|]. intros b s' [(F1&F2&F3&F4) Hw]. split; [|done]. cbn [fst] in *. split_and!; congruence.
Qed.

Lemma regs_get {A B} (f : Dtap -> A) (k : A -> ST state B) : (forall a, registers (k a)) -> registers (st_bind (dg f) k).
Proof. intros Hk d S l w. apply wp_bind, wp_dg. apply Hk. Qed.

Lemma regs_alloc : registers alloc_ok.
Proof. intros d S l w. apply wp_dalloc. intros a w' _. split; [done|by exists w']. Qed.

Lemma regs_steady {A} (m : ST state A) s : registers m -> dtap_steady s -> wp m s (fun _ => dtap_steady).
Proof.
  intros Hm Hs. destruct s as [d [S [l w]]]. eapply wp_mono; [apply Hm|]. intros a [d' y'] [(E1&E2&E3&E4) [w' E]].
  cbn [fst snd] in *. subst y'. eapply steady_other; [by eapply steady_ask|done..].
Qed.

Ltac regs := repeat first
  [ apply regs_ret | apply regs_alloc | apply regs_get; intros | apply regs_bind; [|intros]
  | apply regs_upd; intros; split_and!; cbn; rewrite ?length_insert; done | case_match ].

Lemma regs_reg_data tcid cb : registers (DTAP_RegisterDataRecvCb tcid cb).
Proof. unfold DTAP_RegisterDataRecvCb, DTAP_RegisterDataRecvCbInner, DTAP_AddDataRecvCbkEntry, DTAP_DelDataRecvCbkEntry. regs. Qed.
Lemma regs_unreg_data tcid : registers (DTAP_UnregisterDataRecvCb tcid).
Proof. unfold DTAP_UnregisterDataRecvCb, DTAP_RegisterDataRecvCbInner, DTAP_AddDataRecvCbkEntry, DTAP_DelDataRecvCbkEntry. regs. Qed.
Lemma regs_reg_proto pi cb : registers (DTAP_RegisterProtoRecvCbk pi cb).
Proof. unfold DTAP_RegisterProtoRecvCbk. regs. Qed.
Lemma regs_unreg_proto pi : registers (DTAP_UnregisterProtoRecvCbk pi).
Proof. unfold DTAP_UnregisterProtoRecvCbk. regs. Qed.
Lemma regs_send_cbks cbks : registers (DTAP_RegisterDataSendCbks cbks).
Proof. unfold DTAP_RegisterDataSendCbks. regs. Qed.
Lemma regs_unreg_send : registers DTAP_UnRegisterDataSendCbks.
Proof. unfold DTAP_UnRegisterDataSendCbks. regs. Qed.

(** ** Starting and stopping the module *)
Lemma wp_dtap_init s : dtap_steady s -> wp DTAP_Init s (fun _ => dtap_steady).
Proof.
  intros Hs. destruct s as [d y]. unfold DTAP_Init. apply wp_bind, wp_dg.
  destruct (g_dtapIsInited d) eqn:Hi; [by apply wp_ret|]. pose proof Hs as [Hg Hoff]. cbn [fst] in Hoff.
  specialize (Hoff Hi). apply wp_bind, wp_dupd, wp_bind, wp_dupd.
  set (d1 := d <| g_dtapIsInited := true |> <| g_dtapRecvCbks := [] |>).
  assert (dtap_good (d1, y)) as Hg1 by (by eapply good_other). destruct y as [S [l w]].
  (* switched off again, without a map *)
  assert (forall d' (y' : stack), dtap_good (d', y') -> g_dtapLogicLinksMap d' = None ->
    dtap_steady (d' <| g_dtapIsInited := false |>, y')) as Hback.
  { intros d' y' Hg' Hm. split; [by eapply good_other|]. by intros _. }
  apply wp_bind, wp_dask. intros a w1 _. destruct (negb _).
  { apply wp_bind, wp_dupd, wp_ret, Hback; [by eapply good_ask|done]. }
  apply wp_bind. eapply wp_mono; [apply regs_reg_data|]. intros ret [d2 y2] [(E1&E2&E3&E4) [w2 E]]. cbn [fst snd] in *. subst y2.
  assert (dtap_good (d2, (S, (l, w2)))) as Hg2 by (eapply good_other; [by eapply good_ask|done..]).
  assert (g_dtapLogicLinksMap d2 = None) as Em by (rewrite E1; exact Hoff). destruct (negb _).
  { apply wp_bind, wp_dupd, wp_bind, wp_dask. intros a2 w3 _. apply wp_ret, Hback; [by eapply good_ask|done]. }
  apply wp_bind. eapply wp_mono; [apply wp_channel_init; [done|]|].
  { unfold objs, entries. by rewrite Em. }
  intros ret2 [d3 y3] (Hg3&Hi3&Hm3). cbn [fst] in *. destruct (Z.eqb_spec ret2 DTAP_SUCCESS) as [|Hne]; cbn [negb].
  - apply wp_ret. split; [done|]. cbn [fst]. rewrite Hi3, E4. done.
  - apply wp_bind, wp_dupd. destruct y3 as [S3 [l3 w3]]. apply wp_bind, wp_dask. intros a3 w4 _. apply wp_bind, wp_dupd, wp_ret.
    destruct (Hback d3 (S3, (l3, w4))) as [Hg4 _]; [by eapply good_ask|by apply Hm3|]. split; [by eapply good_other|].
    intros _. by apply Hm3.
Qed.

(** Stopping keeps the invariant when the scheduler is off afterwards, or there was no
    channel to free. *)
Lemma wp_dtap_deinit s :
  dtap_steady s ->
  wp DTAP_DeInit s (fun _ s' => g_isInited s'.2.1 = false \/ objs s.1 = [] -> dtap_steady s').
Proof.
  intros Hs. destruct s as [d [S [l w]]]. unfold DTAP_DeInit. apply wp_bind, wp_dg.
  destruct (g_dtapIsInited d) eqn:Hi; cbn [negb]; [|by apply wp_ret]. destruct Hs as [Hg _].
  apply wp_bind. unfold DTAP_ChannelDeInit. apply wp_bind, wp_dask. intros a1 w1 _. apply wp_bind, wp_dask. intros a2 w2 _.
  apply (good_ask _ _ _ _ w2) in Hg. pose proof Hg as (Hd&HS&Hl). cbn [fst snd] in *.
  apply wp_bind, (wp_over_switch _ _ _ _ _ false); [by apply wp_deinit|done|]. intros ret S3 l3 w3 Hg3 _.
  apply wp_map_deinit; [done|]. intros S4 w4 Ei Hg4. apply wp_bind, wp_dask. intros a5 w5 _.
  apply wp_bind, wp_dupd, wp_dupd. cbn [fst snd]. intros Hc. rewrite Ei in Hc. split; [|by intros _].
  eapply good_other; [exact (good_ask _ _ _ _ _ (Hg4 Hc))|done..].
Qed.

(** ** Events of the driver *)
Lemma wp_dli ev s :
  dtap_steady s -> dli_event ev -> sched_event_ok ev s.2.1 ->
  wp (over (run_sched_event ev)) s (fun _ s' => dtap_steady s' /\ s'.1 = s.1).
Proof.
  intros [(Hd&HS&Hl) Hoff] Hev Hok. destruct s as [d [S [l w]]]. cbn [fst snd] in *. apply wp_over.
  assert (forall m : ST stack unit, wp m (S, (l, w)) (fun _ => kept S l w) ->
    wp m (S, (l, w)) (fun a y => dtap_steady (d, y) /\ d = d)) as Hk.
  { intros m Hm. eapply wp_mono; [exact Hm|]. intros a y (H1&H2&H3&_). split; [|done]. split; [|done].
    split_and!; [by eapply inv_attrs|done|done]. }
  assert (forall m : ST stack unit, (forall on, wp m (S, (l, w)) (fun _ => switched on S DTAP_SUCCESS) ->
    wp m (S, (l, w)) (fun a y => dtap_steady (d, y) /\ d = d))) as Hsw.
  { intros m on Hm. eapply wp_mono; [exact Hm|]. intros a y ([H1 H2]&H3&_). split; [|done]. split; [|done].
    split_and!; [by eapply inv_attrs|done|done]. }
  destruct ev; try done; cbn [run_sched_event sched_event_ok] in *.
  - eapply Hsw, wp_init_inner; done.
  - eapply Hsw, wp_deinit_inner; done.
  - by apply Hk, wp_complete.
  - apply Hk, wp_connect; [done..|]. by intros L ->.
  - by apply Hk, wp_disconnect.
  - by apply Hk, wp_set_ap.
  - by apply Hk, wp_data_num.
  - unfold DTAP_DLIAcbNumChangeRegister. apply wp_supd. split; [|done]. split; [|done].
    split_and!; cbn; [apply (inv_attrs d S); [by apply attrs_same|done]| |done].
    pose proof (good_bufs S HS). pose proof (good_g S HS). pose proof (good_ap S HS). by apply (good_core S).
Qed.

(** ** All events *)
Lemma wp_quietly {A} (m : ST state A) s (Q : state -> Prop) :
  wp m s (fun _ => Q) -> wp (quietly m) s (fun _ => Q).
Proof. intros Hm. apply wp_bind. eapply wp_mono; [exact Hm|]. intros a s' HQ. by apply wp_ret. Qed.

Lemma steady_touch {A} (m : ST state A) d y oo :
  dtap_steady (d, y) -> wp m (d, y) (fun _ s' => dtap_good s' /\ touched oo d s'.1) -> wp m (d, y) (fun _ => dtap_steady).
Proof.
  intros Hs Hm. eapply wp_mono; [exact Hm|]. intros a s' [Hg Ht]. eapply shell_steady; [exact Hs|done|by eapply touched_shell].
Qed.

Lemma wp_channel_state param s :
  dtap_steady s -> report_ok param s.1 -> wp (DTAP_ChannelStateChangeCbk param) s (fun _ => dtap_steady).
Proof.
  intros Hs Hok. destruct param as [[r [v|]]|]; [|by apply wp_ret..]. destruct Hok as [Ha Hr].
  cbn [DTAP_ChannelStateChangeCbk channelVector sl_result].
  destruct (Z.eqb_spec r CM_TRANS_CHANNEL_STATE_ACTIVATED) as [E|]; [by apply wp_channels_add, Ha|].
  destruct (Z.eqb_spec r CM_TRANS_CHANNEL_STATE_RELEASED) as [E|]; [by apply wp_channels_del, Hr|by apply wp_ret].
Qed.

(** Whether the invariant is claimed after the event. *)
Definition stops_cleanly (ev : dtap_event) (s s' : state) : Prop :=
  ev = DtDeInit -> g_isInited s'.2.1 = false \/ objs s.1 = [].

Lemma wp_dtap_event ev s :
  dtap_steady s -> dtap_event_ok ev s ->
  wp (run_dtap_event ev) s (fun _ s' => stops_cleanly ev s s' -> dtap_steady s').
Proof.
  intros Hs Hok. pose proof Hs as [Hg _].
  assert (forall m : ST state unit, wp m s (fun _ => dtap_steady) -> wp m s (fun _ s' => stops_cleanly ev s s' -> dtap_steady s')) as Hk.
  { intros m Hm. eapply wp_mono; [exact Hm|]. by intros a s' Hs' _. }
  destruct ev; cbn [run_dtap_event dtap_event_ok] in *.
  2:{ eapply wp_mono; [by apply wp_dtap_deinit|]. intros a s' Hs' Hc. exact (Hs' (Hc eq_refl)). }
  all: apply Hk; clear Hk; destruct s as [d y]; cbn [fst snd] in *.
  - by apply wp_quietly, wp_dtap_init.
  - by apply wp_quietly, regs_steady; [apply regs_reg_data|].
  - by apply wp_quietly, regs_steady; [apply regs_unreg_data|].
  - by apply wp_quietly, regs_steady; [apply regs_reg_proto|].
  - by apply wp_quietly, regs_steady; [apply regs_unreg_proto|].
  - by apply regs_steady; [apply regs_send_cbks|].
  - by apply regs_steady; [apply regs_unreg_send|].
  - by eapply steady_touch, wp_data_recv.
  - by eapply wp_quietly, steady_touch, wp_data_send.
  - by eapply steady_touch, wp_set_status.
  - by apply wp_channel_state.
  - eapply wp_mono; [by apply wp_link_state|]. intros a s' (?&_&?). by eapply shell_steady.
  - by eapply steady_touch, wp_reliable_timer.
  - by eapply steady_touch, wp_stream_task.
  - destruct Hok. eapply wp_mono; [by apply wp_dli|]. by intros a s' [? _].
Qed.
End machine.
