(* ===== verification/DtapSafe.v ===== *)
(** * DTAP: theorems about the module

    The reachable states of [DtapMachine], and what holds in them: no event leads to
    undefined behaviour, an event of one channel leaves the others alone, a search finds
    the one channel there is, a basic packet arrives; and two ways in which the code
    leaves a pointer dangling when the conditions of the theorems fail. *)
From S2P Require Import Prelude SdfErrno SdfBuff SdfContainers Utils DtapEnv DliLayer DliData DtapFrame DtapFragment DtapTrans DtapQuota DtapScheduler.
From S2P Require Import DtapSchedStore DtapSchedRun DtapSchedLoop DtapSchedDown DtapSchedEvents DtapSchedProps.
From S2P Require Import DtapReliable DtapReliableTx DtapReliableRx DtapReliableProps DtapStream DtapBasic DtapChannel Dtap DtapInv DtapProps DtapEvents DtapMachine.

Implicit Types (d : Dtap) (o : ChannelObj) (S : Sched).

Lemma dtap0_inv S : channels S = ∅ -> dtap_inv g_dtap0 S.
Proof.
  intros Hc. constructor; [constructor|constructor| |done]. constructor; [constructor..|].
  intros p c Hp. rewrite Hc in Hp. by rewrite lookup_empty in Hp.
Qed.

(** Which channel an event is about. *)
Definition event_target (ev : dtap_event) d : option ChannelObj :=
  match ev with
  | DtRecv lcid buf => recv_target d lcid buf
  | DtSend data => send_target d data
  | DtSetStatus lcid tcid _ => find_obj d lcid tcid
  | DtTimer p _ => find_first (at_ptr p) (objs d)
  | DtTask args => find_obj d (Z.land (Z.shiftr (u32 args) 16) 0xFFFF) (u8 (Z.land (u32 args) 0xFFFF))
  | _ => None
  end.

(** Events that are about one channel or none. *)
Definition single (ev : dtap_event) : Prop :=
  match ev with DtInit | DtDeInit | DtChannels _ | DtLink _ => False | _ => True end.

Lemma touched_others oo d d' S o :
  dtap_inv d S -> touched oo d d' -> (forall o, oo = Some o -> o ∈ objs d) -> o ∈ objs d -> oo <> Some o -> o ∈ objs d'.
Proof.
  intros Hd [->|(o1&a&->&->)] Hin Ho Hne; [done|]. rewrite upd_attr_objs. apply list_elem_of_fmap. exists o. split; [|done].
  unfold set_attr. destruct (at_ptr (ptr o1) o) eqn:E; [|done]. apply at_ptr_true in E. destruct Hne. f_equal. symmetry.
  apply (ptr_inj (objs d)); [apply Hd|done|by apply Hin|done].
Qed.

(** A search finds a channel that answers, when there is one. *)
Lemma find_obj_spec d S lcid tcid o :
  dtap_inv d S -> o ∈ objs d -> ch_lcid (o_ch o) = lcid -> answers_to tcid o = true -> find_obj d lcid tcid = Some o.
Proof.
  intros Hd Ho El Ha. destruct (objs_of_link d S lcid o Hd Ho El) as (L&HL&HoL). unfold find_obj. rewrite HL. cbn.
  pose proof (link_ok_of _ _ _ _ Hd HL) as [_ Ht Hal]. cbn [fst snd] in *. unfold DTAP_ChannelFind.
  destruct (find_first (answers_to tcid) L) as [o'|] eqn:Hf.
  2:{ apply find_first_None in Hf. rewrite Forall_forall in Hf. specialize (Hf o HoL). congruence. }
  apply find_first_Some in Hf as [Ho' Ha']. f_equal. unfold answers_to in Ha, Ha'. apply orb_true_iff in Ha, Ha'.
  rewrite !Z.eqb_eq in Ha, Ha'.
  destruct Ha as [Ha|Ha]; [pose proof (Hal o HoL Ha) as E; rewrite E in Ho'; by apply list_elem_of_singleton in Ho'|].
  destruct Ha' as [Ha'|Ha']; [pose proof (Hal o' Ho' Ha') as E; rewrite E in HoL; by apply list_elem_of_singleton in HoL|].
  rewrite <- Ha in Ha'. clear -Ht HoL Ho' Ha'. induction L as [|x L IH]; [by apply not_elem_of_nil in HoL|].
  cbn in Ht. apply NoDup_cons in Ht as [Hn Ht]. apply elem_of_cons in HoL as [->|HoL], Ho' as [->|Ho']; [done| | |by apply IH].
  - destruct Hn. apply list_elem_of_fmap. by exists o'.
  - destruct Hn. apply list_elem_of_fmap. by exists o.
Qed.

Lemma find_obj_answers d S lcid tcid o :
  dtap_inv d S -> find_obj d lcid tcid = Some o -> o ∈ objs d /\ ch_lcid (o_ch o) = lcid /\ answers_to tcid o = true.
Proof.
  intros Hd Hf. split; [by eapply find_obj_elem|]. unfold find_obj in Hf. destruct (link_of d lcid) as [L|] eqn:HL; [|done].
  cbn in Hf. apply find_first_Some in Hf as [Ho Ha]. split; [|done].
  pose proof (lk_lcids _ (link_ok_of _ _ _ _ Hd HL)) as Hl. rewrite Forall_forall in Hl. by apply Hl.
Qed.

Section safe.
Context {W : Type} `{World W}.
Notation stack := (Sched * (DLI_LayerInfo * W))%type.
Notation state := (Dtap * stack)%type.
Implicit Types (l : DLI_LayerInfo) (w : W) (y : stack) (s : state).

(** From the start of the process.  After an event that stopped the module without
    stopping the scheduler nothing is claimed. *)
Inductive dtap_reach : state -> Prop :=
| dr_start l w : layer_ok l -> dtap_reach (g_dtap0, (g_sched0, (l, w)))
| dr_event ev s s' : dtap_reach s -> dtap_event_ok ev s -> run_dtap_event ev s = Some (tt, s') ->
    stops_cleanly ev s s' -> dtap_reach s'.

Lemma dtap_reach_steady s : dtap_reach s -> dtap_steady s.
Proof.
  induction 1 as [l w Hl|ev s s' Hs IH Hev Hrun Hc].
  - split; [|done]. split_and!; [by apply dtap0_inv|apply start_good|done].
  - pose proof (wp_dtap_event ev s IH Hev) as Hwp. unfold wp in Hwp. rewrite Hrun in Hwp. by apply Hwp.
Qed.

(** C3. Safety of the module, for callers that keep the conditions of [dtap_event_ok].
    From the start of the process no sequence of registrations, received packets, packets
    to send, activations and releases of channels, changes of links, expiries of timers,
    events of the driver, starts and stops, with any failures of memory, timers, driver
    and registrations, leads to a dangling channel pointer, an access outside a buffer or
    an endless loop, provided that no report activates a channel that exists or a second
    channel beside a transparent one, a transparent channel is released by its own
    identifier, and a timer that expires belongs to a live reliable channel.  In every
    state reached the channels of a link are told apart by their identifiers, the
    scheduler knows exactly the channels that exist, and every channel keeps the invariant
    of its transmission mode.  After a stop this is claimed only when it stopped the
    scheduler too, or there was no channel.  Outside these conditions the code does leave
    pointers dangling, as [freed_channels_dangle] shows. *)
Theorem dtap_safe s :
  dtap_reach s ->
  dtap_inv s.1 s.2.1 /\ (g_isInited s.2.1 = true -> sched_inv s.2.1) /\
  forall ev, dtap_event_ok ev s -> exists s', run_dtap_event ev s = Some (tt, s') /\
    (stops_cleanly ev s s' -> dtap_reach s').
Proof.
  intros Hs. pose proof (dtap_reach_steady s Hs) as Hst. pose proof Hst as [(Hd&HS&_) _]. split_and!; [done| |].
  - intros E. unfold sched_good in HS. by rewrite E in HS.
  - intros ev Hev. pose proof (wp_dtap_event ev s Hst Hev) as Hwp. unfold wp in Hwp.
    destruct (run_dtap_event ev s) as [[[] s']|] eqn:Hrun; [|done]. exists s'. split; [done|]. intros Hc. by eapply dr_event.
Qed.

(** What an event about one channel does to the others. *)
Definition others_kept (oo : option ChannelObj) d d' : Prop :=
  chans d' = chans d /\ forall o, o ∈ objs d -> oo <> Some o -> o ∈ objs d'.

Lemma others_touched {A} (m : ST state A) d y oo :
  dtap_inv d y.1 -> (forall o, oo = Some o -> o ∈ objs d) ->
  wp m (d, y) (fun _ s' => dtap_good s' /\ touched oo d s'.1) -> wp m (d, y) (fun _ s' => others_kept oo d s'.1).
Proof.
  intros Hd Hin Hm. eapply wp_mono; [exact Hm|]. intros a s' [_ Ht]. split; [by eapply touched_chans|].
  intros o Ho Hne. by eapply touched_others.
Qed.

Lemma others_registers {A} (m : ST state A) d y : registers m -> wp m (d, y) (fun _ s' => others_kept None d s'.1).
Proof.
  intros Hm. destruct y as [S [l w]]. eapply wp_mono; [apply Hm|]. intros a s' [(E&_) _].
  assert (objs s'.1 = objs d) as Eo by (unfold objs, entries; by rewrite E). split; [unfold chans; by rewrite Eo|].
  intros o. by rewrite Eo.
Qed.

Lemma target_elem ev d o : event_target ev d = Some o -> o ∈ objs d.
Proof.
  destruct ev; cbn; try done; try apply find_obj_elem.
  - unfold recv_target. destruct buf as [b|]; [|done]. cbn. destruct (rd _ _) as [t|]; [|done]. apply find_obj_elem.
  - unfold send_target. destruct data as [t|]; [|done]. apply find_obj_elem.
  - by intros [? _]%find_first_Some.
Qed.

Lemma isolation_steady ev s :
  dtap_steady s -> single ev -> dtap_event_ok ev s -> wp (run_dtap_event ev) s (fun _ s' => others_kept (event_target ev s.1) s.1 s'.1).
Proof.
  intros Hs Hsingle Hev. pose proof Hs as [Hg _]. pose proof Hg as [Hd _].
  destruct s as [d y]. pose proof (target_elem ev d) as Hin. cbn [fst snd] in *.
  destruct ev; try done; cbn [run_dtap_event dtap_event_ok event_target fst snd] in *; try apply wp_quietly.
  all: try (apply others_registers; by first
    [apply regs_reg_data|apply regs_unreg_data|apply regs_reg_proto|apply regs_unreg_proto|apply regs_send_cbks|apply regs_unreg_send]).
  - by apply others_touched, wp_data_recv.
  - by apply others_touched, wp_data_send.
  - by apply others_touched, wp_set_status.
  - by apply others_touched, wp_reliable_timer.
  - by apply others_touched, wp_stream_task.
  - destruct Hev. eapply wp_mono; [by apply wp_dli|]. intros a s' [_ E]. cbn [fst] in E. rewrite E. by split.
Qed.

(** C8. Isolation.  A received packet, a packet to send, a change of a channel's status,
    a timer or a reordering task is about at most one channel.  Every other channel has
    after the event exactly the link, identifiers, settings and state of its transmission
    mode that it had, and the scheduler still knows it under its link, identifier and
    priority; no channel comes or goes.  Registrations and events of the driver change
    no channel in this sense at all.  What is not claimed to stay is the list of packets
    that another channel has waiting in the scheduler: a run may send from it. *)
Theorem dtap_isolation ev s :
  dtap_reach s -> single ev -> dtap_event_ok ev s ->
  wp (run_dtap_event ev) s (fun _ s' =>
    chans s'.1 = chans s.1 /\ forall o, o ∈ objs s.1 -> event_target ev s.1 <> Some o ->
      o ∈ objs s'.1 /\ registered (o_ch o) s'.2.1).
Proof.
  intros Hr Hsingle Hev. pose proof (dtap_reach_steady s Hr) as Hs.
  pose proof (isolation_steady ev s Hs Hsingle Hev) as Hi. pose proof (wp_dtap_event ev s Hs Hev) as Hw.
  apply wp_run in Hi as (a&s'&E&[Hc Ho]). unfold wp in Hw |- *. rewrite E in Hw |- *. split; [done|].
  intros o Hin Hne. pose proof (Ho o Hin Hne) as Hin'. split; [done|].
  destruct Hw as [(Hd&_) _]; [intros ->; by destruct Hsingle|].
  pose proof (oi_reg _ _ _ (di_objs _ _ Hd)) as Hall. rewrite Forall_forall in Hall. by apply Hall.
Qed.

(** C12. Searching.  The search for a link and an identifier changes nothing and answers
    the channel of that link that has the identifier or is transparent; there is never
    more than one, and none is missed. *)
Theorem channel_search_unique lcid tcid s :
  dtap_reach s ->
  wp (DTAP_ChannelSearch lcid tcid) s (fun r s' => s' = s /\
    forall ch, r = Some ch <->
      exists o, o ∈ objs s.1 /\ o_ch o = ch /\ ch_lcid ch = lcid /\
        (ch_srcTcid ch = tcid \/ ch_mode ch = CM_TRANS_MODE_TRANSPARENT)).
Proof.
  intros Hr. destruct (dtap_reach_steady s Hr) as [(Hd&_) _]. destruct s as [d y]. cbn [fst snd] in *.
  apply wp_channel_search. split; [done|]. intros ch. split.
  - destruct (find_obj d lcid tcid) as [o|] eqn:Hf; [|done]. intros [=<-]. apply (find_obj_answers _ _ _ _ _ Hd) in Hf as (Ho&El&Ha).
    exists o. split_and!; [done..|]. apply orb_true_iff in Ha. rewrite !Z.eqb_eq in Ha. by destruct Ha; auto.
  - intros (o&Ho&<-&El&Ha). rewrite (find_obj_spec d _ lcid tcid o Hd Ho El); [done|].
    apply orb_true_iff. rewrite !Z.eqb_eq. by destruct Ha; auto.
Qed.

(** ** From one end to the other *)

(** The callback that gets a packet: the channel's, or that of its protocol. *)
Definition receiver (tcid pi : Z) d : DTAP_DataRecvCb :=
  match DTAP_GetDataRecvCbkByTcid tcid d with
  | Some _ => DTAP_GetDataRecvCbkByTcid tcid d
  | None => DTAP_GetProtoRecvCbk pi d
  end.

(** The protocol identifier that a packet arrives with. *)
Definition arriving_pi (tcid pi : Z) : Z := if TCID_FTC_RFU_END <? tcid then pi else DTAP_PI_NONE.

(** [s'] is [s] but for [out] being handed up. *)
Definition handed_up (out : list DtapBasic.entry) s s' : Prop :=
  s'.1 = s.1 /\ s'.2.1 = s.2.1 /\ s'.2.2.1 = s.2.2.1 /\
  exists t, trace s' = trace s ++ t /\ delivered_to t = seen out.

Lemma wp_ready_basic o b g bf cb d S l w :
  dtap_inv d S -> o ∈ objs d -> o_attr o = BasicAttr b -> isReady b = true -> basic_frame g bf ->
  wp (on_basic (o_ch o) (DTAP_RecvBasicFrame (o_ch o) g cb)) (d, (S, (l, w)))
    (fun _ s' => handed_up [frame_entry (o_ch o) g cb] (d, (S, (l, w))) s').
Proof.
  intros Hd Ho Ea Hrdy Hg. unfold on_basic, on_attr. apply wp_bind, (wp_get_obj d S _ o); [done..|].
  rewrite Ea. cbn [as_basic]. apply wp_bind, wp_ret, wp_bind, wp_over.
  assert (wp (DTAP_RecvBasicFrame (o_ch o) g cb) (b, (S, (l, w))) (fun _ '(b', y') => b' = b /\ exists w', y' = (S, (l, w')) /\
    exists t, trace w' = trace w ++ t /\ delivered_to t = seen [frame_entry (o_ch o) g cb])) as Hrun.
  { unfold DTAP_RecvBasicFrame. apply wp_bind, wp_gets. cbn [fst].
    destruct (trim_basic (o_ch o) g bf Hg) as (d2&Ht&_&He). rewrite Ht, Hrdy. cbn [negb]. apply wp_bind, wp_over.
    unfold call_recv. rewrite (He cb). destruct cb as [cb|].
    - apply wp_bind. unfold recv_cb. apply wp_asks. intros a w' Ht'. apply wp_ret, wp_ret. split; [done|]. exists w'.
      split; [done|]. eexists. split; [exact Ht'|done].
    - apply wp_ret, wp_ret. split; [done|]. exists w. split; [done|]. exists []. by rewrite app_nil_r. }
  unfold wp in Hrun |- *. destruct (DTAP_RecvBasicFrame (o_ch o) g cb (b, (S, (l, w)))) as [[a [b' y']]|]; [|done].
  cbn [fst snd] in Hrun. destruct Hrun as (->&w'&->&t&Ht&Hdel). cbn.
  rewrite <- Ea, (upd_attr_self d S o) by done. split_and!; [done..|]. exists t. split; [exact Ht|done].
Qed.

(** C9. A packet that the peer sends on a basic channel arrives.  The frame that the
    sender builds from a packet of at most the channel's frame size, received whole on
    a channel whose upper layer is ready, hands up exactly the bytes of the packet, once,
    with the link, the identifier and the protocol it was sent with, to the callback of
    the channel, or, if it has none, to that of the protocol; nothing else changes. *)
Theorem basic_packet_arrives s o b p dat f' bf :
  dtap_reach s -> o ∈ objs s.1 -> o_attr o = BasicAttr b -> isReady b = true ->
  basic_send_ok dat -> is_u8 p -> dataLen dat <= ch_mps (o_ch o) -> dataLen dat < 65535 ->
  DTAP_BuildBasicFrame (frame0 <| pi := p |> <| f_buff := Some dat |> <| ctx := Some BasicCtx |>) (ch_srcTcid (o_ch o)) 0
    = Some (DTAP_SUCCESS, f') -> f_buff f' = Some bf ->
  wp (DTAP_DataRecv (ch_lcid (o_ch o)) (Some bf)) s (fun _ s' =>
    let tcid := ch_srcTcid (o_ch o) in
    handed_up [(receiver tcid (arriving_pi tcid p) s.1,
                mk_info (arriving_pi tcid p) (ch_lcid (o_ch o)) tcid, buff_data dat)] s s').
Proof.
  intros Hr Ho Ea Hrdy Hdat Hp Hmps Hlen Hb Hf'. destruct (dtap_reach_steady s Hr) as [Hgood _].
  pose proof Hgood as (Hd&_). destruct s as [d [S [l w]]]. cbn [fst snd] in *.
  pose proof (good_obj _ _ _ _ Hgood Ho) as Hok. pose proof (ok_attr _ Hok) as Hat. rewrite Ea in Hat. destruct Hat as [Hmode _].
  set (tcid := ch_srcTcid (o_ch o)) in *. set (lcid := ch_lcid (o_ch o)).
  destruct (basic_roundtrip tcid p dat) as (f2&d2&g&Hb2&Hf2&_&Ht&(v&Hv&Hty)&Hn&Hparse&Hg&Hck1&Hck2&H4&Hpl&Hpi&Hdata); [done|apply Hok|done..|].
  rewrite Hb in Hb2. injection Hb2 as <-. rewrite Hf' in Hf2. injection Hf2 as <-.
  assert (find_obj d lcid tcid = Some o) as Hfind.
  { apply (find_obj_spec d S); [done..|]. apply orb_true_iff. right. by apply Z.eqb_eq. }
  unfold DTAP_DataRecv, SDF_DataLenGet. destruct (Z.eqb_spec (dataLen bf) 0); [lia|].
  apply wp_bind. eapply wp_opt; [exact Ht|]. apply wp_bind, wp_channel_search. rewrite Hfind. cbn [fmap option_fmap option_map].
  rewrite Hmode. change (DTAP_GetTransMode CM_TRANS_MODE_BASIC) with (Some BasicMode). cbv iota.
  apply wp_bind, wp_dg. rewrite decide_False by done. unfold DTAP_DataRecvFrame, SDF_DataLenGet.
  destruct (Z.ltb_spec (dataLen bf) DTAP_BASIC_HEADER_LEN) as [Hlt|_]; [change DTAP_BASIC_HEADER_LEN with 4 in Hlt; lia|].
  apply wp_bind. eapply wp_opt; [exact Hn|].
  destruct (Z.eqb_spec (dataLen bf) (dataLen bf - DTAP_BASIC_HEADER_LEN + DTAP_BASIC_HEADER_LEN)); [|lia]. cbn [negb].
  apply wp_bind. eapply wp_opt; [exact Hv|]. rewrite Hty. apply wp_bind. eapply wp_opt; [exact Hparse|]. cbv beta iota.
  change (negb (DTAP_SUCCESS =? DTAP_SUCCESS)) with false. cbv iota.
  destruct (Z.ltb_spec (ch_mps (o_ch o)) (payloadLen g)); [lia|].
  destruct (pw_ctx _ _ _ (bf_parsed _ _ Hg)) as (c&Hc&Hcty). apply wp_bind. eapply wp_opt; [exact Hc|].
  assert (c = BasicCtx) as -> by (by destruct c). apply wp_bind. eapply wp_opt; [exact Hck1|]. cbn [negb checkFrame].
  apply wp_bind. eapply wp_opt; [exact Hck2|]. cbn [negb recvFrame]. apply wp_bind, wp_dg, wp_bind.
  eapply wp_mono; [by eapply wp_ready_basic|]. intros r s' Hs'. apply wp_ret.
  unfold frame_entry in Hs'. rewrite (fo_buff _ _ (pw_over _ _ _ (bf_parsed _ _ Hg))), Hdata, Hpi in Hs'. exact Hs'.
Qed.
End safe.

(** ** A module at work

    One link with a basic and a reliable channel. *)
Section module_demo.
Notation mstate := (Dtap * (Sched * (DLI_LayerInfo * script)))%type.
Implicit Types s : mstate.

Definition dtap_exec (ev : dtap_event) s : mstate :=
  match run_dtap_event ev s with Some (_, s') => s' | None => s end.

Lemma reach_dtap_exec ev s :
  dtap_reach s -> dtap_event_ok ev s -> stops_cleanly ev s (dtap_exec ev s) -> dtap_reach (dtap_exec ev s).
Proof.
  intros Hs Hev Hc. unfold dtap_exec in *. pose proof (wp_dtap_event ev s (dtap_reach_steady s Hs) Hev) as Hwp. unfold wp in Hwp.
  destruct (run_dtap_event ev s) as [[[] s']|] eqn:Hrun; [|done]. by eapply dr_event.
Qed.

(** The answers that let [DTAP_Init] succeed, and some more. *)
Definition mdemo_start (more : list Z) : mstate :=
  (g_dtap0, (g_sched0, (demo_layer, mk_script ([0; 1; 1; 0; 1; 1; 1; 1; 1; 0; 0] ++ more) []))).
Definition mdemo_param (tcid mode : Z) : CM_TransChan :=
  mk_param 0 9 tcid tcid (mk_conf mode 1000 1000 (mk_relconf 0 0xFFFF 0 0 0 0) (mk_strconf 0 0 0)).
Definition mdemo_basic : CM_TransChan := mdemo_param 1 CM_TRANS_MODE_BASIC.
Definition mdemo_reliable : CM_TransChan := mdemo_param 0x21 CM_TRANS_MODE_RELIABLE.
Definition activate (cs : list CM_TransChan) : dtap_event :=
  DtChannels (Some (mk_states CM_TRANS_CHANNEL_STATE_ACTIVATED (Some (Some <$> cs)))).
Definition release (cs : list CM_TransChan) : dtap_event :=
  DtChannels (Some (mk_states CM_TRANS_CHANNEL_STATE_RELEASED (Some (Some <$> cs)))).
Definition mdemo_send : dtap_event := DtSend (Some (mk_dtapdata 3 9 1 (Some (basic_demo_packet [7; 8])))).

Definition mdemo_on : mstate := Eval vm_compute in dtap_exec DtInit (mdemo_start []).
Definition mdemo : mstate :=
  Eval vm_compute in dtap_exec (DtRegData 1 (Some 77)) (dtap_exec (activate [mdemo_basic; mdemo_reliable]) mdemo_on).

Lemma mdemo_param_ok tcid mode :
  is_u8 tcid -> is_u8 mode -> param_ok (mdemo_param tcid mode).
Proof. intros. by constructor; cbn. Qed.

Lemma mdemo_reach : dtap_reach mdemo.
Proof.
  change mdemo with (dtap_exec (DtRegData 1 (Some 77)) (dtap_exec (activate [mdemo_basic; mdemo_reliable])
    (dtap_exec DtInit (mdemo_start [])))).
  apply reach_dtap_exec; [|done|done]. apply reach_dtap_exec; [|split; [intros _|done]|done].
  - apply reach_dtap_exec; [|done|done]. by apply dr_start.
  - cbn. split; [split; [by apply mdemo_param_ok|]|split; [split; [by apply mdemo_param_ok|]|done]].
    + intros k Hk. by apply not_elem_of_nil in Hk.
    + intros k Hk _. by apply list_elem_of_singleton in Hk as ->.
Qed.

Definition mdemo_obj : ChannelObj :=
  mk_obj (new_channel 1 mdemo_basic) (BasicAttr (mk_basic true [])).

Lemma mdemo_obj_in : mdemo_obj ∈ objs mdemo.1.
Proof. vm_compute. right. left. Qed.

Lemma dtap_safe_witness :
  dtap_reach mdemo /\ exists s', run_dtap_event (release [mdemo_basic]) mdemo = Some (tt, s') /\ dtap_reach s'.
Proof.
  split; [exact mdemo_reach|]. destruct (dtap_safe mdemo mdemo_reach) as (_&_&Hev).
  destruct (Hev (release [mdemo_basic])) as (s'&Hrun&Hs').
  - split; [done|]. intros _. apply Forall_cons_2; [|apply Forall_nil_2]. intros k Hk _ Hm. exfalso.
    repeat (apply elem_of_cons in Hk as [->|Hk]; [done|]). by apply not_elem_of_nil in Hk.
  - exists s'. split; [exact Hrun|]. by apply Hs'.
Defined.

Lemma dtap_isolation_witness :
  wp (run_dtap_event mdemo_send) mdemo (fun _ s' =>
    chans s'.1 = chans mdemo.1 /\ forall o, o ∈ objs mdemo.1 -> event_target mdemo_send mdemo.1 <> Some o ->
      o ∈ objs s'.1 /\ registered (o_ch o) s'.2.1).
Proof.
  refine (dtap_isolation mdemo_send mdemo mdemo_reach I _).
  split; [by split|]. constructor; [constructor; closed_fact|closed_fact..].
Defined.

Lemma channel_search_unique_witness :
  wp (DTAP_ChannelSearch 9 1) mdemo (fun r s' => s' = mdemo /\
    forall ch, r = Some ch <->
      exists o, o ∈ objs mdemo.1 /\ o_ch o = ch /\ ch_lcid ch = 9 /\
        (ch_srcTcid ch = 1 \/ ch_mode ch = CM_TRANS_MODE_TRANSPARENT)).
Proof. exact (channel_search_unique 9 1 mdemo mdemo_reach). Defined.

(** The frame of a packet of two bytes for the basic channel. *)
Definition mdemo_built : DTAP_Frame :=
  Eval vm_compute in
    match DTAP_BuildBasicFrame (frame0 <| pi := 3 |> <| f_buff := Some (basic_demo_packet [7; 8]) |> <| ctx := Some BasicCtx |>) 1 0
    with Some (_, f) => f | None => frame0 end.
Definition mdemo_wire : SDF_Buff := Eval vm_compute in default (mk_buff 0 0 0 []) (f_buff mdemo_built).

Lemma basic_packet_arrives_witness :
  wp (DTAP_DataRecv 9 (Some mdemo_wire)) mdemo (fun _ s' =>
    handed_up [(Some 77, mk_info DTAP_PI_NONE 9 1, [7; 8])] mdemo s').
Proof.
  refine (basic_packet_arrives mdemo mdemo_obj (mk_basic true []) 3 (basic_demo_packet [7; 8]) mdemo_built mdemo_wire
    mdemo_reach mdemo_obj_in _ _ basic_demo_packet_ok _ _ _ _ _); closed_fact.
Defined.

(** ** Where the conditions of the theorems fail *)

(** A basic channel with one packet with the driver and one waiting. *)
Definition busy : list dtap_event :=
  [DtInit; DtDli (EvConnect 0 (Some 9)); activate [mdemo_basic]; mdemo_send; mdemo_send; DtDli (EvSetAp 4)].
Definition dtap_run (evs : list dtap_event) : ST mstate unit := st_for evs run_dtap_event.
(** The driver takes the first packet, and one more after [n] requests. *)
Definition willing (n : nat) : mstate := mdemo_start (replicate 10 1 ++ [0] ++ replicate n 1 ++ [0]).

(** Two ways to free a channel that the scheduler still uses.  An activation that is
    reported again for a channel that was not released frees the channel under the
    packets that wait in it: the scheduler keeps it in its queues, and the next run uses
    it; a release in between, which takes the channel down first, avoids this.  And when
    stopping the module cannot post the task that stops the scheduler, it frees the
    channels all the same, and the next completion of a packet makes the running
    scheduler use a freed one. *)
Lemma freed_channels_dangle :
  (exists s, dtap_run (busy ++ [activate [mdemo_basic]]) (willing 9) = Some (tt, s) /\
     run_dtap_event (DtDli (EvComplete 9 1)) s = None) /\
  (exists s, dtap_run (busy ++ [release [mdemo_basic]; activate [mdemo_basic]]) (willing 9) = Some (tt, s) /\
     is_Some (run_dtap_event (DtDli (EvComplete 9 1)) s)) /\
  (exists s, dtap_run (busy ++ [DtDeInit]) (willing 11) = Some (tt, s) /\
     g_dtapIsInited s.1 = false /\ g_isInited s.2.1 = true /\ objs s.1 = [] /\
     run_dtap_event (DtDli (EvComplete 9 1)) s = None).
Proof.
  split_and!; eexists; (split; [vm_compute; reflexivity|]); split_and?; vm_compute; first [reflexivity|by eexists].
Qed.

(** A frame of the reliable channel, with three bytes of the protocol 3. *)
Definition mdemo_fragment : option SDF_Buff :=
  '(_, f) ← DTAP_BuildSimplexFragFrame (demo_fragment 0 DTAP_SAR_UNSEG [1; 2; 3]) 0x21 0xFFFF; f_buff f.
Definition refused : list dtap_event :=
  [DtInit; DtRegProto 3 (Some 55); activate [mdemo_reliable]; DtRecv 9 mdemo_fragment].
Definition refusing : mstate := mdemo_start (replicate 7 1 ++ [DTAP_TRANS_RELIABLE_TRANS_CHANNEL_FULL]).
Definition waiting_frames s : option (list (option bytes)) :=
  o ← head (objs s.1); r ← as_reliable (o_attr o); Some (map (fun f => buff_data <$> f_buff f) (rxList (rxWindow r))).

(** Data that the callback of a protocol refused is lost when the channel is resumed.
    The received frame is kept while the upper layer refuses it; but the callback for
    resuming is looked up by the channel's identifier alone, so that a frame which is
    delivered by its protocol is then taken from the window and given to nobody. *)
Theorem resume_drops_data :
  exists s s' t, dtap_run refused refusing = Some (tt, s) /\
    (CRecv 55 (mk_info 3 9 0x21) [1; 2; 3], DTAP_TRANS_RELIABLE_TRANS_CHANNEL_FULL) ∈ trace s /\
    waiting_frames s = Some [Some [1; 2; 3]] /\
    run_dtap_event (DtSetStatus 9 0x21 DTAP_SUCCESS) s = Some (tt, s') /\
    trace s' = trace s ++ t /\ delivered_to t = [] /\ waiting_frames s' = Some [].
Proof.
  do 2 eexists. exists []. split; [vm_compute; reflexivity|]. split_and!; try (vm_compute; reflexivity).
  vm_compute. repeat (first [by left|right]).
Qed.
End module_demo.
