(* ===== verification/DevdSearch.v ===== *)
(** * The string search of device discovery

    [BuildLpsTable], [KmpSearch] and [KmpSearchSimple] of
    [services/stack/src/cp/bsl/sle/devd/src/devd_report_parse.c]: the search of
    Knuth, Morris and Pratt, which recognises the reports of old devices.  It finds
    what a search from position to position finds. *)
From S2P Require Import Prelude SdfBuff SdfErrno CmData DtapEnv.

Definition NO_POS : Z := -1.

(** The loop over the pattern; each turn moves [i] on or [len] back, so twice the length
    of the pattern bounds the number of turns. *)
Fixpoint lps_loop (fuel : nat) (pattern : bytes) (patternLen len i : Z) (lps : list Z) : option (list Z) :=
  if i <? patternLen then
    match fuel with
    | O => None
    | Datatypes.S fuel =>
        pi ← rd pattern i;
        pl ← rd pattern len;
        if pi =? pl then
          lps ← wr lps i [len + 1];
          lps_loop fuel pattern patternLen (len + 1) (i + 1) lps
        else if negb (len =? 0) then
          len ← rd lps (len - 1);
          lps_loop fuel pattern patternLen len i lps
        else
          lps ← wr lps i [0];
          lps_loop fuel pattern patternLen len (i + 1) lps
    end
  else Some lps.

Definition BuildLpsTable (pattern : bytes) (patternLen : Z) (lps : list Z) : option (list Z) :=
  if patternLen =? 0 then Some lps
  else
    lps ← wr lps 0 [0];
    lps_loop (2 * Z.to_nat patternLen) pattern patternLen 0 1 lps.

(** The loop over the data; as above, it turns at most twice per byte. *)
Fixpoint kmp_loop (fuel : nat) (data : bytes) (dataLen : Z) (pattern : bytes) (patternLen : Z) (lps : list Z)
    (i j : Z) : option Z :=
  if i <? dataLen then
    match fuel with
    | O => None
    | Datatypes.S fuel =>
        pj ← rd pattern j;
        di ← rd data i;
        let '(i, j) := if pj =? di then (i + 1, j + 1) else (i, j) in
        if j =? patternLen then Some (i - j)
        else
          differ ← (if i <? dataLen then
                      pj ← rd pattern j;
                      di ← rd data i;
                      Some (negb (pj =? di))
                    else Some false);
          if differ : bool then
            if negb (j =? 0) then
              j ← rd lps (j - 1);
              kmp_loop fuel data dataLen pattern patternLen lps i j
            else kmp_loop fuel data dataLen pattern patternLen lps (i + 1) j
          else kmp_loop fuel data dataLen pattern patternLen lps i j
    end
  else Some NO_POS.

Section search.
Context {W : Type} `{World W}.

Definition KmpSearch (data : option bytes) (dataLen : Z) (pattern : bytes) (patternLen startPos : Z) : ST W Z :=
  if patternLen =? 0 then st_ret 0
  else if dataLen <? patternLen then st_ret NO_POS
  else if dataLen <=? startPos then st_ret NO_POS
  else
    let! ok := alloc_ok in
    if negb ok then st_ret NO_POS
    else
      let! lps := st_opt (BuildLpsTable pattern patternLen (replicate (Z.to_nat patternLen) 0)) in
      let! data := st_opt data in
      st_opt (kmp_loop (2 * Z.to_nat dataLen) data dataLen pattern patternLen lps startPos 0).

Definition KmpSearchSimple (data : option bytes) (dataLen : Z) (pattern : bytes) (patternLen : Z) : ST W Z :=
  KmpSearch data dataLen pattern patternLen 0.
End search.

(** ** The reference: a search from position to position *)
Fixpoint find_occurrence (n : nat) (data pattern : bytes) (s : Z) : Z :=
  match n with
  | O => NO_POS
  | Datatypes.S n => if decide (mem_read data s (zlen pattern) = pattern) then s
                     else find_occurrence n data pattern (s + 1)
  end.
Definition search (data pattern : bytes) (start : Z) : Z :=
  find_occurrence (Z.to_nat (zlen data - start)) data pattern start.

Definition occurs (data pattern : bytes) (s : Z) : Prop :=
  0 <= s /\ s + zlen pattern <= zlen data /\
  forall t, 0 <= t < zlen pattern -> rd pattern t = rd data (s + t).

Lemma occurs_read data pattern s :
  0 <= s -> pattern <> [] -> mem_read data s (zlen pattern) = pattern <-> occurs data pattern s.
Proof.
  intros Hs Hp. assert (0 < zlen pattern) by (destruct pattern; [done|cbn; lia]). split.
  - intros E. assert (s + zlen pattern <= zlen data) as Hl.
    { pose proof (f_equal length E) as El. unfold mem_read in El. rewrite length_take, length_drop in El. lia. }
    split; [done|]. split; [done|]. intros t Ht. rewrite <- E at 1. by apply rd_mem_read.
  - intros (_&Hl&Ho). apply list_eq. intros i. destruct (decide (i < length pattern)%nat) as [Hi|Hi].
    + pose proof (Ho (Z.of_nat i) ltac:(lia)) as E. rewrite <- rd_mem_read with (n := zlen pattern) in E by lia.
      rewrite !rd_lookup, Nat2Z.id in E by lia. done.
    + rewrite !lookup_ge_None_2; [done|lia|]. unfold mem_read. rewrite length_take. lia.
Qed.

Lemma find_occurrence_hit n data pattern s r :
  0 <= s <= r -> r < s + Z.of_nat n -> pattern <> [] -> occurs data pattern r ->
  (forall s', s <= s' < r -> ~ occurs data pattern s') -> find_occurrence n data pattern s = r.
Proof.
  revert s. induction n as [|n IH]; intros s Hs Hn Hp Ho Hf; [lia|]. cbn. case_decide as E.
  - apply occurs_read in E; [|lia|done]. destruct (decide (s = r)); [done|]. by destruct (Hf s ltac:(lia)).
  - assert (s <> r) as Hne. { intros ->. apply E. apply occurs_read; [lia|done|done]. }
    apply IH; [lia|lia|done|done|]. intros. apply Hf. lia.
Qed.

Lemma find_occurrence_miss n data pattern s :
  0 <= s -> pattern <> [] -> (forall s', s <= s' -> ~ occurs data pattern s') -> find_occurrence n data pattern s = NO_POS.
Proof.
  revert s. induction n as [|n IH]; intros s Hs Hp Hf; [done|]. cbn. rewrite decide_False.
  - apply IH; [lia|done|]. intros. apply Hf. lia.
  - rewrite occurs_read by done. apply Hf. lia.
Qed.

(** ** Borders

    A border of the first [k] bytes of the pattern is shorter and both starts and ends
    them. *)
Section borders.
Variable p : bytes.

Definition border (k q : Z) : Prop := 0 <= q < k /\ forall t, 0 <= t < q -> rd p t = rd p (k - q + t).
Definition longest (k q : Z) : Prop := border k q /\ forall q', border k q' -> q' <= q.

Lemma border_trans k q r : border k q -> border q r -> border k r.
Proof.
  intros [Hq Hkq] [Hr Hqr]. split; [lia|]. intros t Ht. rewrite Hqr by lia. rewrite Hkq by lia. f_equal. lia.
Qed.
Lemma border_of k q r : border k q -> border k r -> r < q -> border q r.
Proof.
  intros [Hq Hkq] [Hr Hkr] Hrq. split; [lia|]. intros t Ht. rewrite Hkr by lia. rewrite (Hkq (q - r + t)) by lia. f_equal. lia.
Qed.
Lemma border_pred k q : border (k + 1) (q + 1) -> 0 <= q -> border k q.
Proof. intros [Hq Hkq] H0. split; [lia|]. intros t Ht. rewrite Hkq by lia. f_equal. lia. Qed.
Lemma border_last k q : border (k + 1) (q + 1) -> 0 <= q -> rd p q = rd p k.
Proof. intros [Hq Hkq] H0. rewrite Hkq by lia. f_equal. lia. Qed.
Lemma border_succ k q : border k q -> rd p q = rd p k -> border (k + 1) (q + 1).
Proof.
  intros [Hq Hkq] Hl. split; [lia|]. intros t Ht. destruct (decide (t = q)) as [->|].
  - rewrite Hl. f_equal. lia.
  - rewrite Hkq by lia. f_equal. lia.
Qed.
Lemma border_zero k : 0 < k -> border k 0.
Proof. split; [lia|]. intros. lia. Qed.

(** The table holds the longest border of every prefix up to [i]. *)
Definition table_ok (lps : list Z) (i : Z) : Prop := forall k, 1 <= k <= i -> exists q, rd lps (k - 1) = Some q /\ longest k q.

Lemma rd_wr_one l i v l' k : wr l i [v] = Some l' -> 0 <= k -> rd l' k = if decide (k = i) then Some v else rd l k.
Proof.
  unfold wr. case_decide as Hd; [|done]. intros [=<-] Hk. cbn in Hd. case_decide.
  - subst k. rewrite <- (Z.add_0_r i) at 2. rewrite rd_window by (cbn; lia). done.
  - rewrite !rd_lookup by lia. unfold mem_write. destruct (decide (k < i)).
    + rewrite lookup_app_l by (rewrite length_take; lia). by rewrite lookup_take_lt by lia.
    + rewrite lookup_app_r by (rewrite length_take; lia). rewrite length_take, lookup_app_r by (cbn; lia).
      rewrite lookup_drop. f_equal. cbn. lia.
Qed.
Lemma wr_one l i v : 0 <= i < zlen l -> exists l', wr l i [v] = Some l' /\ length l' = length l.
Proof.
  intros Hi. unfold wr. rewrite decide_True by (cbn; lia). eexists. split; [done|]. apply length_mem_write; cbn; lia.
Qed.

Lemma table_snoc lps lps' i v :
  wr lps i [v] = Some lps' -> 0 <= i -> table_ok lps i -> longest (i + 1) v -> table_ok lps' (i + 1).
Proof.
  intros Hw Hi Ht Hv k Hk. erewrite rd_wr_one by (done || lia). destruct (decide (k = i + 1)) as [->|].
  - exists v. rewrite decide_True by lia. done.
  - rewrite decide_False by lia. apply Ht. lia.
Qed.

Lemma lps_loop_ok fuel len i lps :
  1 <= i <= zlen p -> table_ok lps i -> border i len -> length lps = length p ->
  (forall q, 0 <= q -> border (i + 1) (q + 1) -> q <= len) ->
  2 * zlen p - (2 * i - len) <= Z.of_nat fuel ->
  exists lps', lps_loop fuel p (zlen p) len i lps = Some lps' /\ table_ok lps' (zlen p).
Proof.
  revert len i lps. induction fuel as [|fuel IH]; intros len i lps Hi Ht Hb Hl Hc Hf;
    pose proof (proj1 Hb) as Hlen; cbn [lps_loop]; destruct (Z.ltb_spec i (zlen p)).
  - lia.
  - exists lps. split; [done|]. by replace (zlen p) with i by lia.
  - destruct (rd_is_Some p i) as [a Ha]; [lia|]. destruct (rd_is_Some p len) as [b Hb']; [lia|].
    rewrite Ha, Hb'. cbn. destruct (Z.eqb_spec a b) as [->|Hne].
    + destruct (wr_one lps i (len + 1)) as (l'&Hw&Hl'); [lia|]. rewrite Hw. cbn.
      assert (longest (i + 1) (len + 1)) as Hlg.
      { split; [apply border_succ; congruence|]. intros q Hq. destruct (decide (0 < q)) as [|]; [|lia].
        enough (q - 1 <= len) by lia. apply Hc; [lia|]. by replace (q - 1 + 1) with q by lia. }
      apply IH; [lia|by eapply table_snoc; [done|lia|..]|apply Hlg|congruence| |lia].
      intros q Hq Hbq. apply Hlg, border_pred; [done|lia].
    + destruct (Z.eqb_spec len 0) as [->|Hn0]; cbn.
      * destruct (wr_one lps i 0) as (l'&Hw&Hl'); [lia|]. rewrite Hw. cbn.
        assert (longest (i + 1) 0) as Hlg.
        { split; [apply border_zero; lia|]. intros q Hq. destruct (decide (0 < q)) as [|]; [|lia].
          replace q with (q - 1 + 1) in Hq by lia. pose proof (Hc (q - 1) ltac:(lia) Hq).
          assert (q - 1 = 0) as Eq by lia. pose proof (border_last _ _ Hq ltac:(lia)) as El. rewrite Eq in El. congruence. }
        apply IH; [lia|by eapply table_snoc; [done|lia|..]|apply Hlg|congruence| |lia].
        intros q Hq Hbq. apply Hlg, border_pred; [done|lia].
      * destruct (Ht len ltac:(lia)) as (q&Hq&Hbq&Hlq). rewrite Hq. cbn. pose proof (proj1 Hbq).
        apply IH; [lia|done|by eapply border_trans|done| |lia].
        intros r Hr Hbr. pose proof (Hc r Hr Hbr). apply Hlq, (border_of i); [done|by apply border_pred|].
        destruct (decide (r = len)) as [->|]; [|lia]. pose proof (border_last _ _ Hbr Hr). congruence.
  - exists lps. split; [done|]. by replace (zlen p) with i by lia.
Qed.

Lemma BuildLpsTable_ok :
  p <> [] -> exists lps, BuildLpsTable p (zlen p) (replicate (Z.to_nat (zlen p)) 0) = Some lps /\ table_ok lps (zlen p).
Proof.
  intros Hp. assert (0 < zlen p) by (destruct p; [done|cbn; lia]). unfold BuildLpsTable. destruct (Z.eqb_spec (zlen p) 0); [lia|].
  rewrite Nat2Z.id. destruct (wr_one (replicate (length p) 0) 0 0) as (l'&Hw&Hl'); [rewrite length_replicate; lia|].
  rewrite length_replicate in Hl'. rewrite Hw. cbn [mbind option_bind].
  assert (forall k, border 1 k -> k = 0) as H1 by (intros k [Hk _]; lia).
  apply lps_loop_ok; [lia| |by apply border_zero|done| |lia].
  - intros k Hk. exists 0. assert (k = 1) as -> by lia. erewrite rd_wr_one by (done || lia). rewrite decide_True by lia.
    split; [done|]. split; [by apply border_zero|]. intros q Hq. by rewrite (H1 q Hq).
  - intros q Hq Hb. pose proof (proj1 Hb). lia.
Qed.

(** ** The search *)
Variable d : bytes.
Definition partial (i j : Z) : Prop := forall t, 0 <= t < j -> rd p t = rd d (i - j + t).

Lemma kmp_loop_ok lps start fuel i j :
  table_ok lps (zlen p) -> 0 <= start <= i - j -> 0 <= j < zlen p -> i <= zlen d -> partial i j ->
  (forall s, start <= s < i - j -> ~ occurs d p s) ->
  2 * zlen d - (2 * i - j) <= Z.of_nat fuel ->
  exists r, kmp_loop fuel d (zlen d) p (zlen p) lps i j = Some r /\
    ((occurs d p r /\ start <= r /\ forall s, start <= s < r -> ~ occurs d p s) \/
     (r = NO_POS /\ forall s, start <= s -> ~ occurs d p s)).
Proof.
  intros Ht. revert i j. induction fuel as [|fuel IH]; intros i j Hs Hj Hi Hm Hn Hf.
  - cbn. destruct (Z.ltb_spec i (zlen d)); [lia|]. exists NO_POS. split; [done|]. right. split; [done|].
    intros s Hs' Ho. apply (Hn s); [|done]. destruct Ho as (_&?&_). lia.
  - cbn [kmp_loop]. destruct (Z.ltb_spec i (zlen d)) as [Hid|]; cycle 1.
    { exists NO_POS. split; [done|]. right. split; [done|].
      intros s Hs' Ho. apply (Hn s); [|done]. destruct Ho as (_&?&_). lia. }
    destruct (rd_is_Some p j) as [a Ha]; [lia|]. destruct (rd_is_Some d i) as [b Hb]; [lia|]. rewrite Ha, Hb. cbn.
    (* a mismatch after [j] bytes *)
    assert (forall i j, 0 <= start <= i - j -> 0 <= j < zlen p -> i < zlen d -> partial i j ->
      (forall s, start <= s < i - j -> ~ occurs d p s) -> rd p j <> rd d i -> 2 * zlen d - (2 * i - j) <= Z.of_nat (S fuel) ->
      exists r, (if negb (j =? 0) then q ← rd lps (j - 1); kmp_loop fuel d (zlen d) p (zlen p) lps i q
                 else kmp_loop fuel d (zlen d) p (zlen p) lps (i + 1) j) = Some r /\
        ((occurs d p r /\ start <= r /\ forall s, start <= s < r -> ~ occurs d p s) \/
         (r = NO_POS /\ forall s, start <= s -> ~ occurs d p s))) as Hmiss.
    { clear i j Hs Hj Hi Hm Hn Hf Hid a Ha b Hb. intros i j Hs Hj Hi Hm Hn Hne Hf. destruct (Z.eqb_spec j 0) as [->|Hj0]; cbn [negb].
      - apply IH; [lia|lia|lia| | |lia].
        + intros t Ht'. lia.
        + intros s Hs' Ho. destruct (decide (s = i)) as [->|]; [|by apply (Hn s); [lia|]].
          destruct Ho as (_&_&Ho). apply Hne. rewrite Ho by lia. f_equal. lia.
      - destruct (Ht j ltac:(lia)) as (q&Hq&[[Hq0 Hbq] Hlq]). rewrite Hq. cbn. apply IH; [lia|lia|lia| | |lia].
        + intros t Ht'. rewrite Hbq by lia. rewrite Hm by lia. f_equal. lia.
        + intros s Hs' Ho. destruct (decide (s < i - j)); [by apply (Hn s); [lia|]|]. destruct Ho as (_&_&Ho).
          destruct (decide (s = i - j)) as [->|].
          * apply Hne. rewrite Ho by lia. f_equal. lia.
          * enough (i - s <= q) by lia. apply Hlq. split; [lia|]. intros t Ht'. rewrite Ho by lia. rewrite Hm by lia. f_equal. lia. }
    destruct (Z.eqb_spec a b) as [->|Hne].
    + assert (partial (i + 1) (j + 1)) as Hm'.
      { intros t Ht'. destruct (decide (t = j)) as [->|]; [rewrite Ha, <- Hb; f_equal; lia|]. rewrite Hm by lia. f_equal. lia. }
      destruct (Z.eqb_spec (j + 1) (zlen p)) as [Ej|Ej].
      * eexists. split; [done|]. left. split; [|split; [lia|]].
        -- split; [lia|]. split; [lia|]. intros t Ht'. rewrite Hm' by lia. f_equal.
        -- intros s Hs'. apply Hn. lia.
      * destruct (Z.ltb_spec (i + 1) (zlen d)) as [Hi'|]; cbn.
        -- destruct (rd_is_Some p (j + 1)) as [a' Ha']; [lia|]. destruct (rd_is_Some d (i + 1)) as [b' Hb']; [lia|].
           rewrite Ha', Hb'. cbn. destruct (Z.eqb_spec a' b') as [E|E]; cbn.
           ++ apply IH; [lia|lia|lia|done| |lia]. intros s Hs'. apply Hn. lia.
           ++ apply Hmiss; [lia|lia|lia|done| |congruence|lia]. intros s Hs'. apply Hn. lia.
        -- apply IH; [lia|lia|lia|done| |lia]. intros s Hs'. apply Hn. lia.
    + destruct (Z.eqb_spec j (zlen p)); [lia|]. destruct (Z.ltb_spec i (zlen d)); [|lia]. cbn. rewrite Ha, Hb. cbn.
      destruct (Z.eqb_spec a b); [done|]. cbn. apply Hmiss; [lia|lia|lia|done|done|congruence|lia].
Qed.

Lemma kmp_loop_search lps start :
  p <> [] -> table_ok lps (zlen p) -> 0 <= start <= zlen d ->
  kmp_loop (2 * Z.to_nat (zlen d)) d (zlen d) p (zlen p) lps start 0 = Some (search d p start).
Proof.
  intros Hp Ht Hs. assert (0 < zlen p) by (destruct p; [done|cbn; lia]).
  destruct (kmp_loop_ok lps start (2 * Z.to_nat (zlen d)) start 0) as (r&->&Hr);
    [done|lia|lia|lia|intros t Ht'; lia|intros; lia|lia|]. f_equal. symmetry. unfold search.
  destruct Hr as [(Ho&Hle&Hf)|(->&Hf)].
  - apply find_occurrence_hit; [lia| |done|done|done]. destruct Ho as (_&?&_). lia.
  - apply find_occurrence_miss; [lia|done|done].
Qed.
End borders.

(** What a search answers: the first occurrence from [start] on, unless memory runs out. *)
Lemma wp_KmpSearch {W} `{World W} (d p : bytes) start (w : W) (Q : Z -> W -> Prop) :
  p <> [] -> 0 <= start -> (forall w', Q (search d p start) w') -> (forall w', ~ memory_suffices W -> Q NO_POS w') ->
  wp (KmpSearch (Some d) (zlen d) p (zlen p) start) w Q.
Proof.
  intros Hp Hs HQ HF. assert (0 < zlen p) by (destruct p; [done|cbn; lia]). unfold KmpSearch.
  destruct (Z.eqb_spec (zlen p) 0); [lia|].
  assert (zlen d < zlen p \/ zlen d <= start -> search d p start = NO_POS) as Hmiss.
  { intros Hor. apply find_occurrence_miss; [lia|done|]. intros s Hs' (_&?&_). lia. }
  destruct (Z.ltb_spec (zlen d) (zlen p)); [apply wp_ret; rewrite <- Hmiss by lia; apply HQ|].
  destruct (Z.leb_spec (zlen d) start); [apply wp_ret; rewrite <- Hmiss by lia; apply HQ|].
  apply wp_bind, wp_alloc_either; intros w' **; cbn [negb]; [|by apply wp_ret, HF].
  destruct (BuildLpsTable_ok p Hp) as (lps&Hl&Ht). rewrite Hl. apply wp_bind. eapply wp_opt; [done|].
  apply wp_bind. eapply wp_opt; [done|]. rewrite kmp_loop_search by (done || lia). apply HQ.
Qed.
