(* ===== verification/DevdReport.v ===== *)
(** * Device discovery: parsing the reports of advertisers

    [services/stack/src/cp/bsl/sle/devd/src/devd_report_parse.c]: the cache that joins an
    advertisement with the scan response that follows it, the two formats of the
    advertised data, the search for the name in the data of the device information
    service.  The list of cached advertisements is the state, the newest first; a pointer
    to one of them is its place in the list, and stays valid until the list changes. *)
From S2P Require Import Prelude SdfBuff SdfErrno SdfContainers CmData DtapEnv DevdSearch.
Import Vector.

Definition MAX_ADV_DATA_LEN : Z := 510.
Definition MIN_ADV_DATA_LEN : Z := 2.
Definition SERVICE_UUID_LEN_16 : Z := 2.
Definition SERVICE_UUID_LEN_128 : Z := 16.
Definition MAX_DEVICE_CACHE : Z := 7.
Definition ADV_FRAME_TYPE_1 : Z := 0.
Definition ADV_FRAME_TYPE_4 : Z := 1.
Definition ADV_CONNECTABLE_IND : Z := 0.
Definition ADV_SCANABLE_IND : Z := 1.
Definition ADV_SCAN_RSP_IND : Z := 3.
Definition DEVD_ADV_DEVICE_INFO_MIN_LEN : Z := 2.
Definition DEVD_DEVICE_INFO_LOCAL_NAME : Z := 6.

Definition ADV_DATA_TYPE_DISCOVERY_LEVEL : Z := 1.
Definition ADV_DATA_TYPE_STANDARD_SERVICE_DATA : Z := 3.
Definition ADV_DATA_TYPE_CUSTOM_SERVICE_DATA : Z := 4.
Definition ADV_DATA_TYPE_COMPLETE_STANDARD_SERVICE_UUIDS : Z := 5.
Definition ADV_DATA_TYPE_INCOMPLETE_STANDARD_SERVICE_UUIDS : Z := 7.
Definition ADV_DATA_TYPE_SHORTENED_LOCAL_NAME : Z := 10.
Definition ADV_DATA_TYPE_COMPLETE_LOCAL_NAME : Z := 11.
Definition ADV_DATA_TYPE_TX_POWER : Z := 12.
Definition ADV_DATA_TYPE_MESH_INFO : Z := 16.
Definition ADV_DATA_TYPE_MANUFACTURER_DATA : Z := 255.

Definition ADV_OLD_DATA_TYPE_DISCOVERY_LEVEL : Z := 1.
Definition ADV_OLD_DATA_TYPE_INCOMPLETE_STANDARD_SERVICE_UUIDS : Z := 2.
Definition ADV_OLD_DATA_TYPE_COMPLETE_STANDARD_SERVICE_UUIDS : Z := 3.
Definition ADV_OLD_DATA_TYPE_INCOMPLETE_CUSTOMIZE_SERVICE_UUIDS : Z := 6.
Definition ADV_OLD_DATA_TYPE_COMPLETE_CUSTOMIZE_SERVICE_UUIDS : Z := 7.
Definition ADV_OLD_DATA_TYPE_SHORTENED_LOCAL_NAME : Z := 8.
Definition ADV_OLD_DATA_TYPE_COMPLETE_LOCAL_NAME : Z := 9.
Definition ADV_OLD_DATA_TYPE_TX_POWER : Z := 10.
Definition ADV_OLD_DATA_TYPE_STANDARD_SERVICE_DATA : Z := 22.
Definition ADV_OLD_DATA_TYPE_APPEARANCE : Z := 25.
Definition ADV_OLD_DATA_TYPE_CUSTOM_SERVICE_DATA : Z := 33.

Definition g_baseUuid : bytes := [55; 190; 168; 128; 252; 112; 17; 234; 183; 32; 0; 0; 0; 0; 0; 0].
Definition g_disUuid : bytes := [55; 190; 168; 128; 252; 112; 17; 234; 183; 32; 0; 0; 0; 0; 6; 9].
Definition g_pencilAdvertstingData1 : bytes := [3; 25; 199; 3; 15; 22; 238; 253].
Definition g_pencilAdvertstingData2 : bytes :=
  [18; 9; 72; 85; 65; 87; 69; 73; 32; 77; 45; 80; 101; 110; 99; 105; 108; 32; 51].

(** ** Data *)

(** [NLSTK_VariableData_S]; the block is [None] for a null pointer. *)
Record NLSTK_VariableData := mk_var { v_len : Z; v_data : option bytes }.
#[export] Instance eta_var : Eta NLSTK_VariableData := fun v => mk_var (v_len v) (v_data v).

Record NLSTK_DevdAdvServiceData := mk_service { sd_uuid : bytes; sd_len : Z; sd_data : bytes }.
Record NLSTK_DevdAdvServiceUuid := mk_uuid { su_uuid : bytes }.
Record NLSTK_DevdAdvManufacturerData := mk_maker { md_id : Z; md_len : Z; md_data : bytes }.

Record NLSTK_DevdAdvResult := mk_result {
  scannerIds : option (SDF_Vector Z);
  r_addr : SLE_Addr;
  r_rssi : Z;
  r_txPower : Z;
  r_frameType : Z;
  r_discoveryLevel : Z;
  r_isConnectable : bool;
  r_isPencil : bool;
  localName : NLSTK_VariableData;
  meshInfo : NLSTK_VariableData;
  serviceDataList : SDF_Vector NLSTK_DevdAdvServiceData;
  serviceUuids : SDF_Vector NLSTK_DevdAdvServiceUuid;
  manufacturerDataList : SDF_Vector NLSTK_DevdAdvManufacturerData;
  advData : NLSTK_VariableData
}.
#[export] Instance eta_result : Eta NLSTK_DevdAdvResult := fun r =>
  mk_result (scannerIds r) (r_addr r) (r_rssi r) (r_txPower r) (r_frameType r) (r_discoveryLevel r) (r_isConnectable r)
    (r_isPencil r) (localName r) (meshInfo r) (serviceDataList r) (serviceUuids r) (manufacturerDataList r) (advData r).

Record AdvDataCache := mk_cache { ch_addr : SLE_Addr; ch_len : Z; ch_data : option bytes }.
#[export] Instance eta_cache : Eta AdvDataCache := fun c => mk_cache (ch_addr c) (ch_len c) (ch_data c).

(** [NLSTK_DevdAdvReportInfo_S], with the two fields of its extended parameters that the
    parser looks at. *)
Record NLSTK_DevdAdvReportInfo := mk_report {
  rp_addrType : Z;
  rp_addr : bytes;
  rp_rssi : Z;
  rp_eventType : Z;
  rp_primFrameType : Z;
  rp_dataLength : Z;
  rp_data : bytes
}.

(** The conversion to [int8_t]. *)
Definition s8 (z : Z) : Z := if u8 z <? 128 then u8 z else u8 z - 256.

(** ** Vectors of pointers to structures

    The first element that satisfies a test; a null element would be dereferenced. *)
Fixpoint vec_first_from {A} (p : A -> bool) (v : SDF_Vector A) (i : Z) (n : nat) : option (option A) :=
  match n with
  | O => Some None
  | Datatypes.S n =>
      a ← SDF_VectorElementAt v i;
      if p a then Some (Some a) else vec_first_from p v (i + 1) n
  end.
Definition vec_first {A} (p : A -> bool) (v : SDF_Vector A) : option (option A) :=
  vec_first_from p v 0 (Z.to_nat (vsize v)).

Definition same_bytes (a b : bytes) : bool := bool_decide (a = b).

(** ** The parser *)
Section parse.
Context {W : Type} `{World W}.

(** [SDF_VectorEmplaceBack]; a full vector asks for memory. *)
Definition emplace_back {A} (v : SDF_Vector A) (a : A) : ST W (bool * SDF_Vector A) :=
  let! ok := (if capacity v =? vsize v then alloc_ok else st_ret true) in
  st_ret (SDF_VectorEmplaceBack ok v (Some a)).
Definition new_vector {A} (hasDtor : bool) : ST W (option (SDF_Vector A)) :=
  let! ok1 := alloc_ok in
  if negb ok1 then st_ret None
  else let! ok2 := alloc_ok in st_ret (SDF_CreateVector ok1 ok2 hasDtor).

Implicit Types result : NLSTK_DevdAdvResult.

(** [data] is the block the report is in, [p] the place a pointer into it points to. *)
Definition SetDiscoveryLevel result (len : Z) (data : bytes) (p : Z) : ST W NLSTK_DevdAdvResult :=
  if negb (len =? 1) then st_ret result
  else
    let! v := st_opt (rd data p) in
    st_ret (result <| r_discoveryLevel := v |>).

Definition AddServiceData result (serviceData : NLSTK_DevdAdvServiceData) : ST W (bool * NLSTK_DevdAdvResult) :=
  let! tmpData := st_opt (vec_first (fun t => same_bytes (sd_uuid t) (sd_uuid serviceData)) (serviceDataList result)) in
  match tmpData with
  | Some _ => st_ret (false, result)
  | None =>
      let! (added, v) := emplace_back (serviceDataList result) serviceData in
      st_ret (added, result <| serviceDataList := v |>)
  end.

(** The identifier of a service at [p]: short ones are written into the base identifier. *)
Definition read_uuid (data : bytes) (p uuidLen : Z) : option bytes :=
  if uuidLen =? SERVICE_UUID_LEN_16 then
    b16 ← rd data p;
    b15 ← rd data (p + 1);
    Some (<[14%nat := b15]> (<[15%nat := b16]> g_baseUuid))
  else rds data p SERVICE_UUID_LEN_128.

Definition SetServiceData result (len : Z) (data : bytes) (p uuidLen : Z) : ST W NLSTK_DevdAdvResult :=
  if negb (uuidLen <? len) then st_ret result
  else
    let dataLen := u8 (len - uuidLen) in
    let! ok := alloc_ok in
    if negb ok then st_ret result
    else
      let! uuid := st_opt (read_uuid data p uuidLen) in
      let! content := st_opt (if negb (dataLen =? 0) then rds data (p + uuidLen) dataLen else Some []) in
      let! (_, result) := AddServiceData result (mk_service uuid dataLen content) in
      st_ret result.

Definition AddServiceUuid result (serviceUuid : NLSTK_DevdAdvServiceUuid) : ST W (bool * NLSTK_DevdAdvResult) :=
  let! tmpUuid := st_opt (vec_first (fun t => same_bytes (su_uuid t) (su_uuid serviceUuid)) (serviceUuids result)) in
  match tmpUuid with
  | Some _ => st_ret (false, result)
  | None =>
      let! (added, v) := emplace_back (serviceUuids result) serviceUuid in
      st_ret (added, result <| serviceUuids := v |>)
  end.

Fixpoint uuid_loop (num : nat) result (data : bytes) (payload uuidLen : Z) : ST W NLSTK_DevdAdvResult :=
  match num with
  | O => st_ret result
  | Datatypes.S num =>
      let! ok := alloc_ok in
      if negb ok then st_ret result
      else
        let! uuid := st_opt (read_uuid data payload uuidLen) in
        let! (_, result) := AddServiceUuid result (mk_uuid uuid) in
        uuid_loop num result data (payload + uuidLen) uuidLen
  end.

Definition SetServiceUuid result (len : Z) (data : bytes) (p uuidLen : Z) : ST W NLSTK_DevdAdvResult :=
  if negb (len mod uuidLen =? 0) then st_ret result
  else uuid_loop (Z.to_nat (u8 (len / uuidLen))) result data p uuidLen.

(** The old name is freed before the new one is allocated; its length stays when that fails. *)
Definition SetLocalName result (len : Z) (data : bytes) (p : Z) : ST W NLSTK_DevdAdvResult :=
  if negb (0 <? len) then st_ret result
  else
    let! ok := alloc_ok in
    if negb ok then st_ret (result <| localName ::= fun v => v <| v_data := None |> |>)
    else
      let! name := st_opt (rds data p len) in
      st_ret (result <| localName := mk_var len (Some name) |>).

Definition SetTxPower result (len : Z) (data : bytes) (p : Z) : ST W NLSTK_DevdAdvResult :=
  if negb (len =? 1) then st_ret result
  else
    let! v := st_opt (rd data p) in
    st_ret (result <| r_txPower := s8 v |>).

Definition SetMeshInfo result (len : Z) (data : bytes) (p : Z) : ST W NLSTK_DevdAdvResult :=
  if negb (0 <? len) then st_ret result
  else
    let! ok := alloc_ok in
    if negb ok then st_ret (result <| meshInfo ::= fun v => v <| v_data := None |> |>)
    else
      let! info := st_opt (rds data p len) in
      st_ret (result <| meshInfo := mk_var len (Some info) |>).

Definition AddManufacturerData result (manufacturerData : NLSTK_DevdAdvManufacturerData) :
    ST W (bool * NLSTK_DevdAdvResult) :=
  let! tmpData := st_opt (vec_first (fun t => md_id t =? md_id manufacturerData) (manufacturerDataList result)) in
  match tmpData with
  | Some _ => st_ret (false, result)
  | None =>
      let! (added, v) := emplace_back (manufacturerDataList result) manufacturerData in
      st_ret (added, result <| manufacturerDataList := v |>)
  end.

Definition SetManufacturerData result (len : Z) (data : bytes) (p : Z) : ST W NLSTK_DevdAdvResult :=
  if negb (2 <? len) then st_ret result
  else
    let dataLen := u8 (len - 2) in
    let! ok := alloc_ok in
    if negb ok then st_ret result
    else
      let! manufacturerId := st_opt (ld16 data p) in
      let! content := st_opt (if negb (dataLen =? 0) then rds data (p + 2) dataLen else Some []) in
      let! (_, result) := AddManufacturerData result (mk_maker manufacturerId dataLen content) in
      st_ret result.

Definition BuildAdvData result (type len : Z) (data : bytes) (p : Z) : ST W NLSTK_DevdAdvResult :=
  if len =? 0 then st_ret result
  else if type =? ADV_DATA_TYPE_DISCOVERY_LEVEL then SetDiscoveryLevel result len data p
  else if type =? ADV_DATA_TYPE_STANDARD_SERVICE_DATA then SetServiceData result len data p SERVICE_UUID_LEN_16
  else if type =? ADV_DATA_TYPE_CUSTOM_SERVICE_DATA then SetServiceData result len data p SERVICE_UUID_LEN_128
  else if ((type =? ADV_DATA_TYPE_COMPLETE_STANDARD_SERVICE_UUIDS)
           || (type =? ADV_DATA_TYPE_INCOMPLETE_STANDARD_SERVICE_UUIDS))%bool
    then SetServiceUuid result len data p SERVICE_UUID_LEN_16
  else if ((type =? ADV_DATA_TYPE_SHORTENED_LOCAL_NAME) || (type =? ADV_DATA_TYPE_COMPLETE_LOCAL_NAME))%bool
    then SetLocalName result len data p
  else if type =? ADV_DATA_TYPE_TX_POWER then SetTxPower result len data p
  else if type =? ADV_DATA_TYPE_MESH_INFO then SetMeshInfo result len data p
  else if type =? ADV_DATA_TYPE_MANUFACTURER_DATA then SetManufacturerData result len data p
  else st_ret result.

(** The loop over the entries of the device information; the index moves by two at least. *)
Fixpoint dis_loop (fuel : nat) result (dis : NLSTK_DevdAdvServiceData) (i : Z) : ST W NLSTK_DevdAdvResult :=
  if i + DEVD_ADV_DEVICE_INFO_MIN_LEN <? sd_len dis then
    match fuel with
    | O => st_ub
    | Datatypes.S fuel =>
        let! type := st_opt (rd (sd_data dis) i) in
        let! length := st_opt (rd (sd_data dis) (i + 1)) in
        let i := i + 2 in
        if ((length =? 0) || (sd_len dis <? i + length))%bool then st_ret result
        else if type =? DEVD_DEVICE_INFO_LOCAL_NAME then
          let result := match v_data (localName result) with
                        | Some _ => result <| localName := mk_var 0 None |>
                        | None => result
                        end in
          let! ok := alloc_ok in
          if negb ok then st_ret result
          else
            let! name := st_opt (rds (sd_data dis) i length) in
            st_ret (result <| localName := mk_var length (Some name) |>)
        else dis_loop fuel result dis (i + length)
    end
  else st_ret result.

Definition DevdParseDisName result : ST W NLSTK_DevdAdvResult :=
  let! dis := st_opt (vec_first (fun t => same_bytes (sd_uuid t) g_disUuid) (serviceDataList result)) in
  match dis with
  | None => st_ret result
  | Some dis => if sd_len dis =? 0 then st_ret result else dis_loop (Z.to_nat (sd_len dis)) result dis 0
  end.

Fixpoint parse_loop (fuel : nat) result (data : bytes) (dataLength parsePos payload : Z) : ST W NLSTK_DevdAdvResult :=
  if parsePos <? dataLength then
    match fuel with
    | O => st_ub
    | Datatypes.S fuel =>
        if dataLength <? parsePos + MIN_ADV_DATA_LEN then st_ret result
        else
          let! type := st_opt (rd data payload) in
          let! len := st_opt (rd data (payload + 1)) in
          let payload := payload + 2 in
          let parsePos := u16 (parsePos + MIN_ADV_DATA_LEN) in
          if dataLength <? parsePos + len then st_ret result
          else
            let! result := BuildAdvData result type len data payload in
            parse_loop fuel result data dataLength (u16 (parsePos + len)) (payload + len)
    end
  else st_ret result.

Definition DevdParseAdvReport result (data : option bytes) (dataLength : Z) : ST W (bool * NLSTK_DevdAdvResult) :=
  match data with
  | None => st_ret (false, result)
  | Some data =>
      if MAX_ADV_DATA_LEN <? dataLength then st_ret (false, result)
      else
        let! result := parse_loop (Z.to_nat dataLength) result data dataLength 0 0 in
        let! result := DevdParseDisName result in
        st_ret (true, result)
  end.

Definition BuildAdvDataOld result (type len : Z) (data : bytes) (p : Z) : ST W NLSTK_DevdAdvResult :=
  if len =? 0 then st_ret result
  else if type =? ADV_OLD_DATA_TYPE_DISCOVERY_LEVEL then SetDiscoveryLevel result len data p
  else if type =? ADV_OLD_DATA_TYPE_STANDARD_SERVICE_DATA then SetServiceData result len data p SERVICE_UUID_LEN_16
  else if type =? ADV_OLD_DATA_TYPE_CUSTOM_SERVICE_DATA then SetServiceData result len data p SERVICE_UUID_LEN_128
  else if ((type =? ADV_OLD_DATA_TYPE_INCOMPLETE_STANDARD_SERVICE_UUIDS)
           || (type =? ADV_OLD_DATA_TYPE_COMPLETE_STANDARD_SERVICE_UUIDS))%bool
    then SetServiceUuid result len data p SERVICE_UUID_LEN_16
  else if ((type =? ADV_OLD_DATA_TYPE_INCOMPLETE_CUSTOMIZE_SERVICE_UUIDS)
           || (type =? ADV_OLD_DATA_TYPE_COMPLETE_CUSTOMIZE_SERVICE_UUIDS))%bool
    then SetServiceUuid result len data p SERVICE_UUID_LEN_128
  else if ((type =? ADV_OLD_DATA_TYPE_SHORTENED_LOCAL_NAME) || (type =? ADV_OLD_DATA_TYPE_COMPLETE_LOCAL_NAME))%bool
    then SetLocalName result len data p
  else if type =? ADV_OLD_DATA_TYPE_TX_POWER then SetTxPower result len data p
  else if type =? ADV_OLD_DATA_TYPE_APPEARANCE then st_ret result
  else if type =? ADV_DATA_TYPE_MANUFACTURER_DATA then SetManufacturerData result len data p
  else st_ret result.

Fixpoint parse_old_loop (fuel : nat) result (data : bytes) (dataLength parsePos payload : Z) :
    ST W (bool * NLSTK_DevdAdvResult) :=
  if parsePos <? dataLength then
    match fuel with
    | O => st_ub
    | Datatypes.S fuel =>
        if dataLength <? parsePos + MIN_ADV_DATA_LEN then st_ret (true, result)
        else
          let! len := st_opt (rd data payload) in
          let payload := payload + 1 in
          if len =? 0 then st_ret (false, result)
          else
            let parsePos := u16 (parsePos + 1) in
            if dataLength <? parsePos + len then st_ret (true, result)
            else
              let! type := st_opt (rd data payload) in
              let payload := payload + 1 in
              let parsePos := u16 (parsePos + 1) in
              if 1 <? len then
                let! result := BuildAdvDataOld result type (u8 (len - 1)) data payload in
                parse_old_loop fuel result data dataLength (u16 (parsePos + (len - 1))) (payload + (len - 1))
              else parse_old_loop fuel result data dataLength parsePos payload
    end
  else st_ret (true, result).

Definition DevdParseAdvReportOld result (data : option bytes) (dataLength : Z) : ST W (bool * NLSTK_DevdAdvResult) :=
  match data with
  | None => st_ret (false, result)
  | Some data =>
      if MAX_ADV_DATA_LEN <? dataLength then st_ret (false, result)
      else parse_old_loop (Z.to_nat dataLength) result data dataLength 0 0
  end.

Definition CreateAdvResult : ST W (option NLSTK_DevdAdvResult) :=
  let! ok := alloc_ok in
  if negb ok then st_ret None
  else
    let! services := new_vector true in
    match services with
    | None => st_ret None
    | Some services =>
        let! uuids := new_vector true in
        match uuids with
        | None => st_ret None
        | Some uuids =>
            let! makers := new_vector true in
            match makers with
            | None => st_ret None
            | Some makers =>
                st_ret (Some (mk_result None (mk_addr 0 [0; 0; 0; 0; 0; 0]) 0 0 0 0 false false (mk_var 0 None) (mk_var 0 None)
                                services uuids makers (mk_var 0 None)))
            end
        end
    end.

(** What follows the parser: the advertised data are copied into the result. *)
Definition copy_adv_data result (cache : AdvDataCache) : ST W (option NLSTK_DevdAdvResult) :=
  if ch_len cache =? 0 then st_ret None
  else
    let! ok := alloc_ok in
    if negb ok then st_ret None
    else
      let! data := st_opt (data ← ch_data cache; rds data 0 (ch_len cache)) in
      st_ret (Some (result <| advData := mk_var (ch_len cache) (Some data) |>)).

Definition DevdGetParsedAdvResult (advType frameType rssi : Z) (addr : SLE_Addr) (cache : AdvDataCache) :
    ST W (option NLSTK_DevdAdvResult) :=
  let! created := CreateAdvResult in
  match created with
  | None => st_ret None
  | Some result =>
      let result := result <| r_addr := addr |> <| r_rssi := s8 rssi |> <| r_frameType := frameType |>
                           <| r_isConnectable := negb (Z.land advType (Z.shiftl 1 ADV_CONNECTABLE_IND) =? 0) |> in
      let! pos1 := KmpSearchSimple (ch_data cache) (ch_len cache) g_pencilAdvertstingData1 (zlen g_pencilAdvertstingData1) in
      let! pencil := (if negb (pos1 =? -1) then st_ret true
                      else
                        let! pos2 := KmpSearchSimple (ch_data cache) (ch_len cache) g_pencilAdvertstingData2
                                       (zlen g_pencilAdvertstingData2) in
                        st_ret (negb (pos2 =? -1))) in
      let! (parsed, result) := (if pencil : bool
                                 then DevdParseAdvReportOld (result <| r_isPencil := true |>) (ch_data cache) (ch_len cache)
                                 else DevdParseAdvReport result (ch_data cache) (ch_len cache)) in
      if negb parsed then st_ret None else copy_adv_data result cache
  end.
End parse.

(** ** The cache *)
Section cache.
Context {W : Type} `{World W}.
Notation M := (ST (list AdvDataCache * W)).

Definition cache_list : M (list AdvDataCache) := st_gets fst.
Definition set_list (f : list AdvDataCache -> list AdvDataCache) : M unit := st_modify (fun s => (f s.1, s.2)).
Definition cache_at (i : nat) : M AdvDataCache := let! l := cache_list in st_opt (l !! i).

Definition DevdDataCacheInit : M unit := set_list (fun _ => []).
Definition DevdDataCacheDeInit : M unit := set_list (fun _ => []).

Definition FindAdvDataCache (addr : SLE_Addr) : M (option nat) :=
  let! l := cache_list in st_ret (fst <$> list_find (fun c => ch_addr c = addr) l).

(** The new entry is put in front, for the last one when the list is full. *)
Definition AddAdvDataCache (addr : SLE_Addr) (data : bytes) (dataLen : Z) : M (option nat) :=
  if dataLen =? 0 then st_ret None
  else
    let! found := FindAdvDataCache addr in
    let! cache := (match found with
                   | Some i => st_ret (Some i)
                   | None =>
                       let! ok := alloc_ok in
                       if negb ok then st_ret None
                       else
                         let! l := cache_list in
                         (if MAX_DEVICE_CACHE <=? zlen l then set_list (fun l => take (length l - 1) l) else st_ret tt) ;;!
                         set_list (cons (mk_cache (mk_addr 0 [0; 0; 0; 0; 0; 0]) 0 None)) ;;!
                         st_ret (Some 0%nat)
                   end) in
    match cache with
    | None => st_ret None
    | Some i =>
        let! ok := alloc_ok in
        if negb ok then set_list (delete i) ;;! st_ret None
        else
          let! copy := st_opt (rds data 0 dataLen) in
          let! cache := cache_at i in
          set_list (<[i := cache <| ch_len := dataLen |> <| ch_data := Some copy |> <| ch_addr := addr |>]>) ;;!
          st_ret (Some i)
    end.

Definition AppendAdvDataCache (addr : SLE_Addr) (data : bytes) (dataLen : Z) : M (option nat) :=
  let! found := FindAdvDataCache addr in
  match found with
  | None => if dataLen =? 0 then st_ret None else AddAdvDataCache addr data dataLen
  | Some i =>
      if dataLen =? 0 then st_ret (Some i)
      else
        let! cache := cache_at i in
        let newLen := u16 (ch_len cache + dataLen) in
        let! ok := alloc_ok in
        if negb ok then set_list (delete i) ;;! st_ret None
        else
          let! old := st_opt (old ← ch_data cache; rds old 0 (ch_len cache)) in
          let! more := st_opt (rds data 0 dataLen) in
          let! newData := st_opt (newData ← wr (replicate (Z.to_nat newLen) 0) 0 old; wr newData (ch_len cache) more) in
          set_list (<[i := cache <| ch_len := newLen |> <| ch_data := Some newData |>]>) ;;!
          st_ret (Some i)
  end.

Definition ClearAdvDataCache (addr : SLE_Addr) : M unit :=
  let! found := FindAdvDataCache addr in
  match found with
  | None => st_ret tt
  | Some i => set_list (delete i)
  end.

(** A report on its own: its data are copied into a block that is not in the list. *)
Definition report_single (advType frameType rssi : Z) (addr : SLE_Addr) (report : NLSTK_DevdAdvReportInfo) :
    M (option NLSTK_DevdAdvResult) :=
  if rp_dataLength report =? 0 then st_ret None
  else
    let! ok1 := alloc_ok in
    if negb ok1 then st_ret None
    else
      let! ok2 := alloc_ok in
      if negb ok2 then st_ret None
      else
        let! data := st_opt (rds (rp_data report) 0 (rp_dataLength report)) in
        over (DevdGetParsedAdvResult advType frameType rssi addr (mk_cache (mk_addr 0 [0; 0; 0; 0; 0; 0]) (rp_dataLength report) (Some data))).

Definition DevdAdvDataReport (report : option NLSTK_DevdAdvReportInfo) : M (option NLSTK_DevdAdvResult) :=
  match report with
  | None => st_ret None
  | Some report =>
      let advType := rp_eventType report in
      let frameType := rp_primFrameType report in
      let isScannable := negb (Z.land advType (Z.shiftl 1 ADV_SCANABLE_IND) =? 0) in
      let isScanRsp := negb (Z.land advType (Z.shiftl 1 ADV_SCAN_RSP_IND) =? 0) in
      let addr := mk_addr (rp_addrType report) (rp_addr report) in
      if ((frameType =? ADV_FRAME_TYPE_1) && (isScannable || isScanRsp))%bool then
        if negb isScanRsp then
          AddAdvDataCache addr (rp_data report) (rp_dataLength report) ;;! st_ret None
        else
          let! cache := AppendAdvDataCache addr (rp_data report) (rp_dataLength report) in
          match cache with
          | None => st_ret None
          | Some i =>
              let! cache := cache_at i in
              let! result := over (DevdGetParsedAdvResult advType frameType (rp_rssi report) addr cache) in
              ClearAdvDataCache addr ;;!
              st_ret result
          end
      else report_single advType frameType (rp_rssi report) addr report
  end.
End cache.
