(* ===== verification/DevdFilter.v ===== *)
(** * Device discovery: scan filters

    [services/stack/src/cp/bsl/sle/devd/src/devd_scan_filter.c], the rules a report has to
    satisfy, and the part of [devd_scan_util.c] that checks and copies filters.  A filter
    is known by its value: nobody else writes to one. *)
From S2P Require Import Prelude SdfBuff SdfErrno SdfContainers CmData DtapEnv DevdSearch DevdReport.
Import Vector.

Record NLSTK_DevdScanFilter := mk_filter {
  hasAddr : bool;
  f_addr : SLE_Addr;
  f_name : NLSTK_VariableData;
  hasServiceUuid : bool;
  serviceUuid : bytes;
  hasServiceUuidMask : bool;
  serviceUuidMask : bytes;
  hasSolicitationUuid : bool;
  serviceSolicitationUuid : bytes;
  hasSolicitationUuidMask : bool;
  serviceSolicitationUuidMask : bytes;
  f_serviceData : NLSTK_VariableData;
  serviceDataMask : NLSTK_VariableData;
  manufacturerId : Z;
  manufacturerData : NLSTK_VariableData;
  manufacturerDataMask : NLSTK_VariableData;
  hasRssiThreshold : bool;
  rssiThreshold : Z;
  isSensorHubChannel : bool;
  advFrameType : Z;
  meshInfoReport : bool;
  filterIndex : Z;
  f_action : Z;
  isNoFilter : bool
}.
#[export] Instance eta_filter : Eta NLSTK_DevdScanFilter := fun f =>
  mk_filter (hasAddr f) (f_addr f) (f_name f) (hasServiceUuid f) (serviceUuid f) (hasServiceUuidMask f) (serviceUuidMask f)
    (hasSolicitationUuid f) (serviceSolicitationUuid f) (hasSolicitationUuidMask f) (serviceSolicitationUuidMask f)
    (f_serviceData f) (serviceDataMask f) (manufacturerId f) (manufacturerData f) (manufacturerDataMask f)
    (hasRssiThreshold f) (rssiThreshold f) (isSensorHubChannel f) (advFrameType f) (meshInfoReport f) (filterIndex f)
    (f_action f) (isNoFilter f).

Definition base_uuid : bytes := [55; 190; 168; 128; 252; 112; 17; 234; 183; 32; 0; 0; 0; 0; 0; 0].

(** A loop over [n] bytes from [i] on that stops at the first one that fails a test. *)
Fixpoint all_bytes (n : nat) (i : Z) (test : Z -> option bool) : option bool :=
  match n with
  | O => Some true
  | Datatypes.S n => ok ← test i; if (ok : bool) then all_bytes n (i + 1) test else Some false
  end.

(** [memcmp(a, b, len) == 0]; a null pointer is dereferenced. *)
Definition same_block (a b : option bytes) (len : Z) : option bool :=
  a ← a; b ← b; a ← rds a 0 len; b ← rds b 0 len; Some (same_bytes a b).

Section filters.
Context {W : Type} `{World W}.
Implicit Types (result : NLSTK_DevdAdvResult) (filter : NLSTK_DevdScanFilter).

(** A loop over the elements of a vector that ends at the first one that passes. *)
Fixpoint vec_any_from {A} (test : A -> ST W bool) (v : SDF_Vector A) (i : Z) (n : nat) : ST W bool :=
  match n with
  | O => st_ret false
  | Datatypes.S n =>
      let! a := st_opt (SDF_VectorElementAt v i) in
      let! hit := test a in
      if (hit : bool) then st_ret true else vec_any_from test v (i + 1) n
  end.
Definition vec_any {A} (test : A -> ST W bool) (v : SDF_Vector A) : ST W bool :=
  vec_any_from test v 0 (Z.to_nat (vsize v)).

Definition MatchAddr result filter : ST W bool :=
  if negb (hasAddr filter) then st_ret true else st_ret (bool_decide (r_addr result = f_addr filter)).

Definition MatchName result filter : ST W bool :=
  if v_len (f_name filter) =? 0 then st_ret true
  else if v_len (localName result) =? 0 then st_ret false
  else if v_len (localName result) =? v_len (f_name filter)
    then st_opt (same_block (v_data (localName result)) (v_data (f_name filter)) (v_len (f_name filter)))
  else st_ret false.

Definition MatchServiceUuidWithMask (uuid filterUuid mask : bytes) (len : Z) : option bool :=
  all_bytes (Z.to_nat len) 0 (fun i =>
    u ← rd uuid i; m ← rd mask i; f ← rd filterUuid i;
    Some (Z.land u m =? Z.land f m)).

Definition MatchServiceUuid result filter : ST W bool :=
  if negb (hasServiceUuid filter) then st_ret true
  else if vsize (serviceUuids result) =? 0 then st_ret false
  else
    vec_any (fun uuid =>
      if hasServiceUuidMask filter
      then st_opt (MatchServiceUuidWithMask (su_uuid uuid) (serviceUuid filter) (serviceUuidMask filter) SERVICE_UUID_LEN_128)
      else st_opt (same_block (Some (su_uuid uuid)) (Some (serviceUuid filter)) SERVICE_UUID_LEN_128))
      (serviceUuids result).

Definition MatchDataWithMask (data filterData mask : NLSTK_VariableData) : option bool :=
  if v_len data <? v_len filterData then Some false
  else if negb (v_len mask =? v_len filterData) then
    all_bytes (Z.to_nat (v_len filterData)) 0 (fun i =>
      d ← v_data data; a ← rd d i;
      fd ← v_data filterData; b ← rd fd i;
      Some (a =? b))
  else
    all_bytes (Z.to_nat (v_len filterData)) 0 (fun i =>
      d ← v_data data; a ← rd d i;
      md ← v_data mask; m ← rd md i;
      fd ← v_data filterData; b ← rd fd i;
      Some (Z.land a m =? Z.land b m)).

Definition GetUuidLen (uuid : bytes) : option Z :=
  short ← all_bytes (Z.to_nat (SERVICE_UUID_LEN_128 - SERVICE_UUID_LEN_16)) 0 (fun i =>
            u ← rd uuid i; b ← rd base_uuid i; Some (u =? b));
  Some (if (short : bool) then SERVICE_UUID_LEN_16 else SERVICE_UUID_LEN_128).

(** [data] is the block of the variable data; the result is the block after the stores. *)
Definition ParseServiceData (data : bytes) (serviceData : NLSTK_DevdAdvServiceData) (uuidLen : Z) : option bytes :=
  data ← (if uuidLen =? SERVICE_UUID_LEN_16 then
            b16 ← rd (sd_uuid serviceData) 15;
            data ← wr data 0 [b16];
            b15 ← rd (sd_uuid serviceData) 14;
            wr data 1 [b15]
          else
            uuid ← rds (sd_uuid serviceData) 0 SERVICE_UUID_LEN_128;
            wr data 0 uuid);
  content ← rds (sd_data serviceData) 0 (sd_len serviceData);
  wr data uuidLen content.

(** The loop over the service data; it ends with [false] when memory runs out. *)
Fixpoint service_data_loop (n : nat) (i : Z) result filter : ST W bool :=
  match n with
  | O => st_ret false
  | Datatypes.S n =>
      let! serviceData := st_opt (SDF_VectorElementAt (serviceDataList result) i) in
      let! uuidLen := st_opt (GetUuidLen (sd_uuid serviceData)) in
      let len := u16 (sd_len serviceData + uuidLen) in
      let! ok := alloc_ok in
      if negb ok then st_ret false
      else
        let! data := st_opt (ParseServiceData (replicate (Z.to_nat len) 0) serviceData uuidLen) in
        let! hit := st_opt (MatchDataWithMask (mk_var len (Some data)) (f_serviceData filter) (serviceDataMask filter)) in
        if (hit : bool) then st_ret true else service_data_loop n (i + 1) result filter
  end.

Definition MatchServiceData result filter : ST W bool :=
  if v_len (f_serviceData filter) =? 0 then st_ret true
  else if vsize (serviceDataList result) =? 0 then st_ret false
  else service_data_loop (Z.to_nat (vsize (serviceDataList result))) 0 result filter.

Definition MatchManufacturerData result filter : ST W bool :=
  if manufacturerId filter =? 0 then st_ret true
  else if vsize (manufacturerDataList result) =? 0 then st_ret false
  else
    let! found := st_opt (vec_first (fun m => md_id m =? manufacturerId filter) (manufacturerDataList result)) in
    match found with
    | None => st_ret false
    | Some m =>
        if md_len m =? 0 then st_ret true
        else st_opt (MatchDataWithMask (mk_var (md_len m) (Some (md_data m))) (manufacturerData filter) (manufacturerDataMask filter))
    end.

Definition MatchRssi result filter : ST W bool :=
  if negb (hasRssiThreshold filter) then st_ret true else st_ret (rssiThreshold filter <=? r_rssi result).

Definition MatchMeshInfo result filter : ST W bool :=
  if negb (meshInfoReport filter) then st_ret true else st_ret (negb (v_len (meshInfo result) =? 0)).

Fixpoint run_rules (rules : list (NLSTK_DevdAdvResult -> NLSTK_DevdScanFilter -> ST W bool)) result filter : ST W bool :=
  match rules with
  | [] => st_ret true
  | rule :: rules => let! ok := rule result filter in if negb ok then st_ret false else run_rules rules result filter
  end.

Definition matchRules : list (NLSTK_DevdAdvResult -> NLSTK_DevdScanFilter -> ST W bool) :=
  [MatchAddr; MatchName; MatchServiceUuid; MatchServiceData; MatchManufacturerData; MatchRssi; MatchMeshInfo].

Definition IsMatchFilter result filter : ST W bool := run_rules matchRules result filter.

Fixpoint filters_loop (n : nat) (i : Z) result (filters : SDF_Vector NLSTK_DevdScanFilter) : ST W bool :=
  match n with
  | O => st_ret false
  | Datatypes.S n =>
      let! filter := st_opt (SDF_VectorElementAt filters i) in
      if isNoFilter filter then st_ret true
      else if negb (r_frameType result =? advFrameType filter) then st_ret false
      else
        let! hit := IsMatchFilter result filter in
        if (hit : bool) then st_ret true else filters_loop n (i + 1) result filters
  end.

Definition DevdIsMatchFilters (result : option NLSTK_DevdAdvResult) (filters : option (SDF_Vector NLSTK_DevdScanFilter)) :
    ST W bool :=
  match result, filters with
  | Some result, Some filters => filters_loop (Z.to_nat (vsize filters)) 0 result filters
  | _, _ => st_ret false
  end.

(** ** Checks and copies *)

(** [(v.len != 0) ^ (v.data != NULL)] *)
Definition lopsided (v : NLSTK_VariableData) : bool :=
  xorb (negb (v_len v =? 0)) (match v_data v with Some _ => true | None => false end).

Fixpoint legal_loop (n : nat) (i : Z) (filters : list NLSTK_DevdScanFilter) : option bool :=
  match n with
  | O => Some true
  | Datatypes.S n =>
      f ← filters !! Z.to_nat i;
      if (negb (advFrameType f =? ADV_FRAME_TYPE_1) && negb (advFrameType f =? ADV_FRAME_TYPE_4))%bool then Some false
      else if lopsided (f_name f) then Some false
      else if lopsided (f_serviceData f) then Some false
      else if lopsided (serviceDataMask f) then Some false
      else if lopsided (manufacturerData f) then Some false
      else if lopsided (manufacturerDataMask f) then Some false
      else legal_loop n (i + 1) filters
  end.
Definition CheckFiltersLegal (filters : option (list NLSTK_DevdScanFilter)) (filtersNum : Z) : option bool :=
  match filters with
  | None => Some (filtersNum =? 0)
  | Some filters => legal_loop (Z.to_nat filtersNum) 0 filters
  end.

(** A block that was not allocated is [None]. *)
Definition CopyMemoryField (src : option bytes) (srcLen : Z) : ST W (option bytes) :=
  let! ok := alloc_ok in
  if negb ok then st_ret None
  else
    let! copy := st_opt (src ← src; rds src 0 srcLen) in
    st_ret (Some copy).

(** One field of the copy; [None] is the jump to [FAIL]. *)
Definition copy_field (v : NLSTK_VariableData) : ST W (option NLSTK_VariableData) :=
  if negb (v_len v =? 0) then
    let! copy := CopyMemoryField (v_data v) (v_len v) in
    st_ret (match copy with Some b => Some (mk_var (v_len v) (Some b)) | None => None end)
  else st_ret (Some (mk_var (v_len v) None)).

Definition MallocAndCopyFilter filter : ST W (option NLSTK_DevdScanFilter) :=
  let! ok := alloc_ok in
  if negb ok then st_ret None
  else
    let! name := copy_field (f_name filter) in
    match name with None => st_ret None | Some name =>
    let! service := copy_field (f_serviceData filter) in
    match service with None => st_ret None | Some service =>
    let! serviceMask := copy_field (serviceDataMask filter) in
    match serviceMask with None => st_ret None | Some serviceMask =>
    let! maker := copy_field (manufacturerData filter) in
    match maker with None => st_ret None | Some maker =>
    let! makerMask := copy_field (manufacturerDataMask filter) in
    match makerMask with None => st_ret None | Some makerMask =>
    st_ret (Some (filter <| f_name := name |> <| f_serviceData := service |> <| serviceDataMask := serviceMask |>
                         <| manufacturerData := maker |> <| manufacturerDataMask := makerMask |>))
    end end end end end.

(** The copies of the filters are added one by one; [None] when memory runs out. *)
Definition push_filter (v : SDF_Vector NLSTK_DevdScanFilter) filter : ST W (option (SDF_Vector NLSTK_DevdScanFilter)) :=
  let! (added, v) := emplace_back v filter in
  st_ret (if (added : bool) then Some v else None).

Fixpoint convert_loop (n : nat) (i : Z) (filters : list NLSTK_DevdScanFilter) (v : SDF_Vector NLSTK_DevdScanFilter) :
    ST W (option (SDF_Vector NLSTK_DevdScanFilter)) :=
  match n with
  | O => st_ret (Some v)
  | Datatypes.S n =>
      let! filter := st_opt (filters !! Z.to_nat i) in
      let! copy := MallocAndCopyFilter filter in
      match copy with
      | None => st_ret None
      | Some copy =>
          let! pushed := push_filter v copy in
          match pushed with
          | None => st_ret None
          | Some v => convert_loop n (i + 1) filters v
          end
      end
  end.

Definition zero_filter : NLSTK_DevdScanFilter :=
  mk_filter false (mk_addr 0 [0; 0; 0; 0; 0; 0]) (mk_var 0 None) false (replicate 16 0) false (replicate 16 0)
    false (replicate 16 0) false (replicate 16 0) (mk_var 0 None) (mk_var 0 None) 0 (mk_var 0 None) (mk_var 0 None)
    false 0 false 0 false 0 0 false.

Definition DevdConvertFiltersToVector (filters : list NLSTK_DevdScanFilter) (filtersNum : Z) :
    ST W (option (SDF_Vector NLSTK_DevdScanFilter)) :=
  let! created := new_vector true in
  match created with
  | None => st_ret None
  | Some v =>
      if filtersNum =? 0 then
        let! ok := alloc_ok in
        if negb ok then st_ret None else push_filter v (zero_filter <| isNoFilter := true |>)
      else convert_loop (Z.to_nat filtersNum) 0 filters v
  end.

Fixpoint clone_loop (n : nat) (i : Z) (filters v : SDF_Vector NLSTK_DevdScanFilter) :
    ST W (option (SDF_Vector NLSTK_DevdScanFilter)) :=
  match n with
  | O => st_ret (Some v)
  | Datatypes.S n =>
      let! filter := st_opt (SDF_VectorElementAt filters i) in
      let! copy := MallocAndCopyFilter filter in
      match copy with
      | None => st_ret None
      | Some copy =>
          let! pushed := push_filter v copy in
          match pushed with
          | None => st_ret None
          | Some v => clone_loop n (i + 1) filters v
          end
      end
  end.

Definition DevdCloneFiltersVector (filters : option (SDF_Vector NLSTK_DevdScanFilter)) :
    ST W (option (SDF_Vector NLSTK_DevdScanFilter)) :=
  match filters with
  | None => st_ret None
  | Some filters =>
      let! created := new_vector true in
      match created with
      | None => st_ret None
      | Some v => clone_loop (Z.to_nat (vsize filters)) 0 filters v
      end
  end.
End filters.
