(* ===== verification/DevdSpec.v ===== *)
(** * What a report says

    The reference for the parser of [DevdReport]: the data of a report as a list of typed
    values, what each type means, and the name in the data of the device information
    service; then the lemmas about vectors and blocks that its proof uses. *)
From S2P Require Import Prelude SdfBuff SdfErrno SdfContainers CmData DtapEnv DevdSearch DevdReport.
Import Vector.

(** ** Typed values *)

(** New reports: type, length, value.  What follows an incomplete value is ignored. *)
Fixpoint tlvs_from (n : nat) (d : bytes) : list (Z * bytes) :=
  match n, d with
  | Datatypes.S n, t :: l :: rest =>
      if l <=? zlen rest then (t, take (Z.to_nat l) rest) :: tlvs_from n (drop (Z.to_nat l) rest) else []
  | _, _ => []
  end.
Definition tlvs (d : bytes) : list (Z * bytes) := tlvs_from (length d) d.

(** Old reports: the length counts the type; a length of zero spoils the whole report. *)
Fixpoint old_tlvs_from (n : nat) (d : bytes) : option (list (Z * bytes)) :=
  match n, d with
  | Datatypes.S n, l :: t :: rest =>
      if l =? 0 then None
      else if l - 1 <=? zlen rest then
        cons (t, take (Z.to_nat (l - 1)) rest) <$> old_tlvs_from n (drop (Z.to_nat (l - 1)) rest)
      else Some []
  | _, _ => Some []
  end.
Definition old_tlvs (d : bytes) : option (list (Z * bytes)) := old_tlvs_from (length d) d.

(** ** Meaning *)
Record summary := mk_summary {
  s_level : Z;
  s_power : Z;
  s_name : bytes;
  s_mesh : bytes;
  s_services : list (bytes * bytes);
  s_uuids : list bytes;
  s_makers : list (Z * bytes)
}.
#[export] Instance eta_summary : Eta summary := fun s =>
  mk_summary (s_level s) (s_power s) (s_name s) (s_mesh s) (s_services s) (s_uuids s) (s_makers s).
Definition nothing : summary := mk_summary 0 0 [] [] [] [] [].

Definition add_new {A K} `{EqDecision K} (key : A -> K) (x : A) (l : list A) : list A :=
  if decide (key x ∈ map key l) then l else l ++ [x].

(** The identifier written as two bytes is an extension of the base identifier. *)
Definition uuid_of (b : bytes) : bytes :=
  match b with [b16; b15] => take 14 g_baseUuid ++ [b15; b16] | _ => b end.

Fixpoint chunks (n k : nat) (v : bytes) : list bytes :=
  match n with O => [] | Datatypes.S n => take k v :: chunks n k (drop k v) end.

Definition says_level (v : bytes) (s : summary) : summary := match v with [b] => s <| s_level := b |> | _ => s end.
Definition says_power (v : bytes) (s : summary) : summary := match v with [b] => s <| s_power := s8 b |> | _ => s end.
Definition says_name (v : bytes) (s : summary) : summary := if decide (v = []) then s else s <| s_name := v |>.
Definition says_mesh (v : bytes) (s : summary) : summary := if decide (v = []) then s else s <| s_mesh := v |>.
Definition says_service (k : nat) (v : bytes) (s : summary) : summary :=
  if decide (k < length v)%nat then s <| s_services ::= add_new fst (uuid_of (take k v), drop k v) |> else s.
Definition says_uuids (k : nat) (v : bytes) (s : summary) : summary :=
  if decide (length v mod k = 0)%nat
  then s <| s_uuids ::= fun l => foldl (fun l u => add_new id (uuid_of u) l) l (chunks (length v / k) k v) |> else s.
Definition says_maker (v : bytes) (s : summary) : summary :=
  match v with
  | b0 :: b1 :: (_ :: _) as d => s <| s_makers ::= add_new fst (b0 + 256 * b1, drop 2 v) |>
  | _ => s
  end.

Definition says (s : summary) (tv : Z * bytes) : summary :=
  let '(t, v) := tv in
  if t =? ADV_DATA_TYPE_DISCOVERY_LEVEL then says_level v s
  else if t =? ADV_DATA_TYPE_STANDARD_SERVICE_DATA then says_service 2 v s
  else if t =? ADV_DATA_TYPE_CUSTOM_SERVICE_DATA then says_service 16 v s
  else if ((t =? ADV_DATA_TYPE_COMPLETE_STANDARD_SERVICE_UUIDS)
           || (t =? ADV_DATA_TYPE_INCOMPLETE_STANDARD_SERVICE_UUIDS))%bool then says_uuids 2 v s
  else if ((t =? ADV_DATA_TYPE_SHORTENED_LOCAL_NAME) || (t =? ADV_DATA_TYPE_COMPLETE_LOCAL_NAME))%bool then says_name v s
  else if t =? ADV_DATA_TYPE_TX_POWER then says_power v s
  else if t =? ADV_DATA_TYPE_MESH_INFO then says_mesh v s
  else if t =? ADV_DATA_TYPE_MANUFACTURER_DATA then says_maker v s
  else s.

Definition says_old (s : summary) (tv : Z * bytes) : summary :=
  let '(t, v) := tv in
  if t =? ADV_OLD_DATA_TYPE_DISCOVERY_LEVEL then says_level v s
  else if t =? ADV_OLD_DATA_TYPE_STANDARD_SERVICE_DATA then says_service 2 v s
  else if t =? ADV_OLD_DATA_TYPE_CUSTOM_SERVICE_DATA then says_service 16 v s
  else if ((t =? ADV_OLD_DATA_TYPE_INCOMPLETE_STANDARD_SERVICE_UUIDS)
           || (t =? ADV_OLD_DATA_TYPE_COMPLETE_STANDARD_SERVICE_UUIDS))%bool then says_uuids 2 v s
  else if ((t =? ADV_OLD_DATA_TYPE_INCOMPLETE_CUSTOMIZE_SERVICE_UUIDS)
           || (t =? ADV_OLD_DATA_TYPE_COMPLETE_CUSTOMIZE_SERVICE_UUIDS))%bool then says_uuids 16 v s
  else if ((t =? ADV_OLD_DATA_TYPE_SHORTENED_LOCAL_NAME) || (t =? ADV_OLD_DATA_TYPE_COMPLETE_LOCAL_NAME))%bool
    then says_name v s
  else if t =? ADV_OLD_DATA_TYPE_TX_POWER then says_power v s
  else if t =? ADV_OLD_DATA_TYPE_APPEARANCE then s
  else if t =? ADV_DATA_TYPE_MANUFACTURER_DATA then says_maker v s
  else s.

(** The first name among the entries of the device information; at least three bytes have
    to be left for an entry. *)
Fixpoint dis_name (n : nat) (d : bytes) : option bytes :=
  match n, d with
  | Datatypes.S n, t :: l :: (_ :: _) as rest =>
      if decide (l = 0 \/ zlen (drop 2 d) < l) then None
      else if t =? DEVD_DEVICE_INFO_LOCAL_NAME then Some (take (Z.to_nat l) (drop 2 d))
      else dis_name n (drop (Z.to_nat l) (drop 2 d))
  | _, _ => None
  end.
Definition says_dis (s : summary) : summary :=
  match find_first (fun e => same_bytes e.1 g_disUuid) (s_services s) with
  | None => s
  | Some (_, d) => match dis_name (length d) d with None => s | Some name => s <| s_name := name |> end
  end.

Definition is_pencil (d : bytes) : bool :=
  (negb (search d g_pencilAdvertstingData1 0 =? -1) || negb (search d g_pencilAdvertstingData2 0 =? -1))%bool.

(** What the data of a report say; [None] when they are not understood. *)
Definition meaning (d : bytes) : option summary :=
  if is_pencil d then foldl says_old nothing <$> old_tlvs d
  else Some (says_dis (foldl says nothing (tlvs d))).

(** ** Vectors *)
Section vectors.
Context {A : Type}.
Implicit Types (v : SDF_Vector A) (l : list A).

Definition holds v l : Prop := vec_small v /\ vlist v = map Some l.

Lemma holds_size v l : holds v l -> vsize v = zlen l.
Proof. intros [[Hw _] E]. rewrite <- (length_vlist v Hw), E, length_map. done. Qed.

Lemma holds_at v l i : holds v l -> 0 <= i < zlen l -> SDF_VectorElementAt v i = l !! Z.to_nat i.
Proof.
  intros Hh Hi. pose proof (holds_size v l Hh) as Hs. destruct Hh as [[Hw _] E]. unfold SDF_VectorElementAt.
  destruct (Z.leb_spec (vsize v) i); [lia|]. rewrite <- vlist_lookup by (done || lia). rewrite E, list_lookup_fmap.
  by destruct (l !! Z.to_nat i).
Qed.

Lemma vec_first_from_holds p v l n i :
  holds v l -> 0 <= i -> i + Z.of_nat n = zlen l -> vec_first_from p v i n = Some (find_first p (drop (Z.to_nat i) l)).
Proof.
  intros Hh. revert i. induction n as [|n IH]; intros i Hi Hn; cbn [vec_first_from].
  - rewrite drop_ge by lia. done.
  - rewrite (holds_at v l) by (done || lia). destruct (lookup_lt_is_Some_2 l (Z.to_nat i)) as [a Ha]; [lia|].
    rewrite Ha, (drop_S _ _ _ Ha). cbn. destruct (p a); [done|]. rewrite IH by lia. do 3 f_equal. lia.
Qed.
Lemma vec_first_holds p v l : holds v l -> vec_first p v = Some (find_first p l).
Proof. intros Hh. unfold vec_first. erewrite vec_first_from_holds; [done|done|lia|]. rewrite (holds_size v l Hh). lia. Qed.

Lemma find_first_key_None {K} `{EqDecision K} (key : A -> K) l k (p : A -> bool) :
  (forall a, p a = true <-> key a = k) -> find_first p l = None <-> k ∉ map key l.
Proof.
  intros Hp. rewrite find_first_None, Forall_forall, list_elem_of_fmap. split.
  - intros Hf (a&->&Ha). specialize (Hf a Ha). rewrite (proj2 (Hp a) eq_refl) in Hf. done.
  - intros Hn a Ha. destruct (p a) eqn:E; [|done]. destruct Hn. exists a. split; [|done]. symmetry. by apply Hp.
Qed.

Context {W : Type} `{World W}.

Lemma wp_emplace_back v l a (w : W) (Q : bool * SDF_Vector A -> W -> Prop) :
  holds v l -> zlen l < 65536 ->
  (forall v' w', holds v' (l ++ [a]) -> Q (true, v') w') ->
  (forall v' w', holds v' l -> ~ memory_suffices W -> Q (false, v') w') ->
  wp (emplace_back v a) w Q.
Proof.
  intros Hh Hl HT HF. pose proof (holds_size v l Hh) as Hs. destruct Hh as [Hv E]. unfold emplace_back.
  assert (forall ok w', (capacity v = vsize v -> memory_suffices W -> ok = true) -> Q (SDF_VectorEmplaceBack ok v (Some a)) w') as Hend.
  { intros ok w' Hok. destruct (emplace_small ok v a Hv ltac:(lia)) as (Hv'&Hl'&Hf).
    destruct (SDF_VectorEmplaceBack ok v (Some a)) as [[|] v'] eqn:Ee; cbn [fst snd] in *.
    - apply HT. split; [done|]. by rewrite Hl', E, map_app.
    - apply HF; [by split; [|rewrite Hl', E]|]. intros Hm. destruct (Z.eqb_spec (capacity v) (vsize v)) as [e|].
      + specialize (Hf (or_intror (Hok e Hm))). done.
      + by specialize (Hf (or_introl eq_refl)). }
  apply wp_bind. destruct (Z.eqb_spec (capacity v) (vsize v)) as [e|e].
  - apply wp_bind, wp_run. destruct (ask_total CAlloc w) as (x&w'&Ha&_). exists x, w'. split; [done|]. apply wp_ret, wp_ret, Hend.
    intros _ Hm. specialize (Hm w x w' Ha). by destruct (Z.eqb_spec x 0).
  - apply wp_ret, wp_ret, Hend. done.
Qed.

Lemma wp_new_vector d (w : W) (Q : option (SDF_Vector A) -> W -> Prop) :
  (forall v w', holds v [] -> Q (Some v) w') -> (forall w', ~ memory_suffices W -> Q None w') -> wp (new_vector d) w Q.
Proof.
  intros HS HN. unfold new_vector, alloc_ok. apply wp_bind, wp_bind, wp_run.
  destruct (ask_total CAlloc w) as (x&w1&Hx&_). exists x, w1. split; [done|]. apply wp_ret.
  destruct (Z.eqb_spec x 0) as [->|]; cbn [negb]; [apply wp_ret, HN; intros Hm; by apply (Hm w 0 w1)|].
  apply wp_bind, wp_bind, wp_run. destruct (ask_total CAlloc w1) as (y&w2&Hy&_). exists y, w2. split; [done|]. apply wp_ret, wp_ret.
  destruct (Z.eqb_spec y 0) as [->|]; cbn [negb]; [apply HN; intros Hm; by apply (Hm w1 0 w2)|].
  destruct (SDF_CreateVector true true d) as [v|] eqn:E; [|done]. destruct (create_small d v E) as (?&?&_). by apply HS.
Qed.
End vectors.

(** ** Blocks *)
Lemma rds_slice m off n : 0 <= off -> 0 <= n -> off + n <= zlen m -> rds m off n = Some (mem_read m off n).
Proof. intros. unfold rds. by rewrite decide_True. Qed.

Lemma rd_slice m off n i b : 0 <= off -> 0 <= i < n -> mem_read m off n !! Z.to_nat i = Some b -> rd m (off + i) = Some b.
Proof. intros H1 H2 E. rewrite <- (rd_mem_read m off n i) by lia. by rewrite rd_lookup by lia. Qed.

Lemma mem_read_all (m : bytes) : mem_read m 0 (zlen m) = m.
Proof. unfold mem_read. rewrite Nat2Z.id. cbn. by rewrite firstn_all. Qed.

Lemma read_uuid_short data p v :
  0 <= p -> mem_read data p 2 = v -> length v = 2%nat -> read_uuid data p 2 = Some (uuid_of v).
Proof.
  intros Hp E Hl. destruct v as [|b16 [|b15 [|]]]; try done.
  assert (rd data (p + 0) = Some b16) as H0 by (eapply rd_slice; [done|..|rewrite E; reflexivity]; lia).
  assert (rd data (p + 1) = Some b15) as H1 by (eapply rd_slice; [done|..|rewrite E; reflexivity]; lia).
  unfold read_uuid, SERVICE_UUID_LEN_16. cbn [Z.eqb Pos.eqb]. rewrite Z.add_0_r in H0. rewrite H0, H1. reflexivity.
Qed.
Lemma read_uuid_long data p v :
  0 <= p -> mem_read data p 16 = v -> length v = 16%nat -> read_uuid data p 16 = Some (uuid_of v).
Proof.
  intros Hp E Hl. unfold read_uuid, SERVICE_UUID_LEN_16, SERVICE_UUID_LEN_128. cbn [Z.eqb Pos.eqb]. rewrite rds_slice; [|done|done|].
  - rewrite E. by destruct v as [|? [|? [|? ?]]].
  - pose proof (f_equal length E) as El. unfold mem_read in El. rewrite length_take, length_drop in El. lia.
Qed.
Lemma read_uuid_slice data p k v :
  0 <= p -> k = 2 \/ k = 16 -> mem_read data p k = v -> zlen v = k -> read_uuid data p k = Some (uuid_of v).
Proof. intros Hp [-> | ->] E Hl; [apply read_uuid_short|apply read_uuid_long]; (done || lia). Qed.

Lemma length_uuid_of v : length v = 2%nat \/ length v = 16%nat -> length (uuid_of v) = 16%nat.
Proof. intros [Hl|Hl]; destruct v as [|a [|b [|c v]]]; done. Qed.

(** Two blocks copied one after the other. *)
Lemma join_blocks (a b : bytes) :
  (m ← wr (replicate (Z.to_nat (zlen a + zlen b)) 0) 0 a; wr m (zlen a) b) = Some (a ++ b).
Proof.
  unfold wr at 2. rewrite length_replicate, decide_True by lia. cbn [mbind option_bind].
  assert (mem_write (replicate (Z.to_nat (zlen a + zlen b)) 0) 0 a = a ++ replicate (length b) 0) as ->.
  { unfold mem_write. change (take (Z.to_nat 0) (replicate (Z.to_nat (zlen a + zlen b)) 0)) with (@nil Z). cbn [app Nat.add Z.to_nat].
    f_equal. rewrite drop_replicate. f_equal. lia. }
  unfold wr. rewrite length_app, length_replicate, decide_True by lia. f_equal. unfold mem_write.
  rewrite Nat2Z.id, take_app_length. f_equal. rewrite drop_ge by (rewrite length_app, length_replicate; lia). by rewrite app_nil_r.
Qed.
