(* ===== verification/DevdParse.v ===== *)
(** * Device discovery: what the parser does

    Every function of the parser in [DevdReport] is defined on every input, keeps results
    well-formed and, as long as memory lasts, adds to the result what [DevdSpec] says the
    data mean. *)
From S2P Require Import Prelude SdfBuff SdfErrno SdfContainers CmData DtapEnv DevdSearch DevdReport DevdSpec.
Import Vector.

(** ** Well-formed results *)
Definition service_of (e : bytes * bytes) : NLSTK_DevdAdvServiceData := mk_service e.1 (zlen e.2) e.2.
Definition maker_of (e : Z * bytes) : NLSTK_DevdAdvManufacturerData := mk_maker e.1 (zlen e.2) e.2.

(** A list of at most [n] elements with different keys, all in [P]. *)
Definition wf_list {A K} (n : Z) (P : A -> Prop) (key : A -> K) (l : list A) : Prop :=
  zlen l <= n /\ Forall P l /\ NoDup (map key l).
Definition is_uuid (u : bytes) : Prop := length u = 16%nat.
Definition small_data (d : bytes) : Prop := 0 < zlen d <= 255 /\ bytes_ok d.
Definition lists_wf (n : Z) (s : summary) : Prop :=
  wf_list n (fun e => is_uuid e.1 /\ small_data e.2) fst (s_services s) /\
  wf_list n is_uuid id (s_uuids s) /\ wf_list n (fun e => small_data e.2) fst (s_makers s).

(** The vectors of a result hold the lists of a summary. *)
Definition lists (r : NLSTK_DevdAdvResult) (s : summary) : Prop :=
  holds (serviceDataList r) (map service_of (s_services s)) /\ holds (serviceUuids r) (map mk_uuid (s_uuids s)) /\
  holds (manufacturerDataList r) (map maker_of (s_makers s)).

Definition var_of (d : bytes) : NLSTK_VariableData := if decide (d = []) then mk_var 0 None else mk_var (zlen d) (Some d).

(** A result says exactly what a summary says. *)
Definition shows (r : NLSTK_DevdAdvResult) (s : summary) : Prop :=
  r_discoveryLevel r = s_level s /\ r_txPower r = s_power s /\ localName r = var_of (s_name s) /\
  meshInfo r = var_of (s_mesh s) /\ lists r s.

(** What the parser does not touch. *)
Definition head_of (r : NLSTK_DevdAdvResult) :=
  (scannerIds r, r_addr r, r_rssi r, r_frameType r, r_isConnectable r, r_isPencil r, advData r).

(** ** Lists without repetitions *)
Section uniques.
Context {A K : Type} `{EqDecision K} (key : A -> K).

Lemma add_new_in x l : key x ∈ map key l -> add_new key x l = l.
Proof. intros. unfold add_new. by rewrite decide_True. Qed.
Lemma add_new_out x l : key x ∉ map key l -> add_new key x l = l ++ [x].
Proof. intros. unfold add_new. by rewrite decide_False. Qed.

Lemma wf_add n (P : A -> Prop) x l : wf_list n P key l -> P x -> wf_list (n + 1) P key (add_new key x l).
Proof.
  intros (Hn&HP&Hk) Hx. unfold add_new. case_decide as Hd; [by split_and!; [lia|..]|]. split_and!.
  - rewrite length_app. cbn. lia.
  - apply Forall_app. split; [done|]. by apply Forall_singleton.
  - rewrite map_app. apply NoDup_app. split_and!; [done| |apply NoDup_singleton]. intros k Hk1 Hk2%list_elem_of_singleton. congruence.
Qed.
Lemma wf_more n m (P : A -> Prop) l : wf_list n P key l -> n <= m -> wf_list m P key l.
Proof. intros (?&?&?) ?. by split_and!; [lia|..]. Qed.
End uniques.

Lemma add_new_map {A B K} `{EqDecision K} (f : A -> B) (keyA : A -> K) (keyB : B -> K) x l :
  (forall a, keyB (f a) = keyA a) -> add_new keyB (f x) (map f l) = map f (add_new keyA x l).
Proof.
  intros Hk. unfold add_new. rewrite map_map, (map_ext _ _ Hk), Hk. case_decide; [done|]. by rewrite map_app.
Qed.

Lemma lists_more n m s : lists_wf n s -> n <= m -> lists_wf m s.
Proof. intros (H1&H2&H3) Hm. split_and!; by eapply wf_more. Qed.

Lemma holds_inj {A} (v : SDF_Vector A) l l' : holds v l -> holds v l' -> l = l'.
Proof. intros [_ E] [_ E']. rewrite E in E'. by apply (inj (map Some)) in E'. Qed.
#[export] Instance service_of_inj : Inj eq eq service_of.
Proof. intros [u d] [u' d'] [= -> _ ->]. done. Qed.
#[export] Instance maker_of_inj : Inj eq eq maker_of.
Proof. intros [i d] [i' d'] [= -> _ ->]. done. Qed.
#[export] Instance mk_uuid_inj : Inj eq eq mk_uuid.
Proof. by intros ?? [=]. Qed.

Section parser.
Context {W : Type} `{HW : World W}.
Implicit Types (r : NLSTK_DevdAdvResult) (s : summary) (w : W).

Definition var_ok (v : NLSTK_VariableData) : Prop :=
  0 <= v_len v <= 255 /\ match v_data v with Some d => zlen d = v_len v /\ d <> [] | None => memory_suffices W -> v_len v = 0 end.
Definition result_ok (n : Z) r : Prop :=
  (exists s, lists r s /\ lists_wf n s) /\ var_ok (localName r) /\ var_ok (meshInfo r).

(** From [r] to [r']: well-formed with at most [k] new elements, and what is new is [f]. *)
Definition grows (n k : Z) (f : summary -> summary) r r' : Prop :=
  head_of r' = head_of r /\ result_ok (n + k) r' /\ (memory_suffices W -> forall s, shows r s -> shows r' (f s)).

Lemma result_more n m r : result_ok n r -> n <= m -> result_ok m r.
Proof. intros ((s&Hl&Hw)&?&?) Hm. split_and!; [|done..]. exists s. split; [done|]. by eapply lists_more. Qed.
Lemma grows_refl n k r : 0 <= k -> result_ok n r -> grows n k id r r.
Proof. intros Hk Hr. split_and!; [done|eapply result_more; [done|lia]|done]. Qed.
Lemma grows_same n k f r : 0 <= k -> result_ok n r -> (forall s, f s = s) -> grows n k f r r.
Proof. intros Hk Hr Hf. split_and!; [done|eapply result_more; [done|lia]|]. intros _ s. by rewrite Hf. Qed.
Lemma grows_unless n k f r : 0 <= k -> result_ok n r -> ~ memory_suffices W -> grows n k f r r.
Proof. intros Hk Hr Hm. split_and!; [done|eapply result_more; [done|lia]|done]. Qed.
Lemma grows_trans n k1 k2 f1 f2 r r1 r2 :
  grows n k1 f1 r r1 -> grows (n + k1) k2 f2 r1 r2 -> grows n (k1 + k2) (fun s => f2 (f1 s)) r r2.
Proof.
  intros (H1&_&E1) (H2&R2&E2). split_and!; [congruence|by rewrite Z.add_assoc|]. intros Hm s Hs. by apply E2, E1.
Qed.
Lemma grows_more n k k' f r r' : grows n k f r r' -> k <= k' -> grows n k' f r r'.
Proof. intros (?&?&?) Hk. split_and!; [done| |done]. eapply result_more; [done|lia]. Qed.
Lemma grows_ext n k f g r r' : grows n k f r r' -> (forall s, f s = g s) -> grows n k g r r'.
Proof. intros (?&?&He) Hfg. split_and!; [done..|]. intros Hm s Hs. rewrite <- Hfg. by apply He. Qed.

(** A vector to which an element was added, unless it was there or memory ran out. *)
Definition added_to {A K} `{EqDecision K} (key : A -> K) a (l : list A) (v' : SDF_Vector A) : Prop :=
  holds v' (add_new key a l) \/ (holds v' l /\ ~ memory_suffices W).

Lemma wp_add_new {A K B} `{EqDecision K} (key : A -> K) (p : A -> bool) v l a (keep : bool -> SDF_Vector A -> B) (old : B) w (Q : B -> W -> Prop) :
  holds v l -> zlen l < 65536 -> (forall x, p x = true <-> key x = key a) -> old = keep false v ->
  (forall b v' w', added_to key a l v' -> Q (keep b v') w') ->
  wp (let! t := st_opt (vec_first p v) in
      match t with Some _ => st_ret old | None => let! (added, v) := emplace_back v a in st_ret (keep added v) end) w Q.
Proof.
  intros Hh Hl Hp -> HQ. apply wp_bind. eapply wp_opt; [by apply vec_first_holds|].
  destruct (find_first p l) as [x|] eqn:E.
  - apply wp_ret, HQ. left. rewrite add_new_in; [done|]. apply find_first_Some in E as [Hx Hpx]. apply Hp in Hpx.
    apply list_elem_of_fmap. eauto.
  - apply (find_first_key_None key l (key a) p Hp) in E. apply wp_bind, (wp_emplace_back v l); [done|done| |].
    + intros v' w' Hv'. apply wp_ret, HQ. left. by rewrite add_new_out.
    + intros v' w' Hv' Hm. apply wp_ret, HQ. by right.
Qed.

Lemma same_bytes_spec a b : same_bytes a b = true <-> a = b.
Proof. unfold same_bytes. apply bool_decide_eq_true. Qed.

Lemma lists_size n r s : result_ok n r -> lists r s -> lists_wf n s.
Proof.
  intros ((s0&(H1&H2&H3)&Hw1&Hw2&Hw3)&_) (E1&E2&E3).
  pose proof (inj (map service_of) _ _ (holds_inj _ _ _ H1 E1)) as Es1.
  pose proof (inj (map mk_uuid) _ _ (holds_inj _ _ _ H2 E2)) as Es2.
  pose proof (inj (map maker_of) _ _ (holds_inj _ _ _ H3 E3)) as Es3.
  unfold lists_wf. by rewrite <- Es1, <- Es2, <- Es3.
Qed.

(** ** The functions for one value *)
Lemma wp_AddServiceData n r u d w (Q : bool * NLSTK_DevdAdvResult -> W -> Prop) :
  result_ok n r -> n <= 600 -> is_uuid u -> small_data d ->
  (forall b r' w', grows n 1 (fun s => s <| s_services ::= add_new fst (u, d) |>) r r' -> Q (b, r') w') ->
  wp (AddServiceData r (mk_service u (zlen d) d)) w Q.
Proof.
  intros Hr Hn Hu Hd HQ. pose proof Hr as ((s&Hl&Hw)&Hnm&Hms). pose proof Hl as (H1&H2&H3). pose proof Hw as (W1&W2&W3).
  change (mk_service u (zlen d) d) with (service_of (u, d)).
  apply (wp_add_new sd_uuid _ _ (map service_of (s_services s)) (service_of (u, d)) (fun b v => (b, r <| serviceDataList := v |>))).
  - done.
  - rewrite length_map. destruct W1 as (?&_). lia.
  - intros x. apply same_bytes_spec.
  - by destruct r.
  - intros b v' w' Ha. apply HQ. unfold added_to in Ha. rewrite (add_new_map _ fst) in Ha by done. split_and!; [done| |].
    + split_and!; [|done..]. destruct Ha as [Ha|[Ha _]].
      * exists (s <| s_services ::= add_new fst (u, d) |>). split; [done|]. split_and!; [by apply wf_add|eapply wf_more; [done|lia]..].
      * exists s. split; [done|]. eapply lists_more; [done|lia].
    + intros Hm s' (E1&E2&E3&E4&L1&L2&L3). destruct Ha as [Ha|[_ ?]]; [|done].
      pose proof (inj (map service_of) _ _ (holds_inj _ _ _ H1 L1)) as Es. rewrite Es in Ha. split_and!; done.
Qed.

Lemma wp_AddServiceUuid n r u w (Q : bool * NLSTK_DevdAdvResult -> W -> Prop) :
  result_ok n r -> n <= 600 -> is_uuid u ->
  (forall b r' w', grows n 1 (fun s => s <| s_uuids ::= add_new id u |>) r r' -> Q (b, r') w') ->
  wp (AddServiceUuid r (mk_uuid u)) w Q.
Proof.
  intros Hr Hn Hu HQ. pose proof Hr as ((s&Hl&Hw)&Hnm&Hms). pose proof Hl as (H1&H2&H3). pose proof Hw as (W1&W2&W3).
  apply (wp_add_new su_uuid _ _ (map mk_uuid (s_uuids s)) (mk_uuid u) (fun b v => (b, r <| serviceUuids := v |>))).
  - done.
  - rewrite length_map. destruct W2 as (?&_). lia.
  - intros x. apply same_bytes_spec.
  - by destruct r.
  - intros b v' w' Ha. apply HQ. unfold added_to in Ha. rewrite (add_new_map _ id) in Ha by done. split_and!; [done| |].
    + split_and!; [|done..]. destruct Ha as [Ha|[Ha _]].
      * exists (s <| s_uuids ::= add_new id u |>). split; [done|]. split_and!; [eapply wf_more; [done|lia]|by apply wf_add|eapply wf_more; [done|lia]].
      * exists s. split; [done|]. eapply lists_more; [done|lia].
    + intros Hm s' (E1&E2&E3&E4&L1&L2&L3). destruct Ha as [Ha|[_ ?]]; [|done].
      pose proof (inj (map mk_uuid) _ _ (holds_inj _ _ _ H2 L2)) as Es. rewrite Es in Ha. split_and!; done.
Qed.

Lemma wp_AddManufacturerData n r i d w (Q : bool * NLSTK_DevdAdvResult -> W -> Prop) :
  result_ok n r -> n <= 600 -> small_data d ->
  (forall b r' w', grows n 1 (fun s => s <| s_makers ::= add_new fst (i, d) |>) r r' -> Q (b, r') w') ->
  wp (AddManufacturerData r (mk_maker i (zlen d) d)) w Q.
Proof.
  intros Hr Hn Hd HQ. pose proof Hr as ((s&Hl&Hw)&Hnm&Hms). pose proof Hl as (H1&H2&H3). pose proof Hw as (W1&W2&W3).
  change (mk_maker i (zlen d) d) with (maker_of (i, d)).
  apply (wp_add_new md_id _ _ (map maker_of (s_makers s)) (maker_of (i, d)) (fun b v => (b, r <| manufacturerDataList := v |>))).
  - done.
  - rewrite length_map. destruct W3 as (?&_). lia.
  - intros x. apply Z.eqb_eq.
  - by destruct r.
  - intros b v' w' Ha. apply HQ. unfold added_to in Ha. rewrite (add_new_map _ fst) in Ha by done. split_and!; [done| |].
    + split_and!; [|done..]. destruct Ha as [Ha|[Ha _]].
      * exists (s <| s_makers ::= add_new fst (i, d) |>). split; [done|]. split_and!; [eapply wf_more; [done|lia]..|by apply wf_add].
      * exists s. split; [done|]. eapply lists_more; [done|lia].
    + intros Hm s' (E1&E2&E3&E4&L1&L2&L3). destruct Ha as [Ha|[_ ?]]; [|done].
      pose proof (inj (map maker_of) _ _ (holds_inj _ _ _ H3 L3)) as Es. rewrite Es in Ha. split_and!; done.
Qed.

(** [len] bytes at [p] of the block are [v]. *)
Definition value_at (data : bytes) (p len : Z) (v : bytes) : Prop :=
  0 <= p /\ 0 <= len <= 255 /\ p + len <= zlen data /\ mem_read data p len = v /\ bytes_ok v.
Lemma value_len data p len v : value_at data p len v -> zlen v = len.
Proof. intros (?&?&?&<-&_). apply length_mem_read; lia. Qed.
Lemma value_tail data p len v k :
  value_at data p len v -> 0 <= k <= len -> value_at data (p + k) (len - k) (drop (Z.to_nat k) v).
Proof. intros (?&?&?&<-&?) Hk. split_and!; [lia..| |by apply Forall_drop]. by rewrite mem_read_drop by lia. Qed.
Lemma value_head data p len v k :
  value_at data p len v -> 0 <= k <= len -> value_at data p k (take (Z.to_nat k) v).
Proof. intros (?&?&?&<-&?) Hk. split_and!; [lia..| |by apply Forall_take]. by rewrite mem_read_take by lia. Qed.
Lemma value_rds data p len v : value_at data p len v -> rds data p len = Some v.
Proof. intros (?&?&?&<-&_). apply rds_slice; lia. Qed.
Lemma value_rd data p len v i b : value_at data p len v -> 0 <= i < len -> v !! Z.to_nat i = Some b -> rd data (p + i) = Some b.
Proof. intros (?&?&?&<-&_) Hi Hb. eapply rd_slice; done. Qed.

Lemma level_spec n r len data p v w :
  result_ok n r -> value_at data p len v ->
  wp (SetDiscoveryLevel r len data p) w (fun r' _ => grows n len (says_level v) r r').
Proof.
  intros Hr Hv. pose proof (value_len _ _ _ _ Hv) as Hl. pose proof Hv as (_&?&_). unfold SetDiscoveryLevel.
  destruct (Z.eqb_spec len 1) as [->|]; cbn [negb].
  - destruct v as [|b [|]]; try (cbn in Hl; lia). rewrite <- (Z.add_0_r p). apply wp_bind.
    eapply wp_opt; [by eapply (value_rd _ _ _ _ 0); [done|lia|]|]. apply wp_ret. split_and!; [done| |].
    + apply (result_more n); [exact Hr|lia].
    + intros _ s (E1&E2&E3&E4&L). by split_and!.
  - apply wp_ret, grows_same; [lia|done|]. intros s. destruct v as [|b [|]]; done.
Qed.

Lemma power_spec n r len data p v w :
  result_ok n r -> value_at data p len v ->
  wp (SetTxPower r len data p) w (fun r' _ => grows n len (says_power v) r r').
Proof.
  intros Hr Hv. pose proof (value_len _ _ _ _ Hv) as Hl. pose proof Hv as (_&?&_). unfold SetTxPower.
  destruct (Z.eqb_spec len 1) as [->|]; cbn [negb].
  - destruct v as [|b [|]]; try (cbn in Hl; lia). rewrite <- (Z.add_0_r p). apply wp_bind.
    eapply wp_opt; [by eapply (value_rd _ _ _ _ 0); [done|lia|]|]. apply wp_ret. split_and!; [done| |].
    + apply (result_more n); [exact Hr|lia].
    + intros _ s (E1&E2&E3&E4&L). by split_and!.
  - apply wp_ret, grows_same; [lia|done|]. intros s. destruct v as [|b [|]]; done.
Qed.

Lemma var_of_cons d : d <> [] -> var_of d = mk_var (zlen d) (Some d).
Proof. intros. unfold var_of. by rewrite decide_False. Qed.

Lemma var_value data p len v : value_at data p len v -> v <> [] -> var_ok (mk_var len (Some v)).
Proof. intros Hv Hne. split; [apply Hv|]. cbn. split; [by eapply value_len|done]. Qed.
Lemma var_lost x : var_ok x -> ~ memory_suffices W -> var_ok (x <| v_data := None |>).
Proof. intros [Hl _] Hm. split; [exact Hl|]. cbn. intros. by destruct Hm. Qed.

Lemma name_spec n r len data p v w :
  result_ok n r -> value_at data p len v ->
  wp (SetLocalName r len data p) w (fun r' _ => grows n len (says_name v) r r').
Proof.
  intros Hr Hv. pose proof (value_len _ _ _ _ Hv) as Hl. pose proof Hv as (_&?&_). unfold SetLocalName, says_name.
  destruct (Z.ltb_spec 0 len); cbn [negb].
  - assert (v <> []) as Hne by (intros ->; cbn in Hl; lia). pose proof Hr as (L&HN&Hm).
    apply wp_bind, wp_alloc_either; intros w' **; cbn [negb].
    + apply wp_bind. eapply wp_opt; [by apply value_rds|]. apply wp_ret. split_and!; [done| |].
      * apply (result_more n); [|lia]. by split; [exact L|split; [eapply var_value|]].
      * intros _ s (E1&E2&E3&E4&L'). rewrite decide_False by done. split_and!; try done. cbn. by rewrite var_of_cons, Hl.
    + apply wp_ret. split_and!; [done| |done]. apply (result_more n); [|lia]. by split; [exact L|split; [apply var_lost|]].
  - apply wp_ret, grows_same; [lia|done|]. intros s. rewrite decide_True; [done|]. destruct v; [done|cbn in Hl; lia].
Qed.

Lemma mesh_spec n r len data p v w :
  result_ok n r -> value_at data p len v ->
  wp (SetMeshInfo r len data p) w (fun r' _ => grows n len (says_mesh v) r r').
Proof.
  intros Hr Hv. pose proof (value_len _ _ _ _ Hv) as Hl. pose proof Hv as (_&?&_). unfold SetMeshInfo, says_mesh.
  destruct (Z.ltb_spec 0 len); cbn [negb].
  - assert (v <> []) as Hne by (intros ->; cbn in Hl; lia). pose proof Hr as (L&Hnm&HN).
    apply wp_bind, wp_alloc_either; intros w' **; cbn [negb].
    + apply wp_bind. eapply wp_opt; [by apply value_rds|]. apply wp_ret. split_and!; [done| |].
      * apply (result_more n); [|lia]. by split; [exact L|split; [|eapply var_value]].
      * intros _ s (E1&E2&E3&E4&L'). rewrite decide_False by done. split_and!; try done. cbn. by rewrite var_of_cons, Hl.
    + apply wp_ret. split_and!; [done| |done]. apply (result_more n); [|lia]. by split; [exact L|split; [|apply var_lost]].
  - apply wp_ret, grows_same; [lia|done|]. intros s. rewrite decide_True; [done|]. destruct v; [done|cbn in Hl; lia].
Qed.

(** An identifier at the start of a value. *)
Lemma value_uuid data p len v k :
  value_at data p len v -> k = 2 \/ k = 16 -> k <= len ->
  read_uuid data p k = Some (uuid_of (take (Z.to_nat k) v)) /\ is_uuid (uuid_of (take (Z.to_nat k) v)).
Proof.
  intros Hv Hk Hle. pose proof (value_head _ _ _ _ k Hv ltac:(lia)) as Hh. pose proof (value_len _ _ _ _ Hh) as Hl.
  destruct Hh as (?&?&?&E&_). split; [by eapply read_uuid_slice|]. apply length_uuid_of. lia.
Qed.

Lemma service_spec n r len data p v k w :
  result_ok n r -> n <= 600 -> value_at data p len v -> k = 2 \/ k = 16 ->
  wp (SetServiceData r len data p k) w (fun r' _ => grows n len (says_service (Z.to_nat k) v) r r').
Proof.
  intros Hr Hn Hv Hk. pose proof (value_len _ _ _ _ Hv) as Hl. pose proof Hv as (_&?&_). unfold SetServiceData, says_service.
  destruct (Z.ltb_spec k len); cbn [negb].
  - apply wp_bind, wp_alloc_either; intros w' **; cbn [negb]; [|by apply wp_ret, grows_unless; [lia|..]].
    destruct (value_uuid data p len v k) as [Hu Hu']; [done|done|lia|]. apply wp_bind. eapply wp_opt; [exact Hu|].
    pose proof (value_tail data p len v k Hv ltac:(lia)) as Ht. pose proof (value_len _ _ _ _ Ht) as Hlt.
    rewrite u8_small by cint. destruct (Z.eqb_spec (len - k) 0); [lia|]. cbn [negb].
    apply wp_bind. eapply wp_opt; [by apply value_rds|]. rewrite <- Hlt.
    apply wp_bind, (wp_AddServiceData n); [done|done|done|split; [lia|apply Ht]|]. intros b r' w1 Hg. apply wp_ret.
    eapply grows_ext; [eapply grows_more; [exact Hg|lia]|]. intros s. by rewrite decide_True by lia.
  - apply wp_ret, grows_same; [lia|done|]. intros s. by rewrite decide_False by lia.
Qed.

Lemma uuid_loop_spec num n r data p v k w :
  result_ok n r -> n + Z.of_nat num <= 600 -> value_at data p (Z.of_nat num * k) v -> k = 2 \/ k = 16 ->
  wp (uuid_loop num r data p k) w (fun r' _ => grows n (Z.of_nat num)
    (fun s => s <| s_uuids ::= fun l => foldl (fun l u => add_new id (uuid_of u) l) l (chunks num (Z.to_nat k) v) |>) r r').
Proof.
  revert n r p v w. induction num as [|num IH]; intros n r p v w Hr Hn Hv Hk; cbn [uuid_loop].
  - apply wp_ret, grows_same; [done|done|]. by intros [].
  - apply wp_bind, wp_alloc_either; intros w' **; cbn [negb]; [|by apply wp_ret, grows_unless; [lia|..]].
    destruct (value_uuid data p _ v k Hv Hk) as [Hu Hu']; [lia|]. apply wp_bind. eapply wp_opt; [exact Hu|].
    apply wp_bind, (wp_AddServiceUuid n); [done|lia|done|]. intros b r1 w1 Hg.
    eapply wp_mono; [eapply (IH (n + 1)); [apply Hg|lia| |done]|].
    + pose proof (value_tail data p _ v k Hv ltac:(lia)) as Ht. replace (Z.of_nat num * k) with (Z.of_nat (S num) * k - k) by lia. exact Ht.
    + intros r' w2 Hg2. eapply grows_ext; [eapply grows_more; [eapply grows_trans; [exact Hg|exact Hg2]|lia]|]. by intros [].
Qed.

Lemma uuids_spec n r len data p v k w :
  result_ok n r -> n + len <= 600 -> value_at data p len v -> k = 2 \/ k = 16 ->
  wp (SetServiceUuid r len data p k) w (fun r' _ => grows n len (says_uuids (Z.to_nat k) v) r r').
Proof.
  intros Hr Hn Hv Hk. pose proof (value_len _ _ _ _ Hv) as Hl. pose proof Hv as (_&?&_). unfold SetServiceUuid, says_uuids.
  pose proof (Z.div_mod len k ltac:(lia)) as Hdm. pose proof (Z.mod_pos_bound len k ltac:(lia)) as Hmb.
  assert (Z.of_nat (length v mod Z.to_nat k) = len mod k) as Em by (rewrite Nat2Z.inj_mod, Z2Nat.id by lia; by rewrite Hl).
  assert (Z.of_nat (length v / Z.to_nat k) = len / k) as Ed by (rewrite Nat2Z.inj_div, Z2Nat.id by lia; by rewrite Hl).
  destruct (Z.eqb_spec (len mod k) 0) as [E|]; cbn [negb].
  - rewrite u8_small by (unfold is_u8; nia). rewrite <- Ed, Nat2Z.id. eapply wp_mono.
    + eapply (uuid_loop_spec _ n); [done|nia| |done]. rewrite Ed. by replace (len / k * k) with len by lia.
    + intros r' w' Hg. eapply grows_ext; [eapply grows_more; [exact Hg|nia]|]. intros s. by rewrite decide_True by lia.
  - apply wp_ret, grows_same; [lia|done|]. intros s. by rewrite decide_False by lia.
Qed.

Lemma maker_spec n r len data p v w :
  result_ok n r -> n <= 600 -> value_at data p len v ->
  wp (SetManufacturerData r len data p) w (fun r' _ => grows n len (says_maker v) r r').
Proof.
  intros Hr Hn Hv. pose proof (value_len _ _ _ _ Hv) as Hl. pose proof Hv as (_&?&_). unfold SetManufacturerData.
  destruct (Z.ltb_spec 2 len); cbn [negb].
  - apply wp_bind, wp_alloc_either; intros w' **; cbn [negb]; [|by apply wp_ret, grows_unless; [lia|..]].
    destruct v as [|b0 [|b1 [|b2 v]]]; try (cbn in Hl; lia).
    assert (ld16 data p = Some (b0 + 256 * b1)) as Hi.
    { unfold ld16. rewrite <- (Z.add_0_r p) at 1. rewrite (value_rd _ _ _ _ 0 b0 Hv) by (done || lia). cbn.
      by rewrite (value_rd _ _ _ _ 1 b1 Hv) by (done || lia). }
    apply wp_bind. eapply wp_opt; [exact Hi|].
    pose proof (value_tail data p len _ 2 Hv ltac:(lia)) as Ht. pose proof (value_len _ _ _ _ Ht) as Hlt.
    rewrite u8_small by cint. destruct (Z.eqb_spec (len - 2) 0); [lia|]. cbn [negb].
    apply wp_bind. eapply wp_opt; [by apply value_rds|]. rewrite <- Hlt.
    apply wp_bind, (wp_AddManufacturerData n); [done|done|split; [lia|apply Ht]|]. intros b r' w1 Hg. apply wp_ret.
    eapply grows_more; [exact Hg|lia].
  - apply wp_ret, grows_same; [lia|done|]. intros s. destruct v as [|? [|? [|? ?]]]; try done. cbn in Hl. lia.
Qed.

(** ** Both formats *)
Lemma says_nothing s t : says s (t, []) = s.
Proof.
  unfold says. repeat (case_match; [by destruct s|]). done.
Qed.
Lemma says_old_nothing s t : says_old s (t, []) = s.
Proof.
  unfold says_old. repeat (case_match; [by destruct s|]). done.
Qed.

Lemma value_nil data p v : value_at data p 0 v -> v = [].
Proof. intros Hv%value_len. destruct v; [done|cbn in Hv; lia]. Qed.

Lemma build_spec n r t len data p v w :
  result_ok n r -> n + len <= 600 -> value_at data p len v ->
  wp (BuildAdvData r t len data p) w (fun r' _ => grows n len (fun s => says s (t, v)) r r').
Proof.
  intros Hr Hn Hv. pose proof Hv as (_&?&_). unfold BuildAdvData. destruct (Z.eqb_spec len 0) as [->|].
  { apply wp_ret, grows_same; [lia|done|]. intros s. rewrite (value_nil _ _ _ Hv). apply says_nothing. }
  unfold says. destruct (_ =? _); [by apply level_spec|]. destruct (_ =? _); [apply service_spec; [done|lia|done|by left]|].
  destruct (_ =? _); [apply service_spec; [done|lia|done|by right]|]. destruct (_ || _)%bool; [apply uuids_spec; [done|lia|done|by left]|].
  destruct (_ || _)%bool; [by apply name_spec|]. destruct (_ =? _); [by apply power_spec|]. destruct (_ =? _); [by apply mesh_spec|].
  destruct (_ =? _); [apply maker_spec; [done|lia|done]|]. apply wp_ret, grows_same; [lia|done|done].
Qed.

Lemma build_old_spec n r t len data p v w :
  result_ok n r -> n + len <= 600 -> value_at data p len v ->
  wp (BuildAdvDataOld r t len data p) w (fun r' _ => grows n len (fun s => says_old s (t, v)) r r').
Proof.
  intros Hr Hn Hv. pose proof Hv as (_&?&_). unfold BuildAdvDataOld. destruct (Z.eqb_spec len 0) as [->|].
  { apply wp_ret, grows_same; [lia|done|]. intros s. rewrite (value_nil _ _ _ Hv). apply says_old_nothing. }
  unfold says_old. destruct (_ =? _); [by apply level_spec|]. destruct (_ =? _); [apply service_spec; [done|lia|done|by left]|].
  destruct (_ =? _); [apply service_spec; [done|lia|done|by right]|]. destruct (_ || _)%bool; [apply uuids_spec; [done|lia|done|by left]|].
  destruct (_ || _)%bool; [apply uuids_spec; [done|lia|done|by right]|].
  destruct (_ || _)%bool; [by apply name_spec|]. destruct (_ =? _); [by apply power_spec|].
  destruct (_ =? _); [apply wp_ret, grows_same; [lia|done|done]|].
  destruct (_ =? _); [apply maker_spec; [done|lia|done]|]. apply wp_ret, grows_same; [lia|done|done].
Qed.

(** The bytes from a position on. *)
Lemma rest_two (d : bytes) p : 0 <= p -> p + 2 <= zlen d ->
  exists a b, rd d p = Some a /\ rd d (p + 1) = Some b /\ drop (Z.to_nat p) d = a :: b :: drop (Z.to_nat (p + 2)) d.
Proof.
  intros Hp Hl. destruct (lookup_lt_is_Some_2 d (Z.to_nat p)) as [a Ha]; [lia|].
  destruct (lookup_lt_is_Some_2 d (Z.to_nat (p + 1))) as [b Hb]; [lia|]. exists a, b. rewrite !rd_lookup by lia. split_and!; [done..|].
  rewrite (drop_S _ _ _ Ha). f_equal. replace (S (Z.to_nat p)) with (Z.to_nat (p + 1)) by lia. rewrite (drop_S _ _ _ Hb). f_equal. f_equal. lia.
Qed.
Lemma rest_value (d : bytes) p len : bytes_ok d -> 0 <= p -> 0 <= len <= 255 -> p + len <= zlen d ->
  value_at d p len (take (Z.to_nat len) (drop (Z.to_nat p) d)).
Proof. intros. split_and!; [lia..|done|by apply Forall_take, Forall_drop]. Qed.
Lemma rest_drop (d : bytes) p len : 0 <= p -> 0 <= len -> drop (Z.to_nat len) (drop (Z.to_nat p) d) = drop (Z.to_nat (p + len)) d.
Proof. intros. rewrite drop_drop. f_equal. lia. Qed.
Lemma rest_len (d : bytes) p : 0 <= p <= zlen d -> zlen (drop (Z.to_nat p) d) = zlen d - p.
Proof. intros. rewrite length_drop. lia. Qed.

Lemma parse_loop_spec fuel r d p w :
  bytes_ok d -> zlen d <= 510 -> 0 <= p <= zlen d -> zlen d - p <= Z.of_nat fuel -> result_ok p r ->
  wp (parse_loop fuel r d (zlen d) p p) w (fun r' _ =>
    grows p (zlen d - p) (fun s => foldl says s (tlvs_from fuel (drop (Z.to_nat p) d))) r r').
Proof.
  intros Hb Hl. revert r p w. induction fuel as [|fuel IH]; intros r p w Hp Hf Hr; cbn [parse_loop tlvs_from].
  - destruct (Z.ltb_spec p (zlen d)); [lia|]. apply wp_ret, grows_same; [lia|done|done].
  - destruct (Z.ltb_spec p (zlen d)); cycle 1.
    { rewrite drop_ge by lia. apply wp_ret, grows_same; [lia|done|done]. }
    unfold MIN_ADV_DATA_LEN. destruct (Z.ltb_spec (zlen d) (p + 2)).
    { pose proof (rest_len d p Hp). destruct (drop _ d) as [|? [|? ?]]; cbn in *; try lia; apply wp_ret, grows_same; [lia|done|done]. }
    destruct (rest_two d p) as (t&len&Ht&Hlen&E); [lia|lia|]. rewrite E.
    apply wp_bind. eapply wp_opt; [exact Ht|]. apply wp_bind. eapply wp_opt; [exact Hlen|].
    pose proof (rd_byte _ _ _ Hb Hlen) as Hl8. rewrite (u16_small (p + 2)) by cint. rewrite rest_len by lia.
    destruct (Z.ltb_spec (zlen d) (p + 2 + len)).
    { destruct (Z.leb_spec len (zlen d - (p + 2))); [lia|]. apply wp_ret, grows_same; [lia|done|done]. }
    destruct (Z.leb_spec len (zlen d - (p + 2))); [|lia]. rewrite rest_drop by cint.
    apply wp_bind. eapply wp_mono; [eapply (build_spec (p + 2)); [eapply result_more; [done|lia]|cint|apply rest_value; (done || cint)]|].
    intros r1 w1 Hg. cbv beta. rewrite u16_small by cint. eapply wp_mono; [apply IH; [cint|cint|apply Hg]|].
    intros r2 w2 Hg2. pose proof (grows_trans _ _ _ _ _ _ _ _ Hg Hg2) as (G1&G2&G3). split_and!; [done| |done].
    by replace (p + (zlen d - p)) with (p + 2 + (len + (zlen d - (p + 2 + len)))) by lia.
Qed.

Lemma parse_old_loop_spec fuel r d p w :
  bytes_ok d -> zlen d <= 510 -> 0 <= p <= zlen d -> zlen d - p <= Z.of_nat fuel -> result_ok p r ->
  wp (parse_old_loop fuel r d (zlen d) p p) w (fun '(ok, r') _ =>
    match old_tlvs_from fuel (drop (Z.to_nat p) d) with
    | Some l => ok = true /\ grows p (zlen d - p) (fun s => foldl says_old s l) r r'
    | None => ok = false
    end).
Proof.
  intros Hb Hl. revert r p w. induction fuel as [|fuel IH]; intros r p w Hp Hf Hr; cbn [parse_old_loop old_tlvs_from].
  - destruct (Z.ltb_spec p (zlen d)); [lia|]. apply wp_ret. split; [done|]. apply grows_same; [lia|done|done].
  - destruct (Z.ltb_spec p (zlen d)); cycle 1.
    { rewrite drop_ge by lia. apply wp_ret. split; [done|]. apply grows_same; [lia|done|done]. }
    unfold MIN_ADV_DATA_LEN. destruct (Z.ltb_spec (zlen d) (p + 2)).
    { pose proof (rest_len d p Hp). destruct (drop _ d) as [|? [|? ?]]; cbn in *; try lia; apply wp_ret; (split; [done|]); apply grows_same; [lia|done|done]. }
    destruct (rest_two d p) as (len&t&Hlen&Ht&E); [lia|lia|]. rewrite E.
    apply wp_bind. eapply wp_opt; [exact Hlen|]. destruct (Z.eqb_spec len 0); [by apply wp_ret|].
    pose proof (rd_byte _ _ _ Hb Hlen) as Hl8. rewrite (u16_small (p + 1)) by cint. rewrite rest_len by lia.
    destruct (Z.ltb_spec (zlen d) (p + 1 + len)).
    { destruct (Z.leb_spec (len - 1) (zlen d - (p + 2))); [lia|]. apply wp_ret. split; [done|]. apply grows_same; [lia|done|done]. }
    destruct (Z.leb_spec (len - 1) (zlen d - (p + 2))); [|lia]. rewrite rest_drop by cint.
    apply wp_bind. eapply wp_opt; [exact Ht|]. rewrite (u16_small (p + 1 + 1)) by cint. replace (p + 1 + 1) with (p + 2) by lia.
    assert (forall r1 w1 v, grows (p + 2) (len - 1) (fun s => says_old s (t, v)) r r1 ->
      wp (parse_old_loop fuel r1 d (zlen d) (p + 2 + (len - 1)) (p + 2 + (len - 1))) w1 (fun '(ok, r') _ =>
        match cons (t, v) <$> old_tlvs_from fuel (drop (Z.to_nat (p + 2 + (len - 1))) d) with
        | Some l => ok = true /\ grows p (zlen d - p) (fun s => foldl says_old s l) r r' | None => ok = false end)) as Hrest.
    { intros r1 w1 v Hg. eapply wp_mono; [apply IH; [cint|cint|apply Hg]|]. intros [ok r2] w2. destruct (old_tlvs_from _ _); [|done].
      intros [-> Hg2]. split; [done|]. pose proof (grows_trans _ _ _ _ _ _ _ _ Hg Hg2) as (G1&G2&G3). split_and!; [done| |done].
      by replace (p + (zlen d - p)) with (p + 2 + (len - 1 + (zlen d - (p + 2 + (len - 1))))) by lia. }
    destruct (Z.ltb_spec 1 len).
    + rewrite (u8_small (len - 1)) by cint. apply wp_bind.
      eapply wp_mono; [eapply (build_old_spec (p + 2)); [eapply result_more; [done|lia]|cint|apply rest_value; (done || cint)]|].
      intros r1 w1 Hg. cbv beta. rewrite u16_small by cint. by apply Hrest.
    + assert (len = 1) as -> by cint. cbn [Z.sub Z.to_nat Z.opp Z.add Z.pos_sub Pos.add]. cbn [take].
      replace (p + 2 + 0) with (p + 2) in Hrest by lia. replace (p + 2 + (1 - 1)) with (p + 2) in * by lia.
      apply Hrest. apply grows_same; [lia|eapply result_more; [done|lia]|]. intros s. apply says_old_nothing.
Qed.

(** ** The name in the device information *)
Definition named (o : option bytes) (s : summary) : summary := match o with None => s | Some name => s <| s_name := name |> end.

Lemma named_shows r s name : name <> [] -> shows r s -> shows (r <| localName := mk_var (zlen name) (Some name) |>) (s <| s_name := name |>).
Proof. intros Hn (E1&E2&E3&E4&L). split_and!; try done. cbn. by rewrite var_of_cons. Qed.

Lemma dis_name_short fuel d : zlen d <= 2 -> dis_name fuel d = None.
Proof. intros Hl. destruct fuel; [done|]. destruct d as [|a [|b [|c d]]]; try done. cbn in Hl. lia. Qed.
Lemma dis_name_entry fuel d p t len :
  0 <= p -> drop (Z.to_nat p) d = t :: len :: drop (Z.to_nat (p + 2)) d -> p + 2 < zlen d ->
  dis_name (S fuel) (drop (Z.to_nat p) d) =
    if decide (len = 0 \/ zlen d - (p + 2) < len) then None
    else if t =? DEVD_DEVICE_INFO_LOCAL_NAME then Some (take (Z.to_nat len) (drop (Z.to_nat (p + 2)) d))
    else dis_name fuel (drop (Z.to_nat len) (drop (Z.to_nat (p + 2)) d)).
Proof.
  intros Hp E Hl. rewrite E. pose proof (rest_len d (p + 2) ltac:(lia)) as Hr.
  destruct (drop (Z.to_nat (p + 2)) d) as [|c rest] eqn:Er; [cbn in Hr; lia|]. cbn [dis_name]. rewrite <- Hr. cbn [drop].
  by destruct rest.
Qed.

Lemma dis_loop_spec fuel n r u d p w :
  bytes_ok d -> 0 <= p -> zlen d - p <= Z.of_nat fuel -> zlen d <= 255 -> result_ok n r ->
  wp (dis_loop fuel r (mk_service u (zlen d) d) p) w (fun r' _ => grows n 0 (named (dis_name fuel (drop (Z.to_nat p) d))) r r').
Proof.
  intros Hb. revert r p w. induction fuel as [|fuel IH]; intros r p w Hp Hf Hl Hr; cbn [dis_loop]; unfold DEVD_ADV_DEVICE_INFO_MIN_LEN;
    cbn [sd_len sd_data]; destruct (Z.ltb_spec (p + 2) (zlen d)) as [Hlt|Hge].
  - lia.
  - apply wp_ret, grows_same; [lia|done|done].
  - destruct (rest_two d p) as (t&len&Ht&Hlen&E); [lia|lia|].
    apply wp_bind. eapply wp_opt; [exact Ht|]. apply wp_bind. eapply wp_opt; [exact Hlen|].
    pose proof (rd_byte _ _ _ Hb Hlen) as Hl8. rewrite (dis_name_entry _ _ _ _ _ Hp E Hlt).
    destruct (decide (len = 0 \/ zlen d - (p + 2) < len)) as [Hd|Hd].
    { assert (((len =? 0) || (zlen d <? p + 2 + len))%bool = true) as ->.
      { destruct Hd as [-> | ?]; [done|]. apply orb_true_iff. right. apply Z.ltb_lt. lia. }
      apply wp_ret, grows_same; [lia|done|done]. }
    assert (((len =? 0) || (zlen d <? p + 2 + len))%bool = false) as ->.
    { apply orb_false_iff. split; [apply Z.eqb_neq; lia|apply Z.ltb_ge; lia]. }
    unfold DEVD_DEVICE_INFO_LOCAL_NAME. destruct (Z.eqb_spec t 6); cycle 1.
    { eapply wp_mono; [apply IH; [cint|cint|lia|done]|]. intros r' w' Hg. by rewrite rest_drop by cint. }
    set (r0 := match v_data (localName r) with Some _ => _ | None => r end).
    assert (result_ok n r0 /\ head_of r0 = head_of r) as [Hr0 Hh0].
    { unfold r0. destruct (v_data (localName r)); [|done]. split; [|done]. destruct Hr as (L&_&Hm). by split; [exact L|split; [|exact Hm]]. }
    pose proof (rest_value d (p + 2) len Hb ltac:(lia) ltac:(cint) ltac:(lia)) as Hv. pose proof (value_len _ _ _ _ Hv) as Hvl.
    set (name := take (Z.to_nat len) (drop (Z.to_nat (p + 2)) d)) in *.
    apply wp_bind, wp_alloc_either; intros w' **; cbn [negb].
    + assert (name <> []) as Hne by (intros Hn; rewrite Hn in Hvl; cbn in Hvl; lia).
      apply wp_bind. eapply wp_opt; [by apply value_rds|]. apply wp_ret. split_and!; [done| |].
      * rewrite Z.add_0_r. destruct Hr0 as (L&_&Hm). by split; [exact L|split; [eapply var_value|]].
      * intros _ s Hs. cbn [named]. rewrite <- Hvl.
        replace (r0 <| localName := mk_var (zlen name) (Some name) |>) with (r <| localName := mk_var (zlen name) (Some name) |>);
          [by apply named_shows|]. unfold r0. by destruct (v_data (localName r)).
    + apply wp_ret. split_and!; [done| |done]. by rewrite Z.add_0_r.
  - rewrite dis_name_short; [by apply wp_ret, grows_same|]. rewrite length_drop. lia.
Qed.

Lemma find_first_map {A B} (f : A -> B) (p : B -> bool) l : find_first p (map f l) = f <$> find_first (fun a => p (f a)) l.
Proof. induction l as [|a l IH]; [done|]. cbn. by destruct (p (f a)). Qed.

Lemma dis_spec n r w : result_ok n r -> wp (DevdParseDisName r) w (fun r' _ => grows n 0 says_dis r r').
Proof.
  intros Hr. pose proof Hr as ((s&Hl&Hw)&_). pose proof Hl as (H1&_). pose proof Hw as ((_&HF&_)&_). unfold DevdParseDisName.
  apply wp_bind. eapply wp_opt; [by apply vec_first_holds|]. rewrite find_first_map. cbn.
  assert (forall s', shows r s' -> s_services s' = s_services s) as Hsame.
  { intros s' (_&_&_&_&L&_). exact (inj (map service_of) _ _ (holds_inj _ _ _ L H1)). }
  destruct (find_first _ (s_services s)) as [[u d]|] eqn:E; cbn.
  - apply find_first_Some in E as Hin. destruct Hin as [Hin _]. rewrite Forall_forall in HF. destruct (HF _ Hin) as [_ [Hd Hb]]. cbn in Hd, Hb.
    unfold service_of. cbn [sd_len fst snd]. destruct (Z.eqb_spec (zlen d) 0); [lia|].
    eapply wp_mono; [apply (dis_loop_spec _ n); [done|lia|lia|lia|done]|]. intros r' w' (G1&G2&G3). split_and!; [done..|].
    intros Hm s' Hs. specialize (G3 Hm s' Hs). unfold says_dis. rewrite (Hsame s' Hs), E, <- (Nat2Z.id (length d)). exact G3.
  - apply wp_ret. split_and!; [done|by rewrite Z.add_0_r|]. intros Hm s' Hs. unfold says_dis. by rewrite (Hsame s' Hs), E.
Qed.

(** ** The whole report *)
Lemma create_result_spec w (Q : option NLSTK_DevdAdvResult -> W -> Prop) :
  (forall w', ~ memory_suffices W -> Q None w') ->
  (forall r w', shows r nothing -> result_ok 0 r -> scannerIds r = None -> r_isPencil r = false -> Q (Some r) w') ->
  wp CreateAdvResult w Q.
Proof.
  intros HN HS. unfold CreateAdvResult. apply wp_bind, wp_alloc_either; intros w1 **; cbn [negb]; [|by apply wp_ret, HN].
  apply wp_bind, wp_new_vector; [|intros; by apply wp_ret, HN]. intros v1 w2 H1.
  apply wp_bind, wp_new_vector; [|intros; by apply wp_ret, HN]. intros v2 w3 H2.
  apply wp_bind, wp_new_vector; [|intros; by apply wp_ret, HN]. intros v3 w4 H3.
  apply wp_ret, HS; [done| |done|done]. split_and!; [|done..]. exists nothing. split; [done|]. repeat split; by try apply NoDup_nil.
Qed.

(** What a result is good for: it is well-formed, it is about this report, and as long as memory
    lasts it says what the data mean. *)
Definition result_for (advType frameType rssi : Z) (addr : SLE_Addr) (d : bytes) r : Prop :=
  result_ok 510 r /\ scannerIds r = None /\ r_addr r = addr /\ r_rssi r = s8 rssi /\ r_frameType r = frameType /\
  r_isConnectable r = Z.testbit advType 0 /\ advData r = mk_var (zlen d) (Some d) /\
  (memory_suffices W -> r_isPencil r = is_pencil d /\ exists s, meaning d = Some s /\ shows r s).

Lemma connectable advType : negb (Z.land advType (Z.shiftl 1 ADV_CONNECTABLE_IND) =? 0) = Z.testbit advType 0.
Proof.
  change (Z.shiftl 1 ADV_CONNECTABLE_IND) with (Z.ones 1). rewrite Z.land_ones by lia. change (2 ^ 1) with 2.
  rewrite <- Z.bit0_mod. by destruct (Z.testbit advType 0).
Qed.

Lemma head_result r r' : head_of r' = head_of r ->
  scannerIds r' = scannerIds r /\ r_addr r' = r_addr r /\ r_rssi r' = r_rssi r /\ r_frameType r' = r_frameType r /\
  r_isConnectable r' = r_isConnectable r /\ r_isPencil r' = r_isPencil r.
Proof. unfold head_of. intros [=]. by split_and!. Qed.

Lemma parsed_spec advType frameType rssi addr a d w (Q : option NLSTK_DevdAdvResult -> W -> Prop) :
  bytes_ok d -> 0 < zlen d <= 510 ->
  (forall w', (memory_suffices W -> meaning d = None) -> Q None w') ->
  (forall r w', result_for advType frameType rssi addr d r -> Q (Some r) w') ->
  wp (DevdGetParsedAdvResult advType frameType rssi addr (mk_cache a (zlen d) (Some d))) w Q.
Proof.
  intros Hb Hd HN HS. unfold DevdGetParsedAdvResult. apply wp_bind, create_result_spec.
  { intros w' Hm. apply wp_ret, HN. done. }
  intros r0 w0 Hs0 Hr0 Hids Hpen. cbv zeta. rewrite connectable. cbn [ch_data ch_len].
  set (r1 := r0 <| r_addr := addr |> <| r_rssi := s8 rssi |> <| r_frameType := frameType |> <| r_isConnectable := Z.testbit advType 0 |>).
  assert (shows r1 nothing /\ result_ok 0 r1) as [Hs1 Hr1] by (split; [exact Hs0|exact Hr0]).
  assert (forall (pencil : bool) r2 w1, r2 = (if pencil then r1 <| r_isPencil := true |> else r1) -> (memory_suffices W -> pencil = is_pencil d) ->
    wp (let! (parsed, result) := (if pencil : bool then DevdParseAdvReportOld (r1 <| r_isPencil := true |>) (Some d) (zlen d)
                                  else DevdParseAdvReport r1 (Some d) (zlen d)) in
        if negb parsed then st_ret None else copy_adv_data result (mk_cache a (zlen d) (Some d))) w1 Q) as Hparse.
  { intros pencil r2 w1 Hr2 Hp. apply wp_bind.
    assert (result_ok 0 r2 /\ shows r2 nothing) as [Hok2 Hsh2] by (rewrite Hr2; destruct pencil; split; done).
    assert (forall r3 s w2, head_of r3 = head_of r2 -> result_ok 510 r3 -> (memory_suffices W -> meaning d = Some s /\ shows r3 s) ->
      wp (copy_adv_data r3 (mk_cache a (zlen d) (Some d))) w2 Q) as Hcopy.
    { intros r3 s w2 Hh Ho Hm. unfold copy_adv_data. cbn [ch_len ch_data]. destruct (Z.eqb_spec (zlen d) 0); [lia|].
      apply wp_bind, wp_alloc_either; intros w3 **; cbn [negb]; [|by apply wp_ret, HN].
      apply wp_bind. eapply wp_opt; [cbn; rewrite rds_slice by lia; rewrite mem_read_all; reflexivity|]. apply wp_ret, HS.
      apply head_result in Hh as (h1&h2&h3&h4&h5&h6). unfold result_for. cbn -[memory_suffices].
      rewrite h1, h2, h3, h4, h5, h6, Hr2. split; [exact Ho|]. do 6 (split; [by destruct pencil|]).
      intros Hms. split; [rewrite <- (Hp Hms); by destruct pencil|]. exists s. by apply Hm. }
    unfold DevdParseAdvReportOld, DevdParseAdvReport, MAX_ADV_DATA_LEN. destruct (Z.ltb_spec 510 (zlen d)); [lia|].
    destruct pencil; rewrite <- Hr2.
    - eapply wp_mono; [apply parse_old_loop_spec; [done|lia|lia|lia|done]|]. intros [ok r3] w2 Hres.
      change (drop (Z.to_nat 0) d) with d in Hres. rewrite Nat2Z.id in Hres. fold (old_tlvs d) in Hres. destruct (old_tlvs d) as [l|] eqn:El.
      + destruct Hres as [-> (G1&G2&G3)]. cbn [negb]. apply (Hcopy r3 (foldl says_old nothing l)); [done|eapply result_more; [exact G2|lia]|].
        intros Hm. split; [|by apply G3]. unfold meaning. by rewrite <- Hp, El.
      + rewrite Hres. apply wp_ret, HN. intros Hm. unfold meaning. by rewrite <- Hp, El.
    - apply wp_bind. eapply wp_mono; [apply parse_loop_spec; [done|lia|lia|lia|done]|]. intros r3 w2 Hg.
      change (drop (Z.to_nat 0) d) with d in Hg. rewrite Nat2Z.id in Hg. fold (tlvs d) in Hg. apply wp_bind. eapply wp_mono; [eapply dis_spec; apply Hg|]. intros r4 w3 Hg2.
      apply wp_ret. cbn [negb]. pose proof (grows_trans _ _ _ _ _ _ _ _ Hg Hg2) as (G1&G2&G3).
      apply (Hcopy r4 (says_dis (foldl says nothing (tlvs d)))); [done|eapply result_more; [exact G2|lia]|].
      intros Hm. split; [|by apply G3]. unfold meaning. by rewrite <- Hp. }
  apply wp_bind. unfold KmpSearchSimple. apply wp_KmpSearch; [done|done|..].
  - intros w1. unfold is_pencil in Hparse. destruct (search d g_pencilAdvertstingData1 0 =? -1) eqn:E1; cbn [negb].
    + apply wp_bind, wp_bind, wp_KmpSearch; [done|done|..]; intros w2 **; apply wp_ret, (Hparse _ _ w2 eq_refl); done.
    + apply wp_bind, wp_ret, (Hparse true _ w1 eq_refl). done.
  - intros w1 Hm1. cbn [negb NO_POS Z.eqb Pos.eqb Z.opp]. change (negb (NO_POS =? -1)) with false. cbv iota.
    apply wp_bind, wp_bind, wp_KmpSearch; [done|done|..]; intros w2 **; apply wp_ret, (Hparse _ _ w2 eq_refl); done.
Qed.
End parser.
