(* ===== verification/DevdCache.v ===== *)
(** * Device discovery: joining and delivering reports

    The specification of the cache of [DevdReport]: a list of at most seven devices, the
    latest first, whose advertisement waits for the scan response.  [report_step] shows
    that the code implements it, and that no report and no failed allocation leads it to
    undefined behaviour. *)
From S2P Require Import Prelude SdfBuff SdfErrno SdfContainers CmData DtapEnv DevdSearch DevdReport DevdSpec DevdParse.
Import Vector.

(** ** The specification *)
Notation pending := (list (SLE_Addr * bytes)).

Definition place (addr : SLE_Addr) (l : pending) : option nat := fst <$> list_find (fun e => e.1 = addr) l.

(** A new device comes first; the oldest one makes room for it. *)
Definition put (addr : SLE_Addr) (d : bytes) (l : pending) : pending :=
  match place addr l with
  | Some i => <[i := (addr, d)]> l
  | None => (addr, d) :: take 6 l
  end.

Definition scannable (r : NLSTK_DevdAdvReportInfo) : bool := Z.testbit (rp_eventType r) 1.
Definition scan_rsp (r : NLSTK_DevdAdvReportInfo) : bool := Z.testbit (rp_eventType r) 3.
Definition report_data (r : NLSTK_DevdAdvReportInfo) : bytes := take (Z.to_nat (rp_dataLength r)) (rp_data r).
Definition report_addr (r : NLSTK_DevdAdvReportInfo) : SLE_Addr := mk_addr (rp_addrType r) (rp_addr r).

(** The devices that wait afterwards, and the data to be parsed. *)
Definition join (r : NLSTK_DevdAdvReportInfo) (l : pending) : pending * option bytes :=
  let addr := report_addr r in
  let d := report_data r in
  if ((rp_primFrameType r =? ADV_FRAME_TYPE_1) && (scannable r || scan_rsp r))%bool then
    if negb (scan_rsp r) then (if decide (d = []) then l else put addr d l, None)
    else
      match place addr l with
      | Some i => (delete i l, Some (default [] (snd <$> l !! i) ++ d))
      | None => if decide (d = []) then (l, None) else (take 6 l, Some d)
      end
  else (l, if decide (d = []) then None else Some d).

(** ** Invariants *)
Definition report_ok (r : NLSTK_DevdAdvReportInfo) : Prop :=
  is_u8 (rp_dataLength r) /\ rp_dataLength r <= zlen (rp_data r) /\ bytes_ok (rp_data r).
Definition pending_ok (l : pending) : Prop := wf_list 7 (fun e => small_data e.2) fst l.

Definition cache_of (e : SLE_Addr * bytes) : AdvDataCache := mk_cache e.1 (zlen e.2) (Some e.2).

Lemma place_at addr l i : place addr l = Some i -> exists d, l !! i = Some (addr, d).
Proof.
  unfold place. destruct (list_find _ l) as [[j e]|] eqn:E; [|done]. intros [= ->]. apply list_find_Some in E as (Hj&He&_).
  exists e.2. rewrite Hj. cbn in He. rewrite <- He. by destruct e.
Qed.
Lemma place_None addr l : place addr l = None -> addr ∉ map fst l.
Proof.
  unfold place. destruct (list_find _ l) as [|] eqn:E; [done|]. intros _ Hin. apply list_find_None in E.
  apply list_elem_of_fmap in Hin as (e&->&He). rewrite Forall_forall in E. by apply (E e He).
Qed.
Lemma place_of i l addr d : NoDup (map fst l) -> l !! i = Some (addr, d) -> place addr l = Some i.
Proof.
  intros Hn Hi. destruct (place addr l) as [j|] eqn:E.
  - apply place_at in E as (d'&Hj). f_equal. eapply NoDup_lookup; [exact Hn|..]; change (map fst l) with (fst <$> l); rewrite list_lookup_fmap.
    + by rewrite Hj.
    + by rewrite Hi.
  - apply place_None in E. destruct E. apply list_elem_of_fmap. exists (addr, d). split; [done|]. by eapply list_elem_of_lookup_2.
Qed.
Lemma place_cache addr l : fst <$> list_find (fun c => ch_addr c = addr) (map cache_of l) = place addr l.
Proof.
  unfold place. change (map cache_of l) with (cache_of <$> l). rewrite list_find_fmap. unfold compose. cbn [ch_addr cache_of].
  by destruct (list_find _ l) as [[]|].
Qed.

Lemma pending_sub l l' : l' `sublist_of` l -> pending_ok l -> pending_ok l'.
Proof.
  intros Hs (Hn&HP&Hk). split_and!.
  - pose proof (sublist_length _ _ Hs). lia.
  - by eapply Forall_sub.
  - eapply sublist_NoDup; [exact Hk|by apply map_sub].
Qed.
Lemma pending_delete l i : pending_ok l -> pending_ok (delete i l).
Proof. apply pending_sub, sublist_delete. Qed.
Lemma pending_take l n : pending_ok l -> pending_ok (take n l).
Proof. apply pending_sub, sublist_take. Qed.
Lemma pending_new l addr d : pending_ok l -> addr ∉ map fst l -> small_data d -> pending_ok ((addr, d) :: take 6 l).
Proof.
  intros Hl Ha Hd. pose proof (pending_take l 6 Hl) as (_&HP&Hk). split_and!.
  - cbn. rewrite length_take. lia.
  - by constructor.
  - cbn. constructor; [|done]. intros Hin. apply Ha. eapply sublist_subseteq; [|exact Hin]. apply map_sub, sublist_take.
Qed.
Lemma pending_set l i addr d d0 : pending_ok l -> l !! i = Some (addr, d0) -> small_data d -> pending_ok (<[i := (addr, d)]> l).
Proof.
  intros (Hn&HP&Hk) Hi Hd. split_and!.
  - by rewrite length_insert.
  - by apply Forall_insert.
  - change (map fst) with (fmap (M := list) (@fst SLE_Addr bytes)). rewrite list_fmap_insert. rewrite list_insert_id; [exact Hk|].
    by rewrite list_lookup_fmap, Hi.
Qed.
Lemma pending_put l addr d : pending_ok l -> small_data d -> pending_ok (put addr d l).
Proof.
  intros Hl Hd. unfold put. destruct (place addr l) as [i|] eqn:E.
  - apply place_at in E as (d0&Hi). by eapply pending_set.
  - apply pending_new; [done|by apply place_None|done].
Qed.

Lemma delete_set {A} (l : list A) i x : delete i (<[i := x]> l) = delete i l.
Proof. revert i. induction l as [|a l IH]; intros [|i]; [done..|]. cbn. f_equal. apply IH. Qed.

(** ** The cache implements it *)
Section cache.
Context {W : Type} `{HW : World W}.
Implicit Types (l : pending) (w : W).
Notation state := (list AdvDataCache * W)%type.

Lemma wp_alloc_cache (c : list AdvDataCache) w (Q : bool -> state -> Prop) :
  (forall w', Q true (c, w')) -> (forall w', ~ memory_suffices W -> Q false (c, w')) -> wp alloc_ok (c, w) Q.
Proof.
  intros HT HF. unfold alloc_ok. apply wp_bind, wp_over, wp_run. destruct (ask_total CAlloc w) as (x&w'&Hx&_). exists x, w'. split; [done|].
  apply wp_ret. destruct (Z.eqb_spec x 0) as [->|]; cbn [negb]; [apply HF; intros Hm; by apply (Hm w 0 w')|apply HT].
Qed.

Lemma wp_find addr l w (Q : option nat -> state -> Prop) :
  Q (place addr l) (map cache_of l, w) -> wp (FindAdvDataCache addr) (map cache_of l, w) Q.
Proof. intros HQ. apply wp_bind, wp_gets, wp_ret. cbn [fst]. rewrite place_cache. exact HQ. Qed.

Lemma wp_set_list f c w (Q : unit -> state -> Prop) : Q tt (f c, w) -> wp (set_list f) (c, w) Q.
Proof. done. Qed.

Lemma wp_cache_at i e l w (Q : AdvDataCache -> state -> Prop) :
  l !! i = Some e -> Q (cache_of e) (map cache_of l, w) -> wp (cache_at i) (map cache_of l, w) Q.
Proof.
  intros Hi HQ. apply wp_bind, wp_gets. eapply wp_opt; [|exact HQ]. cbn [fst]. change (map cache_of l) with (cache_of <$> l).
  by rewrite list_lookup_fmap, Hi.
Qed.
Lemma map_insert i e l : <[i := cache_of e]> (map cache_of l) = map cache_of (<[i := e]> l).
Proof. symmetry. apply (list_fmap_insert cache_of). Qed.
Lemma map_delete i l : delete i (map cache_of l) = map cache_of (delete i l).
Proof. symmetry. apply (list_fmap_delete cache_of). Qed.

Lemma wp_clear addr l w (Q : unit -> state -> Prop) :
  Q tt (map cache_of (match place addr l with Some i => delete i l | None => l end), w) ->
  wp (ClearAdvDataCache addr) (map cache_of l, w) Q.
Proof.
  intros HQ. apply wp_bind, wp_find. destruct (place addr l); [|by apply wp_ret]. apply wp_set_list. by rewrite map_delete.
Qed.

(** The bytes of a report that are copied. *)
Lemma copied data n : 0 <= n <= zlen data -> rds data 0 n = Some (take (Z.to_nat n) data).
Proof. intros. rewrite rds_slice by lia. done. Qed.
Lemma copied_data data n : 0 < n <= 255 -> n <= zlen data -> bytes_ok data ->
  zlen (take (Z.to_nat n) data) = n /\ small_data (take (Z.to_nat n) data).
Proof.
  intros. assert (zlen (take (Z.to_nat n) data) = n) as E by (rewrite length_take; lia). split; [done|].
  split; [lia|by apply Forall_take].
Qed.

(** After [AddAdvDataCache] the device waits with its data, or memory ran out. *)
Lemma wp_add_cache addr data n l w (Q : option nat -> state -> Prop) :
  pending_ok l -> 0 < n <= 255 -> n <= zlen data -> bytes_ok data ->
  (forall i w', let d := take (Z.to_nat n) data in let l' := put addr d l in
     l' !! i = Some (addr, d) -> Q (Some i) (map cache_of l', w')) ->
  (forall l' w', ~ memory_suffices W -> pending_ok l' -> Q None (map cache_of l', w')) ->
  wp (AddAdvDataCache addr data n) (map cache_of l, w) Q.
Proof.
  intros Hl Hn Hle Hb HS HF. pose proof (copied_data data n Hn Hle Hb) as [Hd Hsm]. set (d := take (Z.to_nat n) data) in *. cbv zeta in HS.
  unfold AddAdvDataCache. destruct (Z.eqb_spec n 0); [lia|]. apply wp_bind, wp_find.
  destruct (place addr l) as [i|] eqn:E.
  - apply wp_bind, wp_ret, wp_bind, wp_alloc_cache; intros w' **; cbn [negb].
    + apply wp_bind. eapply wp_opt; [by apply copied; lia|]. apply place_at in E as Hi. destruct Hi as (d0&Hi).
      apply wp_bind. eapply wp_cache_at; [exact Hi|]. apply wp_bind, wp_set_list, wp_ret.
      replace (<[i := _]> (map cache_of l)) with (map cache_of (put addr d l)); [apply HS|]; unfold put; rewrite E.
      * apply list_lookup_insert_eq. by eapply lookup_lt_Some.
      * rewrite <- map_insert. f_equal. unfold cache_of. cbn. by rewrite Hd.
    + apply wp_bind, wp_set_list, wp_ret. rewrite map_delete. apply HF; [done|by apply pending_delete].
  - apply wp_bind, wp_bind, wp_alloc_cache; intros w' **; cbn [negb]; [|apply wp_ret, wp_ret; by apply HF].
    apply wp_bind, wp_gets. cbn [fst].
    assert (forall w2, wp (set_list (cons (mk_cache (mk_addr 0 [0; 0; 0; 0; 0; 0]) 0 None)) ;;! st_ret (Some 0%nat)) (map cache_of (take 6 l), w2)
      (fun c s' => wp (match c with None => st_ret None | Some i =>
        let! ok := alloc_ok in
        if negb ok then set_list (delete i) ;;! st_ret None
        else
          let! copy := st_opt (rds data 0 n) in
          let! cache := cache_at i in
          set_list (<[i := cache <| ch_len := n |> <| ch_data := Some copy |> <| ch_addr := addr |>]>) ;;!
          st_ret (Some i) end) s' Q)) as Hfront.
    { intros w2. apply wp_bind, wp_set_list, wp_ret, wp_bind, wp_alloc_cache; intros w3 **; cbn [negb].
      - apply wp_bind. eapply wp_opt; [by apply copied; lia|]. apply wp_bind, wp_bind, wp_gets. eapply wp_opt; [reflexivity|].
        apply wp_bind, wp_set_list, wp_ret.
        replace (<[0%nat := _]> _) with (map cache_of (put addr d l)); [apply HS|]; unfold put; rewrite E; [done|].
        cbn. unfold cache_of. cbn. by rewrite Hd.
      - apply wp_bind, wp_set_list, wp_ret. cbn [delete list_delete]. apply HF; [done|by apply pending_take]. }
    apply wp_bind. destruct Hl as (Hlen&_). unfold MAX_DEVICE_CACHE. rewrite length_map. destruct (Z.leb_spec 7 (zlen l)).
    + apply wp_set_list. replace (take (length (map cache_of l) - 1) (map cache_of l)) with (map cache_of (take 6 l)); [apply Hfront|].
      rewrite length_map. replace (length l - 1)%nat with 6%nat by lia. apply (fmap_take cache_of).
    + apply wp_ret. rewrite <- (take_ge l 6) at 1 by lia. apply Hfront.
Qed.

(** After [AppendAdvDataCache] the device has all its data, or memory ran out, or there is
    nothing to report. *)
Lemma wp_append addr data n l w (Q : option nat -> state -> Prop) :
  pending_ok l -> is_u8 n -> n <= zlen data -> bytes_ok data ->
  let d := take (Z.to_nat n) data in
  (forall i d0 w', l !! i = Some (addr, d0) -> Q (Some i) (map cache_of (<[i := (addr, d0 ++ d)]> l), w')) ->
  (place addr l = None -> n = 0 -> Q None (map cache_of l, w)) ->
  (forall i w', place addr l = None -> n <> 0 -> let l' := (addr, d) :: take 6 l in l' !! i = Some (addr, d) -> Q (Some i) (map cache_of l', w')) ->
  (forall l' w', ~ memory_suffices W -> pending_ok l' -> Q None (map cache_of l', w')) ->
  wp (AppendAdvDataCache addr data n) (map cache_of l, w) Q.
Proof.
  intros Hl Hn Hle Hb d HJ HE HA HF. unfold AppendAdvDataCache. apply wp_bind, wp_find. destruct (place addr l) as [i|] eqn:E; cycle 1.
  { destruct (Z.eqb_spec n 0); [by apply wp_ret, HE|]. apply wp_add_cache; [done|cint|done|done| |done].
    intros i w' d1 l' Hi. unfold l', put in *. rewrite E in *. by apply HA. }
  pose proof (place_at _ _ _ E) as (d0&Hi). destruct (Z.eqb_spec n 0) as [->|Hn0].
  { apply wp_ret. specialize (HJ i d0 w Hi). unfold d in HJ. cbn [take Z.to_nat] in HJ. rewrite app_nil_r, list_insert_id in HJ by done. exact HJ. }
  pose proof (copied_data data n ltac:(cint) Hle Hb) as [Hdl _]. fold d in Hdl.
  assert (small_data d0) as [H0 _]. { destruct Hl as (_&HP&_). rewrite Forall_forall in HP. eapply (HP (addr, d0)), list_elem_of_lookup_2, Hi. }
  apply wp_bind. eapply wp_cache_at; [exact Hi|]. cbn [cache_of ch_len ch_data fst snd].
  rewrite u16_small by cint. apply wp_bind, wp_alloc_cache; intros w' **; cbn [negb].
  - apply wp_bind. eapply wp_opt; [cbn; rewrite rds_slice by lia; rewrite mem_read_all; reflexivity|].
    apply wp_bind. eapply wp_opt; [apply copied; cint|]. fold d. apply wp_bind.
    eapply wp_opt; [rewrite <- Hdl; apply join_blocks|]. apply wp_bind, wp_set_list, wp_ret.
    replace (<[i := _]> (map cache_of l)) with (map cache_of (<[i := (addr, d0 ++ d)]> l)); [by apply HJ|].
    rewrite <- map_insert. replace (zlen d0 + n) with (zlen (d0 ++ d)) by (rewrite length_app; lia). done.
  - apply wp_bind, wp_set_list, wp_ret. rewrite map_delete. apply HF; [done|by apply pending_delete].
Qed.

(** ** Reports *)
Definition answers (r : NLSTK_DevdAdvReportInfo) (od : option bytes) (o : option NLSTK_DevdAdvResult) : Prop :=
  match o with
  | Some res => exists d, 0 < zlen d <= 510 /\ bytes_ok d /\ (memory_suffices W -> od = Some d) /\
      result_for (W := W) (rp_eventType r) (rp_primFrameType r) (rp_rssi r) (report_addr r) d res
  | None => memory_suffices W -> forall d, od = Some d -> meaning d = None
  end.

Lemma event_bit e i : 0 <= i -> negb (Z.land e (Z.shiftl 1 i) =? 0) = Z.testbit e i.
Proof.
  intros Hi. rewrite Z.shiftl_1_l. destruct (Z.testbit e i) eqn:E.
  - apply negb_true_iff, Z.eqb_neq. intros H0. pose proof (f_equal (fun z => Z.testbit z i) H0) as H1. cbn beta in H1.
    rewrite Z.land_spec, E, Z.pow2_bits_true, Z.bits_0 in H1 by done. done.
  - apply negb_false_iff, Z.eqb_eq, Z.bits_inj'. intros j Hj. rewrite Z.land_spec, Z.bits_0.
    destruct (decide (i = j)) as [->|]; [by rewrite E|]. rewrite Z.pow2_bits_false by done. apply andb_false_r.
Qed.

Lemma wp_parsed r a d s (Q : option NLSTK_DevdAdvResult -> state -> Prop) :
  0 < zlen d <= 510 -> bytes_ok d ->
  (forall o w', answers r (Some d) o -> Q o (s.1, w')) ->
  wp (over (DevdGetParsedAdvResult (rp_eventType r) (rp_primFrameType r) (rp_rssi r) (report_addr r) (mk_cache a (zlen d) (Some d)))) s Q.
Proof.
  intros Hd Hb HQ. destruct s as [c w]. apply wp_over, parsed_spec; [done|done|..].
  - intros w' Hm. apply HQ. intros Hs d' [= <-]. by apply Hm.
  - intros res w' Hr. apply HQ. by exists d.
Qed.

Lemma memory_lost r l l0 od :
  ~ memory_suffices W -> pending_ok l ->
  exists l', map cache_of l = map cache_of l' /\ pending_ok l' /\ (memory_suffices W -> l' = l0) /\ answers r od None.
Proof. intros Hm Hl. exists l. split_and!; [done|done|by intros ?|]. intros ?. done. Qed.
Lemma nothing_said r l :
  pending_ok l -> exists l', map cache_of l = map cache_of l' /\ pending_ok l' /\ (memory_suffices W -> l' = l) /\ answers r None None.
Proof. intros Hl. exists l. by split_and!. Qed.

Lemma report_step r l w :
  pending_ok l -> report_ok r ->
  wp (DevdAdvDataReport (Some r)) (map cache_of l, w) (fun o s' =>
    exists l', s'.1 = map cache_of l' /\ pending_ok l' /\ (memory_suffices W -> l' = (join r l).1) /\ answers r (join r l).2 o).
Proof.
  intros Hl (Hn&Hle&Hb). unfold DevdAdvDataReport. cbv zeta. rewrite !event_bit by done.
  change (Z.testbit (rp_eventType r) ADV_SCANABLE_IND) with (scannable r).
  change (Z.testbit (rp_eventType r) ADV_SCAN_RSP_IND) with (scan_rsp r). fold (report_addr r).
  set (addr := report_addr r). set (d := report_data r).
  assert (rp_dataLength r = 0 -> d = []) as Hd0 by (intros E; unfold d, report_data; by rewrite E).
  assert (rp_dataLength r <> 0 -> zlen d = rp_dataLength r /\ small_data d) as Hd1 by (intros; apply copied_data; (done || cint)).
  assert (rp_dataLength r <> 0 -> d <> []) as Hd2.
  { intros Hne He. destruct (Hd1 Hne) as [_ [Hz _]]. rewrite He in Hz. cbn in Hz. lia. }
  unfold join. fold addr d. destruct (_ && _)%bool.
  - destruct (scan_rsp r); cbn [negb].
    + apply wp_bind. apply wp_append; [done|done|done|done|..].
      * (* the response of a device that waits *)
        intros i d0 w' Hi. change (take (Z.to_nat (rp_dataLength r)) (rp_data r)) with d. pose proof Hl as (_&HP&Hk).
        rewrite (place_of i l addr d0) by done. rewrite Hi. cbn [default fmap option_fmap option_map snd].
        rewrite Forall_forall in HP. destruct (HP _ (list_elem_of_lookup_2 _ _ _ Hi)) as [Hz0 Hb0]. cbn [snd] in Hz0, Hb0.
        assert (0 < zlen (d0 ++ d) <= 510 /\ bytes_ok (d0 ++ d)) as [Hz Hbb].
        { rewrite length_app. unfold bytes_ok. rewrite Forall_app. destruct (decide (rp_dataLength r = 0)) as [e|e].
          - rewrite (Hd0 e). cbn. split; [lia|]. split; [done|by apply Forall_nil].
          - destruct (Hd1 e) as [_ [? ?]]. split; [lia|done]. }
        pose proof (lookup_lt_Some _ _ _ Hi) as Hlt. apply wp_bind.
        eapply wp_cache_at; [by apply list_lookup_insert_eq|]. unfold cache_of at 1. cbn [fst snd].
        apply wp_bind, wp_parsed; [done|done|]. intros o w2 Ho. apply wp_bind. cbn [fst]. apply wp_clear. rewrite (place_of i _ addr (d0 ++ d)).
        -- apply wp_ret. exists (delete i l). split; [by rewrite delete_set|]. by split; [apply pending_delete|].
        -- change (map fst) with (fmap (M := list) (@fst SLE_Addr bytes)). rewrite list_fmap_insert, list_insert_id; [exact Hk|].
           by rewrite list_lookup_fmap, Hi.
        -- by apply list_lookup_insert_eq.
      * (* an empty response of a device that does not *)
        intros Hp H0. apply wp_ret. rewrite Hp, decide_True by auto. by apply nothing_said.
      * (* data of a device that does not *)
        intros i w' Hp H0 l' Hi. change (take (Z.to_nat (rp_dataLength r)) (rp_data r)) with d in *. destruct (Hd1 H0) as [_ Hsm].
        rewrite Hp, decide_False by auto. pose proof (pending_new l addr d Hl (place_None _ _ Hp) Hsm) as Hl'.
        apply wp_bind. eapply wp_cache_at; [exact Hi|]. unfold cache_of at 1. cbn [fst snd]. destruct Hsm as [Hz Hbd].
        apply wp_bind, wp_parsed; [lia|done|]. intros o w2 Ho. apply wp_bind. cbn [fst]. apply wp_clear.
        rewrite (place_of 0 _ addr d) by (apply Hl' || done). apply wp_ret. exists (take 6 l). split; [done|].
        by split; [apply pending_take|].
      * intros l' w' Hm Hl'. by apply wp_ret, memory_lost.
    + (* an advertisement whose response is awaited *)
      destruct (decide (rp_dataLength r = 0)) as [e|e].
      * unfold AddAdvDataCache. rewrite e. cbn [Z.eqb]. apply wp_bind, wp_ret, wp_ret. rewrite decide_True by auto. by apply nothing_said.
      * destruct (Hd1 e) as [_ Hsm]. apply wp_bind. apply wp_add_cache; [done|cint|done|done|..].
        -- intros i w' d1 l' Hi. apply wp_ret. rewrite decide_False by auto. exists l'. split; [done|]. split; [by apply pending_put|done].
        -- intros l' w' Hm Hl'. by apply wp_ret, memory_lost.
  - (* a report on its own *)
    unfold report_single. destruct (Z.eqb_spec (rp_dataLength r) 0) as [e|e].
    { apply wp_ret. rewrite decide_True by auto. by apply nothing_said. }
    destruct (Hd1 e) as [Hz [Hs Hbd]]. rewrite decide_False by auto.
    apply wp_bind, wp_alloc_cache; intros w1 **; cbn [negb]; [|by apply wp_ret, memory_lost].
    apply wp_bind, wp_alloc_cache; intros w2 **; cbn [negb]; [|by apply wp_ret, memory_lost].
    apply wp_bind. eapply wp_opt; [apply copied; cint|]. change (take (Z.to_nat (rp_dataLength r)) (rp_data r)) with d. rewrite <- Hz.
    apply wp_parsed; [lia|done|]. intros o w3 Ho. exists l. by split_and!.
Qed.
End cache.
