(* ===== verification/DevdMatch.v ===== *)
(** * Device discovery: what scan filters let through

    The reference for the rules of [DevdFilter], stated over what a report says, and the
    proof that the code decides it; that the copies of legal filters are these filters. *)
From S2P Require Import Prelude SdfBuff SdfErrno SdfContainers CmData DtapEnv DevdSearch DevdReport DevdSpec DevdParse DevdFilter.
Import Vector.

(** ** The reference *)

(** Equality under a mask. *)
Definition masked (m d : bytes) : bytes := zip_with Z.land d m.

(** The start of [d] is [fd], under the mask if it has the length of [fd]. *)
Definition starts_with (fd mask d : bytes) : Prop :=
  (length fd <= length d)%nat /\
  if decide (length mask = length fd) then masked mask (take (length fd) d) = masked mask fd else take (length fd) d = fd.

Definition content (v : NLSTK_VariableData) : bytes := default [] (v_data v).

(** The identifier of a service as it was sent: two bytes for those that extend the base. *)
Definition sent_uuid (u : bytes) : bytes :=
  match drop 14 u with
  | [b15; b16] => if decide (take 14 u = take 14 g_baseUuid) then [b16; b15] else u
  | _ => u
  end.

(** A result that says [s] passes a filter. *)
Definition passes (r : NLSTK_DevdAdvResult) (s : summary) (f : NLSTK_DevdScanFilter) : Prop :=
  (hasAddr f = true -> r_addr r = f_addr f) /\
  (content (f_name f) <> [] -> s_name s = content (f_name f)) /\
  (hasServiceUuid f = true -> exists u, u ∈ s_uuids s /\
     if hasServiceUuidMask f then masked (serviceUuidMask f) u = masked (serviceUuidMask f) (serviceUuid f) else u = serviceUuid f) /\
  (content (f_serviceData f) <> [] -> exists e, e ∈ s_services s /\
     starts_with (content (f_serviceData f)) (content (serviceDataMask f)) (sent_uuid e.1 ++ e.2)) /\
  (manufacturerId f <> 0 -> exists e, e ∈ s_makers s /\ e.1 = manufacturerId f /\
     starts_with (content (manufacturerData f)) (content (manufacturerDataMask f)) e.2) /\
  (hasRssiThreshold f = true -> rssiThreshold f <= r_rssi r) /\
  (meshInfoReport f = true -> s_mesh s <> []).

(** ** Well-formed filters *)
Definition block_ok (v : NLSTK_VariableData) : Prop :=
  is_u16 (v_len v) /\ match v_data v with Some d => zlen d = v_len v /\ d <> [] | None => v_len v = 0 end.
Definition filter_ok (f : NLSTK_DevdScanFilter) : Prop :=
  block_ok (f_name f) /\ block_ok (f_serviceData f) /\ block_ok (serviceDataMask f) /\
  block_ok (manufacturerData f) /\ block_ok (manufacturerDataMask f) /\
  length (serviceUuid f) = 16%nat /\ length (serviceUuidMask f) = 16%nat.

Lemma block_len v : block_ok v -> v_len v = zlen (content v).
Proof. intros [_ Hv]. unfold content. destruct (v_data v); [by destruct Hv|done]. Qed.
Lemma block_nil v : block_ok v -> v_len v = 0 <-> content v = [].
Proof. intros Hv. rewrite (block_len v Hv). destruct (content v); cbn; split; (done || lia). Qed.

(** ** Loops over bytes *)
Lemma all_bytes_spec n i test (P : Z -> Prop) :
  (forall j, i <= j < i + Z.of_nat n -> exists b : bool, test j = Some b /\ (b = true <-> P j)) ->
  exists r : bool, all_bytes n i test = Some r /\ (r = true <-> forall j, i <= j < i + Z.of_nat n -> P j).
Proof.
  revert i. induction n as [|n IH]; intros i Ht; cbn [all_bytes].
  - exists true. split; [done|]. split; [|done]. intros _ j Hj. lia.
  - destruct (Ht i ltac:(lia)) as (b&->&Hb). cbn. destruct b.
    + destruct (IH (i + 1)) as (r&->&Hr); [intros j Hj; apply Ht; lia|]. exists r. split; [done|]. rewrite Hr. split.
      * intros Ha j Hj. destruct (decide (j = i)) as [->|]; [by apply Hb|]. apply Ha. lia.
      * intros Ha j Hj. apply Ha. lia.
    + exists false. split; [done|]. split; [done|]. intros Ha. apply Hb, Ha. lia.
Qed.

Lemma byte_at (d : bytes) j : 0 <= j < zlen d -> exists b, rd d j = Some b /\ d !! Z.to_nat j = Some b.
Proof. intros Hj. destruct (rd_is_Some d j Hj) as [b Hb]. exists b. split; [done|]. by rewrite <- rd_lookup by lia. Qed.

(** Two lists of bytes are equal under a mask when each byte is. *)
Lemma masked_bytes m a b :
  length a = length m -> length b = length m ->
  masked m a = masked m b <->
  forall j, 0 <= j < zlen m -> exists x y z, rd a j = Some x /\ rd b j = Some y /\ rd m j = Some z /\ Z.land x z = Z.land y z.
Proof.
  intros Ha Hb. unfold masked. split.
  - intros E j Hj. destruct (byte_at a j) as (x&Hx&Hx'); [lia|]. destruct (byte_at b j) as (y&Hy&Hy'); [lia|].
    destruct (byte_at m j) as (z&Hz&Hz'); [lia|]. exists x, y, z. split_and!; [done..|].
    pose proof (f_equal (fun l => l !! Z.to_nat j) E) as El. cbn beta in El. rewrite !lookup_zip_with, Hx', Hy', Hz' in El. by injection El.
  - intros Hp. apply list_eq. intros i. rewrite !lookup_zip_with. destruct (decide (i < length m)%nat) as [Hi|Hi].
    + destruct (Hp (Z.of_nat i) ltac:(lia)) as (x&y&z&Hx&Hy&Hz&E). rewrite rd_lookup, Nat2Z.id in Hx by lia.
      rewrite rd_lookup, Nat2Z.id in Hy by lia. rewrite rd_lookup, Nat2Z.id in Hz by lia. rewrite Hx, Hy, Hz. cbn. by rewrite E.
    + by rewrite !(lookup_ge_None_2 _ i) by lia.
Qed.
Lemma same_list (a b : bytes) :
  length a = length b -> a = b <-> forall j, 0 <= j < zlen b -> exists x, rd a j = Some x /\ rd b j = Some x.
Proof.
  intros Hl. split.
  - intros -> j Hj. destruct (byte_at b j Hj) as (x&Hx&_). eauto.
  - intros Hp. apply list_eq. intros i. destruct (decide (i < length b)%nat) as [Hi|Hi].
    + destruct (Hp (Z.of_nat i) ltac:(lia)) as (x&Hx&Hy). rewrite rd_lookup, Nat2Z.id in Hx by lia. rewrite rd_lookup, Nat2Z.id in Hy by lia. congruence.
    + by rewrite !lookup_ge_None_2 by lia.
Qed.

Lemma rd_take (d : bytes) n j : 0 <= j < Z.of_nat n -> rd (take n d) j = rd d j.
Proof. intros. rewrite !rd_lookup by lia. by rewrite lookup_take_lt by lia. Qed.

Lemma mask_match uuid fu mask :
  length uuid = 16%nat -> length fu = 16%nat -> length mask = 16%nat ->
  exists r : bool, MatchServiceUuidWithMask uuid fu mask SERVICE_UUID_LEN_128 = Some r /\ (r = true <-> masked mask uuid = masked mask fu).
Proof.
  intros Hu Hf Hm. unfold MatchServiceUuidWithMask. change (Z.to_nat SERVICE_UUID_LEN_128) with 16%nat.
  edestruct (all_bytes_spec 16 0) with (P := fun j => exists x y z, rd uuid j = Some x /\ rd fu j = Some y /\ rd mask j = Some z /\ Z.land x z = Z.land y z)
    as (r&->&Hr).
  { intros j Hj. destruct (byte_at uuid j) as (x&Hx&_); [lia|]. destruct (byte_at fu j) as (y&Hy&_); [lia|].
    destruct (byte_at mask j) as (z&Hz&_); [lia|]. rewrite Hx, Hy, Hz. cbn. eexists. split; [done|]. rewrite Z.eqb_eq. split.
    - intros E. by exists x, y, z.
    - intros (?&?&?&[= <-]&[= <-]&[= <-]&E). done. }
  exists r. split; [done|]. rewrite Hr, masked_bytes by lia. by rewrite Hm.
Qed.

Lemma data_match d fv mv :
  d <> [] -> block_ok fv -> block_ok mv ->
  exists r : bool, MatchDataWithMask (mk_var (zlen d) (Some d)) fv mv = Some r /\ (r = true <-> starts_with (content fv) (content mv) d).
Proof.
  intros Hd Hf Hm. unfold MatchDataWithMask. cbn [v_len v_data]. rewrite (block_len fv Hf), (block_len mv Hm), Nat2Z.id. unfold starts_with.
  set (fd := content fv). set (m := content mv).
  destruct (Z.ltb_spec (zlen d) (zlen fd)). { exists false. split; [done|]. split; [done|]. intros [? _]. lia. }
  assert (forall j, 0 <= j < zlen fd -> exists b, (fd0 ← v_data fv; rd fd0 j) = Some b /\ rd fd j = Some b) as Hfd.
  { intros j Hj. destruct (byte_at fd j Hj) as (b&Hb&_). exists b. split; [|done]. unfold fd, content in Hb, Hj. by destruct (v_data fv); [|cbn in Hj; lia]. }
  assert (length (take (length fd) d) = length fd) as Htk by (rewrite length_take; lia).
  destruct (Z.eqb_spec (zlen m) (zlen fd)) as [e|e]; cbn [negb].
  - rewrite decide_True by lia.
    edestruct (all_bytes_spec (length fd) 0) with (P := fun j => exists x y z, rd (take (length fd) d) j = Some x /\ rd fd j = Some y /\ rd m j = Some z /\ Z.land x z = Z.land y z)
      as (r&Hr1&Hr).
    { intros j Hj. destruct (Hfd j ltac:(lia)) as (y&Hy&Hy'). destruct (byte_at d j) as (x&Hx&_); [lia|]. destruct (byte_at m j) as (z&Hz&_); [lia|].
      instantiate (1 := fun j => d0 ← Some d; a ← rd d0 j; md ← v_data mv; m0 ← rd md j; fd0 ← v_data fv; b ← rd fd0 j; Some (Z.land a m0 =? Z.land b m0)).
      cbn beta. cbn [mbind option_bind]. rewrite Hx. cbn. assert (exists md, v_data mv = Some md /\ md = m) as (md&Emd&->).
      { unfold m, content in *. destruct (v_data mv) as [md|]; [by exists md|]. cbn in e. lia. }
      rewrite Emd. cbn. rewrite Hz. cbn. destruct (v_data fv) as [fd0|]; [|done]. cbn in Hy |- *. rewrite Hy. cbn. eexists. split; [done|].
      rewrite Z.eqb_eq, rd_take by lia. split.
      - intros E. by exists x, y, z.
      - intros (?&?&?&E1&E2&E3&E4). congruence. }
    exists r. split; [exact Hr1|]. rewrite Hr, masked_bytes by lia. rewrite <- e. split; [|tauto]. intros Hp. split; [lia|done].
  - rewrite decide_False by lia.
    edestruct (all_bytes_spec (length fd) 0) with (P := fun j => exists x, rd (take (length fd) d) j = Some x /\ rd fd j = Some x)
      as (r&Hr1&Hr).
    { intros j Hj. destruct (Hfd j ltac:(lia)) as (y&Hy&Hy'). destruct (byte_at d j) as (x&Hx&_); [lia|].
      instantiate (1 := fun j => d0 ← Some d; a ← rd d0 j; fd0 ← v_data fv; b ← rd fd0 j; Some (a =? b)).
      cbn beta. cbn [mbind option_bind]. rewrite Hx. cbn. destruct (v_data fv) as [fd0|]; [|done]. cbn in Hy |- *. rewrite Hy. cbn. eexists. split; [done|].
      rewrite Z.eqb_eq, rd_take by lia. split.
      - intros ->. by exists y.
      - intros (?&E1&E2). congruence. }
    exists r. split; [exact Hr1|]. rewrite Hr, same_list by lia. split; [|tauto]. intros Hp. split; [lia|done].
Qed.

(** ** The data of a service as they were sent *)
Lemma uuid_len u :
  length u = 16%nat -> GetUuidLen u = Some (if decide (take 14 u = take 14 g_baseUuid) then 2 else 16).
Proof.
  intros Hu. unfold GetUuidLen. change (Z.to_nat (SERVICE_UUID_LEN_128 - SERVICE_UUID_LEN_16)) with 14%nat.
  edestruct (all_bytes_spec 14 0) with (P := fun j => exists x, rd (take 14 u) j = Some x /\ rd (take 14 base_uuid) j = Some x) as (r&->&Hr).
  { intros j Hj. destruct (byte_at u j) as (x&Hx&_); [lia|]. destruct (byte_at base_uuid j) as (y&Hy&_); [cbn; lia|].
    rewrite Hx, Hy, !rd_take by lia. cbn. eexists. split; [done|]. rewrite Z.eqb_eq. split.
    - intros ->. by exists y.
    - intros (?&?&?). congruence. }
  cbn. f_equal. change g_baseUuid with base_uuid.
  pose proof (same_list (take 14 u) (take 14 base_uuid) ltac:(rewrite !length_take, Hu; done)) as Hs.
  change (zlen (take 14 base_uuid)) with 14 in Hs. change (0 + Z.of_nat 14) with 14 in Hr. rewrite <- Hs in Hr.
  destruct r; case_decide as Hd; try reflexivity; exfalso; [by apply Hd, Hr|]. apply Hr in Hd. done.
Qed.

Lemma two_stores (d : bytes) a b : 2 <= zlen d -> (d1 ← wr d 0 [a]; wr d1 1 [b]) = wr d 0 [a; b].
Proof.
  intros Hl. destruct d as [|x [|y d]]; [cbn in Hl; lia..|].
  unfold wr. rewrite (decide_True (P := 0 <= 0 /\ 0 + zlen [a] <= zlen (x :: y :: d))) by (cbn; lia). cbn [mbind option_bind].
  change (mem_write (x :: y :: d) 0 [a]) with (a :: y :: d).
  rewrite !decide_True by (cbn; lia). reflexivity.
Qed.

Lemma parse_service u (d : bytes) len :
  length u = 16%nat -> len = zlen (sent_uuid u) + zlen d ->
  ParseServiceData (replicate (Z.to_nat len) 0) (mk_service u (zlen d) d) (if decide (take 14 u = take 14 g_baseUuid) then 2 else 16) =
    Some (sent_uuid u ++ d).
Proof.
  intros Hu ->. unfold ParseServiceData. cbn [sd_uuid sd_data sd_len]. rewrite rds_slice, mem_read_all by lia.
  assert (exists b15 b16, drop 14 u = [b15; b16] /\ rd u 14 = Some b15 /\ rd u 15 = Some b16) as (b15&b16&E&H14&H15).
  { do 16 (destruct u as [|? u]; [done|]). destruct u; [|done]. eexists _, _. by split_and!. }
  unfold sent_uuid. rewrite E. case_decide.
  - cbn [SERVICE_UUID_LEN_16 Z.eqb Pos.eqb]. rewrite H15. cbn [mbind option_bind]. rewrite H14. cbn [mbind option_bind].
    rewrite <- (join_blocks [b16; b15] d). rewrite <- two_stores; [done|]. rewrite length_replicate. cbn. lia.
  - cbn [SERVICE_UUID_LEN_16 Z.eqb Pos.eqb]. assert (rds u 0 SERVICE_UUID_LEN_128 = Some u) as ->.
    { unfold SERVICE_UUID_LEN_128. replace 16 with (zlen u) by lia. by rewrite rds_slice, mem_read_all by lia. }
    cbn [mbind option_bind].
    rewrite <- (join_blocks u d). by rewrite Hu.
Qed.

Lemma sent_len u : length u = 16%nat -> zlen (sent_uuid u) = if decide (take 14 u = take 14 g_baseUuid) then 2 else 16.
Proof.
  intros Hu. unfold sent_uuid. assert (exists b15 b16, drop 14 u = [b15; b16]) as (?&?&->).
  { do 16 (destruct u as [|? u]; [done|]). destruct u; [|done]. by eexists _, _. }
  case_decide; [done|lia].
Qed.

(** ** The rules *)
Section rules.
Context {W : Type} `{HW : World W}.
Implicit Types (r : NLSTK_DevdAdvResult) (s : summary) (f : NLSTK_DevdScanFilter) (w : W).

(** What the rules look at; the name must not be a null pointer with a length. *)
Definition told r s : Prop :=
  lists r s /\ lists_wf 510 s /\ localName r = var_of (s_name s) /\ (v_len (meshInfo r) = 0 <-> s_mesh s = []).

(** The answer is right; when memory runs out it may be [false] instead. *)
Definition decides (b : bool) (P : Prop) : Prop := (b = true -> P) /\ (memory_suffices W -> P -> b = true).

Lemma decides_iff b P : (b = true <-> P) -> decides b P.
Proof. unfold decides. tauto. Qed.
Lemma decides_ext b P P' : decides b P -> (P <-> P') -> decides b P'.
Proof. unfold decides. tauto. Qed.

Lemma vec_any_spec {A} (test : A -> ST W bool) v l (P : A -> Prop) w :
  holds v l -> (forall a w', a ∈ l -> wp (test a) w' (fun b _ => decides b (P a))) ->
  wp (vec_any test v) w (fun b _ => decides b (exists a, a ∈ l /\ P a)).
Proof.
  intros Hh Ht. unfold vec_any. rewrite (holds_size v l Hh), Nat2Z.id.
  assert (forall n i w', 0 <= i -> i + Z.of_nat n = zlen l -> wp (vec_any_from test v i n) w'
    (fun b _ => decides b (exists a, a ∈ drop (Z.to_nat i) l /\ P a))) as Hloop.
  { induction n as [|n IH]; intros i w' Hi Hn; cbn [vec_any_from].
    - apply wp_ret. rewrite drop_ge by lia. apply decides_iff. split; [done|]. by intros (?&?%elem_of_nil&_).
    - destruct (lookup_lt_is_Some_2 l (Z.to_nat i)) as [a Ha]; [lia|]. rewrite (drop_S _ _ _ Ha).
      apply wp_bind. eapply wp_opt; [rewrite (holds_at v l) by (done || lia); exact Ha|]. apply wp_bind.
      eapply wp_mono; [apply Ht; by eapply list_elem_of_lookup_2|]. intros b w1 [Hb1 Hb2]. destruct b.
      + apply wp_ret, decides_iff. split; [|done]. intros _. exists a. split; [by left|auto].
      + eapply wp_mono; [apply IH; lia|]. intros b w2 [Hc1 Hc2]. replace (Z.to_nat (i + 1)) with (S (Z.to_nat i)) in * by lia. split.
        * intros Hb. destruct (Hc1 Hb) as (x&Hx&HP). exists x. split; [by right|done].
        * intros Hm (x&Hx&HP). apply elem_of_cons in Hx as [->|Hx]; [by specialize (Hb2 Hm HP)|]. apply Hc2; [done|]. by exists x. }
  eapply wp_mono; [apply (Hloop (length l) 0); lia|]. done.
Qed.

Lemma addr_rule r f w : wp (MatchAddr r f) w (fun b _ => decides b (hasAddr f = true -> r_addr r = f_addr f)).
Proof.
  unfold MatchAddr. destruct (hasAddr f); cbn [negb]; apply wp_ret, decides_iff; [|done].
  rewrite bool_decide_eq_true. tauto.
Qed.

Lemma name_rule r s f w :
  told r s -> block_ok (f_name f) ->
  wp (MatchName r f) w (fun b _ => decides b (content (f_name f) <> [] -> s_name s = content (f_name f))).
Proof.
  intros (_&_&Hn&_) Hb. unfold MatchName. rewrite Hn. destruct (Z.eqb_spec (v_len (f_name f)) 0) as [e|e].
  { apply wp_ret, decides_iff. apply (block_nil _ Hb) in e. tauto. }
  assert (content (f_name f) <> []) as Hne by (by rewrite <- block_nil).
  pose proof Hb as [_ Hv]. unfold content in *. destruct (v_data (f_name f)) as [d|]; [|done]. destruct Hv as [Hl _]. cbn [default] in *.
  rewrite <- Hl. unfold var_of. case_decide as Hs; cbn [v_len v_data].
  { change (0 =? 0) with true. apply wp_ret, decides_iff. rewrite Hs. split; [done|]. intros H0. exfalso. by apply Hne, eq_sym, H0. }
  destruct (Z.eqb_spec (zlen (s_name s)) 0). { destruct (s_name s); [done|cbn in *; lia]. }
  destruct (Z.eqb_spec (zlen (s_name s)) (zlen d)) as [E|E].
  - unfold same_block. cbn [mbind option_bind]. rewrite <- E at 1. rewrite !rds_slice, !mem_read_all by lia. cbn [mbind option_bind].
    eapply wp_opt; [reflexivity|]. apply decides_iff. rewrite same_bytes_spec. tauto.
  - apply wp_ret, decides_iff. split; [done|]. intros H0. specialize (H0 Hne). destruct E. by rewrite H0.
Qed.

Lemma uuid_rule r s f w :
  told r s -> filter_ok f ->
  wp (MatchServiceUuid r f) w (fun b _ => decides b (hasServiceUuid f = true -> exists u, u ∈ s_uuids s /\
     if hasServiceUuidMask f then masked (serviceUuidMask f) u = masked (serviceUuidMask f) (serviceUuid f) else u = serviceUuid f)).
Proof.
  intros ((_&H2&_)&(_&(_&HU&_)&_)&_) (_&_&_&_&_&Hfu&Hfm). unfold MatchServiceUuid. destruct (hasServiceUuid f); cbn [negb].
  2: { apply wp_ret, decides_iff. split; done. }
  rewrite (holds_size _ _ H2), length_map. destruct (Z.eqb_spec (zlen (s_uuids s)) 0) as [e|e].
  { apply wp_ret, decides_iff. destruct (s_uuids s); [|cbn in e; lia]. split; [done|]. intros H0. destruct (H0 eq_refl) as (?&[]%elem_of_nil&_). }
  eapply wp_mono; [apply (vec_any_spec _ _ _ (fun x => if hasServiceUuidMask f then masked (serviceUuidMask f) (su_uuid x) = masked (serviceUuidMask f) (serviceUuid f) else su_uuid x = serviceUuid f) w H2)|].
  - intros a w' Ha. apply list_elem_of_fmap in Ha as (u&->&Hu). rewrite Forall_forall in HU. pose proof (HU u Hu) as Hl. cbn [su_uuid].
    destruct (hasServiceUuidMask f).
    + destruct (mask_match u (serviceUuid f) (serviceUuidMask f) Hl Hfu Hfm) as (b&Hb&Hiff). eapply wp_opt; [exact Hb|]. by apply decides_iff.
    + unfold same_block, SERVICE_UUID_LEN_128. cbn [mbind option_bind]. replace 16 with (zlen u) at 1 by (unfold is_uuid in Hl; lia).
      replace 16 with (zlen (serviceUuid f)) by lia. rewrite !rds_slice, !mem_read_all by lia. eapply wp_opt; [reflexivity|].
      apply decides_iff, same_bytes_spec.
  - intros b w' Hd. eapply decides_ext; [exact Hd|]. split.
    + intros (a&Ha&HP) _. apply list_elem_of_fmap in Ha as (u&->&Hu). by exists u.
    + intros H0. destruct (H0 eq_refl) as (u&Hu&HP). exists (mk_uuid u). split; [by apply list_elem_of_fmap_2|done].
Qed.

Lemma service_rule r s f w :
  told r s -> block_ok (f_serviceData f) -> block_ok (serviceDataMask f) ->
  wp (MatchServiceData r f) w (fun b _ => decides b (content (f_serviceData f) <> [] -> exists e, e ∈ s_services s /\
     starts_with (content (f_serviceData f)) (content (serviceDataMask f)) (sent_uuid e.1 ++ e.2))).
Proof.
  intros ((H1&_)&((_&HS&_)&_)&_) Hf Hm. unfold MatchServiceData. destruct (Z.eqb_spec (v_len (f_serviceData f)) 0) as [e|e].
  { apply wp_ret, decides_iff. apply (block_nil _ Hf) in e. tauto. }
  assert (content (f_serviceData f) <> []) as Hne by (by rewrite <- block_nil).
  rewrite (holds_size _ _ H1), length_map. destruct (Z.eqb_spec (zlen (s_services s)) 0) as [e0|e0].
  { apply wp_ret, decides_iff. destruct (s_services s); [|cbn in e0; lia]. split; [done|]. intros H0. destruct (H0 Hne) as (?&[]%elem_of_nil&_). }
  rewrite Nat2Z.id. set (P := fun e : bytes * bytes => starts_with (content (f_serviceData f)) (content (serviceDataMask f)) (sent_uuid e.1 ++ e.2)).
  assert (forall n i w', 0 <= i -> i + Z.of_nat n = zlen (s_services s) -> wp (service_data_loop n i r f) w'
    (fun b _ => decides b (exists a, a ∈ drop (Z.to_nat i) (s_services s) /\ P a))) as Hloop.
  { induction n as [|n IH]; intros i w' Hi Hn; cbn [service_data_loop].
    - apply wp_ret. rewrite drop_ge by lia. apply decides_iff. split; [done|]. by intros (?&?%elem_of_nil&_).
    - destruct (lookup_lt_is_Some_2 (s_services s) (Z.to_nat i)) as [[u d] Ha]; [lia|]. rewrite (drop_S _ _ _ Ha).
      rewrite Forall_forall in HS. destruct (HS _ (list_elem_of_lookup_2 _ _ _ Ha)) as [Hu [Hd _]]. cbn [fst snd] in Hu, Hd. unfold is_uuid in Hu.
      apply wp_bind. eapply wp_opt.
      { rewrite (holds_at _ _ _ H1) by (rewrite length_map; lia). change (map service_of) with (fmap (M := list) service_of). rewrite list_lookup_fmap, Ha. reflexivity. }
      unfold service_of. cbn [sd_uuid sd_len fst snd]. apply wp_bind. eapply wp_opt; [by apply uuid_len|]. rewrite <- (sent_len u Hu).
      pose proof (sent_len u Hu) as Hsl. assert (zlen (sent_uuid u) <= 16) by (rewrite Hsl; case_decide; lia).
      rewrite u16_small by cint. replace (zlen d + zlen (sent_uuid u)) with (zlen (sent_uuid u ++ d)) by (rewrite length_app; lia).
      apply wp_bind, wp_alloc_either; intros w1 **; cbn [negb].
      2: { apply wp_ret. split; [done|]. by intros Hmem. }
      apply wp_bind. eapply wp_opt.
      { rewrite Hsl. apply parse_service; [done|]. rewrite length_app. lia. }
      apply wp_bind. destruct (data_match (sent_uuid u ++ d) (f_serviceData f) (serviceDataMask f)) as (b&Hb&Hiff); [|done|done|].
      { intros Hnil. apply app_nil in Hnil as [_ ->]. cbn in Hd. lia. }
      eapply wp_opt; [exact Hb|]. destruct b.
      + apply wp_ret, decides_iff. split; [|done]. intros _. exists (u, d). split; [by left|by apply Hiff].
      + eapply wp_mono; [apply IH; lia|]. intros b w2 [Hc1 Hc2]. replace (Z.to_nat (i + 1)) with (S (Z.to_nat i)) in * by lia. split.
        * intros Hbt. destruct (Hc1 Hbt) as (x&Hx&HP). exists x. split; [by right|done].
        * intros Hmem (x&Hx&HP). apply elem_of_cons in Hx as [->|Hx]; [by apply Hiff in HP|]. apply Hc2; [done|]. by exists x. }
  eapply wp_mono; [apply (Hloop _ 0); lia|]. intros b w' Hd. eapply decides_ext; [exact Hd|]. unfold P. cbn. tauto.
Qed.

Lemma maker_rule r s f w :
  told r s -> block_ok (manufacturerData f) -> block_ok (manufacturerDataMask f) ->
  wp (MatchManufacturerData r f) w (fun b _ => decides b (manufacturerId f <> 0 -> exists e, e ∈ s_makers s /\ e.1 = manufacturerId f /\
     starts_with (content (manufacturerData f)) (content (manufacturerDataMask f)) e.2)).
Proof.
  intros ((_&_&H3)&(_&_&(_&HM&Hk))&_) Hf Hm. unfold MatchManufacturerData. destruct (Z.eqb_spec (manufacturerId f) 0) as [e|e].
  { apply wp_ret, decides_iff. tauto. }
  rewrite (holds_size _ _ H3), length_map. destruct (Z.eqb_spec (zlen (s_makers s)) 0) as [e0|e0].
  { apply wp_ret, decides_iff. destruct (s_makers s); [|cbn in e0; lia]. split; [done|]. intros H0. destruct (H0 e) as (?&[]%elem_of_nil&_). }
  apply wp_bind. eapply wp_opt; [by apply vec_first_holds|]. rewrite find_first_map. cbn [md_id maker_of].
  destruct (find_first _ (s_makers s)) as [[i d]|] eqn:E; cbn [fmap option_fmap option_map].
  - apply find_first_Some in E as [Hin Hi%Z.eqb_eq]. cbn [fst] in Hi. rewrite Forall_forall in HM. pose proof (HM _ Hin) as [Hd _]. cbn [snd] in Hd.
    unfold maker_of. cbn [md_len md_data fst snd]. destruct (Z.eqb_spec (zlen d) 0); [lia|].
    destruct (data_match d (manufacturerData f) (manufacturerDataMask f)) as (b&Hb&Hiff); [by intros ->|done|done|].
    eapply wp_opt; [exact Hb|]. apply decides_iff. rewrite Hiff. split.
    + intros HP _. by exists (i, d).
    + intros H0. destruct (H0 e) as ([i' d']&Hin'&He'&HP). cbn [fst snd] in *.
      assert ((i', d') = (i, d)) as [= -> ->]; [|done].
      apply list_elem_of_lookup in Hin as [k Hk1]. apply list_elem_of_lookup in Hin' as [k' Hk2].
      assert (k = k') as ->; [|congruence].
      eapply NoDup_lookup; [exact Hk|..]; change (map fst (s_makers s)) with (fst <$> s_makers s); rewrite list_lookup_fmap.
      * by rewrite Hk1.
      * rewrite Hk2. cbn. congruence.
  - apply wp_ret, decides_iff. split; [done|]. intros H0. destruct (H0 e) as (x&Hx&He&_). apply find_first_None in E.
    rewrite Forall_forall in E. specialize (E x Hx). cbn in E. lia.
Qed.

Lemma rssi_rule r f w : wp (MatchRssi r f) w (fun b _ => decides b (hasRssiThreshold f = true -> rssiThreshold f <= r_rssi r)).
Proof.
  unfold MatchRssi. destruct (hasRssiThreshold f); cbn [negb]; apply wp_ret, decides_iff; [|done]. rewrite Z.leb_le. tauto.
Qed.

Lemma mesh_rule r s f w : told r s -> wp (MatchMeshInfo r f) w (fun b _ => decides b (meshInfoReport f = true -> s_mesh s <> [])).
Proof.
  intros (_&_&_&Hme). unfold MatchMeshInfo. destruct (meshInfoReport f); cbn [negb]; apply wp_ret, decides_iff; [|done].
  rewrite negb_true_iff, Z.eqb_neq, Hme. tauto.
Qed.

(** A list of rules decides the conjunction of what they decide. *)
Lemma rules_spec r f (rules : list (NLSTK_DevdAdvResult -> NLSTK_DevdScanFilter -> ST W bool * Prop)) w :
  Forall (fun rule => forall w', wp (rule r f).1 w' (fun b _ => decides b (rule r f).2)) rules ->
  wp (run_rules (map (fun rule r f => (rule r f).1) rules) r f) w (fun b _ => decides b (Forall (fun rule => (rule r f).2) rules)).
Proof.
  revert w. induction rules as [|rule rules IH]; intros w HR; cbn [run_rules map].
  - apply wp_ret, decides_iff. by rewrite Forall_nil.
  - apply Forall_cons in HR as [H1 HR]. apply wp_bind. eapply wp_mono; [apply H1|]. intros [] w1 [Hb1 Hb2]; cbn [negb].
    + eapply wp_mono; [by apply IH|]. intros b w2 [Hc1 Hc2]. unfold decides. rewrite Forall_cons. split; [auto|]. intros Hm [_ ?]. auto.
    + apply wp_ret. split; [done|]. rewrite Forall_cons. intros Hm [HP _]. auto.
Qed.

Lemma filter_spec r s f w :
  told r s -> filter_ok f -> wp (IsMatchFilter r f) w (fun b _ => decides b (passes r s f)).
Proof.
  intros Ht Hf. pose proof Hf as (F1&F2&F3&F4&F5&_).
  eapply wp_mono; [apply (rules_spec r f [
    (fun r f => (MatchAddr r f, hasAddr f = true -> r_addr r = f_addr f));
    (fun r f => (MatchName r f, content (f_name f) <> [] -> s_name s = content (f_name f)));
    (fun r f => (MatchServiceUuid r f, hasServiceUuid f = true -> exists u, u ∈ s_uuids s /\
       if hasServiceUuidMask f then masked (serviceUuidMask f) u = masked (serviceUuidMask f) (serviceUuid f) else u = serviceUuid f));
    (fun r f => (MatchServiceData r f, content (f_serviceData f) <> [] -> exists e, e ∈ s_services s /\
       starts_with (content (f_serviceData f)) (content (serviceDataMask f)) (sent_uuid e.1 ++ e.2)));
    (fun r f => (MatchManufacturerData r f, manufacturerId f <> 0 -> exists e, e ∈ s_makers s /\ e.1 = manufacturerId f /\
       starts_with (content (manufacturerData f)) (content (manufacturerDataMask f)) e.2));
    (fun r f => (MatchRssi r f, hasRssiThreshold f = true -> rssiThreshold f <= r_rssi r));
    (fun r f => (MatchMeshInfo r f, meshInfoReport f = true -> s_mesh s <> []))] w)|].
  - repeat apply Forall_cons_2; try apply Forall_nil_2; intros w'; cbn [fst snd].
    + apply addr_rule.
    + by apply name_rule.
    + by apply uuid_rule.
    + by apply service_rule.
    + by apply maker_rule.
    + apply rssi_rule.
    + by apply mesh_rule.
  - intros b w' Hd. eapply decides_ext; [exact Hd|]. rewrite !Forall_cons, Forall_nil. cbn [snd]. unfold passes. tauto.
Qed.

(** ** All filters of a scanner *)

(** The first filter that is not about another frame type decides. *)
Fixpoint let_through r s (fs : list NLSTK_DevdScanFilter) : Prop :=
  match fs with
  | [] => False
  | f :: fs => isNoFilter f = true \/ (r_frameType r = advFrameType f /\ (passes r s f \/ let_through r s fs))
  end.

Lemma filters_spec r s v fs w :
  told r s -> holds v fs -> Forall filter_ok fs ->
  wp (DevdIsMatchFilters (Some r) (Some v)) w (fun b _ => decides b (let_through r s fs)).
Proof.
  intros Ht Hh Hf. unfold DevdIsMatchFilters. rewrite (holds_size v fs Hh), Nat2Z.id.
  assert (forall n i w', 0 <= i -> i + Z.of_nat n = zlen fs -> wp (filters_loop n i r v) w'
    (fun b _ => decides b (let_through r s (drop (Z.to_nat i) fs)))) as Hloop.
  { induction n as [|n IH]; intros i w' Hi Hn; cbn [filters_loop].
    - apply wp_ret. rewrite drop_ge by lia. by apply decides_iff.
    - destruct (lookup_lt_is_Some_2 fs (Z.to_nat i)) as [f Ha]; [lia|]. rewrite (drop_S _ _ _ Ha). cbn [let_through].
      apply wp_bind. eapply wp_opt; [rewrite (holds_at v fs) by (done || lia); exact Ha|].
      destruct (isNoFilter f). { apply wp_ret, decides_iff. tauto. }
      destruct (Z.eqb_spec (r_frameType r) (advFrameType f)) as [e|e]; cbn [negb].
      2: { apply wp_ret, decides_iff. split; [done|]. intros [?|[? _]]; done. }
      rewrite Forall_forall in Hf. apply wp_bind. eapply wp_mono; [apply filter_spec; [exact Ht|by eapply Hf, list_elem_of_lookup_2]|].
      intros [] w1 [Hb1 Hb2].
      + apply wp_ret, decides_iff. split; [|done]. intros _. right. auto.
      + eapply wp_mono; [apply IH; lia|]. intros b w2 Hd. replace (Z.to_nat (i + 1)) with (S (Z.to_nat i)) in Hd by lia.
        destruct Hd as [Hc1 Hc2]. split; [intros; right; auto|]. intros Hm [?|[_ [HP|?]]]; [done|by specialize (Hb2 Hm HP)|auto]. }
  eapply wp_mono; [apply (Hloop (length fs) 0); lia|]. done.
Qed.

(** Filters of one kind: the answer is that of each filter on its own. *)
Definition alike (fs : list NLSTK_DevdScanFilter) : Prop :=
  forall f g, f ∈ fs -> g ∈ fs -> isNoFilter f = isNoFilter g /\ advFrameType f = advFrameType g.

Lemma let_through_any r s fs :
  alike fs -> let_through r s fs <-> exists f, f ∈ fs /\ (isNoFilter f = true \/ (r_frameType r = advFrameType f /\ passes r s f)).
Proof.
  induction fs as [|f fs IH]; intros Ha; cbn [let_through].
  - split; [done|]. by intros (?&?%elem_of_nil&_).
  - rewrite IH by (intros g h Hg Hh; apply Ha; by right). split.
    + intros [Hf|[He [HP|(g&Hg&HP)]]]; [exists f; split; [by left|by left]|exists f; split; [by left|by right]|exists g; split; [by right|done]].
    + intros (g&Hg&HP). apply elem_of_cons in Hg as [->|Hg]; [tauto|]. destruct (Ha f g) as [E1 E2]; [by left|by right|].
      destruct HP as [HP|[He HP]]; [left; congruence|]. right. split; [congruence|]. right. exists g. split; [done|]. by right.
Qed.

(** ** What a result tells *)
Lemma shows_told r s : shows r s -> result_ok 510 r -> told r s.
Proof.
  intros (_&_&Hn&Hm&Hl) Ho. split; [done|]. split; [by eapply lists_size|]. split; [done|]. rewrite Hm. unfold var_of.
  case_decide; cbn; [tauto|]. destruct (s_mesh s); [done|]. cbn. split; (lia || done).
Qed.

(** The name of a result is not a null pointer with a length. *)
Definition name_live r : Prop := v_data (localName r) = None -> v_len (localName r) = 0.

Lemma live_told r : result_ok 510 r -> name_live r -> exists s, told r s.
Proof.
  intros ((s&Hl&Hw)&[_ Hn]&_) Hlive.
  exists (s <| s_name := content (localName r) |> <| s_mesh := if decide (v_len (meshInfo r) = 0) then [] else [0] |>).
  split; [exact Hl|]. split; [exact Hw|]. split; cbn.
  - unfold name_live, content in *. destruct (localName r) as [n [d|]]; cbn in *.
    + destruct Hn as [Hl' Hne]. unfold var_of. by rewrite decide_False, Hl'.
    + by rewrite Hlive.
  - case_decide; split; done.
Qed.
End rules.

(** ** The copies a scanner keeps *)
Section copies.
Context {W : Type} `{HW : World W}.
Implicit Types (f : NLSTK_DevdScanFilter) (fs : list NLSTK_DevdScanFilter) (w : W).

(** The lengths that an application gives are those of its blocks. *)
Definition sized (v : NLSTK_VariableData) : Prop := is_u16 (v_len v) /\ forall d, v_data v = Some d -> zlen d = v_len v.
Definition filter_sized f : Prop :=
  sized (f_name f) /\ sized (f_serviceData f) /\ sized (serviceDataMask f) /\ sized (manufacturerData f) /\
  sized (manufacturerDataMask f) /\ length (serviceUuid f) = 16%nat /\ length (serviceUuidMask f) = 16%nat.

Lemma sized_block v : sized v -> lopsided v = false -> block_ok v.
Proof.
  intros [Hu Hs] Hl. split; [done|]. unfold lopsided in Hl. destruct (v_data v) as [d|].
  - split; [by apply Hs|]. intros ->. specialize (Hs [] eq_refl). cbn in Hs. by rewrite <- Hs in Hl.
  - destruct (Z.eqb_spec (v_len v) 0); done.
Qed.

(** The check accepts only filters of a known frame type whose blocks are whole. *)
Lemma legal_loop_spec n i fs :
  Forall filter_sized fs -> 0 <= i -> i + Z.of_nat n = zlen fs ->
  exists b, legal_loop n i fs = Some b /\
    (b = true -> Forall (fun f => filter_ok f /\ (advFrameType f = ADV_FRAME_TYPE_1 \/ advFrameType f = ADV_FRAME_TYPE_4))
                   (drop (Z.to_nat i) fs)).
Proof.
  intros Hs. revert i. induction n as [|n IH]; intros i Hi Hn; cbn [legal_loop].
  { exists true. split; [done|]. intros _. rewrite drop_ge by lia. constructor. }
  destruct (lookup_lt_is_Some_2 fs (Z.to_nat i)) as [f Hf]; [lia|]. rewrite Hf, (drop_S _ _ _ Hf). cbn [mbind option_bind].
  pose proof Hs as Hall. rewrite Forall_forall in Hall. destruct (Hall f (list_elem_of_lookup_2 _ _ _ Hf)) as (S1&S2&S3&S4&S5&S6&S7).
  case_match eqn:Et; [by exists false|]. do 5 (case_match; [by exists false|]).
  destruct (IH (i + 1) ltac:(lia) ltac:(lia)) as (b&->&Hb). exists b. split; [done|]. intros Hbt.
  replace (Z.to_nat (i + 1)) with (S (Z.to_nat i)) in Hb by lia. constructor; [|by apply Hb]. split.
  - unfold filter_ok. split_and!; try done; by apply sized_block.
  - apply andb_false_iff in Et as [Et|Et]; apply negb_false_iff, Z.eqb_eq in Et; auto.
Qed.

Lemma wp_copy_field v w (Q : option NLSTK_VariableData -> W -> Prop) :
  block_ok v -> (forall w', Q (Some v) w') -> (forall w', ~ memory_suffices W -> Q None w') -> wp (copy_field v) w Q.
Proof.
  intros [_ Hv] HS HN. unfold copy_field. destruct v as [n [d|]]; cbn [v_len v_data] in *.
  - destruct Hv as [<- Hd]. destruct (Z.eqb_spec (zlen d) 0). { destruct d; [done|cbn in *; lia]. }
    cbn [negb]. unfold CopyMemoryField. apply wp_bind, wp_bind, wp_alloc_either; intros w' **; cbn [negb].
    + cbn [mbind option_bind]. apply wp_bind. eapply wp_opt; [by rewrite rds_slice, mem_read_all by lia|]. apply wp_ret, wp_ret, HS.
    + by apply wp_ret, wp_ret, HN.
  - subst n. apply wp_ret, HS.
Qed.

Lemma wp_copy_filter f w (Q : option NLSTK_DevdScanFilter -> W -> Prop) :
  filter_ok f -> (forall w', Q (Some f) w') -> (forall w', ~ memory_suffices W -> Q None w') -> wp (MallocAndCopyFilter f) w Q.
Proof.
  intros (F1&F2&F3&F4&F5&_) HS HN. unfold MallocAndCopyFilter.
  apply wp_bind, wp_alloc_either; intros w1 **; cbn [negb]; [|by apply wp_ret, HN].
  do 5 (apply wp_bind; apply wp_copy_field; [done| |intros ? ?; by apply wp_ret, HN]; intros ?).
  apply wp_ret. destruct f. apply HS.
Qed.

Lemma wp_push_filter v l f w (Q : option (SDF_Vector NLSTK_DevdScanFilter) -> W -> Prop) :
  holds v l -> zlen l < 65536 -> (forall v' w', holds v' (l ++ [f]) -> Q (Some v') w') ->
  (forall w', ~ memory_suffices W -> Q None w') -> wp (push_filter v f) w Q.
Proof.
  intros Hh Hl HS HN. unfold push_filter. apply wp_bind. apply (wp_emplace_back v l); [done|done|..]; intros v' w' Hv' **;
    apply wp_ret; auto.
Qed.

Lemma wp_convert_loop n i fs v l w (Q : option (SDF_Vector NLSTK_DevdScanFilter) -> W -> Prop) :
  Forall filter_ok fs -> 0 <= i -> i + Z.of_nat n = zlen fs -> zlen fs < 65536 -> holds v l -> zlen l = i ->
  (forall v' w', holds v' (l ++ drop (Z.to_nat i) fs) -> Q (Some v') w') ->
  (forall w', ~ memory_suffices W -> Q None w') -> wp (convert_loop n i fs v) w Q.
Proof.
  intros Hf. revert i v l w. induction n as [|n IH]; intros i v l w Hi Hn Hz Hh Hl HS HN; cbn [convert_loop].
  { apply wp_ret, HS. by rewrite drop_ge, app_nil_r by lia. }
  destruct (lookup_lt_is_Some_2 fs (Z.to_nat i)) as [f Ha]; [lia|]. apply wp_bind. eapply wp_opt; [exact Ha|].
  pose proof Hf as Hall. rewrite Forall_forall in Hall. pose proof (Hall f (list_elem_of_lookup_2 _ _ _ Ha)) as Hok.
  apply wp_bind. apply wp_copy_filter; [done| |intros; by apply wp_ret, HN]. intros w1. apply wp_bind.
  apply (wp_push_filter v l f); [done|lia| |intros; by apply wp_ret, HN]. intros v' w2 Hh'.
  apply (IH (i + 1) v' (l ++ [f])); try done; try lia; [rewrite length_app; cbn; lia|].
  intros v'' w3 Hv. apply HS. rewrite (drop_S _ _ _ Ha). rewrite <- app_assoc in Hv. cbn in Hv.
  by replace (Z.to_nat (i + 1)) with (S (Z.to_nat i)) in Hv by lia.
Qed.

(** The filters a scanner works with: its own, or one that lets everything through. *)
Definition working fs : list NLSTK_DevdScanFilter :=
  if decide (fs = []) then [zero_filter <| isNoFilter := true |>] else fs.

Lemma wp_convert fs w (Q : option (SDF_Vector NLSTK_DevdScanFilter) -> W -> Prop) :
  Forall filter_ok fs -> zlen fs < 65536 ->
  (forall v w', holds v (working fs) -> Q (Some v) w') -> (forall w', ~ memory_suffices W -> Q None w') ->
  wp (DevdConvertFiltersToVector fs (zlen fs)) w Q.
Proof.
  intros Hf Hz HS HN. unfold DevdConvertFiltersToVector, working in *. apply wp_bind, wp_new_vector; [|intros; by apply wp_ret, HN].
  intros v w1 Hv. destruct (Z.eqb_spec (zlen fs) 0) as [e|e].
  - assert (fs = []) as -> by (destruct fs; [done|cbn in e; lia]). rewrite decide_True in HS by done.
    apply wp_bind, wp_alloc_either; intros w2 **; cbn [negb]; [|by apply wp_ret, HN].
    by apply (wp_push_filter v []).
  - rewrite decide_False in HS by (by intros ->). rewrite Nat2Z.id.
    apply (wp_convert_loop _ _ fs v []); try done; lia.
Qed.

Lemma working_ok fs : Forall filter_ok fs -> Forall filter_ok (working fs).
Proof.
  intros Hf. unfold working. case_decide; [|done]. constructor; [|constructor]. unfold filter_ok, block_ok, is_u16. cbn. split_and!; (done || lia).
Qed.
Lemma working_alike fs : alike fs -> alike (working fs).
Proof.
  intros Ha. unfold working. case_decide; [|done]. by intros f g ->%list_elem_of_singleton ->%list_elem_of_singleton.
Qed.
End copies.
