(* ===== verification/CmState.v ===== *)
(** * The state of CM's channel management

    What the files of [services/stack/src/cp/bsl/sle/cm] that manage transmission
    channels keep: the logical links ([link/src/sle_logic_link_mgr.c]), the channels
    ([link/src/cm_trans_channel_mgr.c]), the identifiers in use
    ([dyntrans/src/cm_dyn_tcid.c]), the callbacks and the outstanding requests
    ([signaling/src/cm_signaling_manage.c]); and the operations on the list of links.
    Nodes are known by address, addresses are not used twice, and an access to a node
    that is in no list any more is undefined. *)
From S2P Require Import Prelude SdfErrno SdfBuff SdfContainers CmData DtapEnv DtapTrans DtapChannel.

(** ** Codes *)
Definition COMP_CP : Z := 2.
Definition CP_MOD_NCP : Z := 3.
Definition CP_NCP_SUBMOD_CM : Z := 1.
Definition CP_MAKE_NCP_CM_ERRNO (id : Z) : Z := SDF_MAKE_ERRNO COMP_CP CP_MOD_NCP CP_NCP_SUBMOD_CM id.
Notation "'cm_err' n" := (ltac:(let v := eval vm_compute in (CP_MAKE_NCP_CM_ERRNO n) in exact v))
  (at level 10, n at level 9, only parsing).
Definition CM_FAIL : Z := cm_err 102.
Definition CM_INVALID_PARAM_ERR : Z := cm_err 103.
Definition CM_MEM_ERR : Z := cm_err 105.
Definition CM_NOT_INITED : Z := cm_err 106.
Definition CM_NOT_FOUND : Z := cm_err 107.
Definition CM_NULL_POINTER : Z := cm_err 108.
Definition CM_MAP_INSERT_ERR : Z := cm_err 109.

Definition CM_INVALID_LCID : Z := 0xFFFF.
Definition CM_INVALID_VERSION : Z := 0xFFFF.
Definition CM_TRANS_INVALID_TCID : Z := 0.
Definition CM_TRANS_INVALID_AID : Z := 3999.
Definition CM_TCID_SLB_CMTC : Z := 0x01.
Definition CM_TCID_UC_BEGIN : Z := 0x80.
Definition CM_TCID_MAX : Z := 0xFF.
Definition CM_ACCESS_TRANS_MODE_MAX : Z := 6.
Definition CM_LINK_STATE_CONNECTING : Z := 1.
Definition CM_LINK_STATE_DISCONNECTING : Z := 3.
Definition CM_TRANS_CHANNEL_STATE_INIT : Z := 0.
Definition CM_TRANS_CHANNEL_STATE_ACTIVATING : Z := 1.
Definition CM_TRANS_CHANNEL_STATE_RELEASING : Z := 3.

Definition CM_TRANS_CHANNEL_IS_FIXED (tcid : Z) : bool := (CM_TCID_SLB_CMTC <=? tcid) && (tcid <=? CM_TCID_SLE_CUTC).
Definition CM_TRANS_CHANNEL_IS_DYNAMIC (tcid : Z) : bool := (CM_TCID_BC_BEGIN <=? tcid) && (tcid <=? CM_TCID_MAX).

(** ** Nodes *)

(** [SleLogicLink_S]; the fields that nothing here reads are left out. *)
Record SleLogicLink := mk_link {
  sl_ptr : Z; sl_status : Z; sl_rmtAddr : SLE_Addr; sl_lcid : Z; sl_role : Z; sl_remotePrivateFeature : bytes;
  sl_companyId : Z; sl_devType : Z; sl_mtu : Z; sl_rxWnd : Z; sl_supportTransMode : Z;
  sl_protocolVersion : Z; sl_exchangeVersion : Z; sl_connCompleteType : Z
}.
#[export] Instance eta_link : Eta SleLogicLink := fun n =>
  mk_link (sl_ptr n) (sl_status n) (sl_rmtAddr n) (sl_lcid n) (sl_role n) (sl_remotePrivateFeature n)
    (sl_companyId n) (sl_devType n) (sl_mtu n) (sl_rxWnd n) (sl_supportTransMode n)
    (sl_protocolVersion n) (sl_exchangeVersion n) (sl_connCompleteType n).

(** [SleTransLcidParam_S]; nothing ever sets its [accessParams]. *)
Record SleTransLcidParam := mk_lcidparam {
  tp_version : Z; tp_localIndex : Z; tp_transModeConfig : CM_TransModeConfig; tp_castMode : Z;
  tp_channelMode : Z; tp_direction : Z; tp_aid : Z; tp_exclusive : Z; tp_srcPort : Z; tp_dstPort : Z;
  tp_slqi : Z; tp_frameType : Z
}.

(** [SleTransLcid_S], with [lastTransid] as two fields. *)
Record SleTransLcid := mk_lcid {
  tl_ptr : Z; tl_lcid : Z; tl_addr : SLE_Addr; tl_state : Z; tl_params : option SleTransLcidParam;
  tl_local : Z; tl_remote : Z
}.
#[export] Instance eta_node : Eta SleTransLcid := fun n =>
  mk_lcid (tl_ptr n) (tl_lcid n) (tl_addr n) (tl_state n) (tl_params n) (tl_local n) (tl_remote n).

Record CM_DynTcidPool := mk_pool { pl_lcid : Z; unicastTcidUsed : list bool }.
#[export] Instance eta_pool : Eta CM_DynTcidPool := fun p => mk_pool (pl_lcid p) (unicastTcidUsed p).

(** An outstanding request: [CM_CachedSignaling_S], with the arguments and the
    procedure of its timeout. *)
Record CM_SignalingTransChanTimoutArgs := mk_args { ta_lcid : Z; ta_srcTcid : Z; ta_dstTcid : Z }.
Inductive CM_SignalingTimeoutCbk := CM_SignalingTransChanEstablishReqTimeout_cbk | CM_SignalingTransChanReleaseReqTimeout_cbk.
Record CM_CachedSignaling := mk_cached {
  cs_lcid : Z; cs_id : Z; cs_code : Z; cs_args : option CM_SignalingTransChanTimoutArgs;
  cs_timer : Z; cs_cbk : option CM_SignalingTimeoutCbk
}.
#[export] Instance eta_cached : Eta CM_CachedSignaling := fun c =>
  mk_cached (cs_lcid c) (cs_id c) (cs_code c) (cs_args c) (cs_timer c) (cs_cbk c).

(** [CM_DynTransChannelCbks_S]: which callbacks are set. *)
Record CM_DynTransChannelCbks := mk_dyncbks {
  has_establishRspCbk : bool; has_releaseRspCbk : bool; has_statusIndicationCbk : bool; has_establishedCheckCbk : bool
}.
Definition no_dyncbks : CM_DynTransChannelCbks := mk_dyncbks false false false false.

(** The callbacks that modules register for changes of the logical links. *)
Inductive CM_LogicLinkCbk := CM_SignalingLogicLinkCbk_fn | DTAP_LogicLinkStateChangeCbk_fn | CM_DynTransLogicLinkCbk_fn | other_fn.

(** ** The globals

    [g_transChannelCbk], [g_sendFunc] and [g_signalingTransChanCbks] are whether they
    are set; [nbc_address] is what [NBC_GetPublicAddress] answers, and [c_next] the address
    the next node gets. *)
Record Cm := mk_cm {
  g_cmIsInited : bool;
  g_deviceLinkListHead : list SleLogicLink;
  g_fixedTransListHead : list SleTransLcid;
  g_dynTransListHead : list SleTransLcid;
  g_transChannelCbk : bool;
  g_cmDynTransPoolListHead : list CM_DynTcidPool;
  g_cmDynTcidIsInited : bool;
  g_channelCbks : CM_DynTransChannelCbks;
  g_cmIsRegistered : bool;
  g_logicLinkCbks : list (option CM_LogicLinkCbk);
  g_signalingTransChanCbks : bool;
  g_sendFunc : bool;
  g_cachedSignalings : option (SDF_Map Z CM_CachedSignaling);
  g_identifier : Z;
  nbc_address : option SLE_Addr;
  c_next : Z
}.
#[export] Instance eta_cm : Eta Cm := fun c =>
  mk_cm (g_cmIsInited c) (g_deviceLinkListHead c) (g_fixedTransListHead c) (g_dynTransListHead c) (g_transChannelCbk c)
    (g_cmDynTransPoolListHead c) (g_cmDynTcidIsInited c) (g_channelCbks c) (g_cmIsRegistered c) (g_logicLinkCbks c)
    (g_signalingTransChanCbks c) (g_sendFunc c) (g_cachedSignalings c) (g_identifier c) (nbc_address c) (c_next c).

(** ** What is below

    The data plane as CM reaches it: [g_transChannelCbk], [g_sendFunc], and the callback
    that the data plane registered for changes of the links. *)
Class Below (W : Type) `{World W} := {
  transChannelCbk : CM_TransChannelStateList -> ST W unit;
  sendFunc : Z -> Z -> Z -> SDF_Buff -> ST W Z;
  dtapLogicLinkCbk : CM_LogicLinkState -> ST W unit
}.

Section state.
Context {W : Type} `{World W}.
Notation M := (ST (Cm * W)).
Implicit Types (p lcid : Z) (addr : SLE_Addr).

Definition cg {A} (f : Cm -> A) : M A := st_gets (fun s => f (fst s)).
Definition cupd (f : Cm -> Cm) : M unit := st_modify (fun s => (f (fst s), snd s)).
Definition cm_ask (c : cm_call) : M Z := ask (CCm c).

(** [SDF_MemZalloc] of a list node: its address. *)
Definition new_node : M (option Z) :=
  let! ok := alloc_ok in
  if negb ok then st_ret None
  else
    let! p := cg c_next in
    cupd (fun c => c <| c_next := p + 1 |>) ;;!
    st_ret (Some p).

(** ** The list of links *)
Definition link_at p (n : SleLogicLink) : bool := sl_ptr n =? p.
Definition get_link p : M SleLogicLink :=
  let! o := cg (fun c => find_first (link_at p) (g_deviceLinkListHead c)) in st_opt o.
Definition set_link p (f : SleLogicLink -> SleLogicLink) : M unit :=
  let! _ := get_link p in
  cupd (fun c => c <| g_deviceLinkListHead ::= update_first (link_at p) f |>).

Definition SleLogicLinkDeInit : M unit := cupd (fun c => c <| g_deviceLinkListHead := [] |>).

Definition SleLogicLinkInit : M unit :=
  let! l := cg g_deviceLinkListHead in
  (if negb (zlen l =? 0) then SleLogicLinkDeInit else st_ret tt) ;;!
  cupd (fun c => c <| g_deviceLinkListHead := [] |>).

Definition CM_PRIVATE_FEATURES_LEN : Z := 16.
Definition CM_PRIVATE_FEATURES_BIT_AUTORATE : Z := 23.
Definition new_features : bytes :=
  <[Z.to_nat (CM_PRIVATE_FEATURES_BIT_AUTORATE / 8) := Z.lor 0 (Z.shiftl 1 (CM_PRIVATE_FEATURES_BIT_AUTORATE mod 8))]>
    (zeros CM_PRIVATE_FEATURES_LEN).

Definition SleLogicLinkAdd addr : M (option Z) :=
  let! node := new_node in
  match node with
  | None => st_ret None
  | Some p =>
      cupd (fun c => c <| g_deviceLinkListHead ::= fun l =>
        l ++ [mk_link p 0 addr CM_INVALID_LCID 0 new_features 0 0 0 0 0 CM_INVALID_VERSION CM_INVALID_VERSION 0] |>) ;;!
      st_ret (Some p)
  end.

Definition SleLogicLinkRemove p : M unit :=
  let! _ := get_link p in
  cupd (fun c => c <| g_deviceLinkListHead ::= remove_first (link_at p) |>).

(** The first link that satisfies [q]; an empty list has none. *)
Definition link_find (q : SleLogicLink -> bool) : M (option Z) :=
  cg (fun c => sl_ptr <$> find_first q (g_deviceLinkListHead c)).
Definition SleLogicLinkGetByAddr addr : M (option Z) := link_find (fun n => bool_decide (sl_rmtAddr n = addr)).
Definition SleLogicLinkGetByLcid lcid : M (option Z) := link_find (fun n => sl_lcid n =? lcid).
Definition SleLogicLinkGetByStatus status : M (option Z) := link_find (fun n => sl_status n =? status).
Definition SleLogicLinkGetConnectedSize : M Z :=
  cg (fun c => u32 (zlen (filter (fun n => sl_status n = CM_LINK_STATE_CONNECTED) (g_deviceLinkListHead c)))).

(** ** What the capabilities of the peer set ([cm_signaling_version.c]) *)
Definition COMPANY_ID_CY : Z := 0x006C.
Definition COMPANY_ID_HUAWEI : Z := 0x0009.
Definition COMPANY_ID_HISI : Z := 0x007C.
Definition CM_DEVTYPE_UNKNOWN : Z := 0.
Definition CM_DEVTYPE_OLD : Z := 1.
Definition CM_DEVTYPE_THIRD_PARTY : Z := 2.
Definition CM_DEVTYPE_NEW : Z := 3.

Definition set_link_of lcid (f : SleLogicLink -> SleLogicLink) : M unit :=
  let! link := SleLogicLinkGetByLcid lcid in
  match link with None => st_ret tt | Some p => set_link p f end.
Definition CM_SetLinkProtocolVersion lcid v : M unit := set_link_of lcid (fun n => n <| sl_protocolVersion := v |>).
Definition CM_SetLinkRxWindow lcid v : M unit := set_link_of lcid (fun n => n <| sl_rxWnd := v |>).
(** [mode] is the value of the bit field [CM_TransMode]. *)
Definition CM_SetLinkTransMode lcid (mode : Z) : M unit :=
  set_link_of lcid (fun n => n <| sl_supportTransMode :=
    Z.lor (Z.lor (Z.land (bf_get mode 0 1) 1) (Z.shiftl (Z.land (bf_get mode 1 1) 1) 1))
          (Z.shiftl (Z.land (bf_get mode 2 1) 1) 2) |>).
Definition CM_SetLinkMtu lcid v : M unit := set_link_of lcid (fun n => n <| sl_mtu := v |>).
Definition CM_SetLinkExchangeVersion lcid v : M unit := set_link_of lcid (fun n => n <| sl_exchangeVersion := v |>).

Definition known_company (n : SleLogicLink) : bool :=
  (sl_companyId n =? COMPANY_ID_CY) || (sl_companyId n =? COMPANY_ID_HUAWEI) || (sl_companyId n =? COMPANY_ID_HISI).

Definition CM_GetDeviceLinkDeviceType lcid : M Z :=
  let! link := SleLogicLinkGetByLcid lcid in
  match link with
  | None => st_ret CM_DEVTYPE_UNKNOWN
  | Some p =>
      let! n := get_link p in
      if negb (sl_devType n =? CM_DEVTYPE_UNKNOWN) then st_ret (sl_devType n)
      else if negb (known_company n) then
        set_link p (fun n => n <| sl_devType := CM_DEVTYPE_THIRD_PARTY |>) ;;! st_ret CM_DEVTYPE_THIRD_PARTY
      else st_ret CM_DEVTYPE_OLD
  end.

Definition CM_SetDeviceLinkDeviceType lcid (hasVerBit : bool) : M unit :=
  set_link_of lcid (fun n =>
    if CM_DEVTYPE_OLD <=? sl_devType n then n
    else if negb (known_company n) then n <| sl_devType := CM_DEVTYPE_THIRD_PARTY |>
    else if hasVerBit || negb (sl_protocolVersion n =? CM_INVALID_VERSION) then n <| sl_devType := CM_DEVTYPE_NEW |>
    else n <| sl_devType := CM_DEVTYPE_OLD |>).

(** [CM_GetLogicLinkCapInfo]: the code, and the window, the modes and the MTU. *)
Definition CM_GetLogicLinkCapInfo addr : M (Z * option (Z * Z * Z)) :=
  let! link := SleLogicLinkGetByAddr addr in
  match link with
  | None => st_ret (CM_NOT_FOUND, None)
  | Some p =>
      let! n := get_link p in
      st_ret (CM_SUCCESS, Some (sl_rxWnd n, sl_supportTransMode n, sl_mtu n))
  end.

(** ** The registries of [cm_api.c] and [cm_logic_link_listener_mgr.c] *)
Definition CM_MODULE_CM_SIGNALING : Z := 1.
Definition CM_MODULE_DTAP : Z := 2.
Definition CM_MODULE_CM_DYNTRANS : Z := 6.
Definition CM_MODULE_ID_MAX : Z := 9.

Definition CM_RegLogicLinkListener (moduleId : Z) (cbk : CM_LogicLinkCbk) : M Z :=
  let! inited := cg g_cmIsInited in
  if negb inited then st_ret CM_NOT_INITED
  else if CM_MODULE_ID_MAX <=? moduleId then st_ret CM_INVALID_PARAM_ERR
  else cupd (fun c => c <| g_logicLinkCbks ::= <[Z.to_nat moduleId := Some cbk]> |>) ;;! st_ret CM_SUCCESS.

Definition CM_UnRegLogicLinkListener (moduleId : Z) : M Z :=
  let! inited := cg g_cmIsInited in
  if negb inited then st_ret CM_NOT_INITED
  else if CM_MODULE_ID_MAX <=? moduleId then st_ret CM_INVALID_PARAM_ERR
  else cupd (fun c => c <| g_logicLinkCbks ::= <[Z.to_nat moduleId := None]> |>) ;;! st_ret CM_SUCCESS.

Definition CM_RegTransChannelListener : M Z :=
  let! inited := cg g_cmIsInited in
  if negb inited then st_ret CM_NOT_INITED
  else cupd (fun c => c <| g_transChannelCbk := true |>) ;;! st_ret CM_SUCCESS.

Definition CM_UnRegTransChannelListener : M unit :=
  let! inited := cg g_cmIsInited in
  if negb inited then st_ret tt else cupd (fun c => c <| g_transChannelCbk := false |>).
End state.
