(* ===== verification/CmTcid.v ===== *)
(** * Identifiers of dynamic channels

    [services/stack/src/cp/bsl/sle/cm/dyntrans/src/cm_dyn_tcid.c]: per logical link a
    table of the 96 identifiers for unicast channels that are in use. *)
From S2P Require Import Prelude SdfBuff SdfErrno CmData DtapEnv DtapChannel CmState.

Definition CM_DYN_UNICAST_TCID_SIZE_MAX : Z := CM_TCID_UC_END - CM_TCID_UC_BEGIN + 1.

Section tcid.
Context {W : Type} `{World W}.
Notation M := (ST (Cm * W)).

Definition CM_DynTcidInit : M unit :=
  let! inited := cg g_cmDynTcidIsInited in
  if inited then st_ret tt
  else cupd (fun c => c <| g_cmDynTransPoolListHead := [] |> <| g_cmDynTcidIsInited := true |>).

Definition pool_of (lcid : Z) (p : CM_DynTcidPool) : bool := pl_lcid p =? lcid.

(** The pool of a link; [None] is the null pointer. *)
Definition CM_DynTransGetTcidPool (lcid : Z) : M (option CM_DynTcidPool) :=
  cg (fun c => find_first (pool_of lcid) (g_cmDynTransPoolListHead c)).
(** A store through the pointer that the search answered. *)
Definition set_pool (lcid : Z) (used : list bool) : M unit :=
  cupd (fun c => c <| g_cmDynTransPoolListHead ::= update_first (pool_of lcid) (fun p => p <| unicastTcidUsed := used |>) |>).

Definition CM_DynTcidActivatePool (lcid : Z) : M Z :=
  let! node := CM_DynTransGetTcidPool lcid in
  match node with
  | Some _ => st_ret CM_SUCCESS
  | None =>
      let! ok := alloc_ok in
      if negb ok then st_ret CM_MEM_ERR
      else
        cupd (fun c => c <| g_cmDynTransPoolListHead ::= fun l =>
          l ++ [mk_pool lcid (replicate (Z.to_nat CM_DYN_UNICAST_TCID_SIZE_MAX) false)] |>) ;;!
        st_ret CM_SUCCESS
  end.

Definition CM_DynTcidDestroyPool (lcid : Z) : M Z :=
  let! node := CM_DynTransGetTcidPool lcid in
  match node with
  | None => st_ret CM_SUCCESS
  | Some _ =>
      cupd (fun c => c <| g_cmDynTransPoolListHead ::= remove_first (pool_of lcid) |>) ;;!
      st_ret CM_SUCCESS
  end.

Definition CM_DynTcidDeInit : M unit :=
  let! inited := cg g_cmDynTcidIsInited in
  if negb inited then st_ret tt
  else
    let! l := cg g_cmDynTransPoolListHead in
    st_for l (fun node => let! _ := CM_DynTcidDestroyPool (pl_lcid node) in st_ret tt) ;;!
    cupd (fun c => c <| g_cmDynTcidIsInited := false |>).

(** The loop from the index [i], which is [uint8_t], for at most [n] rounds; answers the
    index of the first identifier that is free. *)
Fixpoint unicast_loop (n : nat) (used : list bool) (i minValue maxValue : Z) : option Z :=
  match n with
  | O => None
  | Datatypes.S n' =>
      if (i <? zlen used) && (i <=? maxValue - minValue) then
        match used !! Z.to_nat i with
        | Some false => Some i
        | _ => unicast_loop n' used (u8 (i + 1)) minValue maxValue
        end
      else None
  end.

(** Answers the identifier and the table. *)
Definition CM_DynAllocateUnicastTcid (node : CM_DynTcidPool) (minValue maxValue : Z) : Z * list bool :=
  match unicast_loop 256 (unicastTcidUsed node) 0 minValue maxValue with
  | Some i => (u8 (i + minValue), <[Z.to_nat i := true]> (unicastTcidUsed node))
  | None => (CM_TRANS_INVALID_TCID, unicastTcidUsed node)
  end.

Definition CM_DynReturnAllocatedUnicastTcid (node : CM_DynTcidPool) (tcid minValue maxValue : Z) : Z * list bool :=
  let used := unicastTcidUsed node in
  if (tcid <? minValue) || (maxValue <? tcid) || (zlen used <=? tcid - minValue) then (CM_FAIL, used)
  else
    match used !! Z.to_nat (tcid - minValue) with
    | Some true => (CM_SUCCESS, <[Z.to_nat (tcid - minValue) := false]> used)
    | _ => (CM_FAIL, used)
    end.

Definition CM_DynTcidAllocate (lcid transportMode : Z) : M Z :=
  let! node := CM_DynTransGetTcidPool lcid in
  match node with
  | None => st_ret CM_TRANS_INVALID_TCID
  | Some node =>
      if transportMode =? CM_ACCESS_TRANS_MODE_UNICAST then
        let (newTcid, used) := CM_DynAllocateUnicastTcid node CM_TCID_UC_BEGIN CM_TCID_UC_END in
        set_pool lcid used ;;! st_ret newTcid
      else st_ret CM_TRANS_INVALID_TCID
  end.

Definition CM_DynTcidRelease (lcid tcid transportMode : Z) : M Z :=
  let! node := CM_DynTransGetTcidPool lcid in
  match node with
  | None => st_ret CM_FAIL
  | Some node =>
      if transportMode =? CM_ACCESS_TRANS_MODE_UNICAST then
        let (ret, used) := CM_DynReturnAllocatedUnicastTcid node tcid CM_TCID_UC_BEGIN CM_TCID_UC_END in
        set_pool lcid used ;;! st_ret ret
      else st_ret CM_FAIL
  end.
End tcid.
