(* ===== verification/CmChannel.v ===== *)
(** * CM's list of transmission channels

    [services/stack/src/cp/bsl/sle/cm/link/src/cm_trans_channel_mgr.c]: the fixed
    channels of every link and the dynamic ones, and the reports to the data plane when
    they are activated and released. *)
From S2P Require Import Prelude SdfErrno SdfBuff SdfContainers CmData DtapEnv DtapTrans DtapChannel CmState.
Export SdfContainers.Vector.

Definition g_TransFixedChannels : list Z := [CM_TCID_SLE_CMTC; CM_TCID_SLE_SMTC; CM_TCID_SLE_CUTC].

(** [CM_DynTransChanParam_S], without [accessParams], which is never set. *)
Record CM_DynTransChanParam := mk_dynparam {
  dp_version : Z; dp_localIndex : Z; dp_lcid : Z; dp_reqId : Z; dp_localTcid : Z; dp_remoteTcid : Z;
  dp_srcPort : Z; dp_dstPort : Z; dp_transModeConfig : CM_TransModeConfig; dp_channelMode : Z; dp_direction : Z;
  dp_aid : Z; dp_slqi : Z; dp_exclusive : Z; dp_measure : bool; dp_expectedTransportMode : Z; dp_result : Z;
  dp_state : Z; dp_frameType : Z
}.
#[export] Instance eta_dynparam : Eta CM_DynTransChanParam := fun p =>
  mk_dynparam (dp_version p) (dp_localIndex p) (dp_lcid p) (dp_reqId p) (dp_localTcid p) (dp_remoteTcid p)
    (dp_srcPort p) (dp_dstPort p) (dp_transModeConfig p) (dp_channelMode p) (dp_direction p)
    (dp_aid p) (dp_slqi p) (dp_exclusive p) (dp_measure p) (dp_expectedTransportMode p) (dp_result p)
    (dp_state p) (dp_frameType p).

Definition zero_config : CM_TransModeConfig := mk_conf 0 0 0 (mk_relconf 0 0 0 0 0 0) (mk_strconf 0 0 0).
Definition zero_dynparam : CM_DynTransChanParam :=
  mk_dynparam 0 0 0 0 0 0 0 0 zero_config 0 0 0 0 0 false 0 0 0 0.

(** The configuration of a channel without parameters: the members that the code sets, and
    zero. *)
Definition basic_config : CM_TransModeConfig :=
  mk_conf CM_TRANS_MODE_BASIC 65535 65535 (mk_relconf 0 0 0 0 0 0) (mk_strconf 0 0 0).
Definition channel_config (node : SleTransLcid) : CM_TransModeConfig :=
  match tl_params node with Some p => tp_transModeConfig p | None => basic_config end.

Section channel.
Context {W : Type} `{Below W}.
Notation M := (ST (Cm * W)).
Implicit Types (p lcid tcid : Z).

Definition CM_TransChannelMgrInit : M unit :=
  cupd (fun c => c <| g_fixedTransListHead := [] |> <| g_dynTransListHead := [] |>).
Definition CM_TransChannelMgrDeInit : M unit :=
  cupd (fun c => c <| g_fixedTransListHead := [] |> <| g_dynTransListHead := [] |>).

Definition CM_RegTransChannelCbk (cbk : bool) : M Z :=
  cupd (fun c => c <| g_transChannelCbk := cbk |>) ;;! st_ret CM_SUCCESS.
Definition CM_UnRegTransChannelCbk : M unit := cupd (fun c => c <| g_transChannelCbk := false |>).

(** ** Nodes *)
Definition node_at p (node : SleTransLcid) : bool := tl_ptr node =? p.
Definition of_lcid lcid (node : SleTransLcid) : bool := tl_lcid node =? lcid.

(** The node behind a pointer. *)
Definition get_node p : M SleTransLcid :=
  let! o := cg (fun c => find_first (node_at p) (g_fixedTransListHead c ++ g_dynTransListHead c)) in st_opt o.
Definition set_node p (f : SleTransLcid -> SleTransLcid) : M unit :=
  let! _ := get_node p in
  cupd (fun c => c <| g_fixedTransListHead ::= update_first (node_at p) f |>
                   <| g_dynTransListHead ::= update_first (node_at p) f |>).

(** ** Searches *)
Definition CM_IsExistFixedTransChannelByLcid lcid : M bool :=
  cg (fun c => existsb (of_lcid lcid) (g_fixedTransListHead c)).
Definition CM_IsExistDynamicTransChannelByLcid lcid : M bool :=
  cg (fun c => existsb (of_lcid lcid) (g_dynTransListHead c)).

(** [SDF_VectorEmplaceBack]: a full vector asks for memory; the code ignores its answer. *)
Definition vector_push {A} (v : SDF_Vector A) (a : A) : M (SDF_Vector A) :=
  let! ok := (if capacity v =? vsize v then alloc_ok else st_ret true) in
  st_ret (snd (SDF_VectorEmplaceBack ok v (Some a))).
Definition create_vector {A} (hasDtor : bool) : M (option (SDF_Vector A)) :=
  let! ok1 := alloc_ok in
  if negb ok1 then st_ret None
  else let! ok2 := alloc_ok in st_ret (SDF_CreateVector ok1 ok2 hasDtor).

Fixpoint push_nodes lcid (l : list SleTransLcid) (v : SDF_Vector Z) : M (SDF_Vector Z) :=
  match l with
  | [] => st_ret v
  | node :: l' =>
      if tl_lcid node =? lcid then let! v := vector_push v (tl_ptr node) in push_nodes lcid l' v
      else push_nodes lcid l' v
  end.

(** The code, and the vector with the pointers of the nodes found. *)
Definition CM_FindFixedTransChannelByLcid lcid (transVector : SDF_Vector Z) : M (Z * SDF_Vector Z) :=
  let! l := cg g_fixedTransListHead in
  let! v := push_nodes lcid l transVector in
  st_ret (if vsize v =? 0 then CM_NOT_FOUND else CM_SUCCESS, v).
Definition CM_FindDynTransChannelByLcid lcid (transVector : SDF_Vector Z) : M (Z * SDF_Vector Z) :=
  let! l := cg g_dynTransListHead in
  let! v := push_nodes lcid l transVector in
  st_ret (if vsize v =? 0 then CM_NOT_FOUND else CM_SUCCESS, v).

Definition local_is lcid tcid (node : SleTransLcid) : bool := (tl_lcid node =? lcid) && (tl_local node =? tcid).
Definition remote_is lcid tcid (node : SleTransLcid) : bool := (tl_lcid node =? lcid) && (tl_remote node =? tcid).

Definition CM_FindTransChannelByLocalTcid lcid tcid : M (option Z) :=
  if CM_TRANS_CHANNEL_IS_FIXED tcid then cg (fun c => tl_ptr <$> find_first (local_is lcid tcid) (g_fixedTransListHead c))
  else cg (fun c => tl_ptr <$> find_first (local_is lcid tcid) (g_dynTransListHead c)).
Definition CM_FindTransChannelByRemoteTcid lcid tcid : M (option Z) :=
  if CM_TRANS_CHANNEL_IS_FIXED tcid then cg (fun c => tl_ptr <$> find_first (remote_is lcid tcid) (g_fixedTransListHead c))
  else cg (fun c => tl_ptr <$> find_first (remote_is lcid tcid) (g_dynTransListHead c)).

(** ** New channels *)

(** The node, in no list yet. *)
Definition CM_AllocTransChannelNode lcid (addr : SLE_Addr) (params : option SleTransLcidParam) (localTcid remoteTcid : Z) :
    M (option SleTransLcid) :=
  let! node := new_node in
  match node with
  | None => st_ret None
  | Some p =>
      match params with
      | None => st_ret (Some (mk_lcid p lcid addr 0 None (u8 localTcid) (u8 remoteTcid)))
      | Some params =>
          let! ok := alloc_ok in
          if negb ok then st_ret None
          else st_ret (Some (mk_lcid p lcid addr 0 (Some params) (u8 localTcid) (u8 remoteTcid)))
      end
  end.

Definition CM_AllocTransChannel lcid (params : option SleTransLcidParam) (localTcid remoteTcid channelState : Z) :
    M (option Z) :=
  let! sll := SleLogicLinkGetByLcid lcid in
  match sll with
  | None => st_ret None
  | Some sll =>
      let! link := get_link sll in
      let! node := CM_AllocTransChannelNode lcid (sl_rmtAddr link) params localTcid remoteTcid in
      match node with
      | None => st_ret None
      | Some node =>
          let node := node <| tl_state := channelState |> in
          (if CM_TRANS_CHANNEL_IS_FIXED localTcid
           then cupd (fun c => c <| g_fixedTransListHead ::= fun l => l ++ [node] |>)
           else cupd (fun c => c <| g_dynTransListHead ::= fun l => l ++ [node] |>)) ;;!
          st_ret (Some (tl_ptr node))
      end
  end.

(** ** Reports to the data plane *)
Definition fixed_chan (node : SleTransLcid) : CM_TransChan :=
  mk_param CM_ACCESS_TRANS_MODE_UNICAST (tl_lcid node) (tl_local node) (tl_remote node) (channel_config node).
Definition dyn_chan (node : SleTransLcid) : CM_TransChan :=
  mk_param (match tl_params node with Some p => tp_castMode p | None => 0 end)
    (tl_lcid node) (tl_local node) (tl_remote node) (channel_config node).

(** The vector with the channels of the link; [None] when memory ran out. *)
Fixpoint push_channels lcid (l : list SleTransLcid) (v : SDF_Vector CM_TransChan) :
    M (option (SDF_Vector CM_TransChan)) :=
  match l with
  | [] => st_ret (Some v)
  | node :: l' =>
      if negb (lcid =? tl_lcid node) then push_channels lcid l' v
      else
        let! ok := alloc_ok in
        if negb ok then st_ret None
        else let! v := vector_push v (fixed_chan node) in push_channels lcid l' v
  end.

Definition CM_FixedTransChannelChangeCbk lcid (state : Z) : M Z :=
  let! cbk := cg g_transChannelCbk in
  if negb cbk then st_ret CM_SUCCESS
  else
    let! channelVector := create_vector true in
    match channelVector with
    | None => st_ret CM_FAIL
    | Some v =>
        let! l := cg g_fixedTransListHead in
        let! v := push_channels lcid l v in
        match v with
        | None => st_ret CM_FAIL
        | Some v =>
            over (transChannelCbk (mk_states state (Some (vlist v)))) ;;!
            st_ret CM_SUCCESS
        end
    end.

Definition CM_DynTransChannelChangeCbk p (state : Z) : M unit :=
  let! cbk := cg g_transChannelCbk in
  if negb cbk then st_ret tt
  else
    let! channelVector := create_vector true in
    match channelVector with
    | None => st_ret tt
    | Some v =>
        let! ok := alloc_ok in
        if negb ok then st_ret tt
        else
          let! node := get_node p in
          let! v := vector_push v (dyn_chan node) in
          over (transChannelCbk (mk_states state (Some (vlist v))))
    end.

(** ** Destruction *)
Definition CM_TransChannelDestroyOneNode p (fixed : bool) : M unit :=
  let! _ := get_node p in
  if fixed then cupd (fun c => c <| g_fixedTransListHead ::= remove_first (node_at p) |>)
  else cupd (fun c => c <| g_dynTransListHead ::= remove_first (node_at p) |>).

(** Until the first null element. *)
Fixpoint destroy_nodes (l : list (option Z)) (fixed : bool) : M unit :=
  match l with
  | Some p :: l' => CM_TransChannelDestroyOneNode p fixed ;;! destroy_nodes l' fixed
  | _ => st_ret tt
  end.
Definition CM_TransChannelDestroyListNode (transChannelVector : SDF_Vector Z) (fixed : bool) : M unit :=
  destroy_nodes (vlist transChannelVector) fixed.

Definition CM_FixedTransChannelFreeListNode lcid (transChannelVector : SDF_Vector Z) : M unit :=
  let! _ := CM_FixedTransChannelChangeCbk lcid CM_TRANS_CHANNEL_STATE_RELEASED in
  CM_TransChannelDestroyListNode transChannelVector true.

Definition CM_DynTransChannelFreeListNode p : M unit :=
  CM_DynTransChannelChangeCbk p CM_TRANS_CHANNEL_STATE_RELEASED ;;!
  CM_TransChannelDestroyOneNode p false.

Definition CM_ReleaseFixedTransChannel lcid : M unit :=
  let! transChannelVector := create_vector false in
  match transChannelVector with
  | None => st_ret tt
  | Some v =>
      let! (ret, v) := CM_FindFixedTransChannelByLcid lcid v in
      if negb (ret =? CM_SUCCESS) then st_ret tt
      else CM_FixedTransChannelFreeListNode lcid v
  end.

Definition CM_ReleaseDynamicTransChannelByLocalTcid (node : option Z) : M unit :=
  match node with
  | None => st_ret tt
  | Some p => let! _ := get_node p in CM_DynTransChannelFreeListNode p
  end.
Definition CM_ReleaseDynamicTransChannelByRemoteTcid (node : option Z) : M unit :=
  match node with
  | None => st_ret tt
  | Some p => let! _ := get_node p in CM_DynTransChannelFreeListNode p
  end.

(** ** Activation *)
Fixpoint activate_fixed lcid (params : option SleTransLcidParam) (tcids : list Z) : M Z :=
  match tcids with
  | [] =>
      let! _ := CM_FixedTransChannelChangeCbk lcid CM_TRANS_CHANNEL_STATE_ACTIVATED in
      st_ret CM_SUCCESS
  | t :: tcids' =>
      let! node := CM_AllocTransChannel lcid params t t CM_TRANS_CHANNEL_STATE_ACTIVATED in
      match node with
      | None => CM_ReleaseFixedTransChannel lcid ;;! st_ret CM_FAIL
      | Some _ => activate_fixed lcid params tcids'
      end
  end.
Definition CM_ActivateFixedTransChannel lcid (params : option SleTransLcidParam) : M Z :=
  let! found := CM_IsExistFixedTransChannelByLcid lcid in
  if found then st_ret CM_FAIL else activate_fixed lcid params g_TransFixedChannels.

(** The parameters a dynamic channel keeps; [castMode] stays zero. *)
Definition dyn_params (params : CM_DynTransChanParam) : SleTransLcidParam :=
  mk_lcidparam (dp_version params) (dp_localIndex params) (dp_transModeConfig params) 0 (dp_channelMode params)
    (dp_direction params) (dp_aid params) 1 (dp_srcPort params) (dp_dstPort params) (dp_slqi params) (dp_frameType params).

Definition CM_ActivateDynamicTransChannel lcid (params : CM_DynTransChanParam) : M (option Z) :=
  if dp_localTcid params =? CM_TRANS_INVALID_TCID then st_ret None
  else
    let! node := CM_AllocTransChannel lcid (Some (dyn_params params)) (dp_localTcid params) (dp_remoteTcid params) (dp_state params) in
    match node with
    | None => st_ret None
    | Some p =>
        (if dp_state params =? CM_TRANS_CHANNEL_STATE_ACTIVATED then CM_DynTransChannelChangeCbk p (dp_state params)
         else st_ret tt) ;;!
        st_ret (Some p)
    end.

Definition CM_DynamicTransChannelSetTcidAndChangeCbk (node : option Z) (remoteTcid state : Z) : M unit :=
  match node with
  | None => st_ret tt
  | Some p =>
      set_node p (fun n => n <| tl_state := state |> <| tl_remote := remoteTcid |>) ;;!
      if state =? CM_TRANS_CHANNEL_STATE_ACTIVATED then CM_DynTransChannelChangeCbk p state else st_ret tt
  end.
End channel.
