(* ===== verification/CmSignal.v ===== *)
(** * Signaling packets

    The packing and the parsing of the signaling between the connection managers of two
    devices ([services/stack/src/cp/bsl/sle/cm/signaling/src/cm_signaling_trans_channel.c],
    the headers in [cm_signaling_cap.c]).  A packet under construction is a zeroed block of
    the size that the code computes; a received packet is the header with the bytes
    behind it, and a read beyond them is undefined.

    [CM_SignalingTransModeConfig_S] and [CM_TransModeConfig_S] have the same layout and are
    copied into each other; here they are one type. *)
From S2P Require Import Prelude Utils SdfErrno SdfBuff CmData DtapEnv DtapTrans DtapChannel CmState.

Definition CM_SLQI_SURPPORT_NUM : Z := 1.
(** [sizeof] of the packed structures *)
Definition sizeof_SignalingHead : Z := 4.
Definition sizeof_CommonConfig : Z := 5.
Definition sizeof_StreamConfig : Z := 6.
Definition sizeof_ReliableConfig : Z := 10.
Definition CM_SLQI_SIZE : Z := 1 + CM_SLQI_SURPPORT_NUM.
Definition sizeof_EstablishReqExt : Z := 2.
Definition sizeof_PortConfig : Z := 6.
Definition sizeof_EstablishReqPkt : Z := 3.
Definition sizeof_EstablishRspPkt : Z := 4.
Definition sizeof_ReleaseReqPkt : Z := 2.
Definition sizeof_ReleaseRspPkt : Z := 3.

(** [CM_SignalingCode_S], as far as it is used *)
Definition CAPABILITY_REQ : Z := 0x1.
Definition CAPABILITY_RSP : Z := 0x2.
Definition TC_CONNECT_REQ : Z := 0x10.
Definition TC_CONNECT_RSP : Z := 0x11.
Definition TC_DISCONNECT_REQ : Z := 0x12.
Definition TC_DISCONNECT_RSP : Z := 0x13.

Definition CM_RESULT_ESTABLISH_SUCCESS : Z := 0.
Definition CM_RESULT_INSUFFICIENT_RESOURCE : Z := 1.
Definition CM_RESULT_UNSUPPORTED_MTU_SIZE : Z := 2.
Definition CM_RESULT_ESTABLISH_TIMEOUT : Z := 5.
Definition CM_RESULT_RELEASE_SUCCESS : Z := 0.
Definition CM_RESULT_RELEASE_TIMEOUT : Z := 1.

Record CM_SignalingPortConfig := mk_port { pc_srcPort : Z; pc_dstPort : Z; pc_aid : Z }.
Record CM_SignalingPreferredSlqiList := mk_slqi { slqiNum : Z; slqi0 : Z }.
Record CM_SignalingTransChanEstablishReq := mk_ereq {
  eq_srcTcid : Z; eq_exclusive : bool; eq_measure : bool; eq_transModeConfig : CM_TransModeConfig;
  eq_slqiList : CM_SignalingPreferredSlqiList; eq_portConfig : option CM_SignalingPortConfig
}.
#[export] Instance eta_ereq : Eta CM_SignalingTransChanEstablishReq := fun r =>
  mk_ereq (eq_srcTcid r) (eq_exclusive r) (eq_measure r) (eq_transModeConfig r) (eq_slqiList r) (eq_portConfig r).
Record CM_SignalingTransChanEstablishRsp := mk_ersp { es_srcTcid : Z; es_dstTcid : Z; es_result : Z }.
Record CM_SignalingTransChanReleaseReq := mk_rreq { rq_srcTcid : Z; rq_dstTcid : Z }.
Record CM_SignalingTransChanReleaseRsp := mk_rrsp { rs_srcTcid : Z; rs_dstTcid : Z; rs_result : Z }.

(** A received packet: [CM_SignalingHead_S] and what follows it. *)
Record CM_SignalingHead := mk_head { h_code : Z; h_identifier : Z; h_length : Z; h_data : bytes }.

(** ** Packing

    The functions write into [data] at [p] and answer the code, the block and the offset. *)
Definition enc2 (m : bytes) (p v : Z) : option bytes := wr m p (ENCODE2BYTE_LITTLE v).

Definition CM_SignalingTranModeStreamConfigPack (c : CM_TransStreamModeConfig) (m : bytes) (p : Z) : option (Z * bytes) :=
  m ← enc2 m p (sc_flushTimeout c);
  m ← enc2 m (p + 2) (sc_reorderTimeout c);
  m ← enc2 m (p + 4) (sc_crcInit c);
  Some (CM_SUCCESS, m).

Definition CM_SignalingTranModeReliableConfigPack (c : CM_TransReliableModeConfig) (m : bytes) (p : Z) : option (Z * bytes) :=
  m ← wr m p [u8 (rc_txWindow c)];
  m ← wr m (p + 1) [u8 (rc_maxTxThreshold c)];
  m ← enc2 m (p + 2) (rc_retransTimeout c);
  m ← enc2 m (p + 4) (rc_rspTimeout c);
  m ← enc2 m (p + 6) (rc_reorderTimeout c);
  m ← enc2 m (p + 8) (rc_crcInit c);
  Some (CM_SUCCESS, m).

Definition CM_SignalingTranModeConfigPack (c : CM_TransModeConfig) (m : bytes) (p : Z) : option (Z * bytes * Z) :=
  if CM_TRANS_MODE_MAX <=? transMode c then Some (CM_INVALID_PARAM_ERR, m, 0)
  else
    m ← set_bits8 m p 0 4 (transMode c);
    m ← enc2 m (p + 1) (cf_mtu c);
    m ← enc2 m (p + 3) (cf_mps c);
    let offset := sizeof_CommonConfig in
    if transMode c =? CM_TRANS_MODE_STREAM then
      '(ret, m) ← CM_SignalingTranModeStreamConfigPack (streamMode c) m (p + offset);
      Some (ret, m, u8 (offset + sizeof_StreamConfig))
    else if transMode c =? CM_TRANS_MODE_RELIABLE then
      '(ret, m) ← CM_SignalingTranModeReliableConfigPack (reliableMode c) m (p + offset);
      Some (ret, m, u8 (offset + sizeof_ReliableConfig))
    else Some (CM_SUCCESS, m, offset).

Definition CM_SignalingPreferredSlqiListPack (l : CM_SignalingPreferredSlqiList) (m : bytes) (p offset : Z) :
    option (Z * bytes * Z) :=
  if negb (slqiNum l =? CM_SLQI_SURPPORT_NUM) then Some (CM_INVALID_PARAM_ERR, m, offset)
  else
    m ← set_bits8 m p 0 4 (slqiNum l);
    m ← wr m (p + 1) [u8 (slqi0 l)];
    Some (CM_SUCCESS, m, CM_SLQI_SIZE).

Definition CM_SignalingExtensionPack (portConfig : option CM_SignalingPortConfig) (m : bytes) (p offset : Z) :
    option (Z * bytes * Z) :=
  match portConfig with
  | None => Some (CM_SUCCESS, m, offset)
  | Some c =>
      m ← set_bits16 m p 0 1 1;
      m ← set_bits16 m p 2 1 0;
      m ← set_bits16 m p 1 1 0;
      let q := p + sizeof_EstablishReqExt in
      m ← enc2 m (q + 2) (pc_srcPort c);
      m ← enc2 m q (pc_dstPort c);
      m ← enc2 m (q + 4) (pc_aid c);
      Some (CM_SUCCESS, m, sizeof_EstablishReqExt + sizeof_PortConfig)
  end.

Definition CM_SignalingEstablishReqSizeGet (req : CM_SignalingTransChanEstablishReq) : Z :=
  let mode := transMode (eq_transModeConfig req) in
  u16 (sizeof_EstablishReqPkt + sizeof_CommonConfig
       + (if mode =? CM_TRANS_MODE_STREAM then sizeof_StreamConfig
          else if mode =? CM_TRANS_MODE_RELIABLE then sizeof_ReliableConfig else 0)
       + CM_SLQI_SIZE
       + match eq_portConfig req with Some _ => sizeof_EstablishReqExt + sizeof_PortConfig | None => 0 end).

Definition b2z (b : bool) : Z := if b then 1 else 0.

(** Writes the packet into the zeroed block: [Some None] is its null result, [None] a store
    outside the block. *)
Definition establish_req_bytes (req : CM_SignalingTransChanEstablishReq) (m : bytes) : option (option bytes) :=
  m ← wr m 0 [u8 (eq_srcTcid req)];
  m ← set_bits8 m 2 0 1 (b2z (eq_exclusive req));
  m ← set_bits8 m 2 1 1 (b2z (eq_measure req));
  let totalOff := sizeof_EstablishReqPkt in
  '(ret, m, offset) ← CM_SignalingTranModeConfigPack (eq_transModeConfig req) m totalOff;
  if negb (ret =? CM_SUCCESS) then Some None
  else
    let totalOff := u8 (totalOff + offset) in
    '(ret, m, offset) ← CM_SignalingPreferredSlqiListPack (eq_slqiList req) m totalOff offset;
    if negb (ret =? CM_SUCCESS) then Some None
    else
      let totalOff := u8 (totalOff + offset) in
      '(ret, m, _) ← CM_SignalingExtensionPack (eq_portConfig req) m totalOff offset;
      if negb (ret =? CM_SUCCESS) then Some None
      else
        match eq_portConfig req with
        | Some _ => m ← wr m 1 [totalOff]; Some (Some m)
        | None => Some (Some m)
        end.

Definition establish_rsp_bytes (rsp : CM_SignalingTransChanEstablishRsp) : bytes :=
  [u8 (es_srcTcid rsp); u8 (es_dstTcid rsp); u8 (es_result rsp); bf_set 0 0 1 0].
Definition release_req_bytes (req : CM_SignalingTransChanReleaseReq) : bytes := [u8 (rq_srcTcid req); u8 (rq_dstTcid req)].
Definition release_rsp_bytes (rsp : CM_SignalingTransChanReleaseRsp) : bytes :=
  [u8 (rs_srcTcid rsp); u8 (rs_dstTcid rsp); u8 (rs_result rsp)].

(** ** Parsing

    [data] is the packet's data and [p] the place in it, [dataLen] what the code takes for
    the number of bytes from there on. *)
Definition CM_SignalingTransModeStreamConfigParse (data : bytes) (p dataLen : Z) : option (Z * CM_TransStreamModeConfig) :=
  if dataLen <? sizeof_StreamConfig then Some (CM_INVALID_PARAM_ERR, mk_strconf 0 0 0)
  else
    flush ← DECODE2BYTE_LITTLE data p;
    reorder ← DECODE2BYTE_LITTLE data (p + 2);
    crc ← DECODE2BYTE_LITTLE data (p + 4);
    Some (CM_SUCCESS, mk_strconf reorder crc flush).

Definition CM_SignalingTransModeReliableConfigParse (data : bytes) (p dataLen : Z) : option (Z * CM_TransReliableModeConfig) :=
  if dataLen <? sizeof_ReliableConfig then Some (CM_INVALID_PARAM_ERR, mk_relconf 0 0 0 0 0 0)
  else
    txWindow ← rd data p;
    maxTx ← rd data (p + 1);
    retrans ← DECODE2BYTE_LITTLE data (p + 2);
    rsp ← DECODE2BYTE_LITTLE data (p + 4);
    reorder ← DECODE2BYTE_LITTLE data (p + 6);
    crc ← DECODE2BYTE_LITTLE data (p + 8);
    Some (CM_SUCCESS, mk_relconf reorder crc retrans rsp txWindow maxTx).

(** The parsed part of a configuration that was zero. *)
Definition CM_SignalingTransModeConfigParse (data : bytes) (p dataLen offset : Z) : option (Z * CM_TransModeConfig * Z) :=
  let zero_rel := mk_relconf 0 0 0 0 0 0 in
  let zero_str := mk_strconf 0 0 0 in
  if dataLen <? sizeof_CommonConfig then Some (CM_INVALID_PARAM_ERR, mk_conf 0 0 0 zero_rel zero_str, offset)
  else
    b ← rd data p;
    let mode := bf_get b 0 4 in
    if negb ((mode <? CM_TRANS_MODE_MAX) && negb (mode =? CM_TRANS_MODE_TRANSPARENT))
    then Some (CM_INVALID_PARAM_ERR, mk_conf 0 0 0 zero_rel zero_str, offset)
    else
      mtu ← DECODE2BYTE_LITTLE data (p + 1);
      mps ← DECODE2BYTE_LITTLE data (p + 3);
      let offset := sizeof_CommonConfig in
      if mode =? CM_TRANS_MODE_STREAM then
        '(ret, c) ← CM_SignalingTransModeStreamConfigParse data (p + offset) (u16 (dataLen - offset));
        Some (ret, mk_conf mode mtu mps zero_rel c, u8 (offset + sizeof_StreamConfig))
      else if mode =? CM_TRANS_MODE_RELIABLE then
        '(ret, c) ← CM_SignalingTransModeReliableConfigParse data (p + offset) (u16 (dataLen - offset));
        Some (ret, mk_conf mode mtu mps c zero_str, u8 (offset + sizeof_ReliableConfig))
      else Some (CM_SUCCESS, mk_conf mode mtu mps zero_rel zero_str, offset).

Definition CM_SignalingPreferredSlqiListParse (data : bytes) (p dataLen offset : Z) :
    option (Z * CM_SignalingPreferredSlqiList * Z) :=
  if dataLen <? CM_SLQI_SIZE then Some (CM_INVALID_PARAM_ERR, mk_slqi 0 0, offset)
  else
    b ← rd data p;
    let num := bf_get b 0 4 in
    if negb (num =? CM_SLQI_SURPPORT_NUM) then Some (CM_INVALID_PARAM_ERR, mk_slqi 0 0, offset)
    else q ← rd data (p + 1); Some (CM_SUCCESS, mk_slqi num q, CM_SLQI_SIZE).

Definition CM_SignalingExtensionParse (data : bytes) (p dataLen : Z) : option (Z * option CM_SignalingPortConfig) :=
  if dataLen <? sizeof_EstablishReqExt then Some (CM_INVALID_PARAM_ERR, None)
  else
    b0 ← rd data p; b1 ← rd data (p + 1);
    if negb (bf_get (b0 + 256 * b1) 0 1 =? 0) then
      if dataLen <? sizeof_EstablishReqExt + sizeof_PortConfig then Some (CM_INVALID_PARAM_ERR, None)
      else
        let q := p + sizeof_EstablishReqExt in
        src ← DECODE2BYTE_LITTLE data (q + 2);
        dst ← DECODE2BYTE_LITTLE data q;
        aid ← DECODE2BYTE_LITTLE data (q + 4);
        Some (CM_SUCCESS, Some (mk_port src dst aid))
    else Some (CM_SUCCESS, None).

Definition zero_ereq : CM_SignalingTransChanEstablishReq :=
  mk_ereq 0 false false (mk_conf 0 0 0 (mk_relconf 0 0 0 0 0 0) (mk_strconf 0 0 0)) (mk_slqi 0 0) None.

Definition CM_SignalingTransChanEstablishReqParse (pkt : CM_SignalingHead) : option (Z * CM_SignalingTransChanEstablishReq) :=
  let data := h_data pkt in
  if h_length pkt <? sizeof_EstablishReqPkt then Some (CM_INVALID_PARAM_ERR, zero_ereq)
  else
    src ← rd data 0;
    optionOffset ← rd data 1;
    bits ← rd data 2;
    let req := zero_ereq <| eq_srcTcid := src |> <| eq_exclusive := negb (bf_get bits 0 1 =? 0) |>
                         <| eq_measure := negb (bf_get bits 1 1 =? 0) |> in
    let totalOffset := sizeof_EstablishReqPkt in
    '(ret, conf, offset) ← CM_SignalingTransModeConfigParse data totalOffset (u16 (h_length pkt - totalOffset)) 0;
    let req := req <| eq_transModeConfig := conf |> in
    if negb (ret =? CM_SUCCESS) then Some (ret, req)
    else
      let totalOffset := u8 (totalOffset + offset) in
      '(ret, slqi, offset) ← CM_SignalingPreferredSlqiListParse data totalOffset (u16 (h_length pkt - totalOffset)) offset;
      let req := req <| eq_slqiList := slqi |> in
      if negb (ret =? CM_SUCCESS) then Some (ret, req)
      else
        let totalOffset := u8 (totalOffset + offset) in
        if negb (optionOffset =? 0) then
          if negb (optionOffset =? totalOffset) then Some (CM_INVALID_PARAM_ERR, req)
          else
            '(ret, port) ← CM_SignalingExtensionParse data totalOffset (u16 (h_length pkt - totalOffset));
            Some (ret, req <| eq_portConfig := port |>)
        else Some (CM_SUCCESS, req).

(** The other packets: [None] inside is a packet that is too short. *)
Definition establish_rsp_parse (pkt : CM_SignalingHead) : option (option CM_SignalingTransChanEstablishRsp) :=
  if h_length pkt <? sizeof_EstablishRspPkt then Some None
  else
    src ← rd (h_data pkt) 0; dst ← rd (h_data pkt) 1; result ← rd (h_data pkt) 2;
    Some (Some (mk_ersp src dst result)).
Definition release_req_parse (pkt : CM_SignalingHead) : option (option CM_SignalingTransChanReleaseReq) :=
  if h_length pkt <? sizeof_ReleaseReqPkt then Some None
  else src ← rd (h_data pkt) 0; dst ← rd (h_data pkt) 1; Some (Some (mk_rreq src dst)).
Definition release_rsp_parse (pkt : CM_SignalingHead) : option (option CM_SignalingTransChanReleaseRsp) :=
  if h_length pkt <? sizeof_ReleaseRspPkt then Some None
  else
    src ← rd (h_data pkt) 0; dst ← rd (h_data pkt) 1; result ← rd (h_data pkt) 2;
    Some (Some (mk_rrsp src dst result)).

(** ** Headers *)

(** The buffer of a packet; [ok] is the outcome of the allocation. *)
Definition CM_CreateSignalingBuff (ok : bool) (code identifier : Z) (data : bytes) (length : Z) : option (option SDF_Buff) :=
  let dataLen := u32 (sizeof_SignalingHead + length) in
  match SDF_BuffNewWithReserve ok dataLen with
  | None => Some None
  | Some buf =>
      match SDF_BuffAppend (Some buf) dataLen with
      | None => Some None
      | Some (p, buf) =>
          m ← wr (bmem buf) p [u8 code; u8 identifier];
          m ← enc2 m (p + 2) length;
          m ← (if memcpy_s_ok length length then wr m (p + sizeof_SignalingHead) (take (Z.to_nat length) data) else Some m);
          Some (Some (buf <| bmem := m |>))
      end
  end.

(** The header in a received buffer; the length in it is stored back in the byte order of
    the host, which is the order it came in. *)
Definition CM_ParseSignalingBuff (buf : SDF_Buff) : option (option CM_SignalingHead) :=
  let dataLen := SDF_DataLenGet buf in
  if dataLen <? sizeof_SignalingHead then Some None
  else
    let p := SDF_DataOffset buf in
    length ← DECODE2BYTE_LITTLE (bmem buf) (p + 2);
    if negb (length =? dataLen - sizeof_SignalingHead) then Some None
    else
      code ← rd (bmem buf) p;
      identifier ← rd (bmem buf) (p + 1);
      data ← rds (bmem buf) (p + sizeof_SignalingHead) length;
      Some (Some (mk_head code identifier length data)).
