(* ===== verification/CmCache.v ===== *)
(** * Outstanding signaling requests

    [services/stack/src/cp/bsl/sle/cm/signaling/src/cm_signaling_manage.c] and the sending
    functions of [cm_signaling_trans_channel.c]: a request that was sent waits in a cache,
    under its identifier and with a timer, for the response. *)
From S2P Require Import Prelude SdfErrno SdfBuff SdfContainers CmData DtapEnv DtapTrans DtapChannel CmState CmSignal.
Export SdfContainers.Map.

Definition CM_MANAGE_DEFAULT_TCID : Z := 0x02.
Definition CM_SIGNALING_MAX_ID : Z := 255.
Definition CM_SIGNALING_DEFAULT_TIMEOUT_MS : Z := 21000.
Definition CM_INVALID_TIMER_HANDLE : Z := -1.

(** [lhs - rhs] on two [uint8_t] promoted to [int] *)
Definition CM_SignalingCacheCompare (lhs rhs : Z) : Z := lhs - rhs.

(** A failure of [CP_TimerAdd] as a nonzero code *)
Definition timer_error (a : Z) : Z := 1 + (- a - 1) mod 4294967295.

Section cache.
Context {W : Type} `{Below W}.
Notation M := (ST (Cm * W)).
Notation cache_map := (SDF_Map Z CM_CachedSignaling).

Definition set_cache (m : option cache_map) : M unit := cupd (fun c => c <| g_cachedSignalings := m |>).

(** The loop of [CM_GetIdentifier], for the [n] rounds that are left. *)
Fixpoint identifier_loop (n : nat) (m : cache_map) : M (option Z) :=
  match n with
  | O => st_ret None
  | Datatypes.S n' =>
      let! candidate := cg g_identifier in
      cupd (fun c => c <| g_identifier := u8 (candidate + 1) |>) ;;!
      match SDF_MapFind CM_SignalingCacheCompare m candidate with
      | None => st_ret (Some candidate)
      | Some _ => identifier_loop n' m
      end
  end.
Definition CM_GetIdentifier : M (option Z) :=
  let! m := cg g_cachedSignalings in
  match m with
  | None => st_ret None
  | Some m => identifier_loop (Z.to_nat (CM_SIGNALING_MAX_ID + 1)) m
  end.

(** Of an entry that leaves the cache. *)
Definition CM_SignalingCacheDtor (cache : CM_CachedSignaling) : M unit :=
  if negb (cs_timer cache =? CM_INVALID_TIMER_HANDLE) then let! _ := cm_ask (CmTimerDel (cs_timer cache)) in st_ret tt
  else st_ret tt.

(** [SDF_MapErase] on the cache. *)
Definition cache_erase (id : Z) : M unit :=
  let! m := cg g_cachedSignalings in
  let! m := st_opt m in
  let '(_, m, gone) := SDF_MapErase CM_SignalingCacheCompare m id in
  st_for gone (fun e => CM_SignalingCacheDtor (snd e)) ;;!
  set_cache (Some m).

Definition CM_SignalingCacheClearByLcid (lcid : Z) : M unit :=
  let! m := cg g_cachedSignalings in
  match m with
  | None => st_ret tt
  | Some m => st_for (entry m) (fun e => if negb (cs_lcid (snd e) =? lcid) then st_ret tt else cache_erase (cs_id (snd e)))
  end.

Definition CM_SignalingCacheInsert (lcid id code : Z) (args : option CM_SignalingTransChanTimoutArgs)
    (cbk : option CM_SignalingTimeoutCbk) : M Z :=
  let! m := cg g_cachedSignalings in
  match m with
  | None => st_ret CM_NULL_POINTER
  | Some m =>
      let! ok := alloc_ok in
      if negb ok then st_ret CM_MEM_ERR
      else
        (* CP_TimerAdd: a handle that is not negative, or a failure *)
        let! timer := cm_ask (CmTimerAdd id CM_SIGNALING_DEFAULT_TIMEOUT_MS) in
        if timer <? 0 then st_ret (timer_error timer)
        else
          let! node := (match SDF_MapFind CM_SignalingCacheCompare m id with
                        | Some _ => st_ret false | None => alloc_ok end) in
          let (ok, m) := SDF_MapMoveInsert CM_SignalingCacheCompare node m id (mk_cached lcid id code args timer cbk) in
          if negb ok then
            let! _ := cm_ask (CmTimerDel timer) in
            st_ret CM_MAP_INSERT_ERR
          else set_cache (Some m) ;;! st_ret CM_SUCCESS
  end.

Definition CM_SignalingCacheRemove (lcid id code : Z) : M bool :=
  let! m := cg g_cachedSignalings in
  match m with
  | None => st_ret false
  | Some m =>
      match SDF_MapFind CM_SignalingCacheCompare m id with
      | None => st_ret false
      | Some (_, cache) =>
          if negb (cs_lcid cache =? lcid) then st_ret false
          else if negb (cs_code cache =? code) then st_ret false
          else cache_erase id ;;! st_ret true
      end
  end.

Definition CM_SignalingCacheInit : M Z :=
  let! ok := alloc_ok in
  let m := SDF_MapCtor true true true ok in
  set_cache m ;;!
  st_ret (match m with None => CM_MEM_ERR | Some _ => CM_SUCCESS end).

Definition CM_SignalingCacheDeinit : M unit :=
  let! m := cg g_cachedSignalings in
  match m with
  | None => st_ret tt
  | Some m => st_for (SDF_MapDtor m) (fun e => CM_SignalingCacheDtor (snd e)) ;;! set_cache None
  end.

Definition CM_SetSendSignalingDataCbk (cbk : bool) : M unit := cupd (fun c => c <| g_sendFunc := cbk |>).

Definition CM_SendBuffToDtap (lcid : Z) (buff : SDF_Buff) : M Z :=
  let! set := cg g_sendFunc in
  if negb set then st_ret CM_INVALID_PARAM_ERR
  else over (sendFunc 0 CM_MANAGE_DEFAULT_TCID lcid buff).

(** ** Sending

    [create_buff]: [CM_CreateSignalingBuff] with its allocation. *)
Definition create_buff (code id : Z) (data : bytes) : M (option SDF_Buff) :=
  let! ok := alloc_ok in st_opt (CM_CreateSignalingBuff ok code id data (zlen data)).

(** The part that the two requests share, from the identifier on. *)
Definition send_request (lcid code : Z) (args : CM_SignalingTransChanTimoutArgs) (cbk : CM_SignalingTimeoutCbk)
    (data : bytes) : M Z :=
  let! id := CM_GetIdentifier in
  match id with
  | None => st_ret CM_FAIL
  | Some id =>
      let! ret := CM_SignalingCacheInsert lcid id code (Some args) (Some cbk) in
      if negb (ret =? CM_SUCCESS) then st_ret ret
      else
        let! buff := create_buff code id data in
        match buff with
        | None => let! _ := CM_SignalingCacheRemove lcid id code in st_ret CM_MEM_ERR
        | Some buff =>
            let! ret := CM_SendBuffToDtap lcid buff in
            if negb (ret =? CM_SUCCESS) then let! _ := CM_SignalingCacheRemove lcid id code in st_ret ret
            else st_ret CM_SUCCESS
        end
  end.

Definition CM_SignalingTransChanEstablishReqPack (req : CM_SignalingTransChanEstablishReq) : M (option bytes) :=
  let! ok := alloc_ok in
  if negb ok then st_ret None
  else st_opt (establish_req_bytes req (zeros (CM_SignalingEstablishReqSizeGet req))).

Definition CM_SignalingTransChanTimoutArgsNew (lcid srcTcid dstTcid : Z) : M (option CM_SignalingTransChanTimoutArgs) :=
  let! ok := alloc_ok in st_ret (if negb ok then None else Some (mk_args lcid srcTcid dstTcid)).

Definition CM_SignalingTransChanEstablishReqSend (lcid : Z) (req : CM_SignalingTransChanEstablishReq) : M Z :=
  let! reqData := CM_SignalingTransChanEstablishReqPack req in
  match reqData with
  | None => st_ret CM_INVALID_PARAM_ERR
  | Some reqData =>
      let! args := CM_SignalingTransChanTimoutArgsNew lcid (eq_srcTcid req) 0 in
      match args with
      | None => st_ret CM_MEM_ERR
      | Some args => send_request lcid TC_CONNECT_REQ args CM_SignalingTransChanEstablishReqTimeout_cbk reqData
      end
  end.

Definition CM_SignalingTransChanReleaseReqSend (lcid : Z) (req : CM_SignalingTransChanReleaseReq) : M Z :=
  let! args := CM_SignalingTransChanTimoutArgsNew lcid (rq_srcTcid req) (rq_dstTcid req) in
  match args with
  | None => st_ret CM_MEM_ERR
  | Some args => send_request lcid TC_DISCONNECT_REQ args CM_SignalingTransChanReleaseReqTimeout_cbk (release_req_bytes req)
  end.

(** A response, under the identifier of its request. *)
Definition send_response (lcid code reqId : Z) (data : bytes) : M Z :=
  let! buff := create_buff code reqId data in
  match buff with
  | None => st_ret CM_MEM_ERR
  | Some buff =>
      let! ret := CM_SendBuffToDtap lcid buff in
      if negb (ret =? 0) then st_ret ret else st_ret CM_SUCCESS
  end.
Definition CM_SignalingTransChanEstablishRspSend (lcid reqId : Z) (rsp : CM_SignalingTransChanEstablishRsp) : M Z :=
  send_response lcid TC_CONNECT_RSP reqId (establish_rsp_bytes rsp).
Definition CM_SignalingTransChanReleaseRspSend (lcid reqId : Z) (rsp : CM_SignalingTransChanReleaseRsp) : M Z :=
  send_response lcid TC_DISCONNECT_RSP reqId (release_rsp_bytes rsp).
End cache.
