(* ===== verification/CmDynTrans.v ===== *)
(** * Dynamic transmission channels

    [services/stack/src/cp/bsl/sle/cm/dyntrans/src/cm_dyn_trans_chan_state_mgr.c] and
    [cm_dyn_trans_channel_mgr.c]: the handlers of the events of a channel, the table that
    selects them, and the entry points: the requests of the QoS manager, the signaling of
    the peer, and the changes of the logical links. *)
From S2P Require Import Prelude SdfErrno SdfBuff SdfContainers CmData DtapEnv DtapTrans DtapChannel CmState CmTcid CmChannel CmSignal CmCache.

Definition CM_CAP_MIN_MTU : Z := 32.
Definition CM_TRANS_CHANNEL_SLQI_MAX : Z := 2.
Definition CM_DYN_TRANS_CHAN_ESTABLISH_SUCCESS : Z := 0.
Definition CM_DYN_TRANS_CHAN_ESTABLISH_FAIL : Z := 1.
Definition CM_DYN_TRANS_CHAN_ESTABLISH_TIMEOUT : Z := 60.
Definition CM_DYN_TRANS_CHAN_RELEASE_SUCCESS : Z := 0.
Definition CM_DYN_TRANS_CHAN_RELEASE_FAIL : Z := 1.
Definition CM_DYN_TRANS_CHAN_RELEASE_TIMEOUT : Z := 60.
Definition CM_DYN_TRANS_CHAN_STATUS_INDICATION_NORMAL : Z := 0.
Definition CM_DYN_TRANS_CHAN_STATUS_INDICATION_DICONNECTED : Z := 2.

(** [CM_DynTransChanEventType_E] *)
Definition CM_DYN_TRANS_CHAN_EVENT_ACTIVE_ESTABLISHING_REQ : Z := 0.
Definition CM_DYN_TRANS_CHAN_EVENT_ACTIVE_ESTABLISHED_RSP : Z := 1.
Definition CM_DYN_TRANS_CHAN_EVENT_ACTIVE_ESTABLISHING_FAIL_RSP : Z := 2.
Definition CM_DYN_TRANS_CHAN_EVENT_ACTIVE_RELEASING_REQ : Z := 3.
Definition CM_DYN_TRANS_CHAN_EVENT_ACTIVE_RELEASED_RSP : Z := 4.
Definition CM_DYN_TRANS_CHAN_EVENT_ACTIVE_RELEASING_FAIL_RSP : Z := 5.
Definition CM_DYN_TRANS_CHAN_EVENT_PASSIVE_RELEASED_REQ : Z := 6.
Definition CM_DYN_TRANS_CHAN_EVENT_PASSIVE_ESTABLISHED_REQ : Z := 7.

(** The requests of the QoS manager, without the reserved extensions and the members
    that are not read. *)
Record CM_DynTransChannelEstablishParamReq := mk_est_req {
  qe_version : Z; qe_localIndex : Z; qe_addr : SLE_Addr; qe_srcPort : Z; qe_dstPort : Z;
  qe_transModeConfig : CM_TransModeConfig; qe_slqi : Z; qe_expectedTransportMode : Z; qe_frameType : Z
}.
Record CM_DynTransChannelReleaseParamReq := mk_rel_req {
  qr_addr : SLE_Addr; qr_srcTcid : Z; qr_dstTcid : Z
}.

Section dyntrans.
Context {W : Type} `{Below W}.
Notation M := (ST (Cm * W)).
Notation handler := (Z -> CM_DynTransChanParam -> Z -> M Z).

(** ** Telling the QoS manager *)
Definition establish_rsp (node : SleTransLcid) (param : SleTransLcidParam) (result : Z) : CM_DynTransChanEstablishParamRsp :=
  mk_est_rsp (tp_version param) (tp_localIndex param) result (tp_srcPort param) (tp_dstPort param)
    (transMode (tp_transModeConfig param)) (tl_local node) (tl_remote node) [tp_slqi param] [tp_aid param] (tl_lcid node)
    (tl_addr node) (cf_mtu (tp_transModeConfig param)) (tp_frameType param).
Definition release_rsp (node : SleTransLcid) (param : SleTransLcidParam) (result : Z) : CM_DynTransChanReleaseParamRsp :=
  mk_rel_rsp (tp_version param) (tp_localIndex param) result (tp_srcPort param) (tp_dstPort param)
    (tl_local node) (tl_remote node) (tl_lcid node) [tp_slqi param] (tl_addr node) (tp_frameType param).
Definition status_rsp (node : SleTransLcid) (param : SleTransLcidParam) (added : bool) (result : Z) :
    CM_DynTransChanStatusIndicationRsp :=
  mk_ind_rsp (tp_version param) (tp_localIndex param) result (tp_srcPort param) (tp_dstPort param) added
    (transMode (tp_transModeConfig param)) (tl_local node) (tl_remote node) [tp_slqi param] (tl_lcid node)
    (tl_addr node) (cf_mtu (tp_transModeConfig param)).

(** The node has parameters, or nothing is told. *)
Definition tell (p : Z) (call : SleTransLcid -> SleTransLcidParam -> cm_call) : M unit :=
  let! node := get_node p in
  match tl_params node with
  | None => st_ret tt
  | Some param => let! _ := cm_ask (call node param) in st_ret tt
  end.
Definition CM_DynTransChanEstablishRspCbk (p result : Z) : M unit :=
  let! cbks := cg g_channelCbks in
  if negb (has_establishRspCbk cbks) then st_ret tt
  else tell p (fun node param => CmEstablishRsp (establish_rsp node param result)).
Definition CM_DynTransChanReleaseRspCbk (p result : Z) : M unit :=
  let! cbks := cg g_channelCbks in
  if negb (has_releaseRspCbk cbks) then st_ret tt
  else tell p (fun node param => CmReleaseRsp (release_rsp node param result)).
Definition CM_DynTransChanStatusIndicationCbk (p : Z) (added : bool) (result : Z) : M unit :=
  let! cbks := cg g_channelCbks in
  if negb (has_statusIndicationCbk cbks) then st_ret tt
  else tell p (fun node param => CmStatusIndication (status_rsp node param added result)).

Definition CM_DynTransChannStateMgrRegCbks (cbks : CM_DynTransChannelCbks) : M unit :=
  CM_DynTcidInit ;;! cupd (fun c => c <| g_channelCbks := cbks |>).
Definition CM_DynTransChannStateMgrUnRegCbks : M unit :=
  cupd (fun c => c <| g_channelCbks := no_dyncbks |>) ;;! CM_DynTcidDeInit.

(** ** The handlers *)
Definition establish_signaling (param : CM_DynTransChanParam) (localTcid : Z) : CM_SignalingTransChanEstablishReq :=
  mk_ereq localTcid (negb (dp_exclusive param =? 0)) (dp_measure param) (dp_transModeConfig param)
    (mk_slqi 1 (dp_slqi param)) (Some (mk_port (dp_srcPort param) (dp_dstPort param) (dp_aid param))).

(** The node and the identifier of a channel that could not be established. *)
Definition undo_establish (p : option Z) (param : CM_DynTransChanParam) (localTcid : Z) : M Z :=
  CM_ReleaseDynamicTransChannelByLocalTcid p ;;!
  let! _ := CM_DynTcidRelease (dp_lcid param) localTcid (dp_expectedTransportMode param) in
  st_ret CM_FAIL.

Definition CM_DynTransChanActiveEstablishingReqHandler : handler := fun curState param nextState =>
  let! localTcid := CM_DynTcidAllocate (dp_lcid param) (dp_expectedTransportMode param) in
  if localTcid =? CM_TRANS_INVALID_TCID then st_ret CM_FAIL
  else
    let activeParam := param <| dp_localTcid := localTcid |> <| dp_remoteTcid := CM_TRANS_INVALID_TCID |>
                             <| dp_state := nextState |> in
    let! node := CM_ActivateDynamicTransChannel (dp_lcid param) activeParam in
    match node with
    | None =>
        let! _ := CM_DynTcidRelease (dp_lcid param) localTcid (dp_expectedTransportMode param) in
        st_ret CM_FAIL
    | Some p =>
        let! ret := CM_SignalingTransChanEstablishReqSend (dp_lcid param) (establish_signaling param localTcid) in
        if negb (ret =? CM_SUCCESS) then undo_establish (Some p) param localTcid
        else st_ret CM_SUCCESS
    end.

Definition CM_DynTransChanActiveEstablishedRspHandler : handler := fun curState param nextState =>
  if negb (dp_result param =? CM_RESULT_ESTABLISH_SUCCESS) then st_ret CM_FAIL
  else
    let! node := CM_FindTransChannelByLocalTcid (dp_lcid param) (dp_localTcid param) in
    match node with
    | None => st_ret CM_FAIL
    | Some p =>
        CM_DynamicTransChannelSetTcidAndChangeCbk (Some p) (dp_remoteTcid param) nextState ;;!
        CM_DynTransChanEstablishRspCbk p CM_DYN_TRANS_CHAN_ESTABLISH_SUCCESS ;;!
        st_ret CM_SUCCESS
    end.

(** Releases the node and its identifier. *)
Definition drop_channel (p : Z) (param : CM_DynTransChanParam) : M Z :=
  CM_ReleaseDynamicTransChannelByLocalTcid (Some p) ;;!
  let! ret := CM_DynTcidRelease (dp_lcid param) (dp_localTcid param) (dp_expectedTransportMode param) in
  st_ret (if negb (ret =? CM_SUCCESS) then CM_FAIL else CM_SUCCESS).

Definition CM_DynTransChanActiveEstablishingFailRspHandler : handler := fun curState param nextState =>
  if dp_result param =? CM_RESULT_ESTABLISH_SUCCESS then st_ret CM_FAIL
  else
    let! node := CM_FindTransChannelByLocalTcid (dp_lcid param) (dp_localTcid param) in
    match node with
    | None => st_ret CM_FAIL
    | Some p =>
        let result := if dp_result param =? CM_RESULT_ESTABLISH_TIMEOUT
                      then CM_DYN_TRANS_CHAN_ESTABLISH_TIMEOUT else CM_DYN_TRANS_CHAN_ESTABLISH_FAIL in
        CM_DynTransChanEstablishRspCbk p result ;;!
        drop_channel p param
    end.

Definition CM_DynTransChanActiveReleasingHandler : handler := fun curState param nextState =>
  let! node := CM_FindTransChannelByLocalTcid (dp_lcid param) (dp_localTcid param) in
  match node with
  | None => st_ret CM_FAIL
  | Some p =>
      set_node p (fun n => n <| tl_state := nextState |>) ;;!
      let! n := get_node p in
      let! ret := CM_SignalingTransChanReleaseReqSend (dp_lcid param) (mk_rreq (dp_localTcid param) (tl_remote n)) in
      if negb (ret =? CM_SUCCESS) then
        set_node p (fun n => n <| tl_state := curState |>) ;;! st_ret CM_FAIL
      else st_ret CM_SUCCESS
  end.

Definition CM_DynTransChanActiveReleasedRspHandler : handler := fun curState param nextState =>
  let! node := CM_FindTransChannelByLocalTcid (dp_lcid param) (dp_localTcid param) in
  match node with
  | None => st_ret CM_FAIL
  | Some p =>
      CM_DynTransChanReleaseRspCbk p CM_DYN_TRANS_CHAN_RELEASE_SUCCESS ;;!
      drop_channel p param
  end.

Definition CM_DynTransChanActiveReleasingFailRspHandler : handler := fun curState param nextState =>
  let! node := CM_FindTransChannelByLocalTcid (dp_lcid param) (dp_localTcid param) in
  match node with
  | None => st_ret CM_FAIL
  | Some p =>
      let result := if dp_result param =? CM_RESULT_RELEASE_TIMEOUT
                    then CM_DYN_TRANS_CHAN_RELEASE_TIMEOUT else CM_DYN_TRANS_CHAN_RELEASE_FAIL in
      CM_DynTransChanReleaseRspCbk p result ;;!
      drop_channel p param
  end.

Definition CM_DynTransChanExpectionReleaseHandler (lcid localTcid remoteTcid reqId : Z) : M unit :=
  let! _ := CM_SignalingTransChanReleaseReqSend lcid (mk_rreq localTcid remoteTcid) in st_ret tt.

Definition CM_DynTransChanPassiveReleasedReqHandler : handler := fun curState param nextState =>
  let! node := CM_FindTransChannelByRemoteTcid (dp_lcid param) (dp_remoteTcid param) in
  match node with
  | None => st_ret CM_FAIL
  | Some p =>
      let! n := get_node p in
      let localTcid := tl_local n in
      let remoteTcid := tl_remote n in
      let lcid := tl_lcid n in
      CM_DynTransChanStatusIndicationCbk p false CM_DYN_TRANS_CHAN_STATUS_INDICATION_DICONNECTED ;;!
      let! _ := CM_DynTcidRelease lcid localTcid (dp_expectedTransportMode param) in
      CM_ReleaseDynamicTransChannelByRemoteTcid (Some p) ;;!
      let! ret := CM_SignalingTransChanReleaseRspSend lcid (dp_reqId param)
                    (mk_rrsp remoteTcid localTcid CM_RESULT_RELEASE_SUCCESS) in
      if negb (ret =? CM_SUCCESS) then
        CM_DynTransChanExpectionReleaseHandler lcid localTcid remoteTcid (dp_reqId param) ;;! st_ret CM_FAIL
      else st_ret CM_SUCCESS
  end.

Definition CM_DynTransChannelEstablishedCheck (srcPort dstPort : Z) : M bool :=
  let! cbks := cg g_channelCbks in
  if negb (has_establishedCheckCbk cbks) then st_ret true
  else let! a := cm_ask (CmEstablishedCheck srcPort dstPort) in st_ret (negb (a =? 0)).

Definition CM_DynTransChannelMtuCheck (mtu : Z) : bool := CM_CAP_MIN_MTU <=? mtu.

Definition CM_DynTransChanSendEstablishedErrResp (param : CM_DynTransChanParam) (result : Z) : M unit :=
  let! _ := CM_SignalingTransChanEstablishRspSend (dp_lcid param) (dp_reqId param)
              (mk_ersp (dp_remoteTcid param) CM_TRANS_INVALID_TCID result) in
  st_ret tt.

Definition CM_DynTransChanPassiveEstablishedReqHandler : handler := fun curState param nextState =>
  if negb (CM_DynTransChannelMtuCheck (cf_mtu (dp_transModeConfig param))) then
    CM_DynTransChanSendEstablishedErrResp param CM_RESULT_UNSUPPORTED_MTU_SIZE ;;! st_ret CM_FAIL
  else
    let! check := CM_DynTransChannelEstablishedCheck (dp_srcPort param) (dp_dstPort param) in
    if negb check then
      CM_DynTransChanSendEstablishedErrResp param CM_RESULT_INSUFFICIENT_RESOURCE ;;! st_ret CM_FAIL
    else
      let! localTcid := CM_DynTcidAllocate (dp_lcid param) (dp_expectedTransportMode param) in
      if localTcid =? CM_TRANS_INVALID_TCID then st_ret CM_FAIL
      else
        let activeParam := param <| dp_localTcid := localTcid |> <| dp_state := nextState |> in
        let! node := CM_ActivateDynamicTransChannel (dp_lcid param) activeParam in
        match node with
        | None =>
            let! _ := CM_DynTcidRelease (dp_lcid param) localTcid (dp_expectedTransportMode param) in
            st_ret CM_FAIL
        | Some p =>
            let! ret := CM_SignalingTransChanEstablishRspSend (dp_lcid param) (dp_reqId param)
                          (mk_ersp (dp_remoteTcid param) localTcid CM_RESULT_ESTABLISH_SUCCESS) in
            if negb (ret =? CM_SUCCESS) then undo_establish (Some p) param localTcid
            else
              CM_DynTransChanStatusIndicationCbk p true CM_DYN_TRANS_CHAN_STATUS_INDICATION_NORMAL ;;!
              st_ret CM_SUCCESS
        end.

(** ** The table: the state before, the handler, the state after; indexed by the event.
    The state before is not compared with the channel's. *)
Definition g_dynTransChanEvents : list (Z * handler * Z) :=
  [ (CM_TRANS_CHANNEL_STATE_INIT, CM_DynTransChanActiveEstablishingReqHandler, CM_TRANS_CHANNEL_STATE_ACTIVATING);
    (CM_TRANS_CHANNEL_STATE_ACTIVATING, CM_DynTransChanActiveEstablishedRspHandler, CM_TRANS_CHANNEL_STATE_ACTIVATED);
    (CM_TRANS_CHANNEL_STATE_ACTIVATING, CM_DynTransChanActiveEstablishingFailRspHandler, CM_TRANS_CHANNEL_STATE_RELEASED);
    (CM_TRANS_CHANNEL_STATE_ACTIVATED, CM_DynTransChanActiveReleasingHandler, CM_TRANS_CHANNEL_STATE_RELEASING);
    (CM_TRANS_CHANNEL_STATE_RELEASING, CM_DynTransChanActiveReleasedRspHandler, CM_TRANS_CHANNEL_STATE_RELEASED);
    (CM_TRANS_CHANNEL_STATE_RELEASING, CM_DynTransChanActiveReleasingFailRspHandler, CM_TRANS_CHANNEL_STATE_RELEASED);
    (CM_TRANS_CHANNEL_STATE_ACTIVATED, CM_DynTransChanPassiveReleasedReqHandler, CM_TRANS_CHANNEL_STATE_RELEASED);
    (CM_TRANS_CHANNEL_STATE_INIT, CM_DynTransChanPassiveEstablishedReqHandler, CM_TRANS_CHANNEL_STATE_ACTIVATED) ].

Definition CM_DynTransChanPostEventAndHandler (event : Z) (param : CM_DynTransChanParam) : M Z :=
  match g_dynTransChanEvents !! Z.to_nat event with
  | None => st_ret CM_FAIL
  | Some (currentState, func, nextState) => func currentState param nextState
  end.

(** ** Links that went down *)
Fixpoint notify_disconnected (l : list (option Z)) : M unit :=
  match l with
  | Some p :: l' =>
      let! node := get_node p in
      let state := tl_state node in
      (if state =? CM_TRANS_CHANNEL_STATE_RELEASED then st_ret tt
       else if (state =? CM_TRANS_CHANNEL_STATE_ACTIVATING) || (state =? CM_TRANS_CHANNEL_STATE_INIT) then
         CM_DynTransChanEstablishRspCbk p CM_DYN_TRANS_CHAN_ESTABLISH_FAIL ;;!
         CM_ReleaseDynamicTransChannelByLocalTcid (Some p)
       else if (state =? CM_TRANS_CHANNEL_STATE_ACTIVATED) || (state =? CM_TRANS_CHANNEL_STATE_RELEASING) then
         CM_DynTransChanStatusIndicationCbk p false CM_DYN_TRANS_CHAN_STATUS_INDICATION_DICONNECTED ;;!
         CM_ReleaseDynamicTransChannelByLocalTcid (Some p)
       else st_ret tt) ;;!
      notify_disconnected l'
  | _ => st_ret tt
  end.
Definition CM_DynTransChannelNotifyAllDisconnected (v : SDF_Vector Z) : M unit := notify_disconnected (vlist v).

Definition CM_DynTransChannReleaseAllNode (lcid : Z) : M unit :=
  let! transChannelVector := create_vector false in
  match transChannelVector with
  | None => st_ret tt
  | Some v =>
      let! (ret, v) := CM_FindDynTransChannelByLcid lcid v in
      if negb (ret =? CM_SUCCESS) then st_ret tt else CM_DynTransChannelNotifyAllDisconnected v
  end.

(** ** The entry points *)
Definition CM_DynTransChanGetTransportMode (tcid : Z) : Z :=
  if (CM_TCID_UC_BEGIN <=? tcid) && (tcid <=? CM_TCID_UC_END) then CM_ACCESS_TRANS_MODE_UNICAST
  else CM_ACCESS_TRANS_MODE_MAX.

Definition create_param (req : CM_DynTransChannelEstablishParamReq) (lcid : Z) : CM_DynTransChanParam :=
  mk_dynparam (qe_version req) (qe_localIndex req) lcid 0 CM_TRANS_INVALID_TCID CM_TRANS_INVALID_TCID (qe_srcPort req)
    (qe_dstPort req) (qe_transModeConfig req) 0 0 CM_TRANS_INVALID_AID (qe_slqi req) 1 false
    (qe_expectedTransportMode req) 0 CM_TRANS_CHANNEL_STATE_INIT (qe_frameType req).

Definition CM_DynTransChannelCreate (reqParam : CM_DynTransChannelEstablishParamReq) : M Z :=
  let! logicLink := SleLogicLinkGetByAddr (qe_addr reqParam) in
  match logicLink with
  | None => st_ret CM_FAIL
  | Some p =>
      let! link := get_link p in
      let! ret := CM_DynTransChanPostEventAndHandler CM_DYN_TRANS_CHAN_EVENT_ACTIVE_ESTABLISHING_REQ
                    (create_param reqParam (sl_lcid link)) in
      st_ret (if negb (ret =? CM_SUCCESS) then CM_FAIL else ret)
  end.

Definition passive_param (lcid reqId : Z) (req : CM_SignalingTransChanEstablishReq) : CM_DynTransChanParam :=
  let base := zero_dynparam <| dp_lcid := lcid |> <| dp_remoteTcid := eq_srcTcid req |>
    <| dp_result := CM_RESULT_ESTABLISH_SUCCESS |>
    <| dp_expectedTransportMode := CM_DynTransChanGetTransportMode (eq_srcTcid req) |>
    <| dp_reqId := reqId |> <| dp_slqi := slqi0 (eq_slqiList req) |> in
  let base := match eq_portConfig req with
    | Some c => base <| dp_srcPort := pc_dstPort c |> <| dp_dstPort := pc_srcPort c |> <| dp_aid := pc_aid c |>
    | None => base end in
  base <| dp_transModeConfig := eq_transModeConfig req |>.

Definition CM_DynTransChannelEstablishReqCbk (lcid reqId : Z) (req : CM_SignalingTransChanEstablishReq) : M unit :=
  if negb (CM_TRANS_CHANNEL_IS_DYNAMIC (eq_srcTcid req)) then st_ret tt
  else
    let! trans := CM_FindTransChannelByRemoteTcid lcid (eq_srcTcid req) in
    match trans with
    | Some _ => st_ret tt
    | None =>
        let! _ := CM_DynTransChanPostEventAndHandler CM_DYN_TRANS_CHAN_EVENT_PASSIVE_ESTABLISHED_REQ
                    (passive_param lcid reqId req) in
        st_ret tt
    end.

Definition CM_DynTransChannelEstablishRspCbk (lcid : Z) (rsp : CM_SignalingTransChanEstablishRsp) : M unit :=
  if negb (CM_TRANS_CHANNEL_IS_DYNAMIC (es_srcTcid rsp)) then st_ret tt
  else if (es_result rsp =? CM_RESULT_ESTABLISH_SUCCESS) && negb (CM_TRANS_CHANNEL_IS_DYNAMIC (es_dstTcid rsp)) then st_ret tt
  else
    let loopParam := zero_dynparam <| dp_lcid := lcid |> <| dp_localTcid := es_srcTcid rsp |>
      <| dp_remoteTcid := es_dstTcid rsp |> <| dp_result := es_result rsp |>
      <| dp_expectedTransportMode := CM_DynTransChanGetTransportMode (es_srcTcid rsp) |> in
    let! trans := CM_FindTransChannelByLocalTcid lcid (es_srcTcid rsp) in
    match trans with
    | None => st_ret tt
    | Some p =>
        let! node := get_node p in
        if negb (tl_state node =? CM_TRANS_CHANNEL_STATE_ACTIVATING) then st_ret tt
        else
          let! _ := CM_DynTransChanPostEventAndHandler
                      (if es_result rsp =? CM_RESULT_ESTABLISH_SUCCESS
                       then CM_DYN_TRANS_CHAN_EVENT_ACTIVE_ESTABLISHED_RSP
                       else CM_DYN_TRANS_CHAN_EVENT_ACTIVE_ESTABLISHING_FAIL_RSP) loopParam in
          st_ret tt
    end.

Definition CM_DynTransChannelReleaseReqCbk (lcid reqId : Z) (req : CM_SignalingTransChanReleaseReq) : M unit :=
  if negb (CM_TRANS_CHANNEL_IS_DYNAMIC (rq_srcTcid req)) then st_ret tt
  else
    let loopParam := zero_dynparam <| dp_lcid := lcid |> <| dp_remoteTcid := rq_srcTcid req |>
      <| dp_localTcid := rq_dstTcid req |> <| dp_result := CM_RESULT_ESTABLISH_SUCCESS |>
      <| dp_expectedTransportMode := CM_DynTransChanGetTransportMode (rq_srcTcid req) |> <| dp_reqId := reqId |> in
    let! _ := CM_DynTransChanPostEventAndHandler CM_DYN_TRANS_CHAN_EVENT_PASSIVE_RELEASED_REQ loopParam in
    st_ret tt.

Definition CM_DynTransChannelReleaseRspCbk (lcid : Z) (rsp : CM_SignalingTransChanReleaseRsp) : M unit :=
  if negb (CM_TRANS_CHANNEL_IS_DYNAMIC (rs_srcTcid rsp)) then st_ret tt
  else
    let loopParam := zero_dynparam <| dp_lcid := lcid |> <| dp_result := rs_result rsp |>
      <| dp_localTcid := rs_srcTcid rsp |> <| dp_remoteTcid := rs_dstTcid rsp |>
      <| dp_expectedTransportMode := CM_DynTransChanGetTransportMode (rs_srcTcid rsp) |> in
    let! _ := CM_DynTransChanPostEventAndHandler
                (if rs_result rsp =? CM_RESULT_RELEASE_SUCCESS
                 then CM_DYN_TRANS_CHAN_EVENT_ACTIVE_RELEASED_RSP
                 else CM_DYN_TRANS_CHAN_EVENT_ACTIVE_RELEASING_FAIL_RSP) loopParam in
    st_ret tt.

Definition CM_DynTransLogicLinkCbk (state : CM_LogicLinkState) : M unit :=
  let lcid := lk_lcid state in
  if lk_result state =? CM_LINK_STATE_CONNECTED then
    let! _ := CM_DynTcidActivatePool lcid in st_ret tt
  else if lk_result state =? CM_LINK_STATE_DISCONNECTED then
    CM_DynTransChannReleaseAllNode lcid ;;!
    let! _ := CM_DynTcidDestroyPool lcid in st_ret tt
  else st_ret tt.

(** [CM_SignalingTransChanCbksRegister] is called with all four callbacks, and so
    succeeds. *)
Definition CM_SignalingTransChanCbksRegister : M Z :=
  cupd (fun c => c <| g_signalingTransChanCbks := true |>) ;;! st_ret CM_SUCCESS.
Definition CM_SignalingTransChanCbksUnregister : M unit :=
  cupd (fun c => c <| g_signalingTransChanCbks := false |>).

Definition CM_RegDynTransChannelCbks (cbks : option CM_DynTransChannelCbks) : M Z :=
  let! registered := cg g_cmIsRegistered in
  if registered then st_ret CM_FAIL
  else
    match cbks with
    | None => st_ret CM_INVALID_PARAM_ERR
    | Some cbks =>
        if negb (has_establishRspCbk cbks && has_releaseRspCbk cbks && has_statusIndicationCbk cbks)
        then st_ret CM_INVALID_PARAM_ERR
        else
          CM_DynTransChannStateMgrRegCbks cbks ;;!
          let! ret := CM_RegLogicLinkListener CM_MODULE_CM_DYNTRANS CM_DynTransLogicLinkCbk_fn in
          if negb (ret =? CM_SUCCESS) then st_ret ret
          else
            let! ret := CM_SignalingTransChanCbksRegister in
            if negb (ret =? CM_SUCCESS) then st_ret CM_FAIL
            else cupd (fun c => c <| g_cmIsRegistered := true |>) ;;! st_ret CM_SUCCESS
    end.

Definition CM_UnRegDynTransChannelCbks : M unit :=
  let! registered := cg g_cmIsRegistered in
  if negb registered then st_ret tt
  else CM_DynTransChannStateMgrUnRegCbks ;;! cupd (fun c => c <| g_cmIsRegistered := false |>).

Definition CM_DynTransChannelEstablishReq (param : option CM_DynTransChannelEstablishParamReq) : M Z :=
  let! registered := cg g_cmIsRegistered in
  if negb registered then st_ret CM_FAIL
  else
    match param with
    | None => st_ret CM_INVALID_PARAM_ERR
    | Some param =>
        if negb ((qe_expectedTransportMode param =? CM_ACCESS_TRANS_MODE_UNICAST)
                 && (transMode (qe_transModeConfig param) <? CM_TRANS_MODE_MAX)) then st_ret CM_INVALID_PARAM_ERR
        else if CM_TRANS_CHANNEL_SLQI_MAX <=? qe_slqi param then st_ret CM_INVALID_PARAM_ERR
        else
          let! ret := CM_DynTransChannelCreate param in
          st_ret (if negb (ret =? CM_SUCCESS) then CM_FAIL else CM_SUCCESS)
    end.

Definition CM_DynTransChannelReleaseReq (param : option CM_DynTransChannelReleaseParamReq) : M Z :=
  let! registered := cg g_cmIsRegistered in
  if negb registered then st_ret CM_FAIL
  else
    match param with
    | None => st_ret CM_INVALID_PARAM_ERR
    | Some param =>
        if negb (CM_TRANS_CHANNEL_IS_DYNAMIC (qr_srcTcid param)) then st_ret CM_INVALID_PARAM_ERR
        else
          let! logicLink := SleLogicLinkGetByAddr (qr_addr param) in
          match logicLink with
          | None => st_ret CM_FAIL
          | Some p =>
              let! link := get_link p in
              let loopParam := zero_dynparam <| dp_lcid := sl_lcid link |> <| dp_localTcid := qr_srcTcid param |>
                <| dp_remoteTcid := qr_dstTcid param |> in
              let! ret := CM_DynTransChanPostEventAndHandler CM_DYN_TRANS_CHAN_EVENT_ACTIVE_RELEASING_REQ loopParam in
              st_ret (if negb (ret =? CM_SUCCESS) then CM_FAIL else CM_SUCCESS)
          end
    end.
End dyntrans.
