(* ===== verification/CmCap.v ===== *)
(** * The query of capabilities

    [services/stack/src/cp/bsl/sle/cm/signaling/src/cm_signaling_cap.c]: what a device asks
    its peer after the link is up, what it answers, and what it keeps of the answer. *)
From S2P Require Import Prelude Utils SdfErrno SdfBuff SdfContainers CmData DtapEnv DtapTrans DtapChannel CmState CmSignal CmCache.

Definition CM_INVALID_RET : Z := -1.
Definition CM_CAPABILITY_RSP_LEN : Z := 100.
Definition CM_CAP_MTU : Z := 4096.
Definition CM_CAP_MPS : Z := 1500.
Definition CM_CAP_DEFAULT_VERSION : Z := 0x0101.
Definition SLE_ADDR_LEN : Z := 6.

(** The bits of a capability map *)
Definition CM_SIGNAL_RELAY_CAPABILITY : Z := 0.
Definition CM_SIGNAL_TRANS_MODE : Z := 1.
Definition CM_SIGNAL_MEASURE_CAPABILITY : Z := 2.
Definition CM_SIGNAL_ACCESS_SLE : Z := 3.
Definition CM_SIGNAL_ACCESS_SLB : Z := 4.
Definition CM_SIGNAL_MTU : Z := 5.
Definition CM_SIGNAL_MPS : Z := 6.
Definition CM_SIGNAL_VERSION : Z := 7.
Definition CM_SIGNAL_WND : Z := 8.
Definition cap_bit (i : Z) : Z := Z.shiftl 1 i.

Record CM_CapabilityValue := mk_capvalue {
  cv_capBitMap : Z; cv_transMode : Z; cv_mtu : Z; cv_mps : Z; cv_version : Z; cv_wnd : Z;
  cv_accessSle : bytes; cv_accessSlb : bytes
}.
#[export] Instance eta_capvalue : Eta CM_CapabilityValue := fun v =>
  mk_capvalue (cv_capBitMap v) (cv_transMode v) (cv_mtu v) (cv_mps v) (cv_version v) (cv_wnd v)
    (cv_accessSle v) (cv_accessSlb v).
Definition zero_capvalue : CM_CapabilityValue := mk_capvalue 0 0 0 0 0 0 (zeros 6) (zeros 6).

(** [g_localInfo], as far as it is read. *)
Record CM_LocalSupportInfo := mk_localinfo {
  li_cap : Z; li_transMode : Z; li_defaultVersion : Z; li_mtu : Z; li_mps : Z; li_wnd : Z
}.
Definition g_localInfo : CM_LocalSupportInfo :=
  mk_localinfo
    (Z.lor (Z.lor (Z.lor (Z.lor (Z.lor (cap_bit CM_SIGNAL_TRANS_MODE) (cap_bit CM_SIGNAL_ACCESS_SLE)) (cap_bit CM_SIGNAL_MTU))
       (cap_bit CM_SIGNAL_MPS)) (cap_bit CM_SIGNAL_VERSION)) (cap_bit CM_SIGNAL_WND))
    (bf_set (bf_set (bf_set 0 0 1 1) 1 1 1) 2 1 0)
    CM_CAP_DEFAULT_VERSION CM_CAP_MTU CM_CAP_MPS CM_CAP_WND.

(** [DECODE4BYTE_LITTLE] and [ENCODE4BYTE_LITTLE] *)
Definition DECODE4BYTE_LITTLE (m : bytes) (p : Z) : option Z :=
  b0 ← rd m p; b1 ← rd m (p + 1); b2 ← rd m (p + 2); b3 ← rd m (p + 3);
  Some (u32 (Z.lor (Z.lor (Z.lor b0 (Z.shiftl b1 8)) (Z.shiftl b2 16)) (Z.shiftl b3 24))).
Definition ENCODE4BYTE_LITTLE (v : Z) : bytes :=
  [u8 v; u8 (Z.shiftr v 8); u8 (Z.shiftr v 16); u8 (Z.shiftr v 24)].

(** ** Reading the peer's answer

    Each function reads at [p], where the code believes [len] bytes to be, and answers the
    number of bytes it used and the value. *)
Notation set_cap := (bytes -> Z -> Z -> CM_CapabilityValue -> option (Z * CM_CapabilityValue)).

Definition SetRelayCapability : set_cap := fun data p len value => Some (0, value).
Definition SetTransModeCapability : set_cap := fun data p len value =>
  if len <? 2 then Some (CM_INVALID_RET, value)
  else tmp ← DECODE2BYTE_LITTLE data p; Some (2, value <| cv_transMode := tmp |>).
Definition SetMeasurementCapability : set_cap := fun data p len value => Some (0, value).
Definition SetAccessSleCapability : set_cap := fun data p len value =>
  if len <? 6 then Some (CM_INVALID_RET, value)
  else d ← rds data p 6; Some (6, value <| cv_accessSle := d |>).
Definition SetAccessSlbCapability : set_cap := fun data p len value =>
  if len <? 6 then Some (CM_INVALID_RET, value)
  else d ← rds data p 6; Some (6, value <| cv_accessSlb := d |>).
Definition SetMtuCapability : set_cap := fun data p len value =>
  if len <? 2 then Some (CM_INVALID_RET, value)
  else v ← DECODE2BYTE_LITTLE data p; Some (2, value <| cv_mtu := v |>).
Definition SetMpsCapability : set_cap := fun data p len value =>
  if len <? 2 then Some (CM_INVALID_RET, value)
  else v ← DECODE2BYTE_LITTLE data p; Some (2, value <| cv_mps := v |>).
Definition SetVersionCapability : set_cap := fun data p len value =>
  if len <? 2 then Some (CM_INVALID_RET, value)
  else v ← DECODE2BYTE_LITTLE data p; Some (2, value <| cv_version := v |>).
Definition SetRxWindowCapability : set_cap := fun data p len value =>
  if len <? 1 then Some (CM_INVALID_RET, value)
  else v ← rd data p; Some (1, value <| cv_wnd := v |>).

Definition g_localSetCap : list (Z * set_cap) :=
  [ (cap_bit CM_SIGNAL_RELAY_CAPABILITY, SetRelayCapability); (cap_bit CM_SIGNAL_TRANS_MODE, SetTransModeCapability);
    (cap_bit CM_SIGNAL_MEASURE_CAPABILITY, SetMeasurementCapability); (cap_bit CM_SIGNAL_ACCESS_SLE, SetAccessSleCapability);
    (cap_bit CM_SIGNAL_ACCESS_SLB, SetAccessSlbCapability); (cap_bit CM_SIGNAL_MTU, SetMtuCapability);
    (cap_bit CM_SIGNAL_MPS, SetMpsCapability); (cap_bit CM_SIGNAL_VERSION, SetVersionCapability);
    (cap_bit CM_SIGNAL_WND, SetRxWindowCapability) ].

(** The loop over the table: [None] inside is the failure, for which the code answers 0. *)
Fixpoint set_loop (tab : list (Z * set_cap)) (data : bytes) (cap totalLen remainingLen bitMap : Z) (value : CM_CapabilityValue) :
    option (option (Z * Z * CM_CapabilityValue)) :=
  match tab with
  | [] => Some (Some (totalLen, bitMap, value))
  | (bitFlag, setCap) :: tab' =>
      if negb (Z.land bitFlag cap =? 0) then
        '(retLen, value) ← setCap data totalLen remainingLen value;
        if (retLen =? CM_INVALID_RET) || (remainingLen <? u32 retLen) then Some None
        else set_loop tab' data cap (u32 (totalLen + u32 retLen)) (u32 (remainingLen - u32 retLen)) (Z.lor bitMap bitFlag) value
      else set_loop tab' data cap totalLen remainingLen bitMap value
  end.

Definition SetCapabilityInfo (data : bytes) (len : Z) (value : CM_CapabilityValue) : option (Z * CM_CapabilityValue) :=
  cap ← DECODE4BYTE_LITTLE data 0;
  r ← set_loop g_localSetCap data cap 4 (u32 (len - 4)) 0 value;
  Some (match r with
        | None => (0, value)
        | Some (totalLen, bitMap, value) => (totalLen, value <| cv_capBitMap := bitMap |>)
        end).

(** ** Writing the own answer

    Each function writes at [p], where [len] bytes are left, and answers how many it used. *)
Notation get_cap := (option SLE_Addr -> bytes -> Z -> Z -> option (Z * bytes)).

Definition GetRelayCapability : get_cap := fun _ data p len => Some (0, data).
Definition GetTransModeCapability : get_cap := fun _ data p len =>
  if len <? 2 then Some (0, data) else m ← enc2 data p (li_transMode g_localInfo); Some (2, m).
Definition GetMeasurementCapability : get_cap := fun _ data p len => Some (0, data).
Definition GetAccessSleCapability : get_cap := fun address data p len =>
  match address with
  | None => Some (0, data)
  | Some addr =>
      if memcpy_s_ok len SLE_ADDR_LEN then m ← wr data p (a_addr addr); Some (SLE_ADDR_LEN, m) else Some (0, data)
  end.
Definition GetAccessSlbCapability : get_cap := fun _ data p len => Some (0, data).
Definition GetMtuCapability : get_cap := fun _ data p len =>
  if len <? 2 then Some (0, data) else m ← enc2 data p (li_mtu g_localInfo); Some (2, m).
Definition GetMpsCapability : get_cap := fun _ data p len =>
  if len <? 2 then Some (0, data) else m ← enc2 data p (li_mps g_localInfo); Some (2, m).
Definition GetVersionCapability : get_cap := fun _ data p len =>
  if len <? 2 then Some (0, data) else m ← enc2 data p (li_defaultVersion g_localInfo); Some (2, m).
Definition GetRxWindowCapability : get_cap := fun _ data p len =>
  if len <? 1 then Some (0, data) else m ← wr data p [u8 (li_wnd g_localInfo)]; Some (1, m).

Definition g_localGetCap : list (Z * get_cap) :=
  [ (cap_bit CM_SIGNAL_RELAY_CAPABILITY, GetRelayCapability); (cap_bit CM_SIGNAL_TRANS_MODE, GetTransModeCapability);
    (cap_bit CM_SIGNAL_MEASURE_CAPABILITY, GetMeasurementCapability); (cap_bit CM_SIGNAL_ACCESS_SLE, GetAccessSleCapability);
    (cap_bit CM_SIGNAL_ACCESS_SLB, GetAccessSlbCapability); (cap_bit CM_SIGNAL_MTU, GetMtuCapability);
    (cap_bit CM_SIGNAL_MPS, GetMpsCapability); (cap_bit CM_SIGNAL_VERSION, GetVersionCapability);
    (cap_bit CM_SIGNAL_WND, GetRxWindowCapability) ].

Fixpoint get_loop (tab : list (Z * get_cap)) (address : option SLE_Addr) (data : bytes) (rspCap totalLen remainingLen : Z) :
    option (Z * bytes) :=
  match tab with
  | [] => Some (totalLen, data)
  | (bitFlag, getCap) :: tab' =>
      if negb (Z.land bitFlag rspCap =? 0) then
        '(retLen, data) ← getCap address data totalLen remainingLen;
        if (remainingLen <? retLen) || (retLen =? 0) then Some (0, data)
        else get_loop tab' address data rspCap (u32 (totalLen + retLen)) (u32 (remainingLen - retLen))
      else get_loop tab' address data rspCap totalLen remainingLen
  end.

(** The length, 0 for a failure, and the answer. *)
Definition GetCapabilityInfo (cap : Z) (address : option SLE_Addr) (data : bytes) (len : Z) : option (Z * bytes) :=
  let rspCap := Z.land cap (li_cap g_localInfo) in
  m ← wr data 0 (ENCODE4BYTE_LITTLE rspCap);
  get_loop g_localGetCap address m rspCap 4 (u32 (len - 4)).

Section cap.
Context {W : Type} `{Below W}.
Notation M := (ST (Cm * W)).

(** [pkt] is never null here. *)
Definition CM_ProcessRspSignalingCapability (lcid : Z) (pkt : CM_SignalingHead) : M Z :=
  if h_length pkt <? 4 then st_ret CM_INVALID_PARAM_ERR
  else
    let! (ret, value) := st_opt (SetCapabilityInfo (h_data pkt) (h_length pkt) zero_capvalue) in
    if ret =? 0 then st_ret CM_FAIL
    else
      (if cv_version value =? 0 then CM_SetDeviceLinkDeviceType lcid false
       else CM_SetLinkProtocolVersion lcid (cv_version value) ;;! CM_SetDeviceLinkDeviceType lcid true) ;;!
      CM_SetLinkTransMode lcid (cv_transMode value) ;;!
      (if negb (cv_wnd value =? 0) then CM_SetLinkRxWindow lcid (cv_wnd value) else st_ret tt) ;;!
      (if negb (cv_mtu value =? 0) then CM_SetLinkMtu lcid (cv_mtu value) else st_ret tt) ;;!
      st_ret 0.

Definition CM_ProcessReqSignalingCapability (lcid : Z) (pkt : CM_SignalingHead) : M Z :=
  if h_length pkt <? 4 then st_ret CM_INVALID_PARAM_ERR
  else
    let! cap := st_opt (DECODE4BYTE_LITTLE (h_data pkt) 0) in
    (if negb (Z.land (cap_bit CM_SIGNAL_VERSION) cap =? 0) then CM_SetDeviceLinkDeviceType lcid true else st_ret tt) ;;!
    let! address := cg nbc_address in
    let! (len, tmp) := st_opt (GetCapabilityInfo cap address (zeros CM_CAPABILITY_RSP_LEN) CM_CAPABILITY_RSP_LEN) in
    if len =? 0 then st_ret CM_FAIL
    else
      let! ok := alloc_ok in
      let! buf := st_opt (CM_CreateSignalingBuff ok CAPABILITY_RSP (h_identifier pkt) tmp (u16 len)) in
      match buf with
      | None => st_ret CM_MEM_ERR
      | Some buf => CM_SendBuffToDtap lcid buf
      end.

(** [cap] is the value of the bit field. *)
Definition CM_SendReqSignalingCapability (lcid cap : Z) : M Z :=
  let! id := CM_GetIdentifier in
  match id with
  | None => st_ret CM_FAIL
  | Some id =>
      let! ret := CM_SignalingCacheInsert lcid id CAPABILITY_REQ None None in
      if negb (ret =? CM_SUCCESS) then st_ret ret
      else
        let! buf := create_buff CAPABILITY_REQ id (ENCODE4BYTE_LITTLE cap) in
        match buf with
        | None => let! _ := CM_SignalingCacheRemove lcid id CAPABILITY_REQ in st_ret CM_MEM_ERR
        | Some buf =>
            let! ret := CM_SendBuffToDtap lcid buf in
            if negb (ret =? 0) then let! _ := CM_SignalingCacheRemove lcid id CAPABILITY_REQ in st_ret ret
            else st_ret ret
        end
  end.
End cap.
