(* ===== verification/CmRecv.v ===== *)
(** * Signaling received, timed out, and links that change

    The entry points of CM's channel management that the data plane, the timers and the
    access layer call: [CM_RecvSignalingData] ([signaling/src/cm_signaling_internal.c])
    with the table of [cm_signaling_manage.c] and the processing of
    [cm_signaling_trans_channel.c], the timeout of a request, the notification of the
    modules about a link ([link/src/cm_logic_link_listener_mgr.c]), and the completion of
    connections and disconnections ([link/src/cm_event_core.c]). *)
From S2P Require Import Prelude SdfErrno SdfBuff SdfContainers CmData DtapEnv DtapTrans DtapChannel CmState CmTcid CmChannel CmSignal CmCache CmDynTrans CmCap.

(** [CM_Signaling_S], with the function as a name. *)
Inductive CM_SignalingHandle := CapReq_fn | CapRsp_fn | EstablishReq_fn | EstablishRsp_fn | ReleaseReq_fn | ReleaseRsp_fn.
Record CM_Signaling := mk_signaling { recvCode : Z; requestCode : Z; handle : CM_SignalingHandle }.
Definition g_signalings : list CM_Signaling :=
  [ mk_signaling CAPABILITY_REQ CAPABILITY_REQ CapReq_fn; mk_signaling CAPABILITY_RSP CAPABILITY_REQ CapRsp_fn;
    mk_signaling TC_CONNECT_REQ TC_CONNECT_REQ EstablishReq_fn; mk_signaling TC_CONNECT_RSP TC_CONNECT_REQ EstablishRsp_fn;
    mk_signaling TC_DISCONNECT_REQ TC_DISCONNECT_REQ ReleaseReq_fn; mk_signaling TC_DISCONNECT_RSP TC_DISCONNECT_REQ ReleaseRsp_fn ].
Definition CM_SignalingGet (code : Z) : option CM_Signaling := find_first (fun s => recvCode s =? code) g_signalings.

(** What the completion of a connection reports. *)
Record CM_ConnectParamRsp := mk_connrsp { cr_lcid : Z; cr_addr : SLE_Addr; cr_role : Z; cr_connCompleteType : Z }.

Section recv.
Context {W : Type} `{Below W}.
Notation M := (ST (Cm * W)).

(** ** Processing *)
Definition CM_SignalingTransChanEstablishReqProc (lcid : Z) (pkt : CM_SignalingHead) : M Z :=
  let! (ret, req) := st_opt (CM_SignalingTransChanEstablishReqParse pkt) in
  if negb (ret =? CM_SUCCESS) then st_ret ret
  else
    let! cbks := cg g_signalingTransChanCbks in
    (if cbks then CM_DynTransChannelEstablishReqCbk lcid (h_identifier pkt) req else st_ret tt) ;;!
    st_ret CM_SUCCESS.

Definition CM_SignalingTransChanEstablishRspProc (lcid : Z) (pkt : CM_SignalingHead) : M Z :=
  let! rsp := st_opt (establish_rsp_parse pkt) in
  match rsp with
  | None => st_ret CM_INVALID_PARAM_ERR
  | Some rsp =>
      let! cbks := cg g_signalingTransChanCbks in
      (if cbks then CM_DynTransChannelEstablishRspCbk lcid rsp else st_ret tt) ;;!
      st_ret CM_SUCCESS
  end.

Definition CM_SignalingTransChanReleaseReqProc (lcid : Z) (pkt : CM_SignalingHead) : M Z :=
  let! req := st_opt (release_req_parse pkt) in
  match req with
  | None => st_ret CM_INVALID_PARAM_ERR
  | Some req =>
      let! cbks := cg g_signalingTransChanCbks in
      (if cbks then CM_DynTransChannelReleaseReqCbk lcid (h_identifier pkt) req else st_ret tt) ;;!
      st_ret CM_SUCCESS
  end.

Definition CM_SignalingTransChanReleaseRspProc (lcid : Z) (pkt : CM_SignalingHead) : M Z :=
  let! rsp := st_opt (release_rsp_parse pkt) in
  match rsp with
  | None => st_ret CM_INVALID_PARAM_ERR
  | Some rsp =>
      let! cbks := cg g_signalingTransChanCbks in
      (if cbks then CM_DynTransChannelReleaseRspCbk lcid rsp else st_ret tt) ;;!
      st_ret CM_SUCCESS
  end.

Definition run_handle (h : CM_SignalingHandle) (lcid : Z) (pkt : CM_SignalingHead) : M Z :=
  match h with
  | CapReq_fn => CM_ProcessReqSignalingCapability lcid pkt
  | CapRsp_fn => CM_ProcessRspSignalingCapability lcid pkt
  | EstablishReq_fn => CM_SignalingTransChanEstablishReqProc lcid pkt
  | EstablishRsp_fn => CM_SignalingTransChanEstablishRspProc lcid pkt
  | ReleaseReq_fn => CM_SignalingTransChanReleaseReqProc lcid pkt
  | ReleaseRsp_fn => CM_SignalingTransChanReleaseRspProc lcid pkt
  end.

(** Called by the data plane for every packet of the channel [TCID_SLE_CMTC]. *)
Definition CM_RecvSignalingData (lcid : Z) (buff : option SDF_Buff) : M Z :=
  match buff with
  | None => st_ret CM_FAIL
  | Some buff =>
      if SDF_DataLenGet buff <? 1 then st_ret CM_FAIL
      else
        let! code := st_opt (rd (bmem buff) (SDF_DataOffset buff)) in
        match CM_SignalingGet code with
        | None => st_ret CM_FAIL
        | Some signaling =>
            let! head := st_opt (CM_ParseSignalingBuff buff) in
            match head with
            | None => st_ret CM_FAIL
            | Some head =>
                let! ok := (if negb (code =? requestCode signaling)
                            then CM_SignalingCacheRemove lcid (h_identifier head) (requestCode signaling)
                            else st_ret true) in
                if negb ok then st_ret CM_FAIL
                else
                  let! _ := run_handle (handle signaling) lcid head in
                  st_ret CM_SUCCESS
            end
        end
  end.

(** ** Timeouts *)
Definition CM_SignalingTransChanEstablishReqTimeout (args : option CM_SignalingTransChanTimoutArgs) : M unit :=
  match args with
  | None => st_ret tt
  | Some a =>
      let! cbks := cg g_signalingTransChanCbks in
      if cbks then CM_DynTransChannelEstablishRspCbk (ta_lcid a) (mk_ersp (ta_srcTcid a) (ta_dstTcid a) CM_RESULT_ESTABLISH_TIMEOUT)
      else st_ret tt
  end.
Definition CM_SignalingTransChanReleaseReqTimeout (args : option CM_SignalingTransChanTimoutArgs) : M unit :=
  match args with
  | None => st_ret tt
  | Some a =>
      let! cbks := cg g_signalingTransChanCbks in
      if cbks then CM_DynTransChannelReleaseRspCbk (ta_lcid a) (mk_rrsp (ta_srcTcid a) (ta_dstTcid a) CM_RESULT_RELEASE_TIMEOUT)
      else st_ret tt
  end.

(** The entry behind the pointer that the timer got, which is known by its identifier. *)
Definition get_cached (id : Z) : M CM_CachedSignaling :=
  let! m := cg g_cachedSignalings in
  st_opt (m ← m; snd <$> SDF_MapFind CM_SignalingCacheCompare m id).

Definition run_timeout (cache : CM_CachedSignaling) : M unit :=
  match cs_cbk cache with
  | None => st_ret tt
  | Some CM_SignalingTransChanEstablishReqTimeout_cbk => CM_SignalingTransChanEstablishReqTimeout (cs_args cache)
  | Some CM_SignalingTransChanReleaseReqTimeout_cbk => CM_SignalingTransChanReleaseReqTimeout (cs_args cache)
  end.
(** Its timer has expired, and is not deleted. *)
Definition end_request (id : Z) : M unit :=
  let! cache := get_cached id in
  cupd (fun c => c <| g_cachedSignalings ::= fmap (fun m =>
    mk_map (update_first (fun e => fst e =? id) (fun e => (fst e, snd e <| cs_timer := CM_INVALID_TIMER_HANDLE |>)) (entry m))) |>) ;;!
  cache_erase (cs_id cache).

Definition CM_SignalingTimeoutCbkInner (id : Z) : M unit :=
  let! cache := get_cached id in
  run_timeout cache ;;!
  end_request id.

(** ** Links *)

(** The bits that [CM_SleAccessLinkEstablishQuery] sets *)
Definition query_bits : Z :=
  foldl Z.lor 0 (map cap_bit [CM_SIGNAL_RELAY_CAPABILITY; CM_SIGNAL_TRANS_MODE; CM_SIGNAL_MEASURE_CAPABILITY;
    CM_SIGNAL_ACCESS_SLE; CM_SIGNAL_ACCESS_SLB; CM_SIGNAL_MTU; CM_SIGNAL_MPS; CM_SIGNAL_VERSION; CM_SIGNAL_WND]).
Definition CM_SleAccessLinkEstablishQuery (lcid : Z) : M unit :=
  let! _ := CM_SendReqSignalingCapability lcid query_bits in st_ret tt.

Definition CM_SignalingLogicLinkCbk (state : CM_LogicLinkState) : M unit :=
  if lk_result state =? CM_LINK_STATE_CONNECTED then CM_SleAccessLinkEstablishQuery (lk_lcid state)
  else if lk_result state =? CM_LINK_STATE_DISCONNECTED then CM_SignalingCacheClearByLcid (lk_lcid state)
  else st_ret tt.

Definition CM_SignalingInit : M Z :=
  let! ret := CM_RegLogicLinkListener CM_MODULE_CM_SIGNALING CM_SignalingLogicLinkCbk_fn in
  if negb (ret =? CM_SUCCESS) then st_ret ret else CM_SignalingCacheInit.
Definition CM_SignalingDeInit : M unit :=
  CM_SignalingCacheDeinit ;;!
  let! _ := CM_UnRegLogicLinkListener CM_MODULE_CM_SIGNALING in st_ret tt.

Definition CM_ExecLogicLinkModuleCbks (moduleId : Z) (state : CM_LogicLinkState) : M unit :=
  if CM_MODULE_ID_MAX <=? moduleId then st_ret tt
  else
    let! cbks := cg g_logicLinkCbks in
    match mjoin (cbks !! Z.to_nat moduleId) with
    | None => st_ret tt
    | Some CM_SignalingLogicLinkCbk_fn => CM_SignalingLogicLinkCbk state
    | Some DTAP_LogicLinkStateChangeCbk_fn => over (dtapLogicLinkCbk state)
    | Some CM_DynTransLogicLinkCbk_fn => CM_DynTransLogicLinkCbk state
    | Some other_fn => let! _ := cm_ask (CmLinkCbk moduleId (lk_lcid state) (lk_result state)) in st_ret tt
    end.

Definition CM_NotifyLogicLinkDtapCbks (state : CM_LogicLinkState) : M unit :=
  if negb (lk_result state =? CM_LINK_STATE_CONNECTED) then st_ret tt
  else CM_ExecLogicLinkModuleCbks CM_MODULE_DTAP state.

Definition CM_CONN_COMPLETE_SCAN : Z := 0.
(** [modules] are the indexes of the table; the data plane comes last when a link comes up,
    and all in reverse order when it goes down. *)
Definition modules : list Z := seqZ 0 CM_MODULE_ID_MAX.
Definition CM_NotifyLogicLinkCbks (state : CM_LogicLinkState) (connCompleteType : Z) : M unit :=
  (if lk_result state =? CM_LINK_STATE_CONNECTED then
     st_for modules (fun i => if i =? CM_MODULE_DTAP then st_ret tt else CM_ExecLogicLinkModuleCbks i state) ;;!
     CM_NotifyLogicLinkDtapCbks state
   else if lk_result state =? CM_LINK_STATE_DISCONNECTED then
     st_for (rev modules) (fun i => CM_ExecLogicLinkModuleCbks i state)
   else st_ret tt) ;;!
  if (connCompleteType =? CM_CONN_COMPLETE_SCAN)
     && ((lk_result state =? CM_LINK_STATE_CONNECTED) || (lk_result state =? CM_LINK_STATE_DISCONNECTED))
  then let! _ := cm_ask CmNotifyCollab in st_ret tt
  else st_ret tt.

Definition CM_ReportLogicLinkCbks (lcid connCompleteType result : Z) : M unit :=
  if (result =? CM_LINK_STATE_CONNECTED) || (result =? CM_LINK_STATE_DISCONNECTED)
  then CM_NotifyLogicLinkCbks (mk_linkstate lcid result) connCompleteType
  else st_ret tt.

(** The access layer reports the end of an attempt to connect. *)
Definition CM_CONN_COMPLETE_ADV : Z := 1.
Definition CM_IsEmptyAddr (addr : SLE_Addr) : bool := bool_decide (addr = mk_addr 0 (zeros 6)).
Definition CM_ConnectionProcInterruptReq (p : Z) : M unit :=
  set_link p (fun n => n <| sl_status := CM_LINK_STATE_DISCONNECTING |>) ;;!
  let! n := get_link p in
  let! _ := cm_ask (CmLinkReleaseReq (sl_lcid n)) in st_ret tt.

(** The end of the procedure, with the result it reports. *)
Definition create_connection_end (connCompleteType result : Z) : M unit :=
  (if connCompleteType =? CM_CONN_COMPLETE_ADV then
     let! link := SleLogicLinkGetByStatus CM_LINK_STATE_CONNECTING in
     match link with Some q => SleLogicLinkRemove q | None => st_ret tt end
   else st_ret tt) ;;!
  let! _ := cm_ask (CmConnDoingComplete result) in st_ret tt.

Definition CM_SleCreateConnectionProc (connectRsp : CM_ConnectParamRsp) : M unit :=
  let lcid := cr_lcid connectRsp in
  let! link := SleLogicLinkGetByAddr (cr_addr connectRsp) in
  match link with
  | None => st_ret tt
  | Some p =>
      let! n := get_link p in
      let connCompleteType := sl_connCompleteType n in
      if sl_status n =? CM_LINK_STATE_CONNECTED then
        let! ret := cm_ask (CmReadRemoteVersion lcid) in
        if negb (ret =? CM_SUCCESS) then CM_ConnectionProcInterruptReq p
        else
          set_link p (fun n => n <| sl_role := cr_role connectRsp |>) ;;!
          let! ret := CM_ActivateFixedTransChannel lcid None in
          if negb (ret =? CM_SUCCESS) then CM_ConnectionProcInterruptReq p
          else create_connection_end connCompleteType CM_LINK_STATE_CONNECTED
      else
        SleLogicLinkRemove p ;;!
        (if negb (CM_IsEmptyAddr (cr_addr connectRsp))
         then CM_ReportLogicLinkCbks lcid (cr_connCompleteType connectRsp) CM_LINK_STATE_DISCONNECTED else st_ret tt) ;;!
        create_connection_end connCompleteType CM_LINK_STATE_DISCONNECTED
  end.

(** The version of the peer is known: the link is up. *)
Definition CM_SleReadRemoteVersionProc (lcid : Z) : M unit :=
  let! link := SleLogicLinkGetByLcid lcid in
  match link with
  | None => st_ret tt
  | Some p =>
      let! n := get_link p in
      CM_NotifyLogicLinkCbks (mk_linkstate lcid CM_LINK_STATE_CONNECTED) (sl_connCompleteType n)
  end.

(** The data length is in effect: the link is reported up, again. *)
Definition CM_SleSetDataLenProc (lcid result : Z) : M unit :=
  if negb (result =? CM_SUCCESS) then
    if lcid =? CM_INVALID_LCID then st_ret tt
    else
      let! link := SleLogicLinkGetByLcid lcid in
      match link with None => st_ret tt | Some p => CM_ConnectionProcInterruptReq p end
  else CM_SleReadRemoteVersionProc lcid.

(** The access layer reports a disconnection. *)
Definition CM_SleDisconnectProc (connectRsp : CM_ConnectParamRsp) : M unit :=
  let lcid := cr_lcid connectRsp in
  if lcid =? CM_INVALID_LCID then st_ret tt
  else
    let! link := SleLogicLinkGetByLcid lcid in
    match link with
    | None => st_ret tt
    | Some p =>
        let! n := get_link p in
        let status := sl_status n in
        (if negb (status =? CM_LINK_STATE_DISCONNECTED) then
           (if (status =? CM_LINK_STATE_CONNECTED) || (status =? CM_LINK_STATE_DISCONNECTING)
            then CM_ReleaseFixedTransChannel lcid else st_ret tt) ;;!
           SleLogicLinkRemove p
         else set_link p (fun n => n <| sl_status := CM_LINK_STATE_DISCONNECTED |>)) ;;!
        CM_ReportLogicLinkCbks lcid (cr_connCompleteType connectRsp) CM_LINK_STATE_DISCONNECTED
    end.
End recv.
