(* ===== verification/CmAccess.v ===== *)
(** * Links: the access layer

    [services/stack/src/cp/bsl/sle/cm/link]: the requests to connect and to disconnect
    ([cm_api.c]), and the events of the controller about connections
    ([sle_access_dli.c]) with the procedures of [cm_event_core.c] that they lead to.
    [CM_AccessGetCbk] answers the procedures that [CM_RegEventCbk] registers. *)
From S2P Require Import Prelude SdfErrno SdfBuff SdfContainers CmData DtapEnv DtapTrans DtapChannel CmState CmChannel CmRecv.

Definition CM_G_NODE : Z := 0.
Definition PUBLIC_ADDRESS : Z := 0.
Definition RPA_UNRESOLV_ADDRESS : Z := 4.
Definition DLI_SUCCESS : Z := 0.
Definition DLI_COMMAND_DISALLOWED : Z := 0x0B.
Definition DLI_COMMAND_TIMEOUT : Z := 0x0D.
Definition SLE_INITIATOR_FILTER_POLICY : Z := 0.

Definition CM_CheckAndFixAddrType (addr : SLE_Addr) : SLE_Addr :=
  if negb (a_type addr =? PUBLIC_ADDRESS) && negb (a_type addr =? RPA_UNRESOLV_ADDRESS) then mk_addr PUBLIC_ADDRESS (a_addr addr) else addr.

(** The members that the code here reads or that reach the state. *)
Record DLI_ConnectionCompleteEvt := mk_complete {
  ce_status : Z; ce_connHandle : Z; ce_role : Z; ce_peerAddressType : Z; ce_peerAddress : bytes; ce_connCompleteType : Z
}.
Record DLI_ReadRemoteVersionEvt := mk_verevt { rv_connHandle : Z; rv_companyIdentifier : Z; rv_subversion : Z }.

Section access.
Context {W : Type} `{Below W}.
Notation M := (ST (Cm * W)).

(** ** Requests *)
Definition CM_NotifyConnectionReqCanceled : M unit :=
  CM_NotifyLogicLinkCbks (mk_linkstate CM_INVALID_LCID CM_LINK_STATE_DISCONNECTED) 0.
Definition CM_NotifyConnectionExisted (p : Z) : M unit :=
  let! link := get_link p in
  CM_NotifyLogicLinkCbks (mk_linkstate (sl_lcid link) (sl_status link)) (sl_connCompleteType link).

Definition CM_EstablishLinkInit (addr : SLE_Addr) : M (option Z) :=
  let! link := SleLogicLinkGetByAddr addr in
  match link with
  | Some p => CM_NotifyConnectionExisted p ;;! st_ret None
  | None =>
      let! link := SleLogicLinkGetByStatus CM_LINK_STATE_CONNECTING in
      match link with
      | Some _ => CM_NotifyConnectionReqCanceled ;;! st_ret None
      | None =>
          let! link := SleLogicLinkAdd addr in
          match link with
          | None => CM_NotifyConnectionReqCanceled ;;! st_ret None
          | Some p =>
              set_link p (fun n => n <| sl_status := CM_LINK_STATE_CONNECTING |> <| sl_connCompleteType := CM_CONN_COMPLETE_SCAN |>) ;;!
              st_ret (Some p)
          end
      end
  end.

(** [policy] is what [SleGetInitiatorFilterPolicy] answers. *)
Definition CM_ConnectEstablishReq (policy : Z) (param : option SLE_Addr) : M Z :=
  let! inited := cg g_cmIsInited in
  if negb inited then st_ret CM_NOT_INITED
  else
    match param with
    | None => st_ret CM_INVALID_PARAM_ERR
    | Some addr =>
        let addr := CM_CheckAndFixAddrType addr in
        let addr := if negb (policy =? SLE_INITIATOR_FILTER_POLICY) then mk_addr 0 (zeros 6) else addr in
        let! link := CM_EstablishLinkInit addr in
        match link with
        | None => st_ret CM_SUCCESS
        | Some p =>
            let! ret := cm_ask (CmCreateConnection addr) in
            if negb (ret =? CM_SUCCESS) then
              SleLogicLinkRemove p ;;! CM_NotifyConnectionReqCanceled ;;! st_ret ret
            else st_ret CM_SUCCESS
        end
    end.

Definition CM_DISC_REASON_CANCEL_PAIR : Z := 0x21.
Definition CM_DISC_REASON_COMMAND_TIMEOUT : Z := 0x0D.
Definition CM_DISC_REASON_REMOTE_USER_TERMINATED : Z := 0x10.
Definition CM_ConnectReleaseReq (param : option (SLE_Addr * Z)) : M Z :=
  let! inited := cg g_cmIsInited in
  if negb inited then st_ret CM_NOT_INITED
  else
    match param with
    | None => st_ret CM_INVALID_PARAM_ERR
    | Some (addr, discReason) =>
        if negb ((discReason =? CM_DISC_REASON_REMOTE_USER_TERMINATED) || (discReason =? CM_DISC_REASON_CANCEL_PAIR)
                 || (discReason =? CM_DISC_REASON_COMMAND_TIMEOUT)) then st_ret CM_INVALID_PARAM_ERR
        else
          let! link := SleLogicLinkGetByAddr (CM_CheckAndFixAddrType addr) in
          match link with
          | None => CM_NotifyConnectionReqCanceled ;;! st_ret CM_FAIL
          | Some p =>
              let! n := get_link p in
              if negb (sl_status n =? CM_LINK_STATE_CONNECTED) then CM_NotifyConnectionReqCanceled ;;! st_ret CM_FAIL
              else
                set_link p (fun n => n <| sl_status := CM_LINK_STATE_DISCONNECTING |>) ;;!
                let! ret := cm_ask (CmLinkReleaseReq (sl_lcid n)) in
                (if negb (ret =? CM_SUCCESS) then
                   set_link p (fun n => n <| sl_status := CM_LINK_STATE_CONNECTED |>) ;;! CM_NotifyConnectionReqCanceled
                 else st_ret tt) ;;!
                st_ret ret
          end
    end.

(** ** The end of an attempt to connect *)
Definition SleAccessConnectCbkSetLinkStatusAndInfo (p : Z) (evt : DLI_ConnectionCompleteEvt) : M unit :=
  if ce_status evt =? DLI_SUCCESS then
    set_link p (fun n => n <| sl_status := CM_LINK_STATE_CONNECTED |> <| sl_lcid := ce_connHandle evt |>
                           <| sl_role := ce_role evt |> <| sl_connCompleteType := ce_connCompleteType evt |>)
  else set_link p (fun n => n <| sl_status := CM_LINK_STATE_DISCONNECTED |>).

Definition SleLogicLinkSetAddrWhenActiveConnDone (rspAddr : SLE_Addr) (lcid : Z) : M (option Z) :=
  let! link := SleLogicLinkGetByAddr rspAddr in
  let! connected := (match link with
                     | None => st_ret false
                     | Some p => let! n := get_link p in st_ret (sl_status n =? CM_LINK_STATE_CONNECTED) end) in
  if connected then st_ret None
  else
    let! link := SleLogicLinkGetByStatus CM_LINK_STATE_CONNECTING in
    match link with
    | Some p => set_link p (fun n => n <| sl_rmtAddr := rspAddr |>) ;;! st_ret (Some p)
    | None => let! _ := cm_ask (CmLinkReleaseReq lcid) in st_ret None
    end.

Definition SleGetConnCompleteTypeIsPassive (connCompleteType : Z) : bool := connCompleteType =? CM_CONN_COMPLETE_ADV.

(** The link of the event and the address of the answer. *)
Definition connect_link (evt : DLI_ConnectionCompleteEvt) : M (option Z * SLE_Addr) :=
  let passive := SleGetConnCompleteTypeIsPassive (ce_connCompleteType evt) in
  let rspAddr := mk_addr (ce_peerAddressType evt) (zeros 6) in
  if ce_status evt =? DLI_SUCCESS then
    let rspAddr := mk_addr (ce_peerAddressType evt) (ce_peerAddress evt) in
    if passive then
      let! ll := SleLogicLinkGetByAddr rspAddr in
      match ll with
      | Some _ => st_ret (None, rspAddr)
      | None => let! link := SleLogicLinkAdd rspAddr in st_ret (link, rspAddr)
      end
    else let! link := SleLogicLinkSetAddrWhenActiveConnDone rspAddr (ce_connHandle evt) in st_ret (link, rspAddr)
  else if negb passive then
    let! link := SleLogicLinkGetByStatus CM_LINK_STATE_CONNECTING in
    match link with
    | Some p => let! n := get_link p in st_ret (Some p, sl_rmtAddr n)
    | None => st_ret (None, rspAddr)
    end
  else st_ret (None, rspAddr).

(** [SleAccessConnectCbk] with [SleAccessConnectCbkProc], which it calls for the status
    [DLI_SUCCESS] alone; [SleAccessLinkEstablishRsp] reports to [CM_SleCreateConnectionProc]. *)
Definition SleAccessConnectCbk (dliStatus : Z) (evt : option DLI_ConnectionCompleteEvt) : M unit :=
  match evt with
  | None => st_ret tt
  | Some evt =>
      if u8 dliStatus =? DLI_COMMAND_DISALLOWED then st_ret tt
      else if negb (u8 dliStatus =? DLI_SUCCESS) then st_ret tt
      else if negb ((ce_connCompleteType evt =? CM_CONN_COMPLETE_SCAN) || (ce_connCompleteType evt =? CM_CONN_COMPLETE_ADV))
      then st_ret tt
      else
        let! (link, rspAddr) := connect_link evt in
        match link with
        | None => st_ret tt
        | Some p =>
            SleAccessConnectCbkSetLinkStatusAndInfo p evt ;;!
            CM_SleCreateConnectionProc (mk_connrsp (ce_connHandle evt) rspAddr (ce_role evt) (ce_connCompleteType evt))
        end
  end.

(** ** The end of a link, and the steps after the connection

    [ctx] is the handle of the command's context, [CM_INVALID_LCID] without one. *)
Definition SleAccessDisconnectCbk (isError : bool) (ctx : Z) (connHandle : option Z) : M unit :=
  match connHandle with
  | None => st_ret tt
  | Some connHandle =>
      let lcid := if isError then ctx else connHandle in
      let! link := SleLogicLinkGetByLcid lcid in
      let! role := (match link with Some p => let! n := get_link p in st_ret (sl_role n) | None => st_ret 0 end) in
      CM_SleDisconnectProc (mk_connrsp lcid (mk_addr 0 (zeros 6)) role 0)
  end.

Definition SleAccessSetDataLenCbk (status : Z) (connHandle : option Z) : M unit :=
  match connHandle with
  | None => st_ret tt
  | Some connHandle => CM_SleSetDataLenProc connHandle (u8 status)
  end.

Definition CM_SleConnectExpectionProc (lcid : Z) : M unit :=
  if lcid =? CM_INVALID_LCID then st_ret tt
  else
    let! link := SleLogicLinkGetByLcid lcid in
    match link with None => st_ret tt | Some p => CM_ConnectionProcInterruptReq p end.

Definition CM_SleReadRemoteFeatureAndVersionProc (lcid result : Z) : M unit :=
  let! _ := cm_ask (CmFeatureVersion lcid) in
  if negb (result =? CM_SUCCESS) then CM_SleConnectExpectionProc lcid else st_ret tt.

Definition SleAccessReadRemoteVersionCbk (statuss ctx : Z) (evt : option DLI_ReadRemoteVersionEvt) : M unit :=
  match evt with
  | None => st_ret tt
  | Some evt =>
      let status := u8 statuss in
      let evt := if status =? DLI_SUCCESS then evt else mk_verevt ctx 0 0 in
      let! link := SleLogicLinkGetByLcid (rv_connHandle evt) in
      match link with
      | None => st_ret tt
      | Some p =>
          set_link p (fun n => n <| sl_companyId := rv_companyIdentifier evt |>) ;;!
          let! n := get_link p in
          if negb (status =? CM_SUCCESS) then
            CM_SleReadRemoteFeatureAndVersionProc (sl_lcid n) status ;;!
            CM_SleConnectExpectionProc (rv_connHandle evt)
          else if sl_role n =? CM_G_NODE then
            let! done := cm_ask (CmReadRemoteExtFeatures (sl_companyId n) (rv_subversion evt) (sl_lcid n)) in
            if done =? 0 then
              let! ret := cm_ask (CmReadRemoteFeatures (sl_lcid n)) in
              if negb (ret =? DLI_SUCCESS) then CM_SleConnectExpectionProc (rv_connHandle evt) else st_ret tt
            else st_ret tt
          else CM_SleReadRemoteVersionProc (sl_lcid n)
      end
  end.

Definition SleAccessReadRemoteFeatureCbk (statuss ctx : Z) (connHandle : option Z) : M unit :=
  match connHandle with
  | None => st_ret tt
  | Some connHandle =>
      let status := u8 statuss in
      let lcid := if status =? DLI_SUCCESS then connHandle else ctx in
      let! link := SleLogicLinkGetByLcid lcid in
      match link with
      | None => st_ret tt
      | Some p =>
          let! _ := cm_ask (CmRemoteFeatures lcid) in
          let! n := get_link p in
          CM_SleReadRemoteFeatureAndVersionProc (sl_lcid n) status ;;!
          if negb (status =? CM_SUCCESS) then CM_SleConnectExpectionProc lcid
          else let! _ := cm_ask (CmSetDataLength lcid) in st_ret tt
      end
  end.
End access.
