(* ===== verification/CmPackets.v ===== *)
(** * Signaling packets: what is built and what is read

    The request to establish a channel as the bytes of its wire format, the round trip
    through the parser, the headers, and the parsers on packets of a peer. *)
From S2P Require Import Prelude Utils SdfErrno SdfBuff CmData DtapEnv DtapTrans DtapChannel DtapFrame DtapEvents CmState CmSignal CmCap CmChannel.

(** ** The wire format of the request *)
Definition config_wire (c : CM_TransModeConfig) : bytes :=
  [bf_set 0 0 4 (transMode c)] ++ ENCODE2BYTE_LITTLE (cf_mtu c) ++ ENCODE2BYTE_LITTLE (cf_mps c) ++
  (if transMode c =? CM_TRANS_MODE_STREAM then
     let s := streamMode c in
     ENCODE2BYTE_LITTLE (sc_flushTimeout s) ++ ENCODE2BYTE_LITTLE (sc_reorderTimeout s) ++ ENCODE2BYTE_LITTLE (sc_crcInit s)
   else if transMode c =? CM_TRANS_MODE_RELIABLE then
     let r := reliableMode c in
     [u8 (rc_txWindow r); u8 (rc_maxTxThreshold r)] ++ ENCODE2BYTE_LITTLE (rc_retransTimeout r) ++
     ENCODE2BYTE_LITTLE (rc_rspTimeout r) ++ ENCODE2BYTE_LITTLE (rc_reorderTimeout r) ++ ENCODE2BYTE_LITTLE (rc_crcInit r)
   else []).
Definition port_wire (o : option CM_SignalingPortConfig) : bytes :=
  match o with
  | None => []
  | Some c => [1; 0] ++ ENCODE2BYTE_LITTLE (pc_dstPort c) ++ ENCODE2BYTE_LITTLE (pc_srcPort c) ++ ENCODE2BYTE_LITTLE (pc_aid c)
  end.
Definition establish_req_wire (req : CM_SignalingTransChanEstablishReq) : bytes :=
  let conf := config_wire (eq_transModeConfig req) in
  [u8 (eq_srcTcid req);
   match eq_portConfig req with Some _ => 3 + zlen conf + 2 | None => 0 end;
   bf_set (bf_set 0 0 1 (b2z (eq_exclusive req))) 1 1 (b2z (eq_measure req))] ++
  conf ++ [bf_set 0 0 4 1; u8 (slqi0 (eq_slqiList req))] ++ port_wire (eq_portConfig req).

Lemma mode_cases m : 0 <= m < CM_TRANS_MODE_MAX ->
  m = CM_TRANS_MODE_BASIC \/ m = CM_TRANS_MODE_TRANSPARENT \/ m = CM_TRANS_MODE_STREAM \/ m = CM_TRANS_MODE_RELIABLE.
Proof. unfold CM_TRANS_MODE_MAX, CM_TRANS_MODE_BASIC, CM_TRANS_MODE_TRANSPARENT, CM_TRANS_MODE_STREAM, CM_TRANS_MODE_RELIABLE. lia. Qed.

Lemma pack_wire req :
  0 <= transMode (eq_transModeConfig req) < CM_TRANS_MODE_MAX -> slqiNum (eq_slqiList req) = 1 ->
  establish_req_bytes req (zeros (CM_SignalingEstablishReqSizeGet req)) = Some (Some (establish_req_wire req)).
Proof.
  destruct req as [src ex me [mode mtu mps rel str] [num q] port]; cbn [eq_transModeConfig eq_slqiList transMode slqiNum].
  intros Hm ->. destruct ex, me, port as [[]|], (mode_cases mode Hm) as [-> | [-> | [-> | ->]]]; reflexivity.
Qed.

(** Each byte of an explicit list is a byte. *)
Ltac bytes_solve := repeat first [assumption | apply Forall_nil_2 | apply Forall_app_2 | apply Forall_cons_2]; try apply u8_range.

Lemma config_wire_ok c : 0 <= transMode c < CM_TRANS_MODE_MAX -> bytes_ok (config_wire c) /\ 5 <= zlen (config_wire c) <= 15.
Proof.
  destruct c as [mode mtu mps [] []]. cbn [transMode]. intros Hm. unfold config_wire.
  destruct (mode_cases mode Hm) as [-> | [-> | [-> | ->]]]; (split; [|cbn; lia]); cbn; bytes_solve; done.
Qed.
Lemma wire_bytes_ok req : 0 <= transMode (eq_transModeConfig req) < CM_TRANS_MODE_MAX ->
  bytes_ok (establish_req_wire req) /\ zlen (establish_req_wire req) <= 28.
Proof.
  intros Hm. destruct (config_wire_ok _ Hm) as [Hc Hl]. unfold establish_req_wire.
  split; [|unfold port_wire; destruct (eq_portConfig req); rewrite !length_app, ?length_encode2; cbn [length]; lia].
  assert (bytes_ok (port_wire (eq_portConfig req))) as Hp by (unfold port_wire; case_match; cbn; bytes_solve; done).
  bytes_solve; [case_match; cint|by destruct (eq_exclusive req), (eq_measure req)|done].
Qed.

(** ** The round trip *)

(** The part of a configuration that its mode uses. *)
Definition used_config (c : CM_TransModeConfig) : CM_TransModeConfig :=
  mk_conf (transMode c) (cf_mtu c) (cf_mps c)
    (if transMode c =? CM_TRANS_MODE_RELIABLE then reliableMode c else mk_relconf 0 0 0 0 0 0)
    (if transMode c =? CM_TRANS_MODE_STREAM then streamMode c else mk_strconf 0 0 0).
Definition used_request (req : CM_SignalingTransChanEstablishReq) : CM_SignalingTransChanEstablishReq :=
  req <| eq_transModeConfig := used_config (eq_transModeConfig req) |>.

(** What the parser makes of two encoded bytes. *)
Definition reread16 (v : Z) : Z := u16 (Z.lor (u8 v) (Z.shiftl (u8 (Z.shiftr (u16 v) 8)) 8)).
Definition reread_config (c : CM_TransModeConfig) : CM_TransModeConfig :=
  let 'mk_relconf a1 a2 a3 a4 a5 a6 := reliableMode c in
  let 'mk_strconf b1 b2 b3 := streamMode c in
  used_config (mk_conf (transMode c) (reread16 (cf_mtu c)) (reread16 (cf_mps c))
    (mk_relconf (reread16 a1) (reread16 a2) (reread16 a3) (reread16 a4) (u8 a5) (u8 a6))
    (mk_strconf (reread16 b1) (reread16 b2) (reread16 b3))).
Definition reread (req : CM_SignalingTransChanEstablishReq) : CM_SignalingTransChanEstablishReq :=
  mk_ereq (u8 (eq_srcTcid req)) (eq_exclusive req) (eq_measure req) (reread_config (eq_transModeConfig req))
    (mk_slqi 1 (u8 (slqi0 (eq_slqiList req))))
    (match eq_portConfig req with
     | None => None
     | Some c => Some (mk_port (reread16 (pc_srcPort c)) (reread16 (pc_dstPort c)) (reread16 (pc_aid c)))
     end).

Definition wire_packet (id : Z) (req : CM_SignalingTransChanEstablishReq) : CM_SignalingHead :=
  mk_head TC_CONNECT_REQ id (zlen (establish_req_wire req)) (establish_req_wire req).

Lemma parse_wire id req :
  0 <= transMode (eq_transModeConfig req) < CM_TRANS_MODE_MAX -> transMode (eq_transModeConfig req) <> CM_TRANS_MODE_TRANSPARENT ->
  slqiNum (eq_slqiList req) = 1 ->
  CM_SignalingTransChanEstablishReqParse (wire_packet id req) = Some (CM_SUCCESS, reread req).
Proof.
  destruct req as [src ex me [mode mtu mps [r1 r2 r3 r4 r5 r6] [s1 s2 s3]] [num q] port].
  cbn [eq_transModeConfig eq_slqiList transMode slqiNum]. intros Hm Ht ->.
  destruct ex, me, port as [[]|], (mode_cases mode Hm) as [-> | [-> | [-> | ->]]]; [..]; try done; reflexivity.
Qed.

Record config_width (c : CM_TransModeConfig) : Prop := {
  cw_mtu : is_u16 (cf_mtu c);
  cw_mps : is_u16 (cf_mps c);
  cw_rel : let r := reliableMode c in is_u16 (rc_reorderTimeout r) /\ is_u16 (rc_crcInit r) /\ is_u16 (rc_retransTimeout r) /\
    is_u16 (rc_rspTimeout r) /\ is_u8 (rc_txWindow r) /\ is_u8 (rc_maxTxThreshold r);
  cw_str : let s := streamMode c in is_u16 (sc_reorderTimeout s) /\ is_u16 (sc_crcInit s) /\ is_u16 (sc_flushTimeout s)
}.
Record request_width (req : CM_SignalingTransChanEstablishReq) : Prop := {
  rw_src : is_u8 (eq_srcTcid req);
  rw_config : config_width (eq_transModeConfig req);
  rw_slqi : slqiNum (eq_slqiList req) = 1 /\ is_u8 (slqi0 (eq_slqiList req));
  rw_port : match eq_portConfig req with Some c => is_u16 (pc_srcPort c) /\ is_u16 (pc_dstPort c) /\ is_u16 (pc_aid c) | None => True end
}.

Lemma reread16_small v : is_u16 v -> reread16 v = v.
Proof. intros Hv. unfold reread16. rewrite decode_encode2, !u16_small; [done|done|]. by rewrite u16_small. Qed.

Lemma reread_used req : request_width req -> reread req = used_request req.
Proof.
  destruct req as [src ex me [mode mtu mps [r1 r2 r3 r4 r5 r6] [s1 s2 s3]] [num q] port].
  intros [Hs [Hmtu Hmps (H1&H2&H3&H4&H5&H6) (G1&G2&G3)] [Hn Hq] Hp]; cbn in *. subst num.
  unfold reread, used_request, reread_config, used_config, modify; cbn. rewrite !reread16_small, !u8_small by done.
  f_equal. destruct port as [[p1 p2 p3]|]; [|done]. destruct Hp as (?&?&?); cbn in *. by rewrite !reread16_small.
Qed.

(** ** Packets of a peer *)
Record packet_ok (pkt : CM_SignalingHead) : Prop := {
  pk_len : zlen (h_data pkt) = h_length pkt;
  pk_bytes : bytes_ok (h_data pkt);
  pk_short : h_length pkt < 65536;
  pk_id : is_u8 (h_identifier pkt)
}.

Lemma rd_total m p : bytes_ok m -> 0 <= p < zlen m -> exists b, rd m p = Some b /\ is_u8 b.
Proof. intros Hm Hp. destruct (rd_is_Some m p Hp) as [b Hb]. exists b. split; [done|by eapply rd_byte]. Qed.
Lemma decode2_total m p : bytes_ok m -> 0 <= p -> p + 2 <= zlen m -> exists v, DECODE2BYTE_LITTLE m p = Some v /\ is_u16 v.
Proof.
  intros Hm Hp Hl. destruct (rd_total m p) as (b0&E0&_); [done|lia|]. destruct (rd_total m (p + 1)) as (b1&E1&_); [done|lia|].
  eexists. unfold DECODE2BYTE_LITTLE. rewrite E0, E1. split; [done|apply u16_range].
Qed.

(** The next load of a parser is inside the block. *)
Ltac total_load :=
  match goal with
  | Hm : bytes_ok ?m |- context [rd ?m ?p] =>
      let b := fresh "b" in let E := fresh "E" in let Hb := fresh "Hb" in
      destruct (rd_total m p Hm ltac:(lia)) as (b & E & Hb); rewrite E; cbn [mbind option_bind]
  | Hm : bytes_ok ?m |- context [DECODE2BYTE_LITTLE ?m ?p] =>
      let v := fresh "v" in let E := fresh "E" in let Hv := fresh "Hv" in
      destruct (decode2_total m p Hm ltac:(lia) ltac:(lia)) as (v & E & Hv); rewrite E; cbn [mbind option_bind]
  end.

(** Splits the answer of a parser, without its ranges. *)
Ltac answers := repeat match goal with |- exists _, _ => eexists | |- _ /\ _ => split end; try done.

Ltac cm_sizes := unfold sizeof_SignalingHead, sizeof_CommonConfig, sizeof_StreamConfig, sizeof_ReliableConfig, CM_SLQI_SIZE,
  CM_SLQI_SURPPORT_NUM, sizeof_EstablishReqExt, sizeof_PortConfig, sizeof_EstablishReqPkt, sizeof_EstablishRspPkt,
  sizeof_ReleaseReqPkt, sizeof_ReleaseRspPkt in *.

Lemma stream_parse_total m p dl : bytes_ok m -> 0 <= p -> p + dl <= zlen m ->
  exists r c, CM_SignalingTransModeStreamConfigParse m p dl = Some (r, c) /\
    is_u16 (sc_reorderTimeout c) /\ is_u16 (sc_crcInit c) /\ is_u16 (sc_flushTimeout c) /\ (r = CM_SUCCESS -> 6 <= dl).
Proof.
  intros Hm Hp Hl. unfold CM_SignalingTransModeStreamConfigParse. cm_sizes.
  case_match; [by answers; cbn; cint|]. repeat total_load. answers. lia.
Qed.

Lemma reliable_parse_total m p dl : bytes_ok m -> 0 <= p -> p + dl <= zlen m ->
  exists r c, CM_SignalingTransModeReliableConfigParse m p dl = Some (r, c) /\
    (is_u16 (rc_reorderTimeout c) /\ is_u16 (rc_crcInit c) /\ is_u16 (rc_retransTimeout c) /\
     is_u16 (rc_rspTimeout c) /\ is_u8 (rc_txWindow c) /\ is_u8 (rc_maxTxThreshold c)) /\ (r = CM_SUCCESS -> 10 <= dl).
Proof.
  intros Hm Hp Hl. unfold CM_SignalingTransModeReliableConfigParse. cm_sizes.
  case_match; [by answers; cbn; cint|]. repeat total_load. answers. lia.
Qed.

(** A configuration that a peer may ask for. *)
Record config_asked (c : CM_TransModeConfig) : Prop := {
  ca_width : config_width c;
  ca_mode : 0 <= transMode c < CM_TRANS_MODE_MAX;
  ca_opaque : transMode c <> CM_TRANS_MODE_TRANSPARENT
}.

Lemma config_parse_total m p dl off : bytes_ok m -> 0 <= p -> 0 <= dl < 65536 -> p + dl <= zlen m ->
  exists r c off', CM_SignalingTransModeConfigParse m p dl off = Some (r, c, off') /\
    (r = CM_SUCCESS -> config_asked c /\ 0 <= off' <= dl /\ off' <= 15).
Proof.
  intros Hm Hp Hd Hl. unfold CM_SignalingTransModeConfigParse. cm_sizes.
  case_match; [by do 3 eexists; split; [done|]|]. total_load. case_match eqn:Hmode; [by do 3 eexists; split; [done|]|].
  apply negb_false_iff, andb_true_iff in Hmode as [Hmax Hno]. pose proof (bf_get_range b 0 4 ltac:(lia)) as Hr.
  repeat total_load. rewrite (u16_small (dl - 5)) by cint.
  assert (forall mtu mps r s o, is_u16 mtu -> is_u16 mps -> (is_u16 (rc_reorderTimeout r) /\ is_u16 (rc_crcInit r) /\ is_u16 (rc_retransTimeout r) /\
     is_u16 (rc_rspTimeout r) /\ is_u8 (rc_txWindow r) /\ is_u8 (rc_maxTxThreshold r)) ->
     is_u16 (sc_reorderTimeout s) /\ is_u16 (sc_crcInit s) /\ is_u16 (sc_flushTimeout s) -> 0 <= o <= dl /\ o <= 15 ->
     config_asked (mk_conf (bf_get b 0 4) mtu mps r s) /\ 0 <= o <= dl /\ o <= 15) as Hok.
  { intros mtu mps r s o Hmtu Hmps Hrel Hs Ho. split; [|done]. constructor; [by constructor|cbn; lia|]. cbn. intros HE. by rewrite HE in Hno. }
  case_match; [|case_match].
  - destruct (stream_parse_total m (p + 5) (dl - 5)) as (r&c&->&K1&K2&K3&K4); [done|lia..|]. cbn [mbind option_bind].
    do 3 eexists; split; [done|]. intros HE. specialize (K4 HE). rewrite u8_small by cint. apply Hok; [done|done| |done|lia]. cbn; cint.
  - destruct (reliable_parse_total m (p + 5) (dl - 5)) as (r&c&->&K1&K2); [done|lia..|]. cbn [mbind option_bind].
    do 3 eexists; split; [done|]. intros HE. specialize (K2 HE). rewrite u8_small by cint. apply Hok; [done|done|done| |lia]. cbn; cint.
  - do 3 eexists; split; [done|]. intros _. apply Hok; [done|done|cbn; cint|cbn; cint|lia].
Qed.

Lemma slqi_parse_total m p dl off : bytes_ok m -> 0 <= p -> p + dl <= zlen m ->
  exists r c off', CM_SignalingPreferredSlqiListParse m p dl off = Some (r, c, off') /\
    (r = CM_SUCCESS -> slqiNum c = 1 /\ is_u8 (slqi0 c) /\ off' = 2 /\ 2 <= dl).
Proof.
  intros Hm Hp Hl. unfold CM_SignalingPreferredSlqiListParse. cm_sizes. case_match; [by do 3 eexists; split|]. repeat total_load.
  case_match eqn:Hn; [by do 3 eexists; split|]. do 3 eexists; split; [done|]. intros _.
  apply negb_false_iff, Z.eqb_eq in Hn. split; [done|]. split; [done|lia].
Qed.

Lemma extension_parse_total m p dl : bytes_ok m -> 0 <= p -> p + dl <= zlen m ->
  exists r o, CM_SignalingExtensionParse m p dl = Some (r, o) /\
    match o with Some c => is_u16 (pc_srcPort c) /\ is_u16 (pc_dstPort c) /\ is_u16 (pc_aid c) | None => True end.
Proof.
  intros Hm Hp Hl. unfold CM_SignalingExtensionParse. cm_sizes. case_match; [by do 2 eexists; split|]. repeat total_load.
  case_match; [|by do 2 eexists; split]. case_match; [by do 2 eexists; split|]. repeat total_load. by do 2 eexists; split.
Qed.

(** A request that the parser accepts. *)
Record request_asked (req : CM_SignalingTransChanEstablishReq) : Prop := {
  ra_width : request_width req;
  ra_config : config_asked (eq_transModeConfig req)
}.

Lemma establish_req_total pkt : packet_ok pkt ->
  exists r req, CM_SignalingTransChanEstablishReqParse pkt = Some (r, req) /\ (r = CM_SUCCESS -> request_asked req).
Proof.
  destruct pkt as [code id len m]. intros [Hl Hm Hs Hid]; cbn [h_data h_length] in *.
  unfold CM_SignalingTransChanEstablishReqParse; cbn [h_data h_length]. cm_sizes. case_match; [by do 2 eexists; split|].
  do 3 total_load. destruct (config_parse_total m 3 (u16 (len - 3)) 0) as (r1&c&o1&->&Hc); [done|lia|rewrite u16_small; cint..|].
  cbn [mbind option_bind]. case_match eqn:Hr1; [by do 2 eexists; split; [done|]; intros ->|].
  apply negb_false_iff, Z.eqb_eq in Hr1. destruct (Hc Hr1) as (Hask&Ho1&Ho2). rewrite u16_small in Ho1 by cint.
  rewrite (u8_small (3 + o1)) by cint. rewrite (u16_small (len - (3 + o1))) by cint.
  destruct (slqi_parse_total m (3 + o1) (len - (3 + o1)) o1) as (r2&q&o2&->&Hq); [done|lia..|].
  cbn [mbind option_bind]. case_match eqn:Hr2; [by do 2 eexists; split; [done|]; intros ->|].
  apply negb_false_iff, Z.eqb_eq in Hr2. destruct (Hq Hr2) as (Hn&Hq8&->&Hd). rewrite (u8_small (3 + o1 + 2)) by cint.
  assert (forall o, match o with Some c => is_u16 (pc_srcPort c) /\ is_u16 (pc_dstPort c) /\ is_u16 (pc_aid c) | None => True end ->
    forall src ex me, is_u8 src -> request_asked (mk_ereq src ex me c q o)) as Hok.
  { intros o Ho src ex me Hsrc. constructor; cbn; [constructor; cbn; [done|apply Hask|done|done]|done]. }
  case_match; [|by do 2 eexists; split; [done|]; intros _; apply Hok].
  case_match; [by do 2 eexists; split|]. rewrite (u16_small (len - (3 + o1 + 2))) by cint.
  destruct (extension_parse_total m (3 + o1 + 2) (len - (3 + o1 + 2))) as (r3&o&->&Ho); [done|lia..|].
  cbn [mbind option_bind]. do 2 eexists; split; [done|]. intros _. by apply Hok.
Qed.

Lemma responses_total pkt : packet_ok pkt ->
  (exists o, establish_rsp_parse pkt = Some o /\
     match o with Some r => is_u8 (es_srcTcid r) /\ is_u8 (es_dstTcid r) /\ is_u8 (es_result r) | None => True end) /\
  (exists o, release_req_parse pkt = Some o /\
     match o with Some r => is_u8 (rq_srcTcid r) /\ is_u8 (rq_dstTcid r) | None => True end) /\
  (exists o, release_rsp_parse pkt = Some o /\
     match o with Some r => is_u8 (rs_srcTcid r) /\ is_u8 (rs_dstTcid r) /\ is_u8 (rs_result r) | None => True end).
Proof.
  destruct pkt as [code id len m]. intros [Hl Hm Hs Hid]; cbn [h_data h_length] in *.
  unfold establish_rsp_parse, release_req_parse, release_rsp_parse; cbn [h_data h_length]. cm_sizes. split_and!.
  - case_match; [by eexists; split|]. repeat total_load. by eexists; split.
  - case_match; [by eexists; split|]. repeat total_load. by eexists; split.
  - case_match; [by eexists; split|]. repeat total_load. by eexists; split.
Qed.

(** ** Headers *)
Definition signaling_bytes (code id : Z) (data : bytes) : bytes :=
  [u8 code; u8 id] ++ ENCODE2BYTE_LITTLE (zlen data) ++ data.

Lemma signaling_bytes_ok code id data : bytes_ok data -> bytes_ok (signaling_bytes code id data).
Proof. intros Hd. unfold signaling_bytes. apply Forall_app. split; [|apply Forall_app; split; [apply encode2_bytes_ok|done]].
  repeat constructor; apply u8_range. Qed.
Lemma zlen_signaling code id data : zlen (signaling_bytes code id data) = 4 + zlen data.
Proof. unfold signaling_bytes. rewrite !length_app, length_encode2. cbn. lia. Qed.

(** The three stores of the header and the data fill the window. *)
Lemma signaling_stores m p code id n data :
  0 <= p -> p + 4 + n <= zlen m -> n = zlen (take (Z.to_nat n) data) ->
  exists m1 m2, wr m p [u8 code; u8 id] = Some m1 /\ enc2 m1 (p + 2) n = Some m2 /\
    (if memcpy_s_ok n n then wr m2 (p + 4) (take (Z.to_nat n) data) else Some m2) =
      Some (mem_write m p (signaling_bytes code id (take (Z.to_nat n) data))).
Proof.
  intros Hp Hl Hn. set (d := take (Z.to_nat n) data) in *. set (L := mem_read m p (4 + n)).
  assert (zlen L = 4 + n) as HL by (apply length_mem_read; lia).
  assert (m = mem_write m p L) as Hm by (symmetry; apply mem_write_read; lia).
  assert (forall i e L', 0 <= i -> zlen L' = 4 + n -> i + zlen e <= 4 + n ->
     wr (mem_write m p L') (p + i) e = Some (mem_write m p (mem_write L' i e))) as Hw by (intros; apply wr_window; lia).
  pose (L1 := mem_write L 0 [u8 code; u8 id]). pose (L2 := mem_write L1 2 (ENCODE2BYTE_LITTLE n)).
  assert (zlen L1 = 4 + n) as HL1 by (unfold L1; rewrite length_mem_write; cbn; lia).
  assert (zlen L2 = 4 + n) as HL2 by (unfold L2; rewrite length_mem_write; rewrite ?length_encode2; lia).
  exists (mem_write m p L1), (mem_write m p L2). split; [|split].
  - rewrite Hm at 1. rewrite <- (Z.add_0_r p) at 2. apply Hw; cbn; lia.
  - apply Hw; rewrite ?length_encode2; lia.
  - assert (signaling_bytes code id d = mem_write L2 4 d) as Heq.
    { unfold signaling_bytes. rewrite <- Hn. destruct L as [|l0 [|l1 [|l2 [|l3 L]]]]; cbn [length] in HL; try lia.
      unfold L2, L1, mem_write. change (Z.to_nat 0) with 0%nat. change (Z.to_nat 2) with 2%nat. change (Z.to_nat 4) with 4%nat.
      cbn. rewrite !drop_0, (drop_ge L) by lia. by rewrite app_nil_r. }
    rewrite Heq. destruct (memcpy_s_ok n n) eqn:E; [apply Hw; lia|].
    do 2 f_equal. unfold memcpy_s_ok in E. rewrite Z.leb_refl, andb_true_r in E. apply Z.ltb_ge in E.
    assert (d = []) as -> by (apply nil_length_inv; lia). unfold mem_write. cbn [length]. rewrite Nat.add_0_r. by rewrite app_nil_l, take_drop.
Qed.

(** The buffer of a packet is well-formed, has the room that the data plane needs around
    its data, and holds the header and the data. *)
Lemma create_signaling ok code id data n :
  bytes_ok data -> 0 <= n <= zlen data -> n < 65536 ->
  exists o, CM_CreateSignalingBuff ok code id data n = Some o /\
    match o with
    | None => ok = false
    | Some b => ok = true /\ user_buff b /\ buff_data b = signaling_bytes code id (take (Z.to_nat n) data)
    end.
Proof.
  intros Hd Hn Hs. unfold CM_CreateSignalingBuff. destruct ok; [|by eexists]. cm_sizes.
  rewrite (u32_small (4 + n)) by cint. destruct (new_with_reserve_spec (4 + n)) as (b0&->&Hwf&Hl0&Ho0&Hb0); [lia..|].
  set (d := take (Z.to_nat n) data). assert (zlen d = n) as Hdn by (unfold d; rewrite length_take; lia).
  destruct (append_spec b0 (signaling_bytes code id d)) as (p&b1&Ha&Hp&Hwf2&Hd2&Ho&Hl&Hbl&Hm); [done| |rewrite zlen_signaling; lia|].
  { by apply signaling_bytes_ok, Forall_take. }
  rewrite zlen_signaling, Hdn in Ha, Hl. rewrite Ha. pose proof (wf_block _ Hwf) as Hblk.
  destruct (signaling_stores (bmem b1) p code id n data) as (m1&m2&->&E2&E3); [lia|rewrite Hm; lia|by rewrite <- Hdn at 1|].
  cbn [mbind option_bind]. rewrite E2. cbn [mbind option_bind]. fold d in E3. rewrite E3. cbn [mbind option_bind].
  eexists. split; [done|]. cbn. split; [done|]. split.
  - constructor; cbn; [exact Hwf2| |]; unfold DTAP_SIMPLEX_FRAG_FRAME_HEADER_LEN, DLI_HEADER, DTAP_CRC_LEN; cbn; lia.
  - change (buff_data (buff_store b1 p (signaling_bytes code id d)) = signaling_bytes code id d).
    rewrite Hd2, zlen_nil_data by done. done.
Qed.

(** A received buffer: every answer, and what an accepted packet is. *)
Lemma parse_header b : buff_wf b ->
  exists o, CM_ParseSignalingBuff b = Some o /\
    match o with Some head => packet_ok head /\ h_data head = drop 4 (buff_data b) | None => True end.
Proof.
  intros Hwf. unfold CM_ParseSignalingBuff, SDF_DataLenGet, SDF_DataOffset. cm_sizes.
  case_match; [by eexists|]. pose proof (wf_bytes _ Hwf) as Hm. pose proof (length_buff_data b Hwf) as Hlen. destruct Hwf.
  repeat total_load. case_match eqn:Hv2; [by eexists|]. apply negb_false_iff, Z.eqb_eq in Hv2. unfold rds. rewrite decide_True by cint. cbn [mbind option_bind]. eexists. split; [done|]. cbn.
  assert (mem_read (bmem b) (dataOff b + 4) v = drop 4 (buff_data b)) as Hr.
  { change 4%nat with (Z.to_nat 4). unfold buff_data. rewrite mem_read_drop by lia. f_equal. lia. }
  split; [|done]. constructor; cbn; [rewrite Hr, length_drop; lia|by apply bytes_ok_mem_read|cint|done].
Qed.

(** What was packed is what is parsed. *)
Lemma header_roundtrip b code id data :
  buff_wf b -> is_u8 code -> is_u8 id -> bytes_ok data -> zlen data < 65536 -> buff_data b = signaling_bytes code id data ->
  CM_ParseSignalingBuff b = Some (Some (mk_head code id (zlen data) data)).
Proof.
  intros Hwf Hc Hi Hd Hs Hb. pose proof (length_buff_data b Hwf) as Hlen. rewrite Hb, zlen_signaling in Hlen.
  assert (forall i, 0 <= i < dataLen b -> rd (bmem b) (dataOff b + i) = rd (buff_data b) i) as Hrd.
  { intros i Hi2. unfold buff_data. rewrite rd_mem_read; [done|apply Hwf|done]. }
  unfold CM_ParseSignalingBuff, SDF_DataLenGet, SDF_DataOffset, DECODE2BYTE_LITTLE. cm_sizes.
  destruct (Z.ltb_spec (dataLen b) 4); [lia|]. rewrite <- Z.add_assoc. replace (rd (bmem b) (dataOff b)) with (rd (bmem b) (dataOff b + 0)) by (by rewrite Z.add_0_r). rewrite !Hrd by lia.
  rewrite Hb. change (rd (signaling_bytes code id data) 0) with (Some (u8 code)).
  change (rd (signaling_bytes code id data) 1) with (Some (u8 id)).
  change (rd (signaling_bytes code id data) 2) with (Some (u8 (zlen data))).
  change (rd (signaling_bytes code id data) (2 + 1)) with (Some (u8 (Z.shiftr (u16 (zlen data)) 8))). cbn [mbind option_bind].
  rewrite decode_encode2, (u16_small (u16 _)) by apply u16_range. rewrite u16_small by cint. rewrite (proj2 (Z.eqb_eq _ _)) by lia.
  cbn [negb]. unfold rds. pose proof (wf_window _ Hwf). pose proof (wf_block _ Hwf). pose proof (wf_off _ Hwf).
  rewrite decide_True by lia. cbn [mbind option_bind]. rewrite !u8_small by done. do 3 f_equal.
  transitivity (drop (Z.to_nat 4) (buff_data b)); [|by rewrite Hb]. unfold buff_data. rewrite mem_read_drop by lia. f_equal. lia.
Qed.

(** ** Capabilities *)
Definition set_cap_ok (f : bytes -> Z -> Z -> CM_CapabilityValue -> option (Z * CM_CapabilityValue)) : Prop :=
  forall m p len v, bytes_ok m -> 0 <= p -> 0 <= len -> p + len <= zlen m ->
    exists r v', f m p len v = Some (r, v') /\ (r = CM_INVALID_RET \/ 0 <= r <= len).

Lemma set_caps_ok : Forall (fun e => set_cap_ok (snd e)) g_localSetCap.
Proof.
  repeat constructor; intros m p len v Hm Hp Hlen Hl; cbn [snd];
    unfold SetRelayCapability, SetTransModeCapability, SetMeasurementCapability, SetAccessSleCapability, SetAccessSlbCapability,
      SetMtuCapability, SetMpsCapability, SetVersionCapability, SetRxWindowCapability; try case_match;
    repeat total_load; try (unfold rds; rewrite decide_True by lia; cbn [mbind option_bind]);
    do 2 eexists; (split; [done|]); first [by left|right; lia].
Qed.

Lemma set_loop_total tab m cap total remaining bits v :
  Forall (fun e => set_cap_ok (snd e)) tab -> bytes_ok m -> 0 <= total -> 0 <= remaining -> total + remaining <= zlen m -> zlen m < 65536 ->
  exists r, set_loop tab m cap total remaining bits v = Some r.
Proof.
  intros Ht Hm. revert total remaining bits v. induction Ht as [|[flag f] tab Hf Ht IH]; intros total remaining bits v H0 H1 Hl Hs; cbn [set_loop]; [by eexists|].
  case_match; [|by apply IH]. destruct (Hf m total remaining v) as (r&v'&E&Hr); [done..|]. cbn [snd] in E. rewrite E. cbn [mbind option_bind].
  case_match eqn:Hb; [by eexists|]. apply orb_false_iff in Hb as [Hb1 Hb2]. destruct Hr as [->|Hr]; [done|].
  rewrite !(u32_small r) by cint. rewrite !u32_small by cint. apply IH; lia.
Qed.

Lemma set_capability_total pkt v : packet_ok pkt -> 4 <= h_length pkt ->
  exists r, SetCapabilityInfo (h_data pkt) (h_length pkt) v = Some r.
Proof.
  intros [Hl Hm Hs _] H4. unfold SetCapabilityInfo, DECODE4BYTE_LITTLE. repeat total_load.
  rewrite (u32_small (h_length pkt - 4)) by cint. edestruct (set_loop_total g_localSetCap (h_data pkt)) as [r Hr];
    [apply set_caps_ok|done|..|rewrite Hr; by eexists]; lia.
Qed.

(** The own address has six bytes. *)
Definition addr_ok (o : option SLE_Addr) : Prop :=
  match o with Some a => length (a_addr a) = 6%nat /\ bytes_ok (a_addr a) | None => True end.

Definition get_cap_ok (f : option SLE_Addr -> bytes -> Z -> Z -> option (Z * bytes)) : Prop :=
  forall a m p len, addr_ok a ->
    bytes_ok m -> 0 <= p -> 0 <= len -> p + len <= zlen m ->
    exists r m', f a m p len = Some (r, m') /\ bytes_ok m' /\ zlen m' = zlen m /\ 0 <= r <= len.

Lemma wr_total m p d : bytes_ok m -> bytes_ok d -> 0 <= p -> p + zlen d <= zlen m ->
  exists m', wr m p d = Some m' /\ bytes_ok m' /\ zlen m' = zlen m.
Proof.
  intros Hm Hd Hp Hl. unfold wr. rewrite decide_True by lia. eexists. split; [done|].
  split; [by apply bytes_ok_mem_write|rewrite length_mem_write; lia].
Qed.

Lemma get_caps_ok : Forall (fun e => get_cap_ok (snd e)) g_localGetCap.
Proof.
  assert (forall (m : bytes) len, bytes_ok m -> 0 <= len -> exists r m', Some (0, m) = Some (r, m') /\ bytes_ok m' /\ zlen m' = zlen m /\ 0 <= r <= len) as Hz.
  { intros m len Hm Hl. do 2 eexists. split; [done|]. split; [done|]. split; [done|lia]. }
  assert (forall m p d n len, bytes_ok m -> bytes_ok d -> 0 <= p -> n = zlen d -> n <= len -> p + len <= zlen m ->
    exists r m', (m' ← wr m p d; Some (n, m')) = Some (r, m') /\ bytes_ok m' /\ zlen m' = zlen m /\ 0 <= r <= len) as Hw.
  { intros m p d n len Hm Hd Hp -> Hle Hl. destruct (wr_total m p d) as (m'&->&Hb&Hz'); [done|done|done|lia|].
    cbn [mbind option_bind]. do 2 eexists. split; [done|]. split; [done|]. split; [done|lia]. }
  repeat constructor; intros a m p len Ha Hm Hp Hlen Hl; cbn [snd];
    unfold GetRelayCapability, GetTransModeCapability, GetMeasurementCapability, GetAccessSleCapability, GetAccessSlbCapability,
      GetMtuCapability, GetMpsCapability, GetVersionCapability, GetRxWindowCapability; destruct a as [a|]; repeat case_match; try (by apply Hz);
    apply Hw; try done; try apply encode2_bytes_ok; try lia.
  all: try (repeat constructor; apply u8_range). all: try apply Ha.
  - destruct Ha as [-> _]. done.
  - unfold memcpy_s_ok, SLE_ADDR_LEN in *. lia.
Qed.

Lemma get_loop_total tab a m cap total remaining :
  Forall (fun e => get_cap_ok (snd e)) tab -> addr_ok a ->
  bytes_ok m -> 0 <= total -> 0 <= remaining -> total + remaining <= zlen m -> zlen m < 65536 ->
  exists r m', get_loop tab a m cap total remaining = Some (r, m') /\ bytes_ok m' /\ zlen m' = zlen m /\ 0 <= r <= zlen m.
Proof.
  intros Ht Ha. revert m total remaining. induction Ht as [|[flag f] tab Hf Ht IH]; intros m total remaining Hm H0 H1 Hl Hs; cbn [get_loop].
  { do 2 eexists. split; [done|]. split; [done|]. split; [done|lia]. }
  destruct (negb (Z.land flag cap =? 0)); [|by apply IH]. destruct (Hf a m total remaining) as (r&m'&E&Hm'&Hz&Hr); [done..|]. cbn [snd] in E. rewrite E. cbn [mbind option_bind].
  case_match eqn:Hb. { do 2 eexists. split; [done|]. split; [done|]. split; [done|lia]. }
  rewrite !u32_small by cint. rewrite <- Hz. apply IH; [done|lia..].
Qed.

Lemma get_capability_total cap a :
  addr_ok a ->
  exists r m, GetCapabilityInfo cap a (zeros CM_CAPABILITY_RSP_LEN) CM_CAPABILITY_RSP_LEN = Some (r, m) /\
    bytes_ok m /\ zlen m = CM_CAPABILITY_RSP_LEN /\ 0 <= r <= CM_CAPABILITY_RSP_LEN.
Proof.
  intros Ha. unfold GetCapabilityInfo. pose proof (length_zeros CM_CAPABILITY_RSP_LEN ltac:(done)) as Hl.
  destruct (wr_total (zeros CM_CAPABILITY_RSP_LEN) 0 (ENCODE4BYTE_LITTLE (Z.land cap (li_cap g_localInfo)))) as (m'&->&Hm&Hz);
    [apply zeros_ok|repeat constructor; apply u8_range|done|rewrite Hl; done|]. cbn [mbind option_bind].
  destruct (get_loop_total g_localGetCap a m' (Z.land cap (li_cap g_localInfo)) 4 (u32 (CM_CAPABILITY_RSP_LEN - 4))) as (r&m&->&Hb&Hz2&Hr);
    [apply get_caps_ok|done|done|done|done|rewrite Hz, Hl; done|rewrite Hz, Hl; done|].
  do 2 eexists. split; [done|]. split; [done|]. split; [congruence|]. rewrite Hz, Hl in Hr. done.
Qed.
