(* ===== verification/CmInv.v ===== *)
(** * CM's channels: invariant and lemmas

    What the lists of [CmState] satisfy in every state that is reached, the promises of the
    data plane that CM relies on ([BelowOk]), and what the operations on channels and
    identifiers do. *)
From S2P Require Import Prelude SdfErrno SdfBuff SdfContainers CmData DtapEnv DtapTrans DtapChannel DtapProps DtapEvents DtapMachine CmState CmTcid CmChannel CmSignal CmCache CmDynTrans CmCap CmRecv CmPackets.

(** ** The promises of the data plane

    [below_keys] are the channels it has: the link, the identifier, the mode.  A report of
    activation makes at most the channels of the report, a report of release removes them,
    and nothing else that CM asks for changes them. *)
Notation chan_key := (Z * Z * Z)%type.

Definition cm_asks (c : call) : Prop := match c with CAlloc | CCm _ => True | _ => False end.

Definition reported (r : Z) (v : list (option CM_TransChan)) (ks ks' : list chan_key) : Prop :=
  (r = CM_TRANS_CHANNEL_STATE_ACTIVATED -> forall k, k ∈ ks' -> k ∈ ks \/ exists c, Some c ∈ v /\ k = param_key c) /\
  (r = CM_TRANS_CHANNEL_STATE_RELEASED ->
     (forall k, k ∈ ks' -> k ∈ ks) /\ forall c k, Some c ∈ v -> k ∈ ks' -> k.1 <> (pm_lcid c, pm_srcTcid c)).

Class BelowOk (W : Type) `{Below W} := {
  below_ok : W -> Prop;
  below_keys : W -> list chan_key;
  below_ask : forall c w a w', cm_asks c -> below_ok w -> ask c w = Some (a, w') -> below_ok w' /\ below_keys w' = below_keys w;
  below_report : forall r v w, below_ok w ->
    (r = CM_TRANS_CHANNEL_STATE_ACTIVATED -> may_add_all v (below_keys w)) ->
    (r = CM_TRANS_CHANNEL_STATE_RELEASED -> Forall (may_release (below_keys w)) v) ->
    wp (transChannelCbk (mk_states r (Some v))) w (fun _ w' => below_ok w' /\ reported r v (below_keys w) (below_keys w'));
  below_send : forall lcid b w, below_ok w -> user_buff b ->
    wp (sendFunc 0 CM_MANAGE_DEFAULT_TCID lcid b) w (fun _ w' => below_ok w' /\ below_keys w' = below_keys w);
  below_link : forall st w, below_ok w ->
    wp (dtapLogicLinkCbk st) w (fun _ w' => below_ok w' /\ below_keys w' = below_keys w)
}.

(** ** The invariant *)
Record conf_ok (c : CM_TransModeConfig) : Prop := {
  cfo_mode : is_u8 (transMode c);
  cfo_opaque : transMode c <> CM_TRANS_MODE_TRANSPARENT;
  cfo_mps : is_u16 (cf_mps c);
  cfo_crc : is_u16 (rc_crcInit (reliableMode c));
  cfo_wnd : is_u8 (rc_txWindow (reliableMode c));
  cfo_max : is_u8 (rc_maxTxThreshold (reliableMode c));
  cfo_scrc : is_u16 (sc_crcInit (streamMode c))
}.

Record node_ok (n : SleTransLcid) : Prop := {
  no_lcid : 0 <= tl_lcid n < 4096;
  no_local : is_u8 (tl_local n);
  no_conf : conf_ok (channel_config n)
}.
Definition fixed_ok (n : SleTransLcid) : Prop :=
  tl_local n ∈ g_TransFixedChannels /\ tl_state n = CM_TRANS_CHANNEL_STATE_ACTIVATED.
Definition live (st : Z) : Prop :=
  st = CM_TRANS_CHANNEL_STATE_ACTIVATING \/ st = CM_TRANS_CHANNEL_STATE_ACTIVATED \/ st = CM_TRANS_CHANNEL_STATE_RELEASING.
Definition dyn_ok (n : SleTransLcid) : Prop := CM_TCID_UC_BEGIN <= tl_local n <= CM_TCID_UC_END /\ live (tl_state n).
Definition pool_ok (p : CM_DynTcidPool) : Prop :=
  length (unicastTcidUsed p) = Z.to_nat CM_DYN_UNICAST_TCID_SIZE_MAX /\ 0 <= pl_lcid p < 4096.
Definition key2 (n : SleTransLcid) : Z * Z := (tl_lcid n, tl_local n).

(** The fixed channels [F], the dynamic ones [D] and the identifiers [P]. *)
Record chan_inv (F D : list SleTransLcid) (P : list CM_DynTcidPool) (next : Z) : Prop := {
  ci_ptrs : NoDup (map tl_ptr (F ++ D));
  ci_fresh : Forall (fun n => tl_ptr n < next) (F ++ D);
  ci_nodes : Forall node_ok (F ++ D);
  ci_fixed : Forall fixed_ok F;
  ci_dyn : Forall dyn_ok D;
  ci_keys : NoDup (map key2 (F ++ D));
  ci_pools : NoDup (map pl_lcid P);
  ci_pool : Forall pool_ok P
}.

(** The identifier of a dynamic channel is marked as used. *)
Definition marked (D : list SleTransLcid) (P : list CM_DynTcidPool) : Prop :=
  forall n pool, n ∈ D -> find_first (pool_of (tl_lcid n)) P = Some pool ->
    unicastTcidUsed pool !! Z.to_nat (tl_local n - CM_TCID_UC_BEGIN) = Some true.

(** The link of a dynamic channel has a table of identifiers. *)
Definition pooled (D : list SleTransLcid) (P : list CM_DynTcidPool) : Prop :=
  forall n, n ∈ D -> is_Some (find_first (pool_of (tl_lcid n)) P).

(** A link that is up has a valid identifier. *)
Definition up (n : SleLogicLink) : Prop := sl_status n = CM_LINK_STATE_CONNECTED -> 0 <= sl_lcid n < 4096.
Record links_inv (L : list SleLogicLink) (next : Z) : Prop := {
  li_ptrs : NoDup (map sl_ptr L);
  li_fresh : Forall (fun n => sl_ptr n < next) L;
  li_up : Forall up L
}.

Definition cache_inv (m : option (SDF_Map Z CM_CachedSignaling)) : Prop :=
  match m with
  | None => True
  | Some m => NoDup (map fst (entry m)) /\ Forall (fun e => fst e = cs_id (snd e)) (entry m)
  end.

(** What is told to the data plane. *)
Definition node_key (n : SleTransLcid) : chan_key := (tl_lcid n, tl_local n, transMode (channel_config n)).
Definition is_on (n : SleTransLcid) : Prop :=
  tl_state n = CM_TRANS_CHANNEL_STATE_ACTIVATED \/ tl_state n = CM_TRANS_CHANNEL_STATE_RELEASING.
Definition nodes (c : Cm) : list SleTransLcid := g_fixedTransListHead c ++ g_dynTransListHead c.
Definition opaque_keys (ks : list chan_key) : Prop := Forall (fun k => k.2 <> CM_TRANS_MODE_TRANSPARENT) ks.

(** Every channel of the data plane is an activated channel of CM. *)
Definition agrees (F D : list SleTransLcid) (cbk : bool) (ks : list chan_key) : Prop :=
  (forall k, k ∈ ks -> exists n, n ∈ F ++ D /\ node_key n = k /\ is_on n) /\ (cbk = false -> ks = []).

Definition chans_ok (c : Cm) : Prop :=
  chan_inv (g_fixedTransListHead c) (g_dynTransListHead c) (g_cmDynTransPoolListHead c) (c_next c).
Definition tcids_ok (c : Cm) : Prop := marked (g_dynTransListHead c) (g_cmDynTransPoolListHead c).

Section ops.
Context {W : Type} {HW : World W} {HB : Below W} {HBO : BelowOk W}.
Notation M := (ST (Cm * W)).
Notation state := (Cm * W)%type.
Implicit Types (s : state) (c : Cm) (w : W).

Definition agree_in s : Prop :=
  agrees (g_fixedTransListHead s.1) (g_dynTransListHead s.1) (g_transChannelCbk s.1) (below_keys s.2).

(** The part of the invariant that every single step keeps. *)
Record base_ok s : Prop := {
  bo_links : links_inv (g_deviceLinkListHead s.1) (c_next s.1);
  bo_cache : cache_inv (g_cachedSignalings s.1);
  bo_addr : addr_ok (nbc_address s.1);
  bo_id : is_u8 (g_identifier s.1);
  bo_below : below_ok s.2;
  bo_opaque : opaque_keys (below_keys s.2)
}.

(** What holds as long as no release was lost to a failed allocation. *)
Record in_step s : Prop := {
  is_agree : agree_in s;
  is_pooled : pooled (g_dynTransListHead s.1) (g_cmDynTransPoolListHead s.1)
}.

(** The invariant. *)
Record cm_good s : Prop := {
  cg_base : base_ok s;
  cg_chans : chans_ok s.1;
  cg_tcids : tcids_ok s.1
}.
Definition settled s : Prop := cm_good s /\ (memory_suffices W -> in_step s).

(** ** Steps that leave channels and data plane alone *)
Definition chan_part c := (g_fixedTransListHead c, g_dynTransListHead c, g_cmDynTransPoolListHead c, g_transChannelCbk c).

Record undisturbed s s' : Prop := {
  ud_base : base_ok s';
  ud_part : chan_part s'.1 = chan_part s.1;
  ud_next : c_next s.1 <= c_next s'.1;
  ud_keys : below_keys s'.2 = below_keys s.2
}.
Definition quiet {A} (m : M A) : Prop := forall s, base_ok s -> wp m s (fun _ => undisturbed s).

(** Steps that only ask. *)
Definition silent {A} (m : M A) : Prop :=
  forall s, base_ok s -> wp m s (fun _ s' => s'.1 = s.1 /\ base_ok s' /\ below_keys s'.2 = below_keys s.2).

Lemma undisturbed_refl s : base_ok s -> undisturbed s s.
Proof. intros Hs. by constructor. Qed.
Lemma undisturbed_trans s1 s2 s3 : undisturbed s1 s2 -> undisturbed s2 s3 -> undisturbed s1 s3.
Proof. intros [] []. constructor; [done|congruence|lia|congruence]. Qed.

Lemma silent_quiet {A} (m : M A) : silent m -> quiet m.
Proof.
  intros Hm s Hs. eapply wp_mono; [by apply Hm|]. intros a s' (E&Hb&Hk). by constructor; rewrite ?E.
Qed.

Lemma quiet_ret {A} (a : A) : quiet (st_ret a).
Proof. intros s Hs. by apply wp_ret, undisturbed_refl. Qed.
Lemma silent_ret {A} (a : A) : silent (st_ret a).
Proof. intros s Hs. by apply wp_ret. Qed.
Lemma quiet_gets {A} (f : Cm -> A) : quiet (cg f).
Proof. intros s Hs. by apply wp_gets, undisturbed_refl. Qed.
Lemma silent_gets {A} (f : Cm -> A) : silent (cg f).
Proof. intros s Hs. by apply wp_gets. Qed.
Lemma quiet_bind {A B} (m : M A) (k : A -> M B) : quiet m -> (forall a, quiet (k a)) -> quiet (st_bind m k).
Proof.
  intros Hm Hk s Hs. apply wp_bind. eapply wp_mono; [by apply Hm|]. intros a s' Hs'.
  eapply wp_mono; [apply Hk, Hs'|]. intros b s2. by apply undisturbed_trans.
Qed.
Lemma silent_bind {A B} (m : M A) (k : A -> M B) : silent m -> (forall a, silent (k a)) -> silent (st_bind m k).
Proof.
  intros Hm Hk s Hs. apply wp_bind. eapply wp_mono; [by apply Hm|]. intros a s' (E&Hb&Ek).
  eapply wp_mono; [by apply Hk|]. intros b s2 (E2&Hb2&Ek2). split_and!; [congruence|done|congruence].
Qed.

Lemma base_world c w w' : base_ok (c, w) -> below_ok w' -> below_keys w' = below_keys w -> base_ok (c, w').
Proof. intros [B1 B2 B3 B4 B5 B6] Hb Hk. constructor; try done. cbn in *. by rewrite Hk. Qed.

Lemma silent_ask_gen cl : cm_asks cl -> silent (over (B := Cm) (ask cl)).
Proof.
  intros Hc [c w] Hs. apply wp_over. unfold wp. destruct (ask_total cl w) as (a&w'&Ha&_). rewrite Ha.
  destruct (below_ask cl w a w' Hc (bo_below _ Hs) Ha) as [Hb Hk]. split_and!; [done|by eapply base_world|done].
Qed.
Lemma silent_ask cl : silent (cm_ask cl).
Proof. by apply silent_ask_gen. Qed.
Lemma silent_alloc : silent alloc_ok.
Proof. apply silent_bind; [by apply silent_ask_gen|]. intros a. apply silent_ret. Qed.

Lemma wp_cm_alloc s (Q : bool -> state -> Prop) :
  base_ok s -> (forall b w', base_ok (s.1, w') -> below_keys w' = below_keys s.2 -> (memory_suffices W -> b = true) -> Q b (s.1, w')) ->
  wp alloc_ok s Q.
Proof.
  intros Hs HQ. unfold alloc_ok. destruct s as [c w]. apply wp_bind.
  apply (wp_over (B := Cm) (ask CAlloc)). unfold wp.
  destruct (ask_total CAlloc w) as (a&w'&Ha&_). rewrite Ha. apply wp_ret.
  destruct (below_ask CAlloc w a w' I (bo_below _ Hs) Ha) as [Hb Hk]. apply HQ; [by eapply base_world|done|].
  intros Hm. apply negb_true_iff, Z.eqb_neq. by eapply Hm.
Qed.
End ops.
