(* ===== verification/CmQuiet.v ===== *)
(** * CM: steps that leave channels alone

    The links, the capabilities, the cache of requests and the sending of signaling: none
    of it changes a channel, an identifier or the data plane's channels. *)
From S2P Require Import Prelude Utils SdfErrno SdfBuff SdfContainers CmData DtapEnv DtapTrans DtapChannel DtapProps DtapEvents DtapMachine CmState CmTcid CmChannel CmSignal CmCache CmDynTrans CmCap CmRecv CmPackets CmInv.

(** ** Lists with a key *)
Section keyed.
Context {A : Type} (f : A -> Z).

Lemma find_first_key l x : NoDup (map f l) -> x ∈ l -> find_first (fun y => f y =? f x) l = Some x.
Proof.
  induction l as [|y l IH]; intros Hn Hx; [by apply not_elem_of_nil in Hx|]. cbn in *. apply NoDup_cons in Hn as [Hy Hn].
  apply elem_of_cons in Hx as [->|Hx]; [by rewrite Z.eqb_refl|]. destruct (Z.eqb_spec (f y) (f x)) as [E|]; [|by apply IH].
  destruct Hy. rewrite E. apply list_elem_of_fmap. by exists x.
Qed.

Lemma find_first_at l p x : find_first (fun y => f y =? p) l = Some x -> x ∈ l /\ f x = p.
Proof. intros [Hx E%Z.eqb_eq]%find_first_Some. by split. Qed.

Lemma map_update_first {B} (g : A -> B) q (h : A -> A) l : (forall x, g (h x) = g x) -> map g (update_first q h l) = map g l.
Proof. intros Hg. induction l as [|y l IH]; cbn; [done|]. destruct (q y); cbn; [by rewrite Hg|by rewrite IH]. Qed.

Lemma Forall_update_first (P : A -> Prop) q (h : A -> A) l :
  (forall x, P x -> P (h x)) -> Forall P l -> Forall P (update_first q h l).
Proof. intros Hh. induction 1; cbn; [constructor|]. case_match; by constructor; auto. Qed.

Lemma elem_update_first q (h : A -> A) l y :
  y ∈ update_first q h l -> y ∈ l \/ exists x, find_first q l = Some x /\ y = h x.
Proof.
  induction l as [|x l IH]; cbn; [by left|]. destruct (q x); intros Hy; apply elem_of_cons in Hy as [->|Hy].
  - right. by exists x.
  - left. by right.
  - left. by left.
  - destruct (IH Hy) as [?|?]; [left; by right|by right].
Qed.
End keyed.

Lemma find_first_last {A} q (l : list A) x : Forall (fun y => q y = false) l -> q x = true -> find_first q (l ++ [x]) = Some x.
Proof. intros Hl Hx. induction Hl as [|y l Hy Hl IH]; cbn; [by rewrite Hx|by rewrite Hy]. Qed.

Lemma NoDup_sub {A} (l l' : list A) : l' `sublist_of` l -> NoDup l -> NoDup l'.
Proof. intros Hs Hn. by eapply sublist_NoDup. Qed.

Create HintDb quiet.

Section quiet.
Context {W : Type} {HW : World W} {HB : Below W} {HBO : BelowOk W}.
Notation M := (ST (Cm * W)).
Notation state := (Cm * W)%type.
Implicit Types (s : state) (c : Cm) (w : W).

(** ** Links *)
Lemma wp_cg {A} (f : Cm -> A) s (Q : A -> state -> Prop) : Q (f s.1) s -> wp (cg f) s Q.
Proof. exact (fun HQ => HQ). Qed.
Lemma wp_cupd f s (Q : unit -> state -> Prop) : Q tt (f s.1, s.2) -> wp (cupd f) s Q.
Proof. exact (fun HQ => HQ). Qed.

Lemma wp_cm_link_find q s (Q : option Z -> state -> Prop) :
  (find_first q (g_deviceLinkListHead s.1) = None -> Q None s) ->
  (forall n, find_first q (g_deviceLinkListHead s.1) = Some n -> Q (Some (sl_ptr n)) s) ->
  wp (link_find q) s Q.
Proof. intros HN HS. apply wp_cg. destruct (find_first _ _) eqn:E; [by apply HS|by apply HN]. Qed.

Lemma wp_get_link n s (Q : SleLogicLink -> state -> Prop) :
  base_ok s -> n ∈ g_deviceLinkListHead s.1 -> Q n s -> wp (get_link (sl_ptr n)) s Q.
Proof.
  intros Hs Hn HQ. apply wp_bind, wp_cg. eapply wp_opt; [|exact HQ]. apply (find_first_key sl_ptr); [apply (bo_links _ Hs)|done].
Qed.

(** Updates of the links that keep them well-formed. *)
Lemma base_upd s f :
  base_ok s -> links_inv (g_deviceLinkListHead (f s.1)) (c_next (f s.1)) -> cache_inv (g_cachedSignalings (f s.1)) ->
  nbc_address (f s.1) = nbc_address s.1 -> is_u8 (g_identifier (f s.1)) -> base_ok (f s.1, s.2).
Proof. intros [B1 B2 B3 B4 B5 B6] HL HC HA HI. constructor; cbn; try done. by rewrite HA. Qed.

Lemma quiet_upd f :
  (forall c, (links_inv (g_deviceLinkListHead c) (c_next c) -> links_inv (g_deviceLinkListHead (f c)) (c_next (f c))) /\
     (cache_inv (g_cachedSignalings c) -> cache_inv (g_cachedSignalings (f c))) /\
     nbc_address (f c) = nbc_address c /\ (is_u8 (g_identifier c) -> is_u8 (g_identifier (f c))) /\
     chan_part (f c) = chan_part c /\ c_next c <= c_next (f c)) ->
  quiet (cupd f).
Proof.
  intros Hf s Hs. destruct (Hf s.1) as (HL&HC&HA&HI&HP&HN). apply wp_cupd. pose proof Hs as [B1 B2 _ B4 _ _].
  constructor; cbn; [|done|done|done]. apply base_upd; auto.
Qed.

Lemma update_elem (f : SleLogicLink -> SleLogicLink) L n :
  NoDup (map sl_ptr L) -> n ∈ L -> f n ∈ update_first (link_at (sl_ptr n)) f L /\
    forall m, m ∈ update_first (link_at (sl_ptr n)) f L -> m ∈ L \/ m = f n.
Proof.
  intros Hp Hn. pose proof (find_first_key sl_ptr L n Hp Hn) as Hfd.
  apply find_first_split in Hfd as (l1&l2&->&H1&H2). unfold link_at. rewrite (update_first_split _ _ l1 n l2 H1 H2). split.
  - apply elem_of_app. right. by left.
  - intros m [?|[->|?]%elem_of_cons]%elem_of_app; [left; apply elem_of_app; by left|by right|left; apply elem_of_app; right; by right].
Qed.

Lemma links_update L next n f :
  (forall m, sl_ptr (f m) = sl_ptr m) -> n ∈ L -> (up n -> up (f n)) -> links_inv L next ->
  links_inv (update_first (link_at (sl_ptr n)) f L) next.
Proof.
  intros Hp Hn Hup [H1 H2 H3]. constructor.
  - by rewrite map_update_first.
  - apply Forall_update_first; [|done]. intros m. by rewrite Hp.
  - rewrite Forall_forall in *. intros m Hm. destruct (proj2 (update_elem f L n H1 Hn) m Hm) as [?| ->]; [by apply H3|by apply Hup, H3].
Qed.

Lemma wp_set_link n f s :
  base_ok s -> n ∈ g_deviceLinkListHead s.1 -> (forall m, sl_ptr (f m) = sl_ptr m) -> (up n -> up (f n)) ->
  wp (set_link (sl_ptr n) f) s (fun _ s' => undisturbed s s' /\ f n ∈ g_deviceLinkListHead s'.1).
Proof.
  intros Hs Hn Hp Hup. unfold set_link. apply wp_bind, (wp_get_link n); [done..|]. apply wp_cupd. split.
  - constructor; cbn; [|done|done|done]. apply base_upd; [done| |apply Hs|done|apply Hs].
    apply links_update; [done..|apply Hs].
  - cbn. apply update_elem; [apply (bo_links _ Hs)|done].
Qed.

Lemma quiet_set_link_of lcid f :
  (forall n, sl_ptr (f n) = sl_ptr n /\ sl_lcid (f n) = sl_lcid n /\ sl_status (f n) = sl_status n) -> quiet (set_link_of lcid f).
Proof.
  intros Hf s Hs. unfold set_link_of. apply wp_bind, wp_cm_link_find; [intros _; by apply wp_ret, undisturbed_refl|].
  intros n [Hn _]%find_first_Some. eapply wp_mono; [apply wp_set_link; [done|done|apply Hf|]|by intros ? ? []].
  destruct (Hf n) as (_&E1&E2). unfold up. by rewrite E1, E2.
Qed.

Lemma quiet_link_fields lcid v :
  quiet (CM_SetLinkProtocolVersion lcid v) /\ quiet (CM_SetLinkRxWindow lcid v) /\ quiet (CM_SetLinkTransMode lcid v) /\
  quiet (CM_SetLinkMtu lcid v) /\ quiet (CM_SetLinkExchangeVersion lcid v).
Proof. split_and!; by apply quiet_set_link_of. Qed.

Lemma quiet_device_type lcid b : quiet (CM_SetDeviceLinkDeviceType lcid b).
Proof. apply quiet_set_link_of. intros n. by repeat case_match. Qed.

Lemma links_remove L next q : links_inv L next -> links_inv (remove_first q L) next.
Proof.
  intros [H1 H2 H3]. pose proof (remove_first_sub q L) as Hs. constructor; [|by eapply Forall_sub..].
  eapply NoDup_sub; [by apply map_sub|done].
Qed.
Lemma wp_link_remove n s :
  base_ok s -> n ∈ g_deviceLinkListHead s.1 -> wp (SleLogicLinkRemove (sl_ptr n)) s (fun _ => undisturbed s).
Proof.
  intros Hs Hn. unfold SleLogicLinkRemove. apply wp_bind, (wp_get_link n); [done..|]. apply wp_cupd.
  constructor; cbn; [|done|done|done]. apply base_upd; [done| |apply Hs|done|apply Hs]. apply links_remove, Hs.
Qed.

Lemma links_next L next next' : next <= next' -> links_inv L next -> links_inv L next'.
Proof. intros Hle [H1 H2 H3]. constructor; [done| |done]. eapply Forall_impl; [exact H2|]. cbn. lia. Qed.

Definition bump (c : Cm) (next : Z) : Cm := c <| c_next := next |>.

Lemma wp_cm_new_node s (Q : option Z -> state -> Prop) :
  base_ok s ->
  (forall w', base_ok (s.1, w') -> below_keys w' = below_keys s.2 -> ~ memory_suffices W -> Q None (s.1, w')) ->
  (forall w', let p := c_next s.1 in base_ok (bump s.1 (p + 1), w') -> below_keys w' = below_keys s.2 ->
     Q (Some p) (bump s.1 (p + 1), w')) ->
  wp new_node s Q.
Proof.
  intros Hs HN HS. unfold new_node. apply wp_bind, wp_cm_alloc; [done|]. intros b w' Hb Hk Hm. destruct b; cbn [negb].
  - apply wp_bind, wp_cg, wp_bind, wp_cupd, wp_ret. apply HS; [|done].
    apply (base_upd (s.1, w') (fun c => bump c (c_next s.1 + 1))); [done| |apply Hb|done|apply Hb]. cbn.
    eapply links_next; [|apply Hb]. cbn. lia.
  - apply wp_ret. apply HN; [done|done|]. intros E. by specialize (Hm E).
Qed.

(** A link that was just added is filled in. *)
Definition new_link p addr : SleLogicLink :=
  mk_link p 0 addr CM_INVALID_LCID 0 new_features 0 0 0 0 0 CM_INVALID_VERSION CM_INVALID_VERSION 0.
Definition settable n s s1 : Prop :=
  forall f, (forall m, sl_ptr (f m) = sl_ptr m) -> up (f n) ->
    wp (set_link (sl_ptr n) f) s1 (fun _ s2 => undisturbed s s2 /\ f n ∈ g_deviceLinkListHead s2.1).

Lemma links_add L next n next' : links_inv L next -> next <= sl_ptr n < next' -> up n -> links_inv (L ++ [n]) next'.
Proof.
  intros [H1 H2 H3] Hp Hup. constructor.
  - rewrite map_app. cbn. apply NoDup_app. split_and!; [done| |apply NoDup_singleton].
    intros q (m&Eq&Hm)%list_elem_of_fmap Ep%list_elem_of_singleton. rewrite Forall_forall in H2. specialize (H2 m Hm). lia.
  - apply Forall_app. split; [|apply Forall_singleton; lia]. eapply Forall_impl; [exact H2|]. cbn. lia.
  - apply Forall_app. split; [done|]. by apply Forall_singleton.
Qed.

Lemma wp_link_add addr s (Q : option Z -> state -> Prop) :
  base_ok s -> (forall s', undisturbed s s' -> Q None s') -> (forall s1 p, settable (new_link p addr) s s1 -> Q (Some p) s1) ->
  wp (SleLogicLinkAdd addr) s Q.
Proof.
  intros Hs HN HS. unfold SleLogicLinkAdd. apply wp_bind, wp_cm_new_node; [done| |].
  - intros w' Hb Hk _. apply wp_ret, HN. by constructor.
  - intros w' p Hb Hk. apply wp_bind, wp_cupd, wp_ret, HS. intros f Hf Hup. unfold set_link.
    pose proof (li_fresh _ _ (bo_links _ Hs)) as Hfr. fold (new_link p addr).
    assert (Forall (fun m => link_at p m = false) (g_deviceLinkListHead s.1)) as Hno.
    { eapply Forall_impl; [exact Hfr|]. intros m Hm. cbn in Hm. apply Z.eqb_neq. unfold p. lia. }
    assert (link_at p (new_link p addr) = true) as Hyes by apply Z.eqb_refl.
    apply wp_bind, wp_bind, wp_cg. eapply wp_opt.
    { cbn. by apply find_first_last. }
    apply wp_cupd. pose proof (update_first_split _ f _ _ [] Hno Hyes) as EU.
    match goal with |- undisturbed _ (?c, _) /\ _ =>
      replace c with (bump s.1 (p + 1) <| g_deviceLinkListHead := g_deviceLinkListHead s.1 ++ [f (new_link p addr)] |>)
        by (unfold modify, bump; cbn; by rewrite <- EU) end.
    split; [|cbn; apply elem_of_app; right; by left]. constructor; cbn; [|done|unfold p; lia|done].
    apply (base_upd (bump s.1 (p + 1), w') (fun c => c <| g_deviceLinkListHead := g_deviceLinkListHead s.1 ++ [f (new_link p addr)] |>));
      [done| |apply Hb|done|apply Hb].
    cbn. eapply links_add; [apply Hs| |done]. rewrite Hf. cbn. unfold p. lia.
Qed.

(** ** The cache of requests *)
Lemma cache_compare_eq a b : CM_SignalingCacheCompare a b = 0 <-> a = b.
Proof. unfold CM_SignalingCacheCompare. lia. Qed.

Lemma silent_dtor e : silent (CM_SignalingCacheDtor e).
Proof. unfold CM_SignalingCacheDtor. case_match; [apply silent_bind; [apply silent_ask|]; intros _|]; apply silent_ret. Qed.

Lemma silent_for {A} (l : list A) (body : A -> M unit) : (forall a, silent (body a)) -> silent (st_for l body).
Proof.
  intros Hb. induction l as [|a l IH]; cbn [st_for]; [apply silent_ret|]. apply silent_bind; [apply Hb|]. by intros _.
Qed.

Lemma set_cache_ok m s : base_ok s -> cache_inv m -> undisturbed s (s.1 <| g_cachedSignalings := m |>, s.2).
Proof. intros Hs Hm. constructor; cbn; [|done|done|done]. apply base_upd; [done|apply Hs|done|done|apply Hs]. Qed.

Lemma wp_set_cache m s (Q : unit -> state -> Prop) :
  Q tt (s.1 <| g_cachedSignalings := m |>, s.2) -> wp (set_cache m) s Q.
Proof. apply wp_cupd. Qed.

Lemma erase_inv m id : cache_inv (Some m) -> cache_inv (Some (snd (fst (SDF_MapErase CM_SignalingCacheCompare m id)))).
Proof.
  intros [Hn Hf]. unfold SDF_MapErase. destruct (SDF_MapFind _ _ _); [|done]. cbn.
  pose proof (remove_first_sub (key_is CM_SignalingCacheCompare id) (entry m)) as Hs. split; [|by eapply Forall_sub].
  eapply NoDup_sub; [by apply map_sub|done].
Qed.

(** The cache after [id] left it. *)
Definition erased (m : SDF_Map Z CM_CachedSignaling) (id : Z) : SDF_Map Z CM_CachedSignaling :=
  snd (fst (SDF_MapErase CM_SignalingCacheCompare m id)).
Definition without (m : SDF_Map Z CM_CachedSignaling) id c : Cm := c <| g_cachedSignalings := Some (erased m id) |>.

Lemma erased_gone m id : cache_inv (Some m) -> SDF_MapFind CM_SignalingCacheCompare (erased m id) id = None.
Proof.
  intros [Hn _]. unfold erased, SDF_MapErase. destruct (SDF_MapFind _ m id) as [e|] eqn:E; [|done]. cbn.
  unfold SDF_MapFind in *. apply find_first_None, Forall_forall. intros x Hx. apply (key_is_false _ cache_compare_eq). intros Ek.
  apply find_first_split in E as (l1&l2&El&H1&H2). rewrite El in Hn, Hx. rewrite (remove_first_split _ l1 e l2 H1 H2) in Hx.
  apply (key_is_true _ cache_compare_eq) in H2. rewrite map_app in Hn; cbn in Hn. apply NoDup_app in Hn as (Hn1&Hd&Hn2).
  apply NoDup_cons in Hn2 as [Hn2 _]. apply elem_of_app in Hx as [Hx|Hx].
  - apply (Hd (fst x)); [apply list_elem_of_fmap; by exists x|]. rewrite Ek, <- H2. by left.
  - apply Hn2. rewrite H2, <- Ek. apply list_elem_of_fmap. by exists x.
Qed.

Lemma wp_erase_exact id m s :
  base_ok s -> g_cachedSignalings s.1 = Some m ->
  wp (cache_erase id) s (fun _ s' => undisturbed s s' /\ s'.1 = without m id s.1).
Proof.
  intros Hs Hm. unfold cache_erase. apply wp_bind, wp_cg, wp_bind. eapply wp_opt; [exact Hm|].
  pose proof (bo_cache _ Hs) as Hc. rewrite Hm in Hc. pose proof (erase_inv m id Hc) as He. unfold without, erased.
  destruct (SDF_MapErase _ m id) as [[b m'] gone]. cbn in He |- *. apply wp_bind.
  eapply wp_mono; [apply silent_for; [|exact Hs]; intros; apply silent_dtor|]. intros [] s1 (E&Hb&Hk). apply wp_set_cache.
  split; [|by rewrite E]. eapply undisturbed_trans; [|by apply set_cache_ok]. constructor; rewrite ?E; done.
Qed.
Lemma wp_cache_erase id m s :
  base_ok s -> g_cachedSignalings s.1 = Some m ->
  wp (cache_erase id) s (fun _ s' => undisturbed s s' /\ is_Some (g_cachedSignalings s'.1)).
Proof. intros Hs Hm. eapply wp_mono; [by apply (wp_erase_exact id m)|]. intros [] s' [Hu ->]. split; [done|]. by eexists. Qed.

Lemma quiet_cache_clear lcid : quiet (CM_SignalingCacheClearByLcid lcid).
Proof.
  intros s Hs. unfold CM_SignalingCacheClearByLcid. apply wp_bind, wp_cg.
  destruct (g_cachedSignalings s.1) as [m|] eqn:Hm; [|by apply wp_ret, undisturbed_refl].
  apply (wp_for (fun _ s' => undisturbed s s' /\ is_Some (g_cachedSignalings s'.1))).
  - split; [by apply undisturbed_refl|by eexists].
  - intros e l s' [Hu [m' Hm']]. case_match; [by apply wp_ret; split; [|eexists]|].
    eapply wp_mono; [apply (wp_cache_erase _ m'); [apply Hu|done]|]. intros [] s2 [Hu2 ?]. split; [|done].
    by eapply undisturbed_trans.
  - by intros s' [? _].
Qed.

Lemma insert_inv m ok id lcid code args timer cbk :
  cache_inv (Some m) ->
  cache_inv (Some (snd (SDF_MapMoveInsert CM_SignalingCacheCompare ok m id (mk_cached lcid id code args timer cbk)))).
Proof.
  intros [Hn Hf]. unfold SDF_MapMoveInsert. destruct (SDF_MapFind _ m id) eqn:E; [done|]. destruct ok; [|done].
  split; cbn; [|by constructor]. apply NoDup_cons. split; [|done]. by apply (find_none _ cache_compare_eq) in E as [_ ?].
Qed.

Lemma quiet_cache_insert lcid id code args cbk : quiet (CM_SignalingCacheInsert lcid id code args cbk).
Proof.
  intros s Hs. unfold CM_SignalingCacheInsert. apply wp_bind, wp_cg.
  destruct (g_cachedSignalings s.1) as [m|] eqn:Hm; [|by apply wp_ret, undisturbed_refl].
  pose proof (bo_cache _ Hs) as Hc. rewrite Hm in Hc.
  assert (forall s', s'.1 = s.1 -> base_ok s' -> below_keys s'.2 = below_keys s.2 -> undisturbed s s') as Hq.
  { intros s' E ? ?. constructor; rewrite ?E; done. }
  apply wp_bind. eapply wp_mono; [apply silent_alloc, Hs|]. intros ok s1 (E1&B1&K1).
  destruct ok; cbn [negb]; [|by apply wp_ret, Hq]. apply wp_bind. eapply wp_mono; [apply silent_ask, B1|].
  intros timer s2 (E2&B2&K2). case_match; [by apply wp_ret, Hq; [rewrite E2|..|rewrite K2]|]. apply wp_bind.
  assert (wp (match SDF_MapFind CM_SignalingCacheCompare m id with Some _ => st_ret false | None => alloc_ok end) s2
    (fun _ s' => s'.1 = s2.1 /\ base_ok s' /\ below_keys s'.2 = below_keys s2.2)) as Hnode.
  { case_match; [by apply silent_ret|by apply silent_alloc]. }
  eapply wp_mono; [exact Hnode|]. intros node s3 (E3&B3&K3).
  pose proof (insert_inv m node id lcid code args timer cbk Hc) as Hi.
  destruct (SDF_MapMoveInsert _ node m id _) as [ok m']. cbn in Hi. destruct ok; cbn [negb].
  - apply wp_bind, wp_set_cache, wp_ret. eapply undisturbed_trans; [|by apply set_cache_ok]. apply Hq; congruence.
  - apply wp_bind. eapply wp_mono; [apply silent_ask, B3|]. intros a s4 (E4&B4&K4). apply wp_ret, Hq; congruence.
Qed.

Lemma quiet_cache_remove lcid id code : quiet (CM_SignalingCacheRemove lcid id code).
Proof.
  intros s Hs. unfold CM_SignalingCacheRemove. apply wp_bind, wp_cg.
  pose proof (undisturbed_refl s Hs) as Hr.
  destruct (g_cachedSignalings s.1) as [m|] eqn:Hm; [|by apply wp_ret]. destruct (SDF_MapFind _ m id) as [[k cache]|]; [|by apply wp_ret].
  case_match; [by apply wp_ret|]. case_match; [by apply wp_ret|]. apply wp_bind.
  eapply wp_mono; [by apply (wp_cache_erase _ m)|]. intros [] s' [Hu _]. by apply wp_ret.
Qed.

(** The request that a response answers leaves the cache. *)
Lemma wp_cache_remove lcid id code m e s :
  base_ok s -> g_cachedSignalings s.1 = Some m -> SDF_MapFind CM_SignalingCacheCompare m id = Some e ->
  cs_lcid (snd e) = lcid -> cs_code (snd e) = code ->
  wp (CM_SignalingCacheRemove lcid id code) s (fun b s' => b = true /\ undisturbed s s' /\ s'.1 = without m id s.1).
Proof.
  intros Hs Hm He El Ec. unfold CM_SignalingCacheRemove. apply wp_bind, wp_cg. rewrite Hm, He. destruct e as [k cache]; cbn in El, Ec.
  rewrite El, Ec, !Z.eqb_refl. cbn [negb]. apply wp_bind. eapply wp_mono; [by apply wp_erase_exact|]. intros [] s' Hs'. by apply wp_ret.
Qed.

Lemma quiet_cache_init : quiet CM_SignalingCacheInit.
Proof.
  intros s Hs. unfold CM_SignalingCacheInit. apply wp_bind. eapply wp_mono; [apply silent_alloc, Hs|]. intros ok s1 (E1&B1&K1).
  apply wp_bind, wp_set_cache, wp_ret. eapply undisturbed_trans; [|apply set_cache_ok; [done|]].
  - constructor; rewrite ?E1; done.
  - destruct ok; cbn; [|done]. split; constructor.
Qed.

Lemma quiet_cache_deinit : quiet CM_SignalingCacheDeinit.
Proof.
  intros s Hs. unfold CM_SignalingCacheDeinit. apply wp_bind, wp_cg.
  destruct (g_cachedSignalings s.1) as [m|]; [|by apply wp_ret, undisturbed_refl]. apply wp_bind.
  eapply wp_mono; [apply silent_for; [|exact Hs]; intros; apply silent_dtor|]. intros [] s1 (E1&B1&K1). apply wp_set_cache.
  eapply undisturbed_trans; [|by apply set_cache_ok]. constructor; rewrite ?E1; done.
Qed.

Lemma quiet_identifier : quiet CM_GetIdentifier.
Proof.
  unfold CM_GetIdentifier. apply quiet_bind; [apply quiet_gets|]. intros [m|]; [|apply quiet_ret].
  induction (Z.to_nat (CM_SIGNALING_MAX_ID + 1)) as [|n IH]; cbn [identifier_loop]; [apply quiet_ret|].
  apply quiet_bind; [apply quiet_gets|]. intros cand. apply quiet_bind.
  - apply quiet_upd. intros c. cbn. split_and!; try done. intros _. apply u8_range.
  - intros _. case_match; [apply IH|apply quiet_ret].
Qed.

(** ** Sending *)
Lemma quiet_send lcid b : user_buff b -> quiet (CM_SendBuffToDtap lcid b).
Proof.
  intros Hb. unfold CM_SendBuffToDtap. apply quiet_bind; [apply quiet_gets|]. intros []; cbn [negb]; [|apply quiet_ret].
  intros [c w] Hs. apply wp_over. eapply wp_mono; [by apply below_send; [apply Hs|]|]. intros r w' [Hok Hk].
  constructor; [by eapply base_world|done|cbn; lia|done].
Qed.

Lemma wp_create code id data n ok s (Q : option SDF_Buff -> state -> Prop) :
  bytes_ok data -> 0 <= n <= zlen data -> n < 65536 ->
  (ok = false -> Q None s) ->
  (forall b, user_buff b -> buff_data b = signaling_bytes code id (take (Z.to_nat n) data) -> Q (Some b) s) ->
  wp (st_opt (CM_CreateSignalingBuff ok code id data n)) s Q.
Proof.
  intros Hd Hn Hs HN HS. destruct (create_signaling ok code id data n Hd Hn Hs) as (o&E&Ho). eapply wp_opt; [exact E|].
  destruct o as [b|]; [|by apply HN]. destruct Ho as (_&?&?). by apply HS.
Qed.

Definition short (data : bytes) : Prop := bytes_ok data /\ zlen data < 65536.

Lemma quiet_create code id data (k : option SDF_Buff -> M Z) :
  short data -> quiet (k None) -> (forall b, user_buff b -> quiet (k (Some b))) -> quiet (st_bind (create_buff code id data) k).
Proof.
  intros [Hd Hl] HN HS s Hs. apply wp_bind. unfold create_buff. apply wp_bind. eapply wp_mono; [by apply silent_alloc|].
  intros ok s1 (E1&B1&K1). assert (undisturbed s s1) as Hu by (constructor; rewrite ?E1; done).
  apply wp_create; [done|lia|lia| |].
  - intros _. eapply wp_mono; [by apply HN|]. intros r s2. by apply undisturbed_trans.
  - intros b Hb _. eapply wp_mono; [by apply (HS b Hb)|]. intros r s2. by apply undisturbed_trans.
Qed.

Lemma quiet_request lcid code args cbk data : short data -> quiet (send_request lcid code args cbk data).
Proof.
  intros Hd. unfold send_request. apply quiet_bind; [apply quiet_identifier|]. intros [id|]; [|apply quiet_ret].
  apply quiet_bind; [apply quiet_cache_insert|]. intros ret. case_match; [apply quiet_ret|]. apply quiet_create; [done| |].
  - apply quiet_bind; [apply quiet_cache_remove|]. intros _. apply quiet_ret.
  - intros b Hb. apply quiet_bind; [by apply quiet_send|]. intros r. case_match; [|apply quiet_ret].
    apply quiet_bind; [apply quiet_cache_remove|]. intros _. apply quiet_ret.
Qed.

Lemma quiet_response lcid code reqId data : short data -> quiet (send_response lcid code reqId data).
Proof.
  intros Hd. unfold send_response. apply quiet_create; [done|apply quiet_ret|]. intros b Hb.
  apply quiet_bind; [by apply quiet_send|]. intros r. case_match; apply quiet_ret.
Qed.

Lemma quiet_establish_rsp lcid reqId rsp : quiet (CM_SignalingTransChanEstablishRspSend lcid reqId rsp).
Proof. apply quiet_response. split; [|done]. unfold establish_rsp_bytes, release_rsp_bytes; bytes_solve; done. Qed.
Lemma quiet_release_rsp lcid reqId rsp : quiet (CM_SignalingTransChanReleaseRspSend lcid reqId rsp).
Proof. apply quiet_response. split; [|done]. unfold establish_rsp_bytes, release_rsp_bytes; bytes_solve; done. Qed.

Lemma silent_args lcid src dst : silent (CM_SignalingTransChanTimoutArgsNew lcid src dst).
Proof. apply silent_bind; [apply silent_alloc|]. intros ok. apply silent_ret. Qed.

Lemma quiet_release_req lcid req : quiet (CM_SignalingTransChanReleaseReqSend lcid req).
Proof.
  apply quiet_bind; [apply silent_quiet, silent_args|]. intros [args|]; [|apply quiet_ret]. apply quiet_request.
  split; [|done]. unfold release_req_bytes; bytes_solve.
Qed.

Lemma quiet_establish_req lcid req :
  0 <= transMode (eq_transModeConfig req) < CM_TRANS_MODE_MAX -> slqiNum (eq_slqiList req) = 1 ->
  quiet (CM_SignalingTransChanEstablishReqSend lcid req).
Proof.
  intros Hm Hq. destruct (wire_bytes_ok req Hm) as [Hb Hl]. unfold CM_SignalingTransChanEstablishReqSend.
  unfold CM_SignalingTransChanEstablishReqPack. intros s Hs. apply wp_bind, wp_bind, wp_cm_alloc; [done|].
  intros ok w' Hb' Hk _. assert (undisturbed s (s.1, w')) as Hu by (by constructor). destruct ok; cbn [negb].
  - eapply wp_opt; [by apply pack_wire|]. eapply (wp_mono _ _ (fun _ => undisturbed (s.1, w'))); [|intros ? ?; by apply undisturbed_trans].
    apply quiet_bind; [apply silent_quiet, silent_args| |done]. intros [args|]; [|apply quiet_ret]. apply quiet_request. by split; [|lia].
  - by apply wp_ret, wp_ret.
Qed.

(** ** Capabilities *)
Lemma quiet_cap_rsp lcid pkt : packet_ok pkt -> quiet (CM_ProcessRspSignalingCapability lcid pkt).
Proof.
  intros Hp. unfold CM_ProcessRspSignalingCapability. destruct (Z.ltb_spec (h_length pkt) 4); [apply quiet_ret|].
  destruct (set_capability_total pkt zero_capvalue Hp) as [[ret value] E]; [done|]. intros s Hs. apply wp_bind. eapply wp_opt; [exact E|].
  revert s Hs. change (quiet (if ret =? 0 then st_ret CM_FAIL else
      (if cv_version value =? 0 then CM_SetDeviceLinkDeviceType lcid false
       else CM_SetLinkProtocolVersion lcid (cv_version value) ;;! CM_SetDeviceLinkDeviceType lcid true) ;;!
      CM_SetLinkTransMode lcid (cv_transMode value) ;;!
      (if negb (cv_wnd value =? 0) then CM_SetLinkRxWindow lcid (cv_wnd value) else st_ret tt) ;;!
      (if negb (cv_mtu value =? 0) then CM_SetLinkMtu lcid (cv_mtu value) else st_ret tt) ;;!
      st_ret 0 : M Z)).
  destruct (ret =? 0); [apply quiet_ret|].
  pose proof (fun v => quiet_link_fields lcid v) as Hf.
  repeat (apply quiet_bind; [repeat case_match; first [apply quiet_ret|apply quiet_device_type|apply Hf|apply quiet_bind; [apply Hf|intros _; apply quiet_device_type]]|intros _]).
  apply quiet_ret.
Qed.

Lemma quiet_cap_req lcid pkt : packet_ok pkt -> quiet (CM_ProcessReqSignalingCapability lcid pkt).
Proof.
  intros [Hl Hm Hs Hid]. unfold CM_ProcessReqSignalingCapability. destruct (Z.ltb_spec (h_length pkt) 4); [apply quiet_ret|].
  intros s Hb. apply wp_bind. unfold DECODE4BYTE_LITTLE. repeat total_load. eapply wp_opt; [done|]. apply wp_bind.
  assert (quiet (if negb (Z.land (cap_bit CM_SIGNAL_VERSION)
     (u32 (Z.lor (Z.lor (Z.lor b2 (Z.shiftl b1 8)) (Z.shiftl b0 16)) (Z.shiftl b 24))) =? 0)
     then CM_SetDeviceLinkDeviceType lcid true else st_ret tt)) as Hq by (case_match; [apply quiet_device_type|apply quiet_ret]).
  eapply wp_mono; [by apply Hq|]. intros [] s1 U1. apply wp_bind, wp_cg, wp_bind.
  match goal with |- context [GetCapabilityInfo ?c ?a _ _] =>
    destruct (get_capability_total c a (bo_addr _ (ud_base _ _ U1))) as (r&m&Ecap&Hmb&Hml&Hr) end.
  eapply wp_opt; [exact Ecap|]. cbv beta iota. destruct (r =? 0); [by apply wp_ret|]. apply wp_bind, wp_cm_alloc; [apply U1|]. intros ok w' B2 K2 _.
  assert (undisturbed s (s1.1, w')) as U2 by (eapply undisturbed_trans; [exact U1|by constructor]).
  unfold CM_CAPABILITY_RSP_LEN in *. apply wp_bind, wp_create; [done|rewrite u16_small; cint|rewrite u16_small; cint| |].
  - intros _. by apply wp_ret.
  - intros bb Hbb _. eapply wp_mono; [by apply quiet_send|]. intros ? s2. by apply undisturbed_trans.
Qed.

Lemma quiet_cap_query lcid cap : quiet (CM_SendReqSignalingCapability lcid cap).
Proof.
  unfold CM_SendReqSignalingCapability. apply quiet_bind; [apply quiet_identifier|]. intros [id|]; [|apply quiet_ret].
  apply quiet_bind; [apply quiet_cache_insert|]. intros ret. case_match; [apply quiet_ret|]. apply quiet_create.
  - split; [|done]. unfold ENCODE4BYTE_LITTLE; bytes_solve.
  - apply quiet_bind; [apply quiet_cache_remove|]. intros _. apply quiet_ret.
  - intros b Hb. apply quiet_bind; [by apply quiet_send|]. intros r. case_match; [|apply quiet_ret].
    apply quiet_bind; [apply quiet_cache_remove|]. intros _. apply quiet_ret.
Qed.
End quiet.
#[export] Hint Resolve quiet_cache_clear quiet_cache_insert quiet_cache_remove quiet_cache_init quiet_cache_deinit
  quiet_identifier quiet_device_type quiet_ret quiet_gets : quiet.
