(* ===== verification/CmOps.v ===== *)
(** * CM: what the operations on channels and identifiers do

    For every operation on the lists of channels and on the pools of identifiers: that it
    is defined, what it leaves in the lists, and what the data plane was told. *)
From S2P Require Import Prelude Utils SdfErrno SdfBuff SdfContainers CmData DtapEnv DtapTrans DtapChannel DtapProps DtapEvents DtapMachine CmState CmTcid CmChannel CmSignal CmCache CmDynTrans CmCap CmRecv CmPackets CmInv CmQuiet.

Section ops.
Context {W : Type} {HW : World W} {HB : Below W} {HBO : BelowOk W}.
Notation M := (ST (Cm * W)).
Notation state := (Cm * W)%type.
Implicit Types (s : state) (c : Cm) (w : W) (n : SleTransLcid).

(** Only the surroundings changed. *)
Definition aside s s' : Prop := s'.1 = s.1 /\ base_ok s' /\ below_keys s'.2 = below_keys s.2.

Lemma aside_refl s : base_ok s -> aside s s.
Proof. by intros. Qed.
Lemma aside_trans s1 s2 s3 : aside s1 s2 -> aside s2 s3 -> aside s1 s3.
Proof. intros (E1&_&K1) (E2&B2&K2). split_and!; [congruence|done|congruence]. Qed.

(** An allocation, with what the rest of the code does after it. *)
Lemma wp_alloc_aside s (Q : bool -> state -> Prop) :
  base_ok s -> (forall b s', aside s s' -> (memory_suffices W -> b = true) -> Q b s') -> wp alloc_ok s Q.
Proof. intros Hs HQ. apply wp_cm_alloc; [done|]. intros b w' Hb Hk Hm. by apply HQ. Qed.

Lemma wp_create_vector {A} d s (Q : option (SDF_Vector A) -> state -> Prop) :
  base_ok s ->
  (forall s', aside s s' -> ~ memory_suffices W -> Q None s') ->
  (forall v s', aside s s' -> vec_small v -> vlist v = [] -> capacity v <> vsize v -> Q (Some v) s') ->
  wp (create_vector d) s Q.
Proof.
  intros Hs HN HS. unfold create_vector. apply wp_bind, wp_alloc_aside; [done|]. intros ok1 s1 A1 M1.
  destruct ok1; cbn [negb]; [|apply wp_ret, HN; [done|]; intros E; by specialize (M1 E)].
  apply wp_bind, wp_alloc_aside; [apply A1|]. intros ok2 s2 A2 M2. apply wp_ret. pose proof (aside_trans _ _ _ A1 A2) as A12.
  destruct ok2; [|apply HN; [done|]; intros E; by specialize (M2 E)].
  destruct (SDF_CreateVector true true d) as [v|] eqn:E; [|done]. destruct (create_small d v E) as (?&?&?). by apply HS.
Qed.

Lemma wp_vector_push {A} (v : SDF_Vector A) a s (Q : SDF_Vector A -> state -> Prop) :
  base_ok s -> vec_small v -> vsize v < 65536 ->
  (forall v' s', aside s s' -> vec_small v' ->
     vlist v' = vlist v ++ [Some a] \/ (vlist v' = vlist v /\ ~ memory_suffices W /\ capacity v = vsize v) -> Q v' s') ->
  wp (vector_push v a) s Q.
Proof.
  intros Hs Hv Hsz HQ. unfold vector_push. apply wp_bind.
  assert (forall ok s', aside s s' -> (capacity v = vsize v -> memory_suffices W -> ok = true) ->
    Q (snd (SDF_VectorEmplaceBack ok v (Some a))) s') as H.
  { intros ok s' Ha Hok. destruct (emplace_small ok v a Hv Hsz) as (Hv'&Hl&Hf). apply HQ; [done|done|].
    destruct (fst _); [by left|]. right. split; [done|].
    destruct (Z.eqb_spec (capacity v) (vsize v)) as [e|]; [|by specialize (Hf (or_introl eq_refl))]. split; [|done].
    intros Hm. by specialize (Hf (or_intror (Hok e Hm))). }
  destruct (Z.eqb_spec (capacity v) (vsize v)) as [e|e].
  - apply wp_alloc_aside; [done|]. intros ok s' Ha Hok. apply wp_ret, H; [done|]. by intros _.
  - apply wp_ret, wp_ret, H; [by apply aside_refl|]. done.
Qed.

(** ** Nodes *)
Lemma wp_get_node n s (Q : SleTransLcid -> state -> Prop) :
  NoDup (map tl_ptr (nodes s.1)) -> n ∈ nodes s.1 -> Q n s -> wp (get_node (tl_ptr n)) s Q.
Proof. intros Hp Hn HQ. apply wp_bind, wp_cg. eapply wp_opt; [by apply (find_first_key tl_ptr)|done]. Qed.

Definition of_link lcid (l : list SleTransLcid) : list SleTransLcid := filter (fun n => tl_lcid n = lcid) l.

Lemma of_link_cons lcid n l : of_link lcid (n :: l) = if decide (tl_lcid n = lcid) then n :: of_link lcid l else of_link lcid l.
Proof. done. Qed.

Lemma wp_push_nodes lcid l (v : SDF_Vector Z) s (Q : SDF_Vector Z -> state -> Prop) :
  base_ok s -> vec_small v -> vsize v + zlen (of_link lcid l) < 65536 ->
  (forall v' s' l', aside s s' -> vec_small v' -> l' `sublist_of` of_link lcid l -> (memory_suffices W -> l' = of_link lcid l) ->
     vlist v' = vlist v ++ map Some (map tl_ptr l') -> Q v' s') ->
  wp (push_nodes lcid l v) s Q.
Proof.
  revert v s Q. induction l as [|n l IH]; intros v s Q Hs Hv Hl HQ; cbn [push_nodes].
  { apply wp_ret. eapply (HQ v s []); [by apply aside_refl|done|done|done|by rewrite app_nil_r]. }
  rewrite of_link_cons in *. destruct (Z.eqb_spec (tl_lcid n) lcid) as [e|e]; case_decide; [|done|done|by apply IH].
  cbn [length] in Hl. apply wp_bind, wp_vector_push; [done|done|lia|]. intros v1 s1 A1 V1 L1.
  pose proof (length_vlist v (proj1 Hv)) as Hz. pose proof (length_vlist v1 (proj1 V1)) as Hz1.
  assert (vsize v1 + zlen (of_link lcid l) < 65536) as Hl1.
  { destruct L1 as [L1|(L1&_)]; rewrite L1 in Hz1; [rewrite length_app in Hz1; cbn in Hz1; lia|lia]. }
  apply IH; [apply A1|done|done|]. intros v2 s2 l2 A2 V2 S2 M2 L2. pose proof (aside_trans _ _ _ A1 A2) as A12.
  destruct L1 as [L1|(L1&Nm&_)].
  - apply (HQ v2 s2 (n :: l2)); [done|done|by apply sublist_skip|intros Hm; by rewrite M2|]. rewrite L2, L1, <- app_assoc. done.
  - apply (HQ v2 s2 l2); [done|done|by apply sublist_cons|intros Hm; by destruct Nm|]. by rewrite L2, L1.
Qed.

Lemma wp_push_channels lcid l (v : SDF_Vector CM_TransChan) s (Q : option (SDF_Vector CM_TransChan) -> state -> Prop) :
  base_ok s -> vec_small v -> vsize v + zlen (of_link lcid l) < 65536 ->
  (forall s', aside s s' -> ~ memory_suffices W -> Q None s') ->
  (forall v' s' l', aside s s' -> vec_small v' -> l' `sublist_of` of_link lcid l -> (memory_suffices W -> l' = of_link lcid l) ->
     vlist v' = vlist v ++ map Some (map fixed_chan l') -> Q (Some v') s') ->
  wp (push_channels lcid l v) s Q.
Proof.
  revert v s Q. induction l as [|n l IH]; intros v s Q Hs Hv Hl HN HQ; cbn [push_channels].
  { apply wp_ret. eapply (HQ v s []); [by apply aside_refl|done|done|done|by rewrite app_nil_r]. }
  rewrite of_link_cons in *. destruct (Z.eqb_spec lcid (tl_lcid n)) as [e|e]; case_decide; [|done|done|by apply IH].
  cbn [length negb] in *. apply wp_bind, wp_alloc_aside; [done|]. intros ok s0 A0 M0.
  destruct ok; cbn [negb]; [|apply wp_ret, HN; [done|]; intros E; by specialize (M0 E)].
  apply wp_bind, wp_vector_push; [apply A0|done|lia|]. intros v1 s1 A1 V1 L1. pose proof (aside_trans _ _ _ A0 A1) as A01.
  pose proof (length_vlist v (proj1 Hv)) as Hz. pose proof (length_vlist v1 (proj1 V1)) as Hz1.
  assert (vsize v1 + zlen (of_link lcid l) < 65536) as Hl1.
  { destruct L1 as [L1|(L1&_)]; rewrite L1 in Hz1; [rewrite length_app in Hz1; cbn in Hz1; lia|lia]. }
  apply IH; [apply A1|done|done| |].
  { intros s2 A2 Nm. apply HN; [by eapply aside_trans|done]. }
  intros v2 s2 l2 A2 V2 S2 M2 L2. pose proof (aside_trans _ _ _ A01 A2) as A12.
  destruct L1 as [L1|(L1&Nm&_)].
  - apply (HQ v2 s2 (n :: l2)); [done|done|by apply sublist_skip|intros Hm; by rewrite M2|]. rewrite L2, L1, <- app_assoc. done.
  - apply (HQ v2 s2 l2); [done|done|by apply sublist_cons|intros Hm; by destruct Nm|]. by rewrite L2, L1.
Qed.

(** ** Reports *)
Notation ACTIVATED := CM_TRANS_CHANNEL_STATE_ACTIVATED.
Notation RELEASED := CM_TRANS_CHANNEL_STATE_RELEASED.

(** The data plane was told, or it has no callback, or memory ran out before. *)
Definition told (cbk : bool) r v (ks ks' : list chan_key) : Prop :=
  (ks' = ks /\ (memory_suffices W -> cbk = false)) \/ (cbk = true /\ reported r v ks ks').

Lemma chan_keys n : param_key (fixed_chan n) = node_key n /\ param_key (dyn_chan n) = node_key n.
Proof. done. Qed.
Lemma chan_params n : node_ok n -> param_ok (fixed_chan n) /\ param_ok (dyn_chan n).
Proof. intros [? ? []]. split; by constructor. Qed.

Lemma may_add_nodes (f : SleTransLcid -> CM_TransChan) l ks :
  (forall n, node_ok n -> param_ok (f n) /\ param_key (f n) = node_key n) ->
  Forall node_ok l -> NoDup (map key2 l) -> opaque_keys ks -> (forall n k, n ∈ l -> k ∈ ks -> k.1 <> key2 n) ->
  may_add_all (map Some (map f l)) ks.
Proof.
  intros Hf Hl. revert ks. induction Hl as [|n l Hn Hl IH]; intros ks Hk Ho Hd; cbn; [done|]. apply NoDup_cons in Hk as [Hnk Hk].
  destruct (Hf n Hn) as [Hp Ek]. unfold param_key, node_key in Ek. injection Ek as E1 E2 E3. split.
  - split; [done|]. intros k Hkk El. pose proof (Hd n k ltac:(by left) Hkk) as Hne. unfold opaque_keys in Ho. rewrite Forall_forall in Ho. split_and!.
    + intros E. apply Hne. destruct k as [[k1 k2] k3]; cbn in *. unfold key2. congruence.
    + by apply Ho.
    + rewrite E3. apply Hn.
  - apply IH; [done| |].
    + constructor; [cbn; rewrite E3; apply Hn|done].
    + intros m k Hm [->|Hkk]%elem_of_cons; [|apply Hd; [by right|done]]. cbn. intros E. apply Hnk.
      apply list_elem_of_fmap. exists m. split; [|done]. unfold key2 in *. congruence.
Qed.

Lemma wp_cm_report r v c w (Q : unit -> state -> Prop) :
  base_ok (c, w) -> r = ACTIVATED \/ r = RELEASED -> (r = ACTIVATED -> may_add_all v (below_keys w)) ->
  (forall ch, Some ch ∈ v -> transMode (config ch) <> CM_TRANS_MODE_TRANSPARENT) ->
  (forall w', base_ok (c, w') -> reported r v (below_keys w) (below_keys w') -> Q tt (c, w')) ->
  wp (over (transChannelCbk (mk_states r (Some v)))) (c, w) Q.
Proof.
  intros Hs Hr Ha Hv HQ. pose proof (bo_opaque _ Hs) as Ho. cbn in Ho. unfold opaque_keys in Ho. rewrite Forall_forall in Ho.
  apply wp_over. eapply wp_mono; [apply below_report; [apply Hs|exact Ha|]|].
  - intros _. apply Forall_forall. intros [ch|] _; [|done]. intros k Hk _ Et. by destruct (Ho k Hk).
  - intros [] w' [Hok Hrep]. apply HQ; [|done]. pose proof Hs as [B1 B2 B3 B4 _ _]. constructor; try done. cbn.
    apply Forall_forall. intros k Hk. destruct Hr as [-> | ->].
    + destruct (proj1 Hrep eq_refl k Hk) as [?|(ch&Hch&->)]; [by apply Ho|by apply Hv].
    + apply Ho. by apply (proj1 (proj2 Hrep eq_refl)).
Qed.

Lemma wp_dyn_report n r s (Q : unit -> state -> Prop) :
  base_ok s -> chans_ok s.1 -> n ∈ nodes s.1 -> r = ACTIVATED \/ r = RELEASED ->
  (r = ACTIVATED -> forall k, k ∈ below_keys s.2 -> k.1 <> key2 n) ->
  (forall s', s'.1 = s.1 -> base_ok s' -> told (g_transChannelCbk s.1) r [Some (dyn_chan n)] (below_keys s.2) (below_keys s'.2) -> Q tt s') ->
  wp (CM_DynTransChannelChangeCbk (tl_ptr n) r) s Q.
Proof.
  intros Hs Hc Hn Hr Ha HQ. assert (node_ok n) as Hnok by (eapply Forall_forall; [apply Hc|done]).
  unfold CM_DynTransChannelChangeCbk. apply wp_bind, wp_cg. destruct (g_transChannelCbk s.1) eqn:Ecb; cbn [negb].
  2: { apply wp_ret. apply HQ; [done|done|]. by left. }
  assert (forall s', aside s s' -> ~ memory_suffices W -> Q tt s') as HN.
  { intros s' (E&Hb&Ek) Nm. apply HQ; [done|done|]. left. rewrite Ek. split; [done|]. intros Hm. by destruct Nm. }
  apply wp_bind, wp_create_vector; [done| |]; [intros s' A Nm; apply wp_ret; by apply HN|].
  intros v s1 A1 Hv Lv Cv. apply wp_bind, wp_alloc_aside; [apply A1|]. intros ok s2 A2 M2. pose proof (aside_trans _ _ _ A1 A2) as A12.
  destruct ok; cbn [negb]; [|apply wp_ret, HN; [done|]; intros E; by specialize (M2 E)].
  apply wp_bind, wp_get_node; [rewrite (proj1 A12); apply Hc|by rewrite (proj1 A12)|].
  pose proof (length_vlist v (proj1 Hv)) as Hz. rewrite Lv in Hz. cbn in Hz.
  apply wp_bind, wp_vector_push; [apply A12|done|lia|]. intros v' s3 A3 Hv' [Lv'|(_&_&e)]; [|lia].
  destruct (aside_trans _ _ _ A12 A3) as (E&Hb&Ek). destruct s3 as [c3 w3]; cbn in E; subst c3. rewrite Lv', Lv, app_nil_l. cbn in Ek.
  apply wp_cm_report; [done|done| | |].
  - intros Er. rewrite Ek. apply (may_add_nodes dyn_chan [n]); [intros m Hm; split; [by apply chan_params|done]|by constructor| |apply Hs|].
    + apply NoDup_singleton.
    + intros m k ->%list_elem_of_singleton. by apply Ha.
  - intros ch ->%list_elem_of_singleton%(inj Some). apply Hnok.
  - intros w' Hb' Hrep. apply HQ; [done|done|]. right. rewrite <- Ek. done.
Qed.

Lemma of_link_elem lcid l n : n ∈ of_link lcid l <-> tl_lcid n = lcid /\ n ∈ l.
Proof. unfold of_link. by rewrite list_elem_of_filter. Qed.
Lemma of_link_sub lcid l : of_link lcid l `sublist_of` l.
Proof. induction l as [|n l IH]; [done|]. rewrite of_link_cons. case_decide; [by apply sublist_skip|by apply sublist_cons]. Qed.

Lemma short_u8 (l : list Z) : NoDup l -> Forall is_u8 l -> zlen l <= 256.
Proof.
  intros Hn Hf. assert (l ⊆+ seqZ 0 256) as Hs.
  { apply NoDup_submseteq; [done|]. intros x Hx. rewrite Forall_forall in Hf. apply elem_of_seqZ. specialize (Hf x Hx). cint. }
  apply submseteq_length in Hs. rewrite length_seqZ in Hs. lia.
Qed.

Lemma of_link_short lcid l : Forall node_ok l -> NoDup (map key2 l) -> zlen (of_link lcid l) <= 256.
Proof.
  intros Hl Hk. pose proof (of_link_sub lcid l) as Hs. rewrite <- (length_map tl_local). apply short_u8.
  - pose proof (NoDup_sub _ _ (map_sub key2 _ _ Hs) Hk) as Hk'. assert (Forall (fun n => tl_lcid n = lcid) (of_link lcid l)) as He.
    { apply Forall_forall. intros n Hn. by apply of_link_elem in Hn as []. }
    clear -Hk' He. induction He as [|n l' Hn He IH]; [constructor|]. cbn in *. apply NoDup_cons in Hk' as [H1 H2].
    apply NoDup_cons. split; [|by apply IH]. intros (m&E&Hm)%list_elem_of_fmap. apply H1. apply list_elem_of_fmap. exists m.
    split; [|done]. rewrite Forall_forall in He. unfold key2. rewrite E, Hn, (He m Hm). done.
  - apply Forall_map. eapply Forall_sub; [exact Hs|]. eapply Forall_impl; [exact Hl|]. intros n Hn. apply Hn.
Qed.

Lemma chans_fixed c : chans_ok c -> Forall node_ok (g_fixedTransListHead c) /\ NoDup (map key2 (g_fixedTransListHead c)).
Proof.
  intros Hc. pose proof (ci_nodes _ _ _ _ Hc) as Hn. pose proof (ci_keys _ _ _ _ Hc) as Hk. rewrite map_app in Hk.
  apply Forall_app in Hn as [? _]. apply NoDup_app in Hk as (?&_). done.
Qed.
Lemma chans_dyn c : chans_ok c -> Forall node_ok (g_dynTransListHead c) /\ NoDup (map key2 (g_dynTransListHead c)).
Proof.
  intros Hc. pose proof (ci_nodes _ _ _ _ Hc) as Hn. pose proof (ci_keys _ _ _ _ Hc) as Hk. rewrite map_app in Hk.
  apply Forall_app in Hn as [_ ?]. apply NoDup_app in Hk as (_&_&?). done.
Qed.

Lemma wp_fixed_report lcid r s (Q : Z -> state -> Prop) :
  base_ok s -> chans_ok s.1 -> r = ACTIVATED \/ r = RELEASED ->
  let F := of_link lcid (g_fixedTransListHead s.1) in
  (r = ACTIVATED -> forall n k, n ∈ F -> k ∈ below_keys s.2 -> k.1 <> key2 n) ->
  (forall a s' l', s'.1 = s.1 -> base_ok s' -> l' `sublist_of` F -> (memory_suffices W -> l' = F) ->
     told (g_transChannelCbk s.1) r (map Some (map fixed_chan l')) (below_keys s.2) (below_keys s'.2) -> Q a s') ->
  wp (CM_FixedTransChannelChangeCbk lcid r) s Q.
Proof.
  intros Hs Hc Hr F Ha HQ. destruct (chans_fixed _ Hc) as [Hn Hk].
  unfold CM_FixedTransChannelChangeCbk. apply wp_bind, wp_cg. destruct (g_transChannelCbk s.1) eqn:Ecb; cbn [negb].
  2: { apply wp_ret. apply (HQ _ _ F); [done..|]. by left. }
  assert (forall a s', aside s s' -> ~ memory_suffices W -> Q a s') as HN.
  { intros a s' (E&Hb&Ek) Nm. apply (HQ _ _ F); [done..|]. left. rewrite Ek. split; [done|]. intros Hm. by destruct Nm. }
  apply wp_bind, wp_create_vector; [done| |]; [intros s' A Nm; apply wp_ret; by apply HN|].
  intros v s1 A1 Hv Lv Cv. pose proof (length_vlist v (proj1 Hv)) as Hz. rewrite Lv in Hz. cbn in Hz.
  apply wp_bind, wp_cg, wp_bind. rewrite (proj1 A1). pose proof (of_link_short lcid _ Hn Hk) as Hlen.
  apply wp_push_channels; [apply A1|done|lia| |].
  { intros s2 A2 Nm. apply wp_ret, HN; [by eapply aside_trans|done]. }
  intros v' s2 l' A2 Hv' Hsub Hm Lv'. destruct (aside_trans _ _ _ A1 A2) as (E&Hb&Ek). destruct s2 as [c2 w2]; cbn in E; subst c2.
  rewrite Lv, app_nil_l in Lv'. rewrite Lv'. cbn in Ek. pose proof (of_link_sub lcid (g_fixedTransListHead s.1)) as HF.
  assert (Forall node_ok l') as Hl' by (eapply Forall_sub; [exact Hsub|]; by eapply Forall_sub).
  apply wp_bind, wp_cm_report; [done|done| | |].
  - intros Er. rewrite Ek. apply may_add_nodes; [intros m Hm'; split; [by apply chan_params|done]|done| |apply Hs|].
    + eapply NoDup_sub; [apply map_sub; exact Hsub|]. eapply NoDup_sub; [by apply map_sub|done].
    + intros n k Hn' Hk'. apply (Ha Er n k); [|done]. by eapply elem_of_sublist.
  - intros ch (ch'&[= ->]&Hch)%list_elem_of_fmap. apply list_elem_of_fmap in Hch as (n&->&Hn'). rewrite Forall_forall in Hl'.
    by destruct (Hl' n Hn') as [_ _ []].
  - intros w' Hb' Hrep. apply wp_ret. apply (HQ _ _ l'); [done..|]. right. by rewrite <- Ek.
Qed.

(** What the data plane has after it was told of a release. *)
Lemma told_release cbk v ks ks' : told cbk RELEASED v ks ks' ->
  (forall k, k ∈ ks' -> k ∈ ks) /\
  (memory_suffices W -> (cbk = false -> ks = []) -> forall ch k, Some ch ∈ v -> k ∈ ks' -> k.1 <> (pm_lcid ch, pm_srcTcid ch)).
Proof.
  intros [[-> Hm]|[-> [_ Hr]]]; [|destruct (Hr eq_refl) as [H1 H2]; split; [done|by intros _ _]].
  split; [done|]. intros Hmem Hk ch k _ Hin. rewrite (Hk (Hm Hmem)) in Hin. by apply not_elem_of_nil in Hin.
Qed.
End ops.
