(* ===== verification/CmNodes.v ===== *)
(** * CM: channels that come and go

    Release, allocation and activation of channels and identifiers, with what each keeps
    of the invariant and of the agreement with the data plane. *)
From S2P Require Import Prelude Utils SdfErrno SdfBuff SdfContainers CmData DtapEnv DtapTrans DtapChannel DtapProps DtapEvents DtapMachine CmState CmTcid CmChannel CmSignal CmCache CmDynTrans CmCap CmRecv CmPackets CmInv CmQuiet CmOps.

(** ** Lists of channels *)
Lemma app_sub {A} (l1 l2 k1 k2 : list A) : l1 `sublist_of` k1 -> l2 `sublist_of` k2 -> l1 ++ l2 `sublist_of` k1 ++ k2.
Proof. apply sublist_app. Qed.

Lemma chan_inv_sub F D P next F' D' : F' `sublist_of` F -> D' `sublist_of` D -> chan_inv F D P next -> chan_inv F' D' P next.
Proof.
  intros HF HD []. pose proof (app_sub _ _ _ _ HF HD) as HFD. constructor; try done.
  - eapply NoDup_sub; [by apply map_sub|done].
  - by eapply Forall_sub.
  - by eapply Forall_sub.
  - by eapply Forall_sub.
  - by eapply Forall_sub.
  - eapply NoDup_sub; [by apply map_sub|done].
Qed.

Lemma chan_inv_next F D P next next' : next <= next' -> chan_inv F D P next -> chan_inv F D P next'.
Proof. intros Hle []. constructor; try done. eapply Forall_impl; [exact ci_fresh|]. cbn. lia. Qed.

Lemma marked_sub D P D' : D' `sublist_of` D -> marked D P -> marked D' P.
Proof. intros Hs Hm n pool Hn. apply Hm. by eapply elem_of_sublist. Qed.

(** A list whose channels are updated at one place, with key and configuration kept. *)
Definition keeps (f : SleTransLcid -> SleTransLcid) : Prop :=
  forall n, tl_ptr (f n) = tl_ptr n /\ tl_lcid (f n) = tl_lcid n /\ tl_local (f n) = tl_local n /\ tl_params (f n) = tl_params n /\ live (tl_state (f n)).

Lemma keeps_key f n : keeps f -> key2 (f n) = key2 n /\ node_key (f n) = node_key n /\ (node_ok n -> node_ok (f n)) /\ (dyn_ok n -> dyn_ok (f n)).
Proof.
  intros Hf. destruct (Hf n) as (E1&E2&E3&E4&E6). assert (channel_config (f n) = channel_config n) as E5 by (unfold channel_config; by rewrite E4).
  unfold key2, node_key, dyn_ok. rewrite E2, E3, E5. split_and!; try done; [|by intros []]. intros []. constructor; by rewrite ?E2, ?E3, ?E5.
Qed.

Lemma chan_inv_update F D P next p f :
  keeps f -> Forall (fun n => tl_ptr n <> p) F -> chan_inv F D P next -> chan_inv F (update_first (node_at p) f D) P next.
Proof.
  intros Hf HF []. assert (forall n, tl_ptr (f n) = tl_ptr n) as Hp by (intros n; apply Hf). constructor; try done.
  - rewrite map_app, map_update_first by done. by rewrite <- map_app.
  - apply Forall_app in ci_fresh as [? ?]. apply Forall_app. split; [done|]. apply Forall_update_first; [|done]. intros n. by rewrite Hp.
  - apply Forall_app in ci_nodes as [? ?]. apply Forall_app. split; [done|]. apply Forall_update_first; [|done]. intros n. by apply keeps_key.
  - apply Forall_update_first; [|done]. intros n. by apply keeps_key.
  - rewrite map_app, map_update_first; [by rewrite <- map_app|]. intros n. by apply keeps_key.
Qed.

Lemma marked_update D P p f : keeps f -> marked D P -> marked (update_first (node_at p) f D) P.
Proof.
  intros Hf Hm n pool [Hn|(m&Hm2&->)]%elem_update_first; [by apply Hm|]. apply find_first_Some in Hm2 as [Hin _].
  destruct (Hf m) as (_&E2&E3&_). rewrite E2, E3. by apply Hm.
Qed.

Lemma update_first_skip {A} (q : A -> bool) f l : Forall (fun x => q x = false) l -> update_first q f l = l.
Proof. induction 1 as [|x l Hx Hl IH]; cbn; [done|]. by rewrite Hx, IH. Qed.

(** Removing the node with an address, when addresses are not used twice. *)
Lemma removed_elem (l : list SleTransLcid) n m :
  NoDup (map tl_ptr l) -> n ∈ l -> m ∈ l -> m ∈ remove_first (node_at (tl_ptr n)) l \/ m = n.
Proof.
  intros Hn Hin Hm. pose proof (find_first_key tl_ptr l n Hn Hin) as Hf.
  apply find_first_split in Hf as (l1&l2&->&H1&H2). unfold node_at. rewrite (remove_first_split _ l1 n l2 H1 H2).
  apply elem_of_app in Hm as [?|[->|?]%elem_of_cons]; [left|by right|left]; apply elem_of_app; [by left|by right].
Qed.
Lemma removed_not (l : list SleTransLcid) n m :
  NoDup (map tl_ptr l) -> n ∈ l -> m ∈ remove_first (node_at (tl_ptr n)) l -> m ∈ l /\ m <> n.
Proof.
  intros Hn Hin Hm. pose proof (find_first_key tl_ptr l n Hn Hin) as Hf.
  apply find_first_split in Hf as (l1&l2&->&H1&H2). unfold node_at in Hm. rewrite (remove_first_split _ l1 n l2 H1 H2) in Hm.
  split; [apply elem_of_app in Hm as [?|?]; apply elem_of_app; [by left|right; by right]|]. intros ->.
  rewrite map_app in Hn. cbn in Hn. apply NoDup_app in Hn as (_&Hd&Hn). apply NoDup_cons in Hn as [Hn _].
  apply elem_of_app in Hm as [Hm|Hm].
  - apply (Hd (tl_ptr n)); [apply list_elem_of_fmap; by exists n|by left].
  - apply Hn, list_elem_of_fmap. by exists n.
Qed.

(** ** Pools *)
Definition set_used (lcid : Z) (used : list bool) (P : list CM_DynTcidPool) : list CM_DynTcidPool :=
  update_first (pool_of lcid) (fun p => p <| unicastTcidUsed := used |>) P.

Lemma find_set_used lcid used P l :
  find_first (pool_of l) (set_used lcid used P) =
    if l =? lcid then (fun p => p <| unicastTcidUsed := used |>) <$> find_first (pool_of l) P else find_first (pool_of l) P.
Proof.
  unfold set_used, pool_of. induction P as [|p P IH]; cbn; [by case_match|]. destruct (Z.eqb_spec (pl_lcid p) lcid) as [e|e]; cbn.
  - rewrite e. destruct (Z.eqb_spec lcid l) as [e2|n2]; destruct (Z.eqb_spec l lcid) as [e3|n3]; [done|congruence|congruence|done].
  - destruct (Z.eqb_spec (pl_lcid p) l) as [e2|]; [|exact IH]. destruct (Z.eqb_spec l lcid); [congruence|done].
Qed.

Lemma set_used_same lcid P pool : find_first (pool_of lcid) P = Some pool -> set_used lcid (unicastTcidUsed pool) P = P.
Proof.
  intros Hf. apply find_first_split in Hf as (l1&l2&->&H1&H2). unfold set_used. rewrite (update_first_split _ _ l1 pool l2 H1 H2).
  by destruct pool.
Qed.

Lemma chan_inv_pools F D P next lcid used :
  length used = Z.to_nat CM_DYN_UNICAST_TCID_SIZE_MAX -> chan_inv F D P next -> chan_inv F D (set_used lcid used P) next.
Proof.
  intros Hl []. constructor; try done.
  - unfold set_used. by rewrite map_update_first.
  - apply Forall_update_first; [|done]. intros p []. by split.
Qed.

(** ** The search for a free identifier *)
Lemma unicast_loop_spec n used i lo hi :
  0 <= i -> (Z.to_nat i + n = 256)%nat -> zlen used <= 128 ->
  match unicast_loop n used i lo hi with
  | Some j => i <= j /\ j <= hi - lo /\ used !! Z.to_nat j = Some false /\ forall k, i <= k < j -> used !! Z.to_nat k = Some true
  | None => forall k, i <= k < zlen used -> k <= hi - lo -> used !! Z.to_nat k = Some true
  end.
Proof.
  revert i. induction n as [|n IH]; intros i H0 Hn Hl; cbn [unicast_loop]; [intros; lia|].
  destruct (Z.ltb_spec i (zlen used)); cbn [andb]; [|intros; lia]. destruct (Z.leb_spec i (hi - lo)); [|intros; lia].
  assert (is_Some (used !! Z.to_nat i)) as [b Hb] by (apply lookup_lt_is_Some; lia). rewrite Hb. destruct b.
  - rewrite u8_small by cint. specialize (IH (i + 1) ltac:(lia) ltac:(lia) Hl). destruct (unicast_loop _ _ _ _ _) as [j|].
    + destruct IH as (?&?&?&Hk). split_and!; [lia|done|done|]. intros k Hk2. destruct (decide (k = i)) as [->|]; [done|apply Hk; lia].
    + intros k Hk Hk2. destruct (decide (k = i)) as [->|]; [done|apply IH; lia].
  - split_and!; [lia|done|done|]. intros; lia.
Qed.

Lemma pool_loop used : length used = Z.to_nat CM_DYN_UNICAST_TCID_SIZE_MAX ->
  match unicast_loop 256 used 0 CM_TCID_UC_BEGIN CM_TCID_UC_END with
  | Some j => 0 <= j <= 95 /\ used !! Z.to_nat j = Some false /\ forall k, 0 <= k < j -> used !! Z.to_nat k = Some true
  | None => forall k, 0 <= k <= 95 -> used !! Z.to_nat k = Some true
  end.
Proof.
  intros Hl. pose proof (unicast_loop_spec 256 used 0 CM_TCID_UC_BEGIN CM_TCID_UC_END ltac:(lia) ltac:(done) ltac:(rewrite Hl; done)) as H.
  change (Z.to_nat CM_DYN_UNICAST_TCID_SIZE_MAX) with 96%nat in Hl. change (CM_TCID_UC_END - CM_TCID_UC_BEGIN) with 95 in H.
  destruct (unicast_loop _ _ _ _ _) as [j|].
  - destruct H as (?&?&?&?). split_and!; [done|done|done|]. intros; auto.
  - intros k Hk. apply H; lia.
Qed.

Section nodes.
Context {W : Type} {HW : World W} {HB : Below W} {HBO : BelowOk W}.
Notation M := (ST (Cm * W)).
Notation state := (Cm * W)%type.
Implicit Types (s : state) (c : Cm) (w : W) (n : SleTransLcid).
Notation ACTIVATED := CM_TRANS_CHANNEL_STATE_ACTIVATED.
Notation RELEASED := CM_TRANS_CHANNEL_STATE_RELEASED.
Notation F s := (g_fixedTransListHead s.1).
Notation D s := (g_dynTransListHead s.1).
Notation P s := (g_cmDynTransPoolListHead s.1).

(** ** What quiet steps keep *)
Lemma good_undisturbed s s' : cm_good s -> undisturbed s s' -> cm_good s'.
Proof.
  intros [Hb Hc Ht] [Hb' Hp Hn _]. unfold chan_part in Hp. injection Hp as E1 E2 E3 E4. constructor; [done| |].
  - unfold chans_ok. rewrite E1, E2, E3. by eapply chan_inv_next.
  - unfold tcids_ok. by rewrite E2, E3.
Qed.
Lemma agree_undisturbed s s' : agree_in s -> undisturbed s s' -> agree_in s'.
Proof. intros Ha [_ Hp _ Hk]. unfold chan_part in Hp. injection Hp as E1 E2 E3 E4. unfold agree_in. by rewrite E1, E2, E4, Hk. Qed.

Lemma step_undisturbed s s' : in_step s -> undisturbed s s' -> in_step s'.
Proof.
  intros [Ha Hp] Hu. constructor; [by eapply agree_undisturbed|]. pose proof (ud_part _ _ Hu) as E. unfold chan_part in E.
  injection E as E1 E2 E3 E4. by rewrite E2, E3.
Qed.

Lemma base_same c c' w : base_ok (c, w) -> g_deviceLinkListHead c' = g_deviceLinkListHead c -> c_next c' = c_next c ->
  g_cachedSignalings c' = g_cachedSignalings c -> nbc_address c' = nbc_address c -> g_identifier c' = g_identifier c -> base_ok (c', w).
Proof. intros [] E1 E2 E3 E4 E5. cbn in *. constructor; cbn; by rewrite ?E1, ?E2, ?E3, ?E4, ?E5. Qed.

(** ** Release of a dynamic channel *)
Definition drop_node n (c : Cm) : Cm := c <| g_dynTransListHead ::= remove_first (node_at (tl_ptr n)) |>.

Record dropped n s s' : Prop := {
  dr_cm : s'.1 = drop_node n s.1;
  dr_base : base_ok s';
  dr_told : told (g_transChannelCbk s.1) RELEASED [Some (dyn_chan n)] (below_keys s.2) (below_keys s'.2)
}.

Lemma dyn_in_nodes n c : n ∈ g_dynTransListHead c -> n ∈ nodes c.
Proof. intros Hn. apply elem_of_app. by right. Qed.

Lemma wp_drop n s : base_ok s -> chans_ok s.1 -> n ∈ D s ->
  wp (CM_DynTransChannelFreeListNode (tl_ptr n)) s (fun _ => dropped n s).
Proof.
  intros Hs Hc Hn. unfold CM_DynTransChannelFreeListNode. apply wp_bind, wp_dyn_report; [done|done|by apply dyn_in_nodes|by right|done|].
  intros [c' w'] E Hb Ht. cbn in E. subst c'. unfold CM_TransChannelDestroyOneNode.
  apply wp_bind, wp_get_node; [apply Hc|by apply dyn_in_nodes|]. apply wp_cupd. constructor; [done| |done].
  by apply (base_same s.1).
Qed.
Lemma wp_release_dyn n s : base_ok s -> chans_ok s.1 -> n ∈ D s ->
  wp (CM_ReleaseDynamicTransChannelByLocalTcid (Some (tl_ptr n))) s (fun _ => dropped n s) /\
  wp (CM_ReleaseDynamicTransChannelByRemoteTcid (Some (tl_ptr n))) s (fun _ => dropped n s).
Proof.
  intros Hs Hc Hn. split; apply wp_bind, wp_get_node; (apply Hc || by apply dyn_in_nodes) || by apply wp_drop.
Qed.

Lemma dropped_chans n s s' : chans_ok s.1 -> dropped n s s' -> chans_ok s'.1.
Proof. intros Hc [E _ _]. unfold chans_ok. rewrite E. cbn. eapply chan_inv_sub; [done|apply remove_first_sub|done]. Qed.

(** A node is still there, or it has the key that nothing has any more. *)
Lemma key2_inj (l : list SleTransLcid) n m : NoDup (map key2 l) -> n ∈ l -> m ∈ l -> key2 n = key2 m -> n = m.
Proof.
  induction l as [|x l IH]; intros Hk Hn Hm E; [by apply not_elem_of_nil in Hn|]. cbn in Hk. apply NoDup_cons in Hk as [Hx Hk].
  apply elem_of_cons in Hn. apply elem_of_cons in Hm. destruct Hn as [-> | Hn], Hm as [-> | Hm]; [done| | |by apply IH].
  - destruct Hx. apply list_elem_of_fmap. by exists m.
  - destruct Hx. apply list_elem_of_fmap. by exists n.
Qed.

Lemma removed_no_key n s m : chans_ok s.1 -> n ∈ D s -> m ∈ g_dynTransListHead (drop_node n s.1) -> key2 m <> key2 n.
Proof.
  intros Hc Hn Hm Ek. cbn in Hm. destruct (chans_dyn _ Hc) as [_ Hk].
  pose proof (ci_ptrs _ _ _ _ Hc) as Hp. rewrite map_app in Hp. apply NoDup_app in Hp as (_&_&Hp).
  destruct (removed_not _ n m Hp Hn Hm) as [Hin Hne]. by apply Hne, (key2_inj (D s)).
Qed.
Lemma dropped_no_key n s s' m : chans_ok s.1 -> n ∈ D s -> dropped n s s' -> m ∈ D s' -> key2 m <> key2 n.
Proof. intros Hc Hn [E _ _] Hm. rewrite E in Hm. by eapply removed_no_key. Qed.

(** Fewer channels in the data plane, and all that are left still in CM. *)
Lemma agree_less s s' :
  agree_in s -> g_transChannelCbk s'.1 = g_transChannelCbk s.1 -> (forall k, k ∈ below_keys s'.2 -> k ∈ below_keys s.2) ->
  (forall n k, n ∈ F s ++ D s -> k ∈ below_keys s'.2 -> k.1 = key2 n -> n ∈ F s' ++ D s') -> agree_in s'.
Proof.
  intros [Ha Hcb] Ecb Hsub Hin. split.
  - intros k Hk. destruct (Ha k (Hsub k Hk)) as (n&Hn&<-&Hon). exists n. split; [|done]. by eapply Hin.
  - intros E. rewrite Ecb in E. specialize (Hcb E). destruct (below_keys s'.2) as [|k ks]; [done|]. exfalso.
    pose proof (Hsub k ltac:(by left)) as Hk. rewrite Hcb in Hk. by apply not_elem_of_nil in Hk.
Qed.

Lemma dropped_agree n s s' : chans_ok s.1 -> n ∈ D s -> dropped n s s' -> agree_in s -> memory_suffices W -> agree_in s'.
Proof.
  intros Hc Hn [E _ Ht] Ha Hm. destruct (told_release _ _ _ _ Ht) as [Hsub Hgone]. specialize (Hgone Hm (proj2 Ha)).
  eapply agree_less; [exact Ha|by rewrite E|done|]. rewrite E. cbn. intros m k Hin Hk Ek.
  pose proof (ci_ptrs _ _ _ _ Hc) as Hp. rewrite map_app in Hp. apply NoDup_app in Hp as (_&_&Hp).
  apply elem_of_app in Hin as [Hin|Hin]; apply elem_of_app; [by left|]. destruct (removed_elem _ n m Hp Hn Hin) as [?| ->]; [by right|].
  exfalso. apply (Hgone (dyn_chan n) k); [by left|done|done].
Qed.

Lemma dropped_step n s s' : chans_ok s.1 -> n ∈ D s -> dropped n s s' -> in_step s -> memory_suffices W -> in_step s'.
Proof.
  intros Hc Hn Hd [Ha Hp] Hm. constructor; [by eapply dropped_agree|]. rewrite (dr_cm _ _ _ Hd). cbn.
  intros m Hin. apply Hp. eapply elem_of_sublist; [exact Hin|apply remove_first_sub].
Qed.

Lemma dropped_good n s s' : cm_good s -> n ∈ D s -> dropped n s s' -> cm_good s'.
Proof.
  intros [Hb Hc Ht] Hn Hd. constructor; [apply Hd|by eapply dropped_chans|]. unfold tcids_ok. rewrite (dr_cm _ _ _ Hd). cbn.
  eapply marked_sub; [apply remove_first_sub|done].
Qed.

(** ** Identifiers *)

(** Only the pools changed. *)
Definition repooled s s' : Prop :=
  exists Q, s' = (s.1 <| g_cmDynTransPoolListHead := Q |>, s.2) /\
    forall l, is_Some (find_first (pool_of l) (P s)) -> is_Some (find_first (pool_of l) Q).

Lemma repooled_base s s' : base_ok s -> repooled s s' -> base_ok s'.
Proof. intros Hb (Q&->&_). by destruct s as [c w]; apply (base_same c). Qed.
Lemma repooled_step s s' : in_step s -> repooled s s' -> in_step s'.
Proof. intros [Ha Hp] (Q&->&HQ). constructor; [done|]. intros n Hn. by apply HQ, Hp. Qed.
Lemma repooled_refl s : repooled s s.
Proof. exists (P s). split; [by destruct s as [[] w]|done]. Qed.
Lemma repooled_set s lcid used : repooled s (s.1 <| g_cmDynTransPoolListHead := set_used lcid used (P s) |>, s.2).
Proof. eexists. split; [done|]. intros l. rewrite find_set_used. case_match; [|done]. by rewrite fmap_is_Some. Qed.

Lemma wp_set_pool lcid used s (Q : unit -> state -> Prop) :
  Q tt (s.1 <| g_cmDynTransPoolListHead := set_used lcid used (P s) |>, s.2) -> wp (set_pool lcid used) s Q.
Proof. intros HQ. by apply wp_cupd. Qed.

Lemma same_pools s : (s.1 <| g_cmDynTransPoolListHead := P s |>, s.2) = s.
Proof. by destruct s as [[] w]. Qed.

Lemma pool_found s lcid pool : chans_ok s.1 -> find_first (pool_of lcid) (P s) = Some pool ->
  pool_ok pool /\ 0 <= lcid < 4096.
Proof.
  intros Hc Hf. apply find_first_Some in Hf as [Hin E%Z.eqb_eq]. pose proof (ci_pool _ _ _ _ Hc) as Hp. rewrite Forall_forall in Hp.
  destruct (Hp pool Hin). by subst lcid.
Qed.

Lemma wp_tcid_allocate lcid mode s (Q : Z -> state -> Prop) :
  cm_good s -> Q CM_TRANS_INVALID_TCID s ->
  (forall t pool s', repooled s s' -> cm_good s' -> CM_TCID_UC_BEGIN <= t <= CM_TCID_UC_END -> 0 <= lcid < 4096 ->
     (forall n, n ∈ D s -> key2 n <> (lcid, t)) ->
     find_first (pool_of lcid) (P s') = Some pool -> unicastTcidUsed pool !! Z.to_nat (t - CM_TCID_UC_BEGIN) = Some true -> Q t s') ->
  wp (CM_DynTcidAllocate lcid mode) s Q.
Proof.
  intros Hg H0 HS. pose proof Hg as [Hb Hc Ht]. unfold CM_DynTcidAllocate, CM_DynTransGetTcidPool. apply wp_bind, wp_cg.
  destruct (find_first (pool_of lcid) (P s)) as [pool|] eqn:Ef; [|by apply wp_ret]. destruct (mode =? _); [|by apply wp_ret].
  destruct (pool_found _ _ _ Hc Ef) as [[Hlen Hpl] Hlc]. pose proof (pool_loop _ Hlen) as Hloop. unfold CM_DynAllocateUnicastTcid.
  destruct (unicast_loop _ _ _ _ _) as [j|].
  - destruct Hloop as (Hj&Hfree&_). change CM_TCID_UC_BEGIN with 128 in *. change CM_TCID_UC_END with 223 in *. rewrite u8_small by cint.
    apply wp_bind, wp_set_pool, wp_ret. set (used := <[Z.to_nat j:=true]> (unicastTcidUsed pool)).
    assert (length used = Z.to_nat CM_DYN_UNICAST_TCID_SIZE_MAX) as Hu by (unfold used; by rewrite length_insert).
    assert (length (unicastTcidUsed pool) = 96%nat) as H96 by done.
    apply (HS _ (pool <| unicastTcidUsed := used |>)); [apply repooled_set| |lia|done| | |].
    + constructor; [eapply repooled_base; [done|apply repooled_set]|by apply chan_inv_pools|]. unfold tcids_ok; cbn. intros n q Hn Hf.
      rewrite find_set_used in Hf. destruct (Z.eqb_spec (tl_lcid n) lcid) as [e|e]; [|by apply Ht].
      rewrite e, Ef in Hf. injection Hf as <-. cbn. unfold used. pose proof (Ht n pool Hn ltac:(by rewrite e)) as Hm. change CM_TCID_UC_BEGIN with 128 in *.
      destruct (decide (Z.to_nat (tl_local n - 128) = Z.to_nat j)) as [-> |]; [apply list_lookup_insert_eq; lia|by rewrite list_lookup_insert_ne].
    + intros n Hn [= E1 E2]. pose proof (Ht n pool Hn ltac:(by rewrite E1)) as Hm. rewrite E2 in Hm.
      replace (j + 128 - CM_TCID_UC_BEGIN) with j in Hm by (change CM_TCID_UC_BEGIN with 128; lia). congruence.
    + cbn. rewrite find_set_used, Z.eqb_refl, Ef. done.
    + cbn. unfold used. replace (j + 128 - 128) with j by lia. apply list_lookup_insert_eq. lia.
  - apply wp_bind, wp_set_pool, wp_ret. rewrite (set_used_same _ _ _ Ef), same_pools. done.
Qed.

(** The identifier [t] of the link may be free after this. *)
Lemma wp_tcid_release lcid t mode s (Q : Z -> state -> Prop) :
  base_ok s -> chans_ok s.1 -> tcids_ok s.1 ->
  (forall r s', repooled s s' -> chans_ok s'.1 ->
     (forall D', (forall n, n ∈ D' -> n ∈ D s /\ key2 n <> (lcid, t)) -> marked D' (P s')) -> Q r s') ->
  wp (CM_DynTcidRelease lcid t mode) s Q.
Proof.
  intros Hb Hc Ht HS. unfold CM_DynTcidRelease, CM_DynTransGetTcidPool. apply wp_bind, wp_cg.
  assert (forall r, Q r s) as Hsame.
  { intros r. apply HS; [apply repooled_refl|done|]. intros D' HD n q Hn. apply Ht. by apply HD. }
  destruct (find_first (pool_of lcid) (P s)) as [pool|] eqn:Ef; [|by apply wp_ret]. destruct (mode =? _); [|by apply wp_ret].
  destruct (pool_found _ _ _ Hc Ef) as [[Hlen Hpl] Hlc]. unfold CM_DynReturnAllocatedUnicastTcid.
  assert (forall r, wp (set_pool lcid (unicastTcidUsed pool) ;;! st_ret r) s Q) as Hno.
  { intros r. apply wp_bind, wp_set_pool, wp_ret. rewrite (set_used_same _ _ _ Ef), same_pools. done. }
  destruct (((_ || _) || _)%bool) eqn:Er; [apply Hno|]. destruct (unicastTcidUsed pool !! _) as [[]|] eqn:El; [|apply Hno..].
  apply orb_false_iff in Er as [Er E3]. apply orb_false_iff in Er as [E1 E2]. change CM_TCID_UC_BEGIN with 128 in *. change CM_TCID_UC_END with 223 in *.
  apply wp_bind, wp_set_pool, wp_ret. apply HS; [apply repooled_set|apply chan_inv_pools; [by rewrite length_insert|done]|].
  intros D' HD n q Hn Hf. destruct (HD n Hn) as [Hin Hne]. cbn in Hf. rewrite find_set_used in Hf.
  destruct (Z.eqb_spec (tl_lcid n) lcid) as [e|e]; [|by apply Ht]. rewrite e, Ef in Hf. injection Hf as <-. cbn.
  pose proof (Ht n pool Hin ltac:(by rewrite e)) as Hm. change CM_TCID_UC_BEGIN with 128 in *. rewrite list_lookup_insert_ne; [done|]. intros Eq.
  apply Hne. unfold key2. rewrite e. f_equal. pose proof (ci_dyn _ _ _ _ Hc) as Hd. rewrite Forall_forall in Hd.
  destruct (Hd n Hin) as [[] _]. change CM_TCID_UC_BEGIN with 128 in *. lia.
Qed.

(** The identifier of a channel is given back. *)
Definition freed lcid t s s' : Prop := forall pool, find_first (pool_of lcid) (P s) = Some pool ->
  find_first (pool_of lcid) (P s') = Some (pool <| unicastTcidUsed := <[Z.to_nat (t - CM_TCID_UC_BEGIN) := false]> (unicastTcidUsed pool) |>).

Lemma wp_tcid_free lcid t s : chans_ok s.1 -> CM_TCID_UC_BEGIN <= t <= CM_TCID_UC_END ->
  (forall pool, find_first (pool_of lcid) (P s) = Some pool -> unicastTcidUsed pool !! Z.to_nat (t - CM_TCID_UC_BEGIN) = Some true) ->
  wp (CM_DynTcidRelease lcid t CM_ACCESS_TRANS_MODE_UNICAST) s (fun _ => freed lcid t s).
Proof.
  intros Hc Hu Ht. unfold CM_DynTcidRelease, CM_DynTransGetTcidPool. apply wp_bind, wp_cg.
  destruct (find_first (pool_of lcid) (P s)) as [pool|] eqn:Ef; [|apply wp_ret; intros pool Hp; congruence].
  change (CM_ACCESS_TRANS_MODE_UNICAST =? CM_ACCESS_TRANS_MODE_UNICAST) with true. cbv iota.
  destruct (pool_found _ _ _ Hc Ef) as [[Hlen _] _].
  unfold CM_DynReturnAllocatedUnicastTcid. rewrite Hlen. change (Z.of_nat (Z.to_nat CM_DYN_UNICAST_TCID_SIZE_MAX)) with 96.
  rewrite (proj2 (Z.ltb_ge t CM_TCID_UC_BEGIN)), (proj2 (Z.ltb_ge CM_TCID_UC_END t)) by apply Hu.
  rewrite (proj2 (Z.leb_gt 96 _)) by (unfold CM_TCID_UC_BEGIN, CM_TCID_UC_END in *; lia). cbn [orb].
  rewrite (Ht pool eq_refl). apply wp_bind, wp_set_pool, wp_ret. intros q Hq. cbn. rewrite find_set_used, Z.eqb_refl, Ef. cbn.
  rewrite Ef in Hq. by injection Hq as <-.
Qed.
End nodes.
