(* ===== verification/CmActivate.v ===== *)
(** * CM: activation of channels

    New channels, the activation of the fixed ones when a link is there and their release
    when it is gone, the activation of a dynamic channel, and changes of its state. *)
From S2P Require Import Prelude Utils SdfErrno SdfBuff SdfContainers CmData DtapEnv DtapTrans DtapChannel DtapProps DtapEvents DtapMachine CmState CmTcid CmChannel CmSignal CmCache CmDynTrans CmCap CmRecv CmPackets CmInv CmQuiet CmOps CmNodes.

Lemma chan_inv_add F D P next F' D' n next' :
  (F' = F /\ D' = D ++ [n] /\ dyn_ok n) \/ (F' = F ++ [n] /\ D' = D /\ fixed_ok n) ->
  next <= tl_ptr n < next' -> node_ok n -> key2 n ∉ map key2 (F ++ D) -> chan_inv F D P next -> chan_inv F' D' P next'.
Proof.
  intros Hcase Hp Hn Hk []. assert (n :: (F ++ D) ≡ₚ F' ++ D') as Hperm.
  { destruct Hcase as [(->&->&_)|(->&->&_)]; [rewrite app_assoc; by rewrite <- Permutation_cons_append|].
    rewrite <- app_assoc. apply Permutation_middle. }
  assert (Forall (fun m => tl_ptr m < next') (n :: F ++ D)) as Hfresh.
  { constructor; [lia|]. eapply Forall_impl; [exact ci_fresh|]. cbn. lia. }
  constructor; try done.
  - rewrite <- Hperm. cbn. apply NoDup_cons. split; [|done]. intros (m&E&Hm)%list_elem_of_fmap. rewrite Forall_forall in ci_fresh.
    specialize (ci_fresh m Hm). lia.
  - by rewrite <- Hperm.
  - rewrite <- Hperm. by constructor.
  - destruct Hcase as [(->&->&_)|(->&->&Hf)]; [done|]. apply Forall_app. split; [done|by constructor].
  - destruct Hcase as [(->&->&Hd)|(->&->&_)]; [|done]. apply Forall_app. split; [done|by constructor].
  - rewrite <- Hperm. cbn. by apply NoDup_cons.
Qed.

Section activate.
Context {W : Type} {HW : World W} {HB : Below W} {HBO : BelowOk W}.
Notation M := (ST (Cm * W)).
Notation state := (Cm * W)%type.
Implicit Types (s : state) (c : Cm) (w : W) (n : SleTransLcid).
Notation ACTIVATED := CM_TRANS_CHANNEL_STATE_ACTIVATED.
Notation RELEASED := CM_TRANS_CHANNEL_STATE_RELEASED.
Notation F s := (g_fixedTransListHead s.1).
Notation D s := (g_dynTransListHead s.1).
Notation P s := (g_cmDynTransPoolListHead s.1).

(** ** New channels *)
Record fresh_node lcid params local remote st s s1 n : Prop := {
  fn_quiet : undisturbed s s1;
  fn_ptr : c_next s.1 <= tl_ptr n < c_next s1.1;
  fn_lcid : tl_lcid n = lcid;
  fn_local : tl_local n = u8 local;
  fn_remote : tl_remote n = u8 remote;
  fn_state : tl_state n = st;
  fn_params : tl_params n = params
}.

Lemma wp_alloc_channel lcid params local remote st s (Q : option Z -> state -> Prop) :
  base_ok s -> (forall s', undisturbed s s' -> Q None s') ->
  (forall s1 n, fresh_node lcid params local remote st s s1 n ->
     Q (Some (tl_ptr n)) (if CM_TRANS_CHANNEL_IS_FIXED local then s1.1 <| g_fixedTransListHead ::= fun l => l ++ [n] |>
                          else s1.1 <| g_dynTransListHead ::= fun l => l ++ [n] |>, s1.2)) ->
  wp (CM_AllocTransChannel lcid params local remote st) s Q.
Proof.
  intros Hs HN HS. unfold CM_AllocTransChannel. apply wp_bind, wp_cm_link_find; [intros _; by apply wp_ret, HN, undisturbed_refl|].
  intros link [Hl _]%find_first_Some. apply wp_bind, wp_get_link; [done|done|]. unfold CM_AllocTransChannelNode.
  apply wp_bind, wp_bind, wp_cm_new_node; [done| |]. { intros w' Hb Hk _. apply wp_ret, wp_ret, HN. by constructor. }
  intros w' p Hb Hk. assert (undisturbed s (bump s.1 (p + 1), w')) as Hu by (constructor; [done|done|cbn; lia|done]).
  assert (forall s1, undisturbed s s1 -> c_next s1.1 = p + 1 ->
    wp (let node := mk_lcid p lcid (sl_rmtAddr link) 0 params (u8 local) (u8 remote) <| tl_state := st |> in
       (if CM_TRANS_CHANNEL_IS_FIXED local then cupd (fun c => c <| g_fixedTransListHead ::= fun l => l ++ [node] |>)
        else cupd (fun c => c <| g_dynTransListHead ::= fun l => l ++ [node] |>)) ;;! st_ret (Some (tl_ptr node))) s1 Q) as Hend.
  { intros s1 U1 N1. apply wp_bind. specialize (HS s1 (mk_lcid p lcid (sl_rmtAddr link) st params (u8 local) (u8 remote))).
    destruct (CM_TRANS_CHANNEL_IS_FIXED local); apply wp_cupd, wp_ret, HS; constructor; try done; cbn; rewrite N1; unfold p; lia. }
  destruct params as [params|]; [|by apply wp_ret, Hend]. apply wp_bind, wp_alloc_aside; [apply Hu|].
  intros ok s1 (E&Hb1&Hk1) _. assert (undisturbed s s1) as U1.
  { eapply undisturbed_trans; [exact Hu|]. constructor; rewrite ?E; done. }
  destruct ok; cbn [negb]; apply wp_ret; [|by apply wp_ret, HN]. apply Hend; [done|by rewrite E].
Qed.

(** ** A dynamic channel *)
Lemma key_not_in (l : list SleTransLcid) n : (forall m, m ∈ l -> key2 m <> key2 n) -> key2 n ∉ map key2 l.
Proof. intros Hd (m&E&Hm)%list_elem_of_fmap. by apply (Hd m Hm). Qed.

Lemma fixed_not_dyn s n k : chans_ok s.1 -> n ∈ F s -> CM_TCID_UC_BEGIN <= k.2 -> key2 n <> k.
Proof.
  intros Hc Hn Hk E. pose proof (ci_fixed _ _ _ _ Hc) as Hf. rewrite Forall_forall in Hf. destruct (Hf n Hn) as [Hl _].
  rewrite <- E in Hk. cbn in Hk. unfold g_TransFixedChannels in Hl. repeat (apply elem_of_cons in Hl as [Hl|Hl]; [rewrite Hl in Hk; done|]).
  by apply not_elem_of_nil in Hl.
Qed.

(** The data plane was told of the activation of [l], which CM has. *)
Lemma told_agree s s' (l : list SleTransLcid) (v : list (option CM_TransChan)) :
  agree_in s -> told (g_transChannelCbk s.1) ACTIVATED v (below_keys s.2) (below_keys s'.2) ->
  (forall ch, Some ch ∈ v -> exists n, n ∈ l /\ param_key ch = node_key n) ->
  g_transChannelCbk s'.1 = g_transChannelCbk s.1 ->
  (forall n, n ∈ l -> n ∈ F s' ++ D s' /\ is_on n) -> (forall n, n ∈ F s ++ D s -> n ∈ F s' ++ D s') -> agree_in s'.
Proof.
  intros [Ha Hcb] Ht Hv Ecb Hl Hsub. assert (forall k, k ∈ below_keys s.2 -> exists n, n ∈ F s' ++ D s' /\ node_key n = k /\ is_on n) as Hold.
  { intros k Hk. destruct (Ha k Hk) as (n&Hn&?&?). exists n. split; [by apply Hsub|done]. }
  destruct Ht as [[Ek _]|[Et [Hr _]]]; (split; [|rewrite Ecb]).
  - by rewrite Ek.
  - by rewrite Ek.
  - intros k Hk. destruct (Hr eq_refl k Hk) as [?|(ch&Hch&->)]; [by apply Hold|]. destruct (Hv ch Hch) as (n&Hn&->).
    destruct (Hl n Hn). by exists n.
  - by rewrite Et.
Qed.

Lemma wp_activate_dyn lcid param s (Q : option Z -> state -> Prop) pool :
  cm_good s -> agree_in s -> 0 <= lcid < 4096 -> CM_TCID_UC_BEGIN <= dp_localTcid param <= CM_TCID_UC_END ->
  conf_ok (dp_transModeConfig param) -> dp_state param = ACTIVATED \/ dp_state param = CM_TRANS_CHANNEL_STATE_ACTIVATING ->
  (forall n, n ∈ D s -> key2 n <> (lcid, dp_localTcid param)) ->
  find_first (pool_of lcid) (P s) = Some pool -> unicastTcidUsed pool !! Z.to_nat (dp_localTcid param - CM_TCID_UC_BEGIN) = Some true ->
  (forall s', undisturbed s s' -> Q None s') ->
  (forall s' n, cm_good s' -> agree_in s' -> g_fixedTransListHead s'.1 = F s -> g_dynTransListHead s'.1 = D s ++ [n] ->
     g_cmDynTransPoolListHead s'.1 = P s -> key2 n = (lcid, dp_localTcid param) -> Q (Some (tl_ptr n)) s') ->
  wp (CM_ActivateDynamicTransChannel lcid param) s Q.
Proof.
  intros Hg Ha Hlc Hlo Hcf Hst Hno Hpf Hpm HN HS. pose proof Hg as [Hb Hc Ht]. unfold CM_ActivateDynamicTransChannel.
  change CM_TCID_UC_BEGIN with 128 in *. change CM_TCID_UC_END with 223 in *.
  destruct (Z.eqb_spec (dp_localTcid param) CM_TRANS_INVALID_TCID) as [e|_]; [unfold CM_TRANS_INVALID_TCID in e; lia|].
  apply wp_bind, wp_alloc_channel; [done|by intros s' Hu; apply wp_ret, HN|]. intros s1 n [Hu Hp El Elo Er Est Epa].
  assert (CM_TRANS_CHANNEL_IS_FIXED (dp_localTcid param) = false) as ->.
  { apply andb_false_iff. right. apply Z.leb_gt. change CM_TCID_SLE_CUTC with 31. lia. }
  rewrite u8_small in Elo by cint. pose proof (good_undisturbed _ _ Hg Hu) as [Hb1 Hc1 Ht1]. pose proof (agree_undisturbed _ _ Ha Hu) as Ha1.
  pose proof (ud_part _ _ Hu) as Ep. unfold chan_part in Ep. injection Ep as E1 E2 E3 E4.
  assert (key2 n = (lcid, dp_localTcid param)) as Ek by (unfold key2; by rewrite El, Elo).
  assert (node_ok n) as Hn. { constructor; [by rewrite El|rewrite Elo; cint|]. unfold channel_config. by rewrite Epa. }
  set (s2 := (s1.1 <| g_dynTransListHead ::= fun l => l ++ [n] |>, s1.2)).
  assert (forall m, m ∈ F s ++ D s -> key2 m <> key2 n) as Hfr.
  { intros m [Hm|Hm]%elem_of_app; rewrite Ek; [|by apply Hno]. apply (fixed_not_dyn s); [done|done|]. cbn. change CM_TCID_UC_BEGIN with 128. lia. }
  assert (cm_good s2) as Hg2.
  { constructor.
    - destruct s1 as [c1 w1]. by apply (base_same c1).
    - unfold chans_ok, s2; cbn. rewrite E3. eapply (chan_inv_add (F s) (D s)); [left; split_and!; [exact E1|by rewrite E2|]|exact Hp|done| |exact Hc].
      + unfold dyn_ok. rewrite Elo, Est. change CM_TCID_UC_BEGIN with 128. change CM_TCID_UC_END with 223. split; [lia|]. unfold live. tauto.
      + by apply key_not_in.
    - unfold tcids_ok, s2; cbn. rewrite E2, E3. intros m q [Hm|Hm%list_elem_of_singleton]%elem_of_app Hq; [by apply Ht|].
      subst m. rewrite El, Hpf in Hq. injection Hq as <-. rewrite Elo. by change CM_TCID_UC_BEGIN with 128. }
  assert (agree_in s2) as Ha2.
  { destruct Ha1 as [Ha1 Hcb1]. split; [|done]. intros k Hk. destruct (Ha1 k Hk) as (m&Hm&?). exists m. split; [|done]. cbn. rewrite app_assoc.
    apply elem_of_app. by left. }
  assert (n ∈ D s2) as HnD by (apply elem_of_app; right; by left).
  apply wp_bind. destruct (Z.eqb_spec (dp_state param) ACTIVATED) as [e|e].
  - rewrite e. apply wp_dyn_report; [apply Hg2|apply Hg2|by apply dyn_in_nodes|by left| |].
    + intros _ k Hk. destruct (proj1 Ha1 k Hk) as (m&Hm&<-&_). rewrite E1, E2 in Hm. by apply Hfr.
    + intros s3 E Hb3 Ht3. apply wp_ret. apply HS; rewrite ?E; cbn; rewrite ?E1, ?E2, ?E3; try done.
      * constructor; [done|unfold chans_ok|unfold tcids_ok]; rewrite E; apply Hg2.
      * eapply (told_agree s2 s3 [n]); [done|exact Ht3| |by rewrite E| |by rewrite E].
        -- intros ch ->%list_elem_of_singleton%(inj Some). exists n. split; [by left|done].
        -- intros m ->%list_elem_of_singleton. rewrite E. split; [by apply dyn_in_nodes|]. left. by rewrite Est.
  - apply wp_ret, wp_ret. apply HS; cbn; rewrite ?E1, ?E2, ?E3; done.
Qed.

(** ** Changes of a channel's state *)
Definition set_dyn n f (c : Cm) : Cm := c <| g_dynTransListHead ::= update_first (node_at (tl_ptr n)) f |>.

Lemma dyn_not_fixed s n : chans_ok s.1 -> n ∈ D s -> Forall (fun m => tl_ptr m <> tl_ptr n) (F s).
Proof.
  intros Hc Hn. pose proof (ci_ptrs _ _ _ _ Hc) as Hp. rewrite map_app in Hp. apply NoDup_app in Hp as (_&Hd&_).
  apply Forall_forall. intros m Hm E. apply (Hd (tl_ptr m)); [apply list_elem_of_fmap; by exists m|]. rewrite E. apply list_elem_of_fmap. by exists n.
Qed.

Lemma updated_elem (l : list SleTransLcid) n f m :
  NoDup (map tl_ptr l) -> n ∈ l -> (m ∈ l -> m <> n -> m ∈ update_first (node_at (tl_ptr n)) f l) /\ f n ∈ update_first (node_at (tl_ptr n)) f l.
Proof.
  intros Hn Hin. pose proof (find_first_key tl_ptr l n Hn Hin) as Hf.
  apply find_first_split in Hf as (l1&l2&->&H1&H2). unfold node_at. rewrite (update_first_split _ f l1 n l2 H1 H2). split.
  - intros [?|Hm]%elem_of_app Hne; apply elem_of_app; [by left|]. apply elem_of_cons in Hm as [?|?]; [done|]. right. by right.
  - apply elem_of_app. right. by left.
Qed.

(** An update that keeps the channel's key and leaves it on. *)
Lemma wp_set_node n f s (Q : unit -> state -> Prop) :
  cm_good s -> n ∈ D s -> keeps f ->
  (forall s', s' = (set_dyn n f s.1, s.2) -> cm_good s' -> f n ∈ D s' -> (is_on (f n) -> agree_in s -> agree_in s') -> Q tt s') ->
  wp (set_node (tl_ptr n) f) s Q.
Proof.
  intros Hg Hn Hf HQ. pose proof Hg as [Hb Hc Ht]. pose proof (dyn_not_fixed s n Hc Hn) as HF.
  pose proof (ci_ptrs _ _ _ _ Hc) as Hp. rewrite map_app in Hp. apply NoDup_app in Hp as (_&_&Hp).
  unfold set_node. apply wp_bind, wp_get_node; [apply Hc|by apply dyn_in_nodes|]. apply wp_cupd.
  assert ((s.1 <| g_fixedTransListHead ::= update_first (node_at (tl_ptr n)) f |> <| g_dynTransListHead ::= update_first (node_at (tl_ptr n)) f |>)
    = set_dyn n f s.1) as E.
  { unfold set_dyn. destruct s as [[] w]; unfold modify; cbn in *. f_equal. apply update_first_skip. eapply Forall_impl; [exact HF|].
    intros m Hm. by apply Z.eqb_neq. }
  rewrite E. destruct (updated_elem (D s) n f n Hp Hn) as [_ Hin]. apply HQ; [done| |done|].
  - constructor; [destruct s as [c w]; by apply (base_same c)| |].
    + by apply chan_inv_update.
    + by apply marked_update.
  - intros Hon [Ha Hcb]. split; [|done]. intros k Hk. destruct (Ha k Hk) as (m&Hm&Ek&Hmon).
    destruct (decide (tl_ptr m = tl_ptr n)) as [e|e].
    + assert (m = n) as ->.
      { pose proof (ci_ptrs _ _ _ _ Hc) as Hp2. pose proof (find_first_key tl_ptr _ m Hp2 Hm) as H1.
        pose proof (find_first_key tl_ptr _ n Hp2 (dyn_in_nodes _ _ Hn)) as H2. rewrite e in H1. unfold nodes in H2. congruence. }
      exists (f n). split; [apply elem_of_app; by right|]. split; [|done]. rewrite <- Ek. by apply keeps_key.
    + exists m. split; [|done]. apply elem_of_app in Hm as [Hm|Hm]; apply elem_of_app; [by left|right]. cbn.
      apply updated_elem; [done|done|done|]. intros ->. done.
Qed.

(** ** The fixed channels *)
Lemma wp_free_nodes l s (Q : unit -> state -> Prop) :
  cm_good s -> NoDup l -> (forall n, n ∈ l -> n ∈ F s) ->
  (forall s' F', s' = (s.1 <| g_fixedTransListHead := F' |>, s.2) -> F' `sublist_of` F s -> (forall m, m ∈ F' <-> m ∈ F s /\ m ∉ l) -> Q tt s') ->
  wp (destroy_nodes (map Some (map tl_ptr l)) true) s Q.
Proof.
  revert s Q. induction l as [|n l IH]; intros s Q Hg Hn Hin HQ; cbn [map destroy_nodes].
  { apply wp_ret. apply (HQ s (F s)); [by destruct s as [[] w]|done|]. intros m. split; [|by intros []]. intros Hm. split; [done|apply not_elem_of_nil]. }
  apply NoDup_cons in Hn as [Hnl Hn]. pose proof Hg as [Hb Hc Ht]. pose proof (ci_ptrs _ _ _ _ Hc) as Hp. rewrite map_app in Hp.
  apply NoDup_app in Hp as (Hp&_&_). pose proof (Hin n ltac:(by left)) as HnF.
  unfold CM_TransChannelDestroyOneNode. apply wp_bind, wp_bind, wp_get_node; [apply Hc|apply elem_of_app; by left|]. apply wp_cupd.
  set (s1 := (s.1 <| g_fixedTransListHead ::= remove_first (node_at (tl_ptr n)) |>, s.2)).
  assert (cm_good s1) as Hg1.
  { constructor; [destruct s as [c w]; by apply (base_same c)| |done]. unfold chans_ok; cbn.
    eapply chan_inv_sub; [apply remove_first_sub|done|done]. }
  apply (IH s1); [done|done| |].
  - intros m Hm. cbn. destruct (removed_elem (F s) n m Hp HnF (Hin m ltac:(by right))) as [?| ->]; [done|by destruct Hnl].
  - intros s' F' -> Hsub Hiff. apply (HQ _ F'); [done|etrans; [exact Hsub|apply remove_first_sub]|]. intros m. rewrite Hiff. cbn. split.
    + intros [Hm Hml]. destruct (removed_not (F s) n m Hp HnF Hm). split; [done|]. by intros [?|?]%elem_of_cons.
    + intros [Hm Hml]. apply not_elem_of_cons in Hml as [Hmn Hml]. split; [|done]. by destruct (removed_elem (F s) n m Hp HnF Hm).
Qed.

Lemma wp_release_fixed lcid s (Q : unit -> state -> Prop) :
  cm_good s ->
  (forall s', cm_good s' -> g_dynTransListHead s'.1 = D s -> g_cmDynTransPoolListHead s'.1 = P s ->
     (forall n, n ∈ F s' -> n ∈ F s) -> (forall n, n ∈ F s -> tl_lcid n <> lcid -> n ∈ F s') ->
     (forall k, k ∈ below_keys s'.2 -> k ∈ below_keys s.2) ->
     (agree_in s -> memory_suffices W \/ (forall n k, n ∈ of_link lcid (F s) -> k ∈ below_keys s.2 -> k.1 <> key2 n) -> agree_in s') -> Q tt s') ->
  wp (CM_ReleaseFixedTransChannel lcid) s Q.
Proof.
  intros Hg HQ. pose proof Hg as [Hb Hc Ht]. assert (forall s', undisturbed s s' -> Q tt s') as Hu.
  { intros s' U. pose proof (ud_part _ _ U) as E. unfold chan_part in E. injection E as E1 E2 E3 E4.
    apply HQ; rewrite ?E1, ?E2, ?E3, ?(ud_keys _ _ U); try done; [by eapply good_undisturbed|]. intros Ha _. by eapply agree_undisturbed. }
  assert (forall s', aside s s' -> undisturbed s s') as Has by (intros s' (E&?&?); constructor; rewrite ?E; done).
  unfold CM_ReleaseFixedTransChannel. apply wp_bind, wp_create_vector; [done|by intros s' A _; apply wp_ret, Hu, Has|].
  intros v s1 A1 Hv Lv _. pose proof (length_vlist v (proj1 Hv)) as Hz. rewrite Lv in Hz. cbn in Hz. destruct (chans_fixed _ Hc) as [HnF HkF].
  unfold CM_FindFixedTransChannelByLcid. apply wp_bind, wp_bind, wp_cg. rewrite (proj1 A1).
  apply wp_bind, wp_push_nodes; [apply A1|done|pose proof (of_link_short lcid _ HnF HkF); lia|].
  intros v2 s2 l A2 Hv2 Hsub Hm Lv2. pose proof (aside_trans _ _ _ A1 A2) as A12. apply wp_ret.
  assert (wp (CM_FixedTransChannelFreeListNode lcid v2) s2 Q) as Hmain.
  2: { cbv beta iota. destruct (vsize v2 =? 0); cbn; [by apply wp_ret, Hu, Has|done]. }
  rewrite Lv, app_nil_l in Lv2. pose proof (good_undisturbed _ _ Hg (Has _ A12)) as Hg2. destruct A12 as (E&Hb2&Ek2).
  unfold CM_FixedTransChannelFreeListNode. apply wp_bind, wp_fixed_report; [done|apply Hg2|by right|done|].
  rewrite E, Ek2. intros a s3 l3 E3 Hb3 Hs3 Hm3 Ht3. destruct (told_release _ _ _ _ Ht3) as [Hless Hgone].
  unfold CM_TransChannelDestroyListNode. rewrite Lv2.
  assert (cm_good s3) as Hg3 by (constructor; [done|unfold chans_ok|unfold tcids_ok]; rewrite E3; apply Hg).
  apply wp_free_nodes; [done| | |].
  - eapply NoDup_sub; [exact Hsub|]. eapply NoDup_sub; [apply of_link_sub|]. by eapply NoDup_fmap_1.
  - intros n Hn. rewrite E3. eapply elem_of_sublist in Hn; [|exact Hsub]. by apply of_link_elem in Hn as [].
  - rewrite E3. intros s4 F' -> Hs4 Hiff.
    assert (forall n, n ∈ l -> tl_lcid n = lcid) as Hll by (intros n Hn; eapply elem_of_sublist in Hn; [|exact Hsub]; by apply of_link_elem in Hn as []).
    apply HQ; cbn; try (by rewrite E3); try done.
    + constructor; [destruct s3 as [c3 w3]; cbn in *; subst c3; by apply (base_same s.1)| |]; [unfold chans_ok|unfold tcids_ok]; cbn; [|apply Ht].
      eapply chan_inv_sub; [exact Hs4|done|done].
    + intros n Hn. by apply Hiff.
    + intros n Hn Hne. apply Hiff. split; [done|]. intros Hin. by apply Hne, Hll.
    + intros Ha Hcase. eapply agree_less; [exact Ha|done|done|]. cbn. intros n k Hn Hk Ek.
      apply elem_of_app in Hn as [Hn|Hn]; apply elem_of_app; [left|by right]. apply Hiff. split; [done|]. intros Hin.
      eapply elem_of_sublist in Hin; [|exact Hsub]. destruct Hcase as [Hmem|Hfree]; [|by apply (Hfree n k Hin (Hless k Hk))].
      apply (Hgone Hmem (proj2 Ha) (fixed_chan n) k); [|done|done]. apply list_elem_of_fmap. eexists; split; [done|].
      apply list_elem_of_fmap. eexists; split; [done|]. by rewrite (Hm3 Hmem).
Qed.

(** No channel that the data plane has is one of the link's fixed ones. *)
Definition unreported lcid s : Prop := forall n k, n ∈ of_link lcid (F s) -> k ∈ below_keys s.2 -> k.1 <> key2 n.

Lemma unreported_undisturbed lcid s s' : unreported lcid s -> undisturbed s s' -> unreported lcid s'.
Proof. intros Hr Hu. pose proof (ud_part _ _ Hu) as E. unfold chan_part in E. injection E as E1 _ _ _. unfold unreported. by rewrite E1, (ud_keys _ _ Hu). Qed.

(** The dynamic channels and the identifiers are what they were. *)
Record fixed_only s s' : Prop := {
  fo_good : cm_good s';
  fo_agree : agree_in s';
  fo_dyn : D s' = D s;
  fo_pools : P s' = P s
}.

Lemma wp_activate_loop lcid tcids s (Q : Z -> state -> Prop) :
  cm_good s -> agree_in s -> unreported lcid s -> 0 <= lcid < 4096 -> NoDup tcids ->
  (forall t, t ∈ tcids -> t ∈ g_TransFixedChannels /\ forall n, n ∈ of_link lcid (F s) -> tl_local n <> t) ->
  (forall a s', fixed_only s s' -> Q a s') -> wp (activate_fixed lcid None tcids) s Q.
Proof.
  revert s Q. induction tcids as [|t tcids IH]; intros s Q Hg Ha Hr Hlc Hnd Ht HQ; cbn [activate_fixed].
  - apply wp_bind, wp_fixed_report; [apply Hg|apply Hg|by left|intros _; exact Hr|].
    intros a s' l E Hb Hsub Hm Htold. apply wp_ret, HQ. constructor; try (by rewrite E).
    + constructor; [done|unfold chans_ok|unfold tcids_ok]; rewrite E; apply Hg.
    + eapply (told_agree s s' l); [done|exact Htold| |by rewrite E| |by rewrite E].
      * intros ch (ch'&[= ->]&Hch)%list_elem_of_fmap. apply list_elem_of_fmap in Hch as (n&->&Hn). by exists n.
      * intros n Hn. eapply elem_of_sublist in Hn; [|exact Hsub]. apply of_link_elem in Hn as [_ Hn]. rewrite E.
        split; [apply elem_of_app; by left|]. left. pose proof (ci_fixed _ _ _ _ (cg_chans _ Hg)) as Hf. rewrite Forall_forall in Hf. by apply Hf.
  - destruct (Ht t ltac:(by left)) as [Htf Htn]. apply NoDup_cons in Hnd as [Hnt Hnd].
    apply wp_bind, wp_alloc_channel; [apply Hg| |].
    + intros s' Hu. apply wp_bind. pose proof (good_undisturbed _ _ Hg Hu) as Hg'. pose proof (agree_undisturbed _ _ Ha Hu) as Ha'.
      pose proof (ud_part _ _ Hu) as E. unfold chan_part in E. injection E as E1 E2 E3 E4.
      apply wp_release_fixed; [done|]. intros s2 Hg2 E2' E3' _ _ _ Hag. apply wp_ret, HQ. constructor; [done| |congruence|congruence].
      apply Hag; [done|]. right. intros n k Hn Hk. by apply (unreported_undisturbed lcid s s' Hr Hu).
    + intros s1 n [Hu Hp El Elo Er Est Epa]. pose proof (good_undisturbed _ _ Hg Hu) as [Hb1 Hc1 Ht1]. pose proof (agree_undisturbed _ _ Ha Hu) as Ha1.
      assert (CM_TRANS_CHANNEL_IS_FIXED t = true /\ is_u8 t /\ t < CM_TCID_UC_BEGIN) as (->&Hu8&Hlow).
      { clear -Htf. unfold g_TransFixedChannels in Htf. repeat (apply elem_of_cons in Htf as [->|Htf]; [by repeat split|]). by apply not_elem_of_nil in Htf. }
      rewrite u8_small in Elo by done. pose proof (ud_part _ _ Hu) as E. unfold chan_part in E. injection E as E1 E2 E3 E4.
      assert (key2 n = (lcid, t)) as Ek by (unfold key2; by rewrite El, Elo).
      set (s2 := (s1.1 <| g_fixedTransListHead ::= fun l => l ++ [n] |>, s1.2)).
      assert (forall m, m ∈ F s ++ D s -> key2 m <> key2 n) as Hfr.
      { intros m Hm Em. rewrite Ek in Em. injection Em as Em1 Em2. apply elem_of_app in Hm as [Hm|Hm].
        - apply (Htn m); [by apply of_link_elem|done].
        - pose proof (ci_dyn _ _ _ _ (cg_chans _ Hg)) as Hd. rewrite Forall_forall in Hd. destruct (Hd m Hm) as [[] _]. lia. }
      assert (cm_good s2) as Hg2.
      { constructor; [destruct s1 as [c1 w1]; by apply (base_same c1)| |done]. unfold chans_ok, s2; cbn. rewrite E3.
        eapply (chan_inv_add (F s) (D s)); [right; split_and!; [by rewrite E1|exact E2|]|exact Hp| |by apply key_not_in|apply Hg].
        - split; [by rewrite Elo|done].
        - constructor; [by rewrite El|by rewrite Elo|]. unfold channel_config. rewrite Epa. constructor; cbn; (cint || done). }
      apply (IH s2); [done| | |done|done| |].
      * destruct Ha1 as [Ha1 Hcb1]. split; [|done]. intros k Hk. destruct (Ha1 k Hk) as (m&Hm&?). exists m. split; [|done]. cbn.
        apply elem_of_app in Hm as [Hm|Hm]; apply elem_of_app; [left; apply elem_of_app; by left|by right].
      * intros m k Hm Hk. apply of_link_elem in Hm as [Hml Hm]. cbn in Hm, Hk. rewrite E1 in Hm. rewrite (ud_keys _ _ Hu) in Hk.
        apply elem_of_app in Hm as [Hm|Hm%list_elem_of_singleton].
        -- apply Hr; [by apply of_link_elem|done].
        -- subst m. destruct (proj1 Ha k Hk) as (m&Hm&<-&_). by apply Hfr.
      * intros t' Ht'. split; [apply Ht; by right|]. intros m Hm. apply of_link_elem in Hm as [Hml Hm]. cbn in Hm. rewrite E1 in Hm.
        apply elem_of_app in Hm as [Hm|Hm%list_elem_of_singleton]; [apply (Ht t'); [by right|by apply of_link_elem]|].
        subst m. rewrite Elo. intros ->. done.
      * intros a s' [? ? Ed Ep]. apply HQ. constructor; [done|done|..]; cbn in *; congruence.
Qed.

Lemma wp_activate_fixed lcid s (Q : Z -> state -> Prop) :
  cm_good s -> agree_in s -> 0 <= lcid < 4096 -> (forall a s', fixed_only s s' -> Q a s') ->
  wp (CM_ActivateFixedTransChannel lcid None) s Q.
Proof.
  intros Hg Ha Hlc HQ. unfold CM_ActivateFixedTransChannel, CM_IsExistFixedTransChannelByLcid. apply wp_bind, wp_cg.
  destruct (existsb _ _) eqn:Ee. { apply wp_ret, HQ. by constructor. }
  assert (of_link lcid (F s) = []) as Eo.
  { destruct (of_link lcid (F s)) as [|n l] eqn:El; [done|]. exfalso.
    assert (n ∈ of_link lcid (F s)) as Hn by (rewrite El; by left). apply of_link_elem in Hn as [Hnl Hn].
    assert (existsb (of_lcid lcid) (F s) = true) as Ht; [|congruence]. apply existsb_exists. exists n.
    split; [by apply list_elem_of_In|]. unfold of_lcid. by apply Z.eqb_eq. }
  apply wp_activate_loop; [done|done| |done| | |done].
  - intros n k Hn. rewrite Eo in Hn. by apply not_elem_of_nil in Hn.
  - repeat constructor; rewrite ?not_elem_of_cons; split_and?; try done; apply not_elem_of_nil.
  - intros t Htf. split; [done|]. intros n Hn. rewrite Eo in Hn. by apply not_elem_of_nil in Hn.
Qed.
End activate.
