(* ===== verification/CmHandlers.v ===== *)
(** * CM: the handlers of a channel's events

    Every handler of the table, in every state: no undefined behaviour, the invariant
    again, and the agreement with the data plane unless memory ran out. *)
From S2P Require Import Prelude Utils SdfErrno SdfBuff SdfContainers CmData DtapEnv DtapTrans DtapChannel DtapProps DtapEvents DtapMachine CmState CmTcid CmChannel CmSignal CmCache CmDynTrans CmCap CmRecv CmPackets CmInv CmQuiet CmOps CmNodes CmActivate.

Lemma dynamic_not_fixed t : CM_TRANS_CHANNEL_IS_DYNAMIC t = true -> CM_TRANS_CHANNEL_IS_FIXED t = false.
Proof.
  unfold CM_TRANS_CHANNEL_IS_DYNAMIC. intros [H%Z.leb_le _]%andb_true_iff. apply andb_false_iff. right. apply Z.leb_gt.
  change CM_TCID_BC_BEGIN with 32 in H. change CM_TCID_SLE_CUTC with 31. lia.
Qed.

Section handlers.
Context {W : Type} {HW : World W} {HB : Below W} {HBO : BelowOk W}.
Notation M := (ST (Cm * W)).
Notation state := (Cm * W)%type.
Implicit Types (s : state) (c : Cm) (w : W) (n : SleTransLcid).
Notation ACTIVATED := CM_TRANS_CHANNEL_STATE_ACTIVATED.
Notation F s := (g_fixedTransListHead s.1).
Notation D s := (g_dynTransListHead s.1).
Notation P s := (g_cmDynTransPoolListHead s.1).

Definition good s : Prop := cm_good s /\ in_step s.

Lemma good_settled s : good s -> settled s.
Proof. intros []. by split. Qed.
Lemma good_quiet s s' : good s -> undisturbed s s' -> good s'.
Proof. intros [Hg Hi] Hu. split; [by eapply good_undisturbed|by eapply step_undisturbed]. Qed.
Lemma settled_quiet s s' : settled s -> undisturbed s s' -> settled s'.
Proof. intros [Hg Hi] Hu. split; [by eapply good_undisturbed|]. intros Hm. eapply step_undisturbed; [by apply Hi|done]. Qed.

Lemma wp_quiet {A} (m : M A) s (Q : A -> state -> Prop) :
  quiet m -> base_ok s -> (forall a s', undisturbed s s' -> Q a s') -> wp m s Q.
Proof. intros Hm Hs HQ. eapply wp_mono; [by apply Hm|]. intros a s'. apply HQ. Qed.

(** ** Searches and callbacks *)
Lemma wp_find_local lcid t s (Q : option Z -> state -> Prop) :
  CM_TRANS_CHANNEL_IS_FIXED t = false -> Q None s -> (forall n, n ∈ D s -> key2 n = (lcid, t) -> Q (Some (tl_ptr n)) s) ->
  wp (CM_FindTransChannelByLocalTcid lcid t) s Q.
Proof.
  intros Hf HN HS. unfold CM_FindTransChannelByLocalTcid. rewrite Hf. apply wp_cg. destruct (find_first _ _) as [n|] eqn:E; cbn; [|done].
  apply find_first_Some in E as [Hn [E1 E2]%andb_true_iff]. apply Z.eqb_eq in E1, E2. apply HS; [done|]. unfold key2. congruence.
Qed.
Lemma wp_find_remote lcid t s (Q : option Z -> state -> Prop) :
  CM_TRANS_CHANNEL_IS_FIXED t = false -> Q None s -> (forall n, n ∈ D s -> tl_lcid n = lcid -> Q (Some (tl_ptr n)) s) ->
  wp (CM_FindTransChannelByRemoteTcid lcid t) s Q.
Proof.
  intros Hf HN HS. unfold CM_FindTransChannelByRemoteTcid. rewrite Hf. apply wp_cg. destruct (find_first _ _) as [n|] eqn:E; cbn; [|done].
  apply find_first_Some in E as [Hn [E1 E2]%andb_true_iff]. apply Z.eqb_eq in E1. by apply HS.
Qed.

Lemma dyn_keys_inj s n m : chans_ok s.1 -> n ∈ D s -> m ∈ D s -> key2 n = key2 m -> n = m.
Proof. intros Hc. destruct (chans_dyn _ Hc) as [_ Hk]. by apply key2_inj. Qed.

(** A channel is found under its key. *)
Lemma wp_find_exact n lcid t s (Q : option Z -> state -> Prop) :
  chans_ok s.1 -> CM_TRANS_CHANNEL_IS_FIXED t = false -> n ∈ D s -> key2 n = (lcid, t) -> Q (Some (tl_ptr n)) s ->
  wp (CM_FindTransChannelByLocalTcid lcid t) s Q.
Proof.
  intros Hc Hf Hn Hk HQ. unfold CM_FindTransChannelByLocalTcid. rewrite Hf. apply wp_cg. injection Hk as <- <-.
  destruct (find_first _ (D s)) as [m|] eqn:E; cbn.
  - apply find_first_Some in E as [Hm [E1 E2]%andb_true_iff]. apply Z.eqb_eq in E1, E2.
    by rewrite (dyn_keys_inj s m n) by (done || unfold key2; congruence).
  - apply find_first_None in E. rewrite Forall_forall in E. specialize (E n Hn). unfold local_is in E. by rewrite !Z.eqb_refl in E.
Qed.

Lemma wp_tell n call s : base_ok s -> chans_ok s.1 -> n ∈ D s -> wp (tell (tl_ptr n) call) s (fun _ => aside s).
Proof.
  intros Hs Hc Hn. unfold tell. apply wp_bind, wp_get_node; [apply Hc|by apply dyn_in_nodes|]. case_match; [|by apply wp_ret, aside_refl].
  apply wp_bind. eapply wp_mono; [by apply silent_ask|]. intros a s' (?&?&?). by apply wp_ret.
Qed.
Lemma wp_callbacks n s : base_ok s -> chans_ok s.1 -> n ∈ D s ->
  (forall r, wp (CM_DynTransChanEstablishRspCbk (tl_ptr n) r) s (fun _ => aside s)) /\
  (forall r, wp (CM_DynTransChanReleaseRspCbk (tl_ptr n) r) s (fun _ => aside s)) /\
  (forall b r, wp (CM_DynTransChanStatusIndicationCbk (tl_ptr n) b r) s (fun _ => aside s)).
Proof.
  intros Hs Hc Hn. split_and!; intros; (apply wp_bind, wp_cg; case_match; [by apply wp_ret, aside_refl|by apply wp_tell]).
Qed.

Lemma aside_undisturbed s s' : aside s s' -> undisturbed s s'.
Proof. intros (E&?&?). constructor; rewrite ?E; done. Qed.
Lemma aside_elem n s s' : aside s s' -> n ∈ D s -> n ∈ D s'.
Proof. by intros (->&_). Qed.

(** ** The end of a channel *)
Lemma wp_drop_free n lcid t mode (k : Z -> M Z) s (Q : Z -> state -> Prop) :
  cm_good s -> n ∈ D s -> key2 n = (lcid, t) ->
  (forall r s', cm_good s' -> (in_step s -> memory_suffices W -> in_step s') -> D s' = g_dynTransListHead (drop_node n s.1) ->
     (mode = CM_ACCESS_TRANS_MODE_UNICAST -> freed lcid t s s') -> wp (k r) s' Q) ->
  wp (CM_ReleaseDynamicTransChannelByLocalTcid (Some (tl_ptr n)) ;;! let! r := CM_DynTcidRelease lcid t mode in k r) s Q.
Proof.
  intros Hg Hn Hk HQ. apply wp_bind. eapply wp_mono; [by apply wp_release_dyn; [apply Hg..|]|]. intros [] s1 Hd.
  pose proof (dropped_good _ _ _ Hg Hn Hd) as [Hb1 Hc1 Ht1]. pose proof (f_equal g_cmDynTransPoolListHead (dr_cm _ _ _ Hd)) as EP. cbn in EP.
  assert (wp (CM_DynTcidRelease lcid t mode) s1 (fun _ s' => mode = CM_ACCESS_TRANS_MODE_UNICAST -> freed lcid t s s')) as Hfree.
  { destruct (decide (mode = CM_ACCESS_TRANS_MODE_UNICAST)) as [->|Hne].
    - pose proof (ci_dyn _ _ _ _ (cg_chans _ Hg)) as Hdy. rewrite Forall_forall in Hdy. injection Hk as Ekl Ekt.
      eapply wp_mono; [apply wp_tcid_free; [done|rewrite <- Ekt; by apply Hdy|]|].
      + intros pool Hp. rewrite <- Ekt. apply (cg_tcids _ Hg n pool Hn). rewrite Ekl. by rewrite <- EP.
      + intros r s' Hf _ pool Hp. apply Hf. by rewrite EP.
    - apply wp_tcid_release; [done..|]. by intros r s' _ _ _ ?. }
  apply wp_bind. eapply wp_mono; [apply wp_conj; [exact Hfree|apply (wp_tcid_release _ _ _ _ (fun r s2 => repooled s1 s2 /\ chans_ok s2.1 /\
    forall D', (forall m, m ∈ D' -> m ∈ D s1 /\ key2 m <> (lcid, t)) -> marked D' (P s2))); [done..|by intros r s2 ???]]|].
  intros r s2 (Hf2&Hre&Hc2&Hmk). assert (D s2 = D s1) as ED by (by destruct Hre as (P'&->&_)). apply HQ; [| | |exact Hf2].
  - constructor; [by eapply repooled_base|done|]. unfold tcids_ok. rewrite ED. apply Hmk. intros m Hm. split; [done|].
    rewrite <- Hk. by eapply dropped_no_key; [apply Hg|..].
  - intros Hi Hm. eapply repooled_step; [|exact Hre]. eapply dropped_step; [apply Hg|done..].
  - rewrite ED. by rewrite (dr_cm _ _ _ Hd).
Qed.

(** The channel [n] is gone, and its identifier free. *)
Definition ended n s s' : Prop := D s' = g_dynTransListHead (drop_node n s.1) /\ freed (tl_lcid n) (tl_local n) s s'.

Lemma wp_drop_channel n param s : cm_good s -> (memory_suffices W -> in_step s) -> n ∈ D s -> key2 n = (dp_lcid param, dp_localTcid param) ->
  wp (drop_channel (tl_ptr n) param) s (fun _ s' => settled s' /\ (dp_expectedTransportMode param = CM_ACCESS_TRANS_MODE_UNICAST -> ended n s s')).
Proof.
  intros Hg Hi Hn Hk. unfold drop_channel. eapply wp_drop_free; [done|done|exact Hk|]. intros r s' Hg' Hi' ED Hf. apply wp_ret.
  split; [split; [done|]; intros Hm; by apply Hi'; [apply Hi|]|]. intros Hm. split; [done|]. injection Hk as -> ->. by apply Hf.
Qed.
Lemma wp_undo n param t s : cm_good s -> (memory_suffices W -> in_step s) -> n ∈ D s -> key2 n = (dp_lcid param, t) ->
  wp (undo_establish (Some (tl_ptr n)) param t) s (fun _ => settled).
Proof.
  intros Hg Hi Hn Hk. unfold undo_establish. eapply wp_drop_free; [done|done|exact Hk|]. intros r s' Hg' Hi' _ _. apply wp_ret.
  split; [done|]. intros Hm. by apply Hi'; [apply Hi|].
Qed.

(** An identifier that no channel got is given back. *)
Lemma wp_return lcid t mode s : good s -> (forall n, n ∈ D s -> key2 n <> (lcid, t)) ->
  wp (let! _ := CM_DynTcidRelease lcid t mode in st_ret CM_FAIL) s (fun _ => settled).
Proof.
  intros [[Hb Hc Ht] Hi] Hno. apply wp_bind, wp_tcid_release; [done..|]. intros r s2 Hre Hc2 Hmk. apply wp_ret.
  assert (D s2 = D s) as ED by (by destruct Hre as (P'&->&_)). apply good_settled. split; [|by eapply repooled_step].
  constructor; [by eapply repooled_base|done|]. unfold tcids_ok. rewrite ED. apply Hmk. intros m Hm. by split; [|apply Hno].
Qed.

(** A new dynamic channel. *)
Lemma wp_new_channel lcid mode (param : Z -> CM_DynTransChanParam) s (k : Z -> option Z -> M Z) (Q : Z -> state -> Prop) :
  good s ->
  (forall t, dp_localTcid (param t) = t /\ conf_ok (dp_transModeConfig (param t)) /\
     (dp_state (param t) = ACTIVATED \/ dp_state (param t) = CM_TRANS_CHANNEL_STATE_ACTIVATING)) ->
  Q CM_FAIL s ->
  (forall t s', good s' -> (forall n, n ∈ D s' -> key2 n <> (lcid, t)) -> wp (k t None) s' Q) ->
  (forall t s' n, good s' -> n ∈ D s' -> key2 n = (lcid, t) -> wp (k t (Some (tl_ptr n))) s' Q) ->
  wp (let! t := CM_DynTcidAllocate lcid mode in
      if t =? CM_TRANS_INVALID_TCID then st_ret CM_FAIL
      else let! node := CM_ActivateDynamicTransChannel lcid (param t) in k t node) s Q.
Proof.
  intros [Hg Hi] Hp H0 HN HS. apply wp_bind, wp_tcid_allocate; [done|by apply wp_ret|]. intros t pool s1 Hre Hg1 Ht Hlc Hno Hpf Hpm.
  destruct (Z.eqb_spec t CM_TRANS_INVALID_TCID) as [e|_]; [rewrite e in Ht; change CM_TCID_UC_BEGIN with 128 in Ht; unfold CM_TRANS_INVALID_TCID in Ht; lia|].
  destruct (Hp t) as (El&Hcf&Hst). pose proof (repooled_step _ _ Hi Hre) as Hi1. assert (D s1 = D s) as ED by (by destruct Hre as (P'&->&_)).
  apply wp_bind. eapply wp_activate_dyn; rewrite ?El; try done; [apply Hi1|by rewrite ED|..].
  - intros s2 Hu. pose proof (good_quiet s1 s2 (conj Hg1 Hi1) Hu) as Hg2. apply HN; [done|].
    pose proof (ud_part _ _ Hu) as E. unfold chan_part in E. injection E as E1 E2 E3 E4. rewrite E2, ED. done.
  - intros s2 n Hg2 Ha2 EF ED2 EP Ek. apply HS; [|rewrite ED2; apply elem_of_app; right; by left|done]. split; [done|].
    constructor; [done|]. rewrite ED2, EP. intros m [Hm|Hm%list_elem_of_singleton]%elem_of_app; [by apply Hi1|]. subst m.
    injection Ek as -> _. by rewrite Hpf.
Qed.

(** ** The handlers *)
Definition settles {A} (m : M A) : Prop := forall s, good s -> wp m s (fun _ => settled).

Lemma quiet_settles {A} (m : M A) : quiet m -> settles m.
Proof. intros Hm s Hg. apply wp_quiet; [done|apply Hg|]. intros a s' Hu. by apply good_settled, (good_quiet s). Qed.

Lemma establishing_settles param cur :
  conf_ok (dp_transModeConfig param) -> 0 <= transMode (dp_transModeConfig param) < CM_TRANS_MODE_MAX ->
  settles (CM_DynTransChanActiveEstablishingReqHandler cur param CM_TRANS_CHANNEL_STATE_ACTIVATING).
Proof.
  intros Hcf Hm s Hg.
  apply (wp_new_channel (dp_lcid param) (dp_expectedTransportMode param)
    (fun t => param <| dp_localTcid := t |> <| dp_remoteTcid := CM_TRANS_INVALID_TCID |> <| dp_state := CM_TRANS_CHANNEL_STATE_ACTIVATING |>) s
    (fun t node => match node with
      | None => let! _ := CM_DynTcidRelease (dp_lcid param) t (dp_expectedTransportMode param) in st_ret CM_FAIL
      | Some p => let! ret := CM_SignalingTransChanEstablishReqSend (dp_lcid param) (establish_signaling param t) in
                  if negb (ret =? CM_SUCCESS) then undo_establish (Some p) param t else st_ret CM_SUCCESS
      end)); [done|intros t; split_and!; [done|done|by right]|by apply good_settled|intros; by apply wp_return|].
  intros t s1 n Hg1 Hn Hk. apply wp_bind, wp_quiet; [by apply quiet_establish_req|apply Hg1|]. intros r s2 Hu.
  pose proof (good_quiet _ _ Hg1 Hu) as Hg2. case_match; [|by apply wp_ret, good_settled].
  apply wp_undo; [apply Hg2|intros _; apply Hg2| |done]. pose proof (ud_part _ _ Hu) as E. unfold chan_part in E. injection E as E1 E2 E3 E4. by rewrite E2.
Qed.

Lemma accepting_settles param cur : conf_ok (dp_transModeConfig param) ->
  settles (CM_DynTransChanPassiveEstablishedReqHandler cur param ACTIVATED).
Proof.
  intros Hcf s Hg. unfold CM_DynTransChanPassiveEstablishedReqHandler.
  assert (forall r s', good s' -> wp (CM_DynTransChanSendEstablishedErrResp param r ;;! st_ret CM_FAIL) s' (fun _ => settled)) as Herr.
  { intros r s' Hg'. apply wp_bind, wp_bind, wp_quiet; [apply quiet_establish_rsp|apply Hg'|]. intros a s2 Hu. by apply wp_ret, wp_ret, good_settled, (good_quiet s'). }
  case_match; [by apply Herr|]. apply wp_bind.
  assert (quiet (CM_DynTransChannelEstablishedCheck (dp_srcPort param) (dp_dstPort param))) as Hq.
  { apply quiet_bind; [apply quiet_gets|]. intros cb. case_match; [apply quiet_ret|]. apply quiet_bind; [apply silent_quiet, silent_ask|]. intros a. apply quiet_ret. }
  apply wp_quiet; [exact Hq|apply Hg|]. intros chk s1 Hu1. pose proof (good_quiet _ _ Hg Hu1) as Hg1. destruct chk; cbn [negb]; [|by apply Herr].
  apply (wp_new_channel (dp_lcid param) (dp_expectedTransportMode param) (fun t => param <| dp_localTcid := t |> <| dp_state := ACTIVATED |>) s1
    (fun t node => match node with
      | None => let! _ := CM_DynTcidRelease (dp_lcid param) t (dp_expectedTransportMode param) in st_ret CM_FAIL
      | Some p =>
          let! ret := CM_SignalingTransChanEstablishRspSend (dp_lcid param) (dp_reqId param)
                        (mk_ersp (dp_remoteTcid param) t CM_RESULT_ESTABLISH_SUCCESS) in
          if negb (ret =? CM_SUCCESS) then undo_establish (Some p) param t
          else CM_DynTransChanStatusIndicationCbk p true CM_DYN_TRANS_CHAN_STATUS_INDICATION_NORMAL ;;! st_ret CM_SUCCESS
      end)); [done|intros t; split_and!; [done|done|by left]|by apply good_settled|intros; by apply wp_return|].
  intros t s2 n Hg2 Hn Hk. apply wp_bind, wp_quiet; [apply quiet_establish_rsp|apply Hg2|]. intros r s3 Hu.
  pose proof (good_quiet _ _ Hg2 Hu) as Hg3. pose proof (ud_part _ _ Hu) as E. unfold chan_part in E. injection E as E1 E2 E3 E4.
  case_match; [apply wp_undo; [apply Hg3|intros _; apply Hg3|by rewrite E2|done]|]. apply wp_bind.
  eapply wp_mono; [apply wp_callbacks; [apply Hg3|apply Hg3|by rewrite E2]|]. intros [] s4 Ha. apply wp_ret, good_settled.
  eapply good_quiet; [exact Hg3|by apply aside_undisturbed].
Qed.

(** The peer accepted: the channel was waiting for that, and so the data plane has no
    channel with its key yet. *)
Lemma waiting_unreported s n k : chans_ok s.1 -> agree_in s -> n ∈ D s -> ~ is_on n -> k ∈ below_keys s.2 -> k.1 <> key2 n.
Proof.
  intros Hc [Ha _] Hn Hoff Hk E. destruct (Ha k Hk) as (m&Hm&<-&Hon). apply Hoff.
  replace n with m; [done|]. by eapply (key2_inj (F s ++ D s)); [apply Hc|done|by apply dyn_in_nodes|].
Qed.

Definition accept_node remote (n : SleTransLcid) : SleTransLcid := n <| tl_state := ACTIVATED |> <| tl_remote := remote |>.
Lemma keeps_accept remote : keeps (accept_node remote).
Proof. intros m. split_and!; try done. unfold live, accept_node; cbn. tauto. Qed.

Lemma accepted_exact param cur s n :
  good s -> CM_TRANS_CHANNEL_IS_FIXED (dp_localTcid param) = false -> n ∈ D s -> key2 n = (dp_lcid param, dp_localTcid param) ->
  tl_state n = CM_TRANS_CHANNEL_STATE_ACTIVATING -> dp_result param = CM_RESULT_ESTABLISH_SUCCESS ->
  wp (CM_DynTransChanActiveEstablishedRspHandler cur param ACTIVATED) s
    (fun _ s' => good s' /\ s'.1 = set_dyn n (accept_node (dp_remoteTcid param)) s.1).
Proof.
  intros [Hg Hi] Hf Hn Hk Hst Hr. unfold CM_DynTransChanActiveEstablishedRspHandler. rewrite Hr. cbn [negb Z.eqb CM_RESULT_ESTABLISH_SUCCESS].
  apply wp_bind, (wp_find_exact n); [apply Hg|done..|].
  assert (~ is_on n) as Hoff by (intros [E|E]; rewrite Hst in E; done).
  set (f := accept_node (dp_remoteTcid param)).
  pose proof (keeps_accept (dp_remoteTcid param) : keeps f) as Hkf.
  apply wp_bind. unfold CM_DynamicTransChannelSetTcidAndChangeCbk. apply wp_bind, (wp_set_node n f); [done|done|done|].
  intros s1 E1 Hg1 Hin1 Ha1. destruct (keeps_key f n Hkf) as (Ekf&Enk&_). specialize (Ha1 ltac:(by left) (is_agree _ Hi)).
  change (ACTIVATED =? ACTIVATED) with true. cbv iota. change (tl_ptr n) with (tl_ptr (f n)).
  apply wp_dyn_report; [apply Hg1|apply Hg1|by apply dyn_in_nodes|by left| |].
  - intros _ k Hkk. rewrite Ekf. subst s1. cbn in Hkk. eapply waiting_unreported; [apply Hg|apply Hi|done|done|done].
  - intros s2 E2 Hb2 Ht2. apply wp_bind.
    assert (good s2) as Hg2.
    { split; [constructor; [done|unfold chans_ok|unfold tcids_ok]; rewrite E2; apply Hg1|]. constructor.
      - eapply (told_agree s1 s2 [f n]); [done|exact Ht2| |by rewrite E2| |by rewrite E2].
        + intros ch ->%list_elem_of_singleton%(inj Some). exists (f n). split; [by left|done].
        + intros m ->%list_elem_of_singleton. rewrite E2. split; [by apply dyn_in_nodes|by left].
      - rewrite E2, E1. cbn. intros m [Hm|(x&Hx&->)]%elem_update_first; [by apply Hi|]. apply find_first_Some in Hx as [Hx _]. by apply (is_pooled _ Hi x). }
    eapply wp_mono; [apply wp_callbacks; [apply Hg2|apply Hg2|by rewrite E2]|]. intros [] s3 Ha. apply wp_ret.
    split; [eapply good_quiet; [exact Hg2|by apply aside_undisturbed]|]. destruct Ha as [-> _]. by rewrite E2, E1.
Qed.

Lemma accepted_settles param cur s n :
  good s -> CM_TRANS_CHANNEL_IS_FIXED (dp_localTcid param) = false -> n ∈ D s -> key2 n = (dp_lcid param, dp_localTcid param) ->
  tl_state n = CM_TRANS_CHANNEL_STATE_ACTIVATING ->
  wp (CM_DynTransChanActiveEstablishedRspHandler cur param ACTIVATED) s (fun _ => settled).
Proof.
  intros Hg Hf Hn Hk Hst. destruct (Z.eqb_spec (dp_result param) CM_RESULT_ESTABLISH_SUCCESS) as [E|E].
  - eapply wp_mono; [by eapply accepted_exact|]. intros r s' [Hg' _]. by apply good_settled.
  - unfold CM_DynTransChanActiveEstablishedRspHandler. rewrite (proj2 (Z.eqb_neq _ _) E). by apply wp_ret, good_settled.
Qed.

(** The two ways in which a channel that is known by its identifier ends. *)
Lemma wp_told_drop n param s (cb : M unit) :
  good s -> n ∈ D s -> key2 n = (dp_lcid param, dp_localTcid param) -> wp cb s (fun _ => aside s) ->
  wp (cb ;;! drop_channel (tl_ptr n) param) s
    (fun _ s' => settled s' /\ (dp_expectedTransportMode param = CM_ACCESS_TRANS_MODE_UNICAST -> ended n s s')).
Proof.
  intros Hg Hn Hk Hcb. apply wp_bind. eapply wp_mono; [exact Hcb|]. intros [] s1 Ha.
  pose proof (good_quiet _ _ Hg (aside_undisturbed _ _ Ha)) as Hg1. pose proof (aside_elem _ _ _ Ha Hn) as Hn1. unfold ended, freed. destruct Ha as [<- _].
  apply wp_drop_channel; [apply Hg1|intros _; apply Hg1|done|done].
Qed.

Lemma wp_told_settles n param s (cb : M unit) :
  good s -> n ∈ D s -> key2 n = (dp_lcid param, dp_localTcid param) -> wp cb s (fun _ => aside s) ->
  wp (cb ;;! drop_channel (tl_ptr n) param) s (fun _ => settled).
Proof. intros Hg Hn Hk Hcb. eapply wp_mono; [by apply wp_told_drop|]. by intros r s' [? _]. Qed.

Lemma ending_settles param cur next :
  CM_TRANS_CHANNEL_IS_FIXED (dp_localTcid param) = false ->
  settles (CM_DynTransChanActiveEstablishingFailRspHandler cur param next) /\
  settles (CM_DynTransChanActiveReleasedRspHandler cur param next) /\
  settles (CM_DynTransChanActiveReleasingFailRspHandler cur param next).
Proof.
  intros Hf. split_and!; intros s Hg.
  - unfold CM_DynTransChanActiveEstablishingFailRspHandler. case_match; [by apply wp_ret, good_settled|].
    apply wp_bind, wp_find_local; [done|by apply wp_ret, good_settled|]. intros n Hn Hk. apply wp_told_settles; [done..|].
    apply wp_callbacks; [apply Hg|apply Hg|done].
  - apply wp_bind, wp_find_local; [done|by apply wp_ret, good_settled|]. intros n Hn Hk. apply wp_told_settles; [done..|].
    apply wp_callbacks; [apply Hg|apply Hg|done].
  - apply wp_bind, wp_find_local; [done|by apply wp_ret, good_settled|]. intros n Hn Hk. apply wp_told_settles; [done..|].
    apply wp_callbacks; [apply Hg|apply Hg|done].
Qed.

(** A channel that could not be established. *)
Lemma failed_exact param cur next n s :
  good s -> CM_TRANS_CHANNEL_IS_FIXED (dp_localTcid param) = false -> n ∈ D s -> key2 n = (dp_lcid param, dp_localTcid param) ->
  dp_result param <> CM_RESULT_ESTABLISH_SUCCESS -> dp_expectedTransportMode param = CM_ACCESS_TRANS_MODE_UNICAST ->
  wp (CM_DynTransChanActiveEstablishingFailRspHandler cur param next) s (fun _ s' => settled s' /\ ended n s s').
Proof.
  intros Hg Hf Hn Hk Hr Hm. unfold CM_DynTransChanActiveEstablishingFailRspHandler. rewrite (proj2 (Z.eqb_neq _ _) Hr).
  apply wp_bind, (wp_find_exact n); [apply Hg|done..|]. eapply wp_mono; [apply wp_told_drop; [done..|]|].
  - apply wp_callbacks; [apply Hg|apply Hg|done].
  - intros r s' [Hs He]. split; [done|by apply He].
Qed.

(** A channel that is on stays on. *)
Lemma wp_set_on n f s (Q : unit -> state -> Prop) :
  good s -> n ∈ D s -> keeps f -> is_on (f n) ->
  (forall s', good s' -> f n ∈ D s' -> Q tt s') -> wp (set_node (tl_ptr n) f) s Q.
Proof.
  intros [Hg Hi] Hn Hk Hon HQ. apply wp_set_node; [done..|]. intros s1 E1 Hg1 Hin1 Ha1. apply HQ; [|done]. split; [done|].
  constructor; [apply Ha1; [done|apply Hi]|]. rewrite E1. cbn. intros m [Hm|(x&Hx&->)]%elem_update_first; [by apply Hi|].
  apply find_first_Some in Hx as [Hx _]. destruct (Hk x) as (_&->&_). by apply Hi.
Qed.

Lemma releasing_settles param :
  CM_TRANS_CHANNEL_IS_FIXED (dp_localTcid param) = false ->
  settles (CM_DynTransChanActiveReleasingHandler ACTIVATED param CM_TRANS_CHANNEL_STATE_RELEASING).
Proof.
  intros Hf s Hg. apply wp_bind, wp_find_local; [done|by apply wp_ret, good_settled|]. intros n Hn Hk.
  apply wp_bind, wp_set_on; [done|done|intros m; split_and!; try done; unfold live; cbn; tauto|by right|]. intros s1 Hg1 Hn1.
  apply wp_bind. change (tl_ptr n) with (tl_ptr (n <| tl_state := CM_TRANS_CHANNEL_STATE_RELEASING |>)). set (n1 := n <| tl_state := _ |>) in *.
  apply wp_get_node; [apply Hg1|by apply dyn_in_nodes|]. apply wp_bind, wp_quiet; [apply quiet_release_req|apply Hg1|]. intros r s2 Hu.
  pose proof (good_quiet _ _ Hg1 Hu) as Hg2. pose proof (ud_part _ _ Hu) as E. unfold chan_part in E. injection E as E1 E2 E3 E4.
  case_match; [|by apply wp_ret, good_settled]. apply wp_bind, wp_set_on; [done|by rewrite E2|intros m; split_and!; try done; unfold live; cbn; tauto|by left|].
  intros s3 Hg3 _. by apply wp_ret, good_settled.
Qed.

Lemma released_settles param cur next :
  CM_TRANS_CHANNEL_IS_FIXED (dp_remoteTcid param) = false -> settles (CM_DynTransChanPassiveReleasedReqHandler cur param next).
Proof.
  intros Hf s Hg. apply wp_bind, wp_find_remote; [done|by apply wp_ret, good_settled|]. intros n Hn Hl.
  apply wp_bind, wp_get_node; [apply Hg|by apply dyn_in_nodes|]. apply wp_bind.
  eapply wp_mono; [apply wp_callbacks; [apply Hg|apply Hg|done]|]. intros [] s1 Ha.
  pose proof (good_quiet _ _ Hg (aside_undisturbed _ _ Ha)) as Hg1. pose proof (aside_elem n _ _ Ha Hn) as Hn1. clear s Hg Hn Ha.
  pose proof Hg1 as [[Hb1 Hc1 Ht1] Hi1]. apply wp_bind, wp_tcid_release; [done..|]. intros r s2 Hre Hc2 Hmk.
  assert (D s2 = D s1) as ED by (by destruct Hre as (P'&->&_)). pose proof (repooled_base _ _ Hb1 Hre) as Hb2.
  apply wp_bind. eapply wp_mono; [by apply wp_release_dyn; [..|rewrite ED]|]. intros [] s3 Hd. rewrite <- ED in Hn1.
  assert (settled s3) as Hs3.
  { split; [|intros Hm; eapply dropped_step; [exact Hc2|exact Hn1|done|by eapply repooled_step|done]].
    constructor; [apply Hd|by eapply dropped_chans|]. unfold tcids_ok. rewrite (dr_cm _ _ _ Hd). cbn.
    assert (D s3 = remove_first (node_at (tl_ptr n)) (D s2)) as ED3 by (by rewrite (dr_cm _ _ _ Hd)). rewrite <- ED3. apply Hmk. intros m Hm.
    split; [|eapply (dropped_no_key n s2 s3); done]. rewrite <- ED. rewrite ED3 in Hm. eapply elem_of_sublist; [exact Hm|apply remove_first_sub]. }
  apply wp_bind, wp_quiet; [apply quiet_release_rsp|apply Hd|]. intros a s4 Hu. pose proof (settled_quiet _ _ Hs3 Hu) as Hs4.
  case_match; [|by apply wp_ret]. apply wp_bind, wp_bind, wp_quiet; [apply quiet_release_req|apply Hs4|]. intros b s5 Hu5.
  by apply wp_ret, wp_ret, (settled_quiet s4).
Qed.
End handlers.
