(* ===== verification/CmEntry.v ===== *)
(** * CM: entry points

    The requests of the QoS manager, the signaling of the peer, timeouts, and links that
    come up and go down, on top of the handlers of [CmHandlers]. *)
From S2P Require Import Prelude Utils SdfErrno SdfBuff SdfContainers CmData DtapEnv DtapTrans DtapChannel DtapProps DtapEvents DtapMachine CmState CmTcid CmChannel CmSignal CmCache CmDynTrans CmCap CmRecv CmPackets CmInv CmQuiet CmOps CmNodes CmActivate CmHandlers.

Create HintDb sidestep.

Lemma rd_first b : buff_wf b -> 1 <= SDF_DataLenGet b -> is_Some (rd (bmem b) (SDF_DataOffset b)).
Proof.
  intros Hwf Hl. unfold SDF_DataOffset, SDF_DataLenGet in *. destruct (rd_is_Some (bmem b) (dataOff b)) as [v Hv]; [|by exists v].
  destruct Hwf. lia.
Qed.

Section entry.
Context {W : Type} {HW : World W} {HB : Below W} {HBO : BelowOk W}.
Notation M := (ST (Cm * W)).
Notation state := (Cm * W)%type.
Implicit Types (s : state) (c : Cm) (w : W) (n : SleTransLcid).
Notation ACTIVATED := CM_TRANS_CHANNEL_STATE_ACTIVATED.
Notation F s := (g_fixedTransListHead s.1).
Notation D s := (g_dynTransListHead s.1).
Notation P s := (g_cmDynTransPoolListHead s.1).

(** ** Steps that leave links and requests alone *)
Definition side c := (g_deviceLinkListHead c, g_cachedSignalings c).
Definition sidestep {A} (m : M A) : Prop := forall s a s', m s = Some (a, s') -> side s'.1 = side s.1.

Lemma side_ret {A} (a : A) : sidestep (st_ret a).
Proof. by intros s b s' [= <- <-]. Qed.
Lemma side_cg {A} (f : Cm -> A) : sidestep (cg f).
Proof. by intros s b s' [= <- <-]. Qed.
Lemma side_opt {A} (o : option A) : sidestep (st_opt o).
Proof. intros s b s'. unfold st_opt. case_match; [|done]. by intros [= <- <-]. Qed.
Lemma side_cupd f : (forall c, side (f c) = side c) -> sidestep (cupd f).
Proof. intros Hf s b s' [= <- <-]. apply Hf. Qed.
Lemma side_over {A} (m : ST W A) : sidestep (over m).
Proof. intros [c w] a s'. unfold over. case_match; [|done]. case_match. by intros [= <- <-]. Qed.
Lemma side_bind {A B} (m : M A) (k : A -> M B) : sidestep m -> (forall a, sidestep (k a)) -> sidestep (st_bind m k).
Proof.
  intros Hm Hk s b s'. unfold st_bind. destruct (m s) as [[a s1]|] eqn:E; [|done]. intros E2.
  rewrite (Hk a s1 b s' E2). by eapply Hm.
Qed.
Lemma side_ask cl : sidestep (cm_ask cl).
Proof. exact (side_over (ask (CCm cl))). Qed.
Lemma side_alloc : sidestep alloc_ok.
Proof. apply side_bind; [exact (side_over (ask CAlloc))|intros a; apply side_ret]. Qed.

Ltac side_step :=
  lazymatch goal with
  | |- sidestep (st_bind _ _) => apply side_bind; [|intros ?]
  | |- sidestep (st_ret _) => apply side_ret
  | |- sidestep (cg _) => apply side_cg
  | |- sidestep (cupd _) => apply side_cupd; done
  | |- sidestep (st_opt _) => apply side_opt
  | |- sidestep (over _) => apply side_over
  | |- sidestep (cm_ask _) => apply side_ask
  | |- sidestep alloc_ok => apply side_alloc
  | |- sidestep (match ?x with _ => _ end) => destruct x
  | |- sidestep _ => solve [auto with sidestep]
  end.
Ltac side_steps := repeat side_step.

Lemma side_create_vector {A} d : sidestep (create_vector (A := A) d).
Proof. unfold create_vector. side_steps. Qed.
Lemma side_push {A} (v : SDF_Vector A) a : sidestep (vector_push v a).
Proof. unfold vector_push. side_steps. Qed.
Lemma side_get_node p : sidestep (get_node p).
Proof. unfold get_node. side_steps. Qed.
#[local] Hint Resolve side_create_vector side_push side_get_node : sidestep.

Lemma side_dyn_report p r : sidestep (CM_DynTransChannelChangeCbk p r).
Proof. unfold CM_DynTransChannelChangeCbk. side_steps. Qed.
Lemma side_destroy p b : sidestep (CM_TransChannelDestroyOneNode p b).
Proof. unfold CM_TransChannelDestroyOneNode. side_steps. Qed.
#[local] Hint Resolve side_dyn_report side_destroy : sidestep.
Lemma side_push_channels lcid l v : sidestep (push_channels lcid l v).
Proof. revert v. induction l; intros v; cbn [push_channels]; side_steps; auto. Qed.
Lemma side_push_nodes lcid l v : sidestep (push_nodes lcid l v).
Proof. revert v. induction l; intros v; cbn [push_nodes]; side_steps; auto. Qed.
Lemma side_destroy_nodes l b : sidestep (destroy_nodes l b).
Proof. induction l as [|[]]; cbn [destroy_nodes]; side_steps; auto. Qed.
#[local] Hint Resolve side_push_channels side_push_nodes side_destroy_nodes : sidestep.
Lemma side_fixed_report lcid r : sidestep (CM_FixedTransChannelChangeCbk lcid r).
Proof. unfold CM_FixedTransChannelChangeCbk. side_steps. Qed.
#[local] Hint Resolve side_fixed_report : sidestep.

Lemma side_release_dyn p : sidestep (CM_ReleaseDynamicTransChannelByLocalTcid (Some p)).
Proof. unfold CM_ReleaseDynamicTransChannelByLocalTcid, CM_DynTransChannelFreeListNode. side_steps. Qed.
Lemma side_release_fixed lcid : sidestep (CM_ReleaseFixedTransChannel lcid).
Proof.
  unfold CM_ReleaseFixedTransChannel, CM_FindFixedTransChannelByLcid, CM_FixedTransChannelFreeListNode, CM_TransChannelDestroyListNode. side_steps.
Qed.
Lemma side_new_node : sidestep new_node.
Proof. unfold new_node. side_steps. Qed.
#[local] Hint Resolve side_release_dyn side_release_fixed side_new_node : sidestep.
Lemma side_alloc_channel lcid params l r st : sidestep (CM_AllocTransChannel lcid params l r st).
Proof. unfold CM_AllocTransChannel, SleLogicLinkGetByLcid, link_find, get_link, CM_AllocTransChannelNode. side_steps. Qed.
#[local] Hint Resolve side_alloc_channel : sidestep.
Lemma side_activate_fixed lcid : sidestep (CM_ActivateFixedTransChannel lcid None).
Proof.
  unfold CM_ActivateFixedTransChannel, CM_IsExistFixedTransChannelByLcid. side_steps.
  generalize g_TransFixedChannels. intros l. induction l; cbn [activate_fixed]; side_steps; auto.
Qed.
Lemma side_tcid_release lcid t mode : sidestep (CM_DynTcidRelease lcid t mode).
Proof. unfold CM_DynTcidRelease, CM_DynTransGetTcidPool, set_pool. side_steps. Qed.
Lemma side_tell p call : sidestep (tell p call).
Proof. unfold tell. side_steps. Qed.
#[local] Hint Resolve side_tcid_release side_tell : sidestep.
Lemma side_find_local lcid t : sidestep (CM_FindTransChannelByLocalTcid lcid t).
Proof. unfold CM_FindTransChannelByLocalTcid. side_steps. Qed.
#[local] Hint Resolve side_find_local : sidestep.

(** The responses that a timeout stands for end the channel. *)
Lemma side_ending param cur next :
  sidestep (CM_DynTransChanActiveEstablishingFailRspHandler cur param next) /\
  sidestep (CM_DynTransChanActiveReleasingFailRspHandler cur param next).
Proof.
  unfold CM_DynTransChanActiveEstablishingFailRspHandler, CM_DynTransChanActiveReleasingFailRspHandler, drop_channel,
    CM_DynTransChanEstablishRspCbk, CM_DynTransChanReleaseRspCbk. split; side_steps.
Qed.

Lemma wp_side {A} (m : M A) s (Q : A -> state -> Prop) :
  sidestep m -> wp m s Q -> wp m s (fun a s' => Q a s' /\ side s'.1 = side s.1).
Proof. intros Hm HQ. apply wp_run in HQ as (a&s'&E&Hq). apply wp_run. exists a, s'. split; [done|]. split; [done|by eapply Hm]. Qed.

(** ** The signaling of the peer *)
Lemma asked_conf (cf : CM_TransModeConfig) : config_asked cf -> conf_ok cf.
Proof. intros [[Ha Hb (?&?&?&?&?&?) (?&?&?)] Hc Hd]. constructor; try done. unfold CM_TRANS_MODE_MAX in Hc. cint. Qed.

Lemma settles_then {A B} (m : M A) (b : B) : settles m -> settles (let! _ := m in st_ret b).
Proof. intros Hm s Hg. apply wp_bind. eapply wp_mono; [by apply Hm|]. intros a s' Hs. by apply wp_ret. Qed.
Lemma settles_ret {A} (a : A) : settles (st_ret a).
Proof. intros s Hg. by apply wp_ret, good_settled. Qed.

Lemma establish_req_settles lcid reqId req : request_asked req -> settles (CM_DynTransChannelEstablishReqCbk lcid reqId req).
Proof.
  intros [_ Hc]. unfold CM_DynTransChannelEstablishReqCbk. destruct (CM_TRANS_CHANNEL_IS_DYNAMIC _) eqn:Hd; cbn [negb]; [|apply settles_ret].
  intros s Hg. apply wp_bind, wp_find_remote; [by apply dynamic_not_fixed| |intros n _ _; by apply wp_ret, good_settled].
  revert s Hg. apply settles_then, accepting_settles. by apply asked_conf.
Qed.

Lemma establish_rsp_settles lcid rsp : settles (CM_DynTransChannelEstablishRspCbk lcid rsp).
Proof.
  unfold CM_DynTransChannelEstablishRspCbk. destruct (CM_TRANS_CHANNEL_IS_DYNAMIC (es_srcTcid rsp)) eqn:Hd; cbn [negb]; [|apply settles_ret].
  case_match; [apply settles_ret|]. apply dynamic_not_fixed in Hd. intros s Hg.
  apply wp_bind, wp_find_local; [done|by apply wp_ret, good_settled|]. intros n Hn Hk.
  apply wp_bind, wp_get_node; [apply Hg|by apply dyn_in_nodes|]. destruct (Z.eqb_spec (tl_state n) CM_TRANS_CHANNEL_STATE_ACTIVATING) as [Hst|];
    cbn [negb]; [|by apply wp_ret, good_settled].
  apply wp_bind. eapply wp_mono; [|intros a s' Hs; apply wp_ret; exact Hs]. case_match.
  - by eapply accepted_settles.
  - by apply ending_settles.
Qed.

(** The response to a request whose channel still waits. *)
Lemma dyn_tcid s n : chans_ok s.1 -> n ∈ D s ->
  CM_TRANS_CHANNEL_IS_DYNAMIC (tl_local n) = true /\ CM_DynTransChanGetTransportMode (tl_local n) = CM_ACCESS_TRANS_MODE_UNICAST.
Proof.
  intros Hc Hn. pose proof (ci_dyn _ _ _ _ Hc) as Hd. rewrite Forall_forall in Hd. destruct (Hd n Hn) as [Hu _].
  unfold CM_TRANS_CHANNEL_IS_DYNAMIC, CM_DynTransChanGetTransportMode.
  rewrite (proj2 (Z.leb_le CM_TCID_UC_BEGIN _)), (proj2 (Z.leb_le _ CM_TCID_UC_END)) by apply Hu. split; [|done].
  unfold CM_TCID_UC_BEGIN, CM_TCID_UC_END, CM_TCID_BC_BEGIN, CM_TCID_MAX in *. apply andb_true_iff. rewrite !Z.leb_le. lia.
Qed.

Lemma establish_rsp_exact lcid rsp n s :
  good s -> n ∈ D s -> key2 n = (lcid, es_srcTcid rsp) -> tl_state n = CM_TRANS_CHANNEL_STATE_ACTIVATING ->
  (es_result rsp = CM_RESULT_ESTABLISH_SUCCESS -> CM_TRANS_CHANNEL_IS_DYNAMIC (es_dstTcid rsp) = true) ->
  wp (CM_DynTransChannelEstablishRspCbk lcid rsp) s (fun _ s' => settled s' /\
    if es_result rsp =? CM_RESULT_ESTABLISH_SUCCESS then s'.1 = set_dyn n (accept_node (es_dstTcid rsp)) s.1 else ended n s s' /\ side s'.1 = side s.1).
Proof.
  intros Hg Hn Hk Hst Hdst. destruct (dyn_tcid s n) as [Hd Hm]; [apply Hg|done|]. pose proof Hk as [= El Et]. rewrite Et in Hd, Hm.
  unfold CM_DynTransChannelEstablishRspCbk. rewrite Hd. cbn [negb]. pose proof (dynamic_not_fixed _ Hd) as Hf.
  destruct (Z.eqb_spec (es_result rsp) CM_RESULT_ESTABLISH_SUCCESS) as [E|E]; [rewrite (Hdst E)|]; cbn [negb andb].
  - apply wp_bind, (wp_find_exact n); [apply Hg|done..|]. apply wp_bind, wp_get_node; [apply Hg|by apply dyn_in_nodes|].
    rewrite Hst. change (CM_TRANS_CHANNEL_STATE_ACTIVATING =? CM_TRANS_CHANNEL_STATE_ACTIVATING) with true. cbn [negb].
    apply wp_bind. eapply wp_mono; [by eapply accepted_exact|]. intros r s' [Hg' E']. apply wp_ret. split; [by apply good_settled|exact E'].
  - apply wp_bind, (wp_find_exact n); [apply Hg|done..|]. apply wp_bind, wp_get_node; [apply Hg|by apply dyn_in_nodes|].
    rewrite Hst. change (CM_TRANS_CHANNEL_STATE_ACTIVATING =? CM_TRANS_CHANNEL_STATE_ACTIVATING) with true. cbn [negb].
    apply wp_bind. eapply wp_mono; [apply wp_side; [apply side_ending|by eapply failed_exact]|]. intros r s' [[? ?] ?]. by apply wp_ret.
Qed.

Lemma release_req_settles lcid reqId req : settles (CM_DynTransChannelReleaseReqCbk lcid reqId req).
Proof.
  unfold CM_DynTransChannelReleaseReqCbk. destruct (CM_TRANS_CHANNEL_IS_DYNAMIC _) eqn:Hd; cbn [negb]; [|apply settles_ret].
  by apply settles_then, released_settles, dynamic_not_fixed.
Qed.

Lemma release_rsp_settles lcid rsp : settles (CM_DynTransChannelReleaseRspCbk lcid rsp).
Proof.
  unfold CM_DynTransChannelReleaseRspCbk. destruct (CM_TRANS_CHANNEL_IS_DYNAMIC _) eqn:Hd; cbn [negb]; [|apply settles_ret].
  apply settles_then. case_match; by apply ending_settles, dynamic_not_fixed.
Qed.

Lemma proc_settles h lcid pkt : packet_ok pkt -> settles (run_handle h lcid pkt).
Proof.
  intros Hp. destruct (responses_total pkt Hp) as ((o1&E1&_)&(o2&E2&_)&(o3&E3&_)). destruct h; cbn [run_handle].
  - by apply quiet_settles, quiet_cap_req.
  - by apply quiet_settles, quiet_cap_rsp.
  - destruct (establish_req_total pkt Hp) as (r&req&E&Hr). intros s Hg. apply wp_bind. eapply wp_opt; [exact E|].
    cbv beta iota. destruct (Z.eqb_spec r CM_SUCCESS) as [e|]; cbn [negb]; [|by apply wp_ret, good_settled]. apply wp_bind, wp_cg.
    revert s Hg. intros s Hg. case_match; [|by apply wp_bind, wp_ret, wp_ret, good_settled]. by apply (settles_then _ CM_SUCCESS (establish_req_settles _ _ _ (Hr e))).
  - intros s Hg. apply wp_bind. eapply wp_opt; [exact E1|]. destruct o1; [|by apply wp_ret, good_settled]. apply wp_bind, wp_cg.
    case_match; [|by apply wp_bind, wp_ret, wp_ret, good_settled]. by apply (settles_then _ CM_SUCCESS (establish_rsp_settles _ _)).
  - intros s Hg. apply wp_bind. eapply wp_opt; [exact E2|]. destruct o2; [|by apply wp_ret, good_settled]. apply wp_bind, wp_cg.
    case_match; [|by apply wp_bind, wp_ret, wp_ret, good_settled]. by apply (settles_then _ CM_SUCCESS (release_req_settles _ _ _)).
  - intros s Hg. apply wp_bind. eapply wp_opt; [exact E3|]. destruct o3; [|by apply wp_ret, good_settled]. apply wp_bind, wp_cg.
    case_match; [|by apply wp_bind, wp_ret, wp_ret, good_settled]. by apply (settles_then _ CM_SUCCESS (release_rsp_settles _ _)).
Qed.

(** Whatever the peer sends: the packet is read inside its bounds. *)
Lemma recv_settles lcid b : (forall b', b = Some b' -> buff_wf b') -> settles (CM_RecvSignalingData lcid b).
Proof.
  intros Hb. unfold CM_RecvSignalingData. destruct b as [b|]; [|apply settles_ret]. specialize (Hb b eq_refl).
  destruct (Z.ltb_spec (SDF_DataLenGet b) 1); [apply settles_ret|]. destruct (parse_header b Hb) as (o&E&Ho).
  intros s Hg. destruct (rd_first b Hb) as [code Ec]; [done|]. apply wp_bind. eapply wp_opt; [exact Ec|].
  destruct (CM_SignalingGet code) as [sig|]; [|by apply wp_ret, good_settled]. apply wp_bind. eapply wp_opt; [exact E|].
  destruct o as [head|]; [|by apply wp_ret, good_settled]. destruct Ho as [Hp _].
  apply wp_bind, (wp_quiet _ s); [|apply Hg|].
  { case_match; [apply quiet_cache_remove|apply quiet_ret]. }
  intros ok s1 Hu. pose proof (good_quiet _ _ Hg Hu) as Hg1. destruct ok; cbn [negb]; [|by apply wp_ret, good_settled].
  revert s1 Hu Hg1. intros s1 _ Hg1. by apply (settles_then _ CM_SUCCESS (proc_settles _ _ _ Hp)).
Qed.

(** A response that answers a request: the request leaves the cache, and the response is
    processed. *)
Lemma rd_buff_data b i : buff_wf b -> 0 <= i < dataLen b -> rd (bmem b) (dataOff b + i) = rd (buff_data b) i.
Proof. intros Hwf Hi. unfold buff_data. rewrite rd_mem_read; [done|apply Hwf|done]. Qed.

Lemma wp_recv_response lcid b sig id data m e s (Q : Z -> state -> Prop) :
  base_ok s -> buff_wf b -> is_u8 id -> bytes_ok data -> zlen data < 65536 ->
  sig ∈ g_signalings -> recvCode sig <> requestCode sig -> buff_data b = signaling_bytes (recvCode sig) id data ->
  g_cachedSignalings s.1 = Some m -> SDF_MapFind CM_SignalingCacheCompare m id = Some e ->
  cs_lcid (snd e) = lcid -> cs_code (snd e) = requestCode sig ->
  (forall s1, undisturbed s s1 -> s1.1 = without m id s.1 ->
     wp (run_handle (handle sig) lcid (mk_head (recvCode sig) id (zlen data) data)) s1 (fun _ => Q CM_SUCCESS)) ->
  wp (CM_RecvSignalingData lcid (Some b)) s Q.
Proof.
  intros Hs Hwf Hid Hd Hsm Hsig Hne Hb Hm He El Ec HQ. pose proof (length_buff_data b Hwf) as Hlen. rewrite Hb, zlen_signaling in Hlen.
  assert (is_u8 (recvCode sig) /\ CM_SignalingGet (recvCode sig) = Some sig) as [Hc Hget].
  { clear - Hsig. revert sig Hsig. apply Forall_forall. unfold g_signalings. repeat (apply Forall_cons_2; [split; [vm_compute; by split|done]|]). by apply Forall_nil_2. }
  unfold CM_RecvSignalingData, SDF_DataLenGet, SDF_DataOffset. rewrite (proj2 (Z.ltb_ge _ _)) by lia.
  apply wp_bind. eapply wp_opt.
  { rewrite <- (Z.add_0_r (dataOff b)), rd_buff_data, Hb by (done || lia). unfold signaling_bytes. rewrite u8_small by done. reflexivity. }
  rewrite Hget. apply wp_bind. eapply wp_opt; [by apply (header_roundtrip b (recvCode sig) id data)|]. cbn [h_identifier].
  rewrite (proj2 (Z.eqb_neq _ _) Hne). cbn [negb]. apply wp_bind. eapply wp_mono; [by apply (wp_cache_remove _ _ _ m e)|].
  intros ok s1 (->&Hu&E). cbn [negb]. apply wp_bind. eapply wp_mono; [by apply HQ|]. intros r s2 HQ2. by apply wp_ret.
Qed.

(** ** Timeouts *)
Lemma side_get_node_then {B} p (k : SleTransLcid -> M B) : (forall n, sidestep (k n)) -> sidestep (st_bind (get_node p) k).
Proof. intros Hk. apply side_bind; [apply side_get_node|exact Hk]. Qed.

Lemma side_timeouts args :
  sidestep (CM_SignalingTransChanEstablishReqTimeout args) /\ sidestep (CM_SignalingTransChanReleaseReqTimeout args).
Proof.
  destruct args as [[lcid src dst]|]; [|split; apply side_ret].
  unfold CM_SignalingTransChanEstablishReqTimeout, CM_SignalingTransChanReleaseReqTimeout, CM_DynTransChannelEstablishRspCbk,
    CM_DynTransChannelReleaseRspCbk; cbn [ta_lcid ta_srcTcid ta_dstTcid es_srcTcid es_result es_dstTcid rs_srcTcid rs_result rs_dstTcid].
  split; (apply side_bind; [apply side_cg|]; intros cb; destruct cb; [|apply side_ret]; case_match; [apply side_ret|]).
  - case_match; [apply side_ret|]. apply side_bind; [apply side_find_local|]. intros t. destruct t; [|apply side_ret].
    apply side_get_node_then. intros n. case_match; [apply side_ret|]. apply side_bind; [|intros ?; apply side_ret]. apply side_ending.
  - apply side_bind; [|intros ?; apply side_ret]. apply side_ending.
Qed.

Lemma timeouts_settle args :
  settles (CM_SignalingTransChanEstablishReqTimeout args) /\ settles (CM_SignalingTransChanReleaseReqTimeout args).
Proof.
  destruct args as [a|]; [|split; apply settles_ret].
  split; intros s Hg; apply wp_bind, wp_cg; (case_match; [|by apply wp_ret, good_settled]).
  - by apply establish_rsp_settles.
  - by apply release_rsp_settles.
Qed.

Definition waits (id : Z) c : Prop := exists m e, g_cachedSignalings c = Some m /\ SDF_MapFind CM_SignalingCacheCompare m id = Some e.

Lemma waits_side id c c' : side c' = side c -> waits id c -> waits id c'.
Proof. intros [= _ E]. unfold waits. by rewrite E. Qed.

Lemma wp_get_cached id s (Q : CM_CachedSignaling -> state -> Prop) :
  waits id s.1 -> (forall m e, g_cachedSignalings s.1 = Some m -> SDF_MapFind CM_SignalingCacheCompare m id = Some e -> Q (snd e) s) ->
  wp (get_cached id) s Q.
Proof.
  intros (m&e&Em&Ee) HQ. unfold get_cached. apply wp_bind, wp_cg. rewrite Em. eapply wp_opt; [|by eapply HQ]. cbn. by rewrite Ee.
Qed.

Lemma map_fst_update q (f : CM_CachedSignaling -> CM_CachedSignaling) (l : list (Z * CM_CachedSignaling)) :
  (forall x, cs_id (f x) = cs_id x) -> NoDup (map fst l) /\ Forall (fun e => fst e = cs_id (snd e)) l ->
  let l' := update_first q (fun e => (fst e, f (snd e))) l in NoDup (map fst l') /\ Forall (fun e => fst e = cs_id (snd e)) l'.
Proof.
  intros Hf [Hn Hl]. cbn. split; [by rewrite map_update_first|]. apply Forall_update_first; [|done]. intros e. cbn. by rewrite Hf.
Qed.

Definition stop_timer (x : CM_CachedSignaling) : CM_CachedSignaling := x <| cs_timer := CM_INVALID_TIMER_HANDLE |>.

(** The end of a request: it leaves the cache, and nothing else changes. *)
Lemma wp_end_request id s :
  base_ok s -> waits id s.1 -> wp (end_request id) s (fun _ s' => undisturbed s s' /\ ~ waits id s'.1).
Proof.
  intros Hb Hw. apply wp_bind, wp_get_cached; [done|]. intros m e Hm He. apply wp_bind, wp_cupd.
  pose proof (bo_cache _ Hb) as Hci. rewrite Hm in Hci.
  match goal with |- wp _ (?c', _) _ => set (m3 := g_cachedSignalings c'); change c' with (s.1 <| g_cachedSignalings := m3 |>) end.
  set (m4 := mk_map (update_first (fun e => fst e =? id) (fun e => (fst e, stop_timer (snd e))) (entry m))).
  assert (m3 = Some m4) as E3 by (unfold m3, modify; cbn; by rewrite Hm).
  assert (cache_inv (Some m4)) as Hm4 by exact (map_fst_update (fun e => fst e =? id) stop_timer (entry m) (fun x => eq_refl) Hci).
  assert (cs_id (snd e) = id) as Eid.
  { destruct Hci as [_ Hf]. rewrite Forall_forall in Hf. apply find_first_Some in He as [Hin Hk]. rewrite <- (Hf e Hin).
    by apply (key_is_true _ cache_compare_eq) in Hk. }
  pose proof (set_cache_ok m3 s Hb ltac:(by rewrite E3)) as Hu. rewrite Eid. eapply wp_mono.
  - apply (wp_erase_exact id m4); [apply Hu|exact E3].
  - intros [] s2 [Hu2 E]. split; [by eapply undisturbed_trans|]. intros (m'&e'&Hm'&He'). rewrite E in Hm'. injection Hm' as <-.
    by rewrite erased_gone in He'.
Qed.

Lemma run_timeout_settles cache : settles (run_timeout cache) /\ sidestep (run_timeout cache).
Proof.
  unfold run_timeout. split; (case_match; [case_match; [apply timeouts_settle || apply side_timeouts..]|apply settles_ret || apply side_ret]).
Qed.

Lemma timeout_settles id s : good s -> waits id s.1 -> wp (CM_SignalingTimeoutCbkInner id) s (fun _ => settled).
Proof.
  intros Hg Hw. apply wp_bind, wp_get_cached; [done|]. intros m e Hm He. apply wp_bind.
  destruct (run_timeout_settles (snd e)) as [Hs Hsd]. eapply wp_mono; [apply wp_side; [exact Hsd|by apply Hs]|].
  intros [] s1 [Hs1 Es]. eapply wp_mono; [apply wp_end_request; [apply Hs1|by eapply waits_side]|].
  intros [] s2 [Hu _]. by eapply settled_quiet.
Qed.

(** The timeout of a request whose channel still waits. *)
Lemma timeout_exact id m e a n s :
  good s -> g_signalingTransChanCbks s.1 = true -> g_cachedSignalings s.1 = Some m -> SDF_MapFind CM_SignalingCacheCompare m id = Some e ->
  cs_cbk (snd e) = Some CM_SignalingTransChanEstablishReqTimeout_cbk -> cs_args (snd e) = Some a ->
  n ∈ D s -> key2 n = (ta_lcid a, ta_srcTcid a) -> tl_state n = CM_TRANS_CHANNEL_STATE_ACTIVATING ->
  wp (CM_SignalingTimeoutCbkInner id) s (fun _ s' => settled s' /\ ended n s s' /\ ~ waits id s'.1).
Proof.
  intros Hg Hcb Hm He Hc Ha Hn Hk Hst. assert (waits id s.1) as Hw by (by exists m, e). apply wp_bind, wp_get_cached; [done|].
  intros m' e' Hm' He'. rewrite Hm in Hm'. injection Hm' as <-. rewrite He in He'. injection He' as <-. apply wp_bind.
  unfold run_timeout. rewrite Hc, Ha. unfold CM_SignalingTransChanEstablishReqTimeout. apply wp_bind, wp_cg. rewrite Hcb.
  eapply wp_mono; [by apply (establish_rsp_exact _ _ n)|]. intros [] s1 [Hs1 [He1 Es]].
  eapply wp_mono; [apply wp_end_request; [apply Hs1|by eapply waits_side]|]. intros [] s2 [Hu Hno].
  pose proof (ud_part _ _ Hu) as EP. unfold chan_part in EP. injection EP as E1 E2 E3 E4.
  split; [by eapply settled_quiet|]. split; [|done]. destruct He1 as [HD Hf]. split; [by rewrite E2|]. intros pool Hp. rewrite E3. by apply Hf.
Qed.

(** ** The requests of the QoS manager *)
Lemma establish_settles param :
  (forall p, param = Some p -> conf_ok (qe_transModeConfig p)) -> settles (CM_DynTransChannelEstablishReq param).
Proof.
  intros Hp s Hg. unfold CM_DynTransChannelEstablishReq. apply wp_bind, wp_cg. case_match; [by apply wp_ret, good_settled|].
  destruct param as [p|]; [|by apply wp_ret, good_settled]. specialize (Hp p eq_refl). case_match eqn:Hm; [by apply wp_ret, good_settled|].
  case_match; [by apply wp_ret, good_settled|]. apply negb_false_iff, andb_true_iff in Hm as [_ Hm%Z.ltb_lt].
  revert s Hg H. intros s Hg _. unfold CM_DynTransChannelCreate. apply wp_bind, wp_bind, wp_cm_link_find; [intros _; by apply wp_ret, wp_ret, good_settled|].
  intros n [Hn _]%find_first_Some. apply wp_bind, (wp_get_link n); [apply Hg|done|]. apply wp_bind.
  eapply wp_mono; [apply establishing_settles; [exact Hp| |exact Hg]|intros r s' Hs; by apply wp_ret, wp_ret].
  destruct Hp. cbn. cint.
Qed.

Lemma release_settles param : settles (CM_DynTransChannelReleaseReq param).
Proof.
  intros s Hg. unfold CM_DynTransChannelReleaseReq. apply wp_bind, wp_cg. case_match; [by apply wp_ret, good_settled|].
  destruct param as [p|]; [|by apply wp_ret, good_settled]. destruct (CM_TRANS_CHANNEL_IS_DYNAMIC _) eqn:Hd; cbn [negb]; [|by apply wp_ret, good_settled].
  apply wp_bind, wp_cm_link_find; [intros _; by apply wp_ret, good_settled|].
  intros n [Hn _]%find_first_Some. apply wp_bind, (wp_get_link n); [apply Hg|done|]. apply wp_bind.
  eapply wp_mono; [apply releasing_settles; [|exact Hg]|intros r s' Hs; by apply wp_ret]. by apply dynamic_not_fixed.
Qed.
End entry.
