(* ===== verification/CmLinks.v ===== *)
(** * CM: links that come up and go down

    The release of all the channels of a link, the notification of the modules, and the
    procedures of the access layer that lead to them. *)
From S2P Require Import Prelude Utils SdfErrno SdfBuff SdfContainers CmData DtapEnv DtapTrans DtapChannel DtapProps DtapEvents DtapMachine CmState CmTcid CmChannel CmSignal CmCache CmDynTrans CmCap CmRecv CmPackets CmInv CmQuiet CmOps CmNodes CmActivate CmHandlers CmEntry.

(** ** Pools that are removed *)
Lemma find_removed_other P lcid l : l <> lcid -> find_first (pool_of l) (remove_first (pool_of lcid) P) = find_first (pool_of l) P.
Proof.
  intros Hne. unfold pool_of. induction P as [|p P IH]; cbn; [done|]. destruct (Z.eqb_spec (pl_lcid p) lcid) as [e|e]; cbn.
  - destruct (Z.eqb_spec (pl_lcid p) l); [congruence|done].
  - by rewrite IH.
Qed.

Section links.
Context {W : Type} {HW : World W} {HB : Below W} {HBO : BelowOk W}.
Notation M := (ST (Cm * W)).
Notation state := (Cm * W)%type.
Implicit Types (s : state) (c : Cm) (w : W) (n : SleTransLcid).
Notation F s := (g_fixedTransListHead s.1).
Notation D s := (g_dynTransListHead s.1).
Notation P s := (g_cmDynTransPoolListHead s.1).

Definition gone lcid s : Prop := forall n, n ∈ D s -> tl_lcid n <> lcid.

(** ** All the channels of a link are released *)
Lemma wp_notify lcid l s (Q : unit -> state -> Prop) :
  settled s -> NoDup l -> (forall n, n ∈ l -> n ∈ D s) ->
  (memory_suffices W -> forall n, n ∈ D s -> tl_lcid n = lcid -> n ∈ l) ->
  (forall s', settled s' -> (memory_suffices W -> gone lcid s') -> Q tt s') ->
  wp (notify_disconnected (map Some (map tl_ptr l))) s Q.
Proof.
  revert s. induction l as [|n l IH]; intros s Hs Hnd Hin Hall HQ; cbn [map notify_disconnected].
  { apply wp_ret, HQ; [done|]. intros Hm n Hn El. by apply (not_elem_of_nil n), Hall. }
  apply NoDup_cons in Hnd as [Hnl Hnd]. pose proof (Hin n ltac:(by left)) as Hn. pose proof Hs as [Hg Hi]. pose proof Hg as [Hb Hc Ht].
  apply wp_bind, wp_get_node; [apply Hc|by apply dyn_in_nodes|].
  assert (forall (cb : M unit), wp cb s (fun _ => aside s) ->
    wp (cb ;;! CM_ReleaseDynamicTransChannelByLocalTcid (Some (tl_ptr n))) s (fun _ s' => wp (notify_disconnected (map Some (map tl_ptr l))) s' Q)) as Hrel.
  { intros cb Hcb. apply wp_bind. eapply wp_mono; [exact Hcb|]. intros [] s1 Ha. pose proof (settled_quiet _ _ Hs (aside_undisturbed _ _ Ha)) as [Hg1 Hi1].
    pose proof (aside_elem n _ _ Ha Hn) as Hn1. pose proof (proj1 Ha) as E1. pose proof Hg1 as [Hb1 Hc1 Ht1].
    eapply wp_mono; [by apply wp_release_dyn|]. intros [] s2 Hd.
    assert (D s2 = remove_first (node_at (tl_ptr n)) (D s)) as ED by (by rewrite (dr_cm _ _ _ Hd), E1).
    pose proof (ci_ptrs _ _ _ _ Hc) as Hp. rewrite map_app in Hp. apply NoDup_app in Hp as (_&_&Hp). apply IH; [|done| | |done].
    - split; [by eapply dropped_good|]. intros Hm. eapply dropped_step; [exact Hc1|done|done|by apply Hi1|done].
    - intros m Hm. rewrite ED. destruct (removed_elem (D s) n m Hp Hn (Hin m ltac:(by right))) as [?| ->]; [done|by destruct Hnl].
    - intros Hm m Hmd El. rewrite ED in Hmd. destruct (removed_not (D s) n m Hp Hn Hmd) as [Hmd' Hne].
      by apply (Hall Hm), elem_of_cons in Hmd' as [|]. }
  pose proof (ci_dyn _ _ _ _ Hc) as Hdy. rewrite Forall_forall in Hdy. destruct (Hdy n Hn) as [_ Hlive].
  destruct (wp_callbacks n s Hb Hc Hn) as (He&_&Hst). apply wp_bind.
  destruct Hlive as [-> | [-> | ->]]; apply Hrel; (apply He || apply Hst).
Qed.

Lemma release_all_settles lcid s : settled s ->
  wp (CM_DynTransChannReleaseAllNode lcid) s (fun _ s' => settled s' /\ (memory_suffices W -> gone lcid s')).
Proof.
  intros Hs. pose proof Hs as [Hg Hi]. unfold CM_DynTransChannReleaseAllNode. apply wp_bind, wp_create_vector; [apply Hg| |].
  { intros s' A Nm. apply wp_ret. split; [by eapply settled_quiet, aside_undisturbed|done]. }
  intros v s1 A1 Hv Lv _. pose proof (length_vlist v (proj1 Hv)) as Hz. rewrite Lv in Hz. cbn in Hz.
  destruct (chans_dyn _ (cg_chans _ Hg)) as [HnD HkD].
  unfold CM_FindDynTransChannelByLcid. apply wp_bind, wp_bind, wp_cg. rewrite (proj1 A1).
  apply wp_bind, wp_push_nodes; [apply A1|done|pose proof (of_link_short lcid _ HnD HkD); lia|].
  intros v2 s2 l A2 Hv2 Hsub Hm Lv2. pose proof (aside_trans _ _ _ A1 A2) as A12. apply wp_ret.
  pose proof (settled_quiet _ _ Hs (aside_undisturbed _ _ A12)) as Hs2. rewrite Lv, app_nil_l in Lv2. pose proof (proj1 A12) as E.
  assert (memory_suffices W -> forall n, n ∈ D s2 -> tl_lcid n = lcid -> n ∈ l) as Hall.
  { intros Hmem n Hn El. rewrite (Hm Hmem). rewrite E in Hn. by apply of_link_elem. }
  cbv beta iota. destruct (Z.eqb_spec (vsize v2) 0) as [e|e]; cbn [negb].
  - apply wp_ret. split; [done|]. intros Hmem n Hn El. specialize (Hall Hmem n Hn El). pose proof (length_vlist v2 (proj1 Hv2)) as Hz2.
    rewrite Lv2, e, !length_map in Hz2. destruct l; [by apply not_elem_of_nil in Hall|cbn in Hz2; lia].
  - unfold CM_DynTransChannelNotifyAllDisconnected. rewrite Lv2. apply (wp_notify lcid); [done| | |done|by split].
    + eapply NoDup_sub; [exact Hsub|]. eapply NoDup_sub; [apply of_link_sub|]. by eapply NoDup_fmap_1.
    + intros n Hn. rewrite E. eapply elem_of_sublist in Hn; [|exact Hsub]. by apply of_link_elem in Hn as [].
Qed.

(** ** The pool of a link *)
Definition with_pools s (Q : list CM_DynTcidPool) : state := (s.1 <| g_cmDynTransPoolListHead := Q |>, s.2).

Lemma with_pools_base s Q : base_ok s -> base_ok (with_pools s Q).
Proof. intros Hb. by destruct s as [c w]; apply (base_same c). Qed.

Lemma activate_pool_settles lcid : 0 <= lcid < 4096 -> forall s, good s -> wp (CM_DynTcidActivatePool lcid) s (fun _ => good).
Proof.
  intros Hl s Hg. unfold CM_DynTcidActivatePool, CM_DynTransGetTcidPool. apply wp_bind, wp_cg.
  destruct (find_first (pool_of lcid) (P s)) as [pool|] eqn:Ef; [by apply wp_ret|].
  apply wp_bind, wp_quiet; [apply silent_quiet, silent_alloc|apply Hg|]. intros ok s1 Hu. pose proof (good_quiet _ _ Hg Hu) as Hg1.
  pose proof (ud_part _ _ Hu) as E. unfold chan_part in E. injection E as E1 E2 E3 E4. destruct ok; cbn [negb]; [|by apply wp_ret].
  apply wp_bind, wp_cupd, wp_ret. pose proof Hg1 as [[Hb1 Hc1 Ht1] [Ha1 Hp1]].
  set (new := mk_pool lcid (replicate (Z.to_nat CM_DYN_UNICAST_TCID_SIZE_MAX) false)).
  change (s1.1 <| g_cmDynTransPoolListHead ::= _ |>, s1.2) with (with_pools s1 (P s1 ++ [new])).
  assert (forall l, find_first (pool_of l) (P s1 ++ [new]) = match find_first (pool_of l) (P s1) with Some p => Some p
    | None => if lcid =? l then Some new else None end) as Hfind.
  { intros l. clear. induction (P s1) as [|p Q IH]; [done|]. cbn [app find_first]. destruct (pool_of l p); [done|exact IH]. }
  split; [constructor|constructor].
  - by apply with_pools_base.
  - destruct Hc1. constructor; try done; cbn.
    + rewrite map_app. apply NoDup_app. split_and!; [done| |apply NoDup_singleton]. intros x Hx ->%list_elem_of_singleton. cbn in Hx.
      apply list_elem_of_fmap in Hx as (p&Ep&Hp). rewrite <- E3 in Ef.
      apply find_first_None in Ef. rewrite Forall_forall in Ef. specialize (Ef p Hp). apply Z.eqb_neq in Ef. congruence.
    + apply Forall_app. split; [done|]. constructor; [|done]. split; [apply length_replicate|done].
  - unfold tcids_ok; cbn. intros n pool Hn. rewrite Hfind. destruct (Hp1 n Hn) as [p Ep]. rewrite Ep. intros [= <-]. by apply Ht1.
  - done.
  - cbn. intros n Hn. rewrite Hfind. destruct (Hp1 n Hn) as [p Ep]. by rewrite Ep.
Qed.

Lemma destroy_pool_settles lcid s : settled s -> (memory_suffices W -> gone lcid s) -> wp (CM_DynTcidDestroyPool lcid) s (fun _ => settled).
Proof.
  intros Hs Hgone. unfold CM_DynTcidDestroyPool, CM_DynTransGetTcidPool. apply wp_bind, wp_cg.
  destruct (find_first (pool_of lcid) (P s)) as [pool|] eqn:Ef; [|by apply wp_ret]. apply wp_bind, wp_cupd, wp_ret. clear pool Ef.
  change (s.1 <| g_cmDynTransPoolListHead ::= _ |>, s.2) with (with_pools s (remove_first (pool_of lcid) (P s))).
  destruct Hs as [[Hb Hc Ht] Hi]. pose proof (remove_first_sub (pool_of lcid) (P s)) as Hsub.
  assert (forall l, l <> lcid -> find_first (pool_of l) (P (with_pools s (remove_first (pool_of lcid) (P s)))) = find_first (pool_of l) (P s)) as Hf
    by (intros l; apply find_removed_other).
  assert (find_first (pool_of lcid) (remove_first (pool_of lcid) (P s)) = None) as Hno.
  { pose proof (ci_pools _ _ _ _ Hc) as Hn. clear -Hn. unfold pool_of. induction (P s) as [|p Q IH]; cbn; [done|]. cbn in Hn. apply NoDup_cons in Hn as [Hp Hn].
    destruct (Z.eqb_spec (pl_lcid p) lcid) as [e|e]; [|cbn; destruct (Z.eqb_spec (pl_lcid p) lcid); [done|by apply IH]].
    clear IH Hn. induction Q as [|q Q IH]; cbn in *; [done|]. apply not_elem_of_cons in Hp as [H1 H2].
    destruct (Z.eqb_spec (pl_lcid q) lcid); [congruence|by apply IH]. }
  split; [constructor|intros Hm; constructor].
  - by apply with_pools_base.
  - destruct Hc. constructor; try done; cbn; [eapply NoDup_sub; [by apply map_sub|done]|by eapply Forall_sub].
  - intros n pool Hn. cbn. destruct (decide (tl_lcid n = lcid)) as [->|]; [by rewrite Hno|]. rewrite find_removed_other by done. by apply Ht.
  - apply (Hi Hm).
  - intros n Hn. rewrite Hf; [by apply (Hi Hm)|by apply (Hgone Hm)].
Qed.

(** ** The notification of the modules *)
Definition steady (I : state -> Prop) {A} (m : M A) : Prop := forall s, I s -> wp m s (fun _ => I).

Lemma dyn_link_up lcid : 0 <= lcid < 4096 -> steady good (CM_DynTransLogicLinkCbk (mk_linkstate lcid CM_LINK_STATE_CONNECTED)).
Proof. intros Hl s Hg. apply wp_bind. eapply wp_mono; [by apply activate_pool_settles|]. intros r s' Hg'. by apply wp_ret. Qed.

Lemma dyn_link_down lcid : steady settled (CM_DynTransLogicLinkCbk (mk_linkstate lcid CM_LINK_STATE_DISCONNECTED)).
Proof.
  intros s Hs. apply wp_bind. eapply wp_mono; [by apply release_all_settles|]. intros [] s' [Hs' Hgone].
  apply wp_bind. eapply wp_mono; [by apply destroy_pool_settles|]. intros r s2 Hs2. by apply wp_ret.
Qed.

Lemma quiet_ask cl : quiet (cm_ask cl).
Proof. apply silent_quiet, silent_ask. Qed.
Lemma quiet_ask_then {A} cl (a : A) : quiet (let! _ := cm_ask cl in st_ret a).
Proof. apply quiet_bind; [apply quiet_ask|intros _; apply quiet_ret]. Qed.
Lemma quiet_dtap_link st : quiet (over (B := Cm) (dtapLogicLinkCbk st)).
Proof.
  intros [c w] Hs. apply wp_over. eapply wp_mono; [apply below_link, Hs|]. intros [] w' [Hok Hk].
  constructor; [by eapply base_world|done|cbn; lia|done].
Qed.
Lemma quiet_signaling_link st : quiet (CM_SignalingLogicLinkCbk st).
Proof.
  unfold CM_SignalingLogicLinkCbk. case_match.
  - apply quiet_bind; [apply quiet_cap_query|intros _; apply quiet_ret].
  - case_match; [apply quiet_cache_clear|apply quiet_ret].
Qed.

Section notify.
Context (I : state -> Prop) (st : CM_LogicLinkState).
Hypothesis I_base : forall s, I s -> base_ok s.
Hypothesis I_quiet : forall s s', I s -> undisturbed s s' -> I s'.
Hypothesis I_dyn : steady I (CM_DynTransLogicLinkCbk st).

Lemma quiet_steady {A} (m : M A) : quiet m -> steady I m.
Proof using I_base I_quiet. intros Hm s Hs. apply wp_quiet; [done|by apply I_base|]. intros a s'. by apply I_quiet. Qed.

Lemma exec_steady i : steady I (CM_ExecLogicLinkModuleCbks i st).
Proof using I_base I_quiet I_dyn.
  unfold CM_ExecLogicLinkModuleCbks. case_match; [apply quiet_steady, quiet_ret|]. intros s Hs. apply wp_bind, wp_cg.
  destruct (mjoin _) as [[]|].
  - by apply (quiet_steady _ (quiet_signaling_link st)).
  - by apply (quiet_steady _ (quiet_dtap_link st)).
  - by apply I_dyn.
  - by apply quiet_steady; [apply quiet_ask_then|].
  - by apply wp_ret.
Qed.

Lemma steady_for {B} (l : list B) (body : B -> M unit) : (forall b, steady I (body b)) -> steady I (st_for l body).
Proof. intros Hb s Hs. apply (wp_for (fun _ => I)); [done| |done]. intros b l1 s1. apply Hb. Qed.

Lemma notify_steady cct : steady I (CM_NotifyLogicLinkCbks st cct).
Proof using I_base I_quiet I_dyn.
  intros s Hs. apply wp_bind. eapply wp_mono.
  - instantiate (1 := fun _ => I). case_match; [|case_match; [|by apply wp_ret]].
    + apply wp_bind. eapply wp_mono; [apply steady_for; [|exact Hs]|].
      * intros i. case_match; [apply quiet_steady, quiet_ret|apply exec_steady].
      * intros [] s1 Hs1. unfold CM_NotifyLogicLinkDtapCbks. case_match; [by apply wp_ret|by apply exec_steady].
    + apply steady_for; [|exact Hs]. intros i. apply exec_steady.
  - intros [] s1 Hs1. case_match; [apply quiet_steady; [apply quiet_ask_then|done]|by apply wp_ret].
Qed.
End notify.

Lemma notify_up lcid cct : 0 <= lcid < 4096 -> steady good (CM_NotifyLogicLinkCbks (mk_linkstate lcid CM_LINK_STATE_CONNECTED) cct).
Proof. intros Hl. apply notify_steady; [intros s Hg; apply Hg|exact good_quiet|by apply dyn_link_up]. Qed.
Lemma report_down lcid cct : steady settled (CM_ReportLogicLinkCbks lcid cct CM_LINK_STATE_DISCONNECTED).
Proof. apply notify_steady; [intros s Hg; apply Hg|exact settled_quiet|apply dyn_link_down]. Qed.

End links.

(** ** The procedures of the access layer *)
Section procedures.
Context {W : Type} {HW : World W} {HB : Below W} {HBO : BelowOk W}.
Notation M := (ST (Cm * W)).
Notation state := (Cm * W)%type.
Implicit Types (s : state) (c : Cm) (w : W) (n : SleLogicLink).

Lemma wp_interrupt n s : base_ok s -> n ∈ g_deviceLinkListHead s.1 ->
  wp (CM_ConnectionProcInterruptReq (sl_ptr n)) s (fun _ => undisturbed s).
Proof.
  intros Hs Hn. unfold CM_ConnectionProcInterruptReq. apply wp_bind. eapply wp_mono; [apply wp_set_link; [done|done|done|done]|].
  intros [] s1 [Hu Hn1]. apply wp_bind. change (sl_ptr n) with (sl_ptr (n <| sl_status := CM_LINK_STATE_DISCONNECTING |>)).
  apply wp_get_link; [apply Hu|done|]. apply wp_quiet; [apply quiet_ask_then|apply Hu|]. intros a s2 Hu2. by eapply undisturbed_trans.
Qed.

Lemma quiet_create_end cct result : quiet (create_connection_end cct result).
Proof.
  unfold create_connection_end. apply quiet_bind; [|intros _; apply quiet_ask_then]. case_match; [|apply quiet_ret].
  intros s Hs. apply wp_bind, wp_cm_link_find; [intros _; by apply wp_ret, undisturbed_refl|]. intros n [Hn _]%find_first_Some.
  by apply wp_link_remove.
Qed.

Lemma fixed_only_good s s' : in_step s -> fixed_only s s' -> good s'.
Proof. intros [_ Hp] [H1 H2 E1 E2]. split; [done|]. constructor; [done|]. by rewrite E1, E2. Qed.

(** A connected link has an identifier of its own when the access layer reports it. *)
Definition reports_link (rsp : CM_ConnectParamRsp) c : Prop :=
  forall n, find_first (fun n => bool_decide (sl_rmtAddr n = cr_addr rsp)) (g_deviceLinkListHead c) = Some n ->
    sl_status n = CM_LINK_STATE_CONNECTED -> 0 <= cr_lcid rsp < 4096.

Lemma create_settles rsp s : good s -> reports_link rsp s.1 -> wp (CM_SleCreateConnectionProc rsp) s (fun _ => settled).
Proof.
  intros Hg Hr. unfold CM_SleCreateConnectionProc. apply wp_bind, wp_cm_link_find; [intros _; by apply wp_ret, good_settled|].
  intros n Hf. pose proof Hf as [Hn _]%find_first_Some. apply wp_bind, (wp_get_link n); [apply Hg|done|].
  destruct (Z.eqb_spec (sl_status n) CM_LINK_STATE_CONNECTED) as [e|e].
  - specialize (Hr n Hf e). apply wp_bind. eapply wp_mono; [apply silent_ask, Hg|]. intros r s1 A.
    pose proof (good_quiet _ _ Hg (aside_undisturbed _ _ A)) as Hg1. assert (n ∈ g_deviceLinkListHead s1.1) as Hn1 by (by rewrite (proj1 A)).
    case_match. { eapply wp_mono; [apply wp_interrupt; [apply Hg1|done]|]. intros [] s2 Hu. by eapply good_settled, good_quiet. }
    apply wp_bind. eapply wp_mono; [apply wp_set_link; [apply Hg1|done|done|done]|]. intros [] s2 [Hu Hn2].
    pose proof (good_quiet _ _ Hg1 Hu) as Hg2. apply wp_bind.
    eapply wp_mono; [apply wp_side; [apply side_activate_fixed|apply (wp_activate_fixed _ s2 (fun _ => fixed_only s2)); [apply Hg2|apply Hg2|done|done]]|].
    intros r2 s3 [Hfo Hsd]. apply fixed_only_good in Hfo; [|apply Hg2]. injection Hsd as EL _. case_match.
    + set (n2 := n <| sl_role := cr_role rsp |>) in Hn2. change (sl_ptr n) with (sl_ptr n2).
      eapply wp_mono; [apply wp_interrupt; [apply Hfo|by rewrite EL]|]. intros [] s4 Hu4. by eapply good_settled, good_quiet.
    + by apply quiet_settles; [apply quiet_create_end|].
  - apply wp_bind. eapply wp_mono; [apply wp_link_remove; [apply Hg|done]|]. intros [] s1 Hu. pose proof (good_quiet _ _ Hg Hu) as Hg1.
    apply wp_bind. eapply wp_mono.
    { instantiate (1 := fun _ => settled). case_match; [|by apply wp_ret, good_settled]. by apply report_down, good_settled. }
    intros [] s2 Hs2. apply wp_quiet; [apply quiet_create_end|apply Hs2|]. intros a s3. by apply settled_quiet.
Qed.

Lemma version_settles lcid : 0 <= lcid < 4096 -> steady good (CM_SleReadRemoteVersionProc lcid).
Proof.
  intros Hl s Hg. unfold CM_SleReadRemoteVersionProc. apply wp_bind, wp_cm_link_find; [intros _; by apply wp_ret|].
  intros n [Hn _]%find_first_Some. apply wp_bind, (wp_get_link n); [apply Hg|done|]. by apply notify_up.
Qed.

Lemma data_len_settles lcid result : 0 <= lcid < 4096 -> steady good (CM_SleSetDataLenProc lcid result).
Proof.
  intros Hl s Hg. unfold CM_SleSetDataLenProc. case_match; [|by apply version_settles]. case_match; [by apply wp_ret|].
  apply wp_bind, wp_cm_link_find; [intros _; by apply wp_ret|]. intros n [Hn _]%find_first_Some.
  eapply wp_mono; [apply wp_interrupt; [apply Hg|done]|]. intros [] s' Hu. by eapply good_quiet.
Qed.

Lemma disconnect_settles rsp : settles (CM_SleDisconnectProc rsp).
Proof.
  intros s Hg. unfold CM_SleDisconnectProc. case_match; [by apply wp_ret, good_settled|].
  apply wp_bind, wp_cm_link_find; [intros _; by apply wp_ret, good_settled|]. intros n [Hn _]%find_first_Some.
  apply wp_bind, (wp_get_link n); [apply Hg|done|]. apply wp_bind. eapply wp_mono.
  2: { intros a s' Hs'. apply (report_down (cr_lcid rsp) (cr_connCompleteType rsp) s'). exact Hs'. }
  case_match.
  - apply wp_bind. eapply wp_mono.
    { instantiate (1 := fun _ s' => settled s' /\ side s'.1 = side s.1). case_match; [|by apply wp_ret; split; [apply good_settled|]].
      apply wp_side; [apply side_release_fixed|]. apply wp_release_fixed; [apply Hg|]. intros s' Hg' ED EP _ _ _ Ha.
      split; [done|]. intros Hm. constructor; [apply Ha; [apply Hg|by left]|]. rewrite ED, EP. apply Hg. }
    intros [] s1 [Hs1 Hsd]. injection Hsd as EL _. eapply wp_mono; [apply wp_link_remove; [apply Hs1|by rewrite EL]|]. intros [] s2. by apply settled_quiet.
  - eapply wp_mono; [apply wp_set_link; [apply Hg|done|done|done]|]. intros [] s1 [Hu _]. by eapply good_settled, good_quiet.
Qed.
End procedures.
