(* ===== verification/CmConnect.v ===== *)
(** * CM: the access layer keeps the invariant

    The requests to connect and to disconnect, and the events of the controller. *)
From S2P Require Import Prelude Utils SdfErrno SdfBuff SdfContainers CmData DtapEnv DtapTrans DtapChannel DtapProps DtapEvents DtapMachine CmState CmTcid CmChannel CmSignal CmCache CmDynTrans CmCap CmRecv CmAccess CmPackets CmInv CmQuiet CmOps CmNodes CmActivate CmHandlers CmEntry CmLinks.

Section connect.
Context {W : Type} {HW : World W} {HB : Below W} {HBO : BelowOk W}.
Notation M := (ST (Cm * W)).
Notation state := (Cm * W)%type.
Implicit Types (s : state) (c : Cm) (w : W) (n : SleLogicLink).

Lemma up_lcid s n : base_ok s -> n ∈ g_deviceLinkListHead s.1 -> up n.
Proof. intros Hs Hn. pose proof (li_up _ _ (bo_links _ Hs)) as H. rewrite Forall_forall in H. by apply H. Qed.

Lemma quiet_good {A} (m : M A) : quiet m -> steady good m.
Proof. intros Hm s Hg. apply wp_quiet; [done|apply Hg|]. intros a s'. by apply good_quiet. Qed.
Lemma quiet_settled {A} (m : M A) : quiet m -> steady settled m.
Proof. intros Hm s Hg. apply wp_quiet; [done|apply Hg|]. intros a s'. by apply settled_quiet. Qed.

(** ** Requests *)
Lemma canceled_settles : steady settled CM_NotifyConnectionReqCanceled.
Proof. exact (report_down CM_INVALID_LCID 0). Qed.
Lemma canceled_then {A} (a : A) : steady settled (CM_NotifyConnectionReqCanceled ;;! st_ret a).
Proof. intros s Hs. apply wp_bind. eapply wp_mono; [by apply canceled_settles|]. intros [] s' Hs'. by apply wp_ret. Qed.

Lemma existed_settles n s : good s -> n ∈ g_deviceLinkListHead s.1 -> wp (CM_NotifyConnectionExisted (sl_ptr n)) s (fun _ => settled).
Proof.
  intros Hg Hn. unfold CM_NotifyConnectionExisted. apply wp_bind, wp_get_link; [apply Hg|done|].
  destruct (Z.eqb_spec (sl_status n) CM_LINK_STATE_CONNECTED) as [e|e].
  - rewrite e. eapply wp_mono; [apply notify_up; [by eapply up_lcid, e; [apply Hg|]|done]|]. intros [] s'. apply good_settled.
  - destruct (Z.eqb_spec (sl_status n) CM_LINK_STATE_DISCONNECTED) as [e2|e2]; [rewrite e2; by apply report_down, good_settled|].
    unfold CM_NotifyLogicLinkCbks; cbn [lk_result]. apply Z.eqb_neq in e, e2. rewrite e, e2, andb_false_r.
    by apply wp_bind, wp_ret, wp_ret, good_settled.
Qed.

(** A new link that is connecting, or the end of the request. *)
Lemma establish_link_init addr s : good s ->
  wp (CM_EstablishLinkInit addr) s (fun o s' => match o with
    | None => settled s'
    | Some p => good s' /\ exists n, p = sl_ptr n /\ n ∈ g_deviceLinkListHead s'.1 end).
Proof.
  intros Hg. unfold CM_EstablishLinkInit. apply wp_bind, wp_cm_link_find.
  2: { intros n [Hn _]%find_first_Some. apply wp_bind. eapply wp_mono; [by apply existed_settles|]. intros [] s' Hs. by apply wp_ret. }
  intros _. apply wp_bind, wp_cm_link_find.
  2: { intros n _. apply wp_bind. eapply wp_mono; [by apply canceled_settles, good_settled|]. intros [] s' Hs. by apply wp_ret. }
  intros _. apply wp_bind, wp_link_add; [apply Hg| |].
  - intros s' Hu. apply wp_bind. eapply wp_mono; [by eapply canceled_settles, good_settled, good_quiet|]. intros [] s2 Hs. by apply wp_ret.
  - intros s1 p Hset. apply wp_bind. eapply wp_mono; [apply Hset; [done|]; by intros e|]. intros [] s2 [Hu Hn]. apply wp_ret.
    split; [by eapply good_quiet|]. eexists. split; [|exact Hn]. done.
Qed.

Lemma connect_req_settles policy param : settles (CM_ConnectEstablishReq policy param).
Proof.
  intros s Hg. unfold CM_ConnectEstablishReq. apply wp_bind, wp_cg. case_match; [by apply wp_ret, good_settled|].
  destruct param as [addr|]; [|by apply wp_ret, good_settled]. apply wp_bind. eapply wp_mono; [by apply establish_link_init|].
  intros [p|] s1; [|intros Hs; by apply wp_ret]. intros [Hg1 (n&->&Hn)]. apply wp_bind.
  eapply wp_mono; [apply silent_ask, Hg1|]. intros ret s2 A. pose proof (good_quiet _ _ Hg1 (aside_undisturbed _ _ A)) as Hg2.
  case_match; [|by apply wp_ret, good_settled]. apply wp_bind. eapply wp_mono; [apply wp_link_remove; [apply Hg2|by rewrite (proj1 A)]|].
  intros [] s3 Hu. by eapply canceled_then, good_settled, good_quiet.
Qed.

Lemma release_link_settles param : settles (CM_ConnectReleaseReq param).
Proof.
  intros s Hg. unfold CM_ConnectReleaseReq. apply wp_bind, wp_cg. case_match; [by apply wp_ret, good_settled|].
  destruct param as [[addr reason]|]; [|by apply wp_ret, good_settled]. case_match; [by apply wp_ret, good_settled|].
  apply wp_bind, wp_cm_link_find; [intros _; by apply canceled_then, good_settled|]. intros n [Hn _]%find_first_Some.
  apply wp_bind, wp_get_link; [apply Hg|done|]. destruct (Z.eqb_spec (sl_status n) CM_LINK_STATE_CONNECTED) as [e|]; cbn [negb];
    [|by apply canceled_then, good_settled].
  pose proof (up_lcid _ _ (cg_base _ (proj1 Hg)) Hn e) as Hlc. set (n1 := n <| sl_status := CM_LINK_STATE_DISCONNECTING |>).
  apply wp_bind. eapply wp_mono; [apply (wp_set_link n (fun n => n <| sl_status := CM_LINK_STATE_DISCONNECTING |>)); [apply Hg|done|done|done]|].
  intros [] s1 [Hu Hn1]. pose proof (good_quiet _ _ Hg Hu) as Hg1. apply wp_bind. eapply wp_mono; [apply silent_ask, Hg1|].
  intros ret s2 A. pose proof (good_quiet _ _ Hg1 (aside_undisturbed _ _ A)) as Hg2. apply wp_bind. eapply wp_mono.
  { instantiate (1 := fun _ => settled). case_match; [|by apply wp_ret, good_settled]. apply wp_bind.
    change (sl_ptr n) with (sl_ptr n1). eapply wp_mono; [apply wp_set_link; [apply Hg2|by rewrite (proj1 A)|done|by intros _ _]|].
    intros [] s3 [Hu3 _]. by eapply canceled_settles, good_settled, good_quiet. }
  intros [] s3 Hs. by apply wp_ret.
Qed.

(** ** The events of the controller *)

(** A link that can be filled in with what the event reports. *)
Definition fillable s o (evt : DLI_ConnectionCompleteEvt) s1 : Prop :=
  match o with
  | None => undisturbed s s1
  | Some p => exists n, p = sl_ptr n /\ settable n s s1
  end.

Lemma settable_elem n s s0 s1 : undisturbed s0 s -> undisturbed s s1 -> n ∈ g_deviceLinkListHead s1.1 -> settable n s0 s1.
Proof.
  intros H0 Hu Hn f Hf Hup. eapply wp_mono; [apply wp_set_link; [apply Hu|done|done|done]|].
  intros [] s2 [Hu2 Hn2]. split; [|done]. eapply undisturbed_trans; [exact H0|]. by eapply undisturbed_trans.
Qed.

Lemma connect_link_fill evt s : good s -> wp (connect_link evt) s (fun r => fillable s (fst r) evt).
Proof.
  intros Hg. pose proof (undisturbed_refl _ (cg_base _ (proj1 Hg))) as Hr. unfold connect_link. case_match; [case_match|case_match; [|by apply wp_ret]].
  - apply wp_bind, wp_cm_link_find; [|intros n _; by apply wp_ret]. intros _. apply wp_bind, wp_link_add; [apply Hg| |].
    + intros s' Hu. by apply wp_ret.
    + intros s1 p Hset. apply wp_ret. by eexists (new_link _ _).
  - apply wp_bind. unfold SleLogicLinkSetAddrWhenActiveConnDone. apply wp_bind.
    assert (forall (q : bool), wp (if q then st_ret None
      else let! link := SleLogicLinkGetByStatus CM_LINK_STATE_CONNECTING in
        match link with
        | Some p => set_link p (fun n => n <| sl_rmtAddr := mk_addr (ce_peerAddressType evt) (ce_peerAddress evt) |>) ;;! st_ret (Some p)
        | None => let! _ := cm_ask (CmLinkReleaseReq (ce_connHandle evt)) in st_ret None
        end) s (fun o s1 => wp (st_ret (o, mk_addr (ce_peerAddressType evt) (ce_peerAddress evt))) s1 (fun r => fillable s (fst r) evt))) as Hrest.
    { intros []; [by apply wp_ret, wp_ret|]. apply wp_bind, wp_cm_link_find.
      - intros _. apply wp_bind. eapply wp_mono; [apply silent_ask, Hg|]. intros a s1 A. apply wp_ret, wp_ret. by apply aside_undisturbed.
      - intros n [Hn He%Z.eqb_eq]%find_first_Some. apply wp_bind. set (f := fun n => n <| sl_rmtAddr := _ |>).
        eapply wp_mono; [apply (wp_set_link n f); [apply Hg|done|done|done]|]. intros [] s1 [Hu Hn1]. apply wp_ret, wp_ret.
        exists (f n). split; [done|]. by apply (settable_elem _ s). }
    apply wp_cm_link_find; [intros _; apply wp_bind, wp_ret; exact (Hrest false)|]. intros n [Hn _]%find_first_Some.
    apply wp_bind, wp_bind, wp_get_link; [apply Hg|done|]. apply wp_ret; exact (Hrest (sl_status n =? CM_LINK_STATE_CONNECTED)).
  - apply wp_bind, wp_cm_link_find; [intros _; by apply wp_ret|]. intros n [Hn _]%find_first_Some.
    apply wp_bind, wp_get_link; [apply Hg|done|]. apply wp_ret. exists n. split; [done|]. by apply (settable_elem _ s).
Qed.

(** The controller's handles have twelve bits. *)
Lemma connect_settles status evt : (forall e, evt = Some e -> 0 <= ce_connHandle e < 4096) -> settles (SleAccessConnectCbk status evt).
Proof.
  intros He s Hg. unfold SleAccessConnectCbk. destruct evt as [evt|]; [|by apply wp_ret, good_settled]. specialize (He evt eq_refl).
  destruct (u8 status =? DLI_COMMAND_DISALLOWED); [by apply wp_ret, good_settled|].
  destruct (negb (u8 status =? DLI_SUCCESS)); [by apply wp_ret, good_settled|]. destruct (negb _); [by apply wp_ret, good_settled|].
  apply wp_bind. eapply wp_mono; [by apply connect_link_fill|]. intros [[p|] addr] s1; cbn [fst fillable].
  2: { intros Hu. by eapply wp_ret, good_settled, good_quiet. }
  intros (n&->&Hset). apply wp_bind. unfold SleAccessConnectCbkSetLinkStatusAndInfo. eapply wp_mono.
  { instantiate (1 := fun _ => undisturbed s). case_match; (eapply wp_mono; [apply Hset; [done|first [intros _; exact He|intros e; discriminate e]]|by intros ? ? []]). }
  intros [] s2 Hu. apply create_settles; [by eapply good_quiet|]. by intros n2 _ _.
Qed.

Lemma disconnect_event_settles b ctx h : settles (SleAccessDisconnectCbk b ctx h).
Proof.
  intros s Hg. unfold SleAccessDisconnectCbk. destruct h as [h|]; [|by apply wp_ret, good_settled].
  apply wp_bind, wp_cm_link_find; [intros _; by apply wp_bind, wp_ret, disconnect_settles|].
  intros n [Hn _]%find_first_Some. apply wp_bind, wp_bind, wp_get_link; [apply Hg|done|]. by apply wp_ret, disconnect_settles.
Qed.

Lemma data_len_event_settles status h : (forall x, h = Some x -> 0 <= x < 4096) -> steady good (SleAccessSetDataLenCbk status h).
Proof. intros Hh s Hg. destruct h as [h|]; [|by apply wp_ret]. by apply data_len_settles; [apply Hh|]. Qed.

Lemma quiet_exception lcid : quiet (CM_SleConnectExpectionProc lcid).
Proof.
  intros s Hs. unfold CM_SleConnectExpectionProc. case_match; [by apply wp_ret, undisturbed_refl|].
  apply wp_bind, wp_cm_link_find; [intros _; by apply wp_ret, undisturbed_refl|]. intros n [Hn _]%find_first_Some. by apply wp_interrupt.
Qed.
Lemma quiet_feature_version lcid result : quiet (CM_SleReadRemoteFeatureAndVersionProc lcid result).
Proof. apply quiet_bind; [apply quiet_ask|]. intros _. case_match; [apply quiet_exception|apply quiet_ret]. Qed.

Definition handle_ok (h : Z) : Prop := 0 <= h < 4096 \/ h = CM_INVALID_LCID.

Lemma version_event_settles status ctx evt : (forall e, evt = Some e -> 0 <= rv_connHandle e < 4096) ->
  steady good (SleAccessReadRemoteVersionCbk status ctx evt).
Proof.
  intros He s Hg. unfold SleAccessReadRemoteVersionCbk. destruct evt as [evt|]; [|by apply wp_ret]. specialize (He evt eq_refl).
  set (e := if u8 status =? DLI_SUCCESS then evt else _). apply wp_bind, wp_cm_link_find; [intros _; by apply wp_ret|].
  intros n Hf. pose proof Hf as [Hn El%Z.eqb_eq]%find_first_Some. apply wp_bind. set (f := fun n => n <| sl_companyId := rv_companyIdentifier e |>).
  eapply wp_mono; [apply (wp_set_link n f); [apply Hg|done|done|done]|]. intros [] s1 [Hu Hn1]. pose proof (good_quiet _ _ Hg Hu) as Hg1.
  apply wp_bind. change (sl_ptr n) with (sl_ptr (f n)). apply wp_get_link; [apply Hg1|done|]. cbn [negb]. case_match eqn:Est.
  - by apply quiet_good; [apply quiet_bind; [apply quiet_feature_version|intros _; apply quiet_exception]|].
  - change (sl_lcid (f n)) with (sl_lcid n). assert (0 <= sl_lcid n < 4096) as Hl.
    { rewrite El. unfold e. apply negb_false_iff in Est. change DLI_SUCCESS with CM_SUCCESS. by rewrite Est. }
    case_match; [|by apply version_settles]. apply quiet_good; [|done]. apply quiet_bind; [apply quiet_ask|]. intros r.
    case_match; [|apply quiet_ret]. apply quiet_bind; [apply quiet_ask|]. intros r2. case_match; [apply quiet_exception|apply quiet_ret].
Qed.

Lemma feature_event_settles status ctx h : steady good (SleAccessReadRemoteFeatureCbk status ctx h).
Proof.
  intros s Hg. unfold SleAccessReadRemoteFeatureCbk. destruct h as [h|]; [|by apply wp_ret].
  apply wp_bind, wp_cm_link_find; [intros _; by apply wp_ret|]. intros n [Hn _]%find_first_Some.
  apply wp_bind. eapply wp_mono; [apply silent_ask, Hg|]. intros a s1 A. pose proof (good_quiet _ _ Hg (aside_undisturbed _ _ A)) as Hg1.
  apply wp_bind, wp_get_link; [apply Hg1|by rewrite (proj1 A)|]. apply quiet_good; [|done].
  apply quiet_bind; [apply quiet_feature_version|]. intros _. case_match; [apply quiet_exception|apply quiet_ask_then].
Qed.
End connect.
