(* ===== verification/CmMachine.v ===== *)
(** * CM: the channel management as a machine

    One step per entry point: the requests of the QoS manager and of the applications, the
    signaling of the peer, timeouts, the events of the controller and the registrations; in
    any order.  Every step is defined and keeps the invariant. *)
From S2P Require Import Prelude Utils SdfErrno SdfBuff SdfContainers CmData DtapEnv DtapTrans DtapChannel DtapProps DtapEvents DtapMachine CmState CmTcid CmChannel CmSignal CmCache CmDynTrans CmCap CmRecv CmAccess CmPackets CmInv CmQuiet CmOps CmNodes CmActivate CmHandlers CmEntry CmLinks CmConnect.

Inductive CmEvent :=
| CeRegCbks (cbks : option CM_DynTransChannelCbks)
| CeUnRegCbks
| CeEstablish (param : option CM_DynTransChannelEstablishParamReq)
| CeRelease (param : option CM_DynTransChannelReleaseParamReq)
| CeReceive (lcid : Z) (buff : option SDF_Buff)
| CeTimeout (id : Z)
| CeConnectReq (policy : Z) (param : option SLE_Addr)
| CeReleaseReq (param : option (SLE_Addr * Z))
| CeConnect (status : Z) (evt : option DLI_ConnectionCompleteEvt)
| CeDisconnect (isError : bool) (ctx : Z) (handle : option Z)
| CeDataLen (status : Z) (handle : option Z)
| CeVersion (status ctx : Z) (evt : option DLI_ReadRemoteVersionEvt)
| CeFeature (status ctx : Z) (handle : option Z)
| CeListener (moduleId : Z) (cbk : CM_LogicLinkCbk)
| CeUnListener (moduleId : Z)
| CeTransListener
| CeUnTransListener
| CeSendFunc (set : bool)
| CeSignalingInit
| CeSignalingDeInit.

Section machine.
Context {W : Type} {HW : World W} {HB : Below W} {HBO : BelowOk W}.
Notation M := (ST (Cm * W)).
Notation state := (Cm * W)%type.
Implicit Types (s : state) (c : Cm) (w : W).
Notation D s := (g_dynTransListHead s.1).
Notation P s := (g_cmDynTransPoolListHead s.1).

Definition unit_of {A} (m : M A) : M unit := let! _ := m in st_ret tt.

Definition cm_run (e : CmEvent) : M unit :=
  match e with
  | CeRegCbks cbks => unit_of (CM_RegDynTransChannelCbks cbks)
  | CeUnRegCbks => CM_UnRegDynTransChannelCbks
  | CeEstablish param => unit_of (CM_DynTransChannelEstablishReq param)
  | CeRelease param => unit_of (CM_DynTransChannelReleaseReq param)
  | CeReceive lcid buff => unit_of (CM_RecvSignalingData lcid buff)
  | CeTimeout id => CM_SignalingTimeoutCbkInner id
  | CeConnectReq policy param => unit_of (CM_ConnectEstablishReq policy param)
  | CeReleaseReq param => unit_of (CM_ConnectReleaseReq param)
  | CeConnect status evt => SleAccessConnectCbk status evt
  | CeDisconnect isError ctx handle => SleAccessDisconnectCbk isError ctx handle
  | CeDataLen status handle => SleAccessSetDataLenCbk status handle
  | CeVersion status ctx evt => SleAccessReadRemoteVersionCbk status ctx evt
  | CeFeature status ctx handle => SleAccessReadRemoteFeatureCbk status ctx handle
  | CeListener moduleId cbk => unit_of (CM_RegLogicLinkListener moduleId cbk)
  | CeUnListener moduleId => unit_of (CM_UnRegLogicLinkListener moduleId)
  | CeTransListener => unit_of CM_RegTransChannelListener
  | CeUnTransListener => CM_UnRegTransChannelListener
  | CeSendFunc b => CM_SetSendSignalingDataCbk b
  | CeSignalingInit => unit_of CM_SignalingInit
  | CeSignalingDeInit => CM_SignalingDeInit
  end.

(** What the callers promise: the values have their C widths and handles twelve bits, a
    buffer is well-formed, a timer that expires was not deleted, a registration changes
    only when there is no channel that it concerns. *)
Definition event_ok (e : CmEvent) s : Prop :=
  match e with
  | CeRegCbks _ => g_cmDynTcidIsInited s.1 = false -> D s = []
  | CeUnRegCbks => D s = []
  | CeEstablish param => forall p, param = Some p -> conf_ok (qe_transModeConfig p)
  | CeReceive _ buff => forall b, buff = Some b -> buff_wf b
  | CeTimeout id => waits id s.1
  | CeConnect _ evt => forall e, evt = Some e -> 0 <= ce_connHandle e < 4096
  | CeDataLen _ handle => forall h, handle = Some h -> 0 <= h < 4096
  | CeVersion _ _ evt => forall e, evt = Some e -> 0 <= rv_connHandle e < 4096
  | CeUnTransListener => below_keys s.2 = []
  | _ => True
  end.

(** ** Registrations *)
Lemma quiet_field f : (forall c, g_deviceLinkListHead (f c) = g_deviceLinkListHead c /\ g_cachedSignalings (f c) = g_cachedSignalings c /\
    nbc_address (f c) = nbc_address c /\ g_identifier (f c) = g_identifier c /\ chan_part (f c) = chan_part c /\ c_next (f c) = c_next c) ->
  quiet (W := W) (cupd f).
Proof.
  intros Hf. apply quiet_upd. intros c. destruct (Hf c) as (E1&E2&E3&E4&E5&E6). rewrite E1, E2, E4, E6. split_and!; auto. lia.
Qed.

Lemma quiet_listener moduleId cbk : quiet (W := W) (CM_RegLogicLinkListener moduleId cbk).
Proof.
  apply quiet_bind; [apply quiet_gets|]. intros b. case_match; [apply quiet_ret|]. case_match; [apply quiet_ret|].
  apply quiet_bind; [by apply quiet_field|intros _; apply quiet_ret].
Qed.
Lemma quiet_unlistener moduleId : quiet (W := W) (CM_UnRegLogicLinkListener moduleId).
Proof.
  apply quiet_bind; [apply quiet_gets|]. intros b. case_match; [apply quiet_ret|]. case_match; [apply quiet_ret|].
  apply quiet_bind; [by apply quiet_field|intros _; apply quiet_ret].
Qed.
Lemma quiet_signaling_init : quiet (W := W) CM_SignalingInit.
Proof. apply quiet_bind; [apply quiet_listener|]. intros r. case_match; [apply quiet_ret|apply quiet_cache_init]. Qed.
Lemma quiet_signaling_deinit : quiet (W := W) CM_SignalingDeInit.
Proof. apply quiet_bind; [apply quiet_cache_deinit|]. intros _. apply quiet_bind; [apply quiet_unlistener|intros _; apply quiet_ret]. Qed.

Lemma tcid_init_settles s : good s -> (g_cmDynTcidIsInited s.1 = false -> D s = []) -> wp CM_DynTcidInit s (fun _ => good).
Proof.
  intros Hg Hd. unfold CM_DynTcidInit. apply wp_bind, wp_cg. case_match eqn:Hi; [by apply wp_ret|]. specialize (Hd eq_refl).
  apply wp_cupd. destruct Hg as [[Hb Hc Ht] [Ha Hp]]. split; [constructor|constructor]; cbn.
  - destruct s as [c w]. by apply (base_same c).
  - destruct Hc. constructor; try done; constructor.
  - intros n pool Hn. cbn in Hn. rewrite Hd in Hn. by apply not_elem_of_nil in Hn.
  - done.
  - intros n Hn. rewrite Hd in Hn. by apply not_elem_of_nil in Hn.
Qed.

Lemma register_settles cbks s : good s -> (g_cmDynTcidIsInited s.1 = false -> D s = []) -> wp (CM_RegDynTransChannelCbks cbks) s (fun _ => good).
Proof.
  intros Hg Hd. unfold CM_RegDynTransChannelCbks. apply wp_bind, wp_cg. case_match; [by apply wp_ret|].
  destruct cbks as [cbks|]; [|by apply wp_ret]. case_match; [by apply wp_ret|]. apply wp_bind, wp_bind.
  eapply wp_mono; [by apply tcid_init_settles|]. intros [] s1 Hg1.
  assert (quiet (W := W) (cupd (fun c => c <| g_channelCbks := cbks |>) ;;!
    let! ret := CM_RegLogicLinkListener CM_MODULE_CM_DYNTRANS CM_DynTransLogicLinkCbk_fn in
    if negb (ret =? CM_SUCCESS) then st_ret ret
    else let! ret := CM_SignalingTransChanCbksRegister in
         if negb (ret =? CM_SUCCESS) then st_ret CM_FAIL else cupd (fun c => c <| g_cmIsRegistered := true |>) ;;! st_ret CM_SUCCESS)) as Hq.
  { apply quiet_bind; [by apply quiet_field|]. intros _. apply quiet_bind; [apply quiet_listener|]. intros r. case_match; [apply quiet_ret|].
    apply quiet_bind; [apply quiet_bind; [by apply quiet_field|intros _; apply quiet_ret]|]. intros r2. case_match; [apply quiet_ret|].
    apply quiet_bind; [by apply quiet_field|intros _; apply quiet_ret]. }
  exact (quiet_good _ Hq s1 Hg1).
Qed.

Lemma destroy_keeps lcid s (Q : Z -> state -> Prop) :
  wp (CM_DynTcidDestroyPool lcid) s Q -> wp (CM_DynTcidDestroyPool lcid) s (fun a s' => Q a s' /\ D s' = D s).
Proof.
  intros (a&s'&E&HQ)%wp_run. apply wp_run. exists a, s'. split; [done|]. split; [done|]. revert E.
  unfold CM_DynTcidDestroyPool, CM_DynTransGetTcidPool, st_bind, cg, st_gets. destruct (find_first _ _); by intros [= _ <-].
Qed.

Lemma unregister_settles s : settled s -> D s = [] -> wp CM_UnRegDynTransChannelCbks s (fun _ => settled).
Proof.
  intros Hs Hd. unfold CM_UnRegDynTransChannelCbks. apply wp_bind, wp_cg. case_match; [by apply wp_ret|]. apply wp_bind, wp_bind.
  assert (forall f, quiet (cupd f) -> (forall c, g_dynTransListHead (f c) = g_dynTransListHead c) ->
    forall s, settled s -> D s = [] -> wp (cupd f) s (fun _ s' => settled s' /\ D s' = [])) as Hf.
  { intros f Hq Ef s0 Hs0 Hd0. apply wp_cupd. split; [|cbn; by rewrite Ef]. by apply (quiet_settled _ Hq s0 Hs0). }
  eapply wp_mono; [apply Hf; [by apply quiet_field|done|exact Hs|exact Hd]|]. intros [] s1 [Hs1 Hd1].
  unfold CM_DynTcidDeInit. apply wp_bind, wp_cg. case_match.
  { apply wp_ret. eapply wp_mono; [by apply quiet_settled; [by apply quiet_field|]|]. by intros []. }
  apply wp_bind, wp_cg, wp_bind, (wp_for (fun _ s' => settled s' /\ D s' = [])); [done| |].
  - intros pool l s2 [Hs2 Hd2]. apply wp_bind. eapply wp_mono; [apply destroy_keeps, destroy_pool_settles; [done|]|].
    + intros _ n Hn. rewrite Hd2 in Hn. by apply not_elem_of_nil in Hn.
    + intros a s3 [Hs3 Hd3]. apply wp_ret. split; [done|by rewrite Hd3].
  - intros s2 [Hs2 Hd2]. eapply wp_mono; [apply Hf; [by apply quiet_field|done|exact Hs2|exact Hd2]|]. intros [] s3 [Hs3 Hd3].
    eapply wp_mono; [by apply quiet_settled; [by apply quiet_field|]|]. by intros [].
Qed.

(** The data plane's listener: without it the data plane has no channel. *)
Lemma listener_settles (b : bool) s : good s -> (b = false -> below_keys s.2 = []) ->
  good (s.1 <| g_transChannelCbk := b |>, s.2).
Proof.
  intros [[Hb Hc Ht] [[Ha Hcb] Hp]] Hk. split; [constructor|constructor]; try done.
  - destruct s as [c w]. by apply (base_same c).
Qed.

(** ** Every step *)
Lemma unit_settles {A} (m : M A) (I : state -> Prop) s : wp m s (fun _ => I) -> wp (unit_of m) s (fun _ => I).
Proof. intros Hm. apply wp_bind. eapply wp_mono; [exact Hm|]. intros a s' Hs. by apply wp_ret. Qed.

Lemma good_then {A} (m : M A) s : wp m s (fun _ => good) -> wp m s (fun _ => settled).
Proof. intros Hm. eapply wp_mono; [exact Hm|]. intros a s'. apply good_settled. Qed.

Lemma step_settles e s : good s -> event_ok e s -> wp (cm_run e) s (fun _ => settled).
Proof.
  intros Hg He. destruct e; cbn [cm_run event_ok] in *; try apply unit_settles.
  - by apply good_then, register_settles.
  - by apply unregister_settles; [apply good_settled|].
  - by apply establish_settles.
  - by apply release_settles.
  - by apply recv_settles.
  - by apply timeout_settles.
  - by apply connect_req_settles.
  - by apply release_link_settles.
  - by apply connect_settles.
  - by apply disconnect_event_settles.
  - by apply good_then, data_len_event_settles.
  - by apply good_then, version_event_settles.
  - by apply good_then, feature_event_settles.
  - by apply quiet_settles; [apply quiet_listener|].
  - by apply quiet_settles; [apply quiet_unlistener|].
  - unfold CM_RegTransChannelListener. apply wp_bind, wp_cg. case_match; [by apply wp_ret, good_settled|].
    apply wp_bind, wp_cupd, wp_ret, good_settled. by apply listener_settles.
  - unfold CM_UnRegTransChannelListener. apply wp_bind, wp_cg. case_match; [by apply wp_ret, good_settled|].
    apply wp_cupd, good_settled. by apply listener_settles.
  - by apply quiet_settles; [apply quiet_field|].
  - by apply quiet_settles; [apply quiet_signaling_init|].
  - by apply quiet_settles; [apply quiet_signaling_deinit|].
Qed.

(** ** Reachable states *)
Record cm_init s : Prop := {
  in_links : g_deviceLinkListHead s.1 = [];
  in_fixed : g_fixedTransListHead s.1 = [];
  in_dyn : D s = [];
  in_pools : P s = [];
  in_cache : g_cachedSignalings s.1 = None;
  in_addr : addr_ok (nbc_address s.1);
  in_id : is_u8 (g_identifier s.1);
  in_below : below_ok s.2;
  in_keys : below_keys s.2 = []
}.

(** The data plane also changes on its own; a step is taken as long as the data plane has
    no channel that CM does not know. *)
Inductive cm_reach : state -> Prop :=
| cm_start s : cm_init s -> cm_reach s
| cm_step s e s' : cm_reach s -> in_step s -> event_ok e s -> cm_run e s = Some (tt, s') -> cm_reach s'
| cm_below c w w' : cm_reach (c, w) -> below_ok w' -> below_keys w' = below_keys w -> cm_reach (c, w').

Lemma init_good s : cm_init s -> good s.
Proof.
  intros []. split; [constructor|constructor].
  - constructor; try done; [rewrite in_links0|rewrite in_cache0|unfold opaque_keys; rewrite in_keys0]; repeat constructor.
  - unfold chans_ok. rewrite in_fixed0, in_dyn0, in_pools0. constructor; constructor.
  - unfold tcids_ok. rewrite in_dyn0. intros n pool Hn. by apply not_elem_of_nil in Hn.
  - split; [|done]. intros k Hk. rewrite in_keys0 in Hk. by apply not_elem_of_nil in Hk.
  - rewrite in_dyn0. intros n Hn. by apply not_elem_of_nil in Hn.
Qed.

Lemma reach_settled s : cm_reach s -> settled s.
Proof.
  induction 1 as [s Hi|s e s' Hr IH Hin He E|c w w' Hr [[Hb Hc Ht] Hin] Hok Hk].
  - by apply good_settled, init_good.
  - assert (wp (cm_run e) s (fun _ => settled)) as Hw by (apply step_settles; [split; [apply IH|]|]; done).
    unfold wp in Hw. by rewrite E in Hw.
  - split; [constructor; [by eapply base_world|done|done]|]. intros Hm. destruct (Hin Hm) as [[Ha Hcb] Hp].
    constructor; [|done]. split; cbn in *; by rewrite Hk.
Qed.

Lemma reach_step s e : cm_reach s -> in_step s -> event_ok e s -> wp (cm_run e) s (fun _ => settled).
Proof. intros Hr Hi He. apply step_settles; [split; [by apply reach_settled|done]|done]. Qed.
End machine.
