(* ===== verification/CmDtap.v ===== *)
(** * CM over DTAP

    The two modules together: CM's reports, signaling and link changes reach the data
    plane as the calls that [dtap.c] and [dtap_channel.c] register, and the data plane
    keeps the promises that CM's machine relies on. *)
From S2P Require Import Prelude SdfErrno SdfBuff SdfContainers Utils CmData DtapEnv DliLayer DliData DtapFrame DtapFragment DtapTrans DtapQuota DtapScheduler DtapSchedStore DtapSchedRun DtapSchedLoop DtapSchedDown DtapSchedEvents DtapSchedProps DtapReliable DtapStream DtapBasic DtapChannel Dtap DtapInv DtapProps DtapEvents DtapMachine DtapSafe.
From S2P Require Import CmState CmTcid CmChannel CmSignal CmCache CmDynTrans CmCap CmRecv CmAccess CmPackets CmInv CmQuiet CmOps CmNodes CmActivate CmHandlers CmEntry CmLinks CmConnect CmMachine.

Section composition.
Context {W : Type} `{World W}.
Notation stack := (Sched * (DLI_LayerInfo * W))%type.
Notation plane := (Dtap * stack)%type.
Implicit Types (d : Dtap) (o : ChannelObj) (y : stack) (p : plane).

Definition DTAP_CMSignalingDataSendCbk (pi tcid lcid : Z) (buff : SDF_Buff) : ST plane Z :=
  DTAP_DataSend (Some (mk_dtapdata pi lcid tcid (Some buff))).

#[export] Instance dtap_below : Below plane := {
  transChannelCbk := fun st => DTAP_ChannelStateChangeCbk (Some st);
  sendFunc := DTAP_CMSignalingDataSendCbk;
  dtapLogicLinkCbk := fun st => DTAP_LogicLinkStateChangeCbk (Some st)
}.

(** ** What the data plane promises *)
Lemma chans_keys d d' : chans d' = chans d -> keys d' = keys d.
Proof.
  intros E. unfold keys, key_of. rewrite <- (map_map o_ch (fun c => (ch_lcid c, ch_srcTcid c, ch_mode c))).
  rewrite <- (map_map o_ch (fun c => (ch_lcid c, ch_srcTcid c, ch_mode c)) (objs d)). f_equal. exact E.
Qed.

Lemma ask_plane c p a p' : ask c p = Some (a, p') -> exists w', p' = (p.1, (p.2.1, (p.2.2.1, w'))).
Proof.
  destruct p as [d [S [l w]]]. change (ask c (d, (S, (l, w)))) with (over (B := Dtap) (over (B := Sched) (over (B := DLI_LayerInfo) (ask c))) (d, (S, (l, w)))).
  unfold over; cbn. destruct (ask c w) as [[x w']|]; [|done]. intros [= <- <-]. by exists w'.
Qed.

Lemma keys_added c d d' : added c d d' -> forall k, k ∈ keys d' -> k ∈ keys d \/ k = param_key c.
Proof.
  intros Had k (o&Ho&->)%keys_elem. destruct Had as [E|(o'&E&E1&E2&E3)]; rewrite E in Ho.
  - left. apply keys_elem. by exists o.
  - apply elem_of_cons in Ho as [->|Ho]; [right; unfold key_of, param_key; congruence|left; apply keys_elem; by exists o].
Qed.

Lemma channels_add_keys v p :
  dtap_steady p -> may_add_all v (keys p.1) ->
  wp (DTAP_ChannelsOperate v DTAP_ChannelAdd) p (fun _ p' => dtap_steady p' /\
    forall k, k ∈ keys p'.1 -> k ∈ keys p.1 \/ exists c, Some c ∈ v /\ k = param_key c).
Proof.
  intros Hs Hv. apply (wp_for (fun v' p' => dtap_steady p' /\ may_add_all v' (keys p'.1) /\ (forall x, x ∈ v' -> x ∈ v) /\
    forall k, k ∈ keys p'.1 -> k ∈ keys p.1 \/ exists c, Some c ∈ v /\ k = param_key c)).
  - split_and!; [done|done|done|]. intros k Hk. by left.
  - intros c v' s' (Hs'&Hv'&Hsub&Hk). assert (forall x, x ∈ v' -> x ∈ v) as Hsub' by (intros x Hx; apply Hsub; by right).
    destruct c as [c|]; cbn [may_add_all] in Hv'; [|by apply wp_ret]. destruct Hv' as [Hc Hv'].
    eapply wp_mono; [apply wp_channel_add; [apply Hs'|by apply may_add_ok]|]. intros _ s2 (Hg&Had&Es). pose proof (keys_added _ _ _ Had) as Hka.
    split_and!; [by eapply shell_steady| |done|].
    + eapply may_add_all_sub; [|exact Hv']. intros k [?| ->]%Hka; [by right|by left].
    + intros k [?| ->]%Hka; [by apply Hk|]. right. exists c. split; [apply Hsub; by left|done].
  - by intros s' (?&_&_&?).
Qed.

(** A released channel is gone. *)
Lemma released_keys c d S d' S' : dtap_inv d S -> dtap_inv d' S' -> may_release (keys d) (Some c) -> released c d d' ->
  (forall k, k ∈ keys d' -> k ∈ keys d) /\ forall k, k ∈ keys d' -> k.1 <> (pm_lcid c, pm_srcTcid c).
Proof.
  intros Hd Hd' Hm Hre. assert (forall o, o ∈ objs d' -> o ∈ objs d) as Hin.
  { intros o Ho. unfold released in Hre. destruct (find_obj _ _ _); [rewrite Hre; by right|by rewrite <- Hre]. }
  split; [intros k (o&Ho&->)%keys_elem; apply keys_elem; exists o; split; [by apply Hin|done]|].
  intros k (o&Ho&->)%keys_elem E. unfold key_of in E; cbn in E. injection E as E1 E2.
  assert (find_obj d (pm_lcid c) (pm_srcTcid c) = Some o) as Hf.
  { apply (find_obj_spec d S); [done|by apply Hin|done|]. unfold answers_to. rewrite E2, Z.eqb_refl. apply orb_true_r. }
  unfold released in Hre. rewrite Hf in Hre. pose proof (oi_ptrs _ _ _ (di_objs _ _ Hd)) as Hp. rewrite Hre in Hp. cbn in Hp.
  apply NoDup_cons in Hp as [Hp _]. apply Hp. apply list_elem_of_fmap. by exists o.
Qed.

Lemma may_release_sub ks ks' v : (forall k, k ∈ ks' -> k ∈ ks) -> Forall (may_release ks) v -> Forall (may_release ks') v.
Proof. intros Hs Hv. eapply Forall_impl; [exact Hv|]. intros [c|]; [|done]. intros Hr k Hk. apply Hr. by apply Hs. Qed.

Lemma channels_del_keys v p :
  dtap_steady p -> Forall (may_release (keys p.1)) v ->
  wp (DTAP_ChannelsOperate v DTAP_ChannelDel) p (fun _ p' => dtap_steady p' /\
    (forall k, k ∈ keys p'.1 -> k ∈ keys p.1) /\ forall c k, Some c ∈ v -> k ∈ keys p'.1 -> k.1 <> (pm_lcid c, pm_srcTcid c)).
Proof.
  intros Hs Hv. apply (wp_for (fun v' p' => dtap_steady p' /\ Forall (may_release (keys p'.1)) v' /\ (forall k, k ∈ keys p'.1 -> k ∈ keys p.1) /\
    forall c k, Some c ∈ v -> Some c ∈ v' \/ (k ∈ keys p'.1 -> k.1 <> (pm_lcid c, pm_srcTcid c)))).
  - split_and!; [done|done|done|]. intros c k Hc. by left.
  - intros c v' s' (Hs'&Hv'&Hsub&Hgone). apply Forall_cons in Hv' as [Hc Hv']. destruct c as [c|].
    2: { apply wp_ret. split_and!; [done|done|done|]. intros c k Hc'. destruct (Hgone c k Hc') as [[?|?]%elem_of_cons|?]; [done|by left|by right]. }
    eapply wp_mono; [apply wp_channel_del; [apply Hs'|eapply may_release_ok; [apply Hs'|exact Hc]]|]. intros _ s2 (Hg&Hre&Es).
    destruct (released_keys _ _ _ _ _ (proj1 (proj1 Hs')) (proj1 Hg) Hc Hre) as [Hless Hno].
    split_and!; [by eapply shell_steady|by eapply may_release_sub|intros k Hk; by apply Hsub, Hless|].
    intros c' k Hc'. destruct (Hgone c' k Hc') as [[[= ->]|?]%elem_of_cons|Hg2]; [right; apply Hno|by left|right].
    intros Hk. by apply Hg2, Hless.
  - intros s' (Hs'&_&Hsub&Hgone). split_and!; [done|done|]. intros c k Hc Hk. destruct (Hgone c k Hc) as [Hn|Hn]; [by apply not_elem_of_nil in Hn|by apply Hn].
Qed.

Lemma touched_below {A} (m : ST plane A) d y oo :
  dtap_steady (d, y) -> wp m (d, y) (fun _ s' => dtap_good s' /\ touched oo d s'.1) ->
  wp m (d, y) (fun _ s' => dtap_steady s' /\ keys s'.1 = keys d).
Proof.
  intros Hs Hm. eapply wp_mono; [exact Hm|]. intros a s' [Hg Ht].
  split; [eapply shell_steady; [exact Hs|done|by eapply touched_shell]|by eapply chans_keys, touched_chans].
Qed.

#[export] Program Instance dtap_below_ok : BelowOk plane := {
  below_ok := dtap_steady;
  below_keys := fun p => keys p.1
}.
Next Obligation.
  intros c p a p' _ Hs Ha. apply ask_plane in Ha as (w'&->). destruct p as [d [S [l w]]]. split; [by eapply steady_ask|done].
Qed.
Next Obligation.
  intros r v p Hs Ha Hr. cbn [transChannelCbk dtap_below DTAP_ChannelStateChangeCbk channelVector sl_result].
  destruct (Z.eqb_spec r CM_TRANS_CHANNEL_STATE_ACTIVATED) as [E|Hne].
  - eapply wp_mono; [by apply channels_add_keys; [|apply Ha]|]. intros [] p' [Hs' Hk]. split; [done|]. split; [by intros _|]. by rewrite E.
  - destruct (Z.eqb_spec r CM_TRANS_CHANNEL_STATE_RELEASED) as [E|Hne2].
    + eapply wp_mono; [by apply channels_del_keys; [|apply Hr]|]. intros [] p' (Hs'&Hk&Hg). split; [done|]. split; [done|by intros _].
    + by apply wp_ret.
Qed.
Next Obligation.
  intros lcid b [d y] Hs Hb. cbn [sendFunc dtap_below]. eapply touched_below; [done|]. apply wp_data_send; [apply Hs|]. split; [cbn; cint|done].
Qed.
Next Obligation.
  intros st [d y] Hs. cbn [dtapLogicLinkCbk dtap_below]. eapply wp_mono; [apply wp_link_state, Hs|]. intros [] s' (Hg&Hc&Hsh).
  split; [by eapply shell_steady|by apply chans_keys].
Qed.

(** ** The data plane's own events *)
Definition plane_event (ev : dtap_event) : Prop := single ev \/ exists st, ev = DtLink st.

Lemma plane_step ev p : dtap_steady p -> plane_event ev -> dtap_event_ok ev p ->
  wp (run_dtap_event ev) p (fun _ p' => dtap_steady p' /\ keys p'.1 = keys p.1).
Proof.
  intros Hs Hev Hok. destruct Hev as [Hev|[st ->]].
  - pose proof (isolation_steady ev p Hs Hev Hok) as Hi. pose proof (wp_dtap_event ev p Hs Hok) as Hw.
    apply wp_run in Hi as (a&p'&E&[Hc _]). unfold wp in Hw. rewrite E in Hw. apply wp_run. exists a, p'. split; [done|].
    split; [apply Hw; intros ->; by destruct Hev|by apply chans_keys].
  - destruct p as [d y]. eapply wp_mono; [apply wp_link_state, Hs|]. intros [] s' (Hg&Hc&Hsh). split; [by eapply shell_steady|by apply chans_keys].
Qed.

(** ** The two modules *)
Notation state := (Cm * plane)%type.
Implicit Types s : state.

Inductive stack_event := OfCm (e : CmEvent) | OfDtap (e : dtap_event).
Definition run_stack (e : stack_event) : ST state unit :=
  match e with OfCm e => cm_run e | OfDtap e => over (run_dtap_event e) end.
Definition stack_event_ok (e : stack_event) s : Prop :=
  match e with OfCm e => event_ok e s | OfDtap e => plane_event e /\ dtap_event_ok e s.2 end.

(** From states without channels and links; a step is taken as long as the two modules
    agree. *)
Inductive stack_reach : state -> Prop :=
| stack_start s : cm_init s -> stack_reach s
| stack_step s e s' : stack_reach s -> in_step s -> stack_event_ok e s -> run_stack e s = Some (tt, s') -> stack_reach s'.

Lemma stack_cm_reach s : stack_reach s -> cm_reach s.
Proof.
  induction 1 as [s Hi|s [e|e] s' Hr IH Hin Hok E]; [by apply cm_start|by eapply cm_step|].
  destruct Hok as [Hev Hok]. destruct s as [c p]. pose proof (reach_settled _ IH) as [[Hb _ _] _].
  pose proof (plane_step e p (bo_below _ Hb) Hev Hok) as Hw. cbn in E. unfold over in E. cbn in E. unfold wp in Hw.
  destruct (run_dtap_event e p) as [[[] p']|]; [|done]. injection E as <-. destruct Hw. by eapply cm_below.
Qed.

Lemma stack_wp s e : stack_reach s -> in_step s -> stack_event_ok e s -> wp (run_stack e) s (fun _ => settled).
Proof.
  intros Hr Hin Hok. pose proof (stack_cm_reach _ Hr) as Hc. destruct e as [e|e]; [by apply reach_step|].
  destruct Hok as [Hev Hok]. destruct s as [c p]. pose proof (reach_settled _ Hc) as [[Hb _ _] _]. apply wp_over.
  eapply wp_mono; [apply (plane_step e p (bo_below _ Hb) Hev Hok)|]. intros [] p' [Hs' Hk]. by eapply reach_settled, cm_below.
Qed.
End composition.
