(* ===== verification/CmDemo.v ===== *)
(** * CM over DTAP: a run

    A world without failures, and the two modules in it from their start to a link with
    its fixed channels and a dynamic channel that waits for the peer.  The states are
    concrete, for the witnesses. *)
From S2P Require Import Prelude SdfErrno SdfBuff SdfContainers Utils CmData DtapEnv DliLayer DliData DtapFrame DtapFragment DtapTrans DtapQuota DtapScheduler DtapReliable DtapStream DtapBasic DtapChannel Dtap DtapInv DtapEvents DtapSchedProps DtapMachine DtapSafe.
From S2P Require Import CmState CmTcid CmChannel CmSignal CmCache CmDynTrans CmCap CmRecv CmAccess CmPackets CmInv CmEntry CmMachine CmDtap.

(** Memory and timers are there, the driver and the other modules do what they are asked. *)
Definition benign_answer (c : call) : Z :=
  match c with
  | CAlloc => 1
  | CTimerAdd _ _ _ | CDliTimerAdd _ _ => 1
  | CCm (CmTimerAdd _ _) => 5
  | CCm (CmEstablishedCheck _ _) => 1
  | CCm (CmReadRemoteExtFeatures _ _ _) => 1
  | CPostTask => 0
  | _ => 0
  end.
Record benign := mk_benign { seen : list (call * Z) }.
#[export] Instance benign_world : World benign.
Proof.
  refine {| trace := seen; ask := fun c w => Some (benign_answer c, mk_benign (seen w ++ [(c, benign_answer c)])) |}.
  intros c w. by eexists _, _.
Defined.

Section demo.
Notation plane := (Dtap * (Sched * (DLI_LayerInfo * benign)))%type.
Notation state := (Cm * plane)%type.

Definition cm0 : Cm := mk_cm true [] [] [] false [] false no_dyncbks false (replicate (Z.to_nat CM_MODULE_ID_MAX) None) false false None 0 None 1.
Definition plane_exec (ev : dtap_event) (p : plane) : plane := match run_dtap_event ev p with Some (_, p') => p' | None => p end.
Definition exec (e : stack_event) (s : state) : state := match run_stack e s with Some (_, s') => s' | None => s end.

Definition demo_plane : plane := Eval vm_compute in plane_exec DtInit (g_dtap0, (g_sched0, (demo_layer, mk_benign []))).
Definition demo_peer : bytes := [1; 2; 3; 4; 5; 6].
Definition demo_complete : DLI_ConnectionCompleteEvt := mk_complete 0 9 1 0 demo_peer CM_CONN_COMPLETE_ADV.
Definition demo_conf : CM_TransModeConfig :=
  mk_conf CM_TRANS_MODE_RELIABLE 1000 500 (mk_relconf 100 0xFFFF 100 100 8 4) (mk_strconf 0 0 0).
Definition demo_request : CM_DynTransChannelEstablishParamReq :=
  mk_est_req 0 7 (mk_addr 0 demo_peer) 0x10 0x20 demo_conf 1 CM_ACCESS_TRANS_MODE_UNICAST 0.
Definition demo_events : list stack_event := map OfCm
  [CeTransListener; CeSendFunc true; CeSignalingInit; CeListener CM_MODULE_DTAP DTAP_LogicLinkStateChangeCbk_fn;
   CeRegCbks (Some (mk_dyncbks true true true true)); CeConnect 0 (Some demo_complete);
   CeVersion 0 9 (Some (mk_verevt 9 0 0)); CeEstablish (Some demo_request)].
Definition demo_run (es : list stack_event) (s : state) : state := foldl (fun s e => exec e s) s es.

Definition demo_on : state := (cm0, demo_plane).
(** The dynamic channel waits for the answer. *)
Definition demo_waiting : state := Eval vm_compute in demo_run demo_events demo_on.

Definition demo_answer (rsp : CM_SignalingTransChanEstablishRsp) : option SDF_Buff :=
  mjoin (CM_CreateSignalingBuff true TC_CONNECT_RSP 1 (establish_rsp_bytes rsp) 4).
Definition demo_accept : option SDF_Buff := Eval vm_compute in demo_answer (mk_ersp 0x80 0x90 CM_RESULT_ESTABLISH_SUCCESS).
(** It is up on both layers. *)
Definition demo_up : state := Eval vm_compute in exec (OfCm (CeReceive 9 demo_accept)) demo_waiting.

Example demo_up_keys : keys demo_up.2.1 = [(9, 0x80, CM_TRANS_MODE_RELIABLE); (9, 31, 0); (9, 10, 0); (9, 2, 0)].
Proof. reflexivity. Qed.
Example demo_up_node : map (fun n => (tl_local n, tl_remote n, tl_state n)) (g_dynTransListHead demo_up.1) = [(0x80, 0x90, CM_TRANS_CHANNEL_STATE_ACTIVATED)].
Proof. reflexivity. Qed.

(** ** The run is one of the machine *)
Lemma benign_suffices : memory_suffices plane.
Proof. intros [d [S [l w]]] a p' [= <- _]. done. Qed.

Lemma plane_reach : dtap_reach demo_plane.
Proof.
  assert (dtap_reach (W := benign) (g_dtap0, (g_sched0, (demo_layer, mk_benign [])))) as H0.
  { apply dr_start. by split. }
  assert (demo_plane = plane_exec DtInit (g_dtap0, (g_sched0, (demo_layer, mk_benign [])))) as -> by (vm_compute; reflexivity).
  unfold plane_exec. pose proof (wp_dtap_event DtInit _ (dtap_reach_steady _ H0) I) as Hw. unfold wp in Hw.
  destruct (run_dtap_event DtInit _) as [[[] p']|] eqn:E; [|done].
  apply (dr_event DtInit _ p' H0 I E). by intros ?.
Qed.

Lemma demo_init : cm_init demo_on.
Proof.
  unfold demo_on. constructor; [reflexivity..|constructor|split; [discriminate|reflexivity]|exact (dtap_reach_steady _ plane_reach)|reflexivity].
Qed.

Lemma exec_reach e s : stack_reach s -> stack_event_ok e s -> stack_reach (exec e s) /\ in_step (exec e s).
Proof.
  intros Hr Hok. pose proof (reach_settled _ (stack_cm_reach _ Hr)) as [Hg Hin]. specialize (Hin benign_suffices).
  pose proof (stack_wp s e Hr Hin Hok) as Hw. unfold exec, wp in *. destruct (run_stack e s) as [[[] s']|] eqn:E; [|done].
  split; [by eapply stack_step|]. destruct Hw as [_ H']. by apply H', benign_suffices.
Qed.

Lemma demo_conf_ok : conf_ok demo_conf.
Proof. by constructor. Qed.

Fixpoint events_ok (es : list stack_event) (s : state) : Prop :=
  match es with [] => True | e :: es => stack_event_ok e s /\ events_ok es (exec e s) end.
Lemma run_reach es s : stack_reach s -> events_ok es s -> stack_reach (demo_run es s).
Proof.
  revert s. induction es as [|e es IH]; intros s Hr; [done|]. intros [He Hes]. apply IH; [by apply exec_reach|done].
Qed.

Lemma waiting_reach : stack_reach demo_waiting.
Proof.
  assert (demo_waiting = demo_run demo_events demo_on) as -> by (vm_compute; reflexivity).
  apply run_reach; [apply stack_start, demo_init|]. unfold demo_events, map, events_ok, stack_event_ok, event_ok.
  split_and!; try exact I.
  - intros _. vm_compute. reflexivity.
  - intros x [= <-]. split; vm_compute; (congruence || reflexivity).
  - intros x [= <-]. split; vm_compute; (congruence || reflexivity).
  - intros x [= <-]. exact demo_conf_ok.
Qed.

Lemma buff_wf_accept b : demo_accept = Some b -> buff_wf b.
Proof. intros [= <-]. constructor; cbn; try lia. repeat constructor; cint. Qed.

Lemma up_reach : stack_reach demo_up.
Proof.
  assert (demo_up = exec (OfCm (CeReceive 9 demo_accept)) demo_waiting) as -> by (vm_compute; reflexivity).
  apply exec_reach; [exact waiting_reach|exact buff_wf_accept].
Qed.
End demo.
