(* ===== verification/CmSafe.v ===== *)
(** * CM: the properties

    Safety of the connection manager over the data plane, the agreement of the two, the
    well-formedness of the channels, the identifiers, and what becomes of a request. *)
From S2P Require Import Prelude SdfErrno SdfBuff SdfContainers Utils CmData DtapEnv DliLayer DliData DtapFrame DtapFragment DtapTrans DtapQuota DtapScheduler DtapSchedProps DtapReliable DtapStream DtapBasic DtapChannel Dtap DtapInv DtapProps DtapEvents DtapMachine DtapSafe.
From S2P Require Import CmState CmTcid CmChannel CmSignal CmCache CmDynTrans CmCap CmRecv CmAccess CmPackets CmInv CmQuiet CmOps CmNodes CmActivate CmHandlers CmEntry CmLinks CmConnect CmMachine CmDtap CmDemo.

Section composition.
Context {W : Type} {HW : World W}.
Notation plane := (Dtap * (Sched * (DLI_LayerInfo * W)))%type.
Notation state := (Cm * plane)%type.
Implicit Types (s : state).

(** C1. Safety of the two modules.  From a start without links and channels, take any
    sequence of events of the connection manager (a request of the QoS manager or an
    application, any packet of the peer, a timeout, an event of the controller, a
    registration) and of the data plane, such that the data plane stays initialised,
    callbacks are registered and removed only while no channel depends on them, a timeout
    is that of a waiting request, no transparent channel is asked for, values have their C
    widths, and the modules agree on the channels before every step, as they do when memory
    suffices.  Then every next such event is processed to its end: no released node is
    touched, no access leaves its block, every loop ends.  The state after it satisfies
    the invariant of both modules, and is reachable again; and when memory suffices the
    two agree on the channels again. *)
Theorem stack_safe s e :
  stack_reach s -> in_step s \/ memory_suffices plane -> stack_event_ok e s ->
  exists s', run_stack e s = Some (tt, s') /\ stack_reach s' /\ cm_good s' /\ dtap_steady s'.2 /\
    (memory_suffices plane -> in_step s').
Proof.
  intros Hr Hin Hok. assert (in_step s) as Hi.
  { destruct Hin as [Hi|Hm]; [done|]. by apply (reach_settled _ (stack_cm_reach _ Hr)). }
  pose proof (stack_wp s e Hr Hi Hok) as Hw. apply wp_run in Hw as (a&s'&E&Hg&Hin'). destruct a. exists s'.
  split_and!; [done|by eapply stack_step|done|apply (bo_below _ (cg_base _ Hg))|done].
Qed.

(** C4. The channels are well-formed in every reachable state: no two channels of a link
    have the same identifier; a fixed channel has one of the three fixed identifiers and is
    activated; a dynamic one has an identifier from 0x80 to 0xDF, is activating, activated
    or releasing, and its identifier is marked as used in the table of its link; a link has
    at most one table, of 96 entries; the requests outstanding have different identifiers. *)
Theorem stack_well_formed s :
  stack_reach s ->
  let c := s.1 in
  (forall n m, n ∈ nodes c -> m ∈ nodes c -> tl_lcid n = tl_lcid m -> tl_local n = tl_local m -> n = m) /\
  (forall n, n ∈ nodes c -> 0 <= tl_lcid n < 4096) /\
  (forall n, n ∈ g_fixedTransListHead c ->
     tl_local n ∈ g_TransFixedChannels /\ tl_state n = CM_TRANS_CHANNEL_STATE_ACTIVATED) /\
  (forall n, n ∈ g_dynTransListHead c -> CM_TCID_UC_BEGIN <= tl_local n <= CM_TCID_UC_END /\ live (tl_state n) /\
     forall pool, pool ∈ g_cmDynTransPoolListHead c -> pl_lcid pool = tl_lcid n ->
       unicastTcidUsed pool !! Z.to_nat (tl_local n - CM_TCID_UC_BEGIN) = Some true) /\
  (forall p q, p ∈ g_cmDynTransPoolListHead c -> q ∈ g_cmDynTransPoolListHead c -> pl_lcid p = pl_lcid q -> p = q) /\
  (forall p, p ∈ g_cmDynTransPoolListHead c -> length (unicastTcidUsed p) = 96%nat) /\
  (forall m, g_cachedSignalings c = Some m -> NoDup (map fst (entry m)) /\ Forall (fun e => fst e = cs_id (snd e)) (entry m)).
Proof.
  intros Hr c. destruct (reach_settled _ (stack_cm_reach _ Hr)) as [[Hb Hc Ht] _]. fold c in Hc.
  pose proof (ci_keys _ _ _ _ Hc) as Hk. pose proof (ci_fixed _ _ _ _ Hc) as Hf. pose proof (ci_dyn _ _ _ _ Hc) as Hd.
  pose proof (ci_nodes _ _ _ _ Hc) as Hn. pose proof (ci_pool _ _ _ _ Hc) as Hp. pose proof (ci_pools _ _ _ _ Hc) as Hps.
  rewrite Forall_forall in Hf. rewrite Forall_forall in Hd. rewrite Forall_forall in Hn. rewrite Forall_forall in Hp.
  assert (forall q, q ∈ g_cmDynTransPoolListHead c -> find_first (pool_of (pl_lcid q)) (g_cmDynTransPoolListHead c) = Some q) as Hfind.
  { intros q Hq. by apply (find_first_key pl_lcid). }
  split_and!.
  - intros n m Hin Him E1 E2. eapply (key2_inj (nodes c)); [exact Hk|done|done|]. unfold key2. by rewrite E1, E2.
  - intros n Hin. apply (Hn n Hin).
  - exact Hf.
  - intros n Hin. destruct (Hd n Hin) as [Hu Hl]. split_and!; [apply Hu..|done|]. intros pool Hpool El.
    apply (Ht n pool Hin). rewrite <- El. by apply Hfind.
  - intros p q Hin Hiq E. apply Hfind in Hin. apply Hfind in Hiq. rewrite E in Hin. congruence.
  - intros p Hin. apply (Hp p Hin).
  - intros m Hm. pose proof (bo_cache _ Hb) as Hca. unfold c in Hm. by rewrite Hm in Hca.
Qed.

(** C2. Agreement.  While memory lasts, every channel that the data plane has is one that
    the connection manager has under the same link, identifier and mode, and has announced
    as activated: there is exactly one such node, and it is activated or releasing.  A
    channel that the connection manager released is not left in the data plane. *)
Theorem stack_agreement s o :
  memory_suffices plane -> stack_reach s -> o ∈ objs s.2.1 ->
  exists n, n ∈ nodes s.1 /\ is_on n /\ ch_lcid (o_ch o) = tl_lcid n /\ ch_srcTcid (o_ch o) = tl_local n /\
    ch_mode (o_ch o) = transMode (channel_config n) /\
    forall m, m ∈ nodes s.1 -> tl_lcid m = ch_lcid (o_ch o) -> tl_local m = ch_srcTcid (o_ch o) -> m = n.
Proof.
  intros Hm Hr Ho. destruct (reach_settled _ (stack_cm_reach _ Hr)) as [[Hb Hc Ht] Hin]. destruct (Hin Hm) as [[Ha _] _].
  destruct (Ha (key_of o)) as (n&Hn&Hk&Hon); [apply keys_elem; by exists o|]. unfold node_key, key_of in Hk. injection Hk as E1 E2 E3.
  exists n. split_and!; [done..|]. intros m Hm2 E4 E5. eapply (key2_inj (nodes s.1)); [apply Hc|done|done|]. unfold key2. congruence.
Qed.
End composition.

Definition demo_last : option ChannelObj := Eval vm_compute in head (objs demo_up.2.1).

Lemma stack_safe_witness :
  exists s', run_stack (OfCm (CeReceive 9 demo_accept)) demo_waiting = Some (tt, s') /\ stack_reach s' /\ cm_good s' /\
    dtap_steady s'.2 /\ (memory_suffices (Dtap * (Sched * (DLI_LayerInfo * benign))) -> in_step s').
Proof. apply stack_safe; [exact waiting_reach|right; exact benign_suffices|exact buff_wf_accept]. Defined.
Lemma stack_well_formed_witness :
  stack_reach demo_up /\ map tl_local (nodes demo_up.1) = [2; 10; 31; 128] /\
  forall n m, n ∈ nodes demo_up.1 -> m ∈ nodes demo_up.1 -> tl_lcid n = tl_lcid m -> tl_local n = tl_local m -> n = m.
Proof. split; [exact up_reach|]. split; [vm_compute; reflexivity|]. exact (proj1 (stack_well_formed demo_up up_reach)). Defined.
Lemma stack_agreement_witness :
  exists o, demo_last = Some o /\ ch_srcTcid (o_ch o) = 0x80 /\
    exists n, n ∈ nodes demo_up.1 /\ is_on n /\ ch_lcid (o_ch o) = tl_lcid n /\ ch_srcTcid (o_ch o) = tl_local n /\
    ch_mode (o_ch o) = transMode (channel_config n) /\
    forall m, m ∈ nodes demo_up.1 -> tl_lcid m = ch_lcid (o_ch o) -> tl_local m = ch_srcTcid (o_ch o) -> m = n.
Proof.
  eexists. split; [reflexivity|]. split; [reflexivity|]. apply stack_agreement; [exact benign_suffices|exact up_reach|by left].
Defined.

(** ** The packets *)

(** C39. Round trip of a request for a channel that is not transparent.  When the values of
    the request have their widths, it is packed into a block of exactly the computed size,
    put behind a header into a buffer with room for the headers of the layers below, and
    the peer that gets these bytes, in any well-formed buffer, reads the same code and the
    same identifier, and of the request everything its mode uses: the settings that belong
    to the other modes only, which are not sent, it reads as zero ([used_request]). *)
Theorem establish_request_arrives id req :
  is_u8 id -> request_asked req ->
  exists data b,
    establish_req_bytes req (zeros (CM_SignalingEstablishReqSizeGet req)) = Some (Some data) /\
    zlen data = CM_SignalingEstablishReqSizeGet req /\
    CM_CreateSignalingBuff true TC_CONNECT_REQ id data (zlen data) = Some (Some b) /\ user_buff b /\
    forall b', buff_wf b' -> buff_data b' = buff_data b ->
      exists head, CM_ParseSignalingBuff b' = Some (Some head) /\ h_code head = TC_CONNECT_REQ /\ h_identifier head = id /\
        CM_SignalingTransChanEstablishReqParse head = Some (CM_SUCCESS, used_request req).
Proof.
  intros Hid [Hw [Hcw Hm Ho]]. destruct (wire_bytes_ok req Hm) as [Hb Hl]. set (data := establish_req_wire req) in *.
  destruct (create_signaling true TC_CONNECT_REQ id data (zlen data)) as (o&Eo&Hob); [done|lia|lia|]. destruct o as [b|]; [|done].
  destruct Hob as (_&Hu&Hd). rewrite Nat2Z.id, firstn_all in Hd. pose proof (rw_slqi _ Hw) as [Hsl _].
  exists data, b. split_and!; [by apply pack_wire| |done|done|].
  - unfold data. destruct req as [src ex me [mode mtu mps rel str] sl port]; cbn in *.
    destruct port as [[]|], (mode_cases mode Hm) as [-> | [-> | [-> | ->]]]; reflexivity.
  - intros b' Hwf E. exists (wire_packet id req). split_and!; [|done|done|].
    + apply (header_roundtrip b' TC_CONNECT_REQ id data); [done|done|done|done|lia|congruence].
    + rewrite parse_wire by done. by rewrite reread_used.
Qed.

Definition demo_ereq : CM_SignalingTransChanEstablishReq :=
  mk_ereq 0x80 true false demo_conf (mk_slqi 1 1) (Some (mk_port 0x10 0x20 3999)).
Lemma demo_asked : request_asked demo_ereq.
Proof. constructor; constructor; try done; cbn; try (by constructor); split_and!; cint. Qed.
Lemma establish_request_arrives_witness :
  exists data b,
    establish_req_bytes demo_ereq (zeros (CM_SignalingEstablishReqSizeGet demo_ereq)) = Some (Some data) /\
    zlen data = CM_SignalingEstablishReqSizeGet demo_ereq /\
    CM_CreateSignalingBuff true TC_CONNECT_REQ 7 data (zlen data) = Some (Some b) /\ user_buff b /\
    forall b', buff_wf b' -> buff_data b' = buff_data b ->
      exists head, CM_ParseSignalingBuff b' = Some (Some head) /\ h_code head = TC_CONNECT_REQ /\ h_identifier head = 7 /\
        CM_SignalingTransChanEstablishReqParse head = Some (CM_SUCCESS, used_request demo_ereq).
Proof. apply establish_request_arrives; [cint|exact demo_asked]. Defined.

(** ** Identifiers *)
Lemma set_used_twice lcid u v P : set_used lcid u (set_used lcid v P) = set_used lcid u P.
Proof.
  unfold set_used. induction P as [|p P IH]; cbn; [done|]. destruct (pool_of lcid p) eqn:E; cbn; unfold pool_of in *; cbn; rewrite E; [done|].
  by rewrite IH.
Qed.

(** An identifier that is given back after its allocation. *)
Lemma return_allocated pool used j :
  length used = 96%nat -> (j < 96)%nat -> used !! j = Some false ->
  CM_DynReturnAllocatedUnicastTcid (pool <| unicastTcidUsed := <[j := true]> used |>) (Z.of_nat j + CM_TCID_UC_BEGIN) CM_TCID_UC_BEGIN CM_TCID_UC_END =
    (CM_SUCCESS, used).
Proof.
  intros Hl Hj Hf. unfold CM_DynReturnAllocatedUnicastTcid; cbn. change CM_TCID_UC_BEGIN with 128. change CM_TCID_UC_END with 223.
  rewrite length_insert, Hl. replace (Z.of_nat j + 128 - 128) with (Z.of_nat j) by lia. rewrite Nat2Z.id.
  rewrite (proj2 (Z.ltb_ge _ _)), (proj2 (Z.ltb_ge _ _)), (proj2 (Z.leb_gt _ _)) by lia. cbn.
  by rewrite list_lookup_insert_eq, list_insert_insert_eq, list_insert_id by (done || lia).
Qed.

Section identifiers.
Context {W : Type} {HW : World W} {HB : Below W} {HBO : BelowOk W}.
Notation state := (Cm * W)%type.
Implicit Types (s : state).
Notation P s := (g_cmDynTransPoolListHead s.1).

Lemma set_pools_back lcid s pool v : find_first (pool_of lcid) (P s) = Some pool ->
  (s.1 <| g_cmDynTransPoolListHead := set_used lcid (unicastTcidUsed pool) (set_used lcid v (P s)) |>, s.2) = s.
Proof. intros Hf. by rewrite set_used_twice, (set_used_same _ _ _ Hf), same_pools. Qed.

(** C40. The identifier of a new channel is the smallest that is free on its link, from 0x80
    to 0xDF; it is marked as used, and nothing else changes.  Only when all 96 are in use is
    the answer the invalid identifier.  Releasing what was allocated restores the state. *)
Theorem tcid_allocate_smallest lcid s pool :
  chans_ok s.1 -> find_first (pool_of lcid) (P s) = Some pool ->
  let used := unicastTcidUsed pool in
  exists t s', CM_DynTcidAllocate lcid CM_ACCESS_TRANS_MODE_UNICAST s = Some (t, s') /\
    ((exists j : nat, (j < 96)%nat /\ t = CM_TCID_UC_BEGIN + Z.of_nat j /\ used !! j = Some false /\ (forall k, (k < j)%nat -> used !! k = Some true) /\
        s' = (s.1 <| g_cmDynTransPoolListHead := set_used lcid (<[j := true]> used) (P s) |>, s.2) /\
        CM_DynTcidRelease lcid t CM_ACCESS_TRANS_MODE_UNICAST s' = Some (CM_SUCCESS, s)) \/
     (t = CM_TRANS_INVALID_TCID /\ s' = s /\ forall k, (k < 96)%nat -> used !! k = Some true)).
Proof.
  intros Hc Hf used. destruct (pool_found _ _ _ Hc Hf) as [[Hlen _] _]. fold used in Hlen. pose proof (pool_loop used Hlen) as Hl.
  unfold CM_DynTcidAllocate, CM_DynTransGetTcidPool, st_bind, cg, st_gets; cbn. rewrite Hf. cbn. unfold CM_DynAllocateUnicastTcid. fold used.
  destruct (unicast_loop 256 used 0 CM_TCID_UC_BEGIN CM_TCID_UC_END) as [j|] eqn:E.
  - destruct Hl as (Hj&Hfree&Hlt). do 2 eexists. split; [done|]. left. exists (Z.to_nat j).
    change CM_TCID_UC_BEGIN with 128. rewrite u8_small by cint. split_and!; [lia|lia|done| |done|].
    + intros k Hk. rewrite <- (Nat2Z.id k). apply Hlt. lia.
    + unfold CM_DynTcidRelease, CM_DynTransGetTcidPool, st_bind, cg, st_gets; cbn. pose proof (find_set_used lcid (<[Z.to_nat j := true]> used) (P s) lcid) as Hfu.
      rewrite Z.eqb_refl, Hf in Hfu. unfold set_used in Hfu. rewrite Hfu. cbn.
      pose proof (return_allocated pool used (Z.to_nat j) Hlen ltac:(lia) Hfree) as Hret. rewrite Z2Nat.id in Hret by lia.
      change 128 with CM_TCID_UC_BEGIN. cbn in Hret |- *. rewrite Hret.
      unfold set_pool, cupd, st_modify, st_ret; cbn. do 2 f_equal.
      exact (set_pools_back lcid s pool (<[Z.to_nat j := true]> used) Hf).
  - do 2 eexists. split; [done|]. right. split_and!; [done| |].
    + transitivity (s.1 <| g_cmDynTransPoolListHead := set_used lcid used (P s) |>, s.2); [done|].
      unfold used. by rewrite (set_used_same _ _ _ Hf), same_pools.
    + intros k Hk. rewrite <- (Nat2Z.id k). apply Hl. lia.
Qed.
End identifiers.

Lemma tcid_allocate_smallest_witness :
  exists t s', CM_DynTcidAllocate 9 CM_ACCESS_TRANS_MODE_UNICAST demo_up = Some (t, s') /\ t = 0x81.
Proof.
  destruct (tcid_allocate_smallest 9 demo_up (mk_pool 9 (true :: replicate 95 false))) as (t&s'&E&Hor).
  - apply (reach_settled _ (stack_cm_reach _ up_reach)).
  - vm_compute. reflexivity.
  - exists t, s'. split; [exact E|]. destruct Hor as [(j&Hj&->&Hf&Hlt&_)|(_&_&Hall)].
    + destruct j as [|[|j]]; [discriminate Hf|reflexivity|]. specialize (Hlt 1%nat ltac:(lia)). discriminate Hlt.
    + specialize (Hall 1%nat ltac:(lia)). discriminate Hall.
Defined.

Section requests.
Context {W : Type} {HW : World W} {HB : Below W}.
Notation state := (Cm * W)%type.
Implicit Types (s : state).

Definition outstanding (m : SDF_Map Z CM_CachedSignaling) : list Z := map fst (entry m).
(** The identifier that is tried [k] rounds after [g]. *)
Definition tried (g : Z) (k : nat) : Z := u8 (g + Z.of_nat k).
Definition with_identifier (id : Z) s : state := (s.1 <| g_identifier := id |>, s.2).

Lemma tried_next g k : tried (u8 (g + 1)) k = tried g (S k).
Proof. unfold tried, u8. rewrite Z.add_mod_idemp_l by lia. f_equal. lia. Qed.

Lemma identifier_loop_spec n m s g :
  is_u8 g -> g_identifier s.1 = g ->
  exists r, identifier_loop n m s = Some (r, with_identifier (match r with Some id => u8 (id + 1) | None => tried g n end) s) /\
    match r with
    | Some id => exists k, (k < n)%nat /\ id = tried g k /\ id ∉ outstanding m /\ forall j, (j < k)%nat -> tried g j ∈ outstanding m
    | None => forall j, (j < n)%nat -> tried g j ∈ outstanding m
    end.
Proof.
  revert s g. induction n as [|n IH]; intros s g Hg Es; cbn [identifier_loop].
  { exists None. split; [|lia]. unfold st_ret, tried, with_identifier. do 2 f_equal. rewrite Z.add_0_r, u8_small by done. subst g. by destruct s as [[] ?]. }
  assert (tried g 0 = g) as E0 by (unfold tried; rewrite Z.add_0_r; by apply u8_small).
  unfold st_bind, cg, st_gets, cupd, st_modify; cbn. rewrite Es. destruct (SDF_MapFind CM_SignalingCacheCompare m g) as [e|] eqn:E.
  - destruct (IH (s.1 <| g_identifier := u8 (g + 1) |>, s.2) (u8 (g + 1))) as (r&Er&Hr); [apply u8_range|done|].
    assert (g ∈ outstanding m) as Hin.
    { apply find_first_Some in E as [Hin Hk]. apply list_elem_of_fmap. exists e. split; [|done]. apply (key_is_true _ cache_compare_eq) in Hk. by subst g. }
    assert (forall k, (k < S n)%nat -> (forall j, (j < pred k)%nat -> tried (u8 (g + 1)) j ∈ outstanding m) ->
      forall j, (j < k)%nat -> tried g j ∈ outstanding m) as Hshift.
    { intros k Hk Hj [|j] Hlt; [by rewrite E0|]. rewrite <- tried_next. apply Hj. lia. }
    exists r. rewrite Er. split; [destruct r; [done|by rewrite tried_next]|]. destruct r as [id|].
    + destruct Hr as (k&Hk&->&Hno&Hall). exists (S k). rewrite tried_next. split_and!; [lia|done|by rewrite <- tried_next|]. apply Hshift; [lia|done].
    + intros [|j] Hj; [by rewrite E0|]. rewrite <- tried_next. apply Hr. lia.
  - exists (Some g). split; [done|]. exists 0%nat. split_and!; [lia|done| |lia]. by apply (find_none _ cache_compare_eq) in E as [_ ?].
Qed.

(** C7. The search for the identifier of a request ends within 256 rounds, whatever is
    outstanding: it answers the first identifier, from the counter on and around through
    255, under which no request waits, and puts the counter behind it; it finds none only
    when all 256 are taken, and then leaves the counter where it was. *)
Theorem get_identifier_spec s m :
  is_u8 (g_identifier s.1) -> g_cachedSignalings s.1 = Some m ->
  exists r, CM_GetIdentifier s = Some (r, with_identifier (match r with Some id => u8 (id + 1) | None => g_identifier s.1 end) s) /\
    match r with
    | Some id => is_u8 id /\ id ∉ outstanding m /\
        exists k, (k < 256)%nat /\ id = tried (g_identifier s.1) k /\ forall j, (j < k)%nat -> tried (g_identifier s.1) j ∈ outstanding m
    | None => forall id, is_u8 id -> id ∈ outstanding m
    end.
Proof.
  intros Hg Hm. set (g := g_identifier s.1) in *. destruct (identifier_loop_spec 256 m s g Hg eq_refl) as (r&Er&Hr). exists r.
  unfold CM_GetIdentifier, st_bind, cg, st_gets; cbn [fst]. rewrite Hm. change (Z.to_nat (CM_SIGNALING_MAX_ID + 1)) with 256%nat. rewrite Er.
  destruct r as [id|].
  - split; [done|]. destruct Hr as (k&Hk&->&Hno&Hall). split_and!; [unfold tried; apply u8_range|done|]. by exists k.
  - split.
    + do 3 f_equal. unfold tried. unfold u8. change (Z.of_nat 256) with (1 * 256). rewrite Z.mod_add by lia. by apply u8_small.
    + intros id Hid. pose proof (Z.mod_pos_bound (id - g) 256 ltac:(lia)) as Hb. replace id with (tried g (Z.to_nat ((id - g) mod 256))); [apply Hr; lia|].
      unfold tried, u8. rewrite Z2Nat.id by lia. rewrite Z.add_mod_idemp_r by lia. replace (g + (id - g)) with id by lia. by apply u8_small.
Qed.
End requests.

Lemma get_identifier_spec_witness :
  exists r s', CM_GetIdentifier demo_waiting = Some (r, s') /\ r = Some 2.
Proof.
  destruct (get_identifier_spec demo_waiting (default (mk_map []) (g_cachedSignalings demo_waiting.1))) as (r&E&Hr).
  - vm_compute. split; congruence.
  - vm_compute. reflexivity.
  - do 2 eexists. split; [exact E|]. vm_compute in E. congruence.
Defined.

(** ** What becomes of a request *)

(** A request of the kind [code] on the link [lcid] that waits under [id] in the cache [m]. *)
Definition waiting_request (c : Cm) (lcid id code : Z) (m : SDF_Map Z CM_CachedSignaling) : Prop :=
  g_cachedSignalings c = Some m /\
  exists e, SDF_MapFind CM_SignalingCacheCompare m id = Some e /\ cs_lcid (snd e) = lcid /\ cs_code (snd e) = code.

(** A packet with the response [rsp] to the request [id]; the last byte is reserved. *)
Record response_packet (b : SDF_Buff) (id : Z) (rsp : CM_SignalingTransChanEstablishRsp) (x : Z) : Prop := {
  rp_wf : buff_wf b;
  rp_id : is_u8 id;
  rp_bytes : bytes_ok [es_srcTcid rsp; es_dstTcid rsp; es_result rsp; x];
  rp_data : buff_data b = signaling_bytes TC_CONNECT_RSP id [es_srcTcid rsp; es_dstTcid rsp; es_result rsp; x]
}.

Section outcome.
Context {W : Type} {HW : World W} {HB : Below W} {HBO : BelowOk W}.
Notation state := (Cm * W)%type.
Implicit Types (s : state).
Notation D s := (g_dynTransListHead s.1).

Lemma wp_response lcid id b rsp x m s (Q : Z -> state -> Prop) :
  base_ok s -> g_signalingTransChanCbks s.1 = true -> waiting_request s.1 lcid id TC_CONNECT_REQ m -> response_packet b id rsp x ->
  (forall s1, undisturbed s s1 -> s1.1 = without m id s.1 -> wp (CM_DynTransChannelEstablishRspCbk lcid rsp) s1 (fun _ => Q CM_SUCCESS)) ->
  wp (CM_RecvSignalingData lcid (Some b)) s Q.
Proof.
  intros Hb Hcb (Hm&e&He&El&Ec) [Hwf Hid Hby Hdat] HQ. destruct rsp as [src dst res].
  eapply (wp_recv_response lcid b (mk_signaling TC_CONNECT_RSP TC_CONNECT_REQ EstablishRsp_fn) id _ m e); try done; [unfold g_signalings; set_solver|].
  intros s1 Hu E. unfold run_handle, CM_SignalingTransChanEstablishRspProc; cbn [handle recvCode]. apply wp_bind.
  eapply wp_opt; [reflexivity|]. apply wp_bind, wp_cg. rewrite E. cbn. rewrite Hcb. apply wp_bind. eapply wp_mono; [by apply HQ|].
  intros [] s2 HQ2. by apply wp_ret.
Qed.

(** C5. The answer to a request.  Let the modules agree on the channels, and let the channel
    [n] of a request still wait.  The response to the request ends the waiting: the request
    leaves the cache, with its timer; a positive answer whose identifier of the peer is
    dynamic activates the channel and gives it this identifier, and changes nothing else in
    the manager; a negative one removes the channel and frees its identifier.  (A positive
    answer with another identifier is the subject of [wrong_response_strands].) *)
Theorem establish_response_spec lcid id b rsp x m n s :
  cm_good s -> in_step s -> g_signalingTransChanCbks s.1 = true ->
  waiting_request s.1 lcid id TC_CONNECT_REQ m -> response_packet b id rsp x ->
  n ∈ D s -> tl_lcid n = lcid -> tl_local n = es_srcTcid rsp -> tl_state n = CM_TRANS_CHANNEL_STATE_ACTIVATING ->
  (es_result rsp = CM_RESULT_ESTABLISH_SUCCESS -> CM_TRANS_CHANNEL_IS_DYNAMIC (es_dstTcid rsp) = true) ->
  exists s', CM_RecvSignalingData lcid (Some b) s = Some (CM_SUCCESS, s') /\ settled s' /\
    SDF_MapFind CM_SignalingCacheCompare (erased m id) id = None /\
    if es_result rsp =? CM_RESULT_ESTABLISH_SUCCESS
    then s'.1 = set_dyn n (accept_node (es_dstTcid rsp)) (without m id s.1)
    else ended n s s' /\ g_cachedSignalings s'.1 = Some (erased m id).
Proof.
  intros Hg Hi Hcb Hreq Hp Hn El Et Hst Hdst.
  assert (wp (CM_RecvSignalingData lcid (Some b)) s (fun r s' => r = CM_SUCCESS /\ settled s' /\
    if es_result rsp =? CM_RESULT_ESTABLISH_SUCCESS then s'.1 = set_dyn n (accept_node (es_dstTcid rsp)) (without m id s.1)
    else ended n s s' /\ g_cachedSignalings s'.1 = Some (erased m id))) as Hw.
  { eapply wp_response; [apply Hg|done..|]. intros s1 Hu E. pose proof (good_quiet s s1 (conj Hg Hi) Hu) as Hg1.
    pose proof (ud_part _ _ Hu) as EP. unfold chan_part in EP. injection EP as E1 E2 E3 E4.
    eapply wp_mono; [apply (establish_rsp_exact lcid rsp n s1); [done|by rewrite E2|unfold key2; congruence|done|done]|].
    intros [] s2 [Hs2 Hout]. split; [done|]. split; [done|]. case_match; [by rewrite Hout, E|]. destruct Hout as [[HD Hf] Hside].
    split; [split; [rewrite HD; cbn; by rewrite E2|intros pool Hpo; apply Hf; by rewrite E3]|].
    injection Hside as _ ->. by rewrite E. }
  apply wp_run in Hw as (r&s'&Er&->&Hs'&Hout). exists s'. split; [done|]. split; [done|]. split; [|done].
  apply erased_gone. pose proof (bo_cache _ (cg_base _ Hg)) as Hca. destruct Hreq as [Hm _]. by rewrite Hm in Hca.
Qed.

(** A response that answers a request without naming a channel that waits.  In three
    cases: the response to the request under [id] names a local identifier that is not
    dynamic, or one that no dynamic channel of the link has, or it accepts with an
    identifier of the peer that is not dynamic.  Then the request and its timer are gone
    all the same and every channel is as it was: the channel that asked stays in its
    waiting state, and the timeout of its request can no longer occur. *)
Theorem wrong_response_strands lcid id b rsp x m s :
  cm_good s -> in_step s -> g_signalingTransChanCbks s.1 = true ->
  waiting_request s.1 lcid id TC_CONNECT_REQ m -> response_packet b id rsp x ->
  CM_TRANS_CHANNEL_IS_DYNAMIC (es_srcTcid rsp) = false \/
  (es_result rsp = CM_RESULT_ESTABLISH_SUCCESS /\ CM_TRANS_CHANNEL_IS_DYNAMIC (es_dstTcid rsp) = false) \/
  (forall n, n ∈ D s -> tl_lcid n = lcid -> tl_local n <> es_srcTcid rsp) ->
  exists s', CM_RecvSignalingData lcid (Some b) s = Some (CM_SUCCESS, s') /\ settled s' /\ s'.1 = without m id s.1 /\
    ~ waits id s'.1 /\ forall n, n ∈ D s -> n ∈ D s'.
Proof.
  intros Hg Hi Hcb Hreq Hp Hwrong.
  assert (wp (CM_RecvSignalingData lcid (Some b)) s (fun r s' => r = CM_SUCCESS /\ settled s' /\ s'.1 = without m id s.1)) as Hw.
  { eapply wp_response; [apply Hg|done..|]. intros s1 Hu E. pose proof (good_quiet s s1 (conj Hg Hi) Hu) as Hg1.
    assert (forall s2, s2 = s1 -> CM_SUCCESS = CM_SUCCESS /\ settled s2 /\ s2.1 = without m id s.1) as Hend by (intros s2 ->; split_and!; [done|by apply good_settled|done]).
    unfold CM_DynTransChannelEstablishRspCbk. destruct (CM_TRANS_CHANNEL_IS_DYNAMIC (es_srcTcid rsp)) eqn:Hd; cbn [negb]; [|by apply wp_ret, Hend].
    case_match eqn:Hr; [by apply wp_ret, Hend|]. apply wp_bind, wp_find_local; [by apply dynamic_not_fixed|by apply wp_ret, Hend|].
    intros n Hn [= E1 E2]. exfalso. destruct Hwrong as [?|[[H1 H2]|Hno]]; [done|by rewrite H1, H2 in Hr|].
    apply (Hno n); [|done|done]. by rewrite E in Hn. }
  apply wp_run in Hw as (r&s'&Er&->&Hs'&E). exists s'. split; [done|]. split; [done|]. split; [done|]. split; [|by rewrite E].
  intros (m'&e&Hm'&He). rewrite E in Hm'. injection Hm' as <-. rewrite erased_gone in He; [done|].
  pose proof (bo_cache _ (cg_base _ Hg)) as Hca. destruct Hreq as [Hm _]. by rewrite Hm in Hca.
Qed.
(** C6. The timeout of a request.  When the response does not come, the channel [n] that
    waits is removed and its identifier is free again, and the request leaves the cache, so
    that its timer cannot end it twice. *)
Theorem establish_timeout_ends id m e a n s :
  cm_good s -> in_step s -> g_signalingTransChanCbks s.1 = true ->
  g_cachedSignalings s.1 = Some m -> SDF_MapFind CM_SignalingCacheCompare m id = Some e ->
  cs_cbk (snd e) = Some CM_SignalingTransChanEstablishReqTimeout_cbk -> cs_args (snd e) = Some a ->
  n ∈ D s -> tl_lcid n = ta_lcid a -> tl_local n = ta_srcTcid a -> tl_state n = CM_TRANS_CHANNEL_STATE_ACTIVATING ->
  exists s', CM_SignalingTimeoutCbkInner id s = Some (tt, s') /\ settled s' /\ ended n s s' /\
    (forall k, k ∈ D s' -> key2 k <> key2 n) /\ ~ waits id s'.1.
Proof.
  intros Hg Hi Hcb Hm He Hc Ha Hn El Et Hst.
  assert (wp (CM_SignalingTimeoutCbkInner id) s (fun _ s' => settled s' /\ ended n s s' /\ ~ waits id s'.1)) as Hw.
  { eapply (timeout_exact id m e a n); try done. unfold key2. congruence. }
  apply wp_run in Hw as ([]&s'&E&Hs'&Hen&Hno). exists s'. split; [done|]. split; [done|]. split; [done|]. split; [|done].
  intros k Hk. destruct Hen as [HD _]. rewrite HD in Hk. by eapply removed_no_key; [apply Hg|..].
Qed.
End outcome.

(** The channel and the request that wait in [demo_waiting]. *)
Definition demo_node : SleTransLcid :=
  Eval vm_compute in default (mk_lcid 0 0 (mk_addr 0 []) 0 None 0 0) (head (g_dynTransListHead demo_waiting.1)).
Definition demo_cache : SDF_Map Z CM_CachedSignaling := Eval vm_compute in default (mk_map []) (g_cachedSignalings demo_waiting.1).
Definition demo_request1 : CM_CachedSignaling :=
  Eval vm_compute in default (mk_cached 0 0 0 None 0 None) (snd <$> SDF_MapFind CM_SignalingCacheCompare demo_cache 1).
Definition demo_packet (rsp : CM_SignalingTransChanEstablishRsp) : SDF_Buff :=
  default (mk_buff 0 0 0 []) (demo_answer rsp).

Lemma response_wf src dst : buff_wf (demo_packet (mk_ersp src dst CM_RESULT_ESTABLISH_SUCCESS)).
Proof.
  unfold demo_packet, demo_answer. set (d := establish_rsp_bytes _).
  destruct (create_signaling true TC_CONNECT_RSP 1 d 4) as (o&->&Ho); [by unfold d, establish_rsp_bytes; bytes_solve|done|done|].
  destruct o as [b|]; [|done]. destruct Ho as (_&[Hwf _ _]&_). exact Hwf.
Qed.

Lemma demo_waiting_good : cm_good demo_waiting /\ in_step demo_waiting.
Proof. destruct (reach_settled _ (stack_cm_reach _ waiting_reach)) as [Hg Hi]. split; [exact Hg|exact (Hi benign_suffices)]. Qed.

Lemma establish_response_spec_witness :
  exists s', CM_RecvSignalingData 9 (Some (demo_packet (mk_ersp 0x80 0x90 CM_RESULT_ESTABLISH_SUCCESS))) demo_waiting = Some (CM_SUCCESS, s') /\
    settled s' /\ s'.1 = set_dyn demo_node (accept_node 0x90) (without demo_cache 1 demo_waiting.1).
Proof.
  destruct (establish_response_spec 9 1 (demo_packet (mk_ersp 0x80 0x90 CM_RESULT_ESTABLISH_SUCCESS)) (mk_ersp 0x80 0x90 CM_RESULT_ESTABLISH_SUCCESS) 0
    demo_cache demo_node demo_waiting) as (s'&E&Hs&_&Hout); [exact (proj1 demo_waiting_good)|exact (proj2 demo_waiting_good)| | | | | | | | |].
  - reflexivity.
  - split; [reflexivity|]. exists (1, demo_request1). split_and!; reflexivity.
  - constructor; [apply response_wf|cint|by repeat constructor|vm_compute; reflexivity].
  - by left.
  - reflexivity.
  - reflexivity.
  - reflexivity.
  - intros _. reflexivity.
  - exists s'. split; [exact E|]. split; [exact Hs|exact Hout].
Defined.

(** A response to the same request that names the channel 0x81. *)
Lemma wrong_response_strands_witness :
  exists s', CM_RecvSignalingData 9 (Some (demo_packet (mk_ersp 0x81 0x90 CM_RESULT_ESTABLISH_SUCCESS))) demo_waiting = Some (CM_SUCCESS, s') /\
    ~ waits 1 s'.1 /\ demo_node ∈ g_dynTransListHead s'.1 /\ tl_state demo_node = CM_TRANS_CHANNEL_STATE_ACTIVATING.
Proof.
  destruct (wrong_response_strands 9 1 (demo_packet (mk_ersp 0x81 0x90 CM_RESULT_ESTABLISH_SUCCESS)) (mk_ersp 0x81 0x90 CM_RESULT_ESTABLISH_SUCCESS) 0
    demo_cache demo_waiting) as (s'&E&_&_&Hno&Hin); [exact (proj1 demo_waiting_good)|exact (proj2 demo_waiting_good)| | | | |].
  - reflexivity.
  - split; [reflexivity|]. exists (1, demo_request1). split_and!; reflexivity.
  - constructor; [apply response_wf|cint|by repeat constructor|vm_compute; reflexivity].
  - right. right. intros n Hn _. apply list_elem_of_singleton in Hn. subst n. discriminate.
  - exists s'. split; [exact E|]. split; [exact Hno|]. split; [apply Hin; by left|reflexivity].
Defined.

Lemma establish_timeout_ends_witness :
  exists s', CM_SignalingTimeoutCbkInner 1 demo_waiting = Some (tt, s') /\ ended demo_node demo_waiting s' /\ ~ waits 1 s'.1.
Proof.
  destruct (establish_timeout_ends 1 demo_cache (1, demo_request1) (mk_args 9 0x80 0) demo_node demo_waiting) as (s'&E&_&He&_&Hno);
    [exact (proj1 demo_waiting_good)|exact (proj2 demo_waiting_good)|reflexivity|reflexivity|reflexivity|reflexivity|reflexivity|by left|reflexivity|reflexivity|reflexivity|].
  exists s'. split; [exact E|]. split; [exact He|exact Hno].
Defined.
