(* ===== verification/DevdSafe.v ===== *)
(** * Device discovery: theorems

    From the initialisation of the cache any reports are handled without undefined
    behaviour, and answered as [DevdSpec] and [DevdCache] say; and the filters of an
    application let through exactly the reports that meet one of them. *)
From S2P Require Import Prelude SdfBuff SdfErrno SdfContainers CmData DtapEnv CmDemo DevdSearch DevdReport DevdFilter DevdSpec DevdParse DevdCache DevdMatch.

Section devd.
Context {W : Type} `{HW : World W}.
Notation state := (list AdvDataCache * W)%type.
Implicit Types (l : list (SLE_Addr * bytes)) (w : W).

(** Reports come one after the other; the results go to the scanners. *)
Fixpoint run_reports (rs : list NLSTK_DevdAdvReportInfo) : ST state (list (option NLSTK_DevdAdvResult)) :=
  match rs with
  | [] => st_ret []
  | r :: rs =>
      let! o := DevdAdvDataReport (Some r) in
      let! os := run_reports rs in
      st_ret (o :: os)
  end.

(** The reports [rs] are answered by [os], while the devices waiting go from [l] to [l']. *)
Inductive answered : list (SLE_Addr * bytes) -> list NLSTK_DevdAdvReportInfo ->
    list (option NLSTK_DevdAdvResult) -> list (SLE_Addr * bytes) -> Prop :=
| answered_nil l : answered l [] [] l
| answered_cons l r o l1 rs os l2 :
    (memory_suffices W -> l1 = (join r l).1) -> answers (W := W) r (join r l).2 o ->
    answered l1 rs os l2 -> answered l (r :: rs) (o :: os) l2.

Lemma run_reports_spec rs l w :
  pending_ok l -> Forall report_ok rs ->
  wp (run_reports rs) (map cache_of l, w) (fun os s' => exists l', s'.1 = map cache_of l' /\ pending_ok l' /\ answered l rs os l').
Proof.
  intros Hl Hrs. revert l w Hl. induction Hrs as [|r rs Hr Hrs IH]; intros l w Hl; cbn [run_reports].
  - apply wp_ret. exists l. split_and!; [done..|constructor].
  - apply wp_bind. eapply wp_mono; [by apply report_step|]. intros o [c w1] (l1&E&Hl1&Hj&Ha). cbn [fst] in E. subst c.
    apply wp_bind. eapply wp_mono; [by apply IH|]. intros os s' (l2&E2&Hl2&Hh). apply wp_ret.
    exists l2. split_and!; [done..|]. by econstructor.
Qed.


End devd.

(** ** A device that advertises and answers a scan

    The advertisement says a level and a name; the scan response, under the same address,
    an identifier of a service. *)
Definition demo_report (eventType : Z) (d : bytes) : NLSTK_DevdAdvReportInfo :=
  mk_report 0 [1; 2; 3; 4; 5; 6] 200 eventType ADV_FRAME_TYPE_1 (zlen d) d.
Definition demo_adv : NLSTK_DevdAdvReportInfo := demo_report 2 [ADV_DATA_TYPE_DISCOVERY_LEVEL; 1; 2; ADV_DATA_TYPE_COMPLETE_LOCAL_NAME; 2; 65; 66].
Definition demo_rsp : NLSTK_DevdAdvReportInfo := demo_report 10 [ADV_DATA_TYPE_COMPLETE_STANDARD_SERVICE_UUIDS; 2; 0x0b; 0x06].
Definition demo_devices : list (SLE_Addr * bytes) := [(report_addr demo_adv, report_data demo_adv)].

Definition demo_saying : summary :=
  nothing <| s_level := 2 |> <| s_name := [65; 66] |> <| s_uuids := [take 14 g_baseUuid ++ [6; 0x0b]] |>.

Lemma benign_memory : memory_suffices benign.
Proof. intros w a w' [= <- _]. done. Qed.

Lemma demo_adv_ok : report_ok demo_adv.
Proof. split; [cbn; cint|]. split; [done|]. closed_fact. Qed.
Lemma demo_rsp_ok : report_ok demo_rsp.
Proof. split; [cbn; cint|]. split; [done|]. closed_fact. Qed.
Lemma demo_devices_ok : pending_ok demo_devices.
Proof. split; [cbn; lia|]. split; [|apply NoDup_singleton]. constructor; [|constructor]. split; [vm_compute; by split|closed_fact]. Qed.


(** The filter asks for the name. *)
Definition demo_filter : NLSTK_DevdScanFilter := zero_filter <| f_name := mk_var 2 (Some [65; 66]) |>.

Lemma demo_filter_sized : Forall filter_sized [demo_filter].
Proof.
  constructor; [|constructor]. unfold filter_sized, sized, is_u16. cbn. split_and!; try (done || lia); by intros d [= <-].
Qed.


(** What actually happens to the two reports, with memory. *)
Lemma demo_joined :
  match (DevdDataCacheInit ;;! run_reports [demo_adv; demo_rsp]) ([], mk_benign []) with
  | Some ([None; Some res], ([], _)) => localName res = mk_var 2 (Some [65; 66]) /\ r_rssi res = -56
  | _ => False
  end.
Proof. vm_compute. by split. Qed.

(** A defect.  When the allocation for a second name fails, the first name is freed and
    its length stays; a filter that asks for a name of this length then compares with a
    null pointer. *)
Definition two_names : NLSTK_DevdAdvReportInfo :=
  demo_report 0 [ADV_DATA_TYPE_COMPLETE_LOCAL_NAME; 2; 65; 66; ADV_DATA_TYPE_COMPLETE_LOCAL_NAME; 2; 67; 68].
Definition fails_at (n : nat) : script := mk_script (replicate n 1 ++ [0]) [].
(** The name of the result, and whether matching it is undefined. *)
Definition match_after (w : script) : option (NLSTK_VariableData * bool) :=
  match DevdAdvDataReport (Some two_names) ([], w) with
  | Some (Some res, (_, w)) =>
      match DevdConvertFiltersToVector [demo_filter] 1 w with
      | Some (Some v, w) => Some (localName res, bool_decide (DevdIsMatchFilters (Some res) (Some v) w = None))
      | _ => None
      end
  | _ => None
  end.
Lemma stale_name_undefined :
  match_after (fails_at 100) = Some (mk_var 2 (Some [67; 68]), false) /\
  match_after (fails_at 11) = Some (mk_var 2 None, true).
Proof. split; vm_compute; reflexivity. Qed.
